(* ===== verification/_CoqProject ===== *)
-Q . S2P
Prelude.v
CLayout.v
VmlinuxX86.v
VmlinuxArm64.v
VmlinuxRiscv.v
VmlinuxLoongarch.v
RustStr.v
Paths.v
Process.v
BpfProg.v
BpfSteps.v
BpfMonitor.v
CoreFixes.v
Pointers.v
CpuSet.v
Config.v
Json.v
LruCache.v
RuleData.v
RuleSet.v
RuleTypes.v
Worker.v
Kernel.v
Syscalls.v
Priority.v
Affinity.v
Netlink.v
Procfs.v
Files.v
CgroupManager.v
LinuxState.v
Mounts.v
CgroupResolver.v
Cgroups.v
Platform.v
Binary64.v
Topology.v
X3d.v
Ipc.v
Daemon.v
Runtime.v
Systemd.v
ProcessInfo.v
Memstats.v
Shutdown.v
Console.v
Cli.v
Dump.v
Reports.v
Monitors.v
