(* ===== verification/Prelude.v ===== *)
(** * ananicy-rs: a verification development

    ananicy-rs is a daemon that watches processes start and gives each one the
    scheduling settings a rule file asks for: nice, latency nice, scheduling
    policy, I/O class, OOM score, cgroup and CPU affinity.

    ** The program's parts and how they interact

    A monitor learns of processes and sends them to the worker over a channel.
    There are three: a BPF program attached to the exec and fork tracepoints
    (crates/ananicy-bpf/bpf) with its user-space half (crates/ananicy-bpf/src),
    a listener on the kernel's process connector (netlink.rs), and a full scan of
    /proc (procfs.rs).  The worker (crates/ananicy-core/src/worker.rs) resolves the
    name, asks the rule engine (rules.rs) for the rule, and applies every attribute
    the configuration (config.rs) enables through the platform
    (crates/ananicy-platform), which makes the system calls.  A rule may name CPUs
    by an alias of the detected topology (topology.rs, x3d.rs) or by a list
    (cpuset.rs).  Cgroups are found by mounts.rs, managed by cgroup/manager.rs
    within the root the daemon was delegated (cgroup/ownership.rs), and looked up
    per process by cgroup/process.rs; lib.rs puts all of it behind the worker's
    trait.  The daemon (src) starts once (ipc.rs), loads configuration and rules
    (startup.rs), creates the cgroups of the rules (runtime.rs), and reloads on
    [SIGUSR1] (signals.rs).

    ** The files, in the order they depend on each other

    - [Prelude]: machine integers, little-endian bytes, the tactics [zb] and
      [cases_if] and the hint database [ananicy].
    - [CLayout]: C types, their sizes and alignments, struct layout with bit-fields.
    - [VmlinuxX86], [VmlinuxArm64], [VmlinuxRiscv], [VmlinuxLoongarch]: the
      declarations of the four generated kernel headers that the program starts from,
      those one or two pointers further, and the types they hold by value, one
      definition per declaration.
    - [RustStr]: what the sources use of Rust's strings and number parsing, on bytes.
    - [Paths]: std::path on such strings: components, prefixes, push and parent.
    - [Process]: process.rs and types.rs.
    - [BpfProg]: ananicy_cpp.bpf.c.  The state is the two handlers' static
      variables, the scratch record of each CPU and the perf ring of each CPU;
      [handle_event], [handle_exec] and [handle_fork] are the functions of the same
      names, and [run] enters them one after the other.
    - [BpfSteps]: the same handlers on several CPUs at once, one access to the shared
      statics at a time; [go] is the next access of a handler and [cstep] a step of
      the machine.  A handler that runs alone is that of [BpfProg].
    - [BpfMonitor]: bpf_monitor.rs, from a sample's bytes to a process; the rings are
      read in any order.
    - [CoreFixes]: core_fixes.bpf.h over the layouts of the four headers; the
      relocation libbpf performs is the class [CoreLaws].
    - [Pointers]: reads through several pointers, as the accessors make them.
    - [CpuSet]: cpuset.rs.
    - [Config]: config.rs, parsing, printing, first start and reload.
    - [Json]: the JSON values of serde_json and RFC 7396 merge.
    - [LruCache]: the interface of the lru crate, its laws and an implementation.
    - [RuleData]: the first half of rules.rs, the name table and one rule.
    - [RuleSet]: the second half, loading, inheritance, matching, the cache and
      the shared, replaceable set.
    - [RuleTypes]: the machine types of a rule's fields as a theorem.
    - [Worker]: worker.rs.  The platform is the class [PlatformActions], as it is a
      trait in the source; the client's theorems hold for every instance.
    - [Kernel]: the abi modules and the class [Kernel] of the system calls, with an
      instance that records them.
    - [Syscalls]: the wrappers of abi down to return values, errno and the bytes of
      structs; the C library is the class [Libc], about which nothing is assumed, and
      [uapi_attr] the layout of the kernel's own declaration.
    - [Priority], [Affinity]: priority.rs and abi/affinity.rs.
    - [Netlink]: netlink.rs from the received messages on.
    - [Procfs]: procfs.rs.  A look-up of a name reads /proc when it starts, when it
      tries exe and when it stores the failure, and may find three different ones.
    - [Files]: the class [Files] of what the platform asks of the file system and
      the clock, an instance that records every request in a trace, the monad [io]
      and the program logic over it ([triple], [safe], the class [Logs]).
    - [CgroupManager]: cgroup/ownership.rs and cgroup/manager.rs.
    - [LinuxState]: the platform's statics beside the state of the system.
    - [Mounts]: mounts.rs.  [CgroupResolver]: cgroup/process.rs.
      [Cgroups]: cgroups.rs.
    - [Platform]: lib.rs, the instance of [PlatformActions] on Linux, and the
      worker composed with it.
    - [Binary64]: executable double precision, with the exactness lemmas the
      comparisons of the topology rest on.
    - [Topology]: topology.rs.  [X3d]: x3d.rs with the mode switch of startup.rs
      and monitor.rs.
    - [Ipc]: ipc.rs as a state machine: a program counter per process between two
      system calls, and a step relation that interleaves any number of them.
    - [Daemon]: startup.rs, the cgroups of runtime.rs and the reload of signals.rs.
    - [Runtime]: the run of runtime.rs with the loops of monitor.rs and of the
      manual scanner; a monitor that listens and the join of the worker may not
      return.
    - [Systemd]: systemd.rs with the request of cli.rs, and service.rs.
    - [ProcessInfo]: process_info.rs.
    - [Memstats]: both memstats.rs, on [Binary64], and disks.rs.
    - [Shutdown]: the threads of the daemon with the worker's channel and the
      shutdown flag: a program counter each, and [exec_thread] for one step of one.
    - [Console]: what is printed and logged: the logging of startup.rs and signals.rs,
      the diagnostics of config.rs, panics.rs, and the spawn error of the core crate.
      Standard output and the tracing crates are the class [Console], with laws over
      what can be seen of a process; the formatter of the log writes where it is told
      to, standard output included.
    - [Cli]: cli.rs and main.rs; bpaf is the class [Bpaf], and what main asks of the
      other parts is the class [MainOps].
    - [Dump]: the values dump.rs and debug.rs report.
    - [Reports]: dump.rs and debug.rs with all they print, the unit name of service.rs,
      and main on a [Console].
    - [Monitors]: how the two monitors are set up and taken down, and build.rs.

    Definitions keep the names of the source.  A loop of the source is a [Fixpoint]
    over what it iterates on, or a [foldl]; shared state is passed explicitly; a
    panic or an error is [None] or the right of a sum.  Events, file contents and
    answers of the kernel are arguments, so a theorem holds for all of them.

    ** What the theorems show

    - The BPF handlers, on any number of CPUs, refine a sampler that looks first and
      remembers later, and a plain one as long as they do not overlap; a report
      remembered while no other handler is in flight keeps later ones at a distance;
      a record written in C is the record read in Rust on each of the four targets;
      what the worker receives is what was reported, ring by ring.
    - The headers' structs are laid out without overlap and every member access
      stays inside; the accessors return the stored value on old and new kernels, by
      following pointers whose targets the headers declare.
    - CPU sets are finite sets and print and parse back; a configuration survives
      being written and read.
    - Loading rules implements an abstract set of last definitions with inheritance
      by RFC 7396 merge; the cache and the order of the directory walk are
      invisible; exact names beat patterns; a reader keeps its snapshot.
    - The worker tries exactly what rule and configuration ask, acts only on pids
      it received and writes weights in range; the setters reach every thread and
      report faithfully; an affinity never leaves the rule's set.
    - Every rule handed out is well typed: no number leaves the range of its field.
    - The worker on Linux, end to end: its system calls are for received processes
      and their threads, and its writes stay in the delegated cgroup root.  The
      cgroup operations, and a reload, are confined in the same way for every rule
      file, once a v2 hierarchy is detected; a move is attributed to the process it was meant for; a cached cgroup
      belongs to the process that holds the pid and is less than a second old; the
      hierarchy chosen is the best of the mount table; quotas and shares are exact.
    - A reload leaves the daemon as a restart would; the X3D mode is put back, on
      every way out through the monitors; the run gets to the join of the worker once
      the flag is up, and ends where that returns; manual scans keep their interval.
    - After a terminating signal the daemon ends on every interleaving of its threads,
      and the worker has then received everything that was sent.
    - What main touches is accounted for in every case, the run and the X3D mode only
      when start was asked for and every check passed; it never panics on its command
      line; the reports list the rules in force and lose no thread; the interval asked
      for is the one the BPF program runs with.
    - Standard output carries the answer of a report and nothing else, whatever is
      logged on the way; start-up warns of exactly what it should, its report of the
      settings determines them, and after a reload the filter of the log stands at the
      level the daemon holds.
    - The wrappers of the system calls make the calls [Kernel] stands for, with the
      bytes the kernel's declarations ask for, and tell the errors they get.
    - At most one daemon runs, for every interleaving of starts, reload requests,
      exits and deaths.
    - The netlink filter suppresses only repetitions; the exe-failure budget belongs
      to one process, unless a pid is recycled within a look-up; names and start times are read from /proc as the kernel
      prints them.
    - What a rule sets is what the report of the process shows, but for the level of
      the realtime I/O class; the command in a stat
      line is read whatever it is called.  The memory counters are read as the kernel
      prints them, their movements add up from report to report, and the daemon warns
      exactly when a reading is alarming.  The systemd mode is on exactly when asked
      for or detected outside a scope.
    - The online CPUs are partitioned into nodes and caches, and into tiers by the mean
      of their capacities; an alias denotes its set.

    Some theorems record where the code departs from its documentation or its
    intent: [redefinition_keeps_pattern], [wide_number_wraps],
    [odd_cpu_count_panics], [probe_drops_policy], [v1_name_escapes],
    [init_detects_once], [failed_exit_blocks_restart],
    [removal_race_two_daemons], [figures_truncated], [io_sum_never_zero],
    [benchmark_hangs], [reported_rule], [overlap_defeats_interval] and
    [recycled_pid_inherits].

    ** Bounds and fuel

    The recursions on fuel take it from their input: trimming, word splitting and
    UTF-8 decoding use the length of the text, of which each step consumes a byte,
    and printing a number uses 40 digits, more than any machine width has.  Widths
    are written out with [wrap_u] and [wrap_s] where an operation can exceed them.
    A command of [Ipc] that runs alone finishes within the calls [run_alone] is
    given, as [removal_alone] and the restart theorem show.  The loops of [Runtime]
    restart monitors for as long as it takes; their safety theorem is about every
    amount of fuel, that is, every moment of the run, and [run_ends] gives the amount
    that is enough once the flag is up and the monitors return.  [Shutdown] needs no fuel: its steps decrease a lexicographic
    measure, the distance of the threads from their ends and then the processes still
    to be sent and received; setting up the netlink listener may fail any finite
    number of times, and each drain of the socket is finite.
    The floating-point comparisons of capacities are those of the exact numbers for
    capacities below [2^49] that add up to less than [2^53], which bounds the one
    statement about the tiers.

    ** What is not modelled

    Regular expressions, serde_json's parser, the lru crate, libbpf and the kernel
    are parameters with their documented behaviour as laws, each with an instance
    in a witness.  Log output is modelled in [Console] and where it is the worker's answer.
    Locks are taken not to be poisoned and threads interleave only where a theorem
    says so (the BPF handlers, the shared rules, the singleton, the shutdown); the
    accesses of the BPF handlers are interleaved in the order of the C source, without
    the reorderings a weaker memory model allows.
    Parsing the command line is bpaf, printing JSON serde_json, and quoting a path and
    printing a backtrace the standard library.  Of the kernel headers, which are
    generated, only what two pointers reach is declared.  The log lines of the
    platform layer, get_cache_size of topology.rs, which nothing calls, and the
    counters that exist for the tests are left out.  Starting threads and installing
    signal handlers are calls into libraries and the system; what the threads do
    afterwards is [Shutdown]. *)

From stdpp Require Import base list strings gmap numbers.
From Stdlib Require Import ZArith Lia.

#[global] Open Scope Z_scope.

(** ** Machine integers

    A [w]-bit integer is a [Z]; the wrap-around of an operation is written at
    the place where the source performs it. *)

Definition wrap_u (w z : Z) : Z := z mod 2 ^ w.
Definition wrap_s (w z : Z) : Z := (z + 2 ^ (w - 1)) mod 2 ^ w - 2 ^ (w - 1).

Definition in_u (w z : Z) : Prop := 0 <= z < 2 ^ w.
Definition in_s (w z : Z) : Prop := - 2 ^ (w - 1) <= z < 2 ^ (w - 1).

#[global] Instance in_u_dec w z : Decision (in_u w z).
Proof. unfold in_u. apply _. Defined.
#[global] Instance in_s_dec w z : Decision (in_s w z).
Proof. unfold in_s. apply _. Defined.

Create HintDb ananicy.
Create Rewrite HintDb ananicy.

(** Tactics of the development: [zb] turns the boolean comparisons of a
    definition into propositions for [lia]; [cases_if] splits the conditionals
    in the goal. *)
Ltac zb :=
  repeat match goal with
  | H : (_ <? _) = true |- _ => apply Z.ltb_lt in H
  | H : (_ <? _) = false |- _ => apply Z.ltb_ge in H
  | H : (_ <=? _) = true |- _ => apply Z.leb_le in H
  | H : (_ <=? _) = false |- _ => apply Z.leb_gt in H
  | H : (_ =? _) = true |- _ => apply Z.eqb_eq in H
  | H : (_ =? _) = false |- _ => apply Z.eqb_neq in H
  | H : _ && _ = true |- _ => apply andb_true_iff in H; destruct H
  | H : _ || _ = false |- _ => apply orb_false_iff in H; destruct H
  | H : negb _ = true |- _ => apply negb_true_iff in H
  | H : negb _ = false |- _ => apply negb_false_iff in H
  | |- (_ <? _) = true => apply Z.ltb_lt
  | |- (_ <? _) = false => apply Z.ltb_ge
  | |- (_ <=? _) = true => apply Z.leb_le
  | |- (_ <=? _) = false => apply Z.leb_gt
  | |- (_ =? _) = true => apply Z.eqb_eq
  | |- (_ =? _) = false => apply Z.eqb_neq
  end.

Ltac cases_if :=
  repeat match goal with
  | |- context [if ?b then _ else _] =>
      lazymatch type of b with
      | bool => let E := fresh "E" in destruct b eqn:E
      | _ => case_decide
      end
  end.

Lemma wrap_u_range w z : 0 <= w -> in_u w (wrap_u w z).
Proof. intros Hw. unfold in_u, wrap_u. apply Z.mod_pos_bound. lia. Qed.

Lemma wrap_u_small w z : in_u w z -> wrap_u w z = z.
Proof. unfold in_u, wrap_u. intros H. by apply Z.mod_small. Qed.

Lemma pow2_half w : 0 < w -> 2 ^ w = 2 * 2 ^ (w - 1).
Proof. intros H. rewrite <- Z.pow_succ_r by lia. f_equal. lia. Qed.

Lemma wrap_s_range w z : 0 < w -> in_s w (wrap_s w z).
Proof.
  intros Hw. unfold in_s, wrap_s. pose proof (pow2_half w Hw).
  pose proof (Z.mod_pos_bound (z + 2 ^ (w - 1)) (2 ^ w) ltac:(lia)). lia.
Qed.

Lemma wrap_s_small w z : 0 < w -> in_s w z -> wrap_s w z = z.
Proof.
  unfold in_s, wrap_s. intros Hw H. pose proof (pow2_half w Hw).
  rewrite Z.mod_small; lia.
Qed.

(** Reading a [w]-bit pattern as signed after it was written as unsigned gives
    the signed value back. *)
Lemma wrap_s_wrap_u w z : 0 < w -> wrap_s w (wrap_u w z) = wrap_s w z.
Proof.
  intros Hw. unfold wrap_s, wrap_u. f_equal.
  rewrite Z.add_mod_idemp_l; lia.
Qed.

#[export] Hint Resolve wrap_u_range wrap_s_range : ananicy.

(** ** Little-endian byte strings *)

Fixpoint le_encode (n : nat) (z : Z) : list Z :=
  match n with
  | O => []
  | S n => z mod 256 :: le_encode n (z / 256)
  end.

Fixpoint le_decode (bs : list Z) : Z :=
  match bs with
  | [] => 0
  | b :: bs => b + 256 * le_decode bs
  end.

Definition is_byte (b : Z) : Prop := in_u 8 b.

Lemma length_le_encode n z : length (le_encode n z) = n.
Proof. revert z. induction n; intros; simpl; auto. Qed.

Lemma le_encode_bytes n z : Forall is_byte (le_encode n z).
Proof.
  revert z. induction n; intros; simpl; constructor; auto.
  apply Z.mod_pos_bound. lia.
Qed.

Lemma le_decode_encode n z : le_decode (le_encode n z) = wrap_u (8 * Z.of_nat n) z.
Proof.
  revert z. induction n as [|n IH]; intros; simpl le_decode.
  - unfold wrap_u. simpl. by rewrite Z.mod_1_r.
  - rewrite IH. unfold wrap_u.
    replace (8 * Z.of_nat (S n)) with (8 + 8 * Z.of_nat n) by lia.
    rewrite Z.pow_add_r, Z.rem_mul_r by lia. done.
Qed.

Lemma le_encode_decode bs :
  Forall is_byte bs -> le_encode (length bs) (le_decode bs) = bs.
Proof.
  unfold is_byte, in_u. induction 1 as [|b bs Hb _ IH]; simpl; [done|].
  f_equal.
  - rewrite Z.mul_comm, Z.mod_add by lia. by apply Z.mod_small.
  - rewrite Z.mul_comm, Z.div_add, Z.div_small, Z.add_0_l by lia. done.
Qed.

#[export] Hint Resolve le_encode_bytes : ananicy.
#[export] Hint Rewrite length_le_encode le_decode_encode : ananicy.

(** ** Rounding up to a multiple *)

Definition round_up (z m : Z) : Z := (z + m - 1) / m * m.

Lemma round_up_bounds z m : 0 < m -> z <= round_up z m < z + m.
Proof.
  intros Hm. unfold round_up.
  pose proof (Z.div_mod (z + m - 1) m ltac:(lia)).
  pose proof (Z.mod_pos_bound (z + m - 1) m Hm). lia.
Qed.

Lemma round_up_divide z m : (m | round_up z m).
Proof. unfold round_up. by exists ((z + m - 1) / m). Qed.

Lemma round_up_id z m : 0 < m -> (m | z) -> round_up z m = z.
Proof.
  intros Hm [k ->]. unfold round_up. f_equal.
  replace (k * m + m - 1) with (m - 1 + k * m) by lia.
  rewrite Z.div_add, Z.div_small; lia.
Qed.

#[export] Hint Resolve round_up_divide : ananicy.
