(* ===== verification/CLayout.v ===== *)
(** * Layout of C types

    The C types that [vmlinux.h] declares, as data, with the layout clang gives
    them on the BPF target (LP64, little-endian; the psABI bit-field rules):
    sizes, alignments, the bit position of every member, and the search for a
    member by name through anonymous structs and unions.  The four
    [Vmlinux*.v] files are the declarations of the four headers; [CoreFixes.v]
    reads kernel memory through this layout. *)

From stdpp Require Import base list strings numbers.
From Stdlib Require Import ZArith Lia.
From S2P Require Import Prelude.

(** ** Types *)

Inductive ctype :=
| CInt (bytes : Z) (signed : bool)
| CEnum (bytes : Z) (constants : list (string * Z))
| CPtr (pointee : string)
| CArr (elt : ctype) (n : Z)
| CStruct (packed : bool) (ms : members)
| CUnion (packed : bool) (ms : members)
with members :=
| MNil
| MField (name : string) (t : ctype) (rest : members)
| MBits (name : string) (t : ctype) (width : Z) (rest : members)
| MAnon (t : ctype) (rest : members).

Scheme ctype_mut := Induction for ctype Sort Prop
  with members_mut := Induction for members Sort Prop.
Combined Scheme ctype_members_ind from ctype_mut, members_mut.

(** The notation the header files are written in: a member list reads as the
    struct declaration it translates, one member per line. *)
Declare Scope c_scope.
Delimit Scope c_scope with c.
Abbreviation int_ := CInt.
Abbreviation enum_ := CEnum.
Abbreviation ptr := CPtr.
Abbreviation arr := CArr.
Abbreviation struct_ := CStruct.
Abbreviation union_ := CUnion.
Abbreviation mnil := MNil.
Abbreviation fld := MField.
Abbreviation bits := MBits.
Abbreviation anon := MAnon.
Notation "m ;; rest" := (m rest) (at level 100, rest at level 200, only parsing) : c_scope.

(** ** Alignment and size *)

Fixpoint alignof (t : ctype) : Z :=
  match t with
  | CInt b _ => b
  | CEnum b _ => b
  | CPtr _ => 8
  | CArr e _ => alignof e
  | CStruct packed ms => if packed then 1 else alignof_members ms
  | CUnion packed ms => if packed then 1 else alignof_members ms
  end
with alignof_members (ms : members) : Z :=
  match ms with
  | MNil => 1
  | MField _ t r => Z.max (alignof t) (alignof_members r)
  | MBits n t _ r =>
      (* an unnamed bit-field does not raise the alignment *)
      if String.eqb n "" then alignof_members r
      else Z.max (alignof t) (alignof_members r)
  | MAnon t r => Z.max (alignof t) (alignof_members r)
  end.

(** The bit position at which a member of alignment [a] bytes starts. *)
Definition member_start (packed : bool) (pos a : Z) : Z :=
  round_up pos (if packed then 8 else 8 * a).

(** A bit-field of width [w] in a storage unit of [u] bits: a zero width closes
    the unit, a field that would straddle a unit boundary moves to the next
    one (packed structs straddle). *)
Definition bits_start (packed : bool) (pos u w : Z) : Z :=
  if w =? 0 then round_up pos u
  else if packed then pos
  else if u <? pos mod u + w then round_up pos u
  else pos.

(** [struct_end]: the bit position after the last member laid out from [pos];
    [union_end]: the largest member, in bits. *)
Fixpoint sizeof (t : ctype) : Z :=
  match t with
  | CInt b _ => b
  | CEnum b _ => b
  | CPtr _ => 8
  | CArr e n => n * sizeof e
  | CStruct packed ms =>
      round_up (struct_end packed 0 ms) (8 * (if packed then 1 else alignof_members ms)) / 8
  | CUnion packed ms =>
      round_up (union_end ms) (8 * (if packed then 1 else alignof_members ms)) / 8
  end
with struct_end (packed : bool) (pos : Z) (ms : members) : Z :=
  match ms with
  | MNil => pos
  | MField _ t r =>
      struct_end packed (member_start packed pos (alignof t) + 8 * sizeof t) r
  | MBits _ t w r =>
      struct_end packed (bits_start packed pos (8 * sizeof t) w + w) r
  | MAnon t r =>
      struct_end packed (member_start packed pos (alignof t) + 8 * sizeof t) r
  end
with union_end (ms : members) : Z :=
  match ms with
  | MNil => 0
  | MField _ t r => Z.max (8 * sizeof t) (union_end r)
  | MBits _ _ w r => Z.max w (union_end r)
  | MAnon t r => Z.max (8 * sizeof t) (union_end r)
  end.

(** ** Placed members *)

Record placed := Placed {
  pl_name : string;      (* empty for an anonymous member *)
  pl_start : Z;          (* in bits from the start of the struct *)
  pl_bits : Z;
  pl_align : Z;          (* in bits; 1 for a bit-field *)
}.

Fixpoint struct_layout (packed : bool) (pos : Z) (ms : members) : list placed :=
  match ms with
  | MNil => []
  | MField n t r =>
      let s := member_start packed pos (alignof t) in
      Placed n s (8 * sizeof t) (if packed then 8 else 8 * alignof t)
        :: struct_layout packed (s + 8 * sizeof t) r
  | MBits n t w r =>
      let s := bits_start packed pos (8 * sizeof t) w in
      Placed n s w 1 :: struct_layout packed (s + w) r
  | MAnon t r =>
      let s := member_start packed pos (alignof t) in
      Placed "" s (8 * sizeof t) (if packed then 8 else 8 * alignof t)
        :: struct_layout packed (s + 8 * sizeof t) r
  end.

(** The byte members of a type by name, looking through anonymous members, as a
    C member access does: the bit offset from the start of the whole type and
    the member's type.  Bit-fields are not addressable and are not found. *)
Fixpoint find_field (name : string) (t : ctype) : option (Z * ctype) :=
  match t with
  | CStruct packed ms => find_struct name packed 0 ms
  | CUnion _ ms => find_union name ms
  | _ => None
  end
with find_struct (name : string) (packed : bool) (pos : Z) (ms : members)
    : option (Z * ctype) :=
  match ms with
  | MNil => None
  | MField n t r =>
      let s := member_start packed pos (alignof t) in
      if String.eqb n name then Some (s, t)
      else find_struct name packed (s + 8 * sizeof t) r
  | MBits _ t w r =>
      find_struct name packed (bits_start packed pos (8 * sizeof t) w + w) r
  | MAnon t r =>
      let s := member_start packed pos (alignof t) in
      match find_field name t with
      | Some (o, t') => Some (s + o, t')
      | None => find_struct name packed (s + 8 * sizeof t) r
      end
  end
with find_union (name : string) (ms : members) : option (Z * ctype) :=
  match ms with
  | MNil => None
  | MField n t r => if String.eqb n name then Some (0, t) else find_union name r
  | MBits _ _ _ r => find_union name r
  | MAnon t r =>
      match find_field name t with
      | Some (o, t') => Some (o, t')
      | None => find_union name r
      end
  end.

Definition offsetof (name : string) (t : ctype) : option Z :=
  match find_field name t with
  | Some (o, _) => Some (o / 8)
  | None => None
  end.

(** ** Well-formed declarations *)

Definition base_size (b : Z) : bool := existsb (Z.eqb b) [1; 2; 4; 8; 16].

Fixpoint wf_ctype (t : ctype) : bool :=
  match t with
  | CInt b _ => base_size b
  | CEnum b _ => base_size b
  | CPtr _ => true
  | CArr e n => (0 <=? n) && wf_ctype e
  | CStruct _ ms => wf_members ms
  | CUnion _ ms => wf_members ms
  end
with wf_members (ms : members) : bool :=
  match ms with
  | MNil => true
  | MField _ t r => wf_ctype t && wf_members r
  | MBits _ t w r =>
      wf_ctype t && (0 <=? w) && (w <=? 8 * sizeof t) && (0 <? sizeof t) && wf_members r
  | MAnon t r => wf_ctype t && wf_members r
  end.

(** ** Lemmas *)

Lemma base_size_pos b : base_size b = true -> 0 < b.
Proof.
  unfold base_size. simpl. rewrite !orb_true_iff, !Z.eqb_eq. intuition (try lia; done).
Qed.

Lemma member_start_ge p pos a : 0 < a -> pos <= member_start p pos a.
Proof.
  intros Ha. unfold member_start.
  destruct p; apply round_up_bounds; lia.
Qed.

Lemma bits_start_ge p pos u w : 0 < u -> pos <= bits_start p pos u w.
Proof.
  intros Hu. unfold bits_start. pose proof (round_up_bounds pos u Hu).
  cases_if; lia.
Qed.

(** A bit-field never straddles its storage unit, unless the struct is packed. *)
Lemma bits_start_unit pos u w :
  0 < u -> 0 < w <= u -> 0 <= pos ->
  let s := bits_start false pos u w in s / u = (s + w - 1) / u.
Proof.
  intros Hu Hw Hpos s. unfold s, bits_start.
  destruct (w =? 0) eqn:E0; zb; [lia|].
  destruct (u <? pos mod u + w) eqn:E1; zb.
  - destruct (round_up_divide pos u) as [k ->].
    rewrite Z.div_mul by lia.
    replace (k * u + w - 1) with (w - 1 + k * u) by lia.
    rewrite Z.div_add, Z.div_small; lia.
  - pose proof (Z.div_mod pos u ltac:(lia)).
    apply Z.div_unique with (pos mod u + w - 1); [|lia].
    left. pose proof (Z.mod_pos_bound pos u Hu). lia.
Qed.

Section sizes.

Lemma layout_sizes :
  (forall t, wf_ctype t = true -> 0 < alignof t /\ 0 <= sizeof t) /\
  (forall ms, wf_members ms = true ->
     0 < alignof_members ms /\ (forall p pos, pos <= struct_end p pos ms) /\ 0 <= union_end ms).
Proof.
  apply ctype_members_ind; simpl; intros; zb; try (by split_and!; try lia; intros; lia).
  - apply base_size_pos in H. lia.
  - apply base_size_pos in H. lia.
  - destruct H; [done|]. split; [done|]. apply Z.mul_nonneg_nonneg; lia.
  - destruct H as (Ha & He & _); [done|]. split; [by destruct packed|].
    apply Z.div_pos; [|lia].
    etrans; [apply (He packed 0)|].
    apply round_up_bounds. destruct packed; lia.
  - destruct H as (Ha & _ & Hu); [done|]. split; [by destruct packed|].
    apply Z.div_pos; [|lia].
    etrans; [apply Hu|].
    apply round_up_bounds. destruct packed; lia.
  - destruct H, H0 as (? & Hs & ?); try done. split_and!; [lia| |lia].
    intros p pos. etrans; [|apply Hs]. pose proof (member_start_ge p pos (alignof t)). lia.
  - destruct H, H0 as (? & Hs & ?); try done. split_and!; [cases_if; lia| |lia].
    intros p pos. etrans; [|apply Hs].
    pose proof (bits_start_ge p pos (8 * sizeof t) width). lia.
  - destruct H, H0 as (? & Hs & ?); try done. split_and!; [lia| |lia].
    intros p pos. etrans; [|apply Hs]. pose proof (member_start_ge p pos (alignof t)). lia.
Qed.

Lemma alignof_pos t : wf_ctype t = true -> 0 < alignof t.
Proof. intros H. by destruct (proj1 layout_sizes t H). Qed.
Lemma sizeof_nonneg t : wf_ctype t = true -> 0 <= sizeof t.
Proof. intros H. by destruct (proj1 layout_sizes t H). Qed.
Lemma alignof_members_pos ms : wf_members ms = true -> 0 < alignof_members ms.
Proof. intros H. by destruct (proj2 layout_sizes ms H). Qed.
Lemma struct_end_ge p pos ms : wf_members ms = true -> pos <= struct_end p pos ms.
Proof. intros H. by destruct (proj2 layout_sizes ms H) as (_ & ? & _). Qed.

End sizes.

Lemma struct_bits_fit p ms :
  wf_members ms = true -> struct_end p 0 ms <= 8 * sizeof (CStruct p ms).
Proof.
  intros Hwf. simpl. pose proof (alignof_members_pos ms Hwf) as Ha.
  set (m := 8 * (if p then 1 else alignof_members ms)).
  assert (Hm : 0 < m) by (unfold m; destruct p; lia).
  pose proof (round_up_bounds (struct_end p 0 ms) m Hm) as [? _].
  assert ((8 | round_up (struct_end p 0 ms) m)) as [k Hk].
  { etrans; [|apply round_up_divide]. unfold m. apply Z.divide_factor_l. }
  rewrite Hk in *. rewrite Z.div_mul by lia. lia.
Qed.

Lemma union_bits_fit p ms :
  wf_members ms = true -> union_end ms <= 8 * sizeof (CUnion p ms).
Proof.
  intros Hwf. simpl. pose proof (alignof_members_pos ms Hwf) as Ha.
  set (m := 8 * (if p then 1 else alignof_members ms)).
  assert (Hm : 0 < m) by (unfold m; destruct p; lia).
  pose proof (round_up_bounds (union_end ms) m Hm) as [? _].
  assert ((8 | round_up (union_end ms) m)) as [k Hk].
  { etrans; [|apply round_up_divide]. unfold m. apply Z.divide_factor_l. }
  rewrite Hk in *. rewrite Z.div_mul by lia. lia.
Qed.

(** Members are laid out in order, each after the end of the one before it,
    each at a multiple of its alignment. *)
Inductive in_order : Z -> Z -> list placed -> Prop :=
| in_order_nil pos e : pos <= e -> in_order pos e []
| in_order_cons pos e p ps :
    pos <= pl_start p -> 0 <= pl_bits p -> (pl_align p | pl_start p) ->
    in_order (pl_start p + pl_bits p) e ps ->
    in_order pos e (p :: ps).
#[export] Hint Constructors in_order : ananicy.

Lemma in_order_weaken pos pos' e e' ps :
  in_order pos e ps -> pos' <= pos -> e <= e' -> in_order pos' e' ps.
Proof.
  intros H. revert pos'. induction H; intros pos' ??.
  - constructor. lia.
  - constructor; [lia|done|done|]. apply IHin_order; lia.
Qed.

Lemma struct_layout_in_order p pos ms :
  wf_members ms = true -> in_order pos (struct_end p pos ms) (struct_layout p pos ms).
Proof.
  revert pos. induction ms as [|n t ms IH|n t w ms IH|t ms IH]; intros pos Hwf; simpl in *; zb.
  - by constructor.
  - pose proof (alignof_pos t ltac:(done)). pose proof (sizeof_nonneg t ltac:(done)).
    constructor; simpl; [by apply member_start_ge|lia| |by apply IH].
    unfold member_start. destruct p; apply round_up_divide.
  - constructor; simpl; [by apply bits_start_ge; lia|lia|apply Z.divide_1_l|by apply IH].
  - pose proof (alignof_pos t ltac:(done)). pose proof (sizeof_nonneg t ltac:(done)).
    constructor; simpl; [by apply member_start_ge|lia| |by apply IH].
    unfold member_start. destruct p; apply round_up_divide.
Qed.

(** Where [find_field] finds a member, the member lies inside the type. *)
Lemma find_in_bounds :
  (forall t, wf_ctype t = true -> forall n o t', find_field n t = Some (o, t') ->
     0 <= o /\ o + 8 * sizeof t' <= 8 * sizeof t /\ wf_ctype t' = true) /\
  (forall ms, wf_members ms = true ->
     (forall n p pos o t', 0 <= pos -> find_struct n p pos ms = Some (o, t') ->
        pos <= o /\ o + 8 * sizeof t' <= struct_end p pos ms /\ wf_ctype t' = true) /\
     (forall n o t', find_union n ms = Some (o, t') ->
        0 <= o /\ o + 8 * sizeof t' <= union_end ms /\ wf_ctype t' = true)).
Proof.
  apply ctype_members_ind; try done.
  - intros p ms IH Hwf n o t' Hf. change (wf_members ms = true) in Hwf.
    destruct (proj1 (IH Hwf) _ _ _ _ _ (Z.le_refl 0) Hf) as (? & ? & ?).
    pose proof (struct_bits_fit p ms Hwf). split_and!; [lia..|done].
  - intros p ms IH Hwf n o t' Hf. change (wf_members ms = true) in Hwf.
    destruct (proj2 (IH Hwf) _ _ _ Hf) as (? & ? & ?).
    pose proof (union_bits_fit p ms Hwf). split_and!; [lia..|done].
  - intros nm t _ ms IH Hwf. simpl in Hwf. zb. destruct (IH ltac:(done)) as [IHs IHu].
    pose proof (alignof_pos t ltac:(done)). pose proof (sizeof_nonneg t ltac:(done)).
    split; simpl.
    + intros n p pos o t' Hpos Hf. pose proof (member_start_ge p pos (alignof t)).
      destruct (String.eqb nm n).
      * simplify_eq. split_and!; [lia| |done]. by apply struct_end_ge.
      * apply IHs in Hf as (? & ? & ?); [|lia]. split_and!; [lia..|done].
    + intros n o t' Hf. destruct (String.eqb nm n).
      * simplify_eq. split_and!; [lia..|done].
      * apply IHu in Hf as (? & ? & ?). split_and!; [lia..|done].
  - intros nm t _ w ms IH Hwf. simpl in Hwf. zb. destruct (IH ltac:(done)) as [IHs IHu].
    split; simpl.
    + intros n p pos o t' Hpos Hf. pose proof (bits_start_ge p pos (8 * sizeof t) w).
      apply IHs in Hf as (? & ? & ?); [|lia]. split_and!; [lia..|done].
    + intros n o t' Hf. apply IHu in Hf as (? & ? & ?). split_and!; [lia..|done].
  - intros t IHt ms IH Hwf. simpl in Hwf. zb. destruct (IH ltac:(done)) as [IHs IHu].
    pose proof (alignof_pos t ltac:(done)). pose proof (sizeof_nonneg t ltac:(done)).
    split; simpl.
    + intros n p pos o t' Hpos Hf. pose proof (member_start_ge p pos (alignof t)).
      destruct (find_field n t) as [[o1 t1]|] eqn:E.
      * simplify_eq. apply IHt in E as (? & ? & ?); [|done].
        pose proof (struct_end_ge p (member_start p pos (alignof t) + 8 * sizeof t) ms ltac:(done)).
        split_and!; [lia..|done].
      * apply IHs in Hf as (? & ? & ?); [|lia]. split_and!; [lia..|done].
    + intros n o t' Hf. destruct (find_field n t) as [[o1 t1]|] eqn:E.
      * simplify_eq. apply IHt in E as (? & ? & ?); [|done]. split_and!; [lia..|done].
      * apply IHu in Hf as (? & ? & ?). split_and!; [lia..|done].
Qed.
