(* ===== verification/VmlinuxX86.v ===== *)
(** * Kernel types of the x86 build

    The declarations of [bpf/x86/vmlinux.h] that the BPF program and
    [core_fixes.bpf.h] use: the two tracepoint records, [task_struct], [bio],
    [block_device], [request_queue], [gendisk] ([request] is only forward-declared in this header), the integer
    typedefs, every struct and union that one or two [->] lead to from there, and
    every type one of them holds by value, in the order of their dependencies.  A
    pointer keeps only the spelling of its pointee;
    [const] and [volatile] do not change a layout and are left out. *)

From stdpp Require Import base list strings numbers.
From Stdlib Require Import ZArith.
From S2P Require Import Prelude CLayout.

#[local] Open Scope c_scope.

Definition struct_trace_entry : ctype :=
  struct_ false (
    fld "type" (int_ 2 false) ;;
    fld "flags" (int_ 1 false) ;;
    fld "preempt_count" (int_ 1 false) ;;
    fld "pid" (int_ 4 true) ;;
    mnil).

Definition ty___u32 : ctype :=
  int_ 4 false.

Definition ty_u32 : ctype :=
  ty___u32.

Definition ty___kernel_pid_t : ctype :=
  int_ 4 true.

Definition ty_pid_t : ctype :=
  ty___kernel_pid_t.

Definition struct_trace_event_raw_sched_process_exec : ctype :=
  struct_ false (
    fld "ent" struct_trace_entry ;;
    fld "__data_loc_filename" ty_u32 ;;
    fld "pid" ty_pid_t ;;
    fld "old_pid" ty_pid_t ;;
    fld "__data" (arr (int_ 1 true) 0) ;;
    mnil).

Definition struct_trace_event_raw_sched_process_fork : ctype :=
  struct_ false (
    fld "ent" struct_trace_entry ;;
    fld "parent_comm" (arr (int_ 1 true) 16) ;;
    fld "parent_pid" ty_pid_t ;;
    fld "child_comm" (arr (int_ 1 true) 16) ;;
    fld "child_pid" ty_pid_t ;;
    fld "__data" (arr (int_ 1 true) 0) ;;
    mnil).

Definition struct_thread_info : ctype :=
  struct_ false (
    fld "flags" (int_ 8 false) ;;
    fld "syscall_work" (int_ 8 false) ;;
    fld "status" ty_u32 ;;
    mnil).

Definition ty_atomic_t : ctype :=
  struct_ false (
    fld "counter" (int_ 4 true) ;;
    mnil).

Definition struct_refcount_struct : ctype :=
  struct_ false (
    fld "refs" ty_atomic_t ;;
    mnil).

Definition ty_refcount_t : ctype :=
  struct_refcount_struct.

Definition struct_load_weight : ctype :=
  struct_ false (
    fld "weight" (int_ 8 false) ;;
    fld "inv_weight" ty_u32 ;;
    mnil).

Definition struct_rb_node : ctype :=
  struct_ false (
    fld "__rb_parent_color" (int_ 8 false) ;;
    fld "rb_right" (ptr "struct rb_node") ;;
    fld "rb_left" (ptr "struct rb_node") ;;
    mnil).

Definition struct_list_head : ctype :=
  struct_ false (
    fld "next" (ptr "struct list_head") ;;
    fld "prev" (ptr "struct list_head") ;;
    mnil).

Definition ty___u64 : ctype :=
  int_ 8 false.

Definition ty_u64 : ctype :=
  ty___u64.

Definition struct_sched_entity : ctype :=
  struct_ false (
    fld "load" struct_load_weight ;;
    fld "run_node" struct_rb_node ;;
    fld "group_node" struct_list_head ;;
    fld "on_rq" (int_ 4 false) ;;
    fld "exec_start" ty_u64 ;;
    fld "sum_exec_runtime" ty_u64 ;;
    fld "vruntime" ty_u64 ;;
    fld "prev_sum_exec_runtime" ty_u64 ;;
    fld "nr_migrations" ty_u64 ;;
    mnil).

Definition struct_sched_rt_entity : ctype :=
  struct_ false (
    fld "run_list" struct_list_head ;;
    fld "timeout" (int_ 8 false) ;;
    fld "watchdog_stamp" (int_ 8 false) ;;
    fld "time_slice" (int_ 4 false) ;;
    fld "on_rq" (int_ 2 false) ;;
    fld "on_list" (int_ 2 false) ;;
    fld "back" (ptr "struct sched_rt_entity") ;;
    mnil).

Definition ty___s64 : ctype :=
  int_ 8 true.

Definition ty_s64 : ctype :=
  ty___s64.

Definition ty_ktime_t : ctype :=
  ty_s64.

Definition struct_timerqueue_node : ctype :=
  struct_ false (
    fld "node" struct_rb_node ;;
    fld "expires" ty_ktime_t ;;
    mnil).

Definition ty___u8 : ctype :=
  int_ 1 false.

Definition ty_u8 : ctype :=
  ty___u8.

Definition struct_hrtimer : ctype :=
  struct_ false (
    fld "node" struct_timerqueue_node ;;
    fld "_softexpires" ty_ktime_t ;;
    fld "function" (ptr "function") ;;
    fld "base" (ptr "struct hrtimer_clock_base") ;;
    fld "state" ty_u8 ;;
    fld "is_rel" ty_u8 ;;
    fld "is_soft" ty_u8 ;;
    fld "is_hard" ty_u8 ;;
    mnil).

Definition struct_sched_dl_entity : ctype :=
  struct_ false (
    fld "rb_node" struct_rb_node ;;
    fld "dl_runtime" ty_u64 ;;
    fld "dl_deadline" ty_u64 ;;
    fld "dl_period" ty_u64 ;;
    fld "dl_bw" ty_u64 ;;
    fld "dl_density" ty_u64 ;;
    fld "runtime" ty_s64 ;;
    fld "deadline" ty_u64 ;;
    fld "flags" (int_ 4 false) ;;
    bits "dl_throttled" (int_ 4 false) 1 ;;
    bits "dl_yielded" (int_ 4 false) 1 ;;
    bits "dl_non_contending" (int_ 4 false) 1 ;;
    bits "dl_overrun" (int_ 4 false) 1 ;;
    fld "dl_timer" struct_hrtimer ;;
    fld "inactive_timer" struct_hrtimer ;;
    mnil).

Definition struct_sched_statistics : ctype :=
  struct_ false (
    mnil).

Definition struct_cpumask : ctype :=
  struct_ false (
    fld "bits" (arr (int_ 8 false) 1) ;;
    mnil).

Definition ty_cpumask_t : ctype :=
  struct_cpumask.

Definition union_rcu_special : ctype :=
  union_ false (
    fld "b" (struct_ false (
      fld "blocked" ty_u8 ;;
      fld "need_qs" ty_u8 ;;
      fld "exp_hint" ty_u8 ;;
      fld "need_mb" ty_u8 ;;
      mnil)) ;;
    fld "s" ty_u32 ;;
    mnil).

Definition struct_sched_info : ctype :=
  struct_ false (
    mnil).

Definition struct_vmacache : ctype :=
  struct_ false (
    fld "seqnum" ty_u64 ;;
    fld "vmas" (arr (ptr "struct vm_area_struct") 4) ;;
    mnil).

Definition ty___kernel_clockid_t : ctype :=
  int_ 4 true.

Definition ty_clockid_t : ctype :=
  ty___kernel_clockid_t.

Definition enum_timespec_type : ctype :=
  enum_ 4 [("TT_NONE", 0); ("TT_NATIVE", 1); ("TT_COMPAT", 2)].

Definition struct_restart_block : ctype :=
  struct_ false (
    fld "arch_data" (int_ 8 false) ;;
    fld "fn" (ptr "function") ;;
    anon (union_ false (
      fld "futex" (struct_ false (
        fld "uaddr" (ptr "u32") ;;
        fld "val" ty_u32 ;;
        fld "flags" ty_u32 ;;
        fld "bitset" ty_u32 ;;
        fld "time" ty_u64 ;;
        fld "uaddr2" (ptr "u32") ;;
        mnil)) ;;
      fld "nanosleep" (struct_ false (
        fld "clockid" ty_clockid_t ;;
        fld "type" enum_timespec_type ;;
        anon (union_ false (
          fld "rmtp" (ptr "struct __kernel_timespec") ;;
          fld "compat_rmtp" (ptr "struct old_timespec32") ;;
          mnil)) ;;
        fld "expires" ty_u64 ;;
        mnil)) ;;
      fld "poll" (struct_ false (
        fld "ufds" (ptr "struct pollfd") ;;
        fld "nfds" (int_ 4 true) ;;
        fld "has_timeout" (int_ 4 true) ;;
        fld "tv_sec" (int_ 8 false) ;;
        fld "tv_nsec" (int_ 8 false) ;;
        mnil)) ;;
      mnil)) ;;
    mnil).

Definition struct_hlist_node : ctype :=
  struct_ false (
    fld "next" (ptr "struct hlist_node") ;;
    fld "pprev" (ptr "struct hlist_node *") ;;
    mnil).

Definition ty_arch_spinlock_t : ctype :=
  struct_ false (
    mnil).

Definition struct_raw_spinlock : ctype :=
  struct_ false (
    fld "raw_lock" ty_arch_spinlock_t ;;
    mnil).

Definition ty_raw_spinlock_t : ctype :=
  struct_raw_spinlock.

Definition struct_prev_cputime : ctype :=
  struct_ false (
    fld "utime" ty_u64 ;;
    fld "stime" ty_u64 ;;
    fld "lock" ty_raw_spinlock_t ;;
    mnil).

Definition struct_posix_cputimers : ctype :=
  struct_ false (
    mnil).

Definition ty_sigset_t : ctype :=
  struct_ false (
    fld "sig" (arr (int_ 8 false) 2) ;;
    mnil).

Definition struct_sigpending : ctype :=
  struct_ false (
    fld "list" struct_list_head ;;
    fld "signal" ty_sigset_t ;;
    mnil).

Definition ty___kernel_size_t : ctype :=
  int_ 4 false.

Definition ty_size_t : ctype :=
  ty___kernel_size_t.

Definition struct_seccomp : ctype :=
  struct_ false (
    mnil).

Definition ty_bool : ctype :=
  int_ 1 false.

Definition struct_syscall_user_dispatch : ctype :=
  struct_ false (
    fld "selector" (ptr "char") ;;
    fld "offset" (int_ 8 false) ;;
    fld "len" (int_ 8 false) ;;
    fld "on_dispatch" ty_bool ;;
    mnil).

Definition struct_spinlock : ctype :=
  struct_ false (
    anon (union_ false (
      fld "rlock" struct_raw_spinlock ;;
      mnil)) ;;
    mnil).

Definition ty_spinlock_t : ctype :=
  struct_spinlock.

Definition struct_wake_q_node : ctype :=
  struct_ false (
    fld "next" (ptr "struct wake_q_node") ;;
    mnil).

Definition struct_task_io_accounting : ctype :=
  struct_ false (
    mnil).

Definition ty_atomic_long_t : ctype :=
  ty_atomic_t.

Definition struct_mutex : ctype :=
  struct_ false (
    fld "owner" ty_atomic_long_t ;;
    fld "wait_lock" ty_raw_spinlock_t ;;
    fld "wait_list" struct_list_head ;;
    mnil).

Definition struct_arch_tlbflush_unmap_batch : ctype :=
  struct_ false (
    fld "cpumask" struct_cpumask ;;
    mnil).

Definition struct_tlbflush_unmap_batch : ctype :=
  struct_ false (
    fld "arch" struct_arch_tlbflush_unmap_batch ;;
    fld "flush_required" ty_bool ;;
    fld "writable" ty_bool ;;
    mnil).

Definition struct_callback_head : ctype :=
  struct_ false (
    fld "next" (ptr "struct callback_head") ;;
    fld "func" (ptr "function") ;;
    mnil).

Definition ty___u16 : ctype :=
  int_ 2 false.

Definition struct_page_frag : ctype :=
  struct_ false (
    fld "page" (ptr "struct page") ;;
    fld "offset" ty___u16 ;;
    fld "size" ty___u16 ;;
    mnil).

Definition ty_pteval_t : ctype :=
  int_ 8 false.

Definition ty_pte_t : ctype :=
  union_ false (
    fld "pte" ty_pteval_t ;;
    fld "pte_low" ty_pteval_t ;;
    mnil).

Definition struct_kmap_ctrl : ctype :=
  struct_ false (
    fld "idx" (int_ 4 true) ;;
    fld "pteval" (arr ty_pte_t 16) ;;
    mnil).

Definition struct_timer_list : ctype :=
  struct_ false (
    fld "entry" struct_hlist_node ;;
    fld "expires" (int_ 8 false) ;;
    fld "function" (ptr "function") ;;
    fld "flags" ty_u32 ;;
    mnil).

Definition struct_llist_head : ctype :=
  struct_ false (
    fld "first" (ptr "struct llist_node") ;;
    mnil).

Definition ty_u16 : ctype :=
  ty___u16.

Definition struct_desc_struct : ctype :=
  struct_ false (
    fld "limit0" ty_u16 ;;
    fld "base0" ty_u16 ;;
    bits "base1" ty_u16 8 ;;
    bits "type" ty_u16 4 ;;
    bits "s" ty_u16 1 ;;
    bits "dpl" ty_u16 2 ;;
    bits "p" ty_u16 1 ;;
    bits "limit1" ty_u16 4 ;;
    bits "avl" ty_u16 1 ;;
    bits "l" ty_u16 1 ;;
    bits "d" ty_u16 1 ;;
    bits "g" ty_u16 1 ;;
    bits "base2" ty_u16 8 ;;
    mnil).

Definition struct_fpu_state_perm : ctype :=
  struct_ false (
    fld "__state_perm" ty_u64 ;;
    fld "__state_size" (int_ 4 false) ;;
    fld "__user_state_size" (int_ 4 false) ;;
    mnil).

Definition struct_fregs_state : ctype :=
  struct_ false (
    fld "cwd" ty_u32 ;;
    fld "swd" ty_u32 ;;
    fld "twd" ty_u32 ;;
    fld "fip" ty_u32 ;;
    fld "fcs" ty_u32 ;;
    fld "foo" ty_u32 ;;
    fld "fos" ty_u32 ;;
    fld "st_space" (arr ty_u32 20) ;;
    fld "status" ty_u32 ;;
    mnil).

Definition struct_fxregs_state : ctype :=
  struct_ false (
    fld "cwd" ty_u16 ;;
    fld "swd" ty_u16 ;;
    fld "twd" ty_u16 ;;
    fld "fop" ty_u16 ;;
    anon (union_ false (
      anon (struct_ false (
        fld "rip" ty_u64 ;;
        fld "rdp" ty_u64 ;;
        mnil)) ;;
      anon (struct_ false (
        fld "fip" ty_u32 ;;
        fld "fcs" ty_u32 ;;
        fld "foo" ty_u32 ;;
        fld "fos" ty_u32 ;;
        mnil)) ;;
      mnil)) ;;
    fld "mxcsr" ty_u32 ;;
    fld "mxcsr_mask" ty_u32 ;;
    fld "st_space" (arr ty_u32 32) ;;
    fld "xmm_space" (arr ty_u32 64) ;;
    fld "padding" (arr ty_u32 12) ;;
    anon (union_ false (
      fld "padding1" (arr ty_u32 12) ;;
      fld "sw_reserved" (arr ty_u32 12) ;;
      mnil)) ;;
    mnil).

Definition struct_swregs_state : ctype :=
  struct_ false (
    fld "cwd" ty_u32 ;;
    fld "swd" ty_u32 ;;
    fld "twd" ty_u32 ;;
    fld "fip" ty_u32 ;;
    fld "fcs" ty_u32 ;;
    fld "foo" ty_u32 ;;
    fld "fos" ty_u32 ;;
    fld "st_space" (arr ty_u32 20) ;;
    fld "ftop" ty_u8 ;;
    fld "changed" ty_u8 ;;
    fld "lookahead" ty_u8 ;;
    fld "no_update" ty_u8 ;;
    fld "rm" ty_u8 ;;
    fld "alimit" ty_u8 ;;
    fld "info" (ptr "struct math_emu_info") ;;
    fld "entry_eip" ty_u32 ;;
    mnil).

Definition struct_xstate_header : ctype :=
  struct_ false (
    fld "xfeatures" ty_u64 ;;
    fld "xcomp_bv" ty_u64 ;;
    fld "reserved" (arr ty_u64 6) ;;
    mnil).

Definition struct_xregs_state : ctype :=
  struct_ false (
    fld "i387" struct_fxregs_state ;;
    fld "header" struct_xstate_header ;;
    fld "extended_state_area" (arr ty_u8 0) ;;
    mnil).

Definition union_fpregs_state : ctype :=
  union_ false (
    fld "fsave" struct_fregs_state ;;
    fld "fxsave" struct_fxregs_state ;;
    fld "soft" struct_swregs_state ;;
    fld "xsave" struct_xregs_state ;;
    fld "__padding" (arr ty_u8 4096) ;;
    mnil).

Definition struct_fpstate : ctype :=
  struct_ false (
    fld "size" (int_ 4 false) ;;
    fld "user_size" (int_ 4 false) ;;
    fld "xfeatures" ty_u64 ;;
    fld "user_xfeatures" ty_u64 ;;
    fld "xfd" ty_u64 ;;
    bits "is_valloc" (int_ 4 false) 1 ;;
    bits "is_guest" (int_ 4 false) 1 ;;
    bits "is_confidential" (int_ 4 false) 1 ;;
    bits "in_use" (int_ 4 false) 1 ;;
    bits "" (int_ 4 true) 28 ;;
    bits "" (int_ 4 true) 32 ;;
    bits "" (int_ 4 true) 32 ;;
    bits "" (int_ 4 true) 32 ;;
    bits "" (int_ 4 true) 32 ;;
    bits "" (int_ 4 true) 32 ;;
    bits "" (int_ 4 true) 32 ;;
    bits "" (int_ 4 true) 32 ;;
    fld "regs" union_fpregs_state ;;
    mnil).

Definition struct_fpu : ctype :=
  struct_ false (
    fld "last_cpu" (int_ 4 false) ;;
    fld "avx512_timestamp" (int_ 8 false) ;;
    fld "fpstate" (ptr "struct fpstate") ;;
    fld "__task_fpstate" (ptr "struct fpstate") ;;
    fld "perm" struct_fpu_state_perm ;;
    fld "guest_perm" struct_fpu_state_perm ;;
    bits "" (int_ 4 true) 32 ;;
    bits "" (int_ 4 true) 32 ;;
    bits "" (int_ 4 true) 32 ;;
    bits "" (int_ 4 true) 32 ;;
    fld "__fpstate" struct_fpstate ;;
    mnil).

Definition struct_thread_struct : ctype :=
  struct_ false (
    fld "tls_array" (arr struct_desc_struct 3) ;;
    fld "sp0" (int_ 8 false) ;;
    fld "sp" (int_ 8 false) ;;
    fld "sysenter_cs" (int_ 8 false) ;;
    fld "fs" (int_ 8 false) ;;
    fld "gs" (int_ 8 false) ;;
    fld "ptrace_bps" (arr (ptr "struct perf_event") 4) ;;
    fld "virtual_dr6" (int_ 8 false) ;;
    fld "ptrace_dr7" (int_ 8 false) ;;
    fld "cr2" (int_ 8 false) ;;
    fld "trap_nr" (int_ 8 false) ;;
    fld "error_code" (int_ 8 false) ;;
    fld "io_bitmap" (ptr "struct io_bitmap") ;;
    fld "iopl_emul" (int_ 8 false) ;;
    bits "iopl_warn" (int_ 4 false) 1 ;;
    bits "sig_on_uaccess_err" (int_ 4 false) 1 ;;
    fld "pkru" ty_u32 ;;
    bits "" (int_ 4 true) 32 ;;
    bits "" (int_ 4 true) 32 ;;
    bits "" (int_ 4 true) 32 ;;
    bits "" (int_ 4 true) 32 ;;
    bits "" (int_ 4 true) 32 ;;
    bits "" (int_ 4 true) 32 ;;
    bits "" (int_ 4 true) 32 ;;
    bits "" (int_ 4 true) 32 ;;
    fld "fpu" struct_fpu ;;
    mnil).

Definition struct_task_struct : ctype :=
  struct_ false (
    fld "thread_info" struct_thread_info ;;
    fld "__state" (int_ 4 false) ;;
    fld "stack" (ptr "void") ;;
    fld "usage" ty_refcount_t ;;
    fld "flags" (int_ 4 false) ;;
    fld "ptrace" (int_ 4 false) ;;
    fld "on_rq" (int_ 4 true) ;;
    fld "prio" (int_ 4 true) ;;
    fld "static_prio" (int_ 4 true) ;;
    fld "normal_prio" (int_ 4 true) ;;
    fld "rt_priority" (int_ 4 false) ;;
    fld "se" struct_sched_entity ;;
    fld "rt" struct_sched_rt_entity ;;
    fld "dl" struct_sched_dl_entity ;;
    fld "sched_class" (ptr "struct sched_class") ;;
    bits "" (int_ 4 true) 32 ;;
    bits "" (int_ 4 true) 32 ;;
    fld "stats" struct_sched_statistics ;;
    fld "policy" (int_ 4 false) ;;
    fld "nr_cpus_allowed" (int_ 4 true) ;;
    fld "cpus_ptr" (ptr "cpumask_t") ;;
    fld "user_cpus_ptr" (ptr "cpumask_t") ;;
    fld "cpus_mask" ty_cpumask_t ;;
    fld "migration_pending" (ptr "void") ;;
    fld "migration_flags" (int_ 2 false) ;;
    fld "trc_reader_nesting" (int_ 4 true) ;;
    fld "trc_ipi_to_cpu" (int_ 4 true) ;;
    fld "trc_reader_special" union_rcu_special ;;
    fld "trc_holdout_list" struct_list_head ;;
    fld "trc_blkd_node" struct_list_head ;;
    fld "trc_blkd_cpu" (int_ 4 true) ;;
    fld "sched_info" struct_sched_info ;;
    fld "tasks" struct_list_head ;;
    fld "mm" (ptr "struct mm_struct") ;;
    fld "active_mm" (ptr "struct mm_struct") ;;
    fld "vmacache" struct_vmacache ;;
    fld "exit_state" (int_ 4 true) ;;
    fld "exit_code" (int_ 4 true) ;;
    fld "exit_signal" (int_ 4 true) ;;
    fld "pdeath_signal" (int_ 4 true) ;;
    fld "jobctl" (int_ 8 false) ;;
    fld "personality" (int_ 4 false) ;;
    bits "sched_reset_on_fork" (int_ 4 false) 1 ;;
    bits "sched_contributes_to_load" (int_ 4 false) 1 ;;
    bits "sched_migrated" (int_ 4 false) 1 ;;
    bits "" (int_ 4 true) 29 ;;
    bits "sched_remote_wakeup" (int_ 4 false) 1 ;;
    bits "in_execve" (int_ 4 false) 1 ;;
    bits "in_iowait" (int_ 4 false) 1 ;;
    bits "restore_sigmask" (int_ 4 false) 1 ;;
    bits "reported_split_lock" (int_ 4 false) 1 ;;
    fld "atomic_flags" (int_ 8 false) ;;
    fld "restart_block" struct_restart_block ;;
    fld "pid" ty_pid_t ;;
    fld "tgid" ty_pid_t ;;
    fld "real_parent" (ptr "struct task_struct") ;;
    fld "parent" (ptr "struct task_struct") ;;
    fld "children" struct_list_head ;;
    fld "sibling" struct_list_head ;;
    fld "group_leader" (ptr "struct task_struct") ;;
    fld "ptraced" struct_list_head ;;
    fld "ptrace_entry" struct_list_head ;;
    fld "thread_pid" (ptr "struct pid") ;;
    fld "pid_links" (arr struct_hlist_node 4) ;;
    fld "thread_group" struct_list_head ;;
    fld "thread_node" struct_list_head ;;
    fld "vfork_done" (ptr "struct completion") ;;
    fld "set_child_tid" (ptr "int") ;;
    fld "clear_child_tid" (ptr "int") ;;
    fld "worker_private" (ptr "void") ;;
    fld "utime" ty_u64 ;;
    fld "stime" ty_u64 ;;
    fld "gtime" ty_u64 ;;
    fld "prev_cputime" struct_prev_cputime ;;
    fld "nvcsw" (int_ 8 false) ;;
    fld "nivcsw" (int_ 8 false) ;;
    fld "start_time" ty_u64 ;;
    fld "start_boottime" ty_u64 ;;
    fld "min_flt" (int_ 8 false) ;;
    fld "maj_flt" (int_ 8 false) ;;
    fld "posix_cputimers" struct_posix_cputimers ;;
    fld "ptracer_cred" (ptr "struct cred") ;;
    fld "real_cred" (ptr "struct cred") ;;
    fld "cred" (ptr "struct cred") ;;
    fld "comm" (arr (int_ 1 true) 16) ;;
    fld "nameidata" (ptr "struct nameidata") ;;
    fld "fs" (ptr "struct fs_struct") ;;
    fld "files" (ptr "struct files_struct") ;;
    fld "nsproxy" (ptr "struct nsproxy") ;;
    fld "signal" (ptr "struct signal_struct") ;;
    fld "sighand" (ptr "struct sighand_struct") ;;
    fld "blocked" ty_sigset_t ;;
    fld "real_blocked" ty_sigset_t ;;
    fld "saved_sigmask" ty_sigset_t ;;
    fld "pending" struct_sigpending ;;
    fld "sas_ss_sp" (int_ 8 false) ;;
    fld "sas_ss_size" ty_size_t ;;
    fld "sas_ss_flags" (int_ 4 false) ;;
    fld "task_works" (ptr "struct callback_head") ;;
    fld "seccomp" struct_seccomp ;;
    fld "syscall_dispatch" struct_syscall_user_dispatch ;;
    fld "parent_exec_id" ty_u64 ;;
    fld "self_exec_id" ty_u64 ;;
    fld "alloc_lock" ty_spinlock_t ;;
    fld "pi_lock" ty_raw_spinlock_t ;;
    fld "wake_q" struct_wake_q_node ;;
    fld "journal_info" (ptr "void") ;;
    fld "bio_list" (ptr "struct bio_list") ;;
    fld "plug" (ptr "struct blk_plug") ;;
    fld "reclaim_state" (ptr "struct reclaim_state") ;;
    fld "backing_dev_info" (ptr "struct backing_dev_info") ;;
    fld "io_context" (ptr "struct io_context") ;;
    fld "ptrace_message" (int_ 8 false) ;;
    fld "last_siginfo" (ptr "kernel_siginfo_t") ;;
    fld "ioac" struct_task_io_accounting ;;
    fld "perf_event_ctxp" (arr (ptr "struct perf_event_context") 2) ;;
    fld "perf_event_mutex" struct_mutex ;;
    fld "perf_event_list" struct_list_head ;;
    fld "tlb_ubc" struct_tlbflush_unmap_batch ;;
    anon (union_ false (
      fld "rcu_users" ty_refcount_t ;;
      fld "rcu" struct_callback_head ;;
      mnil)) ;;
    fld "splice_pipe" (ptr "struct pipe_inode_info") ;;
    fld "task_frag" struct_page_frag ;;
    fld "nr_dirtied" (int_ 4 true) ;;
    fld "nr_dirtied_pause" (int_ 4 true) ;;
    fld "dirty_paused_when" (int_ 8 false) ;;
    fld "timer_slack_ns" ty_u64 ;;
    fld "default_timer_slack_ns" ty_u64 ;;
    fld "trace" (int_ 8 false) ;;
    fld "trace_recursion" (int_ 8 false) ;;
    fld "utask" (ptr "struct uprobe_task") ;;
    fld "kmap_ctrl" struct_kmap_ctrl ;;
    fld "pagefault_disabled" (int_ 4 true) ;;
    fld "oom_reaper_list" (ptr "struct task_struct") ;;
    fld "oom_reaper_timer" struct_timer_list ;;
    fld "stack_refcount" ty_refcount_t ;;
    fld "bpf_storage" (ptr "struct bpf_local_storage") ;;
    fld "bpf_ctx" (ptr "struct bpf_run_ctx") ;;
    fld "kretprobe_instances" struct_llist_head ;;
    fld "rethooks" struct_llist_head ;;
    fld "l1d_flush_kill" struct_callback_head ;;
    bits "" (int_ 4 true) 32 ;;
    bits "" (int_ 4 true) 32 ;;
    fld "thread" struct_thread_struct ;;
    mnil).

Definition ty_blk_opf_t : ctype :=
  ty___u32.

Definition ty_blk_status_t : ctype :=
  ty_u8.

Definition ty_sector_t : ctype :=
  ty_u64.

Definition struct_bvec_iter : ctype :=
  struct_ false (
    fld "bi_sector" ty_sector_t ;;
    fld "bi_size" (int_ 4 false) ;;
    fld "bi_idx" (int_ 4 false) ;;
    fld "bi_bvec_done" (int_ 4 false) ;;
    mnil).

Definition ty_blk_qc_t : ctype :=
  int_ 4 false.

Definition struct_bio_vec : ctype :=
  struct_ false (
    fld "bv_page" (ptr "struct page") ;;
    fld "bv_len" (int_ 4 false) ;;
    fld "bv_offset" (int_ 4 false) ;;
    mnil).

Definition struct_bio : ctype :=
  struct_ false (
    fld "bi_next" (ptr "struct bio") ;;
    fld "bi_bdev" (ptr "struct block_device") ;;
    fld "bi_opf" ty_blk_opf_t ;;
    fld "bi_flags" (int_ 2 false) ;;
    fld "bi_ioprio" (int_ 2 false) ;;
    fld "bi_status" ty_blk_status_t ;;
    fld "__bi_remaining" ty_atomic_t ;;
    fld "bi_iter" struct_bvec_iter ;;
    fld "bi_cookie" ty_blk_qc_t ;;
    fld "bi_end_io" (ptr "bio_end_io_t") ;;
    fld "bi_private" (ptr "void") ;;
    anon (union_ false (
      mnil)) ;;
    fld "bi_vcnt" (int_ 2 false) ;;
    fld "bi_max_vecs" (int_ 2 false) ;;
    fld "__bi_cnt" ty_atomic_t ;;
    fld "bi_io_vec" (ptr "struct bio_vec") ;;
    fld "bi_pool" (ptr "struct bio_set") ;;
    fld "bi_inline_vecs" (arr struct_bio_vec 0) ;;
    mnil).

Definition ty___kernel_dev_t : ctype :=
  ty_u32.

Definition ty_dev_t : ctype :=
  ty___kernel_dev_t.

Definition struct_kref : ctype :=
  struct_ false (
    fld "refcount" ty_refcount_t ;;
    mnil).

Definition struct_kobject : ctype :=
  struct_ false (
    fld "name" (ptr "char") ;;
    fld "entry" struct_list_head ;;
    fld "parent" (ptr "struct kobject") ;;
    fld "kset" (ptr "struct kset") ;;
    fld "ktype" (ptr "struct kobj_type") ;;
    fld "sd" (ptr "struct kernfs_node") ;;
    fld "kref" struct_kref ;;
    bits "state_initialized" (int_ 4 false) 1 ;;
    bits "state_in_sysfs" (int_ 4 false) 1 ;;
    bits "state_add_uevent_sent" (int_ 4 false) 1 ;;
    bits "state_remove_uevent_sent" (int_ 4 false) 1 ;;
    bits "uevent_suppress" (int_ 4 false) 1 ;;
    mnil).

Definition enum_dl_dev_state : ctype :=
  enum_ 4 [("DL_DEV_NO_DRIVER", 0); ("DL_DEV_PROBING", 1); ("DL_DEV_DRIVER_BOUND", 2); ("DL_DEV_UNBINDING", 3)].

Definition struct_dev_links_info : ctype :=
  struct_ false (
    fld "suppliers" struct_list_head ;;
    fld "consumers" struct_list_head ;;
    fld "defer_sync" struct_list_head ;;
    fld "status" enum_dl_dev_state ;;
    mnil).

Definition struct_pm_message : ctype :=
  struct_ false (
    fld "event" (int_ 4 true) ;;
    mnil).

Definition ty_pm_message_t : ctype :=
  struct_pm_message.

Definition struct_dev_pm_info : ctype :=
  struct_ false (
    fld "power_state" ty_pm_message_t ;;
    bits "can_wakeup" (int_ 4 false) 1 ;;
    bits "async_suspend" (int_ 4 false) 1 ;;
    bits "in_dpm_list" ty_bool 1 ;;
    bits "is_prepared" ty_bool 1 ;;
    bits "is_suspended" ty_bool 1 ;;
    bits "is_noirq_suspended" ty_bool 1 ;;
    bits "is_late_suspended" ty_bool 1 ;;
    bits "no_pm" ty_bool 1 ;;
    bits "early_init" ty_bool 1 ;;
    bits "direct_complete" ty_bool 1 ;;
    fld "driver_flags" ty_u32 ;;
    fld "lock" ty_spinlock_t ;;
    bits "should_wakeup" (int_ 4 false) 1 ;;
    fld "subsys_data" (ptr "struct pm_subsys_data") ;;
    fld "set_latency_tolerance" (ptr "function") ;;
    fld "qos" (ptr "struct dev_pm_qos") ;;
    mnil).

Definition struct_dev_msi_info : ctype :=
  struct_ false (
    mnil).

Definition struct_dev_archdata : ctype :=
  struct_ false (
    mnil).

Definition enum_device_removable : ctype :=
  enum_ 4 [("DEVICE_REMOVABLE_NOT_SUPPORTED", 0); ("DEVICE_REMOVABLE_UNKNOWN", 1); ("DEVICE_FIXED", 2); ("DEVICE_REMOVABLE", 3)].

Definition struct_device : ctype :=
  struct_ false (
    fld "kobj" struct_kobject ;;
    fld "parent" (ptr "struct device") ;;
    fld "p" (ptr "struct device_private") ;;
    fld "init_name" (ptr "char") ;;
    fld "type" (ptr "struct device_type") ;;
    fld "bus" (ptr "struct bus_type") ;;
    fld "driver" (ptr "struct device_driver") ;;
    fld "platform_data" (ptr "void") ;;
    fld "driver_data" (ptr "void") ;;
    fld "mutex" struct_mutex ;;
    fld "links" struct_dev_links_info ;;
    fld "power" struct_dev_pm_info ;;
    fld "pm_domain" (ptr "struct dev_pm_domain") ;;
    fld "msi" struct_dev_msi_info ;;
    fld "dma_mask" (ptr "u64") ;;
    fld "coherent_dma_mask" ty_u64 ;;
    fld "bus_dma_limit" ty_u64 ;;
    fld "dma_range_map" (ptr "struct bus_dma_region") ;;
    fld "dma_parms" (ptr "struct device_dma_parameters") ;;
    fld "dma_pools" struct_list_head ;;
    fld "archdata" struct_dev_archdata ;;
    fld "of_node" (ptr "struct device_node") ;;
    fld "fwnode" (ptr "struct fwnode_handle") ;;
    fld "devt" ty_dev_t ;;
    fld "id" ty_u32 ;;
    fld "devres_lock" ty_spinlock_t ;;
    fld "devres_head" struct_list_head ;;
    fld "class" (ptr "struct class") ;;
    fld "groups" (ptr "struct attribute_group *") ;;
    fld "release" (ptr "function") ;;
    fld "iommu_group" (ptr "struct iommu_group") ;;
    fld "iommu" (ptr "struct dev_iommu") ;;
    fld "physical_location" (ptr "struct device_physical_location") ;;
    fld "removable" enum_device_removable ;;
    bits "offline_disabled" ty_bool 1 ;;
    bits "offline" ty_bool 1 ;;
    bits "of_node_reused" ty_bool 1 ;;
    bits "state_synced" ty_bool 1 ;;
    bits "can_match" ty_bool 1 ;;
    mnil).

Definition struct_block_device : ctype :=
  struct_ false (
    fld "bd_start_sect" ty_sector_t ;;
    fld "bd_nr_sectors" ty_sector_t ;;
    fld "bd_stats" (ptr "struct disk_stats") ;;
    fld "bd_stamp" (int_ 8 false) ;;
    fld "bd_read_only" ty_bool ;;
    fld "bd_dev" ty_dev_t ;;
    fld "bd_openers" ty_atomic_t ;;
    fld "bd_inode" (ptr "struct inode") ;;
    fld "bd_super" (ptr "struct super_block") ;;
    fld "bd_claiming" (ptr "void") ;;
    fld "bd_device" struct_device ;;
    fld "bd_holder" (ptr "void") ;;
    fld "bd_holders" (int_ 4 true) ;;
    fld "bd_write_holder" ty_bool ;;
    fld "bd_holder_dir" (ptr "struct kobject") ;;
    fld "bd_partno" ty_u8 ;;
    fld "bd_size_lock" ty_spinlock_t ;;
    fld "bd_disk" (ptr "struct gendisk") ;;
    fld "bd_queue" (ptr "struct request_queue") ;;
    fld "bd_fsfreeze_count" (int_ 4 true) ;;
    fld "bd_fsfreeze_mutex" struct_mutex ;;
    fld "bd_fsfreeze_sb" (ptr "struct super_block") ;;
    fld "bd_meta_info" (ptr "struct partition_meta_info") ;;
    mnil).

Definition struct_percpu_ref : ctype :=
  struct_ false (
    fld "percpu_count_ptr" (int_ 8 false) ;;
    fld "data" (ptr "struct percpu_ref_data") ;;
    mnil).

Definition ty_gfp_t : ctype :=
  int_ 4 false.

Definition struct_xarray : ctype :=
  struct_ false (
    fld "xa_lock" ty_spinlock_t ;;
    fld "xa_flags" ty_gfp_t ;;
    fld "xa_head" (ptr "void") ;;
    mnil).

Definition ty_work_func_t : ctype :=
  ptr "function".

Definition struct_work_struct : ctype :=
  struct_ false (
    fld "data" ty_atomic_long_t ;;
    fld "entry" struct_list_head ;;
    fld "func" ty_work_func_t ;;
    mnil).

Definition enum_blk_bounce : ctype :=
  enum_ 4 [("BLK_BOUNCE_NONE", 0); ("BLK_BOUNCE_HIGH", 1)].

Definition enum_blk_zoned_model : ctype :=
  enum_ 4 [("BLK_ZONED_NONE", 0); ("BLK_ZONED_HA", 1); ("BLK_ZONED_HM", 2)].

Definition struct_queue_limits : ctype :=
  struct_ false (
    fld "bounce" enum_blk_bounce ;;
    fld "seg_boundary_mask" (int_ 8 false) ;;
    fld "virt_boundary_mask" (int_ 8 false) ;;
    fld "max_hw_sectors" (int_ 4 false) ;;
    fld "max_dev_sectors" (int_ 4 false) ;;
    fld "chunk_sectors" (int_ 4 false) ;;
    fld "max_sectors" (int_ 4 false) ;;
    fld "max_segment_size" (int_ 4 false) ;;
    fld "physical_block_size" (int_ 4 false) ;;
    fld "logical_block_size" (int_ 4 false) ;;
    fld "alignment_offset" (int_ 4 false) ;;
    fld "io_min" (int_ 4 false) ;;
    fld "io_opt" (int_ 4 false) ;;
    fld "max_discard_sectors" (int_ 4 false) ;;
    fld "max_hw_discard_sectors" (int_ 4 false) ;;
    fld "max_secure_erase_sectors" (int_ 4 false) ;;
    fld "max_write_zeroes_sectors" (int_ 4 false) ;;
    fld "max_zone_append_sectors" (int_ 4 false) ;;
    fld "discard_granularity" (int_ 4 false) ;;
    fld "discard_alignment" (int_ 4 false) ;;
    fld "zone_write_granularity" (int_ 4 false) ;;
    fld "max_segments" (int_ 2 false) ;;
    fld "max_integrity_segments" (int_ 2 false) ;;
    fld "max_discard_segments" (int_ 2 false) ;;
    fld "misaligned" (int_ 1 false) ;;
    fld "discard_misaligned" (int_ 1 false) ;;
    fld "raid_partial_stripes_expensive" (int_ 1 false) ;;
    fld "zoned" enum_blk_zoned_model ;;
    mnil).

Definition struct_delayed_work : ctype :=
  struct_ false (
    fld "work" struct_work_struct ;;
    fld "timer" struct_timer_list ;;
    fld "wq" (ptr "struct workqueue_struct") ;;
    fld "cpu" (int_ 4 true) ;;
    mnil).

Definition struct_wait_queue_head : ctype :=
  struct_ false (
    fld "lock" ty_spinlock_t ;;
    fld "head" struct_list_head ;;
    mnil).

Definition ty_wait_queue_head_t : ctype :=
  struct_wait_queue_head.

Definition struct_swait_queue_head : ctype :=
  struct_ false (
    fld "lock" ty_raw_spinlock_t ;;
    fld "task_list" struct_list_head ;;
    mnil).

Definition struct_srcu_struct : ctype :=
  struct_ false (
    fld "srcu_lock_nesting" (arr (int_ 2 true) 2) ;;
    fld "srcu_gp_running" ty_u8 ;;
    fld "srcu_gp_waiting" ty_u8 ;;
    fld "srcu_idx" (int_ 8 false) ;;
    fld "srcu_idx_max" (int_ 8 false) ;;
    fld "srcu_wq" struct_swait_queue_head ;;
    fld "srcu_cb_head" (ptr "struct callback_head") ;;
    fld "srcu_cb_tail" (ptr "struct callback_head *") ;;
    fld "srcu_work" struct_work_struct ;;
    mnil).

Definition struct_request_queue : ctype :=
  struct_ false (
    fld "last_merge" (ptr "struct request") ;;
    fld "elevator" (ptr "struct elevator_queue") ;;
    fld "q_usage_counter" struct_percpu_ref ;;
    fld "stats" (ptr "struct blk_queue_stats") ;;
    fld "rq_qos" (ptr "struct rq_qos") ;;
    fld "mq_ops" (ptr "struct blk_mq_ops") ;;
    fld "queue_ctx" (ptr "struct blk_mq_ctx") ;;
    fld "queue_depth" (int_ 4 false) ;;
    fld "hctx_table" struct_xarray ;;
    fld "nr_hw_queues" (int_ 4 false) ;;
    fld "queuedata" (ptr "void") ;;
    fld "queue_flags" (int_ 8 false) ;;
    fld "pm_only" ty_atomic_t ;;
    fld "id" (int_ 4 true) ;;
    fld "queue_lock" ty_spinlock_t ;;
    fld "disk" (ptr "struct gendisk") ;;
    fld "kobj" struct_kobject ;;
    fld "mq_kobj" (ptr "struct kobject") ;;
    fld "nr_requests" (int_ 8 false) ;;
    fld "dma_pad_mask" (int_ 4 false) ;;
    fld "dma_alignment" (int_ 4 false) ;;
    fld "rq_timeout" (int_ 4 false) ;;
    fld "poll_nsec" (int_ 4 true) ;;
    fld "poll_cb" (ptr "struct blk_stat_callback") ;;
    fld "poll_stat" (ptr "struct blk_rq_stat") ;;
    fld "timeout" struct_timer_list ;;
    fld "timeout_work" struct_work_struct ;;
    fld "nr_active_requests_shared_tags" ty_atomic_t ;;
    fld "sched_shared_tags" (ptr "struct blk_mq_tags") ;;
    fld "icq_list" struct_list_head ;;
    fld "limits" struct_queue_limits ;;
    fld "required_elevator_features" (int_ 4 false) ;;
    fld "node" (int_ 4 true) ;;
    fld "fq" (ptr "struct blk_flush_queue") ;;
    fld "requeue_list" struct_list_head ;;
    fld "requeue_lock" ty_spinlock_t ;;
    fld "requeue_work" struct_delayed_work ;;
    fld "sysfs_lock" struct_mutex ;;
    fld "sysfs_dir_lock" struct_mutex ;;
    fld "unused_hctx_list" struct_list_head ;;
    fld "unused_hctx_lock" ty_spinlock_t ;;
    fld "mq_freeze_depth" (int_ 4 true) ;;
    fld "callback_head" struct_callback_head ;;
    fld "mq_freeze_wq" ty_wait_queue_head_t ;;
    fld "mq_freeze_lock" struct_mutex ;;
    fld "quiesce_depth" (int_ 4 true) ;;
    fld "tag_set" (ptr "struct blk_mq_tag_set") ;;
    fld "tag_set_list" struct_list_head ;;
    fld "debugfs_dir" (ptr "struct dentry") ;;
    fld "sched_debugfs_dir" (ptr "struct dentry") ;;
    fld "rqos_debugfs_dir" (ptr "struct dentry") ;;
    fld "debugfs_mutex" struct_mutex ;;
    fld "mq_sysfs_init_done" ty_bool ;;
    fld "srcu" (arr struct_srcu_struct 0) ;;
    mnil).

Definition struct_mempool_s : ctype :=
  struct_ false (
    fld "lock" ty_spinlock_t ;;
    fld "min_nr" (int_ 4 true) ;;
    fld "curr_nr" (int_ 4 true) ;;
    fld "elements" (ptr "void *") ;;
    fld "pool_data" (ptr "void") ;;
    fld "alloc" (ptr "mempool_alloc_t") ;;
    fld "free" (ptr "mempool_free_t") ;;
    fld "wait" ty_wait_queue_head_t ;;
    mnil).

Definition ty_mempool_t : ctype :=
  struct_mempool_s.

Definition struct_bio_list : ctype :=
  struct_ false (
    fld "head" (ptr "struct bio") ;;
    fld "tail" (ptr "struct bio") ;;
    mnil).

Definition struct_bio_set : ctype :=
  struct_ false (
    fld "bio_slab" (ptr "struct kmem_cache") ;;
    fld "front_pad" (int_ 4 false) ;;
    fld "cache" (ptr "struct bio_alloc_cache") ;;
    fld "bio_pool" ty_mempool_t ;;
    fld "bvec_pool" ty_mempool_t ;;
    fld "back_pad" (int_ 4 false) ;;
    fld "rescue_lock" ty_spinlock_t ;;
    fld "rescue_list" struct_bio_list ;;
    fld "rescue_work" struct_work_struct ;;
    fld "rescue_workqueue" (ptr "struct workqueue_struct") ;;
    fld "cpuhp_dead" struct_hlist_node ;;
    mnil).

Definition struct_lockdep_map : ctype :=
  struct_ false (
    mnil).

Definition struct_gendisk : ctype :=
  struct_ false (
    fld "major" (int_ 4 true) ;;
    fld "first_minor" (int_ 4 true) ;;
    fld "minors" (int_ 4 true) ;;
    fld "disk_name" (arr (int_ 1 true) 32) ;;
    fld "events" (int_ 2 false) ;;
    fld "event_flags" (int_ 2 false) ;;
    fld "part_tbl" struct_xarray ;;
    fld "part0" (ptr "struct block_device") ;;
    fld "fops" (ptr "struct block_device_operations") ;;
    fld "queue" (ptr "struct request_queue") ;;
    fld "private_data" (ptr "void") ;;
    fld "bio_split" struct_bio_set ;;
    fld "flags" (int_ 4 true) ;;
    fld "state" (int_ 8 false) ;;
    fld "open_mutex" struct_mutex ;;
    fld "open_partitions" (int_ 4 false) ;;
    fld "bdi" (ptr "struct backing_dev_info") ;;
    fld "slave_dir" (ptr "struct kobject") ;;
    fld "random" (ptr "struct timer_rand_state") ;;
    fld "sync_io" ty_atomic_t ;;
    fld "ev" (ptr "struct disk_events") ;;
    fld "node_id" (int_ 4 true) ;;
    fld "bb" (ptr "struct badblocks") ;;
    fld "lockdep_map" struct_lockdep_map ;;
    fld "diskseq" ty_u64 ;;
    fld "ia_ranges" (ptr "struct blk_independent_access_ranges") ;;
    mnil).

Definition ty___s8 : ctype :=
  int_ 1 true.

Definition ty_s8 : ctype :=
  ty___s8.

Definition ty___s16 : ctype :=
  int_ 2 true.

Definition ty_s16 : ctype :=
  ty___s16.

Definition ty___s32 : ctype :=
  int_ 4 true.

Definition ty_s32 : ctype :=
  ty___s32.

Definition struct_seqcount : ctype :=
  struct_ false (
    fld "sequence" (int_ 4 false) ;;
    mnil).

Definition ty_seqcount_t : ctype :=
  struct_seqcount.

Definition struct_seqcount_raw_spinlock : ctype :=
  struct_ false (
    fld "seqcount" ty_seqcount_t ;;
    mnil).

Definition ty_seqcount_raw_spinlock_t : ctype :=
  struct_seqcount_raw_spinlock.

Definition struct_rb_root : ctype :=
  struct_ false (
    fld "rb_node" (ptr "struct rb_node") ;;
    mnil).

Definition struct_rb_root_cached : ctype :=
  struct_ false (
    fld "rb_root" struct_rb_root ;;
    fld "rb_leftmost" (ptr "struct rb_node") ;;
    mnil).

Definition struct_timerqueue_head : ctype :=
  struct_ false (
    fld "rb_root" struct_rb_root_cached ;;
    mnil).

Definition struct_hrtimer_clock_base : ctype :=
  struct_ false (
    fld "cpu_base" (ptr "struct hrtimer_cpu_base") ;;
    fld "index" (int_ 4 false) ;;
    fld "clockid" ty_clockid_t ;;
    fld "seq" ty_seqcount_raw_spinlock_t ;;
    fld "running" (ptr "struct hrtimer") ;;
    fld "active" struct_timerqueue_head ;;
    fld "get_time" (ptr "function") ;;
    fld "offset" ty_ktime_t ;;
    mnil).

Definition ty_pgprotval_t : ctype :=
  int_ 8 false.

Definition struct_pgprot : ctype :=
  struct_ false (
    fld "pgprot" ty_pgprotval_t ;;
    mnil).

Definition ty_pgprot_t : ctype :=
  struct_pgprot.

Definition struct_vm_userfaultfd_ctx : ctype :=
  struct_ false (
    mnil).

Definition struct_vm_area_struct : ctype :=
  struct_ false (
    fld "vm_start" (int_ 8 false) ;;
    fld "vm_end" (int_ 8 false) ;;
    fld "vm_next" (ptr "struct vm_area_struct") ;;
    fld "vm_prev" (ptr "struct vm_area_struct") ;;
    fld "vm_rb" struct_rb_node ;;
    fld "rb_subtree_gap" (int_ 8 false) ;;
    fld "vm_mm" (ptr "struct mm_struct") ;;
    fld "vm_page_prot" ty_pgprot_t ;;
    fld "vm_flags" (int_ 8 false) ;;
    anon (union_ false (
      fld "shared" (struct_ false (
        fld "rb" struct_rb_node ;;
        fld "rb_subtree_last" (int_ 8 false) ;;
        mnil)) ;;
      fld "anon_name" (ptr "struct anon_vma_name") ;;
      mnil)) ;;
    fld "anon_vma_chain" struct_list_head ;;
    fld "anon_vma" (ptr "struct anon_vma") ;;
    fld "vm_ops" (ptr "struct vm_operations_struct") ;;
    fld "vm_pgoff" (int_ 8 false) ;;
    fld "vm_file" (ptr "struct file") ;;
    fld "vm_private_data" (ptr "void") ;;
    fld "vm_userfaultfd_ctx" struct_vm_userfaultfd_ctx ;;
    mnil).

Definition ty___kernel_time64_t : ctype :=
  int_ 8 true.

Definition struct___kernel_timespec : ctype :=
  struct_ false (
    fld "tv_sec" ty___kernel_time64_t ;;
    fld "tv_nsec" (int_ 8 true) ;;
    mnil).

Definition ty_old_time32_t : ctype :=
  ty_s32.

Definition struct_old_timespec32 : ctype :=
  struct_ false (
    fld "tv_sec" ty_old_time32_t ;;
    fld "tv_nsec" ty_s32 ;;
    mnil).

Definition struct_pollfd : ctype :=
  struct_ false (
    fld "fd" (int_ 4 true) ;;
    fld "events" (int_ 2 true) ;;
    fld "revents" (int_ 2 true) ;;
    mnil).

Definition ty_pgtable_t : ctype :=
  ptr "struct page".

Definition struct_page : ctype :=
  struct_ false (
    fld "flags" (int_ 8 false) ;;
    anon (union_ false (
      anon (struct_ false (
        anon (union_ false (
          fld "lru" struct_list_head ;;
          anon (struct_ false (
            fld "__filler" (ptr "void") ;;
            fld "mlock_count" (int_ 4 false) ;;
            mnil)) ;;
          fld "buddy_list" struct_list_head ;;
          fld "pcp_list" struct_list_head ;;
          mnil)) ;;
        fld "mapping" (ptr "struct address_space") ;;
        fld "index" (int_ 8 false) ;;
        fld "private" (int_ 8 false) ;;
        mnil)) ;;
      anon (struct_ false (
        fld "pp_magic" (int_ 8 false) ;;
        fld "pp" (ptr "struct page_pool") ;;
        fld "_pp_mapping_pad" (int_ 8 false) ;;
        fld "dma_addr" (int_ 8 false) ;;
        anon (union_ false (
          fld "dma_addr_upper" (int_ 8 false) ;;
          fld "pp_frag_count" ty_atomic_long_t ;;
          mnil)) ;;
        mnil)) ;;
      anon (struct_ false (
        fld "compound_head" (int_ 8 false) ;;
        fld "compound_dtor" (int_ 1 false) ;;
        fld "compound_order" (int_ 1 false) ;;
        fld "compound_mapcount" ty_atomic_t ;;
        fld "compound_pincount" ty_atomic_t ;;
        mnil)) ;;
      anon (struct_ false (
        fld "_compound_pad_1" (int_ 8 false) ;;
        fld "_compound_pad_2" (int_ 8 false) ;;
        fld "deferred_list" struct_list_head ;;
        mnil)) ;;
      anon (struct_ false (
        fld "_pt_pad_1" (int_ 8 false) ;;
        fld "pmd_huge_pte" ty_pgtable_t ;;
        fld "_pt_pad_2" (int_ 8 false) ;;
        anon (union_ false (
          fld "pt_mm" (ptr "struct mm_struct") ;;
          fld "pt_frag_refcount" ty_atomic_t ;;
          mnil)) ;;
        fld "ptl" ty_spinlock_t ;;
        mnil)) ;;
      anon (struct_ false (
        fld "pgmap" (ptr "struct dev_pagemap") ;;
        fld "zone_device_data" (ptr "void") ;;
        mnil)) ;;
      fld "callback_head" struct_callback_head ;;
      mnil)) ;;
    anon (union_ false (
      fld "_mapcount" ty_atomic_t ;;
      fld "page_type" (int_ 4 false) ;;
      mnil)) ;;
    fld "_refcount" ty_atomic_t ;;
    mnil).

Definition struct_llist_node : ctype :=
  struct_ false (
    fld "next" (ptr "struct llist_node") ;;
    mnil).

Definition struct_math_emu_info : ctype :=
  struct_ false (
    fld "___orig_eip" (int_ 8 true) ;;
    fld "regs" (ptr "struct pt_regs") ;;
    mnil).

Definition enum_perf_event_state : ctype :=
  enum_ 4 [("PERF_EVENT_STATE_DEAD", (-4)); ("PERF_EVENT_STATE_EXIT", (-3)); ("PERF_EVENT_STATE_ERROR", (-2)); ("PERF_EVENT_STATE_OFF", (-1)); ("PERF_EVENT_STATE_INACTIVE", 0); ("PERF_EVENT_STATE_ACTIVE", 1)].

Definition ty_atomic64_t : ctype :=
  struct_ false (
    fld "counter" ty_s64 ;;
    mnil).

Definition ty_local64_t : ctype :=
  struct_ false (
    fld "a" ty_atomic64_t ;;
    mnil).

Definition struct_perf_event_attr : ctype :=
  struct_ false (
    fld "type" ty___u32 ;;
    fld "size" ty___u32 ;;
    fld "config" ty___u64 ;;
    anon (union_ false (
      fld "sample_period" ty___u64 ;;
      fld "sample_freq" ty___u64 ;;
      mnil)) ;;
    fld "sample_type" ty___u64 ;;
    fld "read_format" ty___u64 ;;
    bits "disabled" ty___u64 1 ;;
    bits "inherit" ty___u64 1 ;;
    bits "pinned" ty___u64 1 ;;
    bits "exclusive" ty___u64 1 ;;
    bits "exclude_user" ty___u64 1 ;;
    bits "exclude_kernel" ty___u64 1 ;;
    bits "exclude_hv" ty___u64 1 ;;
    bits "exclude_idle" ty___u64 1 ;;
    bits "mmap" ty___u64 1 ;;
    bits "comm" ty___u64 1 ;;
    bits "freq" ty___u64 1 ;;
    bits "inherit_stat" ty___u64 1 ;;
    bits "enable_on_exec" ty___u64 1 ;;
    bits "task" ty___u64 1 ;;
    bits "watermark" ty___u64 1 ;;
    bits "precise_ip" ty___u64 2 ;;
    bits "mmap_data" ty___u64 1 ;;
    bits "sample_id_all" ty___u64 1 ;;
    bits "exclude_host" ty___u64 1 ;;
    bits "exclude_guest" ty___u64 1 ;;
    bits "exclude_callchain_kernel" ty___u64 1 ;;
    bits "exclude_callchain_user" ty___u64 1 ;;
    bits "mmap2" ty___u64 1 ;;
    bits "comm_exec" ty___u64 1 ;;
    bits "use_clockid" ty___u64 1 ;;
    bits "context_switch" ty___u64 1 ;;
    bits "write_backward" ty___u64 1 ;;
    bits "namespaces" ty___u64 1 ;;
    bits "ksymbol" ty___u64 1 ;;
    bits "bpf_event" ty___u64 1 ;;
    bits "aux_output" ty___u64 1 ;;
    bits "cgroup" ty___u64 1 ;;
    bits "text_poke" ty___u64 1 ;;
    bits "build_id" ty___u64 1 ;;
    bits "inherit_thread" ty___u64 1 ;;
    bits "remove_on_exec" ty___u64 1 ;;
    bits "sigtrap" ty___u64 1 ;;
    bits "__reserved_1" ty___u64 26 ;;
    anon (union_ false (
      fld "wakeup_events" ty___u32 ;;
      fld "wakeup_watermark" ty___u32 ;;
      mnil)) ;;
    fld "bp_type" ty___u32 ;;
    anon (union_ false (
      fld "bp_addr" ty___u64 ;;
      fld "kprobe_func" ty___u64 ;;
      fld "uprobe_path" ty___u64 ;;
      fld "config1" ty___u64 ;;
      mnil)) ;;
    anon (union_ false (
      fld "bp_len" ty___u64 ;;
      fld "kprobe_addr" ty___u64 ;;
      fld "probe_offset" ty___u64 ;;
      fld "config2" ty___u64 ;;
      mnil)) ;;
    fld "branch_sample_type" ty___u64 ;;
    fld "sample_regs_user" ty___u64 ;;
    fld "sample_stack_user" ty___u32 ;;
    fld "clockid" ty___s32 ;;
    fld "sample_regs_intr" ty___u64 ;;
    fld "aux_watermark" ty___u32 ;;
    fld "sample_max_stack" ty___u16 ;;
    fld "__reserved_2" ty___u16 ;;
    fld "aux_sample_size" ty___u32 ;;
    fld "__reserved_3" ty___u32 ;;
    fld "sig_data" ty___u64 ;;
    mnil).

Definition struct_hw_perf_event_extra : ctype :=
  struct_ false (
    fld "config" ty_u64 ;;
    fld "reg" (int_ 4 false) ;;
    fld "alloc" (int_ 4 true) ;;
    fld "idx" (int_ 4 true) ;;
    mnil).

Definition struct_arch_hw_breakpoint : ctype :=
  struct_ false (
    fld "address" (int_ 8 false) ;;
    fld "mask" (int_ 8 false) ;;
    fld "len" ty_u8 ;;
    fld "type" ty_u8 ;;
    mnil).

Definition struct_hw_perf_event : ctype :=
  struct_ false (
    anon (union_ false (
      anon (struct_ false (
        fld "config" ty_u64 ;;
        fld "last_tag" ty_u64 ;;
        fld "config_base" (int_ 8 false) ;;
        fld "event_base" (int_ 8 false) ;;
        fld "event_base_rdpmc" (int_ 4 true) ;;
        fld "idx" (int_ 4 true) ;;
        fld "last_cpu" (int_ 4 true) ;;
        fld "flags" (int_ 4 true) ;;
        fld "extra_reg" struct_hw_perf_event_extra ;;
        fld "branch_reg" struct_hw_perf_event_extra ;;
        mnil)) ;;
      anon (struct_ false (
        fld "hrtimer" struct_hrtimer ;;
        mnil)) ;;
      anon (struct_ false (
        fld "tp_list" struct_list_head ;;
        mnil)) ;;
      anon (struct_ false (
        fld "pwr_acc" ty_u64 ;;
        fld "ptsc" ty_u64 ;;
        mnil)) ;;
      anon (struct_ false (
        fld "info" struct_arch_hw_breakpoint ;;
        fld "bp_list" struct_list_head ;;
        mnil)) ;;
      anon (struct_ false (
        fld "iommu_bank" ty_u8 ;;
        fld "iommu_cntr" ty_u8 ;;
        fld "padding" ty_u16 ;;
        fld "conf" ty_u64 ;;
        fld "conf1" ty_u64 ;;
        mnil)) ;;
      mnil)) ;;
    fld "target" (ptr "struct task_struct") ;;
    fld "addr_filters" (ptr "void") ;;
    fld "addr_filters_gen" (int_ 8 false) ;;
    fld "state" (int_ 4 true) ;;
    fld "prev_count" ty_local64_t ;;
    fld "sample_period" ty_u64 ;;
    anon (union_ false (
      anon (struct_ false (
        fld "last_period" ty_u64 ;;
        fld "period_left" ty_local64_t ;;
        mnil)) ;;
      anon (struct_ false (
        fld "saved_metric" ty_u64 ;;
        fld "saved_slots" ty_u64 ;;
        mnil)) ;;
      mnil)) ;;
    fld "interrupts_seq" ty_u64 ;;
    fld "interrupts" ty_u64 ;;
    fld "freq_time_stamp" ty_u64 ;;
    fld "freq_count_stamp" ty_u64 ;;
    mnil).

Definition struct___call_single_node : ctype :=
  struct_ false (
    fld "llist" struct_llist_node ;;
    anon (union_ false (
      fld "u_flags" (int_ 4 false) ;;
      fld "a_flags" ty_atomic_t ;;
      mnil)) ;;
    mnil).

Definition struct_rcuwait : ctype :=
  struct_ false (
    fld "task" (ptr "struct task_struct") ;;
    mnil).

Definition struct_irq_work : ctype :=
  struct_ false (
    fld "node" struct___call_single_node ;;
    fld "func" (ptr "function") ;;
    fld "irqwait" struct_rcuwait ;;
    mnil).

Definition struct_perf_addr_filters_head : ctype :=
  struct_ false (
    fld "list" struct_list_head ;;
    fld "lock" ty_raw_spinlock_t ;;
    fld "nr_file_filters" (int_ 4 false) ;;
    mnil).

Definition ty_perf_overflow_handler_t : ctype :=
  ptr "function".

Definition ty_ftrace_func_t : ctype :=
  ptr "function".

Definition struct_ftrace_ops_hash : ctype :=
  struct_ false (
    fld "notrace_hash" (ptr "struct ftrace_hash") ;;
    fld "filter_hash" (ptr "struct ftrace_hash") ;;
    fld "regex_lock" struct_mutex ;;
    mnil).

Definition ty_ftrace_ops_func_t : ctype :=
  ptr "function".

Definition struct_ftrace_ops : ctype :=
  struct_ false (
    fld "func" ty_ftrace_func_t ;;
    fld "next" (ptr "struct ftrace_ops") ;;
    fld "flags" (int_ 8 false) ;;
    fld "private" (ptr "void") ;;
    fld "saved_func" ty_ftrace_func_t ;;
    fld "local_hash" struct_ftrace_ops_hash ;;
    fld "func_hash" (ptr "struct ftrace_ops_hash") ;;
    fld "old_hash" struct_ftrace_ops_hash ;;
    fld "trampoline" (int_ 8 false) ;;
    fld "trampoline_size" (int_ 8 false) ;;
    fld "list" struct_list_head ;;
    fld "ops_func" ty_ftrace_ops_func_t ;;
    mnil).

Definition struct_perf_event : ctype :=
  struct_ false (
    fld "event_entry" struct_list_head ;;
    fld "sibling_list" struct_list_head ;;
    fld "active_list" struct_list_head ;;
    fld "group_node" struct_rb_node ;;
    fld "group_index" ty_u64 ;;
    fld "migrate_entry" struct_list_head ;;
    fld "hlist_entry" struct_hlist_node ;;
    fld "active_entry" struct_list_head ;;
    fld "nr_siblings" (int_ 4 true) ;;
    fld "event_caps" (int_ 4 true) ;;
    fld "group_caps" (int_ 4 true) ;;
    fld "group_leader" (ptr "struct perf_event") ;;
    fld "pmu" (ptr "struct pmu") ;;
    fld "pmu_private" (ptr "void") ;;
    fld "state" enum_perf_event_state ;;
    fld "attach_state" (int_ 4 false) ;;
    bits "" (int_ 4 true) 32 ;;
    fld "count" ty_local64_t ;;
    fld "child_count" ty_atomic64_t ;;
    fld "total_time_enabled" ty_u64 ;;
    fld "total_time_running" ty_u64 ;;
    fld "tstamp" ty_u64 ;;
    fld "attr" struct_perf_event_attr ;;
    fld "header_size" ty_u16 ;;
    fld "id_header_size" ty_u16 ;;
    fld "read_size" ty_u16 ;;
    fld "hw" struct_hw_perf_event ;;
    fld "ctx" (ptr "struct perf_event_context") ;;
    fld "refcount" ty_atomic_long_t ;;
    fld "child_total_time_enabled" ty_atomic64_t ;;
    fld "child_total_time_running" ty_atomic64_t ;;
    fld "child_mutex" struct_mutex ;;
    fld "child_list" struct_list_head ;;
    fld "parent" (ptr "struct perf_event") ;;
    fld "oncpu" (int_ 4 true) ;;
    fld "cpu" (int_ 4 true) ;;
    fld "owner_entry" struct_list_head ;;
    fld "owner" (ptr "struct task_struct") ;;
    fld "mmap_mutex" struct_mutex ;;
    fld "mmap_count" ty_atomic_t ;;
    fld "rb" (ptr "struct perf_buffer") ;;
    fld "rb_entry" struct_list_head ;;
    fld "rcu_batches" (int_ 8 false) ;;
    fld "rcu_pending" (int_ 4 true) ;;
    fld "waitq" ty_wait_queue_head_t ;;
    fld "fasync" (ptr "struct fasync_struct") ;;
    fld "pending_wakeup" (int_ 4 true) ;;
    fld "pending_kill" (int_ 4 true) ;;
    fld "pending_disable" (int_ 4 true) ;;
    fld "pending_addr" (int_ 8 false) ;;
    fld "pending" struct_irq_work ;;
    fld "event_limit" ty_atomic_t ;;
    fld "addr_filters" struct_perf_addr_filters_head ;;
    fld "addr_filter_ranges" (ptr "struct perf_addr_filter_range") ;;
    fld "addr_filters_gen" (int_ 8 false) ;;
    fld "aux_event" (ptr "struct perf_event") ;;
    fld "destroy" (ptr "function") ;;
    fld "callback_head" struct_callback_head ;;
    fld "ns" (ptr "struct pid_namespace") ;;
    fld "id" ty_u64 ;;
    fld "lost_samples" ty_atomic64_t ;;
    fld "clock" (ptr "function") ;;
    fld "overflow_handler" ty_perf_overflow_handler_t ;;
    fld "overflow_handler_context" (ptr "void") ;;
    fld "orig_overflow_handler" ty_perf_overflow_handler_t ;;
    fld "prog" (ptr "struct bpf_prog") ;;
    fld "bpf_cookie" ty_u64 ;;
    fld "tp_event" (ptr "struct trace_event_call") ;;
    fld "filter" (ptr "struct event_filter") ;;
    fld "ftrace_ops" struct_ftrace_ops ;;
    fld "sb_list" struct_list_head ;;
    mnil).

Definition struct_io_bitmap : ctype :=
  struct_ false (
    fld "sequence" ty_u64 ;;
    fld "refcnt" ty_refcount_t ;;
    fld "max" (int_ 4 false) ;;
    fld "bitmap" (arr (int_ 8 false) 2048) ;;
    mnil).

Definition struct_sched_class : ctype :=
  struct_ false (
    fld "enqueue_task" (ptr "function") ;;
    fld "dequeue_task" (ptr "function") ;;
    fld "yield_task" (ptr "function") ;;
    fld "yield_to_task" (ptr "function") ;;
    fld "check_preempt_curr" (ptr "function") ;;
    fld "pick_next_task" (ptr "function") ;;
    fld "put_prev_task" (ptr "function") ;;
    fld "set_next_task" (ptr "function") ;;
    fld "task_tick" (ptr "function") ;;
    fld "task_fork" (ptr "function") ;;
    fld "task_dead" (ptr "function") ;;
    fld "switched_from" (ptr "function") ;;
    fld "switched_to" (ptr "function") ;;
    fld "prio_changed" (ptr "function") ;;
    fld "get_rr_interval" (ptr "function") ;;
    fld "update_curr" (ptr "function") ;;
    mnil).

Definition struct_rw_semaphore : ctype :=
  struct_ false (
    fld "count" ty_atomic_long_t ;;
    fld "owner" ty_atomic_long_t ;;
    fld "wait_lock" ty_raw_spinlock_t ;;
    fld "wait_list" struct_list_head ;;
    mnil).

Definition struct_mm_rss_stat : ctype :=
  struct_ false (
    fld "count" (arr ty_atomic_long_t 4) ;;
    mnil).

Definition ty_mm_context_t : ctype :=
  struct_ false (
    fld "ctx_id" ty_u64 ;;
    fld "tlb_gen" ty_atomic64_t ;;
    fld "lock" struct_mutex ;;
    fld "vdso" (ptr "void") ;;
    fld "vdso_image" (ptr "struct vdso_image") ;;
    fld "perf_rdpmc_allowed" ty_atomic_t ;;
    mnil).

Definition struct_uprobes_state : ctype :=
  struct_ false (
    fld "xol_area" (ptr "struct xol_area") ;;
    mnil).

Definition struct_mm_struct : ctype :=
  struct_ false (
    anon (struct_ false (
      fld "mmap" (ptr "struct vm_area_struct") ;;
      fld "mm_rb" struct_rb_root ;;
      fld "vmacache_seqnum" ty_u64 ;;
      fld "get_unmapped_area" (ptr "function") ;;
      fld "mmap_base" (int_ 8 false) ;;
      fld "mmap_legacy_base" (int_ 8 false) ;;
      fld "task_size" (int_ 8 false) ;;
      fld "highest_vm_end" (int_ 8 false) ;;
      fld "pgd" (ptr "pgd_t") ;;
      fld "mm_users" ty_atomic_t ;;
      fld "mm_count" ty_atomic_t ;;
      fld "pgtables_bytes" ty_atomic_long_t ;;
      fld "map_count" (int_ 4 true) ;;
      fld "page_table_lock" ty_spinlock_t ;;
      fld "mmap_lock" struct_rw_semaphore ;;
      fld "mmlist" struct_list_head ;;
      fld "hiwater_rss" (int_ 8 false) ;;
      fld "hiwater_vm" (int_ 8 false) ;;
      fld "total_vm" (int_ 8 false) ;;
      fld "locked_vm" (int_ 8 false) ;;
      fld "pinned_vm" ty_atomic64_t ;;
      fld "data_vm" (int_ 8 false) ;;
      fld "exec_vm" (int_ 8 false) ;;
      fld "stack_vm" (int_ 8 false) ;;
      fld "def_flags" (int_ 8 false) ;;
      fld "write_protect_seq" ty_seqcount_t ;;
      fld "arg_lock" ty_spinlock_t ;;
      fld "start_code" (int_ 8 false) ;;
      fld "end_code" (int_ 8 false) ;;
      fld "start_data" (int_ 8 false) ;;
      fld "end_data" (int_ 8 false) ;;
      fld "start_brk" (int_ 8 false) ;;
      fld "brk" (int_ 8 false) ;;
      fld "start_stack" (int_ 8 false) ;;
      fld "arg_start" (int_ 8 false) ;;
      fld "arg_end" (int_ 8 false) ;;
      fld "env_start" (int_ 8 false) ;;
      fld "env_end" (int_ 8 false) ;;
      fld "saved_auxv" (arr (int_ 8 false) 48) ;;
      fld "rss_stat" struct_mm_rss_stat ;;
      fld "binfmt" (ptr "struct linux_binfmt") ;;
      bits "" (int_ 4 true) 32 ;;
      fld "context" ty_mm_context_t ;;
      fld "flags" (int_ 8 false) ;;
      fld "user_ns" (ptr "struct user_namespace") ;;
      fld "exe_file" (ptr "struct file") ;;
      fld "tlb_flush_pending" ty_atomic_t ;;
      fld "tlb_flush_batched" ty_atomic_t ;;
      fld "uprobes_state" struct_uprobes_state ;;
      fld "async_put_work" struct_work_struct ;;
      mnil)) ;;
    fld "cpu_bitmap" (arr (int_ 8 false) 0) ;;
    mnil).

Definition struct_hlist_head : ctype :=
  struct_ false (
    fld "first" (ptr "struct hlist_node") ;;
    mnil).

Definition struct_upid : ctype :=
  struct_ false (
    fld "nr" (int_ 4 true) ;;
    fld "ns" (ptr "struct pid_namespace") ;;
    mnil).

Definition struct_pid : ctype :=
  struct_ false (
    fld "count" ty_refcount_t ;;
    fld "level" (int_ 4 false) ;;
    fld "lock" ty_spinlock_t ;;
    fld "tasks" (arr struct_hlist_head 4) ;;
    fld "inodes" struct_hlist_head ;;
    fld "wait_pidfd" ty_wait_queue_head_t ;;
    fld "rcu" struct_callback_head ;;
    fld "numbers" (arr struct_upid 1) ;;
    mnil).

Definition struct_completion : ctype :=
  struct_ false (
    fld "done" (int_ 4 false) ;;
    fld "wait" struct_swait_queue_head ;;
    mnil).

Definition ty___kernel_uid32_t : ctype :=
  int_ 4 false.

Definition ty_uid_t : ctype :=
  ty___kernel_uid32_t.

Definition ty_kuid_t : ctype :=
  struct_ false (
    fld "val" ty_uid_t ;;
    mnil).

Definition ty___kernel_gid32_t : ctype :=
  int_ 4 false.

Definition ty_gid_t : ctype :=
  ty___kernel_gid32_t.

Definition ty_kgid_t : ctype :=
  struct_ false (
    fld "val" ty_gid_t ;;
    mnil).

Definition struct_kernel_cap_struct : ctype :=
  struct_ false (
    fld "cap" (arr ty___u32 2) ;;
    mnil).

Definition ty_kernel_cap_t : ctype :=
  struct_kernel_cap_struct.

Definition struct_cred : ctype :=
  struct_ false (
    fld "usage" ty_atomic_t ;;
    fld "uid" ty_kuid_t ;;
    fld "gid" ty_kgid_t ;;
    fld "suid" ty_kuid_t ;;
    fld "sgid" ty_kgid_t ;;
    fld "euid" ty_kuid_t ;;
    fld "egid" ty_kgid_t ;;
    fld "fsuid" ty_kuid_t ;;
    fld "fsgid" ty_kgid_t ;;
    fld "securebits" (int_ 4 false) ;;
    fld "cap_inheritable" ty_kernel_cap_t ;;
    fld "cap_permitted" ty_kernel_cap_t ;;
    fld "cap_effective" ty_kernel_cap_t ;;
    fld "cap_bset" ty_kernel_cap_t ;;
    fld "cap_ambient" ty_kernel_cap_t ;;
    fld "user" (ptr "struct user_struct") ;;
    fld "user_ns" (ptr "struct user_namespace") ;;
    fld "ucounts" (ptr "struct ucounts") ;;
    fld "group_info" (ptr "struct group_info") ;;
    anon (union_ false (
      fld "non_rcu" (int_ 4 true) ;;
      fld "rcu" struct_callback_head ;;
      mnil)) ;;
    mnil).

Definition struct_path : ctype :=
  struct_ false (
    fld "mnt" (ptr "struct vfsmount") ;;
    fld "dentry" (ptr "struct dentry") ;;
    mnil).

Definition struct_qstr : ctype :=
  struct_ false (
    anon (union_ false (
      anon (struct_ false (
        fld "hash" ty_u32 ;;
        fld "len" ty_u32 ;;
        mnil)) ;;
      fld "hash_len" ty_u64 ;;
      mnil)) ;;
    fld "name" (ptr "unsigned char") ;;
    mnil).

Definition struct_delayed_call : ctype :=
  struct_ false (
    fld "fn" (ptr "function") ;;
    fld "arg" (ptr "void") ;;
    mnil).

Definition struct_saved : ctype :=
  struct_ false (
    fld "link" struct_path ;;
    fld "done" struct_delayed_call ;;
    fld "name" (ptr "char") ;;
    fld "seq" (int_ 4 false) ;;
    mnil).

Definition ty_umode_t : ctype :=
  int_ 2 false.

Definition struct_nameidata : ctype :=
  struct_ false (
    fld "path" struct_path ;;
    fld "last" struct_qstr ;;
    fld "root" struct_path ;;
    fld "inode" (ptr "struct inode") ;;
    fld "flags" (int_ 4 false) ;;
    fld "state" (int_ 4 false) ;;
    fld "seq" (int_ 4 false) ;;
    fld "next_seq" (int_ 4 false) ;;
    fld "m_seq" (int_ 4 false) ;;
    fld "r_seq" (int_ 4 false) ;;
    fld "last_type" (int_ 4 true) ;;
    fld "depth" (int_ 4 false) ;;
    fld "total_link_count" (int_ 4 true) ;;
    fld "stack" (ptr "struct saved") ;;
    fld "internal" (arr struct_saved 2) ;;
    fld "name" (ptr "struct filename") ;;
    fld "saved" (ptr "struct nameidata") ;;
    fld "root_seq" (int_ 4 false) ;;
    fld "dfd" (int_ 4 true) ;;
    fld "dir_uid" ty_kuid_t ;;
    fld "dir_mode" ty_umode_t ;;
    mnil).

Definition struct_seqcount_spinlock : ctype :=
  struct_ false (
    fld "seqcount" ty_seqcount_t ;;
    mnil).

Definition ty_seqcount_spinlock_t : ctype :=
  struct_seqcount_spinlock.

Definition struct_fs_struct : ctype :=
  struct_ false (
    fld "users" (int_ 4 true) ;;
    fld "lock" ty_spinlock_t ;;
    fld "seq" ty_seqcount_spinlock_t ;;
    fld "umask" (int_ 4 true) ;;
    fld "in_exec" (int_ 4 true) ;;
    fld "root" struct_path ;;
    fld "pwd" struct_path ;;
    mnil).

Definition struct_fdtable : ctype :=
  struct_ false (
    fld "max_fds" (int_ 4 false) ;;
    fld "fd" (ptr "struct file *") ;;
    fld "close_on_exec" (ptr "long unsigned int") ;;
    fld "open_fds" (ptr "long unsigned int") ;;
    fld "full_fds_bits" (ptr "long unsigned int") ;;
    fld "rcu" struct_callback_head ;;
    mnil).

Definition struct_files_struct : ctype :=
  struct_ false (
    fld "count" ty_atomic_t ;;
    fld "resize_in_progress" ty_bool ;;
    fld "resize_wait" ty_wait_queue_head_t ;;
    fld "fdt" (ptr "struct fdtable") ;;
    fld "fdtab" struct_fdtable ;;
    fld "file_lock" ty_spinlock_t ;;
    fld "next_fd" (int_ 4 false) ;;
    fld "close_on_exec_init" (arr (int_ 8 false) 1) ;;
    fld "open_fds_init" (arr (int_ 8 false) 1) ;;
    fld "full_fds_bits_init" (arr (int_ 8 false) 1) ;;
    fld "fd_array" (arr (ptr "struct file") 32) ;;
    mnil).

Definition struct_nsproxy : ctype :=
  struct_ false (
    fld "count" ty_atomic_t ;;
    fld "uts_ns" (ptr "struct uts_namespace") ;;
    fld "ipc_ns" (ptr "struct ipc_namespace") ;;
    fld "mnt_ns" (ptr "struct mnt_namespace") ;;
    fld "pid_ns_for_children" (ptr "struct pid_namespace") ;;
    fld "net_ns" (ptr "struct net") ;;
    fld "time_ns" (ptr "struct time_namespace") ;;
    fld "time_ns_for_children" (ptr "struct time_namespace") ;;
    fld "cgroup_ns" (ptr "struct cgroup_namespace") ;;
    mnil).

Definition ty_seqlock_t : ctype :=
  struct_ false (
    fld "seqcount" ty_seqcount_spinlock_t ;;
    fld "lock" ty_spinlock_t ;;
    mnil).

Definition ty___kernel_ulong_t : ctype :=
  int_ 8 false.

Definition struct_rlimit : ctype :=
  struct_ false (
    fld "rlim_cur" ty___kernel_ulong_t ;;
    fld "rlim_max" ty___kernel_ulong_t ;;
    mnil).

Definition struct_signal_struct : ctype :=
  struct_ false (
    fld "sigcnt" ty_refcount_t ;;
    fld "live" ty_atomic_t ;;
    fld "nr_threads" (int_ 4 true) ;;
    fld "thread_head" struct_list_head ;;
    fld "wait_chldexit" ty_wait_queue_head_t ;;
    fld "curr_target" (ptr "struct task_struct") ;;
    fld "shared_pending" struct_sigpending ;;
    fld "multiprocess" struct_hlist_head ;;
    fld "group_exit_code" (int_ 4 true) ;;
    fld "notify_count" (int_ 4 true) ;;
    fld "group_exec_task" (ptr "struct task_struct") ;;
    fld "group_stop_count" (int_ 4 true) ;;
    fld "flags" (int_ 4 false) ;;
    fld "core_state" (ptr "struct core_state") ;;
    bits "is_child_subreaper" (int_ 4 false) 1 ;;
    bits "has_child_subreaper" (int_ 4 false) 1 ;;
    fld "posix_cputimers" struct_posix_cputimers ;;
    fld "pids" (arr (ptr "struct pid") 4) ;;
    fld "tty_old_pgrp" (ptr "struct pid") ;;
    fld "leader" (int_ 4 true) ;;
    fld "tty" (ptr "struct tty_struct") ;;
    fld "stats_lock" ty_seqlock_t ;;
    fld "utime" ty_u64 ;;
    fld "stime" ty_u64 ;;
    fld "cutime" ty_u64 ;;
    fld "cstime" ty_u64 ;;
    fld "gtime" ty_u64 ;;
    fld "cgtime" ty_u64 ;;
    fld "prev_cputime" struct_prev_cputime ;;
    fld "nvcsw" (int_ 8 false) ;;
    fld "nivcsw" (int_ 8 false) ;;
    fld "cnvcsw" (int_ 8 false) ;;
    fld "cnivcsw" (int_ 8 false) ;;
    fld "min_flt" (int_ 8 false) ;;
    fld "maj_flt" (int_ 8 false) ;;
    fld "cmin_flt" (int_ 8 false) ;;
    fld "cmaj_flt" (int_ 8 false) ;;
    fld "inblock" (int_ 8 false) ;;
    fld "oublock" (int_ 8 false) ;;
    fld "cinblock" (int_ 8 false) ;;
    fld "coublock" (int_ 8 false) ;;
    fld "maxrss" (int_ 8 false) ;;
    fld "cmaxrss" (int_ 8 false) ;;
    fld "ioac" struct_task_io_accounting ;;
    fld "sum_sched_runtime" (int_ 8 false) ;;
    fld "rlim" (arr struct_rlimit 16) ;;
    fld "oom_flag_origin" ty_bool ;;
    fld "oom_score_adj" (int_ 2 true) ;;
    fld "oom_score_adj_min" (int_ 2 true) ;;
    fld "oom_mm" (ptr "struct mm_struct") ;;
    fld "cred_guard_mutex" struct_mutex ;;
    fld "exec_update_lock" struct_rw_semaphore ;;
    mnil).

Definition ty___sighandler_t : ctype :=
  ptr "__signalfn_t".

Definition ty___sigrestore_t : ctype :=
  ptr "__restorefn_t".

Definition struct_sigaction : ctype :=
  struct_ false (
    fld "sa_handler" ty___sighandler_t ;;
    fld "sa_flags" (int_ 8 false) ;;
    fld "sa_restorer" ty___sigrestore_t ;;
    fld "sa_mask" ty_sigset_t ;;
    mnil).

Definition struct_k_sigaction : ctype :=
  struct_ false (
    fld "sa" struct_sigaction ;;
    mnil).

Definition struct_sighand_struct : ctype :=
  struct_ false (
    fld "siglock" ty_spinlock_t ;;
    fld "count" ty_refcount_t ;;
    fld "signalfd_wqh" ty_wait_queue_head_t ;;
    fld "action" (arr struct_k_sigaction 64) ;;
    mnil).

Definition struct_blk_plug : ctype :=
  struct_ false (
    mnil).

Definition struct_reclaim_state : ctype :=
  struct_ false (
    fld "reclaimed_slab" (int_ 8 false) ;;
    mnil).

Definition struct_percpu_counter : ctype :=
  struct_ false (
    fld "count" ty_s64 ;;
    mnil).

Definition struct_fprop_local_percpu : ctype :=
  struct_ false (
    fld "events" struct_percpu_counter ;;
    fld "period" (int_ 4 false) ;;
    fld "lock" ty_raw_spinlock_t ;;
    mnil).

Definition enum_wb_reason : ctype :=
  enum_ 4 [("WB_REASON_BACKGROUND", 0); ("WB_REASON_VMSCAN", 1); ("WB_REASON_SYNC", 2); ("WB_REASON_PERIODIC", 3); ("WB_REASON_LAPTOP_TIMER", 4); ("WB_REASON_FS_FREE_SPACE", 5); ("WB_REASON_FORKER_THREAD", 6); ("WB_REASON_FOREIGN_FLUSH", 7); ("WB_REASON_MAX", 8)].

Definition struct_bdi_writeback : ctype :=
  struct_ false (
    fld "bdi" (ptr "struct backing_dev_info") ;;
    fld "state" (int_ 8 false) ;;
    fld "last_old_flush" (int_ 8 false) ;;
    fld "b_dirty" struct_list_head ;;
    fld "b_io" struct_list_head ;;
    fld "b_more_io" struct_list_head ;;
    fld "b_dirty_time" struct_list_head ;;
    fld "list_lock" ty_spinlock_t ;;
    fld "writeback_inodes" ty_atomic_t ;;
    fld "stat" (arr struct_percpu_counter 4) ;;
    fld "bw_time_stamp" (int_ 8 false) ;;
    fld "dirtied_stamp" (int_ 8 false) ;;
    fld "written_stamp" (int_ 8 false) ;;
    fld "write_bandwidth" (int_ 8 false) ;;
    fld "avg_write_bandwidth" (int_ 8 false) ;;
    fld "dirty_ratelimit" (int_ 8 false) ;;
    fld "balanced_dirty_ratelimit" (int_ 8 false) ;;
    fld "completions" struct_fprop_local_percpu ;;
    fld "dirty_exceeded" (int_ 4 true) ;;
    fld "start_all_reason" enum_wb_reason ;;
    fld "work_lock" ty_spinlock_t ;;
    fld "work_list" struct_list_head ;;
    fld "dwork" struct_delayed_work ;;
    fld "bw_dwork" struct_delayed_work ;;
    fld "dirty_sleep" (int_ 8 false) ;;
    fld "bdi_node" struct_list_head ;;
    mnil).

Definition struct_backing_dev_info : ctype :=
  struct_ false (
    fld "id" ty_u64 ;;
    fld "rb_node" struct_rb_node ;;
    fld "bdi_list" struct_list_head ;;
    fld "ra_pages" (int_ 8 false) ;;
    fld "io_pages" (int_ 8 false) ;;
    fld "refcnt" struct_kref ;;
    fld "capabilities" (int_ 4 false) ;;
    fld "min_ratio" (int_ 4 false) ;;
    fld "max_ratio" (int_ 4 false) ;;
    fld "max_prop_frac" (int_ 4 false) ;;
    fld "tot_write_bandwidth" ty_atomic_long_t ;;
    fld "wb" struct_bdi_writeback ;;
    fld "wb_list" struct_list_head ;;
    fld "wb_waitq" ty_wait_queue_head_t ;;
    fld "dev" (ptr "struct device") ;;
    fld "dev_name" (arr (int_ 1 true) 64) ;;
    fld "owner" (ptr "struct device") ;;
    fld "laptop_mode_wb_timer" struct_timer_list ;;
    mnil).

Definition struct_io_context : ctype :=
  struct_ false (
    fld "refcount" ty_atomic_long_t ;;
    fld "active_ref" ty_atomic_t ;;
    fld "ioprio" (int_ 2 false) ;;
    mnil).

Definition struct_perf_event_groups : ctype :=
  struct_ false (
    fld "tree" struct_rb_root ;;
    fld "index" ty_u64 ;;
    mnil).

Definition struct_perf_event_context : ctype :=
  struct_ false (
    fld "pmu" (ptr "struct pmu") ;;
    fld "lock" ty_raw_spinlock_t ;;
    fld "mutex" struct_mutex ;;
    fld "active_ctx_list" struct_list_head ;;
    fld "pinned_groups" struct_perf_event_groups ;;
    fld "flexible_groups" struct_perf_event_groups ;;
    fld "event_list" struct_list_head ;;
    fld "pinned_active" struct_list_head ;;
    fld "flexible_active" struct_list_head ;;
    fld "nr_events" (int_ 4 true) ;;
    fld "nr_active" (int_ 4 true) ;;
    fld "nr_user" (int_ 4 true) ;;
    fld "is_active" (int_ 4 true) ;;
    fld "nr_stat" (int_ 4 true) ;;
    fld "nr_freq" (int_ 4 true) ;;
    fld "rotate_disable" (int_ 4 true) ;;
    fld "rotate_necessary" (int_ 4 true) ;;
    fld "refcount" ty_refcount_t ;;
    fld "task" (ptr "struct task_struct") ;;
    fld "time" ty_u64 ;;
    fld "timestamp" ty_u64 ;;
    fld "timeoffset" ty_u64 ;;
    fld "parent_ctx" (ptr "struct perf_event_context") ;;
    fld "parent_gen" ty_u64 ;;
    fld "generation" ty_u64 ;;
    fld "pin_count" (int_ 4 true) ;;
    fld "task_ctx_data" (ptr "void") ;;
    fld "callback_head" struct_callback_head ;;
    mnil).

Definition struct_pipe_inode_info : ctype :=
  struct_ false (
    fld "mutex" struct_mutex ;;
    fld "rd_wait" ty_wait_queue_head_t ;;
    fld "wr_wait" ty_wait_queue_head_t ;;
    fld "head" (int_ 4 false) ;;
    fld "tail" (int_ 4 false) ;;
    fld "max_usage" (int_ 4 false) ;;
    fld "ring_size" (int_ 4 false) ;;
    fld "nr_accounted" (int_ 4 false) ;;
    fld "readers" (int_ 4 false) ;;
    fld "writers" (int_ 4 false) ;;
    fld "files" (int_ 4 false) ;;
    fld "r_counter" (int_ 4 false) ;;
    fld "w_counter" (int_ 4 false) ;;
    fld "poll_usage" ty_bool ;;
    fld "tmp_page" (ptr "struct page") ;;
    fld "fasync_readers" (ptr "struct fasync_struct") ;;
    fld "fasync_writers" (ptr "struct fasync_struct") ;;
    fld "bufs" (ptr "struct pipe_buffer") ;;
    fld "user" (ptr "struct user_struct") ;;
    mnil).

Definition enum_uprobe_task_state : ctype :=
  enum_ 4 [("UTASK_RUNNING", 0); ("UTASK_SSTEP", 1); ("UTASK_SSTEP_ACK", 2); ("UTASK_SSTEP_TRAPPED", 3)].

Definition struct_arch_uprobe_task : ctype :=
  struct_ false (
    fld "saved_trap_nr" (int_ 4 false) ;;
    fld "saved_tf" (int_ 4 false) ;;
    mnil).

Definition struct_uprobe_task : ctype :=
  struct_ false (
    fld "state" enum_uprobe_task_state ;;
    anon (union_ false (
      anon (struct_ false (
        fld "autask" struct_arch_uprobe_task ;;
        fld "vaddr" (int_ 8 false) ;;
        mnil)) ;;
      anon (struct_ false (
        fld "dup_xol_work" struct_callback_head ;;
        fld "dup_xol_addr" (int_ 8 false) ;;
        mnil)) ;;
      mnil)) ;;
    fld "active_uprobe" (ptr "struct uprobe") ;;
    fld "xol_vaddr" (int_ 8 false) ;;
    fld "return_instances" (ptr "struct return_instance") ;;
    fld "depth" (int_ 4 false) ;;
    mnil).

Definition struct_bpf_local_storage : ctype :=
  struct_ false (
    fld "cache" (arr (ptr "struct bpf_local_storage_data") 16) ;;
    fld "list" struct_hlist_head ;;
    fld "owner" (ptr "void") ;;
    fld "rcu" struct_callback_head ;;
    fld "lock" ty_raw_spinlock_t ;;
    mnil).

Definition struct_bpf_run_ctx : ctype :=
  struct_ false (
    mnil).

Definition struct_kset : ctype :=
  struct_ false (
    fld "list" struct_list_head ;;
    fld "list_lock" ty_spinlock_t ;;
    fld "kobj" struct_kobject ;;
    fld "uevent_ops" (ptr "struct kset_uevent_ops") ;;
    mnil).

Definition struct_kobj_type : ctype :=
  struct_ false (
    fld "release" (ptr "function") ;;
    fld "sysfs_ops" (ptr "struct sysfs_ops") ;;
    fld "default_groups" (ptr "struct attribute_group *") ;;
    fld "child_ns_type" (ptr "function") ;;
    fld "namespace" (ptr "function") ;;
    fld "get_ownership" (ptr "function") ;;
    mnil).

Definition struct_kernfs_elem_dir : ctype :=
  struct_ false (
    fld "subdirs" (int_ 8 false) ;;
    fld "children" struct_rb_root ;;
    fld "root" (ptr "struct kernfs_root") ;;
    fld "rev" (int_ 8 false) ;;
    mnil).

Definition struct_kernfs_elem_symlink : ctype :=
  struct_ false (
    fld "target_kn" (ptr "struct kernfs_node") ;;
    mnil).

Definition ty___kernel_loff_t : ctype :=
  int_ 8 true.

Definition ty_loff_t : ctype :=
  ty___kernel_loff_t.

Definition struct_kernfs_elem_attr : ctype :=
  struct_ false (
    fld "ops" (ptr "struct kernfs_ops") ;;
    fld "open" (ptr "struct kernfs_open_node") ;;
    fld "size" ty_loff_t ;;
    fld "notify_next" (ptr "struct kernfs_node") ;;
    mnil).

Definition struct_kernfs_node : ctype :=
  struct_ false (
    fld "count" ty_atomic_t ;;
    fld "active" ty_atomic_t ;;
    fld "parent" (ptr "struct kernfs_node") ;;
    fld "name" (ptr "char") ;;
    fld "rb" struct_rb_node ;;
    fld "ns" (ptr "void") ;;
    fld "hash" (int_ 4 false) ;;
    anon (union_ false (
      fld "dir" struct_kernfs_elem_dir ;;
      fld "symlink" struct_kernfs_elem_symlink ;;
      fld "attr" struct_kernfs_elem_attr ;;
      mnil)) ;;
    fld "priv" (ptr "void") ;;
    fld "id" ty_u64 ;;
    fld "flags" (int_ 2 false) ;;
    fld "mode" ty_umode_t ;;
    fld "iattr" (ptr "struct kernfs_iattrs") ;;
    mnil).

Definition struct_pm_subsys_data : ctype :=
  struct_ false (
    fld "lock" ty_spinlock_t ;;
    fld "refcount" (int_ 4 false) ;;
    mnil).

Definition struct_plist_head : ctype :=
  struct_ false (
    fld "node_list" struct_list_head ;;
    mnil).

Definition enum_pm_qos_type : ctype :=
  enum_ 4 [("PM_QOS_UNITIALIZED", 0); ("PM_QOS_MAX", 1); ("PM_QOS_MIN", 2)].

Definition struct_pm_qos_constraints : ctype :=
  struct_ false (
    fld "list" struct_plist_head ;;
    fld "target_value" ty_s32 ;;
    fld "default_value" ty_s32 ;;
    fld "no_constraint_value" ty_s32 ;;
    fld "type" enum_pm_qos_type ;;
    fld "notifiers" (ptr "struct blocking_notifier_head") ;;
    mnil).

Definition struct_blocking_notifier_head : ctype :=
  struct_ false (
    fld "rwsem" struct_rw_semaphore ;;
    fld "head" (ptr "struct notifier_block") ;;
    mnil).

Definition struct_freq_constraints : ctype :=
  struct_ false (
    fld "min_freq" struct_pm_qos_constraints ;;
    fld "min_freq_notifiers" struct_blocking_notifier_head ;;
    fld "max_freq" struct_pm_qos_constraints ;;
    fld "max_freq_notifiers" struct_blocking_notifier_head ;;
    mnil).

Definition struct_pm_qos_flags : ctype :=
  struct_ false (
    fld "list" struct_list_head ;;
    fld "effective_flags" ty_s32 ;;
    mnil).

Definition struct_dev_pm_qos : ctype :=
  struct_ false (
    fld "resume_latency" struct_pm_qos_constraints ;;
    fld "latency_tolerance" struct_pm_qos_constraints ;;
    fld "freq" struct_freq_constraints ;;
    fld "flags" struct_pm_qos_flags ;;
    fld "resume_latency_req" (ptr "struct dev_pm_qos_request") ;;
    fld "latency_tolerance_req" (ptr "struct dev_pm_qos_request") ;;
    fld "flags_req" (ptr "struct dev_pm_qos_request") ;;
    mnil).

Definition struct_klist : ctype :=
  struct_ false (
    fld "k_lock" ty_spinlock_t ;;
    fld "k_list" struct_list_head ;;
    fld "get" (ptr "function") ;;
    fld "put" (ptr "function") ;;
    mnil).

Definition struct_klist_node : ctype :=
  struct_ false (
    fld "n_klist" (ptr "void") ;;
    fld "n_node" struct_list_head ;;
    fld "n_ref" struct_kref ;;
    mnil).

Definition struct_device_private : ctype :=
  struct_ false (
    fld "klist_children" struct_klist ;;
    fld "knode_parent" struct_klist_node ;;
    fld "knode_driver" struct_klist_node ;;
    fld "knode_bus" struct_klist_node ;;
    fld "knode_class" struct_klist_node ;;
    fld "deferred_probe" struct_list_head ;;
    fld "async_driver" (ptr "struct device_driver") ;;
    fld "deferred_probe_reason" (ptr "char") ;;
    fld "device" (ptr "struct device") ;;
    bits "dead" ty_u8 1 ;;
    mnil).

Definition struct_device_type : ctype :=
  struct_ false (
    fld "name" (ptr "char") ;;
    fld "groups" (ptr "struct attribute_group *") ;;
    fld "uevent" (ptr "function") ;;
    fld "devnode" (ptr "function") ;;
    fld "release" (ptr "function") ;;
    fld "pm" (ptr "struct dev_pm_ops") ;;
    mnil).

Definition struct_lock_class_key : ctype :=
  struct_ false (
    mnil).

Definition struct_bus_type : ctype :=
  struct_ false (
    fld "name" (ptr "char") ;;
    fld "dev_name" (ptr "char") ;;
    fld "dev_root" (ptr "struct device") ;;
    fld "bus_groups" (ptr "struct attribute_group *") ;;
    fld "dev_groups" (ptr "struct attribute_group *") ;;
    fld "drv_groups" (ptr "struct attribute_group *") ;;
    fld "match" (ptr "function") ;;
    fld "uevent" (ptr "function") ;;
    fld "probe" (ptr "function") ;;
    fld "sync_state" (ptr "function") ;;
    fld "remove" (ptr "function") ;;
    fld "shutdown" (ptr "function") ;;
    fld "online" (ptr "function") ;;
    fld "offline" (ptr "function") ;;
    fld "suspend" (ptr "function") ;;
    fld "resume" (ptr "function") ;;
    fld "num_vf" (ptr "function") ;;
    fld "dma_configure" (ptr "function") ;;
    fld "dma_cleanup" (ptr "function") ;;
    fld "pm" (ptr "struct dev_pm_ops") ;;
    fld "iommu_ops" (ptr "struct iommu_ops") ;;
    fld "p" (ptr "struct subsys_private") ;;
    fld "lock_key" struct_lock_class_key ;;
    fld "need_parent_lock" ty_bool ;;
    mnil).

Definition enum_probe_type : ctype :=
  enum_ 4 [("PROBE_DEFAULT_STRATEGY", 0); ("PROBE_PREFER_ASYNCHRONOUS", 1); ("PROBE_FORCE_SYNCHRONOUS", 2)].

Definition struct_device_driver : ctype :=
  struct_ false (
    fld "name" (ptr "char") ;;
    fld "bus" (ptr "struct bus_type") ;;
    fld "owner" (ptr "struct module") ;;
    fld "mod_name" (ptr "char") ;;
    fld "suppress_bind_attrs" ty_bool ;;
    fld "probe_type" enum_probe_type ;;
    fld "of_match_table" (ptr "struct of_device_id") ;;
    fld "acpi_match_table" (ptr "struct acpi_device_id") ;;
    fld "probe" (ptr "function") ;;
    fld "sync_state" (ptr "function") ;;
    fld "remove" (ptr "function") ;;
    fld "shutdown" (ptr "function") ;;
    fld "suspend" (ptr "function") ;;
    fld "resume" (ptr "function") ;;
    fld "groups" (ptr "struct attribute_group *") ;;
    fld "dev_groups" (ptr "struct attribute_group *") ;;
    fld "pm" (ptr "struct dev_pm_ops") ;;
    fld "coredump" (ptr "function") ;;
    fld "p" (ptr "struct driver_private") ;;
    mnil).

Definition struct_dev_pm_ops : ctype :=
  struct_ false (
    fld "prepare" (ptr "function") ;;
    fld "complete" (ptr "function") ;;
    fld "suspend" (ptr "function") ;;
    fld "resume" (ptr "function") ;;
    fld "freeze" (ptr "function") ;;
    fld "thaw" (ptr "function") ;;
    fld "poweroff" (ptr "function") ;;
    fld "restore" (ptr "function") ;;
    fld "suspend_late" (ptr "function") ;;
    fld "resume_early" (ptr "function") ;;
    fld "freeze_late" (ptr "function") ;;
    fld "thaw_early" (ptr "function") ;;
    fld "poweroff_late" (ptr "function") ;;
    fld "restore_early" (ptr "function") ;;
    fld "suspend_noirq" (ptr "function") ;;
    fld "resume_noirq" (ptr "function") ;;
    fld "freeze_noirq" (ptr "function") ;;
    fld "thaw_noirq" (ptr "function") ;;
    fld "poweroff_noirq" (ptr "function") ;;
    fld "restore_noirq" (ptr "function") ;;
    fld "runtime_suspend" (ptr "function") ;;
    fld "runtime_resume" (ptr "function") ;;
    fld "runtime_idle" (ptr "function") ;;
    mnil).

Definition struct_dev_pm_domain : ctype :=
  struct_ false (
    fld "ops" struct_dev_pm_ops ;;
    fld "start" (ptr "function") ;;
    fld "detach" (ptr "function") ;;
    fld "activate" (ptr "function") ;;
    fld "sync" (ptr "function") ;;
    fld "dismiss" (ptr "function") ;;
    mnil).

Definition ty_phys_addr_t : ctype :=
  ty_u32.

Definition ty_dma_addr_t : ctype :=
  ty_u32.

Definition struct_bus_dma_region : ctype :=
  struct_ false (
    fld "cpu_start" ty_phys_addr_t ;;
    fld "dma_start" ty_dma_addr_t ;;
    fld "size" ty_u64 ;;
    fld "offset" ty_u64 ;;
    mnil).

Definition struct_device_dma_parameters : ctype :=
  struct_ false (
    fld "max_segment_size" (int_ 4 false) ;;
    fld "min_align_mask" (int_ 4 false) ;;
    fld "segment_boundary_mask" (int_ 8 false) ;;
    mnil).

Definition ty_phandle : ctype :=
  ty_u32.

Definition struct_fwnode_handle : ctype :=
  struct_ false (
    fld "secondary" (ptr "struct fwnode_handle") ;;
    fld "ops" (ptr "struct fwnode_operations") ;;
    fld "dev" (ptr "struct device") ;;
    fld "suppliers" struct_list_head ;;
    fld "consumers" struct_list_head ;;
    fld "flags" ty_u8 ;;
    mnil).

Definition struct_device_node : ctype :=
  struct_ false (
    fld "name" (ptr "char") ;;
    fld "phandle" ty_phandle ;;
    fld "full_name" (ptr "char") ;;
    fld "fwnode" struct_fwnode_handle ;;
    fld "properties" (ptr "struct property") ;;
    fld "deadprops" (ptr "struct property") ;;
    fld "parent" (ptr "struct device_node") ;;
    fld "child" (ptr "struct device_node") ;;
    fld "sibling" (ptr "struct device_node") ;;
    fld "_flags" (int_ 8 false) ;;
    fld "data" (ptr "void") ;;
    mnil).

Definition struct_class : ctype :=
  struct_ false (
    fld "name" (ptr "char") ;;
    fld "owner" (ptr "struct module") ;;
    fld "class_groups" (ptr "struct attribute_group *") ;;
    fld "dev_groups" (ptr "struct attribute_group *") ;;
    fld "dev_kobj" (ptr "struct kobject") ;;
    fld "dev_uevent" (ptr "function") ;;
    fld "devnode" (ptr "function") ;;
    fld "class_release" (ptr "function") ;;
    fld "dev_release" (ptr "function") ;;
    fld "shutdown_pre" (ptr "function") ;;
    fld "ns_type" (ptr "struct kobj_ns_type_operations") ;;
    fld "namespace" (ptr "function") ;;
    fld "get_ownership" (ptr "function") ;;
    fld "pm" (ptr "struct dev_pm_ops") ;;
    fld "p" (ptr "struct subsys_private") ;;
    mnil).

Definition struct_attribute_group : ctype :=
  struct_ false (
    fld "name" (ptr "char") ;;
    fld "is_visible" (ptr "function") ;;
    fld "is_bin_visible" (ptr "function") ;;
    fld "attrs" (ptr "struct attribute *") ;;
    fld "bin_attrs" (ptr "struct bin_attribute *") ;;
    mnil).

Definition struct_iommu_group : ctype :=
  struct_ false (
    mnil).

Definition enum_device_physical_location_panel : ctype :=
  enum_ 4 [("DEVICE_PANEL_TOP", 0); ("DEVICE_PANEL_BOTTOM", 1); ("DEVICE_PANEL_LEFT", 2); ("DEVICE_PANEL_RIGHT", 3); ("DEVICE_PANEL_FRONT", 4); ("DEVICE_PANEL_BACK", 5); ("DEVICE_PANEL_UNKNOWN", 6)].

Definition enum_device_physical_location_vertical_position : ctype :=
  enum_ 4 [("DEVICE_VERT_POS_UPPER", 0); ("DEVICE_VERT_POS_CENTER", 1); ("DEVICE_VERT_POS_LOWER", 2)].

Definition enum_device_physical_location_horizontal_position : ctype :=
  enum_ 4 [("DEVICE_HORI_POS_LEFT", 0); ("DEVICE_HORI_POS_CENTER", 1); ("DEVICE_HORI_POS_RIGHT", 2)].

Definition struct_device_physical_location : ctype :=
  struct_ false (
    fld "panel" enum_device_physical_location_panel ;;
    fld "vertical_position" enum_device_physical_location_vertical_position ;;
    fld "horizontal_position" enum_device_physical_location_horizontal_position ;;
    fld "dock" ty_bool ;;
    fld "lid" ty_bool ;;
    mnil).

Definition ty_time64_t : ctype :=
  ty___s64.

Definition struct_timespec64 : ctype :=
  struct_ false (
    fld "tv_sec" ty_time64_t ;;
    fld "tv_nsec" (int_ 8 true) ;;
    mnil).

Definition ty_blkcnt_t : ctype :=
  ty_u64.

Definition ty_errseq_t : ctype :=
  ty_u32.

Definition struct_address_space : ctype :=
  struct_ false (
    fld "host" (ptr "struct inode") ;;
    fld "i_pages" struct_xarray ;;
    fld "invalidate_lock" struct_rw_semaphore ;;
    fld "gfp_mask" ty_gfp_t ;;
    fld "i_mmap_writable" ty_atomic_t ;;
    fld "i_mmap" struct_rb_root_cached ;;
    fld "i_mmap_rwsem" struct_rw_semaphore ;;
    fld "nrpages" (int_ 8 false) ;;
    fld "writeback_index" (int_ 8 false) ;;
    fld "a_ops" (ptr "struct address_space_operations") ;;
    fld "flags" (int_ 8 false) ;;
    fld "wb_err" ty_errseq_t ;;
    fld "private_lock" ty_spinlock_t ;;
    fld "private_list" struct_list_head ;;
    fld "private_data" (ptr "void") ;;
    mnil).

Definition struct_inode : ctype :=
  struct_ false (
    fld "i_mode" ty_umode_t ;;
    fld "i_opflags" (int_ 2 false) ;;
    fld "i_uid" ty_kuid_t ;;
    fld "i_gid" ty_kgid_t ;;
    fld "i_flags" (int_ 4 false) ;;
    fld "i_op" (ptr "struct inode_operations") ;;
    fld "i_sb" (ptr "struct super_block") ;;
    fld "i_mapping" (ptr "struct address_space") ;;
    fld "i_ino" (int_ 8 false) ;;
    anon (union_ false (
      fld "i_nlink" (int_ 4 false) ;;
      fld "__i_nlink" (int_ 4 false) ;;
      mnil)) ;;
    fld "i_rdev" ty_dev_t ;;
    fld "i_size" ty_loff_t ;;
    fld "i_atime" struct_timespec64 ;;
    fld "i_mtime" struct_timespec64 ;;
    fld "i_ctime" struct_timespec64 ;;
    fld "i_lock" ty_spinlock_t ;;
    fld "i_bytes" (int_ 2 false) ;;
    fld "i_blkbits" ty_u8 ;;
    fld "i_write_hint" ty_u8 ;;
    fld "i_blocks" ty_blkcnt_t ;;
    fld "i_state" (int_ 8 false) ;;
    fld "i_rwsem" struct_rw_semaphore ;;
    fld "dirtied_when" (int_ 8 false) ;;
    fld "dirtied_time_when" (int_ 8 false) ;;
    fld "i_hash" struct_hlist_node ;;
    fld "i_io_list" struct_list_head ;;
    fld "i_lru" struct_list_head ;;
    fld "i_sb_list" struct_list_head ;;
    fld "i_wb_list" struct_list_head ;;
    anon (union_ false (
      fld "i_dentry" struct_hlist_head ;;
      fld "i_rcu" struct_callback_head ;;
      mnil)) ;;
    bits "" (int_ 4 true) 32 ;;
    fld "i_version" ty_atomic64_t ;;
    fld "i_sequence" ty_atomic64_t ;;
    fld "i_count" ty_atomic_t ;;
    fld "i_dio_count" ty_atomic_t ;;
    fld "i_writecount" ty_atomic_t ;;
    anon (union_ false (
      fld "i_fop" (ptr "struct file_operations") ;;
      fld "free_inode" (ptr "function") ;;
      mnil)) ;;
    fld "i_flctx" (ptr "struct file_lock_context") ;;
    fld "i_data" struct_address_space ;;
    fld "i_devices" struct_list_head ;;
    anon (union_ false (
      fld "i_pipe" (ptr "struct pipe_inode_info") ;;
      fld "i_cdev" (ptr "struct cdev") ;;
      fld "i_link" (ptr "char") ;;
      fld "i_dir_seq" (int_ 4 false) ;;
      mnil)) ;;
    fld "i_generation" ty___u32 ;;
    fld "i_private" (ptr "void") ;;
    bits "" (int_ 4 true) 32 ;;
    mnil).

Definition struct_hlist_bl_head : ctype :=
  struct_ false (
    fld "first" (ptr "struct hlist_bl_node") ;;
    mnil).

Definition ty_qsize_t : ctype :=
  int_ 8 true.

Definition struct_mem_dqinfo : ctype :=
  struct_ false (
    fld "dqi_format" (ptr "struct quota_format_type") ;;
    fld "dqi_fmt_id" (int_ 4 true) ;;
    fld "dqi_dirty_list" struct_list_head ;;
    fld "dqi_flags" (int_ 8 false) ;;
    fld "dqi_bgrace" (int_ 4 false) ;;
    fld "dqi_igrace" (int_ 4 false) ;;
    fld "dqi_max_spc_limit" ty_qsize_t ;;
    fld "dqi_max_ino_limit" ty_qsize_t ;;
    fld "dqi_priv" (ptr "void") ;;
    mnil).

Definition struct_quota_info : ctype :=
  struct_ false (
    fld "flags" (int_ 4 false) ;;
    fld "dqio_sem" struct_rw_semaphore ;;
    fld "files" (arr (ptr "struct inode") 3) ;;
    fld "info" (arr struct_mem_dqinfo 3) ;;
    fld "ops" (arr (ptr "struct quota_format_ops") 3) ;;
    mnil).

Definition struct_rcu_sync : ctype :=
  struct_ false (
    fld "gp_state" (int_ 4 true) ;;
    fld "gp_count" (int_ 4 true) ;;
    fld "gp_wait" ty_wait_queue_head_t ;;
    fld "cb_head" struct_callback_head ;;
    mnil).

Definition struct_percpu_rw_semaphore : ctype :=
  struct_ false (
    fld "rss" struct_rcu_sync ;;
    fld "read_count" (ptr "unsigned int") ;;
    fld "writer" struct_rcuwait ;;
    fld "waiters" ty_wait_queue_head_t ;;
    fld "block" ty_atomic_t ;;
    mnil).

Definition struct_sb_writers : ctype :=
  struct_ false (
    fld "frozen" (int_ 4 true) ;;
    fld "wait_unfrozen" ty_wait_queue_head_t ;;
    fld "rw_sem" (arr struct_percpu_rw_semaphore 3) ;;
    mnil).

Definition ty_uuid_t : ctype :=
  struct_ false (
    fld "b" (arr ty___u8 16) ;;
    mnil).

Definition ty_fmode_t : ctype :=
  int_ 4 false.

Definition struct_shrinker : ctype :=
  struct_ false (
    fld "count_objects" (ptr "function") ;;
    fld "scan_objects" (ptr "function") ;;
    fld "batch" (int_ 8 true) ;;
    fld "seeks" (int_ 4 true) ;;
    fld "flags" (int_ 4 false) ;;
    fld "list" struct_list_head ;;
    fld "nr_deferred" (ptr "atomic_long_t") ;;
    mnil).

Definition struct_list_lru : ctype :=
  struct_ false (
    fld "node" (ptr "struct list_lru_node") ;;
    mnil).

Definition struct_super_block : ctype :=
  struct_ false (
    fld "s_list" struct_list_head ;;
    fld "s_dev" ty_dev_t ;;
    fld "s_blocksize_bits" (int_ 1 false) ;;
    fld "s_blocksize" (int_ 8 false) ;;
    fld "s_maxbytes" ty_loff_t ;;
    fld "s_type" (ptr "struct file_system_type") ;;
    fld "s_op" (ptr "struct super_operations") ;;
    fld "dq_op" (ptr "struct dquot_operations") ;;
    fld "s_qcop" (ptr "struct quotactl_ops") ;;
    fld "s_export_op" (ptr "struct export_operations") ;;
    fld "s_flags" (int_ 8 false) ;;
    fld "s_iflags" (int_ 8 false) ;;
    fld "s_magic" (int_ 8 false) ;;
    fld "s_root" (ptr "struct dentry") ;;
    fld "s_umount" struct_rw_semaphore ;;
    fld "s_count" (int_ 4 true) ;;
    fld "s_active" ty_atomic_t ;;
    fld "s_xattr" (ptr "struct xattr_handler *") ;;
    fld "s_roots" struct_hlist_bl_head ;;
    fld "s_mounts" struct_list_head ;;
    fld "s_bdev" (ptr "struct block_device") ;;
    fld "s_bdi" (ptr "struct backing_dev_info") ;;
    fld "s_mtd" (ptr "struct mtd_info") ;;
    fld "s_instances" struct_hlist_node ;;
    fld "s_quota_types" (int_ 4 false) ;;
    fld "s_dquot" struct_quota_info ;;
    fld "s_writers" struct_sb_writers ;;
    fld "s_fs_info" (ptr "void") ;;
    fld "s_time_gran" ty_u32 ;;
    fld "s_time_min" ty_time64_t ;;
    fld "s_time_max" ty_time64_t ;;
    fld "s_id" (arr (int_ 1 true) 32) ;;
    fld "s_uuid" ty_uuid_t ;;
    fld "s_max_links" (int_ 4 false) ;;
    fld "s_mode" ty_fmode_t ;;
    fld "s_vfs_rename_mutex" struct_mutex ;;
    fld "s_subtype" (ptr "char") ;;
    fld "s_d_op" (ptr "struct dentry_operations") ;;
    fld "s_shrink" struct_shrinker ;;
    fld "s_remove_count" ty_atomic_long_t ;;
    fld "s_fsnotify_connectors" ty_atomic_long_t ;;
    fld "s_readonly_remount" (int_ 4 true) ;;
    fld "s_wb_err" ty_errseq_t ;;
    fld "s_dio_done_wq" (ptr "struct workqueue_struct") ;;
    fld "s_pins" struct_hlist_head ;;
    fld "s_user_ns" (ptr "struct user_namespace") ;;
    fld "s_dentry_lru" struct_list_lru ;;
    fld "s_inode_lru" struct_list_lru ;;
    fld "rcu" struct_callback_head ;;
    fld "destroy_work" struct_work_struct ;;
    fld "s_sync_lock" struct_mutex ;;
    fld "s_stack_depth" (int_ 4 true) ;;
    fld "s_inode_list_lock" ty_spinlock_t ;;
    fld "s_inodes" struct_list_head ;;
    fld "s_inode_wblist_lock" ty_spinlock_t ;;
    fld "s_inodes_wb" struct_list_head ;;
    mnil).

Definition struct_partition_meta_info : ctype :=
  struct_ false (
    fld "uuid" (arr (int_ 1 true) 37) ;;
    fld "volname" (arr ty_u8 64) ;;
    mnil).

Definition struct_percpu_ref_data : ctype :=
  struct_ false (
    fld "count" ty_atomic_long_t ;;
    fld "release" (ptr "percpu_ref_func_t") ;;
    fld "confirm_switch" (ptr "percpu_ref_func_t") ;;
    bits "force_atomic" ty_bool 1 ;;
    bits "allow_reinit" ty_bool 1 ;;
    fld "rcu" struct_callback_head ;;
    fld "ref" (ptr "struct percpu_ref") ;;
    mnil).

Definition struct_workqueue_struct : ctype :=
  struct_ false (
    fld "pwqs" struct_list_head ;;
    fld "list" struct_list_head ;;
    fld "mutex" struct_mutex ;;
    fld "work_color" (int_ 4 true) ;;
    fld "flush_color" (int_ 4 true) ;;
    fld "nr_pwqs_to_flush" ty_atomic_t ;;
    fld "first_flusher" (ptr "struct wq_flusher") ;;
    fld "flusher_queue" struct_list_head ;;
    fld "flusher_overflow" struct_list_head ;;
    fld "maydays" struct_list_head ;;
    fld "rescuer" (ptr "struct worker") ;;
    fld "nr_drainers" (int_ 4 true) ;;
    fld "saved_max_active" (int_ 4 true) ;;
    fld "unbound_attrs" (ptr "struct workqueue_attrs") ;;
    fld "dfl_pwq" (ptr "struct pool_workqueue") ;;
    fld "name" (arr (int_ 1 true) 24) ;;
    fld "rcu" struct_callback_head ;;
    bits "" (int_ 4 true) 32 ;;
    bits "" (int_ 4 true) 32 ;;
    fld "flags" (int_ 4 false) ;;
    fld "cpu_pwqs" (ptr "struct pool_workqueue") ;;
    fld "numa_pwq_tbl" (arr (ptr "struct pool_workqueue") 0) ;;
    bits "" (int_ 4 true) 32 ;;
    bits "" (int_ 4 true) 32 ;;
    bits "" (int_ 4 true) 32 ;;
    bits "" (int_ 4 true) 32 ;;
    bits "" (int_ 4 true) 32 ;;
    bits "" (int_ 4 true) 32 ;;
    mnil).

Definition struct_blk_rq_stat : ctype :=
  struct_ false (
    fld "mean" ty_u64 ;;
    fld "min" ty_u64 ;;
    fld "max" ty_u64 ;;
    fld "nr_samples" ty_u32 ;;
    fld "batch" ty_u64 ;;
    mnil).

Definition struct_hlist_bl_node : ctype :=
  struct_ false (
    fld "next" (ptr "struct hlist_bl_node") ;;
    fld "pprev" (ptr "struct hlist_bl_node *") ;;
    mnil).

Definition struct_lockref : ctype :=
  struct_ false (
    anon (union_ false (
      anon (struct_ false (
        fld "lock" ty_spinlock_t ;;
        fld "count" (int_ 4 true) ;;
        mnil)) ;;
      mnil)) ;;
    mnil).

Definition struct_dentry : ctype :=
  struct_ false (
    fld "d_flags" (int_ 4 false) ;;
    fld "d_seq" ty_seqcount_spinlock_t ;;
    fld "d_hash" struct_hlist_bl_node ;;
    fld "d_parent" (ptr "struct dentry") ;;
    fld "d_name" struct_qstr ;;
    fld "d_inode" (ptr "struct inode") ;;
    fld "d_iname" (arr (int_ 1 false) 40) ;;
    fld "d_lockref" struct_lockref ;;
    fld "d_op" (ptr "struct dentry_operations") ;;
    fld "d_sb" (ptr "struct super_block") ;;
    fld "d_time" (int_ 8 false) ;;
    fld "d_fsdata" (ptr "void") ;;
    anon (union_ false (
      fld "d_lru" struct_list_head ;;
      fld "d_wait" (ptr "wait_queue_head_t") ;;
      mnil)) ;;
    fld "d_child" struct_list_head ;;
    fld "d_subdirs" struct_list_head ;;
    fld "d_u" (union_ false (
      fld "d_alias" struct_hlist_node ;;
      fld "d_in_lookup_hash" struct_hlist_bl_node ;;
      fld "d_rcu" struct_callback_head ;;
      mnil)) ;;
    mnil).

Definition ty_slab_flags_t : ctype :=
  int_ 4 false.

Definition struct_kmem_cache : ctype :=
  struct_ false (
    fld "object_size" (int_ 4 false) ;;
    fld "size" (int_ 4 false) ;;
    fld "align" (int_ 4 false) ;;
    fld "flags" ty_slab_flags_t ;;
    fld "useroffset" (int_ 4 false) ;;
    fld "usersize" (int_ 4 false) ;;
    fld "name" (ptr "char") ;;
    fld "refcount" (int_ 4 true) ;;
    fld "ctor" (ptr "function") ;;
    fld "list" struct_list_head ;;
    mnil).

Definition struct_block_device_operations : ctype :=
  struct_ false (
    fld "submit_bio" (ptr "function") ;;
    fld "poll_bio" (ptr "function") ;;
    fld "open" (ptr "function") ;;
    fld "release" (ptr "function") ;;
    fld "rw_page" (ptr "function") ;;
    fld "ioctl" (ptr "function") ;;
    fld "compat_ioctl" (ptr "function") ;;
    fld "check_events" (ptr "function") ;;
    fld "unlock_native_capacity" (ptr "function") ;;
    fld "getgeo" (ptr "function") ;;
    fld "set_read_only" (ptr "function") ;;
    fld "free_disk" (ptr "function") ;;
    fld "swap_slot_free_notify" (ptr "function") ;;
    fld "report_zones" (ptr "function") ;;
    fld "devnode" (ptr "function") ;;
    fld "get_unique_id" (ptr "function") ;;
    fld "owner" (ptr "struct module") ;;
    fld "pr_ops" (ptr "struct pr_ops") ;;
    fld "alternative_gpt_sector" (ptr "function") ;;
    mnil).

Definition struct_timer_rand_state : ctype :=
  struct_ false (
    fld "last_time" (int_ 8 false) ;;
    fld "last_delta" (int_ 8 true) ;;
    fld "last_delta2" (int_ 8 true) ;;
    mnil).

Definition struct_blk_independent_access_range : ctype :=
  struct_ false (
    fld "kobj" struct_kobject ;;
    fld "sector" ty_sector_t ;;
    fld "nr_sectors" ty_sector_t ;;
    mnil).

Definition struct_blk_independent_access_ranges : ctype :=
  struct_ false (
    fld "kobj" struct_kobject ;;
    fld "sysfs_registered" ty_bool ;;
    fld "nr_ia_ranges" (int_ 4 false) ;;
    fld "ia_range" (arr struct_blk_independent_access_range 0) ;;
    mnil).

Definition struct_hrtimer_cpu_base : ctype :=
  struct_ false (
    fld "lock" ty_raw_spinlock_t ;;
    fld "cpu" (int_ 4 false) ;;
    fld "active_bases" (int_ 4 false) ;;
    fld "clock_was_set_seq" (int_ 4 false) ;;
    bits "hres_active" (int_ 4 false) 1 ;;
    bits "in_hrtirq" (int_ 4 false) 1 ;;
    bits "hang_detected" (int_ 4 false) 1 ;;
    bits "softirq_activated" (int_ 4 false) 1 ;;
    fld "expires_next" ty_ktime_t ;;
    fld "next_timer" (ptr "struct hrtimer") ;;
    fld "softirq_expires_next" ty_ktime_t ;;
    fld "softirq_next_timer" (ptr "struct hrtimer") ;;
    fld "clock_base" (arr struct_hrtimer_clock_base 8) ;;
    bits "" (int_ 4 true) 32 ;;
    bits "" (int_ 4 true) 32 ;;
    bits "" (int_ 4 true) 32 ;;
    bits "" (int_ 4 true) 32 ;;
    bits "" (int_ 4 true) 32 ;;
    bits "" (int_ 4 true) 32 ;;
    mnil).

Definition struct_anon_vma_name : ctype :=
  struct_ false (
    fld "kref" struct_kref ;;
    fld "name" (arr (int_ 1 true) 0) ;;
    mnil).

Definition struct_anon_vma : ctype :=
  struct_ false (
    fld "root" (ptr "struct anon_vma") ;;
    fld "rwsem" struct_rw_semaphore ;;
    fld "refcount" ty_atomic_t ;;
    fld "num_children" (int_ 8 false) ;;
    fld "num_active_vmas" (int_ 8 false) ;;
    fld "parent" (ptr "struct anon_vma") ;;
    fld "rb_root" struct_rb_root_cached ;;
    mnil).

Definition struct_vm_operations_struct : ctype :=
  struct_ false (
    fld "open" (ptr "function") ;;
    fld "close" (ptr "function") ;;
    fld "may_split" (ptr "function") ;;
    fld "mremap" (ptr "function") ;;
    fld "mprotect" (ptr "function") ;;
    fld "fault" (ptr "function") ;;
    fld "huge_fault" (ptr "function") ;;
    fld "map_pages" (ptr "function") ;;
    fld "pagesize" (ptr "function") ;;
    fld "page_mkwrite" (ptr "function") ;;
    fld "pfn_mkwrite" (ptr "function") ;;
    fld "access" (ptr "function") ;;
    fld "name" (ptr "function") ;;
    fld "find_special_page" (ptr "function") ;;
    mnil).

Definition ty_arch_rwlock_t : ctype :=
  struct_ false (
    mnil).

Definition ty_rwlock_t : ctype :=
  struct_ false (
    fld "raw_lock" ty_arch_rwlock_t ;;
    mnil).

Definition enum_pid_type : ctype :=
  enum_ 4 [("PIDTYPE_PID", 0); ("PIDTYPE_TGID", 1); ("PIDTYPE_PGID", 2); ("PIDTYPE_SID", 3); ("PIDTYPE_MAX", 4)].

Definition struct_fown_struct : ctype :=
  struct_ false (
    fld "lock" ty_rwlock_t ;;
    fld "pid" (ptr "struct pid") ;;
    fld "pid_type" enum_pid_type ;;
    fld "uid" ty_kuid_t ;;
    fld "euid" ty_kuid_t ;;
    fld "signum" (int_ 4 true) ;;
    mnil).

Definition struct_file_ra_state : ctype :=
  struct_ false (
    fld "start" (int_ 8 false) ;;
    fld "size" (int_ 4 false) ;;
    fld "async_size" (int_ 4 false) ;;
    fld "ra_pages" (int_ 4 false) ;;
    fld "mmap_miss" (int_ 4 false) ;;
    fld "prev_pos" ty_loff_t ;;
    mnil).

Definition struct_file : ctype :=
  struct_ false (
    anon (union_ false (
      fld "f_llist" struct_llist_node ;;
      fld "f_rcuhead" struct_callback_head ;;
      fld "f_iocb_flags" (int_ 4 false) ;;
      mnil)) ;;
    fld "f_path" struct_path ;;
    fld "f_inode" (ptr "struct inode") ;;
    fld "f_op" (ptr "struct file_operations") ;;
    fld "f_lock" ty_spinlock_t ;;
    fld "f_count" ty_atomic_long_t ;;
    fld "f_flags" (int_ 4 false) ;;
    fld "f_mode" ty_fmode_t ;;
    fld "f_pos_lock" struct_mutex ;;
    fld "f_pos" ty_loff_t ;;
    fld "f_owner" struct_fown_struct ;;
    fld "f_cred" (ptr "struct cred") ;;
    fld "f_ra" struct_file_ra_state ;;
    fld "f_version" ty_u64 ;;
    fld "private_data" (ptr "void") ;;
    fld "f_mapping" (ptr "struct address_space") ;;
    fld "f_wb_err" ty_errseq_t ;;
    fld "f_sb_err" ty_errseq_t ;;
    mnil).

Definition enum_dma_data_direction : ctype :=
  enum_ 4 [("DMA_BIDIRECTIONAL", 0); ("DMA_TO_DEVICE", 1); ("DMA_FROM_DEVICE", 2); ("DMA_NONE", 3)].

Definition struct_page_pool_params : ctype :=
  struct_ false (
    fld "flags" (int_ 4 false) ;;
    fld "order" (int_ 4 false) ;;
    fld "pool_size" (int_ 4 false) ;;
    fld "nid" (int_ 4 true) ;;
    fld "dev" (ptr "struct device") ;;
    fld "dma_dir" enum_dma_data_direction ;;
    fld "max_len" (int_ 4 false) ;;
    fld "offset" (int_ 4 false) ;;
    fld "init_callback" (ptr "function") ;;
    fld "init_arg" (ptr "void") ;;
    mnil).

Definition struct_pp_alloc_cache : ctype :=
  struct_ false (
    fld "count" ty_u32 ;;
    fld "cache" (arr (ptr "struct page") 128) ;;
    mnil).

Definition struct_ptr_ring : ctype :=
  struct_ false (
    fld "producer" (int_ 4 true) ;;
    fld "producer_lock" ty_spinlock_t ;;
    fld "consumer_head" (int_ 4 true) ;;
    fld "consumer_tail" (int_ 4 true) ;;
    fld "consumer_lock" ty_spinlock_t ;;
    fld "size" (int_ 4 true) ;;
    fld "batch" (int_ 4 true) ;;
    fld "queue" (ptr "void *") ;;
    mnil).

Definition struct_page_pool : ctype :=
  struct_ false (
    fld "p" struct_page_pool_params ;;
    fld "release_dw" struct_delayed_work ;;
    fld "disconnect" (ptr "function") ;;
    fld "defer_start" (int_ 8 false) ;;
    fld "defer_warn" (int_ 8 false) ;;
    fld "pages_state_hold_cnt" ty_u32 ;;
    fld "frag_offset" (int_ 4 false) ;;
    fld "frag_page" (ptr "struct page") ;;
    fld "frag_users" (int_ 8 true) ;;
    fld "xdp_mem_id" ty_u32 ;;
    fld "alloc" struct_pp_alloc_cache ;;
    fld "ring" struct_ptr_ring ;;
    fld "pages_state_release_cnt" ty_atomic_t ;;
    fld "user_cnt" ty_refcount_t ;;
    fld "destroy_cnt" ty_u64 ;;
    mnil).

Definition struct_vmem_altmap : ctype :=
  struct_ false (
    fld "base_pfn" (int_ 8 false) ;;
    fld "end_pfn" (int_ 8 false) ;;
    fld "reserve" (int_ 8 false) ;;
    fld "free" (int_ 8 false) ;;
    fld "align" (int_ 8 false) ;;
    fld "alloc" (int_ 8 false) ;;
    mnil).

Definition enum_memory_type : ctype :=
  enum_ 4 [("MEMORY_DEVICE_PRIVATE", 1); ("MEMORY_DEVICE_COHERENT", 2); ("MEMORY_DEVICE_FS_DAX", 3); ("MEMORY_DEVICE_GENERIC", 4); ("MEMORY_DEVICE_PCI_P2PDMA", 5)].

Definition struct_range : ctype :=
  struct_ false (
    fld "start" ty_u64 ;;
    fld "end" ty_u64 ;;
    mnil).

Definition struct_dev_pagemap : ctype :=
  struct_ false (
    fld "altmap" struct_vmem_altmap ;;
    fld "ref" struct_percpu_ref ;;
    fld "done" struct_completion ;;
    fld "type" enum_memory_type ;;
    fld "flags" (int_ 4 false) ;;
    fld "vmemmap_shift" (int_ 8 false) ;;
    fld "ops" (ptr "struct dev_pagemap_ops") ;;
    fld "owner" (ptr "void") ;;
    fld "nr_range" (int_ 4 true) ;;
    anon (union_ false (
      fld "range" struct_range ;;
      fld "ranges" (arr struct_range 0) ;;
      mnil)) ;;
    mnil).

Definition struct_pt_regs : ctype :=
  struct_ false (
    fld "bx" (int_ 8 false) ;;
    fld "cx" (int_ 8 false) ;;
    fld "dx" (int_ 8 false) ;;
    fld "si" (int_ 8 false) ;;
    fld "di" (int_ 8 false) ;;
    fld "bp" (int_ 8 false) ;;
    fld "ax" (int_ 8 false) ;;
    fld "ds" (int_ 2 false) ;;
    fld "__dsh" (int_ 2 false) ;;
    fld "es" (int_ 2 false) ;;
    fld "__esh" (int_ 2 false) ;;
    fld "fs" (int_ 2 false) ;;
    fld "__fsh" (int_ 2 false) ;;
    fld "gs" (int_ 2 false) ;;
    fld "__gsh" (int_ 2 false) ;;
    fld "orig_ax" (int_ 8 false) ;;
    fld "ip" (int_ 8 false) ;;
    fld "cs" (int_ 2 false) ;;
    fld "__csh" (int_ 2 false) ;;
    fld "flags" (int_ 8 false) ;;
    fld "sp" (int_ 8 false) ;;
    fld "ss" (int_ 2 false) ;;
    fld "__ssh" (int_ 2 false) ;;
    mnil).

Definition struct_ftrace_hash : ctype :=
  struct_ false (
    fld "size_bits" (int_ 8 false) ;;
    fld "buckets" (ptr "struct hlist_head") ;;
    fld "count" (int_ 8 false) ;;
    fld "flags" (int_ 8 false) ;;
    fld "rcu" struct_callback_head ;;
    mnil).

Definition struct_pmu : ctype :=
  struct_ false (
    fld "entry" struct_list_head ;;
    fld "module" (ptr "struct module") ;;
    fld "dev" (ptr "struct device") ;;
    fld "attr_groups" (ptr "struct attribute_group *") ;;
    fld "attr_update" (ptr "struct attribute_group *") ;;
    fld "name" (ptr "char") ;;
    fld "type" (int_ 4 true) ;;
    fld "capabilities" (int_ 4 true) ;;
    fld "pmu_disable_count" (ptr "int") ;;
    fld "pmu_cpu_context" (ptr "struct perf_cpu_context") ;;
    fld "exclusive_cnt" ty_atomic_t ;;
    fld "task_ctx_nr" (int_ 4 true) ;;
    fld "hrtimer_interval_ms" (int_ 4 true) ;;
    fld "nr_addr_filters" (int_ 4 false) ;;
    fld "pmu_enable" (ptr "function") ;;
    fld "pmu_disable" (ptr "function") ;;
    fld "event_init" (ptr "function") ;;
    fld "event_mapped" (ptr "function") ;;
    fld "event_unmapped" (ptr "function") ;;
    fld "add" (ptr "function") ;;
    fld "del" (ptr "function") ;;
    fld "start" (ptr "function") ;;
    fld "stop" (ptr "function") ;;
    fld "read" (ptr "function") ;;
    fld "start_txn" (ptr "function") ;;
    fld "commit_txn" (ptr "function") ;;
    fld "cancel_txn" (ptr "function") ;;
    fld "event_idx" (ptr "function") ;;
    fld "sched_task" (ptr "function") ;;
    fld "task_ctx_cache" (ptr "struct kmem_cache") ;;
    fld "swap_task_ctx" (ptr "function") ;;
    fld "setup_aux" (ptr "function") ;;
    fld "free_aux" (ptr "function") ;;
    fld "snapshot_aux" (ptr "function") ;;
    fld "addr_filters_validate" (ptr "function") ;;
    fld "addr_filters_sync" (ptr "function") ;;
    fld "aux_output_match" (ptr "function") ;;
    fld "filter_match" (ptr "function") ;;
    fld "check_period" (ptr "function") ;;
    mnil).

Definition ty_local_t : ctype :=
  struct_ false (
    fld "a" ty_atomic_long_t ;;
    mnil).

Definition struct_perf_buffer : ctype :=
  struct_ false (
    fld "refcount" ty_refcount_t ;;
    fld "callback_head" struct_callback_head ;;
    fld "nr_pages" (int_ 4 true) ;;
    fld "overwrite" (int_ 4 true) ;;
    fld "paused" (int_ 4 true) ;;
    fld "poll" ty_atomic_t ;;
    fld "head" ty_local_t ;;
    fld "nest" (int_ 4 false) ;;
    fld "events" ty_local_t ;;
    fld "wakeup" ty_local_t ;;
    fld "lost" ty_local_t ;;
    fld "watermark" (int_ 8 true) ;;
    fld "aux_watermark" (int_ 8 true) ;;
    fld "event_lock" ty_spinlock_t ;;
    fld "event_list" struct_list_head ;;
    fld "mmap_count" ty_atomic_t ;;
    fld "mmap_locked" (int_ 8 false) ;;
    fld "mmap_user" (ptr "struct user_struct") ;;
    fld "aux_head" (int_ 8 true) ;;
    fld "aux_nest" (int_ 4 false) ;;
    fld "aux_wakeup" (int_ 8 true) ;;
    fld "aux_pgoff" (int_ 8 false) ;;
    fld "aux_nr_pages" (int_ 4 true) ;;
    fld "aux_overwrite" (int_ 4 true) ;;
    fld "aux_mmap_count" ty_atomic_t ;;
    fld "aux_mmap_locked" (int_ 8 false) ;;
    fld "free_aux" (ptr "function") ;;
    fld "aux_refcount" ty_refcount_t ;;
    fld "aux_in_sampling" (int_ 4 true) ;;
    fld "aux_pages" (ptr "void *") ;;
    fld "aux_priv" (ptr "void") ;;
    fld "user_page" (ptr "struct perf_event_mmap_page") ;;
    fld "data_pages" (arr (ptr "void") 0) ;;
    mnil).

Definition struct_fasync_struct : ctype :=
  struct_ false (
    fld "fa_lock" ty_rwlock_t ;;
    fld "magic" (int_ 4 true) ;;
    fld "fa_fd" (int_ 4 true) ;;
    fld "fa_next" (ptr "struct fasync_struct") ;;
    fld "fa_file" (ptr "struct file") ;;
    fld "fa_rcu" struct_callback_head ;;
    mnil).

Definition struct_perf_addr_filter_range : ctype :=
  struct_ false (
    fld "start" (int_ 8 false) ;;
    fld "size" (int_ 8 false) ;;
    mnil).

Definition struct_idr : ctype :=
  struct_ false (
    fld "idr_rt" struct_xarray ;;
    fld "idr_base" (int_ 4 false) ;;
    fld "idr_next" (int_ 4 false) ;;
    mnil).

Definition struct_ns_common : ctype :=
  struct_ false (
    fld "stashed" ty_atomic_long_t ;;
    fld "ops" (ptr "struct proc_ns_operations") ;;
    fld "inum" (int_ 4 false) ;;
    fld "count" ty_refcount_t ;;
    mnil).

Definition struct_pid_namespace : ctype :=
  struct_ false (
    fld "idr" struct_idr ;;
    fld "rcu" struct_callback_head ;;
    fld "pid_allocated" (int_ 4 false) ;;
    fld "child_reaper" (ptr "struct task_struct") ;;
    fld "pid_cachep" (ptr "struct kmem_cache") ;;
    fld "level" (int_ 4 false) ;;
    fld "parent" (ptr "struct pid_namespace") ;;
    fld "user_ns" (ptr "struct user_namespace") ;;
    fld "ucounts" (ptr "struct ucounts") ;;
    fld "reboot" (int_ 4 true) ;;
    fld "ns" struct_ns_common ;;
    mnil).

Definition enum_bpf_prog_type : ctype :=
  enum_ 4 [("BPF_PROG_TYPE_UNSPEC", 0); ("BPF_PROG_TYPE_SOCKET_FILTER", 1); ("BPF_PROG_TYPE_KPROBE", 2); ("BPF_PROG_TYPE_SCHED_CLS", 3); ("BPF_PROG_TYPE_SCHED_ACT", 4); ("BPF_PROG_TYPE_TRACEPOINT", 5); ("BPF_PROG_TYPE_XDP", 6); ("BPF_PROG_TYPE_PERF_EVENT", 7); ("BPF_PROG_TYPE_CGROUP_SKB", 8); ("BPF_PROG_TYPE_CGROUP_SOCK", 9); ("BPF_PROG_TYPE_LWT_IN", 10); ("BPF_PROG_TYPE_LWT_OUT", 11); ("BPF_PROG_TYPE_LWT_XMIT", 12); ("BPF_PROG_TYPE_SOCK_OPS", 13); ("BPF_PROG_TYPE_SK_SKB", 14); ("BPF_PROG_TYPE_CGROUP_DEVICE", 15); ("BPF_PROG_TYPE_SK_MSG", 16); ("BPF_PROG_TYPE_RAW_TRACEPOINT", 17); ("BPF_PROG_TYPE_CGROUP_SOCK_ADDR", 18); ("BPF_PROG_TYPE_LWT_SEG6LOCAL", 19); ("BPF_PROG_TYPE_LIRC_MODE2", 20); ("BPF_PROG_TYPE_SK_REUSEPORT", 21); ("BPF_PROG_TYPE_FLOW_DISSECTOR", 22); ("BPF_PROG_TYPE_CGROUP_SYSCTL", 23); ("BPF_PROG_TYPE_RAW_TRACEPOINT_WRITABLE", 24); ("BPF_PROG_TYPE_CGROUP_SOCKOPT", 25); ("BPF_PROG_TYPE_TRACING", 26); ("BPF_PROG_TYPE_STRUCT_OPS", 27); ("BPF_PROG_TYPE_EXT", 28); ("BPF_PROG_TYPE_LSM", 29); ("BPF_PROG_TYPE_SK_LOOKUP", 30); ("BPF_PROG_TYPE_SYSCALL", 31)].

Definition enum_bpf_attach_type : ctype :=
  enum_ 4 [("BPF_CGROUP_INET_INGRESS", 0); ("BPF_CGROUP_INET_EGRESS", 1); ("BPF_CGROUP_INET_SOCK_CREATE", 2); ("BPF_CGROUP_SOCK_OPS", 3); ("BPF_SK_SKB_STREAM_PARSER", 4); ("BPF_SK_SKB_STREAM_VERDICT", 5); ("BPF_CGROUP_DEVICE", 6); ("BPF_SK_MSG_VERDICT", 7); ("BPF_CGROUP_INET4_BIND", 8); ("BPF_CGROUP_INET6_BIND", 9); ("BPF_CGROUP_INET4_CONNECT", 10); ("BPF_CGROUP_INET6_CONNECT", 11); ("BPF_CGROUP_INET4_POST_BIND", 12); ("BPF_CGROUP_INET6_POST_BIND", 13); ("BPF_CGROUP_UDP4_SENDMSG", 14); ("BPF_CGROUP_UDP6_SENDMSG", 15); ("BPF_LIRC_MODE2", 16); ("BPF_FLOW_DISSECTOR", 17); ("BPF_CGROUP_SYSCTL", 18); ("BPF_CGROUP_UDP4_RECVMSG", 19); ("BPF_CGROUP_UDP6_RECVMSG", 20); ("BPF_CGROUP_GETSOCKOPT", 21); ("BPF_CGROUP_SETSOCKOPT", 22); ("BPF_TRACE_RAW_TP", 23); ("BPF_TRACE_FENTRY", 24); ("BPF_TRACE_FEXIT", 25); ("BPF_MODIFY_RETURN", 26); ("BPF_LSM_MAC", 27); ("BPF_TRACE_ITER", 28); ("BPF_CGROUP_INET4_GETPEERNAME", 29); ("BPF_CGROUP_INET6_GETPEERNAME", 30); ("BPF_CGROUP_INET4_GETSOCKNAME", 31); ("BPF_CGROUP_INET6_GETSOCKNAME", 32); ("BPF_XDP_DEVMAP", 33); ("BPF_CGROUP_INET_SOCK_RELEASE", 34); ("BPF_XDP_CPUMAP", 35); ("BPF_SK_LOOKUP", 36); ("BPF_XDP", 37); ("BPF_SK_SKB_VERDICT", 38); ("BPF_SK_REUSEPORT_SELECT", 39); ("BPF_SK_REUSEPORT_SELECT_OR_MIGRATE", 40); ("BPF_PERF_EVENT", 41); ("BPF_TRACE_KPROBE_MULTI", 42); ("BPF_LSM_CGROUP", 43); ("__MAX_BPF_ATTACH_TYPE", 44)].

Definition struct_sock_filter : ctype :=
  struct_ false (
    fld "code" ty___u16 ;;
    fld "jt" ty___u8 ;;
    fld "jf" ty___u8 ;;
    fld "k" ty___u32 ;;
    mnil).

Definition struct_bpf_insn : ctype :=
  struct_ false (
    fld "code" ty___u8 ;;
    bits "dst_reg" ty___u8 4 ;;
    bits "src_reg" ty___u8 4 ;;
    fld "off" ty___s16 ;;
    fld "imm" ty___s32 ;;
    mnil).

Definition struct_bpf_prog : ctype :=
  struct_ false (
    fld "pages" ty_u16 ;;
    bits "jited" ty_u16 1 ;;
    bits "jit_requested" ty_u16 1 ;;
    bits "gpl_compatible" ty_u16 1 ;;
    bits "cb_access" ty_u16 1 ;;
    bits "dst_needed" ty_u16 1 ;;
    bits "blinding_requested" ty_u16 1 ;;
    bits "blinded" ty_u16 1 ;;
    bits "is_func" ty_u16 1 ;;
    bits "kprobe_override" ty_u16 1 ;;
    bits "has_callchain_buf" ty_u16 1 ;;
    bits "enforce_expected_attach_type" ty_u16 1 ;;
    bits "call_get_stack" ty_u16 1 ;;
    bits "call_get_func_ip" ty_u16 1 ;;
    bits "tstamp_type_access" ty_u16 1 ;;
    fld "type" enum_bpf_prog_type ;;
    fld "expected_attach_type" enum_bpf_attach_type ;;
    fld "len" ty_u32 ;;
    fld "jited_len" ty_u32 ;;
    fld "tag" (arr ty_u8 8) ;;
    fld "stats" (ptr "struct bpf_prog_stats") ;;
    fld "active" (ptr "int") ;;
    fld "bpf_func" (ptr "function") ;;
    fld "aux" (ptr "struct bpf_prog_aux") ;;
    fld "orig_prog" (ptr "struct sock_fprog_kern") ;;
    anon (union_ false (
      anon (struct_ false (
        fld "__empty_insns" (struct_ false (
          mnil)) ;;
        fld "insns" (arr struct_sock_filter 0) ;;
        mnil)) ;;
      anon (struct_ false (
        fld "__empty_insnsi" (struct_ false (
          mnil)) ;;
        fld "insnsi" (arr struct_bpf_insn 0) ;;
        mnil)) ;;
      mnil)) ;;
    mnil).

Definition struct_trace_event : ctype :=
  struct_ false (
    fld "node" struct_hlist_node ;;
    fld "list" struct_list_head ;;
    fld "type" (int_ 4 true) ;;
    fld "funcs" (ptr "struct trace_event_functions") ;;
    mnil).

Definition struct_trace_event_call : ctype :=
  struct_ false (
    fld "list" struct_list_head ;;
    fld "class" (ptr "struct trace_event_class") ;;
    anon (union_ false (
      fld "name" (ptr "char") ;;
      fld "tp" (ptr "struct tracepoint") ;;
      mnil)) ;;
    fld "event" struct_trace_event ;;
    fld "print_fmt" (ptr "char") ;;
    fld "filter" (ptr "struct event_filter") ;;
    anon (union_ false (
      fld "module" (ptr "void") ;;
      fld "refcnt" ty_atomic_t ;;
      mnil)) ;;
    fld "data" (ptr "void") ;;
    fld "flags" (int_ 4 true) ;;
    fld "perf_refcount" (int_ 4 true) ;;
    fld "perf_events" (ptr "struct hlist_head") ;;
    fld "prog_array" (ptr "struct bpf_prog_array") ;;
    fld "perf_perm" (ptr "function") ;;
    mnil).

Definition struct_event_filter : ctype :=
  struct_ false (
    fld "prog" (ptr "struct prog_entry") ;;
    fld "filter_string" (ptr "char") ;;
    mnil).

Definition struct_vdso_image : ctype :=
  struct_ false (
    fld "data" (ptr "void") ;;
    fld "size" (int_ 8 false) ;;
    fld "alt" (int_ 8 false) ;;
    fld "alt_len" (int_ 8 false) ;;
    fld "extable_base" (int_ 8 false) ;;
    fld "extable_len" (int_ 8 false) ;;
    fld "extable" (ptr "void") ;;
    fld "sym_vvar_start" (int_ 8 true) ;;
    fld "sym_vvar_page" (int_ 8 true) ;;
    fld "sym_pvclock_page" (int_ 8 true) ;;
    fld "sym_hvclock_page" (int_ 8 true) ;;
    fld "sym_timens_page" (int_ 8 true) ;;
    fld "sym_VDSO32_NOTE_MASK" (int_ 8 true) ;;
    fld "sym___kernel_sigreturn" (int_ 8 true) ;;
    fld "sym___kernel_rt_sigreturn" (int_ 8 true) ;;
    fld "sym___kernel_vsyscall" (int_ 8 true) ;;
    fld "sym_int80_landing_pad" (int_ 8 true) ;;
    fld "sym_vdso32_sigreturn_landing_pad" (int_ 8 true) ;;
    fld "sym_vdso32_rt_sigreturn_landing_pad" (int_ 8 true) ;;
    mnil).

Definition struct_vm_special_mapping : ctype :=
  struct_ false (
    fld "name" (ptr "char") ;;
    fld "pages" (ptr "struct page *") ;;
    fld "fault" (ptr "function") ;;
    fld "mremap" (ptr "function") ;;
    mnil).

Definition struct_xol_area : ctype :=
  struct_ false (
    fld "wq" ty_wait_queue_head_t ;;
    fld "slot_count" ty_atomic_t ;;
    fld "bitmap" (ptr "long unsigned int") ;;
    fld "xol_mapping" struct_vm_special_mapping ;;
    fld "pages" (arr (ptr "struct page") 2) ;;
    fld "vaddr" (int_ 8 false) ;;
    mnil).

Definition struct_linux_binfmt : ctype :=
  struct_ false (
    fld "lh" struct_list_head ;;
    fld "module" (ptr "struct module") ;;
    fld "load_binary" (ptr "function") ;;
    fld "load_shlib" (ptr "function") ;;
    mnil).

Definition struct_uid_gid_extent : ctype :=
  struct_ false (
    fld "first" ty_u32 ;;
    fld "lower_first" ty_u32 ;;
    fld "count" ty_u32 ;;
    mnil).

Definition struct_uid_gid_map : ctype :=
  struct_ false (
    fld "nr_extents" ty_u32 ;;
    anon (union_ false (
      fld "extent" (arr struct_uid_gid_extent 5) ;;
      anon (struct_ false (
        fld "forward" (ptr "struct uid_gid_extent") ;;
        fld "reverse" (ptr "struct uid_gid_extent") ;;
        mnil)) ;;
      mnil)) ;;
    mnil).

Definition struct_user_namespace : ctype :=
  struct_ false (
    fld "uid_map" struct_uid_gid_map ;;
    fld "gid_map" struct_uid_gid_map ;;
    fld "projid_map" struct_uid_gid_map ;;
    fld "parent" (ptr "struct user_namespace") ;;
    fld "level" (int_ 4 true) ;;
    fld "owner" ty_kuid_t ;;
    fld "group" ty_kgid_t ;;
    fld "ns" struct_ns_common ;;
    fld "flags" (int_ 8 false) ;;
    fld "parent_could_setfcap" ty_bool ;;
    fld "work" struct_work_struct ;;
    fld "ucounts" (ptr "struct ucounts") ;;
    fld "ucount_max" (arr (int_ 8 true) 12) ;;
    mnil).

Definition struct_ratelimit_state : ctype :=
  struct_ false (
    fld "lock" ty_raw_spinlock_t ;;
    fld "interval" (int_ 4 true) ;;
    fld "burst" (int_ 4 true) ;;
    fld "printed" (int_ 4 true) ;;
    fld "missed" (int_ 4 true) ;;
    fld "begin" (int_ 8 false) ;;
    fld "flags" (int_ 8 false) ;;
    mnil).

Definition struct_user_struct : ctype :=
  struct_ false (
    fld "__count" ty_refcount_t ;;
    fld "unix_inflight" (int_ 8 false) ;;
    fld "pipe_bufs" ty_atomic_long_t ;;
    fld "uidhash_node" struct_hlist_node ;;
    fld "uid" ty_kuid_t ;;
    fld "locked_vm" ty_atomic_long_t ;;
    fld "ratelimit" struct_ratelimit_state ;;
    mnil).

Definition struct_ucounts : ctype :=
  struct_ false (
    fld "node" struct_hlist_node ;;
    fld "ns" (ptr "struct user_namespace") ;;
    fld "uid" ty_kuid_t ;;
    fld "count" ty_atomic_t ;;
    fld "ucount" (arr ty_atomic_long_t 12) ;;
    mnil).

Definition struct_group_info : ctype :=
  struct_ false (
    fld "usage" ty_atomic_t ;;
    fld "ngroups" (int_ 4 true) ;;
    fld "gid" (arr ty_kgid_t 0) ;;
    mnil).

Definition struct_vfsmount : ctype :=
  struct_ false (
    fld "mnt_root" (ptr "struct dentry") ;;
    fld "mnt_sb" (ptr "struct super_block") ;;
    fld "mnt_flags" (int_ 4 true) ;;
    fld "mnt_userns" (ptr "struct user_namespace") ;;
    mnil).

Definition struct_filename : ctype :=
  struct_ false (
    fld "name" (ptr "char") ;;
    fld "uptr" (ptr "char") ;;
    fld "refcnt" (int_ 4 true) ;;
    fld "aname" (ptr "struct audit_names") ;;
    fld "iname" (arr (int_ 1 true) 0) ;;
    mnil).

Definition struct_new_utsname : ctype :=
  struct_ false (
    fld "sysname" (arr (int_ 1 true) 65) ;;
    fld "nodename" (arr (int_ 1 true) 65) ;;
    fld "release" (arr (int_ 1 true) 65) ;;
    fld "version" (arr (int_ 1 true) 65) ;;
    fld "machine" (arr (int_ 1 true) 65) ;;
    fld "domainname" (arr (int_ 1 true) 65) ;;
    mnil).

Definition struct_uts_namespace : ctype :=
  struct_ false (
    fld "name" struct_new_utsname ;;
    fld "user_ns" (ptr "struct user_namespace") ;;
    fld "ucounts" (ptr "struct ucounts") ;;
    fld "ns" struct_ns_common ;;
    mnil).

Definition ty_rht_hashfn_t : ctype :=
  ptr "function".

Definition ty_rht_obj_hashfn_t : ctype :=
  ptr "function".

Definition ty_rht_obj_cmpfn_t : ctype :=
  ptr "function".

Definition struct_rhashtable_params : ctype :=
  struct_ false (
    fld "nelem_hint" ty_u16 ;;
    fld "key_len" ty_u16 ;;
    fld "key_offset" ty_u16 ;;
    fld "head_offset" ty_u16 ;;
    fld "max_size" (int_ 4 false) ;;
    fld "min_size" ty_u16 ;;
    fld "automatic_shrinking" ty_bool ;;
    fld "hashfn" ty_rht_hashfn_t ;;
    fld "obj_hashfn" ty_rht_obj_hashfn_t ;;
    fld "obj_cmpfn" ty_rht_obj_cmpfn_t ;;
    mnil).

Definition struct_rhashtable : ctype :=
  struct_ false (
    fld "tbl" (ptr "struct bucket_table") ;;
    fld "key_len" (int_ 4 false) ;;
    fld "max_elems" (int_ 4 false) ;;
    fld "p" struct_rhashtable_params ;;
    fld "rhlist" ty_bool ;;
    fld "run_work" struct_work_struct ;;
    fld "mutex" struct_mutex ;;
    fld "lock" ty_spinlock_t ;;
    fld "nelems" ty_atomic_t ;;
    mnil).

Definition struct_ipc_ids : ctype :=
  struct_ false (
    fld "in_use" (int_ 4 true) ;;
    fld "seq" (int_ 2 false) ;;
    fld "rwsem" struct_rw_semaphore ;;
    fld "ipcs_idr" struct_idr ;;
    fld "max_idx" (int_ 4 true) ;;
    fld "last_idx" (int_ 4 true) ;;
    fld "key_ht" struct_rhashtable ;;
    mnil).

Definition ty_notifier_fn_t : ctype :=
  ptr "function".

Definition struct_notifier_block : ctype :=
  struct_ false (
    fld "notifier_call" ty_notifier_fn_t ;;
    fld "next" (ptr "struct notifier_block") ;;
    fld "priority" (int_ 4 true) ;;
    mnil).

Definition struct_ctl_table_header : ctype :=
  struct_ false (
    anon (union_ false (
      anon (struct_ false (
        fld "ctl_table" (ptr "struct ctl_table") ;;
        fld "used" (int_ 4 true) ;;
        fld "count" (int_ 4 true) ;;
        fld "nreg" (int_ 4 true) ;;
        mnil)) ;;
      fld "rcu" struct_callback_head ;;
      mnil)) ;;
    fld "unregistering" (ptr "struct completion") ;;
    fld "ctl_table_arg" (ptr "struct ctl_table") ;;
    fld "root" (ptr "struct ctl_table_root") ;;
    fld "set" (ptr "struct ctl_table_set") ;;
    fld "parent" (ptr "struct ctl_dir") ;;
    fld "node" (ptr "struct ctl_node") ;;
    fld "inodes" struct_hlist_head ;;
    mnil).

Definition struct_ctl_dir : ctype :=
  struct_ false (
    fld "header" struct_ctl_table_header ;;
    fld "root" struct_rb_root ;;
    mnil).

Definition struct_ctl_table_set : ctype :=
  struct_ false (
    fld "is_seen" (ptr "function") ;;
    fld "dir" struct_ctl_dir ;;
    mnil).

Definition struct_ipc_namespace : ctype :=
  struct_ false (
    fld "ids" (arr struct_ipc_ids 3) ;;
    fld "sem_ctls" (arr (int_ 4 true) 4) ;;
    fld "used_sems" (int_ 4 true) ;;
    fld "msg_ctlmax" (int_ 4 false) ;;
    fld "msg_ctlmnb" (int_ 4 false) ;;
    fld "msg_ctlmni" (int_ 4 false) ;;
    fld "msg_bytes" ty_atomic_t ;;
    fld "msg_hdrs" ty_atomic_t ;;
    fld "shm_ctlmax" ty_size_t ;;
    fld "shm_ctlall" ty_size_t ;;
    fld "shm_tot" (int_ 8 false) ;;
    fld "shm_ctlmni" (int_ 4 true) ;;
    fld "shm_rmid_forced" (int_ 4 true) ;;
    fld "ipcns_nb" struct_notifier_block ;;
    fld "mq_mnt" (ptr "struct vfsmount") ;;
    fld "mq_queues_count" (int_ 4 false) ;;
    fld "mq_queues_max" (int_ 4 false) ;;
    fld "mq_msg_max" (int_ 4 false) ;;
    fld "mq_msgsize_max" (int_ 4 false) ;;
    fld "mq_msg_default" (int_ 4 false) ;;
    fld "mq_msgsize_default" (int_ 4 false) ;;
    fld "mq_set" struct_ctl_table_set ;;
    fld "mq_sysctls" (ptr "struct ctl_table_header") ;;
    fld "ipc_set" struct_ctl_table_set ;;
    fld "ipc_sysctls" (ptr "struct ctl_table_header") ;;
    fld "user_ns" (ptr "struct user_namespace") ;;
    fld "ucounts" (ptr "struct ucounts") ;;
    fld "mnt_llist" struct_llist_node ;;
    fld "ns" struct_ns_common ;;
    mnil).

Definition struct_mnt_namespace : ctype :=
  struct_ false (
    fld "ns" struct_ns_common ;;
    fld "root" (ptr "struct mount") ;;
    fld "list" struct_list_head ;;
    fld "ns_lock" ty_spinlock_t ;;
    fld "user_ns" (ptr "struct user_namespace") ;;
    fld "ucounts" (ptr "struct ucounts") ;;
    fld "seq" ty_u64 ;;
    fld "poll" ty_wait_queue_head_t ;;
    fld "event" ty_u64 ;;
    fld "mounts" (int_ 4 false) ;;
    fld "pending_mounts" (int_ 4 false) ;;
    mnil).

Definition struct_ref_tracker_dir : ctype :=
  struct_ false (
    mnil).

Definition struct_raw_notifier_head : ctype :=
  struct_ false (
    fld "head" (ptr "struct notifier_block") ;;
    mnil).

Definition struct_netns_core : ctype :=
  struct_ false (
    fld "sysctl_hdr" (ptr "struct ctl_table_header") ;;
    fld "sysctl_somaxconn" (int_ 4 true) ;;
    fld "sysctl_txrehash" ty_u8 ;;
    mnil).

Definition struct_netns_mib : ctype :=
  struct_ false (
    fld "ip_statistics" (ptr "struct ipstats_mib") ;;
    fld "tcp_statistics" (ptr "struct tcp_mib") ;;
    fld "net_statistics" (ptr "struct linux_mib") ;;
    fld "udp_statistics" (ptr "struct udp_mib") ;;
    fld "udplite_statistics" (ptr "struct udp_mib") ;;
    fld "icmp_statistics" (ptr "struct icmp_mib") ;;
    fld "icmpmsg_statistics" (ptr "struct icmpmsg_mib") ;;
    mnil).

Definition struct_netns_packet : ctype :=
  struct_ false (
    fld "sklist_lock" struct_mutex ;;
    fld "sklist" struct_hlist_head ;;
    mnil).

Definition struct_netns_nexthop : ctype :=
  struct_ false (
    fld "rb_root" struct_rb_root ;;
    fld "devhash" (ptr "struct hlist_head") ;;
    fld "seq" (int_ 4 false) ;;
    fld "last_id_allocated" ty_u32 ;;
    fld "notifier_chain" struct_blocking_notifier_head ;;
    mnil).

Definition struct_inet_timewait_death_row : ctype :=
  struct_ false (
    fld "tw_refcount" ty_refcount_t ;;
    fld "hashinfo" (ptr "struct inet_hashinfo") ;;
    fld "sysctl_max_tw_buckets" (int_ 4 true) ;;
    mnil).

Definition struct_local_ports : ctype :=
  struct_ false (
    fld "lock" ty_seqlock_t ;;
    fld "range" (arr (int_ 4 true) 2) ;;
    fld "warned" ty_bool ;;
    mnil).

Definition struct_ping_group_range : ctype :=
  struct_ false (
    fld "lock" ty_seqlock_t ;;
    fld "range" (arr ty_kgid_t 2) ;;
    mnil).

Definition ty_siphash_key_t : ctype :=
  struct_ false (
    fld "key" (arr ty_u64 2) ;;
    mnil).

Definition struct_netns_ipv4 : ctype :=
  struct_ false (
    fld "tcp_death_row" struct_inet_timewait_death_row ;;
    fld "devconf_all" (ptr "struct ipv4_devconf") ;;
    fld "devconf_dflt" (ptr "struct ipv4_devconf") ;;
    fld "ra_chain" (ptr "struct ip_ra_chain") ;;
    fld "ra_mutex" struct_mutex ;;
    fld "fib_has_custom_local_routes" ty_bool ;;
    fld "fib_offload_disabled" ty_bool ;;
    fld "fib_table_hash" (ptr "struct hlist_head") ;;
    fld "fibnl" (ptr "struct sock") ;;
    fld "mc_autojoin_sk" (ptr "struct sock") ;;
    fld "peers" (ptr "struct inet_peer_base") ;;
    fld "fqdir" (ptr "struct fqdir") ;;
    fld "sysctl_icmp_echo_ignore_all" ty_u8 ;;
    fld "sysctl_icmp_echo_enable_probe" ty_u8 ;;
    fld "sysctl_icmp_echo_ignore_broadcasts" ty_u8 ;;
    fld "sysctl_icmp_ignore_bogus_error_responses" ty_u8 ;;
    fld "sysctl_icmp_errors_use_inbound_ifaddr" ty_u8 ;;
    fld "sysctl_icmp_ratelimit" (int_ 4 true) ;;
    fld "sysctl_icmp_ratemask" (int_ 4 true) ;;
    fld "ip_rt_min_pmtu" ty_u32 ;;
    fld "ip_rt_mtu_expires" (int_ 4 true) ;;
    fld "ip_rt_min_advmss" (int_ 4 true) ;;
    fld "ip_local_ports" struct_local_ports ;;
    fld "sysctl_tcp_ecn" ty_u8 ;;
    fld "sysctl_tcp_ecn_fallback" ty_u8 ;;
    fld "sysctl_ip_default_ttl" ty_u8 ;;
    fld "sysctl_ip_no_pmtu_disc" ty_u8 ;;
    fld "sysctl_ip_fwd_use_pmtu" ty_u8 ;;
    fld "sysctl_ip_fwd_update_priority" ty_u8 ;;
    fld "sysctl_ip_nonlocal_bind" ty_u8 ;;
    fld "sysctl_ip_autobind_reuse" ty_u8 ;;
    fld "sysctl_ip_dynaddr" ty_u8 ;;
    fld "sysctl_ip_early_demux" ty_u8 ;;
    fld "sysctl_tcp_early_demux" ty_u8 ;;
    fld "sysctl_udp_early_demux" ty_u8 ;;
    fld "sysctl_nexthop_compat_mode" ty_u8 ;;
    fld "sysctl_fwmark_reflect" ty_u8 ;;
    fld "sysctl_tcp_fwmark_accept" ty_u8 ;;
    fld "sysctl_tcp_mtu_probing" ty_u8 ;;
    fld "sysctl_tcp_mtu_probe_floor" (int_ 4 true) ;;
    fld "sysctl_tcp_base_mss" (int_ 4 true) ;;
    fld "sysctl_tcp_min_snd_mss" (int_ 4 true) ;;
    fld "sysctl_tcp_probe_threshold" (int_ 4 true) ;;
    fld "sysctl_tcp_probe_interval" ty_u32 ;;
    fld "sysctl_tcp_keepalive_time" (int_ 4 true) ;;
    fld "sysctl_tcp_keepalive_intvl" (int_ 4 true) ;;
    fld "sysctl_tcp_keepalive_probes" ty_u8 ;;
    fld "sysctl_tcp_syn_retries" ty_u8 ;;
    fld "sysctl_tcp_synack_retries" ty_u8 ;;
    fld "sysctl_tcp_syncookies" ty_u8 ;;
    fld "sysctl_tcp_migrate_req" ty_u8 ;;
    fld "sysctl_tcp_comp_sack_nr" ty_u8 ;;
    fld "sysctl_tcp_reordering" (int_ 4 true) ;;
    fld "sysctl_tcp_retries1" ty_u8 ;;
    fld "sysctl_tcp_retries2" ty_u8 ;;
    fld "sysctl_tcp_orphan_retries" ty_u8 ;;
    fld "sysctl_tcp_tw_reuse" ty_u8 ;;
    fld "sysctl_tcp_fin_timeout" (int_ 4 true) ;;
    fld "sysctl_tcp_notsent_lowat" (int_ 4 false) ;;
    fld "sysctl_tcp_sack" ty_u8 ;;
    fld "sysctl_tcp_window_scaling" ty_u8 ;;
    fld "sysctl_tcp_timestamps" ty_u8 ;;
    fld "sysctl_tcp_early_retrans" ty_u8 ;;
    fld "sysctl_tcp_recovery" ty_u8 ;;
    fld "sysctl_tcp_thin_linear_timeouts" ty_u8 ;;
    fld "sysctl_tcp_slow_start_after_idle" ty_u8 ;;
    fld "sysctl_tcp_retrans_collapse" ty_u8 ;;
    fld "sysctl_tcp_stdurg" ty_u8 ;;
    fld "sysctl_tcp_rfc1337" ty_u8 ;;
    fld "sysctl_tcp_abort_on_overflow" ty_u8 ;;
    fld "sysctl_tcp_fack" ty_u8 ;;
    fld "sysctl_tcp_max_reordering" (int_ 4 true) ;;
    fld "sysctl_tcp_adv_win_scale" (int_ 4 true) ;;
    fld "sysctl_tcp_dsack" ty_u8 ;;
    fld "sysctl_tcp_app_win" ty_u8 ;;
    fld "sysctl_tcp_frto" ty_u8 ;;
    fld "sysctl_tcp_nometrics_save" ty_u8 ;;
    fld "sysctl_tcp_no_ssthresh_metrics_save" ty_u8 ;;
    fld "sysctl_tcp_moderate_rcvbuf" ty_u8 ;;
    fld "sysctl_tcp_tso_win_divisor" ty_u8 ;;
    fld "sysctl_tcp_workaround_signed_windows" ty_u8 ;;
    fld "sysctl_tcp_limit_output_bytes" (int_ 4 true) ;;
    fld "sysctl_tcp_challenge_ack_limit" (int_ 4 true) ;;
    fld "sysctl_tcp_min_rtt_wlen" (int_ 4 true) ;;
    fld "sysctl_tcp_min_tso_segs" ty_u8 ;;
    fld "sysctl_tcp_tso_rtt_log" ty_u8 ;;
    fld "sysctl_tcp_autocorking" ty_u8 ;;
    fld "sysctl_tcp_reflect_tos" ty_u8 ;;
    fld "sysctl_tcp_invalid_ratelimit" (int_ 4 true) ;;
    fld "sysctl_tcp_pacing_ss_ratio" (int_ 4 true) ;;
    fld "sysctl_tcp_pacing_ca_ratio" (int_ 4 true) ;;
    fld "sysctl_tcp_wmem" (arr (int_ 4 true) 3) ;;
    fld "sysctl_tcp_rmem" (arr (int_ 4 true) 3) ;;
    fld "sysctl_tcp_child_ehash_entries" (int_ 4 false) ;;
    fld "sysctl_tcp_comp_sack_delay_ns" (int_ 8 false) ;;
    fld "sysctl_tcp_comp_sack_slack_ns" (int_ 8 false) ;;
    fld "sysctl_max_syn_backlog" (int_ 4 true) ;;
    fld "sysctl_tcp_fastopen" (int_ 4 true) ;;
    fld "tcp_congestion_control" (ptr "struct tcp_congestion_ops") ;;
    fld "tcp_fastopen_ctx" (ptr "struct tcp_fastopen_context") ;;
    fld "sysctl_tcp_fastopen_blackhole_timeout" (int_ 4 false) ;;
    fld "tfo_active_disable_times" ty_atomic_t ;;
    fld "tfo_active_disable_stamp" (int_ 8 false) ;;
    fld "tcp_challenge_timestamp" ty_u32 ;;
    fld "tcp_challenge_count" ty_u32 ;;
    fld "sysctl_udp_wmem_min" (int_ 4 true) ;;
    fld "sysctl_udp_rmem_min" (int_ 4 true) ;;
    fld "sysctl_fib_notify_on_flag_change" ty_u8 ;;
    fld "sysctl_igmp_llm_reports" ty_u8 ;;
    fld "sysctl_igmp_max_memberships" (int_ 4 true) ;;
    fld "sysctl_igmp_max_msf" (int_ 4 true) ;;
    fld "sysctl_igmp_qrv" (int_ 4 true) ;;
    fld "ping_group_range" struct_ping_group_range ;;
    fld "dev_addr_genid" ty_atomic_t ;;
    fld "notifier_ops" (ptr "struct fib_notifier_ops") ;;
    fld "fib_seq" (int_ 4 false) ;;
    fld "ipmr_notifier_ops" (ptr "struct fib_notifier_ops") ;;
    fld "ipmr_seq" (int_ 4 false) ;;
    fld "rt_genid" ty_atomic_t ;;
    fld "ip_id_key" ty_siphash_key_t ;;
    mnil).

Definition struct_netns_bpf : ctype :=
  struct_ false (
    fld "run_array" (arr (ptr "struct bpf_prog_array") 2) ;;
    fld "progs" (arr (ptr "struct bpf_prog") 2) ;;
    fld "links" (arr struct_list_head 2) ;;
    mnil).

Definition struct_net : ctype :=
  struct_ false (
    fld "passive" ty_refcount_t ;;
    fld "rules_mod_lock" ty_spinlock_t ;;
    fld "dev_unreg_count" ty_atomic_t ;;
    fld "dev_base_seq" (int_ 4 false) ;;
    fld "ifindex" (int_ 4 true) ;;
    fld "nsid_lock" ty_spinlock_t ;;
    fld "fnhe_genid" ty_atomic_t ;;
    fld "list" struct_list_head ;;
    fld "exit_list" struct_list_head ;;
    fld "cleanup_list" struct_llist_node ;;
    fld "user_ns" (ptr "struct user_namespace") ;;
    fld "ucounts" (ptr "struct ucounts") ;;
    fld "netns_ids" struct_idr ;;
    fld "ns" struct_ns_common ;;
    fld "refcnt_tracker" struct_ref_tracker_dir ;;
    fld "dev_base_head" struct_list_head ;;
    fld "proc_net" (ptr "struct proc_dir_entry") ;;
    fld "proc_net_stat" (ptr "struct proc_dir_entry") ;;
    fld "rtnl" (ptr "struct sock") ;;
    fld "genl_sock" (ptr "struct sock") ;;
    fld "uevent_sock" (ptr "struct uevent_sock") ;;
    fld "dev_name_head" (ptr "struct hlist_head") ;;
    fld "dev_index_head" (ptr "struct hlist_head") ;;
    fld "netdev_chain" struct_raw_notifier_head ;;
    fld "hash_mix" ty_u32 ;;
    fld "loopback_dev" (ptr "struct net_device") ;;
    fld "rules_ops" struct_list_head ;;
    fld "core" struct_netns_core ;;
    fld "mib" struct_netns_mib ;;
    fld "packet" struct_netns_packet ;;
    fld "nexthop" struct_netns_nexthop ;;
    fld "ipv4" struct_netns_ipv4 ;;
    fld "gen" (ptr "struct net_generic") ;;
    fld "bpf" struct_netns_bpf ;;
    fld "net_cookie" ty_u64 ;;
    fld "diag_nlsk" (ptr "struct sock") ;;
    mnil).

Definition struct_timens_offsets : ctype :=
  struct_ false (
    fld "monotonic" struct_timespec64 ;;
    fld "boottime" struct_timespec64 ;;
    mnil).

Definition struct_time_namespace : ctype :=
  struct_ false (
    fld "user_ns" (ptr "struct user_namespace") ;;
    fld "ucounts" (ptr "struct ucounts") ;;
    fld "ns" struct_ns_common ;;
    fld "offsets" struct_timens_offsets ;;
    fld "vvar_page" (ptr "struct page") ;;
    fld "frozen_offsets" ty_bool ;;
    mnil).

Definition struct_cgroup_namespace : ctype :=
  struct_ false (
    fld "ns" struct_ns_common ;;
    fld "user_ns" (ptr "struct user_namespace") ;;
    fld "ucounts" (ptr "struct ucounts") ;;
    fld "root_cset" (ptr "struct css_set") ;;
    mnil).

Definition struct_core_thread : ctype :=
  struct_ false (
    fld "task" (ptr "struct task_struct") ;;
    fld "next" (ptr "struct core_thread") ;;
    mnil).

Definition struct_core_state : ctype :=
  struct_ false (
    fld "nr_threads" ty_atomic_t ;;
    fld "dumper" struct_core_thread ;;
    fld "startup" struct_completion ;;
    mnil).

Definition struct_ld_semaphore : ctype :=
  struct_ false (
    fld "count" ty_atomic_long_t ;;
    fld "wait_lock" ty_raw_spinlock_t ;;
    fld "wait_readers" (int_ 4 false) ;;
    fld "read_wait" struct_list_head ;;
    fld "write_wait" struct_list_head ;;
    mnil).

Definition ty_tcflag_t : ctype :=
  int_ 4 false.

Definition ty_cc_t : ctype :=
  int_ 1 false.

Definition ty_speed_t : ctype :=
  int_ 4 false.

Definition struct_ktermios : ctype :=
  struct_ false (
    fld "c_iflag" ty_tcflag_t ;;
    fld "c_oflag" ty_tcflag_t ;;
    fld "c_cflag" ty_tcflag_t ;;
    fld "c_lflag" ty_tcflag_t ;;
    fld "c_line" ty_cc_t ;;
    fld "c_cc" (arr ty_cc_t 19) ;;
    fld "c_ispeed" ty_speed_t ;;
    fld "c_ospeed" ty_speed_t ;;
    mnil).

Definition struct_winsize : ctype :=
  struct_ false (
    fld "ws_row" (int_ 2 false) ;;
    fld "ws_col" (int_ 2 false) ;;
    fld "ws_xpixel" (int_ 2 false) ;;
    fld "ws_ypixel" (int_ 2 false) ;;
    mnil).

Definition struct_tty_struct : ctype :=
  struct_ false (
    fld "magic" (int_ 4 true) ;;
    fld "kref" struct_kref ;;
    fld "dev" (ptr "struct device") ;;
    fld "driver" (ptr "struct tty_driver") ;;
    fld "ops" (ptr "struct tty_operations") ;;
    fld "index" (int_ 4 true) ;;
    fld "ldisc_sem" struct_ld_semaphore ;;
    fld "ldisc" (ptr "struct tty_ldisc") ;;
    fld "atomic_write_lock" struct_mutex ;;
    fld "legacy_mutex" struct_mutex ;;
    fld "throttle_mutex" struct_mutex ;;
    fld "termios_rwsem" struct_rw_semaphore ;;
    fld "winsize_mutex" struct_mutex ;;
    fld "termios" struct_ktermios ;;
    fld "termios_locked" struct_ktermios ;;
    fld "name" (arr (int_ 1 true) 64) ;;
    fld "flags" (int_ 8 false) ;;
    fld "count" (int_ 4 true) ;;
    fld "winsize" struct_winsize ;;
    fld "flow" (struct_ false (
      fld "lock" ty_spinlock_t ;;
      fld "stopped" ty_bool ;;
      fld "tco_stopped" ty_bool ;;
      fld "unused" (arr (int_ 8 false) 0) ;;
      mnil)) ;;
    fld "ctrl" (struct_ false (
      fld "lock" ty_spinlock_t ;;
      fld "pgrp" (ptr "struct pid") ;;
      fld "session" (ptr "struct pid") ;;
      fld "pktstatus" (int_ 1 false) ;;
      fld "packet" ty_bool ;;
      fld "unused" (arr (int_ 8 false) 0) ;;
      mnil)) ;;
    fld "hw_stopped" (int_ 4 true) ;;
    fld "receive_room" (int_ 4 false) ;;
    fld "flow_change" (int_ 4 true) ;;
    fld "link" (ptr "struct tty_struct") ;;
    fld "fasync" (ptr "struct fasync_struct") ;;
    fld "write_wait" ty_wait_queue_head_t ;;
    fld "read_wait" ty_wait_queue_head_t ;;
    fld "hangup_work" struct_work_struct ;;
    fld "disc_data" (ptr "void") ;;
    fld "driver_data" (ptr "void") ;;
    fld "files_lock" ty_spinlock_t ;;
    fld "tty_files" struct_list_head ;;
    fld "closing" (int_ 4 true) ;;
    fld "write_buf" (ptr "unsigned char") ;;
    fld "write_cnt" (int_ 4 true) ;;
    fld "SAK_work" struct_work_struct ;;
    fld "port" (ptr "struct tty_port") ;;
    mnil).

Definition struct_pipe_buffer : ctype :=
  struct_ false (
    fld "page" (ptr "struct page") ;;
    fld "offset" (int_ 4 false) ;;
    fld "len" (int_ 4 false) ;;
    fld "ops" (ptr "struct pipe_buf_operations") ;;
    fld "flags" (int_ 4 false) ;;
    fld "private" (int_ 8 false) ;;
    mnil).

Definition struct_arch_uprobe : ctype :=
  struct_ false (
    anon (union_ false (
      fld "insn" (arr ty_u8 16) ;;
      fld "ixol" (arr ty_u8 16) ;;
      mnil)) ;;
    fld "ops" (ptr "struct uprobe_xol_ops") ;;
    anon (union_ false (
      fld "branch" (struct_ false (
        fld "offs" ty_s32 ;;
        fld "ilen" ty_u8 ;;
        fld "opc1" ty_u8 ;;
        mnil)) ;;
      fld "defparam" (struct_ false (
        fld "fixups" ty_u8 ;;
        fld "ilen" ty_u8 ;;
        mnil)) ;;
      fld "push" (struct_ false (
        fld "reg_offset" ty_u8 ;;
        fld "ilen" ty_u8 ;;
        mnil)) ;;
      mnil)) ;;
    mnil).

Definition struct_uprobe : ctype :=
  struct_ false (
    fld "rb_node" struct_rb_node ;;
    fld "ref" ty_refcount_t ;;
    fld "register_rwsem" struct_rw_semaphore ;;
    fld "consumer_rwsem" struct_rw_semaphore ;;
    fld "pending_list" struct_list_head ;;
    fld "consumers" (ptr "struct uprobe_consumer") ;;
    fld "inode" (ptr "struct inode") ;;
    fld "offset" ty_loff_t ;;
    fld "ref_ctr_offset" ty_loff_t ;;
    fld "flags" (int_ 8 false) ;;
    fld "arch" struct_arch_uprobe ;;
    mnil).

Definition struct_return_instance : ctype :=
  struct_ false (
    fld "uprobe" (ptr "struct uprobe") ;;
    fld "func" (int_ 8 false) ;;
    fld "stack" (int_ 8 false) ;;
    fld "orig_ret_vaddr" (int_ 8 false) ;;
    fld "chained" ty_bool ;;
    fld "next" (ptr "struct return_instance") ;;
    mnil).

Definition struct_bpf_local_storage_data : ctype :=
  struct_ false (
    fld "smap" (ptr "struct bpf_local_storage_map") ;;
    bits "" (int_ 4 true) 32 ;;
    fld "data" (arr ty_u8 0) ;;
    mnil).

Definition struct_kset_uevent_ops : ctype :=
  struct_ false (
    fld "filter" (ptr "function") ;;
    fld "name" (ptr "function") ;;
    fld "uevent" (ptr "function") ;;
    mnil).

Definition struct_sysfs_ops : ctype :=
  struct_ false (
    fld "show" (ptr "function") ;;
    fld "store" (ptr "function") ;;
    mnil).

Definition struct_kernfs_ops : ctype :=
  struct_ false (
    fld "open" (ptr "function") ;;
    fld "release" (ptr "function") ;;
    fld "seq_show" (ptr "function") ;;
    fld "seq_start" (ptr "function") ;;
    fld "seq_next" (ptr "function") ;;
    fld "seq_stop" (ptr "function") ;;
    fld "read" (ptr "function") ;;
    fld "atomic_write_len" ty_size_t ;;
    fld "prealloc" ty_bool ;;
    fld "write" (ptr "function") ;;
    fld "poll" (ptr "function") ;;
    fld "mmap" (ptr "function") ;;
    mnil).

Definition enum_dev_pm_qos_req_type : ctype :=
  enum_ 4 [("DEV_PM_QOS_RESUME_LATENCY", 1); ("DEV_PM_QOS_LATENCY_TOLERANCE", 2); ("DEV_PM_QOS_MIN_FREQUENCY", 3); ("DEV_PM_QOS_MAX_FREQUENCY", 4); ("DEV_PM_QOS_FLAGS", 5)].

Definition struct_plist_node : ctype :=
  struct_ false (
    fld "prio" (int_ 4 true) ;;
    fld "prio_list" struct_list_head ;;
    fld "node_list" struct_list_head ;;
    mnil).

Definition struct_pm_qos_flags_request : ctype :=
  struct_ false (
    fld "node" struct_list_head ;;
    fld "flags" ty_s32 ;;
    mnil).

Definition enum_freq_qos_req_type : ctype :=
  enum_ 4 [("FREQ_QOS_MIN", 1); ("FREQ_QOS_MAX", 2)].

Definition struct_freq_qos_request : ctype :=
  struct_ false (
    fld "type" enum_freq_qos_req_type ;;
    fld "pnode" struct_plist_node ;;
    fld "qos" (ptr "struct freq_constraints") ;;
    mnil).

Definition struct_dev_pm_qos_request : ctype :=
  struct_ false (
    fld "type" enum_dev_pm_qos_req_type ;;
    fld "data" (union_ false (
      fld "pnode" struct_plist_node ;;
      fld "flr" struct_pm_qos_flags_request ;;
      fld "freq" struct_freq_qos_request ;;
      mnil)) ;;
    fld "dev" (ptr "struct device") ;;
    mnil).

Definition struct_iommu_ops : ctype :=
  struct_ false (
    mnil).

Definition struct_subsys_private : ctype :=
  struct_ false (
    fld "subsys" struct_kset ;;
    fld "devices_kset" (ptr "struct kset") ;;
    fld "interfaces" struct_list_head ;;
    fld "mutex" struct_mutex ;;
    fld "drivers_kset" (ptr "struct kset") ;;
    fld "klist_devices" struct_klist ;;
    fld "klist_drivers" struct_klist ;;
    fld "bus_notifier" struct_blocking_notifier_head ;;
    bits "drivers_autoprobe" (int_ 4 false) 1 ;;
    fld "bus" (ptr "struct bus_type") ;;
    fld "glue_dirs" struct_kset ;;
    fld "class" (ptr "struct class") ;;
    mnil).

Definition enum_module_state : ctype :=
  enum_ 4 [("MODULE_STATE_LIVE", 0); ("MODULE_STATE_COMING", 1); ("MODULE_STATE_GOING", 2); ("MODULE_STATE_UNFORMED", 3)].

Definition struct_module_kobject : ctype :=
  struct_ false (
    fld "kobj" struct_kobject ;;
    fld "mod" (ptr "struct module") ;;
    fld "drivers_dir" (ptr "struct kobject") ;;
    fld "mp" (ptr "struct module_param_attrs") ;;
    fld "kobj_completion" (ptr "struct completion") ;;
    mnil).

Definition struct_latch_tree_node : ctype :=
  struct_ false (
    fld "node" (arr struct_rb_node 2) ;;
    mnil).

Definition struct_mod_tree_node : ctype :=
  struct_ false (
    fld "mod" (ptr "struct module") ;;
    fld "node" struct_latch_tree_node ;;
    mnil).

Definition struct_module_layout : ctype :=
  struct_ false (
    fld "base" (ptr "void") ;;
    fld "size" (int_ 4 false) ;;
    fld "text_size" (int_ 4 false) ;;
    fld "ro_size" (int_ 4 false) ;;
    fld "ro_after_init_size" (int_ 4 false) ;;
    fld "mtn" struct_mod_tree_node ;;
    mnil).

Definition struct_mod_arch_specific : ctype :=
  struct_ false (
    mnil).

Definition struct_mod_kallsyms : ctype :=
  struct_ false (
    fld "symtab" (ptr "Elf32_Sym") ;;
    fld "num_symtab" (int_ 4 false) ;;
    fld "strtab" (ptr "char") ;;
    fld "typetab" (ptr "char") ;;
    mnil).

Definition struct_module : ctype :=
  struct_ false (
    fld "state" enum_module_state ;;
    fld "list" struct_list_head ;;
    fld "name" (arr (int_ 1 true) 60) ;;
    fld "mkobj" struct_module_kobject ;;
    fld "modinfo_attrs" (ptr "struct module_attribute") ;;
    fld "version" (ptr "char") ;;
    fld "srcversion" (ptr "char") ;;
    fld "holders_dir" (ptr "struct kobject") ;;
    fld "syms" (ptr "struct kernel_symbol") ;;
    fld "crcs" (ptr "s32") ;;
    fld "num_syms" (int_ 4 false) ;;
    fld "kp" (ptr "struct kernel_param") ;;
    fld "num_kp" (int_ 4 false) ;;
    fld "num_gpl_syms" (int_ 4 false) ;;
    fld "gpl_syms" (ptr "struct kernel_symbol") ;;
    fld "gpl_crcs" (ptr "s32") ;;
    fld "using_gplonly_symbols" ty_bool ;;
    fld "async_probe_requested" ty_bool ;;
    fld "num_exentries" (int_ 4 false) ;;
    fld "extable" (ptr "struct exception_table_entry") ;;
    fld "init" (ptr "function") ;;
    bits "" (int_ 4 true) 32 ;;
    fld "core_layout" struct_module_layout ;;
    fld "init_layout" struct_module_layout ;;
    fld "arch" struct_mod_arch_specific ;;
    fld "taints" (int_ 8 false) ;;
    fld "kallsyms" (ptr "struct mod_kallsyms") ;;
    fld "core_kallsyms" struct_mod_kallsyms ;;
    fld "sect_attrs" (ptr "struct module_sect_attrs") ;;
    fld "notes_attrs" (ptr "struct module_notes_attrs") ;;
    fld "args" (ptr "char") ;;
    fld "noinstr_text_start" (ptr "void") ;;
    fld "noinstr_text_size" (int_ 4 false) ;;
    fld "num_tracepoints" (int_ 4 false) ;;
    fld "tracepoints_ptrs" (ptr "tracepoint_ptr_t") ;;
    fld "num_bpf_raw_events" (int_ 4 false) ;;
    fld "bpf_raw_events" (ptr "struct bpf_raw_event_map") ;;
    fld "btf_data_size" (int_ 4 false) ;;
    fld "btf_data" (ptr "void") ;;
    fld "num_trace_bprintk_fmt" (int_ 4 false) ;;
    fld "trace_bprintk_fmt_start" (ptr "char *") ;;
    fld "trace_events" (ptr "struct trace_event_call *") ;;
    fld "num_trace_events" (int_ 4 false) ;;
    fld "trace_evals" (ptr "struct trace_eval_map *") ;;
    fld "num_trace_evals" (int_ 4 false) ;;
    fld "num_ftrace_callsites" (int_ 4 false) ;;
    fld "ftrace_callsites" (ptr "long unsigned int") ;;
    fld "kprobes_text_start" (ptr "void") ;;
    fld "kprobes_text_size" (int_ 4 false) ;;
    fld "kprobe_blacklist" (ptr "long unsigned int") ;;
    fld "num_kprobe_blacklist" (int_ 4 false) ;;
    fld "ei_funcs" (ptr "struct error_injection_entry") ;;
    fld "num_ei_funcs" (int_ 4 false) ;;
    bits "" (int_ 4 true) 32 ;;
    mnil).

Definition struct_of_device_id : ctype :=
  struct_ false (
    fld "name" (arr (int_ 1 true) 32) ;;
    fld "type" (arr (int_ 1 true) 32) ;;
    fld "compatible" (arr (int_ 1 true) 128) ;;
    fld "data" (ptr "void") ;;
    mnil).

Definition ty_kernel_ulong_t : ctype :=
  int_ 8 false.

Definition struct_acpi_device_id : ctype :=
  struct_ false (
    fld "id" (arr ty___u8 16) ;;
    fld "driver_data" ty_kernel_ulong_t ;;
    fld "cls" ty___u32 ;;
    fld "cls_msk" ty___u32 ;;
    mnil).

Definition struct_driver_private : ctype :=
  struct_ false (
    fld "kobj" struct_kobject ;;
    fld "klist_devices" struct_klist ;;
    fld "knode_bus" struct_klist_node ;;
    fld "mkobj" (ptr "struct module_kobject") ;;
    fld "driver" (ptr "struct device_driver") ;;
    mnil).

Definition struct_fwnode_operations : ctype :=
  struct_ false (
    fld "get" (ptr "function") ;;
    fld "put" (ptr "function") ;;
    fld "device_is_available" (ptr "function") ;;
    fld "device_get_match_data" (ptr "function") ;;
    fld "device_dma_supported" (ptr "function") ;;
    fld "device_get_dma_attr" (ptr "function") ;;
    fld "property_present" (ptr "function") ;;
    fld "property_read_int_array" (ptr "function") ;;
    fld "property_read_string_array" (ptr "function") ;;
    fld "get_name" (ptr "function") ;;
    fld "get_name_prefix" (ptr "function") ;;
    fld "get_parent" (ptr "function") ;;
    fld "get_next_child_node" (ptr "function") ;;
    fld "get_named_child_node" (ptr "function") ;;
    fld "get_reference_args" (ptr "function") ;;
    fld "graph_get_next_endpoint" (ptr "function") ;;
    fld "graph_get_remote_endpoint" (ptr "function") ;;
    fld "graph_get_port_parent" (ptr "function") ;;
    fld "graph_parse_endpoint" (ptr "function") ;;
    fld "iomap" (ptr "function") ;;
    fld "irq_get" (ptr "function") ;;
    fld "add_links" (ptr "function") ;;
    mnil).

Definition struct_property : ctype :=
  struct_ false (
    fld "name" (ptr "char") ;;
    fld "length" (int_ 4 true) ;;
    fld "value" (ptr "void") ;;
    fld "next" (ptr "struct property") ;;
    mnil).

Definition enum_kobj_ns_type : ctype :=
  enum_ 4 [("KOBJ_NS_TYPE_NONE", 0); ("KOBJ_NS_TYPE_NET", 1); ("KOBJ_NS_TYPES", 2)].

Definition struct_kobj_ns_type_operations : ctype :=
  struct_ false (
    fld "type" enum_kobj_ns_type ;;
    fld "current_may_mount" (ptr "function") ;;
    fld "grab_current_ns" (ptr "function") ;;
    fld "netlink_ns" (ptr "function") ;;
    fld "initial_ns" (ptr "function") ;;
    fld "drop_ns" (ptr "function") ;;
    mnil).

Definition struct_attribute : ctype :=
  struct_ false (
    fld "name" (ptr "char") ;;
    fld "mode" ty_umode_t ;;
    mnil).

Definition struct_bin_attribute : ctype :=
  struct_ false (
    fld "attr" struct_attribute ;;
    fld "size" ty_size_t ;;
    fld "private" (ptr "void") ;;
    fld "f_mapping" (ptr "function") ;;
    fld "read" (ptr "function") ;;
    fld "write" (ptr "function") ;;
    fld "mmap" (ptr "function") ;;
    mnil).

Definition struct_address_space_operations : ctype :=
  struct_ false (
    fld "writepage" (ptr "function") ;;
    fld "read_folio" (ptr "function") ;;
    fld "writepages" (ptr "function") ;;
    fld "dirty_folio" (ptr "function") ;;
    fld "readahead" (ptr "function") ;;
    fld "write_begin" (ptr "function") ;;
    fld "write_end" (ptr "function") ;;
    fld "bmap" (ptr "function") ;;
    fld "invalidate_folio" (ptr "function") ;;
    fld "release_folio" (ptr "function") ;;
    fld "free_folio" (ptr "function") ;;
    fld "direct_IO" (ptr "function") ;;
    fld "migrate_folio" (ptr "function") ;;
    fld "launder_folio" (ptr "function") ;;
    fld "is_partially_uptodate" (ptr "function") ;;
    fld "is_dirty_writeback" (ptr "function") ;;
    fld "error_remove_page" (ptr "function") ;;
    fld "swap_activate" (ptr "function") ;;
    fld "swap_deactivate" (ptr "function") ;;
    fld "swap_rw" (ptr "function") ;;
    mnil).

Definition struct_inode_operations : ctype :=
  struct_ false (
    fld "lookup" (ptr "function") ;;
    fld "get_link" (ptr "function") ;;
    fld "permission" (ptr "function") ;;
    fld "get_acl" (ptr "function") ;;
    fld "readlink" (ptr "function") ;;
    fld "create" (ptr "function") ;;
    fld "link" (ptr "function") ;;
    fld "unlink" (ptr "function") ;;
    fld "symlink" (ptr "function") ;;
    fld "mkdir" (ptr "function") ;;
    fld "rmdir" (ptr "function") ;;
    fld "mknod" (ptr "function") ;;
    fld "rename" (ptr "function") ;;
    fld "setattr" (ptr "function") ;;
    fld "getattr" (ptr "function") ;;
    fld "listxattr" (ptr "function") ;;
    fld "fiemap" (ptr "function") ;;
    fld "update_time" (ptr "function") ;;
    fld "atomic_open" (ptr "function") ;;
    fld "tmpfile" (ptr "function") ;;
    fld "set_acl" (ptr "function") ;;
    fld "fileattr_set" (ptr "function") ;;
    fld "fileattr_get" (ptr "function") ;;
    bits "" (int_ 4 true) 32 ;;
    mnil).

Definition struct_file_operations : ctype :=
  struct_ false (
    fld "owner" (ptr "struct module") ;;
    fld "llseek" (ptr "function") ;;
    fld "read" (ptr "function") ;;
    fld "write" (ptr "function") ;;
    fld "read_iter" (ptr "function") ;;
    fld "write_iter" (ptr "function") ;;
    fld "iopoll" (ptr "function") ;;
    fld "iterate" (ptr "function") ;;
    fld "iterate_shared" (ptr "function") ;;
    fld "poll" (ptr "function") ;;
    fld "unlocked_ioctl" (ptr "function") ;;
    fld "compat_ioctl" (ptr "function") ;;
    fld "mmap" (ptr "function") ;;
    fld "mmap_supported_flags" (int_ 8 false) ;;
    fld "open" (ptr "function") ;;
    fld "flush" (ptr "function") ;;
    fld "release" (ptr "function") ;;
    fld "fsync" (ptr "function") ;;
    fld "fasync" (ptr "function") ;;
    fld "lock" (ptr "function") ;;
    fld "sendpage" (ptr "function") ;;
    fld "get_unmapped_area" (ptr "function") ;;
    fld "check_flags" (ptr "function") ;;
    fld "flock" (ptr "function") ;;
    fld "splice_write" (ptr "function") ;;
    fld "splice_read" (ptr "function") ;;
    fld "setlease" (ptr "function") ;;
    fld "fallocate" (ptr "function") ;;
    fld "show_fdinfo" (ptr "function") ;;
    fld "copy_file_range" (ptr "function") ;;
    fld "remap_file_range" (ptr "function") ;;
    fld "fadvise" (ptr "function") ;;
    fld "uring_cmd" (ptr "function") ;;
    mnil).

Definition struct_file_lock_context : ctype :=
  struct_ false (
    fld "flc_lock" ty_spinlock_t ;;
    fld "flc_flock" struct_list_head ;;
    fld "flc_posix" struct_list_head ;;
    fld "flc_lease" struct_list_head ;;
    mnil).

Definition struct_cdev : ctype :=
  struct_ false (
    fld "kobj" struct_kobject ;;
    fld "owner" (ptr "struct module") ;;
    fld "ops" (ptr "struct file_operations") ;;
    fld "list" struct_list_head ;;
    fld "dev" ty_dev_t ;;
    fld "count" (int_ 4 false) ;;
    mnil).

Definition struct_quota_format_type : ctype :=
  struct_ false (
    fld "qf_fmt_id" (int_ 4 true) ;;
    fld "qf_ops" (ptr "struct quota_format_ops") ;;
    fld "qf_owner" (ptr "struct module") ;;
    fld "qf_next" (ptr "struct quota_format_type") ;;
    mnil).

Definition struct_quota_format_ops : ctype :=
  struct_ false (
    fld "check_quota_file" (ptr "function") ;;
    fld "read_file_info" (ptr "function") ;;
    fld "write_file_info" (ptr "function") ;;
    fld "free_file_info" (ptr "function") ;;
    fld "read_dqblk" (ptr "function") ;;
    fld "commit_dqblk" (ptr "function") ;;
    fld "release_dqblk" (ptr "function") ;;
    fld "get_next_id" (ptr "function") ;;
    mnil).

Definition struct_list_lru_one : ctype :=
  struct_ false (
    fld "list" struct_list_head ;;
    fld "nr_items" (int_ 8 true) ;;
    mnil).

Definition struct_list_lru_node : ctype :=
  struct_ false (
    fld "lock" ty_spinlock_t ;;
    fld "lru" struct_list_lru_one ;;
    fld "nr_items" (int_ 8 true) ;;
    mnil).

Definition struct_file_system_type : ctype :=
  struct_ false (
    fld "name" (ptr "char") ;;
    fld "fs_flags" (int_ 4 true) ;;
    fld "init_fs_context" (ptr "function") ;;
    fld "parameters" (ptr "struct fs_parameter_spec") ;;
    fld "mount" (ptr "function") ;;
    fld "kill_sb" (ptr "function") ;;
    fld "owner" (ptr "struct module") ;;
    fld "next" (ptr "struct file_system_type") ;;
    fld "fs_supers" struct_hlist_head ;;
    fld "s_lock_key" struct_lock_class_key ;;
    fld "s_umount_key" struct_lock_class_key ;;
    fld "s_vfs_rename_key" struct_lock_class_key ;;
    fld "s_writers_key" (arr struct_lock_class_key 3) ;;
    fld "i_lock_key" struct_lock_class_key ;;
    fld "i_mutex_key" struct_lock_class_key ;;
    fld "invalidate_lock_key" struct_lock_class_key ;;
    fld "i_mutex_dir_key" struct_lock_class_key ;;
    mnil).

Definition struct_super_operations : ctype :=
  struct_ false (
    fld "alloc_inode" (ptr "function") ;;
    fld "destroy_inode" (ptr "function") ;;
    fld "free_inode" (ptr "function") ;;
    fld "dirty_inode" (ptr "function") ;;
    fld "write_inode" (ptr "function") ;;
    fld "drop_inode" (ptr "function") ;;
    fld "evict_inode" (ptr "function") ;;
    fld "put_super" (ptr "function") ;;
    fld "sync_fs" (ptr "function") ;;
    fld "freeze_super" (ptr "function") ;;
    fld "freeze_fs" (ptr "function") ;;
    fld "thaw_super" (ptr "function") ;;
    fld "unfreeze_fs" (ptr "function") ;;
    fld "statfs" (ptr "function") ;;
    fld "remount_fs" (ptr "function") ;;
    fld "umount_begin" (ptr "function") ;;
    fld "show_options" (ptr "function") ;;
    fld "show_devname" (ptr "function") ;;
    fld "show_path" (ptr "function") ;;
    fld "show_stats" (ptr "function") ;;
    fld "nr_cached_objects" (ptr "function") ;;
    fld "free_cached_objects" (ptr "function") ;;
    mnil).

Definition struct_dquot_operations : ctype :=
  struct_ false (
    fld "write_dquot" (ptr "function") ;;
    fld "alloc_dquot" (ptr "function") ;;
    fld "destroy_dquot" (ptr "function") ;;
    fld "acquire_dquot" (ptr "function") ;;
    fld "release_dquot" (ptr "function") ;;
    fld "mark_dirty" (ptr "function") ;;
    fld "write_info" (ptr "function") ;;
    fld "get_reserved_space" (ptr "function") ;;
    fld "get_projid" (ptr "function") ;;
    fld "get_inode_usage" (ptr "function") ;;
    fld "get_next_id" (ptr "function") ;;
    mnil).

Definition struct_quotactl_ops : ctype :=
  struct_ false (
    fld "quota_on" (ptr "function") ;;
    fld "quota_off" (ptr "function") ;;
    fld "quota_enable" (ptr "function") ;;
    fld "quota_disable" (ptr "function") ;;
    fld "quota_sync" (ptr "function") ;;
    fld "set_info" (ptr "function") ;;
    fld "get_dqblk" (ptr "function") ;;
    fld "get_nextdqblk" (ptr "function") ;;
    fld "set_dqblk" (ptr "function") ;;
    fld "get_state" (ptr "function") ;;
    fld "rm_xquota" (ptr "function") ;;
    mnil).

Definition struct_export_operations : ctype :=
  struct_ false (
    fld "encode_fh" (ptr "function") ;;
    fld "fh_to_dentry" (ptr "function") ;;
    fld "fh_to_parent" (ptr "function") ;;
    fld "get_name" (ptr "function") ;;
    fld "get_parent" (ptr "function") ;;
    fld "commit_metadata" (ptr "function") ;;
    fld "get_uuid" (ptr "function") ;;
    fld "map_blocks" (ptr "function") ;;
    fld "commit_blocks" (ptr "function") ;;
    fld "fetch_iversion" (ptr "function") ;;
    fld "flags" (int_ 8 false) ;;
    mnil).

Definition struct_xattr_handler : ctype :=
  struct_ false (
    fld "name" (ptr "char") ;;
    fld "prefix" (ptr "char") ;;
    fld "flags" (int_ 4 true) ;;
    fld "list" (ptr "function") ;;
    fld "get" (ptr "function") ;;
    fld "set" (ptr "function") ;;
    mnil).

Definition struct_dentry_operations : ctype :=
  struct_ false (
    fld "d_revalidate" (ptr "function") ;;
    fld "d_weak_revalidate" (ptr "function") ;;
    fld "d_hash" (ptr "function") ;;
    fld "d_compare" (ptr "function") ;;
    fld "d_delete" (ptr "function") ;;
    fld "d_init" (ptr "function") ;;
    fld "d_release" (ptr "function") ;;
    fld "d_prune" (ptr "function") ;;
    fld "d_iput" (ptr "function") ;;
    fld "d_dname" (ptr "function") ;;
    fld "d_automount" (ptr "function") ;;
    fld "d_manage" (ptr "function") ;;
    fld "d_real" (ptr "function") ;;
    bits "" (int_ 4 true) 32 ;;
    bits "" (int_ 4 true) 32 ;;
    bits "" (int_ 4 true) 32 ;;
    mnil).

Definition struct_wq_flusher : ctype :=
  struct_ false (
    fld "list" struct_list_head ;;
    fld "flush_color" (int_ 4 true) ;;
    fld "done" struct_completion ;;
    mnil).

Definition struct_worker : ctype :=
  struct_ false (
    anon (union_ false (
      fld "entry" struct_list_head ;;
      fld "hentry" struct_hlist_node ;;
      mnil)) ;;
    fld "current_work" (ptr "struct work_struct") ;;
    fld "current_func" ty_work_func_t ;;
    fld "current_pwq" (ptr "struct pool_workqueue") ;;
    fld "current_color" (int_ 4 false) ;;
    fld "scheduled" struct_list_head ;;
    fld "task" (ptr "struct task_struct") ;;
    fld "pool" (ptr "struct worker_pool") ;;
    fld "node" struct_list_head ;;
    fld "last_active" (int_ 8 false) ;;
    fld "flags" (int_ 4 false) ;;
    fld "id" (int_ 4 true) ;;
    fld "sleeping" (int_ 4 true) ;;
    fld "desc" (arr (int_ 1 true) 24) ;;
    fld "rescue_wq" (ptr "struct workqueue_struct") ;;
    fld "last_func" ty_work_func_t ;;
    mnil).

Definition ty_cpumask_var_t : ctype :=
  arr struct_cpumask 1.

Definition struct_workqueue_attrs : ctype :=
  struct_ false (
    fld "nice" (int_ 4 true) ;;
    fld "cpumask" ty_cpumask_var_t ;;
    fld "no_numa" ty_bool ;;
    mnil).

Definition struct_pool_workqueue : ctype :=
  struct_ false (
    fld "pool" (ptr "struct worker_pool") ;;
    fld "wq" (ptr "struct workqueue_struct") ;;
    fld "work_color" (int_ 4 true) ;;
    fld "flush_color" (int_ 4 true) ;;
    fld "refcnt" (int_ 4 true) ;;
    fld "nr_in_flight" (arr (int_ 4 true) 16) ;;
    fld "nr_active" (int_ 4 true) ;;
    fld "max_active" (int_ 4 true) ;;
    fld "inactive_works" struct_list_head ;;
    fld "pwqs_node" struct_list_head ;;
    fld "mayday_node" struct_list_head ;;
    fld "unbound_release_work" struct_work_struct ;;
    fld "rcu" struct_callback_head ;;
    bits "" (int_ 4 true) 32 ;;
    bits "" (int_ 4 true) 32 ;;
    bits "" (int_ 4 true) 32 ;;
    bits "" (int_ 4 true) 32 ;;
    bits "" (int_ 4 true) 32 ;;
    bits "" (int_ 4 true) 32 ;;
    bits "" (int_ 4 true) 32 ;;
    bits "" (int_ 4 true) 32 ;;
    bits "" (int_ 4 true) 32 ;;
    bits "" (int_ 4 true) 32 ;;
    bits "" (int_ 4 true) 32 ;;
    bits "" (int_ 4 true) 32 ;;
    bits "" (int_ 4 true) 32 ;;
    bits "" (int_ 4 true) 32 ;;
    bits "" (int_ 4 true) 32 ;;
    bits "" (int_ 4 true) 32 ;;
    bits "" (int_ 4 true) 32 ;;
    bits "" (int_ 4 true) 32 ;;
    bits "" (int_ 4 true) 32 ;;
    bits "" (int_ 4 true) 32 ;;
    bits "" (int_ 4 true) 32 ;;
    bits "" (int_ 4 true) 32 ;;
    bits "" (int_ 4 true) 32 ;;
    bits "" (int_ 4 true) 32 ;;
    bits "" (int_ 4 true) 32 ;;
    bits "" (int_ 4 true) 32 ;;
    bits "" (int_ 4 true) 32 ;;
    bits "" (int_ 4 true) 32 ;;
    bits "" (int_ 4 true) 32 ;;
    mnil).

(** Every declaration above, for the checks that range over the header. *)
Definition kernel_types : list (string * ctype) :=
  [("struct trace_entry", struct_trace_entry);
   ("__u32", ty___u32);
   ("u32", ty_u32);
   ("__kernel_pid_t", ty___kernel_pid_t);
   ("pid_t", ty_pid_t);
   ("struct trace_event_raw_sched_process_exec", struct_trace_event_raw_sched_process_exec);
   ("struct trace_event_raw_sched_process_fork", struct_trace_event_raw_sched_process_fork);
   ("struct thread_info", struct_thread_info);
   ("atomic_t", ty_atomic_t);
   ("struct refcount_struct", struct_refcount_struct);
   ("refcount_t", ty_refcount_t);
   ("struct load_weight", struct_load_weight);
   ("struct rb_node", struct_rb_node);
   ("struct list_head", struct_list_head);
   ("__u64", ty___u64);
   ("u64", ty_u64);
   ("struct sched_entity", struct_sched_entity);
   ("struct sched_rt_entity", struct_sched_rt_entity);
   ("__s64", ty___s64);
   ("s64", ty_s64);
   ("ktime_t", ty_ktime_t);
   ("struct timerqueue_node", struct_timerqueue_node);
   ("__u8", ty___u8);
   ("u8", ty_u8);
   ("struct hrtimer", struct_hrtimer);
   ("struct sched_dl_entity", struct_sched_dl_entity);
   ("struct sched_statistics", struct_sched_statistics);
   ("struct cpumask", struct_cpumask);
   ("cpumask_t", ty_cpumask_t);
   ("union rcu_special", union_rcu_special);
   ("struct sched_info", struct_sched_info);
   ("struct vmacache", struct_vmacache);
   ("__kernel_clockid_t", ty___kernel_clockid_t);
   ("clockid_t", ty_clockid_t);
   ("enum timespec_type", enum_timespec_type);
   ("struct restart_block", struct_restart_block);
   ("struct hlist_node", struct_hlist_node);
   ("arch_spinlock_t", ty_arch_spinlock_t);
   ("struct raw_spinlock", struct_raw_spinlock);
   ("raw_spinlock_t", ty_raw_spinlock_t);
   ("struct prev_cputime", struct_prev_cputime);
   ("struct posix_cputimers", struct_posix_cputimers);
   ("sigset_t", ty_sigset_t);
   ("struct sigpending", struct_sigpending);
   ("__kernel_size_t", ty___kernel_size_t);
   ("size_t", ty_size_t);
   ("struct seccomp", struct_seccomp);
   ("bool", ty_bool);
   ("struct syscall_user_dispatch", struct_syscall_user_dispatch);
   ("struct spinlock", struct_spinlock);
   ("spinlock_t", ty_spinlock_t);
   ("struct wake_q_node", struct_wake_q_node);
   ("struct task_io_accounting", struct_task_io_accounting);
   ("atomic_long_t", ty_atomic_long_t);
   ("struct mutex", struct_mutex);
   ("struct arch_tlbflush_unmap_batch", struct_arch_tlbflush_unmap_batch);
   ("struct tlbflush_unmap_batch", struct_tlbflush_unmap_batch);
   ("struct callback_head", struct_callback_head);
   ("__u16", ty___u16);
   ("struct page_frag", struct_page_frag);
   ("pteval_t", ty_pteval_t);
   ("pte_t", ty_pte_t);
   ("struct kmap_ctrl", struct_kmap_ctrl);
   ("struct timer_list", struct_timer_list);
   ("struct llist_head", struct_llist_head);
   ("u16", ty_u16);
   ("struct desc_struct", struct_desc_struct);
   ("struct fpu_state_perm", struct_fpu_state_perm);
   ("struct fregs_state", struct_fregs_state);
   ("struct fxregs_state", struct_fxregs_state);
   ("struct swregs_state", struct_swregs_state);
   ("struct xstate_header", struct_xstate_header);
   ("struct xregs_state", struct_xregs_state);
   ("union fpregs_state", union_fpregs_state);
   ("struct fpstate", struct_fpstate);
   ("struct fpu", struct_fpu);
   ("struct thread_struct", struct_thread_struct);
   ("struct task_struct", struct_task_struct);
   ("blk_opf_t", ty_blk_opf_t);
   ("blk_status_t", ty_blk_status_t);
   ("sector_t", ty_sector_t);
   ("struct bvec_iter", struct_bvec_iter);
   ("blk_qc_t", ty_blk_qc_t);
   ("struct bio_vec", struct_bio_vec);
   ("struct bio", struct_bio);
   ("__kernel_dev_t", ty___kernel_dev_t);
   ("dev_t", ty_dev_t);
   ("struct kref", struct_kref);
   ("struct kobject", struct_kobject);
   ("enum dl_dev_state", enum_dl_dev_state);
   ("struct dev_links_info", struct_dev_links_info);
   ("struct pm_message", struct_pm_message);
   ("pm_message_t", ty_pm_message_t);
   ("struct dev_pm_info", struct_dev_pm_info);
   ("struct dev_msi_info", struct_dev_msi_info);
   ("struct dev_archdata", struct_dev_archdata);
   ("enum device_removable", enum_device_removable);
   ("struct device", struct_device);
   ("struct block_device", struct_block_device);
   ("struct percpu_ref", struct_percpu_ref);
   ("gfp_t", ty_gfp_t);
   ("struct xarray", struct_xarray);
   ("work_func_t", ty_work_func_t);
   ("struct work_struct", struct_work_struct);
   ("enum blk_bounce", enum_blk_bounce);
   ("enum blk_zoned_model", enum_blk_zoned_model);
   ("struct queue_limits", struct_queue_limits);
   ("struct delayed_work", struct_delayed_work);
   ("struct wait_queue_head", struct_wait_queue_head);
   ("wait_queue_head_t", ty_wait_queue_head_t);
   ("struct swait_queue_head", struct_swait_queue_head);
   ("struct srcu_struct", struct_srcu_struct);
   ("struct request_queue", struct_request_queue);
   ("struct mempool_s", struct_mempool_s);
   ("mempool_t", ty_mempool_t);
   ("struct bio_list", struct_bio_list);
   ("struct bio_set", struct_bio_set);
   ("struct lockdep_map", struct_lockdep_map);
   ("struct gendisk", struct_gendisk);
   ("__s8", ty___s8);
   ("s8", ty_s8);
   ("__s16", ty___s16);
   ("s16", ty_s16);
   ("__s32", ty___s32);
   ("s32", ty_s32);
   ("struct seqcount", struct_seqcount);
   ("seqcount_t", ty_seqcount_t);
   ("struct seqcount_raw_spinlock", struct_seqcount_raw_spinlock);
   ("seqcount_raw_spinlock_t", ty_seqcount_raw_spinlock_t);
   ("struct rb_root", struct_rb_root);
   ("struct rb_root_cached", struct_rb_root_cached);
   ("struct timerqueue_head", struct_timerqueue_head);
   ("struct hrtimer_clock_base", struct_hrtimer_clock_base);
   ("pgprotval_t", ty_pgprotval_t);
   ("struct pgprot", struct_pgprot);
   ("pgprot_t", ty_pgprot_t);
   ("struct vm_userfaultfd_ctx", struct_vm_userfaultfd_ctx);
   ("struct vm_area_struct", struct_vm_area_struct);
   ("__kernel_time64_t", ty___kernel_time64_t);
   ("struct __kernel_timespec", struct___kernel_timespec);
   ("old_time32_t", ty_old_time32_t);
   ("struct old_timespec32", struct_old_timespec32);
   ("struct pollfd", struct_pollfd);
   ("pgtable_t", ty_pgtable_t);
   ("struct page", struct_page);
   ("struct llist_node", struct_llist_node);
   ("struct math_emu_info", struct_math_emu_info);
   ("enum perf_event_state", enum_perf_event_state);
   ("atomic64_t", ty_atomic64_t);
   ("local64_t", ty_local64_t);
   ("struct perf_event_attr", struct_perf_event_attr);
   ("struct hw_perf_event_extra", struct_hw_perf_event_extra);
   ("struct arch_hw_breakpoint", struct_arch_hw_breakpoint);
   ("struct hw_perf_event", struct_hw_perf_event);
   ("struct __call_single_node", struct___call_single_node);
   ("struct rcuwait", struct_rcuwait);
   ("struct irq_work", struct_irq_work);
   ("struct perf_addr_filters_head", struct_perf_addr_filters_head);
   ("perf_overflow_handler_t", ty_perf_overflow_handler_t);
   ("ftrace_func_t", ty_ftrace_func_t);
   ("struct ftrace_ops_hash", struct_ftrace_ops_hash);
   ("ftrace_ops_func_t", ty_ftrace_ops_func_t);
   ("struct ftrace_ops", struct_ftrace_ops);
   ("struct perf_event", struct_perf_event);
   ("struct io_bitmap", struct_io_bitmap);
   ("struct sched_class", struct_sched_class);
   ("struct rw_semaphore", struct_rw_semaphore);
   ("struct mm_rss_stat", struct_mm_rss_stat);
   ("mm_context_t", ty_mm_context_t);
   ("struct uprobes_state", struct_uprobes_state);
   ("struct mm_struct", struct_mm_struct);
   ("struct hlist_head", struct_hlist_head);
   ("struct upid", struct_upid);
   ("struct pid", struct_pid);
   ("struct completion", struct_completion);
   ("__kernel_uid32_t", ty___kernel_uid32_t);
   ("uid_t", ty_uid_t);
   ("kuid_t", ty_kuid_t);
   ("__kernel_gid32_t", ty___kernel_gid32_t);
   ("gid_t", ty_gid_t);
   ("kgid_t", ty_kgid_t);
   ("struct kernel_cap_struct", struct_kernel_cap_struct);
   ("kernel_cap_t", ty_kernel_cap_t);
   ("struct cred", struct_cred);
   ("struct path", struct_path);
   ("struct qstr", struct_qstr);
   ("struct delayed_call", struct_delayed_call);
   ("struct saved", struct_saved);
   ("umode_t", ty_umode_t);
   ("struct nameidata", struct_nameidata);
   ("struct seqcount_spinlock", struct_seqcount_spinlock);
   ("seqcount_spinlock_t", ty_seqcount_spinlock_t);
   ("struct fs_struct", struct_fs_struct);
   ("struct fdtable", struct_fdtable);
   ("struct files_struct", struct_files_struct);
   ("struct nsproxy", struct_nsproxy);
   ("seqlock_t", ty_seqlock_t);
   ("__kernel_ulong_t", ty___kernel_ulong_t);
   ("struct rlimit", struct_rlimit);
   ("struct signal_struct", struct_signal_struct);
   ("__sighandler_t", ty___sighandler_t);
   ("__sigrestore_t", ty___sigrestore_t);
   ("struct sigaction", struct_sigaction);
   ("struct k_sigaction", struct_k_sigaction);
   ("struct sighand_struct", struct_sighand_struct);
   ("struct blk_plug", struct_blk_plug);
   ("struct reclaim_state", struct_reclaim_state);
   ("struct percpu_counter", struct_percpu_counter);
   ("struct fprop_local_percpu", struct_fprop_local_percpu);
   ("enum wb_reason", enum_wb_reason);
   ("struct bdi_writeback", struct_bdi_writeback);
   ("struct backing_dev_info", struct_backing_dev_info);
   ("struct io_context", struct_io_context);
   ("struct perf_event_groups", struct_perf_event_groups);
   ("struct perf_event_context", struct_perf_event_context);
   ("struct pipe_inode_info", struct_pipe_inode_info);
   ("enum uprobe_task_state", enum_uprobe_task_state);
   ("struct arch_uprobe_task", struct_arch_uprobe_task);
   ("struct uprobe_task", struct_uprobe_task);
   ("struct bpf_local_storage", struct_bpf_local_storage);
   ("struct bpf_run_ctx", struct_bpf_run_ctx);
   ("struct kset", struct_kset);
   ("struct kobj_type", struct_kobj_type);
   ("struct kernfs_elem_dir", struct_kernfs_elem_dir);
   ("struct kernfs_elem_symlink", struct_kernfs_elem_symlink);
   ("__kernel_loff_t", ty___kernel_loff_t);
   ("loff_t", ty_loff_t);
   ("struct kernfs_elem_attr", struct_kernfs_elem_attr);
   ("struct kernfs_node", struct_kernfs_node);
   ("struct pm_subsys_data", struct_pm_subsys_data);
   ("struct plist_head", struct_plist_head);
   ("enum pm_qos_type", enum_pm_qos_type);
   ("struct pm_qos_constraints", struct_pm_qos_constraints);
   ("struct blocking_notifier_head", struct_blocking_notifier_head);
   ("struct freq_constraints", struct_freq_constraints);
   ("struct pm_qos_flags", struct_pm_qos_flags);
   ("struct dev_pm_qos", struct_dev_pm_qos);
   ("struct klist", struct_klist);
   ("struct klist_node", struct_klist_node);
   ("struct device_private", struct_device_private);
   ("struct device_type", struct_device_type);
   ("struct lock_class_key", struct_lock_class_key);
   ("struct bus_type", struct_bus_type);
   ("enum probe_type", enum_probe_type);
   ("struct device_driver", struct_device_driver);
   ("struct dev_pm_ops", struct_dev_pm_ops);
   ("struct dev_pm_domain", struct_dev_pm_domain);
   ("phys_addr_t", ty_phys_addr_t);
   ("dma_addr_t", ty_dma_addr_t);
   ("struct bus_dma_region", struct_bus_dma_region);
   ("struct device_dma_parameters", struct_device_dma_parameters);
   ("phandle", ty_phandle);
   ("struct fwnode_handle", struct_fwnode_handle);
   ("struct device_node", struct_device_node);
   ("struct class", struct_class);
   ("struct attribute_group", struct_attribute_group);
   ("struct iommu_group", struct_iommu_group);
   ("enum device_physical_location_panel", enum_device_physical_location_panel);
   ("enum device_physical_location_vertical_position", enum_device_physical_location_vertical_position);
   ("enum device_physical_location_horizontal_position", enum_device_physical_location_horizontal_position);
   ("struct device_physical_location", struct_device_physical_location);
   ("time64_t", ty_time64_t);
   ("struct timespec64", struct_timespec64);
   ("blkcnt_t", ty_blkcnt_t);
   ("errseq_t", ty_errseq_t);
   ("struct address_space", struct_address_space);
   ("struct inode", struct_inode);
   ("struct hlist_bl_head", struct_hlist_bl_head);
   ("qsize_t", ty_qsize_t);
   ("struct mem_dqinfo", struct_mem_dqinfo);
   ("struct quota_info", struct_quota_info);
   ("struct rcu_sync", struct_rcu_sync);
   ("struct percpu_rw_semaphore", struct_percpu_rw_semaphore);
   ("struct sb_writers", struct_sb_writers);
   ("uuid_t", ty_uuid_t);
   ("fmode_t", ty_fmode_t);
   ("struct shrinker", struct_shrinker);
   ("struct list_lru", struct_list_lru);
   ("struct super_block", struct_super_block);
   ("struct partition_meta_info", struct_partition_meta_info);
   ("struct percpu_ref_data", struct_percpu_ref_data);
   ("struct workqueue_struct", struct_workqueue_struct);
   ("struct blk_rq_stat", struct_blk_rq_stat);
   ("struct hlist_bl_node", struct_hlist_bl_node);
   ("struct lockref", struct_lockref);
   ("struct dentry", struct_dentry);
   ("slab_flags_t", ty_slab_flags_t);
   ("struct kmem_cache", struct_kmem_cache);
   ("struct block_device_operations", struct_block_device_operations);
   ("struct timer_rand_state", struct_timer_rand_state);
   ("struct blk_independent_access_range", struct_blk_independent_access_range);
   ("struct blk_independent_access_ranges", struct_blk_independent_access_ranges);
   ("struct hrtimer_cpu_base", struct_hrtimer_cpu_base);
   ("struct anon_vma_name", struct_anon_vma_name);
   ("struct anon_vma", struct_anon_vma);
   ("struct vm_operations_struct", struct_vm_operations_struct);
   ("arch_rwlock_t", ty_arch_rwlock_t);
   ("rwlock_t", ty_rwlock_t);
   ("enum pid_type", enum_pid_type);
   ("struct fown_struct", struct_fown_struct);
   ("struct file_ra_state", struct_file_ra_state);
   ("struct file", struct_file);
   ("enum dma_data_direction", enum_dma_data_direction);
   ("struct page_pool_params", struct_page_pool_params);
   ("struct pp_alloc_cache", struct_pp_alloc_cache);
   ("struct ptr_ring", struct_ptr_ring);
   ("struct page_pool", struct_page_pool);
   ("struct vmem_altmap", struct_vmem_altmap);
   ("enum memory_type", enum_memory_type);
   ("struct range", struct_range);
   ("struct dev_pagemap", struct_dev_pagemap);
   ("struct pt_regs", struct_pt_regs);
   ("struct ftrace_hash", struct_ftrace_hash);
   ("struct pmu", struct_pmu);
   ("local_t", ty_local_t);
   ("struct perf_buffer", struct_perf_buffer);
   ("struct fasync_struct", struct_fasync_struct);
   ("struct perf_addr_filter_range", struct_perf_addr_filter_range);
   ("struct idr", struct_idr);
   ("struct ns_common", struct_ns_common);
   ("struct pid_namespace", struct_pid_namespace);
   ("enum bpf_prog_type", enum_bpf_prog_type);
   ("enum bpf_attach_type", enum_bpf_attach_type);
   ("struct sock_filter", struct_sock_filter);
   ("struct bpf_insn", struct_bpf_insn);
   ("struct bpf_prog", struct_bpf_prog);
   ("struct trace_event", struct_trace_event);
   ("struct trace_event_call", struct_trace_event_call);
   ("struct event_filter", struct_event_filter);
   ("struct vdso_image", struct_vdso_image);
   ("struct vm_special_mapping", struct_vm_special_mapping);
   ("struct xol_area", struct_xol_area);
   ("struct linux_binfmt", struct_linux_binfmt);
   ("struct uid_gid_extent", struct_uid_gid_extent);
   ("struct uid_gid_map", struct_uid_gid_map);
   ("struct user_namespace", struct_user_namespace);
   ("struct ratelimit_state", struct_ratelimit_state);
   ("struct user_struct", struct_user_struct);
   ("struct ucounts", struct_ucounts);
   ("struct group_info", struct_group_info);
   ("struct vfsmount", struct_vfsmount);
   ("struct filename", struct_filename);
   ("struct new_utsname", struct_new_utsname);
   ("struct uts_namespace", struct_uts_namespace);
   ("rht_hashfn_t", ty_rht_hashfn_t);
   ("rht_obj_hashfn_t", ty_rht_obj_hashfn_t);
   ("rht_obj_cmpfn_t", ty_rht_obj_cmpfn_t);
   ("struct rhashtable_params", struct_rhashtable_params);
   ("struct rhashtable", struct_rhashtable);
   ("struct ipc_ids", struct_ipc_ids);
   ("notifier_fn_t", ty_notifier_fn_t);
   ("struct notifier_block", struct_notifier_block);
   ("struct ctl_table_header", struct_ctl_table_header);
   ("struct ctl_dir", struct_ctl_dir);
   ("struct ctl_table_set", struct_ctl_table_set);
   ("struct ipc_namespace", struct_ipc_namespace);
   ("struct mnt_namespace", struct_mnt_namespace);
   ("struct ref_tracker_dir", struct_ref_tracker_dir);
   ("struct raw_notifier_head", struct_raw_notifier_head);
   ("struct netns_core", struct_netns_core);
   ("struct netns_mib", struct_netns_mib);
   ("struct netns_packet", struct_netns_packet);
   ("struct netns_nexthop", struct_netns_nexthop);
   ("struct inet_timewait_death_row", struct_inet_timewait_death_row);
   ("struct local_ports", struct_local_ports);
   ("struct ping_group_range", struct_ping_group_range);
   ("siphash_key_t", ty_siphash_key_t);
   ("struct netns_ipv4", struct_netns_ipv4);
   ("struct netns_bpf", struct_netns_bpf);
   ("struct net", struct_net);
   ("struct timens_offsets", struct_timens_offsets);
   ("struct time_namespace", struct_time_namespace);
   ("struct cgroup_namespace", struct_cgroup_namespace);
   ("struct core_thread", struct_core_thread);
   ("struct core_state", struct_core_state);
   ("struct ld_semaphore", struct_ld_semaphore);
   ("tcflag_t", ty_tcflag_t);
   ("cc_t", ty_cc_t);
   ("speed_t", ty_speed_t);
   ("struct ktermios", struct_ktermios);
   ("struct winsize", struct_winsize);
   ("struct tty_struct", struct_tty_struct);
   ("struct pipe_buffer", struct_pipe_buffer);
   ("struct arch_uprobe", struct_arch_uprobe);
   ("struct uprobe", struct_uprobe);
   ("struct return_instance", struct_return_instance);
   ("struct bpf_local_storage_data", struct_bpf_local_storage_data);
   ("struct kset_uevent_ops", struct_kset_uevent_ops);
   ("struct sysfs_ops", struct_sysfs_ops);
   ("struct kernfs_ops", struct_kernfs_ops);
   ("enum dev_pm_qos_req_type", enum_dev_pm_qos_req_type);
   ("struct plist_node", struct_plist_node);
   ("struct pm_qos_flags_request", struct_pm_qos_flags_request);
   ("enum freq_qos_req_type", enum_freq_qos_req_type);
   ("struct freq_qos_request", struct_freq_qos_request);
   ("struct dev_pm_qos_request", struct_dev_pm_qos_request);
   ("struct iommu_ops", struct_iommu_ops);
   ("struct subsys_private", struct_subsys_private);
   ("enum module_state", enum_module_state);
   ("struct module_kobject", struct_module_kobject);
   ("struct latch_tree_node", struct_latch_tree_node);
   ("struct mod_tree_node", struct_mod_tree_node);
   ("struct module_layout", struct_module_layout);
   ("struct mod_arch_specific", struct_mod_arch_specific);
   ("struct mod_kallsyms", struct_mod_kallsyms);
   ("struct module", struct_module);
   ("struct of_device_id", struct_of_device_id);
   ("kernel_ulong_t", ty_kernel_ulong_t);
   ("struct acpi_device_id", struct_acpi_device_id);
   ("struct driver_private", struct_driver_private);
   ("struct fwnode_operations", struct_fwnode_operations);
   ("struct property", struct_property);
   ("enum kobj_ns_type", enum_kobj_ns_type);
   ("struct kobj_ns_type_operations", struct_kobj_ns_type_operations);
   ("struct attribute", struct_attribute);
   ("struct bin_attribute", struct_bin_attribute);
   ("struct address_space_operations", struct_address_space_operations);
   ("struct inode_operations", struct_inode_operations);
   ("struct file_operations", struct_file_operations);
   ("struct file_lock_context", struct_file_lock_context);
   ("struct cdev", struct_cdev);
   ("struct quota_format_type", struct_quota_format_type);
   ("struct quota_format_ops", struct_quota_format_ops);
   ("struct list_lru_one", struct_list_lru_one);
   ("struct list_lru_node", struct_list_lru_node);
   ("struct file_system_type", struct_file_system_type);
   ("struct super_operations", struct_super_operations);
   ("struct dquot_operations", struct_dquot_operations);
   ("struct quotactl_ops", struct_quotactl_ops);
   ("struct export_operations", struct_export_operations);
   ("struct xattr_handler", struct_xattr_handler);
   ("struct dentry_operations", struct_dentry_operations);
   ("struct wq_flusher", struct_wq_flusher);
   ("struct worker", struct_worker);
   ("cpumask_var_t", ty_cpumask_var_t);
   ("struct workqueue_attrs", struct_workqueue_attrs);
   ("struct pool_workqueue", struct_pool_workqueue)].

(** The types met on the way that the header names and does not declare. *)
Definition opaque_types : list string :=
  ["struct dev_iommu";
   "struct disk_stats";
   "struct request";
   "struct elevator_queue";
   "struct blk_queue_stats";
   "struct rq_qos";
   "struct blk_mq_ops";
   "struct blk_mq_ctx";
   "struct blk_stat_callback";
   "struct blk_mq_tags";
   "struct blk_flush_queue";
   "struct blk_mq_tag_set";
   "struct bio_alloc_cache";
   "struct disk_events";
   "struct badblocks";
   "struct kernfs_root";
   "struct kernfs_open_node";
   "struct kernfs_iattrs";
   "struct mtd_info";
   "struct pr_ops"].
