(* ===== verification/VmlinuxLoongarch.v ===== *)
(** * Kernel types of the loongarch build

    The declarations of [bpf/loongarch/vmlinux.h] that the BPF program and
    [core_fixes.bpf.h] use: the two tracepoint records, [task_struct], [bio],
    [block_device], [request_queue], [gendisk], [request], the integer
    typedefs, every struct and union that one or two [->] lead to from there, and
    every type one of them holds by value, in the order of their dependencies.  A
    pointer keeps only the spelling of its pointee;
    [const] and [volatile] do not change a layout and are left out. *)

From stdpp Require Import base list strings numbers.
From Stdlib Require Import ZArith.
From S2P Require Import Prelude CLayout.

#[local] Open Scope c_scope.

Definition struct_trace_entry : ctype :=
  struct_ false (
    fld "type" (int_ 2 false) ;;
    fld "flags" (int_ 1 false) ;;
    fld "preempt_count" (int_ 1 false) ;;
    fld "pid" (int_ 4 true) ;;
    mnil).

Definition ty___u32 : ctype :=
  int_ 4 false.

Definition ty_u32 : ctype :=
  ty___u32.

Definition ty___kernel_pid_t : ctype :=
  int_ 4 true.

Definition ty_pid_t : ctype :=
  ty___kernel_pid_t.

Definition struct_trace_event_raw_sched_process_exec : ctype :=
  struct_ false (
    fld "ent" struct_trace_entry ;;
    fld "__data_loc_filename" ty_u32 ;;
    fld "pid" ty_pid_t ;;
    fld "old_pid" ty_pid_t ;;
    fld "__data" (arr (int_ 1 true) 0) ;;
    mnil).

Definition struct_trace_event_raw_sched_process_fork : ctype :=
  struct_ false (
    fld "ent" struct_trace_entry ;;
    fld "parent_comm" (arr (int_ 1 true) 16) ;;
    fld "parent_pid" ty_pid_t ;;
    fld "child_comm" (arr (int_ 1 true) 16) ;;
    fld "child_pid" ty_pid_t ;;
    fld "__data" (arr (int_ 1 true) 0) ;;
    mnil).

Definition struct_thread_info : ctype :=
  struct_ false (
    fld "flags" (int_ 8 false) ;;
    fld "syscall_work" (int_ 8 false) ;;
    fld "status" ty_u32 ;;
    fld "cpu" ty_u32 ;;
    mnil).

Definition ty_atomic_t : ctype :=
  struct_ false (
    fld "counter" (int_ 4 true) ;;
    mnil).

Definition struct_refcount_struct : ctype :=
  struct_ false (
    fld "refs" ty_atomic_t ;;
    mnil).

Definition ty_refcount_t : ctype :=
  struct_refcount_struct.

Definition struct_llist_node : ctype :=
  struct_ false (
    fld "next" (ptr "struct llist_node") ;;
    mnil).

Definition ty___u16 : ctype :=
  int_ 2 false.

Definition ty_u16 : ctype :=
  ty___u16.

Definition struct___call_single_node : ctype :=
  struct_ false (
    fld "llist" struct_llist_node ;;
    anon (union_ false (
      fld "u_flags" (int_ 4 false) ;;
      fld "a_flags" ty_atomic_t ;;
      mnil)) ;;
    fld "src" ty_u16 ;;
    fld "dst" ty_u16 ;;
    mnil).

Definition struct_load_weight : ctype :=
  struct_ false (
    fld "weight" (int_ 8 false) ;;
    fld "inv_weight" ty_u32 ;;
    mnil).

Definition struct_rb_node : ctype :=
  struct_ false (
    fld "__rb_parent_color" (int_ 8 false) ;;
    fld "rb_right" (ptr "struct rb_node") ;;
    fld "rb_left" (ptr "struct rb_node") ;;
    mnil).

Definition ty___u64 : ctype :=
  int_ 8 false.

Definition ty_u64 : ctype :=
  ty___u64.

Definition struct_list_head : ctype :=
  struct_ false (
    fld "next" (ptr "struct list_head") ;;
    fld "prev" (ptr "struct list_head") ;;
    mnil).

Definition ty___s64 : ctype :=
  int_ 8 true.

Definition ty_s64 : ctype :=
  ty___s64.

Definition struct_sched_avg : ctype :=
  struct_ false (
    fld "last_update_time" ty_u64 ;;
    fld "load_sum" ty_u64 ;;
    fld "runnable_sum" ty_u64 ;;
    fld "util_sum" ty_u32 ;;
    fld "period_contrib" ty_u32 ;;
    fld "load_avg" (int_ 8 false) ;;
    fld "runnable_avg" (int_ 8 false) ;;
    fld "util_avg" (int_ 8 false) ;;
    fld "util_est" (int_ 4 false) ;;
    mnil).

Definition struct_sched_entity : ctype :=
  struct_ false (
    fld "load" struct_load_weight ;;
    fld "run_node" struct_rb_node ;;
    fld "deadline" ty_u64 ;;
    fld "min_vruntime" ty_u64 ;;
    fld "min_slice" ty_u64 ;;
    fld "group_node" struct_list_head ;;
    fld "on_rq" (int_ 1 false) ;;
    fld "sched_delayed" (int_ 1 false) ;;
    fld "rel_deadline" (int_ 1 false) ;;
    fld "custom_slice" (int_ 1 false) ;;
    fld "exec_start" ty_u64 ;;
    fld "sum_exec_runtime" ty_u64 ;;
    fld "prev_sum_exec_runtime" ty_u64 ;;
    fld "vruntime" ty_u64 ;;
    fld "vlag" ty_s64 ;;
    fld "slice" ty_u64 ;;
    fld "nr_migrations" ty_u64 ;;
    fld "depth" (int_ 4 true) ;;
    fld "parent" (ptr "struct sched_entity") ;;
    fld "cfs_rq" (ptr "struct cfs_rq") ;;
    fld "my_q" (ptr "struct cfs_rq") ;;
    fld "runnable_weight" (int_ 8 false) ;;
    bits "" (int_ 8 true) 64 ;;
    fld "avg" struct_sched_avg ;;
    mnil).

Definition struct_sched_rt_entity : ctype :=
  struct_ false (
    fld "run_list" struct_list_head ;;
    fld "timeout" (int_ 8 false) ;;
    fld "watchdog_stamp" (int_ 8 false) ;;
    fld "time_slice" (int_ 4 false) ;;
    fld "on_rq" (int_ 2 false) ;;
    fld "on_list" (int_ 2 false) ;;
    fld "back" (ptr "struct sched_rt_entity") ;;
    mnil).

Definition ty_ktime_t : ctype :=
  ty_s64.

Definition struct_timerqueue_node : ctype :=
  struct_ false (
    fld "node" struct_rb_node ;;
    fld "expires" ty_ktime_t ;;
    mnil).

Definition ty___u8 : ctype :=
  int_ 1 false.

Definition ty_u8 : ctype :=
  ty___u8.

Definition struct_hrtimer : ctype :=
  struct_ false (
    fld "node" struct_timerqueue_node ;;
    fld "_softexpires" ty_ktime_t ;;
    fld "function" (ptr "function") ;;
    fld "base" (ptr "struct hrtimer_clock_base") ;;
    fld "state" ty_u8 ;;
    fld "is_rel" ty_u8 ;;
    fld "is_soft" ty_u8 ;;
    fld "is_hard" ty_u8 ;;
    mnil).

Definition ty_dl_server_has_tasks_f : ctype :=
  ptr "function".

Definition ty_dl_server_pick_f : ctype :=
  ptr "function".

Definition struct_sched_dl_entity : ctype :=
  struct_ false (
    fld "rb_node" struct_rb_node ;;
    fld "dl_runtime" ty_u64 ;;
    fld "dl_deadline" ty_u64 ;;
    fld "dl_period" ty_u64 ;;
    fld "dl_bw" ty_u64 ;;
    fld "dl_density" ty_u64 ;;
    fld "runtime" ty_s64 ;;
    fld "deadline" ty_u64 ;;
    fld "flags" (int_ 4 false) ;;
    bits "dl_throttled" (int_ 4 false) 1 ;;
    bits "dl_yielded" (int_ 4 false) 1 ;;
    bits "dl_non_contending" (int_ 4 false) 1 ;;
    bits "dl_overrun" (int_ 4 false) 1 ;;
    bits "dl_server" (int_ 4 false) 1 ;;
    bits "dl_server_active" (int_ 4 false) 1 ;;
    bits "dl_defer" (int_ 4 false) 1 ;;
    bits "dl_defer_armed" (int_ 4 false) 1 ;;
    bits "dl_defer_running" (int_ 4 false) 1 ;;
    fld "dl_timer" struct_hrtimer ;;
    fld "inactive_timer" struct_hrtimer ;;
    fld "rq" (ptr "struct rq") ;;
    fld "server_has_tasks" ty_dl_server_has_tasks_f ;;
    fld "server_pick_task" ty_dl_server_pick_f ;;
    fld "pi_se" (ptr "struct sched_dl_entity") ;;
    mnil).

Definition struct_uclamp_se : ctype :=
  struct_ false (
    bits "value" (int_ 4 false) 11 ;;
    bits "bucket_id" (int_ 4 false) 3 ;;
    bits "active" (int_ 4 false) 1 ;;
    bits "user_defined" (int_ 4 false) 1 ;;
    mnil).

Definition struct_sched_statistics : ctype :=
  struct_ false (
    fld "wait_start" ty_u64 ;;
    fld "wait_max" ty_u64 ;;
    fld "wait_count" ty_u64 ;;
    fld "wait_sum" ty_u64 ;;
    fld "iowait_count" ty_u64 ;;
    fld "iowait_sum" ty_u64 ;;
    fld "sleep_start" ty_u64 ;;
    fld "sleep_max" ty_u64 ;;
    fld "sum_sleep_runtime" ty_s64 ;;
    fld "block_start" ty_u64 ;;
    fld "block_max" ty_u64 ;;
    fld "sum_block_runtime" ty_s64 ;;
    fld "exec_max" ty_s64 ;;
    fld "slice_max" ty_u64 ;;
    fld "nr_migrations_cold" ty_u64 ;;
    fld "nr_failed_migrations_affine" ty_u64 ;;
    fld "nr_failed_migrations_running" ty_u64 ;;
    fld "nr_failed_migrations_hot" ty_u64 ;;
    fld "nr_forced_migrations" ty_u64 ;;
    fld "nr_wakeups" ty_u64 ;;
    fld "nr_wakeups_sync" ty_u64 ;;
    fld "nr_wakeups_migrate" ty_u64 ;;
    fld "nr_wakeups_local" ty_u64 ;;
    fld "nr_wakeups_remote" ty_u64 ;;
    fld "nr_wakeups_affine" ty_u64 ;;
    fld "nr_wakeups_affine_attempts" ty_u64 ;;
    fld "nr_wakeups_passive" ty_u64 ;;
    fld "nr_wakeups_idle" ty_u64 ;;
    fld "core_forceidle_sum" ty_u64 ;;
    bits "" (int_ 8 true) 64 ;;
    bits "" (int_ 8 true) 64 ;;
    bits "" (int_ 8 true) 64 ;;
    mnil).

Definition struct_hlist_head : ctype :=
  struct_ false (
    fld "first" (ptr "struct hlist_node") ;;
    mnil).

Definition struct_cpumask : ctype :=
  struct_ false (
    fld "bits" (arr (int_ 8 false) 128) ;;
    mnil).

Definition ty_cpumask_t : ctype :=
  struct_cpumask.

Definition union_rcu_special : ctype :=
  union_ false (
    fld "b" (struct_ false (
      fld "blocked" ty_u8 ;;
      fld "need_qs" ty_u8 ;;
      fld "exp_hint" ty_u8 ;;
      fld "need_mb" ty_u8 ;;
      mnil)) ;;
    fld "s" ty_u32 ;;
    mnil).

Definition struct_sched_info : ctype :=
  struct_ false (
    fld "pcount" (int_ 8 false) ;;
    fld "run_delay" (int_ 8 false) ;;
    fld "last_arrival" (int_ 8 false) ;;
    fld "last_queued" (int_ 8 false) ;;
    mnil).

Definition struct_plist_node : ctype :=
  struct_ false (
    fld "prio" (int_ 4 true) ;;
    fld "prio_list" struct_list_head ;;
    fld "node_list" struct_list_head ;;
    mnil).

Definition ty___kernel_clockid_t : ctype :=
  int_ 4 true.

Definition ty_clockid_t : ctype :=
  ty___kernel_clockid_t.

Definition enum_timespec_type : ctype :=
  enum_ 4 [("TT_NONE", 0); ("TT_NATIVE", 1); ("TT_COMPAT", 2)].

Definition struct_restart_block : ctype :=
  struct_ false (
    fld "arch_data" (int_ 8 false) ;;
    fld "fn" (ptr "function") ;;
    anon (union_ false (
      fld "futex" (struct_ false (
        fld "uaddr" (ptr "u32") ;;
        fld "val" ty_u32 ;;
        fld "flags" ty_u32 ;;
        fld "bitset" ty_u32 ;;
        fld "time" ty_u64 ;;
        fld "uaddr2" (ptr "u32") ;;
        mnil)) ;;
      fld "nanosleep" (struct_ false (
        fld "clockid" ty_clockid_t ;;
        fld "type" enum_timespec_type ;;
        anon (union_ false (
          fld "rmtp" (ptr "struct __kernel_timespec") ;;
          fld "compat_rmtp" (ptr "struct old_timespec32") ;;
          mnil)) ;;
        fld "expires" ty_u64 ;;
        mnil)) ;;
      fld "poll" (struct_ false (
        fld "ufds" (ptr "struct pollfd") ;;
        fld "nfds" (int_ 4 true) ;;
        fld "has_timeout" (int_ 4 true) ;;
        fld "tv_sec" (int_ 8 false) ;;
        fld "tv_nsec" (int_ 8 false) ;;
        mnil)) ;;
      mnil)) ;;
    mnil).

Definition struct_hlist_node : ctype :=
  struct_ false (
    fld "next" (ptr "struct hlist_node") ;;
    fld "pprev" (ptr "struct hlist_node *") ;;
    mnil).

Definition struct_qspinlock : ctype :=
  struct_ false (
    anon (union_ false (
      fld "val" ty_atomic_t ;;
      anon (struct_ false (
        fld "locked" ty_u8 ;;
        fld "pending" ty_u8 ;;
        mnil)) ;;
      anon (struct_ false (
        fld "locked_pending" ty_u16 ;;
        fld "tail" ty_u16 ;;
        mnil)) ;;
      mnil)) ;;
    mnil).

Definition ty_arch_spinlock_t : ctype :=
  struct_qspinlock.

Definition struct_raw_spinlock : ctype :=
  struct_ false (
    fld "raw_lock" ty_arch_spinlock_t ;;
    mnil).

Definition ty_raw_spinlock_t : ctype :=
  struct_raw_spinlock.

Definition struct_prev_cputime : ctype :=
  struct_ false (
    fld "utime" ty_u64 ;;
    fld "stime" ty_u64 ;;
    fld "lock" ty_raw_spinlock_t ;;
    mnil).

Definition struct_seqcount : ctype :=
  struct_ false (
    fld "sequence" (int_ 4 false) ;;
    mnil).

Definition ty_seqcount_t : ctype :=
  struct_seqcount.

Definition enum_vtime_state : ctype :=
  enum_ 4 [("VTIME_INACTIVE", 0); ("VTIME_IDLE", 1); ("VTIME_SYS", 2); ("VTIME_USER", 3); ("VTIME_GUEST", 4)].

Definition struct_vtime : ctype :=
  struct_ false (
    fld "seqcount" ty_seqcount_t ;;
    fld "starttime" (int_ 8 false) ;;
    fld "state" enum_vtime_state ;;
    fld "cpu" (int_ 4 false) ;;
    fld "utime" ty_u64 ;;
    fld "stime" ty_u64 ;;
    fld "gtime" ty_u64 ;;
    mnil).

Definition struct_rb_root : ctype :=
  struct_ false (
    fld "rb_node" (ptr "struct rb_node") ;;
    mnil).

Definition struct_rb_root_cached : ctype :=
  struct_ false (
    fld "rb_root" struct_rb_root ;;
    fld "rb_leftmost" (ptr "struct rb_node") ;;
    mnil).

Definition struct_timerqueue_head : ctype :=
  struct_ false (
    fld "rb_root" struct_rb_root_cached ;;
    mnil).

Definition struct_posix_cputimer_base : ctype :=
  struct_ false (
    fld "nextevt" ty_u64 ;;
    fld "tqhead" struct_timerqueue_head ;;
    mnil).

Definition struct_posix_cputimers : ctype :=
  struct_ false (
    fld "bases" (arr struct_posix_cputimer_base 3) ;;
    fld "timers_active" (int_ 4 false) ;;
    fld "expiry_active" (int_ 4 false) ;;
    mnil).

Definition struct_callback_head : ctype :=
  struct_ false (
    fld "next" (ptr "struct callback_head") ;;
    fld "func" (ptr "function") ;;
    mnil).

Definition ty_atomic64_t : ctype :=
  struct_ false (
    fld "counter" ty_s64 ;;
    mnil).

Definition ty_atomic_long_t : ctype :=
  ty_atomic64_t.

Definition struct_optimistic_spin_queue : ctype :=
  struct_ false (
    fld "tail" ty_atomic_t ;;
    mnil).

Definition struct_mutex : ctype :=
  struct_ false (
    fld "owner" ty_atomic_long_t ;;
    fld "wait_lock" ty_raw_spinlock_t ;;
    fld "osq" struct_optimistic_spin_queue ;;
    fld "wait_list" struct_list_head ;;
    mnil).

Definition struct_posix_cputimers_work : ctype :=
  struct_ false (
    fld "work" struct_callback_head ;;
    fld "mutex" struct_mutex ;;
    fld "scheduled" (int_ 4 false) ;;
    mnil).

Definition struct_sysv_sem : ctype :=
  struct_ false (
    fld "undo_list" (ptr "struct sem_undo_list") ;;
    mnil).

Definition struct_sysv_shm : ctype :=
  struct_ false (
    fld "shm_clist" struct_list_head ;;
    mnil).

Definition ty_sigset_t : ctype :=
  struct_ false (
    fld "sig" (arr (int_ 8 false) 1) ;;
    mnil).

Definition struct_sigpending : ctype :=
  struct_ false (
    fld "list" struct_list_head ;;
    fld "signal" ty_sigset_t ;;
    mnil).

Definition ty___kernel_ulong_t : ctype :=
  int_ 8 false.

Definition ty___kernel_size_t : ctype :=
  ty___kernel_ulong_t.

Definition ty_size_t : ctype :=
  ty___kernel_size_t.

Definition ty___kernel_uid32_t : ctype :=
  int_ 4 false.

Definition ty_uid_t : ctype :=
  ty___kernel_uid32_t.

Definition ty_kuid_t : ctype :=
  struct_ false (
    fld "val" ty_uid_t ;;
    mnil).

Definition struct_seccomp : ctype :=
  struct_ false (
    fld "mode" (int_ 4 true) ;;
    fld "filter_count" ty_atomic_t ;;
    fld "filter" (ptr "struct seccomp_filter") ;;
    mnil).

Definition ty_bool : ctype :=
  int_ 1 false.

Definition struct_syscall_user_dispatch : ctype :=
  struct_ false (
    fld "selector" (ptr "char") ;;
    fld "offset" (int_ 8 false) ;;
    fld "len" (int_ 8 false) ;;
    fld "on_dispatch" ty_bool ;;
    mnil).

Definition struct_spinlock : ctype :=
  struct_ false (
    anon (union_ false (
      fld "rlock" struct_raw_spinlock ;;
      mnil)) ;;
    mnil).

Definition ty_spinlock_t : ctype :=
  struct_spinlock.

Definition struct_wake_q_node : ctype :=
  struct_ false (
    fld "next" (ptr "struct wake_q_node") ;;
    mnil).

Definition struct_task_io_accounting : ctype :=
  struct_ false (
    fld "rchar" ty_u64 ;;
    fld "wchar" ty_u64 ;;
    fld "syscr" ty_u64 ;;
    fld "syscw" ty_u64 ;;
    fld "read_bytes" ty_u64 ;;
    fld "write_bytes" ty_u64 ;;
    fld "cancelled_write_bytes" ty_u64 ;;
    mnil).

Definition ty_nodemask_t : ctype :=
  struct_ false (
    fld "bits" (arr (int_ 8 false) 16) ;;
    mnil).

Definition struct_seqcount_spinlock : ctype :=
  struct_ false (
    fld "seqcount" ty_seqcount_t ;;
    mnil).

Definition ty_seqcount_spinlock_t : ctype :=
  struct_seqcount_spinlock.

Definition struct_arch_tlbflush_unmap_batch : ctype :=
  struct_ false (
    fld "cpumask" struct_cpumask ;;
    mnil).

Definition struct_tlbflush_unmap_batch : ctype :=
  struct_ false (
    fld "arch" struct_arch_tlbflush_unmap_batch ;;
    fld "flush_required" ty_bool ;;
    fld "writable" ty_bool ;;
    mnil).

Definition struct_page_frag : ctype :=
  struct_ false (
    fld "page" (ptr "struct page") ;;
    fld "offset" ty___u32 ;;
    fld "size" ty___u32 ;;
    mnil).

Definition struct_latency_record : ctype :=
  struct_ false (
    fld "backtrace" (arr (int_ 8 false) 12) ;;
    fld "count" (int_ 4 false) ;;
    fld "time" (int_ 8 false) ;;
    fld "max" (int_ 8 false) ;;
    mnil).

Definition struct_kmap_ctrl : ctype :=
  struct_ false (
    mnil).

Definition struct_timer_list : ctype :=
  struct_ false (
    fld "entry" struct_hlist_node ;;
    fld "expires" (int_ 8 false) ;;
    fld "function" (ptr "function") ;;
    fld "flags" ty_u32 ;;
    mnil).

Definition struct_llist_head : ctype :=
  struct_ false (
    fld "first" (ptr "struct llist_node") ;;
    mnil).

Definition struct_desc_struct : ctype :=
  struct_ false (
    fld "limit0" ty_u16 ;;
    fld "base0" ty_u16 ;;
    bits "base1" ty_u16 8 ;;
    bits "type" ty_u16 4 ;;
    bits "s" ty_u16 1 ;;
    bits "dpl" ty_u16 2 ;;
    bits "p" ty_u16 1 ;;
    bits "limit1" ty_u16 4 ;;
    bits "avl" ty_u16 1 ;;
    bits "l" ty_u16 1 ;;
    bits "d" ty_u16 1 ;;
    bits "g" ty_u16 1 ;;
    bits "base2" ty_u16 8 ;;
    mnil).

Definition struct_thread_shstk : ctype :=
  struct_ false (
    fld "base" ty_u64 ;;
    fld "size" ty_u64 ;;
    mnil).

Definition struct_fpu_state_perm : ctype :=
  struct_ false (
    fld "__state_perm" ty_u64 ;;
    fld "__state_size" (int_ 4 false) ;;
    fld "__user_state_size" (int_ 4 false) ;;
    mnil).

Definition struct_fregs_state : ctype :=
  struct_ false (
    fld "cwd" ty_u32 ;;
    fld "swd" ty_u32 ;;
    fld "twd" ty_u32 ;;
    fld "fip" ty_u32 ;;
    fld "fcs" ty_u32 ;;
    fld "foo" ty_u32 ;;
    fld "fos" ty_u32 ;;
    fld "st_space" (arr ty_u32 20) ;;
    fld "status" ty_u32 ;;
    mnil).

Definition struct_fxregs_state : ctype :=
  struct_ false (
    fld "cwd" ty_u16 ;;
    fld "swd" ty_u16 ;;
    fld "twd" ty_u16 ;;
    fld "fop" ty_u16 ;;
    anon (union_ false (
      anon (struct_ false (
        fld "rip" ty_u64 ;;
        fld "rdp" ty_u64 ;;
        mnil)) ;;
      anon (struct_ false (
        fld "fip" ty_u32 ;;
        fld "fcs" ty_u32 ;;
        fld "foo" ty_u32 ;;
        fld "fos" ty_u32 ;;
        mnil)) ;;
      mnil)) ;;
    fld "mxcsr" ty_u32 ;;
    fld "mxcsr_mask" ty_u32 ;;
    fld "st_space" (arr ty_u32 32) ;;
    fld "xmm_space" (arr ty_u32 64) ;;
    fld "padding" (arr ty_u32 12) ;;
    anon (union_ false (
      fld "padding1" (arr ty_u32 12) ;;
      fld "sw_reserved" (arr ty_u32 12) ;;
      mnil)) ;;
    mnil).

Definition struct_swregs_state : ctype :=
  struct_ false (
    fld "cwd" ty_u32 ;;
    fld "swd" ty_u32 ;;
    fld "twd" ty_u32 ;;
    fld "fip" ty_u32 ;;
    fld "fcs" ty_u32 ;;
    fld "foo" ty_u32 ;;
    fld "fos" ty_u32 ;;
    fld "st_space" (arr ty_u32 20) ;;
    fld "ftop" ty_u8 ;;
    fld "changed" ty_u8 ;;
    fld "lookahead" ty_u8 ;;
    fld "no_update" ty_u8 ;;
    fld "rm" ty_u8 ;;
    fld "alimit" ty_u8 ;;
    fld "info" (ptr "struct math_emu_info") ;;
    fld "entry_eip" ty_u32 ;;
    mnil).

Definition struct_xstate_header : ctype :=
  struct_ false (
    fld "xfeatures" ty_u64 ;;
    fld "xcomp_bv" ty_u64 ;;
    fld "reserved" (arr ty_u64 6) ;;
    mnil).

Definition struct_xregs_state : ctype :=
  struct_ false (
    fld "i387" struct_fxregs_state ;;
    fld "header" struct_xstate_header ;;
    fld "extended_state_area" (arr ty_u8 0) ;;
    mnil).

Definition union_fpregs_state : ctype :=
  union_ false (
    fld "fsave" struct_fregs_state ;;
    fld "fxsave" struct_fxregs_state ;;
    fld "soft" struct_swregs_state ;;
    fld "xsave" struct_xregs_state ;;
    fld "__padding" (arr ty_u8 4096) ;;
    mnil).

Definition struct_fpstate : ctype :=
  struct_ false (
    fld "size" (int_ 4 false) ;;
    fld "user_size" (int_ 4 false) ;;
    fld "xfeatures" ty_u64 ;;
    fld "user_xfeatures" ty_u64 ;;
    fld "xfd" ty_u64 ;;
    bits "is_valloc" (int_ 4 false) 1 ;;
    bits "is_guest" (int_ 4 false) 1 ;;
    bits "is_confidential" (int_ 4 false) 1 ;;
    bits "in_use" (int_ 4 false) 1 ;;
    bits "" (int_ 8 true) 64 ;;
    bits "" (int_ 8 true) 64 ;;
    bits "" (int_ 8 true) 64 ;;
    fld "regs" union_fpregs_state ;;
    mnil).

Definition struct_fpu : ctype :=
  struct_ false (
    fld "last_cpu" (int_ 4 false) ;;
    fld "avx512_timestamp" (int_ 8 false) ;;
    fld "fpstate" (ptr "struct fpstate") ;;
    fld "__task_fpstate" (ptr "struct fpstate") ;;
    fld "perm" struct_fpu_state_perm ;;
    fld "guest_perm" struct_fpu_state_perm ;;
    fld "__fpstate" struct_fpstate ;;
    mnil).

Definition struct_thread_struct : ctype :=
  struct_ false (
    fld "tls_array" (arr struct_desc_struct 3) ;;
    fld "sp" (int_ 8 false) ;;
    fld "es" (int_ 2 false) ;;
    fld "ds" (int_ 2 false) ;;
    fld "fsindex" (int_ 2 false) ;;
    fld "gsindex" (int_ 2 false) ;;
    fld "fsbase" (int_ 8 false) ;;
    fld "gsbase" (int_ 8 false) ;;
    fld "ptrace_bps" (arr (ptr "struct perf_event") 4) ;;
    fld "virtual_dr6" (int_ 8 false) ;;
    fld "ptrace_dr7" (int_ 8 false) ;;
    fld "cr2" (int_ 8 false) ;;
    fld "trap_nr" (int_ 8 false) ;;
    fld "error_code" (int_ 8 false) ;;
    fld "io_bitmap" (ptr "struct io_bitmap") ;;
    fld "iopl_emul" (int_ 8 false) ;;
    bits "iopl_warn" (int_ 4 false) 1 ;;
    fld "pkru" ty_u32 ;;
    fld "features" (int_ 8 false) ;;
    fld "features_locked" (int_ 8 false) ;;
    fld "shstk" struct_thread_shstk ;;
    bits "" (int_ 8 true) 64 ;;
    fld "fpu" struct_fpu ;;
    mnil).

Definition struct_task_struct : ctype :=
  struct_ false (
    fld "thread_info" struct_thread_info ;;
    fld "__state" (int_ 4 false) ;;
    fld "saved_state" (int_ 4 false) ;;
    fld "stack" (ptr "void") ;;
    fld "usage" ty_refcount_t ;;
    fld "flags" (int_ 4 false) ;;
    fld "ptrace" (int_ 4 false) ;;
    fld "on_cpu" (int_ 4 true) ;;
    fld "wake_entry" struct___call_single_node ;;
    fld "wakee_flips" (int_ 4 false) ;;
    fld "wakee_flip_decay_ts" (int_ 8 false) ;;
    fld "last_wakee" (ptr "struct task_struct") ;;
    fld "recent_used_cpu" (int_ 4 true) ;;
    fld "wake_cpu" (int_ 4 true) ;;
    fld "on_rq" (int_ 4 true) ;;
    fld "prio" (int_ 4 true) ;;
    fld "static_prio" (int_ 4 true) ;;
    fld "normal_prio" (int_ 4 true) ;;
    fld "rt_priority" (int_ 4 false) ;;
    fld "se" struct_sched_entity ;;
    fld "rt" struct_sched_rt_entity ;;
    fld "dl" struct_sched_dl_entity ;;
    fld "dl_server" (ptr "struct sched_dl_entity") ;;
    fld "sched_class" (ptr "struct sched_class") ;;
    fld "core_node" struct_rb_node ;;
    fld "core_cookie" (int_ 8 false) ;;
    fld "core_occupation" (int_ 4 false) ;;
    fld "sched_task_group" (ptr "struct task_group") ;;
    fld "uclamp_req" (arr struct_uclamp_se 2) ;;
    fld "uclamp" (arr struct_uclamp_se 2) ;;
    bits "" (int_ 8 true) 64 ;;
    fld "stats" struct_sched_statistics ;;
    fld "preempt_notifiers" struct_hlist_head ;;
    fld "btrace_seq" (int_ 4 false) ;;
    fld "policy" (int_ 4 false) ;;
    fld "max_allowed_capacity" (int_ 8 false) ;;
    fld "nr_cpus_allowed" (int_ 4 true) ;;
    fld "cpus_ptr" (ptr "cpumask_t") ;;
    fld "user_cpus_ptr" (ptr "cpumask_t") ;;
    fld "cpus_mask" ty_cpumask_t ;;
    fld "migration_pending" (ptr "void") ;;
    fld "migration_disabled" (int_ 2 false) ;;
    fld "migration_flags" (int_ 2 false) ;;
    fld "rcu_read_lock_nesting" (int_ 4 true) ;;
    fld "rcu_read_unlock_special" union_rcu_special ;;
    fld "rcu_node_entry" struct_list_head ;;
    fld "rcu_blocked_node" (ptr "struct rcu_node") ;;
    fld "rcu_tasks_nvcsw" (int_ 8 false) ;;
    fld "rcu_tasks_holdout" ty_u8 ;;
    fld "rcu_tasks_idx" ty_u8 ;;
    fld "rcu_tasks_idle_cpu" (int_ 4 true) ;;
    fld "rcu_tasks_holdout_list" struct_list_head ;;
    fld "rcu_tasks_exit_cpu" (int_ 4 true) ;;
    fld "rcu_tasks_exit_list" struct_list_head ;;
    fld "trc_reader_nesting" (int_ 4 true) ;;
    fld "trc_ipi_to_cpu" (int_ 4 true) ;;
    fld "trc_reader_special" union_rcu_special ;;
    fld "trc_holdout_list" struct_list_head ;;
    fld "trc_blkd_node" struct_list_head ;;
    fld "trc_blkd_cpu" (int_ 4 true) ;;
    fld "sched_info" struct_sched_info ;;
    fld "tasks" struct_list_head ;;
    fld "pushable_tasks" struct_plist_node ;;
    fld "pushable_dl_tasks" struct_rb_node ;;
    fld "mm" (ptr "struct mm_struct") ;;
    fld "active_mm" (ptr "struct mm_struct") ;;
    fld "faults_disabled_mapping" (ptr "struct address_space") ;;
    fld "exit_state" (int_ 4 true) ;;
    fld "exit_code" (int_ 4 true) ;;
    fld "exit_signal" (int_ 4 true) ;;
    fld "pdeath_signal" (int_ 4 true) ;;
    fld "jobctl" (int_ 8 false) ;;
    fld "personality" (int_ 4 false) ;;
    bits "sched_reset_on_fork" (int_ 4 false) 1 ;;
    bits "sched_contributes_to_load" (int_ 4 false) 1 ;;
    bits "sched_migrated" (int_ 4 false) 1 ;;
    bits "sched_task_hot" (int_ 4 false) 1 ;;
    bits "" (int_ 8 true) 28 ;;
    bits "sched_remote_wakeup" (int_ 4 false) 1 ;;
    bits "sched_rt_mutex" (int_ 4 false) 1 ;;
    bits "in_execve" (int_ 4 false) 1 ;;
    bits "in_iowait" (int_ 4 false) 1 ;;
    bits "restore_sigmask" (int_ 4 false) 1 ;;
    bits "no_cgroup_migration" (int_ 4 false) 1 ;;
    bits "frozen" (int_ 4 false) 1 ;;
    bits "use_memdelay" (int_ 4 false) 1 ;;
    bits "in_memstall" (int_ 4 false) 1 ;;
    bits "in_eventfd" (int_ 4 false) 1 ;;
    bits "pasid_activated" (int_ 4 false) 1 ;;
    bits "reported_split_lock" (int_ 4 false) 1 ;;
    bits "in_thrashing" (int_ 4 false) 1 ;;
    fld "atomic_flags" (int_ 8 false) ;;
    fld "restart_block" struct_restart_block ;;
    fld "pid" ty_pid_t ;;
    fld "tgid" ty_pid_t ;;
    fld "stack_canary" (int_ 8 false) ;;
    fld "real_parent" (ptr "struct task_struct") ;;
    fld "parent" (ptr "struct task_struct") ;;
    fld "children" struct_list_head ;;
    fld "sibling" struct_list_head ;;
    fld "group_leader" (ptr "struct task_struct") ;;
    fld "ptraced" struct_list_head ;;
    fld "ptrace_entry" struct_list_head ;;
    fld "thread_pid" (ptr "struct pid") ;;
    fld "pid_links" (arr struct_hlist_node 4) ;;
    fld "thread_node" struct_list_head ;;
    fld "vfork_done" (ptr "struct completion") ;;
    fld "set_child_tid" (ptr "int") ;;
    fld "clear_child_tid" (ptr "int") ;;
    fld "worker_private" (ptr "void") ;;
    fld "utime" ty_u64 ;;
    fld "stime" ty_u64 ;;
    fld "gtime" ty_u64 ;;
    fld "prev_cputime" struct_prev_cputime ;;
    fld "vtime" struct_vtime ;;
    fld "nvcsw" (int_ 8 false) ;;
    fld "nivcsw" (int_ 8 false) ;;
    fld "start_time" ty_u64 ;;
    fld "start_boottime" ty_u64 ;;
    fld "min_flt" (int_ 8 false) ;;
    fld "maj_flt" (int_ 8 false) ;;
    fld "posix_cputimers" struct_posix_cputimers ;;
    fld "posix_cputimers_work" struct_posix_cputimers_work ;;
    fld "ptracer_cred" (ptr "struct cred") ;;
    fld "real_cred" (ptr "struct cred") ;;
    fld "cred" (ptr "struct cred") ;;
    fld "cached_requested_key" (ptr "struct key") ;;
    fld "comm" (arr (int_ 1 true) 16) ;;
    fld "nameidata" (ptr "struct nameidata") ;;
    fld "sysvsem" struct_sysv_sem ;;
    fld "sysvshm" struct_sysv_shm ;;
    fld "last_switch_count" (int_ 8 false) ;;
    fld "last_switch_time" (int_ 8 false) ;;
    fld "fs" (ptr "struct fs_struct") ;;
    fld "files" (ptr "struct files_struct") ;;
    fld "io_uring" (ptr "struct io_uring_task") ;;
    fld "nsproxy" (ptr "struct nsproxy") ;;
    fld "signal" (ptr "struct signal_struct") ;;
    fld "sighand" (ptr "struct sighand_struct") ;;
    fld "blocked" ty_sigset_t ;;
    fld "real_blocked" ty_sigset_t ;;
    fld "saved_sigmask" ty_sigset_t ;;
    fld "pending" struct_sigpending ;;
    fld "sas_ss_sp" (int_ 8 false) ;;
    fld "sas_ss_size" ty_size_t ;;
    fld "sas_ss_flags" (int_ 4 false) ;;
    fld "task_works" (ptr "struct callback_head") ;;
    fld "audit_context" (ptr "struct audit_context") ;;
    fld "loginuid" ty_kuid_t ;;
    fld "sessionid" (int_ 4 false) ;;
    fld "seccomp" struct_seccomp ;;
    fld "syscall_dispatch" struct_syscall_user_dispatch ;;
    fld "parent_exec_id" ty_u64 ;;
    fld "self_exec_id" ty_u64 ;;
    fld "alloc_lock" ty_spinlock_t ;;
    fld "pi_lock" ty_raw_spinlock_t ;;
    fld "wake_q" struct_wake_q_node ;;
    fld "pi_waiters" struct_rb_root_cached ;;
    fld "pi_top_task" (ptr "struct task_struct") ;;
    fld "pi_blocked_on" (ptr "struct rt_mutex_waiter") ;;
    fld "journal_info" (ptr "void") ;;
    fld "bio_list" (ptr "struct bio_list") ;;
    fld "plug" (ptr "struct blk_plug") ;;
    fld "reclaim_state" (ptr "struct reclaim_state") ;;
    fld "io_context" (ptr "struct io_context") ;;
    fld "capture_control" (ptr "struct capture_control") ;;
    fld "ptrace_message" (int_ 8 false) ;;
    fld "last_siginfo" (ptr "kernel_siginfo_t") ;;
    fld "ioac" struct_task_io_accounting ;;
    fld "psi_flags" (int_ 4 false) ;;
    fld "acct_rss_mem1" ty_u64 ;;
    fld "acct_vm_mem1" ty_u64 ;;
    fld "acct_timexpd" ty_u64 ;;
    fld "mems_allowed" ty_nodemask_t ;;
    fld "mems_allowed_seq" ty_seqcount_spinlock_t ;;
    fld "cpuset_mem_spread_rotor" (int_ 4 true) ;;
    fld "cgroups" (ptr "struct css_set") ;;
    fld "cg_list" struct_list_head ;;
    fld "closid" ty_u32 ;;
    fld "rmid" ty_u32 ;;
    fld "robust_list" (ptr "struct robust_list_head") ;;
    fld "compat_robust_list" (ptr "struct compat_robust_list_head") ;;
    fld "pi_state_list" struct_list_head ;;
    fld "pi_state_cache" (ptr "struct futex_pi_state") ;;
    fld "futex_exit_mutex" struct_mutex ;;
    fld "futex_state" (int_ 4 false) ;;
    fld "perf_recursion" (arr ty_u8 4) ;;
    fld "perf_event_ctxp" (ptr "struct perf_event_context") ;;
    fld "perf_event_mutex" struct_mutex ;;
    fld "perf_event_list" struct_list_head ;;
    fld "mempolicy" (ptr "struct mempolicy") ;;
    fld "il_prev" (int_ 2 true) ;;
    fld "il_weight" ty_u8 ;;
    fld "pref_node_fork" (int_ 2 true) ;;
    fld "numa_scan_seq" (int_ 4 true) ;;
    fld "numa_scan_period" (int_ 4 false) ;;
    fld "numa_scan_period_max" (int_ 4 false) ;;
    fld "numa_preferred_nid" (int_ 4 true) ;;
    fld "numa_migrate_retry" (int_ 8 false) ;;
    fld "node_stamp" ty_u64 ;;
    fld "last_task_numa_placement" ty_u64 ;;
    fld "last_sum_exec_runtime" ty_u64 ;;
    fld "numa_work" struct_callback_head ;;
    fld "numa_group" (ptr "struct numa_group") ;;
    fld "numa_faults" (ptr "long unsigned int") ;;
    fld "total_numa_faults" (int_ 8 false) ;;
    fld "numa_faults_locality" (arr (int_ 8 false) 3) ;;
    fld "numa_pages_migrated" (int_ 8 false) ;;
    fld "rseq" (ptr "struct rseq") ;;
    fld "rseq_len" ty_u32 ;;
    fld "rseq_sig" ty_u32 ;;
    fld "rseq_event_mask" (int_ 8 false) ;;
    fld "mm_cid" (int_ 4 true) ;;
    fld "last_mm_cid" (int_ 4 true) ;;
    fld "migrate_from_cpu" (int_ 4 true) ;;
    fld "mm_cid_active" (int_ 4 true) ;;
    fld "cid_work" struct_callback_head ;;
    fld "tlb_ubc" struct_tlbflush_unmap_batch ;;
    fld "splice_pipe" (ptr "struct pipe_inode_info") ;;
    fld "task_frag" struct_page_frag ;;
    fld "delays" (ptr "struct task_delay_info") ;;
    fld "nr_dirtied" (int_ 4 true) ;;
    fld "nr_dirtied_pause" (int_ 4 true) ;;
    fld "dirty_paused_when" (int_ 8 false) ;;
    fld "latency_record_count" (int_ 4 true) ;;
    fld "latency_record" (arr struct_latency_record 32) ;;
    fld "timer_slack_ns" ty_u64 ;;
    fld "default_timer_slack_ns" ty_u64 ;;
    fld "curr_ret_stack" (int_ 4 true) ;;
    fld "curr_ret_depth" (int_ 4 true) ;;
    fld "ret_stack" (ptr "long unsigned int") ;;
    fld "ftrace_timestamp" (int_ 8 false) ;;
    fld "trace_overrun" ty_atomic_t ;;
    fld "tracing_graph_pause" ty_atomic_t ;;
    fld "trace_recursion" (int_ 8 false) ;;
    fld "memcg_nr_pages_over_high" (int_ 4 false) ;;
    fld "active_memcg" (ptr "struct mem_cgroup") ;;
    fld "objcg" (ptr "struct obj_cgroup") ;;
    fld "throttle_disk" (ptr "struct gendisk") ;;
    fld "utask" (ptr "struct uprobe_task") ;;
    fld "sequential_io" (int_ 4 false) ;;
    fld "sequential_io_avg" (int_ 4 false) ;;
    fld "kmap_ctrl" struct_kmap_ctrl ;;
    fld "rcu" struct_callback_head ;;
    fld "rcu_users" ty_refcount_t ;;
    fld "pagefault_disabled" (int_ 4 true) ;;
    fld "oom_reaper_list" (ptr "struct task_struct") ;;
    fld "oom_reaper_timer" struct_timer_list ;;
    fld "stack_vm_area" (ptr "struct vm_struct") ;;
    fld "stack_refcount" ty_refcount_t ;;
    fld "security" (ptr "void") ;;
    fld "bpf_storage" (ptr "struct bpf_local_storage") ;;
    fld "bpf_ctx" (ptr "struct bpf_run_ctx") ;;
    fld "bpf_net_context" (ptr "struct bpf_net_context") ;;
    fld "mce_vaddr" (ptr "void") ;;
    fld "mce_kflags" ty___u64 ;;
    fld "mce_addr" ty_u64 ;;
    bits "mce_ripv" ty___u64 1 ;;
    bits "mce_whole_page" ty___u64 1 ;;
    bits "__mce_reserved" ty___u64 62 ;;
    fld "mce_kill_me" struct_callback_head ;;
    fld "mce_count" (int_ 4 true) ;;
    fld "kretprobe_instances" struct_llist_head ;;
    fld "rethooks" struct_llist_head ;;
    fld "l1d_flush_kill" struct_callback_head ;;
    bits "" (int_ 8 true) 64 ;;
    bits "" (int_ 8 true) 64 ;;
    bits "" (int_ 8 true) 64 ;;
    bits "" (int_ 8 true) 64 ;;
    bits "" (int_ 8 true) 64 ;;
    fld "thread" struct_thread_struct ;;
    mnil).

Definition ty_blk_opf_t : ctype :=
  ty___u32.

Definition enum_rw_hint : ctype :=
  enum_ 1 [("WRITE_LIFE_NOT_SET", 0); ("WRITE_LIFE_NONE", 1); ("WRITE_LIFE_SHORT", 2); ("WRITE_LIFE_MEDIUM", 3); ("WRITE_LIFE_LONG", 4); ("WRITE_LIFE_EXTREME", 5)].

Definition ty_blk_status_t : ctype :=
  ty_u8.

Definition ty_sector_t : ctype :=
  ty_u64.

Definition struct_bvec_iter : ctype :=
  struct_ true (
    fld "bi_sector" ty_sector_t ;;
    fld "bi_size" (int_ 4 false) ;;
    fld "bi_idx" (int_ 4 false) ;;
    fld "bi_bvec_done" (int_ 4 false) ;;
    mnil).

Definition ty_blk_qc_t : ctype :=
  int_ 4 false.

Definition struct_bio_issue : ctype :=
  struct_ false (
    fld "value" ty_u64 ;;
    mnil).

Definition struct_bio_vec : ctype :=
  struct_ false (
    fld "bv_page" (ptr "struct page") ;;
    fld "bv_len" (int_ 4 false) ;;
    fld "bv_offset" (int_ 4 false) ;;
    mnil).

Definition struct_bio : ctype :=
  struct_ false (
    fld "bi_next" (ptr "struct bio") ;;
    fld "bi_bdev" (ptr "struct block_device") ;;
    fld "bi_opf" ty_blk_opf_t ;;
    fld "bi_flags" (int_ 2 false) ;;
    fld "bi_ioprio" (int_ 2 false) ;;
    fld "bi_write_hint" enum_rw_hint ;;
    fld "bi_status" ty_blk_status_t ;;
    fld "__bi_remaining" ty_atomic_t ;;
    fld "bi_iter" struct_bvec_iter ;;
    anon (union_ false (
      fld "bi_cookie" ty_blk_qc_t ;;
      fld "__bi_nr_segments" (int_ 4 false) ;;
      mnil)) ;;
    fld "bi_end_io" (ptr "bio_end_io_t") ;;
    fld "bi_private" (ptr "void") ;;
    fld "bi_blkg" (ptr "struct blkcg_gq") ;;
    fld "bi_issue" struct_bio_issue ;;
    fld "bi_iocost_cost" ty_u64 ;;
    fld "bi_crypt_context" (ptr "struct bio_crypt_ctx") ;;
    fld "bi_integrity" (ptr "struct bio_integrity_payload") ;;
    fld "bi_vcnt" (int_ 2 false) ;;
    fld "bi_max_vecs" (int_ 2 false) ;;
    fld "__bi_cnt" ty_atomic_t ;;
    fld "bi_io_vec" (ptr "struct bio_vec") ;;
    fld "bi_pool" (ptr "struct bio_set") ;;
    fld "bi_inline_vecs" (arr struct_bio_vec 0) ;;
    mnil).

Definition ty___kernel_dev_t : ctype :=
  ty_u32.

Definition ty_dev_t : ctype :=
  ty___kernel_dev_t.

Definition struct_kref : ctype :=
  struct_ false (
    fld "refcount" ty_refcount_t ;;
    mnil).

Definition struct_kobject : ctype :=
  struct_ false (
    fld "name" (ptr "char") ;;
    fld "entry" struct_list_head ;;
    fld "parent" (ptr "struct kobject") ;;
    fld "kset" (ptr "struct kset") ;;
    fld "ktype" (ptr "struct kobj_type") ;;
    fld "sd" (ptr "struct kernfs_node") ;;
    fld "kref" struct_kref ;;
    bits "state_initialized" (int_ 4 false) 1 ;;
    bits "state_in_sysfs" (int_ 4 false) 1 ;;
    bits "state_add_uevent_sent" (int_ 4 false) 1 ;;
    bits "state_remove_uevent_sent" (int_ 4 false) 1 ;;
    bits "uevent_suppress" (int_ 4 false) 1 ;;
    mnil).

Definition enum_dl_dev_state : ctype :=
  enum_ 4 [("DL_DEV_NO_DRIVER", 0); ("DL_DEV_PROBING", 1); ("DL_DEV_DRIVER_BOUND", 2); ("DL_DEV_UNBINDING", 3)].

Definition struct_dev_links_info : ctype :=
  struct_ false (
    fld "suppliers" struct_list_head ;;
    fld "consumers" struct_list_head ;;
    fld "defer_sync" struct_list_head ;;
    fld "status" enum_dl_dev_state ;;
    mnil).

Definition struct_pm_message : ctype :=
  struct_ false (
    fld "event" (int_ 4 true) ;;
    mnil).

Definition ty_pm_message_t : ctype :=
  struct_pm_message.

Definition struct_swait_queue_head : ctype :=
  struct_ false (
    fld "lock" ty_raw_spinlock_t ;;
    fld "task_list" struct_list_head ;;
    mnil).

Definition struct_completion : ctype :=
  struct_ false (
    fld "done" (int_ 4 false) ;;
    fld "wait" struct_swait_queue_head ;;
    mnil).

Definition ty_work_func_t : ctype :=
  ptr "function".

Definition struct_work_struct : ctype :=
  struct_ false (
    fld "data" ty_atomic_long_t ;;
    fld "entry" struct_list_head ;;
    fld "func" ty_work_func_t ;;
    mnil).

Definition struct_wait_queue_head : ctype :=
  struct_ false (
    fld "lock" ty_spinlock_t ;;
    fld "head" struct_list_head ;;
    mnil).

Definition ty_wait_queue_head_t : ctype :=
  struct_wait_queue_head.

Definition enum_rpm_request : ctype :=
  enum_ 4 [("RPM_REQ_NONE", 0); ("RPM_REQ_IDLE", 1); ("RPM_REQ_SUSPEND", 2); ("RPM_REQ_AUTOSUSPEND", 3); ("RPM_REQ_RESUME", 4)].

Definition enum_rpm_status : ctype :=
  enum_ 4 [("RPM_INVALID", (-1)); ("RPM_ACTIVE", 0); ("RPM_RESUMING", 1); ("RPM_SUSPENDED", 2); ("RPM_SUSPENDING", 3)].

Definition struct_dev_pm_info : ctype :=
  struct_ false (
    fld "power_state" ty_pm_message_t ;;
    bits "can_wakeup" ty_bool 1 ;;
    bits "async_suspend" ty_bool 1 ;;
    bits "in_dpm_list" ty_bool 1 ;;
    bits "is_prepared" ty_bool 1 ;;
    bits "is_suspended" ty_bool 1 ;;
    bits "is_noirq_suspended" ty_bool 1 ;;
    bits "is_late_suspended" ty_bool 1 ;;
    bits "no_pm" ty_bool 1 ;;
    bits "early_init" ty_bool 1 ;;
    bits "direct_complete" ty_bool 1 ;;
    fld "driver_flags" ty_u32 ;;
    fld "lock" ty_spinlock_t ;;
    fld "entry" struct_list_head ;;
    fld "completion" struct_completion ;;
    fld "wakeup" (ptr "struct wakeup_source") ;;
    bits "wakeup_path" ty_bool 1 ;;
    bits "syscore" ty_bool 1 ;;
    bits "no_pm_callbacks" ty_bool 1 ;;
    bits "async_in_progress" ty_bool 1 ;;
    bits "must_resume" ty_bool 1 ;;
    bits "may_skip_resume" ty_bool 1 ;;
    fld "suspend_timer" struct_hrtimer ;;
    fld "timer_expires" ty_u64 ;;
    fld "work" struct_work_struct ;;
    fld "wait_queue" ty_wait_queue_head_t ;;
    fld "wakeirq" (ptr "struct wake_irq") ;;
    fld "usage_count" ty_atomic_t ;;
    fld "child_count" ty_atomic_t ;;
    bits "disable_depth" (int_ 4 false) 3 ;;
    bits "idle_notification" ty_bool 1 ;;
    bits "request_pending" ty_bool 1 ;;
    bits "deferred_resume" ty_bool 1 ;;
    bits "needs_force_resume" ty_bool 1 ;;
    bits "runtime_auto" ty_bool 1 ;;
    bits "ignore_children" ty_bool 1 ;;
    bits "no_callbacks" ty_bool 1 ;;
    bits "irq_safe" ty_bool 1 ;;
    bits "use_autosuspend" ty_bool 1 ;;
    bits "timer_autosuspends" ty_bool 1 ;;
    bits "memalloc_noio" ty_bool 1 ;;
    fld "links_count" (int_ 4 false) ;;
    fld "request" enum_rpm_request ;;
    fld "runtime_status" enum_rpm_status ;;
    fld "last_status" enum_rpm_status ;;
    fld "runtime_error" (int_ 4 true) ;;
    fld "autosuspend_delay" (int_ 4 true) ;;
    fld "last_busy" ty_u64 ;;
    fld "active_time" ty_u64 ;;
    fld "suspended_time" ty_u64 ;;
    fld "accounting_timestamp" ty_u64 ;;
    fld "subsys_data" (ptr "struct pm_subsys_data") ;;
    fld "set_latency_tolerance" (ptr "function") ;;
    fld "qos" (ptr "struct dev_pm_qos") ;;
    mnil).

Definition struct_dev_msi_info : ctype :=
  struct_ false (
    fld "domain" (ptr "struct irq_domain") ;;
    fld "data" (ptr "struct msi_device_data") ;;
    mnil).

Definition struct_dev_archdata : ctype :=
  struct_ false (
    mnil).

Definition enum_device_removable : ctype :=
  enum_ 4 [("DEVICE_REMOVABLE_NOT_SUPPORTED", 0); ("DEVICE_REMOVABLE_UNKNOWN", 1); ("DEVICE_FIXED", 2); ("DEVICE_REMOVABLE", 3)].

Definition struct_device : ctype :=
  struct_ false (
    fld "kobj" struct_kobject ;;
    fld "parent" (ptr "struct device") ;;
    fld "p" (ptr "struct device_private") ;;
    fld "init_name" (ptr "char") ;;
    fld "type" (ptr "struct device_type") ;;
    fld "bus" (ptr "struct bus_type") ;;
    fld "driver" (ptr "struct device_driver") ;;
    fld "platform_data" (ptr "void") ;;
    fld "driver_data" (ptr "void") ;;
    fld "mutex" struct_mutex ;;
    fld "links" struct_dev_links_info ;;
    fld "power" struct_dev_pm_info ;;
    fld "pm_domain" (ptr "struct dev_pm_domain") ;;
    fld "em_pd" (ptr "struct em_perf_domain") ;;
    fld "pins" (ptr "struct dev_pin_info") ;;
    fld "msi" struct_dev_msi_info ;;
    fld "dma_ops" (ptr "struct dma_map_ops") ;;
    fld "dma_mask" (ptr "u64") ;;
    fld "coherent_dma_mask" ty_u64 ;;
    fld "bus_dma_limit" ty_u64 ;;
    fld "dma_range_map" (ptr "struct bus_dma_region") ;;
    fld "dma_parms" (ptr "struct device_dma_parameters") ;;
    fld "dma_pools" struct_list_head ;;
    fld "cma_area" (ptr "struct cma") ;;
    fld "dma_io_tlb_mem" (ptr "struct io_tlb_mem") ;;
    fld "archdata" struct_dev_archdata ;;
    fld "of_node" (ptr "struct device_node") ;;
    fld "fwnode" (ptr "struct fwnode_handle") ;;
    fld "numa_node" (int_ 4 true) ;;
    fld "devt" ty_dev_t ;;
    fld "id" ty_u32 ;;
    fld "devres_lock" ty_spinlock_t ;;
    fld "devres_head" struct_list_head ;;
    fld "class" (ptr "struct class") ;;
    fld "groups" (ptr "struct attribute_group *") ;;
    fld "release" (ptr "function") ;;
    fld "iommu_group" (ptr "struct iommu_group") ;;
    fld "iommu" (ptr "struct dev_iommu") ;;
    fld "physical_location" (ptr "struct device_physical_location") ;;
    fld "removable" enum_device_removable ;;
    bits "offline_disabled" ty_bool 1 ;;
    bits "offline" ty_bool 1 ;;
    bits "of_node_reused" ty_bool 1 ;;
    bits "state_synced" ty_bool 1 ;;
    bits "can_match" ty_bool 1 ;;
    bits "dma_skip_sync" ty_bool 1 ;;
    bits "dma_iommu" ty_bool 1 ;;
    mnil).

Definition struct_block_device : ctype :=
  struct_ false (
    fld "bd_start_sect" ty_sector_t ;;
    fld "bd_nr_sectors" ty_sector_t ;;
    fld "bd_disk" (ptr "struct gendisk") ;;
    fld "bd_queue" (ptr "struct request_queue") ;;
    fld "bd_stats" (ptr "struct disk_stats") ;;
    fld "bd_stamp" (int_ 8 false) ;;
    fld "__bd_flags" ty_atomic_t ;;
    fld "bd_dev" ty_dev_t ;;
    fld "bd_mapping" (ptr "struct address_space") ;;
    fld "bd_openers" ty_atomic_t ;;
    fld "bd_size_lock" ty_spinlock_t ;;
    fld "bd_claiming" (ptr "void") ;;
    fld "bd_holder" (ptr "void") ;;
    fld "bd_holder_ops" (ptr "struct blk_holder_ops") ;;
    fld "bd_holder_lock" struct_mutex ;;
    fld "bd_holders" (int_ 4 true) ;;
    fld "bd_holder_dir" (ptr "struct kobject") ;;
    fld "bd_fsfreeze_count" ty_atomic_t ;;
    fld "bd_fsfreeze_mutex" struct_mutex ;;
    fld "bd_meta_info" (ptr "struct partition_meta_info") ;;
    fld "bd_writers" (int_ 4 true) ;;
    fld "bd_security" (ptr "void") ;;
    fld "bd_device" struct_device ;;
    mnil).

Definition ty_req_flags_t : ctype :=
  ty___u32.

Definition enum_mq_rq_state : ctype :=
  enum_ 4 [("MQ_RQ_IDLE", 0); ("MQ_RQ_IN_FLIGHT", 1); ("MQ_RQ_COMPLETE", 2)].

Definition struct_request : ctype :=
  struct_ false (
    fld "q" (ptr "struct request_queue") ;;
    fld "mq_ctx" (ptr "struct blk_mq_ctx") ;;
    fld "mq_hctx" (ptr "struct blk_mq_hw_ctx") ;;
    fld "cmd_flags" ty_blk_opf_t ;;
    fld "rq_flags" ty_req_flags_t ;;
    fld "tag" (int_ 4 true) ;;
    fld "internal_tag" (int_ 4 true) ;;
    fld "timeout" (int_ 4 false) ;;
    fld "__data_len" (int_ 4 false) ;;
    fld "__sector" ty_sector_t ;;
    fld "bio" (ptr "struct bio") ;;
    fld "biotail" (ptr "struct bio") ;;
    anon (union_ false (
      fld "queuelist" struct_list_head ;;
      fld "rq_next" (ptr "struct request") ;;
      mnil)) ;;
    fld "part" (ptr "struct block_device") ;;
    fld "alloc_time_ns" ty_u64 ;;
    fld "start_time_ns" ty_u64 ;;
    fld "io_start_time_ns" ty_u64 ;;
    fld "wbt_flags" (int_ 2 false) ;;
    fld "stats_sectors" (int_ 2 false) ;;
    fld "nr_phys_segments" (int_ 2 false) ;;
    fld "nr_integrity_segments" (int_ 2 false) ;;
    fld "crypt_ctx" (ptr "struct bio_crypt_ctx") ;;
    fld "crypt_keyslot" (ptr "struct blk_crypto_keyslot") ;;
    fld "state" enum_mq_rq_state ;;
    fld "ref" ty_atomic_t ;;
    fld "deadline" (int_ 8 false) ;;
    anon (union_ false (
      fld "hash" struct_hlist_node ;;
      fld "ipi_list" struct_llist_node ;;
      mnil)) ;;
    anon (union_ false (
      fld "rb_node" struct_rb_node ;;
      fld "special_vec" struct_bio_vec ;;
      mnil)) ;;
    fld "elv" (struct_ false (
      fld "icq" (ptr "struct io_cq") ;;
      fld "priv" (arr (ptr "void") 2) ;;
      mnil)) ;;
    fld "flush" (struct_ false (
      fld "seq" (int_ 4 false) ;;
      fld "saved_end_io" (ptr "rq_end_io_fn") ;;
      mnil)) ;;
    fld "fifo_time" ty_u64 ;;
    fld "end_io" (ptr "rq_end_io_fn") ;;
    fld "end_io_data" (ptr "void") ;;
    mnil).

Definition ty_gfp_t : ctype :=
  int_ 4 false.

Definition struct_xarray : ctype :=
  struct_ false (
    fld "xa_lock" ty_spinlock_t ;;
    fld "xa_flags" ty_gfp_t ;;
    fld "xa_head" (ptr "void") ;;
    mnil).

Definition struct_percpu_ref : ctype :=
  struct_ false (
    fld "percpu_count_ptr" (int_ 8 false) ;;
    fld "data" (ptr "struct percpu_ref_data") ;;
    mnil).

Definition struct_lock_class_key : ctype :=
  struct_ false (
    mnil).

Definition struct_lockdep_map : ctype :=
  struct_ false (
    mnil).

Definition ty_blk_features_t : ctype :=
  int_ 4 false.

Definition ty_blk_flags_t : ctype :=
  int_ 4 false.

Definition enum_blk_integrity_checksum : ctype :=
  enum_ 1 [("BLK_INTEGRITY_CSUM_NONE", 0); ("BLK_INTEGRITY_CSUM_IP", 1); ("BLK_INTEGRITY_CSUM_CRC", 2); ("BLK_INTEGRITY_CSUM_CRC64", 3)].

Definition struct_blk_integrity : ctype :=
  struct_ false (
    fld "flags" (int_ 1 false) ;;
    fld "csum_type" enum_blk_integrity_checksum ;;
    fld "tuple_size" (int_ 1 false) ;;
    fld "pi_offset" (int_ 1 false) ;;
    fld "interval_exp" (int_ 1 false) ;;
    fld "tag_size" (int_ 1 false) ;;
    mnil).

Definition struct_queue_limits : ctype :=
  struct_ false (
    fld "features" ty_blk_features_t ;;
    fld "flags" ty_blk_flags_t ;;
    fld "seg_boundary_mask" (int_ 8 false) ;;
    fld "virt_boundary_mask" (int_ 8 false) ;;
    fld "max_hw_sectors" (int_ 4 false) ;;
    fld "max_dev_sectors" (int_ 4 false) ;;
    fld "chunk_sectors" (int_ 4 false) ;;
    fld "max_sectors" (int_ 4 false) ;;
    fld "max_user_sectors" (int_ 4 false) ;;
    fld "max_segment_size" (int_ 4 false) ;;
    fld "physical_block_size" (int_ 4 false) ;;
    fld "logical_block_size" (int_ 4 false) ;;
    fld "alignment_offset" (int_ 4 false) ;;
    fld "io_min" (int_ 4 false) ;;
    fld "io_opt" (int_ 4 false) ;;
    fld "max_discard_sectors" (int_ 4 false) ;;
    fld "max_hw_discard_sectors" (int_ 4 false) ;;
    fld "max_user_discard_sectors" (int_ 4 false) ;;
    fld "max_secure_erase_sectors" (int_ 4 false) ;;
    fld "max_write_zeroes_sectors" (int_ 4 false) ;;
    fld "max_zone_append_sectors" (int_ 4 false) ;;
    fld "discard_granularity" (int_ 4 false) ;;
    fld "discard_alignment" (int_ 4 false) ;;
    fld "zone_write_granularity" (int_ 4 false) ;;
    fld "atomic_write_hw_max" (int_ 4 false) ;;
    fld "atomic_write_max_sectors" (int_ 4 false) ;;
    fld "atomic_write_hw_boundary" (int_ 4 false) ;;
    fld "atomic_write_boundary_sectors" (int_ 4 false) ;;
    fld "atomic_write_hw_unit_min" (int_ 4 false) ;;
    fld "atomic_write_unit_min" (int_ 4 false) ;;
    fld "atomic_write_hw_unit_max" (int_ 4 false) ;;
    fld "atomic_write_unit_max" (int_ 4 false) ;;
    fld "max_segments" (int_ 2 false) ;;
    fld "max_integrity_segments" (int_ 2 false) ;;
    fld "max_discard_segments" (int_ 2 false) ;;
    fld "max_open_zones" (int_ 4 false) ;;
    fld "max_active_zones" (int_ 4 false) ;;
    fld "dma_alignment" (int_ 4 false) ;;
    fld "dma_pad_mask" (int_ 4 false) ;;
    fld "integrity" struct_blk_integrity ;;
    mnil).

Definition struct_delayed_work : ctype :=
  struct_ false (
    fld "work" struct_work_struct ;;
    fld "timer" struct_timer_list ;;
    fld "wq" (ptr "struct workqueue_struct") ;;
    fld "cpu" (int_ 4 true) ;;
    mnil).

Definition struct_request_queue : ctype :=
  struct_ false (
    fld "queuedata" (ptr "void") ;;
    fld "elevator" (ptr "struct elevator_queue") ;;
    fld "mq_ops" (ptr "struct blk_mq_ops") ;;
    fld "queue_ctx" (ptr "struct blk_mq_ctx") ;;
    fld "queue_flags" (int_ 8 false) ;;
    fld "rq_timeout" (int_ 4 false) ;;
    fld "queue_depth" (int_ 4 false) ;;
    fld "refs" ty_refcount_t ;;
    fld "nr_hw_queues" (int_ 4 false) ;;
    fld "hctx_table" struct_xarray ;;
    fld "q_usage_counter" struct_percpu_ref ;;
    fld "io_lock_cls_key" struct_lock_class_key ;;
    fld "io_lockdep_map" struct_lockdep_map ;;
    fld "q_lock_cls_key" struct_lock_class_key ;;
    fld "q_lockdep_map" struct_lockdep_map ;;
    fld "last_merge" (ptr "struct request") ;;
    fld "queue_lock" ty_spinlock_t ;;
    fld "quiesce_depth" (int_ 4 true) ;;
    fld "disk" (ptr "struct gendisk") ;;
    fld "mq_kobj" (ptr "struct kobject") ;;
    fld "limits" struct_queue_limits ;;
    fld "dev" (ptr "struct device") ;;
    fld "rpm_status" enum_rpm_status ;;
    fld "pm_only" ty_atomic_t ;;
    fld "stats" (ptr "struct blk_queue_stats") ;;
    fld "rq_qos" (ptr "struct rq_qos") ;;
    fld "rq_qos_mutex" struct_mutex ;;
    fld "id" (int_ 4 true) ;;
    fld "nr_requests" (int_ 8 false) ;;
    fld "crypto_profile" (ptr "struct blk_crypto_profile") ;;
    fld "crypto_kobject" (ptr "struct kobject") ;;
    fld "timeout" struct_timer_list ;;
    fld "timeout_work" struct_work_struct ;;
    fld "nr_active_requests_shared_tags" ty_atomic_t ;;
    fld "sched_shared_tags" (ptr "struct blk_mq_tags") ;;
    fld "icq_list" struct_list_head ;;
    fld "blkcg_pols" (arr (int_ 8 false) 1) ;;
    fld "root_blkg" (ptr "struct blkcg_gq") ;;
    fld "blkg_list" struct_list_head ;;
    fld "blkcg_mutex" struct_mutex ;;
    fld "node" (int_ 4 true) ;;
    fld "requeue_lock" ty_spinlock_t ;;
    fld "requeue_list" struct_list_head ;;
    fld "requeue_work" struct_delayed_work ;;
    fld "blk_trace" (ptr "struct blk_trace") ;;
    fld "fq" (ptr "struct blk_flush_queue") ;;
    fld "flush_list" struct_list_head ;;
    fld "sysfs_lock" struct_mutex ;;
    fld "sysfs_dir_lock" struct_mutex ;;
    fld "limits_lock" struct_mutex ;;
    fld "unused_hctx_list" struct_list_head ;;
    fld "unused_hctx_lock" ty_spinlock_t ;;
    fld "mq_freeze_depth" (int_ 4 true) ;;
    fld "td" (ptr "struct throtl_data") ;;
    fld "callback_head" struct_callback_head ;;
    fld "mq_freeze_wq" ty_wait_queue_head_t ;;
    fld "mq_freeze_lock" struct_mutex ;;
    fld "tag_set" (ptr "struct blk_mq_tag_set") ;;
    fld "tag_set_list" struct_list_head ;;
    fld "debugfs_dir" (ptr "struct dentry") ;;
    fld "sched_debugfs_dir" (ptr "struct dentry") ;;
    fld "rqos_debugfs_dir" (ptr "struct dentry") ;;
    fld "debugfs_mutex" struct_mutex ;;
    fld "mq_sysfs_init_done" ty_bool ;;
    mnil).

Definition struct_mempool_s : ctype :=
  struct_ false (
    fld "lock" ty_spinlock_t ;;
    fld "min_nr" (int_ 4 true) ;;
    fld "curr_nr" (int_ 4 true) ;;
    fld "elements" (ptr "void *") ;;
    fld "pool_data" (ptr "void") ;;
    fld "alloc" (ptr "mempool_alloc_t") ;;
    fld "free" (ptr "mempool_free_t") ;;
    fld "wait" ty_wait_queue_head_t ;;
    mnil).

Definition ty_mempool_t : ctype :=
  struct_mempool_s.

Definition struct_bio_list : ctype :=
  struct_ false (
    fld "head" (ptr "struct bio") ;;
    fld "tail" (ptr "struct bio") ;;
    mnil).

Definition struct_bio_set : ctype :=
  struct_ false (
    fld "bio_slab" (ptr "struct kmem_cache") ;;
    fld "front_pad" (int_ 4 false) ;;
    fld "cache" (ptr "struct bio_alloc_cache") ;;
    fld "bio_pool" ty_mempool_t ;;
    fld "bvec_pool" ty_mempool_t ;;
    fld "bio_integrity_pool" ty_mempool_t ;;
    fld "bvec_integrity_pool" ty_mempool_t ;;
    fld "back_pad" (int_ 4 false) ;;
    fld "rescue_lock" ty_spinlock_t ;;
    fld "rescue_list" struct_bio_list ;;
    fld "rescue_work" struct_work_struct ;;
    fld "rescue_workqueue" (ptr "struct workqueue_struct") ;;
    fld "cpuhp_dead" struct_hlist_node ;;
    mnil).

Definition ty_blk_mode_t : ctype :=
  int_ 4 false.

Definition struct_gendisk : ctype :=
  struct_ false (
    fld "major" (int_ 4 true) ;;
    fld "first_minor" (int_ 4 true) ;;
    fld "minors" (int_ 4 true) ;;
    fld "disk_name" (arr (int_ 1 true) 32) ;;
    fld "events" (int_ 2 false) ;;
    fld "event_flags" (int_ 2 false) ;;
    fld "part_tbl" struct_xarray ;;
    fld "part0" (ptr "struct block_device") ;;
    fld "fops" (ptr "struct block_device_operations") ;;
    fld "queue" (ptr "struct request_queue") ;;
    fld "private_data" (ptr "void") ;;
    fld "bio_split" struct_bio_set ;;
    fld "flags" (int_ 4 true) ;;
    fld "state" (int_ 8 false) ;;
    fld "open_mutex" struct_mutex ;;
    fld "open_partitions" (int_ 4 false) ;;
    fld "bdi" (ptr "struct backing_dev_info") ;;
    fld "queue_kobj" struct_kobject ;;
    fld "slave_dir" (ptr "struct kobject") ;;
    fld "slave_bdevs" struct_list_head ;;
    fld "random" (ptr "struct timer_rand_state") ;;
    fld "sync_io" ty_atomic_t ;;
    fld "ev" (ptr "struct disk_events") ;;
    fld "nr_zones" (int_ 4 false) ;;
    fld "zone_capacity" (int_ 4 false) ;;
    fld "last_zone_capacity" (int_ 4 false) ;;
    fld "conv_zones_bitmap" (ptr "long unsigned int") ;;
    fld "zone_wplugs_hash_bits" (int_ 4 false) ;;
    fld "nr_zone_wplugs" ty_atomic_t ;;
    fld "zone_wplugs_lock" ty_spinlock_t ;;
    fld "zone_wplugs_pool" (ptr "struct mempool_s") ;;
    fld "zone_wplugs_hash" (ptr "struct hlist_head") ;;
    fld "zone_wplugs_wq" (ptr "struct workqueue_struct") ;;
    fld "cdi" (ptr "struct cdrom_device_info") ;;
    fld "node_id" (int_ 4 true) ;;
    fld "bb" (ptr "struct badblocks") ;;
    fld "lockdep_map" struct_lockdep_map ;;
    fld "diskseq" ty_u64 ;;
    fld "open_mode" ty_blk_mode_t ;;
    fld "ia_ranges" (ptr "struct blk_independent_access_ranges") ;;
    mnil).

Definition ty___s8 : ctype :=
  int_ 1 true.

Definition ty_s8 : ctype :=
  ty___s8.

Definition ty___s16 : ctype :=
  int_ 2 true.

Definition ty_s16 : ctype :=
  ty___s16.

Definition ty___s32 : ctype :=
  int_ 4 true.

Definition ty_s32 : ctype :=
  ty___s32.

Definition struct_cfs_rq : ctype :=
  struct_ false (
    fld "load" struct_load_weight ;;
    fld "nr_running" (int_ 4 false) ;;
    fld "h_nr_queued" (int_ 4 false) ;;
    fld "h_nr_runnable" (int_ 4 false) ;;
    fld "idle_nr_running" (int_ 4 false) ;;
    fld "idle_h_nr_running" (int_ 4 false) ;;
    fld "h_nr_delayed" (int_ 4 false) ;;
    fld "avg_vruntime" ty_s64 ;;
    fld "avg_load" ty_u64 ;;
    fld "min_vruntime" ty_u64 ;;
    fld "forceidle_seq" (int_ 4 false) ;;
    fld "min_vruntime_fi" ty_u64 ;;
    fld "tasks_timeline" struct_rb_root_cached ;;
    fld "curr" (ptr "struct sched_entity") ;;
    fld "next" (ptr "struct sched_entity") ;;
    bits "" (int_ 8 true) 64 ;;
    bits "" (int_ 8 true) 64 ;;
    fld "avg" struct_sched_avg ;;
    fld "removed" (struct_ false (
      fld "lock" ty_raw_spinlock_t ;;
      fld "nr" (int_ 4 true) ;;
      fld "load_avg" (int_ 8 false) ;;
      fld "util_avg" (int_ 8 false) ;;
      fld "runnable_avg" (int_ 8 false) ;;
      bits "" (int_ 8 true) 64 ;;
      bits "" (int_ 8 true) 64 ;;
      bits "" (int_ 8 true) 64 ;;
      bits "" (int_ 8 true) 64 ;;
      mnil)) ;;
    fld "last_update_tg_load_avg" ty_u64 ;;
    fld "tg_load_avg_contrib" (int_ 8 false) ;;
    fld "propagate" (int_ 8 true) ;;
    fld "prop_runnable_sum" (int_ 8 true) ;;
    fld "h_load" (int_ 8 false) ;;
    fld "last_h_load_update" ty_u64 ;;
    fld "h_load_next" (ptr "struct sched_entity") ;;
    fld "rq" (ptr "struct rq") ;;
    fld "on_list" (int_ 4 true) ;;
    fld "leaf_cfs_rq_list" struct_list_head ;;
    fld "tg" (ptr "struct task_group") ;;
    fld "idle" (int_ 4 true) ;;
    fld "runtime_enabled" (int_ 4 true) ;;
    fld "runtime_remaining" ty_s64 ;;
    fld "throttled_pelt_idle" ty_u64 ;;
    fld "throttled_clock" ty_u64 ;;
    fld "throttled_clock_pelt" ty_u64 ;;
    fld "throttled_clock_pelt_time" ty_u64 ;;
    fld "throttled_clock_self" ty_u64 ;;
    fld "throttled_clock_self_time" ty_u64 ;;
    fld "throttled" (int_ 4 true) ;;
    fld "throttle_count" (int_ 4 true) ;;
    fld "throttled_list" struct_list_head ;;
    fld "throttled_csd_list" struct_list_head ;;
    bits "" (int_ 8 true) 64 ;;
    bits "" (int_ 8 true) 64 ;;
    bits "" (int_ 8 true) 64 ;;
    bits "" (int_ 8 true) 64 ;;
    bits "" (int_ 8 true) 64 ;;
    bits "" (int_ 8 true) 64 ;;
    bits "" (int_ 8 true) 64 ;;
    mnil).

Definition struct_seqcount_raw_spinlock : ctype :=
  struct_ false (
    fld "seqcount" ty_seqcount_t ;;
    mnil).

Definition ty_seqcount_raw_spinlock_t : ctype :=
  struct_seqcount_raw_spinlock.

Definition struct_hrtimer_clock_base : ctype :=
  struct_ false (
    fld "cpu_base" (ptr "struct hrtimer_cpu_base") ;;
    fld "index" (int_ 4 false) ;;
    fld "clockid" ty_clockid_t ;;
    fld "seq" ty_seqcount_raw_spinlock_t ;;
    fld "running" (ptr "struct hrtimer") ;;
    fld "active" struct_timerqueue_head ;;
    fld "get_time" (ptr "function") ;;
    fld "offset" ty_ktime_t ;;
    mnil).

Definition ty_smp_call_func_t : ctype :=
  ptr "function".

Definition struct___call_single_data : ctype :=
  struct_ false (
    fld "node" struct___call_single_node ;;
    fld "func" ty_smp_call_func_t ;;
    fld "info" (ptr "void") ;;
    mnil).

Definition ty_call_single_data_t : ctype :=
  struct___call_single_data.

Definition struct_uclamp_bucket : ctype :=
  struct_ false (
    bits "value" (int_ 8 false) 11 ;;
    bits "tasks" (int_ 8 false) 53 ;;
    mnil).

Definition struct_uclamp_rq : ctype :=
  struct_ false (
    fld "value" (int_ 4 false) ;;
    fld "bucket" (arr struct_uclamp_bucket 5) ;;
    mnil).

Definition struct_rt_prio_array : ctype :=
  struct_ false (
    fld "bitmap" (arr (int_ 8 false) 2) ;;
    fld "queue" (arr struct_list_head 100) ;;
    mnil).

Definition struct_plist_head : ctype :=
  struct_ false (
    fld "node_list" struct_list_head ;;
    mnil).

Definition struct_rt_rq : ctype :=
  struct_ false (
    fld "active" struct_rt_prio_array ;;
    fld "rt_nr_running" (int_ 4 false) ;;
    fld "rr_nr_running" (int_ 4 false) ;;
    fld "highest_prio" (struct_ false (
      fld "curr" (int_ 4 true) ;;
      fld "next" (int_ 4 true) ;;
      mnil)) ;;
    fld "overloaded" ty_bool ;;
    fld "pushable_tasks" struct_plist_head ;;
    fld "rt_queued" (int_ 4 true) ;;
    mnil).

Definition struct_dl_rq : ctype :=
  struct_ false (
    fld "root" struct_rb_root_cached ;;
    fld "dl_nr_running" (int_ 4 false) ;;
    fld "earliest_dl" (struct_ false (
      fld "curr" ty_u64 ;;
      fld "next" ty_u64 ;;
      mnil)) ;;
    fld "overloaded" ty_bool ;;
    fld "pushable_dl_tasks_root" struct_rb_root_cached ;;
    fld "running_bw" ty_u64 ;;
    fld "this_bw" ty_u64 ;;
    fld "extra_bw" ty_u64 ;;
    fld "max_bw" ty_u64 ;;
    fld "bw_ratio" ty_u64 ;;
    mnil).

Definition ty_cpu_stop_fn_t : ctype :=
  ptr "function".

Definition struct_cpu_stop_work : ctype :=
  struct_ false (
    fld "list" struct_list_head ;;
    fld "fn" ty_cpu_stop_fn_t ;;
    fld "caller" (int_ 8 false) ;;
    fld "arg" (ptr "void") ;;
    fld "done" (ptr "struct cpu_stop_done") ;;
    mnil).

Definition struct_rcuwait : ctype :=
  struct_ false (
    fld "task" (ptr "struct task_struct") ;;
    mnil).

Definition ty_cpumask_var_t : ctype :=
  ptr "struct cpumask".

Definition struct_rq : ctype :=
  struct_ false (
    fld "__lock" ty_raw_spinlock_t ;;
    fld "nr_running" (int_ 4 false) ;;
    fld "nr_numa_running" (int_ 4 false) ;;
    fld "nr_preferred_running" (int_ 4 false) ;;
    fld "numa_migrate_on" (int_ 4 false) ;;
    fld "last_blocked_load_update_tick" (int_ 8 false) ;;
    fld "has_blocked_load" (int_ 4 false) ;;
    bits "" (int_ 8 true) 64 ;;
    bits "" (int_ 8 true) 64 ;;
    bits "" (int_ 8 true) 64 ;;
    fld "nohz_csd" ty_call_single_data_t ;;
    fld "nohz_tick_stopped" (int_ 4 false) ;;
    fld "nohz_flags" ty_atomic_t ;;
    fld "ttwu_pending" (int_ 4 false) ;;
    fld "nr_switches" ty_u64 ;;
    bits "" (int_ 8 true) 64 ;;
    fld "uclamp" (arr struct_uclamp_rq 2) ;;
    fld "uclamp_flags" (int_ 4 false) ;;
    bits "" (int_ 8 true) 64 ;;
    bits "" (int_ 8 true) 64 ;;
    bits "" (int_ 8 true) 64 ;;
    fld "cfs" struct_cfs_rq ;;
    fld "rt" struct_rt_rq ;;
    fld "dl" struct_dl_rq ;;
    fld "fair_server" struct_sched_dl_entity ;;
    fld "leaf_cfs_rq_list" struct_list_head ;;
    fld "tmp_alone_branch" (ptr "struct list_head") ;;
    fld "nr_uninterruptible" (int_ 8 false) ;;
    fld "curr" (ptr "struct task_struct") ;;
    fld "dl_server" (ptr "struct sched_dl_entity") ;;
    fld "idle" (ptr "struct task_struct") ;;
    fld "stop" (ptr "struct task_struct") ;;
    fld "next_balance" (int_ 8 false) ;;
    fld "prev_mm" (ptr "struct mm_struct") ;;
    fld "clock_update_flags" (int_ 4 false) ;;
    fld "clock" ty_u64 ;;
    fld "clock_task" ty_u64 ;;
    fld "clock_pelt" ty_u64 ;;
    fld "lost_idle_time" (int_ 8 false) ;;
    fld "clock_pelt_idle" ty_u64 ;;
    fld "clock_idle" ty_u64 ;;
    fld "nr_iowait" ty_atomic_t ;;
    fld "last_seen_need_resched_ns" ty_u64 ;;
    fld "ticks_without_resched" (int_ 4 true) ;;
    fld "membarrier_state" (int_ 4 true) ;;
    fld "rd" (ptr "struct root_domain") ;;
    fld "sd" (ptr "struct sched_domain") ;;
    fld "cpu_capacity" (int_ 8 false) ;;
    fld "balance_callback" (ptr "struct balance_callback") ;;
    fld "nohz_idle_balance" (int_ 1 false) ;;
    fld "idle_balance" (int_ 1 false) ;;
    fld "misfit_task_load" (int_ 8 false) ;;
    fld "active_balance" (int_ 4 true) ;;
    fld "push_cpu" (int_ 4 true) ;;
    fld "active_balance_work" struct_cpu_stop_work ;;
    fld "cpu" (int_ 4 true) ;;
    fld "online" (int_ 4 true) ;;
    fld "cfs_tasks" struct_list_head ;;
    fld "avg_rt" struct_sched_avg ;;
    fld "avg_dl" struct_sched_avg ;;
    fld "avg_irq" struct_sched_avg ;;
    fld "idle_stamp" ty_u64 ;;
    fld "avg_idle" ty_u64 ;;
    fld "max_idle_balance_cost" ty_u64 ;;
    fld "hotplug_wait" struct_rcuwait ;;
    fld "prev_steal_time" ty_u64 ;;
    fld "prev_steal_time_rq" ty_u64 ;;
    fld "calc_load_update" (int_ 8 false) ;;
    fld "calc_load_active" (int_ 8 true) ;;
    fld "hrtick_csd" ty_call_single_data_t ;;
    fld "hrtick_timer" struct_hrtimer ;;
    fld "hrtick_time" ty_ktime_t ;;
    fld "rq_sched_info" struct_sched_info ;;
    fld "rq_cpu_time" (int_ 8 false) ;;
    fld "yld_count" (int_ 4 false) ;;
    fld "sched_count" (int_ 4 false) ;;
    fld "sched_goidle" (int_ 4 false) ;;
    fld "ttwu_count" (int_ 4 false) ;;
    fld "ttwu_local" (int_ 4 false) ;;
    fld "idle_state" (ptr "struct cpuidle_state") ;;
    fld "nr_pinned" (int_ 4 false) ;;
    fld "push_busy" (int_ 4 false) ;;
    fld "push_work" struct_cpu_stop_work ;;
    fld "core" (ptr "struct rq") ;;
    fld "core_pick" (ptr "struct task_struct") ;;
    fld "core_dl_server" (ptr "struct sched_dl_entity") ;;
    fld "core_enabled" (int_ 4 false) ;;
    fld "core_sched_seq" (int_ 4 false) ;;
    fld "core_tree" struct_rb_root ;;
    fld "core_task_seq" (int_ 4 false) ;;
    fld "core_pick_seq" (int_ 4 false) ;;
    fld "core_cookie" (int_ 8 false) ;;
    fld "core_forceidle_count" (int_ 4 false) ;;
    fld "core_forceidle_seq" (int_ 4 false) ;;
    fld "core_forceidle_occupation" (int_ 4 false) ;;
    fld "core_forceidle_start" ty_u64 ;;
    fld "scratch_mask" ty_cpumask_var_t ;;
    fld "cfsb_csd" ty_call_single_data_t ;;
    fld "cfsb_csd_list" struct_list_head ;;
    bits "" (int_ 8 true) 64 ;;
    bits "" (int_ 8 true) 64 ;;
    mnil).

Definition ty___kernel_time64_t : ctype :=
  int_ 8 true.

Definition struct___kernel_timespec : ctype :=
  struct_ false (
    fld "tv_sec" ty___kernel_time64_t ;;
    fld "tv_nsec" (int_ 8 true) ;;
    mnil).

Definition ty_old_time32_t : ctype :=
  ty_s32.

Definition struct_old_timespec32 : ctype :=
  struct_ false (
    fld "tv_sec" ty_old_time32_t ;;
    fld "tv_nsec" ty_s32 ;;
    mnil).

Definition struct_pollfd : ctype :=
  struct_ false (
    fld "fd" (int_ 4 true) ;;
    fld "events" (int_ 2 true) ;;
    fld "revents" (int_ 2 true) ;;
    mnil).

Definition struct_sem_undo_list : ctype :=
  struct_ false (
    fld "refcnt" ty_refcount_t ;;
    fld "lock" ty_spinlock_t ;;
    fld "list_proc" struct_list_head ;;
    mnil).

Definition struct_action_cache : ctype :=
  struct_ false (
    fld "allow_native" (arr (int_ 8 false) 8) ;;
    fld "allow_compat" (arr (int_ 8 false) 8) ;;
    mnil).

Definition struct_seccomp_filter : ctype :=
  struct_ false (
    fld "refs" ty_refcount_t ;;
    fld "users" ty_refcount_t ;;
    fld "log" ty_bool ;;
    fld "wait_killable_recv" ty_bool ;;
    fld "cache" struct_action_cache ;;
    fld "prev" (ptr "struct seccomp_filter") ;;
    fld "prog" (ptr "struct bpf_prog") ;;
    fld "notif" (ptr "struct notification") ;;
    fld "notify_lock" struct_mutex ;;
    fld "wqh" ty_wait_queue_head_t ;;
    mnil).

Definition struct_page : ctype :=
  struct_ false (
    fld "flags" (int_ 8 false) ;;
    anon (union_ false (
      anon (struct_ false (
        anon (union_ false (
          fld "lru" struct_list_head ;;
          anon (struct_ false (
            fld "__filler" (ptr "void") ;;
            fld "mlock_count" (int_ 4 false) ;;
            mnil)) ;;
          fld "buddy_list" struct_list_head ;;
          fld "pcp_list" struct_list_head ;;
          mnil)) ;;
        fld "mapping" (ptr "struct address_space") ;;
        anon (union_ false (
          fld "index" (int_ 8 false) ;;
          fld "share" (int_ 8 false) ;;
          mnil)) ;;
        fld "private" (int_ 8 false) ;;
        mnil)) ;;
      anon (struct_ false (
        fld "pp_magic" (int_ 8 false) ;;
        fld "pp" (ptr "struct page_pool") ;;
        fld "_pp_mapping_pad" (int_ 8 false) ;;
        fld "dma_addr" (int_ 8 false) ;;
        fld "pp_ref_count" ty_atomic_long_t ;;
        mnil)) ;;
      anon (struct_ false (
        fld "compound_head" (int_ 8 false) ;;
        mnil)) ;;
      anon (struct_ false (
        fld "pgmap" (ptr "struct dev_pagemap") ;;
        fld "zone_device_data" (ptr "void") ;;
        mnil)) ;;
      fld "callback_head" struct_callback_head ;;
      mnil)) ;;
    anon (union_ false (
      fld "page_type" (int_ 4 false) ;;
      fld "_mapcount" ty_atomic_t ;;
      mnil)) ;;
    fld "_refcount" ty_atomic_t ;;
    fld "memcg_data" (int_ 8 false) ;;
    mnil).

Definition struct_math_emu_info : ctype :=
  struct_ false (
    fld "___orig_eip" (int_ 8 true) ;;
    fld "regs" (ptr "struct pt_regs") ;;
    mnil).

Definition enum_perf_event_state : ctype :=
  enum_ 4 [("PERF_EVENT_STATE_DEAD", (-4)); ("PERF_EVENT_STATE_EXIT", (-3)); ("PERF_EVENT_STATE_ERROR", (-2)); ("PERF_EVENT_STATE_OFF", (-1)); ("PERF_EVENT_STATE_INACTIVE", 0); ("PERF_EVENT_STATE_ACTIVE", 1)].

Definition ty_local_t : ctype :=
  struct_ false (
    fld "a" ty_atomic_long_t ;;
    mnil).

Definition ty_local64_t : ctype :=
  struct_ false (
    fld "a" ty_local_t ;;
    mnil).

Definition struct_perf_event_attr : ctype :=
  struct_ false (
    fld "type" ty___u32 ;;
    fld "size" ty___u32 ;;
    fld "config" ty___u64 ;;
    anon (union_ false (
      fld "sample_period" ty___u64 ;;
      fld "sample_freq" ty___u64 ;;
      mnil)) ;;
    fld "sample_type" ty___u64 ;;
    fld "read_format" ty___u64 ;;
    bits "disabled" ty___u64 1 ;;
    bits "inherit" ty___u64 1 ;;
    bits "pinned" ty___u64 1 ;;
    bits "exclusive" ty___u64 1 ;;
    bits "exclude_user" ty___u64 1 ;;
    bits "exclude_kernel" ty___u64 1 ;;
    bits "exclude_hv" ty___u64 1 ;;
    bits "exclude_idle" ty___u64 1 ;;
    bits "mmap" ty___u64 1 ;;
    bits "comm" ty___u64 1 ;;
    bits "freq" ty___u64 1 ;;
    bits "inherit_stat" ty___u64 1 ;;
    bits "enable_on_exec" ty___u64 1 ;;
    bits "task" ty___u64 1 ;;
    bits "watermark" ty___u64 1 ;;
    bits "precise_ip" ty___u64 2 ;;
    bits "mmap_data" ty___u64 1 ;;
    bits "sample_id_all" ty___u64 1 ;;
    bits "exclude_host" ty___u64 1 ;;
    bits "exclude_guest" ty___u64 1 ;;
    bits "exclude_callchain_kernel" ty___u64 1 ;;
    bits "exclude_callchain_user" ty___u64 1 ;;
    bits "mmap2" ty___u64 1 ;;
    bits "comm_exec" ty___u64 1 ;;
    bits "use_clockid" ty___u64 1 ;;
    bits "context_switch" ty___u64 1 ;;
    bits "write_backward" ty___u64 1 ;;
    bits "namespaces" ty___u64 1 ;;
    bits "ksymbol" ty___u64 1 ;;
    bits "bpf_event" ty___u64 1 ;;
    bits "aux_output" ty___u64 1 ;;
    bits "cgroup" ty___u64 1 ;;
    bits "text_poke" ty___u64 1 ;;
    bits "build_id" ty___u64 1 ;;
    bits "inherit_thread" ty___u64 1 ;;
    bits "remove_on_exec" ty___u64 1 ;;
    bits "sigtrap" ty___u64 1 ;;
    bits "__reserved_1" ty___u64 26 ;;
    anon (union_ false (
      fld "wakeup_events" ty___u32 ;;
      fld "wakeup_watermark" ty___u32 ;;
      mnil)) ;;
    fld "bp_type" ty___u32 ;;
    anon (union_ false (
      fld "bp_addr" ty___u64 ;;
      fld "kprobe_func" ty___u64 ;;
      fld "uprobe_path" ty___u64 ;;
      fld "config1" ty___u64 ;;
      mnil)) ;;
    anon (union_ false (
      fld "bp_len" ty___u64 ;;
      fld "kprobe_addr" ty___u64 ;;
      fld "probe_offset" ty___u64 ;;
      fld "config2" ty___u64 ;;
      mnil)) ;;
    fld "branch_sample_type" ty___u64 ;;
    fld "sample_regs_user" ty___u64 ;;
    fld "sample_stack_user" ty___u32 ;;
    fld "clockid" ty___s32 ;;
    fld "sample_regs_intr" ty___u64 ;;
    fld "aux_watermark" ty___u32 ;;
    fld "sample_max_stack" ty___u16 ;;
    fld "__reserved_2" ty___u16 ;;
    fld "aux_sample_size" ty___u32 ;;
    anon (union_ false (
      fld "aux_action" ty___u32 ;;
      anon (struct_ false (
        bits "aux_start_paused" ty___u32 1 ;;
        bits "aux_pause" ty___u32 1 ;;
        bits "aux_resume" ty___u32 1 ;;
        bits "__reserved_3" ty___u32 29 ;;
        mnil)) ;;
      mnil)) ;;
    fld "sig_data" ty___u64 ;;
    fld "config3" ty___u64 ;;
    mnil).

Definition struct_hw_perf_event_extra : ctype :=
  struct_ false (
    fld "config" ty_u64 ;;
    fld "reg" (int_ 4 false) ;;
    fld "alloc" (int_ 4 true) ;;
    fld "idx" (int_ 4 true) ;;
    mnil).

Definition struct_arch_hw_breakpoint : ctype :=
  struct_ false (
    fld "address" (int_ 8 false) ;;
    fld "mask" (int_ 8 false) ;;
    fld "len" ty_u8 ;;
    fld "type" ty_u8 ;;
    mnil).

Definition struct_rhash_head : ctype :=
  struct_ false (
    fld "next" (ptr "struct rhash_head") ;;
    mnil).

Definition struct_rhlist_head : ctype :=
  struct_ false (
    fld "rhead" struct_rhash_head ;;
    fld "next" (ptr "struct rhlist_head") ;;
    mnil).

Definition struct_hw_perf_event : ctype :=
  struct_ false (
    anon (union_ false (
      anon (struct_ false (
        fld "config" ty_u64 ;;
        fld "last_tag" ty_u64 ;;
        fld "config_base" (int_ 8 false) ;;
        fld "event_base" (int_ 8 false) ;;
        fld "event_base_rdpmc" (int_ 4 true) ;;
        fld "idx" (int_ 4 true) ;;
        fld "last_cpu" (int_ 4 true) ;;
        fld "flags" (int_ 4 true) ;;
        fld "extra_reg" struct_hw_perf_event_extra ;;
        fld "branch_reg" struct_hw_perf_event_extra ;;
        mnil)) ;;
      anon (struct_ false (
        fld "aux_config" ty_u64 ;;
        fld "aux_paused" (int_ 4 false) ;;
        mnil)) ;;
      anon (struct_ false (
        fld "hrtimer" struct_hrtimer ;;
        mnil)) ;;
      anon (struct_ false (
        fld "tp_list" struct_list_head ;;
        mnil)) ;;
      anon (struct_ false (
        fld "pwr_acc" ty_u64 ;;
        fld "ptsc" ty_u64 ;;
        mnil)) ;;
      anon (struct_ false (
        fld "info" struct_arch_hw_breakpoint ;;
        fld "bp_list" struct_rhlist_head ;;
        mnil)) ;;
      anon (struct_ false (
        fld "iommu_bank" ty_u8 ;;
        fld "iommu_cntr" ty_u8 ;;
        fld "padding" ty_u16 ;;
        fld "conf" ty_u64 ;;
        fld "conf1" ty_u64 ;;
        mnil)) ;;
      mnil)) ;;
    fld "target" (ptr "struct task_struct") ;;
    fld "addr_filters" (ptr "void") ;;
    fld "addr_filters_gen" (int_ 8 false) ;;
    fld "state" (int_ 4 true) ;;
    fld "prev_count" ty_local64_t ;;
    fld "sample_period" ty_u64 ;;
    anon (union_ false (
      anon (struct_ false (
        fld "last_period" ty_u64 ;;
        fld "period_left" ty_local64_t ;;
        mnil)) ;;
      anon (struct_ false (
        fld "saved_metric" ty_u64 ;;
        fld "saved_slots" ty_u64 ;;
        mnil)) ;;
      mnil)) ;;
    fld "interrupts_seq" ty_u64 ;;
    fld "interrupts" ty_u64 ;;
    fld "freq_time_stamp" ty_u64 ;;
    fld "freq_count_stamp" ty_u64 ;;
    mnil).

Definition struct_irq_work : ctype :=
  struct_ false (
    fld "node" struct___call_single_node ;;
    fld "func" (ptr "function") ;;
    fld "irqwait" struct_rcuwait ;;
    mnil).

Definition struct_perf_addr_filters_head : ctype :=
  struct_ false (
    fld "list" struct_list_head ;;
    fld "lock" ty_raw_spinlock_t ;;
    fld "nr_file_filters" (int_ 4 false) ;;
    mnil).

Definition ty_perf_overflow_handler_t : ctype :=
  ptr "function".

Definition ty_ftrace_func_t : ctype :=
  ptr "function".

Definition struct_ftrace_ops_hash : ctype :=
  struct_ false (
    fld "notrace_hash" (ptr "struct ftrace_hash") ;;
    fld "filter_hash" (ptr "struct ftrace_hash") ;;
    fld "regex_lock" struct_mutex ;;
    mnil).

Definition ty_ftrace_ops_func_t : ctype :=
  ptr "function".

Definition struct_ftrace_ops : ctype :=
  struct_ false (
    fld "func" ty_ftrace_func_t ;;
    fld "next" (ptr "struct ftrace_ops") ;;
    fld "flags" (int_ 8 false) ;;
    fld "private" (ptr "void") ;;
    fld "saved_func" ty_ftrace_func_t ;;
    fld "local_hash" struct_ftrace_ops_hash ;;
    fld "func_hash" (ptr "struct ftrace_ops_hash") ;;
    fld "old_hash" struct_ftrace_ops_hash ;;
    fld "trampoline" (int_ 8 false) ;;
    fld "trampoline_size" (int_ 8 false) ;;
    fld "list" struct_list_head ;;
    fld "subop_list" struct_list_head ;;
    fld "ops_func" ty_ftrace_ops_func_t ;;
    fld "managed" (ptr "struct ftrace_ops") ;;
    fld "direct_call" (int_ 8 false) ;;
    mnil).

Definition struct_perf_event : ctype :=
  struct_ false (
    fld "event_entry" struct_list_head ;;
    fld "sibling_list" struct_list_head ;;
    fld "active_list" struct_list_head ;;
    fld "group_node" struct_rb_node ;;
    fld "group_index" ty_u64 ;;
    fld "migrate_entry" struct_list_head ;;
    fld "hlist_entry" struct_hlist_node ;;
    fld "active_entry" struct_list_head ;;
    fld "nr_siblings" (int_ 4 true) ;;
    fld "event_caps" (int_ 4 true) ;;
    fld "group_caps" (int_ 4 true) ;;
    fld "group_generation" (int_ 4 false) ;;
    fld "group_leader" (ptr "struct perf_event") ;;
    fld "pmu" (ptr "struct pmu") ;;
    fld "pmu_private" (ptr "void") ;;
    fld "state" enum_perf_event_state ;;
    fld "attach_state" (int_ 4 false) ;;
    fld "count" ty_local64_t ;;
    fld "child_count" ty_atomic64_t ;;
    fld "total_time_enabled" ty_u64 ;;
    fld "total_time_running" ty_u64 ;;
    fld "tstamp" ty_u64 ;;
    fld "attr" struct_perf_event_attr ;;
    fld "header_size" ty_u16 ;;
    fld "id_header_size" ty_u16 ;;
    fld "read_size" ty_u16 ;;
    fld "hw" struct_hw_perf_event ;;
    fld "ctx" (ptr "struct perf_event_context") ;;
    fld "pmu_ctx" (ptr "struct perf_event_pmu_context") ;;
    fld "refcount" ty_atomic_long_t ;;
    fld "child_total_time_enabled" ty_atomic64_t ;;
    fld "child_total_time_running" ty_atomic64_t ;;
    fld "child_mutex" struct_mutex ;;
    fld "child_list" struct_list_head ;;
    fld "parent" (ptr "struct perf_event") ;;
    fld "oncpu" (int_ 4 true) ;;
    fld "cpu" (int_ 4 true) ;;
    fld "owner_entry" struct_list_head ;;
    fld "owner" (ptr "struct task_struct") ;;
    fld "mmap_mutex" struct_mutex ;;
    fld "mmap_count" ty_atomic_t ;;
    fld "rb" (ptr "struct perf_buffer") ;;
    fld "rb_entry" struct_list_head ;;
    fld "rcu_batches" (int_ 8 false) ;;
    fld "rcu_pending" (int_ 4 true) ;;
    fld "waitq" ty_wait_queue_head_t ;;
    fld "fasync" (ptr "struct fasync_struct") ;;
    fld "pending_wakeup" (int_ 4 false) ;;
    fld "pending_kill" (int_ 4 false) ;;
    fld "pending_disable" (int_ 4 false) ;;
    fld "pending_addr" (int_ 8 false) ;;
    fld "pending_irq" struct_irq_work ;;
    fld "pending_disable_irq" struct_irq_work ;;
    fld "pending_task" struct_callback_head ;;
    fld "pending_work" (int_ 4 false) ;;
    fld "event_limit" ty_atomic_t ;;
    fld "addr_filters" struct_perf_addr_filters_head ;;
    fld "addr_filter_ranges" (ptr "struct perf_addr_filter_range") ;;
    fld "addr_filters_gen" (int_ 8 false) ;;
    fld "aux_event" (ptr "struct perf_event") ;;
    fld "destroy" (ptr "function") ;;
    fld "callback_head" struct_callback_head ;;
    fld "ns" (ptr "struct pid_namespace") ;;
    fld "id" ty_u64 ;;
    fld "lost_samples" ty_atomic64_t ;;
    fld "clock" (ptr "function") ;;
    fld "overflow_handler" ty_perf_overflow_handler_t ;;
    fld "overflow_handler_context" (ptr "void") ;;
    fld "prog" (ptr "struct bpf_prog") ;;
    fld "bpf_cookie" ty_u64 ;;
    fld "tp_event" (ptr "struct trace_event_call") ;;
    fld "filter" (ptr "struct event_filter") ;;
    fld "ftrace_ops" struct_ftrace_ops ;;
    fld "cgrp" (ptr "struct perf_cgroup") ;;
    fld "security" (ptr "void") ;;
    fld "sb_list" struct_list_head ;;
    fld "orig_type" ty___u32 ;;
    mnil).

Definition struct_io_bitmap : ctype :=
  struct_ false (
    fld "sequence" ty_u64 ;;
    fld "refcnt" ty_refcount_t ;;
    fld "max" (int_ 4 false) ;;
    fld "bitmap" (arr (int_ 8 false) 1024) ;;
    mnil).

Definition struct_sched_class : ctype :=
  struct_ false (
    fld "uclamp_enabled" (int_ 4 true) ;;
    fld "enqueue_task" (ptr "function") ;;
    fld "dequeue_task" (ptr "function") ;;
    fld "yield_task" (ptr "function") ;;
    fld "yield_to_task" (ptr "function") ;;
    fld "wakeup_preempt" (ptr "function") ;;
    fld "balance" (ptr "function") ;;
    fld "pick_task" (ptr "function") ;;
    fld "pick_next_task" (ptr "function") ;;
    fld "put_prev_task" (ptr "function") ;;
    fld "set_next_task" (ptr "function") ;;
    fld "select_task_rq" (ptr "function") ;;
    fld "migrate_task_rq" (ptr "function") ;;
    fld "task_woken" (ptr "function") ;;
    fld "set_cpus_allowed" (ptr "function") ;;
    fld "rq_online" (ptr "function") ;;
    fld "rq_offline" (ptr "function") ;;
    fld "find_lock_rq" (ptr "function") ;;
    fld "task_tick" (ptr "function") ;;
    fld "task_fork" (ptr "function") ;;
    fld "task_dead" (ptr "function") ;;
    fld "switching_to" (ptr "function") ;;
    fld "switched_from" (ptr "function") ;;
    fld "switched_to" (ptr "function") ;;
    fld "reweight_task" (ptr "function") ;;
    fld "prio_changed" (ptr "function") ;;
    fld "get_rr_interval" (ptr "function") ;;
    fld "update_curr" (ptr "function") ;;
    fld "task_change_group" (ptr "function") ;;
    fld "task_is_throttled" (ptr "function") ;;
    mnil).

Definition struct_rcu_work : ctype :=
  struct_ false (
    fld "work" struct_work_struct ;;
    fld "rcu" struct_callback_head ;;
    fld "wq" (ptr "struct workqueue_struct") ;;
    mnil).

Definition struct_cgroup_subsys_state : ctype :=
  struct_ false (
    fld "cgroup" (ptr "struct cgroup") ;;
    fld "ss" (ptr "struct cgroup_subsys") ;;
    fld "refcnt" struct_percpu_ref ;;
    fld "sibling" struct_list_head ;;
    fld "children" struct_list_head ;;
    fld "rstat_css_node" struct_list_head ;;
    fld "id" (int_ 4 true) ;;
    fld "flags" (int_ 4 false) ;;
    fld "serial_nr" ty_u64 ;;
    fld "online_cnt" ty_atomic_t ;;
    fld "destroy_work" struct_work_struct ;;
    fld "destroy_rwork" struct_rcu_work ;;
    fld "parent" (ptr "struct cgroup_subsys_state") ;;
    fld "nr_descendants" (int_ 4 true) ;;
    mnil).

Definition struct_cfs_bandwidth : ctype :=
  struct_ false (
    fld "lock" ty_raw_spinlock_t ;;
    fld "period" ty_ktime_t ;;
    fld "quota" ty_u64 ;;
    fld "runtime" ty_u64 ;;
    fld "burst" ty_u64 ;;
    fld "runtime_snap" ty_u64 ;;
    fld "hierarchical_quota" ty_s64 ;;
    fld "idle" ty_u8 ;;
    fld "period_active" ty_u8 ;;
    fld "slack_started" ty_u8 ;;
    fld "period_timer" struct_hrtimer ;;
    fld "slack_timer" struct_hrtimer ;;
    fld "throttled_cfs_rq" struct_list_head ;;
    fld "nr_periods" (int_ 4 true) ;;
    fld "nr_throttled" (int_ 4 true) ;;
    fld "nr_burst" (int_ 4 true) ;;
    fld "throttled_time" ty_u64 ;;
    fld "burst_time" ty_u64 ;;
    mnil).

Definition struct_task_group : ctype :=
  struct_ false (
    fld "css" struct_cgroup_subsys_state ;;
    fld "idle" (int_ 4 true) ;;
    fld "se" (ptr "struct sched_entity *") ;;
    fld "cfs_rq" (ptr "struct cfs_rq *") ;;
    fld "shares" (int_ 8 false) ;;
    bits "" (int_ 8 true) 64 ;;
    bits "" (int_ 8 true) 64 ;;
    fld "load_avg" ty_atomic_long_t ;;
    fld "rcu" struct_callback_head ;;
    fld "list" struct_list_head ;;
    fld "parent" (ptr "struct task_group") ;;
    fld "siblings" struct_list_head ;;
    fld "children" struct_list_head ;;
    fld "autogroup" (ptr "struct autogroup") ;;
    fld "cfs_bandwidth" struct_cfs_bandwidth ;;
    fld "uclamp_pct" (arr (int_ 4 false) 2) ;;
    fld "uclamp_req" (arr struct_uclamp_se 2) ;;
    fld "uclamp" (arr struct_uclamp_se 2) ;;
    bits "" (int_ 8 true) 64 ;;
    bits "" (int_ 8 true) 64 ;;
    bits "" (int_ 8 true) 64 ;;
    bits "" (int_ 8 true) 64 ;;
    mnil).

Definition struct_rt_mutex_base : ctype :=
  struct_ false (
    fld "wait_lock" ty_raw_spinlock_t ;;
    fld "waiters" struct_rb_root_cached ;;
    fld "owner" (ptr "struct task_struct") ;;
    mnil).

Definition struct_rt_mutex : ctype :=
  struct_ false (
    fld "rtmutex" struct_rt_mutex_base ;;
    mnil).

Definition ty_kthread_work_func_t : ctype :=
  ptr "function".

Definition struct_kthread_work : ctype :=
  struct_ false (
    fld "node" struct_list_head ;;
    fld "func" ty_kthread_work_func_t ;;
    fld "worker" (ptr "struct kthread_worker") ;;
    fld "canceling" (int_ 4 true) ;;
    mnil).

Definition struct_rcu_exp_work : ctype :=
  struct_ false (
    fld "rew_s" (int_ 8 false) ;;
    fld "rew_work" struct_kthread_work ;;
    mnil).

Definition struct_rcu_node : ctype :=
  struct_ false (
    fld "lock" ty_raw_spinlock_t ;;
    fld "gp_seq" (int_ 8 false) ;;
    fld "gp_seq_needed" (int_ 8 false) ;;
    fld "completedqs" (int_ 8 false) ;;
    fld "qsmask" (int_ 8 false) ;;
    fld "rcu_gp_init_mask" (int_ 8 false) ;;
    fld "qsmaskinit" (int_ 8 false) ;;
    fld "qsmaskinitnext" (int_ 8 false) ;;
    fld "expmask" (int_ 8 false) ;;
    fld "expmaskinit" (int_ 8 false) ;;
    fld "expmaskinitnext" (int_ 8 false) ;;
    fld "exp_kworker" (ptr "struct kthread_worker") ;;
    fld "cbovldmask" (int_ 8 false) ;;
    fld "ffmask" (int_ 8 false) ;;
    fld "grpmask" (int_ 8 false) ;;
    fld "grplo" (int_ 4 true) ;;
    fld "grphi" (int_ 4 true) ;;
    fld "grpnum" ty_u8 ;;
    fld "level" ty_u8 ;;
    fld "wait_blkd_tasks" ty_bool ;;
    fld "parent" (ptr "struct rcu_node") ;;
    fld "blkd_tasks" struct_list_head ;;
    fld "gp_tasks" (ptr "struct list_head") ;;
    fld "exp_tasks" (ptr "struct list_head") ;;
    fld "boost_tasks" (ptr "struct list_head") ;;
    fld "boost_mtx" struct_rt_mutex ;;
    fld "boost_time" (int_ 8 false) ;;
    fld "kthread_mutex" struct_mutex ;;
    fld "boost_kthread_task" (ptr "struct task_struct") ;;
    fld "boost_kthread_status" (int_ 4 false) ;;
    fld "n_boosts" (int_ 8 false) ;;
    bits "" (int_ 8 true) 64 ;;
    bits "" (int_ 8 true) 64 ;;
    bits "" (int_ 8 true) 64 ;;
    bits "" (int_ 8 true) 64 ;;
    bits "" (int_ 8 true) 64 ;;
    fld "fqslock" ty_raw_spinlock_t ;;
    bits "" (int_ 8 true) 64 ;;
    bits "" (int_ 8 true) 64 ;;
    bits "" (int_ 8 true) 64 ;;
    bits "" (int_ 8 true) 64 ;;
    bits "" (int_ 8 true) 64 ;;
    bits "" (int_ 8 true) 64 ;;
    bits "" (int_ 8 true) 64 ;;
    fld "exp_lock" ty_spinlock_t ;;
    fld "exp_seq_rq" (int_ 8 false) ;;
    fld "exp_wq" (arr ty_wait_queue_head_t 4) ;;
    fld "rew" struct_rcu_exp_work ;;
    fld "exp_need_flush" ty_bool ;;
    fld "exp_poll_lock" ty_raw_spinlock_t ;;
    fld "exp_seq_poll_rq" (int_ 8 false) ;;
    fld "exp_poll_wq" struct_work_struct ;;
    bits "" (int_ 8 true) 64 ;;
    bits "" (int_ 8 true) 64 ;;
    bits "" (int_ 8 true) 64 ;;
    bits "" (int_ 8 true) 64 ;;
    bits "" (int_ 8 true) 64 ;;
    bits "" (int_ 8 true) 64 ;;
    mnil).

Definition ty_lockdep_map_p : ctype :=
  struct_ false (
    mnil).

Definition struct_maple_tree : ctype :=
  struct_ false (
    anon (union_ false (
      fld "ma_lock" ty_spinlock_t ;;
      fld "ma_external_lock" ty_lockdep_map_p ;;
      mnil)) ;;
    fld "ma_flags" (int_ 4 false) ;;
    fld "ma_root" (ptr "void") ;;
    mnil).

Definition struct_rw_semaphore : ctype :=
  struct_ false (
    fld "count" ty_atomic_long_t ;;
    fld "owner" ty_atomic_long_t ;;
    fld "osq" struct_optimistic_spin_queue ;;
    fld "wait_lock" ty_raw_spinlock_t ;;
    fld "wait_list" struct_list_head ;;
    mnil).

Definition struct_percpu_counter : ctype :=
  struct_ false (
    fld "lock" ty_raw_spinlock_t ;;
    fld "count" ty_s64 ;;
    fld "list" struct_list_head ;;
    fld "counters" (ptr "s32") ;;
    mnil).

Definition ty_mm_context_t : ctype :=
  struct_ false (
    fld "ctx_id" ty_u64 ;;
    fld "tlb_gen" ty_atomic64_t ;;
    fld "next_trim_cpumask" (int_ 8 false) ;;
    fld "ldt_usr_sem" struct_rw_semaphore ;;
    fld "ldt" (ptr "struct ldt_struct") ;;
    fld "flags" (int_ 8 false) ;;
    fld "lock" struct_mutex ;;
    fld "vdso" (ptr "void") ;;
    fld "vdso_image" (ptr "struct vdso_image") ;;
    fld "perf_rdpmc_allowed" ty_atomic_t ;;
    fld "pkey_allocation_map" ty_u16 ;;
    fld "execute_only_pkey" ty_s16 ;;
    mnil).

Definition struct_uprobes_state : ctype :=
  struct_ false (
    fld "xol_area" (ptr "struct xol_area") ;;
    mnil).

Definition struct_mm_struct : ctype :=
  struct_ false (
    anon (struct_ false (
      anon (struct_ false (
        fld "mm_count" ty_atomic_t ;;
        bits "" (int_ 8 true) 64 ;;
        bits "" (int_ 8 true) 64 ;;
        bits "" (int_ 8 true) 64 ;;
        bits "" (int_ 8 true) 64 ;;
        bits "" (int_ 8 true) 64 ;;
        bits "" (int_ 8 true) 64 ;;
        bits "" (int_ 8 true) 64 ;;
        mnil)) ;;
      fld "mm_mt" struct_maple_tree ;;
      fld "mmap_base" (int_ 8 false) ;;
      fld "mmap_legacy_base" (int_ 8 false) ;;
      fld "mmap_compat_base" (int_ 8 false) ;;
      fld "mmap_compat_legacy_base" (int_ 8 false) ;;
      fld "task_size" (int_ 8 false) ;;
      fld "pgd" (ptr "pgd_t") ;;
      fld "membarrier_state" ty_atomic_t ;;
      fld "mm_users" ty_atomic_t ;;
      fld "pcpu_cid" (ptr "struct mm_cid") ;;
      fld "mm_cid_next_scan" (int_ 8 false) ;;
      fld "pgtables_bytes" ty_atomic_long_t ;;
      fld "map_count" (int_ 4 true) ;;
      fld "page_table_lock" ty_spinlock_t ;;
      fld "mmap_lock" struct_rw_semaphore ;;
      fld "mmlist" struct_list_head ;;
      fld "mm_lock_seq" (int_ 4 true) ;;
      fld "hiwater_rss" (int_ 8 false) ;;
      fld "hiwater_vm" (int_ 8 false) ;;
      fld "total_vm" (int_ 8 false) ;;
      fld "locked_vm" (int_ 8 false) ;;
      fld "pinned_vm" ty_atomic64_t ;;
      fld "data_vm" (int_ 8 false) ;;
      fld "exec_vm" (int_ 8 false) ;;
      fld "stack_vm" (int_ 8 false) ;;
      fld "def_flags" (int_ 8 false) ;;
      fld "write_protect_seq" ty_seqcount_t ;;
      fld "arg_lock" ty_spinlock_t ;;
      fld "start_code" (int_ 8 false) ;;
      fld "end_code" (int_ 8 false) ;;
      fld "start_data" (int_ 8 false) ;;
      fld "end_data" (int_ 8 false) ;;
      fld "start_brk" (int_ 8 false) ;;
      fld "brk" (int_ 8 false) ;;
      fld "start_stack" (int_ 8 false) ;;
      fld "arg_start" (int_ 8 false) ;;
      fld "arg_end" (int_ 8 false) ;;
      fld "env_start" (int_ 8 false) ;;
      fld "env_end" (int_ 8 false) ;;
      fld "saved_auxv" (arr (int_ 8 false) 52) ;;
      fld "rss_stat" (arr struct_percpu_counter 4) ;;
      fld "binfmt" (ptr "struct linux_binfmt") ;;
      fld "context" ty_mm_context_t ;;
      fld "flags" (int_ 8 false) ;;
      fld "ioctx_lock" ty_spinlock_t ;;
      fld "ioctx_table" (ptr "struct kioctx_table") ;;
      fld "owner" (ptr "struct task_struct") ;;
      fld "user_ns" (ptr "struct user_namespace") ;;
      fld "exe_file" (ptr "struct file") ;;
      fld "notifier_subscriptions" (ptr "struct mmu_notifier_subscriptions") ;;
      fld "numa_next_scan" (int_ 8 false) ;;
      fld "numa_scan_offset" (int_ 8 false) ;;
      fld "numa_scan_seq" (int_ 4 true) ;;
      fld "tlb_flush_pending" ty_atomic_t ;;
      fld "tlb_flush_batched" ty_atomic_t ;;
      fld "uprobes_state" struct_uprobes_state ;;
      fld "hugetlb_usage" ty_atomic_long_t ;;
      fld "async_put_work" struct_work_struct ;;
      fld "iommu_mm" (ptr "struct iommu_mm_data") ;;
      fld "ksm_merging_pages" (int_ 8 false) ;;
      fld "ksm_rmap_items" (int_ 8 false) ;;
      fld "ksm_zero_pages" ty_atomic_long_t ;;
      bits "" (int_ 8 true) 64 ;;
      bits "" (int_ 8 true) 64 ;;
      bits "" (int_ 8 true) 64 ;;
      bits "" (int_ 8 true) 64 ;;
      bits "" (int_ 8 true) 64 ;;
      bits "" (int_ 8 true) 64 ;;
      bits "" (int_ 8 true) 64 ;;
      mnil)) ;;
    fld "cpu_bitmap" (arr (int_ 8 false) 0) ;;
    mnil).

Definition ty_errseq_t : ctype :=
  ty_u32.

Definition struct_address_space : ctype :=
  struct_ false (
    fld "host" (ptr "struct inode") ;;
    fld "i_pages" struct_xarray ;;
    fld "invalidate_lock" struct_rw_semaphore ;;
    fld "gfp_mask" ty_gfp_t ;;
    fld "i_mmap_writable" ty_atomic_t ;;
    fld "nr_thps" ty_atomic_t ;;
    fld "i_mmap" struct_rb_root_cached ;;
    fld "nrpages" (int_ 8 false) ;;
    fld "writeback_index" (int_ 8 false) ;;
    fld "a_ops" (ptr "struct address_space_operations") ;;
    fld "flags" (int_ 8 false) ;;
    fld "wb_err" ty_errseq_t ;;
    fld "i_private_lock" ty_spinlock_t ;;
    fld "i_private_list" struct_list_head ;;
    fld "i_mmap_rwsem" struct_rw_semaphore ;;
    fld "i_private_data" (ptr "void") ;;
    mnil).

Definition struct_upid : ctype :=
  struct_ false (
    fld "nr" (int_ 4 true) ;;
    fld "ns" (ptr "struct pid_namespace") ;;
    mnil).

Definition struct_pid : ctype :=
  struct_ false (
    fld "count" ty_refcount_t ;;
    fld "level" (int_ 4 false) ;;
    fld "lock" ty_spinlock_t ;;
    fld "stashed" (ptr "struct dentry") ;;
    fld "ino" ty_u64 ;;
    fld "tasks" (arr struct_hlist_head 4) ;;
    fld "inodes" struct_hlist_head ;;
    fld "wait_pidfd" ty_wait_queue_head_t ;;
    fld "rcu" struct_callback_head ;;
    fld "numbers" (arr struct_upid 0) ;;
    mnil).

Definition ty___kernel_gid32_t : ctype :=
  int_ 4 false.

Definition ty_gid_t : ctype :=
  ty___kernel_gid32_t.

Definition ty_kgid_t : ctype :=
  struct_ false (
    fld "val" ty_gid_t ;;
    mnil).

Definition ty_kernel_cap_t : ctype :=
  struct_ false (
    fld "val" ty_u64 ;;
    mnil).

Definition struct_cred : ctype :=
  struct_ false (
    fld "usage" ty_atomic_long_t ;;
    fld "uid" ty_kuid_t ;;
    fld "gid" ty_kgid_t ;;
    fld "suid" ty_kuid_t ;;
    fld "sgid" ty_kgid_t ;;
    fld "euid" ty_kuid_t ;;
    fld "egid" ty_kgid_t ;;
    fld "fsuid" ty_kuid_t ;;
    fld "fsgid" ty_kgid_t ;;
    fld "securebits" (int_ 4 false) ;;
    fld "cap_inheritable" ty_kernel_cap_t ;;
    fld "cap_permitted" ty_kernel_cap_t ;;
    fld "cap_effective" ty_kernel_cap_t ;;
    fld "cap_bset" ty_kernel_cap_t ;;
    fld "cap_ambient" ty_kernel_cap_t ;;
    fld "jit_keyring" (int_ 1 false) ;;
    fld "session_keyring" (ptr "struct key") ;;
    fld "process_keyring" (ptr "struct key") ;;
    fld "thread_keyring" (ptr "struct key") ;;
    fld "request_key_auth" (ptr "struct key") ;;
    fld "security" (ptr "void") ;;
    fld "user" (ptr "struct user_struct") ;;
    fld "user_ns" (ptr "struct user_namespace") ;;
    fld "ucounts" (ptr "struct ucounts") ;;
    fld "group_info" (ptr "struct group_info") ;;
    anon (union_ false (
      fld "non_rcu" (int_ 4 true) ;;
      fld "rcu" struct_callback_head ;;
      mnil)) ;;
    mnil).

Definition ty_int32_t : ctype :=
  ty_s32.

Definition ty_key_serial_t : ctype :=
  ty_int32_t.

Definition ty_time64_t : ctype :=
  ty___s64.

Definition ty_uint32_t : ctype :=
  ty_u32.

Definition ty_key_perm_t : ctype :=
  ty_uint32_t.

Definition struct_keyring_index_key : ctype :=
  struct_ false (
    fld "hash" (int_ 8 false) ;;
    anon (union_ false (
      anon (struct_ false (
        fld "desc_len" ty_u16 ;;
        fld "desc" (arr (int_ 1 true) 6) ;;
        mnil)) ;;
      fld "x" (int_ 8 false) ;;
      mnil)) ;;
    fld "type" (ptr "struct key_type") ;;
    fld "domain_tag" (ptr "struct key_tag") ;;
    fld "description" (ptr "char") ;;
    mnil).

Definition union_key_payload : ctype :=
  union_ false (
    fld "rcu_data0" (ptr "void") ;;
    fld "data" (arr (ptr "void") 4) ;;
    mnil).

Definition struct_assoc_array : ctype :=
  struct_ false (
    fld "root" (ptr "struct assoc_array_ptr") ;;
    fld "nr_leaves_on_tree" (int_ 8 false) ;;
    mnil).

Definition struct_key : ctype :=
  struct_ false (
    fld "usage" ty_refcount_t ;;
    fld "serial" ty_key_serial_t ;;
    anon (union_ false (
      fld "graveyard_link" struct_list_head ;;
      fld "serial_node" struct_rb_node ;;
      mnil)) ;;
    fld "watchers" (ptr "struct watch_list") ;;
    fld "sem" struct_rw_semaphore ;;
    fld "user" (ptr "struct key_user") ;;
    fld "security" (ptr "void") ;;
    anon (union_ false (
      fld "expiry" ty_time64_t ;;
      fld "revoked_at" ty_time64_t ;;
      mnil)) ;;
    fld "last_used_at" ty_time64_t ;;
    fld "uid" ty_kuid_t ;;
    fld "gid" ty_kgid_t ;;
    fld "perm" ty_key_perm_t ;;
    fld "quotalen" (int_ 2 false) ;;
    fld "datalen" (int_ 2 false) ;;
    fld "state" (int_ 2 true) ;;
    fld "flags" (int_ 8 false) ;;
    anon (union_ false (
      fld "index_key" struct_keyring_index_key ;;
      anon (struct_ false (
        fld "hash" (int_ 8 false) ;;
        fld "len_desc" (int_ 8 false) ;;
        fld "type" (ptr "struct key_type") ;;
        fld "domain_tag" (ptr "struct key_tag") ;;
        fld "description" (ptr "char") ;;
        mnil)) ;;
      mnil)) ;;
    anon (union_ false (
      fld "payload" union_key_payload ;;
      anon (struct_ false (
        fld "name_link" struct_list_head ;;
        fld "keys" struct_assoc_array ;;
        mnil)) ;;
      mnil)) ;;
    fld "restrict_link" (ptr "struct key_restriction") ;;
    mnil).

Definition struct_path : ctype :=
  struct_ false (
    fld "mnt" (ptr "struct vfsmount") ;;
    fld "dentry" (ptr "struct dentry") ;;
    mnil).

Definition struct_qstr : ctype :=
  struct_ false (
    anon (union_ false (
      anon (struct_ false (
        fld "hash" ty_u32 ;;
        fld "len" ty_u32 ;;
        mnil)) ;;
      fld "hash_len" ty_u64 ;;
      mnil)) ;;
    fld "name" (ptr "unsigned char") ;;
    mnil).

Definition struct_delayed_call : ctype :=
  struct_ false (
    fld "fn" (ptr "function") ;;
    fld "arg" (ptr "void") ;;
    mnil).

Definition struct_saved : ctype :=
  struct_ false (
    fld "link" struct_path ;;
    fld "done" struct_delayed_call ;;
    fld "name" (ptr "char") ;;
    fld "seq" (int_ 4 false) ;;
    mnil).

Definition ty_vfsuid_t : ctype :=
  struct_ false (
    fld "val" ty_uid_t ;;
    mnil).

Definition ty_umode_t : ctype :=
  int_ 2 false.

Definition struct_nameidata : ctype :=
  struct_ false (
    fld "path" struct_path ;;
    fld "last" struct_qstr ;;
    fld "root" struct_path ;;
    fld "inode" (ptr "struct inode") ;;
    fld "flags" (int_ 4 false) ;;
    fld "state" (int_ 4 false) ;;
    fld "seq" (int_ 4 false) ;;
    fld "next_seq" (int_ 4 false) ;;
    fld "m_seq" (int_ 4 false) ;;
    fld "r_seq" (int_ 4 false) ;;
    fld "last_type" (int_ 4 true) ;;
    fld "depth" (int_ 4 false) ;;
    fld "total_link_count" (int_ 4 true) ;;
    fld "stack" (ptr "struct saved") ;;
    fld "internal" (arr struct_saved 2) ;;
    fld "name" (ptr "struct filename") ;;
    fld "saved" (ptr "struct nameidata") ;;
    fld "root_seq" (int_ 4 false) ;;
    fld "dfd" (int_ 4 true) ;;
    fld "dir_vfsuid" ty_vfsuid_t ;;
    fld "dir_mode" ty_umode_t ;;
    mnil).

Definition struct_fs_struct : ctype :=
  struct_ false (
    fld "users" (int_ 4 true) ;;
    fld "lock" ty_spinlock_t ;;
    fld "seq" ty_seqcount_spinlock_t ;;
    fld "umask" (int_ 4 true) ;;
    fld "in_exec" (int_ 4 true) ;;
    fld "root" struct_path ;;
    fld "pwd" struct_path ;;
    mnil).

Definition struct_fdtable : ctype :=
  struct_ false (
    fld "max_fds" (int_ 4 false) ;;
    fld "fd" (ptr "struct file *") ;;
    fld "close_on_exec" (ptr "long unsigned int") ;;
    fld "open_fds" (ptr "long unsigned int") ;;
    fld "full_fds_bits" (ptr "long unsigned int") ;;
    fld "rcu" struct_callback_head ;;
    mnil).

Definition struct_files_struct : ctype :=
  struct_ false (
    fld "count" ty_atomic_t ;;
    fld "resize_in_progress" ty_bool ;;
    fld "resize_wait" ty_wait_queue_head_t ;;
    fld "fdt" (ptr "struct fdtable") ;;
    fld "fdtab" struct_fdtable ;;
    bits "" (int_ 8 true) 64 ;;
    bits "" (int_ 8 true) 64 ;;
    bits "" (int_ 8 true) 64 ;;
    bits "" (int_ 8 true) 64 ;;
    fld "file_lock" ty_spinlock_t ;;
    fld "next_fd" (int_ 4 false) ;;
    fld "close_on_exec_init" (arr (int_ 8 false) 1) ;;
    fld "open_fds_init" (arr (int_ 8 false) 1) ;;
    fld "full_fds_bits_init" (arr (int_ 8 false) 1) ;;
    fld "fd_array" (arr (ptr "struct file") 64) ;;
    bits "" (int_ 8 true) 64 ;;
    bits "" (int_ 8 true) 64 ;;
    bits "" (int_ 8 true) 64 ;;
    bits "" (int_ 8 true) 64 ;;
    mnil).

Definition struct_io_uring_task : ctype :=
  struct_ false (
    fld "cached_refs" (int_ 4 true) ;;
    fld "last" (ptr "struct io_ring_ctx") ;;
    fld "io_wq" (ptr "struct io_wq") ;;
    fld "registered_rings" (arr (ptr "struct file") 16) ;;
    fld "xa" struct_xarray ;;
    fld "wait" struct_wait_queue_head ;;
    fld "in_cancel" ty_atomic_t ;;
    fld "inflight_tracked" ty_atomic_t ;;
    fld "inflight" struct_percpu_counter ;;
    bits "" (int_ 8 true) 64 ;;
    bits "" (int_ 8 true) 64 ;;
    anon (struct_ false (
      fld "task_list" struct_llist_head ;;
      fld "task_work" struct_callback_head ;;
      bits "" (int_ 8 true) 64 ;;
      bits "" (int_ 8 true) 64 ;;
      bits "" (int_ 8 true) 64 ;;
      bits "" (int_ 8 true) 64 ;;
      bits "" (int_ 8 true) 64 ;;
      mnil)) ;;
    mnil).

Definition struct_nsproxy : ctype :=
  struct_ false (
    fld "count" ty_refcount_t ;;
    fld "uts_ns" (ptr "struct uts_namespace") ;;
    fld "ipc_ns" (ptr "struct ipc_namespace") ;;
    fld "mnt_ns" (ptr "struct mnt_namespace") ;;
    fld "pid_ns_for_children" (ptr "struct pid_namespace") ;;
    fld "net_ns" (ptr "struct net") ;;
    fld "time_ns" (ptr "struct time_namespace") ;;
    fld "time_ns_for_children" (ptr "struct time_namespace") ;;
    fld "cgroup_ns" (ptr "struct cgroup_namespace") ;;
    mnil).

Definition struct_cpu_itimer : ctype :=
  struct_ false (
    fld "expires" ty_u64 ;;
    fld "incr" ty_u64 ;;
    mnil).

Definition struct_task_cputime_atomic : ctype :=
  struct_ false (
    fld "utime" ty_atomic64_t ;;
    fld "stime" ty_atomic64_t ;;
    fld "sum_exec_runtime" ty_atomic64_t ;;
    mnil).

Definition struct_thread_group_cputimer : ctype :=
  struct_ false (
    fld "cputime_atomic" struct_task_cputime_atomic ;;
    mnil).

Definition ty_seqlock_t : ctype :=
  struct_ false (
    fld "seqcount" ty_seqcount_spinlock_t ;;
    fld "lock" ty_spinlock_t ;;
    mnil).

Definition struct_rlimit : ctype :=
  struct_ false (
    fld "rlim_cur" ty___kernel_ulong_t ;;
    fld "rlim_max" ty___kernel_ulong_t ;;
    mnil).

Definition struct_pacct_struct : ctype :=
  struct_ false (
    fld "ac_flag" (int_ 4 true) ;;
    fld "ac_exitcode" (int_ 8 true) ;;
    fld "ac_mem" (int_ 8 false) ;;
    fld "ac_utime" ty_u64 ;;
    fld "ac_stime" ty_u64 ;;
    fld "ac_minflt" (int_ 8 false) ;;
    fld "ac_majflt" (int_ 8 false) ;;
    mnil).

Definition struct_signal_struct : ctype :=
  struct_ false (
    fld "sigcnt" ty_refcount_t ;;
    fld "live" ty_atomic_t ;;
    fld "nr_threads" (int_ 4 true) ;;
    fld "quick_threads" (int_ 4 true) ;;
    fld "thread_head" struct_list_head ;;
    fld "wait_chldexit" ty_wait_queue_head_t ;;
    fld "curr_target" (ptr "struct task_struct") ;;
    fld "shared_pending" struct_sigpending ;;
    fld "multiprocess" struct_hlist_head ;;
    fld "group_exit_code" (int_ 4 true) ;;
    fld "notify_count" (int_ 4 true) ;;
    fld "group_exec_task" (ptr "struct task_struct") ;;
    fld "group_stop_count" (int_ 4 true) ;;
    fld "flags" (int_ 4 false) ;;
    fld "core_state" (ptr "struct core_state") ;;
    bits "is_child_subreaper" (int_ 4 false) 1 ;;
    bits "has_child_subreaper" (int_ 4 false) 1 ;;
    fld "next_posix_timer_id" (int_ 4 false) ;;
    fld "posix_timers" struct_hlist_head ;;
    fld "real_timer" struct_hrtimer ;;
    fld "it_real_incr" ty_ktime_t ;;
    fld "it" (arr struct_cpu_itimer 2) ;;
    fld "cputimer" struct_thread_group_cputimer ;;
    fld "posix_cputimers" struct_posix_cputimers ;;
    fld "pids" (arr (ptr "struct pid") 4) ;;
    fld "tty_old_pgrp" (ptr "struct pid") ;;
    fld "leader" (int_ 4 true) ;;
    fld "tty" (ptr "struct tty_struct") ;;
    fld "autogroup" (ptr "struct autogroup") ;;
    fld "stats_lock" ty_seqlock_t ;;
    fld "utime" ty_u64 ;;
    fld "stime" ty_u64 ;;
    fld "cutime" ty_u64 ;;
    fld "cstime" ty_u64 ;;
    fld "gtime" ty_u64 ;;
    fld "cgtime" ty_u64 ;;
    fld "prev_cputime" struct_prev_cputime ;;
    fld "nvcsw" (int_ 8 false) ;;
    fld "nivcsw" (int_ 8 false) ;;
    fld "cnvcsw" (int_ 8 false) ;;
    fld "cnivcsw" (int_ 8 false) ;;
    fld "min_flt" (int_ 8 false) ;;
    fld "maj_flt" (int_ 8 false) ;;
    fld "cmin_flt" (int_ 8 false) ;;
    fld "cmaj_flt" (int_ 8 false) ;;
    fld "inblock" (int_ 8 false) ;;
    fld "oublock" (int_ 8 false) ;;
    fld "cinblock" (int_ 8 false) ;;
    fld "coublock" (int_ 8 false) ;;
    fld "maxrss" (int_ 8 false) ;;
    fld "cmaxrss" (int_ 8 false) ;;
    fld "ioac" struct_task_io_accounting ;;
    fld "sum_sched_runtime" (int_ 8 false) ;;
    fld "rlim" (arr struct_rlimit 16) ;;
    fld "pacct" struct_pacct_struct ;;
    fld "stats" (ptr "struct taskstats") ;;
    fld "audit_tty" (int_ 4 false) ;;
    fld "tty_audit_buf" (ptr "struct tty_audit_buf") ;;
    fld "oom_flag_origin" ty_bool ;;
    fld "oom_score_adj" (int_ 2 true) ;;
    fld "oom_score_adj_min" (int_ 2 true) ;;
    fld "oom_mm" (ptr "struct mm_struct") ;;
    fld "cred_guard_mutex" struct_mutex ;;
    fld "exec_update_lock" struct_rw_semaphore ;;
    mnil).

Definition ty___sighandler_t : ctype :=
  ptr "__signalfn_t".

Definition ty___sigrestore_t : ctype :=
  ptr "__restorefn_t".

Definition struct_sigaction : ctype :=
  struct_ false (
    fld "sa_handler" ty___sighandler_t ;;
    fld "sa_flags" (int_ 8 false) ;;
    fld "sa_restorer" ty___sigrestore_t ;;
    fld "sa_mask" ty_sigset_t ;;
    mnil).

Definition struct_k_sigaction : ctype :=
  struct_ false (
    fld "sa" struct_sigaction ;;
    mnil).

Definition struct_sighand_struct : ctype :=
  struct_ false (
    fld "siglock" ty_spinlock_t ;;
    fld "count" ty_refcount_t ;;
    fld "signalfd_wqh" ty_wait_queue_head_t ;;
    fld "action" (arr struct_k_sigaction 64) ;;
    mnil).

Definition enum_audit_state : ctype :=
  enum_ 4 [("AUDIT_STATE_DISABLED", 0); ("AUDIT_STATE_BUILD", 1); ("AUDIT_STATE_RECORD", 2)].

Definition struct_timespec64 : ctype :=
  struct_ false (
    fld "tv_sec" ty_time64_t ;;
    fld "tv_nsec" (int_ 8 true) ;;
    mnil).

Definition struct_audit_cap_data : ctype :=
  struct_ false (
    fld "permitted" ty_kernel_cap_t ;;
    fld "inheritable" ty_kernel_cap_t ;;
    anon (union_ false (
      fld "fE" (int_ 4 false) ;;
      fld "effective" ty_kernel_cap_t ;;
      mnil)) ;;
    fld "ambient" ty_kernel_cap_t ;;
    fld "rootid" ty_kuid_t ;;
    mnil).

Definition struct_audit_names : ctype :=
  struct_ false (
    fld "list" struct_list_head ;;
    fld "name" (ptr "struct filename") ;;
    fld "name_len" (int_ 4 true) ;;
    fld "hidden" ty_bool ;;
    fld "ino" (int_ 8 false) ;;
    fld "dev" ty_dev_t ;;
    fld "mode" ty_umode_t ;;
    fld "uid" ty_kuid_t ;;
    fld "gid" ty_kgid_t ;;
    fld "rdev" ty_dev_t ;;
    fld "osid" ty_u32 ;;
    fld "fcap" struct_audit_cap_data ;;
    fld "fcap_ver" (int_ 4 false) ;;
    fld "type" (int_ 1 false) ;;
    fld "should_free" ty_bool ;;
    mnil).

Definition ty___kernel_mqd_t : ctype :=
  int_ 4 true.

Definition ty_mqd_t : ctype :=
  ty___kernel_mqd_t.

Definition ty___kernel_long_t : ctype :=
  int_ 8 true.

Definition struct_mq_attr : ctype :=
  struct_ false (
    fld "mq_flags" ty___kernel_long_t ;;
    fld "mq_maxmsg" ty___kernel_long_t ;;
    fld "mq_msgsize" ty___kernel_long_t ;;
    fld "mq_curmsgs" ty___kernel_long_t ;;
    fld "__reserved" (arr ty___kernel_long_t 4) ;;
    mnil).

Definition struct_open_how : ctype :=
  struct_ false (
    fld "flags" ty___u64 ;;
    fld "mode" ty___u64 ;;
    fld "resolve" ty___u64 ;;
    mnil).

Definition struct_audit_ntp_val : ctype :=
  struct_ false (
    fld "oldval" (int_ 8 true) ;;
    fld "newval" (int_ 8 true) ;;
    mnil).

Definition struct_audit_ntp_data : ctype :=
  struct_ false (
    fld "vals" (arr struct_audit_ntp_val 6) ;;
    mnil).

Definition struct_audit_proctitle : ctype :=
  struct_ false (
    fld "len" (int_ 4 true) ;;
    fld "value" (ptr "char") ;;
    mnil).

Definition struct_audit_context : ctype :=
  struct_ false (
    fld "dummy" (int_ 4 true) ;;
    fld "context" (enum_ 4 [("AUDIT_CTX_UNUSED", 0); ("AUDIT_CTX_SYSCALL", 1); ("AUDIT_CTX_URING", 2)]) ;;
    fld "state" enum_audit_state ;;
    fld "current_state" enum_audit_state ;;
    fld "serial" (int_ 4 false) ;;
    fld "major" (int_ 4 true) ;;
    fld "uring_op" (int_ 4 true) ;;
    fld "ctime" struct_timespec64 ;;
    fld "argv" (arr (int_ 8 false) 4) ;;
    fld "return_code" (int_ 8 true) ;;
    fld "prio" ty_u64 ;;
    fld "return_valid" (int_ 4 true) ;;
    fld "preallocated_names" (arr struct_audit_names 5) ;;
    fld "name_count" (int_ 4 true) ;;
    fld "names_list" struct_list_head ;;
    fld "filterkey" (ptr "char") ;;
    fld "pwd" struct_path ;;
    fld "aux" (ptr "struct audit_aux_data") ;;
    fld "aux_pids" (ptr "struct audit_aux_data") ;;
    fld "sockaddr" (ptr "struct __kernel_sockaddr_storage") ;;
    fld "sockaddr_len" ty_size_t ;;
    fld "ppid" ty_pid_t ;;
    fld "uid" ty_kuid_t ;;
    fld "euid" ty_kuid_t ;;
    fld "suid" ty_kuid_t ;;
    fld "fsuid" ty_kuid_t ;;
    fld "gid" ty_kgid_t ;;
    fld "egid" ty_kgid_t ;;
    fld "sgid" ty_kgid_t ;;
    fld "fsgid" ty_kgid_t ;;
    fld "personality" (int_ 8 false) ;;
    fld "arch" (int_ 4 true) ;;
    fld "target_pid" ty_pid_t ;;
    fld "target_auid" ty_kuid_t ;;
    fld "target_uid" ty_kuid_t ;;
    fld "target_sessionid" (int_ 4 false) ;;
    fld "target_sid" ty_u32 ;;
    fld "target_comm" (arr (int_ 1 true) 16) ;;
    fld "trees" (ptr "struct audit_tree_refs") ;;
    fld "first_trees" (ptr "struct audit_tree_refs") ;;
    fld "killed_trees" struct_list_head ;;
    fld "tree_count" (int_ 4 true) ;;
    fld "type" (int_ 4 true) ;;
    anon (union_ false (
      fld "socketcall" (struct_ false (
        fld "nargs" (int_ 4 true) ;;
        fld "args" (arr (int_ 8 true) 6) ;;
        mnil)) ;;
      fld "ipc" (struct_ false (
        fld "uid" ty_kuid_t ;;
        fld "gid" ty_kgid_t ;;
        fld "mode" ty_umode_t ;;
        fld "osid" ty_u32 ;;
        fld "has_perm" (int_ 4 true) ;;
        fld "perm_uid" ty_uid_t ;;
        fld "perm_gid" ty_gid_t ;;
        fld "perm_mode" ty_umode_t ;;
        fld "qbytes" (int_ 8 false) ;;
        mnil)) ;;
      fld "mq_getsetattr" (struct_ false (
        fld "mqdes" ty_mqd_t ;;
        fld "mqstat" struct_mq_attr ;;
        mnil)) ;;
      fld "mq_notify" (struct_ false (
        fld "mqdes" ty_mqd_t ;;
        fld "sigev_signo" (int_ 4 true) ;;
        mnil)) ;;
      fld "mq_sendrecv" (struct_ false (
        fld "mqdes" ty_mqd_t ;;
        fld "msg_len" ty_size_t ;;
        fld "msg_prio" (int_ 4 false) ;;
        fld "abs_timeout" struct_timespec64 ;;
        mnil)) ;;
      fld "mq_open" (struct_ false (
        fld "oflag" (int_ 4 true) ;;
        fld "mode" ty_umode_t ;;
        fld "attr" struct_mq_attr ;;
        mnil)) ;;
      fld "capset" (struct_ false (
        fld "pid" ty_pid_t ;;
        fld "cap" struct_audit_cap_data ;;
        mnil)) ;;
      fld "mmap" (struct_ false (
        fld "fd" (int_ 4 true) ;;
        fld "flags" (int_ 4 true) ;;
        mnil)) ;;
      fld "openat2" struct_open_how ;;
      fld "execve" (struct_ false (
        fld "argc" (int_ 4 true) ;;
        mnil)) ;;
      fld "module" (struct_ false (
        fld "name" (ptr "char") ;;
        mnil)) ;;
      fld "time" (struct_ false (
        fld "ntp_data" struct_audit_ntp_data ;;
        fld "tk_injoffset" struct_timespec64 ;;
        mnil)) ;;
      mnil)) ;;
    fld "fds" (arr (int_ 4 true) 2) ;;
    fld "proctitle" struct_audit_proctitle ;;
    mnil).

Definition struct_rt_waiter_node : ctype :=
  struct_ false (
    fld "entry" struct_rb_node ;;
    fld "prio" (int_ 4 true) ;;
    fld "deadline" ty_u64 ;;
    mnil).

Definition struct_rt_mutex_waiter : ctype :=
  struct_ false (
    fld "tree" struct_rt_waiter_node ;;
    fld "pi_tree" struct_rt_waiter_node ;;
    fld "task" (ptr "struct task_struct") ;;
    fld "lock" (ptr "struct rt_mutex_base") ;;
    fld "wake_state" (int_ 4 false) ;;
    fld "ww_ctx" (ptr "struct ww_acquire_ctx") ;;
    mnil).

Definition struct_rq_list : ctype :=
  struct_ false (
    fld "head" (ptr "struct request") ;;
    fld "tail" (ptr "struct request") ;;
    mnil).

Definition struct_blk_plug : ctype :=
  struct_ false (
    fld "mq_list" struct_rq_list ;;
    fld "cached_rqs" struct_rq_list ;;
    fld "cur_ktime" ty_u64 ;;
    fld "nr_ios" (int_ 2 false) ;;
    fld "rq_count" (int_ 2 false) ;;
    fld "multiple_queues" ty_bool ;;
    fld "has_elevator" ty_bool ;;
    fld "cb_list" struct_list_head ;;
    mnil).

Definition struct_reclaim_state : ctype :=
  struct_ false (
    fld "reclaimed" (int_ 8 false) ;;
    mnil).

Definition struct_io_context : ctype :=
  struct_ false (
    fld "refcount" ty_atomic_long_t ;;
    fld "active_ref" ty_atomic_t ;;
    fld "ioprio" (int_ 2 false) ;;
    fld "lock" ty_spinlock_t ;;
    fld "icq_tree" struct_xarray ;;
    fld "icq_hint" (ptr "struct io_cq") ;;
    fld "icq_list" struct_hlist_head ;;
    fld "release_work" struct_work_struct ;;
    mnil).

Definition struct_capture_control : ctype :=
  struct_ false (
    fld "cc" (ptr "struct compact_control") ;;
    fld "page" (ptr "struct page") ;;
    mnil).

Definition struct_css_set : ctype :=
  struct_ false (
    fld "subsys" (arr (ptr "struct cgroup_subsys_state") 13) ;;
    fld "refcount" ty_refcount_t ;;
    fld "dom_cset" (ptr "struct css_set") ;;
    fld "dfl_cgrp" (ptr "struct cgroup") ;;
    fld "nr_tasks" (int_ 4 true) ;;
    fld "tasks" struct_list_head ;;
    fld "mg_tasks" struct_list_head ;;
    fld "dying_tasks" struct_list_head ;;
    fld "task_iters" struct_list_head ;;
    fld "e_cset_node" (arr struct_list_head 13) ;;
    fld "threaded_csets" struct_list_head ;;
    fld "threaded_csets_node" struct_list_head ;;
    fld "hlist" struct_hlist_node ;;
    fld "cgrp_links" struct_list_head ;;
    fld "mg_src_preload_node" struct_list_head ;;
    fld "mg_dst_preload_node" struct_list_head ;;
    fld "mg_node" struct_list_head ;;
    fld "mg_src_cgrp" (ptr "struct cgroup") ;;
    fld "mg_dst_cgrp" (ptr "struct cgroup") ;;
    fld "mg_dst_cset" (ptr "struct css_set") ;;
    fld "dead" ty_bool ;;
    fld "callback_head" struct_callback_head ;;
    mnil).

Definition struct_robust_list : ctype :=
  struct_ false (
    fld "next" (ptr "struct robust_list") ;;
    mnil).

Definition struct_robust_list_head : ctype :=
  struct_ false (
    fld "list" struct_robust_list ;;
    fld "futex_offset" (int_ 8 true) ;;
    fld "list_op_pending" (ptr "struct robust_list") ;;
    mnil).

Definition ty_compat_uptr_t : ctype :=
  ty_u32.

Definition struct_compat_robust_list : ctype :=
  struct_ false (
    fld "next" ty_compat_uptr_t ;;
    mnil).

Definition ty_compat_long_t : ctype :=
  ty_s32.

Definition struct_compat_robust_list_head : ctype :=
  struct_ false (
    fld "list" struct_compat_robust_list ;;
    fld "futex_offset" ty_compat_long_t ;;
    fld "list_op_pending" ty_compat_uptr_t ;;
    mnil).

Definition union_futex_key : ctype :=
  union_ false (
    fld "shared" (struct_ false (
      fld "i_seq" ty_u64 ;;
      fld "pgoff" (int_ 8 false) ;;
      fld "offset" (int_ 4 false) ;;
      mnil)) ;;
    fld "private" (struct_ false (
      anon (union_ false (
        fld "mm" (ptr "struct mm_struct") ;;
        fld "__tmp" ty_u64 ;;
        mnil)) ;;
      fld "address" (int_ 8 false) ;;
      fld "offset" (int_ 4 false) ;;
      mnil)) ;;
    fld "both" (struct_ false (
      fld "ptr" ty_u64 ;;
      fld "word" (int_ 8 false) ;;
      fld "offset" (int_ 4 false) ;;
      mnil)) ;;
    mnil).

Definition struct_futex_pi_state : ctype :=
  struct_ false (
    fld "list" struct_list_head ;;
    fld "pi_mutex" struct_rt_mutex_base ;;
    fld "owner" (ptr "struct task_struct") ;;
    fld "refcount" ty_refcount_t ;;
    fld "key" union_futex_key ;;
    mnil).

Definition struct_perf_event_groups : ctype :=
  struct_ false (
    fld "tree" struct_rb_root ;;
    fld "index" ty_u64 ;;
    mnil).

Definition struct_perf_event_context : ctype :=
  struct_ false (
    fld "lock" ty_raw_spinlock_t ;;
    fld "mutex" struct_mutex ;;
    fld "pmu_ctx_list" struct_list_head ;;
    fld "pinned_groups" struct_perf_event_groups ;;
    fld "flexible_groups" struct_perf_event_groups ;;
    fld "event_list" struct_list_head ;;
    fld "nr_events" (int_ 4 true) ;;
    fld "nr_user" (int_ 4 true) ;;
    fld "is_active" (int_ 4 true) ;;
    fld "nr_task_data" (int_ 4 true) ;;
    fld "nr_stat" (int_ 4 true) ;;
    fld "nr_freq" (int_ 4 true) ;;
    fld "rotate_disable" (int_ 4 true) ;;
    fld "refcount" ty_refcount_t ;;
    fld "task" (ptr "struct task_struct") ;;
    fld "time" ty_u64 ;;
    fld "timestamp" ty_u64 ;;
    fld "timeoffset" ty_u64 ;;
    fld "parent_ctx" (ptr "struct perf_event_context") ;;
    fld "parent_gen" ty_u64 ;;
    fld "generation" ty_u64 ;;
    fld "pin_count" (int_ 4 true) ;;
    fld "nr_cgroups" (int_ 4 true) ;;
    fld "callback_head" struct_callback_head ;;
    fld "nr_no_switch_fast" ty_local_t ;;
    mnil).

Definition struct_mempolicy : ctype :=
  struct_ false (
    fld "refcnt" ty_atomic_t ;;
    fld "mode" (int_ 2 false) ;;
    fld "flags" (int_ 2 false) ;;
    fld "nodes" ty_nodemask_t ;;
    fld "home_node" (int_ 4 true) ;;
    fld "w" (union_ false (
      fld "cpuset_mems_allowed" ty_nodemask_t ;;
      fld "user_nodemask" ty_nodemask_t ;;
      mnil)) ;;
    mnil).

Definition struct_numa_group : ctype :=
  struct_ false (
    fld "refcount" ty_refcount_t ;;
    fld "lock" ty_spinlock_t ;;
    fld "nr_tasks" (int_ 4 true) ;;
    fld "gid" ty_pid_t ;;
    fld "active_nodes" (int_ 4 true) ;;
    fld "rcu" struct_callback_head ;;
    fld "total_faults" (int_ 8 false) ;;
    fld "max_faults_cpu" (int_ 8 false) ;;
    fld "faults" (arr (int_ 8 false) 0) ;;
    mnil).

Definition struct_rseq : ctype :=
  struct_ false (
    fld "cpu_id_start" ty___u32 ;;
    fld "cpu_id" ty___u32 ;;
    fld "rseq_cs" ty___u64 ;;
    fld "flags" ty___u32 ;;
    fld "node_id" ty___u32 ;;
    fld "mm_cid" ty___u32 ;;
    fld "end" (arr (int_ 1 true) 0) ;;
    mnil).

Definition struct_pipe_inode_info : ctype :=
  struct_ false (
    fld "mutex" struct_mutex ;;
    fld "rd_wait" ty_wait_queue_head_t ;;
    fld "wr_wait" ty_wait_queue_head_t ;;
    fld "head" (int_ 4 false) ;;
    fld "tail" (int_ 4 false) ;;
    fld "max_usage" (int_ 4 false) ;;
    fld "ring_size" (int_ 4 false) ;;
    fld "nr_accounted" (int_ 4 false) ;;
    fld "readers" (int_ 4 false) ;;
    fld "writers" (int_ 4 false) ;;
    fld "files" (int_ 4 false) ;;
    fld "r_counter" (int_ 4 false) ;;
    fld "w_counter" (int_ 4 false) ;;
    fld "poll_usage" ty_bool ;;
    fld "note_loss" ty_bool ;;
    fld "tmp_page" (ptr "struct page") ;;
    fld "fasync_readers" (ptr "struct fasync_struct") ;;
    fld "fasync_writers" (ptr "struct fasync_struct") ;;
    fld "bufs" (ptr "struct pipe_buffer") ;;
    fld "user" (ptr "struct user_struct") ;;
    fld "watch_queue" (ptr "struct watch_queue") ;;
    mnil).

Definition struct_task_delay_info : ctype :=
  struct_ false (
    fld "lock" ty_raw_spinlock_t ;;
    fld "blkio_start" ty_u64 ;;
    fld "blkio_delay" ty_u64 ;;
    fld "swapin_start" ty_u64 ;;
    fld "swapin_delay" ty_u64 ;;
    fld "blkio_count" ty_u32 ;;
    fld "swapin_count" ty_u32 ;;
    fld "freepages_start" ty_u64 ;;
    fld "freepages_delay" ty_u64 ;;
    fld "thrashing_start" ty_u64 ;;
    fld "thrashing_delay" ty_u64 ;;
    fld "compact_start" ty_u64 ;;
    fld "compact_delay" ty_u64 ;;
    fld "wpcopy_start" ty_u64 ;;
    fld "wpcopy_delay" ty_u64 ;;
    fld "irq_delay" ty_u64 ;;
    fld "freepages_count" ty_u32 ;;
    fld "thrashing_count" ty_u32 ;;
    fld "compact_count" ty_u32 ;;
    fld "wpcopy_count" ty_u32 ;;
    fld "irq_count" ty_u32 ;;
    mnil).

Definition struct_mem_cgroup_id : ctype :=
  struct_ false (
    fld "id" (int_ 4 true) ;;
    fld "ref" ty_refcount_t ;;
    mnil).

Definition struct_cacheline_padding : ctype :=
  struct_ false (
    fld "x" (arr (int_ 1 true) 0) ;;
    mnil).

Definition struct_page_counter : ctype :=
  struct_ false (
    fld "usage" ty_atomic_long_t ;;
    bits "" (int_ 8 true) 64 ;;
    bits "" (int_ 8 true) 64 ;;
    bits "" (int_ 8 true) 64 ;;
    bits "" (int_ 8 true) 64 ;;
    bits "" (int_ 8 true) 64 ;;
    bits "" (int_ 8 true) 64 ;;
    bits "" (int_ 8 true) 64 ;;
    fld "_pad1_" struct_cacheline_padding ;;
    fld "emin" (int_ 8 false) ;;
    fld "min_usage" ty_atomic_long_t ;;
    fld "children_min_usage" ty_atomic_long_t ;;
    fld "elow" (int_ 8 false) ;;
    fld "low_usage" ty_atomic_long_t ;;
    fld "children_low_usage" ty_atomic_long_t ;;
    fld "watermark" (int_ 8 false) ;;
    fld "local_watermark" (int_ 8 false) ;;
    fld "failcnt" (int_ 8 false) ;;
    bits "" (int_ 8 true) 64 ;;
    bits "" (int_ 8 true) 64 ;;
    bits "" (int_ 8 true) 64 ;;
    bits "" (int_ 8 true) 64 ;;
    bits "" (int_ 8 true) 64 ;;
    bits "" (int_ 8 true) 64 ;;
    bits "" (int_ 8 true) 64 ;;
    fld "_pad2_" struct_cacheline_padding ;;
    fld "protection_support" ty_bool ;;
    fld "min" (int_ 8 false) ;;
    fld "low" (int_ 8 false) ;;
    fld "high" (int_ 8 false) ;;
    fld "max" (int_ 8 false) ;;
    fld "parent" (ptr "struct page_counter") ;;
    bits "" (int_ 8 true) 64 ;;
    bits "" (int_ 8 true) 64 ;;
    mnil).

Definition struct_vmpressure : ctype :=
  struct_ false (
    fld "scanned" (int_ 8 false) ;;
    fld "reclaimed" (int_ 8 false) ;;
    fld "tree_scanned" (int_ 8 false) ;;
    fld "tree_reclaimed" (int_ 8 false) ;;
    fld "sr_lock" ty_spinlock_t ;;
    fld "events" struct_list_head ;;
    fld "events_lock" struct_mutex ;;
    fld "work" struct_work_struct ;;
    mnil).

Definition struct_cgroup_file : ctype :=
  struct_ false (
    fld "kn" (ptr "struct kernfs_node") ;;
    fld "notified_at" (int_ 8 false) ;;
    fld "notify_timer" struct_timer_list ;;
    mnil).

Definition struct_fprop_global : ctype :=
  struct_ false (
    fld "events" struct_percpu_counter ;;
    fld "period" (int_ 4 false) ;;
    fld "sequence" ty_seqcount_t ;;
    mnil).

Definition struct_wb_domain : ctype :=
  struct_ false (
    fld "lock" ty_spinlock_t ;;
    fld "completions" struct_fprop_global ;;
    fld "period_timer" struct_timer_list ;;
    fld "period_time" (int_ 8 false) ;;
    fld "dirty_limit_tstamp" (int_ 8 false) ;;
    fld "dirty_limit" (int_ 8 false) ;;
    mnil).

Definition struct_wb_completion : ctype :=
  struct_ false (
    fld "cnt" ty_atomic_t ;;
    fld "waitq" (ptr "wait_queue_head_t") ;;
    mnil).

Definition struct_memcg_cgwb_frn : ctype :=
  struct_ false (
    fld "bdi_id" ty_u64 ;;
    fld "memcg_id" (int_ 4 true) ;;
    fld "at" ty_u64 ;;
    fld "done" struct_wb_completion ;;
    mnil).

Definition struct_deferred_split : ctype :=
  struct_ false (
    fld "split_queue_lock" ty_spinlock_t ;;
    fld "split_queue" struct_list_head ;;
    fld "split_queue_len" (int_ 8 false) ;;
    mnil).

Definition struct_mem_cgroup : ctype :=
  struct_ false (
    fld "css" struct_cgroup_subsys_state ;;
    fld "id" struct_mem_cgroup_id ;;
    bits "" (int_ 8 true) 64 ;;
    bits "" (int_ 8 true) 64 ;;
    bits "" (int_ 8 true) 64 ;;
    bits "" (int_ 8 true) 64 ;;
    bits "" (int_ 8 true) 64 ;;
    fld "memory" struct_page_counter ;;
    anon (union_ false (
      fld "swap" struct_page_counter ;;
      fld "memsw" struct_page_counter ;;
      mnil)) ;;
    fld "memory_peaks" struct_list_head ;;
    fld "swap_peaks" struct_list_head ;;
    fld "peaks_lock" ty_spinlock_t ;;
    fld "high_work" struct_work_struct ;;
    fld "zswap_max" (int_ 8 false) ;;
    fld "zswap_writeback" ty_bool ;;
    fld "vmpressure" struct_vmpressure ;;
    fld "oom_group" ty_bool ;;
    fld "swappiness" (int_ 4 true) ;;
    fld "events_file" struct_cgroup_file ;;
    fld "events_local_file" struct_cgroup_file ;;
    fld "swap_events_file" struct_cgroup_file ;;
    fld "vmstats" (ptr "struct memcg_vmstats") ;;
    fld "memory_events" (arr ty_atomic_long_t 9) ;;
    fld "memory_events_local" (arr ty_atomic_long_t 9) ;;
    fld "socket_pressure" (int_ 8 false) ;;
    fld "kmemcg_id" (int_ 4 true) ;;
    fld "objcg" (ptr "struct obj_cgroup") ;;
    fld "orig_objcg" (ptr "struct obj_cgroup") ;;
    fld "objcg_list" struct_list_head ;;
    fld "vmstats_percpu" (ptr "struct memcg_vmstats_percpu") ;;
    fld "cgwb_list" struct_list_head ;;
    fld "cgwb_domain" struct_wb_domain ;;
    fld "cgwb_frn" (arr struct_memcg_cgwb_frn 4) ;;
    fld "deferred_split_queue" struct_deferred_split ;;
    fld "nodeinfo" (arr (ptr "struct mem_cgroup_per_node") 0) ;;
    bits "" (int_ 8 true) 64 ;;
    bits "" (int_ 8 true) 64 ;;
    bits "" (int_ 8 true) 64 ;;
    bits "" (int_ 8 true) 64 ;;
    bits "" (int_ 8 true) 64 ;;
    mnil).

Definition struct_obj_cgroup : ctype :=
  struct_ false (
    fld "refcnt" struct_percpu_ref ;;
    fld "memcg" (ptr "struct mem_cgroup") ;;
    fld "nr_charged_bytes" ty_atomic_t ;;
    anon (union_ false (
      fld "list" struct_list_head ;;
      fld "rcu" struct_callback_head ;;
      mnil)) ;;
    mnil).

Definition enum_uprobe_task_state : ctype :=
  enum_ 4 [("UTASK_RUNNING", 0); ("UTASK_SSTEP", 1); ("UTASK_SSTEP_ACK", 2); ("UTASK_SSTEP_TRAPPED", 3)].

Definition struct_arch_uprobe_task : ctype :=
  struct_ false (
    fld "saved_scratch_register" (int_ 8 false) ;;
    fld "saved_trap_nr" (int_ 4 false) ;;
    fld "saved_tf" (int_ 4 false) ;;
    mnil).

Definition struct_uprobe_task : ctype :=
  struct_ false (
    fld "state" enum_uprobe_task_state ;;
    anon (union_ false (
      anon (struct_ false (
        fld "autask" struct_arch_uprobe_task ;;
        fld "vaddr" (int_ 8 false) ;;
        mnil)) ;;
      anon (struct_ false (
        fld "dup_xol_work" struct_callback_head ;;
        fld "dup_xol_addr" (int_ 8 false) ;;
        mnil)) ;;
      mnil)) ;;
    fld "active_uprobe" (ptr "struct uprobe") ;;
    fld "xol_vaddr" (int_ 8 false) ;;
    fld "auprobe" (ptr "struct arch_uprobe") ;;
    fld "return_instances" (ptr "struct return_instance") ;;
    fld "depth" (int_ 4 false) ;;
    mnil).

Definition ty_phys_addr_t : ctype :=
  ty_u64.

Definition struct_vm_struct : ctype :=
  struct_ false (
    fld "next" (ptr "struct vm_struct") ;;
    fld "addr" (ptr "void") ;;
    fld "size" (int_ 8 false) ;;
    fld "flags" (int_ 8 false) ;;
    fld "pages" (ptr "struct page *") ;;
    fld "page_order" (int_ 4 false) ;;
    fld "nr_pages" (int_ 4 false) ;;
    fld "phys_addr" ty_phys_addr_t ;;
    fld "caller" (ptr "void") ;;
    fld "requested_size" (int_ 8 false) ;;
    mnil).

Definition struct_bpf_local_storage : ctype :=
  struct_ false (
    fld "cache" (arr (ptr "struct bpf_local_storage_data") 16) ;;
    fld "smap" (ptr "struct bpf_local_storage_map") ;;
    fld "list" struct_hlist_head ;;
    fld "owner" (ptr "void") ;;
    fld "rcu" struct_callback_head ;;
    fld "lock" ty_raw_spinlock_t ;;
    mnil).

Definition struct_bpf_run_ctx : ctype :=
  struct_ false (
    mnil).

Definition enum_bpf_map_type : ctype :=
  enum_ 4 [("BPF_MAP_TYPE_UNSPEC", 0); ("BPF_MAP_TYPE_HASH", 1); ("BPF_MAP_TYPE_ARRAY", 2); ("BPF_MAP_TYPE_PROG_ARRAY", 3); ("BPF_MAP_TYPE_PERF_EVENT_ARRAY", 4); ("BPF_MAP_TYPE_PERCPU_HASH", 5); ("BPF_MAP_TYPE_PERCPU_ARRAY", 6); ("BPF_MAP_TYPE_STACK_TRACE", 7); ("BPF_MAP_TYPE_CGROUP_ARRAY", 8); ("BPF_MAP_TYPE_LRU_HASH", 9); ("BPF_MAP_TYPE_LRU_PERCPU_HASH", 10); ("BPF_MAP_TYPE_LPM_TRIE", 11); ("BPF_MAP_TYPE_ARRAY_OF_MAPS", 12); ("BPF_MAP_TYPE_HASH_OF_MAPS", 13); ("BPF_MAP_TYPE_DEVMAP", 14); ("BPF_MAP_TYPE_SOCKMAP", 15); ("BPF_MAP_TYPE_CPUMAP", 16); ("BPF_MAP_TYPE_XSKMAP", 17); ("BPF_MAP_TYPE_SOCKHASH", 18); ("BPF_MAP_TYPE_CGROUP_STORAGE_DEPRECATED", 19); ("BPF_MAP_TYPE_CGROUP_STORAGE", 19); ("BPF_MAP_TYPE_REUSEPORT_SOCKARRAY", 20); ("BPF_MAP_TYPE_PERCPU_CGROUP_STORAGE_DEPRECATED", 21); ("BPF_MAP_TYPE_PERCPU_CGROUP_STORAGE", 21); ("BPF_MAP_TYPE_QUEUE", 22); ("BPF_MAP_TYPE_STACK", 23); ("BPF_MAP_TYPE_SK_STORAGE", 24); ("BPF_MAP_TYPE_DEVMAP_HASH", 25); ("BPF_MAP_TYPE_STRUCT_OPS", 26); ("BPF_MAP_TYPE_RINGBUF", 27); ("BPF_MAP_TYPE_INODE_STORAGE", 28); ("BPF_MAP_TYPE_TASK_STORAGE", 29); ("BPF_MAP_TYPE_BLOOM_FILTER", 30); ("BPF_MAP_TYPE_USER_RINGBUF", 31); ("BPF_MAP_TYPE_CGRP_STORAGE", 32); ("BPF_MAP_TYPE_ARENA", 33); ("__MAX_BPF_MAP_TYPE", 34)].

Definition ty___be16 : ctype :=
  ty___u16.

Definition ty___be32 : ctype :=
  ty___u32.

Definition struct_in6_addr : ctype :=
  struct_ false (
    fld "in6_u" (union_ false (
      fld "u6_addr8" (arr ty___u8 16) ;;
      fld "u6_addr16" (arr ty___be16 8) ;;
      fld "u6_addr32" (arr ty___be32 4) ;;
      mnil)) ;;
    mnil).

Definition struct_bpf_nh_params : ctype :=
  struct_ false (
    fld "nh_family" ty_u32 ;;
    anon (union_ false (
      fld "ipv4_nh" ty_u32 ;;
      fld "ipv6_nh" struct_in6_addr ;;
      mnil)) ;;
    mnil).

Definition struct_bpf_redirect_info : ctype :=
  struct_ false (
    fld "tgt_index" ty_u64 ;;
    fld "tgt_value" (ptr "void") ;;
    fld "map" (ptr "struct bpf_map") ;;
    fld "flags" ty_u32 ;;
    fld "map_id" ty_u32 ;;
    fld "map_type" enum_bpf_map_type ;;
    fld "nh" struct_bpf_nh_params ;;
    fld "kern_flags" ty_u32 ;;
    mnil).

Definition struct_bpf_net_context : ctype :=
  struct_ false (
    fld "ri" struct_bpf_redirect_info ;;
    fld "cpu_map_flush_list" struct_list_head ;;
    fld "dev_map_flush_list" struct_list_head ;;
    fld "xskmap_map_flush_list" struct_list_head ;;
    mnil).

Definition struct_u64_stats_sync : ctype :=
  struct_ false (
    mnil).

Definition struct_blkg_iostat : ctype :=
  struct_ false (
    fld "bytes" (arr ty_u64 3) ;;
    fld "ios" (arr ty_u64 3) ;;
    mnil).

Definition struct_blkg_iostat_set : ctype :=
  struct_ false (
    fld "sync" struct_u64_stats_sync ;;
    fld "blkg" (ptr "struct blkcg_gq") ;;
    fld "lnode" struct_llist_node ;;
    fld "lqueued" (int_ 4 true) ;;
    fld "cur" struct_blkg_iostat ;;
    fld "last" struct_blkg_iostat ;;
    mnil).

Definition struct_blkcg_gq : ctype :=
  struct_ false (
    fld "q" (ptr "struct request_queue") ;;
    fld "q_node" struct_list_head ;;
    fld "blkcg_node" struct_hlist_node ;;
    fld "blkcg" (ptr "struct blkcg") ;;
    fld "parent" (ptr "struct blkcg_gq") ;;
    fld "refcnt" struct_percpu_ref ;;
    fld "online" ty_bool ;;
    fld "iostat_cpu" (ptr "struct blkg_iostat_set") ;;
    fld "iostat" struct_blkg_iostat_set ;;
    fld "pd" (arr (ptr "struct blkg_policy_data") 6) ;;
    fld "async_bio_lock" ty_spinlock_t ;;
    fld "async_bios" struct_bio_list ;;
    anon (union_ false (
      fld "async_bio_work" struct_work_struct ;;
      fld "free_work" struct_work_struct ;;
      mnil)) ;;
    fld "use_delay" ty_atomic_t ;;
    fld "delay_nsec" ty_atomic64_t ;;
    fld "delay_start" ty_atomic64_t ;;
    fld "last_delay" ty_u64 ;;
    fld "last_use" (int_ 4 true) ;;
    fld "callback_head" struct_callback_head ;;
    mnil).

Definition struct_bio_crypt_ctx : ctype :=
  struct_ false (
    fld "bc_key" (ptr "struct blk_crypto_key") ;;
    fld "bc_dun" (arr ty_u64 4) ;;
    mnil).

Definition struct_bio_integrity_payload : ctype :=
  struct_ false (
    fld "bip_bio" (ptr "struct bio") ;;
    fld "bip_iter" struct_bvec_iter ;;
    fld "bip_vcnt" (int_ 2 false) ;;
    fld "bip_max_vcnt" (int_ 2 false) ;;
    fld "bip_flags" (int_ 2 false) ;;
    bits "" (int_ 4 true) 0 ;;
    fld "bio_iter" struct_bvec_iter ;;
    fld "bip_work" struct_work_struct ;;
    fld "bip_vec" (ptr "struct bio_vec") ;;
    fld "bip_inline_vecs" (arr struct_bio_vec 0) ;;
    mnil).

Definition struct_kset : ctype :=
  struct_ false (
    fld "list" struct_list_head ;;
    fld "list_lock" ty_spinlock_t ;;
    fld "kobj" struct_kobject ;;
    fld "uevent_ops" (ptr "struct kset_uevent_ops") ;;
    mnil).

Definition struct_kobj_type : ctype :=
  struct_ false (
    fld "release" (ptr "function") ;;
    fld "sysfs_ops" (ptr "struct sysfs_ops") ;;
    fld "default_groups" (ptr "struct attribute_group *") ;;
    fld "child_ns_type" (ptr "function") ;;
    fld "namespace" (ptr "function") ;;
    fld "get_ownership" (ptr "function") ;;
    mnil).

Definition struct_kernfs_elem_dir : ctype :=
  struct_ false (
    fld "subdirs" (int_ 8 false) ;;
    fld "children" struct_rb_root ;;
    fld "root" (ptr "struct kernfs_root") ;;
    fld "rev" (int_ 8 false) ;;
    mnil).

Definition struct_kernfs_elem_symlink : ctype :=
  struct_ false (
    fld "target_kn" (ptr "struct kernfs_node") ;;
    mnil).

Definition ty___kernel_loff_t : ctype :=
  int_ 8 true.

Definition ty_loff_t : ctype :=
  ty___kernel_loff_t.

Definition struct_kernfs_elem_attr : ctype :=
  struct_ false (
    fld "ops" (ptr "struct kernfs_ops") ;;
    fld "open" (ptr "struct kernfs_open_node") ;;
    fld "size" ty_loff_t ;;
    fld "notify_next" (ptr "struct kernfs_node") ;;
    mnil).

Definition struct_kernfs_node : ctype :=
  struct_ false (
    fld "count" ty_atomic_t ;;
    fld "active" ty_atomic_t ;;
    fld "parent" (ptr "struct kernfs_node") ;;
    fld "name" (ptr "char") ;;
    fld "rb" struct_rb_node ;;
    fld "ns" (ptr "void") ;;
    fld "hash" (int_ 4 false) ;;
    fld "flags" (int_ 2 false) ;;
    fld "mode" ty_umode_t ;;
    anon (union_ false (
      fld "dir" struct_kernfs_elem_dir ;;
      fld "symlink" struct_kernfs_elem_symlink ;;
      fld "attr" struct_kernfs_elem_attr ;;
      mnil)) ;;
    fld "id" ty_u64 ;;
    fld "priv" (ptr "void") ;;
    fld "iattr" (ptr "struct kernfs_iattrs") ;;
    fld "rcu" struct_callback_head ;;
    mnil).

Definition struct_wakeup_source : ctype :=
  struct_ false (
    fld "name" (ptr "char") ;;
    fld "id" (int_ 4 true) ;;
    fld "entry" struct_list_head ;;
    fld "lock" ty_spinlock_t ;;
    fld "wakeirq" (ptr "struct wake_irq") ;;
    fld "timer" struct_timer_list ;;
    fld "timer_expires" (int_ 8 false) ;;
    fld "total_time" ty_ktime_t ;;
    fld "max_time" ty_ktime_t ;;
    fld "last_time" ty_ktime_t ;;
    fld "start_prevent_time" ty_ktime_t ;;
    fld "prevent_sleep_time" ty_ktime_t ;;
    fld "event_count" (int_ 8 false) ;;
    fld "active_count" (int_ 8 false) ;;
    fld "relax_count" (int_ 8 false) ;;
    fld "expire_count" (int_ 8 false) ;;
    fld "wakeup_count" (int_ 8 false) ;;
    fld "dev" (ptr "struct device") ;;
    bits "active" ty_bool 1 ;;
    bits "autosleep_enabled" ty_bool 1 ;;
    mnil).

Definition struct_wake_irq : ctype :=
  struct_ false (
    fld "dev" (ptr "struct device") ;;
    fld "status" (int_ 4 false) ;;
    fld "irq" (int_ 4 true) ;;
    fld "name" (ptr "char") ;;
    mnil).

Definition struct_pm_subsys_data : ctype :=
  struct_ false (
    fld "lock" ty_spinlock_t ;;
    fld "refcount" (int_ 4 false) ;;
    fld "clock_op_might_sleep" (int_ 4 false) ;;
    fld "clock_mutex" struct_mutex ;;
    fld "clock_list" struct_list_head ;;
    fld "domain_data" (ptr "struct pm_domain_data") ;;
    mnil).

Definition enum_pm_qos_type : ctype :=
  enum_ 4 [("PM_QOS_UNITIALIZED", 0); ("PM_QOS_MAX", 1); ("PM_QOS_MIN", 2)].

Definition struct_pm_qos_constraints : ctype :=
  struct_ false (
    fld "list" struct_plist_head ;;
    fld "target_value" ty_s32 ;;
    fld "default_value" ty_s32 ;;
    fld "no_constraint_value" ty_s32 ;;
    fld "type" enum_pm_qos_type ;;
    fld "notifiers" (ptr "struct blocking_notifier_head") ;;
    mnil).

Definition struct_blocking_notifier_head : ctype :=
  struct_ false (
    fld "rwsem" struct_rw_semaphore ;;
    fld "head" (ptr "struct notifier_block") ;;
    mnil).

Definition struct_freq_constraints : ctype :=
  struct_ false (
    fld "min_freq" struct_pm_qos_constraints ;;
    fld "min_freq_notifiers" struct_blocking_notifier_head ;;
    fld "max_freq" struct_pm_qos_constraints ;;
    fld "max_freq_notifiers" struct_blocking_notifier_head ;;
    mnil).

Definition struct_pm_qos_flags : ctype :=
  struct_ false (
    fld "list" struct_list_head ;;
    fld "effective_flags" ty_s32 ;;
    mnil).

Definition struct_dev_pm_qos : ctype :=
  struct_ false (
    fld "resume_latency" struct_pm_qos_constraints ;;
    fld "latency_tolerance" struct_pm_qos_constraints ;;
    fld "freq" struct_freq_constraints ;;
    fld "flags" struct_pm_qos_flags ;;
    fld "resume_latency_req" (ptr "struct dev_pm_qos_request") ;;
    fld "latency_tolerance_req" (ptr "struct dev_pm_qos_request") ;;
    fld "flags_req" (ptr "struct dev_pm_qos_request") ;;
    mnil).

Definition enum_irq_domain_bus_token : ctype :=
  enum_ 4 [("DOMAIN_BUS_ANY", 0); ("DOMAIN_BUS_WIRED", 1); ("DOMAIN_BUS_GENERIC_MSI", 2); ("DOMAIN_BUS_PCI_MSI", 3); ("DOMAIN_BUS_PLATFORM_MSI", 4); ("DOMAIN_BUS_NEXUS", 5); ("DOMAIN_BUS_IPI", 6); ("DOMAIN_BUS_FSL_MC_MSI", 7); ("DOMAIN_BUS_TI_SCI_INTA_MSI", 8); ("DOMAIN_BUS_WAKEUP", 9); ("DOMAIN_BUS_VMD_MSI", 10); ("DOMAIN_BUS_PCI_DEVICE_MSI", 11); ("DOMAIN_BUS_PCI_DEVICE_MSIX", 12); ("DOMAIN_BUS_DMAR", 13); ("DOMAIN_BUS_AMDVI", 14); ("DOMAIN_BUS_DEVICE_MSI", 15); ("DOMAIN_BUS_WIRED_TO_MSI", 16)].

Definition ty_irq_hw_number_t : ctype :=
  int_ 8 false.

Definition struct_irq_domain : ctype :=
  struct_ false (
    fld "link" struct_list_head ;;
    fld "name" (ptr "char") ;;
    fld "ops" (ptr "struct irq_domain_ops") ;;
    fld "host_data" (ptr "void") ;;
    fld "flags" (int_ 4 false) ;;
    fld "mapcount" (int_ 4 false) ;;
    fld "mutex" struct_mutex ;;
    fld "root" (ptr "struct irq_domain") ;;
    fld "fwnode" (ptr "struct fwnode_handle") ;;
    fld "bus_token" enum_irq_domain_bus_token ;;
    fld "gc" (ptr "struct irq_domain_chip_generic") ;;
    fld "dev" (ptr "struct device") ;;
    fld "pm_dev" (ptr "struct device") ;;
    fld "parent" (ptr "struct irq_domain") ;;
    fld "msi_parent_ops" (ptr "struct msi_parent_ops") ;;
    fld "exit" (ptr "function") ;;
    fld "hwirq_max" ty_irq_hw_number_t ;;
    fld "revmap_size" (int_ 4 false) ;;
    fld "revmap_tree" struct_xarray ;;
    fld "revmap" (arr (ptr "struct irq_data") 0) ;;
    mnil).

Definition struct_msi_dev_domain : ctype :=
  struct_ false (
    fld "store" struct_xarray ;;
    fld "domain" (ptr "struct irq_domain") ;;
    mnil).

Definition struct_msi_device_data : ctype :=
  struct_ false (
    fld "properties" (int_ 8 false) ;;
    fld "mutex" struct_mutex ;;
    fld "__domains" (arr struct_msi_dev_domain 1) ;;
    fld "__iter_idx" (int_ 8 false) ;;
    mnil).

Definition struct_klist : ctype :=
  struct_ false (
    fld "k_lock" ty_spinlock_t ;;
    fld "k_list" struct_list_head ;;
    fld "get" (ptr "function") ;;
    fld "put" (ptr "function") ;;
    mnil).

Definition struct_klist_node : ctype :=
  struct_ false (
    fld "n_klist" (ptr "void") ;;
    fld "n_node" struct_list_head ;;
    fld "n_ref" struct_kref ;;
    mnil).

Definition struct_device_private : ctype :=
  struct_ false (
    fld "klist_children" struct_klist ;;
    fld "knode_parent" struct_klist_node ;;
    fld "knode_driver" struct_klist_node ;;
    fld "knode_bus" struct_klist_node ;;
    fld "knode_class" struct_klist_node ;;
    fld "deferred_probe" struct_list_head ;;
    fld "async_driver" (ptr "struct device_driver") ;;
    fld "deferred_probe_reason" (ptr "char") ;;
    fld "device" (ptr "struct device") ;;
    bits "dead" ty_u8 1 ;;
    mnil).

Definition struct_device_type : ctype :=
  struct_ false (
    fld "name" (ptr "char") ;;
    fld "groups" (ptr "struct attribute_group *") ;;
    fld "uevent" (ptr "function") ;;
    fld "devnode" (ptr "function") ;;
    fld "release" (ptr "function") ;;
    fld "pm" (ptr "struct dev_pm_ops") ;;
    mnil).

Definition struct_bus_type : ctype :=
  struct_ false (
    fld "name" (ptr "char") ;;
    fld "dev_name" (ptr "char") ;;
    fld "bus_groups" (ptr "struct attribute_group *") ;;
    fld "dev_groups" (ptr "struct attribute_group *") ;;
    fld "drv_groups" (ptr "struct attribute_group *") ;;
    fld "match" (ptr "function") ;;
    fld "uevent" (ptr "function") ;;
    fld "probe" (ptr "function") ;;
    fld "sync_state" (ptr "function") ;;
    fld "remove" (ptr "function") ;;
    fld "shutdown" (ptr "function") ;;
    fld "irq_get_affinity" (ptr "function") ;;
    fld "online" (ptr "function") ;;
    fld "offline" (ptr "function") ;;
    fld "suspend" (ptr "function") ;;
    fld "resume" (ptr "function") ;;
    fld "num_vf" (ptr "function") ;;
    fld "dma_configure" (ptr "function") ;;
    fld "dma_cleanup" (ptr "function") ;;
    fld "pm" (ptr "struct dev_pm_ops") ;;
    fld "need_parent_lock" ty_bool ;;
    mnil).

Definition enum_probe_type : ctype :=
  enum_ 4 [("PROBE_DEFAULT_STRATEGY", 0); ("PROBE_PREFER_ASYNCHRONOUS", 1); ("PROBE_FORCE_SYNCHRONOUS", 2)].

Definition struct_device_driver : ctype :=
  struct_ false (
    fld "name" (ptr "char") ;;
    fld "bus" (ptr "struct bus_type") ;;
    fld "owner" (ptr "struct module") ;;
    fld "mod_name" (ptr "char") ;;
    fld "suppress_bind_attrs" ty_bool ;;
    fld "probe_type" enum_probe_type ;;
    fld "of_match_table" (ptr "struct of_device_id") ;;
    fld "acpi_match_table" (ptr "struct acpi_device_id") ;;
    fld "probe" (ptr "function") ;;
    fld "sync_state" (ptr "function") ;;
    fld "remove" (ptr "function") ;;
    fld "shutdown" (ptr "function") ;;
    fld "suspend" (ptr "function") ;;
    fld "resume" (ptr "function") ;;
    fld "groups" (ptr "struct attribute_group *") ;;
    fld "dev_groups" (ptr "struct attribute_group *") ;;
    fld "pm" (ptr "struct dev_pm_ops") ;;
    fld "coredump" (ptr "function") ;;
    fld "p" (ptr "struct driver_private") ;;
    mnil).

Definition struct_dev_pm_ops : ctype :=
  struct_ false (
    fld "prepare" (ptr "function") ;;
    fld "complete" (ptr "function") ;;
    fld "suspend" (ptr "function") ;;
    fld "resume" (ptr "function") ;;
    fld "freeze" (ptr "function") ;;
    fld "thaw" (ptr "function") ;;
    fld "poweroff" (ptr "function") ;;
    fld "restore" (ptr "function") ;;
    fld "suspend_late" (ptr "function") ;;
    fld "resume_early" (ptr "function") ;;
    fld "freeze_late" (ptr "function") ;;
    fld "thaw_early" (ptr "function") ;;
    fld "poweroff_late" (ptr "function") ;;
    fld "restore_early" (ptr "function") ;;
    fld "suspend_noirq" (ptr "function") ;;
    fld "resume_noirq" (ptr "function") ;;
    fld "freeze_noirq" (ptr "function") ;;
    fld "thaw_noirq" (ptr "function") ;;
    fld "poweroff_noirq" (ptr "function") ;;
    fld "restore_noirq" (ptr "function") ;;
    fld "runtime_suspend" (ptr "function") ;;
    fld "runtime_resume" (ptr "function") ;;
    fld "runtime_idle" (ptr "function") ;;
    mnil).

Definition struct_dev_pm_domain : ctype :=
  struct_ false (
    fld "ops" struct_dev_pm_ops ;;
    fld "start" (ptr "function") ;;
    fld "detach" (ptr "function") ;;
    fld "activate" (ptr "function") ;;
    fld "sync" (ptr "function") ;;
    fld "dismiss" (ptr "function") ;;
    fld "set_performance_state" (ptr "function") ;;
    mnil).

Definition struct_em_perf_domain : ctype :=
  struct_ false (
    fld "em_table" (ptr "struct em_perf_table") ;;
    fld "nr_perf_states" (int_ 4 true) ;;
    fld "flags" (int_ 8 false) ;;
    fld "cpus" (arr (int_ 8 false) 0) ;;
    mnil).

Definition struct_dev_pin_info : ctype :=
  struct_ false (
    fld "p" (ptr "struct pinctrl") ;;
    fld "default_state" (ptr "struct pinctrl_state") ;;
    fld "init_state" (ptr "struct pinctrl_state") ;;
    fld "sleep_state" (ptr "struct pinctrl_state") ;;
    fld "idle_state" (ptr "struct pinctrl_state") ;;
    mnil).

Definition struct_dma_map_ops : ctype :=
  struct_ false (
    fld "alloc" (ptr "function") ;;
    fld "free" (ptr "function") ;;
    fld "alloc_pages_op" (ptr "function") ;;
    fld "free_pages" (ptr "function") ;;
    fld "mmap" (ptr "function") ;;
    fld "get_sgtable" (ptr "function") ;;
    fld "map_page" (ptr "function") ;;
    fld "unmap_page" (ptr "function") ;;
    fld "map_sg" (ptr "function") ;;
    fld "unmap_sg" (ptr "function") ;;
    fld "map_resource" (ptr "function") ;;
    fld "unmap_resource" (ptr "function") ;;
    fld "sync_single_for_cpu" (ptr "function") ;;
    fld "sync_single_for_device" (ptr "function") ;;
    fld "sync_sg_for_cpu" (ptr "function") ;;
    fld "sync_sg_for_device" (ptr "function") ;;
    fld "cache_sync" (ptr "function") ;;
    fld "dma_supported" (ptr "function") ;;
    fld "get_required_mask" (ptr "function") ;;
    fld "max_mapping_size" (ptr "function") ;;
    fld "opt_mapping_size" (ptr "function") ;;
    fld "get_merge_boundary" (ptr "function") ;;
    mnil).

Definition ty_dma_addr_t : ctype :=
  ty_u64.

Definition struct_bus_dma_region : ctype :=
  struct_ false (
    fld "cpu_start" ty_phys_addr_t ;;
    fld "dma_start" ty_dma_addr_t ;;
    fld "size" ty_u64 ;;
    mnil).

Definition struct_device_dma_parameters : ctype :=
  struct_ false (
    fld "max_segment_size" (int_ 4 false) ;;
    fld "min_align_mask" (int_ 4 false) ;;
    fld "segment_boundary_mask" (int_ 8 false) ;;
    mnil).

Definition struct_cma : ctype :=
  struct_ false (
    fld "base_pfn" (int_ 8 false) ;;
    fld "count" (int_ 8 false) ;;
    fld "bitmap" (ptr "long unsigned int") ;;
    fld "order_per_bit" (int_ 4 false) ;;
    fld "lock" ty_spinlock_t ;;
    fld "name" (arr (int_ 1 true) 64) ;;
    fld "reserve_pages_on_error" ty_bool ;;
    mnil).

Definition struct_io_tlb_pool : ctype :=
  struct_ false (
    fld "start" ty_phys_addr_t ;;
    fld "end" ty_phys_addr_t ;;
    fld "vaddr" (ptr "void") ;;
    fld "nslabs" (int_ 8 false) ;;
    fld "late_alloc" ty_bool ;;
    fld "nareas" (int_ 4 false) ;;
    fld "area_nslabs" (int_ 4 false) ;;
    fld "areas" (ptr "struct io_tlb_area") ;;
    fld "slots" (ptr "struct io_tlb_slot") ;;
    mnil).

Definition struct_io_tlb_mem : ctype :=
  struct_ false (
    fld "defpool" struct_io_tlb_pool ;;
    fld "nslabs" (int_ 8 false) ;;
    fld "debugfs" (ptr "struct dentry") ;;
    fld "force_bounce" ty_bool ;;
    fld "for_alloc" ty_bool ;;
    fld "total_used" ty_atomic_long_t ;;
    fld "used_hiwater" ty_atomic_long_t ;;
    fld "transient_nslabs" ty_atomic_long_t ;;
    mnil).

Definition ty_phandle : ctype :=
  ty_u32.

Definition struct_fwnode_handle : ctype :=
  struct_ false (
    fld "secondary" (ptr "struct fwnode_handle") ;;
    fld "ops" (ptr "struct fwnode_operations") ;;
    fld "dev" (ptr "struct device") ;;
    fld "suppliers" struct_list_head ;;
    fld "consumers" struct_list_head ;;
    fld "flags" ty_u8 ;;
    mnil).

Definition struct_device_node : ctype :=
  struct_ false (
    fld "name" (ptr "char") ;;
    fld "phandle" ty_phandle ;;
    fld "full_name" (ptr "char") ;;
    fld "fwnode" struct_fwnode_handle ;;
    fld "properties" (ptr "struct property") ;;
    fld "deadprops" (ptr "struct property") ;;
    fld "parent" (ptr "struct device_node") ;;
    fld "child" (ptr "struct device_node") ;;
    fld "sibling" (ptr "struct device_node") ;;
    fld "_flags" (int_ 8 false) ;;
    fld "data" (ptr "void") ;;
    mnil).

Definition struct_class : ctype :=
  struct_ false (
    fld "name" (ptr "char") ;;
    fld "class_groups" (ptr "struct attribute_group *") ;;
    fld "dev_groups" (ptr "struct attribute_group *") ;;
    fld "dev_uevent" (ptr "function") ;;
    fld "devnode" (ptr "function") ;;
    fld "class_release" (ptr "function") ;;
    fld "dev_release" (ptr "function") ;;
    fld "shutdown_pre" (ptr "function") ;;
    fld "ns_type" (ptr "struct kobj_ns_type_operations") ;;
    fld "namespace" (ptr "function") ;;
    fld "get_ownership" (ptr "function") ;;
    fld "pm" (ptr "struct dev_pm_ops") ;;
    mnil).

Definition struct_attribute_group : ctype :=
  struct_ false (
    fld "name" (ptr "char") ;;
    fld "is_visible" (ptr "function") ;;
    fld "is_bin_visible" (ptr "function") ;;
    fld "attrs" (ptr "struct attribute *") ;;
    fld "bin_attrs" (ptr "struct bin_attribute *") ;;
    mnil).

Definition struct_iommu_group : ctype :=
  struct_ false (
    fld "kobj" struct_kobject ;;
    fld "devices_kobj" (ptr "struct kobject") ;;
    fld "devices" struct_list_head ;;
    fld "pasid_array" struct_xarray ;;
    fld "mutex" struct_mutex ;;
    fld "iommu_data" (ptr "void") ;;
    fld "iommu_data_release" (ptr "function") ;;
    fld "name" (ptr "char") ;;
    fld "id" (int_ 4 true) ;;
    fld "default_domain" (ptr "struct iommu_domain") ;;
    fld "blocking_domain" (ptr "struct iommu_domain") ;;
    fld "domain" (ptr "struct iommu_domain") ;;
    fld "entry" struct_list_head ;;
    fld "owner_cnt" (int_ 4 false) ;;
    fld "owner" (ptr "void") ;;
    mnil).

Definition struct_dev_iommu : ctype :=
  struct_ false (
    fld "lock" struct_mutex ;;
    fld "fault_param" (ptr "struct iommu_fault_param") ;;
    fld "fwspec" (ptr "struct iommu_fwspec") ;;
    fld "iommu_dev" (ptr "struct iommu_device") ;;
    fld "priv" (ptr "void") ;;
    fld "max_pasids" ty_u32 ;;
    bits "attach_deferred" ty_u32 1 ;;
    bits "pci_32bit_workaround" ty_u32 1 ;;
    bits "require_direct" ty_u32 1 ;;
    bits "shadow_on_flush" ty_u32 1 ;;
    mnil).

Definition enum_device_physical_location_panel : ctype :=
  enum_ 4 [("DEVICE_PANEL_TOP", 0); ("DEVICE_PANEL_BOTTOM", 1); ("DEVICE_PANEL_LEFT", 2); ("DEVICE_PANEL_RIGHT", 3); ("DEVICE_PANEL_FRONT", 4); ("DEVICE_PANEL_BACK", 5); ("DEVICE_PANEL_UNKNOWN", 6)].

Definition enum_device_physical_location_vertical_position : ctype :=
  enum_ 4 [("DEVICE_VERT_POS_UPPER", 0); ("DEVICE_VERT_POS_CENTER", 1); ("DEVICE_VERT_POS_LOWER", 2)].

Definition enum_device_physical_location_horizontal_position : ctype :=
  enum_ 4 [("DEVICE_HORI_POS_LEFT", 0); ("DEVICE_HORI_POS_CENTER", 1); ("DEVICE_HORI_POS_RIGHT", 2)].

Definition struct_device_physical_location : ctype :=
  struct_ false (
    fld "panel" enum_device_physical_location_panel ;;
    fld "vertical_position" enum_device_physical_location_vertical_position ;;
    fld "horizontal_position" enum_device_physical_location_horizontal_position ;;
    fld "dock" ty_bool ;;
    fld "lid" ty_bool ;;
    mnil).

Definition struct_disk_stats : ctype :=
  struct_ false (
    fld "nsecs" (arr ty_u64 4) ;;
    fld "sectors" (arr (int_ 8 false) 4) ;;
    fld "ios" (arr (int_ 8 false) 4) ;;
    fld "merges" (arr (int_ 8 false) 4) ;;
    fld "io_ticks" (int_ 8 false) ;;
    fld "in_flight" (arr ty_local_t 2) ;;
    mnil).

Definition struct_blk_holder_ops : ctype :=
  struct_ false (
    fld "mark_dead" (ptr "function") ;;
    fld "sync" (ptr "function") ;;
    fld "freeze" (ptr "function") ;;
    fld "thaw" (ptr "function") ;;
    mnil).

Definition struct_partition_meta_info : ctype :=
  struct_ false (
    fld "uuid" (arr (int_ 1 true) 37) ;;
    fld "volname" (arr ty_u8 64) ;;
    mnil).

Definition struct_blk_mq_ctx : ctype :=
  struct_ false (
    anon (struct_ false (
      fld "lock" ty_spinlock_t ;;
      fld "rq_lists" (arr struct_list_head 3) ;;
      bits "" (int_ 8 true) 64 ;;
      mnil)) ;;
    fld "cpu" (int_ 4 false) ;;
    fld "index_hw" (arr (int_ 2 false) 3) ;;
    fld "hctxs" (arr (ptr "struct blk_mq_hw_ctx") 3) ;;
    fld "queue" (ptr "struct request_queue") ;;
    fld "ctxs" (ptr "struct blk_mq_ctxs") ;;
    fld "kobj" struct_kobject ;;
    bits "" (int_ 8 true) 64 ;;
    mnil).

Definition struct_sbitmap : ctype :=
  struct_ false (
    fld "depth" (int_ 4 false) ;;
    fld "shift" (int_ 4 false) ;;
    fld "map_nr" (int_ 4 false) ;;
    fld "round_robin" ty_bool ;;
    fld "map" (ptr "struct sbitmap_word") ;;
    fld "alloc_hint" (ptr "unsigned int") ;;
    mnil).

Definition ty_wait_queue_func_t : ctype :=
  ptr "function".

Definition struct_wait_queue_entry : ctype :=
  struct_ false (
    fld "flags" (int_ 4 false) ;;
    fld "private" (ptr "void") ;;
    fld "func" ty_wait_queue_func_t ;;
    fld "entry" struct_list_head ;;
    mnil).

Definition ty_wait_queue_entry_t : ctype :=
  struct_wait_queue_entry.

Definition struct_blk_mq_hw_ctx : ctype :=
  struct_ false (
    anon (struct_ false (
      fld "lock" ty_spinlock_t ;;
      fld "dispatch" struct_list_head ;;
      fld "state" (int_ 8 false) ;;
      bits "" (int_ 8 true) 64 ;;
      bits "" (int_ 8 true) 64 ;;
      bits "" (int_ 8 true) 64 ;;
      bits "" (int_ 8 true) 64 ;;
      mnil)) ;;
    fld "run_work" struct_delayed_work ;;
    fld "cpumask" ty_cpumask_var_t ;;
    fld "next_cpu" (int_ 4 true) ;;
    fld "next_cpu_batch" (int_ 4 true) ;;
    fld "flags" (int_ 8 false) ;;
    fld "sched_data" (ptr "void") ;;
    fld "queue" (ptr "struct request_queue") ;;
    fld "fq" (ptr "struct blk_flush_queue") ;;
    fld "driver_data" (ptr "void") ;;
    fld "ctx_map" struct_sbitmap ;;
    fld "dispatch_from" (ptr "struct blk_mq_ctx") ;;
    fld "dispatch_busy" (int_ 4 false) ;;
    fld "type" (int_ 2 false) ;;
    fld "nr_ctx" (int_ 2 false) ;;
    fld "ctxs" (ptr "struct blk_mq_ctx *") ;;
    fld "dispatch_wait_lock" ty_spinlock_t ;;
    fld "dispatch_wait" ty_wait_queue_entry_t ;;
    fld "wait_index" ty_atomic_t ;;
    fld "tags" (ptr "struct blk_mq_tags") ;;
    fld "sched_tags" (ptr "struct blk_mq_tags") ;;
    fld "numa_node" (int_ 4 false) ;;
    fld "queue_num" (int_ 4 false) ;;
    fld "nr_active" ty_atomic_t ;;
    fld "cpuhp_online" struct_hlist_node ;;
    fld "cpuhp_dead" struct_hlist_node ;;
    fld "kobj" struct_kobject ;;
    fld "hctx_list" struct_list_head ;;
    bits "" (int_ 8 true) 64 ;;
    bits "" (int_ 8 true) 64 ;;
    bits "" (int_ 8 true) 64 ;;
    bits "" (int_ 8 true) 64 ;;
    bits "" (int_ 8 true) 64 ;;
    bits "" (int_ 8 true) 64 ;;
    mnil).

Definition struct_blk_crypto_keyslot : ctype :=
  struct_ false (
    fld "slot_refs" ty_atomic_t ;;
    fld "idle_slot_node" struct_list_head ;;
    fld "hash_node" struct_hlist_node ;;
    fld "key" (ptr "struct blk_crypto_key") ;;
    fld "profile" (ptr "struct blk_crypto_profile") ;;
    mnil).

Definition struct_io_cq : ctype :=
  struct_ false (
    fld "q" (ptr "struct request_queue") ;;
    fld "ioc" (ptr "struct io_context") ;;
    anon (union_ false (
      fld "q_node" struct_list_head ;;
      fld "__rcu_icq_cache" (ptr "struct kmem_cache") ;;
      mnil)) ;;
    anon (union_ false (
      fld "ioc_node" struct_hlist_node ;;
      fld "__rcu_head" struct_callback_head ;;
      mnil)) ;;
    fld "flags" (int_ 4 false) ;;
    mnil).

Definition struct_percpu_ref_data : ctype :=
  struct_ false (
    fld "count" ty_atomic_long_t ;;
    fld "release" (ptr "percpu_ref_func_t") ;;
    fld "confirm_switch" (ptr "percpu_ref_func_t") ;;
    bits "force_atomic" ty_bool 1 ;;
    bits "allow_reinit" ty_bool 1 ;;
    fld "rcu" struct_callback_head ;;
    fld "ref" (ptr "struct percpu_ref") ;;
    mnil).

Definition struct_workqueue_struct : ctype :=
  struct_ false (
    fld "pwqs" struct_list_head ;;
    fld "list" struct_list_head ;;
    fld "mutex" struct_mutex ;;
    fld "work_color" (int_ 4 true) ;;
    fld "flush_color" (int_ 4 true) ;;
    fld "nr_pwqs_to_flush" ty_atomic_t ;;
    fld "first_flusher" (ptr "struct wq_flusher") ;;
    fld "flusher_queue" struct_list_head ;;
    fld "flusher_overflow" struct_list_head ;;
    fld "maydays" struct_list_head ;;
    fld "rescuer" (ptr "struct worker") ;;
    fld "nr_drainers" (int_ 4 true) ;;
    fld "max_active" (int_ 4 true) ;;
    fld "min_active" (int_ 4 true) ;;
    fld "saved_max_active" (int_ 4 true) ;;
    fld "saved_min_active" (int_ 4 true) ;;
    fld "unbound_attrs" (ptr "struct workqueue_attrs") ;;
    fld "dfl_pwq" (ptr "struct pool_workqueue") ;;
    fld "wq_dev" (ptr "struct wq_device") ;;
    fld "name" (arr (int_ 1 true) 32) ;;
    fld "rcu" struct_callback_head ;;
    bits "" (int_ 8 true) 64 ;;
    bits "" (int_ 8 true) 64 ;;
    fld "flags" (int_ 4 false) ;;
    fld "cpu_pwq" (ptr "struct pool_workqueue *") ;;
    fld "node_nr_active" (arr (ptr "struct wq_node_nr_active") 0) ;;
    bits "" (int_ 8 true) 64 ;;
    bits "" (int_ 8 true) 64 ;;
    bits "" (int_ 8 true) 64 ;;
    bits "" (int_ 8 true) 64 ;;
    bits "" (int_ 8 true) 64 ;;
    bits "" (int_ 8 true) 64 ;;
    mnil).

Definition struct_elevator_queue : ctype :=
  struct_ false (
    fld "type" (ptr "struct elevator_type") ;;
    fld "elevator_data" (ptr "void") ;;
    fld "kobj" struct_kobject ;;
    fld "sysfs_lock" struct_mutex ;;
    fld "flags" (int_ 8 false) ;;
    fld "hash" (arr struct_hlist_head 64) ;;
    mnil).

Definition struct_blk_mq_ops : ctype :=
  struct_ false (
    fld "queue_rq" (ptr "function") ;;
    fld "commit_rqs" (ptr "function") ;;
    fld "queue_rqs" (ptr "function") ;;
    fld "get_budget" (ptr "function") ;;
    fld "put_budget" (ptr "function") ;;
    fld "set_rq_budget_token" (ptr "function") ;;
    fld "get_rq_budget_token" (ptr "function") ;;
    fld "timeout" (ptr "function") ;;
    fld "poll" (ptr "function") ;;
    fld "complete" (ptr "function") ;;
    fld "init_hctx" (ptr "function") ;;
    fld "exit_hctx" (ptr "function") ;;
    fld "init_request" (ptr "function") ;;
    fld "exit_request" (ptr "function") ;;
    fld "cleanup_rq" (ptr "function") ;;
    fld "busy" (ptr "function") ;;
    fld "map_queues" (ptr "function") ;;
    mnil).

Definition struct_blk_queue_stats : ctype :=
  struct_ false (
    fld "callbacks" struct_list_head ;;
    fld "lock" ty_spinlock_t ;;
    fld "accounting" (int_ 4 true) ;;
    mnil).

Definition enum_rq_qos_id : ctype :=
  enum_ 4 [("RQ_QOS_WBT", 0); ("RQ_QOS_LATENCY", 1); ("RQ_QOS_COST", 2)].

Definition struct_rq_qos : ctype :=
  struct_ false (
    fld "ops" (ptr "struct rq_qos_ops") ;;
    fld "disk" (ptr "struct gendisk") ;;
    fld "id" enum_rq_qos_id ;;
    fld "next" (ptr "struct rq_qos") ;;
    mnil).

Definition struct_blk_crypto_ll_ops : ctype :=
  struct_ false (
    fld "keyslot_program" (ptr "function") ;;
    fld "keyslot_evict" (ptr "function") ;;
    mnil).

Definition struct_blk_crypto_profile : ctype :=
  struct_ false (
    fld "ll_ops" struct_blk_crypto_ll_ops ;;
    fld "max_dun_bytes_supported" (int_ 4 false) ;;
    fld "modes_supported" (arr (int_ 4 false) 5) ;;
    fld "dev" (ptr "struct device") ;;
    fld "num_slots" (int_ 4 false) ;;
    fld "lock" struct_rw_semaphore ;;
    fld "lockdep_key" struct_lock_class_key ;;
    fld "idle_slots_wait_queue" ty_wait_queue_head_t ;;
    fld "idle_slots" struct_list_head ;;
    fld "idle_slots_lock" ty_spinlock_t ;;
    fld "slot_hashtable" (ptr "struct hlist_head") ;;
    fld "log_slot_ht_size" (int_ 4 false) ;;
    fld "slots" (ptr "struct blk_crypto_keyslot") ;;
    mnil).

Definition struct_sbitmap_queue : ctype :=
  struct_ false (
    fld "sb" struct_sbitmap ;;
    fld "wake_batch" (int_ 4 false) ;;
    fld "wake_index" ty_atomic_t ;;
    fld "ws" (ptr "struct sbq_wait_state") ;;
    fld "ws_active" ty_atomic_t ;;
    fld "min_shallow_depth" (int_ 4 false) ;;
    fld "completion_cnt" ty_atomic_t ;;
    fld "wakeup_cnt" ty_atomic_t ;;
    mnil).

Definition struct_blk_mq_tags : ctype :=
  struct_ false (
    fld "nr_tags" (int_ 4 false) ;;
    fld "nr_reserved_tags" (int_ 4 false) ;;
    fld "active_queues" (int_ 4 false) ;;
    fld "bitmap_tags" struct_sbitmap_queue ;;
    fld "breserved_tags" struct_sbitmap_queue ;;
    fld "rqs" (ptr "struct request *") ;;
    fld "static_rqs" (ptr "struct request *") ;;
    fld "page_list" struct_list_head ;;
    fld "lock" ty_spinlock_t ;;
    mnil).

Definition struct_blk_trace : ctype :=
  struct_ false (
    fld "trace_state" (int_ 4 true) ;;
    fld "rchan" (ptr "struct rchan") ;;
    fld "sequence" (ptr "long unsigned int") ;;
    fld "msg_data" (ptr "unsigned char") ;;
    fld "act_mask" ty_u16 ;;
    fld "start_lba" ty_u64 ;;
    fld "end_lba" ty_u64 ;;
    fld "pid" ty_u32 ;;
    fld "dev" ty_u32 ;;
    fld "dir" (ptr "struct dentry") ;;
    fld "running_list" struct_list_head ;;
    fld "dropped" ty_atomic_t ;;
    mnil).

Definition struct_blk_flush_queue : ctype :=
  struct_ false (
    fld "mq_flush_lock" ty_spinlock_t ;;
    bits "flush_pending_idx" (int_ 4 false) 1 ;;
    bits "flush_running_idx" (int_ 4 false) 1 ;;
    fld "rq_status" ty_blk_status_t ;;
    fld "flush_pending_since" (int_ 8 false) ;;
    fld "flush_queue" (arr struct_list_head 2) ;;
    fld "flush_data_in_flight" (int_ 8 false) ;;
    fld "flush_rq" (ptr "struct request") ;;
    mnil).

Definition struct_throtl_service_queue : ctype :=
  struct_ false (
    fld "parent_sq" (ptr "struct throtl_service_queue") ;;
    fld "queued" (arr struct_list_head 2) ;;
    fld "nr_queued" (arr (int_ 4 false) 2) ;;
    fld "pending_tree" struct_rb_root_cached ;;
    fld "nr_pending" (int_ 4 false) ;;
    fld "first_pending_disptime" (int_ 8 false) ;;
    fld "pending_timer" struct_timer_list ;;
    mnil).

Definition struct_throtl_data : ctype :=
  struct_ false (
    fld "service_queue" struct_throtl_service_queue ;;
    fld "queue" (ptr "struct request_queue") ;;
    fld "nr_queued" (arr (int_ 4 false) 2) ;;
    fld "throtl_slice" (int_ 4 false) ;;
    fld "dispatch_work" struct_work_struct ;;
    fld "track_bio_latency" ty_bool ;;
    mnil).

Definition struct_blk_mq_queue_map : ctype :=
  struct_ false (
    fld "mq_map" (ptr "unsigned int") ;;
    fld "nr_queues" (int_ 4 false) ;;
    fld "queue_offset" (int_ 4 false) ;;
    mnil).

Definition struct_blk_mq_tag_set : ctype :=
  struct_ false (
    fld "ops" (ptr "struct blk_mq_ops") ;;
    fld "map" (arr struct_blk_mq_queue_map 3) ;;
    fld "nr_maps" (int_ 4 false) ;;
    fld "nr_hw_queues" (int_ 4 false) ;;
    fld "queue_depth" (int_ 4 false) ;;
    fld "reserved_tags" (int_ 4 false) ;;
    fld "cmd_size" (int_ 4 false) ;;
    fld "numa_node" (int_ 4 true) ;;
    fld "timeout" (int_ 4 false) ;;
    fld "flags" (int_ 4 false) ;;
    fld "driver_data" (ptr "void") ;;
    fld "tags" (ptr "struct blk_mq_tags *") ;;
    fld "shared_tags" (ptr "struct blk_mq_tags") ;;
    fld "tag_list_lock" struct_mutex ;;
    fld "tag_list" struct_list_head ;;
    fld "srcu" (ptr "struct srcu_struct") ;;
    mnil).

Definition struct_hlist_bl_node : ctype :=
  struct_ false (
    fld "next" (ptr "struct hlist_bl_node") ;;
    fld "pprev" (ptr "struct hlist_bl_node *") ;;
    mnil).

Definition struct_lockref : ctype :=
  struct_ false (
    anon (union_ false (
      fld "lock_count" ty___u64 ;;
      anon (struct_ false (
        fld "lock" ty_spinlock_t ;;
        fld "count" (int_ 4 true) ;;
        mnil)) ;;
      mnil)) ;;
    mnil).

Definition struct_dentry : ctype :=
  struct_ false (
    fld "d_flags" (int_ 4 false) ;;
    fld "d_seq" ty_seqcount_spinlock_t ;;
    fld "d_hash" struct_hlist_bl_node ;;
    fld "d_parent" (ptr "struct dentry") ;;
    fld "d_name" struct_qstr ;;
    fld "d_inode" (ptr "struct inode") ;;
    fld "d_iname" (arr (int_ 1 false) 40) ;;
    fld "d_op" (ptr "struct dentry_operations") ;;
    fld "d_sb" (ptr "struct super_block") ;;
    fld "d_time" (int_ 8 false) ;;
    fld "d_fsdata" (ptr "void") ;;
    fld "d_lockref" struct_lockref ;;
    anon (union_ false (
      fld "d_lru" struct_list_head ;;
      fld "d_wait" (ptr "wait_queue_head_t") ;;
      mnil)) ;;
    fld "d_sib" struct_hlist_node ;;
    fld "d_children" struct_hlist_head ;;
    fld "d_u" (union_ false (
      fld "d_alias" struct_hlist_node ;;
      fld "d_in_lookup_hash" struct_hlist_bl_node ;;
      fld "d_rcu" struct_callback_head ;;
      mnil)) ;;
    mnil).

Definition ty_slab_flags_t : ctype :=
  int_ 4 false.

Definition struct_reciprocal_value : ctype :=
  struct_ false (
    fld "m" ty_u32 ;;
    fld "sh1" ty_u8 ;;
    fld "sh2" ty_u8 ;;
    mnil).

Definition struct_kmem_cache_order_objects : ctype :=
  struct_ false (
    fld "x" (int_ 4 false) ;;
    mnil).

Definition struct_kmem_cache : ctype :=
  struct_ false (
    fld "cpu_slab" (ptr "struct kmem_cache_cpu") ;;
    fld "flags" ty_slab_flags_t ;;
    fld "min_partial" (int_ 8 false) ;;
    fld "size" (int_ 4 false) ;;
    fld "object_size" (int_ 4 false) ;;
    fld "reciprocal_size" struct_reciprocal_value ;;
    fld "offset" (int_ 4 false) ;;
    fld "cpu_partial" (int_ 4 false) ;;
    fld "cpu_partial_slabs" (int_ 4 false) ;;
    fld "oo" struct_kmem_cache_order_objects ;;
    fld "min" struct_kmem_cache_order_objects ;;
    fld "allocflags" ty_gfp_t ;;
    fld "refcount" (int_ 4 true) ;;
    fld "ctor" (ptr "function") ;;
    fld "inuse" (int_ 4 false) ;;
    fld "align" (int_ 4 false) ;;
    fld "red_left_pad" (int_ 4 false) ;;
    fld "name" (ptr "char") ;;
    fld "list" struct_list_head ;;
    fld "kobj" struct_kobject ;;
    fld "random" (int_ 8 false) ;;
    fld "remote_node_defrag_ratio" (int_ 4 false) ;;
    fld "useroffset" (int_ 4 false) ;;
    fld "usersize" (int_ 4 false) ;;
    fld "node" (arr (ptr "struct kmem_cache_node") 1024) ;;
    mnil).

Definition struct_bio_alloc_cache : ctype :=
  struct_ false (
    fld "free_list" (ptr "struct bio") ;;
    fld "free_list_irq" (ptr "struct bio") ;;
    fld "nr" (int_ 4 false) ;;
    fld "nr_irq" (int_ 4 false) ;;
    mnil).

Definition struct_block_device_operations : ctype :=
  struct_ false (
    fld "submit_bio" (ptr "function") ;;
    fld "poll_bio" (ptr "function") ;;
    fld "open" (ptr "function") ;;
    fld "release" (ptr "function") ;;
    fld "ioctl" (ptr "function") ;;
    fld "compat_ioctl" (ptr "function") ;;
    fld "check_events" (ptr "function") ;;
    fld "unlock_native_capacity" (ptr "function") ;;
    fld "getgeo" (ptr "function") ;;
    fld "set_read_only" (ptr "function") ;;
    fld "free_disk" (ptr "function") ;;
    fld "swap_slot_free_notify" (ptr "function") ;;
    fld "report_zones" (ptr "function") ;;
    fld "devnode" (ptr "function") ;;
    fld "get_unique_id" (ptr "function") ;;
    fld "owner" (ptr "struct module") ;;
    fld "pr_ops" (ptr "struct pr_ops") ;;
    fld "alternative_gpt_sector" (ptr "function") ;;
    mnil).

Definition struct_fprop_local_percpu : ctype :=
  struct_ false (
    fld "events" struct_percpu_counter ;;
    fld "period" (int_ 4 false) ;;
    fld "lock" ty_raw_spinlock_t ;;
    mnil).

Definition enum_wb_reason : ctype :=
  enum_ 4 [("WB_REASON_BACKGROUND", 0); ("WB_REASON_VMSCAN", 1); ("WB_REASON_SYNC", 2); ("WB_REASON_PERIODIC", 3); ("WB_REASON_LAPTOP_TIMER", 4); ("WB_REASON_FS_FREE_SPACE", 5); ("WB_REASON_FORKER_THREAD", 6); ("WB_REASON_FOREIGN_FLUSH", 7); ("WB_REASON_MAX", 8)].

Definition struct_bdi_writeback : ctype :=
  struct_ false (
    fld "bdi" (ptr "struct backing_dev_info") ;;
    fld "state" (int_ 8 false) ;;
    fld "last_old_flush" (int_ 8 false) ;;
    fld "b_dirty" struct_list_head ;;
    fld "b_io" struct_list_head ;;
    fld "b_more_io" struct_list_head ;;
    fld "b_dirty_time" struct_list_head ;;
    fld "list_lock" ty_spinlock_t ;;
    fld "writeback_inodes" ty_atomic_t ;;
    fld "stat" (arr struct_percpu_counter 4) ;;
    fld "bw_time_stamp" (int_ 8 false) ;;
    fld "dirtied_stamp" (int_ 8 false) ;;
    fld "written_stamp" (int_ 8 false) ;;
    fld "write_bandwidth" (int_ 8 false) ;;
    fld "avg_write_bandwidth" (int_ 8 false) ;;
    fld "dirty_ratelimit" (int_ 8 false) ;;
    fld "balanced_dirty_ratelimit" (int_ 8 false) ;;
    fld "completions" struct_fprop_local_percpu ;;
    fld "dirty_exceeded" (int_ 4 true) ;;
    fld "start_all_reason" enum_wb_reason ;;
    fld "work_lock" ty_spinlock_t ;;
    fld "work_list" struct_list_head ;;
    fld "dwork" struct_delayed_work ;;
    fld "bw_dwork" struct_delayed_work ;;
    fld "bdi_node" struct_list_head ;;
    fld "refcnt" struct_percpu_ref ;;
    fld "memcg_completions" struct_fprop_local_percpu ;;
    fld "memcg_css" (ptr "struct cgroup_subsys_state") ;;
    fld "blkcg_css" (ptr "struct cgroup_subsys_state") ;;
    fld "memcg_node" struct_list_head ;;
    fld "blkcg_node" struct_list_head ;;
    fld "b_attached" struct_list_head ;;
    fld "offline_node" struct_list_head ;;
    anon (union_ false (
      fld "release_work" struct_work_struct ;;
      fld "rcu" struct_callback_head ;;
      mnil)) ;;
    mnil).

Definition struct_backing_dev_info : ctype :=
  struct_ false (
    fld "id" ty_u64 ;;
    fld "rb_node" struct_rb_node ;;
    fld "bdi_list" struct_list_head ;;
    fld "ra_pages" (int_ 8 false) ;;
    fld "io_pages" (int_ 8 false) ;;
    fld "refcnt" struct_kref ;;
    fld "capabilities" (int_ 4 false) ;;
    fld "min_ratio" (int_ 4 false) ;;
    fld "max_ratio" (int_ 4 false) ;;
    fld "max_prop_frac" (int_ 4 false) ;;
    fld "tot_write_bandwidth" ty_atomic_long_t ;;
    fld "last_bdp_sleep" (int_ 8 false) ;;
    fld "wb" struct_bdi_writeback ;;
    fld "wb_list" struct_list_head ;;
    fld "cgwb_tree" struct_xarray ;;
    fld "cgwb_release_mutex" struct_mutex ;;
    fld "wb_switch_rwsem" struct_rw_semaphore ;;
    fld "wb_waitq" ty_wait_queue_head_t ;;
    fld "dev" (ptr "struct device") ;;
    fld "dev_name" (arr (int_ 1 true) 64) ;;
    fld "owner" (ptr "struct device") ;;
    fld "laptop_mode_wb_timer" struct_timer_list ;;
    fld "debug_dir" (ptr "struct dentry") ;;
    mnil).

Definition struct_timer_rand_state : ctype :=
  struct_ false (
    fld "last_time" (int_ 8 false) ;;
    fld "last_delta" (int_ 8 true) ;;
    fld "last_delta2" (int_ 8 true) ;;
    mnil).

Definition struct_disk_events : ctype :=
  struct_ false (
    fld "node" struct_list_head ;;
    fld "disk" (ptr "struct gendisk") ;;
    fld "lock" ty_spinlock_t ;;
    fld "block_mutex" struct_mutex ;;
    fld "block" (int_ 4 true) ;;
    fld "pending" (int_ 4 false) ;;
    fld "clearing" (int_ 4 false) ;;
    fld "poll_msecs" (int_ 8 true) ;;
    fld "dwork" struct_delayed_work ;;
    mnil).

Definition struct_cdrom_device_info : ctype :=
  struct_ false (
    fld "ops" (ptr "struct cdrom_device_ops") ;;
    fld "list" struct_list_head ;;
    fld "disk" (ptr "struct gendisk") ;;
    fld "handle" (ptr "void") ;;
    fld "mask" (int_ 4 true) ;;
    fld "speed" (int_ 4 true) ;;
    fld "capacity" (int_ 4 true) ;;
    bits "options" (int_ 4 false) 30 ;;
    bits "mc_flags" (int_ 4 false) 2 ;;
    fld "vfs_events" (int_ 4 false) ;;
    fld "ioctl_events" (int_ 4 false) ;;
    fld "use_count" (int_ 4 true) ;;
    fld "name" (arr (int_ 1 true) 20) ;;
    bits "sanyo_slot" ty___u8 2 ;;
    bits "keeplocked" ty___u8 1 ;;
    bits "reserved" ty___u8 5 ;;
    fld "cdda_method" (int_ 4 true) ;;
    fld "last_sense" ty___u8 ;;
    fld "media_written" ty___u8 ;;
    fld "mmc3_profile" (int_ 2 false) ;;
    fld "exit" (ptr "function") ;;
    fld "mrw_mode_page" (int_ 4 true) ;;
    fld "opened_for_data" ty_bool ;;
    fld "last_media_change_ms" ty___s64 ;;
    mnil).

Definition struct_badblocks : ctype :=
  struct_ false (
    fld "dev" (ptr "struct device") ;;
    fld "count" (int_ 4 true) ;;
    fld "unacked_exist" (int_ 4 true) ;;
    fld "shift" (int_ 4 true) ;;
    fld "page" (ptr "u64") ;;
    fld "changed" (int_ 4 true) ;;
    fld "lock" ty_seqlock_t ;;
    fld "sector" ty_sector_t ;;
    fld "size" ty_sector_t ;;
    mnil).

Definition struct_blk_independent_access_range : ctype :=
  struct_ false (
    fld "kobj" struct_kobject ;;
    fld "sector" ty_sector_t ;;
    fld "nr_sectors" ty_sector_t ;;
    mnil).

Definition struct_blk_independent_access_ranges : ctype :=
  struct_ false (
    fld "kobj" struct_kobject ;;
    fld "sysfs_registered" ty_bool ;;
    fld "nr_ia_ranges" (int_ 4 false) ;;
    fld "ia_range" (arr struct_blk_independent_access_range 0) ;;
    mnil).

Definition struct_hrtimer_cpu_base : ctype :=
  struct_ false (
    fld "lock" ty_raw_spinlock_t ;;
    fld "cpu" (int_ 4 false) ;;
    fld "active_bases" (int_ 4 false) ;;
    fld "clock_was_set_seq" (int_ 4 false) ;;
    bits "hres_active" (int_ 4 false) 1 ;;
    bits "in_hrtirq" (int_ 4 false) 1 ;;
    bits "hang_detected" (int_ 4 false) 1 ;;
    bits "softirq_activated" (int_ 4 false) 1 ;;
    bits "online" (int_ 4 false) 1 ;;
    fld "nr_events" (int_ 4 false) ;;
    fld "nr_retries" (int_ 2 false) ;;
    fld "nr_hangs" (int_ 2 false) ;;
    fld "max_hang_time" (int_ 4 false) ;;
    fld "expires_next" ty_ktime_t ;;
    fld "next_timer" (ptr "struct hrtimer") ;;
    fld "softirq_expires_next" ty_ktime_t ;;
    fld "softirq_next_timer" (ptr "struct hrtimer") ;;
    fld "clock_base" (arr struct_hrtimer_clock_base 8) ;;
    fld "csd" ty_call_single_data_t ;;
    bits "" (int_ 8 true) 64 ;;
    bits "" (int_ 8 true) 64 ;;
    bits "" (int_ 8 true) 64 ;;
    bits "" (int_ 8 true) 64 ;;
    mnil).

Definition struct_cpu_stop_done : ctype :=
  struct_ false (
    fld "nr_todo" ty_atomic_t ;;
    fld "ret" (int_ 4 true) ;;
    fld "completion" struct_completion ;;
    mnil).

Definition struct_dl_bw : ctype :=
  struct_ false (
    fld "lock" ty_raw_spinlock_t ;;
    fld "bw" ty_u64 ;;
    fld "total_bw" ty_u64 ;;
    mnil).

Definition struct_cpudl : ctype :=
  struct_ false (
    fld "lock" ty_raw_spinlock_t ;;
    fld "size" (int_ 4 true) ;;
    fld "free_cpus" ty_cpumask_var_t ;;
    fld "elements" (ptr "struct cpudl_item") ;;
    mnil).

Definition struct_cpupri_vec : ctype :=
  struct_ false (
    fld "count" ty_atomic_t ;;
    fld "mask" ty_cpumask_var_t ;;
    mnil).

Definition struct_cpupri : ctype :=
  struct_ false (
    fld "pri_to_cpu" (arr struct_cpupri_vec 101) ;;
    fld "cpu_to_pri" (ptr "int") ;;
    mnil).

Definition struct_root_domain : ctype :=
  struct_ false (
    fld "refcount" ty_atomic_t ;;
    fld "rto_count" ty_atomic_t ;;
    fld "rcu" struct_callback_head ;;
    fld "span" ty_cpumask_var_t ;;
    fld "online" ty_cpumask_var_t ;;
    fld "overloaded" ty_bool ;;
    fld "overutilized" ty_bool ;;
    fld "dlo_mask" ty_cpumask_var_t ;;
    fld "dlo_count" ty_atomic_t ;;
    fld "dl_bw" struct_dl_bw ;;
    fld "cpudl" struct_cpudl ;;
    fld "visit_gen" ty_u64 ;;
    fld "rto_push_work" struct_irq_work ;;
    fld "rto_lock" ty_raw_spinlock_t ;;
    fld "rto_loop" (int_ 4 true) ;;
    fld "rto_cpu" (int_ 4 true) ;;
    fld "rto_loop_next" ty_atomic_t ;;
    fld "rto_loop_start" ty_atomic_t ;;
    fld "rto_mask" ty_cpumask_var_t ;;
    fld "cpupri" struct_cpupri ;;
    fld "pd" (ptr "struct perf_domain") ;;
    mnil).

Definition struct_sched_domain : ctype :=
  struct_ false (
    fld "parent" (ptr "struct sched_domain") ;;
    fld "child" (ptr "struct sched_domain") ;;
    fld "groups" (ptr "struct sched_group") ;;
    fld "min_interval" (int_ 8 false) ;;
    fld "max_interval" (int_ 8 false) ;;
    fld "busy_factor" (int_ 4 false) ;;
    fld "imbalance_pct" (int_ 4 false) ;;
    fld "cache_nice_tries" (int_ 4 false) ;;
    fld "imb_numa_nr" (int_ 4 false) ;;
    fld "nohz_idle" (int_ 4 true) ;;
    fld "flags" (int_ 4 true) ;;
    fld "level" (int_ 4 true) ;;
    fld "last_balance" (int_ 8 false) ;;
    fld "balance_interval" (int_ 4 false) ;;
    fld "nr_balance_failed" (int_ 4 false) ;;
    fld "max_newidle_lb_cost" ty_u64 ;;
    fld "last_decay_max_lb_cost" (int_ 8 false) ;;
    fld "lb_count" (arr (int_ 4 false) 3) ;;
    fld "lb_failed" (arr (int_ 4 false) 3) ;;
    fld "lb_balanced" (arr (int_ 4 false) 3) ;;
    fld "lb_imbalance" (arr (int_ 4 false) 3) ;;
    fld "lb_gained" (arr (int_ 4 false) 3) ;;
    fld "lb_hot_gained" (arr (int_ 4 false) 3) ;;
    fld "lb_nobusyg" (arr (int_ 4 false) 3) ;;
    fld "lb_nobusyq" (arr (int_ 4 false) 3) ;;
    fld "alb_count" (int_ 4 false) ;;
    fld "alb_failed" (int_ 4 false) ;;
    fld "alb_pushed" (int_ 4 false) ;;
    fld "sbe_count" (int_ 4 false) ;;
    fld "sbe_balanced" (int_ 4 false) ;;
    fld "sbe_pushed" (int_ 4 false) ;;
    fld "sbf_count" (int_ 4 false) ;;
    fld "sbf_balanced" (int_ 4 false) ;;
    fld "sbf_pushed" (int_ 4 false) ;;
    fld "ttwu_wake_remote" (int_ 4 false) ;;
    fld "ttwu_move_affine" (int_ 4 false) ;;
    fld "ttwu_move_balance" (int_ 4 false) ;;
    fld "name" (ptr "char") ;;
    anon (union_ false (
      fld "private" (ptr "void") ;;
      fld "rcu" struct_callback_head ;;
      mnil)) ;;
    fld "shared" (ptr "struct sched_domain_shared") ;;
    fld "span_weight" (int_ 4 false) ;;
    fld "span" (arr (int_ 8 false) 0) ;;
    mnil).

Definition struct_balance_callback : ctype :=
  struct_ false (
    fld "next" (ptr "struct balance_callback") ;;
    fld "func" (ptr "function") ;;
    mnil).

Definition struct_cpuidle_state : ctype :=
  struct_ false (
    fld "name" (arr (int_ 1 true) 16) ;;
    fld "desc" (arr (int_ 1 true) 32) ;;
    fld "exit_latency_ns" ty_s64 ;;
    fld "target_residency_ns" ty_s64 ;;
    fld "flags" (int_ 4 false) ;;
    fld "exit_latency" (int_ 4 false) ;;
    fld "power_usage" (int_ 4 true) ;;
    fld "target_residency" (int_ 4 false) ;;
    fld "enter" (ptr "function") ;;
    fld "enter_dead" (ptr "function") ;;
    fld "enter_s2idle" (ptr "function") ;;
    mnil).

Definition enum_bpf_prog_type : ctype :=
  enum_ 4 [("BPF_PROG_TYPE_UNSPEC", 0); ("BPF_PROG_TYPE_SOCKET_FILTER", 1); ("BPF_PROG_TYPE_KPROBE", 2); ("BPF_PROG_TYPE_SCHED_CLS", 3); ("BPF_PROG_TYPE_SCHED_ACT", 4); ("BPF_PROG_TYPE_TRACEPOINT", 5); ("BPF_PROG_TYPE_XDP", 6); ("BPF_PROG_TYPE_PERF_EVENT", 7); ("BPF_PROG_TYPE_CGROUP_SKB", 8); ("BPF_PROG_TYPE_CGROUP_SOCK", 9); ("BPF_PROG_TYPE_LWT_IN", 10); ("BPF_PROG_TYPE_LWT_OUT", 11); ("BPF_PROG_TYPE_LWT_XMIT", 12); ("BPF_PROG_TYPE_SOCK_OPS", 13); ("BPF_PROG_TYPE_SK_SKB", 14); ("BPF_PROG_TYPE_CGROUP_DEVICE", 15); ("BPF_PROG_TYPE_SK_MSG", 16); ("BPF_PROG_TYPE_RAW_TRACEPOINT", 17); ("BPF_PROG_TYPE_CGROUP_SOCK_ADDR", 18); ("BPF_PROG_TYPE_LWT_SEG6LOCAL", 19); ("BPF_PROG_TYPE_LIRC_MODE2", 20); ("BPF_PROG_TYPE_SK_REUSEPORT", 21); ("BPF_PROG_TYPE_FLOW_DISSECTOR", 22); ("BPF_PROG_TYPE_CGROUP_SYSCTL", 23); ("BPF_PROG_TYPE_RAW_TRACEPOINT_WRITABLE", 24); ("BPF_PROG_TYPE_CGROUP_SOCKOPT", 25); ("BPF_PROG_TYPE_TRACING", 26); ("BPF_PROG_TYPE_STRUCT_OPS", 27); ("BPF_PROG_TYPE_EXT", 28); ("BPF_PROG_TYPE_LSM", 29); ("BPF_PROG_TYPE_SK_LOOKUP", 30); ("BPF_PROG_TYPE_SYSCALL", 31); ("BPF_PROG_TYPE_NETFILTER", 32); ("__MAX_BPF_PROG_TYPE", 33)].

Definition enum_bpf_attach_type : ctype :=
  enum_ 4 [("BPF_CGROUP_INET_INGRESS", 0); ("BPF_CGROUP_INET_EGRESS", 1); ("BPF_CGROUP_INET_SOCK_CREATE", 2); ("BPF_CGROUP_SOCK_OPS", 3); ("BPF_SK_SKB_STREAM_PARSER", 4); ("BPF_SK_SKB_STREAM_VERDICT", 5); ("BPF_CGROUP_DEVICE", 6); ("BPF_SK_MSG_VERDICT", 7); ("BPF_CGROUP_INET4_BIND", 8); ("BPF_CGROUP_INET6_BIND", 9); ("BPF_CGROUP_INET4_CONNECT", 10); ("BPF_CGROUP_INET6_CONNECT", 11); ("BPF_CGROUP_INET4_POST_BIND", 12); ("BPF_CGROUP_INET6_POST_BIND", 13); ("BPF_CGROUP_UDP4_SENDMSG", 14); ("BPF_CGROUP_UDP6_SENDMSG", 15); ("BPF_LIRC_MODE2", 16); ("BPF_FLOW_DISSECTOR", 17); ("BPF_CGROUP_SYSCTL", 18); ("BPF_CGROUP_UDP4_RECVMSG", 19); ("BPF_CGROUP_UDP6_RECVMSG", 20); ("BPF_CGROUP_GETSOCKOPT", 21); ("BPF_CGROUP_SETSOCKOPT", 22); ("BPF_TRACE_RAW_TP", 23); ("BPF_TRACE_FENTRY", 24); ("BPF_TRACE_FEXIT", 25); ("BPF_MODIFY_RETURN", 26); ("BPF_LSM_MAC", 27); ("BPF_TRACE_ITER", 28); ("BPF_CGROUP_INET4_GETPEERNAME", 29); ("BPF_CGROUP_INET6_GETPEERNAME", 30); ("BPF_CGROUP_INET4_GETSOCKNAME", 31); ("BPF_CGROUP_INET6_GETSOCKNAME", 32); ("BPF_XDP_DEVMAP", 33); ("BPF_CGROUP_INET_SOCK_RELEASE", 34); ("BPF_XDP_CPUMAP", 35); ("BPF_SK_LOOKUP", 36); ("BPF_XDP", 37); ("BPF_SK_SKB_VERDICT", 38); ("BPF_SK_REUSEPORT_SELECT", 39); ("BPF_SK_REUSEPORT_SELECT_OR_MIGRATE", 40); ("BPF_PERF_EVENT", 41); ("BPF_TRACE_KPROBE_MULTI", 42); ("BPF_LSM_CGROUP", 43); ("BPF_STRUCT_OPS", 44); ("BPF_NETFILTER", 45); ("BPF_TCX_INGRESS", 46); ("BPF_TCX_EGRESS", 47); ("BPF_TRACE_UPROBE_MULTI", 48); ("BPF_CGROUP_UNIX_CONNECT", 49); ("BPF_CGROUP_UNIX_SENDMSG", 50); ("BPF_CGROUP_UNIX_RECVMSG", 51); ("BPF_CGROUP_UNIX_GETPEERNAME", 52); ("BPF_CGROUP_UNIX_GETSOCKNAME", 53); ("BPF_NETKIT_PRIMARY", 54); ("BPF_NETKIT_PEER", 55); ("BPF_TRACE_KPROBE_SESSION", 56); ("__MAX_BPF_ATTACH_TYPE", 57)].

Definition struct_sock_filter : ctype :=
  struct_ false (
    fld "code" ty___u16 ;;
    fld "jt" ty___u8 ;;
    fld "jf" ty___u8 ;;
    fld "k" ty___u32 ;;
    mnil).

Definition struct_bpf_insn : ctype :=
  struct_ false (
    fld "code" ty___u8 ;;
    bits "dst_reg" ty___u8 4 ;;
    bits "src_reg" ty___u8 4 ;;
    fld "off" ty___s16 ;;
    fld "imm" ty___s32 ;;
    mnil).

Definition struct_bpf_prog : ctype :=
  struct_ false (
    fld "pages" ty_u16 ;;
    bits "jited" ty_u16 1 ;;
    bits "jit_requested" ty_u16 1 ;;
    bits "gpl_compatible" ty_u16 1 ;;
    bits "cb_access" ty_u16 1 ;;
    bits "dst_needed" ty_u16 1 ;;
    bits "blinding_requested" ty_u16 1 ;;
    bits "blinded" ty_u16 1 ;;
    bits "is_func" ty_u16 1 ;;
    bits "kprobe_override" ty_u16 1 ;;
    bits "has_callchain_buf" ty_u16 1 ;;
    bits "enforce_expected_attach_type" ty_u16 1 ;;
    bits "call_get_stack" ty_u16 1 ;;
    bits "call_get_func_ip" ty_u16 1 ;;
    bits "tstamp_type_access" ty_u16 1 ;;
    bits "sleepable" ty_u16 1 ;;
    fld "type" enum_bpf_prog_type ;;
    fld "expected_attach_type" enum_bpf_attach_type ;;
    fld "len" ty_u32 ;;
    fld "jited_len" ty_u32 ;;
    fld "tag" (arr ty_u8 8) ;;
    fld "stats" (ptr "struct bpf_prog_stats") ;;
    fld "active" (ptr "int") ;;
    fld "bpf_func" (ptr "function") ;;
    fld "aux" (ptr "struct bpf_prog_aux") ;;
    fld "orig_prog" (ptr "struct sock_fprog_kern") ;;
    anon (union_ false (
      anon (struct_ false (
        fld "__empty_insns" (struct_ false (
          mnil)) ;;
        fld "insns" (arr struct_sock_filter 0) ;;
        mnil)) ;;
      anon (struct_ false (
        fld "__empty_insnsi" (struct_ false (
          mnil)) ;;
        fld "insnsi" (arr struct_bpf_insn 0) ;;
        mnil)) ;;
      mnil)) ;;
    mnil).

Definition struct_notification : ctype :=
  struct_ false (
    fld "requests" ty_atomic_t ;;
    fld "flags" ty_u32 ;;
    fld "next_id" ty_u64 ;;
    fld "notifications" struct_list_head ;;
    mnil).

Definition enum_dma_data_direction : ctype :=
  enum_ 4 [("DMA_BIDIRECTIONAL", 0); ("DMA_TO_DEVICE", 1); ("DMA_FROM_DEVICE", 2); ("DMA_NONE", 3)].

Definition struct_page_pool_params_fast : ctype :=
  struct_ false (
    fld "order" (int_ 4 false) ;;
    fld "pool_size" (int_ 4 false) ;;
    fld "nid" (int_ 4 true) ;;
    fld "dev" (ptr "struct device") ;;
    fld "napi" (ptr "struct napi_struct") ;;
    fld "dma_dir" enum_dma_data_direction ;;
    fld "max_len" (int_ 4 false) ;;
    fld "offset" (int_ 4 false) ;;
    mnil).

Definition ty_netmem_ref : ctype :=
  int_ 8 false.

Definition struct_pp_alloc_cache : ctype :=
  struct_ false (
    fld "count" ty_u32 ;;
    fld "cache" (arr ty_netmem_ref 128) ;;
    mnil).

Definition struct_ptr_ring : ctype :=
  struct_ false (
    fld "producer" (int_ 4 true) ;;
    fld "producer_lock" ty_spinlock_t ;;
    bits "" (int_ 8 true) 64 ;;
    bits "" (int_ 8 true) 64 ;;
    bits "" (int_ 8 true) 64 ;;
    bits "" (int_ 8 true) 64 ;;
    bits "" (int_ 8 true) 64 ;;
    bits "" (int_ 8 true) 64 ;;
    bits "" (int_ 8 true) 64 ;;
    fld "consumer_head" (int_ 4 true) ;;
    fld "consumer_tail" (int_ 4 true) ;;
    fld "consumer_lock" ty_spinlock_t ;;
    bits "" (int_ 8 true) 64 ;;
    bits "" (int_ 8 true) 64 ;;
    bits "" (int_ 8 true) 64 ;;
    bits "" (int_ 8 true) 64 ;;
    bits "" (int_ 8 true) 64 ;;
    bits "" (int_ 8 true) 64 ;;
    fld "size" (int_ 4 true) ;;
    fld "batch" (int_ 4 true) ;;
    fld "queue" (ptr "void *") ;;
    bits "" (int_ 8 true) 64 ;;
    bits "" (int_ 8 true) 64 ;;
    bits "" (int_ 8 true) 64 ;;
    bits "" (int_ 8 true) 64 ;;
    bits "" (int_ 8 true) 64 ;;
    bits "" (int_ 8 true) 64 ;;
    mnil).

Definition struct_page_pool_params_slow : ctype :=
  struct_ false (
    fld "netdev" (ptr "struct net_device") ;;
    fld "queue_idx" (int_ 4 false) ;;
    fld "flags" (int_ 4 false) ;;
    fld "init_callback" (ptr "function") ;;
    fld "init_arg" (ptr "void") ;;
    mnil).

Definition struct_page_pool : ctype :=
  struct_ false (
    fld "p" struct_page_pool_params_fast ;;
    fld "cpuid" (int_ 4 true) ;;
    fld "pages_state_hold_cnt" ty_u32 ;;
    bits "has_init_callback" ty_bool 1 ;;
    bits "dma_map" ty_bool 1 ;;
    bits "dma_sync" ty_bool 1 ;;
    bits "" (int_ 8 true) 0 ;;
    fld "__cacheline_group_begin__frag" (arr ty___u8 0) ;;
    fld "frag_users" (int_ 8 true) ;;
    fld "frag_page" ty_netmem_ref ;;
    fld "frag_offset" (int_ 4 false) ;;
    bits "" (int_ 8 true) 0 ;;
    fld "__cacheline_group_end__frag" (arr ty___u8 0) ;;
    bits "" (int_ 8 true) 64 ;;
    fld "__cacheline_group_pad__frag" (struct_ false (
      mnil)) ;;
    fld "release_dw" struct_delayed_work ;;
    fld "disconnect" (ptr "function") ;;
    fld "defer_start" (int_ 8 false) ;;
    fld "defer_warn" (int_ 8 false) ;;
    fld "xdp_mem_id" ty_u32 ;;
    bits "" (int_ 8 true) 64 ;;
    bits "" (int_ 8 true) 64 ;;
    bits "" (int_ 8 true) 64 ;;
    bits "" (int_ 8 true) 64 ;;
    bits "" (int_ 8 true) 64 ;;
    fld "alloc" struct_pp_alloc_cache ;;
    bits "" (int_ 8 true) 64 ;;
    bits "" (int_ 8 true) 64 ;;
    bits "" (int_ 8 true) 64 ;;
    bits "" (int_ 8 true) 64 ;;
    bits "" (int_ 8 true) 64 ;;
    bits "" (int_ 8 true) 64 ;;
    bits "" (int_ 8 true) 64 ;;
    fld "ring" struct_ptr_ring ;;
    fld "mp_priv" (ptr "void") ;;
    fld "dma_mapped" struct_xarray ;;
    fld "pages_state_release_cnt" ty_atomic_t ;;
    fld "user_cnt" ty_refcount_t ;;
    fld "destroy_cnt" ty_u64 ;;
    fld "slow" struct_page_pool_params_slow ;;
    fld "user" (struct_ false (
      fld "list" struct_hlist_node ;;
      fld "detach_time" ty_u64 ;;
      fld "napi_id" ty_u32 ;;
      fld "id" ty_u32 ;;
      mnil)) ;;
    bits "" (int_ 8 true) 64 ;;
    bits "" (int_ 8 true) 64 ;;
    bits "" (int_ 8 true) 64 ;;
    mnil).

Definition struct_vmem_altmap : ctype :=
  struct_ false (
    fld "base_pfn" (int_ 8 false) ;;
    fld "end_pfn" (int_ 8 false) ;;
    fld "reserve" (int_ 8 false) ;;
    fld "free" (int_ 8 false) ;;
    fld "align" (int_ 8 false) ;;
    fld "alloc" (int_ 8 false) ;;
    fld "inaccessible" ty_bool ;;
    mnil).

Definition enum_memory_type : ctype :=
  enum_ 4 [("MEMORY_DEVICE_PRIVATE", 1); ("MEMORY_DEVICE_COHERENT", 2); ("MEMORY_DEVICE_FS_DAX", 3); ("MEMORY_DEVICE_GENERIC", 4); ("MEMORY_DEVICE_PCI_P2PDMA", 5)].

Definition struct_range : ctype :=
  struct_ false (
    fld "start" ty_u64 ;;
    fld "end" ty_u64 ;;
    mnil).

Definition struct_dev_pagemap : ctype :=
  struct_ false (
    fld "altmap" struct_vmem_altmap ;;
    fld "ref" struct_percpu_ref ;;
    fld "done" struct_completion ;;
    fld "type" enum_memory_type ;;
    fld "flags" (int_ 4 false) ;;
    fld "vmemmap_shift" (int_ 8 false) ;;
    fld "ops" (ptr "struct dev_pagemap_ops") ;;
    fld "owner" (ptr "void") ;;
    fld "nr_range" (int_ 4 true) ;;
    anon (union_ false (
      fld "range" struct_range ;;
      anon (struct_ false (
        fld "__empty_ranges" (struct_ false (
          mnil)) ;;
        fld "ranges" (arr struct_range 0) ;;
        mnil)) ;;
      mnil)) ;;
    mnil).

Definition struct_fred_cs : ctype :=
  struct_ false (
    bits "cs" ty_u64 16 ;;
    bits "sl" ty_u64 2 ;;
    bits "wfe" ty_u64 1 ;;
    mnil).

Definition struct_fred_ss : ctype :=
  struct_ false (
    bits "ss" ty_u64 16 ;;
    bits "sti" ty_u64 1 ;;
    bits "swevent" ty_u64 1 ;;
    bits "nmi" ty_u64 1 ;;
    bits "" (int_ 4 true) 13 ;;
    bits "vector" ty_u64 8 ;;
    bits "" (int_ 2 true) 8 ;;
    bits "type" ty_u64 4 ;;
    bits "" (int_ 1 true) 4 ;;
    bits "enclave" ty_u64 1 ;;
    bits "lm" ty_u64 1 ;;
    bits "nested" ty_u64 1 ;;
    bits "" (int_ 1 true) 1 ;;
    bits "insnlen" ty_u64 4 ;;
    mnil).

Definition struct_pt_regs : ctype :=
  struct_ false (
    fld "r15" (int_ 8 false) ;;
    fld "r14" (int_ 8 false) ;;
    fld "r13" (int_ 8 false) ;;
    fld "r12" (int_ 8 false) ;;
    fld "bp" (int_ 8 false) ;;
    fld "bx" (int_ 8 false) ;;
    fld "r11" (int_ 8 false) ;;
    fld "r10" (int_ 8 false) ;;
    fld "r9" (int_ 8 false) ;;
    fld "r8" (int_ 8 false) ;;
    fld "ax" (int_ 8 false) ;;
    fld "cx" (int_ 8 false) ;;
    fld "dx" (int_ 8 false) ;;
    fld "si" (int_ 8 false) ;;
    fld "di" (int_ 8 false) ;;
    fld "orig_ax" (int_ 8 false) ;;
    fld "ip" (int_ 8 false) ;;
    anon (union_ false (
      fld "cs" ty_u16 ;;
      fld "csx" ty_u64 ;;
      fld "fred_cs" struct_fred_cs ;;
      mnil)) ;;
    fld "flags" (int_ 8 false) ;;
    fld "sp" (int_ 8 false) ;;
    anon (union_ false (
      fld "ss" ty_u16 ;;
      fld "ssx" ty_u64 ;;
      fld "fred_ss" struct_fred_ss ;;
      mnil)) ;;
    mnil).

Definition struct_ftrace_hash : ctype :=
  struct_ false (
    fld "size_bits" (int_ 8 false) ;;
    fld "buckets" (ptr "struct hlist_head") ;;
    fld "count" (int_ 8 false) ;;
    fld "flags" (int_ 8 false) ;;
    fld "rcu" struct_callback_head ;;
    mnil).

Definition struct_pmu : ctype :=
  struct_ false (
    fld "entry" struct_list_head ;;
    fld "module" (ptr "struct module") ;;
    fld "dev" (ptr "struct device") ;;
    fld "parent" (ptr "struct device") ;;
    fld "attr_groups" (ptr "struct attribute_group *") ;;
    fld "attr_update" (ptr "struct attribute_group *") ;;
    fld "name" (ptr "char") ;;
    fld "type" (int_ 4 true) ;;
    fld "capabilities" (int_ 4 true) ;;
    fld "scope" (int_ 4 false) ;;
    fld "pmu_disable_count" (ptr "int") ;;
    fld "cpu_pmu_context" (ptr "struct perf_cpu_pmu_context") ;;
    fld "exclusive_cnt" ty_atomic_t ;;
    fld "task_ctx_nr" (int_ 4 true) ;;
    fld "hrtimer_interval_ms" (int_ 4 true) ;;
    fld "nr_addr_filters" (int_ 4 false) ;;
    fld "pmu_enable" (ptr "function") ;;
    fld "pmu_disable" (ptr "function") ;;
    fld "event_init" (ptr "function") ;;
    fld "event_mapped" (ptr "function") ;;
    fld "event_unmapped" (ptr "function") ;;
    fld "add" (ptr "function") ;;
    fld "del" (ptr "function") ;;
    fld "start" (ptr "function") ;;
    fld "stop" (ptr "function") ;;
    fld "read" (ptr "function") ;;
    fld "start_txn" (ptr "function") ;;
    fld "commit_txn" (ptr "function") ;;
    fld "cancel_txn" (ptr "function") ;;
    fld "event_idx" (ptr "function") ;;
    fld "sched_task" (ptr "function") ;;
    fld "task_ctx_cache" (ptr "struct kmem_cache") ;;
    fld "swap_task_ctx" (ptr "function") ;;
    fld "setup_aux" (ptr "function") ;;
    fld "free_aux" (ptr "function") ;;
    fld "snapshot_aux" (ptr "function") ;;
    fld "addr_filters_validate" (ptr "function") ;;
    fld "addr_filters_sync" (ptr "function") ;;
    fld "aux_output_match" (ptr "function") ;;
    fld "filter" (ptr "function") ;;
    fld "check_period" (ptr "function") ;;
    mnil).

Definition struct_perf_event_pmu_context : ctype :=
  struct_ false (
    fld "pmu" (ptr "struct pmu") ;;
    fld "ctx" (ptr "struct perf_event_context") ;;
    fld "pmu_ctx_entry" struct_list_head ;;
    fld "pinned_active" struct_list_head ;;
    fld "flexible_active" struct_list_head ;;
    bits "embedded" (int_ 4 false) 1 ;;
    fld "nr_events" (int_ 4 false) ;;
    fld "nr_cgroups" (int_ 4 false) ;;
    fld "nr_freq" (int_ 4 false) ;;
    fld "refcount" ty_atomic_t ;;
    fld "callback_head" struct_callback_head ;;
    fld "task_ctx_data" (ptr "void") ;;
    fld "rotate_necessary" (int_ 4 true) ;;
    mnil).

Definition struct_perf_buffer : ctype :=
  struct_ false (
    fld "refcount" ty_refcount_t ;;
    fld "callback_head" struct_callback_head ;;
    fld "nr_pages" (int_ 4 true) ;;
    fld "overwrite" (int_ 4 true) ;;
    fld "paused" (int_ 4 true) ;;
    fld "poll" ty_atomic_t ;;
    fld "head" ty_local_t ;;
    fld "nest" (int_ 4 false) ;;
    fld "events" ty_local_t ;;
    fld "wakeup" ty_local_t ;;
    fld "lost" ty_local_t ;;
    fld "watermark" (int_ 8 true) ;;
    fld "aux_watermark" (int_ 8 true) ;;
    fld "event_lock" ty_spinlock_t ;;
    fld "event_list" struct_list_head ;;
    fld "mmap_count" ty_atomic_t ;;
    fld "mmap_locked" (int_ 8 false) ;;
    fld "mmap_user" (ptr "struct user_struct") ;;
    fld "aux_mutex" struct_mutex ;;
    fld "aux_head" (int_ 8 true) ;;
    fld "aux_nest" (int_ 4 false) ;;
    fld "aux_wakeup" (int_ 8 true) ;;
    fld "aux_pgoff" (int_ 8 false) ;;
    fld "aux_nr_pages" (int_ 4 true) ;;
    fld "aux_overwrite" (int_ 4 true) ;;
    fld "aux_mmap_count" ty_atomic_t ;;
    fld "aux_mmap_locked" (int_ 8 false) ;;
    fld "free_aux" (ptr "function") ;;
    fld "aux_refcount" ty_refcount_t ;;
    fld "aux_in_sampling" (int_ 4 true) ;;
    fld "aux_in_pause_resume" (int_ 4 true) ;;
    fld "aux_pages" (ptr "void *") ;;
    fld "aux_priv" (ptr "void") ;;
    fld "user_page" (ptr "struct perf_event_mmap_page") ;;
    fld "data_pages" (arr (ptr "void") 0) ;;
    mnil).

Definition struct_qrwlock : ctype :=
  struct_ false (
    anon (union_ false (
      fld "cnts" ty_atomic_t ;;
      anon (struct_ false (
        fld "wlocked" ty_u8 ;;
        fld "__lstate" (arr ty_u8 3) ;;
        mnil)) ;;
      mnil)) ;;
    fld "wait_lock" ty_arch_spinlock_t ;;
    mnil).

Definition ty_arch_rwlock_t : ctype :=
  struct_qrwlock.

Definition ty_rwlock_t : ctype :=
  struct_ false (
    fld "raw_lock" ty_arch_rwlock_t ;;
    mnil).

Definition struct_fasync_struct : ctype :=
  struct_ false (
    fld "fa_lock" ty_rwlock_t ;;
    fld "magic" (int_ 4 true) ;;
    fld "fa_fd" (int_ 4 true) ;;
    fld "fa_next" (ptr "struct fasync_struct") ;;
    fld "fa_file" (ptr "struct file") ;;
    fld "fa_rcu" struct_callback_head ;;
    mnil).

Definition struct_perf_addr_filter_range : ctype :=
  struct_ false (
    fld "start" (int_ 8 false) ;;
    fld "size" (int_ 8 false) ;;
    mnil).

Definition struct_idr : ctype :=
  struct_ false (
    fld "idr_rt" struct_xarray ;;
    fld "idr_base" (int_ 4 false) ;;
    fld "idr_next" (int_ 4 false) ;;
    mnil).

Definition struct_ns_common : ctype :=
  struct_ false (
    fld "stashed" (ptr "struct dentry") ;;
    fld "ops" (ptr "struct proc_ns_operations") ;;
    fld "inum" (int_ 4 false) ;;
    fld "count" ty_refcount_t ;;
    mnil).

Definition struct_pid_namespace : ctype :=
  struct_ false (
    fld "idr" struct_idr ;;
    fld "rcu" struct_callback_head ;;
    fld "pid_allocated" (int_ 4 false) ;;
    fld "child_reaper" (ptr "struct task_struct") ;;
    fld "pid_cachep" (ptr "struct kmem_cache") ;;
    fld "level" (int_ 4 false) ;;
    fld "parent" (ptr "struct pid_namespace") ;;
    fld "bacct" (ptr "struct fs_pin") ;;
    fld "user_ns" (ptr "struct user_namespace") ;;
    fld "ucounts" (ptr "struct ucounts") ;;
    fld "reboot" (int_ 4 true) ;;
    fld "ns" struct_ns_common ;;
    fld "memfd_noexec_scope" (int_ 4 true) ;;
    mnil).

Definition struct_trace_event : ctype :=
  struct_ false (
    fld "node" struct_hlist_node ;;
    fld "type" (int_ 4 true) ;;
    fld "funcs" (ptr "struct trace_event_functions") ;;
    mnil).

Definition struct_trace_event_call : ctype :=
  struct_ false (
    fld "list" struct_list_head ;;
    fld "class" (ptr "struct trace_event_class") ;;
    anon (union_ false (
      fld "name" (ptr "char") ;;
      fld "tp" (ptr "struct tracepoint") ;;
      mnil)) ;;
    fld "event" struct_trace_event ;;
    fld "print_fmt" (ptr "char") ;;
    fld "filter" (ptr "struct event_filter") ;;
    anon (union_ false (
      fld "module" (ptr "void") ;;
      fld "refcnt" ty_atomic_t ;;
      mnil)) ;;
    fld "data" (ptr "void") ;;
    fld "flags" (int_ 4 true) ;;
    fld "perf_refcount" (int_ 4 true) ;;
    fld "perf_events" (ptr "struct hlist_head") ;;
    fld "prog_array" (ptr "struct bpf_prog_array") ;;
    fld "perf_perm" (ptr "function") ;;
    mnil).

Definition struct_event_filter : ctype :=
  struct_ false (
    fld "prog" (ptr "struct prog_entry") ;;
    fld "filter_string" (ptr "char") ;;
    mnil).

Definition struct_perf_cgroup : ctype :=
  struct_ false (
    fld "css" struct_cgroup_subsys_state ;;
    fld "info" (ptr "struct perf_cgroup_info") ;;
    mnil).

Definition struct_task_cputime : ctype :=
  struct_ false (
    fld "stime" ty_u64 ;;
    fld "utime" ty_u64 ;;
    fld "sum_exec_runtime" (int_ 8 false) ;;
    mnil).

Definition struct_cgroup_base_stat : ctype :=
  struct_ false (
    fld "cputime" struct_task_cputime ;;
    fld "forceidle_sum" ty_u64 ;;
    fld "ntime" ty_u64 ;;
    mnil).

Definition struct_cgroup_bpf : ctype :=
  struct_ false (
    fld "effective" (arr (ptr "struct bpf_prog_array") 38) ;;
    fld "progs" (arr struct_hlist_head 38) ;;
    fld "flags" (arr ty_u8 38) ;;
    fld "storages" struct_list_head ;;
    fld "inactive" (ptr "struct bpf_prog_array") ;;
    fld "refcnt" struct_percpu_ref ;;
    fld "release_work" struct_work_struct ;;
    mnil).

Definition struct_cgroup_freezer_state : ctype :=
  struct_ false (
    fld "freeze" ty_bool ;;
    fld "e_freeze" (int_ 4 true) ;;
    fld "nr_frozen_descendants" (int_ 4 true) ;;
    fld "nr_frozen_tasks" (int_ 4 true) ;;
    mnil).

Definition struct_cgroup : ctype :=
  struct_ false (
    fld "self" struct_cgroup_subsys_state ;;
    fld "flags" (int_ 8 false) ;;
    fld "level" (int_ 4 true) ;;
    fld "max_depth" (int_ 4 true) ;;
    fld "nr_descendants" (int_ 4 true) ;;
    fld "nr_dying_descendants" (int_ 4 true) ;;
    fld "max_descendants" (int_ 4 true) ;;
    fld "nr_populated_csets" (int_ 4 true) ;;
    fld "nr_populated_domain_children" (int_ 4 true) ;;
    fld "nr_populated_threaded_children" (int_ 4 true) ;;
    fld "nr_threaded_children" (int_ 4 true) ;;
    fld "kill_seq" (int_ 4 false) ;;
    fld "kn" (ptr "struct kernfs_node") ;;
    fld "procs_file" struct_cgroup_file ;;
    fld "events_file" struct_cgroup_file ;;
    fld "psi_files" (arr struct_cgroup_file 3) ;;
    fld "subtree_control" ty_u16 ;;
    fld "subtree_ss_mask" ty_u16 ;;
    fld "old_subtree_control" ty_u16 ;;
    fld "old_subtree_ss_mask" ty_u16 ;;
    fld "subsys" (arr (ptr "struct cgroup_subsys_state") 13) ;;
    fld "nr_dying_subsys" (arr (int_ 4 true) 13) ;;
    fld "root" (ptr "struct cgroup_root") ;;
    fld "cset_links" struct_list_head ;;
    fld "e_csets" (arr struct_list_head 13) ;;
    fld "dom_cgrp" (ptr "struct cgroup") ;;
    fld "old_dom_cgrp" (ptr "struct cgroup") ;;
    fld "rstat_cpu" (ptr "struct cgroup_rstat_cpu") ;;
    fld "rstat_css_list" struct_list_head ;;
    bits "" (int_ 8 true) 64 ;;
    bits "" (int_ 8 true) 64 ;;
    bits "" (int_ 8 true) 64 ;;
    bits "" (int_ 8 true) 64 ;;
    bits "" (int_ 8 true) 64 ;;
    fld "_pad_" struct_cacheline_padding ;;
    fld "rstat_flush_next" (ptr "struct cgroup") ;;
    fld "last_bstat" struct_cgroup_base_stat ;;
    fld "bstat" struct_cgroup_base_stat ;;
    fld "prev_cputime" struct_prev_cputime ;;
    fld "pidlists" struct_list_head ;;
    fld "pidlist_mutex" struct_mutex ;;
    fld "offline_waitq" ty_wait_queue_head_t ;;
    fld "release_agent_work" struct_work_struct ;;
    fld "psi" (ptr "struct psi_group") ;;
    fld "bpf" struct_cgroup_bpf ;;
    fld "freezer" struct_cgroup_freezer_state ;;
    fld "bpf_cgrp_storage" (ptr "struct bpf_local_storage") ;;
    fld "ancestors" (arr (ptr "struct cgroup") 0) ;;
    bits "" (int_ 8 true) 64 ;;
    bits "" (int_ 8 true) 64 ;;
    bits "" (int_ 8 true) 64 ;;
    bits "" (int_ 8 true) 64 ;;
    bits "" (int_ 8 true) 64 ;;
    bits "" (int_ 8 true) 64 ;;
    bits "" (int_ 8 true) 64 ;;
    mnil).

Definition struct_cgroup_subsys : ctype :=
  struct_ false (
    fld "css_alloc" (ptr "function") ;;
    fld "css_online" (ptr "function") ;;
    fld "css_offline" (ptr "function") ;;
    fld "css_released" (ptr "function") ;;
    fld "css_free" (ptr "function") ;;
    fld "css_reset" (ptr "function") ;;
    fld "css_killed" (ptr "function") ;;
    fld "css_rstat_flush" (ptr "function") ;;
    fld "css_extra_stat_show" (ptr "function") ;;
    fld "css_local_stat_show" (ptr "function") ;;
    fld "can_attach" (ptr "function") ;;
    fld "cancel_attach" (ptr "function") ;;
    fld "attach" (ptr "function") ;;
    fld "post_attach" (ptr "function") ;;
    fld "can_fork" (ptr "function") ;;
    fld "cancel_fork" (ptr "function") ;;
    fld "fork" (ptr "function") ;;
    fld "exit" (ptr "function") ;;
    fld "release" (ptr "function") ;;
    fld "bind" (ptr "function") ;;
    bits "early_init" ty_bool 1 ;;
    bits "implicit_on_dfl" ty_bool 1 ;;
    bits "threaded" ty_bool 1 ;;
    fld "id" (int_ 4 true) ;;
    fld "name" (ptr "char") ;;
    fld "legacy_name" (ptr "char") ;;
    fld "root" (ptr "struct cgroup_root") ;;
    fld "css_idr" struct_idr ;;
    fld "cfts" struct_list_head ;;
    fld "dfl_cftypes" (ptr "struct cftype") ;;
    fld "legacy_cftypes" (ptr "struct cftype") ;;
    fld "depends_on" (int_ 4 false) ;;
    mnil).

Definition struct_autogroup : ctype :=
  struct_ false (
    fld "kref" struct_kref ;;
    fld "tg" (ptr "struct task_group") ;;
    fld "lock" struct_rw_semaphore ;;
    fld "id" (int_ 8 false) ;;
    fld "nice" (int_ 4 true) ;;
    mnil).

Definition struct_kthread_worker : ctype :=
  struct_ false (
    fld "flags" (int_ 4 false) ;;
    fld "lock" ty_raw_spinlock_t ;;
    fld "work_list" struct_list_head ;;
    fld "delayed_work_list" struct_list_head ;;
    fld "task" (ptr "struct task_struct") ;;
    fld "current_work" (ptr "struct kthread_work") ;;
    mnil).

Definition struct_ldt_struct : ctype :=
  struct_ false (
    fld "entries" (ptr "struct desc_struct") ;;
    fld "nr_entries" (int_ 4 false) ;;
    fld "slot" (int_ 4 true) ;;
    mnil).

Definition struct_vdso_image : ctype :=
  struct_ false (
    fld "data" (ptr "void") ;;
    fld "size" (int_ 8 false) ;;
    fld "alt" (int_ 8 false) ;;
    fld "alt_len" (int_ 8 false) ;;
    fld "extable_base" (int_ 8 false) ;;
    fld "extable_len" (int_ 8 false) ;;
    fld "extable" (ptr "void") ;;
    fld "sym_vvar_start" (int_ 8 true) ;;
    fld "sym_vvar_page" (int_ 8 true) ;;
    fld "sym_pvclock_page" (int_ 8 true) ;;
    fld "sym_hvclock_page" (int_ 8 true) ;;
    fld "sym_timens_page" (int_ 8 true) ;;
    fld "sym_VDSO32_NOTE_MASK" (int_ 8 true) ;;
    fld "sym___kernel_sigreturn" (int_ 8 true) ;;
    fld "sym___kernel_rt_sigreturn" (int_ 8 true) ;;
    fld "sym___kernel_vsyscall" (int_ 8 true) ;;
    fld "sym_int80_landing_pad" (int_ 8 true) ;;
    fld "sym_vdso32_sigreturn_landing_pad" (int_ 8 true) ;;
    fld "sym_vdso32_rt_sigreturn_landing_pad" (int_ 8 true) ;;
    mnil).

Definition struct_xol_area : ctype :=
  struct_ false (
    fld "wq" ty_wait_queue_head_t ;;
    fld "slot_count" ty_atomic_t ;;
    fld "bitmap" (ptr "long unsigned int") ;;
    fld "page" (ptr "struct page") ;;
    fld "vaddr" (int_ 8 false) ;;
    mnil).

Definition struct_mm_cid : ctype :=
  struct_ false (
    fld "time" ty_u64 ;;
    fld "cid" (int_ 4 true) ;;
    mnil).

Definition struct_linux_binfmt : ctype :=
  struct_ false (
    fld "lh" struct_list_head ;;
    fld "module" (ptr "struct module") ;;
    fld "load_binary" (ptr "function") ;;
    fld "load_shlib" (ptr "function") ;;
    fld "core_dump" (ptr "function") ;;
    fld "min_coredump" (int_ 8 false) ;;
    mnil).

Definition struct_kioctx_table : ctype :=
  struct_ false (
    fld "rcu" struct_callback_head ;;
    fld "nr" (int_ 4 false) ;;
    fld "table" (arr (ptr "struct kioctx") 0) ;;
    mnil).

Definition struct_uid_gid_extent : ctype :=
  struct_ false (
    fld "first" ty_u32 ;;
    fld "lower_first" ty_u32 ;;
    fld "count" ty_u32 ;;
    mnil).

Definition struct_uid_gid_map : ctype :=
  struct_ false (
    anon (union_ false (
      anon (struct_ false (
        fld "extent" (arr struct_uid_gid_extent 5) ;;
        fld "nr_extents" ty_u32 ;;
        mnil)) ;;
      anon (struct_ false (
        fld "forward" (ptr "struct uid_gid_extent") ;;
        fld "reverse" (ptr "struct uid_gid_extent") ;;
        mnil)) ;;
      mnil)) ;;
    mnil).

Definition struct_ctl_table_header : ctype :=
  struct_ false (
    anon (union_ false (
      anon (struct_ false (
        fld "ctl_table" (ptr "struct ctl_table") ;;
        fld "ctl_table_size" (int_ 4 true) ;;
        fld "used" (int_ 4 true) ;;
        fld "count" (int_ 4 true) ;;
        fld "nreg" (int_ 4 true) ;;
        mnil)) ;;
      fld "rcu" struct_callback_head ;;
      mnil)) ;;
    fld "unregistering" (ptr "struct completion") ;;
    fld "ctl_table_arg" (ptr "struct ctl_table") ;;
    fld "root" (ptr "struct ctl_table_root") ;;
    fld "set" (ptr "struct ctl_table_set") ;;
    fld "parent" (ptr "struct ctl_dir") ;;
    fld "node" (ptr "struct ctl_node") ;;
    fld "inodes" struct_hlist_head ;;
    fld "type" (enum_ 4 [("SYSCTL_TABLE_TYPE_DEFAULT", 0); ("SYSCTL_TABLE_TYPE_PERMANENTLY_EMPTY", 1)]) ;;
    mnil).

Definition struct_ctl_dir : ctype :=
  struct_ false (
    fld "header" struct_ctl_table_header ;;
    fld "root" struct_rb_root ;;
    mnil).

Definition struct_ctl_table_set : ctype :=
  struct_ false (
    fld "is_seen" (ptr "function") ;;
    fld "dir" struct_ctl_dir ;;
    mnil).

Definition struct_user_namespace : ctype :=
  struct_ false (
    fld "uid_map" struct_uid_gid_map ;;
    fld "gid_map" struct_uid_gid_map ;;
    fld "projid_map" struct_uid_gid_map ;;
    fld "parent" (ptr "struct user_namespace") ;;
    fld "level" (int_ 4 true) ;;
    fld "owner" ty_kuid_t ;;
    fld "group" ty_kgid_t ;;
    fld "ns" struct_ns_common ;;
    fld "flags" (int_ 8 false) ;;
    fld "parent_could_setfcap" ty_bool ;;
    fld "keyring_name_list" struct_list_head ;;
    fld "user_keyring_register" (ptr "struct key") ;;
    fld "keyring_sem" struct_rw_semaphore ;;
    fld "persistent_keyring_register" (ptr "struct key") ;;
    fld "work" struct_work_struct ;;
    fld "set" struct_ctl_table_set ;;
    fld "sysctls" (ptr "struct ctl_table_header") ;;
    fld "ucounts" (ptr "struct ucounts") ;;
    fld "ucount_max" (arr (int_ 8 true) 12) ;;
    fld "rlimit_max" (arr (int_ 8 true) 4) ;;
    fld "binfmt_misc" (ptr "struct binfmt_misc") ;;
    mnil).

Definition ty_fmode_t : ctype :=
  int_ 4 false.

Definition struct_file_ra_state : ctype :=
  struct_ false (
    fld "start" (int_ 8 false) ;;
    fld "size" (int_ 4 false) ;;
    fld "async_size" (int_ 4 false) ;;
    fld "ra_pages" (int_ 4 false) ;;
    fld "mmap_miss" (int_ 4 false) ;;
    fld "prev_pos" ty_loff_t ;;
    mnil).

Definition ty_freeptr_t : ctype :=
  struct_ false (
    fld "v" (int_ 8 false) ;;
    mnil).

Definition struct_file : ctype :=
  struct_ false (
    fld "f_count" ty_atomic_long_t ;;
    fld "f_lock" ty_spinlock_t ;;
    fld "f_mode" ty_fmode_t ;;
    fld "f_op" (ptr "struct file_operations") ;;
    fld "f_mapping" (ptr "struct address_space") ;;
    fld "private_data" (ptr "void") ;;
    fld "f_inode" (ptr "struct inode") ;;
    fld "f_flags" (int_ 4 false) ;;
    fld "f_iocb_flags" (int_ 4 false) ;;
    fld "f_cred" (ptr "struct cred") ;;
    fld "f_path" struct_path ;;
    anon (union_ false (
      fld "f_pos_lock" struct_mutex ;;
      fld "f_pipe" ty_u64 ;;
      mnil)) ;;
    fld "f_pos" ty_loff_t ;;
    fld "f_security" (ptr "void") ;;
    fld "f_owner" (ptr "struct fown_struct") ;;
    fld "f_wb_err" ty_errseq_t ;;
    fld "f_sb_err" ty_errseq_t ;;
    fld "f_ep" (ptr "struct hlist_head") ;;
    anon (union_ false (
      fld "f_task_work" struct_callback_head ;;
      fld "f_llist" struct_llist_node ;;
      fld "f_ra" struct_file_ra_state ;;
      fld "f_freeptr" ty_freeptr_t ;;
      mnil)) ;;
    mnil).

Definition struct_mmu_notifier_subscriptions : ctype :=
  struct_ false (
    fld "list" struct_hlist_head ;;
    fld "has_itree" ty_bool ;;
    fld "lock" ty_spinlock_t ;;
    fld "invalidate_seq" (int_ 8 false) ;;
    fld "active_invalidate_ranges" (int_ 8 false) ;;
    fld "itree" struct_rb_root_cached ;;
    fld "wq" ty_wait_queue_head_t ;;
    fld "deferred_list" struct_hlist_head ;;
    mnil).

Definition struct_iommu_mm_data : ctype :=
  struct_ false (
    fld "pasid" ty_u32 ;;
    fld "sva_domains" struct_list_head ;;
    mnil).

Definition ty_blkcnt_t : ctype :=
  ty_u64.

Definition struct_inode : ctype :=
  struct_ false (
    fld "i_mode" ty_umode_t ;;
    fld "i_opflags" (int_ 2 false) ;;
    fld "i_uid" ty_kuid_t ;;
    fld "i_gid" ty_kgid_t ;;
    fld "i_flags" (int_ 4 false) ;;
    fld "i_acl" (ptr "struct posix_acl") ;;
    fld "i_default_acl" (ptr "struct posix_acl") ;;
    fld "i_op" (ptr "struct inode_operations") ;;
    fld "i_sb" (ptr "struct super_block") ;;
    fld "i_mapping" (ptr "struct address_space") ;;
    fld "i_security" (ptr "void") ;;
    fld "i_ino" (int_ 8 false) ;;
    anon (union_ false (
      fld "i_nlink" (int_ 4 false) ;;
      fld "__i_nlink" (int_ 4 false) ;;
      mnil)) ;;
    fld "i_rdev" ty_dev_t ;;
    fld "i_size" ty_loff_t ;;
    fld "i_atime_sec" ty_time64_t ;;
    fld "i_mtime_sec" ty_time64_t ;;
    fld "i_ctime_sec" ty_time64_t ;;
    fld "i_atime_nsec" ty_u32 ;;
    fld "i_mtime_nsec" ty_u32 ;;
    fld "i_ctime_nsec" ty_u32 ;;
    fld "i_generation" ty_u32 ;;
    fld "i_lock" ty_spinlock_t ;;
    fld "i_bytes" (int_ 2 false) ;;
    fld "i_blkbits" ty_u8 ;;
    fld "i_write_hint" enum_rw_hint ;;
    fld "i_blocks" ty_blkcnt_t ;;
    fld "i_state" ty_u32 ;;
    fld "i_rwsem" struct_rw_semaphore ;;
    fld "dirtied_when" (int_ 8 false) ;;
    fld "dirtied_time_when" (int_ 8 false) ;;
    fld "i_hash" struct_hlist_node ;;
    fld "i_io_list" struct_list_head ;;
    fld "i_wb" (ptr "struct bdi_writeback") ;;
    fld "i_wb_frn_winner" (int_ 4 true) ;;
    fld "i_wb_frn_avg_time" ty_u16 ;;
    fld "i_wb_frn_history" ty_u16 ;;
    fld "i_lru" struct_list_head ;;
    fld "i_sb_list" struct_list_head ;;
    fld "i_wb_list" struct_list_head ;;
    anon (union_ false (
      fld "i_dentry" struct_hlist_head ;;
      fld "i_rcu" struct_callback_head ;;
      mnil)) ;;
    fld "i_version" ty_atomic64_t ;;
    fld "i_sequence" ty_atomic64_t ;;
    fld "i_count" ty_atomic_t ;;
    fld "i_dio_count" ty_atomic_t ;;
    fld "i_writecount" ty_atomic_t ;;
    fld "i_readcount" ty_atomic_t ;;
    anon (union_ false (
      fld "i_fop" (ptr "struct file_operations") ;;
      fld "free_inode" (ptr "function") ;;
      mnil)) ;;
    fld "i_flctx" (ptr "struct file_lock_context") ;;
    fld "i_data" struct_address_space ;;
    fld "i_devices" struct_list_head ;;
    anon (union_ false (
      fld "i_pipe" (ptr "struct pipe_inode_info") ;;
      fld "i_cdev" (ptr "struct cdev") ;;
      fld "i_link" (ptr "char") ;;
      fld "i_dir_seq" (int_ 4 false) ;;
      mnil)) ;;
    fld "i_fsnotify_mask" ty___u32 ;;
    fld "i_fsnotify_marks" (ptr "struct fsnotify_mark_connector") ;;
    fld "i_crypt_info" (ptr "struct fscrypt_inode_info") ;;
    fld "i_verity_info" (ptr "struct fsverity_info") ;;
    fld "i_private" (ptr "void") ;;
    mnil).

Definition struct_address_space_operations : ctype :=
  struct_ false (
    fld "writepage" (ptr "function") ;;
    fld "read_folio" (ptr "function") ;;
    fld "writepages" (ptr "function") ;;
    fld "dirty_folio" (ptr "function") ;;
    fld "readahead" (ptr "function") ;;
    fld "write_begin" (ptr "function") ;;
    fld "write_end" (ptr "function") ;;
    fld "bmap" (ptr "function") ;;
    fld "invalidate_folio" (ptr "function") ;;
    fld "release_folio" (ptr "function") ;;
    fld "free_folio" (ptr "function") ;;
    fld "direct_IO" (ptr "function") ;;
    fld "migrate_folio" (ptr "function") ;;
    fld "launder_folio" (ptr "function") ;;
    fld "is_partially_uptodate" (ptr "function") ;;
    fld "is_dirty_writeback" (ptr "function") ;;
    fld "error_remove_folio" (ptr "function") ;;
    fld "swap_activate" (ptr "function") ;;
    fld "swap_deactivate" (ptr "function") ;;
    fld "swap_rw" (ptr "function") ;;
    mnil).

Definition struct_ratelimit_state : ctype :=
  struct_ false (
    fld "lock" ty_raw_spinlock_t ;;
    fld "interval" (int_ 4 true) ;;
    fld "burst" (int_ 4 true) ;;
    fld "printed" (int_ 4 true) ;;
    fld "missed" (int_ 4 true) ;;
    fld "flags" (int_ 4 false) ;;
    fld "begin" (int_ 8 false) ;;
    mnil).

Definition struct_user_struct : ctype :=
  struct_ false (
    fld "__count" ty_refcount_t ;;
    fld "epoll_watches" struct_percpu_counter ;;
    fld "unix_inflight" (int_ 8 false) ;;
    fld "pipe_bufs" ty_atomic_long_t ;;
    fld "uidhash_node" struct_hlist_node ;;
    fld "uid" ty_kuid_t ;;
    fld "locked_vm" ty_atomic_long_t ;;
    fld "nr_watches" ty_atomic_t ;;
    fld "ratelimit" struct_ratelimit_state ;;
    mnil).

Definition struct_ucounts : ctype :=
  struct_ false (
    fld "node" struct_hlist_node ;;
    fld "ns" (ptr "struct user_namespace") ;;
    fld "uid" ty_kuid_t ;;
    fld "count" ty_atomic_t ;;
    fld "ucount" (arr ty_atomic_long_t 12) ;;
    fld "rlimit" (arr ty_atomic_long_t 4) ;;
    mnil).

Definition struct_group_info : ctype :=
  struct_ false (
    fld "usage" ty_refcount_t ;;
    fld "ngroups" (int_ 4 true) ;;
    fld "gid" (arr ty_kgid_t 0) ;;
    mnil).

Definition ty_request_key_actor_t : ctype :=
  ptr "function".

Definition struct_key_type : ctype :=
  struct_ false (
    fld "name" (ptr "char") ;;
    fld "def_datalen" ty_size_t ;;
    fld "flags" (int_ 4 false) ;;
    fld "vet_description" (ptr "function") ;;
    fld "preparse" (ptr "function") ;;
    fld "free_preparse" (ptr "function") ;;
    fld "instantiate" (ptr "function") ;;
    fld "update" (ptr "function") ;;
    fld "match_preparse" (ptr "function") ;;
    fld "match_free" (ptr "function") ;;
    fld "revoke" (ptr "function") ;;
    fld "destroy" (ptr "function") ;;
    fld "describe" (ptr "function") ;;
    fld "read" (ptr "function") ;;
    fld "request_key" ty_request_key_actor_t ;;
    fld "lookup_restriction" (ptr "function") ;;
    fld "asym_query" (ptr "function") ;;
    fld "asym_eds_op" (ptr "function") ;;
    fld "asym_verify_signature" (ptr "function") ;;
    fld "link" struct_list_head ;;
    fld "lock_class" struct_lock_class_key ;;
    mnil).

Definition struct_key_tag : ctype :=
  struct_ false (
    fld "rcu" struct_callback_head ;;
    fld "usage" ty_refcount_t ;;
    fld "removed" ty_bool ;;
    mnil).

Definition struct_watch_list : ctype :=
  struct_ false (
    fld "rcu" struct_callback_head ;;
    fld "watchers" struct_hlist_head ;;
    fld "release_watch" (ptr "function") ;;
    fld "lock" ty_spinlock_t ;;
    mnil).

Definition struct_key_user : ctype :=
  struct_ false (
    fld "node" struct_rb_node ;;
    fld "cons_lock" struct_mutex ;;
    fld "lock" ty_spinlock_t ;;
    fld "usage" ty_refcount_t ;;
    fld "nkeys" ty_atomic_t ;;
    fld "nikeys" ty_atomic_t ;;
    fld "uid" ty_kuid_t ;;
    fld "qnkeys" (int_ 4 true) ;;
    fld "qnbytes" (int_ 4 true) ;;
    mnil).

Definition ty_key_restrict_link_func_t : ctype :=
  ptr "function".

Definition struct_key_restriction : ctype :=
  struct_ false (
    fld "check" ty_key_restrict_link_func_t ;;
    fld "key" (ptr "struct key") ;;
    fld "keytype" (ptr "struct key_type") ;;
    mnil).

Definition struct_vfsmount : ctype :=
  struct_ false (
    fld "mnt_root" (ptr "struct dentry") ;;
    fld "mnt_sb" (ptr "struct super_block") ;;
    fld "mnt_flags" (int_ 4 true) ;;
    fld "mnt_idmap" (ptr "struct mnt_idmap") ;;
    mnil).

Definition struct_filename : ctype :=
  struct_ false (
    fld "name" (ptr "char") ;;
    fld "uptr" (ptr "char") ;;
    fld "refcnt" ty_atomic_t ;;
    fld "aname" (ptr "struct audit_names") ;;
    fld "iname" (arr (int_ 1 true) 0) ;;
    mnil).

Definition enum_tk_offsets : ctype :=
  enum_ 4 [("TK_OFFS_REAL", 0); ("TK_OFFS_BOOT", 1); ("TK_OFFS_TAI", 2); ("TK_OFFS_MAX", 3)].

Definition enum_task_work_notify_mode : ctype :=
  enum_ 4 [("TWA_NONE", 0); ("TWA_RESUME", 1); ("TWA_SIGNAL", 2); ("TWA_SIGNAL_NO_IPI", 3); ("TWA_NMI_CURRENT", 4); ("TWA_FLAGS", 65280); ("TWAF_NO_ALLOC", 256)].

Definition struct_io_wq_work_list : ctype :=
  struct_ false (
    fld "first" (ptr "struct io_wq_work_node") ;;
    fld "last" (ptr "struct io_wq_work_node") ;;
    mnil).

Definition struct_io_file_table : ctype :=
  struct_ false (
    fld "files" (ptr "struct io_fixed_file") ;;
    fld "bitmap" (ptr "long unsigned int") ;;
    fld "alloc_hint" (int_ 4 false) ;;
    mnil).

Definition struct_io_wq_work_node : ctype :=
  struct_ false (
    fld "next" (ptr "struct io_wq_work_node") ;;
    mnil).

Definition struct_io_submit_link : ctype :=
  struct_ false (
    fld "head" (ptr "struct io_kiocb") ;;
    fld "last" (ptr "struct io_kiocb") ;;
    mnil).

Definition struct_io_submit_state : ctype :=
  struct_ false (
    fld "free_list" struct_io_wq_work_node ;;
    fld "compl_reqs" struct_io_wq_work_list ;;
    fld "link" struct_io_submit_link ;;
    fld "plug_started" ty_bool ;;
    fld "need_plug" ty_bool ;;
    fld "cq_flush" ty_bool ;;
    fld "submit_nr" (int_ 2 false) ;;
    fld "plug" struct_blk_plug ;;
    mnil).

Definition struct_io_hash_table : ctype :=
  struct_ false (
    fld "hbs" (ptr "struct io_hash_bucket") ;;
    fld "hash_bits" (int_ 4 false) ;;
    mnil).

Definition struct_io_alloc_cache : ctype :=
  struct_ false (
    fld "entries" (ptr "void *") ;;
    fld "nr_cached" (int_ 4 false) ;;
    fld "max_cached" (int_ 4 false) ;;
    fld "elem_size" ty_size_t ;;
    mnil).

Definition struct_io_restriction : ctype :=
  struct_ false (
    fld "register_op" (arr (int_ 8 false) 1) ;;
    fld "sqe_op" (arr (int_ 8 false) 1) ;;
    fld "sqe_flags_allowed" ty_u8 ;;
    fld "sqe_flags_required" ty_u8 ;;
    fld "registered" ty_bool ;;
    mnil).

Definition struct_io_ring_ctx : ctype :=
  struct_ false (
    anon (struct_ false (
      fld "flags" (int_ 4 false) ;;
      bits "drain_next" (int_ 4 false) 1 ;;
      bits "restricted" (int_ 4 false) 1 ;;
      bits "off_timeout_used" (int_ 4 false) 1 ;;
      bits "drain_active" (int_ 4 false) 1 ;;
      bits "has_evfd" (int_ 4 false) 1 ;;
      bits "task_complete" (int_ 4 false) 1 ;;
      bits "lockless_cq" (int_ 4 false) 1 ;;
      bits "syscall_iopoll" (int_ 4 false) 1 ;;
      bits "poll_activated" (int_ 4 false) 1 ;;
      bits "drain_disabled" (int_ 4 false) 1 ;;
      bits "compat" (int_ 4 false) 1 ;;
      bits "iowq_limits_set" (int_ 4 false) 1 ;;
      fld "submitter_task" (ptr "struct task_struct") ;;
      fld "rings" (ptr "struct io_rings") ;;
      fld "refs" struct_percpu_ref ;;
      fld "clockid" ty_clockid_t ;;
      fld "clock_offset" enum_tk_offsets ;;
      fld "notify_method" enum_task_work_notify_mode ;;
      fld "sq_thread_idle" (int_ 4 false) ;;
      bits "" (int_ 8 true) 64 ;;
      mnil)) ;;
    anon (struct_ false (
      fld "uring_lock" struct_mutex ;;
      fld "sq_array" (ptr "u32") ;;
      fld "sq_sqes" (ptr "struct io_uring_sqe") ;;
      fld "cached_sq_head" (int_ 4 false) ;;
      fld "sq_entries" (int_ 4 false) ;;
      fld "rsrc_node" (ptr "struct io_rsrc_node") ;;
      fld "cancel_seq" ty_atomic_t ;;
      fld "poll_multi_queue" ty_bool ;;
      fld "iopoll_list" struct_io_wq_work_list ;;
      fld "file_table" struct_io_file_table ;;
      fld "user_bufs" (ptr "struct io_mapped_ubuf *") ;;
      fld "nr_user_files" (int_ 4 false) ;;
      fld "nr_user_bufs" (int_ 4 false) ;;
      fld "submit_state" struct_io_submit_state ;;
      fld "io_bl_xa" struct_xarray ;;
      fld "cancel_table_locked" struct_io_hash_table ;;
      fld "apoll_cache" struct_io_alloc_cache ;;
      fld "netmsg_cache" struct_io_alloc_cache ;;
      fld "rw_cache" struct_io_alloc_cache ;;
      fld "uring_cache" struct_io_alloc_cache ;;
      fld "cancelable_uring_cmd" struct_hlist_head ;;
      bits "" (int_ 8 true) 64 ;;
      mnil)) ;;
    anon (struct_ false (
      fld "cqe_cached" (ptr "struct io_uring_cqe") ;;
      fld "cqe_sentinel" (ptr "struct io_uring_cqe") ;;
      fld "cached_cq_tail" (int_ 4 false) ;;
      fld "cq_entries" (int_ 4 false) ;;
      fld "io_ev_fd" (ptr "struct io_ev_fd") ;;
      fld "cq_extra" (int_ 4 false) ;;
      bits "" (int_ 8 true) 64 ;;
      bits "" (int_ 8 true) 64 ;;
      bits "" (int_ 8 true) 64 ;;
      mnil)) ;;
    anon (struct_ false (
      fld "work_llist" struct_llist_head ;;
      fld "check_cq" (int_ 8 false) ;;
      fld "cq_wait_nr" ty_atomic_t ;;
      fld "cq_timeouts" ty_atomic_t ;;
      fld "cq_wait" struct_wait_queue_head ;;
      bits "" (int_ 8 true) 64 ;;
      bits "" (int_ 8 true) 64 ;;
      mnil)) ;;
    anon (struct_ false (
      fld "timeout_lock" ty_spinlock_t ;;
      fld "timeout_list" struct_list_head ;;
      fld "ltimeout_list" struct_list_head ;;
      fld "cq_last_tm_flush" (int_ 4 false) ;;
      bits "" (int_ 8 true) 64 ;;
      bits "" (int_ 8 true) 64 ;;
      mnil)) ;;
    fld "completion_lock" ty_spinlock_t ;;
    fld "io_buffers_comp" struct_list_head ;;
    fld "cq_overflow_list" struct_list_head ;;
    fld "cancel_table" struct_io_hash_table ;;
    fld "waitid_list" struct_hlist_head ;;
    fld "futex_list" struct_hlist_head ;;
    fld "futex_cache" struct_io_alloc_cache ;;
    fld "sq_creds" (ptr "struct cred") ;;
    fld "sq_data" (ptr "struct io_sq_data") ;;
    fld "sqo_sq_wait" struct_wait_queue_head ;;
    fld "sqd_list" struct_list_head ;;
    fld "file_alloc_start" (int_ 4 false) ;;
    fld "file_alloc_end" (int_ 4 false) ;;
    fld "io_buffers_cache" struct_list_head ;;
    fld "poll_wq" struct_wait_queue_head ;;
    fld "restrictions" struct_io_restriction ;;
    fld "file_data" (ptr "struct io_rsrc_data") ;;
    fld "buf_data" (ptr "struct io_rsrc_data") ;;
    fld "rsrc_ref_list" struct_list_head ;;
    fld "rsrc_node_cache" struct_io_alloc_cache ;;
    fld "rsrc_quiesce_wq" struct_wait_queue_head ;;
    fld "rsrc_quiesce" (int_ 4 false) ;;
    fld "pers_next" ty_u32 ;;
    fld "personalities" struct_xarray ;;
    fld "hash_map" (ptr "struct io_wq_hash") ;;
    fld "user" (ptr "struct user_struct") ;;
    fld "mm_account" (ptr "struct mm_struct") ;;
    fld "fallback_llist" struct_llist_head ;;
    fld "fallback_work" struct_delayed_work ;;
    fld "exit_work" struct_work_struct ;;
    fld "tctx_list" struct_list_head ;;
    fld "ref_comp" struct_completion ;;
    fld "iowq_limits" (arr ty_u32 2) ;;
    fld "poll_wq_task_work" struct_callback_head ;;
    fld "defer_list" struct_list_head ;;
    fld "napi_list" struct_list_head ;;
    fld "napi_lock" ty_spinlock_t ;;
    fld "napi_busy_poll_dt" ty_ktime_t ;;
    fld "napi_prefer_busy_poll" ty_bool ;;
    fld "napi_enabled" ty_bool ;;
    fld "napi_ht" (arr struct_hlist_head 16) ;;
    fld "evfd_last_cq_tail" (int_ 4 false) ;;
    fld "n_ring_pages" (int_ 2 false) ;;
    fld "n_sqe_pages" (int_ 2 false) ;;
    fld "ring_pages" (ptr "struct page *") ;;
    fld "sqe_pages" (ptr "struct page *") ;;
    bits "" (int_ 8 true) 64 ;;
    mnil).

Definition struct_io_wq_acct : ctype :=
  struct_ false (
    fld "nr_workers" (int_ 4 false) ;;
    fld "max_workers" (int_ 4 false) ;;
    fld "index" (int_ 4 true) ;;
    fld "nr_running" ty_atomic_t ;;
    fld "lock" ty_raw_spinlock_t ;;
    fld "work_list" struct_io_wq_work_list ;;
    fld "flags" (int_ 8 false) ;;
    mnil).

Definition struct_hlist_nulls_head : ctype :=
  struct_ false (
    fld "first" (ptr "struct hlist_nulls_node") ;;
    mnil).

Definition struct_io_wq : ctype :=
  struct_ false (
    fld "state" (int_ 8 false) ;;
    fld "free_work" (ptr "free_work_fn") ;;
    fld "do_work" (ptr "io_wq_work_fn") ;;
    fld "hash" (ptr "struct io_wq_hash") ;;
    fld "worker_refs" ty_atomic_t ;;
    fld "worker_done" struct_completion ;;
    fld "cpuhp_node" struct_hlist_node ;;
    fld "task" (ptr "struct task_struct") ;;
    fld "acct" (arr struct_io_wq_acct 2) ;;
    fld "lock" ty_raw_spinlock_t ;;
    fld "free_list" struct_hlist_nulls_head ;;
    fld "all_list" struct_list_head ;;
    fld "wait" struct_wait_queue_entry ;;
    fld "hash_tail" (arr (ptr "struct io_wq_work") 64) ;;
    fld "cpu_mask" ty_cpumask_var_t ;;
    mnil).

Definition struct_new_utsname : ctype :=
  struct_ false (
    fld "sysname" (arr (int_ 1 true) 65) ;;
    fld "nodename" (arr (int_ 1 true) 65) ;;
    fld "release" (arr (int_ 1 true) 65) ;;
    fld "version" (arr (int_ 1 true) 65) ;;
    fld "machine" (arr (int_ 1 true) 65) ;;
    fld "domainname" (arr (int_ 1 true) 65) ;;
    mnil).

Definition struct_uts_namespace : ctype :=
  struct_ false (
    fld "name" struct_new_utsname ;;
    fld "user_ns" (ptr "struct user_namespace") ;;
    fld "ucounts" (ptr "struct ucounts") ;;
    fld "ns" struct_ns_common ;;
    mnil).

Definition ty_rht_hashfn_t : ctype :=
  ptr "function".

Definition ty_rht_obj_hashfn_t : ctype :=
  ptr "function".

Definition ty_rht_obj_cmpfn_t : ctype :=
  ptr "function".

Definition struct_rhashtable_params : ctype :=
  struct_ false (
    fld "nelem_hint" ty_u16 ;;
    fld "key_len" ty_u16 ;;
    fld "key_offset" ty_u16 ;;
    fld "head_offset" ty_u16 ;;
    fld "max_size" (int_ 4 false) ;;
    fld "min_size" ty_u16 ;;
    fld "automatic_shrinking" ty_bool ;;
    fld "hashfn" ty_rht_hashfn_t ;;
    fld "obj_hashfn" ty_rht_obj_hashfn_t ;;
    fld "obj_cmpfn" ty_rht_obj_cmpfn_t ;;
    mnil).

Definition struct_rhashtable : ctype :=
  struct_ false (
    fld "tbl" (ptr "struct bucket_table") ;;
    fld "key_len" (int_ 4 false) ;;
    fld "max_elems" (int_ 4 false) ;;
    fld "p" struct_rhashtable_params ;;
    fld "rhlist" ty_bool ;;
    fld "run_work" struct_work_struct ;;
    fld "mutex" struct_mutex ;;
    fld "lock" ty_spinlock_t ;;
    fld "nelems" ty_atomic_t ;;
    mnil).

Definition struct_ipc_ids : ctype :=
  struct_ false (
    fld "in_use" (int_ 4 true) ;;
    fld "seq" (int_ 2 false) ;;
    fld "rwsem" struct_rw_semaphore ;;
    fld "ipcs_idr" struct_idr ;;
    fld "max_idx" (int_ 4 true) ;;
    fld "last_idx" (int_ 4 true) ;;
    fld "next_id" (int_ 4 true) ;;
    fld "key_ht" struct_rhashtable ;;
    mnil).

Definition ty_notifier_fn_t : ctype :=
  ptr "function".

Definition struct_notifier_block : ctype :=
  struct_ false (
    fld "notifier_call" ty_notifier_fn_t ;;
    fld "next" (ptr "struct notifier_block") ;;
    fld "priority" (int_ 4 true) ;;
    mnil).

Definition struct_ipc_namespace : ctype :=
  struct_ false (
    fld "ids" (arr struct_ipc_ids 3) ;;
    fld "sem_ctls" (arr (int_ 4 true) 4) ;;
    fld "used_sems" (int_ 4 true) ;;
    fld "msg_ctlmax" (int_ 4 false) ;;
    fld "msg_ctlmnb" (int_ 4 false) ;;
    fld "msg_ctlmni" (int_ 4 false) ;;
    fld "percpu_msg_bytes" struct_percpu_counter ;;
    fld "percpu_msg_hdrs" struct_percpu_counter ;;
    fld "shm_ctlmax" ty_size_t ;;
    fld "shm_ctlall" ty_size_t ;;
    fld "shm_tot" (int_ 8 false) ;;
    fld "shm_ctlmni" (int_ 4 true) ;;
    fld "shm_rmid_forced" (int_ 4 true) ;;
    fld "ipcns_nb" struct_notifier_block ;;
    fld "mq_mnt" (ptr "struct vfsmount") ;;
    fld "mq_queues_count" (int_ 4 false) ;;
    fld "mq_queues_max" (int_ 4 false) ;;
    fld "mq_msg_max" (int_ 4 false) ;;
    fld "mq_msgsize_max" (int_ 4 false) ;;
    fld "mq_msg_default" (int_ 4 false) ;;
    fld "mq_msgsize_default" (int_ 4 false) ;;
    fld "mq_set" struct_ctl_table_set ;;
    fld "mq_sysctls" (ptr "struct ctl_table_header") ;;
    fld "ipc_set" struct_ctl_table_set ;;
    fld "ipc_sysctls" (ptr "struct ctl_table_header") ;;
    fld "user_ns" (ptr "struct user_namespace") ;;
    fld "ucounts" (ptr "struct ucounts") ;;
    fld "mnt_llist" struct_llist_node ;;
    fld "ns" struct_ns_common ;;
    mnil).

Definition struct_mnt_namespace : ctype :=
  struct_ false (
    fld "ns" struct_ns_common ;;
    fld "root" (ptr "struct mount") ;;
    fld "mounts" struct_rb_root ;;
    fld "user_ns" (ptr "struct user_namespace") ;;
    fld "ucounts" (ptr "struct ucounts") ;;
    fld "seq" ty_u64 ;;
    fld "poll" ty_wait_queue_head_t ;;
    fld "event" ty_u64 ;;
    fld "nr_mounts" (int_ 4 false) ;;
    fld "pending_mounts" (int_ 4 false) ;;
    fld "mnt_ns_tree_node" struct_rb_node ;;
    fld "passive" ty_refcount_t ;;
    mnil).

Definition struct_ref_tracker_dir : ctype :=
  struct_ false (
    mnil).

Definition struct_raw_notifier_head : ctype :=
  struct_ false (
    fld "head" (ptr "struct notifier_block") ;;
    mnil).

Definition struct_netns_core : ctype :=
  struct_ false (
    fld "sysctl_hdr" (ptr "struct ctl_table_header") ;;
    fld "sysctl_somaxconn" (int_ 4 true) ;;
    fld "sysctl_optmem_max" (int_ 4 true) ;;
    fld "sysctl_txrehash" ty_u8 ;;
    fld "prot_inuse" (ptr "struct prot_inuse") ;;
    fld "rps_default_mask" (ptr "struct cpumask") ;;
    mnil).

Definition struct_netns_mib : ctype :=
  struct_ false (
    fld "ip_statistics" (ptr "struct ipstats_mib") ;;
    fld "ipv6_statistics" (ptr "struct ipstats_mib") ;;
    fld "tcp_statistics" (ptr "struct tcp_mib") ;;
    fld "net_statistics" (ptr "struct linux_mib") ;;
    fld "udp_statistics" (ptr "struct udp_mib") ;;
    fld "udp_stats_in6" (ptr "struct udp_mib") ;;
    fld "tls_statistics" (ptr "struct linux_tls_mib") ;;
    fld "mptcp_statistics" (ptr "struct mptcp_mib") ;;
    fld "udplite_statistics" (ptr "struct udp_mib") ;;
    fld "udplite_stats_in6" (ptr "struct udp_mib") ;;
    fld "icmp_statistics" (ptr "struct icmp_mib") ;;
    fld "icmpmsg_statistics" (ptr "struct icmpmsg_mib") ;;
    fld "icmpv6_statistics" (ptr "struct icmpv6_mib") ;;
    fld "icmpv6msg_statistics" (ptr "struct icmpv6msg_mib") ;;
    fld "proc_net_devsnmp6" (ptr "struct proc_dir_entry") ;;
    mnil).

Definition struct_netns_packet : ctype :=
  struct_ false (
    fld "sklist_lock" struct_mutex ;;
    fld "sklist" struct_hlist_head ;;
    mnil).

Definition struct_unix_table : ctype :=
  struct_ false (
    fld "locks" (ptr "spinlock_t") ;;
    fld "buckets" (ptr "struct hlist_head") ;;
    mnil).

Definition struct_netns_unix : ctype :=
  struct_ false (
    fld "table" struct_unix_table ;;
    fld "sysctl_max_dgram_qlen" (int_ 4 true) ;;
    fld "ctl" (ptr "struct ctl_table_header") ;;
    mnil).

Definition struct_netns_nexthop : ctype :=
  struct_ false (
    fld "rb_root" struct_rb_root ;;
    fld "devhash" (ptr "struct hlist_head") ;;
    fld "seq" (int_ 4 false) ;;
    fld "last_id_allocated" ty_u32 ;;
    fld "notifier_chain" struct_blocking_notifier_head ;;
    mnil).

Definition struct_inet_timewait_death_row : ctype :=
  struct_ false (
    fld "tw_refcount" ty_refcount_t ;;
    bits "" (int_ 8 true) 64 ;;
    bits "" (int_ 8 true) 64 ;;
    bits "" (int_ 8 true) 64 ;;
    bits "" (int_ 8 true) 64 ;;
    bits "" (int_ 8 true) 64 ;;
    bits "" (int_ 8 true) 64 ;;
    bits "" (int_ 8 true) 64 ;;
    fld "hashinfo" (ptr "struct inet_hashinfo") ;;
    fld "sysctl_max_tw_buckets" (int_ 4 true) ;;
    bits "" (int_ 8 true) 64 ;;
    bits "" (int_ 8 true) 64 ;;
    bits "" (int_ 8 true) 64 ;;
    bits "" (int_ 8 true) 64 ;;
    bits "" (int_ 8 true) 64 ;;
    bits "" (int_ 8 true) 64 ;;
    mnil).

Definition struct_local_ports : ctype :=
  struct_ false (
    fld "range" ty_u32 ;;
    fld "warned" ty_bool ;;
    mnil).

Definition struct_ping_group_range : ctype :=
  struct_ false (
    fld "lock" ty_seqlock_t ;;
    fld "range" (arr ty_kgid_t 2) ;;
    mnil).

Definition struct_sysctl_fib_multipath_hash_seed : ctype :=
  struct_ false (
    fld "user_seed" ty_u32 ;;
    fld "mp_seed" ty_u32 ;;
    mnil).

Definition ty_siphash_key_t : ctype :=
  struct_ false (
    fld "key" (arr ty_u64 2) ;;
    mnil).

Definition struct_netns_ipv4 : ctype :=
  struct_ false (
    fld "__cacheline_group_begin__netns_ipv4_read_tx" (arr ty___u8 0) ;;
    fld "sysctl_tcp_early_retrans" ty_u8 ;;
    fld "sysctl_tcp_tso_win_divisor" ty_u8 ;;
    fld "sysctl_tcp_tso_rtt_log" ty_u8 ;;
    fld "sysctl_tcp_autocorking" ty_u8 ;;
    fld "sysctl_tcp_min_snd_mss" (int_ 4 true) ;;
    fld "sysctl_tcp_notsent_lowat" (int_ 4 false) ;;
    fld "sysctl_tcp_limit_output_bytes" (int_ 4 true) ;;
    fld "sysctl_tcp_min_rtt_wlen" (int_ 4 true) ;;
    fld "sysctl_tcp_wmem" (arr (int_ 4 true) 3) ;;
    fld "sysctl_ip_fwd_use_pmtu" ty_u8 ;;
    fld "__cacheline_group_end__netns_ipv4_read_tx" (arr ty___u8 0) ;;
    fld "__cacheline_group_begin__netns_ipv4_read_txrx" (arr ty___u8 0) ;;
    fld "sysctl_tcp_moderate_rcvbuf" ty_u8 ;;
    fld "__cacheline_group_end__netns_ipv4_read_txrx" (arr ty___u8 0) ;;
    fld "__cacheline_group_begin__netns_ipv4_read_rx" (arr ty___u8 0) ;;
    fld "sysctl_ip_early_demux" ty_u8 ;;
    fld "sysctl_tcp_early_demux" ty_u8 ;;
    fld "sysctl_tcp_reordering" (int_ 4 true) ;;
    fld "sysctl_tcp_rmem" (arr (int_ 4 true) 3) ;;
    fld "__cacheline_group_end__netns_ipv4_read_rx" (arr ty___u8 0) ;;
    bits "" (int_ 8 true) 64 ;;
    fld "tcp_death_row" struct_inet_timewait_death_row ;;
    fld "udp_table" (ptr "struct udp_table") ;;
    fld "forw_hdr" (ptr "struct ctl_table_header") ;;
    fld "frags_hdr" (ptr "struct ctl_table_header") ;;
    fld "ipv4_hdr" (ptr "struct ctl_table_header") ;;
    fld "route_hdr" (ptr "struct ctl_table_header") ;;
    fld "xfrm4_hdr" (ptr "struct ctl_table_header") ;;
    fld "devconf_all" (ptr "struct ipv4_devconf") ;;
    fld "devconf_dflt" (ptr "struct ipv4_devconf") ;;
    fld "ra_chain" (ptr "struct ip_ra_chain") ;;
    fld "ra_mutex" struct_mutex ;;
    fld "rules_ops" (ptr "struct fib_rules_ops") ;;
    fld "fib_main" (ptr "struct fib_table") ;;
    fld "fib_default" (ptr "struct fib_table") ;;
    fld "fib_rules_require_fldissect" (int_ 4 false) ;;
    fld "fib_has_custom_rules" ty_bool ;;
    fld "fib_has_custom_local_routes" ty_bool ;;
    fld "fib_offload_disabled" ty_bool ;;
    fld "sysctl_tcp_shrink_window" ty_u8 ;;
    fld "fib_num_tclassid_users" ty_atomic_t ;;
    fld "fib_table_hash" (ptr "struct hlist_head") ;;
    fld "fibnl" (ptr "struct sock") ;;
    fld "mc_autojoin_sk" (ptr "struct sock") ;;
    fld "peers" (ptr "struct inet_peer_base") ;;
    fld "fqdir" (ptr "struct fqdir") ;;
    fld "sysctl_icmp_echo_ignore_all" ty_u8 ;;
    fld "sysctl_icmp_echo_enable_probe" ty_u8 ;;
    fld "sysctl_icmp_echo_ignore_broadcasts" ty_u8 ;;
    fld "sysctl_icmp_ignore_bogus_error_responses" ty_u8 ;;
    fld "sysctl_icmp_errors_use_inbound_ifaddr" ty_u8 ;;
    fld "sysctl_icmp_ratelimit" (int_ 4 true) ;;
    fld "sysctl_icmp_ratemask" (int_ 4 true) ;;
    fld "sysctl_icmp_msgs_per_sec" (int_ 4 true) ;;
    fld "sysctl_icmp_msgs_burst" (int_ 4 true) ;;
    fld "icmp_global_credit" ty_atomic_t ;;
    fld "icmp_global_stamp" ty_u32 ;;
    fld "ip_rt_min_pmtu" ty_u32 ;;
    fld "ip_rt_mtu_expires" (int_ 4 true) ;;
    fld "ip_rt_min_advmss" (int_ 4 true) ;;
    fld "ip_local_ports" struct_local_ports ;;
    fld "sysctl_tcp_ecn" ty_u8 ;;
    fld "sysctl_tcp_ecn_fallback" ty_u8 ;;
    fld "sysctl_ip_default_ttl" ty_u8 ;;
    fld "sysctl_ip_no_pmtu_disc" ty_u8 ;;
    fld "sysctl_ip_fwd_update_priority" ty_u8 ;;
    fld "sysctl_ip_nonlocal_bind" ty_u8 ;;
    fld "sysctl_ip_autobind_reuse" ty_u8 ;;
    fld "sysctl_ip_dynaddr" ty_u8 ;;
    fld "sysctl_raw_l3mdev_accept" ty_u8 ;;
    fld "sysctl_udp_early_demux" ty_u8 ;;
    fld "sysctl_nexthop_compat_mode" ty_u8 ;;
    fld "sysctl_fwmark_reflect" ty_u8 ;;
    fld "sysctl_tcp_fwmark_accept" ty_u8 ;;
    fld "sysctl_tcp_l3mdev_accept" ty_u8 ;;
    fld "sysctl_tcp_mtu_probing" ty_u8 ;;
    fld "sysctl_tcp_mtu_probe_floor" (int_ 4 true) ;;
    fld "sysctl_tcp_base_mss" (int_ 4 true) ;;
    fld "sysctl_tcp_probe_threshold" (int_ 4 true) ;;
    fld "sysctl_tcp_probe_interval" ty_u32 ;;
    fld "sysctl_tcp_keepalive_time" (int_ 4 true) ;;
    fld "sysctl_tcp_keepalive_intvl" (int_ 4 true) ;;
    fld "sysctl_tcp_keepalive_probes" ty_u8 ;;
    fld "sysctl_tcp_syn_retries" ty_u8 ;;
    fld "sysctl_tcp_synack_retries" ty_u8 ;;
    fld "sysctl_tcp_syncookies" ty_u8 ;;
    fld "sysctl_tcp_migrate_req" ty_u8 ;;
    fld "sysctl_tcp_comp_sack_nr" ty_u8 ;;
    fld "sysctl_tcp_backlog_ack_defer" ty_u8 ;;
    fld "sysctl_tcp_pingpong_thresh" ty_u8 ;;
    fld "sysctl_tcp_retries1" ty_u8 ;;
    fld "sysctl_tcp_retries2" ty_u8 ;;
    fld "sysctl_tcp_orphan_retries" ty_u8 ;;
    fld "sysctl_tcp_tw_reuse" ty_u8 ;;
    fld "sysctl_tcp_fin_timeout" (int_ 4 true) ;;
    fld "sysctl_tcp_sack" ty_u8 ;;
    fld "sysctl_tcp_window_scaling" ty_u8 ;;
    fld "sysctl_tcp_timestamps" ty_u8 ;;
    fld "sysctl_tcp_rto_min_us" (int_ 4 true) ;;
    fld "sysctl_tcp_recovery" ty_u8 ;;
    fld "sysctl_tcp_thin_linear_timeouts" ty_u8 ;;
    fld "sysctl_tcp_slow_start_after_idle" ty_u8 ;;
    fld "sysctl_tcp_retrans_collapse" ty_u8 ;;
    fld "sysctl_tcp_stdurg" ty_u8 ;;
    fld "sysctl_tcp_rfc1337" ty_u8 ;;
    fld "sysctl_tcp_abort_on_overflow" ty_u8 ;;
    fld "sysctl_tcp_fack" ty_u8 ;;
    fld "sysctl_tcp_max_reordering" (int_ 4 true) ;;
    fld "sysctl_tcp_adv_win_scale" (int_ 4 true) ;;
    fld "sysctl_tcp_dsack" ty_u8 ;;
    fld "sysctl_tcp_app_win" ty_u8 ;;
    fld "sysctl_tcp_frto" ty_u8 ;;
    fld "sysctl_tcp_nometrics_save" ty_u8 ;;
    fld "sysctl_tcp_no_ssthresh_metrics_save" ty_u8 ;;
    fld "sysctl_tcp_workaround_signed_windows" ty_u8 ;;
    fld "sysctl_tcp_challenge_ack_limit" (int_ 4 true) ;;
    fld "sysctl_tcp_min_tso_segs" ty_u8 ;;
    fld "sysctl_tcp_reflect_tos" ty_u8 ;;
    fld "sysctl_tcp_invalid_ratelimit" (int_ 4 true) ;;
    fld "sysctl_tcp_pacing_ss_ratio" (int_ 4 true) ;;
    fld "sysctl_tcp_pacing_ca_ratio" (int_ 4 true) ;;
    fld "sysctl_tcp_child_ehash_entries" (int_ 4 false) ;;
    fld "sysctl_tcp_comp_sack_delay_ns" (int_ 8 false) ;;
    fld "sysctl_tcp_comp_sack_slack_ns" (int_ 8 false) ;;
    fld "sysctl_max_syn_backlog" (int_ 4 true) ;;
    fld "sysctl_tcp_fastopen" (int_ 4 true) ;;
    fld "tcp_congestion_control" (ptr "struct tcp_congestion_ops") ;;
    fld "tcp_fastopen_ctx" (ptr "struct tcp_fastopen_context") ;;
    fld "sysctl_tcp_fastopen_blackhole_timeout" (int_ 4 false) ;;
    fld "tfo_active_disable_times" ty_atomic_t ;;
    fld "tfo_active_disable_stamp" (int_ 8 false) ;;
    fld "tcp_challenge_timestamp" ty_u32 ;;
    fld "tcp_challenge_count" ty_u32 ;;
    fld "sysctl_tcp_plb_enabled" ty_u8 ;;
    fld "sysctl_tcp_plb_idle_rehash_rounds" ty_u8 ;;
    fld "sysctl_tcp_plb_rehash_rounds" ty_u8 ;;
    fld "sysctl_tcp_plb_suspend_rto_sec" ty_u8 ;;
    fld "sysctl_tcp_plb_cong_thresh" (int_ 4 true) ;;
    fld "sysctl_udp_wmem_min" (int_ 4 true) ;;
    fld "sysctl_udp_rmem_min" (int_ 4 true) ;;
    fld "sysctl_fib_notify_on_flag_change" ty_u8 ;;
    fld "sysctl_tcp_syn_linear_timeouts" ty_u8 ;;
    fld "sysctl_udp_l3mdev_accept" ty_u8 ;;
    fld "sysctl_igmp_llm_reports" ty_u8 ;;
    fld "sysctl_igmp_max_memberships" (int_ 4 true) ;;
    fld "sysctl_igmp_max_msf" (int_ 4 true) ;;
    fld "sysctl_igmp_qrv" (int_ 4 true) ;;
    fld "ping_group_range" struct_ping_group_range ;;
    fld "dev_addr_genid" ty_atomic_t ;;
    fld "sysctl_udp_child_hash_entries" (int_ 4 false) ;;
    fld "sysctl_local_reserved_ports" (ptr "long unsigned int") ;;
    fld "sysctl_ip_prot_sock" (int_ 4 true) ;;
    fld "mr_tables" struct_list_head ;;
    fld "mr_rules_ops" (ptr "struct fib_rules_ops") ;;
    fld "sysctl_fib_multipath_hash_seed" struct_sysctl_fib_multipath_hash_seed ;;
    fld "sysctl_fib_multipath_hash_fields" ty_u32 ;;
    fld "sysctl_fib_multipath_use_neigh" ty_u8 ;;
    fld "sysctl_fib_multipath_hash_policy" ty_u8 ;;
    fld "notifier_ops" (ptr "struct fib_notifier_ops") ;;
    fld "fib_seq" (int_ 4 false) ;;
    fld "ipmr_notifier_ops" (ptr "struct fib_notifier_ops") ;;
    fld "ipmr_seq" (int_ 4 false) ;;
    fld "rt_genid" ty_atomic_t ;;
    fld "ip_id_key" ty_siphash_key_t ;;
    mnil).

Definition struct_dst_ops : ctype :=
  struct_ false (
    fld "family" (int_ 2 false) ;;
    fld "gc_thresh" (int_ 4 false) ;;
    fld "gc" (ptr "function") ;;
    fld "check" (ptr "function") ;;
    fld "default_advmss" (ptr "function") ;;
    fld "mtu" (ptr "function") ;;
    fld "cow_metrics" (ptr "function") ;;
    fld "destroy" (ptr "function") ;;
    fld "ifdown" (ptr "function") ;;
    fld "negative_advice" (ptr "function") ;;
    fld "link_failure" (ptr "function") ;;
    fld "update_pmtu" (ptr "function") ;;
    fld "redirect" (ptr "function") ;;
    fld "local_out" (ptr "function") ;;
    fld "neigh_lookup" (ptr "function") ;;
    fld "confirm_neigh" (ptr "function") ;;
    fld "kmem_cachep" (ptr "struct kmem_cache") ;;
    fld "pcpuc_entries" struct_percpu_counter ;;
    bits "" (int_ 8 true) 64 ;;
    bits "" (int_ 8 true) 64 ;;
    bits "" (int_ 8 true) 64 ;;
    mnil).

Definition struct_netns_sysctl_ipv6 : ctype :=
  struct_ false (
    fld "hdr" (ptr "struct ctl_table_header") ;;
    fld "route_hdr" (ptr "struct ctl_table_header") ;;
    fld "icmp_hdr" (ptr "struct ctl_table_header") ;;
    fld "frags_hdr" (ptr "struct ctl_table_header") ;;
    fld "xfrm6_hdr" (ptr "struct ctl_table_header") ;;
    fld "flush_delay" (int_ 4 true) ;;
    fld "ip6_rt_max_size" (int_ 4 true) ;;
    fld "ip6_rt_gc_min_interval" (int_ 4 true) ;;
    fld "ip6_rt_gc_timeout" (int_ 4 true) ;;
    fld "ip6_rt_gc_interval" (int_ 4 true) ;;
    fld "ip6_rt_gc_elasticity" (int_ 4 true) ;;
    fld "ip6_rt_mtu_expires" (int_ 4 true) ;;
    fld "ip6_rt_min_advmss" (int_ 4 true) ;;
    fld "multipath_hash_fields" ty_u32 ;;
    fld "multipath_hash_policy" ty_u8 ;;
    fld "bindv6only" ty_u8 ;;
    fld "flowlabel_consistency" ty_u8 ;;
    fld "auto_flowlabels" ty_u8 ;;
    fld "icmpv6_time" (int_ 4 true) ;;
    fld "icmpv6_echo_ignore_all" ty_u8 ;;
    fld "icmpv6_echo_ignore_multicast" ty_u8 ;;
    fld "icmpv6_echo_ignore_anycast" ty_u8 ;;
    fld "icmpv6_ratemask" (arr (int_ 8 false) 4) ;;
    fld "icmpv6_ratemask_ptr" (ptr "long unsigned int") ;;
    fld "anycast_src_echo_reply" ty_u8 ;;
    fld "ip_nonlocal_bind" ty_u8 ;;
    fld "fwmark_reflect" ty_u8 ;;
    fld "flowlabel_state_ranges" ty_u8 ;;
    fld "idgen_retries" (int_ 4 true) ;;
    fld "idgen_delay" (int_ 4 true) ;;
    fld "flowlabel_reflect" (int_ 4 true) ;;
    fld "max_dst_opts_cnt" (int_ 4 true) ;;
    fld "max_hbh_opts_cnt" (int_ 4 true) ;;
    fld "max_dst_opts_len" (int_ 4 true) ;;
    fld "max_hbh_opts_len" (int_ 4 true) ;;
    fld "seg6_flowlabel" (int_ 4 true) ;;
    fld "ioam6_id" ty_u32 ;;
    fld "ioam6_id_wide" ty_u64 ;;
    fld "skip_notify_on_dev_down" ty_u8 ;;
    fld "fib_notify_on_flag_change" ty_u8 ;;
    fld "icmpv6_error_anycast_as_unicast" ty_u8 ;;
    mnil).

Definition struct_netns_ipv6 : ctype :=
  struct_ false (
    fld "ip6_dst_ops" struct_dst_ops ;;
    fld "sysctl" struct_netns_sysctl_ipv6 ;;
    fld "devconf_all" (ptr "struct ipv6_devconf") ;;
    fld "devconf_dflt" (ptr "struct ipv6_devconf") ;;
    fld "peers" (ptr "struct inet_peer_base") ;;
    fld "fqdir" (ptr "struct fqdir") ;;
    fld "fib6_null_entry" (ptr "struct fib6_info") ;;
    fld "ip6_null_entry" (ptr "struct rt6_info") ;;
    fld "rt6_stats" (ptr "struct rt6_statistics") ;;
    fld "ip6_fib_timer" struct_timer_list ;;
    fld "fib_table_hash" (ptr "struct hlist_head") ;;
    fld "fib6_main_tbl" (ptr "struct fib6_table") ;;
    fld "fib6_walkers" struct_list_head ;;
    fld "fib6_walker_lock" ty_rwlock_t ;;
    fld "fib6_gc_lock" ty_spinlock_t ;;
    fld "ip6_rt_gc_expire" ty_atomic_t ;;
    fld "ip6_rt_last_gc" (int_ 8 false) ;;
    fld "flowlabel_has_excl" (int_ 1 false) ;;
    fld "fib6_has_custom_rules" ty_bool ;;
    fld "fib6_rules_require_fldissect" (int_ 4 false) ;;
    fld "fib6_routes_require_src" (int_ 4 false) ;;
    fld "ip6_prohibit_entry" (ptr "struct rt6_info") ;;
    fld "ip6_blk_hole_entry" (ptr "struct rt6_info") ;;
    fld "fib6_local_tbl" (ptr "struct fib6_table") ;;
    fld "fib6_rules_ops" (ptr "struct fib_rules_ops") ;;
    fld "ndisc_sk" (ptr "struct sock") ;;
    fld "tcp_sk" (ptr "struct sock") ;;
    fld "igmp_sk" (ptr "struct sock") ;;
    fld "mc_autojoin_sk" (ptr "struct sock") ;;
    fld "inet6_addr_lst" (ptr "struct hlist_head") ;;
    fld "addrconf_hash_lock" ty_spinlock_t ;;
    fld "addr_chk_work" struct_delayed_work ;;
    fld "mr6_tables" struct_list_head ;;
    fld "mr6_rules_ops" (ptr "struct fib_rules_ops") ;;
    fld "dev_addr_genid" ty_atomic_t ;;
    fld "fib6_sernum" ty_atomic_t ;;
    fld "seg6_data" (ptr "struct seg6_pernet_data") ;;
    fld "notifier_ops" (ptr "struct fib_notifier_ops") ;;
    fld "ip6mr_notifier_ops" (ptr "struct fib_notifier_ops") ;;
    fld "ipmr_seq" (int_ 4 false) ;;
    fld "ip6addrlbl_table" (struct_ false (
      fld "head" struct_hlist_head ;;
      fld "lock" ty_spinlock_t ;;
      fld "seq" ty_u32 ;;
      mnil)) ;;
    fld "ioam6_data" (ptr "struct ioam6_pernet_data") ;;
    bits "" (int_ 8 true) 64 ;;
    bits "" (int_ 8 true) 64 ;;
    bits "" (int_ 8 true) 64 ;;
    bits "" (int_ 8 true) 64 ;;
    mnil).

Definition struct_netns_sysctl_lowpan : ctype :=
  struct_ false (
    fld "frags_hdr" (ptr "struct ctl_table_header") ;;
    mnil).

Definition struct_netns_ieee802154_lowpan : ctype :=
  struct_ false (
    fld "sysctl" struct_netns_sysctl_lowpan ;;
    fld "fqdir" (ptr "struct fqdir") ;;
    mnil).

Definition struct_netns_sctp : ctype :=
  struct_ false (
    fld "sctp_statistics" (ptr "struct sctp_mib") ;;
    fld "proc_net_sctp" (ptr "struct proc_dir_entry") ;;
    fld "sysctl_header" (ptr "struct ctl_table_header") ;;
    fld "ctl_sock" (ptr "struct sock") ;;
    fld "udp4_sock" (ptr "struct sock") ;;
    fld "udp6_sock" (ptr "struct sock") ;;
    fld "udp_port" (int_ 4 true) ;;
    fld "encap_port" (int_ 4 true) ;;
    fld "local_addr_list" struct_list_head ;;
    fld "addr_waitq" struct_list_head ;;
    fld "addr_wq_timer" struct_timer_list ;;
    fld "auto_asconf_splist" struct_list_head ;;
    fld "addr_wq_lock" ty_spinlock_t ;;
    fld "local_addr_lock" ty_spinlock_t ;;
    fld "rto_initial" (int_ 4 false) ;;
    fld "rto_min" (int_ 4 false) ;;
    fld "rto_max" (int_ 4 false) ;;
    fld "rto_alpha" (int_ 4 true) ;;
    fld "rto_beta" (int_ 4 true) ;;
    fld "max_burst" (int_ 4 true) ;;
    fld "cookie_preserve_enable" (int_ 4 true) ;;
    fld "sctp_hmac_alg" (ptr "char") ;;
    fld "valid_cookie_life" (int_ 4 false) ;;
    fld "sack_timeout" (int_ 4 false) ;;
    fld "hb_interval" (int_ 4 false) ;;
    fld "probe_interval" (int_ 4 false) ;;
    fld "max_retrans_association" (int_ 4 true) ;;
    fld "max_retrans_path" (int_ 4 true) ;;
    fld "max_retrans_init" (int_ 4 true) ;;
    fld "pf_retrans" (int_ 4 true) ;;
    fld "ps_retrans" (int_ 4 true) ;;
    fld "pf_enable" (int_ 4 true) ;;
    fld "pf_expose" (int_ 4 true) ;;
    fld "sndbuf_policy" (int_ 4 true) ;;
    fld "rcvbuf_policy" (int_ 4 true) ;;
    fld "default_auto_asconf" (int_ 4 true) ;;
    fld "addip_enable" (int_ 4 true) ;;
    fld "addip_noauth" (int_ 4 true) ;;
    fld "prsctp_enable" (int_ 4 true) ;;
    fld "reconf_enable" (int_ 4 true) ;;
    fld "auth_enable" (int_ 4 true) ;;
    fld "intl_enable" (int_ 4 true) ;;
    fld "ecn_enable" (int_ 4 true) ;;
    fld "scope_policy" (int_ 4 true) ;;
    fld "rwnd_upd_shift" (int_ 4 true) ;;
    fld "max_autoclose" (int_ 8 false) ;;
    fld "l3mdev_accept" (int_ 4 true) ;;
    mnil).

Definition struct_netns_nf : ctype :=
  struct_ false (
    fld "proc_netfilter" (ptr "struct proc_dir_entry") ;;
    fld "nf_loggers" (arr (ptr "struct nf_logger") 11) ;;
    fld "nf_log_dir_header" (ptr "struct ctl_table_header") ;;
    fld "nf_lwtnl_dir_header" (ptr "struct ctl_table_header") ;;
    fld "hooks_ipv4" (arr (ptr "struct nf_hook_entries") 5) ;;
    fld "hooks_ipv6" (arr (ptr "struct nf_hook_entries") 5) ;;
    fld "hooks_arp" (arr (ptr "struct nf_hook_entries") 3) ;;
    fld "hooks_bridge" (arr (ptr "struct nf_hook_entries") 5) ;;
    fld "defrag_ipv4_users" (int_ 4 false) ;;
    fld "defrag_ipv6_users" (int_ 4 false) ;;
    mnil).

Definition struct_nf_generic_net : ctype :=
  struct_ false (
    fld "timeout" (int_ 4 false) ;;
    mnil).

Definition struct_nf_tcp_net : ctype :=
  struct_ false (
    fld "timeouts" (arr (int_ 4 false) 14) ;;
    fld "tcp_loose" ty_u8 ;;
    fld "tcp_be_liberal" ty_u8 ;;
    fld "tcp_max_retrans" ty_u8 ;;
    fld "tcp_ignore_invalid_rst" ty_u8 ;;
    fld "offload_timeout" (int_ 4 false) ;;
    mnil).

Definition struct_nf_udp_net : ctype :=
  struct_ false (
    fld "timeouts" (arr (int_ 4 false) 2) ;;
    fld "offload_timeout" (int_ 4 false) ;;
    mnil).

Definition struct_nf_icmp_net : ctype :=
  struct_ false (
    fld "timeout" (int_ 4 false) ;;
    mnil).

Definition struct_nf_dccp_net : ctype :=
  struct_ false (
    fld "dccp_loose" ty_u8 ;;
    fld "dccp_timeout" (arr (int_ 4 false) 10) ;;
    mnil).

Definition struct_nf_sctp_net : ctype :=
  struct_ false (
    fld "timeouts" (arr (int_ 4 false) 10) ;;
    mnil).

Definition struct_nf_gre_net : ctype :=
  struct_ false (
    fld "keymap_list" struct_list_head ;;
    fld "timeouts" (arr (int_ 4 false) 2) ;;
    mnil).

Definition struct_nf_ip_net : ctype :=
  struct_ false (
    fld "generic" struct_nf_generic_net ;;
    fld "tcp" struct_nf_tcp_net ;;
    fld "udp" struct_nf_udp_net ;;
    fld "icmp" struct_nf_icmp_net ;;
    fld "icmpv6" struct_nf_icmp_net ;;
    fld "dccp" struct_nf_dccp_net ;;
    fld "sctp" struct_nf_sctp_net ;;
    fld "gre" struct_nf_gre_net ;;
    mnil).

Definition struct_netns_ct : ctype :=
  struct_ false (
    fld "ecache_dwork_pending" ty_bool ;;
    fld "sysctl_log_invalid" ty_u8 ;;
    fld "sysctl_events" ty_u8 ;;
    fld "sysctl_acct" ty_u8 ;;
    fld "sysctl_tstamp" ty_u8 ;;
    fld "sysctl_checksum" ty_u8 ;;
    fld "stat" (ptr "struct ip_conntrack_stat") ;;
    fld "nf_conntrack_event_cb" (ptr "struct nf_ct_event_notifier") ;;
    fld "nf_ct_proto" struct_nf_ip_net ;;
    fld "labels_used" ty_atomic_t ;;
    mnil).

Definition struct_netns_nftables : ctype :=
  struct_ false (
    fld "base_seq" (int_ 4 false) ;;
    fld "gencursor" ty_u8 ;;
    mnil).

Definition struct_netns_ft : ctype :=
  struct_ false (
    fld "stat" (ptr "struct nf_flow_table_stat") ;;
    mnil).

Definition struct_sk_buff_list : ctype :=
  struct_ false (
    fld "next" (ptr "struct sk_buff") ;;
    fld "prev" (ptr "struct sk_buff") ;;
    mnil).

Definition struct_sk_buff_head : ctype :=
  struct_ false (
    anon (union_ false (
      anon (struct_ false (
        fld "next" (ptr "struct sk_buff") ;;
        fld "prev" (ptr "struct sk_buff") ;;
        mnil)) ;;
      fld "list" struct_sk_buff_list ;;
      mnil)) ;;
    fld "qlen" ty___u32 ;;
    fld "lock" ty_spinlock_t ;;
    mnil).

Definition struct_netns_bpf : ctype :=
  struct_ false (
    fld "run_array" (arr (ptr "struct bpf_prog_array") 2) ;;
    fld "progs" (arr (ptr "struct bpf_prog") 2) ;;
    fld "links" (arr struct_list_head 2) ;;
    mnil).

Definition struct_xfrm_policy_hash : ctype :=
  struct_ false (
    fld "table" (ptr "struct hlist_head") ;;
    fld "hmask" (int_ 4 false) ;;
    fld "dbits4" ty_u8 ;;
    fld "sbits4" ty_u8 ;;
    fld "dbits6" ty_u8 ;;
    fld "sbits6" ty_u8 ;;
    mnil).

Definition struct_xfrm_policy_hthresh : ctype :=
  struct_ false (
    fld "work" struct_work_struct ;;
    fld "lock" ty_seqlock_t ;;
    fld "lbits4" ty_u8 ;;
    fld "rbits4" ty_u8 ;;
    fld "lbits6" ty_u8 ;;
    fld "rbits6" ty_u8 ;;
    mnil).

Definition struct_netns_xfrm : ctype :=
  struct_ false (
    fld "state_all" struct_list_head ;;
    fld "state_bydst" (ptr "struct hlist_head") ;;
    fld "state_bysrc" (ptr "struct hlist_head") ;;
    fld "state_byspi" (ptr "struct hlist_head") ;;
    fld "state_byseq" (ptr "struct hlist_head") ;;
    fld "state_cache_input" (ptr "struct hlist_head") ;;
    fld "state_hmask" (int_ 4 false) ;;
    fld "state_num" (int_ 4 false) ;;
    fld "state_hash_work" struct_work_struct ;;
    fld "policy_all" struct_list_head ;;
    fld "policy_byidx" (ptr "struct hlist_head") ;;
    fld "policy_idx_hmask" (int_ 4 false) ;;
    fld "idx_generator" (int_ 4 false) ;;
    fld "policy_bydst" (arr struct_xfrm_policy_hash 3) ;;
    fld "policy_count" (arr (int_ 4 false) 6) ;;
    fld "policy_hash_work" struct_work_struct ;;
    fld "policy_hthresh" struct_xfrm_policy_hthresh ;;
    fld "inexact_bins" struct_list_head ;;
    fld "nlsk" (ptr "struct sock") ;;
    fld "nlsk_stash" (ptr "struct sock") ;;
    fld "sysctl_aevent_etime" ty_u32 ;;
    fld "sysctl_aevent_rseqth" ty_u32 ;;
    fld "sysctl_larval_drop" (int_ 4 true) ;;
    fld "sysctl_acq_expires" ty_u32 ;;
    fld "policy_default" (arr ty_u8 3) ;;
    fld "sysctl_hdr" (ptr "struct ctl_table_header") ;;
    bits "" (int_ 8 true) 64 ;;
    bits "" (int_ 8 true) 64 ;;
    bits "" (int_ 8 true) 64 ;;
    bits "" (int_ 8 true) 64 ;;
    bits "" (int_ 8 true) 64 ;;
    fld "xfrm4_dst_ops" struct_dst_ops ;;
    fld "xfrm6_dst_ops" struct_dst_ops ;;
    fld "xfrm_state_lock" ty_spinlock_t ;;
    fld "xfrm_state_hash_generation" ty_seqcount_spinlock_t ;;
    fld "xfrm_policy_hash_generation" ty_seqcount_spinlock_t ;;
    fld "xfrm_policy_lock" ty_spinlock_t ;;
    fld "xfrm_cfg_mutex" struct_mutex ;;
    fld "nat_keepalive_work" struct_delayed_work ;;
    bits "" (int_ 8 true) 64 ;;
    bits "" (int_ 8 true) 64 ;;
    bits "" (int_ 8 true) 64 ;;
    bits "" (int_ 8 true) 64 ;;
    bits "" (int_ 8 true) 64 ;;
    bits "" (int_ 8 true) 64 ;;
    bits "" (int_ 8 true) 64 ;;
    mnil).

Definition struct_netns_mpls : ctype :=
  struct_ false (
    fld "ip_ttl_propagate" (int_ 4 true) ;;
    fld "default_ttl" (int_ 4 true) ;;
    fld "platform_labels" ty_size_t ;;
    fld "platform_label" (ptr "struct mpls_route *") ;;
    fld "ctl" (ptr "struct ctl_table_header") ;;
    mnil).

Definition struct_netns_can : ctype :=
  struct_ false (
    fld "proc_dir" (ptr "struct proc_dir_entry") ;;
    fld "pde_stats" (ptr "struct proc_dir_entry") ;;
    fld "pde_reset_stats" (ptr "struct proc_dir_entry") ;;
    fld "pde_rcvlist_all" (ptr "struct proc_dir_entry") ;;
    fld "pde_rcvlist_fil" (ptr "struct proc_dir_entry") ;;
    fld "pde_rcvlist_inv" (ptr "struct proc_dir_entry") ;;
    fld "pde_rcvlist_sff" (ptr "struct proc_dir_entry") ;;
    fld "pde_rcvlist_eff" (ptr "struct proc_dir_entry") ;;
    fld "pde_rcvlist_err" (ptr "struct proc_dir_entry") ;;
    fld "bcmproc_dir" (ptr "struct proc_dir_entry") ;;
    fld "rx_alldev_list" (ptr "struct can_dev_rcv_lists") ;;
    fld "rcvlists_lock" ty_spinlock_t ;;
    fld "stattimer" struct_timer_list ;;
    fld "pkg_stats" (ptr "struct can_pkg_stats") ;;
    fld "rcv_lists_stats" (ptr "struct can_rcv_lists_stats") ;;
    fld "cgw_list" struct_hlist_head ;;
    mnil).

Definition struct_netns_xdp : ctype :=
  struct_ false (
    fld "lock" struct_mutex ;;
    fld "list" struct_hlist_head ;;
    mnil).

Definition struct_netns_smc : ctype :=
  struct_ false (
    fld "smc_stats" (ptr "struct smc_stats") ;;
    fld "mutex_fback_rsn" struct_mutex ;;
    fld "fback_rsn" (ptr "struct smc_stats_rsn") ;;
    fld "limit_smc_hs" ty_bool ;;
    fld "smc_hdr" (ptr "struct ctl_table_header") ;;
    fld "sysctl_autocorking_size" (int_ 4 false) ;;
    fld "sysctl_smcr_buf_type" (int_ 4 false) ;;
    fld "sysctl_smcr_testlink_time" (int_ 4 true) ;;
    fld "sysctl_wmem" (int_ 4 true) ;;
    fld "sysctl_rmem" (int_ 4 true) ;;
    fld "sysctl_max_links_per_lgr" (int_ 4 true) ;;
    fld "sysctl_max_conns_per_lgr" (int_ 4 true) ;;
    mnil).

Definition struct_net : ctype :=
  struct_ false (
    fld "passive" ty_refcount_t ;;
    fld "rules_mod_lock" ty_spinlock_t ;;
    fld "dev_base_seq" (int_ 4 false) ;;
    fld "ifindex" ty_u32 ;;
    fld "nsid_lock" ty_spinlock_t ;;
    fld "fnhe_genid" ty_atomic_t ;;
    fld "list" struct_list_head ;;
    fld "exit_list" struct_list_head ;;
    fld "defer_free_list" struct_llist_node ;;
    fld "cleanup_list" struct_llist_node ;;
    fld "key_domain" (ptr "struct key_tag") ;;
    fld "user_ns" (ptr "struct user_namespace") ;;
    fld "ucounts" (ptr "struct ucounts") ;;
    fld "netns_ids" struct_idr ;;
    fld "ns" struct_ns_common ;;
    fld "refcnt_tracker" struct_ref_tracker_dir ;;
    fld "notrefcnt_tracker" struct_ref_tracker_dir ;;
    fld "dev_base_head" struct_list_head ;;
    fld "proc_net" (ptr "struct proc_dir_entry") ;;
    fld "proc_net_stat" (ptr "struct proc_dir_entry") ;;
    fld "sysctls" struct_ctl_table_set ;;
    fld "rtnl" (ptr "struct sock") ;;
    fld "genl_sock" (ptr "struct sock") ;;
    fld "uevent_sock" (ptr "struct uevent_sock") ;;
    fld "dev_name_head" (ptr "struct hlist_head") ;;
    fld "dev_index_head" (ptr "struct hlist_head") ;;
    fld "dev_by_index" struct_xarray ;;
    fld "netdev_chain" struct_raw_notifier_head ;;
    fld "hash_mix" ty_u32 ;;
    fld "loopback_dev" (ptr "struct net_device") ;;
    fld "rules_ops" struct_list_head ;;
    fld "core" struct_netns_core ;;
    fld "mib" struct_netns_mib ;;
    fld "packet" struct_netns_packet ;;
    fld "unx" struct_netns_unix ;;
    fld "nexthop" struct_netns_nexthop ;;
    bits "" (int_ 8 true) 64 ;;
    bits "" (int_ 8 true) 64 ;;
    bits "" (int_ 8 true) 64 ;;
    fld "ipv4" struct_netns_ipv4 ;;
    fld "ipv6" struct_netns_ipv6 ;;
    fld "ieee802154_lowpan" struct_netns_ieee802154_lowpan ;;
    fld "sctp" struct_netns_sctp ;;
    fld "nf" struct_netns_nf ;;
    fld "ct" struct_netns_ct ;;
    fld "nft" struct_netns_nftables ;;
    fld "ft" struct_netns_ft ;;
    fld "wext_nlevents" struct_sk_buff_head ;;
    fld "gen" (ptr "struct net_generic") ;;
    fld "bpf" struct_netns_bpf ;;
    bits "" (int_ 8 true) 64 ;;
    bits "" (int_ 8 true) 64 ;;
    bits "" (int_ 8 true) 64 ;;
    bits "" (int_ 8 true) 64 ;;
    fld "xfrm" struct_netns_xfrm ;;
    fld "net_cookie" ty_u64 ;;
    fld "ipvs" (ptr "struct netns_ipvs") ;;
    fld "mpls" struct_netns_mpls ;;
    fld "can" struct_netns_can ;;
    fld "xdp" struct_netns_xdp ;;
    fld "crypto_nlsk" (ptr "struct sock") ;;
    fld "diag_nlsk" (ptr "struct sock") ;;
    fld "smc" struct_netns_smc ;;
    bits "" (int_ 8 true) 64 ;;
    bits "" (int_ 8 true) 64 ;;
    bits "" (int_ 8 true) 64 ;;
    mnil).

Definition struct_timens_offsets : ctype :=
  struct_ false (
    fld "monotonic" struct_timespec64 ;;
    fld "boottime" struct_timespec64 ;;
    mnil).

Definition struct_time_namespace : ctype :=
  struct_ false (
    fld "user_ns" (ptr "struct user_namespace") ;;
    fld "ucounts" (ptr "struct ucounts") ;;
    fld "ns" struct_ns_common ;;
    fld "offsets" struct_timens_offsets ;;
    fld "vvar_page" (ptr "struct page") ;;
    fld "frozen_offsets" ty_bool ;;
    mnil).

Definition struct_cgroup_namespace : ctype :=
  struct_ false (
    fld "ns" struct_ns_common ;;
    fld "user_ns" (ptr "struct user_namespace") ;;
    fld "ucounts" (ptr "struct ucounts") ;;
    fld "root_cset" (ptr "struct css_set") ;;
    mnil).

Definition struct_core_thread : ctype :=
  struct_ false (
    fld "task" (ptr "struct task_struct") ;;
    fld "next" (ptr "struct core_thread") ;;
    mnil).

Definition struct_core_state : ctype :=
  struct_ false (
    fld "nr_threads" ty_atomic_t ;;
    fld "dumper" struct_core_thread ;;
    fld "startup" struct_completion ;;
    mnil).

Definition struct_ld_semaphore : ctype :=
  struct_ false (
    fld "count" ty_atomic_long_t ;;
    fld "wait_lock" ty_raw_spinlock_t ;;
    fld "wait_readers" (int_ 4 false) ;;
    fld "read_wait" struct_list_head ;;
    fld "write_wait" struct_list_head ;;
    mnil).

Definition ty_tcflag_t : ctype :=
  int_ 4 false.

Definition ty_cc_t : ctype :=
  int_ 1 false.

Definition ty_speed_t : ctype :=
  int_ 4 false.

Definition struct_ktermios : ctype :=
  struct_ false (
    fld "c_iflag" ty_tcflag_t ;;
    fld "c_oflag" ty_tcflag_t ;;
    fld "c_cflag" ty_tcflag_t ;;
    fld "c_lflag" ty_tcflag_t ;;
    fld "c_line" ty_cc_t ;;
    fld "c_cc" (arr ty_cc_t 19) ;;
    fld "c_ispeed" ty_speed_t ;;
    fld "c_ospeed" ty_speed_t ;;
    mnil).

Definition struct_winsize : ctype :=
  struct_ false (
    fld "ws_row" (int_ 2 false) ;;
    fld "ws_col" (int_ 2 false) ;;
    fld "ws_xpixel" (int_ 2 false) ;;
    fld "ws_ypixel" (int_ 2 false) ;;
    mnil).

Definition struct_tty_struct : ctype :=
  struct_ false (
    fld "kref" struct_kref ;;
    fld "index" (int_ 4 true) ;;
    fld "dev" (ptr "struct device") ;;
    fld "driver" (ptr "struct tty_driver") ;;
    fld "port" (ptr "struct tty_port") ;;
    fld "ops" (ptr "struct tty_operations") ;;
    fld "ldisc" (ptr "struct tty_ldisc") ;;
    fld "ldisc_sem" struct_ld_semaphore ;;
    fld "atomic_write_lock" struct_mutex ;;
    fld "legacy_mutex" struct_mutex ;;
    fld "throttle_mutex" struct_mutex ;;
    fld "termios_rwsem" struct_rw_semaphore ;;
    fld "winsize_mutex" struct_mutex ;;
    fld "termios" struct_ktermios ;;
    fld "termios_locked" struct_ktermios ;;
    fld "name" (arr (int_ 1 true) 64) ;;
    fld "flags" (int_ 8 false) ;;
    fld "count" (int_ 4 true) ;;
    fld "receive_room" (int_ 4 false) ;;
    fld "winsize" struct_winsize ;;
    fld "flow" (struct_ false (
      fld "lock" ty_spinlock_t ;;
      fld "stopped" ty_bool ;;
      fld "tco_stopped" ty_bool ;;
      mnil)) ;;
    fld "ctrl" (struct_ false (
      fld "pgrp" (ptr "struct pid") ;;
      fld "session" (ptr "struct pid") ;;
      fld "lock" ty_spinlock_t ;;
      fld "pktstatus" (int_ 1 false) ;;
      fld "packet" ty_bool ;;
      mnil)) ;;
    fld "hw_stopped" ty_bool ;;
    fld "closing" ty_bool ;;
    fld "flow_change" (int_ 4 true) ;;
    fld "link" (ptr "struct tty_struct") ;;
    fld "fasync" (ptr "struct fasync_struct") ;;
    fld "write_wait" ty_wait_queue_head_t ;;
    fld "read_wait" ty_wait_queue_head_t ;;
    fld "hangup_work" struct_work_struct ;;
    fld "disc_data" (ptr "void") ;;
    fld "driver_data" (ptr "void") ;;
    fld "files_lock" ty_spinlock_t ;;
    fld "write_cnt" (int_ 4 true) ;;
    fld "write_buf" (ptr "u8") ;;
    fld "tty_files" struct_list_head ;;
    fld "SAK_work" struct_work_struct ;;
    mnil).

Definition struct_taskstats : ctype :=
  struct_ false (
    fld "version" ty___u16 ;;
    fld "ac_exitcode" ty___u32 ;;
    fld "ac_flag" ty___u8 ;;
    fld "ac_nice" ty___u8 ;;
    fld "cpu_count" ty___u64 ;;
    fld "cpu_delay_total" ty___u64 ;;
    fld "blkio_count" ty___u64 ;;
    fld "blkio_delay_total" ty___u64 ;;
    fld "swapin_count" ty___u64 ;;
    fld "swapin_delay_total" ty___u64 ;;
    fld "cpu_run_real_total" ty___u64 ;;
    fld "cpu_run_virtual_total" ty___u64 ;;
    fld "ac_comm" (arr (int_ 1 true) 32) ;;
    fld "ac_sched" ty___u8 ;;
    fld "ac_pad" (arr ty___u8 3) ;;
    bits "" (int_ 8 true) 0 ;;
    fld "ac_uid" ty___u32 ;;
    fld "ac_gid" ty___u32 ;;
    fld "ac_pid" ty___u32 ;;
    fld "ac_ppid" ty___u32 ;;
    fld "ac_btime" ty___u32 ;;
    fld "ac_etime" ty___u64 ;;
    fld "ac_utime" ty___u64 ;;
    fld "ac_stime" ty___u64 ;;
    fld "ac_minflt" ty___u64 ;;
    fld "ac_majflt" ty___u64 ;;
    fld "coremem" ty___u64 ;;
    fld "virtmem" ty___u64 ;;
    fld "hiwater_rss" ty___u64 ;;
    fld "hiwater_vm" ty___u64 ;;
    fld "read_char" ty___u64 ;;
    fld "write_char" ty___u64 ;;
    fld "read_syscalls" ty___u64 ;;
    fld "write_syscalls" ty___u64 ;;
    fld "read_bytes" ty___u64 ;;
    fld "write_bytes" ty___u64 ;;
    fld "cancelled_write_bytes" ty___u64 ;;
    fld "nvcsw" ty___u64 ;;
    fld "nivcsw" ty___u64 ;;
    fld "ac_utimescaled" ty___u64 ;;
    fld "ac_stimescaled" ty___u64 ;;
    fld "cpu_scaled_run_real_total" ty___u64 ;;
    fld "freepages_count" ty___u64 ;;
    fld "freepages_delay_total" ty___u64 ;;
    fld "thrashing_count" ty___u64 ;;
    fld "thrashing_delay_total" ty___u64 ;;
    fld "ac_btime64" ty___u64 ;;
    fld "compact_count" ty___u64 ;;
    fld "compact_delay_total" ty___u64 ;;
    fld "ac_tgid" ty___u32 ;;
    fld "ac_tgetime" ty___u64 ;;
    fld "ac_exe_dev" ty___u64 ;;
    fld "ac_exe_inode" ty___u64 ;;
    fld "wpcopy_count" ty___u64 ;;
    fld "wpcopy_delay_total" ty___u64 ;;
    fld "irq_count" ty___u64 ;;
    fld "irq_delay_total" ty___u64 ;;
    mnil).

Definition struct_tty_audit_buf : ctype :=
  struct_ false (
    fld "mutex" struct_mutex ;;
    fld "dev" ty_dev_t ;;
    fld "icanon" ty_bool ;;
    fld "valid" ty_size_t ;;
    fld "data" (ptr "u8") ;;
    mnil).

Definition struct_audit_aux_data : ctype :=
  struct_ false (
    fld "next" (ptr "struct audit_aux_data") ;;
    fld "type" (int_ 4 true) ;;
    mnil).

Definition ty___kernel_sa_family_t : ctype :=
  int_ 2 false.

Definition struct___kernel_sockaddr_storage : ctype :=
  struct_ false (
    anon (union_ false (
      anon (struct_ false (
        fld "ss_family" ty___kernel_sa_family_t ;;
        fld "__data" (arr (int_ 1 true) 126) ;;
        mnil)) ;;
      fld "__align" (ptr "void") ;;
      mnil)) ;;
    mnil).

Definition struct_audit_tree_refs : ctype :=
  struct_ false (
    fld "next" (ptr "struct audit_tree_refs") ;;
    fld "c" (arr (ptr "struct audit_chunk") 31) ;;
    mnil).

Definition struct_ww_acquire_ctx : ctype :=
  struct_ false (
    fld "task" (ptr "struct task_struct") ;;
    fld "stamp" (int_ 8 false) ;;
    fld "acquired" (int_ 4 false) ;;
    fld "wounded" (int_ 2 false) ;;
    fld "is_wait_die" (int_ 2 false) ;;
    mnil).

Definition enum_migrate_mode : ctype :=
  enum_ 4 [("MIGRATE_ASYNC", 0); ("MIGRATE_SYNC_LIGHT", 1); ("MIGRATE_SYNC", 2)].

Definition struct_compact_control : ctype :=
  struct_ false (
    fld "freepages" (arr struct_list_head 11) ;;
    fld "migratepages" struct_list_head ;;
    fld "nr_freepages" (int_ 4 false) ;;
    fld "nr_migratepages" (int_ 4 false) ;;
    fld "free_pfn" (int_ 8 false) ;;
    fld "migrate_pfn" (int_ 8 false) ;;
    fld "fast_start_pfn" (int_ 8 false) ;;
    fld "zone" (ptr "struct zone") ;;
    fld "total_migrate_scanned" (int_ 8 false) ;;
    fld "total_free_scanned" (int_ 8 false) ;;
    fld "fast_search_fail" (int_ 2 false) ;;
    fld "search_order" (int_ 2 true) ;;
    fld "gfp_mask" ty_gfp_t ;;
    fld "order" (int_ 4 true) ;;
    fld "migratetype" (int_ 4 true) ;;
    fld "alloc_flags" (int_ 4 false) ;;
    fld "highest_zoneidx" (int_ 4 true) ;;
    fld "mode" enum_migrate_mode ;;
    fld "ignore_skip_hint" ty_bool ;;
    fld "no_set_skip_hint" ty_bool ;;
    fld "ignore_block_suitable" ty_bool ;;
    fld "direct_compaction" ty_bool ;;
    fld "proactive_compaction" ty_bool ;;
    fld "whole_zone" ty_bool ;;
    fld "contended" ty_bool ;;
    fld "finish_pageblock" ty_bool ;;
    fld "alloc_contig" ty_bool ;;
    mnil).

Definition struct_pipe_buffer : ctype :=
  struct_ false (
    fld "page" (ptr "struct page") ;;
    fld "offset" (int_ 4 false) ;;
    fld "len" (int_ 4 false) ;;
    fld "ops" (ptr "struct pipe_buf_operations") ;;
    fld "flags" (int_ 4 false) ;;
    fld "private" (int_ 8 false) ;;
    mnil).

Definition struct_watch_queue : ctype :=
  struct_ false (
    fld "rcu" struct_callback_head ;;
    fld "filter" (ptr "struct watch_filter") ;;
    fld "pipe" (ptr "struct pipe_inode_info") ;;
    fld "watches" struct_hlist_head ;;
    fld "notes" (ptr "struct page *") ;;
    fld "notes_bitmap" (ptr "long unsigned int") ;;
    fld "usage" struct_kref ;;
    fld "lock" ty_spinlock_t ;;
    fld "nr_notes" (int_ 4 false) ;;
    fld "nr_pages" (int_ 4 false) ;;
    mnil).

Definition struct_memcg_vmstats : ctype :=
  struct_ false (
    fld "state" (arr (int_ 8 true) 38) ;;
    fld "events" (arr (int_ 8 false) 25) ;;
    fld "state_local" (arr (int_ 8 true) 38) ;;
    fld "events_local" (arr (int_ 8 false) 25) ;;
    fld "state_pending" (arr (int_ 8 true) 38) ;;
    fld "events_pending" (arr (int_ 8 false) 25) ;;
    fld "stats_updates" ty_atomic64_t ;;
    mnil).

Definition struct_memcg_vmstats_percpu : ctype :=
  struct_ false (
    fld "stats_updates" (int_ 4 false) ;;
    fld "parent" (ptr "struct memcg_vmstats_percpu") ;;
    fld "vmstats" (ptr "struct memcg_vmstats") ;;
    fld "state" (arr (int_ 8 true) 38) ;;
    fld "events" (arr (int_ 8 false) 25) ;;
    fld "state_prev" (arr (int_ 8 true) 38) ;;
    fld "events_prev" (arr (int_ 8 false) 25) ;;
    bits "" (int_ 8 true) 64 ;;
    bits "" (int_ 8 true) 64 ;;
    bits "" (int_ 8 true) 64 ;;
    bits "" (int_ 8 true) 64 ;;
    bits "" (int_ 8 true) 64 ;;
    bits "" (int_ 8 true) 64 ;;
    bits "" (int_ 8 true) 64 ;;
    mnil).

Definition struct_zswap_lruvec_state : ctype :=
  struct_ false (
    fld "nr_disk_swapins" ty_atomic_long_t ;;
    mnil).

Definition struct_lruvec : ctype :=
  struct_ false (
    fld "lists" (arr struct_list_head 5) ;;
    fld "lru_lock" ty_spinlock_t ;;
    fld "anon_cost" (int_ 8 false) ;;
    fld "file_cost" (int_ 8 false) ;;
    fld "nonresident_age" ty_atomic_long_t ;;
    fld "refaults" (arr (int_ 8 false) 2) ;;
    fld "flags" (int_ 8 false) ;;
    fld "pgdat" (ptr "struct pglist_data") ;;
    fld "zswap_lruvec_state" struct_zswap_lruvec_state ;;
    mnil).

Definition struct_mem_cgroup_reclaim_iter : ctype :=
  struct_ false (
    fld "position" (ptr "struct mem_cgroup") ;;
    fld "generation" ty_atomic_t ;;
    mnil).

Definition struct_mem_cgroup_per_node : ctype :=
  struct_ false (
    fld "memcg" (ptr "struct mem_cgroup") ;;
    fld "lruvec_stats_percpu" (ptr "struct lruvec_stats_percpu") ;;
    fld "lruvec_stats" (ptr "struct lruvec_stats") ;;
    fld "shrinker_info" (ptr "struct shrinker_info") ;;
    bits "" (int_ 8 true) 64 ;;
    bits "" (int_ 8 true) 64 ;;
    bits "" (int_ 8 true) 64 ;;
    bits "" (int_ 8 true) 64 ;;
    fld "_pad1_" struct_cacheline_padding ;;
    fld "lruvec" struct_lruvec ;;
    bits "" (int_ 8 true) 64 ;;
    bits "" (int_ 8 true) 64 ;;
    bits "" (int_ 8 true) 64 ;;
    bits "" (int_ 8 true) 64 ;;
    bits "" (int_ 8 true) 64 ;;
    fld "_pad2_" struct_cacheline_padding ;;
    fld "lru_zone_size" (arr (int_ 8 false) 25) ;;
    fld "iter" struct_mem_cgroup_reclaim_iter ;;
    bits "" (int_ 8 true) 64 ;;
    bits "" (int_ 8 true) 64 ;;
    bits "" (int_ 8 true) 64 ;;
    bits "" (int_ 8 true) 64 ;;
    bits "" (int_ 8 true) 64 ;;
    mnil).

Definition struct_arch_uprobe : ctype :=
  struct_ false (
    anon (union_ false (
      fld "insn" (arr ty_u8 16) ;;
      fld "ixol" (arr ty_u8 16) ;;
      mnil)) ;;
    fld "ops" (ptr "struct uprobe_xol_ops") ;;
    anon (union_ false (
      fld "branch" (struct_ false (
        fld "offs" ty_s32 ;;
        fld "ilen" ty_u8 ;;
        fld "opc1" ty_u8 ;;
        mnil)) ;;
      fld "defparam" (struct_ false (
        fld "fixups" ty_u8 ;;
        fld "ilen" ty_u8 ;;
        mnil)) ;;
      fld "push" (struct_ false (
        fld "reg_offset" ty_u8 ;;
        fld "ilen" ty_u8 ;;
        mnil)) ;;
      mnil)) ;;
    mnil).

Definition struct_uprobe : ctype :=
  struct_ false (
    fld "rb_node" struct_rb_node ;;
    fld "ref" ty_refcount_t ;;
    fld "register_rwsem" struct_rw_semaphore ;;
    fld "consumer_rwsem" struct_rw_semaphore ;;
    fld "pending_list" struct_list_head ;;
    fld "consumers" struct_list_head ;;
    fld "inode" (ptr "struct inode") ;;
    fld "rcu" struct_callback_head ;;
    fld "offset" ty_loff_t ;;
    fld "ref_ctr_offset" ty_loff_t ;;
    fld "flags" (int_ 8 false) ;;
    fld "arch" struct_arch_uprobe ;;
    mnil).

Definition struct_return_instance : ctype :=
  struct_ false (
    fld "uprobe" (ptr "struct uprobe") ;;
    fld "func" (int_ 8 false) ;;
    fld "stack" (int_ 8 false) ;;
    fld "orig_ret_vaddr" (int_ 8 false) ;;
    fld "chained" ty_bool ;;
    fld "next" (ptr "struct return_instance") ;;
    mnil).

Definition struct_bpf_local_storage_data : ctype :=
  struct_ false (
    fld "smap" (ptr "struct bpf_local_storage_map") ;;
    fld "data" (arr ty_u8 0) ;;
    mnil).

Definition struct_bpf_map : ctype :=
  struct_ false (
    fld "ops" (ptr "struct bpf_map_ops") ;;
    fld "inner_map_meta" (ptr "struct bpf_map") ;;
    fld "security" (ptr "void") ;;
    fld "map_type" enum_bpf_map_type ;;
    fld "key_size" ty_u32 ;;
    fld "value_size" ty_u32 ;;
    fld "max_entries" ty_u32 ;;
    fld "map_extra" ty_u64 ;;
    fld "map_flags" ty_u32 ;;
    fld "id" ty_u32 ;;
    fld "record" (ptr "struct btf_record") ;;
    fld "numa_node" (int_ 4 true) ;;
    fld "btf_key_type_id" ty_u32 ;;
    fld "btf_value_type_id" ty_u32 ;;
    fld "btf_vmlinux_value_type_id" ty_u32 ;;
    fld "btf" (ptr "struct btf") ;;
    fld "objcg" (ptr "struct obj_cgroup") ;;
    fld "name" (arr (int_ 1 true) 16) ;;
    fld "freeze_mutex" struct_mutex ;;
    fld "refcnt" ty_atomic64_t ;;
    fld "usercnt" ty_atomic64_t ;;
    anon (union_ false (
      fld "work" struct_work_struct ;;
      fld "rcu" struct_callback_head ;;
      mnil)) ;;
    fld "writecnt" ty_atomic64_t ;;
    fld "owner_lock" ty_spinlock_t ;;
    fld "owner" (ptr "struct bpf_map_owner") ;;
    fld "bypass_spec_v1" ty_bool ;;
    fld "frozen" ty_bool ;;
    fld "free_after_mult_rcu_gp" ty_bool ;;
    fld "free_after_rcu_gp" ty_bool ;;
    fld "sleepable_refcnt" ty_atomic64_t ;;
    fld "elem_count" (ptr "s64") ;;
    fld "cookie" ty_u64 ;;
    mnil).

Definition struct_bpf_mem_alloc : ctype :=
  struct_ false (
    fld "caches" (ptr "struct bpf_mem_caches") ;;
    fld "cache" (ptr "struct bpf_mem_cache") ;;
    fld "objcg" (ptr "struct obj_cgroup") ;;
    fld "percpu" ty_bool ;;
    fld "work" struct_work_struct ;;
    mnil).

Definition struct_bpf_local_storage_map : ctype :=
  struct_ false (
    fld "map" struct_bpf_map ;;
    fld "buckets" (ptr "struct bpf_local_storage_map_bucket") ;;
    fld "bucket_log" ty_u32 ;;
    fld "elem_size" ty_u16 ;;
    fld "cache_idx" ty_u16 ;;
    fld "selem_ma" struct_bpf_mem_alloc ;;
    fld "storage_ma" struct_bpf_mem_alloc ;;
    fld "bpf_ma" ty_bool ;;
    mnil).

Definition struct_blkcg : ctype :=
  struct_ false (
    fld "css" struct_cgroup_subsys_state ;;
    fld "lock" ty_spinlock_t ;;
    fld "online_pin" ty_refcount_t ;;
    fld "congestion_count" ty_atomic_t ;;
    fld "blkg_tree" struct_xarray ;;
    fld "blkg_hint" (ptr "struct blkcg_gq") ;;
    fld "blkg_list" struct_hlist_head ;;
    fld "cpd" (arr (ptr "struct blkcg_policy_data") 6) ;;
    fld "all_blkcgs_node" struct_list_head ;;
    fld "lhead" (ptr "struct llist_head") ;;
    fld "cgwb_list" struct_list_head ;;
    mnil).

Definition struct_blkg_policy_data : ctype :=
  struct_ false (
    fld "blkg" (ptr "struct blkcg_gq") ;;
    fld "plid" (int_ 4 true) ;;
    fld "online" ty_bool ;;
    mnil).

Definition enum_blk_crypto_mode_num : ctype :=
  enum_ 4 [("BLK_ENCRYPTION_MODE_INVALID", 0); ("BLK_ENCRYPTION_MODE_AES_256_XTS", 1); ("BLK_ENCRYPTION_MODE_AES_128_CBC_ESSIV", 2); ("BLK_ENCRYPTION_MODE_ADIANTUM", 3); ("BLK_ENCRYPTION_MODE_SM4_XTS", 4); ("BLK_ENCRYPTION_MODE_MAX", 5)].

Definition struct_blk_crypto_config : ctype :=
  struct_ false (
    fld "crypto_mode" enum_blk_crypto_mode_num ;;
    fld "data_unit_size" (int_ 4 false) ;;
    fld "dun_bytes" (int_ 4 false) ;;
    mnil).

Definition struct_blk_crypto_key : ctype :=
  struct_ false (
    fld "crypto_cfg" struct_blk_crypto_config ;;
    fld "data_unit_size_bits" (int_ 4 false) ;;
    fld "size" (int_ 4 false) ;;
    fld "raw" (arr ty_u8 64) ;;
    mnil).

Definition struct_kset_uevent_ops : ctype :=
  struct_ false (
    fld "filter" (ptr "function") ;;
    fld "name" (ptr "function") ;;
    fld "uevent" (ptr "function") ;;
    mnil).

Definition struct_sysfs_ops : ctype :=
  struct_ false (
    fld "show" (ptr "function") ;;
    fld "store" (ptr "function") ;;
    mnil).

Definition struct_kernfs_root : ctype :=
  struct_ false (
    fld "kn" (ptr "struct kernfs_node") ;;
    fld "flags" (int_ 4 false) ;;
    fld "ino_idr" struct_idr ;;
    fld "last_id_lowbits" ty_u32 ;;
    fld "id_highbits" ty_u32 ;;
    fld "syscall_ops" (ptr "struct kernfs_syscall_ops") ;;
    fld "supers" struct_list_head ;;
    fld "deactivate_waitq" ty_wait_queue_head_t ;;
    fld "kernfs_rwsem" struct_rw_semaphore ;;
    fld "kernfs_iattr_rwsem" struct_rw_semaphore ;;
    fld "kernfs_supers_rwsem" struct_rw_semaphore ;;
    fld "rcu" struct_callback_head ;;
    mnil).

Definition struct_kernfs_ops : ctype :=
  struct_ false (
    fld "open" (ptr "function") ;;
    fld "release" (ptr "function") ;;
    fld "seq_show" (ptr "function") ;;
    fld "seq_start" (ptr "function") ;;
    fld "seq_next" (ptr "function") ;;
    fld "seq_stop" (ptr "function") ;;
    fld "read" (ptr "function") ;;
    fld "atomic_write_len" ty_size_t ;;
    fld "prealloc" ty_bool ;;
    fld "write" (ptr "function") ;;
    fld "poll" (ptr "function") ;;
    fld "mmap" (ptr "function") ;;
    fld "llseek" (ptr "function") ;;
    mnil).

Definition struct_kernfs_open_node : ctype :=
  struct_ false (
    fld "callback_head" struct_callback_head ;;
    fld "event" ty_atomic_t ;;
    fld "poll" ty_wait_queue_head_t ;;
    fld "files" struct_list_head ;;
    fld "nr_mmapped" (int_ 4 false) ;;
    fld "nr_to_release" (int_ 4 false) ;;
    mnil).

Definition struct_simple_xattrs : ctype :=
  struct_ false (
    fld "rb_root" struct_rb_root ;;
    fld "lock" ty_rwlock_t ;;
    mnil).

Definition struct_kernfs_iattrs : ctype :=
  struct_ false (
    fld "ia_uid" ty_kuid_t ;;
    fld "ia_gid" ty_kgid_t ;;
    fld "ia_atime" struct_timespec64 ;;
    fld "ia_mtime" struct_timespec64 ;;
    fld "ia_ctime" struct_timespec64 ;;
    fld "xattrs" struct_simple_xattrs ;;
    fld "nr_user_xattrs" ty_atomic_t ;;
    fld "user_xattr_size" ty_atomic_t ;;
    mnil).

Definition struct_pm_domain_data : ctype :=
  struct_ false (
    fld "list_node" struct_list_head ;;
    fld "dev" (ptr "struct device") ;;
    mnil).

Definition enum_dev_pm_qos_req_type : ctype :=
  enum_ 4 [("DEV_PM_QOS_RESUME_LATENCY", 1); ("DEV_PM_QOS_LATENCY_TOLERANCE", 2); ("DEV_PM_QOS_MIN_FREQUENCY", 3); ("DEV_PM_QOS_MAX_FREQUENCY", 4); ("DEV_PM_QOS_FLAGS", 5)].

Definition struct_pm_qos_flags_request : ctype :=
  struct_ false (
    fld "node" struct_list_head ;;
    fld "flags" ty_s32 ;;
    mnil).

Definition enum_freq_qos_req_type : ctype :=
  enum_ 4 [("FREQ_QOS_MIN", 1); ("FREQ_QOS_MAX", 2)].

Definition struct_freq_qos_request : ctype :=
  struct_ false (
    fld "type" enum_freq_qos_req_type ;;
    fld "pnode" struct_plist_node ;;
    fld "qos" (ptr "struct freq_constraints") ;;
    mnil).

Definition struct_dev_pm_qos_request : ctype :=
  struct_ false (
    fld "type" enum_dev_pm_qos_req_type ;;
    fld "data" (union_ false (
      fld "pnode" struct_plist_node ;;
      fld "flr" struct_pm_qos_flags_request ;;
      fld "freq" struct_freq_qos_request ;;
      mnil)) ;;
    fld "dev" (ptr "struct device") ;;
    mnil).

Definition struct_irq_domain_ops : ctype :=
  struct_ false (
    fld "match" (ptr "function") ;;
    fld "select" (ptr "function") ;;
    fld "map" (ptr "function") ;;
    fld "unmap" (ptr "function") ;;
    fld "xlate" (ptr "function") ;;
    fld "alloc" (ptr "function") ;;
    fld "free" (ptr "function") ;;
    fld "activate" (ptr "function") ;;
    fld "deactivate" (ptr "function") ;;
    fld "translate" (ptr "function") ;;
    mnil).

Definition enum_irq_gc_flags : ctype :=
  enum_ 4 [("IRQ_GC_INIT_MASK_CACHE", 1); ("IRQ_GC_INIT_NESTED_LOCK", 2); ("IRQ_GC_MASK_CACHE_PER_TYPE", 4); ("IRQ_GC_NO_MASK", 8); ("IRQ_GC_BE_IO", 16)].

Definition struct_irq_domain_chip_generic : ctype :=
  struct_ false (
    fld "irqs_per_chip" (int_ 4 false) ;;
    fld "num_chips" (int_ 4 false) ;;
    fld "irq_flags_to_clear" (int_ 4 false) ;;
    fld "irq_flags_to_set" (int_ 4 false) ;;
    fld "gc_flags" enum_irq_gc_flags ;;
    fld "exit" (ptr "function") ;;
    fld "gc" (arr (ptr "struct irq_chip_generic") 0) ;;
    mnil).

Definition struct_msi_parent_ops : ctype :=
  struct_ false (
    fld "supported_flags" ty_u32 ;;
    fld "required_flags" ty_u32 ;;
    fld "bus_select_token" ty_u32 ;;
    fld "bus_select_mask" ty_u32 ;;
    fld "prefix" (ptr "char") ;;
    fld "init_dev_msi_info" (ptr "function") ;;
    mnil).

Definition struct_irq_data : ctype :=
  struct_ false (
    fld "mask" ty_u32 ;;
    fld "irq" (int_ 4 false) ;;
    fld "hwirq" ty_irq_hw_number_t ;;
    fld "common" (ptr "struct irq_common_data") ;;
    fld "chip" (ptr "struct irq_chip") ;;
    fld "domain" (ptr "struct irq_domain") ;;
    fld "parent_data" (ptr "struct irq_data") ;;
    fld "chip_data" (ptr "void") ;;
    mnil).

Definition enum_module_state : ctype :=
  enum_ 4 [("MODULE_STATE_LIVE", 0); ("MODULE_STATE_COMING", 1); ("MODULE_STATE_GOING", 2); ("MODULE_STATE_UNFORMED", 3)].

Definition struct_module_kobject : ctype :=
  struct_ false (
    fld "kobj" struct_kobject ;;
    fld "mod" (ptr "struct module") ;;
    fld "drivers_dir" (ptr "struct kobject") ;;
    fld "mp" (ptr "struct module_param_attrs") ;;
    fld "kobj_completion" (ptr "struct completion") ;;
    mnil).

Definition struct_latch_tree_node : ctype :=
  struct_ false (
    fld "node" (arr struct_rb_node 2) ;;
    mnil).

Definition struct_mod_tree_node : ctype :=
  struct_ false (
    fld "mod" (ptr "struct module") ;;
    fld "node" struct_latch_tree_node ;;
    mnil).

Definition struct_module_memory : ctype :=
  struct_ false (
    fld "base" (ptr "void") ;;
    fld "size" (int_ 4 false) ;;
    fld "mtn" struct_mod_tree_node ;;
    mnil).

Definition struct_mod_arch_specific : ctype :=
  struct_ false (
    fld "num_orcs" (int_ 4 false) ;;
    fld "orc_unwind_ip" (ptr "int") ;;
    fld "orc_unwind" (ptr "struct orc_entry") ;;
    mnil).

Definition struct_mod_kallsyms : ctype :=
  struct_ false (
    fld "symtab" (ptr "Elf64_Sym") ;;
    fld "num_symtab" (int_ 4 false) ;;
    fld "strtab" (ptr "char") ;;
    fld "typetab" (ptr "char") ;;
    mnil).

Definition struct__ddebug_info : ctype :=
  struct_ false (
    fld "descs" (ptr "struct _ddebug") ;;
    fld "classes" (ptr "struct ddebug_class_map") ;;
    fld "num_descs" (int_ 4 false) ;;
    fld "num_classes" (int_ 4 false) ;;
    mnil).

Definition struct_module : ctype :=
  struct_ false (
    fld "state" enum_module_state ;;
    fld "list" struct_list_head ;;
    fld "name" (arr (int_ 1 true) 56) ;;
    fld "mkobj" struct_module_kobject ;;
    fld "modinfo_attrs" (ptr "struct module_attribute") ;;
    fld "version" (ptr "char") ;;
    fld "srcversion" (ptr "char") ;;
    fld "holders_dir" (ptr "struct kobject") ;;
    fld "syms" (ptr "struct kernel_symbol") ;;
    fld "crcs" (ptr "s32") ;;
    fld "num_syms" (int_ 4 false) ;;
    fld "param_lock" struct_mutex ;;
    fld "kp" (ptr "struct kernel_param") ;;
    fld "num_kp" (int_ 4 false) ;;
    fld "num_gpl_syms" (int_ 4 false) ;;
    fld "gpl_syms" (ptr "struct kernel_symbol") ;;
    fld "gpl_crcs" (ptr "s32") ;;
    fld "using_gplonly_symbols" ty_bool ;;
    fld "sig_ok" ty_bool ;;
    fld "async_probe_requested" ty_bool ;;
    fld "num_exentries" (int_ 4 false) ;;
    fld "extable" (ptr "struct exception_table_entry") ;;
    fld "init" (ptr "function") ;;
    fld "mem" (arr struct_module_memory 7) ;;
    fld "arch" struct_mod_arch_specific ;;
    fld "taints" (int_ 8 false) ;;
    fld "num_bugs" (int_ 4 false) ;;
    fld "bug_list" struct_list_head ;;
    fld "bug_table" (ptr "struct bug_entry") ;;
    fld "kallsyms" (ptr "struct mod_kallsyms") ;;
    fld "core_kallsyms" struct_mod_kallsyms ;;
    fld "sect_attrs" (ptr "struct module_sect_attrs") ;;
    fld "notes_attrs" (ptr "struct module_notes_attrs") ;;
    fld "args" (ptr "char") ;;
    fld "percpu" (ptr "void") ;;
    fld "percpu_size" (int_ 4 false) ;;
    fld "noinstr_text_start" (ptr "void") ;;
    fld "noinstr_text_size" (int_ 4 false) ;;
    fld "num_tracepoints" (int_ 4 false) ;;
    fld "tracepoints_ptrs" (ptr "tracepoint_ptr_t") ;;
    fld "num_srcu_structs" (int_ 4 false) ;;
    fld "srcu_struct_ptrs" (ptr "struct srcu_struct *") ;;
    fld "num_bpf_raw_events" (int_ 4 false) ;;
    fld "bpf_raw_events" (ptr "struct bpf_raw_event_map") ;;
    fld "btf_data_size" (int_ 4 false) ;;
    fld "btf_base_data_size" (int_ 4 false) ;;
    fld "btf_data" (ptr "void") ;;
    fld "btf_base_data" (ptr "void") ;;
    fld "jump_entries" (ptr "struct jump_entry") ;;
    fld "num_jump_entries" (int_ 4 false) ;;
    fld "num_trace_bprintk_fmt" (int_ 4 false) ;;
    fld "trace_bprintk_fmt_start" (ptr "char *") ;;
    fld "trace_events" (ptr "struct trace_event_call *") ;;
    fld "num_trace_events" (int_ 4 false) ;;
    fld "trace_evals" (ptr "struct trace_eval_map *") ;;
    fld "num_trace_evals" (int_ 4 false) ;;
    fld "num_ftrace_callsites" (int_ 4 false) ;;
    fld "ftrace_callsites" (ptr "long unsigned int") ;;
    fld "kprobes_text_start" (ptr "void") ;;
    fld "kprobes_text_size" (int_ 4 false) ;;
    fld "kprobe_blacklist" (ptr "long unsigned int") ;;
    fld "num_kprobe_blacklist" (int_ 4 false) ;;
    fld "num_static_call_sites" (int_ 4 true) ;;
    fld "static_call_sites" (ptr "struct static_call_site") ;;
    fld "source_list" struct_list_head ;;
    fld "target_list" struct_list_head ;;
    fld "exit" (ptr "function") ;;
    fld "refcnt" ty_atomic_t ;;
    fld "its_num_pages" (int_ 4 true) ;;
    fld "its_page_array" (ptr "void *") ;;
    fld "ei_funcs" (ptr "struct error_injection_entry") ;;
    fld "num_ei_funcs" (int_ 4 false) ;;
    fld "dyndbg_info" struct__ddebug_info ;;
    bits "" (int_ 8 true) 64 ;;
    bits "" (int_ 8 true) 64 ;;
    bits "" (int_ 8 true) 64 ;;
    bits "" (int_ 8 true) 64 ;;
    mnil).

Definition struct_of_device_id : ctype :=
  struct_ false (
    fld "name" (arr (int_ 1 true) 32) ;;
    fld "type" (arr (int_ 1 true) 32) ;;
    fld "compatible" (arr (int_ 1 true) 128) ;;
    fld "data" (ptr "void") ;;
    mnil).

Definition ty_kernel_ulong_t : ctype :=
  int_ 8 false.

Definition struct_acpi_device_id : ctype :=
  struct_ false (
    fld "id" (arr ty___u8 16) ;;
    fld "driver_data" ty_kernel_ulong_t ;;
    fld "cls" ty___u32 ;;
    fld "cls_msk" ty___u32 ;;
    mnil).

Definition struct_driver_private : ctype :=
  struct_ false (
    fld "kobj" struct_kobject ;;
    fld "klist_devices" struct_klist ;;
    fld "knode_bus" struct_klist_node ;;
    fld "mkobj" (ptr "struct module_kobject") ;;
    fld "driver" (ptr "struct device_driver") ;;
    mnil).

Definition struct_em_perf_state : ctype :=
  struct_ false (
    fld "performance" (int_ 8 false) ;;
    fld "frequency" (int_ 8 false) ;;
    fld "power" (int_ 8 false) ;;
    fld "cost" (int_ 8 false) ;;
    fld "flags" (int_ 8 false) ;;
    mnil).

Definition struct_em_perf_table : ctype :=
  struct_ false (
    fld "rcu" struct_callback_head ;;
    fld "kref" struct_kref ;;
    fld "state" (arr struct_em_perf_state 0) ;;
    mnil).

Definition struct_pinctrl : ctype :=
  struct_ false (
    fld "node" struct_list_head ;;
    fld "dev" (ptr "struct device") ;;
    fld "states" struct_list_head ;;
    fld "state" (ptr "struct pinctrl_state") ;;
    fld "dt_maps" struct_list_head ;;
    fld "users" struct_kref ;;
    mnil).

Definition struct_pinctrl_state : ctype :=
  struct_ false (
    fld "node" struct_list_head ;;
    fld "name" (ptr "char") ;;
    fld "settings" struct_list_head ;;
    mnil).

Definition struct_io_tlb_area : ctype :=
  struct_ false (
    fld "used" (int_ 8 false) ;;
    fld "index" (int_ 4 false) ;;
    fld "lock" ty_spinlock_t ;;
    mnil).

Definition struct_io_tlb_slot : ctype :=
  struct_ false (
    fld "orig_addr" ty_phys_addr_t ;;
    fld "alloc_size" ty_size_t ;;
    fld "list" (int_ 2 false) ;;
    fld "pad_slots" (int_ 2 false) ;;
    mnil).

Definition struct_fwnode_operations : ctype :=
  struct_ false (
    fld "get" (ptr "function") ;;
    fld "put" (ptr "function") ;;
    fld "device_is_available" (ptr "function") ;;
    fld "device_get_match_data" (ptr "function") ;;
    fld "device_dma_supported" (ptr "function") ;;
    fld "device_get_dma_attr" (ptr "function") ;;
    fld "property_present" (ptr "function") ;;
    fld "property_read_int_array" (ptr "function") ;;
    fld "property_read_string_array" (ptr "function") ;;
    fld "get_name" (ptr "function") ;;
    fld "get_name_prefix" (ptr "function") ;;
    fld "get_parent" (ptr "function") ;;
    fld "get_next_child_node" (ptr "function") ;;
    fld "get_named_child_node" (ptr "function") ;;
    fld "get_reference_args" (ptr "function") ;;
    fld "graph_get_next_endpoint" (ptr "function") ;;
    fld "graph_get_remote_endpoint" (ptr "function") ;;
    fld "graph_get_port_parent" (ptr "function") ;;
    fld "graph_parse_endpoint" (ptr "function") ;;
    fld "iomap" (ptr "function") ;;
    fld "irq_get" (ptr "function") ;;
    fld "add_links" (ptr "function") ;;
    mnil).

Definition struct_property : ctype :=
  struct_ false (
    fld "name" (ptr "char") ;;
    fld "length" (int_ 4 true) ;;
    fld "value" (ptr "void") ;;
    fld "next" (ptr "struct property") ;;
    mnil).

Definition enum_kobj_ns_type : ctype :=
  enum_ 4 [("KOBJ_NS_TYPE_NONE", 0); ("KOBJ_NS_TYPE_NET", 1); ("KOBJ_NS_TYPES", 2)].

Definition struct_kobj_ns_type_operations : ctype :=
  struct_ false (
    fld "type" enum_kobj_ns_type ;;
    fld "current_may_mount" (ptr "function") ;;
    fld "grab_current_ns" (ptr "function") ;;
    fld "netlink_ns" (ptr "function") ;;
    fld "initial_ns" (ptr "function") ;;
    fld "drop_ns" (ptr "function") ;;
    mnil).

Definition struct_attribute : ctype :=
  struct_ false (
    fld "name" (ptr "char") ;;
    fld "mode" ty_umode_t ;;
    mnil).

Definition struct_bin_attribute : ctype :=
  struct_ false (
    fld "attr" struct_attribute ;;
    fld "size" ty_size_t ;;
    fld "private" (ptr "void") ;;
    fld "f_mapping" (ptr "function") ;;
    fld "read" (ptr "function") ;;
    fld "write" (ptr "function") ;;
    fld "llseek" (ptr "function") ;;
    fld "mmap" (ptr "function") ;;
    mnil).

Definition struct_iommu_domain_geometry : ctype :=
  struct_ false (
    fld "aperture_start" ty_dma_addr_t ;;
    fld "aperture_end" ty_dma_addr_t ;;
    fld "force_aperture" ty_bool ;;
    mnil).

Definition ty_iommu_fault_handler_t : ctype :=
  ptr "function".

Definition struct_iommu_domain : ctype :=
  struct_ false (
    fld "type" (int_ 4 false) ;;
    fld "ops" (ptr "struct iommu_domain_ops") ;;
    fld "dirty_ops" (ptr "struct iommu_dirty_ops") ;;
    fld "owner" (ptr "struct iommu_ops") ;;
    fld "pgsize_bitmap" (int_ 8 false) ;;
    fld "geometry" struct_iommu_domain_geometry ;;
    fld "iova_cookie" (ptr "struct iommu_dma_cookie") ;;
    fld "iopf_handler" (ptr "function") ;;
    fld "fault_data" (ptr "void") ;;
    anon (union_ false (
      anon (struct_ false (
        fld "handler" ty_iommu_fault_handler_t ;;
        fld "handler_token" (ptr "void") ;;
        mnil)) ;;
      anon (struct_ false (
        fld "mm" (ptr "struct mm_struct") ;;
        fld "users" (int_ 4 true) ;;
        fld "next" struct_list_head ;;
        mnil)) ;;
      mnil)) ;;
    mnil).

Definition struct_iommu_fault_param : ctype :=
  struct_ false (
    fld "lock" struct_mutex ;;
    fld "users" ty_refcount_t ;;
    fld "rcu" struct_callback_head ;;
    fld "dev" (ptr "struct device") ;;
    fld "queue" (ptr "struct iopf_queue") ;;
    fld "queue_list" struct_list_head ;;
    fld "partial" struct_list_head ;;
    fld "faults" struct_list_head ;;
    mnil).

Definition struct_iommu_fwspec : ctype :=
  struct_ false (
    fld "iommu_fwnode" (ptr "struct fwnode_handle") ;;
    fld "flags" ty_u32 ;;
    fld "num_ids" (int_ 4 false) ;;
    fld "ids" (arr ty_u32 0) ;;
    mnil).

Definition struct_iommu_device : ctype :=
  struct_ false (
    fld "list" struct_list_head ;;
    fld "ops" (ptr "struct iommu_ops") ;;
    fld "fwnode" (ptr "struct fwnode_handle") ;;
    fld "dev" (ptr "struct device") ;;
    fld "singleton_group" (ptr "struct iommu_group") ;;
    fld "max_pasids" ty_u32 ;;
    mnil).

Definition struct_blk_mq_ctxs : ctype :=
  struct_ false (
    fld "kobj" struct_kobject ;;
    fld "queue_ctx" (ptr "struct blk_mq_ctx") ;;
    mnil).

Definition struct_sbitmap_word : ctype :=
  struct_ false (
    fld "word" (int_ 8 false) ;;
    bits "" (int_ 8 true) 64 ;;
    bits "" (int_ 8 true) 64 ;;
    bits "" (int_ 8 true) 64 ;;
    bits "" (int_ 8 true) 64 ;;
    bits "" (int_ 8 true) 64 ;;
    bits "" (int_ 8 true) 64 ;;
    bits "" (int_ 8 true) 64 ;;
    fld "cleared" (int_ 8 false) ;;
    fld "swap_lock" ty_raw_spinlock_t ;;
    bits "" (int_ 8 true) 64 ;;
    bits "" (int_ 8 true) 64 ;;
    bits "" (int_ 8 true) 64 ;;
    bits "" (int_ 8 true) 64 ;;
    bits "" (int_ 8 true) 64 ;;
    bits "" (int_ 8 true) 64 ;;
    mnil).

Definition struct_wq_flusher : ctype :=
  struct_ false (
    fld "list" struct_list_head ;;
    fld "flush_color" (int_ 4 true) ;;
    fld "done" struct_completion ;;
    mnil).

Definition struct_worker : ctype :=
  struct_ false (
    anon (union_ false (
      fld "entry" struct_list_head ;;
      fld "hentry" struct_hlist_node ;;
      mnil)) ;;
    fld "current_work" (ptr "struct work_struct") ;;
    fld "current_func" ty_work_func_t ;;
    fld "current_pwq" (ptr "struct pool_workqueue") ;;
    fld "current_at" ty_u64 ;;
    fld "current_color" (int_ 4 false) ;;
    fld "sleeping" (int_ 4 true) ;;
    fld "last_func" ty_work_func_t ;;
    fld "scheduled" struct_list_head ;;
    fld "task" (ptr "struct task_struct") ;;
    fld "pool" (ptr "struct worker_pool") ;;
    fld "node" struct_list_head ;;
    fld "last_active" (int_ 8 false) ;;
    fld "flags" (int_ 4 false) ;;
    fld "id" (int_ 4 true) ;;
    fld "desc" (arr (int_ 1 true) 32) ;;
    fld "rescue_wq" (ptr "struct workqueue_struct") ;;
    mnil).

Definition enum_wq_affn_scope : ctype :=
  enum_ 4 [("WQ_AFFN_DFL", 0); ("WQ_AFFN_CPU", 1); ("WQ_AFFN_SMT", 2); ("WQ_AFFN_CACHE", 3); ("WQ_AFFN_NUMA", 4); ("WQ_AFFN_SYSTEM", 5); ("WQ_AFFN_NR_TYPES", 6)].

Definition struct_workqueue_attrs : ctype :=
  struct_ false (
    fld "nice" (int_ 4 true) ;;
    fld "cpumask" ty_cpumask_var_t ;;
    fld "__pod_cpumask" ty_cpumask_var_t ;;
    fld "affn_strict" ty_bool ;;
    fld "affn_scope" enum_wq_affn_scope ;;
    fld "ordered" ty_bool ;;
    mnil).

Definition struct_pool_workqueue : ctype :=
  struct_ false (
    fld "pool" (ptr "struct worker_pool") ;;
    fld "wq" (ptr "struct workqueue_struct") ;;
    fld "work_color" (int_ 4 true) ;;
    fld "flush_color" (int_ 4 true) ;;
    fld "refcnt" (int_ 4 true) ;;
    fld "nr_in_flight" (arr (int_ 4 true) 16) ;;
    fld "plugged" ty_bool ;;
    fld "nr_active" (int_ 4 true) ;;
    fld "inactive_works" struct_list_head ;;
    fld "pending_node" struct_list_head ;;
    fld "pwqs_node" struct_list_head ;;
    fld "mayday_node" struct_list_head ;;
    fld "stats" (arr ty_u64 8) ;;
    fld "release_work" struct_kthread_work ;;
    fld "rcu" struct_callback_head ;;
    bits "" (int_ 8 true) 64 ;;
    bits "" (int_ 8 true) 64 ;;
    bits "" (int_ 8 true) 64 ;;
    bits "" (int_ 8 true) 64 ;;
    bits "" (int_ 8 true) 64 ;;
    bits "" (int_ 8 true) 64 ;;
    bits "" (int_ 8 true) 64 ;;
    bits "" (int_ 8 true) 64 ;;
    bits "" (int_ 8 true) 64 ;;
    bits "" (int_ 8 true) 64 ;;
    bits "" (int_ 8 true) 64 ;;
    bits "" (int_ 8 true) 64 ;;
    bits "" (int_ 8 true) 64 ;;
    bits "" (int_ 8 true) 64 ;;
    bits "" (int_ 8 true) 64 ;;
    bits "" (int_ 8 true) 64 ;;
    bits "" (int_ 8 true) 64 ;;
    bits "" (int_ 8 true) 64 ;;
    bits "" (int_ 8 true) 64 ;;
    bits "" (int_ 8 true) 64 ;;
    bits "" (int_ 8 true) 64 ;;
    bits "" (int_ 8 true) 64 ;;
    bits "" (int_ 8 true) 64 ;;
    bits "" (int_ 8 true) 64 ;;
    bits "" (int_ 8 true) 64 ;;
    bits "" (int_ 8 true) 64 ;;
    bits "" (int_ 8 true) 64 ;;
    bits "" (int_ 8 true) 64 ;;
    mnil).

Definition struct_wq_device : ctype :=
  struct_ false (
    fld "wq" (ptr "struct workqueue_struct") ;;
    fld "dev" struct_device ;;
    mnil).

Definition struct_wq_node_nr_active : ctype :=
  struct_ false (
    fld "max" (int_ 4 true) ;;
    fld "nr" ty_atomic_t ;;
    fld "lock" ty_raw_spinlock_t ;;
    fld "pending_pwqs" struct_list_head ;;
    mnil).

Definition struct_elevator_mq_ops : ctype :=
  struct_ false (
    fld "init_sched" (ptr "function") ;;
    fld "exit_sched" (ptr "function") ;;
    fld "init_hctx" (ptr "function") ;;
    fld "exit_hctx" (ptr "function") ;;
    fld "depth_updated" (ptr "function") ;;
    fld "allow_merge" (ptr "function") ;;
    fld "bio_merge" (ptr "function") ;;
    fld "request_merge" (ptr "function") ;;
    fld "request_merged" (ptr "function") ;;
    fld "requests_merged" (ptr "function") ;;
    fld "limit_depth" (ptr "function") ;;
    fld "prepare_request" (ptr "function") ;;
    fld "finish_request" (ptr "function") ;;
    fld "insert_requests" (ptr "function") ;;
    fld "dispatch_request" (ptr "function") ;;
    fld "has_work" (ptr "function") ;;
    fld "completed_request" (ptr "function") ;;
    fld "requeue_request" (ptr "function") ;;
    fld "former_request" (ptr "function") ;;
    fld "next_request" (ptr "function") ;;
    fld "init_icq" (ptr "function") ;;
    fld "exit_icq" (ptr "function") ;;
    mnil).

Definition struct_elevator_type : ctype :=
  struct_ false (
    fld "icq_cache" (ptr "struct kmem_cache") ;;
    fld "ops" struct_elevator_mq_ops ;;
    fld "icq_size" ty_size_t ;;
    fld "icq_align" ty_size_t ;;
    fld "elevator_attrs" (ptr "struct elv_fs_entry") ;;
    fld "elevator_name" (ptr "char") ;;
    fld "elevator_alias" (ptr "char") ;;
    fld "elevator_owner" (ptr "struct module") ;;
    fld "icq_cache_name" (arr (int_ 1 true) 22) ;;
    fld "list" struct_list_head ;;
    mnil).

Definition struct_rq_qos_ops : ctype :=
  struct_ false (
    fld "throttle" (ptr "function") ;;
    fld "track" (ptr "function") ;;
    fld "merge" (ptr "function") ;;
    fld "issue" (ptr "function") ;;
    fld "requeue" (ptr "function") ;;
    fld "done" (ptr "function") ;;
    fld "done_bio" (ptr "function") ;;
    fld "cleanup" (ptr "function") ;;
    fld "queue_depth_changed" (ptr "function") ;;
    fld "exit" (ptr "function") ;;
    fld "debugfs_attrs" (ptr "struct blk_mq_debugfs_attr") ;;
    mnil).

Definition struct_sbq_wait_state : ctype :=
  struct_ false (
    fld "wait" ty_wait_queue_head_t ;;
    bits "" (int_ 8 true) 64 ;;
    bits "" (int_ 8 true) 64 ;;
    bits "" (int_ 8 true) 64 ;;
    bits "" (int_ 8 true) 64 ;;
    bits "" (int_ 8 true) 64 ;;
    mnil).

Definition struct_rchan : ctype :=
  struct_ false (
    fld "version" ty_u32 ;;
    fld "subbuf_size" ty_size_t ;;
    fld "n_subbufs" ty_size_t ;;
    fld "alloc_size" ty_size_t ;;
    fld "cb" (ptr "struct rchan_callbacks") ;;
    fld "kref" struct_kref ;;
    fld "private_data" (ptr "void") ;;
    fld "last_toobig" ty_size_t ;;
    fld "buf" (ptr "struct rchan_buf *") ;;
    fld "is_global" (int_ 4 true) ;;
    fld "list" struct_list_head ;;
    fld "parent" (ptr "struct dentry") ;;
    fld "has_base_filename" (int_ 4 true) ;;
    fld "base_filename" (arr (int_ 1 true) 255) ;;
    mnil).

Definition struct_srcu_struct : ctype :=
  struct_ false (
    fld "srcu_idx" (int_ 4 false) ;;
    fld "sda" (ptr "struct srcu_data") ;;
    fld "dep_map" struct_lockdep_map ;;
    fld "srcu_sup" (ptr "struct srcu_usage") ;;
    mnil).

Definition struct_dentry_operations : ctype :=
  struct_ false (
    fld "d_revalidate" (ptr "function") ;;
    fld "d_weak_revalidate" (ptr "function") ;;
    fld "d_hash" (ptr "function") ;;
    fld "d_compare" (ptr "function") ;;
    fld "d_delete" (ptr "function") ;;
    fld "d_init" (ptr "function") ;;
    fld "d_release" (ptr "function") ;;
    fld "d_prune" (ptr "function") ;;
    fld "d_iput" (ptr "function") ;;
    fld "d_dname" (ptr "function") ;;
    fld "d_automount" (ptr "function") ;;
    fld "d_manage" (ptr "function") ;;
    fld "d_real" (ptr "function") ;;
    bits "" (int_ 8 true) 64 ;;
    bits "" (int_ 8 true) 64 ;;
    bits "" (int_ 8 true) 64 ;;
    mnil).

Definition struct_hlist_bl_head : ctype :=
  struct_ false (
    fld "first" (ptr "struct hlist_bl_node") ;;
    mnil).

Definition ty_qsize_t : ctype :=
  int_ 8 true.

Definition struct_mem_dqinfo : ctype :=
  struct_ false (
    fld "dqi_format" (ptr "struct quota_format_type") ;;
    fld "dqi_fmt_id" (int_ 4 true) ;;
    fld "dqi_dirty_list" struct_list_head ;;
    fld "dqi_flags" (int_ 8 false) ;;
    fld "dqi_bgrace" (int_ 4 false) ;;
    fld "dqi_igrace" (int_ 4 false) ;;
    fld "dqi_max_spc_limit" ty_qsize_t ;;
    fld "dqi_max_ino_limit" ty_qsize_t ;;
    fld "dqi_priv" (ptr "void") ;;
    mnil).

Definition struct_quota_info : ctype :=
  struct_ false (
    fld "flags" (int_ 4 false) ;;
    fld "dqio_sem" struct_rw_semaphore ;;
    fld "files" (arr (ptr "struct inode") 3) ;;
    fld "info" (arr struct_mem_dqinfo 3) ;;
    fld "ops" (arr (ptr "struct quota_format_ops") 3) ;;
    mnil).

Definition struct_rcu_sync : ctype :=
  struct_ false (
    fld "gp_state" (int_ 4 true) ;;
    fld "gp_count" (int_ 4 true) ;;
    fld "gp_wait" ty_wait_queue_head_t ;;
    fld "cb_head" struct_callback_head ;;
    mnil).

Definition struct_percpu_rw_semaphore : ctype :=
  struct_ false (
    fld "rss" struct_rcu_sync ;;
    fld "read_count" (ptr "unsigned int") ;;
    fld "writer" struct_rcuwait ;;
    fld "waiters" ty_wait_queue_head_t ;;
    fld "block" ty_atomic_t ;;
    mnil).

Definition struct_sb_writers : ctype :=
  struct_ false (
    fld "frozen" (int_ 2 false) ;;
    fld "freeze_kcount" (int_ 4 true) ;;
    fld "freeze_ucount" (int_ 4 true) ;;
    fld "rw_sem" (arr struct_percpu_rw_semaphore 3) ;;
    mnil).

Definition ty_uuid_t : ctype :=
  struct_ false (
    fld "b" (arr ty___u8 16) ;;
    mnil).

Definition struct_list_lru : ctype :=
  struct_ false (
    fld "node" (ptr "struct list_lru_node") ;;
    fld "list" struct_list_head ;;
    fld "shrinker_id" (int_ 4 true) ;;
    fld "memcg_aware" ty_bool ;;
    fld "xa" struct_xarray ;;
    mnil).

Definition struct_super_block : ctype :=
  struct_ false (
    fld "s_list" struct_list_head ;;
    fld "s_dev" ty_dev_t ;;
    fld "s_blocksize_bits" (int_ 1 false) ;;
    fld "s_blocksize" (int_ 8 false) ;;
    fld "s_maxbytes" ty_loff_t ;;
    fld "s_type" (ptr "struct file_system_type") ;;
    fld "s_op" (ptr "struct super_operations") ;;
    fld "dq_op" (ptr "struct dquot_operations") ;;
    fld "s_qcop" (ptr "struct quotactl_ops") ;;
    fld "s_export_op" (ptr "struct export_operations") ;;
    fld "s_flags" (int_ 8 false) ;;
    fld "s_iflags" (int_ 8 false) ;;
    fld "s_magic" (int_ 8 false) ;;
    fld "s_root" (ptr "struct dentry") ;;
    fld "s_umount" struct_rw_semaphore ;;
    fld "s_count" (int_ 4 true) ;;
    fld "s_active" ty_atomic_t ;;
    fld "s_security" (ptr "void") ;;
    fld "s_xattr" (ptr "struct xattr_handler *") ;;
    fld "s_cop" (ptr "struct fscrypt_operations") ;;
    fld "s_master_keys" (ptr "struct fscrypt_keyring") ;;
    fld "s_vop" (ptr "struct fsverity_operations") ;;
    fld "s_encoding" (ptr "struct unicode_map") ;;
    fld "s_encoding_flags" ty___u16 ;;
    fld "s_roots" struct_hlist_bl_head ;;
    fld "s_mounts" struct_list_head ;;
    fld "s_bdev" (ptr "struct block_device") ;;
    fld "s_bdev_file" (ptr "struct file") ;;
    fld "s_bdi" (ptr "struct backing_dev_info") ;;
    fld "s_mtd" (ptr "struct mtd_info") ;;
    fld "s_instances" struct_hlist_node ;;
    fld "s_quota_types" (int_ 4 false) ;;
    fld "s_dquot" struct_quota_info ;;
    fld "s_writers" struct_sb_writers ;;
    fld "s_fs_info" (ptr "void") ;;
    fld "s_time_gran" ty_u32 ;;
    fld "s_time_min" ty_time64_t ;;
    fld "s_time_max" ty_time64_t ;;
    fld "s_fsnotify_mask" ty_u32 ;;
    fld "s_fsnotify_info" (ptr "struct fsnotify_sb_info") ;;
    fld "s_id" (arr (int_ 1 true) 32) ;;
    fld "s_uuid" ty_uuid_t ;;
    fld "s_uuid_len" ty_u8 ;;
    fld "s_sysfs_name" (arr (int_ 1 true) 37) ;;
    fld "s_max_links" (int_ 4 false) ;;
    fld "s_vfs_rename_mutex" struct_mutex ;;
    fld "s_subtype" (ptr "char") ;;
    fld "s_d_op" (ptr "struct dentry_operations") ;;
    fld "s_shrink" (ptr "struct shrinker") ;;
    fld "s_remove_count" ty_atomic_long_t ;;
    fld "s_readonly_remount" (int_ 4 true) ;;
    fld "s_wb_err" ty_errseq_t ;;
    fld "s_dio_done_wq" (ptr "struct workqueue_struct") ;;
    fld "s_pins" struct_hlist_head ;;
    fld "s_user_ns" (ptr "struct user_namespace") ;;
    fld "s_dentry_lru" struct_list_lru ;;
    fld "s_inode_lru" struct_list_lru ;;
    fld "rcu" struct_callback_head ;;
    fld "destroy_work" struct_work_struct ;;
    fld "s_sync_lock" struct_mutex ;;
    fld "s_stack_depth" (int_ 4 true) ;;
    bits "" (int_ 8 true) 64 ;;
    fld "s_inode_list_lock" ty_spinlock_t ;;
    fld "s_inodes" struct_list_head ;;
    fld "s_inode_wblist_lock" ty_spinlock_t ;;
    fld "s_inodes_wb" struct_list_head ;;
    bits "" (int_ 8 true) 64 ;;
    bits "" (int_ 8 true) 64 ;;
    mnil).

Definition ty___u128 : ctype :=
  int_ 16 false.

Definition ty_u128 : ctype :=
  ty___u128.

Definition ty_freelist_full_t : ctype :=
  ty_u128.

Definition ty_freelist_aba_t : ctype :=
  union_ false (
    anon (struct_ false (
      fld "freelist" (ptr "void") ;;
      fld "counter" (int_ 8 false) ;;
      mnil)) ;;
    fld "full" ty_freelist_full_t ;;
    mnil).

Definition ty_local_lock_t : ctype :=
  struct_ false (
    mnil).

Definition struct_kmem_cache_cpu : ctype :=
  struct_ false (
    anon (union_ false (
      anon (struct_ false (
        fld "freelist" (ptr "void *") ;;
        fld "tid" (int_ 8 false) ;;
        mnil)) ;;
      fld "freelist_tid" ty_freelist_aba_t ;;
      mnil)) ;;
    fld "slab" (ptr "struct slab") ;;
    fld "partial" (ptr "struct slab") ;;
    fld "lock" ty_local_lock_t ;;
    mnil).

Definition struct_kmem_cache_node : ctype :=
  struct_ false (
    fld "list_lock" ty_spinlock_t ;;
    fld "nr_partial" (int_ 8 false) ;;
    fld "partial" struct_list_head ;;
    fld "nr_slabs" ty_atomic_long_t ;;
    fld "total_objects" ty_atomic_long_t ;;
    fld "full" struct_list_head ;;
    mnil).

Definition struct_pr_ops : ctype :=
  struct_ false (
    fld "pr_register" (ptr "function") ;;
    fld "pr_reserve" (ptr "function") ;;
    fld "pr_release" (ptr "function") ;;
    fld "pr_preempt" (ptr "function") ;;
    fld "pr_clear" (ptr "function") ;;
    fld "pr_read_keys" (ptr "function") ;;
    fld "pr_read_reservation" (ptr "function") ;;
    mnil).

Definition struct_cdrom_device_ops : ctype :=
  struct_ false (
    fld "open" (ptr "function") ;;
    fld "release" (ptr "function") ;;
    fld "drive_status" (ptr "function") ;;
    fld "check_events" (ptr "function") ;;
    fld "tray_move" (ptr "function") ;;
    fld "lock_door" (ptr "function") ;;
    fld "select_speed" (ptr "function") ;;
    fld "get_last_session" (ptr "function") ;;
    fld "get_mcn" (ptr "function") ;;
    fld "reset" (ptr "function") ;;
    fld "audio_ioctl" (ptr "function") ;;
    fld "generic_packet" (ptr "function") ;;
    fld "read_cdda_bpc" (ptr "function") ;;
    fld "capability" (int_ 4 true) ;;
    mnil).

(** Every declaration above, for the checks that range over the header. *)
Definition kernel_types : list (string * ctype) :=
  [("struct trace_entry", struct_trace_entry);
   ("__u32", ty___u32);
   ("u32", ty_u32);
   ("__kernel_pid_t", ty___kernel_pid_t);
   ("pid_t", ty_pid_t);
   ("struct trace_event_raw_sched_process_exec", struct_trace_event_raw_sched_process_exec);
   ("struct trace_event_raw_sched_process_fork", struct_trace_event_raw_sched_process_fork);
   ("struct thread_info", struct_thread_info);
   ("atomic_t", ty_atomic_t);
   ("struct refcount_struct", struct_refcount_struct);
   ("refcount_t", ty_refcount_t);
   ("struct llist_node", struct_llist_node);
   ("__u16", ty___u16);
   ("u16", ty_u16);
   ("struct __call_single_node", struct___call_single_node);
   ("struct load_weight", struct_load_weight);
   ("struct rb_node", struct_rb_node);
   ("__u64", ty___u64);
   ("u64", ty_u64);
   ("struct list_head", struct_list_head);
   ("__s64", ty___s64);
   ("s64", ty_s64);
   ("struct sched_avg", struct_sched_avg);
   ("struct sched_entity", struct_sched_entity);
   ("struct sched_rt_entity", struct_sched_rt_entity);
   ("ktime_t", ty_ktime_t);
   ("struct timerqueue_node", struct_timerqueue_node);
   ("__u8", ty___u8);
   ("u8", ty_u8);
   ("struct hrtimer", struct_hrtimer);
   ("dl_server_has_tasks_f", ty_dl_server_has_tasks_f);
   ("dl_server_pick_f", ty_dl_server_pick_f);
   ("struct sched_dl_entity", struct_sched_dl_entity);
   ("struct uclamp_se", struct_uclamp_se);
   ("struct sched_statistics", struct_sched_statistics);
   ("struct hlist_head", struct_hlist_head);
   ("struct cpumask", struct_cpumask);
   ("cpumask_t", ty_cpumask_t);
   ("union rcu_special", union_rcu_special);
   ("struct sched_info", struct_sched_info);
   ("struct plist_node", struct_plist_node);
   ("__kernel_clockid_t", ty___kernel_clockid_t);
   ("clockid_t", ty_clockid_t);
   ("enum timespec_type", enum_timespec_type);
   ("struct restart_block", struct_restart_block);
   ("struct hlist_node", struct_hlist_node);
   ("struct qspinlock", struct_qspinlock);
   ("arch_spinlock_t", ty_arch_spinlock_t);
   ("struct raw_spinlock", struct_raw_spinlock);
   ("raw_spinlock_t", ty_raw_spinlock_t);
   ("struct prev_cputime", struct_prev_cputime);
   ("struct seqcount", struct_seqcount);
   ("seqcount_t", ty_seqcount_t);
   ("enum vtime_state", enum_vtime_state);
   ("struct vtime", struct_vtime);
   ("struct rb_root", struct_rb_root);
   ("struct rb_root_cached", struct_rb_root_cached);
   ("struct timerqueue_head", struct_timerqueue_head);
   ("struct posix_cputimer_base", struct_posix_cputimer_base);
   ("struct posix_cputimers", struct_posix_cputimers);
   ("struct callback_head", struct_callback_head);
   ("atomic64_t", ty_atomic64_t);
   ("atomic_long_t", ty_atomic_long_t);
   ("struct optimistic_spin_queue", struct_optimistic_spin_queue);
   ("struct mutex", struct_mutex);
   ("struct posix_cputimers_work", struct_posix_cputimers_work);
   ("struct sysv_sem", struct_sysv_sem);
   ("struct sysv_shm", struct_sysv_shm);
   ("sigset_t", ty_sigset_t);
   ("struct sigpending", struct_sigpending);
   ("__kernel_ulong_t", ty___kernel_ulong_t);
   ("__kernel_size_t", ty___kernel_size_t);
   ("size_t", ty_size_t);
   ("__kernel_uid32_t", ty___kernel_uid32_t);
   ("uid_t", ty_uid_t);
   ("kuid_t", ty_kuid_t);
   ("struct seccomp", struct_seccomp);
   ("bool", ty_bool);
   ("struct syscall_user_dispatch", struct_syscall_user_dispatch);
   ("struct spinlock", struct_spinlock);
   ("spinlock_t", ty_spinlock_t);
   ("struct wake_q_node", struct_wake_q_node);
   ("struct task_io_accounting", struct_task_io_accounting);
   ("nodemask_t", ty_nodemask_t);
   ("struct seqcount_spinlock", struct_seqcount_spinlock);
   ("seqcount_spinlock_t", ty_seqcount_spinlock_t);
   ("struct arch_tlbflush_unmap_batch", struct_arch_tlbflush_unmap_batch);
   ("struct tlbflush_unmap_batch", struct_tlbflush_unmap_batch);
   ("struct page_frag", struct_page_frag);
   ("struct latency_record", struct_latency_record);
   ("struct kmap_ctrl", struct_kmap_ctrl);
   ("struct timer_list", struct_timer_list);
   ("struct llist_head", struct_llist_head);
   ("struct desc_struct", struct_desc_struct);
   ("struct thread_shstk", struct_thread_shstk);
   ("struct fpu_state_perm", struct_fpu_state_perm);
   ("struct fregs_state", struct_fregs_state);
   ("struct fxregs_state", struct_fxregs_state);
   ("struct swregs_state", struct_swregs_state);
   ("struct xstate_header", struct_xstate_header);
   ("struct xregs_state", struct_xregs_state);
   ("union fpregs_state", union_fpregs_state);
   ("struct fpstate", struct_fpstate);
   ("struct fpu", struct_fpu);
   ("struct thread_struct", struct_thread_struct);
   ("struct task_struct", struct_task_struct);
   ("blk_opf_t", ty_blk_opf_t);
   ("enum rw_hint", enum_rw_hint);
   ("blk_status_t", ty_blk_status_t);
   ("sector_t", ty_sector_t);
   ("struct bvec_iter", struct_bvec_iter);
   ("blk_qc_t", ty_blk_qc_t);
   ("struct bio_issue", struct_bio_issue);
   ("struct bio_vec", struct_bio_vec);
   ("struct bio", struct_bio);
   ("__kernel_dev_t", ty___kernel_dev_t);
   ("dev_t", ty_dev_t);
   ("struct kref", struct_kref);
   ("struct kobject", struct_kobject);
   ("enum dl_dev_state", enum_dl_dev_state);
   ("struct dev_links_info", struct_dev_links_info);
   ("struct pm_message", struct_pm_message);
   ("pm_message_t", ty_pm_message_t);
   ("struct swait_queue_head", struct_swait_queue_head);
   ("struct completion", struct_completion);
   ("work_func_t", ty_work_func_t);
   ("struct work_struct", struct_work_struct);
   ("struct wait_queue_head", struct_wait_queue_head);
   ("wait_queue_head_t", ty_wait_queue_head_t);
   ("enum rpm_request", enum_rpm_request);
   ("enum rpm_status", enum_rpm_status);
   ("struct dev_pm_info", struct_dev_pm_info);
   ("struct dev_msi_info", struct_dev_msi_info);
   ("struct dev_archdata", struct_dev_archdata);
   ("enum device_removable", enum_device_removable);
   ("struct device", struct_device);
   ("struct block_device", struct_block_device);
   ("req_flags_t", ty_req_flags_t);
   ("enum mq_rq_state", enum_mq_rq_state);
   ("struct request", struct_request);
   ("gfp_t", ty_gfp_t);
   ("struct xarray", struct_xarray);
   ("struct percpu_ref", struct_percpu_ref);
   ("struct lock_class_key", struct_lock_class_key);
   ("struct lockdep_map", struct_lockdep_map);
   ("blk_features_t", ty_blk_features_t);
   ("blk_flags_t", ty_blk_flags_t);
   ("enum blk_integrity_checksum", enum_blk_integrity_checksum);
   ("struct blk_integrity", struct_blk_integrity);
   ("struct queue_limits", struct_queue_limits);
   ("struct delayed_work", struct_delayed_work);
   ("struct request_queue", struct_request_queue);
   ("struct mempool_s", struct_mempool_s);
   ("mempool_t", ty_mempool_t);
   ("struct bio_list", struct_bio_list);
   ("struct bio_set", struct_bio_set);
   ("blk_mode_t", ty_blk_mode_t);
   ("struct gendisk", struct_gendisk);
   ("__s8", ty___s8);
   ("s8", ty_s8);
   ("__s16", ty___s16);
   ("s16", ty_s16);
   ("__s32", ty___s32);
   ("s32", ty_s32);
   ("struct cfs_rq", struct_cfs_rq);
   ("struct seqcount_raw_spinlock", struct_seqcount_raw_spinlock);
   ("seqcount_raw_spinlock_t", ty_seqcount_raw_spinlock_t);
   ("struct hrtimer_clock_base", struct_hrtimer_clock_base);
   ("smp_call_func_t", ty_smp_call_func_t);
   ("struct __call_single_data", struct___call_single_data);
   ("call_single_data_t", ty_call_single_data_t);
   ("struct uclamp_bucket", struct_uclamp_bucket);
   ("struct uclamp_rq", struct_uclamp_rq);
   ("struct rt_prio_array", struct_rt_prio_array);
   ("struct plist_head", struct_plist_head);
   ("struct rt_rq", struct_rt_rq);
   ("struct dl_rq", struct_dl_rq);
   ("cpu_stop_fn_t", ty_cpu_stop_fn_t);
   ("struct cpu_stop_work", struct_cpu_stop_work);
   ("struct rcuwait", struct_rcuwait);
   ("cpumask_var_t", ty_cpumask_var_t);
   ("struct rq", struct_rq);
   ("__kernel_time64_t", ty___kernel_time64_t);
   ("struct __kernel_timespec", struct___kernel_timespec);
   ("old_time32_t", ty_old_time32_t);
   ("struct old_timespec32", struct_old_timespec32);
   ("struct pollfd", struct_pollfd);
   ("struct sem_undo_list", struct_sem_undo_list);
   ("struct action_cache", struct_action_cache);
   ("struct seccomp_filter", struct_seccomp_filter);
   ("struct page", struct_page);
   ("struct math_emu_info", struct_math_emu_info);
   ("enum perf_event_state", enum_perf_event_state);
   ("local_t", ty_local_t);
   ("local64_t", ty_local64_t);
   ("struct perf_event_attr", struct_perf_event_attr);
   ("struct hw_perf_event_extra", struct_hw_perf_event_extra);
   ("struct arch_hw_breakpoint", struct_arch_hw_breakpoint);
   ("struct rhash_head", struct_rhash_head);
   ("struct rhlist_head", struct_rhlist_head);
   ("struct hw_perf_event", struct_hw_perf_event);
   ("struct irq_work", struct_irq_work);
   ("struct perf_addr_filters_head", struct_perf_addr_filters_head);
   ("perf_overflow_handler_t", ty_perf_overflow_handler_t);
   ("ftrace_func_t", ty_ftrace_func_t);
   ("struct ftrace_ops_hash", struct_ftrace_ops_hash);
   ("ftrace_ops_func_t", ty_ftrace_ops_func_t);
   ("struct ftrace_ops", struct_ftrace_ops);
   ("struct perf_event", struct_perf_event);
   ("struct io_bitmap", struct_io_bitmap);
   ("struct sched_class", struct_sched_class);
   ("struct rcu_work", struct_rcu_work);
   ("struct cgroup_subsys_state", struct_cgroup_subsys_state);
   ("struct cfs_bandwidth", struct_cfs_bandwidth);
   ("struct task_group", struct_task_group);
   ("struct rt_mutex_base", struct_rt_mutex_base);
   ("struct rt_mutex", struct_rt_mutex);
   ("kthread_work_func_t", ty_kthread_work_func_t);
   ("struct kthread_work", struct_kthread_work);
   ("struct rcu_exp_work", struct_rcu_exp_work);
   ("struct rcu_node", struct_rcu_node);
   ("lockdep_map_p", ty_lockdep_map_p);
   ("struct maple_tree", struct_maple_tree);
   ("struct rw_semaphore", struct_rw_semaphore);
   ("struct percpu_counter", struct_percpu_counter);
   ("mm_context_t", ty_mm_context_t);
   ("struct uprobes_state", struct_uprobes_state);
   ("struct mm_struct", struct_mm_struct);
   ("errseq_t", ty_errseq_t);
   ("struct address_space", struct_address_space);
   ("struct upid", struct_upid);
   ("struct pid", struct_pid);
   ("__kernel_gid32_t", ty___kernel_gid32_t);
   ("gid_t", ty_gid_t);
   ("kgid_t", ty_kgid_t);
   ("kernel_cap_t", ty_kernel_cap_t);
   ("struct cred", struct_cred);
   ("int32_t", ty_int32_t);
   ("key_serial_t", ty_key_serial_t);
   ("time64_t", ty_time64_t);
   ("uint32_t", ty_uint32_t);
   ("key_perm_t", ty_key_perm_t);
   ("struct keyring_index_key", struct_keyring_index_key);
   ("union key_payload", union_key_payload);
   ("struct assoc_array", struct_assoc_array);
   ("struct key", struct_key);
   ("struct path", struct_path);
   ("struct qstr", struct_qstr);
   ("struct delayed_call", struct_delayed_call);
   ("struct saved", struct_saved);
   ("vfsuid_t", ty_vfsuid_t);
   ("umode_t", ty_umode_t);
   ("struct nameidata", struct_nameidata);
   ("struct fs_struct", struct_fs_struct);
   ("struct fdtable", struct_fdtable);
   ("struct files_struct", struct_files_struct);
   ("struct io_uring_task", struct_io_uring_task);
   ("struct nsproxy", struct_nsproxy);
   ("struct cpu_itimer", struct_cpu_itimer);
   ("struct task_cputime_atomic", struct_task_cputime_atomic);
   ("struct thread_group_cputimer", struct_thread_group_cputimer);
   ("seqlock_t", ty_seqlock_t);
   ("struct rlimit", struct_rlimit);
   ("struct pacct_struct", struct_pacct_struct);
   ("struct signal_struct", struct_signal_struct);
   ("__sighandler_t", ty___sighandler_t);
   ("__sigrestore_t", ty___sigrestore_t);
   ("struct sigaction", struct_sigaction);
   ("struct k_sigaction", struct_k_sigaction);
   ("struct sighand_struct", struct_sighand_struct);
   ("enum audit_state", enum_audit_state);
   ("struct timespec64", struct_timespec64);
   ("struct audit_cap_data", struct_audit_cap_data);
   ("struct audit_names", struct_audit_names);
   ("__kernel_mqd_t", ty___kernel_mqd_t);
   ("mqd_t", ty_mqd_t);
   ("__kernel_long_t", ty___kernel_long_t);
   ("struct mq_attr", struct_mq_attr);
   ("struct open_how", struct_open_how);
   ("struct audit_ntp_val", struct_audit_ntp_val);
   ("struct audit_ntp_data", struct_audit_ntp_data);
   ("struct audit_proctitle", struct_audit_proctitle);
   ("struct audit_context", struct_audit_context);
   ("struct rt_waiter_node", struct_rt_waiter_node);
   ("struct rt_mutex_waiter", struct_rt_mutex_waiter);
   ("struct rq_list", struct_rq_list);
   ("struct blk_plug", struct_blk_plug);
   ("struct reclaim_state", struct_reclaim_state);
   ("struct io_context", struct_io_context);
   ("struct capture_control", struct_capture_control);
   ("struct css_set", struct_css_set);
   ("struct robust_list", struct_robust_list);
   ("struct robust_list_head", struct_robust_list_head);
   ("compat_uptr_t", ty_compat_uptr_t);
   ("struct compat_robust_list", struct_compat_robust_list);
   ("compat_long_t", ty_compat_long_t);
   ("struct compat_robust_list_head", struct_compat_robust_list_head);
   ("union futex_key", union_futex_key);
   ("struct futex_pi_state", struct_futex_pi_state);
   ("struct perf_event_groups", struct_perf_event_groups);
   ("struct perf_event_context", struct_perf_event_context);
   ("struct mempolicy", struct_mempolicy);
   ("struct numa_group", struct_numa_group);
   ("struct rseq", struct_rseq);
   ("struct pipe_inode_info", struct_pipe_inode_info);
   ("struct task_delay_info", struct_task_delay_info);
   ("struct mem_cgroup_id", struct_mem_cgroup_id);
   ("struct cacheline_padding", struct_cacheline_padding);
   ("struct page_counter", struct_page_counter);
   ("struct vmpressure", struct_vmpressure);
   ("struct cgroup_file", struct_cgroup_file);
   ("struct fprop_global", struct_fprop_global);
   ("struct wb_domain", struct_wb_domain);
   ("struct wb_completion", struct_wb_completion);
   ("struct memcg_cgwb_frn", struct_memcg_cgwb_frn);
   ("struct deferred_split", struct_deferred_split);
   ("struct mem_cgroup", struct_mem_cgroup);
   ("struct obj_cgroup", struct_obj_cgroup);
   ("enum uprobe_task_state", enum_uprobe_task_state);
   ("struct arch_uprobe_task", struct_arch_uprobe_task);
   ("struct uprobe_task", struct_uprobe_task);
   ("phys_addr_t", ty_phys_addr_t);
   ("struct vm_struct", struct_vm_struct);
   ("struct bpf_local_storage", struct_bpf_local_storage);
   ("struct bpf_run_ctx", struct_bpf_run_ctx);
   ("enum bpf_map_type", enum_bpf_map_type);
   ("__be16", ty___be16);
   ("__be32", ty___be32);
   ("struct in6_addr", struct_in6_addr);
   ("struct bpf_nh_params", struct_bpf_nh_params);
   ("struct bpf_redirect_info", struct_bpf_redirect_info);
   ("struct bpf_net_context", struct_bpf_net_context);
   ("struct u64_stats_sync", struct_u64_stats_sync);
   ("struct blkg_iostat", struct_blkg_iostat);
   ("struct blkg_iostat_set", struct_blkg_iostat_set);
   ("struct blkcg_gq", struct_blkcg_gq);
   ("struct bio_crypt_ctx", struct_bio_crypt_ctx);
   ("struct bio_integrity_payload", struct_bio_integrity_payload);
   ("struct kset", struct_kset);
   ("struct kobj_type", struct_kobj_type);
   ("struct kernfs_elem_dir", struct_kernfs_elem_dir);
   ("struct kernfs_elem_symlink", struct_kernfs_elem_symlink);
   ("__kernel_loff_t", ty___kernel_loff_t);
   ("loff_t", ty_loff_t);
   ("struct kernfs_elem_attr", struct_kernfs_elem_attr);
   ("struct kernfs_node", struct_kernfs_node);
   ("struct wakeup_source", struct_wakeup_source);
   ("struct wake_irq", struct_wake_irq);
   ("struct pm_subsys_data", struct_pm_subsys_data);
   ("enum pm_qos_type", enum_pm_qos_type);
   ("struct pm_qos_constraints", struct_pm_qos_constraints);
   ("struct blocking_notifier_head", struct_blocking_notifier_head);
   ("struct freq_constraints", struct_freq_constraints);
   ("struct pm_qos_flags", struct_pm_qos_flags);
   ("struct dev_pm_qos", struct_dev_pm_qos);
   ("enum irq_domain_bus_token", enum_irq_domain_bus_token);
   ("irq_hw_number_t", ty_irq_hw_number_t);
   ("struct irq_domain", struct_irq_domain);
   ("struct msi_dev_domain", struct_msi_dev_domain);
   ("struct msi_device_data", struct_msi_device_data);
   ("struct klist", struct_klist);
   ("struct klist_node", struct_klist_node);
   ("struct device_private", struct_device_private);
   ("struct device_type", struct_device_type);
   ("struct bus_type", struct_bus_type);
   ("enum probe_type", enum_probe_type);
   ("struct device_driver", struct_device_driver);
   ("struct dev_pm_ops", struct_dev_pm_ops);
   ("struct dev_pm_domain", struct_dev_pm_domain);
   ("struct em_perf_domain", struct_em_perf_domain);
   ("struct dev_pin_info", struct_dev_pin_info);
   ("struct dma_map_ops", struct_dma_map_ops);
   ("dma_addr_t", ty_dma_addr_t);
   ("struct bus_dma_region", struct_bus_dma_region);
   ("struct device_dma_parameters", struct_device_dma_parameters);
   ("struct cma", struct_cma);
   ("struct io_tlb_pool", struct_io_tlb_pool);
   ("struct io_tlb_mem", struct_io_tlb_mem);
   ("phandle", ty_phandle);
   ("struct fwnode_handle", struct_fwnode_handle);
   ("struct device_node", struct_device_node);
   ("struct class", struct_class);
   ("struct attribute_group", struct_attribute_group);
   ("struct iommu_group", struct_iommu_group);
   ("struct dev_iommu", struct_dev_iommu);
   ("enum device_physical_location_panel", enum_device_physical_location_panel);
   ("enum device_physical_location_vertical_position", enum_device_physical_location_vertical_position);
   ("enum device_physical_location_horizontal_position", enum_device_physical_location_horizontal_position);
   ("struct device_physical_location", struct_device_physical_location);
   ("struct disk_stats", struct_disk_stats);
   ("struct blk_holder_ops", struct_blk_holder_ops);
   ("struct partition_meta_info", struct_partition_meta_info);
   ("struct blk_mq_ctx", struct_blk_mq_ctx);
   ("struct sbitmap", struct_sbitmap);
   ("wait_queue_func_t", ty_wait_queue_func_t);
   ("struct wait_queue_entry", struct_wait_queue_entry);
   ("wait_queue_entry_t", ty_wait_queue_entry_t);
   ("struct blk_mq_hw_ctx", struct_blk_mq_hw_ctx);
   ("struct blk_crypto_keyslot", struct_blk_crypto_keyslot);
   ("struct io_cq", struct_io_cq);
   ("struct percpu_ref_data", struct_percpu_ref_data);
   ("struct workqueue_struct", struct_workqueue_struct);
   ("struct elevator_queue", struct_elevator_queue);
   ("struct blk_mq_ops", struct_blk_mq_ops);
   ("struct blk_queue_stats", struct_blk_queue_stats);
   ("enum rq_qos_id", enum_rq_qos_id);
   ("struct rq_qos", struct_rq_qos);
   ("struct blk_crypto_ll_ops", struct_blk_crypto_ll_ops);
   ("struct blk_crypto_profile", struct_blk_crypto_profile);
   ("struct sbitmap_queue", struct_sbitmap_queue);
   ("struct blk_mq_tags", struct_blk_mq_tags);
   ("struct blk_trace", struct_blk_trace);
   ("struct blk_flush_queue", struct_blk_flush_queue);
   ("struct throtl_service_queue", struct_throtl_service_queue);
   ("struct throtl_data", struct_throtl_data);
   ("struct blk_mq_queue_map", struct_blk_mq_queue_map);
   ("struct blk_mq_tag_set", struct_blk_mq_tag_set);
   ("struct hlist_bl_node", struct_hlist_bl_node);
   ("struct lockref", struct_lockref);
   ("struct dentry", struct_dentry);
   ("slab_flags_t", ty_slab_flags_t);
   ("struct reciprocal_value", struct_reciprocal_value);
   ("struct kmem_cache_order_objects", struct_kmem_cache_order_objects);
   ("struct kmem_cache", struct_kmem_cache);
   ("struct bio_alloc_cache", struct_bio_alloc_cache);
   ("struct block_device_operations", struct_block_device_operations);
   ("struct fprop_local_percpu", struct_fprop_local_percpu);
   ("enum wb_reason", enum_wb_reason);
   ("struct bdi_writeback", struct_bdi_writeback);
   ("struct backing_dev_info", struct_backing_dev_info);
   ("struct timer_rand_state", struct_timer_rand_state);
   ("struct disk_events", struct_disk_events);
   ("struct cdrom_device_info", struct_cdrom_device_info);
   ("struct badblocks", struct_badblocks);
   ("struct blk_independent_access_range", struct_blk_independent_access_range);
   ("struct blk_independent_access_ranges", struct_blk_independent_access_ranges);
   ("struct hrtimer_cpu_base", struct_hrtimer_cpu_base);
   ("struct cpu_stop_done", struct_cpu_stop_done);
   ("struct dl_bw", struct_dl_bw);
   ("struct cpudl", struct_cpudl);
   ("struct cpupri_vec", struct_cpupri_vec);
   ("struct cpupri", struct_cpupri);
   ("struct root_domain", struct_root_domain);
   ("struct sched_domain", struct_sched_domain);
   ("struct balance_callback", struct_balance_callback);
   ("struct cpuidle_state", struct_cpuidle_state);
   ("enum bpf_prog_type", enum_bpf_prog_type);
   ("enum bpf_attach_type", enum_bpf_attach_type);
   ("struct sock_filter", struct_sock_filter);
   ("struct bpf_insn", struct_bpf_insn);
   ("struct bpf_prog", struct_bpf_prog);
   ("struct notification", struct_notification);
   ("enum dma_data_direction", enum_dma_data_direction);
   ("struct page_pool_params_fast", struct_page_pool_params_fast);
   ("netmem_ref", ty_netmem_ref);
   ("struct pp_alloc_cache", struct_pp_alloc_cache);
   ("struct ptr_ring", struct_ptr_ring);
   ("struct page_pool_params_slow", struct_page_pool_params_slow);
   ("struct page_pool", struct_page_pool);
   ("struct vmem_altmap", struct_vmem_altmap);
   ("enum memory_type", enum_memory_type);
   ("struct range", struct_range);
   ("struct dev_pagemap", struct_dev_pagemap);
   ("struct fred_cs", struct_fred_cs);
   ("struct fred_ss", struct_fred_ss);
   ("struct pt_regs", struct_pt_regs);
   ("struct ftrace_hash", struct_ftrace_hash);
   ("struct pmu", struct_pmu);
   ("struct perf_event_pmu_context", struct_perf_event_pmu_context);
   ("struct perf_buffer", struct_perf_buffer);
   ("struct qrwlock", struct_qrwlock);
   ("arch_rwlock_t", ty_arch_rwlock_t);
   ("rwlock_t", ty_rwlock_t);
   ("struct fasync_struct", struct_fasync_struct);
   ("struct perf_addr_filter_range", struct_perf_addr_filter_range);
   ("struct idr", struct_idr);
   ("struct ns_common", struct_ns_common);
   ("struct pid_namespace", struct_pid_namespace);
   ("struct trace_event", struct_trace_event);
   ("struct trace_event_call", struct_trace_event_call);
   ("struct event_filter", struct_event_filter);
   ("struct perf_cgroup", struct_perf_cgroup);
   ("struct task_cputime", struct_task_cputime);
   ("struct cgroup_base_stat", struct_cgroup_base_stat);
   ("struct cgroup_bpf", struct_cgroup_bpf);
   ("struct cgroup_freezer_state", struct_cgroup_freezer_state);
   ("struct cgroup", struct_cgroup);
   ("struct cgroup_subsys", struct_cgroup_subsys);
   ("struct autogroup", struct_autogroup);
   ("struct kthread_worker", struct_kthread_worker);
   ("struct ldt_struct", struct_ldt_struct);
   ("struct vdso_image", struct_vdso_image);
   ("struct xol_area", struct_xol_area);
   ("struct mm_cid", struct_mm_cid);
   ("struct linux_binfmt", struct_linux_binfmt);
   ("struct kioctx_table", struct_kioctx_table);
   ("struct uid_gid_extent", struct_uid_gid_extent);
   ("struct uid_gid_map", struct_uid_gid_map);
   ("struct ctl_table_header", struct_ctl_table_header);
   ("struct ctl_dir", struct_ctl_dir);
   ("struct ctl_table_set", struct_ctl_table_set);
   ("struct user_namespace", struct_user_namespace);
   ("fmode_t", ty_fmode_t);
   ("struct file_ra_state", struct_file_ra_state);
   ("freeptr_t", ty_freeptr_t);
   ("struct file", struct_file);
   ("struct mmu_notifier_subscriptions", struct_mmu_notifier_subscriptions);
   ("struct iommu_mm_data", struct_iommu_mm_data);
   ("blkcnt_t", ty_blkcnt_t);
   ("struct inode", struct_inode);
   ("struct address_space_operations", struct_address_space_operations);
   ("struct ratelimit_state", struct_ratelimit_state);
   ("struct user_struct", struct_user_struct);
   ("struct ucounts", struct_ucounts);
   ("struct group_info", struct_group_info);
   ("request_key_actor_t", ty_request_key_actor_t);
   ("struct key_type", struct_key_type);
   ("struct key_tag", struct_key_tag);
   ("struct watch_list", struct_watch_list);
   ("struct key_user", struct_key_user);
   ("key_restrict_link_func_t", ty_key_restrict_link_func_t);
   ("struct key_restriction", struct_key_restriction);
   ("struct vfsmount", struct_vfsmount);
   ("struct filename", struct_filename);
   ("enum tk_offsets", enum_tk_offsets);
   ("enum task_work_notify_mode", enum_task_work_notify_mode);
   ("struct io_wq_work_list", struct_io_wq_work_list);
   ("struct io_file_table", struct_io_file_table);
   ("struct io_wq_work_node", struct_io_wq_work_node);
   ("struct io_submit_link", struct_io_submit_link);
   ("struct io_submit_state", struct_io_submit_state);
   ("struct io_hash_table", struct_io_hash_table);
   ("struct io_alloc_cache", struct_io_alloc_cache);
   ("struct io_restriction", struct_io_restriction);
   ("struct io_ring_ctx", struct_io_ring_ctx);
   ("struct io_wq_acct", struct_io_wq_acct);
   ("struct hlist_nulls_head", struct_hlist_nulls_head);
   ("struct io_wq", struct_io_wq);
   ("struct new_utsname", struct_new_utsname);
   ("struct uts_namespace", struct_uts_namespace);
   ("rht_hashfn_t", ty_rht_hashfn_t);
   ("rht_obj_hashfn_t", ty_rht_obj_hashfn_t);
   ("rht_obj_cmpfn_t", ty_rht_obj_cmpfn_t);
   ("struct rhashtable_params", struct_rhashtable_params);
   ("struct rhashtable", struct_rhashtable);
   ("struct ipc_ids", struct_ipc_ids);
   ("notifier_fn_t", ty_notifier_fn_t);
   ("struct notifier_block", struct_notifier_block);
   ("struct ipc_namespace", struct_ipc_namespace);
   ("struct mnt_namespace", struct_mnt_namespace);
   ("struct ref_tracker_dir", struct_ref_tracker_dir);
   ("struct raw_notifier_head", struct_raw_notifier_head);
   ("struct netns_core", struct_netns_core);
   ("struct netns_mib", struct_netns_mib);
   ("struct netns_packet", struct_netns_packet);
   ("struct unix_table", struct_unix_table);
   ("struct netns_unix", struct_netns_unix);
   ("struct netns_nexthop", struct_netns_nexthop);
   ("struct inet_timewait_death_row", struct_inet_timewait_death_row);
   ("struct local_ports", struct_local_ports);
   ("struct ping_group_range", struct_ping_group_range);
   ("struct sysctl_fib_multipath_hash_seed", struct_sysctl_fib_multipath_hash_seed);
   ("siphash_key_t", ty_siphash_key_t);
   ("struct netns_ipv4", struct_netns_ipv4);
   ("struct dst_ops", struct_dst_ops);
   ("struct netns_sysctl_ipv6", struct_netns_sysctl_ipv6);
   ("struct netns_ipv6", struct_netns_ipv6);
   ("struct netns_sysctl_lowpan", struct_netns_sysctl_lowpan);
   ("struct netns_ieee802154_lowpan", struct_netns_ieee802154_lowpan);
   ("struct netns_sctp", struct_netns_sctp);
   ("struct netns_nf", struct_netns_nf);
   ("struct nf_generic_net", struct_nf_generic_net);
   ("struct nf_tcp_net", struct_nf_tcp_net);
   ("struct nf_udp_net", struct_nf_udp_net);
   ("struct nf_icmp_net", struct_nf_icmp_net);
   ("struct nf_dccp_net", struct_nf_dccp_net);
   ("struct nf_sctp_net", struct_nf_sctp_net);
   ("struct nf_gre_net", struct_nf_gre_net);
   ("struct nf_ip_net", struct_nf_ip_net);
   ("struct netns_ct", struct_netns_ct);
   ("struct netns_nftables", struct_netns_nftables);
   ("struct netns_ft", struct_netns_ft);
   ("struct sk_buff_list", struct_sk_buff_list);
   ("struct sk_buff_head", struct_sk_buff_head);
   ("struct netns_bpf", struct_netns_bpf);
   ("struct xfrm_policy_hash", struct_xfrm_policy_hash);
   ("struct xfrm_policy_hthresh", struct_xfrm_policy_hthresh);
   ("struct netns_xfrm", struct_netns_xfrm);
   ("struct netns_mpls", struct_netns_mpls);
   ("struct netns_can", struct_netns_can);
   ("struct netns_xdp", struct_netns_xdp);
   ("struct netns_smc", struct_netns_smc);
   ("struct net", struct_net);
   ("struct timens_offsets", struct_timens_offsets);
   ("struct time_namespace", struct_time_namespace);
   ("struct cgroup_namespace", struct_cgroup_namespace);
   ("struct core_thread", struct_core_thread);
   ("struct core_state", struct_core_state);
   ("struct ld_semaphore", struct_ld_semaphore);
   ("tcflag_t", ty_tcflag_t);
   ("cc_t", ty_cc_t);
   ("speed_t", ty_speed_t);
   ("struct ktermios", struct_ktermios);
   ("struct winsize", struct_winsize);
   ("struct tty_struct", struct_tty_struct);
   ("struct taskstats", struct_taskstats);
   ("struct tty_audit_buf", struct_tty_audit_buf);
   ("struct audit_aux_data", struct_audit_aux_data);
   ("__kernel_sa_family_t", ty___kernel_sa_family_t);
   ("struct __kernel_sockaddr_storage", struct___kernel_sockaddr_storage);
   ("struct audit_tree_refs", struct_audit_tree_refs);
   ("struct ww_acquire_ctx", struct_ww_acquire_ctx);
   ("enum migrate_mode", enum_migrate_mode);
   ("struct compact_control", struct_compact_control);
   ("struct pipe_buffer", struct_pipe_buffer);
   ("struct watch_queue", struct_watch_queue);
   ("struct memcg_vmstats", struct_memcg_vmstats);
   ("struct memcg_vmstats_percpu", struct_memcg_vmstats_percpu);
   ("struct zswap_lruvec_state", struct_zswap_lruvec_state);
   ("struct lruvec", struct_lruvec);
   ("struct mem_cgroup_reclaim_iter", struct_mem_cgroup_reclaim_iter);
   ("struct mem_cgroup_per_node", struct_mem_cgroup_per_node);
   ("struct arch_uprobe", struct_arch_uprobe);
   ("struct uprobe", struct_uprobe);
   ("struct return_instance", struct_return_instance);
   ("struct bpf_local_storage_data", struct_bpf_local_storage_data);
   ("struct bpf_map", struct_bpf_map);
   ("struct bpf_mem_alloc", struct_bpf_mem_alloc);
   ("struct bpf_local_storage_map", struct_bpf_local_storage_map);
   ("struct blkcg", struct_blkcg);
   ("struct blkg_policy_data", struct_blkg_policy_data);
   ("enum blk_crypto_mode_num", enum_blk_crypto_mode_num);
   ("struct blk_crypto_config", struct_blk_crypto_config);
   ("struct blk_crypto_key", struct_blk_crypto_key);
   ("struct kset_uevent_ops", struct_kset_uevent_ops);
   ("struct sysfs_ops", struct_sysfs_ops);
   ("struct kernfs_root", struct_kernfs_root);
   ("struct kernfs_ops", struct_kernfs_ops);
   ("struct kernfs_open_node", struct_kernfs_open_node);
   ("struct simple_xattrs", struct_simple_xattrs);
   ("struct kernfs_iattrs", struct_kernfs_iattrs);
   ("struct pm_domain_data", struct_pm_domain_data);
   ("enum dev_pm_qos_req_type", enum_dev_pm_qos_req_type);
   ("struct pm_qos_flags_request", struct_pm_qos_flags_request);
   ("enum freq_qos_req_type", enum_freq_qos_req_type);
   ("struct freq_qos_request", struct_freq_qos_request);
   ("struct dev_pm_qos_request", struct_dev_pm_qos_request);
   ("struct irq_domain_ops", struct_irq_domain_ops);
   ("enum irq_gc_flags", enum_irq_gc_flags);
   ("struct irq_domain_chip_generic", struct_irq_domain_chip_generic);
   ("struct msi_parent_ops", struct_msi_parent_ops);
   ("struct irq_data", struct_irq_data);
   ("enum module_state", enum_module_state);
   ("struct module_kobject", struct_module_kobject);
   ("struct latch_tree_node", struct_latch_tree_node);
   ("struct mod_tree_node", struct_mod_tree_node);
   ("struct module_memory", struct_module_memory);
   ("struct mod_arch_specific", struct_mod_arch_specific);
   ("struct mod_kallsyms", struct_mod_kallsyms);
   ("struct _ddebug_info", struct__ddebug_info);
   ("struct module", struct_module);
   ("struct of_device_id", struct_of_device_id);
   ("kernel_ulong_t", ty_kernel_ulong_t);
   ("struct acpi_device_id", struct_acpi_device_id);
   ("struct driver_private", struct_driver_private);
   ("struct em_perf_state", struct_em_perf_state);
   ("struct em_perf_table", struct_em_perf_table);
   ("struct pinctrl", struct_pinctrl);
   ("struct pinctrl_state", struct_pinctrl_state);
   ("struct io_tlb_area", struct_io_tlb_area);
   ("struct io_tlb_slot", struct_io_tlb_slot);
   ("struct fwnode_operations", struct_fwnode_operations);
   ("struct property", struct_property);
   ("enum kobj_ns_type", enum_kobj_ns_type);
   ("struct kobj_ns_type_operations", struct_kobj_ns_type_operations);
   ("struct attribute", struct_attribute);
   ("struct bin_attribute", struct_bin_attribute);
   ("struct iommu_domain_geometry", struct_iommu_domain_geometry);
   ("iommu_fault_handler_t", ty_iommu_fault_handler_t);
   ("struct iommu_domain", struct_iommu_domain);
   ("struct iommu_fault_param", struct_iommu_fault_param);
   ("struct iommu_fwspec", struct_iommu_fwspec);
   ("struct iommu_device", struct_iommu_device);
   ("struct blk_mq_ctxs", struct_blk_mq_ctxs);
   ("struct sbitmap_word", struct_sbitmap_word);
   ("struct wq_flusher", struct_wq_flusher);
   ("struct worker", struct_worker);
   ("enum wq_affn_scope", enum_wq_affn_scope);
   ("struct workqueue_attrs", struct_workqueue_attrs);
   ("struct pool_workqueue", struct_pool_workqueue);
   ("struct wq_device", struct_wq_device);
   ("struct wq_node_nr_active", struct_wq_node_nr_active);
   ("struct elevator_mq_ops", struct_elevator_mq_ops);
   ("struct elevator_type", struct_elevator_type);
   ("struct rq_qos_ops", struct_rq_qos_ops);
   ("struct sbq_wait_state", struct_sbq_wait_state);
   ("struct rchan", struct_rchan);
   ("struct srcu_struct", struct_srcu_struct);
   ("struct dentry_operations", struct_dentry_operations);
   ("struct hlist_bl_head", struct_hlist_bl_head);
   ("qsize_t", ty_qsize_t);
   ("struct mem_dqinfo", struct_mem_dqinfo);
   ("struct quota_info", struct_quota_info);
   ("struct rcu_sync", struct_rcu_sync);
   ("struct percpu_rw_semaphore", struct_percpu_rw_semaphore);
   ("struct sb_writers", struct_sb_writers);
   ("uuid_t", ty_uuid_t);
   ("struct list_lru", struct_list_lru);
   ("struct super_block", struct_super_block);
   ("__u128", ty___u128);
   ("u128", ty_u128);
   ("freelist_full_t", ty_freelist_full_t);
   ("freelist_aba_t", ty_freelist_aba_t);
   ("local_lock_t", ty_local_lock_t);
   ("struct kmem_cache_cpu", struct_kmem_cache_cpu);
   ("struct kmem_cache_node", struct_kmem_cache_node);
   ("struct pr_ops", struct_pr_ops);
   ("struct cdrom_device_ops", struct_cdrom_device_ops)].

(** The types met on the way that the header names and does not declare. *)
Definition opaque_types : list string :=
  ["struct assoc_array_ptr"].
