(* ===== verification/RustStr.v ===== *)
(** * The parts of Rust's [str] the program uses

    A [&str] is its UTF-8 bytes, so a [string] here is a byte string and every
    index and length is in bytes, as in Rust.  The functions follow the
    documented behaviour of [core::str] and [core::num]. *)

From stdpp Require Import base list strings numbers.
From Stdlib Require Import ZArith Lia Ascii.
From S2P Require Import Prelude.

#[local] Open Scope Z_scope.

(** ** Bytes *)

Definition byte_of (a : ascii) : Z := Z.of_N (N_of_ascii a).
Definition chr (b : Z) : ascii := ascii_of_N (Z.to_N b).

Fixpoint bytes_of (s : string) : list Z :=
  match s with EmptyString => [] | String a s => byte_of a :: bytes_of s end.
Fixpoint string_of (bs : list Z) : string :=
  match bs with [] => EmptyString | b :: bs => String (chr b) (string_of bs) end.

Definition slen (s : string) : nat := String.length s.

Fixpoint sapp (s t : string) : string :=
  match s with EmptyString => t | String a s => String a (sapp s t) end.

Fixpoint srev_onto (s acc : string) : string :=
  match s with EmptyString => acc | String a s => srev_onto s (String a acc) end.
Definition srev (s : string) : string := srev_onto s EmptyString.

(** ** Searching and slicing *)

Fixpoint stake (n : nat) (s : string) : string :=
  match n, s with
  | O, _ => EmptyString
  | _, EmptyString => EmptyString
  | S n, String a s => String a (stake n s)
  end.
Fixpoint sdrop (n : nat) (s : string) : string :=
  match n, s with
  | O, _ => s
  | _, EmptyString => EmptyString
  | S n, String _ s => sdrop n s
  end.
(** [&s[i..j]] *)
Definition slice (i j : nat) (s : string) : string := stake (j - i) (sdrop i s).

Fixpoint strip_prefix (p s : string) : option string :=
  match p, s with
  | EmptyString, _ => Some s
  | String a p, String b s => if Ascii.eqb a b then strip_prefix p s else None
  | String _ _, EmptyString => None
  end.
Definition starts_with (p s : string) : bool :=
  match strip_prefix p s with Some _ => true | None => false end.
Definition strip_suffix (p s : string) : option string :=
  match strip_prefix (srev p) (srev s) with Some r => Some (srev r) | None => None end.
Definition ends_with (p s : string) : bool := starts_with (srev p) (srev s).

(** [find] and [rfind] of a [char]. *)
Fixpoint find_char (c : ascii) (s : string) : option nat :=
  match s with
  | EmptyString => None
  | String a s => if Ascii.eqb a c then Some O else S <$> find_char c s
  end.
Fixpoint rfind_char (c : ascii) (s : string) : option nat :=
  match s with
  | EmptyString => None
  | String a s =>
      match rfind_char c s with
      | Some i => Some (S i)
      | None => if Ascii.eqb a c then Some O else None
      end
  end.
(** [find] of a string pattern. *)
Fixpoint find_str (p s : string) : option nat :=
  if starts_with p s then Some O
  else match s with EmptyString => None | String _ s => S <$> find_str p s end.

(** ** Splitting *)

Fixpoint split (c : ascii) (s : string) : list string :=
  match s with
  | EmptyString => [EmptyString]
  | String a s =>
      if Ascii.eqb a c then EmptyString :: split c s
      else match split c s with
           | h :: t => String a h :: t
           | [] => [String a EmptyString]
           end
  end.

Fixpoint split_once (c : ascii) (s : string) : option (string * string) :=
  match s with
  | EmptyString => None
  | String a s =>
      if Ascii.eqb a c then Some (EmptyString, s)
      else match split_once c s with
           | Some (l, r) => Some (String a l, r)
           | None => None
           end
  end.

Fixpoint join (sep : string) (l : list string) : string :=
  match l with
  | [] => EmptyString
  | [x] => x
  | x :: l => sapp x (sapp sep (join sep l))
  end.

Definition lf : ascii := "010"%char.
Definition cr : ascii := "013"%char.

Definition strip_cr (s : string) : string :=
  match strip_suffix (String cr EmptyString) s with Some r => r | None => s end.

(** [lines]: every line but the last was ended by a line feed, and loses a
    carriage return before it; an empty last piece is not a line. *)
Fixpoint lines_of_pieces (l : list string) : list string :=
  match l with
  | [] => []
  | [last] => if String.eqb last EmptyString then [] else [last]
  | x :: l => strip_cr x :: lines_of_pieces l
  end.
Definition lines (s : string) : list string := lines_of_pieces (split lf s).

(** ** White space

    The UTF-8 encodings of the code points with the Unicode [White_Space]
    property. *)
Definition ws_encodings : list (list Z) :=
  [[9]; [10]; [11]; [12]; [13]; [32]; [194; 133]; [194; 160]; [225; 154; 128];
   [226; 128; 128]; [226; 128; 129]; [226; 128; 130]; [226; 128; 131];
   [226; 128; 132]; [226; 128; 133]; [226; 128; 134]; [226; 128; 135];
   [226; 128; 136]; [226; 128; 137]; [226; 128; 138]; [226; 128; 168];
   [226; 128; 169]; [226; 128; 175]; [226; 129; 159]; [227; 128; 128]].

Definition ws_strings : list string := map string_of ws_encodings.
Definition ws_strings_rev : list string := map srev ws_strings.

Fixpoint strip_any (ps : list string) (s : string) : option string :=
  match ps with
  | [] => None
  | p :: ps => match strip_prefix p s with Some r => Some r | None => strip_any ps s end
  end.
(** [s.len()] rounds are enough: each removes a byte at least. *)
Fixpoint strip_while (fuel : nat) (ps : list string) (s : string) : string :=
  match fuel with
  | O => s
  | S fuel => match strip_any ps s with Some r => strip_while fuel ps r | None => s end
  end.
Definition trim_start (s : string) : string := strip_while (slen s) ws_strings s.
Definition trim_end (s : string) : string :=
  srev (strip_while (slen s) ws_strings_rev (srev s)).
Definition trim (s : string) : string := trim_end (trim_start s).

(** [split_whitespace]: maximal runs of other characters. *)
Fixpoint words_from (fuel : nat) (cur : string) (s : string) : list string :=
  let flush r := if String.eqb cur EmptyString then r else srev cur :: r in
  match fuel with
  | O => flush []
  | S fuel =>
      match strip_any ws_strings s with
      | Some r => flush (words_from fuel EmptyString r)
      | None =>
          match s with
          | EmptyString => flush []
          | String a s => words_from fuel (String a cur) s
          end
      end
  end.
Definition split_whitespace (s : string) : list string :=
  words_from (S (slen s)) EmptyString s.

(** ** Numbers *)

Definition is_digit (a : ascii) : bool :=
  let b := byte_of a in (48 <=? b) && (b <=? 57).
Definition digit_val (a : ascii) : Z := byte_of a - 48.
Definition digit_chr (d : Z) : ascii := chr (48 + d).

(** [from_str_radix(_, 10)]: every step is checked against the type's bound. *)
Fixpoint parse_digits (max acc : Z) (s : string) : option Z :=
  match s with
  | EmptyString => Some acc
  | String a s =>
      if is_digit a then
        let acc' := acc * 10 + digit_val a in
        if acc' <=? max then parse_digits max acc' s else None
      else None
  end.

Definition plus_chr : ascii := "+"%char.
Definition minus_chr : ascii := "-"%char.

(** [str::parse::<uN>]: an optional [+], then at least one digit. *)
Definition parse_uint (w : Z) (s : string) : option Z :=
  let digits := match s with
                | String a r => if Ascii.eqb a plus_chr then r else s
                | EmptyString => s
                end in
  if String.eqb digits EmptyString then None else parse_digits (2 ^ w - 1) 0 digits.

(** [str::parse::<iN>]: an optional sign, then at least one digit. *)
Definition parse_int (w : Z) (s : string) : option Z :=
  let pos d := if String.eqb d EmptyString then None
               else parse_digits (2 ^ (w - 1) - 1) 0 d in
  match s with
  | String a r =>
      if Ascii.eqb a plus_chr then pos r
      else if Ascii.eqb a minus_chr then
        if String.eqb r EmptyString then None
        else Z.opp <$> parse_digits (2 ^ (w - 1)) 0 r
      else pos s
  | EmptyString => None
  end.

Definition parse_u32 := parse_uint 32.
Definition parse_u64 := parse_uint 64.
Definition parse_i32 := parse_int 32.

(** [Display] of an integer; 40 digits are more than any machine width has. *)
Fixpoint fmt_digits (fuel : nat) (z : Z) (acc : string) : string :=
  match fuel with
  | O => acc
  | S fuel =>
      if z <? 10 then String (digit_chr z) acc
      else fmt_digits fuel (z / 10) (String (digit_chr (z mod 10)) acc)
  end.
Definition fmt_uint (z : Z) : string := fmt_digits 40 z EmptyString.
Definition fmt_int (z : Z) : string :=
  if z <? 0 then String minus_chr (fmt_uint (- z)) else fmt_uint z.

(** ** Case and replacement *)

Definition ascii_lower (a : ascii) : ascii :=
  let b := byte_of a in if (65 <=? b) && (b <=? 90) then chr (b + 32) else a.
Fixpoint smap (f : ascii -> ascii) (s : string) : string :=
  match s with EmptyString => EmptyString | String a s => String (f a) (smap f s) end.

Definition replace_char (c d : ascii) : string -> string :=
  smap (fun a => if Ascii.eqb a c then d else a).

Fixpoint sforall (p : ascii -> bool) (s : string) : bool :=
  match s with EmptyString => true | String a s => p a && sforall p s end.

(** ** [String::from_utf8_lossy]

    One step of the decoder at the front of [bs]: [inl n], a well-formed
    sequence of [n] bytes; [inr n], an ill-formed one whose maximal prefix of
    [n] bytes becomes one U+FFFD. *)
Definition in_range (lo hi b : Z) : bool := (lo <=? b) && (b <=? hi).
Definition cont (bs : list Z) (i : nat) : bool :=
  match bs !! i with Some b => in_range 128 191 b | None => false end.
Definition second_ok (lead : Z) (bs : list Z) : bool :=
  match bs !! 1%nat with
  | None => false
  | Some b =>
      if lead =? 224 then in_range 160 191 b
      else if lead =? 237 then in_range 128 159 b
      else if lead =? 240 then in_range 144 191 b
      else if lead =? 244 then in_range 128 143 b
      else in_range 128 191 b
  end.

Definition utf8_step (bs : list Z) : nat + nat :=
  match bs with
  | [] => inr 1%nat
  | b :: _ =>
      if b <? 128 then inl 1%nat
      else if in_range 194 223 b then if cont bs 1 then inl 2%nat else inr 1%nat
      else if in_range 224 239 b then
        if second_ok b bs then if cont bs 2 then inl 3%nat else inr 2%nat else inr 1%nat
      else if in_range 240 244 b then
        if second_ok b bs then
          if cont bs 2 then if cont bs 3 then inl 4%nat else inr 3%nat else inr 2%nat
        else inr 1%nat
      else inr 1%nat
  end.

Definition replacement : list Z := [239; 191; 189].

Fixpoint utf8_lossy (fuel : nat) (bs : list Z) : list Z :=
  match fuel, bs with
  | O, _ => []
  | _, [] => []
  | S fuel, _ =>
      match utf8_step bs with
      | inl n => take n bs ++ utf8_lossy fuel (drop n bs)
      | inr n => replacement ++ utf8_lossy fuel (drop n bs)
      end
  end.
Definition from_utf8_lossy (bs : list Z) : string := string_of (utf8_lossy (length bs) bs).

(** ** Lemmas *)

Lemma byte_of_range a : is_byte (byte_of a).
Proof.
  unfold is_byte, in_u, byte_of. pose proof (N_ascii_bounded a). lia.
Qed.
Lemma chr_byte_of a : chr (byte_of a) = a.
Proof. unfold chr, byte_of. by rewrite N2Z.id, ascii_N_embedding. Qed.
Lemma byte_of_chr b : is_byte b -> byte_of (chr b) = b.
Proof.
  unfold is_byte, in_u, chr, byte_of. intros H. change (2 ^ 8) with 256 in H.
  rewrite N_ascii_embedding; lia.
Qed.
Lemma string_of_bytes_of s : string_of (bytes_of s) = s.
Proof. induction s; simpl; by rewrite ?chr_byte_of, ?IHs. Qed.
Lemma bytes_of_string_of bs : Forall is_byte bs -> bytes_of (string_of bs) = bs.
Proof. induction 1; simpl; [done|]. by rewrite byte_of_chr, IHForall. Qed.
Lemma length_bytes_of s : length (bytes_of s) = slen s.
Proof. induction s; simpl; auto. Qed.
Lemma bytes_of_bytes s : Forall is_byte (bytes_of s).
Proof. induction s; simpl; constructor; auto using byte_of_range. Qed.
#[export] Hint Resolve byte_of_range bytes_of_bytes : ananicy.

Lemma sapp_nil_r s : sapp s EmptyString = s.
Proof. induction s; simpl; congruence. Qed.
Lemma sapp_assoc s t u : sapp s (sapp t u) = sapp (sapp s t) u.
Proof. induction s; simpl; congruence. Qed.
Lemma srev_onto_sapp s acc : srev_onto s acc = sapp (srev s) acc.
Proof.
  unfold srev. revert acc. induction s as [|a s IH]; intros acc; simpl; [done|].
  rewrite (IH (String a acc)), (IH (String a EmptyString)), <- sapp_assoc. done.
Qed.
Lemma srev_cons a s : srev (String a s) = sapp (srev s) (String a EmptyString).
Proof. unfold srev. simpl. apply srev_onto_sapp. Qed.
Lemma srev_sapp s t : srev (sapp s t) = sapp (srev t) (srev s).
Proof.
  induction s as [|a s IH]; simpl; [by rewrite sapp_nil_r|].
  by rewrite !srev_cons, IH, sapp_assoc.
Qed.
Lemma srev_involutive s : srev (srev s) = s.
Proof. induction s as [|a s IH]; [done|]. by rewrite srev_cons, srev_sapp, IH. Qed.
Lemma sforall_sapp p s t : sforall p (sapp s t) = sforall p s && sforall p t.
Proof. induction s; simpl; [done|]. by rewrite IHs, andb_assoc. Qed.
Lemma sforall_srev p s : sforall p (srev s) = sforall p s.
Proof.
  induction s as [|a s IH]; [done|]. rewrite srev_cons, sforall_sapp, IH. simpl.
  by rewrite andb_true_r, andb_comm.
Qed.
Lemma sforall_weaken (p q : ascii -> bool) s :
  (forall a, p a = true -> q a = true) -> sforall p s = true -> sforall q s = true.
Proof.
  intros H. induction s; simpl; [done|]. rewrite !andb_true_iff. intros [? ?]. auto.
Qed.
Lemma slen_sapp s t : slen (sapp s t) = (slen s + slen t)%nat.
Proof. unfold slen. induction s; simpl; auto. Qed.
Lemma slen_srev s : slen (srev s) = slen s.
Proof.
  induction s as [|a s IH]; [done|]. rewrite srev_cons, slen_sapp, IH.
  unfold slen. simpl. lia.
Qed.
Lemma sapp_eq_nil s t : sapp s t = EmptyString -> s = EmptyString /\ t = EmptyString.
Proof. destruct s; simpl; [done|discriminate]. Qed.

(** Trimming leaves a string alone whose ends are graphic ASCII characters:
    no encoding of a white-space character starts or ends with one. *)
Definition graphic (a : ascii) : bool := in_range 33 126 (byte_of a).
Definition starts_graphic (s : string) : bool :=
  match s with String a _ => graphic a | EmptyString => true end.
Definition trimmed (s : string) : bool := starts_graphic s && starts_graphic (srev s).

Lemma strip_any_graphic ps s :
  forallb (fun p => match p with String a _ => negb (graphic a) | _ => false end) ps = true ->
  starts_graphic s = true -> strip_any ps s = None.
Proof.
  induction ps as [|p ps IH]; simpl; [done|]. intros [Hp Hps]%andb_true_iff Hs.
  destruct p as [|a p]; [done|]. destruct s as [|b s]; simpl; [by apply IH|].
  destruct (Ascii.eqb_spec a b) as [->|]; [|by apply IH].
  simpl in Hs. by rewrite Hs in Hp.
Qed.
Lemma ws_not_graphic :
  forallb (fun p => match p with String a _ => negb (graphic a) | _ => false end) ws_strings = true.
Proof. vm_compute. done. Qed.
Lemma ws_rev_not_graphic :
  forallb (fun p => match p with String a _ => negb (graphic a) | _ => false end) ws_strings_rev = true.
Proof. vm_compute. done. Qed.

Lemma strip_while_none n ps s : strip_any ps s = None -> strip_while n ps s = s.
Proof. intros H. destruct n; simpl; [done|]. by rewrite H. Qed.
Lemma trim_start_id s : starts_graphic s = true -> trim_start s = s.
Proof.
  intros H. apply strip_while_none, strip_any_graphic; [apply ws_not_graphic|done].
Qed.
Lemma trim_end_id s : starts_graphic (srev s) = true -> trim_end s = s.
Proof.
  intros H. unfold trim_end. rewrite strip_while_none, srev_involutive; [done|].
  apply strip_any_graphic; [apply ws_rev_not_graphic|done].
Qed.
Lemma trim_id s : trimmed s = true -> trim s = s.
Proof.
  intros [H1 H2]%andb_true_iff. unfold trim. rewrite trim_start_id by done.
  by apply trim_end_id.
Qed.
Lemma sforall_starts p s : sforall p s = true -> (forall a, p a = true -> graphic a = true) ->
  starts_graphic s = true.
Proof. destruct s; simpl; [done|]. intros [? _]%andb_true_iff. auto. Qed.
Lemma sforall_trimmed p s :
  (forall a, p a = true -> graphic a = true) -> sforall p s = true -> trimmed s = true.
Proof.
  intros Hp Hs. unfold trimmed. apply andb_true_iff. split.
  - by eapply sforall_starts.
  - eapply sforall_starts; [by rewrite sforall_srev|done].
Qed.

(** Splitting what was joined. *)
Definition lacks (c : ascii) (s : string) : bool := sforall (fun a => negb (Ascii.eqb a c)) s.

Lemma lacks_sapp c s t : lacks c (sapp s t) = lacks c s && lacks c t.
Proof. apply sforall_sapp. Qed.

Lemma split_nonempty c s : split c s <> [].
Proof. destruct s; simpl; [done|]. case_match; [done|]. by destruct (split c s). Qed.

Lemma split_lacks c s : lacks c s = true -> split c s = [s].
Proof.
  unfold lacks. induction s as [|a s IH]; simpl; [done|].
  intros [Ha Hs]%andb_true_iff. apply negb_true_iff in Ha. by rewrite Ha, IH.
Qed.

Lemma split_sapp c s t : lacks c s = true ->
  split c (sapp s (String c t)) = s :: split c t.
Proof.
  unfold lacks. induction s as [|a s IH]; simpl.
  - by rewrite Ascii.eqb_refl.
  - intros [Ha Hs]%andb_true_iff. apply negb_true_iff in Ha. by rewrite Ha, IH.
Qed.

Lemma split_join c l :
  l <> [] -> forallb (lacks c) l = true -> split c (join (String c EmptyString) l) = l.
Proof.
  intros Hne. induction l as [|x l IH]; [done|]. clear Hne. simpl forallb.
  intros [Hx Hl]%andb_true_iff. destruct l as [|y l].
  - by apply split_lacks.
  - change (join _ (x :: y :: l)) with (sapp x (String c (join (String c EmptyString) (y :: l)))).
    rewrite split_sapp by done. f_equal. by apply IH.
Qed.

Lemma split_once_sapp c s t : lacks c s = true ->
  split_once c (sapp s (String c t)) = Some (s, t).
Proof.
  unfold lacks. induction s as [|a s IH]; simpl.
  - by rewrite Ascii.eqb_refl.
  - intros [Ha Hs]%andb_true_iff. apply negb_true_iff in Ha. by rewrite Ha, IH.
Qed.

Lemma split_once_lacks c s : lacks c s = true -> split_once c s = None.
Proof.
  unfold lacks. induction s as [|a s IH]; simpl; [done|].
  intros [Ha Hs]%andb_true_iff. apply negb_true_iff in Ha. by rewrite Ha, IH.
Qed.

(** Printed numbers parse back. *)
Lemma digit_chr_val d : 0 <= d < 10 -> digit_val (digit_chr d) = d /\ is_digit (digit_chr d) = true.
Proof.
  intros Hd. unfold digit_val, is_digit, digit_chr.
  rewrite byte_of_chr by (unfold is_byte, in_u; lia). split; [lia|].
  apply andb_true_iff. split; zb; lia.
Qed.

Lemma parse_fmt_digits max fuel z acc :
  0 <= z <= max -> z < 10 ^ Z.of_nat fuel -> (0 < fuel)%nat ->
  parse_digits max 0 (fmt_digits fuel z acc) = parse_digits max z acc.
Proof.
  revert z acc. induction fuel as [|fuel IH]; intros z acc Hz Hf H0; [lia|].
  rewrite Nat2Z.inj_succ, Z.pow_succ_r in Hf by lia. simpl.
  destruct (z <? 10) eqn:E; zb.
  - cbn [parse_digits]. destruct (digit_chr_val z) as [-> ->]; [lia|].
    change (0 * 10 + z) with z. by rewrite (proj2 (Z.leb_le z max)) by lia.
  - assert (0 <= z mod 10 < 10) by (apply Z.mod_pos_bound; lia).
    pose proof (Z.div_mod z 10 ltac:(lia)).
    destruct fuel as [|fuel]; [simpl in Hf; lia|].
    rewrite IH; [|split; [apply Z.div_pos; lia|lia]|apply Z.div_lt_upper_bound; lia|lia].
    cbn [parse_digits]. destruct (digit_chr_val (z mod 10)) as [-> ->]; [lia|].
    replace (z / 10 * 10 + z mod 10) with z by lia.
    by rewrite (proj2 (Z.leb_le z max)) by lia.
Qed.

Lemma fmt_digits_digits fuel z acc :
  0 <= z -> sforall is_digit acc = true -> sforall is_digit (fmt_digits fuel z acc) = true.
Proof.
  revert z acc. induction fuel as [|fuel IH]; intros z acc Hz Ha; simpl; [done|].
  destruct (z <? 10) eqn:E; zb.
  - simpl. destruct (digit_chr_val z) as [_ ->]; [lia|]. done.
  - assert (0 <= z mod 10 < 10) by (apply Z.mod_pos_bound; lia).
    apply IH; [apply Z.div_pos; lia|]. simpl.
    by destruct (digit_chr_val (z mod 10)) as [_ ->].
Qed.

Lemma fmt_digits_head fuel z acc : (0 < fuel)%nat -> exists a r, fmt_digits fuel z acc = String a r.
Proof.
  revert z acc. induction fuel as [|fuel IH]; intros z acc H; [lia|]. simpl.
  destruct (z <? 10); [eauto|]. destruct fuel; [simpl; eauto|]. apply IH. lia.
Qed.

Lemma fmt_uint_digits z : 0 <= z -> sforall is_digit (fmt_uint z) = true.
Proof. intros H. by apply fmt_digits_digits. Qed.
Lemma fmt_uint_nonempty z : String.eqb (fmt_uint z) EmptyString = false.
Proof.
  destruct (fmt_digits_head 40 z EmptyString) as (a & r & E); [lia|].
  unfold fmt_uint. by rewrite E.
Qed.

Lemma is_digit_graphic a : is_digit a = true -> graphic a = true.
Proof.
  unfold is_digit, graphic, in_range. intros H. zb.
  apply andb_true_iff. split; zb; lia.
Qed.
Lemma is_digit_neq c a : is_digit c = false -> is_digit a = true -> negb (Ascii.eqb a c) = true.
Proof. intros Hc Ha. destruct (Ascii.eqb_spec a c) as [->|]; [congruence|done]. Qed.
Lemma fmt_uint_lacks c z : is_digit c = false -> 0 <= z -> lacks c (fmt_uint z) = true.
Proof.
  intros Hc Hz. eapply sforall_weaken; [|by apply fmt_uint_digits].
  intros a. by apply is_digit_neq.
Qed.

Lemma parse_digits_in max s acc z :
  0 <= acc -> acc <= max -> parse_digits max acc s = Some z -> 0 <= z <= max.
Proof.
  revert acc. induction s as [|a s IH]; intros acc H0 H1; simpl; [intros [= <-]; lia|].
  destruct (is_digit a) eqn:Ha; [|done]. destruct (acc * 10 + digit_val a <=? max) eqn:Hm; [|done].
  apply IH; [|lia]. unfold is_digit in Ha. unfold digit_val. lia.
Qed.

(** A number that parses fits the type. *)
Lemma parse_uint_in w s z : 0 <= w -> parse_uint w s = Some z -> in_u w z.
Proof.
  intros Hw. unfold parse_uint. cases_if; [done|]. intros H.
  assert (0 < 2 ^ w) by (apply Z.pow_pos_nonneg; lia).
  apply parse_digits_in in H; unfold in_u; lia.
Qed.

Lemma parse_fmt_uint w z : 0 <= w <= 64 -> in_u w z -> parse_uint w (fmt_uint z) = Some z.
Proof.
  intros Hw [Hz1 Hz2]. unfold parse_uint.
  pose proof (fmt_uint_digits z Hz1) as Hd.
  assert (match fmt_uint z with
          | EmptyString => fmt_uint z
          | String a r => if Ascii.eqb a plus_chr then r else fmt_uint z
          end = fmt_uint z) as ->.
  { destruct (fmt_uint z) as [|a r]; [done|]. simpl in Hd. apply andb_true_iff in Hd as [Hd _].
    destruct (Ascii.eqb_spec a plus_chr) as [->|]; [vm_compute in Hd; done|done]. }
  rewrite fmt_uint_nonempty. unfold fmt_uint.
  assert (2 ^ w <= 2 ^ 64) by (apply Z.pow_le_mono_r; lia).
  rewrite parse_fmt_digits; [done|lia| |lia].
  change (10 ^ Z.of_nat 40) with (10 ^ 40). change (2 ^ 64) with 18446744073709551616 in *. lia.
Qed.

#[export] Hint Resolve fmt_uint_digits fmt_uint_lacks : ananicy.

(** A signed parse of plain digits is the unsigned parse one bit narrower. *)
Lemma parse_int_plain w s :
  sforall is_digit s = true -> parse_int w s = parse_uint (w - 1) s.
Proof.
  destruct s as [|a s]; [done|]. cbn [sforall]. intros [Ha Hs]%andb_true_iff.
  unfold parse_int, parse_uint.
  pose proof (is_digit_neq plus_chr a eq_refl Ha) as Hp.
  pose proof (is_digit_neq minus_chr a eq_refl Ha) as Hm.
  apply negb_true_iff in Hp, Hm. by rewrite Hp, Hm.
Qed.
Lemma parse_int_fmt_uint w z :
  1 <= w <= 64 -> in_u (w - 1) z -> parse_int w (fmt_uint z) = Some z.
Proof.
  intros Hw Hz. rewrite parse_int_plain by (apply fmt_uint_digits; unfold in_u in Hz; lia).
  apply parse_fmt_uint; [lia|done].
Qed.
Lemma parse_int_digits w s z :
  1 <= w -> sforall is_digit s = true -> parse_int w s = Some z -> in_u (w - 1) z.
Proof. intros Hw Hs. rewrite parse_int_plain by done. apply parse_uint_in. lia. Qed.

(** Trimming twice is trimming once. *)
Lemma strip_prefix_spec p s r : strip_prefix p s = Some r <-> s = sapp p r.
Proof.
  revert s. induction p as [|a p IH]; intros s; simpl.
  - split; congruence.
  - destruct s as [|b s]; [done|]. destruct (Ascii.eqb_spec a b) as [->|Hne].
    + rewrite IH. split; congruence.
    + split; [done|]. intros ?. simplify_eq.
Qed.

Lemma strip_any_spec ps s r :
  strip_any ps s = Some r -> exists p, p ∈ ps /\ s = sapp p r.
Proof.
  induction ps as [|p ps IH]; simpl; [done|]. destruct (strip_prefix p s) eqn:E.
  - intros ?. simplify_eq. exists p. split; [constructor|]. by apply strip_prefix_spec.
  - intros H. apply IH in H as (q & ? & ?). exists q. split; [by constructor|done].
Qed.

Lemma strip_any_none_prefix ps s t : strip_any ps (sapp s t) = None -> strip_any ps s = None.
Proof.
  induction ps as [|p ps IH]; simpl; [done|].
  destruct (strip_prefix p (sapp s t)) eqn:E; [done|]. intros H.
  destruct (strip_prefix p s) eqn:E2; [|by apply IH].
  apply strip_prefix_spec in E2. subst s. rewrite <- sapp_assoc in E.
  assert (strip_prefix p (sapp p (sapp s0 t)) = Some (sapp s0 t)) by (by apply strip_prefix_spec).
  congruence.
Qed.

Definition nonempty_all (ps : list string) : bool := forallb (fun p => negb (String.eqb p EmptyString)) ps.

Lemma strip_any_shorter ps s r :
  nonempty_all ps = true -> strip_any ps s = Some r -> (slen r < slen s)%nat.
Proof.
  intros Hne (p & Hp & ->)%strip_any_spec. rewrite slen_sapp.
  unfold nonempty_all in Hne. rewrite forallb_forall in Hne.
  apply list_elem_of_In, Hne in Hp. destruct p; [done|]. unfold slen. simpl. lia.
Qed.

Lemma strip_while_stuck fuel ps s :
  nonempty_all ps = true -> (slen s <= fuel)%nat -> strip_any ps (strip_while fuel ps s) = None.
Proof.
  intros Hne. revert s. induction fuel as [|fuel IH]; intros s Hf; simpl.
  - destruct (strip_any ps s) eqn:E; [|done]. apply strip_any_shorter in E; [lia|done].
  - destruct (strip_any ps s) eqn:E; [|done]. apply IH.
    apply strip_any_shorter in E; [lia|done].
Qed.

Lemma strip_while_suffix fuel ps s : exists p, s = sapp p (strip_while fuel ps s).
Proof.
  revert s. induction fuel as [|fuel IH]; intros s; simpl; [by exists EmptyString|].
  destruct (strip_any ps s) eqn:E; [|by exists EmptyString].
  apply strip_any_spec in E as (p & _ & ->). destruct (IH s0) as [q Hq].
  exists (sapp p q). by rewrite <- sapp_assoc, <- Hq.
Qed.

Lemma trim_start_stuck s : strip_any ws_strings (trim_start s) = None.
Proof. by apply strip_while_stuck. Qed.
Lemma trim_end_stuck s : strip_any ws_strings_rev (srev (trim_end s)) = None.
Proof.
  unfold trim_end. rewrite srev_involutive. apply strip_while_stuck; [done|]. by rewrite slen_srev.
Qed.
Lemma trim_end_prefix s : exists t, s = sapp (trim_end s) t.
Proof.
  unfold trim_end. destruct (strip_while_suffix (slen s) ws_strings_rev (srev s)) as [p Hp].
  exists (srev p). rewrite <- srev_sapp, <- Hp. by rewrite srev_involutive.
Qed.

Lemma trim_idem s : trim (trim s) = trim s.
Proof.
  unfold trim at 1 3. set (u := trim_start s).
  assert (trim_start (trim_end u) = trim_end u) as E.
  { apply strip_while_none. destruct (trim_end_prefix u) as [t Ht].
    eapply strip_any_none_prefix. rewrite <- Ht. apply trim_start_stuck. }
  change (trim s) with (trim_end u). rewrite E.
  unfold trim_end at 1. rewrite strip_while_none; [by rewrite srev_involutive|].
  apply trim_end_stuck.
Qed.

(** ** Slicing *)

Lemma sdrop_sapp s t : sdrop (slen s) (sapp s t) = t.
Proof. induction s; simpl; [by destruct t|done]. Qed.
Lemma stake_sapp s t : stake (slen s) (sapp s t) = s.
Proof. induction s as [|a s IH]; simpl; [by destruct t|by rewrite IH]. Qed.
Lemma starts_with_sapp p r : starts_with p (sapp p r) = true.
Proof. unfold starts_with. by rewrite (proj2 (strip_prefix_spec p _ r) eq_refl). Qed.
Lemma ends_with_sapp p s : ends_with p (sapp s p) = true.
Proof. unfold ends_with. rewrite srev_sapp. apply starts_with_sapp. Qed.
Lemma rfind_lacks c s : lacks c s = true -> rfind_char c s = None.
Proof.
  induction s as [|a s IH]; [done|]. simpl. intros [Ha Hs]%andb_true_iff. rewrite IH by done.
  by apply negb_true_iff in Ha as ->.
Qed.
Lemma rfind_sapp c s t : lacks c t = true -> rfind_char c (sapp s (String c t)) = Some (slen s).
Proof.
  intros Ht. induction s as [|a s IH]; simpl.
  - by rewrite rfind_lacks, Ascii.eqb_refl.
  - by rewrite IH.
Qed.

(** ** Words *)

Lemma words_from_word w fuel cur s :
  sforall graphic w = true ->
  words_from (slen w + fuel) cur (sapp w s) = words_from fuel (srev_onto w cur) s.
Proof.
  revert cur. induction w as [|a w IH]; intros cur; [done|]. cbn [sforall].
  intros [Ha Hw]%andb_true_iff. cbn [slen String.length Nat.add sapp words_from].
  rewrite strip_any_graphic; [|apply ws_not_graphic|done]. by apply IH.
Qed.

Definition space : ascii := " "%char.

Lemma words_from_space fuel cur s :
  words_from (S fuel) cur (String space s) =
  (if String.eqb cur EmptyString then words_from fuel EmptyString s
   else srev cur :: words_from fuel EmptyString s).
Proof. done. Qed.

Lemma srev_onto_word w : srev_onto w EmptyString = srev w.
Proof. done. Qed.
Lemma srev_nonempty w : w <> EmptyString -> String.eqb (srev w) EmptyString = false.
Proof.
  intros Hw. apply String.eqb_neq. intros E. apply Hw.
  rewrite <- (srev_involutive w), E. done.
Qed.

(** Non-empty graphic words separated by one space come back. *)
Definition word (w : string) : bool := sforall graphic w && negb (String.eqb w EmptyString).

Fixpoint spaced (ws : list string) : string :=
  match ws with [] => EmptyString | w :: ws => String space (sapp w (spaced ws)) end.

Lemma words_spaced ws cur t :
  forallb word ws = true ->
  (forall c, words_from (S (slen t)) c t =
             if String.eqb c EmptyString then [] else [srev c]) ->
  words_from (S (slen (sapp (spaced ws) t))) cur (sapp (spaced ws) t) =
  if String.eqb cur EmptyString then ws else srev cur :: ws.
Proof.
  intros H Ht. revert cur H. induction ws as [|w ws IH]; intros cur; [intros _; apply Ht|].
  cbn [forallb]. intros [Hw Hws]%andb_true_iff. unfold word in Hw. zb.
  cbn [spaced sapp]. rewrite words_from_space, <- sapp_assoc.
  assert (E : words_from (slen (String space (sapp w (sapp (spaced ws) t)))) EmptyString
                (sapp w (sapp (spaced ws) t)) = w :: ws).
  { cbn [slen String.length]. fold (slen (sapp w (sapp (spaced ws) t))).
    replace (S (slen (sapp w (sapp (spaced ws) t)))) with (slen w + S (slen (sapp (spaced ws) t)))%nat
      by (rewrite !slen_sapp; lia).
    rewrite words_from_word, IH, srev_onto_word by done.
    rewrite srev_nonempty by (by apply String.eqb_neq). by rewrite srev_involutive. }
  by rewrite E.
Qed.

Definition newline : string := String lf EmptyString.

(** With or without a line break at the end. *)
Lemma split_whitespace_spaced ws t :
  forallb word ws = true -> t = EmptyString \/ t = newline ->
  split_whitespace (sapp (spaced ws) t) = ws.
Proof.
  intros H Ht. unfold split_whitespace. rewrite words_spaced; [done|done|].
  intros c. by destruct Ht as [->| ->]; destruct c.
Qed.

Lemma trim_newline s : trimmed s = true -> trim (sapp s newline) = s.
Proof.
  destruct (String.eqb_spec s EmptyString) as [->|Hne]; [done|].
  unfold trimmed. intros [Hs Hr]%andb_true_iff. unfold trim.
  rewrite trim_start_id by (by destruct s).
  unfold trim_end. rewrite srev_sapp. cbn [srev srev_onto newline sapp].
  change (slen (sapp s newline)) with (slen (sapp s (String lf EmptyString))).
  rewrite slen_sapp, Nat.add_comm. cbn [slen String.length Nat.add strip_while].
  change (strip_any ws_strings_rev (String lf (srev s))) with (Some (srev s)). cbn iota.
  rewrite strip_while_none; [apply srev_involutive|].
  apply strip_any_graphic; [apply ws_rev_not_graphic|done].
Qed.

(** Graphic text is valid UTF-8. *)
Lemma utf8_lossy_ascii bs :
  Forall (fun b => 0 <= b < 128) bs -> utf8_lossy (length bs) bs = bs.
Proof.
  induction 1 as [|b bs Hb _ IH]; [done|]. cbn [length utf8_lossy].
  unfold utf8_step. replace (b <? 128) with true by (symmetry; apply Z.ltb_lt; lia).
  change (b :: utf8_lossy (length bs) bs = b :: bs). by rewrite IH.
Qed.
Lemma graphic_bytes s :
  sforall graphic s = true -> Forall (fun b => 0 < b < 128) (bytes_of s).
Proof.
  induction s as [|a s IH]; [constructor|]. cbn [sforall bytes_of].
  intros [Ha Hs]%andb_true_iff. constructor; [|by apply IH].
  unfold graphic, in_range in Ha. zb. lia.
Qed.
Lemma from_utf8_lossy_graphic s : sforall graphic s = true -> from_utf8_lossy (bytes_of s) = s.
Proof.
  intros H. unfold from_utf8_lossy. rewrite utf8_lossy_ascii, string_of_bytes_of; [done|].
  apply (list.Forall_impl (fun b => 0 < b < 128)); [by apply graphic_bytes|]. simpl. lia.
Qed.

Lemma sforall_stake p n s : sforall p s = true -> sforall p (stake n s) = true.
Proof.
  revert n. induction s as [|a s IH]; intros [|n]; cbn; try done.
  intros [Ha Hs]%andb_true_iff. by rewrite Ha, IH.
Qed.
Lemma stake_prefix n s : exists r, s = sapp (stake n s) r.
Proof.
  revert n. induction s as [|a s IH]; intros [|n]; cbn; eauto.
  destruct (IH n) as [r Hr]. exists r. by f_equal.
Qed.

(** ** Lines of words *)

(** Text that is not empty and starts with a graphic character. *)
Definition begins (s : string) : Prop := s <> EmptyString /\ starts_graphic s = true.

Lemma begins_sapp s t : begins s -> begins (sapp s t).
Proof. intros [Hn Hs]. destruct s as [|a s]; [done|]. split; [done|exact Hs]. Qed.

Lemma spaced_ends ws : ws <> [] -> forallb word ws = true -> begins (srev (spaced ws)).
Proof.
  induction ws as [|w ws IH]; [done|]. intros _. cbn [forallb spaced].
  intros [[Hw Hn]%andb_true_iff Hws]%andb_true_iff.
  rewrite srev_cons, srev_sapp. apply begins_sapp.
  destruct ws as [|w' ws]; [|apply begins_sapp; by apply IH].
  split; [|eapply sforall_starts; [cbn; by rewrite sforall_srev|done]].
  apply negb_true_iff, String.eqb_neq in Hn. cbn. by apply String.eqb_neq, srev_nonempty.
Qed.

Lemma find_char_sapp c s t : lacks c s = true -> find_char c (sapp s (String c t)) = Some (slen s).
Proof.
  induction s as [|a s IH]; cbn.
  { intros _. by rewrite Ascii.eqb_refl. }
  intros [Ha Hs]%andb_true_iff. apply negb_true_iff in Ha.
  by rewrite Ha, (IH Hs).
Qed.

Lemma fmt_uint_word z : 0 <= z -> word (fmt_uint z) = true.
Proof.
  intros H. unfold word. apply andb_true_iff. split.
  - eapply sforall_weaken; [|by apply fmt_uint_digits]. apply is_digit_graphic.
  - by rewrite fmt_uint_nonempty.
Qed.

Lemma graphic_lacks c s : graphic c = false -> sforall graphic s = true -> lacks c s = true.
Proof.
  intros Hc. unfold lacks. apply sforall_weaken. intros a Ha. apply negb_true_iff.
  destruct (Ascii.eqb_spec a c); congruence.
Qed.

Lemma word_lacks c w : graphic c = false -> word w = true -> lacks c w = true.
Proof. intros Hc [Hw _]%andb_true_iff. by apply graphic_lacks. Qed.

Lemma split_whitespace_words w ws :
  word w = true -> forallb word ws = true -> split_whitespace (sapp w (spaced ws)) = w :: ws.
Proof.
  intros Hw Hws. pose proof Hw as [Hg Hn]%andb_true_iff. apply negb_true_iff in Hn.
  unfold split_whitespace. rewrite slen_sapp.
  replace (S (slen w + slen (spaced ws))) with (slen w + S (slen (spaced ws)))%nat by lia.
  rewrite words_from_word, srev_onto_word by done.
  pose proof (words_spaced ws (srev w) EmptyString Hws) as H.
  assert (E : sapp (spaced ws) EmptyString = spaced ws)
    by (clear; induction (spaced ws) as [|a s IH]; cbn; congruence).
  rewrite E in H. rewrite H by (intros []; done).
  rewrite srev_nonempty by (by apply String.eqb_neq). by rewrite srev_involutive.
Qed.
