(* ===== verification/Paths.v ===== *)
(** * Paths

    [std::path] as the sources use it: a path is its text, and everything but
    the text ([==], [starts_with], [parent]) looks at its components.  [push]
    follows the library to the letter, because an absolute segment replaces the
    path it is pushed onto. *)

From stdpp Require Import base list gmap strings numbers.
From Stdlib Require Import ZArith Lia Ascii.
From S2P Require Import Prelude RustStr.

Definition slash : ascii := "/"%char.

Definition path := string.

(** ** Components *)

Inductive component := RootDir | CurDir | ParentDir | Normal (s : string).

#[global] Instance component_eq_dec : EqDecision component.
Proof. solve_decision. Defined.

(** Empty pieces and [.] are skipped, except for a [.] at the very start. *)
Definition skipped (piece : string) : bool := String.eqb piece EmptyString || String.eqb piece ".".

Definition to_component (piece : string) : component :=
  if String.eqb piece ".." then ParentDir else Normal piece.

Definition body (p : path) : list component :=
  map to_component (filter (fun piece => skipped piece = false) (split slash p)).

Definition is_absolute (p : path) : bool := starts_with "/" p.
Definition has_cur_dir (p : path) : bool :=
  match split slash p with piece :: _ => String.eqb piece "." | [] => false end.

Definition components (p : path) : list component :=
  (if is_absolute p then [RootDir] else if has_cur_dir p then [CurDir] else []) ++ body p.

Definition path_eqb (p q : path) : bool := bool_decide (components p = components q).

(** [Path::starts_with]: by whole components. *)
Definition path_starts_with (base p : path) : bool :=
  bool_decide (components base `prefix_of` components p).

(** [PathBuf::push] and [Path::join]. *)
Definition push (base p : path) : path :=
  if is_absolute p then p
  else if String.eqb base EmptyString || ends_with "/" base then sapp base p
  else sapp base (String slash p).

(** [Path::parent]: the text up to the last component, without the separators
    and the [.] pieces before it. *)
Fixpoint drop_skipped (rev_pieces : list string) : list string :=
  match rev_pieces with
  | [] => []
  | piece :: l => if skipped piece then drop_skipped l else rev_pieces
  end.

Definition parent (p : path) : option path :=
  let pieces := split slash p in
  let '(before, inner) :=
    if is_absolute p || has_cur_dir p then (take 1 pieces, drop 1 pieces) else ([], pieces) in
  match drop_skipped (reverse inner) with
  | [] => if is_absolute p then None else if has_cur_dir p then Some EmptyString else None
  | _ :: rest =>
      let left := before ++ reverse (drop_skipped rest) in
      Some (if is_absolute p && bool_decide (left = [EmptyString]) then "/" else join "/" left)
  end.

(** [Path::file_name]: the last normal component, none after [..]. *)
Definition file_name (target : path) : option string :=
  match list.last (filter (fun c => c <> EmptyString /\ c <> ".") (split slash target)) with
  | Some c => if String.eqb c ".." then None else Some c
  | None => None
  end.

Example paths_behave :
  push "/sys/fs/cgroup" "a/b" = "/sys/fs/cgroup/a/b" /\ push "/sys/" "a" = "/sys/a" /\
  push "/sys" "/etc" = "/etc" /\ push EmptyString "a" = "a" /\
  parent "/a//b/./c/" = Some "/a//b" /\ parent "/a" = Some "/" /\ parent "/" = None /\
  parent "a" = Some EmptyString /\ parent "./a" = Some "." /\ parent "." = Some EmptyString /\
  parent EmptyString = None /\
  components "./a/../b/." = [CurDir; Normal "a"; ParentDir; Normal "b"] /\
  path_starts_with "/a/b" "/a/bc" = false /\ path_starts_with "/a/b" "/a/./b//c" = true.
Proof. by vm_compute. Qed.

#[global] Arguments push : simpl never.
#[global] Arguments components : simpl never.

(** ** Lemmas *)

Lemma split_app_sep c s t : split c (sapp s (String c t)) = split c s ++ split c t.
Proof.
  induction s as [|a s IH]; simpl.
  - by rewrite Ascii.eqb_refl.
  - rewrite IH. destruct (Ascii.eqb a c); [done|].
    pose proof (split_nonempty c s). by destruct (split c s).
Qed.

Lemma body_sep p q : body (sapp p (String slash q)) = body p ++ body q.
Proof. unfold body. by rewrite split_app_sep, list.filter_app, map_app. Qed.

Lemma ends_slash p : ends_with "/" p = true -> exists q, p = sapp q "/".
Proof.
  unfold ends_with, starts_with. change (srev "/") with "/".
  destruct (strip_prefix "/" (srev p)) as [r|] eqn:E; [|done]. intros _.
  apply strip_prefix_spec in E. exists (srev r).
  rewrite <- (srev_involutive p), E. by rewrite srev_sapp.
Qed.

(** A relative segment adds its components. *)
Lemma body_push p q : is_absolute q = false -> body (push p q) = body p ++ body q.
Proof.
  intros Hq. unfold push. rewrite Hq. destruct (String.eqb_spec p EmptyString) as [->|Hp]; [done|].
  simpl. destruct (ends_with "/" p) eqn:E; [|apply body_sep].
  apply ends_slash in E as [r ->]. rewrite <- sapp_assoc. simpl. rewrite !body_sep.
  change (body EmptyString) with (@nil component). by rewrite app_nil_r.
Qed.

Lemma absolute_sapp p q : p <> EmptyString -> is_absolute (sapp p q) = is_absolute p.
Proof.
  intros Hp. destruct p as [|a p]; [done|]. unfold is_absolute, starts_with.
  cbn [strip_prefix sapp]. by destruct (Ascii.eqb _ a).
Qed.
Lemma cur_dir_sep p q : has_cur_dir (sapp p (String slash q)) = has_cur_dir p.
Proof.
  unfold has_cur_dir. rewrite split_app_sep. pose proof (split_nonempty slash p).
  by destruct (split slash p).
Qed.

Lemma components_push p q :
  p <> EmptyString -> is_absolute q = false -> components (push p q) = components p ++ body q.
Proof.
  intros Hp Hq. unfold components. rewrite body_push, app_assoc by done. f_equal. f_equal.
  unfold push. rewrite Hq. destruct (String.eqb_spec p EmptyString); [done|]. cbn [orb].
  destruct (ends_with "/" p) eqn:E.
  - rewrite absolute_sapp by done. destruct (ends_slash _ E) as [r ->].
    rewrite <- sapp_assoc. change (sapp "/" q) with (String slash q). by rewrite !cur_dir_sep.
  - by rewrite absolute_sapp, cur_dir_sep by done.
Qed.

Lemma push_nonempty p q : p <> EmptyString -> push p q <> EmptyString.
Proof.
  intros Hp. unfold push. destruct (is_absolute q) eqn:E; [by intros ->|].
  cases_if; destruct p; done.
Qed.

Lemma path_starts_with_spec base p :
  path_starts_with base p = true <-> exists rest, components p = components base ++ rest.
Proof. unfold path_starts_with. rewrite bool_decide_eq_true. done. Qed.

Lemma path_starts_with_refl p : path_starts_with p p = true.
Proof. apply bool_decide_true. done. Qed.

Lemma components_nonempty p : components p <> [] -> p <> EmptyString.
Proof. by intros H ->. Qed.

(** Text without [..] has no parent component. *)
Lemma find_str_none_app p s t : find_str p (sapp s t) = None -> find_str p t = None.
Proof.
  induction s as [|a s IH]; [done|]. simpl. destruct (starts_with _ _); [done|].
  destruct (find_str p (sapp s t)); [done|auto].
Qed.

Lemma split_pieces c s piece :
  piece ∈ split c s -> exists l r, s = sapp l (sapp piece r) .
Proof.
  revert piece. induction s as [|a s IH]; intros piece; simpl.
  - intros ->%list_elem_of_singleton. by exists EmptyString, EmptyString.
  - destruct (Ascii.eqb a c).
    + intros [->|H]%elem_of_cons; [by exists EmptyString, (String a s)|].
      destruct (IH _ H) as (l & r & ->). by exists (String a l), r.
    + destruct (split c s) as [|h t] eqn:E.
      { by destruct (split_nonempty c s). }
      intros [->|H]%elem_of_cons.
      * assert (Hpre : exists r, s = sapp h r).
        { clear -E. revert h t E. induction s as [|b s IH]; intros h t; simpl.
          - intros [= <- <-]. by exists EmptyString.
          - destruct (Ascii.eqb b c); [intros [= <- <-]; by exists (String b s)|].
            destruct (split c s) as [|h' t'] eqn:E; [by destruct (split_nonempty c s)|].
            intros [= <- <-]. destruct (IH _ _ eq_refl) as [r ->]. by exists r. }
        destruct Hpre as [r ->]. by exists EmptyString, r.
      * destruct (IH piece) as (l & r & ->); [by right|]. by exists (String a l), r.
Qed.

Lemma body_no_parent s : find_str ".." s = None -> ParentDir ∉ body s.
Proof.
  intros Hs. unfold body. rewrite list_elem_of_fmap. intros (piece & E & Hin).
  unfold to_component in E. destruct (String.eqb piece "..") eqn:Ep; [|done].
  apply String.eqb_eq in Ep as ->.
  apply list_elem_of_filter in Hin as [_ Hin]. apply split_pieces in Hin as (l & r & ->).
  apply find_str_none_app in Hs. done.
Qed.

(** A rooted path is never empty. *)
Lemma absolute_nonempty p : is_absolute p = true -> p <> EmptyString.
Proof. by intros H ->. Qed.
Lemma push_absolute p q : is_absolute p = true -> is_absolute (push p q) = true.
Proof.
  intros Hp. unfold push. destruct (is_absolute q) eqn:E; [done|]. pose proof (absolute_nonempty _ Hp).
  cases_if; by rewrite absolute_sapp.
Qed.

(** ** [parent] removes the last component *)

Definition comps (pieces : list string) : list component :=
  map to_component (filter (fun piece => skipped piece = false) pieces).

Lemma comps_app l k : comps (l ++ k) = comps l ++ comps k.
Proof. unfold comps. by rewrite list.filter_app, map_app. Qed.
Lemma comps_skip piece l : skipped piece = true -> comps (piece :: l) = comps l.
Proof. intros H. unfold comps. by rewrite filter_cons_False by (by rewrite H). Qed.

Lemma drop_skipped_comps l : comps (reverse (drop_skipped l)) = comps (reverse l).
Proof.
  induction l as [|x l IH]; [done|]. simpl. destruct (skipped x) eqn:E; [|done].
  rewrite IH, reverse_cons, comps_app, comps_skip by done. by rewrite app_nil_r.
Qed.
Lemma drop_skipped_suffix l : drop_skipped l `suffix_of` l.
Proof.
  induction l as [|x l IH]; [done|]. simpl. destruct (skipped x); [|done].
  by apply suffix_cons_r.
Qed.
Lemma drop_skipped_head l x k : drop_skipped l = x :: k -> skipped x = false.
Proof.
  induction l as [|y l IH]; [done|]. simpl. destruct (skipped y) eqn:E; [done|].
  by intros [= <- <-].
Qed.

Lemma split_pieces_lack c s : Forall (fun piece => lacks c piece = true) (split c s).
Proof.
  induction s as [|a s IH]; simpl; [by repeat constructor|].
  destruct (Ascii.eqb a c) eqn:E; [by constructor|].
  destruct (split c s) as [|h t]; inversion IH; subst; repeat constructor; try done;
    unfold lacks in *; simpl; by rewrite E.
Qed.

(** What is left of the pieces of a path reads back as those pieces. *)
Lemma split_join_prefix p l : l <> [] -> l `prefix_of` split slash p -> split slash (join "/" l) = l.
Proof.
  intros Hl [k Hk]. apply (split_join slash); [done|].
  pose proof (split_pieces_lack slash p) as H. rewrite Hk, Forall_app in H.
  apply forallb_forall. intros x Hx%list_elem_of_In. destruct H as [H _].
  rewrite list.Forall_forall in H. by apply H.
Qed.

Lemma absolute_split p :
  is_absolute p = match split slash p with EmptyString :: _ :: _ => true | _ => false end.
Proof.
  destruct p as [|a p]; [done|]. unfold is_absolute, starts_with. cbn [strip_prefix split].
  rewrite (Ascii.eqb_sym "/"%char a). change "/"%char with slash.
  pose proof (split_nonempty slash p). destruct (Ascii.eqb a slash); by destruct (split slash p).
Qed.

(** The last piece that counts, and those before it. *)
Lemma last_piece inner x rest :
  drop_skipped (reverse inner) = x :: rest ->
  comps inner = comps (reverse (drop_skipped rest)) ++ [to_component x] /\
  reverse (drop_skipped rest) `prefix_of` inner.
Proof.
  intros E. pose proof (drop_skipped_comps (reverse inner)) as Hc.
  pose proof (drop_skipped_head _ _ _ E) as Hx. rewrite E, reverse_involutive, reverse_cons in Hc.
  split.
  - rewrite drop_skipped_comps, <- Hc, comps_app. f_equal. unfold comps.
    by rewrite filter_cons_True, filter_nil.
  - pose proof (drop_skipped_suffix (reverse inner)) as [k Hk]. rewrite E in Hk.
    destruct (drop_skipped_suffix rest) as [k' Hk'].
    exists (reverse (k ++ x :: k')). rewrite <- reverse_app, <- app_assoc. simpl. rewrite <- Hk', <- Hk.
    by rewrite reverse_involutive.
Qed.

Lemma parent_components p q :
  parent p = Some q -> exists c, c <> RootDir /\ components p = components q ++ [c].
Proof.
  unfold parent, components. rewrite (absolute_split p). unfold has_cur_dir.
  change (body p) with (comps (split slash p)).
  assert (Hb : forall l, l <> [] -> l `prefix_of` split slash p -> body (join "/" l) = comps l)
    by (intros; unfold body; by rewrite (split_join_prefix p)).
  assert (Hs : forall l, l <> [] -> l `prefix_of` split slash p -> split slash (join "/" l) = l)
    by (intros; by apply (split_join_prefix p)).
  pose proof (split_nonempty slash p) as Hne. destruct (split slash p) as [|x inner] eqn:Hp; [done|].
  assert (Hc : forall y, to_component y <> RootDir)
    by (intros y; unfold to_component; by destruct (String.eqb y "..")).
  destruct (String.eqb_spec x EmptyString) as [->|Hx]; [destruct inner as [|y inner]; [done|]|].
  - cbn [orb take drop]. destruct (drop_skipped (reverse (y :: inner))) as [|z rest] eqn:E; [done|].
    apply last_piece in E as [E Hpre]. set (l := reverse (drop_skipped rest)) in *.
    intros Hq; apply (inj Some) in Hq as <-. exists (to_component z). split; [done|].
    rewrite comps_skip, E, app_assoc by done. f_equal.
    destruct (decide (l = [])) as [El|Hl].
    + rewrite El. done.
    + rewrite bool_decide_false by (intros [=]; done). cbn [andb].
      assert (Hpre' : ([EmptyString] ++ l) `prefix_of` EmptyString :: y :: inner)
        by (by apply prefix_cons).
      rewrite absolute_split, Hs, Hb by done. cbn [app]. rewrite comps_skip by done.
      destruct l; [done|]. done.
  - assert (Hm : match x with EmptyString => match inner with [] => false | _ :: _ => true end
                          | String _ _ => false end = false) by (by destruct x).
    rewrite Hm. cbn [orb]. destruct (String.eqb_spec x ".") as [->|Hd].
    + cbn [take drop]. rewrite take_0, drop_0, comps_skip by done.
      destruct (drop_skipped (reverse inner)) as [|z rest] eqn:E.
      { intros Hq; apply (inj Some) in Hq as <-. exists CurDir. split; [done|].
        apply (f_equal reverse), (f_equal comps) in E.
        rewrite drop_skipped_comps, reverse_involutive in E. by rewrite E. }
      apply last_piece in E as [E Hpre]. set (l := reverse (drop_skipped rest)) in *.
      intros Hq; apply (inj Some) in Hq as <-. exists (to_component z). split; [done|].
      rewrite E, app_assoc. f_equal. cbn [andb].
      assert (Hpre' : (["."] ++ l) `prefix_of` "." :: inner) by (by apply prefix_cons).
      rewrite absolute_split, Hs, Hb by done. cbn [app]. by rewrite comps_skip.
    + destruct (drop_skipped (reverse (x :: inner))) as [|z rest] eqn:E; [done|].
      apply last_piece in E as [E Hpre]. set (l := reverse (drop_skipped rest)) in *.
      intros Hq; apply (inj Some) in Hq as <-. exists (to_component z). split; [done|].
      rewrite E. cbn [app andb]. f_equal.
      destruct (decide (l = [])) as [->|Hl]; [done|].
      rewrite absolute_split, Hs, Hb by done. destruct l as [|x' l]; [done|].
      destruct Hpre as [k [= <- ->]]. destruct x as [|a x]; [done|].
      by rewrite (proj2 (String.eqb_neq _ _) Hd).
Qed.
