(* ===== verification/Process.v ===== *)
(** * Processes and their events

    [crates/ananicy-core/src/process.rs] and [types.rs]: what a monitor hands to
    the worker. *)

From stdpp Require Import base strings.
From Stdlib Require Import ZArith.
From S2P Require Import Prelude.

(** [types.rs]: a pid is an [i32]. *)
Definition Pid : Type := Z.
(** The name types wrap a [String] and compare as it does. *)
Abbreviation RuleName := string (only parsing).
Abbreviation TypeName := string (only parsing).
Abbreviation CgroupName := string (only parsing).

Record ProcessIdentity := MkProcessIdentity { pid : Pid }.

Record Process := MkProcess {
  identity : ProcessIdentity;
  name : string;
  delta_us : option Z;
  name_is_authoritative : bool;
}.

Definition Process_new (p : Pid) (n : string) : Process :=
  MkProcess (MkProcessIdentity p) n None false.

Definition with_authoritative_name (p : Process) : Process :=
  MkProcess (identity p) (name p) (delta_us p) true.

Definition set_name (n : string) (p : Process) : Process :=
  MkProcess (identity p) n (delta_us p) (name_is_authoritative p).

Definition process_pid (p : Process) : Pid := pid (identity p).
