(* ===== verification/BpfProg.v ===== *)
(** * The BPF program

    [crates/ananicy-bpf/bpf/ananicy_cpp.bpf.c]: the two tracepoint handlers, the
    per-CPU scratch record [heap], the perf buffer [events], and the statics
    that carry the previous report from one invocation to the next.

    The kernel's helpers are not part of the program.  What they answer during
    one invocation is the record [call]; the tracepoint record a handler is
    entered with is its bytes [ctx].

    This file holds the data and the handlers as functions, each run from its
    entry to its return with nothing in between: what one CPU computes when no
    other CPU is in the same handler.  The statics are shared by all CPUs and
    nothing synchronises them, so handlers of several CPUs may interleave at
    their loads and stores; [BpfSteps.v] has those runs, and proves that a
    handler that is not interrupted is the function below. *)

From stdpp Require Import base list gmap strings numbers.
From Stdlib Require Import ZArith Lia.
From S2P Require Import Prelude CLayout.
From S2P Require VmlinuxX86 VmlinuxArm64 VmlinuxRiscv VmlinuxLoongarch.

#[local] Open Scope Z_scope.
#[local] Open Scope c_scope.

(** ** Types the program takes from [vmlinux.h] *)

Record header := Header {
  h_pid_t : ctype;
  h_u64 : ctype;
  h_exec : ctype;      (* struct trace_event_raw_sched_process_exec *)
  h_fork : ctype;      (* struct trace_event_raw_sched_process_fork *)
  h_types : list (string * ctype);
  h_opaque : list string;   (* named in the header and not declared *)
}.

Definition x86 : header :=
  Header VmlinuxX86.ty_pid_t VmlinuxX86.ty___u64
    VmlinuxX86.struct_trace_event_raw_sched_process_exec
    VmlinuxX86.struct_trace_event_raw_sched_process_fork VmlinuxX86.kernel_types
    VmlinuxX86.opaque_types.
Definition arm64 : header :=
  Header VmlinuxArm64.ty_pid_t VmlinuxArm64.ty___u64
    VmlinuxArm64.struct_trace_event_raw_sched_process_exec
    VmlinuxArm64.struct_trace_event_raw_sched_process_fork VmlinuxArm64.kernel_types
    VmlinuxArm64.opaque_types.
Definition riscv : header :=
  Header VmlinuxRiscv.ty_pid_t VmlinuxRiscv.ty___u64
    VmlinuxRiscv.struct_trace_event_raw_sched_process_exec
    VmlinuxRiscv.struct_trace_event_raw_sched_process_fork VmlinuxRiscv.kernel_types
    VmlinuxRiscv.opaque_types.
Definition loongarch : header :=
  Header VmlinuxLoongarch.ty_pid_t VmlinuxLoongarch.ty___u64
    VmlinuxLoongarch.struct_trace_event_raw_sched_process_exec
    VmlinuxLoongarch.struct_trace_event_raw_sched_process_fork VmlinuxLoongarch.kernel_types
    VmlinuxLoongarch.opaque_types.

(** The headers [build.rs] selects from, one per target architecture. *)
Definition headers : list header := [x86; arm64; riscv; loongarch].

(** ** [struct event] *)

Definition TASK_COMM_LEN : nat := 16.

Definition struct_event (h : header) : ctype :=
  struct_ false (
    fld "pid" (h_pid_t h) ;;
    fld "prev_pid" (h_pid_t h) ;;
    fld "delta_us" (h_u64 h) ;;
    fld "task" (arr (int_ 1 true) (Z.of_nat TASK_COMM_LEN)) ;;
    mnil).

Record event := Event {
  ev_pid : Z;          (* pid_t *)
  ev_prev_pid : Z;     (* pid_t *)
  ev_delta_us : Z;     (* __u64 *)
  ev_task : list Z;    (* char[TASK_COMM_LEN] *)
}.

Definition event_zero : event := Event 0 0 0 (repeat 0 TASK_COMM_LEN).

(** The bytes of the record, as [bpf_perf_event_output] copies them. *)
Definition encode_event (e : event) : list Z :=
  le_encode 4 (ev_pid e) ++ le_encode 4 (ev_prev_pid e) ++
  le_encode 8 (ev_delta_us e) ++ ev_task e.

(** ** State *)

Record prog_state := ProgState {
  heap : gmap Z event;          (* BPF_MAP_TYPE_PERCPU_ARRAY, one zeroed element per CPU *)
  exec_prev_pid : Z;            (* the statics of handle_exec *)
  exec_prev_ts : Z;
  fork_prev_pid : Z;            (* the statics of handle_fork *)
  fork_prev_ts : Z;
  events : gmap Z (list (list Z));  (* the perf buffer: a ring of samples per CPU *)
}.

Definition prog_init : prog_state := ProgState ∅ 0 0 0 0 ∅.

(** The answers of the kernel during one invocation. *)
Record call := Call {
  c_cpu : Z;
  c_heap : bool;        (* bpf_map_lookup_elem is not NULL *)
  c_now : Z;            (* bpf_ktime_get_ns *)
  c_pid_tgid : Z;       (* bpf_get_current_pid_tgid *)
  c_comm : list Z;      (* bpf_get_current_comm *)
  c_output : bool;      (* bpf_perf_event_output found room *)
}.

(** ** Handlers *)

(** [handle_event]: the record to report, if any, and the new values of the two
    statics its pointer arguments lead to. *)
Definition handle_event (min_us : Z) (c : call) (p prev_pid prev_ts : Z)
    : option event * Z * Z :=
  if negb (c_heap c) then (None, prev_pid, prev_ts) else
  let ts := c_now c in
  let delta_us := wrap_u 64 (ts - prev_ts) / 1000 in
  if negb (min_us =? 0) && (delta_us <=? min_us) then (None, prev_pid, prev_ts) else
  let e := Event p prev_pid delta_us (c_comm c) in
  (Some e, ev_pid e, ts).

(** [bpf_perf_event_output] with [BPF_F_CURRENT_CPU]: the sample goes to the ring
    of the CPU the handler runs on, if there is room. *)
Definition ring (cpu : Z) (rings : gmap Z (list (list Z))) : list (list Z) :=
  default [] (rings !! cpu).
Definition output (c : call) (e : event) (rings : gmap Z (list (list Z)))
    : gmap Z (list (list Z)) :=
  if c_output c then <[c_cpu c := ring (c_cpu c) rings ++ [encode_event e]]> rings
  else rings.

Definition handle_exec (min_us : Z) (c : call) (st : prog_state) : prog_state * option event :=
  let p := wrap_s 32 (wrap_u 32 (c_pid_tgid c)) in
  match handle_event min_us c p (exec_prev_pid st) (exec_prev_ts st) with
  | (None, pp, pt) =>
      (ProgState (heap st) pp pt (fork_prev_pid st) (fork_prev_ts st) (events st), None)
  | (Some e, pp, pt) =>
      (ProgState (<[c_cpu c := e]> (heap st)) pp pt (fork_prev_pid st) (fork_prev_ts st)
         (output c e (events st)), Some e)
  end.

(** [ctx->child_pid], at the offset the header gives it. *)
Definition ctx_child_pid (h : header) (ctx : list Z) : Z :=
  match offsetof "child_pid" (h_fork h) with
  | Some o => wrap_s 32 (le_decode (take 4 (drop (Z.to_nat o) ctx)))
  | None => 0
  end.

Definition handle_fork (h : header) (min_us : Z) (c : call) (ctx : list Z) (st : prog_state)
    : prog_state * option event :=
  let p := wrap_s 32 (wrap_u 32 (ctx_child_pid h ctx)) in
  match handle_event min_us c p (fork_prev_pid st) (fork_prev_ts st) with
  | (None, pp, pt) =>
      (ProgState (heap st) (exec_prev_pid st) (exec_prev_ts st) pp pt (events st), None)
  | (Some e, pp, pt) =>
      (ProgState (<[c_cpu c := e]> (heap st)) (exec_prev_pid st) (exec_prev_ts st) pp pt
         (output c e (events st)), Some e)
  end.

(** ** Runs of one invocation after another *)

Inductive tracepoint := TpExec | TpFork (ctx : list Z).

Definition invocation : Type := tracepoint * call.
Definition is_exec (i : invocation) : bool :=
  match fst i with TpExec => true | TpFork _ => false end.
Definition same_handler (i j : invocation) : Prop := is_exec i = is_exec j.
Definition now (i : invocation) : Z := c_now (snd i).

Definition invoke (h : header) (min_us : Z) (i : invocation) (st : prog_state)
    : prog_state * option event :=
  match fst i with
  | TpExec => handle_exec min_us (snd i) st
  | TpFork ctx => handle_fork h min_us (snd i) ctx st
  end.

(** The invocations that reported an event, with the event, in order. *)
Fixpoint reports (h : header) (min_us : Z) (st : prog_state) (l : list invocation)
    : list (invocation * event) :=
  match l with
  | [] => []
  | i :: l =>
      match invoke h min_us i st with
      | (st', Some e) => (i, e) :: reports h min_us st' l
      | (st', None) => reports h min_us st' l
      end
  end.

Fixpoint run (h : header) (min_us : Z) (st : prog_state) (l : list invocation) : prog_state :=
  match l with
  | [] => st
  | i :: l => run h min_us (fst (invoke h min_us i st)) l
  end.

(** ** Lemmas *)

(** Both handlers are the same rate limiter on their own pair of statics. *)
Definition prev_ts_of (exec : bool) (st : prog_state) : Z :=
  if exec then exec_prev_ts st else fork_prev_ts st.
Definition prev_pid_of (exec : bool) (st : prog_state) : Z :=
  if exec then exec_prev_pid st else fork_prev_pid st.
Definition subject (h : header) (i : invocation) : Z :=
  match fst i with
  | TpExec => wrap_s 32 (wrap_u 32 (c_pid_tgid (snd i)))
  | TpFork ctx => wrap_s 32 (wrap_u 32 (ctx_child_pid h ctx))
  end.

(** The decision a handler takes on an invocation, as a test. *)
Definition passes (min_us prev_ts : Z) (i : invocation) : bool :=
  c_heap (snd i) &&
  ((min_us =? 0) || (min_us <? wrap_u 64 (now i - prev_ts) / 1000)).
Definition event_of (h : header) (i : invocation) (st : prog_state) : event :=
  Event (subject h i) (prev_pid_of (is_exec i) st)
    (wrap_u 64 (now i - prev_ts_of (is_exec i) st) / 1000) (c_comm (snd i)).

Lemma handle_event_passes m i p pp pt :
  handle_event m (snd i) p pp pt =
  if passes m pt i then
    (Some (Event p pp (wrap_u 64 (now i - pt) / 1000) (c_comm (snd i))), p, now i)
  else (None, pp, pt).
Proof.
  unfold handle_event, passes, now. destruct (c_heap (snd i)); simpl; [|done].
  destruct (m =? 0); simpl; [done|].
  rewrite Z.ltb_antisym. by destruct (_ <=? m).
Qed.

Lemma invoke_report h m i st :
  snd (invoke h m i st) =
  if passes m (prev_ts_of (is_exec i) st) i then Some (event_of h i st) else None.
Proof.
  destruct i as [[|ctx] c]; unfold invoke, handle_exec, handle_fork, event_of; simpl.
  - pose proof (handle_event_passes m (TpExec, c)) as E. simpl in E. rewrite E.
    unfold prev_ts_of. simpl. by destruct (passes _ _ _).
  - pose proof (handle_event_passes m (TpFork ctx, c)) as E. simpl in E. rewrite E.
    unfold prev_ts_of. simpl. by destruct (passes _ _ _).
Qed.

Lemma invoke_prev_ts h m i b st :
  prev_ts_of b (fst (invoke h m i st)) =
  if bool_decide (b = is_exec i) && passes m (prev_ts_of b st) i then now i else prev_ts_of b st.
Proof.
  destruct i as [[|ctx] c]; unfold invoke, handle_exec, handle_fork; simpl.
  - pose proof (handle_event_passes m (TpExec, c)) as E. simpl in E. rewrite E.
    unfold prev_ts_of. destruct b; simpl; try done; by destruct (passes _ _ _).
  - pose proof (handle_event_passes m (TpFork ctx, c)) as E. simpl in E. rewrite E.
    unfold prev_ts_of. destruct b; simpl; try done; by destruct (passes _ _ _).
Qed.

Lemma invoke_prev_pid h m i b st :
  prev_pid_of b (fst (invoke h m i st)) =
  if bool_decide (b = is_exec i) && passes m (prev_ts_of b st) i then subject h i
  else prev_pid_of b st.
Proof.
  destruct i as [[|ctx] c]; unfold invoke, handle_exec, handle_fork; simpl.
  - pose proof (handle_event_passes m (TpExec, c)) as E. simpl in E. rewrite E.
    unfold prev_ts_of, prev_pid_of. destruct b; simpl; try done; by destruct (passes _ _ _).
  - pose proof (handle_event_passes m (TpFork ctx, c)) as E. simpl in E. rewrite E.
    unfold prev_ts_of, prev_pid_of. destruct b; simpl; try done; by destruct (passes _ _ _).
Qed.

Lemma reports_cons h m st i l :
  reports h m st (i :: l) =
  (if passes m (prev_ts_of (is_exec i) st) i then [(i, event_of h i st)] else []) ++
  reports h m (fst (invoke h m i st)) l.
Proof.
  simpl. pose proof (invoke_report h m i st) as E.
  destruct (invoke h m i st) as [st' oe]. simpl in *. subst oe. by destruct (passes _ _ _).
Qed.

(** The clock does not run backwards over the sequence and stays in a [u64]. *)
Fixpoint clock_from (t : Z) (l : list invocation) : Prop :=
  match l with
  | [] => True
  | i :: l => t <= now i < 2 ^ 64 /\ clock_from (now i) l
  end.

Lemma clock_from_le t t' l : t' <= t -> clock_from t l -> clock_from t' l.
Proof. destruct l; simpl; [done|]. intros ? [? ?]. split; [lia|done]. Qed.

Lemma wrap_gap t p : 0 <= p <= t -> t < 2 ^ 64 -> wrap_u 64 (t - p) = t - p.
Proof. intros. apply wrap_u_small. unfold in_u. lia. Qed.

(** Every report of a handler is more than [min_us] microseconds after the
    value of its timestamp static. *)
Lemma reports_after_prev h m b st l i e :
  m <> 0 -> 0 <= prev_ts_of b st -> clock_from (prev_ts_of b st) l ->
  (i, e) ∈ reports h m st l -> is_exec i = b ->
  m < (now i - prev_ts_of b st) / 1000.
Proof.
  intros Hm. revert st. induction l as [|j l IH]; intros st Hp Hc Hin Hb.
  { by apply elem_of_nil in Hin. }
  rewrite reports_cons in Hin. destruct Hc as [Hj Hc].
  apply elem_of_app in Hin as [Hin|Hin].
  - destruct (passes _ _ _) eqn:E; [|by apply elem_of_nil in Hin].
    apply list_elem_of_singleton in Hin. simplify_eq.
    unfold passes in E. rewrite wrap_gap in E by lia.
    apply andb_true_iff in E as [_ [E|E]%orb_true_iff]; zb; lia.
  - pose proof (invoke_prev_ts h m j b st) as Hts.
    destruct (bool_decide (b = is_exec j) && passes m (prev_ts_of b st) j) eqn:E.
    + assert (m < (now i - now j) / 1000).
      { rewrite <- Hts. apply IH; try done; rewrite Hts; [lia|done]. }
      assert ((now i - now j) / 1000 <= (now i - prev_ts_of b st) / 1000)
        by (apply Z.div_le_mono; lia). lia.
    + rewrite <- Hts. apply IH; try done; rewrite Hts; [lia|].
      eapply clock_from_le; [|done]. lia.
Qed.

Lemma reports_source h m st l i e : (i, e) ∈ reports h m st l -> i ∈ l.
Proof.
  revert st. induction l as [|j l IH]; intros st.
  { by intros ?%elem_of_nil. }
  rewrite reports_cons. intros [Hin|Hin]%elem_of_app.
  - destruct (passes _ _ _); [|by apply elem_of_nil in Hin].
    apply list_elem_of_singleton in Hin. simplify_eq. constructor.
  - constructor. by eapply IH.
Qed.

(** Two states with the same statics for one handler: that handler's reports
    are the same whatever the other handler did. *)
Definition agree (b : bool) (st st' : prog_state) : Prop :=
  prev_ts_of b st = prev_ts_of b st' /\ prev_pid_of b st = prev_pid_of b st'.

Lemma agree_step_other h m b st st' i :
  is_exec i <> b -> agree b st st' -> agree b (fst (invoke h m i st)) st'.
Proof.
  intros Hb [H1 H2]. unfold agree.
  rewrite invoke_prev_ts, invoke_prev_pid, bool_decide_eq_false_2 by congruence. done.
Qed.

Lemma agree_step_same h m b st st' i :
  agree b st st' -> agree b (fst (invoke h m i st)) (fst (invoke h m i st')).
Proof.
  intros [H1 H2]. unfold agree. rewrite !invoke_prev_ts, !invoke_prev_pid, H1, H2. done.
Qed.

Definition of_handler (b : bool) (i : invocation) : bool := Bool.eqb (is_exec i) b.

Lemma reports_agree h m b st st' l :
  agree b st st' ->
  List.filter (fun ie => of_handler b (fst ie)) (reports h m st l) =
  reports h m st' (List.filter (of_handler b) l).
Proof.
  revert st st'. induction l as [|i l IH]; intros st st' Ha; [done|].
  rewrite reports_cons, List.filter_app. simpl List.filter.
  destruct (of_handler b i) eqn:E; unfold of_handler in E.
  - apply Bool.eqb_prop in E. rewrite reports_cons.
    rewrite (IH _ (fst (invoke h m i st'))) by (by apply agree_step_same).
    destruct Ha as [H1 H2]. unfold event_of. rewrite E, H1, H2.
    destruct (passes _ _ _); [|done]. cbn [List.filter fst].
    assert (of_handler b i = true) as -> by (unfold of_handler; rewrite E; apply Bool.eqb_reflx).
    done.
  - rewrite (IH _ st').
    2: { apply agree_step_other; [|done]. intros Hb. by rewrite Hb, Bool.eqb_reflx in E. }
    destruct (passes _ _ _); [|done]. cbn [List.filter fst].
    assert (of_handler b i = false) as -> by done. done.
Qed.

(** The specification of one handler: report a time if it is at least [gap]
    after the last reported one. *)
Fixpoint sample (gap last : Z) (ts : list Z) : list Z :=
  match ts with
  | [] => []
  | t :: ts => if gap <=? t - last then t :: sample gap t ts else sample gap last ts
  end.

Lemma passes_gap m p i :
  0 < m -> 0 <= p <= now i -> now i < 2 ^ 64 -> c_heap (snd i) = true ->
  passes m p i = (1000 * (m + 1) <=? now i - p).
Proof.
  intros Hm Hp Hn Hh. unfold passes. rewrite wrap_gap, Hh by lia. simpl.
  rewrite (proj2 (Z.eqb_neq m 0)) by lia. simpl. apply eq_true_iff_eq.
  rewrite Z.ltb_lt, Z.leb_le. split; intros H.
  - pose proof (Z.mul_div_le (now i - p) 1000 ltac:(lia)). lia.
  - enough (m + 1 <= (now i - p) / 1000) by lia. apply Z.div_le_lower_bound; lia.
Qed.

Lemma reports_sample h m b st l :
  0 < m -> 0 <= prev_ts_of b st -> clock_from (prev_ts_of b st) l ->
  Forall (fun i => c_heap (snd i) = true) l -> Forall (fun i => is_exec i = b) l ->
  map (fun ie => now (fst ie)) (reports h m st l) =
  sample (1000 * (m + 1)) (prev_ts_of b st) (map now l).
Proof.
  intros Hm. revert st. induction l as [|i l IH]; intros st Hp Hc Hh Hb; [done|].
  destruct Hc as [Hi Hc]. inversion Hh; inversion Hb; subst.
  rewrite reports_cons, map_app. cbn [map sample].
  pose proof (invoke_prev_ts h m i (is_exec i) st) as Hts.
  rewrite bool_decide_eq_true_2 in Hts by done. simpl in Hts.
  rewrite passes_gap in * by (try done; lia).
  destruct (_ <=? _) eqn:E.
  - simpl. f_equal. rewrite IH, Hts; rewrite ?Hts; try done; lia.
  - simpl. rewrite IH, Hts; rewrite ?Hts; try done.
    eapply clock_from_le; [|done]. lia.
Qed.

Lemma sample_bound gap last b ts :
  0 < gap -> Forall (fun t => t <= b) ts -> last <= b ->
  Z.of_nat (length (sample gap last ts)) * gap <= b - last.
Proof.
  intros Hg H. revert last. induction H as [|t ts Ht _ IH]; intros last Hl; simpl; [lia|].
  destruct (gap <=? t - last) eqn:E; zb; [|by apply IH].
  specialize (IH t Ht). simpl length. lia.
Qed.

(** Changing the CPU an invocation runs on. *)
Definition recpu (f : invocation -> Z) (i : invocation) : invocation :=
  (fst i, let c := snd i in
          Call (f i) (c_heap c) (c_now c) (c_pid_tgid c) (c_comm c) (c_output c)).

Lemma reports_recpu h m f st st' l :
  agree true st st' -> agree false st st' ->
  reports h m st' (map (recpu f) l) =
  map (fun ie => (recpu f (fst ie), snd ie)) (reports h m st l).
Proof.
  revert st st'. induction l as [|i l IH]; intros st st' Ht Hf; [done|].
  cbn [map]. rewrite !reports_cons, map_app.
  assert (forall b, agree b st st') as Ha by (by intros []).
  assert (Hst : forall b, agree b (fst (invoke h m i st)) (fst (invoke h m (recpu f i) st'))).
  { intros b. destruct (Ha b) as [H1 H2]. unfold agree.
    rewrite !invoke_prev_ts, !invoke_prev_pid, H1, H2. done. }
  rewrite (IH (fst (invoke h m i st))) by apply Hst. f_equal.
  destruct (Ha (is_exec i)) as [H1 H2].
  change (is_exec (recpu f i)) with (is_exec i).
  change (passes m ?p (recpu f i)) with (passes m p i). unfold event_of.
  change (is_exec (recpu f i)) with (is_exec i). rewrite H1, H2.
  by destruct (passes _ _ _).
Qed.

Lemma reports_first h m b st l a ea :
  Forall (fun i => is_exec i = b) l -> reports h m st l !! 0%nat = Some (a, ea) ->
  ev_prev_pid ea = prev_pid_of b st /\
  ev_delta_us ea = wrap_u 64 (now a - prev_ts_of b st) / 1000.
Proof.
  revert st. induction l as [|i l IH]; intros st Hb; [done|].
  inversion Hb as [|x y Hi Hl]; subst. rewrite reports_cons.
  pose proof (invoke_prev_ts h m i (is_exec i) st) as Hts.
  pose proof (invoke_prev_pid h m i (is_exec i) st) as Hpp.
  rewrite bool_decide_eq_true_2 in Hts, Hpp by done.
  destruct (passes _ _ _) eqn:E; simpl in Hts, Hpp.
  - intros ?. by simplify_eq/=.
  - intros H. cbn [app] in H. apply IH in H; [|done]. by rewrite Hts, Hpp in H.
Qed.

Lemma reports_chain h m b st l i a ea c ec :
  Forall (fun i => is_exec i = b) l ->
  reports h m st l !! i = Some (a, ea) -> reports h m st l !! S i = Some (c, ec) ->
  ev_prev_pid ec = ev_pid ea /\ ev_delta_us ec = wrap_u 64 (now c - now a) / 1000.
Proof.
  revert st i. induction l as [|k l IH]; intros st i Hb; [done|].
  inversion Hb as [|x y Hk Hl]; subst. rewrite reports_cons.
  destruct (passes _ _ _) eqn:E; [|by apply IH].
  destruct i as [|i]; [|by apply IH]. cbn [app lookup list_lookup].
  intros ? Hc. simplify_eq. apply reports_first with (b := is_exec a) in Hc; [|done].
  rewrite invoke_prev_ts, invoke_prev_pid, E, bool_decide_eq_true_2 in Hc by done. done.
Qed.

Lemma fork_child_offset : Forall (fun h => offsetof "child_pid" (h_fork h) = Some 44) headers.
Proof. repeat constructor. Qed.

(** ** Theorems *)

Module Prog.

(** When no two invocations overlap: two events the same handler reports are more
    than [min_us] microseconds apart, whatever ran in between and on whatever CPU,
    as long as the clock does not run backwards. *)
Theorem serial_reports_spaced h m st l i j a b ea eb :
  0 < m -> 0 <= exec_prev_ts st -> 0 <= fork_prev_ts st ->
  clock_from (Z.max (exec_prev_ts st) (fork_prev_ts st)) l ->
  (i < j)%nat -> reports h m st l !! i = Some (a, ea) -> reports h m st l !! j = Some (b, eb) ->
  same_handler a b -> m < (now b - now a) / 1000.
Proof.
  intros Hm. revert st i j. induction l as [|k l IH]; intros st i j He Hf Hc Hij Hi Hj Hs; [done|].
  destruct Hc as [Hk Hc].
  assert (Hnext : forall i j, (i < j)%nat ->
    reports h m (fst (invoke h m k st)) l !! i = Some (a, ea) ->
    reports h m (fst (invoke h m k st)) l !! j = Some (b, eb) -> m < (now b - now a) / 1000).
  { intros i' j' ???.
    assert (forall b, 0 <= prev_ts_of b (fst (invoke h m k st)) <= now k) as Hb.
    { intros c. rewrite invoke_prev_ts. destruct c; simpl; cases_if; lia. }
    pose proof (Hb true). pose proof (Hb false). simpl in *.
    eapply (IH (fst (invoke h m k st)) i' j'); try done; try lia.
    eapply clock_from_le; [|done]. lia. }
  rewrite reports_cons in Hi, Hj.
  destruct (passes m (prev_ts_of (is_exec k) st) k) eqn:E; simpl in Hi, Hj;
    [|by eapply (Hnext i j)].
  destruct j as [|j]; [lia|]. destruct i as [|i]; [|by eapply (Hnext i j); [lia|..]].
  simplify_eq/=. pose proof (invoke_prev_ts h m a (is_exec a) st) as Hts.
  rewrite bool_decide_eq_true_2, E in Hts by done. simpl in Hts. rewrite <- Hts.
  eapply (reports_after_prev h m (is_exec a) _ l b eb); rewrite ?Hts; try done; try lia.
  by eapply list_elem_of_lookup_2.
Qed.

(** When no two invocations overlap, a handler is a plain sampler: of the times it
    is entered at, it reports those at least [1000 * (min_us + 1)] nanoseconds
    after the last reported one. The other handler's invocations do not matter. *)
Theorem serial_handler_is_sampler h m b st l :
  0 < m -> 0 <= prev_ts_of b st ->
  clock_from (prev_ts_of b st) (List.filter (of_handler b) l) ->
  Forall (fun i => c_heap (snd i) = true) l ->
  map (fun ie => now (fst ie)) (List.filter (fun ie => of_handler b (fst ie)) (reports h m st l)) =
  sample (1000 * (m + 1)) (prev_ts_of b st) (map now (List.filter (of_handler b) l)).
Proof.
  intros Hm Hp Hc Hh. rewrite (reports_agree h m b st st) by done.
  apply reports_sample; try done.
  - apply List.Forall_forall. intros i [Hi _]%List.filter_In.
    by eapply List.Forall_forall in Hh.
  - apply List.Forall_forall. intros i Hi. apply List.filter_In in Hi as [_ Hi].
    by apply Bool.eqb_prop.
Qed.

(** When no two invocations overlap the sampler bounds the rate: with a last report at [prev_ts], a handler
    reports at most [(t - prev_ts) / (1000 * (min_us + 1))] events up to time
    [t], however many it is entered for. *)
Theorem reports_rate_bound h m b st l t :
  0 < m -> 0 <= prev_ts_of b st <= t ->
  clock_from (prev_ts_of b st) (List.filter (of_handler b) l) ->
  Forall (fun i => c_heap (snd i) = true) l -> Forall (fun i => now i <= t) l ->
  Z.of_nat (length (List.filter (fun ie => of_handler b (fst ie)) (reports h m st l))) *
    (1000 * (m + 1)) <= t - prev_ts_of b st.
Proof.
  intros Hm Hp Hc Hh Ht.
  rewrite <- (length_map (fun ie => now (fst ie))), (reports_agree h m b st st) by done.
  rewrite reports_sample with (b := b); try done; try lia.
  - apply sample_bound; [lia| |lia]. apply Forall_map. apply List.Forall_forall.
    intros i [Hi _]%List.filter_In. by eapply List.Forall_forall in Ht.
  - apply List.Forall_forall. intros i [Hi _]%List.filter_In.
    by eapply List.Forall_forall in Hh.
  - apply List.Forall_forall. intros i [_ Hi]%List.filter_In. by apply Bool.eqb_prop.
Qed.

(** The interval is kept per handler and for the whole machine: moving every
    invocation of a serial run to any other CPU changes neither which invocations report nor
    what they report. *)
Theorem reports_ignore_cpu h m st f l :
  reports h m st (map (recpu f) l) =
  map (fun ie => (recpu f (fst ie), snd ie)) (reports h m st l).
Proof. by apply reports_recpu. Qed.

(** The two handlers do not see each other: what one reports is what it would
    report if the other tracepoint never fired. *)
Theorem handlers_independent h m st l b :
  List.filter (fun ie => of_handler b (fst ie)) (reports h m st l) =
  reports h m st (List.filter (of_handler b) l).
Proof. by apply reports_agree. Qed.

(** Without [--bpf-min-us] nothing is dropped: every invocation that gets its
    scratch record reports. *)
Theorem no_interval_reports_all h st l :
  map fst (reports h 0 st l) = List.filter (fun i => c_heap (snd i)) l.
Proof.
  revert st. induction l as [|i l IH]; intros st; [done|].
  rewrite reports_cons, map_app, IH. unfold passes. simpl.
  by destruct (c_heap (snd i)).
Qed.

(** An event carries, since the last event its handler reported, the elapsed
    microseconds and that event's pid; the first one is relative to the statics
    the run starts with. *)
Theorem report_links_to_previous h m st l b i a ea c ec :
  let r := List.filter (fun ie => of_handler b (fst ie)) (reports h m st l) in
  r !! i = Some (a, ea) -> r !! S i = Some (c, ec) ->
  ev_prev_pid ec = ev_pid ea /\ ev_delta_us ec = wrap_u 64 (now c - now a) / 1000.
Proof.
  intros r. unfold r. rewrite (reports_agree h m b st st) by done.
  apply reports_chain with (b := b).
  apply List.Forall_forall. intros x [_ Hx]%List.filter_In. by apply Bool.eqb_prop.
Qed.

(** A fork event names the child: on each of the four targets the reported pid
    is the [i32] at the child's place in the tracepoint record. *)
Theorem fork_names_child h m c ctx st e :
  List.In h headers -> snd (handle_fork h m c ctx st) = Some e ->
  ev_pid e = wrap_s 32 (le_decode (take 4 (drop 44 ctx))).
Proof.
  intros Hh He. pose proof fork_child_offset as Ho. rewrite List.Forall_forall in Ho.
  specialize (Ho h Hh). change (handle_fork h m c ctx st) with (invoke h m (TpFork ctx, c) st) in He.
  rewrite invoke_report in He. destruct (passes _ _ _); [|done]. simplify_eq.
  cbn. unfold ctx_child_pid. rewrite Ho.
  rewrite wrap_s_wrap_u by lia. apply wrap_s_small; [lia|]. by apply wrap_s_range.
Qed.

(** *** Witnesses *)

Definition demo_call (cpu t : Z) : call :=
  Call cpu true t 4294967303 (repeat 97 TASK_COMM_LEN) true.
(** Five execs and a fork: with a 5 microsecond interval the second exec, on
    another CPU, is dropped. *)
Definition demo_run : list invocation :=
  [(TpExec, demo_call 0 10000000); (TpExec, demo_call 1 10004000);
   (TpFork (repeat 0 44 ++ [7; 0; 0; 0]), demo_call 0 10004500);
   (TpExec, demo_call 0 20000000)].

Ltac run_demo :=
  first [by repeat split; cbn; lia | by repeat constructor; cbn; lia | reflexivity].

Lemma serial_reports_spaced_witness :
  exists a ea b eb, reports x86 5 prog_init demo_run !! 0%nat = Some (a, ea) /\
    reports x86 5 prog_init demo_run !! 2%nat = Some (b, eb) /\ 5 < (now b - now a) / 1000.
Proof.
  eexists _, _, _, _. split; [reflexivity|]. split; [reflexivity|].
  eapply (serial_reports_spaced x86 5 prog_init demo_run 0 2); run_demo.
Defined.

Lemma serial_handler_is_sampler_witness :
  map (fun ie => now (fst ie))
    (List.filter (fun ie => of_handler true (fst ie)) (reports x86 5 prog_init demo_run)) =
  sample 6000 0 [10000000; 10004000; 20000000].
Proof. apply (serial_handler_is_sampler x86 5 true prog_init demo_run); run_demo. Defined.

Lemma reports_rate_bound_witness :
  Z.of_nat (length (List.filter (fun ie => of_handler true (fst ie))
    (reports x86 5 prog_init demo_run))) * (1000 * (5 + 1))
  <= 30000000 - prev_ts_of true prog_init.
Proof.
  apply (reports_rate_bound x86 5 true prog_init demo_run 30000000); run_demo.
Defined.

Lemma report_links_to_previous_witness :
  exists a ea c ec,
    List.filter (fun ie => of_handler true (fst ie)) (reports x86 5 prog_init demo_run)
      = [(a, ea); (c, ec)] /\
    ev_prev_pid ec = ev_pid ea /\ ev_delta_us ec = wrap_u 64 (now c - now a) / 1000.
Proof.
  eexists _, _, _, _. split; [reflexivity|].
  eapply (report_links_to_previous x86 5 prog_init demo_run true 0); reflexivity.
Defined.

Lemma fork_names_child_witness :
  exists e, snd (handle_fork riscv 0 (demo_call 0 5) (repeat 0 44 ++ [7; 0; 0; 0]) prog_init) = Some e
    /\ ev_pid e = 7.
Proof.
  eexists. split; [reflexivity|].
  apply (fork_names_child riscv 0 (demo_call 0 5) (repeat 0 44 ++ [7; 0; 0; 0]) prog_init);
    [simpl; tauto|reflexivity].
Defined.

End Prog.
