(* ===== verification/BpfSteps.v ===== *)
(** * The BPF handlers on several CPUs at once

    [crates/ananicy-bpf/bpf/ananicy_cpp.bpf.c] again, at the grain of its
    accesses to memory that other CPUs see.  A tracepoint handler runs on the CPU
    the tracepoint fired on and is not preempted there by another one, so at most
    one handler is in flight per CPU; but the statics [prev_pid] and [prev_ts] of
    a handler are one pair for the whole machine, read and written without a
    lock.  A run is a sequence of labels: a handler is entered on an idle CPU, or
    the handler in flight on a CPU goes on to its next access.  The accesses
    happen in the order the C source has them and take effect at once
    (interleaving semantics). *)

From stdpp Require Import base list gmap strings numbers sorting.
From Stdlib Require Import ZArith Lia Sorted.
From S2P Require Import Prelude CLayout BpfProg.

#[local] Open Scope Z_scope.

(** ** The machine *)

(** Where a handler in flight is: about to load [*prev_ts], to load [*prev_pid]
    into the record, to store [*prev_pid], to store [*prev_ts], to output. *)
Inductive pc := LoadTs | LoadPid (delta_us : Z) | StorePid | StoreTs | Output.

Record machine := Machine {
  mem : prog_state;
  cpus : gmap Z (invocation * pc);    (* the handler in flight on each CPU *)
}.

Definition machine_init : machine := Machine prog_init ∅.

Definition cpu_of (i : invocation) : Z := c_cpu (snd i).

(** What can be seen of a handler: it read its clock, it compared and went on or
    returned, it stored its time, it handed its record to the perf buffer. *)
Inductive obs :=
| OEnter (i : invocation)
| OLook (i : invocation) (report : bool)
| OStore (i : invocation)
| OOut (i : invocation) (e : event).

Definition obs_inv (o : obs) : invocation :=
  match o with OEnter i | OLook i _ | OStore i | OOut i _ => i end.

Definition set_heap (cpu : Z) (e : event) (st : prog_state) : prog_state :=
  ProgState (<[cpu := e]> (heap st)) (exec_prev_pid st) (exec_prev_ts st)
    (fork_prev_pid st) (fork_prev_ts st) (events st).
Definition set_prev_pid (exec : bool) (v : Z) (st : prog_state) : prog_state :=
  if exec then ProgState (heap st) v (exec_prev_ts st) (fork_prev_pid st) (fork_prev_ts st) (events st)
  else ProgState (heap st) (exec_prev_pid st) (exec_prev_ts st) v (fork_prev_ts st) (events st).
Definition set_prev_ts (exec : bool) (v : Z) (st : prog_state) : prog_state :=
  if exec then ProgState (heap st) (exec_prev_pid st) v (fork_prev_pid st) (fork_prev_ts st) (events st)
  else ProgState (heap st) (exec_prev_pid st) (exec_prev_ts st) (fork_prev_pid st) v (events st).
Definition set_events (r : gmap Z (list (list Z))) (st : prog_state) : prog_state :=
  ProgState (heap st) (exec_prev_pid st) (exec_prev_ts st) (fork_prev_pid st) (fork_prev_ts st) r.

(** The record [e] points to: this CPU's element of [heap]. *)
Definition record_of (cpu : Z) (st : prog_state) : event := default event_zero (heap st !! cpu).

(** The next access of the handler entered for [i]; [None] when it returns. *)
Definition go (h : header) (min_us : Z) (i : invocation) (p : pc) (st : prog_state)
    : prog_state * option pc * list obs :=
  let b := is_exec i in
  match p with
  | LoadTs =>
      let delta_us := wrap_u 64 (now i - prev_ts_of b st) / 1000 in
      if negb (min_us =? 0) && (delta_us <=? min_us) then (st, None, [OLook i false])
      else (st, Some (LoadPid delta_us), [OLook i true])
  | LoadPid delta_us =>
      (set_heap (cpu_of i) (Event (subject h i) (prev_pid_of b st) delta_us (c_comm (snd i))) st,
       Some StorePid, [])
  | StorePid => (set_prev_pid b (ev_pid (record_of (cpu_of i) st)) st, Some StoreTs, [])
  | StoreTs => (set_prev_ts b (now i) st, Some Output, [OStore i])
  | Output =>
      let e := record_of (cpu_of i) st in
      (set_events (output (snd i) e (events st)) st, None, [OOut i e])
  end.

Inductive label := Enter (i : invocation) | Go (cpu : Z).

(** One step of the machine. Entering looks up the scratch record, returns at once
    if there is none, and reads the clock. *)
Definition cstep (h : header) (min_us : Z) (l : label) (s : machine) : option (machine * list obs) :=
  match l with
  | Enter i =>
      match cpus s !! cpu_of i with
      | Some _ => None
      | None =>
          if c_heap (snd i)
          then Some (Machine (mem s) (<[cpu_of i := (i, LoadTs)]> (cpus s)), [OEnter i])
          else Some (s, [])
      end
  | Go cpu =>
      match cpus s !! cpu with
      | None => None
      | Some (i, p) =>
          let '(st, p', o) := go h min_us i p (mem s) in
          Some (Machine st (match p' with
                            | Some p' => <[cpu := (i, p')]> (cpus s)
                            | None => delete cpu (cpus s)
                            end), o)
      end
  end.

Fixpoint crun (h : header) (min_us : Z) (ls : list label) (s : machine)
    : option (machine * list obs) :=
  match ls with
  | [] => Some (s, [])
  | l :: ls =>
      '(s, o) ← cstep h min_us l s;
      '(s, tr) ← crun h min_us ls s;
      Some (s, o ++ tr)
  end.

(** ** The specification: a sampler that looks first and remembers later

    The abstract sampler has one remembered time.  A handler of time [t] looks at
    it once and reports if [t] is at least [gap] later, or if it is earlier than the
    remembered time; the time is remembered in a second step.  The record that is
    handed out is the handler's own, with the distance it saw when it looked. *)

Definition due (gap last t : Z) : bool := (gap <=? t - last) || (t <? last).

Inductive phase := Entered | Passed (delta_us : Z) | Stored (delta_us : Z).

Record sampler := Sampler {
  remembered : Z;
  flight : gmap Z (invocation * phase);
}.

Definition own_record (h : header) (i : invocation) (delta_us : Z) (e : event) : Prop :=
  ev_pid e = subject h i /\ ev_delta_us e = delta_us /\ ev_task e = c_comm (snd i).

Inductive sampler_step (h : header) (gap : Z) : obs -> sampler -> sampler -> Prop :=
| sampler_enter i s :
    flight s !! cpu_of i = None ->
    sampler_step h gap (OEnter i) s (Sampler (remembered s) (<[cpu_of i := (i, Entered)]> (flight s)))
| sampler_report i s :
    flight s !! cpu_of i = Some (i, Entered) -> due gap (remembered s) (now i) = true ->
    sampler_step h gap (OLook i true) s
      (Sampler (remembered s)
         (<[cpu_of i := (i, Passed (wrap_u 64 (now i - remembered s) / 1000))]> (flight s)))
| sampler_drop i s :
    flight s !! cpu_of i = Some (i, Entered) -> due gap (remembered s) (now i) = false ->
    sampler_step h gap (OLook i false) s (Sampler (remembered s) (delete (cpu_of i) (flight s)))
| sampler_store i d s :
    flight s !! cpu_of i = Some (i, Passed d) ->
    sampler_step h gap (OStore i) s
      (Sampler (now i) (<[cpu_of i := (i, Stored d)]> (flight s)))
| sampler_out i d e s :
    flight s !! cpu_of i = Some (i, Stored d) -> own_record h i d e ->
    sampler_step h gap (OOut i e) s (Sampler (remembered s) (delete (cpu_of i) (flight s))).

Inductive sampler_run (h : header) (gap : Z) : list obs -> sampler -> sampler -> Prop :=
| sampler_done s : sampler_run h gap [] s s
| sampler_more o tr s s' s'' :
    sampler_step h gap o s s' -> sampler_run h gap tr s' s'' ->
    sampler_run h gap (o :: tr) s s''.

(** The observations of one tracepoint. *)
Definition of_tp (b : bool) (tr : list obs) : list obs :=
  List.filter (fun o => Bool.eqb (is_exec (obs_inv o)) b) tr.

Fixpoint enters (tr : list obs) : list invocation :=
  match tr with
  | [] => []
  | OEnter i :: tr => i :: enters tr
  | _ :: tr => enters tr
  end.
Fixpoint stores (tr : list obs) : list invocation :=
  match tr with
  | [] => []
  | OStore i :: tr => i :: stores tr
  | _ :: tr => stores tr
  end.


(** The handlers in flight after a trace, by CPU. *)
Definition in_flight_step (o : obs) (f : gmap Z invocation) : gmap Z invocation :=
  match o with
  | OEnter i => <[cpu_of i := i]> f
  | OLook i false | OOut i _ => delete (cpu_of i) f
  | _ => f
  end.
Definition in_flight (tr : list obs) : gmap Z invocation :=
  foldl (fun f o => in_flight_step o f) ∅ tr.

(** A clock in range: nanoseconds since boot below [2^63]. *)
Definition clock_ok (i : invocation) : Prop := 0 <= now i < 2 ^ 63.
Definition label_ok (l : label) : Prop :=
  match l with Enter i => clock_ok i | Go _ => True end.

(** The clock does not run backwards over the order in which it is read. *)
Definition clock_monotone (tr : list obs) : Prop := StronglySorted Z.le (map now (enters tr)).

(** ** Lemmas *)

Lemma set_heap_ts b cpu e st : prev_ts_of b (set_heap cpu e st) = prev_ts_of b st.
Proof. by destruct b. Qed.
Lemma set_prev_pid_ts b b' v st : prev_ts_of b (set_prev_pid b' v st) = prev_ts_of b st.
Proof. by destruct b, b'. Qed.
Lemma set_events_ts b r st : prev_ts_of b (set_events r st) = prev_ts_of b st.
Proof. by destruct b. Qed.
Lemma set_prev_ts_ts b b' v st :
  prev_ts_of b (set_prev_ts b' v st) = if Bool.eqb b b' then v else prev_ts_of b st.
Proof. by destruct b, b'. Qed.
Lemma set_heap_record cpu cpu' e st :
  record_of cpu (set_heap cpu' e st) = if decide (cpu = cpu') then e else record_of cpu st.
Proof.
  unfold record_of; simpl. case_decide; subst; [by rewrite lookup_insert_eq|].
  by rewrite lookup_insert_ne.
Qed.
Lemma set_prev_pid_record b v cpu st : record_of cpu (set_prev_pid b v st) = record_of cpu st.
Proof. by destruct b. Qed.
Lemma set_prev_ts_record b v cpu st : record_of cpu (set_prev_ts b v st) = record_of cpu st.
Proof. by destruct b. Qed.
Lemma set_events_record r cpu st : record_of cpu (set_events r st) = record_of cpu st.
Proof. done. Qed.

(** The branches of [go]. *)
Ltac go_cases Hg p :=
  destruct p; simpl in Hg;
  [match type of Hg with context [if ?c then _ else _] => destruct c eqn:?Hcmp end| | | |];
  simplify_eq.

Create HintDb bpf_mem.
#[export] Hint Rewrite set_heap_ts set_prev_pid_ts set_events_ts set_prev_ts_ts
  set_prev_pid_record set_prev_ts_record set_events_record : bpf_mem.

(** A handler touches no other CPU's record. *)
Lemma go_record h m i p st st' p' o cpu :
  go h m i p st = (st', p', o) -> cpu <> cpu_of i -> record_of cpu st' = record_of cpu st.
Proof.
  intros Hg Hne. go_cases Hg p;
    autorewrite with bpf_mem; try done.
  rewrite set_heap_record. by case_decide.
Qed.

(** A handler of one tracepoint leaves the other's time alone. *)
Lemma go_other_ts h m i p st st' p' o b :
  go h m i p st = (st', p', o) -> is_exec i <> b -> prev_ts_of b st' = prev_ts_of b st.
Proof.
  intros Hg Hne. go_cases Hg p;
    autorewrite with bpf_mem; try done.
  destruct (Bool.eqb b (is_exec i)) eqn:E; [|done]. apply Bool.eqb_prop in E. congruence.
Qed.

Lemma go_obs h m i p st st' p' o :
  go h m i p st = (st', p', o) -> Forall (fun x => obs_inv x = i) o.
Proof.
  intros Hg. go_cases Hg p; by repeat constructor.
Qed.

(** The comparison of the code is the comparison of the sampler, underflow
    included. *)
Lemma due_code m p i :
  0 < m < 2 ^ 32 -> 0 <= p < 2 ^ 63 -> clock_ok i ->
  negb (m =? 0) && (wrap_u 64 (now i - p) / 1000 <=? m) = negb (due (1000 * (m + 1)) p (now i)).
Proof.
  intros Hm Hp Hi. unfold clock_ok in Hi. rewrite (proj2 (Z.eqb_neq m 0)) by lia. simpl.
  assert (E : wrap_u 64 (now i - p) = if now i <? p then now i - p + 2 ^ 64 else now i - p).
  { unfold wrap_u. destruct (now i <? p) eqn:L; zb.
    - rewrite <- (Z.mod_unique_pos (now i - p) (2 ^ 64) (-1) (now i - p + 2 ^ 64)); lia.
    - apply Z.mod_small. lia. }
  rewrite E. unfold due.
  assert (Hdiv : forall x, x / 1000 <=? m = negb (1000 * (m + 1) <=? x)).
  { intros x. apply eq_true_iff_eq. rewrite negb_true_iff, Z.leb_le, Z.leb_gt.
    split; intros.
    - pose proof (Z.mod_pos_bound x 1000 ltac:(lia)). pose proof (Z.div_mod x 1000 ltac:(lia)). lia.
    - enough (x / 1000 < m + 1) by lia. apply Z.div_lt_upper_bound; lia. }
  rewrite Hdiv. f_equal. destruct (now i <? p) eqn:L; zb; [|by rewrite orb_false_r].
  rewrite orb_true_r. apply Z.leb_le. lia.
Qed.

(** How far a handler is and how far the sampler's handler is. *)
Definition phase_matches (h : header) (e : event) (i : invocation) (p : pc) (ph : phase) : Prop :=
  match p, ph with
  | LoadTs, Entered => True
  | LoadPid d, Passed d' => d = d'
  | StorePid, Passed d | StoreTs, Passed d | Output, Stored d => own_record h i d e
  | _, _ => False
  end.

(** What the sampler knows about one CPU. *)
Definition cpu_matches (h : header) (b : bool) (cpu : Z) (e : event)
    (run : option (invocation * pc)) (fl : option (invocation * phase)) : Prop :=
  match run with
  | Some (i, p) =>
      cpu_of i = cpu /\ clock_ok i /\
      (if Bool.eqb (is_exec i) b then exists ph, fl = Some (i, ph) /\ phase_matches h e i p ph
       else fl = None)
  | None => fl = None
  end.

Definition simulates (h : header) (b : bool) (s : machine) (a : sampler) : Prop :=
  remembered a = prev_ts_of b (mem s) /\ 0 <= remembered a < 2 ^ 63 /\
  forall cpu, cpu_matches h b cpu (record_of cpu (mem s)) (cpus s !! cpu) (flight a !! cpu).

Lemma simulates_init h b : simulates h b machine_init (Sampler 0 ∅).
Proof. split_and!; simpl; try lia; [by destruct b|]. intros cpu. by rewrite !lookup_empty. Qed.

(** Only what a step does to its own CPU has to be looked at. *)
Lemma simulates_update h b s a st run fl t cpu :
  simulates h b s a ->
  (forall c, c <> cpu -> record_of c st = record_of c (mem s)) ->
  t = prev_ts_of b st -> 0 <= t < 2 ^ 63 ->
  (forall c, c <> cpu -> run !! c = cpus s !! c) -> (forall c, c <> cpu -> fl !! c = flight a !! c) ->
  cpu_matches h b cpu (record_of cpu st) (run !! cpu) (fl !! cpu) ->
  simulates h b (Machine st run) (Sampler t fl).
Proof.
  intros (_ & _ & H) Hr Ht Hb Hc Hf Hm. split_and!; simpl; try done; try lia.
  intros c. destruct (decide (c = cpu)) as [->|Hne]; [done|].
  rewrite Hr, Hc, Hf by done. apply H.
Qed.

Lemma simulates_enter h b gap i s a :
  simulates h b s a -> clock_ok i -> cpus s !! cpu_of i = None ->
  exists a', sampler_run h gap (of_tp b [OEnter i]) a a' /\
    simulates h b (Machine (mem s) (<[cpu_of i := (i, LoadTs)]> (cpus s))) a'.
Proof.
  intros Hs Hi Hc. pose proof Hs as (Ht & Hb & H). specialize (H (cpu_of i)). rewrite Hc in H.
  cbn in H. unfold of_tp. cbn [List.filter obs_inv]. destruct (Bool.eqb (is_exec i) b) eqn:E.
  - eexists. split; [econstructor; [by apply sampler_enter|constructor]|].
    eapply simulates_update with (cpu := cpu_of i); try done; try lia;
      try (intros; by rewrite lookup_insert_ne).
    rewrite !lookup_insert_eq. unfold cpu_matches. rewrite E. split_and!; try done; try apply Hi.
    by exists Entered.
  - exists a. split; [constructor|]. destruct a as [t fl].
    eapply simulates_update with (cpu := cpu_of i); try done; try lia;
      try (intros; by rewrite lookup_insert_ne).
    rewrite lookup_insert_eq. unfold cpu_matches. rewrite E. by split_and!; try apply Hi.
Qed.

(** A step of a handler of the other tracepoint. *)
Lemma simulates_other h b m i p s a st p' o cpu :
  simulates h b s a -> cpus s !! cpu = Some (i, p) -> is_exec i <> b ->
  go h m i p (mem s) = (st, p', o) ->
  simulates h b (Machine st (match p' with
    | Some p' => <[cpu := (i, p')]> (cpus s) | None => delete cpu (cpus s) end)) a.
Proof.
  intros Hs Hc Hne Hg. pose proof Hs as (Ht & Hb & H). specialize (H cpu). rewrite Hc in H.
  destruct H as (<- & Hi & H). rewrite (proj2 (Bool.eqb_false_iff _ _) Hne) in H.
  destruct a as [t fl]. simpl in *.
  eapply simulates_update with (cpu := cpu_of i); try done.
  - intros. by eapply go_record.
  - by rewrite (go_other_ts _ _ _ _ _ _ _ _ _ Hg Hne).
  - intros. destruct p'; [by rewrite lookup_insert_ne|by rewrite lookup_delete_ne].
  - destruct p'; rewrite ?lookup_insert_eq, ?lookup_delete_eq; unfold cpu_matches; [|done].
    by rewrite (proj2 (Bool.eqb_false_iff _ _) Hne).
Qed.

(** Closes a simulation after a step of the handler on its own CPU. *)
Ltac close_sim H :=
  eapply simulates_update with (cpu := cpu_of _);
  [exact H|done|autorewrite with bpf_mem; rewrite ?Bool.eqb_reflx; reflexivity|assumption
  |intros; rewrite ?lookup_insert_ne, ?lookup_delete_ne by done; done
  |intros; cbn [flight]; rewrite ?lookup_insert_ne, ?lookup_delete_ne by done; done|];
  rewrite ?lookup_insert_eq, ?lookup_delete_eq; unfold cpu_matches; rewrite ?Bool.eqb_reflx;
  autorewrite with bpf_mem.

Ltac in_step Hi :=
  split_and!; try done; try apply Hi; eexists; split; [done|].

Lemma of_tp_app b t1 t2 : of_tp b (t1 ++ t2) = of_tp b t1 ++ of_tp b t2.
Proof. apply List.filter_app. Qed.

Lemma of_tp_own b o i : Forall (fun x => obs_inv x = i) o -> is_exec i = b -> of_tp b o = o.
Proof.
  intros H Hb. induction H as [|x o Hx _ IH]; [done|]. unfold of_tp in *. cbn [List.filter].
  by rewrite Hx, Hb, Bool.eqb_reflx, IH.
Qed.

Lemma of_tp_other b o i : Forall (fun x => obs_inv x = i) o -> is_exec i <> b -> of_tp b o = [].
Proof.
  intros H Hb. induction H as [|x o Hx _ IH]; [done|]. unfold of_tp in *. cbn [List.filter].
  by rewrite Hx, (proj2 (Bool.eqb_false_iff _ _) Hb).
Qed.

(** A step of a handler of this tracepoint is no step or the matching step of the
    sampler. *)
Lemma simulates_go h b m i p s a st p' o cpu :
  0 < m < 2 ^ 32 -> simulates h b s a -> cpus s !! cpu = Some (i, p) -> is_exec i = b ->
  go h m i p (mem s) = (st, p', o) ->
  exists a', sampler_run h (1000 * (m + 1)) o a a' /\
    simulates h b (Machine st (match p' with
      | Some p' => <[cpu := (i, p')]> (cpus s) | None => delete cpu (cpus s) end)) a'.
Proof.
  intros Hm Hs Hc Hb Hg. pose proof Hs as (Ht & Hr & H). specialize (H cpu). rewrite Hc in H.
  destruct H as (<- & Hi & H). rewrite Hb, Bool.eqb_reflx in H. destruct H as (ph & Hf & Hp).
  pose proof (due_code m (remembered a) i Hm Hr Hi) as Hd.
  assert (Hother : forall c, c <> cpu_of i -> record_of c st = record_of c (mem s))
    by (intros; by eapply go_record).
  destruct a as [t fl]. cbn [remembered flight] in *. subst b t.
  go_cases Hg p; destruct ph; try done; cbn [phase_matches] in Hp;
    rewrite ?Hcmp in Hd; eexists; (split; [first [apply sampler_done|
      econstructor; [|apply sampler_done]]|]).
  - apply sampler_drop; [done|]. by apply negb_true_iff.
  - close_sim Hs. done.
  - apply sampler_report; [done|]. by apply negb_false_iff.
  - close_sim Hs. in_step Hi. done.
  - subst. close_sim Hs. rewrite set_heap_record, decide_True by done. in_step Hi. by split_and!.
  - close_sim Hs. in_step Hi. done.
  - by eapply sampler_store.
  - close_sim Hs. in_step Hi. done.
  - by eapply sampler_out.
  - close_sim Hs. done.
Qed.

Lemma simulates_step h b m l s a s' o :
  0 < m < 2 ^ 32 -> label_ok l -> simulates h b s a -> cstep h m l s = Some (s', o) ->
  exists a', sampler_run h (1000 * (m + 1)) (of_tp b o) a a' /\ simulates h b s' a'.
Proof.
  intros Hm Hl Hs Hc. destruct l as [i|cpu]; simpl in Hc.
  - destruct (cpus s !! cpu_of i) eqn:E; [done|].
    destruct (c_heap (snd i)); simplify_eq; [by apply simulates_enter|].
    exists a. by split; [constructor|].
  - destruct (cpus s !! cpu) as [[i p]|] eqn:E; [|done].
    destruct (go h m i p (mem s)) as [[st p'] o'] eqn:Hg. simplify_eq.
    destruct (decide (is_exec i = b)) as [Hb|Hb].
    + rewrite (of_tp_own b o i) by (done || by eapply go_obs). by eapply simulates_go.
    + rewrite (of_tp_other b o i) by (done || by eapply go_obs).
      exists a. split; [constructor|]. by eapply simulates_other.
Qed.

Lemma sampler_run_app h gap t1 t2 s s' s'' :
  sampler_run h gap t1 s s' -> sampler_run h gap t2 s' s'' -> sampler_run h gap (t1 ++ t2) s s''.
Proof. induction 1; [done|]. intros. simpl. econstructor; eauto. Qed.

Lemma sampler_run_inv_app h gap t1 t2 s s'' :
  sampler_run h gap (t1 ++ t2) s s'' ->
  exists s', sampler_run h gap t1 s s' /\ sampler_run h gap t2 s' s''.
Proof.
  revert s. induction t1 as [|o t1 IH]; intros s H; simpl in H; [by exists s; split; [constructor|]|].
  inversion H as [|? ? ? s1 ? Hs Hr]; subst. destruct (IH s1 Hr) as (s' & ? & ?).
  exists s'. split; [by econstructor|done].
Qed.

(** Every run of the machine is, for each tracepoint, a run of the sampler. *)
Lemma simulates_run h b m ls s a s' tr :
  0 < m < 2 ^ 32 -> Forall label_ok ls -> simulates h b s a -> crun h m ls s = Some (s', tr) ->
  exists a', sampler_run h (1000 * (m + 1)) (of_tp b tr) a a' /\ simulates h b s' a'.
Proof.
  intros Hm Hl. revert s a tr. induction Hl as [|l ls Hl _ IH]; intros s a tr Hs Hc; simpl in Hc.
  - simplify_eq. exists a. by split; [constructor|].
  - destruct (cstep h m l s) as [[s1 o]|] eqn:E1; [|done]. simpl in Hc.
    destruct (crun h m ls s1) as [[s2 tr']|] eqn:E2; [|done]. simplify_eq/=.
    destruct (simulates_step _ _ _ _ _ _ _ _ Hm Hl Hs E1) as (a1 & R1 & S1).
    destruct (IH s1 a1 tr' S1 E2) as (a2 & R2 & S2).
    exists a2. split; [|done]. rewrite of_tp_app. by eapply sampler_run_app.
Qed.

(** *** Handlers one after another *)







Lemma due_later gap last t : last <= t -> due gap last t = (gap <=? t - last).
Proof. intros. unfold due. rewrite (proj2 (Z.ltb_ge t last)) by lia. apply orb_false_r. Qed.


(** *** Spacing *)

(** A property of times that every handler in flight and the remembered time have. *)
Definition all_times (P : Z -> Prop) (s : sampler) : Prop :=
  P (remembered s) /\ forall c i ph, flight s !! c = Some (i, ph) -> P (now i).

Lemma all_times_insert (P : Z -> Prop) (t : Z) fl c i ph :
  P t -> P (now i) -> (forall c i ph, fl !! c = Some (i, ph) -> P (now i)) ->
  all_times P (Sampler t (<[c := (i, ph)]> fl)).
Proof.
  intros Ht Hi Hf. split; [done|]. intros c' i' ph'. simpl.
  destruct (decide (c = c')) as [->|]; [rewrite lookup_insert_eq|rewrite lookup_insert_ne by done].
  - by intros [= <- <-].
  - apply Hf.
Qed.

Lemma all_times_delete (P : Z -> Prop) t fl c :
  P t -> (forall c i ph, fl !! c = Some (i, ph) -> P (now i)) ->
  all_times P (Sampler t (delete c fl)).
Proof.
  intros Ht Hf. split; [done|]. simpl. intros c' i' ph' [_ H]%lookup_delete_Some. by eapply Hf.
Qed.

Lemma all_times_run h gap (P : Z -> Prop) tr s s' :
  sampler_run h gap tr s s' -> all_times P s -> Forall (fun i => P (now i)) (enters tr) ->
  all_times P s'.
Proof.
  induction 1 as [|o tr s s1 s2 Hs _ IH]; [done|]. intros [Hl Hf] He. apply IH; clear IH.
  - inversion Hs; subst; simpl in *;
      first [apply all_times_delete; by eauto | apply all_times_insert; try done; eauto].
    by inversion He.
  - destruct o; simpl in He; try done. by inversion He.
Qed.

Lemma in_flight_run h gap tr s s' :
  sampler_run h gap tr s s' ->
  fst <$> flight s' = foldl (fun f o => in_flight_step o f) (fst <$> flight s) tr.
Proof.
  induction 1 as [|o tr s s1 s2 Hs _ IH]; [done|]. rewrite IH. simpl. f_equal.
  inversion Hs; subst; simpl; rewrite ?fmap_insert, ?fmap_delete; try done.
  all: apply insert_id; rewrite lookup_fmap;
    match goal with H : flight _ !! _ = Some _ |- _ => by rewrite H end.
Qed.

Lemma in_flight_entered tr c i : in_flight tr !! c = Some i -> i ∈ enters tr.
Proof.
  unfold in_flight. revert i c. induction tr as [|o tr IH] using rev_ind; intros i c; [done|].
  rewrite foldl_snoc. assert (Hm : forall j, j ∈ enters tr -> j ∈ enters (tr ++ [o])).
  { clear. intros j. induction tr as [|x tr IH]; simpl; [by intros ?%elem_of_nil|].
    destruct x; try done. intros [->|?]%elem_of_cons; constructor; auto. }
  assert (He : forall j, o = OEnter j -> j ∈ enters (tr ++ [o])).
  { clear. intros j ->. induction tr as [|[] tr IH]; simpl; try done; by constructor. }
  destruct o as [j|j []|j|j e]; simpl; try (by intros ?%IH; apply Hm).
  - intros [[_ ->]|[_ H]]%lookup_insert_Some; [by apply He|]. by eapply Hm, IH.
  - intros [_ H]%lookup_delete_Some. by eapply Hm, IH.
  - intros [_ H]%lookup_delete_Some. by eapply Hm, IH.
Qed.

Lemma no_store_remembered h gap tr s s' :
  sampler_run h gap tr s s' -> stores tr = [] -> remembered s' = remembered s.
Proof.
  induction 1 as [|o tr s s1 s2 Hs _ IH]; [done|]. intros Hst.
  rewrite IH; [|by destruct o]. by inversion Hs; subst.
Qed.

Lemma enters_app t1 t2 : enters (t1 ++ t2) = enters t1 ++ enters t2.
Proof. induction t1 as [|[] t1 IH]; simpl; by rewrite ?IH. Qed.

Lemma spaced_after_store h gap pre a mid c mid' post z :
  sampler_run h gap (pre ++ OStore a :: mid ++ OEnter c :: mid' ++ OLook c true :: post)
    (Sampler 0 ∅) z ->
  StronglySorted Z.le
    (map now (enters (pre ++ OStore a :: mid ++ OEnter c :: mid' ++ OLook c true :: post))) ->
  in_flight pre = {[cpu_of a := a]} -> stores mid' = [] ->
  gap <= now c - now a.
Proof.
  intros Hr Ht Hpre Hmid.
  assert (Ha : a ∈ enters pre) by (eapply in_flight_entered; rewrite Hpre; apply lookup_singleton_eq).
  rewrite enters_app in Ht. cbn [enters] in Ht. rewrite enters_app in Ht.
  cbn [enters] in Ht. rewrite app_assoc in Ht.
  assert (Hup : forall i, i ∈ enters pre ++ enters mid -> now i <= now c).
  { intros i Hi. rewrite map_app in Ht.
    eapply StronglySorted_app_1_elem_of; [exact Ht|by apply list_elem_of_fmap_2|].
    simpl. by left. }
  assert (Hlo : forall i, i ∈ enters mid -> now a <= now i).
  { intros i Hi. rewrite <- app_assoc, map_app in Ht.
    eapply StronglySorted_app_1_elem_of; [exact Ht|by apply list_elem_of_fmap_2|].
    apply list_elem_of_fmap_2. set_solver. }
  apply sampler_run_inv_app in Hr as (s1 & R1 & Hr).
  inversion Hr as [|? ? ? s2 ? Hst Hr']; subst. clear Hr.
  apply sampler_run_inv_app in Hr' as (s3 & R3 & Hr).
  inversion Hr as [|? ? ? s4 ? Hen Hr']; subst. clear Hr.
  apply sampler_run_inv_app in Hr' as (s5 & R5 & Hr).
  inversion Hr as [|? ? ? s6 ? Hlk _]; subst. clear Hr.
  pose proof (in_flight_run _ _ _ _ _ R1) as F1. cbn [flight] in F1. rewrite fmap_empty in F1.
  fold (in_flight pre) in F1. rewrite Hpre in F1.
  assert (Hone : forall k i ph, flight s1 !! k = Some (i, ph) -> i = a).
  { intros k i ph E. assert (E' : (fst <$> flight s1) !! k = Some i) by (by rewrite lookup_fmap, E).
    rewrite F1 in E'. by apply lookup_singleton_Some in E' as [_ ->]. }
  assert (Hbet : all_times (fun t => now a <= t <= now c) s3).
  { assert (now a <= now c) by (apply Hup; set_solver).
    eapply all_times_run; [exact R3| |apply list.Forall_forall; intros i Hi; split;
      [by apply Hlo|apply Hup; set_solver]].
    inversion Hst; subst. apply all_times_insert; [lia|lia|].
    intros k i ph ->%Hone. lia. }
  assert (remembered s5 = remembered s3) as E5.
  { rewrite (no_store_remembered _ _ _ _ _ R5) by done. by inversion Hen. }
  destruct Hbet as [Hb _]. inversion Hlk; subst.
  match goal with H : due _ _ _ = true |- _ => rewrite E5, due_later in H by lia; zb end. lia.
Qed.



(** *** The rings *)

(** What a CPU handed to its ring, in order. *)
Fixpoint outputs (cpu : Z) (tr : list obs) : list event :=
  match tr with
  | [] => []
  | OOut i e :: tr =>
      if (cpu_of i =? cpu) && c_output (snd i) then e :: outputs cpu tr else outputs cpu tr
  | _ :: tr => outputs cpu tr
  end.

Lemma outputs_app cpu t1 t2 : outputs cpu (t1 ++ t2) = outputs cpu t1 ++ outputs cpu t2.
Proof.
  induction t1 as [|[] t1 IH]; simpl; rewrite ?IH; try done. by destruct (_ && _).
Qed.

Lemma ring_output cpu c e r :
  ring cpu (output c e r) =
  ring cpu r ++ if (c_cpu c =? cpu) && c_output c then [encode_event e] else [].
Proof.
  unfold output, ring. destruct (c_output c); [|by rewrite andb_false_r, app_nil_r].
  rewrite andb_true_r. destruct (c_cpu c =? cpu) eqn:E; zb.
  - subst. by rewrite lookup_insert_eq.
  - by rewrite lookup_insert_ne, app_nil_r by done.
Qed.

Lemma go_ring h m i p st st' p' o cpu :
  go h m i p st = (st', p', o) ->
  ring cpu (events st') = ring cpu (events st) ++ map encode_event (outputs cpu o).
Proof.
  intros Hg. go_cases Hg p; simpl; rewrite ?app_nil_r; try done.
  - by destruct (is_exec i).
  - by destruct (is_exec i).
  - rewrite ring_output. unfold cpu_of. by destruct (_ && _).
Qed.

(** Each ring holds what its CPU handed out and found room for, in order. *)
Lemma crun_rings h m ls s s' tr cpu :
  crun h m ls s = Some (s', tr) ->
  ring cpu (events (mem s')) = ring cpu (events (mem s)) ++ map encode_event (outputs cpu tr).
Proof.
  revert s tr. induction ls as [|l ls IH]; intros s tr Hc; simpl in Hc.
  { simplify_eq. by rewrite app_nil_r. }
  destruct (cstep h m l s) as [[s1 o]|] eqn:E1; [|done]. simpl in Hc.
  destruct (crun h m ls s1) as [[s2 tr']|] eqn:E2; [|done]. simplify_eq/=.
  rewrite (IH _ _ E2), outputs_app, map_app, app_assoc. f_equal. clear IH E2.
  destruct l as [i|c]; simpl in E1.
  - destruct (cpus s !! cpu_of i); [done|].
    destruct (c_heap (snd i)); simplify_eq; by rewrite app_nil_r.
  - destruct (cpus s !! c) as [[i p]|]; [|done].
    destruct (go h m i p (mem s)) as [[st p'] o'] eqn:Hg. simplify_eq. by eapply go_ring.
Qed.

(** ** Theorems *)

Module Steps.

(** A handler that no other step comes in between is the function of [BpfProg]:
    entered and left alone, it takes the memory to where [invoke] takes it. *)
Theorem alone_is_invoke h m i s :
  cpus s !! cpu_of i = None ->
  exists n tr, crun h m (Enter i :: replicate n (Go (cpu_of i))) s =
    Some (Machine (fst (invoke h m i (mem s))) (cpus s), tr).
Proof.
  intros Hc. destruct s as [st run]. cbn [cpus mem] in *.
  destruct (c_heap (snd i)) eqn:Hh.
  2: { exists 0%nat, []. cbn. rewrite Hc, Hh. cbn. do 3 f_equal.
       destruct i as [[] c]; cbn in *; unfold handle_exec, handle_fork, handle_event;
         rewrite Hh; by destruct st. }
  set (d := wrap_u 64 (now i - prev_ts_of (is_exec i) st) / 1000).
  destruct (negb (m =? 0) && (d <=? m)) eqn:Hd.
  - exists 1%nat, [OEnter i; OLook i false]. cbn [crun cstep replicate cpus mem].
    rewrite Hc, Hh. cbn. rewrite lookup_insert_eq. cbn. fold d. rewrite Hd. cbn.
    rewrite delete_insert_id by done. do 3 f_equal.
    destruct i as [[] c]; unfold d in Hd; cbn in *; unfold handle_exec, handle_fork, handle_event;
      rewrite Hh; cbn; unfold now in Hd; cbn in Hd; rewrite Hd; by destruct st.
  - exists 5%nat. eexists. cbn [crun cstep replicate cpus mem].
    rewrite Hc, Hh. cbn. rewrite lookup_insert_eq. cbn. fold d. rewrite Hd. cbn.
    repeat (rewrite lookup_insert_eq; cbn).
    rewrite !delete_insert_eq, delete_id by done.
    autorewrite with bpf_mem. rewrite set_heap_record, decide_True by done.
    f_equal. f_equal. f_equal. unfold d in *. clear d.
    destruct i as [[] c]; cbn in *; unfold handle_exec, handle_fork, handle_event;
      rewrite Hh; cbn; unfold now in *; cbn in *; rewrite Hd; by destruct st.
Qed.



(** C11. The interval, on any interleaving: if no other handler of the tracepoint is in
    flight when a report of time [now a] is remembered, then every handler [c]
    entered later whose look is not preceded by another one's store since it was
    entered reports only if it is more than [min_us] microseconds after [a]. *)
Theorem reports_spaced h m b ls s tr pre a mid c mid' post :
  0 < m < 2 ^ 32 -> Forall label_ok ls -> crun h m ls machine_init = Some (s, tr) ->
  clock_monotone (of_tp b tr) ->
  of_tp b tr = pre ++ OStore a :: mid ++ OEnter c :: mid' ++ OLook c true :: post ->
  in_flight pre = {[cpu_of a := a]} -> stores mid' = [] ->
  m < (now c - now a) / 1000.
Proof.
  intros Hm Hl Hc Ht Htr Hpre Hmid.
  destruct (simulates_run h b m ls _ _ _ _ Hm Hl (simulates_init h b) Hc) as (z & Hr & _).
  unfold clock_monotone in Ht. rewrite Htr in Hr, Ht.
  pose proof (spaced_after_store _ _ _ _ _ _ _ _ _ Hr Ht Hpre Hmid).
  enough (m + 1 <= (now c - now a) / 1000) by lia. apply Z.div_le_lower_bound; lia.
Qed.

(** The interval is not kept when handlers overlap, here with one of 5 ms. Two execs on
    two CPUs that both look before either stores are both reported, one nanosecond
    apart; and a handler that looks after a later one has stored
    underflows its distance and is reported, here one microsecond after a report
    that was remembered with no other handler in flight. *)
Definition exec_at (cpu t : Z) : invocation :=
  (TpExec, Call cpu true t 4294967303 (repeat 97 TASK_COMM_LEN) true).
Definition overlapping : list label :=
  [Enter (exec_at 0 5001000); Enter (exec_at 1 5001001); Go 0; Go 1]
    ++ replicate 4 (Go 0) ++ replicate 4 (Go 1).
Definition late_look : list label :=
  Enter (exec_at 0 5001000) :: replicate 5 (Go 0)
    ++ [Enter (exec_at 0 5002000); Enter (exec_at 1 10002000)]
    ++ replicate 5 (Go 1) ++ replicate 5 (Go 0).
Theorem overlap_defeats_interval :
  (exists s tr, crun x86 5000 overlapping machine_init = Some (s, tr) /\
     stores tr = [exec_at 0 5001000; exec_at 1 5001001]) /\
  (exists s tr, crun x86 5000 late_look machine_init = Some (s, tr) /\
     stores tr = [exec_at 0 5001000; exec_at 1 10002000; exec_at 0 5002000] /\
     map ev_delta_us (outputs 0 tr) = [5001; 18446744073704551]).
Proof.
  split.
  - destruct (crun x86 5000 overlapping machine_init) as [[s tr]|] eqn:E; [|by vm_compute in E].
    exists s, tr. split; [done|]. vm_compute in E. by simplify_eq.
  - destruct (crun x86 5000 late_look machine_init) as [[s tr]|] eqn:E; [|by vm_compute in E].
    exists s, tr. split; [done|]. vm_compute in E. by simplify_eq.
Qed.

(** *** Witnesses *)

(** Two CPUs: an exec is reported, a second one on the other CPU looks while the first
    is on its way out and is dropped, a third is reported; a fork runs meanwhile. *)
Definition demo_labels : list label :=
  [Enter (exec_at 0 10000000); Go 0; Go 0;
   Enter (TpFork (repeat 0 44 ++ [7; 0; 0; 0]), snd (exec_at 1 10000500));
   Go 0; Go 1; Go 0; Go 1; Go 1; Enter (exec_at 2 10004000); Go 2; Go 0; Go 1; Go 1;
   Enter (exec_at 1 20000000); Go 1; Go 1; Go 1; Go 1; Go 1].
Definition demo_trace : list obs :=
  match crun x86 5 demo_labels machine_init with Some (_, tr) => tr | None => [] end.
Definition demo_final : machine :=
  match crun x86 5 demo_labels machine_init with Some (s, _) => s | None => machine_init end.

Lemma demo_labels_ok : Forall label_ok demo_labels.
Proof. repeat constructor; cbn; lia. Defined.




Lemma reports_spaced_witness :
  exists pre mid post,
    of_tp true demo_trace = pre ++ OStore (exec_at 0 10000000) :: mid ++
      OEnter (exec_at 1 20000000) :: [] ++ OLook (exec_at 1 20000000) true :: post /\
    5 < (20000000 - 10000000) / 1000.
Proof.
  exists [OEnter (exec_at 0 10000000); OLook (exec_at 0 10000000) true],
    [OEnter (exec_at 2 10004000); OLook (exec_at 2 10004000) false;
     OOut (exec_at 0 10000000) (Event 7 0 10000 (repeat 97 TASK_COMM_LEN))],
    [OStore (exec_at 1 20000000);
     OOut (exec_at 1 20000000) (Event 7 7 10000 (repeat 97 TASK_COMM_LEN))].
  assert (E : of_tp true demo_trace = [OEnter (exec_at 0 10000000); OLook (exec_at 0 10000000) true]
    ++ OStore (exec_at 0 10000000) :: [OEnter (exec_at 2 10004000); OLook (exec_at 2 10004000) false;
     OOut (exec_at 0 10000000) (Event 7 0 10000 (repeat 97 TASK_COMM_LEN))] ++
      OEnter (exec_at 1 20000000) :: [] ++ OLook (exec_at 1 20000000) true ::
    [OStore (exec_at 1 20000000);
     OOut (exec_at 1 20000000) (Event 7 7 10000 (repeat 97 TASK_COMM_LEN))])
    by (vm_compute; reflexivity).
  split; [exact E|].
  eapply (reports_spaced x86 5 true demo_labels demo_final demo_trace _ (exec_at 0 10000000) _
    (exec_at 1 20000000) []); [lia|apply demo_labels_ok|vm_compute; reflexivity| |exact E
    |vm_compute; reflexivity|reflexivity].
  rewrite E. vm_compute. repeat constructor; discriminate.
Defined.

End Steps.
