(* ===== verification/BpfMonitor.v ===== *)
(** * The BPF event reader

    [crates/ananicy-bpf/src/bpf_monitor.rs]: the perf-buffer callback that turns
    a sample into a [Process] for the worker, and the polling loop around it.
    The theorems join it to the program of [BpfSteps.v]: the bytes one side
    writes into the CPUs' rings are the records the other side reads. *)

From stdpp Require Import base list gmap strings numbers.
From Stdlib Require Import ZArith Lia.
From S2P Require Import Prelude CLayout RustStr Process BpfProg BpfSteps.

#[local] Open Scope Z_scope.
#[local] Open Scope c_scope.

(** ** The record, as [#[repr(C)]] lays it out *)

Definition rust_Event : ctype :=
  struct_ false (
    fld "pid" (int_ 4 true) ;;
    fld "prev_pid" (int_ 4 true) ;;
    fld "delta_us" (int_ 8 false) ;;
    fld "task" (arr (int_ 1 false) 16) ;;
    mnil).

Definition size_of_Event : nat := Z.to_nat (sizeof rust_Event).

(** The bytes of the field [name] of a record read from the start of [data]. *)
Definition field_bytes (name : string) (data : list Z) : list Z :=
  match find_field name rust_Event with
  | Some (o, t) => take (Z.to_nat (sizeof t)) (drop (Z.to_nat (o / 8)) data)
  | None => []
  end.

(** [std::ptr::read_unaligned(data.as_ptr() as *const Event)] *)
Definition read_unaligned (data : list Z) : event :=
  Event (wrap_s 32 (le_decode (field_bytes "pid" data)))
        (wrap_s 32 (le_decode (field_bytes "prev_pid" data)))
        (le_decode (field_bytes "delta_us" data))
        (field_bytes "task" data).

Definition is_reportable (e : event) : bool := negb (ev_pid e =? 0).

(** ** The callback *)

(** [CStr::from_bytes_until_nul]: the bytes before the first NUL, if any. *)
Fixpoint until_nul (bs : list Z) : option (list Z) :=
  match bs with
  | [] => None
  | b :: bs => if b =? 0 then Some [] else cons b <$> until_nul bs
  end.

Definition task_name (task : list Z) : string :=
  match until_nul task with
  | Some cstr => from_utf8_lossy cstr
  | None => from_utf8_lossy task
  end.

(** What the callback shares with the rest of the daemon: the channel to the
    worker and the shutdown flag. *)
Record mon_state := MonState {
  sent : list Process;
  shutdown_flag : bool;
}.

(** [worker_alive] is whether the channel still has a receiver. *)
Definition sample_cb (worker_alive : bool) (data : list Z) (st : mon_state) : mon_state :=
  if (length data <? size_of_Event)%nat then st else
  let e := read_unaligned data in
  if negb (is_reportable e) then st else
  let p := Process_new (ev_pid e) (task_name (ev_task e)) in
  let p := MkProcess (identity p) (name p) (Some (ev_delta_us e)) (name_is_authoritative p) in
  if worker_alive then MonState (sent st ++ [p]) (shutdown_flag st)
  else MonState (sent st) true.

(** [listen]: each [poll] delivers a batch of samples, tagged with whether the
    worker was there to receive them; the flag is tested before each poll. *)
Fixpoint listen (polls : list (bool * list (list Z))) (st : mon_state) : mon_state :=
  match polls with
  | [] => st
  | (alive, batch) :: polls =>
      if shutdown_flag st then st
      else listen polls (foldl (fun st data => sample_cb alive data st) st batch)
  end.

(** ** Lemmas *)

(** An event whose fields fit the C types. *)
Definition wf_event (e : event) : Prop :=
  in_s 32 (ev_pid e) /\ in_s 32 (ev_prev_pid e) /\ in_u 64 (ev_delta_us e) /\
  Forall is_byte (ev_task e) /\ length (ev_task e) = TASK_COMM_LEN.

Lemma le4_roundtrip z : in_s 32 z -> wrap_s 32 (le_decode (le_encode 4 z)) = z.
Proof.
  intros H. rewrite le_decode_encode. change (8 * Z.of_nat 4) with 32.
  rewrite wrap_s_wrap_u by lia. apply wrap_s_small; [lia|done].
Qed.

Lemma length_encode_event e : wf_event e -> length (encode_event e) = size_of_Event.
Proof.
  intros (_ & _ & _ & _ & H). unfold encode_event.
  rewrite !length_app, !length_le_encode, H. done.
Qed.

Lemma field_bytes_places data :
  field_bytes "pid" data = take 4 data /\
  field_bytes "prev_pid" data = take 4 (drop 4 data) /\
  field_bytes "delta_us" data = take 8 (drop 8 data) /\
  field_bytes "task" data = take 16 (drop 16 data).
Proof. done. Qed.

Lemma field_bytes_encode e pad :
  wf_event e ->
  field_bytes "pid" (encode_event e ++ pad) = le_encode 4 (ev_pid e) /\
  field_bytes "prev_pid" (encode_event e ++ pad) = le_encode 4 (ev_prev_pid e) /\
  field_bytes "delta_us" (encode_event e ++ pad) = le_encode 8 (ev_delta_us e) /\
  field_bytes "task" (encode_event e ++ pad) = ev_task e.
Proof.
  intros (_ & _ & _ & _ & Hl). unfold encode_event.
  pose proof (length_le_encode 4 (ev_pid e)) as L1.
  pose proof (length_le_encode 4 (ev_prev_pid e)) as L2.
  pose proof (length_le_encode 8 (ev_delta_us e)) as L3.
  repeat match goal with
  | |- context [le_encode ?n ?z] => let x := fresh "x" in set (x := le_encode n z) in *
  end.
  clearbody x x0 x1. revert L1 L2 L3 Hl.
  generalize (ev_task e). intros task L1 L2 L3 L4. unfold TASK_COMM_LEN in L4.
  rewrite <- !app_assoc.
  destruct (field_bytes_places (x ++ x0 ++ x1 ++ task ++ pad)) as (-> & -> & -> & ->).
  split_and!.
  - by apply take_app_length'.
  - rewrite drop_app_length' by done. by apply take_app_length'.
  - rewrite (app_assoc x), drop_app_length' by (rewrite length_app; lia).
    by apply take_app_length'.
  - rewrite (app_assoc x), (app_assoc (x ++ x0)),
      drop_app_length' by (rewrite !length_app; lia).
    by apply take_app_length'.
Qed.

Lemma read_encode e pad : wf_event e -> read_unaligned (encode_event e ++ pad) = e.
Proof.
  intros Hwf. pose proof Hwf as (H1 & H2 & H3 & H4 & H5).
  destruct (field_bytes_encode e pad Hwf) as (E1 & E2 & E3 & E4).
  unfold read_unaligned. rewrite E1, E2, E3, E4, !le4_roundtrip, le_decode_encode by done.
  change (8 * Z.of_nat 8) with 64. rewrite wrap_u_small by done. by destruct e.
Qed.

(** The process a reported event becomes. *)
Definition process_of (e : event) : Process :=
  MkProcess (MkProcessIdentity (ev_pid e)) (task_name (ev_task e)) (Some (ev_delta_us e)) false.

Lemma sample_cb_encode e pad st :
  wf_event e ->
  sample_cb true (encode_event e ++ pad) st =
  if ev_pid e =? 0 then st
  else MonState (sent st ++ [process_of e]) (shutdown_flag st).
Proof.
  intros Hwf. unfold sample_cb. rewrite length_app, length_encode_event, read_encode by done.
  rewrite (proj2 (Nat.ltb_ge _ _)) by lia. unfold is_reportable.
  by destruct (ev_pid e =? 0).
Qed.

(** The calls of a kernel that keeps its side: [bpf_get_current_comm] fills the
    whole buffer, with bytes. *)
Definition wf_call (c : call) : Prop :=
  Forall is_byte (c_comm c) /\ length (c_comm c) = TASK_COMM_LEN.

(** *** Every record handed to a ring is well formed *)

Definition wf_label (l : label) : Prop :=
  match l with Enter i => wf_call (snd i) | Go _ => True end.

Definition wf_pc (e : event) (p : pc) : Prop :=
  match p with LoadTs => True | LoadPid d => in_u 64 d | _ => wf_event e end.

Definition wf_machine (s : machine) : Prop :=
  (forall b, in_s 32 (prev_pid_of b (mem s))) /\
  forall cpu i p, cpus s !! cpu = Some (i, p) ->
    cpu_of i = cpu /\ wf_call (snd i) /\ wf_pc (record_of cpu (mem s)) p.

Definition wf_obs (o : obs) : Prop := match o with OOut _ e => wf_event e | _ => True end.

Lemma wf_machine_init : wf_machine machine_init.
Proof. split; [intros []; done|]. intros cpu i p H.
  change (cpus machine_init) with (∅ : gmap Z (invocation * pc)) in H. by rewrite lookup_empty in H. Qed.

Lemma subject_in_s h i : in_s 32 (subject h i).
Proof. destruct i as [[] ?]; by apply wrap_s_range. Qed.

Lemma set_prev_pid_pid b b' v st :
  prev_pid_of b (set_prev_pid b' v st) = if Bool.eqb b b' then v else prev_pid_of b st.
Proof. by destruct b, b'. Qed.

Lemma delta_in_u x : in_u 64 (wrap_u 64 x / 1000).
Proof.
  pose proof (wrap_u_range 64 x ltac:(lia)) as [H1 H2].
  split; [by apply Z.div_pos|]. apply Z.div_lt_upper_bound; lia.
Qed.

(** What one access of a handler leaves behind. *)
Lemma go_wf h m i p st st' p' o :
  (forall b, in_s 32 (prev_pid_of b st)) -> wf_call (snd i) -> wf_pc (record_of (cpu_of i) st) p ->
  go h m i p st = (st', p', o) ->
  (forall b, in_s 32 (prev_pid_of b st')) /\ Forall wf_obs o /\
  match p' with Some p' => wf_pc (record_of (cpu_of i) st') p' | None => True end.
Proof.
  intros Hpid [Hb Hl] Hpc Hg. go_cases Hg p; simpl in Hpc; split_and!;
    autorewrite with bpf_mem; try done; try (by repeat constructor).
  - apply delta_in_u.
  - simpl. rewrite set_heap_record, decide_True by done. unfold wf_event; cbn [ev_pid ev_prev_pid ev_delta_us ev_task].
    split_and!; try done. apply subject_in_s.
  - intros b. rewrite set_prev_pid_pid. destruct (Bool.eqb _ _); [apply Hpc|apply Hpid].
  - intros b. destruct b, (is_exec i); apply (Hpid true) || apply (Hpid false).
  - by apply Forall_singleton.
Qed.

Lemma wf_machine_step h m l s s' o :
  wf_label l -> wf_machine s -> cstep h m l s = Some (s', o) -> wf_machine s' /\ Forall wf_obs o.
Proof.
  intros Hl [Hp Hc] Hs. destruct l as [i|cpu]; simpl in Hs.
  - destruct (cpus s !! cpu_of i) eqn:E; [done|].
    destruct (c_heap (snd i)); simplify_eq; (split; [|by repeat constructor]); [|done].
    split; [done|]. cbn [cpus mem]. intros c j p [[<- [= <- <-]]|[_ H]]%lookup_insert_Some; [done|]. by apply Hc.
  - destruct (cpus s !! cpu) as [[i p]|] eqn:E; [|done]. destruct (Hc _ _ _ E) as (<- & Hw & Hpc).
    destruct (go h m i p (mem s)) as [[st p'] o'] eqn:Hg. simplify_eq.
    destruct (go_wf _ _ _ _ _ _ _ _ Hp Hw Hpc Hg) as (H1 & H2 & H3). split; [|done].
    split; [done|]. intros c j q Hj. destruct (decide (c = cpu_of i)) as [->|Hne].
    + destruct p' as [p'|]; cbn [cpus] in Hj; [|by rewrite lookup_delete_eq in Hj].
      rewrite lookup_insert_eq in Hj. by simplify_eq.
    + cbn [mem]. rewrite (go_record _ _ _ _ _ _ _ _ _ Hg Hne). apply Hc.
      destruct p'; cbn [cpus] in Hj; by rewrite ?lookup_insert_ne, ?lookup_delete_ne in Hj by done.
Qed.

Lemma crun_wf h m ls s s' tr :
  Forall wf_label ls -> wf_machine s -> crun h m ls s = Some (s', tr) -> Forall wf_obs tr.
Proof.
  intros Hl. revert s tr. induction Hl as [|l ls Hl _ IH]; intros s tr Hs Hc; simpl in Hc.
  { simplify_eq. constructor. }
  destruct (cstep h m l s) as [[s1 o]|] eqn:E1; [|done]. simpl in Hc.
  destruct (crun h m ls s1) as [[s2 tr']|] eqn:E2; [|done]. simplify_eq/=.
  destruct (wf_machine_step _ _ _ _ _ _ Hl Hs E1). apply Forall_app. split; [done|]. by eapply IH.
Qed.

Lemma outputs_wf cpu tr : Forall wf_obs tr -> Forall wf_event (outputs cpu tr).
Proof.
  induction 1 as [|o tr Ho _ IH]; [constructor|]. destruct o; simpl; try done.
  destruct (_ && _); [by constructor|done].
Qed.

(** *** Reading the rings *)

(** The entries of one CPU. *)
Fixpoint of_cpu {A} (cpu : Z) (l : list (Z * A)) : list A :=
  match l with
  | [] => []
  | (c, x) :: l => if c =? cpu then x :: of_cpu cpu l else of_cpu cpu l
  end.

(** What polls deliver: samples tagged with their CPU, with padding after each. The
    rings are read in any order and interleaved in any way, each from its start. *)
Definition delivery : Type := Z * (list Z * list Z).
Definition samples (polls : list (list delivery)) : list (Z * list Z) :=
  map (fun d => (fst d, fst (snd d))) (concat polls).
Definition reads (rings : gmap Z (list (list Z))) (polls : list (list delivery)) : Prop :=
  forall cpu, of_cpu cpu (samples polls) `prefix_of` ring cpu rings.
Definition data_of (d : delivery) : list Z := fst (snd d) ++ snd (snd d).

Lemma of_cpu_map {A B} (f : A -> B) cpu l :
  of_cpu cpu (map (fun x => (fst x, f (snd x))) l) = map f (of_cpu cpu l).
Proof. induction l as [|[c x] l IH]; simpl; [done|]. destruct (c =? cpu); simpl; by rewrite IH. Qed.

Lemma of_cpu_elem {A} (l : list (Z * A)) c x : (c, x) ∈ l -> x ∈ of_cpu c l.
Proof.
  induction l as [|[c' x'] l IH]; [by intros ?%elem_of_nil|]. simpl.
  intros [[= -> ->]|H]%elem_of_cons; [rewrite Z.eqb_refl; by left|].
  destruct (c' =? c); [right|]; by apply IH.
Qed.

Lemma map_read_encode es : Forall wf_event es -> map read_unaligned (map encode_event es) = es.
Proof.
  induction 1 as [|e es He _ IH]; [done|]. cbn [map]. rewrite IH. f_equal.
  pose proof (read_encode e [] He) as E. by rewrite app_nil_r in E.
Qed.

Lemma foldl_sample (ds : list delivery) es st :
  Forall wf_event es -> map (fun d => fst (snd d)) ds = map encode_event es ->
  foldl (fun st data => sample_cb true data st) st (map data_of ds) =
  MonState (sent st ++ map process_of (List.filter is_reportable es)) (shutdown_flag st).
Proof.
  intros H. revert ds st. induction H as [|e es He _ IH]; intros [|[c [x pad]] ds] st Hd;
    try done; simpl in Hd.
  - simpl. rewrite app_nil_r. by destruct st.
  - injection Hd as -> Hd. cbn [map foldl].
    change (data_of (c, (encode_event e, pad))) with (encode_event e ++ pad).
    rewrite sample_cb_encode by done.
    rewrite (IH ds _ Hd). cbn [List.filter]. unfold is_reportable.
    destruct (ev_pid e =? 0); cbn [negb map sent shutdown_flag]; [done|].
    by rewrite <- app_assoc.
Qed.

(** With the worker there and the flag down, polling is handling every sample. *)
Lemma listen_alive polls ps :
  (forall batch ps, exists ps', foldl (fun st data => sample_cb true data st) (MonState ps false) batch
     = MonState ps' false) ->
  listen (map (fun b => (true, b)) polls) (MonState ps false) =
  foldl (fun st data => sample_cb true data st) (MonState ps false) (concat polls).
Proof.
  intros Hk. revert ps. induction polls as [|b polls IH]; intros ps; [done|].
  cbn [map listen shutdown_flag concat]. rewrite foldl_app.
  destruct (Hk b ps) as [ps' ->]. apply IH.
Qed.

Lemma sample_cb_keeps_flag batch ps :
  exists ps', foldl (fun st data => sample_cb true data st) (MonState ps false) batch
     = MonState ps' false.
Proof.
  revert ps. induction batch as [|d batch IH]; intros ps; [by exists ps|]. cbn [foldl].
  unfold sample_cb at 2. repeat case_match; apply IH.
Qed.

(** ** Theorems *)

Module Monitor.

(** The two sides agree on the record: on every target the C struct and the
    Rust struct have the same members at the same places, 32 bytes in all. *)
Theorem event_layouts_agree h :
  List.In h headers ->
  match struct_event h, rust_Event with
  | CStruct p ms, CStruct p' ms' => struct_layout p 0 ms = struct_layout p' 0 ms'
  | _, _ => False
  end /\ sizeof (struct_event h) = 32 /\ Z.of_nat size_of_Event = 32.
Proof.
  assert (forall P, P x86 /\ P arm64 /\ P riscv /\ P loongarch -> List.In h headers -> P h) as Hall.
  { intros P (H1 & H2 & H3 & H4). simpl. intros [<-|[<-|[<-|[<-|[]]]]]; done. }
  intros Hh. pattern h. revert Hh. apply Hall. vm_compute. done.
Qed.

(** A sample the program wrote is read back as the record it was, whatever
    padding the perf buffer adds: pid 0 is dropped, any other event becomes
    one process whose name is the task name up to its first NUL, not
    authoritative. *)
Theorem sample_roundtrip e pad st :
  wf_event e ->
  sample_cb true (encode_event e ++ pad) st =
  if ev_pid e =? 0 then st
  else MonState (sent st ++ [MkProcess (MkProcessIdentity (ev_pid e)) (task_name (ev_task e))
                               (Some (ev_delta_us e)) false]) (shutdown_flag st).
Proof. apply sample_cb_encode. Qed.

(** A sample shorter than the record is ignored. *)
Theorem short_sample_ignored alive data st :
  (length data < 32)%nat -> sample_cb alive data st = st.
Proof.
  intros H. unfold sample_cb. change size_of_Event with 32%nat.
  by rewrite (proj2 (Nat.ltb_lt _ _)).
Qed.

(** C18. From the tracepoints to the worker, with the handlers interleaved on any number of
    CPUs and their rings read in any order and interleaved in any way: the processes
    the worker receives are exactly those of the events read that do not name pid 0,
    in the order they are read; and what is read of a CPU is what its handlers
    reported and found room for, in order, all of it once the ring is read to its
    end. *)
Theorem pipeline_delivers h m ls s tr polls :
  Forall wf_label ls -> crun h m ls machine_init = Some (s, tr) -> reads (events (mem s)) polls ->
  exists d : list (Z * event),
    samples polls = map (fun ce => (fst ce, encode_event (snd ce))) d /\
    (forall cpu, of_cpu cpu d `prefix_of` outputs cpu tr /\
       (length (of_cpu cpu (samples polls)) = length (ring cpu (events (mem s))) ->
        of_cpu cpu d = outputs cpu tr)) /\
    listen (map (fun b => (true, map data_of b)) polls) (MonState [] false) =
    MonState (map process_of (List.filter is_reportable (map snd d))) false.
Proof.
  intros Hl Hc Hrd. pose proof (crun_wf _ _ _ _ _ _ Hl wf_machine_init Hc) as Hwf.
  assert (Hring : forall cpu, ring cpu (events (mem s)) = map encode_event (outputs cpu tr))
    by (intros cpu; by rewrite (crun_rings _ _ _ _ _ _ cpu Hc)).
  pose proof (fun cpu => outputs_wf cpu tr Hwf) as Ho.
  set (d := map (fun x => (fst x, read_unaligned (snd x))) (samples polls)).
  assert (Hd : forall c x, (c, x) ∈ samples polls -> exists e, wf_event e /\ x = encode_event e).
  { intros c x Hx%of_cpu_elem. eapply elem_of_prefix in Hx; [|apply Hrd].
    rewrite Hring in Hx. apply list_elem_of_fmap in Hx as (e & -> & He).
    exists e. split; [|done]. by eapply list.Forall_forall in He. }
  assert (Hread : forall c x, (c, x) ∈ samples polls ->
    wf_event (read_unaligned x) /\ encode_event (read_unaligned x) = x).
  { intros c x Hx. destruct (Hd c x Hx) as (e & He & ->).
    pose proof (read_encode e [] He) as E. rewrite app_nil_r in E. by rewrite E. }
  assert (Hs : samples polls = map (fun ce => (fst ce, encode_event (snd ce))) d).
  { unfold d. rewrite map_map. rewrite <- (map_id (samples polls)) at 1.
    apply List.map_ext_in. intros [c x] Hx%list_elem_of_In. simpl. f_equal.
    symmetry. by eapply Hread. }
  exists d. split; [done|]. split.
  - intros cpu. unfold d. rewrite of_cpu_map. destruct (Hrd cpu) as [k Hk].
    rewrite Hring in Hk.
    assert (Ek : outputs cpu tr = map read_unaligned (of_cpu cpu (samples polls)) ++ map read_unaligned k)
      by (by rewrite <- map_app, <- Hk, map_read_encode).
    split; [by exists (map read_unaligned k)|]. intros Hlen. rewrite Ek.
    assert (k = []) as ->; [|by rewrite app_nil_r]. apply length_zero_iff_nil.
    rewrite Hring, Hk, length_app in Hlen. lia.
  - rewrite <- (map_map (map data_of) (fun b => (true, b))).
    rewrite listen_alive by apply sample_cb_keeps_flag. rewrite <- concat_map.
    apply (foldl_sample _ _ (MonState [] false)).
    + apply Forall_map, Forall_map, list.Forall_forall. intros [c x] Hx. by eapply Hread.
    + apply (f_equal (map snd)) in Hs. rewrite map_map.
      unfold samples in Hs at 1. rewrite !map_map in Hs. exact Hs.
Qed.

(** Once the worker is gone, the first event to report raises the shutdown flag
    and no later poll is made. *)
Theorem dead_worker_stops_listen e batch polls st :
  wf_event e -> ev_pid e <> 0 -> shutdown_flag st = false ->
  listen ((false, encode_event e :: batch) :: polls) st = MonState (sent st) true.
Proof.
  intros Hwf Hp Hf. cbn [listen]. rewrite Hf. cbn [foldl].
  assert (sample_cb false (encode_event e) st = MonState (sent st) true) as ->.
  { pose proof (read_encode e [] Hwf) as E. rewrite app_nil_r in E.
    unfold sample_cb. rewrite length_encode_event, E by done.
    rewrite (proj2 (Nat.ltb_ge _ _)) by lia. unfold is_reportable.
    by rewrite (proj2 (Z.eqb_neq (ev_pid e) 0)) by done. }
  assert (foldl (fun st data => sample_cb false data st) (MonState (sent st) true) batch =
          MonState (sent st) true) as ->.
  { generalize (sent st). intros ps. induction batch as [|d batch IH]; [done|]. cbn [foldl].
    rewrite <- IH at 2. f_equal. unfold sample_cb. by repeat case_match. }
  by destruct polls as [|[] ?].
Qed.

(** *** Witnesses *)

Definition demo_event : event := Event 4143 2898 17 (98 :: 97 :: 115 :: 104 :: repeat 0 12).
Lemma demo_event_wf : wf_event demo_event.
Proof.
  unfold wf_event, demo_event, in_s, in_u; cbn. split_and!; try lia; [|done].
  repeat constructor; unfold is_byte, in_u; lia.
Defined.

Lemma event_layouts_agree_witness : sizeof (struct_event loongarch) = 32.
Proof. apply (event_layouts_agree loongarch). simpl. tauto. Defined.

Lemma sample_roundtrip_witness :
  sample_cb true (encode_event demo_event ++ [0; 0; 0; 0]) (MonState [] false) =
  MonState [MkProcess (MkProcessIdentity 4143) "bash" (Some 17) false] false.
Proof.
  etrans; [apply (sample_roundtrip demo_event [0; 0; 0; 0] (MonState [] false) demo_event_wf)|].
  reflexivity.
Defined.

Lemma short_sample_ignored_witness :
  sample_cb true (repeat 1 31) (MonState [] false) = MonState [] false.
Proof. apply (short_sample_ignored true (repeat 1 31) (MonState [] false)). cbn. lia. Defined.

(** The run of [Steps.demo_labels], the ring of CPU 1 read before that of CPU 0, four bytes
    of padding after each sample. *)
Definition demo_polls : list (list delivery) :=
  let r := events (mem Steps.demo_final) in
  [map (fun x => (1, (x, [0; 0; 0; 0]))) (ring 1 r); []; map (fun x => (0, (x, [0; 0; 0; 0]))) (ring 0 r)].

Lemma demo_reads : reads (events (mem Steps.demo_final)) demo_polls.
Proof.
  intros cpu. destruct (Z.eq_dec cpu 0) as [->|H0]; [exists []; vm_compute; reflexivity|].
  destruct (Z.eq_dec cpu 1) as [->|H1]; [exists []; vm_compute; reflexivity|].
  exists (ring cpu (events (mem Steps.demo_final))).
  enough (of_cpu cpu (samples demo_polls) = []) as -> by reflexivity.
  vm_compute. destruct cpu as [|[]|]; reflexivity || (exfalso; lia).
Defined.

Lemma demo_labels_wf : Forall wf_label Steps.demo_labels.
Proof. repeat constructor; unfold is_byte, in_u; cbn; lia. Defined.

Lemma pipeline_delivers_witness :
  map process_pid (sent (listen (map (fun b => (true, map data_of b)) demo_polls) (MonState [] false)))
    = [7; 7; 7] /\
  exists d, samples demo_polls = map (fun ce => (fst ce, encode_event (snd ce))) d /\
    of_cpu 1 d = outputs 1 Steps.demo_trace.
Proof.
  split; [vm_compute; reflexivity|].
  destruct (pipeline_delivers x86 5 Steps.demo_labels Steps.demo_final Steps.demo_trace demo_polls
    demo_labels_wf ltac:(vm_compute; reflexivity) demo_reads) as (d & H1 & H2 & _).
  exists d. split; [exact H1|]. apply H2. vm_compute. reflexivity.
Defined.

Lemma dead_worker_stops_listen_witness :
  listen [(false, [encode_event demo_event]); (true, [encode_event demo_event])] (MonState [] false) =
  MonState [] true.
Proof.
  apply (dead_worker_stops_listen demo_event [] [(true, [encode_event demo_event])] (MonState [] false));
    [apply demo_event_wf|cbn; lia|reflexivity].
Defined.

End Monitor.
