(* ===== verification/CoreFixes.v ===== *)
(** * Kernel-version-independent field access

    [crates/ananicy-bpf/bpf/include/core_fixes.bpf.h]: three accessors that pick
    between the spellings different kernels use for one field.

    [bpf_core_field_exists] and [BPF_CORE_READ] come from libbpf and are settled
    against the BTF of the kernel the program is loaded into; they are the
    operations of the class [CoreAccess].  [CoreLaws] says what libbpf documents
    of them, and [btf_access] is one implementation, which reads a memory
    through the types a kernel declares. *)

From stdpp Require Import base list strings numbers.
From Stdlib Require Import ZArith Lia Ascii.
From S2P Require Import Prelude CLayout RustStr BpfProg.
From S2P Require VmlinuxX86 VmlinuxArm64 VmlinuxRiscv VmlinuxLoongarch.

#[local] Open Scope Z_scope.
#[local] Open Scope c_scope.

(** ** The flavours declared in the header *)

Definition struct_task_struct___o : ctype :=
  struct_ false (fld "state" (int_ 8 true) ;; mnil).
Definition struct_task_struct___x : ctype :=
  struct_ false (fld "__state" (int_ 4 false) ;; mnil).
Definition struct_bio___o : ctype :=
  struct_ false (fld "bi_disk" (ptr "struct gendisk") ;; mnil).
Definition struct_bio___x : ctype :=
  struct_ false (fld "bi_bdev" (ptr "struct block_device") ;; mnil).
Definition struct_request_queue___x : ctype :=
  struct_ false (fld "disk" (ptr "struct gendisk") ;; mnil).
Definition struct_request___x : ctype :=
  struct_ false (
    fld "q" (ptr "struct request_queue___x") ;;
    fld "rq_disk" (ptr "struct gendisk") ;;
    mnil).

(** ** The interface to libbpf *)

Class CoreAccess := {
  (** [bpf_core_field_exists(((struct s * )0)->f)] *)
  core_field_exists : string -> string -> bool;
  (** [bpf_core_read(dst, n, &((struct s * )addr)->f)]: the [n] bytes left in
      [dst]. *)
  core_read : Z -> string -> string -> nat -> list Z;
}.

Section accessors.
Context `{CoreAccess}.

(** A pointer-sized read, as each [->] of a [BPF_CORE_READ] chain does. *)
Definition read_ptr (addr : Z) (s f : string) : Z := le_decode (core_read addr s f 8).

Definition get_task_state (task : Z) : Z :=
  if core_field_exists "task_struct___x" "__state"
  then le_decode (core_read task "task_struct___x" "__state" 4)
  else wrap_s 64 (le_decode (core_read task "task_struct___o" "state" 8)).

Definition get_gendisk (bio : Z) : Z :=
  if core_field_exists "bio___x" "bi_bdev"
  then read_ptr (read_ptr bio "bio___x" "bi_bdev") "block_device" "bd_disk"
  else read_ptr bio "bio___o" "bi_disk".

Definition get_disk (request : Z) : Z :=
  if core_field_exists "request___x" "rq_disk"
  then read_ptr request "request___x" "rq_disk"
  else read_ptr (read_ptr request "request___x" "q") "request_queue___x" "disk".

End accessors.

(** ** What libbpf documents *)

Record kernel := Kernel {
  k_types : list (string * ctype);   (* its BTF, by "struct name" *)
  k_mem : Z -> option Z;             (* its memory; [None] faults *)
}.

(** Everything from [___] on is a flavour, not part of the kernel's name. *)
Fixpoint essential (s : string) : string :=
  match s with
  | EmptyString => EmptyString
  | String a r => if starts_with "___" s then EmptyString else String a (essential r)
  end.

Fixpoint lookup_type (n : string) (l : list (string * ctype)) : option ctype :=
  match l with
  | [] => None
  | (m, t) :: l => if String.eqb m n then Some t else lookup_type n l
  end.

Definition kernel_field (k : kernel) (s f : string) : option (Z * ctype) :=
  match lookup_type (sapp "struct " (essential s)) (k_types k) with
  | Some t => find_field f t
  | None => None
  end.

Fixpoint read_mem (mem : Z -> option Z) (addr : Z) (n : nat) : option (list Z) :=
  match n with
  | O => Some []
  | S n => match mem addr, read_mem mem (addr + 1) n with
           | Some b, Some bs => Some (b :: bs)
           | _, _ => None
           end
  end.

(** [bpf_probe_read_kernel]: the bytes, or zeros when any of them faults. *)
Definition probe_read (k : kernel) (addr : Z) (n : nat) : list Z :=
  match read_mem (k_mem k) addr n with Some bs => bs | None => repeat 0 n end.

Class CoreLaws (k : kernel) `{CoreAccess} : Prop := {
  exists_law : forall s f, core_field_exists s f = bool_decide (is_Some (kernel_field k s f));
  read_law : forall addr s f n o t,
    kernel_field k s f = Some (o, t) -> sizeof t = Z.of_nat n ->
    core_read addr s f n = probe_read k (addr + o / 8) n;
}.

(** A kernel's own BTF and memory satisfy the laws. *)
Definition btf_access (k : kernel) : CoreAccess := {|
  core_field_exists s f := bool_decide (is_Some (kernel_field k s f));
  core_read addr s f n :=
    match kernel_field k s f with
    | Some (o, _) => probe_read k (addr + o / 8) n
    | None => repeat 0 n
    end;
|}.
#[global] Instance btf_access_laws k : @CoreLaws k (btf_access k).
Proof.
  split; [done|]. intros addr s f n o t E _. cbn. by rewrite E.
Qed.

(** ** Lemmas *)

Section laws.
Context (k : kernel) `{CoreLaws k}.

Lemma read_ptr_field addr s f o t :
  kernel_field k s f = Some (o, t) -> sizeof t = 8 ->
  read_ptr addr s f = le_decode (probe_read k (addr + o / 8) 8).
Proof. intros E Hs. unfold read_ptr. by rewrite (read_law addr s f 8 o t). Qed.

Lemma exists_some s f x : kernel_field k s f = Some x -> core_field_exists s f = true.
Proof. intros E. rewrite exists_law. apply bool_decide_eq_true. by rewrite E. Qed.
Lemma exists_none s f : kernel_field k s f = None -> core_field_exists s f = false.
Proof. intros E. rewrite exists_law. apply bool_decide_eq_false. rewrite E. by intros []. Qed.

End laws.

Lemma read_mem_bytes mem addr n bs :
  (forall a b, mem a = Some b -> is_byte b) -> read_mem mem addr n = Some bs ->
  Forall is_byte bs /\ length bs = n.
Proof.
  intros Hm. revert addr bs. induction n as [|n IH]; intros addr bs; simpl.
  - intros ?. simplify_eq. by split.
  - destruct (mem addr) eqn:E1; [|done]. destruct (read_mem _ _ _) eqn:E2; [|done].
    intros ?. simplify_eq. apply IH in E2 as [? <-].
    split; [constructor; [by eapply Hm|done]|done].
Qed.

Lemma probe_read_bytes k addr n :
  (forall a b, k_mem k a = Some b -> is_byte b) ->
  Forall is_byte (probe_read k addr n) /\ length (probe_read k addr n) = n.
Proof.
  intros Hm. unfold probe_read. destruct (read_mem _ _ _) eqn:E; [by eapply read_mem_bytes|].
  split; [|by rewrite repeat_length]. apply List.Forall_forall.
  intros x ->%repeat_spec. unfold is_byte, in_u. lia.
Qed.

Lemma le_decode_range bs : Forall is_byte bs -> in_u (8 * Z.of_nat (length bs)) (le_decode bs).
Proof.
  induction 1 as [|b bs Hb _ IH]; unfold in_u in *; cbn [le_decode length]; [lia|].
  replace (8 * Z.of_nat (S (length bs))) with (8 + 8 * Z.of_nat (length bs)) by lia.
  rewrite Z.pow_add_r by lia. unfold is_byte, in_u in Hb. lia.
Qed.

(** The kernel a header was taken from. *)
Definition header_kernel (h : header) (mem : Z -> option Z) : kernel := Kernel (h_types h) mem.

Definition same_field (o : option (Z * ctype)) (bytes : Z) : bool :=
  match o with Some (o, t) => (sizeof t =? bytes) && (o mod 8 =? 0) | None => false end.

Lemma header_fields h mem :
  List.In h headers ->
  same_field (kernel_field (header_kernel h mem) "task_struct___x" "__state") 4 = true /\
  same_field (kernel_field (header_kernel h mem) "bio___x" "bi_bdev") 8 = true /\
  same_field (kernel_field (header_kernel h mem) "block_device" "bd_disk") 8 = true /\
  same_field (kernel_field (header_kernel h mem) "request_queue___x" "disk") 8 = true.
Proof.
  intros Hh. simpl in Hh. destruct Hh as [<-|[<-|[<-|[<-|[]]]]]; split_and!; vm_compute; done.
Qed.

Lemma lookup_type_elem s l t : lookup_type s l = Some t -> List.In (s, t) l.
Proof.
  induction l as [|[m t'] l IH]; [done|]. simpl. destruct (String.eqb_spec m s) as [->|]; intros H.
  - simplify_eq. by left.
  - right. auto.
Qed.

(** Every declaration of the headers is well formed. *)
Lemma headers_wf h n t : List.In h headers -> List.In (n, t) (h_types h) -> wf_ctype t = true.
Proof.
  intros Hh Ht. assert (forallb (fun p => wf_ctype (snd p)) (h_types h) = true) as Hwf.
  { simpl in Hh. destruct Hh as [<-|[<-|[<-|[<-|[]]]]]; vm_compute; done. }
  rewrite forallb_forall in Hwf. exact (Hwf _ Ht).
Qed.

(** ** Theorems *)

Module Core.

(** On a kernel whose [task_struct] has the renamed [__state], the accessor
    returns exactly the unsigned 32-bit value stored there, never sign-extended;
    an unreadable task reads as 0. *)
Theorem task_state_renamed (k : kernel) `{CoreLaws k} task o t :
  (forall a b, k_mem k a = Some b -> is_byte b) ->
  kernel_field k "task_struct___x" "__state" = Some (o, t) -> sizeof t = 4 ->
  get_task_state task = le_decode (probe_read k (task + o / 8) 4) /\
  in_u 32 (get_task_state task).
Proof.
  intros Hm Hf Hs. unfold get_task_state.
  rewrite (exists_some k _ _ _ Hf), (read_law task _ _ 4 o t) by done. split; [done|].
  destruct (probe_read_bytes k (task + o / 8) 4 Hm) as [Hb Hl].
  apply le_decode_range in Hb. by rewrite Hl in Hb.
Qed.

(** On an older kernel, with [long state] and no [__state], it returns that
    field as a signed 64-bit value. *)
Theorem task_state_legacy (k : kernel) `{CoreLaws k} task o t :
  kernel_field k "task_struct___x" "__state" = None ->
  kernel_field k "task_struct___o" "state" = Some (o, t) -> sizeof t = 8 ->
  get_task_state task = wrap_s 64 (le_decode (probe_read k (task + o / 8) 8)).
Proof.
  intros Hn Hf Hs. unfold get_task_state.
  by rewrite (exists_none k _ _ Hn), (read_law task _ _ 8 o t).
Qed.

(** On the kernel of any of the four headers the disk of a [bio] is reached
    through its block device: two pointer reads, each inside its struct. *)
Theorem gendisk_through_bdev h mem `{CoreLaws (header_kernel h mem)} bio :
  List.In h headers ->
  exists o1 t1 o2 t2,
    kernel_field (header_kernel h mem) "bio___x" "bi_bdev" = Some (o1, t1) /\
    kernel_field (header_kernel h mem) "block_device" "bd_disk" = Some (o2, t2) /\
    get_gendisk bio =
      le_decode (probe_read (header_kernel h mem)
        (le_decode (probe_read (header_kernel h mem) (bio + o1 / 8) 8) + o2 / 8) 8).
Proof.
  intros Hh. destruct (header_fields h mem Hh) as (_ & H1 & H2 & _).
  destruct (kernel_field _ "bio___x" "bi_bdev") as [[o1 t1]|] eqn:E1; [|done].
  destruct (kernel_field _ "block_device" "bd_disk") as [[o2 t2]|] eqn:E2; [|done].
  simpl in H1, H2. zb. exists o1, t1, o2, t2. split_and!; try done.
  unfold get_gendisk. rewrite (exists_some _ _ _ _ E1).
  rewrite (read_ptr_field _ bio _ _ _ _ E1) by done.
  by rewrite (read_ptr_field _ _ _ _ _ _ E2).
Qed.

(** The disk of a request: its own [rq_disk] where the kernel still has one,
    the queue's [disk] where it does not. *)
Theorem disk_of_request (k : kernel) `{CoreLaws k} request oq tq od td :
  kernel_field k "request___x" "q" = Some (oq, tq) -> sizeof tq = 8 ->
  kernel_field k "request_queue___x" "disk" = Some (od, td) -> sizeof td = 8 ->
  get_disk request =
  match kernel_field k "request___x" "rq_disk" with
  | Some _ => read_ptr request "request___x" "rq_disk"
  | None => le_decode (probe_read k (le_decode (probe_read k (request + oq / 8) 8) + od / 8) 8)
  end.
Proof.
  intros Hq Hsq Hd Hsd. unfold get_disk.
  destruct (kernel_field k "request___x" "rq_disk") as [x|] eqn:E.
  - by rewrite (exists_some _ _ _ _ E).
  - rewrite (exists_none _ _ _ E), (read_ptr_field _ _ _ _ _ _ Hd) by done.
    by rewrite (read_ptr_field _ _ _ _ _ _ Hq).
Qed.

(** Every member access into a type of the four headers stays inside the type:
    the declarations are well formed, and a found member begins and ends within
    the bytes of the struct it belongs to. *)
Theorem header_fields_in_bounds h n t f o t' :
  List.In h headers -> List.In (n, t) (h_types h) -> find_field f t = Some (o, t') ->
  0 <= o /\ o + 8 * sizeof t' <= 8 * sizeof t.
Proof.
  intros Hh Ht Hf. pose proof (headers_wf _ _ _ Hh Ht) as Hwf.
  destruct (proj1 find_in_bounds t Hwf f o t' Hf) as (? & ? & _). done.
Qed.

(** The members of a struct of the four headers are laid out in declaration
    order without overlap, each at a multiple of its alignment, and end within
    the struct. *)
Theorem header_structs_in_order h n p ms :
  List.In h headers -> List.In (n, CStruct p ms) (h_types h) ->
  in_order 0 (8 * sizeof (CStruct p ms)) (struct_layout p 0 ms).
Proof.
  intros Hh Ht. pose proof (headers_wf _ _ _ Hh Ht) as Hwf. simpl in Hwf.
  eapply in_order_weaken; [by apply struct_layout_in_order|lia|by apply struct_bits_fit].
Qed.

(** *** Witnesses *)

(** A memory with one readable word, the [__state] of a task at address 0. *)
Definition demo_mem (a : Z) : option Z :=
  if (24 <=? a) && (a <? 28) then Some 255 else None.
Definition demo_kernel : kernel := header_kernel x86 demo_mem.
Lemma demo_mem_bytes a b : k_mem demo_kernel a = Some b -> is_byte b.
Proof.
  simpl. unfold demo_mem. destruct (_ && _); [|done]. intros ?. simplify_eq.
  unfold is_byte, in_u. lia.
Defined.

Lemma task_state_renamed_witness :
  @get_task_state (btf_access demo_kernel) 0 = le_decode (probe_read demo_kernel 24 4) /\
  in_u 32 (@get_task_state (btf_access demo_kernel) 0).
Proof.
  apply (@task_state_renamed demo_kernel (btf_access demo_kernel) (btf_access_laws demo_kernel)
           0 192 (CInt 4 false) demo_mem_bytes); vm_compute; reflexivity.
Defined.

Definition old_kernel : kernel :=
  Kernel [("struct task_struct", struct_task_struct___o)] (fun _ => Some 255).
Lemma task_state_legacy_witness :
  @get_task_state (btf_access old_kernel) 4096 =
  wrap_s 64 (le_decode (probe_read old_kernel (4096 + 0 / 8) 8)).
Proof.
  apply (@task_state_legacy old_kernel (btf_access old_kernel) (btf_access_laws old_kernel)
           4096 0 (CInt 8 true)); vm_compute; reflexivity.
Defined.

Lemma gendisk_through_bdev_witness :
  exists o1 t1 o2 t2,
    kernel_field (header_kernel arm64 demo_mem) "bio___x" "bi_bdev" = Some (o1, t1) /\
    kernel_field (header_kernel arm64 demo_mem) "block_device" "bd_disk" = Some (o2, t2) /\
    @get_gendisk (btf_access (header_kernel arm64 demo_mem)) 64 =
      le_decode (probe_read (header_kernel arm64 demo_mem)
        (le_decode (probe_read (header_kernel arm64 demo_mem) (64 + o1 / 8) 8) + o2 / 8) 8).
Proof.
  apply (@gendisk_through_bdev arm64 demo_mem (btf_access (header_kernel arm64 demo_mem))
           (btf_access_laws _) 64). simpl. tauto.
Defined.

Definition riscv_kernel : kernel := header_kernel riscv demo_mem.
Lemma disk_of_request_witness :
  @get_disk (btf_access riscv_kernel) 0 =
  match kernel_field riscv_kernel "request___x" "rq_disk" with
  | Some _ => @read_ptr (btf_access riscv_kernel) 0 "request___x" "rq_disk"
  | None => le_decode (probe_read riscv_kernel
      (le_decode (probe_read riscv_kernel (0 + 0 / 8) 8) + 832 / 8) 8)
  end.
Proof.
  eapply (@disk_of_request riscv_kernel (btf_access riscv_kernel) (btf_access_laws _) 0 0
            _ 832 _); vm_compute; reflexivity.
Defined.

Lemma header_fields_in_bounds_witness :
  0 <= 192 /\ 192 + 8 * sizeof (CInt 4 false) <= 8 * sizeof VmlinuxX86.struct_task_struct.
Proof.
  apply (header_fields_in_bounds x86 "struct task_struct" VmlinuxX86.struct_task_struct "__state");
    [simpl; tauto|apply lookup_type_elem; vm_compute; reflexivity|vm_compute; reflexivity].
Defined.

Lemma header_structs_in_order_witness :
  in_order 0 (8 * sizeof VmlinuxRiscv.struct_list_head)
    (match VmlinuxRiscv.struct_list_head with CStruct p ms => struct_layout p 0 ms | _ => [] end).
Proof.
  apply (header_structs_in_order riscv "struct list_head");
    [simpl; tauto|apply lookup_type_elem; vm_compute; reflexivity].
Defined.

End Core.
