(* ===== verification/Pointers.v ===== *)
(** * Following pointers through the kernel's types

    [BPF_CORE_READ] with several accessors, as [core_fixes.bpf.h] uses it: every one
    but the last reads a pointer and goes on in the struct it points to.  [chain]
    resolves such a path against the types of a kernel, [core_chain] is the macro over
    [CoreAccess], and [walk] what it means in memory.  The accessors of the header are
    paths of one and two pointers; the headers' types are declared that far. *)

From stdpp Require Import base list strings numbers.
From Stdlib Require Import ZArith Lia Ascii.
From S2P Require Import Prelude CLayout RustStr BpfProg CoreFixes.
From S2P Require VmlinuxX86.

#[local] Open Scope Z_scope.

(** ** Paths *)

(** One [->]: the struct, the member, its bit offset and its type. *)
Record access := MkAccess {
  a_struct : string;
  a_field : string;
  a_offset : Z;
  a_type : ctype;
}.

(** The path of members from a struct, as long as every one but the last is a pointer
    to a struct. *)
Fixpoint chain (k : kernel) (s : string) (path : list string) : option (list access) :=
  match path with
  | [] => None
  | f :: rest =>
      match kernel_field k s f with
      | None => None
      | Some (o, t) =>
          match rest with
          | [] => Some [MkAccess s f o t]
          | _ =>
              match t with
              | CPtr p =>
                  match strip_prefix "struct " p with
                  | Some s' => cons (MkAccess s f o t) <$> chain k s' rest
                  | None => None
                  end
              | _ => None
              end
          end
      end
  end.

(** [BPF_CORE_READ(addr, f1, ..., fn)], the bytes left in a destination of [n]. *)
Fixpoint core_chain `{CoreAccess} (addr : Z) (l : list access) (n : nat) : list Z :=
  match l with
  | [] => []
  | [a] => core_read addr (a_struct a) (a_field a) n
  | a :: l => core_chain (read_ptr addr (a_struct a) (a_field a)) l n
  end.

(** The same in memory: a pointer is read where the member lies. *)
Fixpoint walk (k : kernel) (addr : Z) (l : list access) (n : nat) : list Z :=
  match l with
  | [] => []
  | [a] => probe_read k (addr + a_offset a / 8) n
  | a :: l => walk k (le_decode (probe_read k (addr + a_offset a / 8) 8)) l n
  end.

(** ** What a type points to *)

Fixpoint pointees (t : ctype) : list string :=
  match t with
  | CPtr p => [p]
  | CArr e _ => pointees e
  | CStruct _ ms | CUnion _ ms => pointees_of_members ms
  | _ => []
  end
with pointees_of_members (ms : members) : list string :=
  match ms with
  | MNil => []
  | MField _ t r | MAnon t r => pointees t ++ pointees_of_members r
  | MBits _ _ _ r => pointees_of_members r
  end.

(** [struct x] or [union x], and not a pointer or an array of it. *)
Definition compound (p : string) : bool :=
  match split " "%char p with
  | [k; _] => String.eqb k "struct" || String.eqb k "union"
  | _ => false
  end.

(** Everything [n] pointers away is declared, unless the header leaves it opaque. *)
Fixpoint declared_within (h : header) (n : nat) (t : ctype) : bool :=
  match n with
  | O => true
  | S n =>
      forallb (fun p =>
        if compound p && negb (existsb (String.eqb p) (h_opaque h)) then
          match lookup_type p (h_types h) with Some t' => declared_within h n t' | None => false end
        else true) (pointees t)
  end.

(** The types the program and the accessors start from. *)
Definition root_types : list string :=
  ["struct trace_event_raw_sched_process_exec"; "struct trace_event_raw_sched_process_fork";
   "struct task_struct"; "struct bio"; "struct block_device"; "struct request";
   "struct request_queue"; "struct gendisk"].

(** ** Lemmas *)

(** A found member is inside its struct. *)
Lemma kernel_field_in_bounds h mem s f o t :
  List.In h headers -> kernel_field (header_kernel h mem) s f = Some (o, t) ->
  exists t0, lookup_type (sapp "struct " (essential s)) (h_types h) = Some t0 /\
    0 <= o /\ o + 8 * sizeof t <= 8 * sizeof t0.
Proof.
  intros Hh. unfold kernel_field. cbn [header_kernel k_types].
  destruct (lookup_type _ (h_types h)) as [t0|] eqn:E; [|done]. intros Hf. exists t0. split; [done|].
  pose proof (headers_wf _ _ _ Hh (lookup_type_elem _ _ _ E)) as Hwf.
  by destruct (proj1 find_in_bounds t0 Hwf f o t Hf) as (? & ? & _).
Qed.

(** What [chain] finds is in the kernel's types, and all but the last are pointers. *)
Definition found (k : kernel) (a : access) : Prop :=
  kernel_field k (a_struct a) (a_field a) = Some (a_offset a, a_type a).

Lemma chain_found k s path l :
  chain k s path = Some l ->
  l <> [] /\ Forall (found k) l /\ (forall pre a, l = pre ++ [a] -> Forall (fun b => exists p, a_type b = CPtr p) pre).
Proof.
  revert s l. induction path as [|f rest IH]; intros s l; [done|]. cbn [chain].
  destruct (kernel_field k s f) as [[o t]|] eqn:E; [|done]. destruct rest as [|f2 rest].
  - intros [= <-]. split; [done|]. split; [by repeat constructor|].
    intros [|b pre] a; [constructor|]. intros [= _ H]. by destruct pre.
  - destruct t as [| |p| | |]; try done. destruct (strip_prefix "struct " p) as [s'|]; [|done].
    destruct (chain k s' (f2 :: rest)) as [l'|] eqn:El; [|done]. intros [= <-].
    destruct (IH s' l' El) as (Hne & Hf & Hp). split; [done|]. split; [by constructor|].
    intros [|b pre] a [= <- Ht].
    + by rewrite Ht in Hne.
    + constructor; [by exists p|]. by eapply Hp.
Qed.

Section Laws.
Context (k : kernel) `{HL : CoreLaws k}.

Lemma core_chain_walk addr l n :
  l <> [] -> Forall (found k) l ->
  (forall pre a, l = pre ++ [a] -> Forall (fun b => exists p, a_type b = CPtr p) pre /\ sizeof (a_type a) = Z.of_nat n) ->
  core_chain addr l n = walk k addr l n.
Proof.
  revert addr. induction l as [|a l IH]; intros addr Hne Hf Hp; [done|].
  inversion_clear Hf as [|? ? Ha Hl]. destruct l as [|b l].
  - destruct (Hp [] a eq_refl) as [_ Hn]. cbn. by rewrite (read_law _ _ _ n _ _ Ha).
  - destruct (exists_last (l := b :: l)) as (pre & z & Hz); [done|].
    destruct (Hp (a :: pre) z) as [Hpre Hn]; [by rewrite Hz|].
    inversion_clear Hpre as [|? ? [p Hpt] Hrest].
    change (core_chain (read_ptr addr (a_struct a) (a_field a)) (b :: l) n = 
            walk k (le_decode (probe_read k (addr + a_offset a / 8) 8)) (b :: l) n).
    rewrite (read_ptr_field k addr _ _ _ _ Ha) by (by rewrite Hpt). apply IH; [done|done|].
    intros pre' z' Hz'. rewrite Hz in Hz'. apply app_inj_tail in Hz' as [<- <-]. by split.
Qed.
End Laws.

Lemma declared_within_spec h n t p :
  declared_within h (S n) t = true -> p ∈ pointees t -> compound p = true -> p ∉ h_opaque h ->
  exists t', lookup_type p (h_types h) = Some t' /\ declared_within h n t' = true.
Proof.
  cbn [declared_within]. rewrite forallb_forall. intros H Hp Hc Ho.
  specialize (H p (proj1 (list_elem_of_In _ _) Hp)). rewrite Hc in H.
  replace (existsb (String.eqb p) (h_opaque h)) with false in H; cbn in H.
  - destruct (lookup_type p (h_types h)) as [t'|]; [eauto|done].
  - symmetry. apply not_true_is_false. intros (q & Hq & ->%String.eqb_eq)%existsb_exists.
    by apply Ho, list_elem_of_In.
Qed.

Lemma roots_declared h s t :
  List.In h headers -> s ∈ root_types -> lookup_type s (h_types h) = Some t -> declared_within h 2 t = true.
Proof.
  intros Hh Hs Ht.
  assert (forallb (fun s => match lookup_type s (h_types h) with
                            | Some t => declared_within h 2 t | None => true end) root_types = true) as Hall.
  { simpl in Hh. destruct Hh as [<-|[<-|[<-|[<-|[]]]]]; vm_compute; done. }
  rewrite forallb_forall in Hall. specialize (Hall s (proj1 (list_elem_of_In _ _) Hs)). by rewrite Ht in Hall.
Qed.

(** A pointer member leads on to a pointer member of the struct named. *)
Definition through (k : kernel) (t : ctype) (s' f' : string) : bool :=
  match t with
  | CPtr p => String.eqb p (sapp "struct " s') &&
              match kernel_field k s' f' with Some (_, CPtr _) => true | _ => false end
  | _ => false
  end.

Lemma through_chain k s f s' f' o t :
  kernel_field k s f = Some (o, t) -> through k t s' f' = true ->
  exists o' p, kernel_field k s' f' = Some (o', CPtr p) /\
    chain k s [f; f'] = Some [MkAccess s f o (CPtr (sapp "struct " s')); MkAccess s' f' o' (CPtr p)] /\
    t = CPtr (sapp "struct " s').
Proof.
  intros E. unfold through. destruct t as [| |q| | |]; try done.
  intros [Hq%String.eqb_eq Ht]%andb_true_iff. subst q.
  destruct (kernel_field k s' f') as [[o' [| |p| | |]]|] eqn:E'; try done.
  exists o', p. split; [done|]. split; [|done]. cbn [chain]. rewrite E.
  assert (strip_prefix "struct " (sapp "struct " s') = Some s') as -> by (by apply strip_prefix_spec).
  by rewrite E'.
Qed.

(** The headers that declare [request]; it is opaque in the other two, so that a path
    from there cannot be resolved against them. *)
Definition request_headers : list header := [riscv; loongarch].
Lemma request_headers_exact h :
  List.In h headers ->
  List.In h request_headers \/ List.In h [x86; arm64] /\ "struct request" ∈ h_opaque h.
Proof.
  intros Hh. simpl in Hh. destruct Hh as [<-|[<-|[<-|[<-|[]]]]];
    first [left; simpl; tauto | right; split; [simpl; tauto|apply list_elem_of_In; vm_compute; tauto]].
Qed.

(** The paths of the accessors in the headers. *)
Lemma bio_path h mem :
  List.In h headers ->
  let k := header_kernel h mem in
  match kernel_field k "bio" "bi_bdev" with
  | Some (_, t) => through k t "block_device" "bd_disk" | None => false end = true.
Proof. intros Hh. simpl in Hh. destruct Hh as [<-|[<-|[<-|[<-|[]]]]]; vm_compute; done. Qed.
Lemma request_path h mem :
  List.In h request_headers ->
  let k := header_kernel h mem in
  kernel_field k "request" "rq_disk" = None /\
  match kernel_field k "request" "q" with
  | Some (_, t) => through k t "request_queue" "disk" | None => false end = true.
Proof. intros Hh. simpl in Hh. destruct Hh as [<-|[<-|[]]]; split; vm_compute; done. Qed.

(** A member that lies inside its struct. *)
Definition inside (h : header) (a : access) : Prop :=
  exists t, lookup_type (sapp "struct " (essential (a_struct a))) (h_types h) = Some t /\
    0 <= a_offset a /\ a_offset a + 8 * sizeof (a_type a) <= 8 * sizeof t.

Lemma chain_inside h mem s path l :
  List.In h headers -> chain (header_kernel h mem) s path = Some l -> Forall (inside h) l.
Proof.
  intros Hh Hc. destruct (chain_found _ _ _ _ Hc) as (_ & Hf & _).
  eapply list.Forall_impl; [exact Hf|]. intros a Ha.
  by apply (kernel_field_in_bounds h mem _ (a_field a)).
Qed.

(** ** Properties *)
Module PointersProps.

(** A read through pointers is sound on the kernel of each of the four headers: every
    member on the way lies inside the struct it is read from, and the value is the one
    found by following the stored pointers in memory, at the members' own offsets. *)
Theorem pointer_chains_sound h mem `{HL : CoreLaws (header_kernel h mem)} s path l addr n :
  List.In h headers -> chain (header_kernel h mem) s path = Some l ->
  sizeof (match list.last l with Some a => a_type a | None => CInt 1 false end) = Z.of_nat n ->
  Forall (inside h) l /\ core_chain addr l n = walk (header_kernel h mem) addr l n.
Proof.
  intros Hh Hc Hn. destruct (chain_found _ _ _ _ Hc) as (Hne & Hf & Hp). split.
  - by eapply chain_inside.
  - apply (core_chain_walk (header_kernel h mem)); [done|done|]. intros pre a ->. split; [by eapply Hp|].
    by rewrite list.last_snoc in Hn.
Qed.

(** C35. The accessors are such reads.  On the kernel of each of the four headers the disk
    of a [bio] is the pointer [bi_bdev->bd_disk]; on those of the two that declare
    [request], riscv and loongarch, the disk of a request is the pointer [q->disk],
    the request having none itself, and in the other two [request] is opaque.  Each
    member lies inside its struct, and the result is what following the stored pointers
    finds. *)
Theorem accessors_follow_pointers h mem `{HL : CoreLaws (header_kernel h mem)} bio request :
  List.In h headers ->
  let k := header_kernel h mem in
  (exists l, chain k "bio" ["bi_bdev"; "bd_disk"] = Some l /\ Forall (inside h) l /\
     get_gendisk bio = le_decode (walk k bio l 8)) /\
  (List.In h [x86; arm64] /\ "struct request" ∈ h_opaque h \/
   List.In h [riscv; loongarch] /\
   exists l, chain k "request" ["q"; "disk"] = Some l /\ Forall (inside h) l /\
     get_disk request = le_decode (walk k request l 8)).
Proof.
  intros Hh k. split.
  - pose proof (bio_path h mem Hh) as Hb. cbn zeta in Hb. fold k in Hb.
    destruct (kernel_field k "bio" "bi_bdev") as [[o1 t1]|] eqn:E1; [|done].
    destruct (through_chain k "bio" "bi_bdev" "block_device" "bd_disk" o1 t1 E1 Hb) as (o2 & p & E2 & Hl & ->).
    eexists. split; [exact Hl|]. split; [by eapply chain_inside|].
    unfold get_gendisk. rewrite (exists_some k "bio___x" "bi_bdev" _ E1).
    rewrite (read_ptr_field k bio "bio___x" "bi_bdev" _ _ E1) by done.
    by rewrite (read_ptr_field k _ "block_device" "bd_disk" _ _ E2).
  - destruct (request_headers_exact h Hh) as [Hq|]; [right|by left]. split; [exact Hq|].
    destruct (request_path h mem Hq) as [Hn Hr]. cbn zeta in Hn, Hr. fold k in Hn, Hr.
    destruct (kernel_field k "request" "q") as [[o1 t1]|] eqn:E1; [|done].
    destruct (through_chain k "request" "q" "request_queue" "disk" o1 t1 E1 Hr) as (o2 & p & E2 & Hl & ->).
    eexists. split; [exact Hl|]. split; [by eapply chain_inside|].
    unfold get_disk. rewrite (exists_none k "request___x" "rq_disk" Hn).
    rewrite (read_ptr_field k request "request___x" "q" _ _ E1) by done.
    by rewrite (read_ptr_field k _ "request_queue___x" "disk" _ _ E2).
Qed.

(** The headers are declared as far as the accessors go: from every type they start
    at, each struct or union one or two pointers away has its declaration, or is one
    the header itself leaves opaque. *)
Theorem two_pointers_declared h s t p1 :
  List.In h headers -> s ∈ root_types -> lookup_type s (h_types h) = Some t ->
  p1 ∈ pointees t -> compound p1 = true -> p1 ∉ h_opaque h ->
  exists t1, lookup_type p1 (h_types h) = Some t1 /\
    forall p2, p2 ∈ pointees t1 -> compound p2 = true -> p2 ∉ h_opaque h ->
      is_Some (lookup_type p2 (h_types h)).
Proof.
  intros Hh Hs Ht Hp1 Hc1 Ho1. pose proof (roots_declared h s t Hh Hs Ht) as Hd.
  destruct (declared_within_spec h 1 t p1 Hd Hp1 Hc1 Ho1) as (t1 & Ht1 & Hd1).
  exists t1. split; [done|]. intros p2 Hp2 Hc2 Ho2.
  destruct (declared_within_spec h 0 t1 p2 Hd1 Hp2 Hc2 Ho2) as (t2 & -> & _). by eexists.
Qed.

(** *** Witnesses *)

Definition demo_kernel : kernel := header_kernel riscv Core.demo_mem.
Definition demo_chain : list access :=
  match chain demo_kernel "bio" ["bi_bdev"; "bd_disk"; "major"] with Some l => l | None => [] end.

Lemma pointer_chains_sound_witness :
  @core_chain (btf_access demo_kernel) 64 demo_chain 4 = walk demo_kernel 64 demo_chain 4 /\
  length demo_chain = 3%nat.
Proof.
  split; [|vm_compute; reflexivity].
  apply (@pointer_chains_sound riscv Core.demo_mem (btf_access demo_kernel) (btf_access_laws demo_kernel)
           "bio" ["bi_bdev"; "bd_disk"; "major"] demo_chain 64 4);
    [simpl; tauto|vm_compute; reflexivity|vm_compute; reflexivity].
Defined.

(** A request of the kernel in memory: at 128, with its queue at 4096 and the disk of
    that at 8192. *)
Definition offset_of (s f : string) : Z :=
  match kernel_field demo_kernel s f with Some (o, _) => o / 8 | None => 0 end.
Definition request_mem (a : Z) : option Z :=
  Some (if a =? 128 + offset_of "request" "q" + 1 then 16
        else if a =? 4096 + offset_of "request_queue" "disk" + 1 then 32 else 0).
Definition request_kernel : kernel := header_kernel riscv request_mem.

Lemma accessors_follow_pointers_witness :
  (exists l, chain request_kernel "bio" ["bi_bdev"; "bd_disk"] = Some l /\ Forall (inside riscv) l /\
     @get_gendisk (btf_access request_kernel) 64 = le_decode (walk request_kernel 64 l 8)) /\
  (exists l, chain request_kernel "request" ["q"; "disk"] = Some l /\ Forall (inside riscv) l /\
     @get_disk (btf_access request_kernel) 128 = le_decode (walk request_kernel 128 l 8)) /\
  @get_disk (btf_access request_kernel) 128 = 8192.
Proof.
  destruct (@accessors_follow_pointers riscv request_mem (btf_access request_kernel)
              (btf_access_laws request_kernel) 64 128) as [Hb Hr]; [simpl; tauto|].
  split; [exact Hb|]. split; [|vm_compute; reflexivity].
  destruct Hr as [[_ Ho]|[_ Hr]]; [|exact Hr].
  apply list_elem_of_In in Ho. vm_compute in Ho. intuition congruence.
Defined.

Lemma two_pointers_declared_witness :
  exists t1, lookup_type "struct block_device" (h_types x86) = Some t1 /\
    forall p2, p2 ∈ pointees t1 -> compound p2 = true -> p2 ∉ h_opaque x86 ->
      is_Some (lookup_type p2 (h_types x86)).
Proof.
  apply (two_pointers_declared x86 "struct bio" VmlinuxX86.struct_bio "struct block_device").
  - simpl. tauto.
  - apply list_elem_of_In. simpl. tauto.
  - vm_compute. reflexivity.
  - apply list_elem_of_In. vm_compute. tauto.
  - vm_compute. reflexivity.
  - intros H%list_elem_of_In. vm_compute in H. intuition congruence.
Defined.

End PointersProps.
