(* ===== verification/CpuSet.v ===== *)
(** * CPU sets

    [crates/ananicy-core/src/cpuset.rs]: the set of CPUs a rule's [cpuset]
    names, its list syntax and its printer. *)

From stdpp Require Import base list gmap strings numbers.
From Stdlib Require Import ZArith Lia Ascii.
From S2P Require Import Prelude RustStr.

#[local] Open Scope Z_scope.

Record CpuSet := MkCpuSet {
  max_cores : Z;       (* u32 *)
  cores : list bool;   (* Vec<bool> *)
}.

(** ** Operations *)

Definition new (m : Z) : CpuSet := MkCpuSet m (replicate (Z.to_nat m) false).

Definition set_cpu (cpu : Z) (s : CpuSet) : CpuSet :=
  if cpu <? max_cores s
  then MkCpuSet (max_cores s) (<[Z.to_nat cpu := true]> (cores s)) else s.

Definition clear_cpu (cpu : Z) (s : CpuSet) : CpuSet :=
  if cpu <? max_cores s
  then MkCpuSet (max_cores s) (<[Z.to_nat cpu := false]> (cores s)) else s.

Definition zero (s : CpuSet) : CpuSet :=
  MkCpuSet (max_cores s) (map (fun _ => false) (cores s)).

Definition valid (s : CpuSet) : bool := true.

(** [self.cores[cpu]] is an index, which would panic past the end; [wf] below
    is what excludes it. *)
Definition has_cpu (cpu : Z) (s : CpuSet) : bool :=
  (cpu <? max_cores s) && match cores s !! Z.to_nat cpu with Some b => b | None => false end.

Definition is_empty (s : CpuSet) : bool := negb (existsb (fun b => b) (cores s)).

(** [cores().collect()], the indices of the set entries in order. *)
Fixpoint true_from (i : Z) (l : list bool) : list Z :=
  match l with
  | [] => []
  | b :: l => if b then i :: true_from (i + 1) l else true_from (i + 1) l
  end.
Definition get_cores (s : CpuSet) : list Z := true_from 0 (cores s).

(** ** Parsing *)

Definition comma : ascii := ","%char.
Definition dash : ascii := "-"%char.

(** [for cpu in start..=end { cpuset.set_cpu(cpu) }], [n] steps from [start]. *)
Fixpoint set_range (n : nat) (start : Z) (s : CpuSet) : CpuSet :=
  match n with
  | O => s
  | S n => set_range n (start + 1) (set_cpu start s)
  end.

(** One non-empty token: a range or a single CPU. *)
Definition parse_token (m : Z) (token : string) (s : CpuSet) : option CpuSet :=
  match split_once dash token with
  | Some (start_str, end_str) =>
      match parse_u32 start_str with
      | None => None
      | Some start =>
          match parse_u32 end_str with
          | None => None
          | Some end_ =>
              if (end_ <? start) || (m <=? end_) then None
              else Some (set_range (Z.to_nat (end_ - start + 1)) start s)
          end
      end
  | None =>
      match parse_u32 token with
      | None => None
      | Some cpu => if m <=? cpu then None else Some (set_cpu cpu s)
      end
  end.

(** The token loop; only an empty last token is allowed. *)
Fixpoint parse_tokens (m : Z) (tokens : list string) (s : CpuSet) : option CpuSet :=
  match tokens with
  | [] => Some s
  | token :: rest =>
      let token := trim token in
      if String.eqb token EmptyString then
        match rest with [] => parse_tokens m rest s | _ :: _ => None end
      else
        match parse_token m token s with
        | None => None
        | Some s => parse_tokens m rest s
        end
  end.

Definition parse (str : string) (m : Z) : option CpuSet :=
  let str := trim str in
  if String.eqb str EmptyString then None
  else parse_tokens m (split comma str) (new m).

(** ** Printing *)

Definition fmt_range (start last : Z) : string :=
  if last =? start then fmt_uint start
  else sapp (fmt_uint start) (String dash (fmt_uint last)).

(** The loop of [fmt] over [cores[i..]], with its three variables. *)
Fixpoint fmt_loop (l : list bool) (i : Z) (in_range : bool) (range_start : Z)
    (ranges : list string) : list string * bool * Z :=
  match l with
  | [] => (ranges, in_range, range_start)
  | active :: l =>
      if active && negb in_range then fmt_loop l (i + 1) true i ranges
      else if negb active && in_range then
        fmt_loop l (i + 1) false range_start (ranges ++ [fmt_range range_start (i - 1)])
      else fmt_loop l (i + 1) in_range range_start ranges
  end.

Definition fmt (s : CpuSet) : string :=
  let '(ranges, in_range, range_start) := fmt_loop (cores s) 0 false 0 [] in
  let ranges := if in_range then ranges ++ [fmt_range range_start (max_cores s - 1)]
                else ranges in
  join (String comma EmptyString) ranges.

(** ** The invariant and the set a value stands for *)

Definition wf (s : CpuSet) : Prop :=
  in_u 32 (max_cores s) /\ length (cores s) = Z.to_nat (max_cores s).

Definition to_set (s : CpuSet) : gset Z := list_to_set (get_cores s).

(** ** Lemmas *)

Lemma wf_new m : in_u 32 m -> wf (new m).
Proof. intros H. split; [done|]. simpl. by rewrite length_replicate. Qed.
Lemma wf_set_cpu c s : wf s -> wf (set_cpu c s).
Proof.
  intros [H1 H2]. unfold set_cpu. destruct (_ <? _); [|done].
  split; [done|]. simpl. by rewrite length_insert.
Qed.
Lemma wf_clear_cpu c s : wf s -> wf (clear_cpu c s).
Proof.
  intros [H1 H2]. unfold clear_cpu. destruct (_ <? _); [|done].
  split; [done|]. simpl. by rewrite length_insert.
Qed.
Lemma wf_zero s : wf s -> wf (zero s).
Proof. intros [H1 H2]. split; [done|]. simpl. by rewrite length_map. Qed.
#[export] Hint Resolve wf_new wf_set_cpu wf_clear_cpu wf_zero : ananicy.

Lemma max_set_cpu c s : max_cores (set_cpu c s) = max_cores s.
Proof. unfold set_cpu. by destruct (_ <? _). Qed.

Lemma elem_of_true_from i l k :
  k ∈ true_from i l <-> i <= k /\ l !! Z.to_nat (k - i) = Some true.
Proof.
  revert i. induction l as [|b l IH]; intros i; simpl.
  - split; [by intros ?%elem_of_nil|]. by intros [_ ?].
  - assert (k ∈ true_from (i + 1) l <->
            i < k /\ (b :: l) !! Z.to_nat (k - i) = Some true) as IH'.
    { rewrite IH. split; intros [H1 H2].
      - split; [lia|]. replace (Z.to_nat (k - i)) with (S (Z.to_nat (k - (i + 1)))) by lia. done.
      - split; [lia|].
        replace (Z.to_nat (k - i)) with (S (Z.to_nat (k - (i + 1)))) in H2 by lia. done. }
    assert (k = i -> (b :: l) !! Z.to_nat (k - i) = Some b) as H0.
    { intros ->. by rewrite Z.sub_diag. }
    destruct b; rewrite ?elem_of_cons, IH'; destruct (decide (k = i)) as [Hk|Hk];
      try specialize (H0 Hk); intuition (try lia; try congruence).
Qed.

Lemma has_cpu_in c s : wf s -> 0 <= c -> has_cpu c s = bool_decide (c ∈ get_cores s).
Proof.
  intros [Hm Hl] Hc. apply eq_true_iff_eq. rewrite bool_decide_eq_true.
  unfold get_cores, has_cpu. rewrite elem_of_true_from, Z.sub_0_r.
  destruct (cores s !! Z.to_nat c) as [[]|] eqn:E; rewrite andb_true_iff;
    [|intuition congruence..].
  apply lookup_lt_Some in E. rewrite Hl in E. unfold in_u in Hm.
  rewrite Z.ltb_lt. intuition lia.
Qed.

Lemma get_cores_set_cpu c s k :
  wf s -> 0 <= c ->
  k ∈ get_cores (set_cpu c s) <-> (k = c /\ c < max_cores s) \/ k ∈ get_cores s.
Proof.
  intros [Hm Hl] Hc. unfold get_cores, set_cpu. unfold in_u in Hm.
  destruct (c <? max_cores s) eqn:E; zb; [|intuition lia].
  simpl. rewrite !elem_of_true_from, !Z.sub_0_r.
  destruct (decide (k = c)) as [->|Hk].
  - rewrite list_lookup_insert_eq by lia. intuition.
  - split.
    + intros [? H]. rewrite list_lookup_insert_ne in H by lia. auto.
    + intros [[]|[? H]]; [done|]. split; [done|]. rewrite list_lookup_insert_ne; [done|lia].
Qed.

(** Two sets over the same machine with the same members are equal. *)
Lemma cpuset_ext s t :
  wf s -> wf t -> max_cores s = max_cores t ->
  (forall k, k ∈ get_cores s <-> k ∈ get_cores t) -> s = t.
Proof.
  intros [Hs1 Hs2] [Ht1 Ht2] Hm Hk. destruct s as [m l], t as [m' l']; simpl in *. subst m'.
  f_equal. apply list_eq_same_length with (length l'); [done|congruence|].
  intros i x y Hi Hx Hy. specialize (Hk (Z.of_nat i)). unfold get_cores in Hk. simpl in Hk.
  rewrite !elem_of_true_from, !Z.sub_0_r, Nat2Z.id, Hx, Hy in Hk.
  destruct x, y; try done.
  - destruct (proj1 Hk) as [_ ?]; [split; [lia|done]|congruence].
  - destruct (proj2 Hk) as [_ ?]; [split; [lia|done]|congruence].
Qed.

Lemma wf_set_range n c s : wf s -> wf (set_range n c s).
Proof. revert c s. induction n; intros; simpl; auto with ananicy. Qed.
Lemma max_set_range n c s : max_cores (set_range n c s) = max_cores s.
Proof. revert c s. induction n as [|n IH]; intros; simpl; [done|]. by rewrite IH, max_set_cpu. Qed.
Lemma get_cores_set_range n c s k :
  wf s -> 0 <= c ->
  k ∈ get_cores (set_range n c s) <->
  (c <= k < c + Z.of_nat n /\ k < max_cores s) \/ k ∈ get_cores s.
Proof.
  revert c s. induction n as [|n IH]; intros c s Hwf Hc; simpl.
  - intuition lia.
  - rewrite IH, get_cores_set_cpu, max_set_cpu by (auto with ananicy; lia). intuition lia.
Qed.

(** *** Ranges

    [runs l i st]: the maximal runs of set entries of [l], whose first entry has
    index [i], inside a run that began at [st]. *)
Fixpoint runs (l : list bool) (i : Z) (st : option Z) : list (Z * Z) :=
  match l, st with
  | [], None => []
  | [], Some a => [(a, i - 1)]
  | true :: l, None => runs l (i + 1) (Some i)
  | true :: l, Some a => runs l (i + 1) (Some a)
  | false :: l, None => runs l (i + 1) None
  | false :: l, Some a => (a, i - 1) :: runs l (i + 1) None
  end.

Lemma fmt_loop_runs l i inr a ranges :
  (let '(rs, inr', a') := fmt_loop l i inr a ranges in
   if inr' then rs ++ [fmt_range a' (i + Z.of_nat (length l) - 1)] else rs) =
  ranges ++ map (fun r => fmt_range (fst r) (snd r)) (runs l i (if inr then Some a else None)).
Proof.
  revert i inr a ranges. induction l as [|b l IH]; intros i inr a ranges.
  - simpl. destruct inr; [by rewrite Z.add_0_r|by rewrite app_nil_r].
  - replace (i + Z.of_nat (length (b :: l)) - 1) with (i + 1 + Z.of_nat (length l) - 1)
      by (simpl; lia).
    cbn [fmt_loop]. destruct b, inr; cbn [andb negb runs].
    + apply (IH (i + 1) true a ranges).
    + apply (IH (i + 1) true i ranges).
    + etrans; [apply (IH (i + 1) false a)|]. cbn [map fst snd]. by rewrite <- app_assoc.
    + apply (IH (i + 1) false a ranges).
Qed.

Definition in_run (k : Z) (r : Z * Z) : Prop := fst r <= k <= snd r.

Lemma runs_spec l i st k :
  (match st with Some a => a < i | None => True end) ->
  Exists (in_run k) (runs l i st) <->
  k ∈ true_from i l \/ (match st with Some a => a <= k < i | None => False end).
Proof.
  revert i st. induction l as [|b l IH]; intros i st Hst; simpl.
  - rewrite elem_of_nil. destruct st as [a|].
    + rewrite Exists_cons, Exists_nil. unfold in_run. simpl. intuition lia.
    + rewrite Exists_nil. intuition.
  - destruct b, st as [a|]; rewrite ?Exists_cons, IH, ?elem_of_cons by lia.
    + intuition lia.
    + intuition lia.
    + unfold in_run. simpl. intuition lia.
    + intuition lia.
Qed.

Lemma runs_bounds l i st r :
  0 <= i -> (match st with Some a => 0 <= a < i | None => True end) ->
  r ∈ runs l i st -> 0 <= fst r <= snd r /\ snd r < i + Z.of_nat (length l).
Proof.
  revert i st. induction l as [|b l IH]; intros i st Hi Hst; simpl.
  - destruct st as [a|]; [|by intros ?%elem_of_nil].
    intros ->%list_elem_of_singleton. simpl. lia.
  - cbn [length]. rewrite Nat2Z.inj_succ.
    destruct b, st as [a|].
    + intros H%IH; lia.
    + intros H%IH; lia.
    + intros [->|H]%elem_of_cons; [simpl; lia|]. apply IH in H; lia.
    + intros H%IH; lia.
Qed.

Lemma runs_nonempty l i st :
  existsb (fun b => b) l = true \/ st <> None -> runs l i st <> [].
Proof.
  revert i st. induction l as [|b l IH]; intros i st; simpl.
  - destruct st; [done|]. intros [?|?]; done.
  - intros H. destruct b, st; try done; apply IH; try (by right); simpl in H.
    destruct H; [by left|done].
Qed.

Lemma fmt_runs s :
  length (cores s) = Z.to_nat (max_cores s) -> 0 <= max_cores s ->
  fmt s = join (String comma EmptyString)
            (map (fun r => fmt_range (fst r) (snd r)) (runs (cores s) 0 None)).
Proof.
  intros Hl Hm. unfold fmt. pose proof (fmt_loop_runs (cores s) 0 false 0 []) as H.
  destruct (fmt_loop _ _ _ _ _) as [[rs inr] a]. simpl in H.
  rewrite Hl, Z2Nat.id in H by done. simpl in H. by rewrite <- H.
Qed.

(** *** Printed ranges parse back *)

Lemma fmt_range_lacks_comma a b : 0 <= a -> 0 <= b -> lacks comma (fmt_range a b) = true.
Proof.
  intros Ha Hb. unfold fmt_range. destruct (b =? a); [by apply fmt_uint_lacks|].
  rewrite lacks_sapp, fmt_uint_lacks by done. cbn -[fmt_uint].
  change (sforall _ (fmt_uint b)) with (lacks comma (fmt_uint b)). by rewrite fmt_uint_lacks.
Qed.

Lemma fmt_range_trimmed a b : 0 <= a -> 0 <= b -> trimmed (fmt_range a b) = true.
Proof.
  intros Ha Hb. apply sforall_trimmed with (p := fun c => is_digit c || Ascii.eqb c dash).
  { intros c [H|H]%orb_true_iff; [by apply is_digit_graphic|].
    apply Ascii.eqb_eq in H. by subst. }
  assert (forall z, 0 <= z -> sforall (fun c => is_digit c || Ascii.eqb c dash) (fmt_uint z) = true) as H.
  { intros z Hz. eapply sforall_weaken; [|by apply fmt_uint_digits]. by intros c ->. }
  unfold fmt_range. destruct (b =? a); [by apply H|].
  rewrite sforall_sapp, H by done. cbn -[fmt_uint]. by rewrite H.
Qed.

Lemma fmt_range_nonempty a b : String.eqb (fmt_range a b) EmptyString = false.
Proof.
  unfold fmt_range. destruct (b =? a); [apply fmt_uint_nonempty|].
  destruct (fmt_uint a); done.
Qed.

Lemma parse_token_fmt m a b s :
  0 <= a <= b -> b < m -> in_u 32 m -> m = max_cores s ->
  parse_token m (fmt_range a b) s = Some (set_range (Z.to_nat (b - a + 1)) a s).
Proof.
  intros Hab Hbm Hm ->. unfold in_u in Hm. unfold parse_token, fmt_range, parse_u32.
  destruct (b =? a) eqn:E; zb.
  - subst b. rewrite split_once_lacks by (apply fmt_uint_lacks; [done|lia]).
    rewrite parse_fmt_uint by (unfold in_u; lia).
    rewrite (proj2 (Z.leb_gt _ _)) by lia.
    replace (Z.to_nat (a - a + 1)) with 1%nat by lia. done.
  - rewrite split_once_sapp by (apply fmt_uint_lacks; [done|lia]).
    rewrite !parse_fmt_uint by (unfold in_u; lia).
    rewrite (proj2 (Z.ltb_ge b a)), (proj2 (Z.leb_gt _ b)) by lia. done.
Qed.

Definition set_runs (rs : list (Z * Z)) (s : CpuSet) : CpuSet :=
  foldl (fun s r => set_range (Z.to_nat (snd r - fst r + 1)) (fst r) s) s rs.

Lemma parse_tokens_fmt m rs s :
  in_u 32 m -> m = max_cores s ->
  Forall (fun r => 0 <= fst r <= snd r /\ snd r < m) rs ->
  parse_tokens m (map (fun r => fmt_range (fst r) (snd r)) rs) s = Some (set_runs rs s).
Proof.
  intros Hm Hs H. revert s Hs. induction H as [|r rs [Hr1 Hr2] _ IH]; intros s Hs; [done|].
  cbn [map parse_tokens].
  rewrite trim_id by (apply fmt_range_trimmed; lia).
  rewrite fmt_range_nonempty, parse_token_fmt by (try done; lia).
  rewrite IH; [done|]. by rewrite max_set_range.
Qed.

Lemma set_runs_wf rs s : wf s -> wf (set_runs rs s).
Proof.
  unfold set_runs. revert s. induction rs; intros; simpl; [done|]. apply IHrs.
  by apply wf_set_range.
Qed.
Lemma set_runs_max rs s : max_cores (set_runs rs s) = max_cores s.
Proof.
  unfold set_runs. revert s. induction rs as [|r rs IH]; intros; simpl; [done|].
  by rewrite IH, max_set_range.
Qed.
Lemma get_cores_set_runs rs s k :
  wf s -> Forall (fun r => 0 <= fst r <= snd r /\ snd r < max_cores s) rs ->
  k ∈ get_cores (set_runs rs s) <-> Exists (in_run k) rs \/ k ∈ get_cores s.
Proof.
  intros Hwf H. revert s Hwf H. induction rs as [|r rs IH]; intros s Hwf H.
  - rewrite Exists_nil. unfold set_runs. simpl. intuition.
  - inversion H as [|x y [Hr1 Hr2] Hrs]; subst. change (set_runs (r :: rs) s) with
      (set_runs rs (set_range (Z.to_nat (snd r - fst r + 1)) (fst r) s)).
    rewrite IH, get_cores_set_range, Exists_cons by (rewrite ?max_set_range; auto using wf_set_range; lia).
    unfold in_run. intuition lia.
Qed.

Lemma get_cores_new m k : k ∈ get_cores (new m) <-> False.
Proof.
  unfold get_cores. simpl. rewrite elem_of_true_from. split; [|done].
  intros [_ H]. apply lookup_replicate in H. by destruct H.
Qed.

Lemma get_cores_clear_cpu c s k :
  wf s -> 0 <= c -> k ∈ get_cores (clear_cpu c s) <-> k ∈ get_cores s /\ k <> c.
Proof.
  intros [Hm Hl] Hc. unfold get_cores, clear_cpu. unfold in_u in Hm.
  assert (c >= max_cores s -> k ∈ true_from 0 (cores s) -> k <> c) as Hout.
  { intros Hge [Hk H]%elem_of_true_from ->. apply lookup_lt_Some in H. lia. }
  destruct (c <? max_cores s) eqn:E; zb.
  2: { split; [intros H; split; [done|apply Hout; [lia|done]]|by intros [? _]]. }
  simpl. rewrite !elem_of_true_from, !Z.sub_0_r.
  destruct (decide (k = c)) as [->|Hk].
  - rewrite list_lookup_insert_eq by lia. intuition congruence.
  - split.
    + intros [? H]. rewrite list_lookup_insert_ne in H by lia. auto.
    + intros [[? H] _]. split; [done|]. rewrite list_lookup_insert_ne; [done|lia].
Qed.

Lemma get_cores_zero s k : k ∈ get_cores (zero s) <-> False.
Proof.
  unfold get_cores. simpl. rewrite elem_of_true_from. split; [|done].
  intros [_ H]. rewrite list_lookup_fmap in H. by destruct (_ !! _).
Qed.

Lemma is_empty_spec s : is_empty s = true <-> get_cores s = [].
Proof.
  unfold is_empty, get_cores. generalize 0. induction (cores s) as [|b l IH]; intros i; simpl; [done|].
  destruct b; simpl; [done|]. apply IH.
Qed.

Lemma is_empty_false s k : k ∈ get_cores s -> is_empty s = false.
Proof.
  intros Hk. destruct (is_empty s) eqn:E; [|done]. apply is_empty_spec in E.
  rewrite E in Hk. by apply elem_of_nil in Hk.
Qed.

(** The CPUs a token stands for. *)
Definition token_range (token : string) : option (Z * Z) :=
  match split_once dash token with
  | Some (a, b) => match parse_u32 a, parse_u32 b with
                   | Some a, Some b => Some (a, b) | _, _ => None end
  | None => match parse_u32 token with Some a => Some (a, a) | None => None end
  end.

Lemma parse_digits_range max acc s z :
  0 <= acc <= max -> parse_digits max acc s = Some z -> 0 <= z <= max.
Proof.
  revert acc. induction s as [|a s IH]; intros acc Ha; cbn [parse_digits].
  - intros ?. by simplify_eq.
  - destruct (is_digit a) eqn:E; [|done]. destruct (_ <=? max) eqn:E2; [|done].
    apply IH. unfold is_digit in E. unfold digit_val in *. cbv zeta in E. zb. lia.
Qed.

Lemma parse_uint_range w s z : 0 <= w -> parse_uint w s = Some z -> in_u w z.
Proof.
  intros Hw. unfold parse_uint. destruct (String.eqb _ _); [done|].
  pose proof (Z.pow_pos_nonneg 2 w ltac:(lia) Hw).
  intros H'%parse_digits_range; unfold in_u; lia.
Qed.

Lemma parse_token_spec m tok s s' :
  wf s -> max_cores s = m -> parse_token m tok s = Some s' ->
  exists a b, token_range tok = Some (a, b) /\ 0 <= a <= b /\ b < m /\
    wf s' /\ max_cores s' = m /\
    (forall k, k ∈ get_cores s' <-> a <= k <= b \/ k ∈ get_cores s).
Proof.
  intros Hwf Hm. unfold parse_token, token_range.
  destruct (split_once dash tok) as [[st en]|].
  - destruct (parse_u32 st) as [a|] eqn:Ea; [|done].
    destruct (parse_u32 en) as [b|] eqn:Eb; [|done].
    apply parse_uint_range in Ea; [|lia]. unfold in_u in Ea.
    destruct ((b <? a) || (m <=? b)) eqn:E; [done|]. zb. intros ?. simplify_eq.
    exists a, b. split_and!; try done; try lia; [by apply wf_set_range|apply max_set_range|].
    intros k. rewrite get_cores_set_range by (try done; lia). intuition lia.
  - destruct (parse_u32 tok) as [a|] eqn:Ea; [|done].
    apply parse_uint_range in Ea; [|lia]. unfold in_u in Ea.
    destruct (m <=? a) eqn:E; [done|]. zb. intros ?. simplify_eq.
    exists a, a. split_and!; try done; try lia; [by apply wf_set_cpu|apply max_set_cpu|].
    intros k. rewrite get_cores_set_cpu by (try done; lia). intuition lia.
Qed.

Definition token_has (k : Z) (tok : string) : Prop :=
  exists a b, token_range (trim tok) = Some (a, b) /\ a <= k <= b.

Lemma parse_tokens_spec m toks s s' :
  wf s -> max_cores s = m -> parse_tokens m toks s = Some s' ->
  wf s' /\ max_cores s' = m /\
  (forall k, k ∈ get_cores s' <-> Exists (fun t => trim t <> EmptyString /\ token_has k t) toks \/ k ∈ get_cores s).
Proof.
  revert s. induction toks as [|tok toks IH]; intros s Hwf Hm; cbn [parse_tokens].
  - intros ?. simplify_eq. split_and!; try done. intros k. rewrite Exists_nil. intuition.
  - destruct (String.eqb_spec (trim tok) EmptyString) as [E|E].
    + destruct toks; [|done]. intros H. apply IH in H as (? & ? & Hk); try done.
      split_and!; try done. intros k. rewrite Hk, Exists_cons. intuition.
    + destruct (parse_token m (trim tok) s) as [s1|] eqn:Et; [|done].
      apply parse_token_spec in Et as (a & b & Hr & Hab & Hb & Hwf1 & Hm1 & Hk1); try done.
      intros H. apply IH in H as (? & ? & Hk); try done. split_and!; try done.
      intros k. rewrite Hk, Hk1, Exists_cons. unfold token_has at 2. rewrite Hr.
      split; [intuition (try lia)|].
      * left. left. split; [done|]. eauto.
      * intros [[[_ (? & ? & ? & ?)]|?]|?]; simplify_eq; intuition.
Qed.

Lemma parse_tokens_nonempty m toks s s' :
  wf s -> max_cores s = m -> parse_tokens m toks s = Some s' ->
  (match toks with tok :: _ => trim tok <> EmptyString | [] => False end) ->
  exists k, k ∈ get_cores s'.
Proof.
  intros Hwf Hm H Hne. destruct toks as [|tok toks]; [done|]. cbn [parse_tokens] in H.
  destruct (String.eqb_spec (trim tok) EmptyString) as [E|E]; [done|].
  destruct (parse_token m (trim tok) s) as [s1|] eqn:Et; [|done].
  apply parse_token_spec in Et as (a & b & Hr & Hab & Hb & Hwf1 & Hm1 & Hk1); try done.
  apply parse_tokens_spec in H as (_ & _ & Hk); try done.
  exists a. apply Hk. right. apply Hk1. left. lia.
Qed.

(** A printed, non-empty list of ranges parses back. *)
Lemma fmt_range_graphic a b : 0 <= a -> 0 <= b -> sforall graphic (fmt_range a b) = true.
Proof.
  intros Ha Hb. unfold fmt_range.
  destruct (_ =? _); rewrite ?sforall_sapp; cbn -[fmt_uint];
    rewrite ?andb_true_iff; split_and?; try done;
    (eapply sforall_weaken; [apply is_digit_graphic|by apply fmt_uint_digits]).
Qed.

Definition range_texts (rs : list (Z * Z)) : list string :=
  map (fun r => fmt_range (fst r) (snd r)) rs.
Definition ranges_text (rs : list (Z * Z)) : string :=
  join (String comma EmptyString) (range_texts rs).

Lemma ranges_text_nonempty rs : rs <> [] -> String.eqb (ranges_text rs) EmptyString = false.
Proof.
  intros Hrn. apply String.eqb_neq. unfold ranges_text, range_texts. intros E.
  destruct rs as [|r rs]; [done|]. cbn [map join] in E.
  pose proof (fmt_range_nonempty (fst r) (snd r)) as Hr.
  destruct (map _ rs); [by rewrite E in Hr|].
  apply sapp_eq_nil in E as [E _]. by rewrite E in Hr.
Qed.

Lemma parse_ranges rs m :
  in_u 32 m -> rs <> [] -> Forall (fun r => 0 <= fst r <= snd r /\ snd r < m) rs ->
  parse (ranges_text rs) m = Some (set_runs rs (new m)).
Proof.
  intros Hm Hrn Hrs. unfold parse.
  assert (Htrim : trimmed (ranges_text rs) = true).
  { apply sforall_trimmed with (p := graphic); [done|]. unfold ranges_text, range_texts. clear Hrn.
    induction Hrs as [|r rs' [Hr _] _ IH]; [done|].
    pose proof (fmt_range_graphic (fst r) (snd r) ltac:(lia) ltac:(lia)) as Hg.
    cbn [map join]. destruct (map _ rs') eqn:E; [done|]. by rewrite !sforall_sapp, Hg, IH. }
  rewrite trim_id, ranges_text_nonempty by done. unfold ranges_text. rewrite split_join.
  - by apply parse_tokens_fmt.
  - unfold range_texts. by destruct rs.
  - unfold range_texts. clear -Hrs. induction Hrs as [|r rs' [Hr _] _ IH]; [done|]. simpl.
    rewrite IH, fmt_range_lacks_comma by lia. done.
Qed.

(** ** Theorems *)

Module Cpus.

(** C25. Printing a non-empty set and parsing the text back, on the same machine,
    gives the set. *)
Theorem parse_fmt s :
  wf s -> is_empty s = false -> parse (fmt s) (max_cores s) = Some s.
Proof.
  intros Hwf Hne. pose proof Hwf as [Hm Hl]. unfold in_u in Hm.
  rewrite fmt_runs by lia. set (rs := runs (cores s) 0 None).
  assert (Hrs : Forall (fun r => 0 <= fst r <= snd r /\ snd r < max_cores s) rs).
  { apply List.Forall_forall. intros r Hr. apply list_elem_of_In, runs_bounds in Hr; try done. lia. }
  fold (range_texts rs) (ranges_text rs). rewrite parse_ranges; [|done| |done].
  - f_equal. apply cpuset_ext; [by apply set_runs_wf, wf_new|done|by rewrite set_runs_max|].
    intros k. rewrite get_cores_set_runs, get_cores_new by (try apply wf_new; done).
    unfold rs. rewrite runs_spec by done. unfold get_cores. intuition.
  - apply runs_nonempty. left. unfold is_empty in Hne. by apply negb_false_iff in Hne.
Qed.

(** What [parse] accepts: the result is a well-formed set over [m] CPUs, never
    empty, and holds exactly the CPUs of the tokens between the commas. *)
Theorem parse_meaning str m s :
  in_u 32 m -> parse str m = Some s ->
  wf s /\ max_cores s = m /\ is_empty s = false /\
  (forall k, k ∈ get_cores s <->
     Exists (fun t => trim t <> EmptyString /\ token_has k t) (split comma (trim str))).
Proof.
  intros Hm. unfold parse. destruct (String.eqb_spec (trim str) EmptyString) as [E|E]; [done|].
  intros H. pose proof H as H'.
  apply parse_tokens_spec in H as (Hwf & Hmax & Hk); [|by apply wf_new|done].
  split_and!; try done.
  - destruct (split comma (trim str)) as [|tok toks] eqn:Es; [by apply split_nonempty in Es|].
    destruct (decide (trim tok = EmptyString)) as [Ht|Ht].
    + exfalso. cbn [parse_tokens] in H'. rewrite Ht in H'. simpl in H'.
      destruct toks; [|done].
      assert (tok = trim str) as ->; [|by rewrite trim_idem in Ht].
      clear -Es. revert tok Es. induction (trim str) as [|a u IH]; intros tok; simpl; [congruence|].
      destruct (Ascii.eqb a comma); [intros ?; simplify_eq; by apply split_nonempty in H0|].
      destruct (split comma u) as [|h t] eqn:E; [by apply split_nonempty in E|].
      intros ?. simplify_eq. f_equal. by apply IH.
    + destruct (parse_tokens_nonempty m (tok :: toks) (new m) s) as [k Hk'];
        try done; [by apply wf_new|]. by eapply is_empty_false.
  - intros k. rewrite Hk, get_cores_new. intuition.
Qed.

(** C24. The operations are those of a set of CPUs below [max_cores]; a CPU outside
    the machine is ignored. *)
Theorem operations_refine_set s c :
  wf s -> 0 <= c ->
  to_set (set_cpu c s) = (if c <? max_cores s then {[c]} ∪ to_set s else to_set s) /\
  to_set (clear_cpu c s) = to_set s ∖ {[c]} /\
  to_set (zero s) = ∅ /\
  has_cpu c s = bool_decide (c ∈ to_set s) /\
  is_empty s = bool_decide (to_set s = ∅) /\
  wf (set_cpu c s) /\ wf (clear_cpu c s) /\ wf (zero s).
Proof.
  intros Hwf Hc. unfold to_set. split_and!; auto with ananicy.
  - apply set_eq. intros k. rewrite elem_of_list_to_set, get_cores_set_cpu by done.
    destruct (c <? max_cores s) eqn:E; zb; [set_solver by lia|]. rewrite elem_of_list_to_set.
    intuition lia.
  - apply set_eq. intros k. rewrite elem_of_list_to_set, get_cores_clear_cpu by done. set_solver.
  - apply set_eq. intros k. rewrite elem_of_list_to_set, get_cores_zero. set_solver.
  - rewrite has_cpu_in by done. apply bool_decide_ext. by rewrite elem_of_list_to_set.
  - apply eq_true_iff_eq. rewrite bool_decide_eq_true, is_empty_spec. split; [by intros ->|].
    intros H. destruct (get_cores s); [done|]. set_solver.
Qed.

(** *** Witnesses *)

Definition demo_set : CpuSet :=
  MkCpuSet 8 [true; true; true; false; false; true; false; true].
Lemma demo_set_wf : wf demo_set.
Proof. split; [unfold in_u; cbn; lia|reflexivity]. Defined.

Lemma parse_fmt_witness : parse "0-2,5,7" 8 = Some demo_set.
Proof. apply (parse_fmt demo_set demo_set_wf). reflexivity. Defined.

Lemma parse_meaning_witness :
  wf demo_set /\ max_cores demo_set = 8 /\ is_empty demo_set = false /\
  (forall k, k ∈ get_cores demo_set <->
     Exists (fun t => trim t <> EmptyString /\ token_has k t) (split comma (trim " 0-2, 5,7,"))).
Proof.
  apply (parse_meaning " 0-2, 5,7," 8 demo_set); [unfold in_u; cbn; lia|reflexivity].
Defined.

Lemma operations_refine_set_witness :
  to_set (set_cpu 3 demo_set) = {[3]} ∪ to_set demo_set /\ has_cpu 9 demo_set = false.
Proof.
  split; [apply (operations_refine_set demo_set 3 demo_set_wf)|]; [lia|reflexivity].
Defined.

End Cpus.
