(* ===== verification/Config.v ===== *)
(** * Configuration

    [crates/ananicy-core/src/config.rs]: the daemon's settings, the [key=value]
    file they are read from, the file it writes when there is none, and the cell
    a reload replaces.

    The file system is not modelled beyond what a call answers: reading gives
    the text or an error, and writing the defaults may fail. *)

From stdpp Require Import base list strings numbers.
From Stdlib Require Import ZArith Lia Ascii.
From S2P Require Import Prelude RustStr.

#[local] Open Scope Z_scope.

(** ** Log levels *)

Inductive LogLevel := Trace | Debug | Info | Warn | Error | Critical.

#[global] Instance LogLevel_eq_dec : EqDecision LogLevel.
Proof. solve_decision. Defined.

(** [to_lowercase], on the ASCII letters; no other character lower-cases to a
    letter of the level names. *)
Definition parse_with_status (s : string) : LogLevel * bool :=
  let l := smap ascii_lower s in
  if String.eqb l "trace" then (Trace, true)
  else if String.eqb l "debug" then (Debug, true)
  else if String.eqb l "info" then (Info, true)
  else if String.eqb l "warn" then (Warn, true)
  else if String.eqb l "error" then (Error, true)
  else if String.eqb l "critical" || String.eqb l "fatal" then (Critical, true)
  else (Info, false).

Definition fmt_level (l : LogLevel) : string :=
  match l with
  | Trace => "trace" | Debug => "debug" | Info => "info"
  | Warn => "warn" | Error => "error" | Critical => "critical"
  end.

Inductive ConfigDiagnostic :=
| DInfo (message : string) | DWarn (message : string) | DError (message : string).

(** ** The snapshot *)

Record ConfigSnapshot := MkConfig {
  check_freq : Z;
  check_disks_schedulers : bool;
  cgroup_load : bool;
  type_load : bool;
  rule_load : bool;
  apply_nice : bool;
  apply_latnice : bool;
  apply_ioclass : bool;
  apply_ionice : bool;
  apply_sched : bool;
  apply_oom_score_adj : bool;
  apply_cgroups : bool;
  apply_cpuset : bool;
  apply_cpu_weight : bool;
  cgroup_realtime_workaround : bool;
  x3d_mode : string;
  log_applied_rule : bool;
  loglevel : LogLevel;
}.

(** Assignment to one field. *)
Definition set_check_freq (v : Z) (c : ConfigSnapshot) : ConfigSnapshot :=
  MkConfig v (check_disks_schedulers c) (cgroup_load c) (type_load c) (rule_load c) (apply_nice
    c) (apply_latnice c) (apply_ioclass c) (apply_ionice c) (apply_sched c) (apply_oom_score_adj
    c) (apply_cgroups c) (apply_cpuset c) (apply_cpu_weight c) (cgroup_realtime_workaround c)
    (x3d_mode c) (log_applied_rule c) (loglevel c).
Definition set_check_disks_schedulers (v : bool) (c : ConfigSnapshot) : ConfigSnapshot :=
  MkConfig (check_freq c) v (cgroup_load c) (type_load c) (rule_load c) (apply_nice c)
    (apply_latnice c) (apply_ioclass c) (apply_ionice c) (apply_sched c) (apply_oom_score_adj c)
    (apply_cgroups c) (apply_cpuset c) (apply_cpu_weight c) (cgroup_realtime_workaround c)
    (x3d_mode c) (log_applied_rule c) (loglevel c).
Definition set_cgroup_load (v : bool) (c : ConfigSnapshot) : ConfigSnapshot :=
  MkConfig (check_freq c) (check_disks_schedulers c) v (type_load c) (rule_load c) (apply_nice
    c) (apply_latnice c) (apply_ioclass c) (apply_ionice c) (apply_sched c) (apply_oom_score_adj
    c) (apply_cgroups c) (apply_cpuset c) (apply_cpu_weight c) (cgroup_realtime_workaround c)
    (x3d_mode c) (log_applied_rule c) (loglevel c).
Definition set_type_load (v : bool) (c : ConfigSnapshot) : ConfigSnapshot :=
  MkConfig (check_freq c) (check_disks_schedulers c) (cgroup_load c) v (rule_load c) (apply_nice
    c) (apply_latnice c) (apply_ioclass c) (apply_ionice c) (apply_sched c) (apply_oom_score_adj
    c) (apply_cgroups c) (apply_cpuset c) (apply_cpu_weight c) (cgroup_realtime_workaround c)
    (x3d_mode c) (log_applied_rule c) (loglevel c).
Definition set_rule_load (v : bool) (c : ConfigSnapshot) : ConfigSnapshot :=
  MkConfig (check_freq c) (check_disks_schedulers c) (cgroup_load c) (type_load c) v (apply_nice
    c) (apply_latnice c) (apply_ioclass c) (apply_ionice c) (apply_sched c) (apply_oom_score_adj
    c) (apply_cgroups c) (apply_cpuset c) (apply_cpu_weight c) (cgroup_realtime_workaround c)
    (x3d_mode c) (log_applied_rule c) (loglevel c).
Definition set_apply_nice (v : bool) (c : ConfigSnapshot) : ConfigSnapshot :=
  MkConfig (check_freq c) (check_disks_schedulers c) (cgroup_load c) (type_load c) (rule_load c)
    v (apply_latnice c) (apply_ioclass c) (apply_ionice c) (apply_sched c) (apply_oom_score_adj
    c) (apply_cgroups c) (apply_cpuset c) (apply_cpu_weight c) (cgroup_realtime_workaround c)
    (x3d_mode c) (log_applied_rule c) (loglevel c).
Definition set_apply_latnice (v : bool) (c : ConfigSnapshot) : ConfigSnapshot :=
  MkConfig (check_freq c) (check_disks_schedulers c) (cgroup_load c) (type_load c) (rule_load c)
    (apply_nice c) v (apply_ioclass c) (apply_ionice c) (apply_sched c) (apply_oom_score_adj c)
    (apply_cgroups c) (apply_cpuset c) (apply_cpu_weight c) (cgroup_realtime_workaround c)
    (x3d_mode c) (log_applied_rule c) (loglevel c).
Definition set_apply_ioclass (v : bool) (c : ConfigSnapshot) : ConfigSnapshot :=
  MkConfig (check_freq c) (check_disks_schedulers c) (cgroup_load c) (type_load c) (rule_load c)
    (apply_nice c) (apply_latnice c) v (apply_ionice c) (apply_sched c) (apply_oom_score_adj c)
    (apply_cgroups c) (apply_cpuset c) (apply_cpu_weight c) (cgroup_realtime_workaround c)
    (x3d_mode c) (log_applied_rule c) (loglevel c).
Definition set_apply_ionice (v : bool) (c : ConfigSnapshot) : ConfigSnapshot :=
  MkConfig (check_freq c) (check_disks_schedulers c) (cgroup_load c) (type_load c) (rule_load c)
    (apply_nice c) (apply_latnice c) (apply_ioclass c) v (apply_sched c) (apply_oom_score_adj c)
    (apply_cgroups c) (apply_cpuset c) (apply_cpu_weight c) (cgroup_realtime_workaround c)
    (x3d_mode c) (log_applied_rule c) (loglevel c).
Definition set_apply_sched (v : bool) (c : ConfigSnapshot) : ConfigSnapshot :=
  MkConfig (check_freq c) (check_disks_schedulers c) (cgroup_load c) (type_load c) (rule_load c)
    (apply_nice c) (apply_latnice c) (apply_ioclass c) (apply_ionice c) v (apply_oom_score_adj
    c) (apply_cgroups c) (apply_cpuset c) (apply_cpu_weight c) (cgroup_realtime_workaround c)
    (x3d_mode c) (log_applied_rule c) (loglevel c).
Definition set_apply_oom_score_adj (v : bool) (c : ConfigSnapshot) : ConfigSnapshot :=
  MkConfig (check_freq c) (check_disks_schedulers c) (cgroup_load c) (type_load c) (rule_load c)
    (apply_nice c) (apply_latnice c) (apply_ioclass c) (apply_ionice c) (apply_sched c) v
    (apply_cgroups c) (apply_cpuset c) (apply_cpu_weight c) (cgroup_realtime_workaround c)
    (x3d_mode c) (log_applied_rule c) (loglevel c).
Definition set_apply_cgroups (v : bool) (c : ConfigSnapshot) : ConfigSnapshot :=
  MkConfig (check_freq c) (check_disks_schedulers c) (cgroup_load c) (type_load c) (rule_load c)
    (apply_nice c) (apply_latnice c) (apply_ioclass c) (apply_ionice c) (apply_sched c)
    (apply_oom_score_adj c) v (apply_cpuset c) (apply_cpu_weight c) (cgroup_realtime_workaround
    c) (x3d_mode c) (log_applied_rule c) (loglevel c).
Definition set_apply_cpuset (v : bool) (c : ConfigSnapshot) : ConfigSnapshot :=
  MkConfig (check_freq c) (check_disks_schedulers c) (cgroup_load c) (type_load c) (rule_load c)
    (apply_nice c) (apply_latnice c) (apply_ioclass c) (apply_ionice c) (apply_sched c)
    (apply_oom_score_adj c) (apply_cgroups c) v (apply_cpu_weight c) (cgroup_realtime_workaround
    c) (x3d_mode c) (log_applied_rule c) (loglevel c).
Definition set_apply_cpu_weight (v : bool) (c : ConfigSnapshot) : ConfigSnapshot :=
  MkConfig (check_freq c) (check_disks_schedulers c) (cgroup_load c) (type_load c) (rule_load c)
    (apply_nice c) (apply_latnice c) (apply_ioclass c) (apply_ionice c) (apply_sched c)
    (apply_oom_score_adj c) (apply_cgroups c) (apply_cpuset c) v (cgroup_realtime_workaround c)
    (x3d_mode c) (log_applied_rule c) (loglevel c).
Definition set_cgroup_realtime_workaround (v : bool) (c : ConfigSnapshot) : ConfigSnapshot :=
  MkConfig (check_freq c) (check_disks_schedulers c) (cgroup_load c) (type_load c) (rule_load c)
    (apply_nice c) (apply_latnice c) (apply_ioclass c) (apply_ionice c) (apply_sched c)
    (apply_oom_score_adj c) (apply_cgroups c) (apply_cpuset c) (apply_cpu_weight c) v (x3d_mode
    c) (log_applied_rule c) (loglevel c).
Definition set_x3d_mode (v : string) (c : ConfigSnapshot) : ConfigSnapshot :=
  MkConfig (check_freq c) (check_disks_schedulers c) (cgroup_load c) (type_load c) (rule_load c)
    (apply_nice c) (apply_latnice c) (apply_ioclass c) (apply_ionice c) (apply_sched c)
    (apply_oom_score_adj c) (apply_cgroups c) (apply_cpuset c) (apply_cpu_weight c)
    (cgroup_realtime_workaround c) v (log_applied_rule c) (loglevel c).
Definition set_log_applied_rule (v : bool) (c : ConfigSnapshot) : ConfigSnapshot :=
  MkConfig (check_freq c) (check_disks_schedulers c) (cgroup_load c) (type_load c) (rule_load c)
    (apply_nice c) (apply_latnice c) (apply_ioclass c) (apply_ionice c) (apply_sched c)
    (apply_oom_score_adj c) (apply_cgroups c) (apply_cpuset c) (apply_cpu_weight c)
    (cgroup_realtime_workaround c) (x3d_mode c) v (loglevel c).
Definition set_loglevel (v : LogLevel) (c : ConfigSnapshot) : ConfigSnapshot :=
  MkConfig (check_freq c) (check_disks_schedulers c) (cgroup_load c) (type_load c) (rule_load c)
    (apply_nice c) (apply_latnice c) (apply_ioclass c) (apply_ionice c) (apply_sched c)
    (apply_oom_score_adj c) (apply_cgroups c) (apply_cpuset c) (apply_cpu_weight c)
    (cgroup_realtime_workaround c) (x3d_mode c) (log_applied_rule c) v.

Definition default : ConfigSnapshot :=
  MkConfig 60 true true true true true true true true true true true true true true "auto"
    false Info.

(** ** Parsing *)

Definition is_true (value : string) : bool := String.eqb value "true".

(** The [match key] of the loop, for one key and its value. *)
Definition apply_key (key value : string) (st : ConfigSnapshot * list ConfigDiagnostic)
    : ConfigSnapshot * list ConfigDiagnostic :=
  let '(config, diagnostics) := st in
  if String.eqb key "check_freq" then
    match parse_u32 value with
    | Some freq =>
        if freq =? 0 then
          (config, diagnostics ++ [DError (sapp
             "Invalid check_freq value: 0 (the full scan interval must be "
             "at least 1 second)")])
        else (set_check_freq freq config, diagnostics)
    | None => (config, diagnostics ++ [DError (sapp "Invalid check_freq value: " value)])
    end
  else if String.eqb key "cgroup_load" then (set_cgroup_load (is_true value) config, diagnostics)
  else if String.eqb key "check_disks_schedulers" then
    (set_check_disks_schedulers (is_true value) config, diagnostics)
  else if String.eqb key "type_load" then (set_type_load (is_true value) config, diagnostics)
  else if String.eqb key "rule_load" then (set_rule_load (is_true value) config, diagnostics)
  else if String.eqb key "apply_nice" then (set_apply_nice (is_true value) config, diagnostics)
  else if String.eqb key "apply_latnice" then
    (set_apply_latnice (is_true value) config, diagnostics)
  else if String.eqb key "apply_ioclass" then
    (set_apply_ioclass (is_true value) config, diagnostics)
  else if String.eqb key "apply_ionice" then
    (set_apply_ionice (is_true value) config, diagnostics)
  else if String.eqb key "apply_sched" then (set_apply_sched (is_true value) config, diagnostics)
  else if String.eqb key "apply_oom_score_adj" then
    (set_apply_oom_score_adj (is_true value) config, diagnostics)
  else if String.eqb key "apply_cgroup" then
    (set_apply_cgroups (is_true value) config, diagnostics)
  else if String.eqb key "apply_cpuset" then
    (set_apply_cpuset (is_true value) config, diagnostics)
  else if String.eqb key "apply_cpu_weight" then
    (set_apply_cpu_weight (is_true value) config, diagnostics)
  else if String.eqb key "cgroup_realtime_workaround" then
    (set_cgroup_realtime_workaround (is_true value) config, diagnostics)
  else if String.eqb key "x3d_mode" then (set_x3d_mode value config, diagnostics)
  else if String.eqb key "log_applied_rule" then
    (set_log_applied_rule (is_true value) config, diagnostics)
  else if String.eqb key "loglevel" then
    let '(level, valid) := parse_with_status value in
    (set_loglevel level config,
     if valid then diagnostics
     else diagnostics ++ [DWarn (sapp "Unknown loglevel '"
                                   (sapp value "', falling back to info"))])
  else (config, diagnostics ++ [DWarn (sapp "Unknown config key: " key)]).

Definition parse_line (st : ConfigSnapshot * list ConfigDiagnostic) (line : string)
    : ConfigSnapshot * list ConfigDiagnostic :=
  let line := trim line in
  if String.eqb line EmptyString || starts_with "#" line then st
  else match split_once "="%char line with
       | Some (key, value) => apply_key (trim key) (trim value) st
       | None => st
       end.

(** [parse_file_with_diagnostics], from the text of the file on. *)
Definition parse_content (content : string) : ConfigSnapshot * list ConfigDiagnostic :=
  foldl parse_line (default, []) (lines content).

(** ** Writing *)

Definition fmt_bool (b : bool) : string := if b then "true" else "false".
Definition kv (key value : string) : string := sapp key (String "="%char value).

Definition config_lines (c : ConfigSnapshot) : list string :=
  ["# Generated by ananicy-rs";
   kv "apply_nice" (fmt_bool (apply_nice c));
   kv "apply_sched" (fmt_bool (apply_sched c));
   kv "apply_ionice" (fmt_bool (apply_ionice c));
   kv "apply_oom_score_adj" (fmt_bool (apply_oom_score_adj c));
   kv "apply_latnice" (fmt_bool (apply_latnice c));
   kv "log_applied_rule" (fmt_bool (log_applied_rule c));
   kv "cgroup_load" (fmt_bool (cgroup_load c));
   kv "type_load" (fmt_bool (type_load c));
   kv "rule_load" (fmt_bool (rule_load c));
   kv "cgroup_realtime_workaround" (fmt_bool (cgroup_realtime_workaround c));
   kv "apply_cgroup" (fmt_bool (apply_cgroups c));
   kv "apply_cpuset" (fmt_bool (apply_cpuset c));
   kv "apply_cpu_weight" (fmt_bool (apply_cpu_weight c));
   kv "x3d_mode" (x3d_mode c);
   kv "loglevel" (fmt_level (loglevel c));
   kv "check_freq" (fmt_uint (check_freq c));
   kv "check_disks_schedulers" (fmt_bool (check_disks_schedulers c))].

Fixpoint unlines (l : list string) : string :=
  match l with [] => EmptyString | x :: l => sapp x (String lf (unlines l)) end.

Definition to_config_string (c : ConfigSnapshot) : string := unlines (config_lines c).

(** ** Loading and reloading *)

Inductive io_error := NotFound | OtherError (text : string).

(** What the file system does during a load: the read, and for the defaults
    the creation of a missing parent directory ([None]: not needed or done) and
    the write ([None]: done). *)
Record config_fs := ConfigFs {
  fs_path : string;
  fs_read : string + io_error;
  fs_parent : string;
  fs_create_dir_err : option string;
  fs_write_err : option string;
}.

Definition load_defaults (fs : config_fs) (latnice_supported : bool)
    : ConfigSnapshot * list ConfigDiagnostic :=
  let snapshot := if latnice_supported then default else set_apply_latnice false default in
  (snapshot,
   [DInfo (sapp "Configuration file " (sapp (fs_path fs) " does not exist; using defaults"));
    DInfo (sapp "Default config:" (String lf (to_config_string snapshot)));
    DInfo (sapp "Writing default config to " (fs_path fs))] ++
   match fs_create_dir_err fs with
   | Some e => [DError (sapp "Cannot create config directory " (sapp (fs_parent fs) (sapp ": " e)))]
   | None => []
   end ++
   match fs_write_err fs with
   | Some e => [DError (sapp "Cannot write config to " (sapp (fs_path fs) (sapp ": " e)))]
   | None => []
   end).

(** [load_file_with_diagnostics]: the configuration with its diagnostics, and
    the text left in the file when this call wrote it. *)
Definition load_file (fs : config_fs) (latnice_supported : bool)
    : (ConfigSnapshot * list ConfigDiagnostic * option string) + io_error :=
  match fs_read fs with
  | inl content =>
      let '(snapshot, diagnostics) := parse_content content in
      inl (if latnice_supported then snapshot else set_apply_latnice false snapshot,
           diagnostics, None)
  | inr NotFound =>
      let '(snapshot, diagnostics) := load_defaults fs latnice_supported in
      inl (if latnice_supported then snapshot else set_apply_latnice false snapshot, diagnostics,
           match fs_write_err fs with
           | None => Some (to_config_string snapshot)
           | Some _ => None
           end)
  | inr e => inr e
  end.

(** [reload_file_with_diagnostics]: the new value of the cell, or the error that
    leaves it alone. *)
Definition reload_file (read : string + io_error) (latnice_supported : bool)
    (cell : ConfigSnapshot) : ConfigSnapshot * (list ConfigDiagnostic + io_error) :=
  match read with
  | inr e => (cell, inr e)
  | inl content =>
      let '(snapshot, diagnostics) := parse_content content in
      (if latnice_supported then snapshot else set_apply_latnice false snapshot, inl diagnostics)
  end.

(** ** Lemmas *)

Definition key_char (a : ascii) : bool := graphic a && negb (Ascii.eqb a "="%char).
Definition key_ok (key : string) : bool :=
  sforall key_char key && negb (String.eqb key EmptyString) && negb (starts_with "#" key).

Lemma trimmed_kv key value : key_ok key = true -> trimmed value = true -> trimmed (kv key value) = true.
Proof.
  unfold key_ok, trimmed, kv. rewrite !andb_true_iff, !negb_true_iff.
  intros [[Hk Hne] _] [_ Hv]. destruct key as [|a key]; [done|].
  simpl in Hk. apply andb_true_iff in Hk as [[Ha _]%andb_true_iff _]. split; [done|].
  rewrite srev_sapp, srev_cons. by destruct (srev value).
Qed.

(** A [key=value] line is the assignment it reads as. *)
Lemma parse_line_kv st key value :
  key_ok key = true -> trimmed value = true ->
  parse_line st (kv key value) = apply_key key value st.
Proof.
  intros Hk Hv. unfold parse_line. rewrite trim_id by (by apply trimmed_kv).
  unfold key_ok in Hk. rewrite !andb_true_iff, !negb_true_iff in Hk.
  destruct Hk as [[Hk Hne] Hh]. destruct key as [|a key]; [discriminate Hne|].
  assert (starts_with "#" (kv (String a key) value) = false) as ->.
  { unfold starts_with, kv in *. cbn [strip_prefix sapp] in *.
    by destruct (Ascii.eqb "#" a). }
  assert (Hl : lacks "="%char (String a key) = true).
  { eapply sforall_weaken; [|exact Hk]. intros c [_ ?]%andb_true_iff. done. }
  change (String.eqb (kv (String a key) value) EmptyString) with false. cbn [orb].
  unfold kv. rewrite split_once_sapp by done.
  rewrite !trim_id; try done.
  apply sforall_trimmed with (p := key_char); [|done]. by intros c [? _]%andb_true_iff.
Qed.

Lemma strip_cr_id x : starts_graphic (srev x) = true -> strip_cr x = x.
Proof.
  intros H. unfold strip_cr, strip_suffix. destruct (srev x) as [|a r]; [done|].
  cbn [srev srev_onto strip_prefix]. destruct (Ascii.eqb_spec cr a) as [<-|]; [|done].
  vm_compute in H. done.
Qed.

Lemma split_unlines l :
  forallb (lacks lf) l = true -> split lf (unlines l) = l ++ [EmptyString].
Proof.
  induction l as [|x l IH]; [done|]. simpl forallb. intros [Hx Hl]%andb_true_iff.
  cbn [unlines]. rewrite split_sapp by done. simpl. by rewrite IH.
Qed.

Lemma lines_of_pieces_app l : lines_of_pieces (l ++ [EmptyString]) = map strip_cr l.
Proof.
  induction l as [|x l IH]; [done|]. cbn [map]. rewrite <- IH.
  cbn [app]. destruct (l ++ [EmptyString]) eqn:E; [|done].
  by apply app_eq_nil in E as [_ ?].
Qed.

(** Lines that end in a graphic character and hold no line feed come back. *)
Lemma lines_unlines l :
  forallb (fun x => lacks lf x && starts_graphic (srev x)) l = true -> lines (unlines l) = l.
Proof.
  intros H. unfold lines. rewrite split_unlines, lines_of_pieces_app.
  - induction l as [|x l IH]; [done|]. simpl in *. apply andb_true_iff in H as [Hx Hl].
    apply andb_true_iff in Hx as [_ Hx]. by rewrite strip_cr_id, IH.
  - induction l as [|x l IH]; [done|]. simpl in *. apply andb_true_iff in H as [Hx Hl].
    apply andb_true_iff in Hx as [Hx _]. by rewrite Hx, IH.
Qed.

Lemma fmt_bool_trimmed b : trimmed (fmt_bool b) = true.
Proof. by destruct b. Qed.
Lemma fmt_uint_trimmed z : 0 <= z -> trimmed (fmt_uint z) = true.
Proof.
  intros H. apply sforall_trimmed with (p := is_digit); [apply is_digit_graphic|].
  by apply fmt_uint_digits.
Qed.

Lemma lacks_kv key value : lacks lf key = true -> lacks lf value = true -> lacks lf (kv key value) = true.
Proof. intros Hk Hv. unfold kv. by rewrite lacks_sapp, Hk. Qed.
Lemma line_kv key value :
  key_ok key = true -> lacks lf key = true -> trimmed value = true -> lacks lf value = true ->
  lacks lf (kv key value) && starts_graphic (srev (kv key value)) = true.
Proof.
  intros Hk Hl Hv Hlv. rewrite lacks_kv by done.
  pose proof (trimmed_kv key value Hk Hv) as Ht.
  by apply andb_true_iff in Ht as [_ ->].
Qed.

(** A snapshot the file format can carry: the interval is a non-zero [u32] and
    the mode is one word of a line. *)
Definition writable (c : ConfigSnapshot) : Prop :=
  1 <= check_freq c < 2 ^ 32 /\ trimmed (x3d_mode c) = true /\ lacks lf (x3d_mode c) = true.

Lemma config_lines_ok c :
  writable c ->
  forallb (fun x => lacks lf x && starts_graphic (srev x)) (config_lines c) = true.
Proof.
  intros (Hf & Ht & Hl). 
  assert (lacks lf (fmt_uint (check_freq c)) = true) by (apply fmt_uint_lacks; [done|lia]).
  assert (trimmed (fmt_uint (check_freq c)) = true) by (apply fmt_uint_trimmed; lia).
  assert (forall b, lacks lf (fmt_bool b) = true) by (by intros []).
  assert (forall b, trimmed (fmt_bool b) = true) by apply fmt_bool_trimmed.
  apply forallb_forall. intros x. unfold config_lines. cbn [In]. intros Hin.
  repeat destruct Hin as [<-|Hin]; first [done|apply line_kv; by try destruct (loglevel c)].
Qed.

Lemma apply_check_freq f st :
  1 <= f < 2 ^ 32 -> apply_key "check_freq" (fmt_uint f) st = (set_check_freq f (fst st), snd st).
Proof.
  intros Hf. destruct st as [c d]. unfold apply_key. cbn [String.eqb].
  change (String.eqb "check_freq" "check_freq") with true. cbn iota.
  unfold parse_u32. rewrite parse_fmt_uint by (unfold in_u; lia).
  rewrite (proj2 (Z.eqb_neq f 0)) by lia. done.
Qed.

Lemma apply_loglevel l st :
  apply_key "loglevel" (fmt_level l) st = (set_loglevel l (fst st), snd st).
Proof. destruct st. by destruct l. Qed.

Lemma apply_x3d v st : apply_key "x3d_mode" v st = (set_x3d_mode v (fst st), snd st).
Proof. by destruct st. Qed.

Lemma is_true_fmt b : is_true (fmt_bool b) = b.
Proof. by destruct b. Qed.

Lemma parse_comment st : parse_line st "# Generated by ananicy-rs" = st.
Proof. by destruct st. Qed.

(** Evaluate assignments to literal keys. *)
Ltac eval_assign :=
  cbv [apply_key String.eqb Ascii.eqb Bool.eqb fst snd default
    set_check_freq set_check_disks_schedulers set_cgroup_load set_type_load set_rule_load
    set_apply_nice set_apply_latnice set_apply_ioclass set_apply_ionice set_apply_sched
    set_apply_oom_score_adj set_apply_cgroups set_apply_cpuset set_apply_cpu_weight
    set_cgroup_realtime_workaround set_x3d_mode set_log_applied_rule set_loglevel
    check_freq check_disks_schedulers cgroup_load type_load rule_load apply_nice
    apply_latnice apply_ioclass apply_ionice apply_sched apply_oom_score_adj apply_cgroups
    apply_cpuset apply_cpu_weight cgroup_realtime_workaround x3d_mode log_applied_rule
    loglevel].

Lemma parse_config_lines c :
  writable c -> foldl parse_line (default, []) (config_lines c) = (set_apply_ioclass true c, []).
Proof.
  intros (Hf & Ht & _). unfold config_lines. cbn [foldl]. rewrite parse_comment.
  repeat rewrite parse_line_kv by
    first [done|apply fmt_bool_trimmed|by destruct (loglevel c)|apply fmt_uint_trimmed; lia].
  rewrite apply_check_freq, apply_loglevel, apply_x3d by done.
  destruct c. eval_assign. by rewrite !is_true_fmt.
Qed.

(** The scan interval is at least a second in every state of the parser. *)
Definition freq_ok (c : ConfigSnapshot) : Prop := 1 <= check_freq c < 2 ^ 32.

(** What one assignment can do: it keeps the interval valid, never drops a
    diagnostic, and adds at most one. *)
Definition step_ok (st st' : ConfigSnapshot * list ConfigDiagnostic) : Prop :=
  (freq_ok (fst st) -> freq_ok (fst st')) /\
  (snd st' = snd st \/ exists d, snd st' = snd st ++ [d]).

Lemma apply_key_ok key value st : step_ok st (apply_key key value st).
Proof.
  destruct st as [c d]. unfold apply_key, step_ok.
  repeat first
    [ progress cbn [fst snd] | case_match ]; simplify_eq; split; auto; eauto.
  intros _. unfold freq_ok, set_check_freq. cbn [check_freq].
  match goal with H : parse_u32 _ = Some _ |- _ => apply parse_uint_in in H; [|lia] end.
  unfold in_u in *. lia.
Qed.

Lemma parse_line_ok st line : step_ok st (parse_line st line).
Proof.
  unfold parse_line. cases_if; [by split; auto|].
  destruct (split_once _ _) as [[k v]|]; [apply apply_key_ok|by split; auto].
Qed.

Lemma foldl_parse_ok ls st :
  freq_ok (fst st) ->
  freq_ok (fst (foldl parse_line st ls)) /\
  exists ds, snd (foldl parse_line st ls) = snd st ++ ds /\ (length ds <= length ls)%nat.
Proof.
  revert st. induction ls as [|l ls IH]; intros st Hst; cbn [foldl].
  { split; [done|]. exists []. by rewrite app_nil_r. }
  destruct (parse_line_ok st l) as [Hf Hd].
  destruct (IH (parse_line st l) (Hf Hst)) as (? & ds & -> & ?). split; [done|].
  destruct Hd as [->|[d ->]].
  - exists ds. split; [done|]. simpl. lia.
  - exists (d :: ds). rewrite <- app_assoc. split; [done|]. simpl. lia.
Qed.

Lemma default_freq_ok : freq_ok default.
Proof. unfold freq_ok. simpl. lia. Qed.

Lemma default_writable b : writable (set_apply_latnice b default).
Proof. split; [simpl; lia|by split]. Qed.

Lemma parse_written c :
  writable c -> parse_content (to_config_string c) = (set_apply_ioclass true c, []).
Proof.
  intros Hc. unfold parse_content, to_config_string.
  rewrite lines_unlines by (by apply config_lines_ok). by apply parse_config_lines.
Qed.

(** ** Properties *)
Module Settings.

(** C26. Writing a snapshot and reading it back gives the snapshot, with no
    diagnostic and [apply_ioclass], which the writer omits, at its default. *)
Theorem config_roundtrip (c : ConfigSnapshot) :
  writable c -> parse_content (to_config_string c) = (set_apply_ioclass true c, []).
Proof. apply parse_written. Qed.

Definition demo_config : ConfigSnapshot :=
  MkConfig 4294967295 false true false true false true false true false true false true
    false true "frequency" true Critical.

Lemma config_roundtrip_witness :
  writable demo_config /\
  parse_content (to_config_string demo_config) = (set_apply_ioclass true demo_config, []).
Proof.
  assert (H : writable demo_config) by (split; [simpl; lia|by split]).
  split; [exact H|exact (config_roundtrip demo_config H)].
Defined.

(** Whatever the file holds, the scan interval that comes out is between one
    second and the [u32] maximum, and there is at most one diagnostic per line. *)
Theorem parsed_interval_valid (content : string) :
  let '(config, diagnostics) := parse_content content in
  1 <= check_freq config < 2 ^ 32 /\
  (length diagnostics <= length (lines content))%nat.
Proof.
  unfold parse_content.
  destruct (foldl_parse_ok (lines content) (default, []) default_freq_ok) as (H & ds & E & L).
  destruct (foldl _ _ _) as [c d]. cbn [fst snd app] in *. subst. by split.
Qed.

(** Starting without a configuration file and starting again on the file that
    first start wrote give the same settings, and the second start has nothing
    to report. *)
Theorem first_start_reproducible (fs fs' : config_fs) (latnice : bool)
    (c : ConfigSnapshot) (ds : list ConfigDiagnostic) (text : string) :
  fs_read fs = inr NotFound -> load_file fs latnice = inl (c, ds, Some text) ->
  fs_read fs' = inl text -> load_file fs' latnice = inl (c, [], None).
Proof.
  unfold load_file, load_defaults. intros -> H ->.
  destruct (fs_write_err fs); [by destruct latnice|].
  assert (Hw := parse_written _ (default_writable latnice)).
  destruct latnice; injection H as <- _ <-.
  - change default with (set_apply_latnice true default) at 1. by rewrite Hw.
  - by rewrite Hw.
Qed.

Definition demo_fs (r : string + io_error) : config_fs :=
  ConfigFs "/etc/ananicy.d/ananicy.conf" r "/etc/ananicy.d" None None.

Lemma first_start_reproducible_witness :
  load_file (demo_fs (inl (to_config_string (set_apply_latnice false default)))) false =
    inl (set_apply_latnice false default, [], None).
Proof.
  eapply (first_start_reproducible (demo_fs (inr NotFound))); [reflexivity|reflexivity|].
  reflexivity.
Defined.

(** On a kernel without latency nice neither a start nor a reload leaves
    [apply_latnice] on, and a reload that cannot read the file changes
    nothing. *)
Theorem latnice_gated (fs : config_fs) (read : string + io_error) (cell : ConfigSnapshot) :
  match load_file fs false with
  | inl (c, _, _) => apply_latnice c = false
  | inr _ => True
  end /\
  match reload_file read false cell with
  | (cell', inl _) => apply_latnice cell' = false /\ freq_ok cell'
  | (cell', inr _) => cell' = cell
  end.
Proof.
  split.
  - unfold load_file. destruct (fs_read fs) as [text|[|]]; [|done|done].
    by destruct (parse_content text).
  - unfold reload_file. destruct read as [text|]; [|done].
    destruct (parse_content text) as [c ds] eqn:E. split; [done|].
    destruct (foldl_parse_ok (lines text) (default, []) default_freq_ok) as [H _].
    unfold parse_content in E. by rewrite E in H.
Qed.

End Settings.
