(* ===== verification/Json.v ===== *)
(** * JSON values

    The [serde_json::Value] the rule loader works on: the data type, the
    accessors the sources call, and the map an object holds.  The parser itself
    belongs to the [serde_json] crate and is a parameter where it is used.

    An object is a [BTreeMap], that is, a list of entries in key order; a [str]
    is ordered by its bytes.  [merge_patch] is RFC 7396, which the documentation
    of the rule format refers to. *)

From stdpp Require Import base list strings numbers.
From Stdlib Require Import ZArith Lia.
From S2P Require Import Prelude RustStr.

#[local] Open Scope Z_scope.

(** A number is a [u64], a negative [i64] or a float (kept as written). *)
Inductive Number := PosInt (n : Z) | NegInt (n : Z) | Float (text : string).

#[warnings="-register-all"]
Inductive Value :=
| VNull
| VBool (b : bool)
| VNumber (n : Number)
| VString (s : string)
| VArray (l : list Value)
| VObject (entries : list (string * Value)).

Definition as_i64 (n : Number) : option Z :=
  match n with
  | PosInt n => if n <? 2 ^ 63 then Some n else None
  | NegInt n => Some n
  | Float _ => None
  end.
Definition as_u64 (n : Number) : option Z :=
  match n with PosInt n => Some n | _ => None end.
(** [Value::from] of an integer. *)
Definition of_int (z : Z) : Value := VNumber (if z <? 0 then NegInt z else PosInt z).

(** ** Objects *)

Fixpoint map_get {A} (k : string) (l : list (string * A)) : option A :=
  match l with
  | [] => None
  | (k', v) :: l => if String.eqb k k' then Some v else map_get k l
  end.

Fixpoint map_insert {A} (k : string) (v : A) (l : list (string * A)) : list (string * A) :=
  match l with
  | [] => [(k, v)]
  | (k', v') :: l =>
      match String.compare k k' with
      | Eq => (k', v) :: l
      | Lt => (k, v) :: (k', v') :: l
      | Gt => (k', v') :: map_insert k v l
      end
  end.

Fixpoint map_remove {A} (k : string) (l : list (string * A)) : list (string * A) :=
  match l with
  | [] => []
  | (k', v') :: l => if String.eqb k k' then map_remove k l else (k', v') :: map_remove k l
  end.

Definition as_object (v : Value) : option (list (string * Value)) :=
  match v with VObject l => Some l | _ => None end.
Definition get (k : string) (v : Value) : option Value :=
  match v with VObject l => map_get k l | _ => None end.
Definition as_str (v : Value) : option string :=
  match v with VString s => Some s | _ => None end.

(** ** RFC 7396 *)

Fixpoint merge_patch (target patch : Value) {struct patch} : Value :=
  match patch with
  | VObject p =>
      VObject
        ((fix go (p : list (string * Value)) (acc : list (string * Value)) :=
            match p with
            | [] => acc
            | (k, VNull) :: p => go p (map_remove k acc)
            | (k, v) :: p =>
                go p (map_insert k
                        (merge_patch (match map_get k acc with Some w => w | None => VNull end) v)
                        acc)
            end) p (match target with VObject t => t | _ => [] end))
  | v => v
  end.

(** ** Lemmas *)

Lemma compare_refl k : String.compare k k = Eq.
Proof.
  induction k as [|a k IH]; [done|]. simpl. unfold Ascii.compare.
  by rewrite N.compare_refl.
Qed.

Lemma map_get_insert_eq {A} k (v : A) l : map_get k (map_insert k v l) = Some v.
Proof.
  induction l as [|[k' v'] l IH]; simpl; [by rewrite String.eqb_refl|].
  destruct (String.compare k k') eqn:E; simpl.
  - apply String.compare_eq_iff in E as ->. by rewrite String.eqb_refl.
  - by rewrite String.eqb_refl.
  - destruct (String.eqb_spec k k') as [->|]; [|done].
    by rewrite compare_refl in E.
Qed.

Lemma map_get_insert_ne {A} j k (v : A) l : j <> k -> map_get j (map_insert k v l) = map_get j l.
Proof.
  intros Hjk. induction l as [|[k' v'] l IH]; simpl.
  - by rewrite (proj2 (String.eqb_neq j k)).
  - destruct (String.compare k k') eqn:E; simpl.
    + apply String.compare_eq_iff in E as ->. by rewrite (proj2 (String.eqb_neq j k')).
    + by rewrite (proj2 (String.eqb_neq j k)).
    + by rewrite IH.
Qed.

Lemma map_get_insert {A} j k (v : A) l :
  map_get j (map_insert k v l) = if String.eqb j k then Some v else map_get j l.
Proof.
  destruct (String.eqb_spec j k) as [->|]; [apply map_get_insert_eq|by apply map_get_insert_ne].
Qed.

Lemma map_get_remove {A} j k (l : list (string * A)) :
  map_get j (map_remove k l) = if String.eqb j k then None else map_get j l.
Proof.
  induction l as [|[k' v'] l IH]; simpl; [by destruct (String.eqb j k)|].
  destruct (String.eqb_spec k k') as [->|]; simpl; rewrite IH.
  - by destruct (String.eqb_spec j k').
  - destruct (String.eqb_spec j k'), (String.eqb_spec j k); congruence.
Qed.

Lemma map_get_filter {A} (p : string -> bool) j (l : list (string * A)) :
  map_get j (filter (fun e => p (fst e) = true) l) = if p j then map_get j l else None.
Proof.
  induction l as [|[k v] l IH]; [by destruct (p j)|].
  rewrite filter_cons. cbn [fst]. case_decide as Hp; simpl; rewrite IH;
    destruct (String.eqb_spec j k) as [->|]; try done.
  - by rewrite Hp.
  - by destruct (p k).
Qed.

Lemma map_get_none {A} k (l : list (string * A)) : map_get k l = None <-> k ∉ l.*1.
Proof.
  induction l as [|[k' v] l IH]; simpl.
  - split; [intros _; apply not_elem_of_nil|done].
  - rewrite not_elem_of_cons. destruct (String.eqb_spec k k') as [->|]; [naive_solver|].
    rewrite IH. naive_solver.
Qed.

Lemma map_get_head {A} k (v : A) l : map_get k ((k, v) :: l) = Some v.
Proof. simpl. by rewrite String.eqb_refl. Qed.

(** What a merge holds under a key. *)
Definition merged (old : option Value) (new : option Value) : option Value :=
  match new with
  | None => old
  | Some VNull => None
  | Some v => Some (merge_patch (match old with Some w => w | None => VNull end) v)
  end.

Lemma get_merge_patch k t p :
  NoDup p.*1 ->
  get k (merge_patch t (VObject p)) = merged (get k t) (map_get k p).
Proof.
  intros Hnd. cbn [merge_patch get].
  assert (get k t = map_get k (match t with VObject t => t | _ => [] end)) as -> by (by destruct t).
  generalize (match t with VObject t => t | _ => [] end) as acc. clear t.
  induction p as [|[k' v] p IH]; intros acc; [done|].
  cbn [fmap list_fmap fst] in Hnd. apply list.NoDup_cons in Hnd as [Hk Hnd].
  assert (Hp : map_get k' p = None) by (by apply map_get_none).
  assert (Hstep : forall acc',
    map_get k acc' = (if String.eqb k k' then merged (map_get k acc) (Some v) else map_get k acc) ->
    merged (map_get k acc') (map_get k p) = merged (map_get k acc) (map_get k ((k', v) :: p))).
  { intros acc' ->. simpl. by destruct (String.eqb_spec k k') as [->|]; [rewrite Hp|]. }
  destruct v; (rewrite IH by done); apply Hstep; rewrite ?map_get_remove, ?map_get_insert;
    by destruct (String.eqb_spec k k') as [->|].
Qed.
