(* ===== verification/LruCache.v ===== *)
(** * The least-recently-used cache

    [lru::LruCache] as the sources use it: a class with the operations they call
    and the documented behaviour of the crate as laws, and one implementation
    that meets them. *)

From stdpp Require Import base list gmap numbers.
From Stdlib Require Import ZArith Lia.
From S2P Require Import Prelude.

(** [lru::LruCache<K, V>].  [lru_peek] is what the cache holds; reading an entry
    moves it to the front and changes nothing it holds, storing one may evict
    another, and there are never more than the capacity. *)
Class Lru (K V : Type) := {
  LruCache : Type;
  lru_new : nat -> LruCache;
  lru_get : K -> LruCache -> LruCache * option V;
  lru_put : K -> V -> LruCache -> LruCache;
  lru_pop : K -> LruCache -> LruCache;
  lru_clear : LruCache -> LruCache;
  lru_len : LruCache -> nat;
  lru_cap : LruCache -> nat;
  lru_peek : K -> LruCache -> option V;
}.
Arguments LruCache K V {_}.

Class LruLaws (K V : Type) `{Lru K V} := {
  peek_new : forall k n, lru_peek k (lru_new n) = None;
  peek_clear : forall k c, lru_peek k (lru_clear c) = None;
  get_peek : forall k c, snd (lru_get k c) = lru_peek k c;
  peek_get : forall j k c, lru_peek j (fst (lru_get k c)) = lru_peek j c;
  peek_put_eq : forall k v c, lru_cap c <> O -> lru_peek k (lru_put k v c) = Some v;
  peek_put_ne : forall j k v w c,
    j <> k -> lru_peek j (lru_put k v c) = Some w -> lru_peek j c = Some w;
  peek_put_old : forall k v w c, lru_peek k (lru_put k v c) = Some w -> w = v;
  peek_pop_eq : forall k c, lru_peek k (lru_pop k c) = None;
  peek_pop_ne : forall j k c, j <> k -> lru_peek j (lru_pop k c) = lru_peek j c;
  cap_new : forall n, lru_cap (lru_new n) = n;
  cap_clear : forall c, lru_cap (lru_clear c) = lru_cap c;
  cap_get : forall k c, lru_cap (fst (lru_get k c)) = lru_cap c;
  cap_put : forall k v c, lru_cap (lru_put k v c) = lru_cap c;
  cap_pop : forall k c, lru_cap (lru_pop k c) = lru_cap c;
  len_cap : forall c, (lru_len c <= lru_cap c)%nat;
}.

(** ** Instances

    A cache that keeps its entries in a list, most recent first, and shows the
    first [capacity] of them. *)
Section ListLru.
Context {K V : Type} `{EqDecision K}.

Record list_lru := MkListLru { ll_cap : nat; ll_entries : list (K * V) }.

Definition ll_shown (c : list_lru) : list (K * V) := take (ll_cap c) (ll_entries c).
Fixpoint assoc (k : K) (l : list (K * V)) : option V :=
  match l with
  | [] => None
  | (k', v) :: l => if decide (k = k') then Some v else assoc k l
  end.
Definition ll_others (k : K) (c : list_lru) : list (K * V) :=
  filter (fun e => fst e <> k) (ll_shown c).

#[global] Instance list_lru_ops : Lru K V := {
  LruCache := list_lru;
  lru_new n := MkListLru n [];
  lru_get k c :=
    match assoc k (ll_shown c) with
    | Some v => (MkListLru (ll_cap c) ((k, v) :: ll_others k c), Some v)
    | None => (c, None)
    end;
  lru_put k v c := MkListLru (ll_cap c) ((k, v) :: ll_others k c);
  lru_pop k c := MkListLru (ll_cap c) (ll_others k c);
  lru_clear c := MkListLru (ll_cap c) [];
  lru_len c := length (ll_shown c);
  lru_cap c := ll_cap c;
  lru_peek k c := assoc k (ll_shown c);
}.

Lemma assoc_others_ne j k l : j <> k -> assoc j (filter (fun e => fst e <> k) l) = assoc j l.
Proof.
  intros Hj. induction l as [|[k' v] l IH]; [done|].
  destruct (decide (k' = k)) as [->|Hk].
  - rewrite filter_cons_False by (simpl; naive_solver). simpl. by rewrite decide_False.
  - rewrite filter_cons_True by done. simpl. by rewrite IH.
Qed.
Lemma assoc_others_eq k l : assoc k (filter (fun e => fst e <> k) l) = None.
Proof.
  induction l as [|[k' v] l IH]; [done|]. destruct (decide (k' = k)) as [->|Hk].
  - by rewrite filter_cons_False by (simpl; naive_solver).
  - rewrite filter_cons_True by done. simpl. by rewrite decide_False.
Qed.
Lemma assoc_take j n l v : assoc j (take n l) = Some v -> assoc j l = Some v.
Proof.
  revert n. induction l as [|[k w] l IH]; intros [|n]; simpl; try done.
  case_decide; [done|apply IH].
Qed.
Lemma others_length k v l :
  assoc k l = Some v -> (S (length (filter (fun e => fst e <> k) l)) <= length l)%nat.
Proof.
  induction l as [|[k' w] l IH]; [done|]. simpl.
  pose proof (length_filter (fun e : K * V => fst e <> k) l).
  destruct (decide (k' = k)) as [->|Hk].
  - intros _. rewrite filter_cons_False by (simpl; naive_solver). lia.
  - rewrite decide_False, filter_cons_True by done. intros ?%IH. simpl. lia.
Qed.

#[global] Instance list_lru_laws : LruLaws K V.
Proof.
  assert (Htake : forall k c v, assoc k (ll_shown c) = Some v ->
    take (ll_cap c) ((k, v) :: ll_others k c) = (k, v) :: ll_others k c).
  { intros k c v Hv. apply take_ge. pose proof (others_length _ _ _ Hv).
    pose proof (length_take (ll_entries c) (ll_cap c)). unfold ll_others, ll_shown in *. simpl. lia. }
  split; simpl.
  - intros. unfold ll_shown. simpl. by rewrite take_nil.
  - intros. unfold ll_shown. simpl. by rewrite take_nil.
  - intros k c. by destruct (assoc k (ll_shown c)).
  - intros j k c. destruct (assoc k (ll_shown c)) as [v|] eqn:E; [|done].
    unfold ll_shown at 1. cbn [fst ll_cap ll_entries]. rewrite (Htake _ _ _ E). simpl.
    case_decide; [by subst|]. by apply assoc_others_ne.
  - intros k v c Hc. unfold ll_shown. simpl. destruct (ll_cap c); [done|]. simpl.
    by rewrite decide_True.
  - intros j k v w c Hj. unfold ll_shown at 1. simpl. intros Hw%assoc_take. simpl in Hw.
    rewrite decide_False in Hw by done. by rewrite <- (assoc_others_ne j k).
  - intros k v w c. unfold ll_shown. simpl. intros Hw%assoc_take. simpl in Hw.
    rewrite decide_True in Hw by done. congruence.
  - intros k c. destruct (assoc k _) eqn:E; [|done]. unfold ll_shown in E. simpl in E.
    apply assoc_take in E. unfold ll_others in E. by rewrite assoc_others_eq in E.
  - intros j k c Hj. unfold ll_shown at 1. simpl. rewrite take_ge; [by apply assoc_others_ne|].
    pose proof (length_take (ll_entries c) (ll_cap c)).
    pose proof (length_filter (fun e : K * V => fst e <> k) (ll_shown c)).
    unfold ll_others, ll_shown in *. lia.
  - done.
  - done.
  - intros k c. by destruct (assoc k (ll_shown c)).
  - done.
  - done.
  - intros c. unfold ll_shown. rewrite length_take. lia.
Qed.
End ListLru.

