(* ===== verification/RuleData.v ===== *)
(** * Rules

    The first half of [crates/ananicy-core/src/rules.rs]: the process-wide name
    table, the two-byte names that index it, and [Rule] with its reading from
    JSON, inheritance, report and accessors.

    The table is a [static]; here it is passed along explicitly, so an operation
    that interns is a function [NameTable -> NameTable * A]. *)

From stdpp Require Import base list gmap strings numbers.
From Stdlib Require Import ZArith Lia.
From S2P Require Import Prelude RustStr Json.

#[local] Open Scope Z_scope.

(** Absent, declared with nothing usable in it, or a value. *)
Definition Attribute (A : Type) : Type := option (option A).
Definition flatten {A} (a : Attribute A) : option A :=
  match a with Some v => v | None => None end.

(** ** The name table *)

Definition NAME_FIRST_VALUE : Z := 2.
Definition U16_MAX : Z := 65535.

Record NameTable := MkNameTable {
  values : list string;
  index : gmap string Z;   (* to u16 *)
}.

Definition NameTable_default : NameTable := MkNameTable [] ∅.

(** The second lookup, under the write lock, is the first one again here:
    nothing happens between the two in one thread. *)
Definition intern (name : string) (t : NameTable) : NameTable * Z :=
  match index t !! name with
  | Some found => (t, found)
  | None =>
      let id := NAME_FIRST_VALUE + Z.of_nat (length (values t)) in
      if U16_MAX <? id then (t, 1)
      else (MkNameTable (values t ++ [name]) (<[name := wrap_u 16 id]> (index t)),
            wrap_u 16 id)
  end.

Definition table_get (id : Z) (t : NameTable) : option string := values t !! Z.to_nat id.

Record NameAttribute := MkNameAttribute { name_id : Z }.

Definition absent : NameAttribute := MkNameAttribute 0.
Definition unusable : NameAttribute := MkNameAttribute 1.
Definition intern_attribute (name : string) (t : NameTable) : NameTable * NameAttribute :=
  let '(t, id) := intern name t in (t, MkNameAttribute id).
Definition is_absent (a : NameAttribute) : bool := name_id a =? 0.
Definition name_as_str (t : NameTable) (a : NameAttribute) : option string :=
  if (name_id a =? 0) || (name_id a =? 1) then None
  else table_get (name_id a - NAME_FIRST_VALUE) t.

Record TypeNameId := MkTypeNameId { type_id : Z }.

Definition no_type : TypeNameId := MkTypeNameId 0.
Definition intern_type (name : string) (t : NameTable) : NameTable * TypeNameId :=
  let '(t, id) := intern name t in (t, MkTypeNameId (id - 1)).
Definition type_as_str (t : NameTable) (a : TypeNameId) : option string :=
  if type_id a =? 0 then None else table_get (type_id a - 1) t.

Definition type_is_none (a : TypeNameId) : bool := type_id a =? 0.

(** ** Rules *)

Record Rule := MkRule {
  type_name : TypeNameId;
  nice : Attribute Z;
  latency_nice : Attribute Z;
  ioclass : NameAttribute;
  ionice : Attribute Z;
  sched : NameAttribute;
  rtprio : Attribute Z;
  oom_score_adj : Attribute Z;
  cgroup : NameAttribute;
  cpuset : NameAttribute;
  extras : list (string * Value);
}.

Definition Rule_default : Rule :=
  MkRule no_type None None absent None absent None None absent absent [].

(** The closures [string] and [number] of [from_json], and the match for
    [rtprio]. *)
Definition read_string (value : Value) (key : string) (t : NameTable)
    : NameTable * NameAttribute :=
  match get key value with
  | None => (t, absent)
  | Some (VString text) => intern_attribute text t
  | Some _ => (t, unusable)
  end.
Definition read_number (value : Value) (key : string) : Attribute Z :=
  match get key value with
  | None => None
  | Some (VNumber number) => Some (wrap_s 32 <$> as_i64 number)
  | Some _ => Some None
  end.
Definition read_rtprio (value : Value) : Attribute Z :=
  match get "rtprio" value with
  | None => None
  | Some (VNumber number) => Some (wrap_u 32 <$> as_u64 number)
  | Some _ => Some None
  end.

Definition IMPLEMENTED : list string :=
  ["name"; "type"; "nice"; "latency_nice"; "ioclass"; "ionice"; "sched"; "rtprio";
   "oom_score_adj"; "cgroup"; "cpuset"].
Definition is_extra (key : string) : bool := negb (existsb (String.eqb key) IMPLEMENTED).

Definition read_extras (value : Value) : list (string * Value) :=
  match as_object value with
  | Some object => filter (fun e => is_extra (fst e) = true) object
  | None => []
  end.

Definition read_type (value : Value) (t : NameTable) : NameTable * TypeNameId :=
  match get "type" value ≫= as_str with
  | None => (t, no_type)
  | Some name => intern_type name t
  end.

(** The fields are evaluated in the order they are written. *)
Definition from_json (value : Value) (t : NameTable) : NameTable * Rule :=
  let '(t, ty) := read_type value t in
  let '(t, io) := read_string value "ioclass" t in
  let '(t, sc) := read_string value "sched" t in
  let '(t, cg) := read_string value "cgroup" t in
  let '(t, cs) := read_string value "cpuset" t in
  (t, MkRule ty (read_number value "nice") (read_number value "latency_nice") io
        (read_number value "ionice") sc (read_rtprio value)
        (read_number value "oom_score_adj") cg cs (read_extras value)).

Definition overlay_value (own base : Attribute Z) : Attribute Z :=
  match own with None => base | Some _ => own end.
Definition overlay_name (own base : NameAttribute) : NameAttribute :=
  if is_absent own then base else own.

Definition inherit (self base : Rule) : Rule :=
  MkRule (type_name self)
    (overlay_value (nice self) (nice base))
    (overlay_value (latency_nice self) (latency_nice base))
    (overlay_name (ioclass self) (ioclass base))
    (overlay_value (ionice self) (ionice base))
    (overlay_name (sched self) (sched base))
    (overlay_value (rtprio self) (rtprio base))
    (overlay_value (oom_score_adj self) (oom_score_adj base))
    (overlay_name (cgroup self) (cgroup base))
    (overlay_name (cpuset self) (cpuset base))
    (extras self).

(** ** The report *)

Definition json_of_int (v : option Z) : Value :=
  match v with None => VNull | Some z => of_int z end.
Definition json_of_name (t : NameTable) (a : NameAttribute) : Value :=
  match name_as_str t a with None => VNull | Some name => VString name end.
Definition if_declared (a : NameAttribute) : option NameAttribute :=
  if is_absent a then None else Some a.

Definition insert_declared (object : list (string * Value)) (e : string * option Value)
    : list (string * Value) :=
  match e with (key, Some value) => map_insert key value object | (_, None) => object end.

(** The object before the extras, then with them. *)
Definition declared (t : NameTable) (self : Rule) (name : string) : list (string * Value) :=
  let object := map_insert "name" (VString name) [] in
  let object := insert_declared object ("type", VString <$> type_as_str t (type_name self)) in
  foldl insert_declared object
    [("nice", json_of_int <$> nice self);
     ("latency_nice", json_of_int <$> latency_nice self);
     ("ioclass", json_of_name t <$> if_declared (ioclass self));
     ("ionice", json_of_int <$> ionice self);
     ("sched", json_of_name t <$> if_declared (sched self));
     ("rtprio", json_of_int <$> rtprio self);
     ("oom_score_adj", json_of_int <$> oom_score_adj self);
     ("cgroup", json_of_name t <$> if_declared (cgroup self));
     ("cpuset", json_of_name t <$> if_declared (cpuset self))].

Definition to_json (t : NameTable) (self : Rule) (name : string) : Value :=
  VObject (foldl (fun object e => map_insert (fst e) (snd e) object) (declared t self name)
             (extras self)).

(** ** Accessors *)

Definition rule_nice (r : Rule) : option Z := flatten (nice r).
Definition rule_ionice (r : Rule) : option Z := flatten (ionice r).
Definition rule_oom_score_adj (r : Rule) : option Z := flatten (oom_score_adj r).
Definition rule_rtprio (r : Rule) : option Z := flatten (rtprio r).
Definition rule_ioclass (t : NameTable) (r : Rule) : option string := name_as_str t (ioclass r).
Definition rule_sched (t : NameTable) (r : Rule) : option string := name_as_str t (sched r).
Definition rule_cgroup (t : NameTable) (r : Rule) : option string := name_as_str t (cgroup r).
Definition rule_cpuset (t : NameTable) (r : Rule) : option string := name_as_str t (cpuset r).
Definition effective_latency_nice (r : Rule) : option Z :=
  match flatten (latency_nice r) with Some v => Some v | None => flatten (nice r) end.

(** ** Invariants *)

(** The index and the vector are the same numbering, without repetition. *)
Record table_ok (t : NameTable) : Prop := {
  table_index : forall n i,
    index t !! n = Some i <->
    NAME_FIRST_VALUE <= i /\ values t !! Z.to_nat (i - NAME_FIRST_VALUE) = Some n;
  table_bound : NAME_FIRST_VALUE + Z.of_nat (length (values t)) <= U16_MAX + 1;
}.

(** There is a number left. *)
Definition room (t : NameTable) : Prop :=
  NAME_FIRST_VALUE + Z.of_nat (length (values t)) <= U16_MAX.

(** The table only grows, and what it holds keeps its place. *)
Definition grows (t t' : NameTable) : Prop := values t `prefix_of` values t'.

#[global] Instance grows_preorder : PreOrder grows.
Proof.
  split; [intros t; unfold grows; reflexivity|].
  intros t1 t2 t3. unfold grows. apply transitivity.
Qed.

Lemma table_ok_default : table_ok NameTable_default.
Proof.
  split; [|vm_compute; congruence]. intros n i. simpl. rewrite lookup_empty.
  split; [done|]. by intros [_ ?].
Qed.

Lemma intern_grows n t : grows t (intern n t).1.
Proof.
  unfold intern. destruct (index t !! n); [reflexivity|]. case_match; [reflexivity|].
  unfold grows. simpl. by apply prefix_app_r.
Qed.

Lemma intern_ok n t : table_ok t -> table_ok (intern n t).1.
Proof.
  intros Ht. unfold intern. destruct (index t !! n) eqn:Hn; [done|].
  destruct (U16_MAX <? _) eqn:Hf; [done|]. zb. destruct Ht as [Hi Hb].
  set (L := values t) in *. unfold NAME_FIRST_VALUE, U16_MAX in *.
  assert (wrap_u 16 (2 + Z.of_nat (length L)) = 2 + Z.of_nat (length L)) as Hw
    by (apply wrap_u_small; unfold in_u; lia).
  split; simpl; [|rewrite length_app; simpl; unfold NAME_FIRST_VALUE, U16_MAX; lia].
  intros m i. rewrite Hw. fold L. unfold NAME_FIRST_VALUE.
  assert (Hnew : forall k, 2 <= k -> L !! Z.to_nat (k - 2) <> Some n).
  { intros k Hk HL. assert (index t !! n = Some k) by (by apply Hi). congruence. }
  destruct (decide (m = n)) as [->|Hmn].
  - rewrite lookup_insert_eq, lookup_app_Some. split.
    + intros [= <-]. split; [lia|]. right. replace (Z.to_nat _) with (length L) by lia.
      by rewrite Nat.sub_diag.
    + intros [H2 [HL|[Hl HL]]]; [by apply Hnew in HL|].
      apply list_lookup_singleton_Some in HL as [? _]. f_equal. lia.
  - rewrite lookup_insert_ne, Hi, lookup_app_Some by done. split; [naive_solver|].
    intros [H2 [HL|[Hl HL]]]; [done|]. apply list_lookup_singleton_Some in HL as [_ ?]. done.
Qed.

Lemma grows_get t t' i s : grows t t' -> table_get i t = Some s -> table_get i t' = Some s.
Proof. unfold grows, table_get. intros Hg H. by eapply prefix_lookup_Some. Qed.

Lemma room_grows t t' : grows t t' -> room t' -> room t.
Proof. intros Hg%prefix_length. unfold room. lia. Qed.

(** The number of a name is in the table, or 1 when the table was full. *)
Lemma intern_get n t :
  table_ok t ->
  let '(t', i) := intern n t in
  NAME_FIRST_VALUE <= i <= U16_MAX /\ table_get (i - NAME_FIRST_VALUE) t' = Some n \/
  i = 1 /\ ~ room t'.
Proof.
  intros [Hi Hb]. unfold intern, room, table_get in *.
  unfold NAME_FIRST_VALUE, U16_MAX in *. destruct (index t !! n) as [i|] eqn:Hn.
  - apply Hi in Hn as [H2 Hn]. left. split; [|done]. apply lookup_lt_Some in Hn. lia.
  - destruct (65535 <? _) eqn:E; zb; [right; split; [done|lia]|left].
    rewrite wrap_u_small by (unfold in_u; lia). split; [lia|]. simpl.
    rewrite list_lookup_middle; [done|lia].
Qed.

(** ** What a rule says

    The view of a rule replaces its indices by the names they stand for. *)

Definition name_view (t : NameTable) (a : NameAttribute) : Attribute string :=
  if is_absent a then None else Some (name_as_str t a).

Record RuleView := MkView {
  w_type : option string;
  w_nice : Attribute Z;
  w_latency_nice : Attribute Z;
  w_ioclass : Attribute string;
  w_ionice : Attribute Z;
  w_sched : Attribute string;
  w_rtprio : Attribute Z;
  w_oom_score_adj : Attribute Z;
  w_cgroup : Attribute string;
  w_cpuset : Attribute string;
  w_extras : list (string * Value);
}.

Definition view (t : NameTable) (r : Rule) : RuleView :=
  MkView (type_as_str t (type_name r)) (nice r) (latency_nice r) (name_view t (ioclass r))
    (ionice r) (name_view t (sched r)) (rtprio r) (oom_score_adj r) (name_view t (cgroup r))
    (name_view t (cpuset r)) (extras r).

(** What a JSON object says, with no table in between. *)
Definition read_name (v : Value) (key : string) : Attribute string :=
  match get key v with
  | None => None
  | Some (VString text) => Some (Some text)
  | Some _ => Some None
  end.

Definition json_view (v : Value) : RuleView :=
  MkView (get "type" v ≫= as_str) (read_number v "nice") (read_number v "latency_nice")
    (read_name v "ioclass") (read_number v "ionice") (read_name v "sched") (read_rtprio v)
    (read_number v "oom_score_adj") (read_name v "cgroup") (read_name v "cpuset")
    (read_extras v).

(** Inheritance on views: the own attribute if the rule declares the key at all. *)
Definition own_or {A} (own base : Attribute A) : Attribute A :=
  match own with None => base | Some _ => own end.
Definition view_inherit (s b : RuleView) : RuleView :=
  MkView (w_type s) (own_or (w_nice s) (w_nice b)) (own_or (w_latency_nice s) (w_latency_nice b))
    (own_or (w_ioclass s) (w_ioclass b)) (own_or (w_ionice s) (w_ionice b))
    (own_or (w_sched s) (w_sched b)) (own_or (w_rtprio s) (w_rtprio b))
    (own_or (w_oom_score_adj s) (w_oom_score_adj b)) (own_or (w_cgroup s) (w_cgroup b))
    (own_or (w_cpuset s) (w_cpuset b)) (w_extras s).

(** Indices that point into the table. *)
Definition id_valid (t : NameTable) (first id : Z) : Prop :=
  0 <= id < first \/ first <= id /\ is_Some (table_get (id - first) t).
Definition rule_valid (t : NameTable) (r : Rule) : Prop :=
  id_valid t 1 (type_id (type_name r)) /\ id_valid t 2 (name_id (ioclass r)) /\
  id_valid t 2 (name_id (sched r)) /\ id_valid t 2 (name_id (cgroup r)) /\
  id_valid t 2 (name_id (cpuset r)).

Lemma id_valid_grows t t' f i : grows t t' -> id_valid t f i -> id_valid t' f i.
Proof.
  intros Hg [?|[? [s Hs]]]; [by left|right]. split; [done|]. exists s. by eapply grows_get.
Qed.

Lemma name_view_grows t t' a :
  grows t t' -> id_valid t 2 (name_id a) -> name_view t' a = name_view t a.
Proof.
  intros Hg Hv. unfold name_view, is_absent, name_as_str, NAME_FIRST_VALUE.
  destruct Hv as [Hv|[Hv [s Hs]]].
  - cases_if; try done. zb. lia.
  - rewrite Hs. by rewrite (grows_get _ _ _ _ Hg Hs).
Qed.

Lemma type_view_grows t t' a :
  grows t t' -> id_valid t 1 (type_id a) -> type_as_str t' a = type_as_str t a.
Proof.
  intros Hg Hv. unfold type_as_str. destruct Hv as [Hv|[Hv [s Hs]]].
  - cases_if; try done. zb. lia.
  - rewrite Hs. by rewrite (grows_get _ _ _ _ Hg Hs).
Qed.

Lemma rule_valid_grows t t' r : grows t t' -> rule_valid t r -> rule_valid t' r.
Proof. intros Hg (? & ? & ? & ? & ?). repeat split; by eapply id_valid_grows. Qed.

Lemma view_grows t t' r : grows t t' -> rule_valid t r -> view t' r = view t r.
Proof.
  intros Hg (? & ? & ? & ? & ?). unfold view.
  by rewrite (type_view_grows t t'), !(name_view_grows t t').
Qed.

Lemma read_string_spec v key t :
  table_ok t ->
  let '(t', a) := read_string v key t in
  table_ok t' /\ grows t t' /\ id_valid t' 2 (name_id a) /\
  (room t' -> name_view t' a = read_name v key).
Proof.
  intros Ht. unfold read_string, read_name, intern_attribute.
  destruct (get key v) as [[| | |s| |]|].
  4: { pose proof (intern_ok s t Ht). pose proof (intern_grows s t).
       pose proof (intern_get s t Ht) as Hg. destruct (intern s t) as [t' i]. cbn [fst name_id] in *.
       unfold name_view, is_absent, name_as_str, NAME_FIRST_VALUE in *. cbn [name_id].
       do 2 (split; [done|]). destruct Hg as [[Hb Hg]|[-> Hr]].
       - split; [right; split; [lia|by eexists]|]. intros _.
         rewrite (proj2 (Z.eqb_neq i 0)), (proj2 (Z.eqb_neq i 1)) by lia. by rewrite Hg.
       - split; [left; lia|done]. }
  all: do 2 (split; [first [done|reflexivity]|]); split; [left; simpl; lia|done].
Qed.

Lemma read_type_spec v t :
  table_ok t ->
  let '(t', a) := read_type v t in
  table_ok t' /\ grows t t' /\ id_valid t' 1 (type_id a) /\
  (room t' -> type_as_str t' a = (get "type" v ≫= as_str)).
Proof.
  intros Ht. unfold read_type, intern_type. destruct (get "type" v ≫= as_str) as [s|].
  - pose proof (intern_ok s t Ht). pose proof (intern_grows s t).
    pose proof (intern_get s t Ht) as Hg. destruct (intern s t) as [t' i]. cbn [fst type_id] in *.
    unfold NAME_FIRST_VALUE, type_as_str in *. cbn [type_id].
    do 2 (split; [done|]). destruct Hg as [[Hb Hg]|[-> Hr]].
    + replace (i - 2) with (i - 1 - 1) in Hg by lia.
      split; [right; split; [lia|by eexists]|]. intros _.
      by rewrite (proj2 (Z.eqb_neq (i - 1) 0)) by lia.
    + split; [left; lia|done].
  - do 2 (split; [first [done|reflexivity]|]). split; [left; simpl; lia|done].
Qed.

(** Reading a rule: its indices are in the table, and while the table has room
    it says what the JSON says. *)
Lemma from_json_spec v t :
  table_ok t ->
  let '(t', r) := from_json v t in
  table_ok t' /\ grows t t' /\ rule_valid t' r /\ (room t' -> view t' r = json_view v).
Proof.
  intros Ht. unfold from_json.
  pose proof (read_type_spec v t Ht) as H. destruct (read_type v t) as [t1 ty].
  destruct H as (Ht1 & G1 & V1 & E1).
  pose proof (read_string_spec v "ioclass" t1 Ht1) as H.
  destruct (read_string v "ioclass" t1) as [t2 io]. destruct H as (Ht2 & G2 & V2 & E2).
  pose proof (read_string_spec v "sched" t2 Ht2) as H.
  destruct (read_string v "sched" t2) as [t3 sc]. destruct H as (Ht3 & G3 & V3 & E3).
  pose proof (read_string_spec v "cgroup" t3 Ht3) as H.
  destruct (read_string v "cgroup" t3) as [t4 cg]. destruct H as (Ht4 & G4 & V4 & E4).
  pose proof (read_string_spec v "cpuset" t4 Ht4) as H.
  destruct (read_string v "cpuset" t4) as [t5 cs]. destruct H as (Ht5 & G5 & V5 & E5).
  assert (G35 : grows t3 t5) by (by transitivity t4).
  assert (G25 : grows t2 t5) by (by transitivity t3).
  assert (G15 : grows t1 t5) by (by transitivity t2).
  split; [done|]. split; [by transitivity t1|].
  split; [repeat split; cbn; eauto using id_valid_grows|]. intros Hr.
  unfold view, json_view. cbn.
  rewrite (type_view_grows t1 t5), (name_view_grows t2 t5), (name_view_grows t3 t5),
    (name_view_grows t4 t5) by done.
  by rewrite E1, E2, E3, E4, E5 by (eauto using room_grows).
Qed.

Lemma name_view_overlay t a b :
  name_view t (overlay_name a b) = own_or (name_view t a) (name_view t b).
Proof. unfold overlay_name, name_view. by destruct (is_absent a) eqn:E; rewrite ?E. Qed.

Lemma view_of_inherit t r b : view t (inherit r b) = view_inherit (view t r) (view t b).
Proof. unfold view, view_inherit. simpl. by rewrite !name_view_overlay. Qed.

Lemma inherit_valid t r b : rule_valid t r -> rule_valid t b -> rule_valid t (inherit r b).
Proof.
  intros (? & ? & ? & ? & ?) (? & ? & ? & ? & ?).
  repeat split; cbn; unfold overlay_name; try (case_match; done); done.
Qed.

(** ** Numbers *)

Lemma read_number_range v k z : flatten (read_number v k) = Some z -> in_s 32 z.
Proof.
  unfold read_number. destruct (get k v) as [[| |n| | |]|]; try done. simpl.
  destruct (as_i64 n); [|done]. intros [= <-]. by apply wrap_s_range.
Qed.
Lemma read_rtprio_range v z : flatten (read_rtprio v) = Some z -> in_u 32 z.
Proof.
  unfold read_rtprio. destruct (get "rtprio" v) as [[| |n| | |]|]; try done. simpl.
  destruct (as_u64 n); [|done]. intros [= <-]. by apply wrap_u_range.
Qed.

Lemma as_i64_of_int z : in_s 32 z -> exists n, of_int z = VNumber n /\ as_i64 n = Some z.
Proof.
  intros Hz. unfold of_int, in_s in *. eexists; split; [done|].
  destruct (z <? 0) eqn:E; simpl; [done|]. zb. rewrite (proj2 (Z.ltb_lt _ _)) by lia. done.
Qed.

(** ** The report, key by key *)

Lemma get_insert_declared j o k ov :
  map_get j (insert_declared o (k, ov)) =
  if String.eqb j k then match ov with Some v => Some v | None => map_get j o end
  else map_get j o.
Proof.
  destruct ov as [v|]; simpl; [apply map_get_insert|]. by destruct (String.eqb j k).
Qed.

(** The object of a report, as a finite function. *)
Lemma get_declared t r name j :
  map_get j (declared t r name) =
  if String.eqb j "cpuset" then json_of_name t <$> if_declared (cpuset r)
  else if String.eqb j "cgroup" then json_of_name t <$> if_declared (cgroup r)
  else if String.eqb j "oom_score_adj" then json_of_int <$> oom_score_adj r
  else if String.eqb j "rtprio" then json_of_int <$> rtprio r
  else if String.eqb j "sched" then json_of_name t <$> if_declared (sched r)
  else if String.eqb j "ionice" then json_of_int <$> ionice r
  else if String.eqb j "ioclass" then json_of_name t <$> if_declared (ioclass r)
  else if String.eqb j "latency_nice" then json_of_int <$> latency_nice r
  else if String.eqb j "nice" then json_of_int <$> nice r
  else if String.eqb j "type" then VString <$> type_as_str t (type_name r)
  else if String.eqb j "name" then Some (VString name) else None.
Proof.
  unfold declared. cbn [foldl]. rewrite !get_insert_declared, map_get_insert. cbn [map_get].
  repeat match goal with
  | |- context [String.eqb j ?k] => destruct (String.eqb_spec j k) as [->|]
  end; cbn; by repeat case_match.
Qed.

Lemma declared_extra t r name j : is_extra j = true -> map_get j (declared t r name) = None.
Proof.
  unfold is_extra. rewrite negb_true_iff. cbn [existsb IMPLEMENTED].
  rewrite !orb_false_iff. intros H. rewrite get_declared.
  by repeat (destruct H as [-> H]).
Qed.

Lemma get_insert_all (l : list (string * Value)) j o :
  NoDup l.*1 ->
  map_get j (foldl (fun o e => map_insert (fst e) (snd e) o) o l) =
  match map_get j l with Some v => Some v | None => map_get j o end.
Proof.
  revert o. induction l as [|[k v] l IH]; intros o Hnd; [done|].
  cbn [fmap list_fmap fst] in Hnd. apply list.NoDup_cons in Hnd as [Hk Hnd].
  cbn [foldl fst snd]. rewrite IH by done. simpl. rewrite map_get_insert.
  destruct (String.eqb_spec j k) as [->|]; [|done].
  by rewrite (proj2 (map_get_none k l) Hk).
Qed.

(** What a rule read from a file satisfies besides [rule_valid]: its numbers fit
    and its extras are other keys, each once. *)
Definition reportable (r : Rule) : Prop :=
  (forall z, rule_nice r = Some z -> in_s 32 z) /\
  (forall z, flatten (latency_nice r) = Some z -> in_s 32 z) /\
  (forall z, rule_ionice r = Some z -> in_s 32 z) /\
  (forall z, rule_oom_score_adj r = Some z -> in_s 32 z) /\
  (forall z, rule_rtprio r = Some z -> in_u 32 z) /\
  (forall k, is_extra k = false -> map_get k (extras r) = None) /\
  NoDup (extras r).*1.

Lemma filter_keys_nodup {A} (p : string -> bool) (l : list (string * A)) :
  NoDup l.*1 -> NoDup (filter (fun e => p (fst e) = true) l).*1.
Proof.
  induction l as [|[k v] l IH]; [done|]. cbn [fmap list_fmap fst].
  intros [Hk Hnd]%list.NoDup_cons. rewrite filter_cons. cbn [fst].
  case_decide; [|by apply IH]. cbn [fmap list_fmap fst]. apply list.NoDup_cons.
  split; [|by apply IH]. intros ([k' v'] & -> & Hin)%list_elem_of_fmap. apply Hk.
  apply list_elem_of_fmap. exists (k', v'). split; [done|].
  by apply list_elem_of_filter in Hin as [_ ?].
Qed.

Lemma read_extras_spec v :
  (forall p, v = VObject p -> NoDup p.*1) ->
  NoDup (read_extras v).*1 /\
  forall k, map_get k (read_extras v) = if is_extra k then get k v else None.
Proof.
  intros Hv. unfold read_extras, as_object.
  destruct v; try (split; [constructor|intros k; simpl; by destruct (is_extra k)]).
  split; [by apply filter_keys_nodup, Hv|]. intros k. apply map_get_filter.
Qed.

Lemma from_json_fields v t :
  let r := (from_json v t).2 in
  nice r = read_number v "nice" /\ latency_nice r = read_number v "latency_nice" /\
  ionice r = read_number v "ionice" /\ oom_score_adj r = read_number v "oom_score_adj" /\
  rtprio r = read_rtprio v /\ extras r = read_extras v.
Proof.
  unfold from_json. repeat case_match; simplify_eq; by repeat split.
Qed.

Lemma from_json_reportable v t :
  (forall p, v = VObject p -> NoDup p.*1) -> reportable (from_json v t).2.
Proof.
  intros Hv. destruct (from_json_fields v t) as (E1 & E2 & E3 & E4 & E5 & E6).
  destruct (read_extras_spec v Hv) as [Hnd Hx].
  unfold reportable, rule_nice, rule_ionice, rule_oom_score_adj, rule_rtprio.
  rewrite E1, E2, E3, E4, E5, E6.
  repeat match goal with |- _ /\ _ => split end; try done;
    try (intros z; first [apply read_number_range|apply read_rtprio_range]).
  intros k Hk. by rewrite Hx, Hk.
Qed.

Lemma reported_number key a v :
  get key v = json_of_int <$> a -> (forall z, flatten a = Some z -> in_s 32 z) ->
  read_number v key = a.
Proof.
  intros E Hr. unfold read_number. rewrite E. destruct a as [[z|]|]; [|done|done].
  cbn [fmap option_fmap option_map json_of_int].
  destruct (as_i64_of_int z) as (n & -> & ->); [by apply Hr|].
  simpl. by rewrite wrap_s_small by (first [lia|by apply Hr]).
Qed.

Lemma reported_rtprio a v :
  get "rtprio" v = json_of_int <$> a -> (forall z, flatten a = Some z -> in_u 32 z) ->
  read_rtprio v = a.
Proof.
  intros E Hr. unfold read_rtprio. rewrite E. destruct a as [[z|]|]; [|done|done].
  cbn [fmap option_fmap option_map json_of_int].
  specialize (Hr z eq_refl). unfold of_int.
  rewrite (proj2 (Z.ltb_ge z 0)) by (unfold in_u in Hr; lia). simpl.
  by rewrite wrap_u_small.
Qed.

Lemma reported_name t key a v :
  get key v = json_of_name t <$> if_declared a -> read_name v key = name_view t a.
Proof.
  intros E. unfold read_name, name_view, if_declared, json_of_name in *. rewrite E.
  destruct (is_absent a); simpl; [done|]. by destruct (name_as_str t a).
Qed.

(** ** Inheritance and RFC 7396 *)

(** Readers that find nothing usable in [null] or in an object. *)
Definition attr_of {A} (f : Value -> option A) (v : Value) (key : string) : Attribute A :=
  f <$> get key v.

Lemma merge_attr {A} (f : Value -> option A) ty p key :
  f VNull = None -> (forall l, f (VObject l) = None) -> NoDup p.*1 ->
  flatten (own_or (attr_of f (VObject p) key) (attr_of f ty key)) =
  flatten (attr_of f (merge_patch ty (VObject p)) key).
Proof.
  intros Hn Ho Hnd. unfold attr_of. rewrite get_merge_patch by done. cbn [get].
  destruct (map_get key p) as [v|]; [|done]. by destruct v; simpl; rewrite ?Hn, ?Ho.
Qed.

Definition num_of (v : Value) : option Z :=
  match v with VNumber n => wrap_s 32 <$> as_i64 n | _ => None end.
Definition rt_of (v : Value) : option Z :=
  match v with VNumber n => wrap_u 32 <$> as_u64 n | _ => None end.

Lemma read_number_attr v k : read_number v k = attr_of num_of v k.
Proof. unfold read_number, attr_of. by destruct (get k v) as [[]|]. Qed.
Lemma read_rtprio_attr v : read_rtprio v = attr_of rt_of v "rtprio".
Proof. unfold read_rtprio, attr_of. by destruct (get "rtprio" v) as [[]|]. Qed.
Lemma read_name_attr v k : read_name v k = attr_of as_str v k.
Proof. unfold read_name, attr_of. by destruct (get k v) as [[]|]. Qed.

(** The values a rule asks for: the accessors, and the same of a view. *)
Definition settings (t : NameTable) (r : Rule) :=
  (rule_nice r, effective_latency_nice r, rule_ioclass t r, rule_ionice r, rule_sched t r,
   rule_rtprio r, rule_oom_score_adj r, rule_cgroup t r, rule_cpuset t r).
Definition view_settings (w : RuleView) :=
  (flatten (w_nice w),
   match flatten (w_latency_nice w) with Some v => Some v | None => flatten (w_nice w) end,
   flatten (w_ioclass w), flatten (w_ionice w), flatten (w_sched w), flatten (w_rtprio w),
   flatten (w_oom_score_adj w), flatten (w_cgroup w), flatten (w_cpuset w)).

Lemma flatten_name_view t a : flatten (name_view t a) = name_as_str t a.
Proof.
  unfold name_view, name_as_str, is_absent. by destruct (name_id a =? 0).
Qed.

Lemma settings_view t r : settings t r = view_settings (view t r).
Proof. unfold settings, view_settings, view. cbn. by rewrite !flatten_name_view. Qed.

Lemma inherit_settings ty p :
  NoDup p.*1 ->
  view_settings (view_inherit (json_view (VObject p)) (json_view ty)) =
  view_settings (json_view (merge_patch ty (VObject p))).
Proof.
  intros Hnd. unfold view_settings, view_inherit, json_view. cbn -[merge_patch get].
  rewrite !read_number_attr, !read_rtprio_attr, !read_name_attr.
  by rewrite !merge_attr by done.
Qed.

(** ** Properties *)
Module RuleProps.

(** Intern a list of names one after the other. *)
Definition intern_all (ns : list string) (t : NameTable) : NameTable :=
  foldl (fun t n => (intern n t).1) t ns.

Lemma intern_all_ok ns t : table_ok t -> table_ok (intern_all ns t) /\ grows t (intern_all ns t).
Proof.
  revert t. induction ns as [|n ns IH]; intros t Ht; [by split|].
  destruct (IH (intern n t).1 (intern_ok n t Ht)) as [? ?]. split; [done|].
  transitivity (intern n t).1; [apply intern_grows|done].
Qed.

(** As long as the table is not full in the end, a name keeps the number it was
    given whatever is interned afterwards, that number reads back as the name,
    and another name gets the same number exactly when it is the same name. *)
Theorem intern_faithful (t : NameTable) (n m : string) (ns : list string) :
  table_ok t ->
  let '(t1, a) := intern_attribute n t in
  let '(t3, b) := intern_attribute m (intern_all ns t1) in
  room t3 -> name_as_str t3 a = Some n /\ (a = b <-> n = m).
Proof.
  intros Ht. unfold intern_attribute.
  pose proof (intern_ok n t Ht) as H1. pose proof (intern_get n t Ht) as Ga.
  destruct (intern n t) as [t1 a]. cbn [fst] in *.
  destruct (intern_all_ok ns t1 H1) as [H2 G12].
  pose proof (intern_get m _ H2) as Gb. pose proof (intern_ok m _ H2) as H3.
  pose proof (intern_grows m (intern_all ns t1)) as G23.
  destruct (intern m (intern_all ns t1)) as [t3 b]. cbn [fst] in *. intros Hr.
  assert (G13 : grows t1 t3) by (by transitivity (intern_all ns t1)).
  destruct Ga as [[Ba Ga]|[_ []]]; [|by eapply room_grows].
  destruct Gb as [[Bb Gb]|[_ []]]; [|done].
  apply (grows_get _ _ _ _ G13) in Ga. split.
  - unfold name_as_str, NAME_FIRST_VALUE in *. cbn [name_id].
    by rewrite (proj2 (Z.eqb_neq a 0)), (proj2 (Z.eqb_neq a 1)) by lia.
  - destruct H3 as [Hi _]. split; [intros [= ->]; congruence|intros ->]. f_equal.
    assert (index t3 !! m = Some a) by (apply Hi; split; [apply Ba|done]).
    assert (index t3 !! m = Some b) by (apply Hi; split; [apply Bb|done]). congruence.
Qed.

Lemma intern_faithful_witness :
  let '(t1, a) := intern_attribute "idle" NameTable_default in
  let '(t3, b) := intern_attribute "idle" (intern_all ["batch"; "idle"; "0-3"] t1) in
  name_as_str t3 a = Some "idle" /\ (a = b <-> "idle" = "idle").
Proof.
  refine (intern_faithful NameTable_default "idle" "idle" ["batch"; "idle"; "0-3"]
            table_ok_default _). vm_compute. discriminate.
Defined.

(** A full table, which holds 65534 names, never gives a new name somebody
    else's: as an attribute it is declared and unusable, as a type it is none,
    and the table stays as it is. *)
Theorem full_table_refuses (t : NameTable) (n : string) :
  table_ok t -> index t !! n = None ->
  Z.of_nat (length (values t)) <= 65534 /\
  (Z.of_nat (length (values t)) = 65534 ->
   intern_attribute n t = (t, unusable) /\ intern_type n t = (t, no_type)).
Proof.
  intros [_ Hb] Hn. unfold intern_attribute, intern_type, intern. rewrite Hn.
  unfold NAME_FIRST_VALUE, U16_MAX in *. split; [lia|]. intros HL.
  rewrite HL. by split.
Qed.

(** A table built in one go, to exhibit a full one. *)
Definition table_of (l : list string) : NameTable :=
  MkNameTable l (list_to_map (imap (fun i n => (n, NAME_FIRST_VALUE + Z.of_nat i)) l)).

Lemma table_of_ok l : NoDup l -> Z.of_nat (length l) <= 65534 -> table_ok (table_of l).
Proof.
  intros Hnd Hl. split; [|simpl; unfold NAME_FIRST_VALUE, U16_MAX; lia].
  intros n i. simpl. rewrite <- elem_of_list_to_map.
  - rewrite list_elem_of_lookup. setoid_rewrite list_lookup_imap_Some. split.
    + intros (k & m & Hk & [= -> ->]). unfold NAME_FIRST_VALUE. split; [lia|].
      by replace (Z.to_nat _) with k by lia.
    + intros [H2 Hn]. eexists _, _. split; [exact Hn|]. f_equal.
      unfold NAME_FIRST_VALUE in *. lia.
  - replace (imap _ l).*1 with l; [done|]. apply list_eq. intros k.
    rewrite list_lookup_fmap, list_lookup_imap. by destruct (l !! k).
Qed.

Definition many_names : list string := map fmt_uint (seqZ 0 65534).

Lemma seqZ_ge0 n k : k ∈ seqZ 0 n -> 0 <= k.
Proof. rewrite elem_of_seqZ. lia. Qed.

Lemma many_names_nodup : NoDup many_names.
Proof.
  apply NoDup_fmap_2_strong; [|apply NoDup_seqZ].
  intros x y Hx Hy E. apply elem_of_seqZ in Hx, Hy.
  assert (Ex := parse_fmt_uint 64 x ltac:(lia) ltac:(unfold in_u; lia)).
  assert (Ey := parse_fmt_uint 64 y ltac:(lia) ltac:(unfold in_u; lia)).
  rewrite E in Ex. congruence.
Qed.

Lemma many_names_length : Z.of_nat (length many_names) = 65534.
Proof. unfold many_names. rewrite length_map, length_seqZ. lia. Qed.

Lemma table_of_new l n : n ∉ l -> index (table_of l) !! n = None.
Proof.
  intros Hn. simpl. apply not_elem_of_list_to_map_1. intros ([m i] & -> & Hin)%list_elem_of_fmap.
  apply list_elem_of_lookup in Hin as [k Hin].
  apply list_lookup_imap_Some in Hin as (m' & Hm & [= -> _]). apply Hn.
  by eapply list_elem_of_lookup_2.
Qed.

Lemma idle_not_in : "idle" ∉ many_names.
Proof.
  unfold many_names. generalize (seqZ_ge0 65534). intros Hge (k & E & Hk)%list_elem_of_fmap.
  apply (f_equal (sforall is_digit)) in E. rewrite fmt_uint_digits in E; [done|].
  by apply Hge.
Qed.

Lemma full_table_refuses_witness :
  intern_attribute "idle" (table_of many_names) = (table_of many_names, unusable) /\
  intern_type "idle" (table_of many_names) = (table_of many_names, no_type).
Proof.
  pose proof many_names_length as H.
  apply (full_table_refuses (table_of many_names) "idle"
    (table_of_ok _ many_names_nodup ltac:(lia)) (table_of_new _ _ idle_not_in)). exact H.
Defined.

(** C15. Applying a type to a rule gives the settings of the RFC 7396 merge of the
    rule's JSON onto the type's: a key the rule leaves out is inherited, and one
    it sets to [null], or to something unusable, suppresses the type's value. *)
Theorem inherit_is_merge_patch (t : NameTable) (ty : Value) (p : list (string * Value)) :
  table_ok t -> NoDup p.*1 ->
  let '(t1, rule) := from_json (VObject p) t in
  let '(t2, base) := from_json ty t1 in
  room t2 ->
  settings t2 (inherit rule base) = view_settings (json_view (merge_patch ty (VObject p))).
Proof.
  intros Ht Hnd. pose proof (from_json_spec (VObject p) t Ht) as H.
  destruct (from_json (VObject p) t) as [t1 rule]. destruct H as (H1 & _ & V1 & E1).
  pose proof (from_json_spec ty t1 H1) as H.
  destruct (from_json ty t1) as [t2 base]. destruct H as (_ & G2 & _ & E2). intros Hr.
  rewrite settings_view, view_of_inherit, E2, (view_grows t1 t2), E1
    by eauto using room_grows.
  by apply inherit_settings.
Qed.

Definition demo_type : Value :=
  VObject [("cpuset", VString "0-3"); ("ioclass", VString "idle"); ("nice", of_int 19);
           ("type", VString "BG_CPUIO")].
Definition demo_rule : list (string * Value) :=
  [("ioclass", VNull); ("latency_nice", of_int (-5)); ("name", VString "gcc");
   ("type", VString "BG_CPUIO"); ("zzz", VArray [VBool true])].

Lemma demo_rule_nodup : NoDup demo_rule.*1.
Proof. apply (bool_decide_unpack _). by vm_compute. Qed.

Lemma inherit_is_merge_patch_witness :
  let '(t1, rule) := from_json (VObject demo_rule) NameTable_default in
  let '(t2, base) := from_json demo_type t1 in
  settings t2 (inherit rule base) =
    view_settings (json_view (merge_patch demo_type (VObject demo_rule))).
Proof.
  refine (inherit_is_merge_patch NameTable_default demo_type demo_rule table_ok_default
            demo_rule_nodup _). by vm_compute.
Defined.

(** Reading the report of a rule back gives the rule: the declared keys with
    their values or [null], the absent keys absent, and every extra; [name] is
    the name it was reported under. *)
Theorem report_roundtrip (t : NameTable) (r : Rule) (name : string) :
  reportable r ->
  let w := json_view (to_json t r name) in
  w = MkView (w_type (view t r)) (nice r) (latency_nice r) (name_view t (ioclass r)) (ionice r)
        (name_view t (sched r)) (rtprio r) (oom_score_adj r) (name_view t (cgroup r))
        (name_view t (cpuset r)) (w_extras w) /\
  (forall k, map_get k (w_extras w) = map_get k (extras r)) /\
  get "name" (to_json t r name) = Some (VString name).
Proof.
  intros (Hn & Hl & Hi & Ho & Hr & Hx & Hnd) w. unfold w.
  assert (Hget : forall k, is_extra k = false ->
    get k (to_json t r name) = map_get k (declared t r name)).
  { intros k Hk. unfold to_json. cbn [get]. rewrite get_insert_all by done.
    by rewrite Hx. }
  split_and!.
  - unfold json_view, view. f_equal;
      first [ apply reported_number; [by rewrite Hget, get_declared|done]
            | apply reported_rtprio; [by rewrite Hget, get_declared|done]
            | apply reported_name; by rewrite Hget, get_declared
            | idtac ].
    rewrite Hget by done. rewrite get_declared. cbn. by destruct (type_as_str _ _).
  - intros k. cbn [w_extras json_view]. unfold read_extras, to_json. cbn [as_object].
    rewrite map_get_filter, get_insert_all by done.
    destruct (is_extra k) eqn:Hk; [|by rewrite Hx].
    fold (declared t r name). rewrite (declared_extra _ _ _ _ Hk). by destruct (map_get k (extras r)).
  - by rewrite Hget, get_declared.
Qed.

Lemma report_roundtrip_witness :
  let r := (from_json (VObject demo_rule) NameTable_default).2 in
  let t := (from_json (VObject demo_rule) NameTable_default).1 in
  get "name" (to_json t r "gcc") = Some (VString "gcc").
Proof.
  refine (proj2 (proj2 (report_roundtrip _ _ "gcc" (from_json_reportable _ _ _)))).
  intros p [= <-]. exact demo_rule_nodup.
Defined.

(** A JSON integer reaches the rule unchanged exactly when it fits an [i32];
    outside, the low 32 bits are taken, so it becomes another number. *)
Theorem wide_number_wraps (v : Value) (t : NameTable) (z : Z) :
  get "nice" v = Some (of_int z) -> in_s 64 z ->
  rule_nice (from_json v t).2 = Some (wrap_s 32 z) /\
  (rule_nice (from_json v t).2 = Some z <-> in_s 32 z).
Proof.
  intros Hv Hz. destruct (from_json_fields v t) as [E _].
  assert (Hn : rule_nice (from_json v t).2 = Some (wrap_s 32 z)).
  { unfold rule_nice. rewrite E. unfold read_number. rewrite Hv. unfold of_int, in_s in *.
    destruct (z <? 0) eqn:Ez; simpl; [done|]. by rewrite (proj2 (Z.ltb_lt z (2 ^ 63))) by lia. }
  split; [done|]. rewrite Hn. split; [intros [= <-]; by apply wrap_s_range|].
  intros. by rewrite wrap_s_small.
Qed.

Lemma wide_number_wraps_witness :
  let v := VObject [("name", VString "x"); ("nice", of_int 4294967301)] in
  rule_nice (from_json v NameTable_default).2 = Some 5.
Proof.
  intros v. destruct (wide_number_wraps v NameTable_default 4294967301) as [H _];
    [reflexivity|unfold in_s; lia|exact H].
Defined.

End RuleProps.
