(* ===== verification/RuleSet.v ===== *)
(** * Rule sets

    The second half of [crates/ananicy-core/src/rules.rs]: loading rule files,
    applying types, and finding the rule of a process name through the
    resolved-rule cache; and [SharedRules], the cell a reload replaces.

    Four things come from outside: [serde_json]'s parser, the [regexr] engine,
    the [lru] cache and the directory walk.  They are class parameters with the
    documented behaviour the theorems rely on as their laws; instances below show
    that the laws can be met.  The order of a [HashMap]'s iterator is unspecified,
    so that too is a parameter. *)

From stdpp Require Import base list gmap strings numbers sorting.
From Stdlib Require Import ZArith Lia Ascii.
From S2P Require Import Prelude RustStr Process Config Json RuleData LruCache.

#[local] Open Scope Z_scope.

(** ** What the rule set is given *)

(** [serde_json::from_str::<Value>]; [None] is an error. *)
Class JsonParser := json_from_str : string -> option Value.

(** [regexr]: building a pattern may fail, and so may a match, when its budget
    is spent. *)
Class RegexEngine := {
  Regex : Type;
  regex_build : string -> option Regex;
  try_is_match : Regex -> string -> option bool;
}.

(** The order in which a [HashMap] is iterated. *)
Class HashOrder := hash_iter : forall {A : Type}, gmap string A -> list (string * A).
Class HashOrderLaws `{HashOrder} :=
  hash_iter_perm : forall (A : Type) (m : gmap string A), hash_iter m ≡ₚ map_to_list m.

Section RuleSet.
Context {Hjson : JsonParser} {Hregex : RegexEngine} {Hlru : Lru string (option RuleName)}
  {Horder : HashOrder}.

(** ** Matchers *)

Record Matcher := MkMatcher { compiled : Regex; matcher_name : string }.

Definition compile (pattern name : string) : option Matcher :=
  (fun r => MkMatcher r name) <$> regex_build pattern.

(** A spent budget is logged and counts as no match. *)
Definition is_match (m : Matcher) (name : string) : bool :=
  match try_is_match (compiled m) name with Some matched => matched | None => false end.

(** ** The rule set *)

Record Rules := MkRules {
  programs : gmap RuleName Z;                (* to u32 *)
  rules : list Rule;
  types : gmap TypeName Value;
  cgroups : gmap CgroupName Value;
  regex_programs : list Matcher;
  resolved_cache : LruCache string (option RuleName);
}.

Definition MAX_CACHEABLE_NAME : Z := 256.

Definition Rules_new : Rules := MkRules ∅ [] ∅ ∅ [] (lru_new (Z.to_nat 5000)).

(** What a load reports, apart from the text of the messages. *)
Inductive load_note :=
| Replaces (what name : string)
| InvalidRegex (pattern : string)
| MissingKey (json : string)
| InvalidJson (json : string).

Definition note_redefinition (replaced : bool) (what name : string) : list load_note :=
  if replaced then [Replaces what name] else [].

(** The text between the first opening and the last closing brace. *)
Definition json_span (line : string) : option string :=
  match find_char "{"%char line with
  | None => None
  | Some start =>
      match rfind_char "}"%char line with
      | None => None
      | Some end_ =>
          if (end_ <? start)%nat then None
          else Some (slice start (end_ + 1) line)
      end
  end.

(** A value with a [name]: overwrite the slot of that name or append one. *)
Definition define_program (name : string) (value : Value) (t : NameTable) (rs : Rules)
    : NameTable * Rules * list load_note :=
  let previous := programs rs !! name in
  let notes := note_redefinition (bool_decide (is_Some previous)) "rule" name in
  let '(slots, idx) :=
    match previous with
    | Some idx => (rules rs, idx)
    | None =>
        let slots := rules rs ++ [Rule_default] in
        (slots, wrap_u 32 (Z.of_nat (length slots) - 1))
    end in
  let '(t, rule) := from_json value t in
  let slots := <[Z.to_nat idx := rule]> slots in
  let '(matchers, notes) :=
    match get "name_regex" value ≫= as_str with
    | Some regex_str =>
        match compile regex_str name with
        | Some matcher => (regex_programs rs ++ [matcher], notes)
        | None => (regex_programs rs, notes ++ [InvalidRegex regex_str])
        end
    | None => (regex_programs rs, notes)
    end in
  (t, MkRules (<[name := idx]> (programs rs)) slots (types rs) (cgroups rs) matchers
        (resolved_cache rs), notes).

Definition define_type (name : string) (value : Value) (rs : Rules) : Rules :=
  MkRules (programs rs) (rules rs) (<[name := value]> (types rs)) (cgroups rs)
    (regex_programs rs) (resolved_cache rs).
Definition define_cgroup (name : string) (value : Value) (rs : Rules) : Rules :=
  MkRules (programs rs) (rules rs) (types rs) (<[name := value]> (cgroups rs))
    (regex_programs rs) (resolved_cache rs).

(** One line: the new table and set, the notes, and whether it defined
    something. *)
Definition load_rule_from_named (line : string) (t : NameTable) (rs : Rules)
    : NameTable * Rules * list load_note * bool :=
  let line := trim line in
  if String.eqb line EmptyString || starts_with "#" line then (t, rs, [], false)
  else
    match json_span line with
    | None => (t, rs, [], false)
    | Some json_str =>
        match json_from_str json_str with
        | None => (t, rs, [InvalidJson json_str], false)
        | Some value =>
            match get "name" value ≫= as_str with
            | Some name => (let '(t, rs, notes) := define_program name value t rs in (t, rs, notes, true))
            | None =>
                match get "type" value ≫= as_str with
                | Some type_name =>
                    (t, define_type type_name value rs,
                     note_redefinition (bool_decide (is_Some (types rs !! type_name)))
                       "type" type_name, true)
                | None =>
                    match get "cgroup" value ≫= as_str with
                    | Some cgroup_name =>
                        (t, define_cgroup cgroup_name value rs,
                         note_redefinition (bool_decide (is_Some (cgroups rs !! cgroup_name)))
                           "cgroup" cgroup_name, true)
                    | None => (t, rs, [MissingKey json_str], false)
                    end
                end
            end
        end
    end.

Definition load_rule_from_string (line : string) (t : NameTable) (rs : Rules)
    : NameTable * Rules * list load_note * bool := load_rule_from_named line t rs.

(** [load_file], given what reading it answers. *)
Definition load_line (st : NameTable * Rules * list load_note) (line : string)
    : NameTable * Rules * list load_note :=
  let '(t, rs, notes) := st in
  let '(t, rs, more, _) := load_rule_from_named line t rs in (t, rs, notes ++ more).

Definition load_file (content : option string) (st : NameTable * Rules * list load_note)
    : NameTable * Rules * list load_note :=
  match content with
  | Some content => foldl load_line st (lines content)
  | None => st
  end.

(** ** Inheritance *)

Definition resolve_base (st : NameTable * gmap string Rule) (e : string * Value)
    : NameTable * gmap string Rule :=
  let '(t, bases) := st in
  let '(t, base) := from_json (snd e) t in
  let base := MkRule no_type (nice base) (latency_nice base) (ioclass base) (ionice base)
                (sched base) (rtprio base) (oom_score_adj base) (cgroup base) (cpuset base)
                (extras base) in
  (t, <[fst e := base]> bases).

Definition apply_base (t : NameTable) (bases : gmap string Rule) (rule : Rule) : Rule :=
  match type_as_str t (type_name rule) with
  | None => rule
  | Some type_name =>
      match bases !! type_name with
      | None => rule
      | Some base => inherit rule base
      end
  end.

Definition precompute_inheritance (t : NameTable) (rs : Rules) : NameTable * Rules :=
  let '(t, bases) := foldl resolve_base (t, ∅) (hash_iter (types rs)) in
  (t, MkRules (programs rs) (map (apply_base t bases) (rules rs)) (types rs) (cgroups rs)
        (regex_programs rs) (lru_clear (resolved_cache rs))).

(** ** Directories *)

(** A path below the directory, by components; [Path] is ordered by them. *)
Definition path := list string.

Fixpoint path_compare (a b : path) : comparison :=
  match a, b with
  | [], [] => Eq
  | [], _ => Lt
  | _, [] => Gt
  | x :: a, y :: b =>
      match String.compare x y with Eq => path_compare a b | c => c end
  end.
Definition path_le (a b : path) : Prop := path_compare a b <> Gt.
#[global] Instance path_le_dec : RelDecision path_le.
Proof. intros a b. unfold path_le. apply _. Defined.

(** [Path::extension]: what follows the last dot of the file name, unless the
    dot is its first character; [unwrap_or("")]. *)
Definition extension (p : path) : string :=
  match last p with
  | None => EmptyString
  | Some file =>
      match rfind_char "."%char file with
      | None | Some O => EmptyString
      | Some i => sdrop (i + 1) file
      end
  end.

Definition wanted (cfg : ConfigSnapshot) (p : path) : bool :=
  let ext := extension p in
  (String.eqb ext "rules" && rule_load cfg) || (String.eqb ext "types" && type_load cfg)
  || (String.eqb ext "cgroups" && cgroup_load cfg).

(** An entry of the walk: an error, or a path and whether it is a file. *)
Definition walk_paths (walk : list (option (path * bool))) : list path :=
  omap (fun e => match e with Some (p, true) => Some p | _ => None end) walk.

(** [load_directory]: [walk] is [None] when the directory is missing or not one,
    and [read] is what [fs::read_to_string] answers. *)
Definition load_directory (walk : option (list (option (path * bool))))
    (read : path -> option string) (cfg : ConfigSnapshot) (t : NameTable) (rs : Rules)
    : NameTable * Rules * list load_note :=
  match walk with
  | None => (t, rs, [])
  | Some walk =>
      let rs := MkRules ∅ [] ∅ ∅ [] (lru_clear (resolved_cache rs)) in
      let paths := merge_sort path_le (walk_paths walk) in
      let '(t, rs, notes) :=
        foldl (fun st p => if wanted cfg p then load_file (read p) st else st)
          (t, rs, []) paths in
      let '(t, rs) := precompute_inheritance t rs in
      (t, rs, notes)
  end.

(** ** Lookup *)

Definition resolve (rs : Rules) (name : option RuleName) : option (RuleName * Rule) :=
  match name with
  | None => None
  | Some name =>
      match programs rs !! name with
      | None => None
      | Some idx =>
          match rules rs !! Z.to_nat idx with
          | None => None
          | Some rule => Some (name, rule)
          end
      end
  end.

Fixpoint first_match (progs : gmap RuleName Z) (target_name : string) (l : list Matcher)
    : option RuleName :=
  match l with
  | [] => None
  | m :: l =>
      if is_match m target_name && bool_decide (is_Some (progs !! matcher_name m))
      then Some (matcher_name m) else first_match progs target_name l
  end.

Definition find_best_match (rs : Rules) (target_name : string) : option RuleName :=
  match programs rs !! target_name with
  | Some _ => Some target_name
  | None => first_match (programs rs) target_name (regex_programs rs)
  end.

Definition set_cache (c : LruCache string (option RuleName)) (rs : Rules) : Rules :=
  MkRules (programs rs) (rules rs) (types rs) (cgroups rs) (regex_programs rs) c.

Definition get_rule (name : string) (rs : Rules) : Rules * option (RuleName * Rule) :=
  let '(c, cached) := lru_get name (resolved_cache rs) in
  let rs := set_cache c rs in
  match cached with
  | Some cached => (rs, resolve rs cached)
  | None =>
      let best_match := find_best_match rs name in
      let rs :=
        if Z.of_nat (slen name) <=? MAX_CACHEABLE_NAME
        then set_cache (lru_put name best_match (resolved_cache rs)) rs else rs in
      (rs, resolve rs best_match)
  end.

Definition rules_size (rs : Rules) : Z := Z.of_nat (length (rules rs)).
Definition get_cgroups (rs : Rules) : gmap CgroupName Value := cgroups rs.
Definition get_types (rs : Rules) : gmap TypeName Value := types rs.
Definition cached_resolution_count (rs : Rules) : nat := lru_len (resolved_cache rs).

Definition iter_rules (rs : Rules) : list (RuleName * Rule) :=
  omap (fun e => (fun rule => (fst e, rule)) <$> rules rs !! Z.to_nat (snd e))
    (hash_iter (programs rs)).

(** ** The shared cell *)

(** [SharedRules] is an [Arc<RwLock<Arc<Rules>>>]: rule sets live in a store
    and the cell names one of them.  A reader keeps the address it was given, so
    the cache it fills is the cache of that set. *)
Record SharedRules := MkShared { store : list Rules; current : nat }.

Definition shared_new (rs : Rules) : SharedRules := MkShared [rs] O.
Definition shared_get (s : SharedRules) : nat := current s.
Definition shared_replace (rs : Rules) (s : SharedRules) : SharedRules * Z :=
  (MkShared (store s ++ [rs]) (length (store s)), rules_size rs).

(** [get_rule] through an [Arc] obtained earlier. *)
Definition shared_get_rule (arc : nat) (name : string) (s : SharedRules)
    : SharedRules * option (RuleName * Rule) :=
  match store s !! arc with
  | None => (s, None)
  | Some rs =>
      let '(rs, found) := get_rule name rs in
      (MkShared (<[arc := rs]> (store s)) (current s), found)
  end.

(** ** The lookup and its cache *)

Context {Hlaws : LruLaws string (option RuleName)}.

(** The cache answers what the search would. *)
Definition coherent (rs : Rules) : Prop :=
  forall k w, lru_peek k (resolved_cache rs) = Some w ->
  w = find_best_match rs k /\ Z.of_nat (slen k) <= MAX_CACHEABLE_NAME.

(** Two sets that differ in their caches only. *)
Definition same_rules (rs rs' : Rules) : Prop :=
  exists c, rs' = set_cache c rs.

#[global] Instance same_rules_preorder : PreOrder same_rules.
Proof.
  split.
  - intros rs. exists (resolved_cache rs). by destruct rs.
  - intros r1 r2 r3 [c ->] [c' ->]. by exists c'.
Qed.

Lemma same_find rs rs' n : same_rules rs rs' -> find_best_match rs' n = find_best_match rs n.
Proof. by intros [c ->]. Qed.
Lemma same_resolve rs rs' n : same_rules rs rs' -> resolve rs' n = resolve rs n.
Proof. by intros [c ->]. Qed.

Lemma coherent_cleared rs c : coherent (set_cache (lru_clear c) rs).
Proof. intros k w. simpl. by rewrite peek_clear. Qed.

Lemma get_rule_spec name rs :
  coherent rs ->
  let '(rs', found) := get_rule name rs in
  found = resolve rs (find_best_match rs name) /\ coherent rs' /\ same_rules rs rs' /\
  lru_cap (resolved_cache rs') = lru_cap (resolved_cache rs).
Proof.
  intros Hc. unfold get_rule.
  pose proof (get_peek name (resolved_cache rs)) as Hg.
  pose proof (fun j => peek_get j name (resolved_cache rs)) as Hp.
  pose proof (cap_get name (resolved_cache rs)) as Hcap.
  destruct (lru_get name (resolved_cache rs)) as [c found]. cbn [fst snd] in *.
  assert (Hc1 : coherent (set_cache c rs)).
  { intros k w. simpl. rewrite Hp. apply Hc. }
  destruct found as [w|].
  - destruct (Hc name w) as [-> _]; [done|]. split_and!; try done. by exists c.
  - cases_if; (split_and!; [done| |by eexists|cbn; by rewrite ?cap_put]); [|done].
    zb. intros k w. cbn [set_cache resolved_cache]. destruct (decide (k = name)) as [->|Hk].
    + intros ->%peek_put_old. done.
    + intros Hw%peek_put_ne; [|done]. by apply (Hc1 k w).
Qed.

(** A sequence of lookups. *)
Fixpoint lookups (names : list string) (rs : Rules) : Rules * list (option (RuleName * Rule)) :=
  match names with
  | [] => (rs, [])
  | n :: names =>
      let '(rs, found) := get_rule n rs in
      let '(rs, rest) := lookups names rs in (rs, found :: rest)
  end.

Lemma lookups_spec names rs :
  coherent rs ->
  let '(rs', found) := lookups names rs in
  found = map (fun n => resolve rs (find_best_match rs n)) names /\ coherent rs' /\
  same_rules rs rs' /\ lru_cap (resolved_cache rs') = lru_cap (resolved_cache rs).
Proof.
  revert rs. induction names as [|n names IH]; intros rs Hc; cbn [lookups].
  { split_and!; try done. }
  pose proof (get_rule_spec n rs Hc) as H1. destruct (get_rule n rs) as [r1 f1].
  destruct H1 as (-> & Hc1 & Hs1 & Hp1).
  specialize (IH r1 Hc1). destruct (lookups names r1) as [r2 f2].
  destruct IH as (-> & Hc2 & Hs2 & Hp2). split_and!; [|done|by transitivity r1|congruence].
  cbn [map]. f_equal. apply map_ext. intros m. by rewrite (same_find rs), (same_resolve rs).
Qed.

(** The regular-expression fallback takes the first pattern, in load order, that
    matches and whose rule exists. *)
Lemma first_match_spec progs target l n :
  first_match progs target l = Some n <->
  exists l1 m l2, l = l1 ++ m :: l2 /\ matcher_name m = n /\ is_match m target = true /\
    is_Some (progs !! n) /\
    Forall (fun m' => is_match m' target = true -> progs !! matcher_name m' = None) l1.
Proof.
  induction l as [|m l IH]; cbn [first_match].
  { split; [done|]. intros ([|] & ? & ? & ? & _); done. }
  destruct (is_match m target && bool_decide (is_Some (progs !! matcher_name m))) eqn:E.
  - apply andb_true_iff in E as [Em Eb%bool_decide_eq_true]. split.
    + intros [= <-]. exists [], m, l. split_and!; try done. 
    + intros (l1 & m' & l2 & El & <- & _ & _ & HF).
      destruct l1 as [|m1 l1]; simplify_eq/=; [done|].
      apply Forall_cons in HF as [HF _]. rewrite (HF Em) in Eb. by destruct Eb.
  - rewrite IH. apply andb_false_iff in E. split.
    + intros (l1 & m' & l2 & -> & ? & ? & ? & ?). exists (m :: l1), m', l2. split_and!; try done.
      apply Forall_cons; split; [|done]. intros Em. destruct E as [E|E%bool_decide_eq_false]; [congruence|].
      by apply eq_None_not_Some.
    + intros (l1 & m' & l2 & El & <- & ? & ? & HF). destruct l1 as [|m1 l1]; simplify_eq/=.
      * destruct E as [E|E%bool_decide_eq_false]; [congruence|done].
      * apply Forall_cons in HF as [_ HF]. by exists l1, m', l2.
Qed.

(** ** What a load should give

    The specification works on the list of JSON values the lines define: the
    last definition of a name wins, and a rule inherits from the last definition
    of the type it names. *)

Definition line_value (line : string) : option Value :=
  let line := trim line in
  if String.eqb line EmptyString || starts_with "#" line then None
  else json_span line ≫= json_from_str.

Definition program_key (v : Value) : option string := get "name" v ≫= as_str.
Definition type_key (v : Value) : option string :=
  match program_key v with Some _ => None | None => get "type" v ≫= as_str end.
Definition cgroup_key (v : Value) : option string :=
  match program_key v, type_key v with
  | None, None => get "cgroup" v ≫= as_str
  | _, _ => None
  end.

Definition define (key : Value -> option string) (m : gmap string Value) (v : Value)
    : gmap string Value :=
  match key v with Some n => <[n := v]> m | None => m end.
Definition definitions (key : Value -> option string) (vs : list Value) : gmap string Value :=
  foldl (define key) ∅ vs.

Definition spec_rule (vs : list Value) (n : string) : option RuleView :=
  (fun v =>
     let w := json_view v in
     match w_type w ≫= (fun ty => definitions type_key vs !! ty) with
     | Some tv => view_inherit w (json_view tv)
     | None => w
     end) <$> definitions program_key vs !! n.

Lemma definitions_snoc key vs v : definitions key (vs ++ [v]) = define key (definitions key vs) v.
Proof. unfold definitions. by rewrite foldl_app. Qed.

(** ** The index *)

(** [programs] numbers exactly the slots of [rules]. *)
Record index_ok (progs : gmap RuleName Z) (len : nat) : Prop := {
  index_range : forall n i, progs !! n = Some i -> 0 <= i < Z.of_nat len;
  index_inj : forall n m i, progs !! n = Some i -> progs !! m = Some i -> n = m;
  index_onto : forall k, (k < len)%nat -> exists n, progs !! n = Some (Z.of_nat k);
}.

Lemma index_ok_empty : index_ok ∅ 0.
Proof. split; try (intros *; by rewrite lookup_empty). intros k. lia. Qed.

Lemma index_ok_push progs len n :
  index_ok progs len -> progs !! n = None -> index_ok (<[n := Z.of_nat len]> progs) (S len).
Proof.
  intros [Hr Hi Ho] Hn. split.
  - intros m i. destruct (decide (m = n)) as [->|].
    + rewrite lookup_insert_eq. intros [= <-]. lia.
    + rewrite lookup_insert_ne by done. intros ?%Hr. lia.
  - intros m m' i. rewrite !lookup_insert_Some. 
    intros [[<- <-]|[? E]] [[<- E']|[? E']]; try done.
    + apply Hr in E'. lia.
    + subst. apply Hr in E. lia.
    + by eapply Hi.
  - intros k Hk. destruct (decide (k = len)) as [->|].
    + exists n. by rewrite lookup_insert_eq.
    + destruct (Ho k) as [m Hm]; [lia|]. exists m. rewrite lookup_insert_ne; [done|].
      congruence.
Qed.

(** ** The simulation *)

Record sim (t : NameTable) (rs : Rules) (vs : list Value) : Prop := {
  sim_table : table_ok t;
  sim_index : index_ok (programs rs) (length (rules rs));
  sim_len : (length (rules rs) <= length vs)%nat;
  sim_dom : forall n, is_Some (programs rs !! n) <-> is_Some (definitions program_key vs !! n);
  sim_types : types rs = definitions type_key vs;
  sim_cgroups : cgroups rs = definitions cgroup_key vs;
  sim_valid : Forall (rule_valid t) (rules rs);
  sim_view : room t -> forall n i v r,
    programs rs !! n = Some i -> definitions program_key vs !! n = Some v ->
    rules rs !! Z.to_nat i = Some r -> view t r = json_view v;
}.

Lemma sim_empty t c : table_ok t -> sim t (MkRules ∅ [] ∅ ∅ [] c) [].
Proof.
  intros Ht. split; simpl; try done; try apply index_ok_empty.
  intros n. unfold definitions. simpl. by rewrite !lookup_empty.
Qed.

(** Entering a rule in a slot. *)
Definition slots_with (progs : gmap RuleName Z) (l : list Rule) (n : RuleName) (r : Rule)
    : gmap RuleName Z * list Rule :=
  match progs !! n with
  | Some i => (<[n := i]> progs, <[Z.to_nat i := r]> l)
  | None => (<[n := Z.of_nat (length l)]> progs, l ++ [r])
  end.

Lemma define_program_slots n v t rs :
  Z.of_nat (length (rules rs)) < 2 ^ 32 ->
  let '(t', rs', _) := define_program n v t rs in
  t' = (from_json v t).1 /\
  (programs rs', rules rs') = slots_with (programs rs) (rules rs) n (from_json v t).2 /\
  types rs' = types rs /\ cgroups rs' = cgroups rs.
Proof.
  intros Hl. unfold define_program, slots_with. destruct (from_json v t) as [t' r].
  destruct (programs rs !! n) as [i|].
  - by destruct (get "name_regex" v ≫= as_str) as [p|]; [destruct (compile p n)|].
  - rewrite length_app. cbn [length]. replace (Z.of_nat (length (rules rs) + 1) - 1) with
      (Z.of_nat (length (rules rs))) by lia.
    rewrite wrap_u_small by (unfold in_u; lia). rewrite Nat2Z.id.
    rewrite insert_app_r_alt, Nat.sub_diag by lia.
    by destruct (get "name_regex" v ≫= as_str) as [p|]; [destruct (compile p n)|].
Qed.

Lemma slots_with_index progs l n r :
  index_ok progs (length l) ->
  index_ok (slots_with progs l n r).1 (length (slots_with progs l n r).2) /\
  (length (slots_with progs l n r).2 <= S (length l))%nat.
Proof.
  intros Hi. unfold slots_with. destruct (progs !! n) as [i|] eqn:E; simpl.
  - rewrite length_insert, insert_id by done. split; [done|lia].
  - rewrite length_app, Nat.add_1_r. split; [by apply index_ok_push|lia].
Qed.

(** The slot of the defined name holds the rule; the others are as before. *)
Lemma slots_with_lookup progs l n r m i r' :
  index_ok progs (length l) ->
  (slots_with progs l n r).1 !! m = Some i ->
  (slots_with progs l n r).2 !! Z.to_nat i = Some r' ->
  (m = n /\ r' = r) \/ (m <> n /\ progs !! m = Some i /\ l !! Z.to_nat i = Some r').
Proof.
  intros [Hr Hi _]. unfold slots_with. destruct (progs !! n) as [k|] eqn:E; simpl.
  - rewrite insert_id by done. intros Hm Hl. pose proof (Hr _ _ E). pose proof (Hr _ _ Hm).
    destruct (decide (i = k)) as [->|Hne].
    + left. rewrite list_lookup_insert_eq in Hl by lia. split; [by eapply Hi|congruence].
    + right. rewrite list_lookup_insert_ne in Hl by lia. split_and!; [|done..]. congruence.
  - rewrite lookup_insert_Some. intros [[<- <-]|[Hm Hp]].
    + rewrite Nat2Z.id, list_lookup_middle by done. intros [= <-]. by left.
    + pose proof (Hr _ _ Hp). rewrite lookup_app_l by lia. intros. right. by split_and!.
Qed.

Lemma slots_with_dom progs l n r m :
  is_Some ((slots_with progs l n r).1 !! m) <-> m = n \/ is_Some (progs !! m).
Proof.
  unfold slots_with. destruct (progs !! n) eqn:E; simpl;
    rewrite lookup_insert_is_Some'; naive_solver.
Qed.

Lemma slots_with_forall (P : Rule -> Prop) progs l n r :
  P r -> Forall P l -> Forall P (slots_with progs l n r).2.
Proof.
  intros Hr Hl. unfold slots_with. destruct (progs !! n); simpl.
  - by apply Forall_insert.
  - apply Forall_app. by split; [|apply Forall_singleton].
Qed.

Lemma define_other key m v n : key v <> Some n -> define key m v !! n = m !! n.
Proof.
  unfold define. destruct (key v) as [k|] eqn:E; [|done]. intros. by rewrite lookup_insert_ne by congruence.
Qed.

Lemma sim_program n v t rs vs :
  program_key v = Some n -> sim t rs vs -> Z.of_nat (length vs) < 2 ^ 32 ->
  let '(t', rs', _) := define_program n v t rs in sim t' rs' (vs ++ [v]) /\ grows t t'.
Proof.
  intros Hv Hs Hlen. pose proof (sim_len _ _ _ Hs) as Hl.
  pose proof (define_program_slots n v t rs ltac:(lia)) as Hd.
  destruct (define_program n v t rs) as [[t' rs'] notes].
  destruct Hd as (-> & Hslots & Hty & Hcg).
  pose proof (from_json_spec v t (sim_table _ _ _ Hs)) as Hj.
  destruct (from_json v t) as [t' r]. destruct Hj as (Ht' & Hg & Hval & Hview). cbn [fst snd] in *.
  assert (Htk : type_key v = None) by (unfold type_key; by rewrite Hv).
  assert (Hck : cgroup_key v = None) by (unfold cgroup_key; by rewrite Hv).
  pose proof (slots_with_index _ _ n r (sim_index _ _ _ Hs)) as [Hix Hsz].
  pose proof (slots_with_dom (programs rs) (rules rs) n r) as Hdom.
  pose proof (fun m i r' => slots_with_lookup _ _ n r m i r' (sim_index _ _ _ Hs)) as Hlk.
  pose proof (slots_with_forall (rule_valid t') (programs rs) (rules rs) n r Hval) as Hfor.
  rewrite <- Hslots in *. cbn [fst snd] in *. split; [|done]. split; try done.
  - rewrite length_app. simpl. lia.
  - intros m. rewrite Hdom, (sim_dom _ _ _ Hs), definitions_snoc. unfold define. rewrite Hv.
    rewrite lookup_insert_is_Some'. naive_solver.
  - rewrite Hty, (sim_types _ _ _ Hs), definitions_snoc. unfold define. by rewrite Htk.
  - rewrite Hcg, (sim_cgroups _ _ _ Hs), definitions_snoc. unfold define. by rewrite Hck.
  - apply Hfor. eapply Forall_impl; [apply (sim_valid _ _ _ Hs)|].
    intros r0. by apply rule_valid_grows.
  - intros Hr m i v' r' Hm Hv' Hr'. rewrite definitions_snoc in Hv'. unfold define in Hv'.
    rewrite Hv in Hv'. destruct (Hlk m i r' Hm Hr') as [[-> ->]|(Hne & Hm0 & Hr0)].
    + rewrite lookup_insert_eq in Hv'. simplify_eq. by apply Hview.
    + rewrite lookup_insert_ne in Hv' by done. rewrite (view_grows t t'); [|done|].
      * eapply (sim_view _ _ _ Hs); eauto using room_grows.
      * eapply Forall_lookup_1; [apply (sim_valid _ _ _ Hs)|done].
Qed.

Lemma load_rule_sim line t rs vs :
  sim t rs vs -> Z.of_nat (length vs) < 2 ^ 32 ->
  let '(t', rs', _, _) := load_rule_from_named line t rs in
  sim t' rs' (vs ++ option_list (line_value line)) /\ grows t t'.
Proof.
  intros Hs Hl. unfold load_rule_from_named, line_value. cases_if.
  { rewrite app_nil_r. by split. }
  destruct (json_span (trim line)) as [j|]; cbn [mbind option_bind]; [|by rewrite app_nil_r].
  destruct (json_from_str j) as [v|]; cbn [option_list]; [|by rewrite app_nil_r].
  destruct (get "name" v ≫= as_str) as [n|] eqn:En.
  { pose proof (sim_program n v t rs vs En Hs Hl) as Hp.
    by destruct (define_program n v t rs) as [[t' rs'] notes]. }
  assert (Hstep : forall rs', programs rs' = programs rs -> rules rs' = rules rs ->
    types rs' = definitions type_key (vs ++ [v]) ->
    cgroups rs' = definitions cgroup_key (vs ++ [v]) ->
    sim t rs' (vs ++ [v]) /\ grows t t).
  { intros rs' Ep Er Et Ec. split; [|reflexivity].
    assert (Ed : definitions program_key (vs ++ [v]) = definitions program_key vs)
      by (rewrite definitions_snoc; unfold define, program_key; by rewrite En).
    destruct Hs. split; rewrite ?Ep, ?Er, ?Ed; try done. rewrite length_app. lia. }
  destruct (get "type" v ≫= as_str) as [n|] eqn:Et; [|destruct (get "cgroup" v ≫= as_str) as [n|] eqn:Ec];
    apply Hstep; try done; rewrite definitions_snoc; unfold define, cgroup_key, type_key, program_key;
    rewrite En, ?Et, ?Ec; cbn; by rewrite ?(sim_types _ _ _ Hs), ?(sim_cgroups _ _ _ Hs).
Qed.

Definition values_of (ls : list string) : list Value := omap line_value ls.

Lemma load_lines_sim ls t rs notes vs :
  sim t rs vs -> Z.of_nat (length vs + length ls) < 2 ^ 32 ->
  let '(t', rs', _) := foldl load_line (t, rs, notes) ls in
  sim t' rs' (vs ++ values_of ls) /\ grows t t'.
Proof.
  revert t rs notes vs. induction ls as [|l ls IH]; intros t rs notes vs Hs Hlen; cbn [foldl].
  { by rewrite app_nil_r. }
  simpl in Hlen. pose proof (load_rule_sim l t rs vs Hs ltac:(lia)) as H1. cbn [load_line].
  destruct (load_rule_from_named l t rs) as [[[t1 rs1] n1] b]. destruct H1 as [Hs1 G1].
  assert (Hl1 : (length (vs ++ option_list (line_value l)) <= S (length vs))%nat)
    by (rewrite length_app; destruct (line_value l); simpl; lia).
  specialize (IH t1 rs1 (notes ++ n1) _ Hs1 ltac:(lia)).
  destruct (foldl load_line (t1, rs1, notes ++ n1) ls) as [[t2 rs2] n2]. destruct IH as [Hs2 G2].
  split; [|by transitivity t1]. rewrite <- app_assoc in Hs2.
  replace (values_of (l :: ls)) with (option_list (line_value l) ++ values_of ls); [done|].
  unfold values_of. cbn [omap list_omap]. by destruct (line_value l).
Qed.

(** ** The types, resolved once each *)

Context {Horderlaws : HashOrderLaws}.

(** [bases] holds the resolved rule of every type in [m]. *)
Definition bases_ok (t : NameTable) (bases : gmap string Rule) (m : gmap string Value) : Prop :=
  forall n,
    match bases !! n, m !! n with
    | Some b, Some v =>
        rule_valid t b /\
        (room t -> forall w, view_inherit w (view t b) = view_inherit w (json_view v))
    | None, None => True
    | _, _ => False
    end.

Lemma resolve_bases_ok l t bases m :
  table_ok t -> bases_ok t bases m ->
  let '(t', bases') := foldl resolve_base (t, bases) l in
  table_ok t' /\ grows t t' /\
  bases_ok t' bases' (foldl (fun m e => <[fst e := snd e]> m) m l).
Proof.
  revert t bases m. induction l as [|[n v] l IH]; intros t bases m Ht Hb; cbn [foldl]; [done|].
  cbn [resolve_base fst snd]. pose proof (from_json_spec v t Ht) as Hj.
  destruct (from_json v t) as [t1 b]. destruct Hj as (Ht1 & G1 & V1 & E1).
  match goal with |- context [foldl resolve_base (t1, <[n := ?b]> bases) l] => set (b' := b) end.
  specialize (IH t1 (<[n := b']> bases) (<[n := v]> m) Ht1).
  destruct (foldl resolve_base (t1, <[n := b']> bases) l) as [t2 bases2].
  destruct IH as (Ht2 & G2 & Hb2); [|split_and!; try done; by transitivity t1].
  intros k. destruct (decide (k = n)) as [->|Hk].
  - rewrite !lookup_insert_eq. destruct V1 as (V0 & V1). split.
    + split; [left; simpl; lia|done].
    + intros Hr w. by rewrite <- (E1 Hr).
  - rewrite !lookup_insert_ne by done. specialize (Hb k).
    destruct (bases !! k) as [b0|], (m !! k) as [v0|]; try done. destruct Hb as [Hv Hw].
    split; [by eapply rule_valid_grows|]. intros Hr w.
    rewrite (view_grows t t1) by done. by eapply Hw, room_grows.
Qed.

Lemma foldl_insert_types (m : gmap string Value) :
  foldl (fun m e => <[fst e := snd e]> m) ∅ (hash_iter m) = m.
Proof.
  assert (E : forall l acc, foldl (fun (m : gmap string Value) e => <[fst e := snd e]> m) acc l =
            foldr (fun e m => <[fst e := snd e]> m) acc (reverse l)).
  { intros l. induction l as [|e l IH]; intros acc; [done|]. rewrite reverse_cons, foldr_app.
    simpl. by rewrite IH. }
  rewrite E. change (foldr _ ∅ ?l) with (list_to_map (M := gmap string Value) l).
  rewrite <- (list_to_map_to_list m) at 2. symmetry. apply list_to_map_proper.
  - apply NoDup_fst_map_to_list.
  - rewrite reverse_Permutation. symmetry. apply hash_iter_perm.
Qed.

(** After the types have been applied every program's rule says what the
    specification says. *)
Lemma precompute_refines t rs vs :
  sim t rs vs ->
  let '(t', rs') := precompute_inheritance t rs in
  table_ok t' /\ grows t t' /\ programs rs' = programs rs /\
  length (rules rs') = length (rules rs) /\
  types rs' = types rs /\ cgroups rs' = cgroups rs /\ regex_programs rs' = regex_programs rs /\
  coherent rs' /\
  (room t' -> forall n, view t' ∘ snd <$> resolve rs' (Some n) = spec_rule vs n).
Proof.
  intros Hs. unfold precompute_inheritance.
  pose proof (resolve_bases_ok (hash_iter (types rs)) t ∅ ∅ (sim_table _ _ _ Hs)) as Hb.
  destruct (foldl resolve_base (t, ∅) (hash_iter (types rs))) as [t' bases].
  destruct Hb as (Ht' & G & Hb); [intros n; by rewrite !lookup_empty|].
  rewrite foldl_insert_types, (sim_types _ _ _ Hs) in Hb.
  split_and!; try done; [simpl; apply length_map|by intros k w; simpl; rewrite peek_clear|].
  intros Hr n. unfold resolve, spec_rule. simpl.
  pose proof (sim_dom _ _ _ Hs n) as Hd.
  destruct (programs rs !! n) as [i|] eqn:En; [|by destruct (definitions program_key vs !! n); [destruct Hd as [_ []]|]].
  destruct (definitions program_key vs !! n) as [v|] eqn:Ev; [|by destruct Hd as [[] _]].
  pose proof (index_range _ _ (sim_index _ _ _ Hs) n i En) as Hi.
  destruct (rules rs !! Z.to_nat i) as [r|] eqn:Er; [|apply lookup_ge_None in Er; lia].
  rewrite list_lookup_fmap, Er. simpl. f_equal.
  assert (Hv : rule_valid t r) by (eapply Forall_lookup_1; [apply (sim_valid _ _ _ Hs)|done]).
  assert (Hw : view t' r = json_view v).
  { rewrite (view_grows t t') by done. eapply (sim_view _ _ _ Hs); eauto using room_grows. }
  unfold apply_base.
  assert (type_as_str t' (type_name r) = (get "type" v ≫= as_str)) as ->
    by exact (f_equal w_type Hw).
  destruct (get "type" v ≫= as_str) as [ty|]; [|exact Hw]. specialize (Hb ty). simpl.
  destruct (bases !! ty) as [b|], (definitions type_key vs !! ty) as [tv|]; try done.
  destruct Hb as [_ Hb]. by rewrite view_of_inherit, Hb, Hw.
Qed.

(** ** The directory *)

(** The lines a load reads, in the order it reads them. *)
Definition file_lines (cfg : ConfigSnapshot) (read : path -> option string) (p : path)
    : list string :=
  if wanted cfg p then match read p with Some content => lines content | None => [] end else [].
Definition dir_lines (walk : list (option (path * bool))) (read : path -> option string)
    (cfg : ConfigSnapshot) : list string :=
  mjoin (map (file_lines cfg read) (merge_sort path_le (walk_paths walk))).

Lemma load_paths read cfg paths st :
  foldl (fun st p => if wanted cfg p then load_file (read p) st else st) st paths =
  foldl load_line st (mjoin (map (file_lines cfg read) paths)).
Proof.
  revert st. induction paths as [|p paths IH]; intros st; [done|]. cbn [foldl map mjoin list_join].
  rewrite foldl_app, IH. unfold file_lines, load_file. destruct (wanted cfg p); [|done].
  by destruct (read p).
Qed.

Lemma load_directory_spec walk read cfg t rs :
  table_ok t -> Z.of_nat (length (dir_lines walk read cfg)) < 2 ^ 32 ->
  let '(t', rs', _) := load_directory (Some walk) read cfg t rs in
  let vs := values_of (dir_lines walk read cfg) in
  table_ok t' /\ grows t t' /\ index_ok (programs rs') (length (rules rs')) /\
  types rs' = definitions type_key vs /\ cgroups rs' = definitions cgroup_key vs /\
  coherent rs' /\
  (room t' -> forall n, view t' ∘ snd <$> resolve rs' (Some n) = spec_rule vs n).
Proof.
  intros Ht Hl. unfold load_directory. rewrite load_paths.
  change (mjoin _) with (dir_lines walk read cfg).
  pose proof (load_lines_sim (dir_lines walk read cfg) t _ [] []
    (sim_empty t (lru_clear (resolved_cache rs)) Ht) Hl) as Hs.
  destruct (foldl load_line _ (dir_lines walk read cfg)) as [[t1 rs1] notes].
  destruct Hs as [Hs G1]. cbn [app] in Hs. pose proof (precompute_refines t1 rs1 _ Hs) as Hp.
  destruct (precompute_inheritance t1 rs1) as [t2 rs2].
  destruct Hp as (Ht2 & G2 & Ep & Er & Et & Ec & _ & Hc & Hv).
  split_and!; try done; [by transitivity t1| | |].
  - rewrite Ep, Er. apply (sim_index _ _ _ Hs).
  - rewrite Et. apply (sim_types _ _ _ Hs).
  - rewrite Ec. apply (sim_cgroups _ _ _ Hs).
Qed.

End RuleSet.

(** ** The order of paths *)

Lemma str_lt_trans a b c :
  String.compare a b = Lt -> String.compare b c = Lt -> String.compare a c = Lt.
Proof.
  revert b c. induction a as [|x a IH]; intros [|y b] [|z c]; simpl; try done.
  unfold Ascii.compare. 
  destruct (N.compare_spec (N_of_ascii x) (N_of_ascii y)) as [->|Hxy|]; try done;
    destruct (N.compare_spec (N_of_ascii y) (N_of_ascii z)) as [Hyz|Hyz|]; try done.
  - apply IH.
  - intros _ _. rewrite <- Hyz. by rewrite (proj2 (N.compare_lt_iff _ _) Hxy).
  - intros _ _. by rewrite (proj2 (N.compare_lt_iff _ _) (N.lt_trans _ _ _ Hxy Hyz)).
Qed.

Lemma path_compare_eq a b : path_compare a b = Eq -> a = b.
Proof.
  revert b. induction a as [|x a IH]; intros [|y b]; simpl; try done.
  destruct (String.compare x y) eqn:E; try done. apply String.compare_eq_iff in E as ->.
  by intros ->%IH.
Qed.

Lemma path_compare_antisym a b : path_compare b a = CompOpp (path_compare a b).
Proof.
  revert b. induction a as [|x a IH]; intros [|y b]; simpl; try done.
  rewrite String.compare_antisym. destruct (String.compare x y); simpl; auto.
Qed.

Lemma path_lt_trans a b c :
  path_compare a b = Lt -> path_compare b c = Lt -> path_compare a c = Lt.
Proof.
  revert b c. induction a as [|x a IH]; intros [|y b] [|z c]; simpl; try done.
  destruct (String.compare x y) eqn:Exy; try done;
    destruct (String.compare y z) eqn:Eyz; try done.
  - apply String.compare_eq_iff in Exy as ->. rewrite Eyz. apply IH.
  - apply String.compare_eq_iff in Exy as ->. by rewrite Eyz.
  - apply String.compare_eq_iff in Eyz as ->. by rewrite Exy.
  - by rewrite (str_lt_trans _ _ _ Exy Eyz).
Qed.

#[global] Instance path_le_total : Total path_le.
Proof.
  intros a b. unfold path_le. rewrite (path_compare_antisym a b).
  destruct (path_compare a b); simpl; auto.
Qed.
#[global] Instance path_le_antisym : AntiSymm (=) path_le.
Proof.
  intros a b. unfold path_le. rewrite (path_compare_antisym a b).
  destruct (path_compare a b) eqn:E; simpl; try done. intros _ _. by apply path_compare_eq.
Qed.
#[global] Instance path_le_trans : Transitive path_le.
Proof.
  intros a b c. unfold path_le.
  destruct (path_compare a b) eqn:Eab; try done;
    destruct (path_compare b c) eqn:Ebc; try done; intros _ _.
  - apply path_compare_eq in Eab as ->. by rewrite Ebc.
  - apply path_compare_eq in Eab as ->. by rewrite Ebc.
  - apply path_compare_eq in Ebc as ->. by rewrite Eab.
  - by rewrite (path_lt_trans _ _ _ Eab Ebc).
Qed.

(** ** Instances *)

(** Iteration in the order of the finite map. *)
#[global] Instance map_order : HashOrder := fun A m => map_to_list m.
#[global] Instance map_order_laws : HashOrderLaws.
Proof. by intros A m. Qed.

(** Patterns that match a prefix; a pattern starting with ( does not build. *)
#[global] Instance prefix_engine : RegexEngine := {
  Regex := string;
  regex_build p := if starts_with "(" p then None else Some p;
  try_is_match p s := Some (starts_with p s);
}.

(** ** More on loading *)
Section LoadFacts.
Context {Hjson : JsonParser} {Hregex : RegexEngine} {Hlru : Lru string (option RuleName)}
  {Horder : HashOrder} {Hlaws : LruLaws string (option RuleName)}
  {Horderlaws : HashOrderLaws}.

Lemma load_line_cache ls st :
  resolved_cache (snd (fst (foldl load_line st ls))) = resolved_cache (snd (fst st)).
Proof.
  revert st. induction ls as [|l ls IH]; intros [[t rs] notes]; [done|]. cbn [foldl].
  rewrite IH. unfold load_line, load_rule_from_named, define_program.
  repeat case_match; by simplify_eq/=.
Qed.

Lemma load_directory_cap walk read cfg t rs :
  lru_cap (resolved_cache (snd (fst (load_directory walk read cfg t rs)))) =
  lru_cap (resolved_cache rs).
Proof.
  unfold load_directory. destruct walk as [walk|]; [|done]. rewrite load_paths.
  pose proof (load_line_cache (mjoin (map (file_lines cfg read) (merge_sort path_le (walk_paths walk))))
    (t, MkRules ∅ [] ∅ ∅ [] (lru_clear (resolved_cache rs)), [])) as E.
  destruct (foldl load_line _ _) as [[t1 rs1] notes]. simpl in E.
  unfold precompute_inheritance. destruct (foldl resolve_base _ _) as [t2 bases].
  simpl. by rewrite cap_clear, E, cap_clear.
Qed.

Lemma find_exact rs n i :
  index_ok (programs rs) (length (rules rs)) -> programs rs !! n = Some i ->
  find_best_match rs n = Some n /\ exists r, resolve rs (Some n) = Some (n, r).
Proof.
  intros Hi Hn. unfold find_best_match, resolve. rewrite Hn. split; [done|].
  pose proof (index_range _ _ Hi n i Hn). destruct (rules rs !! Z.to_nat i) as [r|] eqn:E; [by exists r|].
  apply lookup_ge_None in E. lia.
Qed.

(** The iterator lists every program once, with its rule. *)
Lemma iter_rules_spec rs :
  index_ok (programs rs) (length (rules rs)) ->
  NoDup (iter_rules rs).*1 /\ length (iter_rules rs) = size (programs rs) /\
  forall n r, (n, r) ∈ iter_rules rs <-> resolve rs (Some n) = Some (n, r).
Proof.
  intros Hi. unfold iter_rules.
  set (f := fun e : string * Z => (fun rule => (fst e, rule)) <$> rules rs !! Z.to_nat (snd e)).
  assert (Hp : hash_iter (programs rs) ≡ₚ map_to_list (programs rs)) by apply hash_iter_perm.
  assert (Hall : Forall (fun e => exists r, f e = Some (fst e, r)) (hash_iter (programs rs))).
  { apply Forall_forall. intros [n i] Hin. rewrite Hp in Hin. apply elem_of_map_to_list in Hin.
    pose proof (index_range _ _ Hi n i Hin). unfold f. simpl.
    destruct (rules rs !! Z.to_nat i) as [r|] eqn:E; [by exists r|]. apply lookup_ge_None in E. lia. }
  assert (Hkeys : (omap f (hash_iter (programs rs))).*1 = (hash_iter (programs rs)).*1).
  { clear Hp. induction Hall as [|e l [r He] _ IH]; [done|]. cbn [omap list_omap]. rewrite He. simpl. f_equal. exact IH. }
  split_and!.
  - rewrite Hkeys, Hp. apply NoDup_fst_map_to_list.
  - rewrite <- (length_fmap fst), Hkeys, length_fmap, Hp. apply length_map_to_list.
  - intros n r. rewrite list_elem_of_omap. setoid_rewrite Hp. unfold resolve, f. split.
    + intros ([m i] & Hin & E). apply elem_of_map_to_list in Hin. simpl in E.
      destruct (rules rs !! Z.to_nat i) eqn:Er; simplify_eq/=. by rewrite Hin, Er.
    + intros E. destruct (programs rs !! n) as [i|] eqn:En; [|done]. exists (n, i).
      rewrite elem_of_map_to_list. split; [done|]. simpl. by destruct (rules rs !! Z.to_nat i); simplify_eq/=.
Qed.

(** As many slots as names. *)
Lemma index_ok_size progs len : index_ok progs len -> size progs = len.
Proof.
  intros [Hr Hi Ho]. rewrite <- (length_map_to_list progs), <- (length_fmap snd).
  assert (Hp : (map_to_list progs).*2 ≡ₚ map Z.of_nat (seq 0 len)).
  { apply NoDup_Permutation.
    - apply NoDup_fmap_2_strong; [|apply NoDup_map_to_list]. intros [n i] [m j] H1 H2 E. simpl in E. subst.
      apply elem_of_map_to_list in H1, H2. f_equal. by eapply Hi.
    - apply NoDup_fmap_2; [apply _|apply NoDup_seq].
    - intros i. rewrite !list_elem_of_fmap. split.
      + intros ([n j] & -> & Hin%elem_of_map_to_list). apply Hr in Hin. exists (Z.to_nat j).
        rewrite elem_of_seq. simpl. lia.
      + intros (k & -> & Hk%elem_of_seq). destruct (Ho k) as [n Hn]; [lia|].
        exists (n, Z.of_nat k). by rewrite elem_of_map_to_list. }
  by rewrite Hp, length_map, length_seq.
Qed.

End LoadFacts.

(** ** Properties *)
Module RuleSetProps.
Section Properties.
Context {Hjson : JsonParser} {Hregex : RegexEngine} {Hlru : Lru string (option RuleName)}
  {Horder : HashOrder} {Hlaws : LruLaws string (option RuleName)}
  {Horderlaws : HashOrderLaws}.

(** C3. Loading a directory implements the specification of a rule set: every name
    resolves to the last definition read for it, inheriting from the last
    definition of its type, and to nothing when no line defines it; the types and
    cgroups are the last definitions too.  It holds however many rules share
    names, as long as the name table is not full at the end. *)
Theorem load_refines (walk : list (option (path * bool))) (read : path -> option string)
    (cfg : ConfigSnapshot) (t : NameTable) (rs : Rules) :
  table_ok t -> Z.of_nat (length (dir_lines walk read cfg)) < 2 ^ 32 ->
  let '(t', rs', _) := load_directory (Some walk) read cfg t rs in
  let vs := values_of (dir_lines walk read cfg) in
  types rs' = definitions type_key vs /\ cgroups rs' = definitions cgroup_key vs /\
  (room t' -> forall n, view t' ∘ snd <$> resolve rs' (Some n) = spec_rule vs n).
Proof.
  intros Ht Hl. pose proof (load_directory_spec walk read cfg t rs Ht Hl) as Hd.
  destruct (load_directory (Some walk) read cfg t rs) as [[t' rs'] notes].
  by destruct Hd as (_ & _ & _ & Ht' & Hc & _ & Hv).
Qed.

(** After a load the name index and the rule vector stay in step: there are as
    many rules as names, a redefinition adds none, and the iterator lists every
    name once with the rule it resolves to. *)
Theorem index_in_step (walk : list (option (path * bool))) (read : path -> option string)
    (cfg : ConfigSnapshot) (t : NameTable) (rs : Rules) :
  table_ok t -> Z.of_nat (length (dir_lines walk read cfg)) < 2 ^ 32 ->
  let '(_, rs', _) := load_directory (Some walk) read cfg t rs in
  rules_size rs' = Z.of_nat (size (programs rs')) /\
  NoDup (iter_rules rs').*1 /\ Z.of_nat (length (iter_rules rs')) = rules_size rs' /\
  forall n r, (n, r) ∈ iter_rules rs' <-> resolve rs' (Some n) = Some (n, r).
Proof.
  intros Ht Hl. pose proof (load_directory_spec walk read cfg t rs Ht Hl) as Hd.
  destruct (load_directory (Some walk) read cfg t rs) as [[t' rs'] notes].
  destruct Hd as (_ & _ & Hi & _). destruct (iter_rules_spec rs' Hi) as (Hn & Hlen & Hin).
  unfold rules_size. by rewrite Hlen, (index_ok_size _ _ Hi).
Qed.

(** C6. The resolved-rule cache is invisible: after a load, any sequence of lookups
    answers what the search without a cache answers, and the cache holds at most
    its capacity of names, none of them longer than 256 bytes. *)
Theorem cache_transparent (walk : list (option (path * bool))) (read : path -> option string)
    (cfg : ConfigSnapshot) (t : NameTable) (rs : Rules) (names : list string) :
  table_ok t -> Z.of_nat (length (dir_lines walk read cfg)) < 2 ^ 32 ->
  let '(_, rs', _) := load_directory (Some walk) read cfg t rs in
  let '(rs'', found) := lookups names rs' in
  found = map (fun n => resolve rs' (find_best_match rs' n)) names /\
  (cached_resolution_count rs'' <= lru_cap (resolved_cache rs))%nat /\
  forall k w, lru_peek k (resolved_cache rs'') = Some w -> Z.of_nat (slen k) <= 256.
Proof.
  intros Ht Hl. pose proof (load_directory_spec walk read cfg t rs Ht Hl) as Hd.
  pose proof (load_directory_cap (Some walk) read cfg t rs) as Hcap.
  destruct (load_directory (Some walk) read cfg t rs) as [[t' rs'] notes].
  destruct Hd as (_ & _ & _ & _ & _ & Hc & _). pose proof (lookups_spec names rs' Hc) as Hs.
  destruct (lookups names rs') as [rs'' found]. destruct Hs as (-> & Hc' & _ & Hcap').
  cbn [fst snd] in *. split_and!; [done| |].
  - rewrite <- Hcap, <- Hcap'. apply len_cap.
  - intros k w Hw. by apply (Hc' k w).
Qed.

(** C14. An exact name beats every pattern; otherwise the rule found is that of the
    first pattern in load order that matches and whose rule exists, and none is
    found exactly when no pattern does. *)
Theorem match_order (rs : Rules) (target : string) :
  match programs rs !! target with
  | Some _ => find_best_match rs target = Some target
  | None =>
      forall n, find_best_match rs target = Some n <->
      exists l1 m l2, regex_programs rs = l1 ++ m :: l2 /\ matcher_name m = n /\
        is_match m target = true /\ is_Some (programs rs !! n) /\
        Forall (fun m' => is_match m' target = true ->
                          programs rs !! matcher_name m' = None) l1
  end.
Proof.
  unfold find_best_match. destruct (programs rs !! target); [done|].
  intros n. apply first_match_spec.
Qed.

(** The files are read in path order, so the order in which the directory walk
    lists them, errors included, does not matter. *)
Theorem load_order_independent (walk walk' : list (option (path * bool)))
    (read : path -> option string) (cfg : ConfigSnapshot) (t : NameTable) (rs : Rules) :
  walk_paths walk ≡ₚ walk_paths walk' ->
  load_directory (Some walk) read cfg t rs = load_directory (Some walk') read cfg t rs.
Proof.
  intros Hp. unfold load_directory.
  assert (merge_sort path_le (walk_paths walk) = merge_sort path_le (walk_paths walk')) as ->; [|done].
  apply (Sorted_unique path_le); [apply Sorted_merge_sort, _..|].
  by rewrite !merge_sort_Permutation.
Qed.

(** Redefining a rule without a [name_regex] leaves the pattern of its earlier
    definition in force: every name that is not itself a rule still finds the
    rule it found before, now with the new definition behind it. *)
Theorem redefinition_keeps_pattern (n target : string) (v : Value) (t : NameTable) (rs : Rules) :
  is_Some (programs rs !! n) -> get "name_regex" v ≫= as_str = None ->
  let '(_, rs', _) := define_program n v t rs in
  find_best_match rs' target = find_best_match rs target.
Proof.
  intros [i Hn] Hv. unfold define_program. rewrite Hn, Hv.
  destruct (from_json v t) as [t' r]. unfold find_best_match. simpl.
  by rewrite (insert_id (programs rs)).
Qed.

(** A reader that holds a rule set is not affected by reloads: whatever sets are
    installed in between, its lookups answer as they would without them, and a
    reader that asks afterwards gets the set installed last. *)
Theorem snapshot_isolation (s : SharedRules) (rs : Rules) (installs : list Rules)
    (name : string) :
  store s !! shared_get s = Some rs ->
  let s' := foldl (fun s r => fst (shared_replace r s)) s installs in
  snd (shared_get_rule (shared_get s) name s') = snd (get_rule name rs) /\
  store s' !! shared_get s' = last (rs :: installs).
Proof.
  intros Hs s'.
  assert (Hkeep : forall l s, store s !! current s = Some rs ->
    store (foldl (fun s r => fst (shared_replace r s)) s l) !! current s = Some rs).
  { intros l. induction l as [|r l IH] using rev_ind; intros s0 H0; [done|].
    rewrite foldl_app. simpl. specialize (IH s0 H0).
    rewrite lookup_app_l; [done|by eapply lookup_lt_Some]. }
  split.
  - unfold shared_get_rule, shared_get in *. unfold s'. rewrite (Hkeep installs s Hs).
    by destruct (get_rule name rs).
  - unfold s'. induction installs as [|r l _] using rev_ind; [done|].
    rewrite foldl_app. simpl. rewrite list_lookup_middle by done.
    by rewrite app_comm_cons, last_snoc.
Qed.

End Properties.

(** *** A concrete directory *)

Definition obj_bg : Value :=
  VObject [("ioclass", VString "idle"); ("nice", of_int 19); ("type", VString "BG")].
Definition obj_gcc : Value :=
  VObject [("ioclass", VNull); ("name", VString "gcc"); ("type", VString "BG")].
Definition obj_gcc' : Value :=
  VObject [("name", VString "gcc"); ("name_regex", VString "gcc-"); ("nice", of_int 5)].
Definition obj_grp : Value := VObject [("CPUQuota", of_int 80); ("cgroup", VString "cpu80")].

#[local] Instance demo_json : JsonParser := fun s =>
  if String.eqb s "{bg}" then Some obj_bg
  else if String.eqb s "{gcc}" then Some obj_gcc
  else if String.eqb s "{gcc2}" then Some obj_gcc'
  else if String.eqb s "{cpu80}" then Some obj_grp else None.

Definition demo_walk : list (option (path * bool)) :=
  [Some (["a"], false); Some (["b.rules"], true); None; Some (["a"; "x.rules"], true);
   Some (["00.types"], true); Some (["z.cgroups"], true); Some (["README"], true)].
Definition demo_read (p : path) : option string :=
  if bool_decide (p = ["00.types"]) then Some (unlines ["# types"; " {bg} # end"])
  else if bool_decide (p = ["a"; "x.rules"]) then Some (unlines ["{gcc2}"; "{broken}"])
  else if bool_decide (p = ["b.rules"]) then Some (unlines ["{gcc}"])
  else if bool_decide (p = ["z.cgroups"]) then Some (unlines ["{cpu80}"]) else None.

Definition demo_rules : Rules := Rules_new.

Lemma demo_lines_short : Z.of_nat (length (dir_lines demo_walk demo_read default)) < 2 ^ 32.
Proof. by vm_compute. Qed.

Lemma load_refines_witness :
  let '(t', rs', _) := load_directory (Some demo_walk) demo_read default NameTable_default demo_rules in
  let vs := values_of (dir_lines demo_walk demo_read default) in
  types rs' = definitions type_key vs /\ cgroups rs' = definitions cgroup_key vs /\
  (room t' -> forall n, view t' ∘ snd <$> resolve rs' (Some n) = spec_rule vs n).
Proof.
  exact (load_refines (Hjson := demo_json) (Hregex := prefix_engine) (Hlru := list_lru_ops)
           (Horder := map_order) demo_walk demo_read default NameTable_default demo_rules table_ok_default
           demo_lines_short).
Defined.

Lemma index_in_step_witness :
  let '(_, rs', _) := load_directory (Some demo_walk) demo_read default NameTable_default demo_rules in
  rules_size rs' = Z.of_nat (size (programs rs')) /\
  NoDup (iter_rules rs').*1 /\ Z.of_nat (length (iter_rules rs')) = rules_size rs' /\
  forall n r, (n, r) ∈ iter_rules rs' <-> resolve rs' (Some n) = Some (n, r).
Proof.
  exact (index_in_step (Hjson := demo_json) (Hregex := prefix_engine) (Hlru := list_lru_ops)
           (Horder := map_order) demo_walk demo_read default NameTable_default demo_rules table_ok_default
           demo_lines_short).
Defined.

Lemma cache_transparent_witness :
  let '(_, rs', _) := load_directory (Some demo_walk) demo_read default NameTable_default demo_rules in
  let '(rs'', found) := lookups ["gcc"; "gcc-13"; "ls"; "gcc-13"] rs' in
  found = map (fun n => resolve rs' (find_best_match rs' n)) ["gcc"; "gcc-13"; "ls"; "gcc-13"] /\
  (cached_resolution_count rs'' <= lru_cap (resolved_cache demo_rules))%nat /\
  forall k w, lru_peek k (resolved_cache rs'') = Some w -> Z.of_nat (slen k) <= 256.
Proof.
  exact (cache_transparent (Hjson := demo_json) (Hregex := prefix_engine) (Hlru := list_lru_ops)
           (Horder := map_order) demo_walk demo_read default NameTable_default demo_rules
           ["gcc"; "gcc-13"; "ls"; "gcc-13"] table_ok_default demo_lines_short).
Defined.

(** The demonstration does something: the later file overrides the earlier one,
    the rule suppresses the type's [ioclass], and the pattern of the overridden
    definition still matches. *)
Example demo_load :
  let '(t', rs', _) := load_directory (Some demo_walk) demo_read default NameTable_default demo_rules in
  snd (lookups ["gcc"; "gcc-13"; "ls"] rs') =
    (let r := MkRule (MkTypeNameId 1) (Some (Some 19)) None unusable None absent None None
                absent absent [] in
     [Some ("gcc", r); Some ("gcc", r); None]).
Proof. by vm_compute. Qed.

Lemma load_order_independent_witness :
  load_directory (Some demo_walk) demo_read default NameTable_default demo_rules =
  load_directory (Some (reverse demo_walk)) demo_read default NameTable_default demo_rules.
Proof.
  apply (load_order_independent demo_walk (reverse demo_walk)).
  apply (bool_decide_unpack _). by vm_compute.
Defined.

Definition demo_once : Rules :=
  snd (fst (define_program "gcc" obj_gcc' NameTable_default demo_rules)).

Lemma redefinition_keeps_pattern_witness :
  let '(_, rs', _) := define_program "gcc" obj_gcc NameTable_default demo_once in
  find_best_match rs' "gcc-13" = find_best_match demo_once "gcc-13".
Proof.
  refine (redefinition_keeps_pattern "gcc" "gcc-13" obj_gcc NameTable_default demo_once _ _);
    [by eexists|reflexivity].
Defined.

Lemma snapshot_isolation_witness :
  let s := shared_new demo_rules in
  let s' := fst (shared_replace demo_rules s) in
  snd (shared_get_rule O "gcc" s') = None.
Proof.
  intros s s'.
  destruct (snapshot_isolation s demo_rules [demo_rules] "gcc" eq_refl) as [E _].
  exact E.
Defined.

End RuleSetProps.
