(* ===== verification/RuleTypes.v ===== *)
(** * The types of rules

    The machine types of [crates/ananicy-core/src/rules.rs]: a [Rule] keeps its
    numbers as [i32] and [u32] and its names as [u16] indices into the name
    table.  The model keeps integers unbounded, so that every value stays in the
    type its field has is a theorem: reading, inheritance, loading a directory
    and looking a rule up give well-typed rules only. *)

From stdpp Require Import base list gmap strings numbers sorting.
From Stdlib Require Import ZArith Lia.
From S2P Require Import Prelude RustStr Process Config Json RuleData LruCache RuleSet.

#[local] Open Scope Z_scope.

(** An attribute that holds no value outside the type. *)
Definition attr_in (ty : Z -> Prop) (a : Attribute Z) : Prop :=
  match a with Some (Some v) => ty v | _ => True end.

Record rule_typed (t : NameTable) (r : Rule) : Prop := {
  typed_nice : attr_in (in_s 32) (nice r);
  typed_latency_nice : attr_in (in_s 32) (latency_nice r);
  typed_ionice : attr_in (in_s 32) (ionice r);
  typed_oom_score_adj : attr_in (in_s 32) (oom_score_adj r);
  typed_rtprio : attr_in (in_u 32) (rtprio r);
  typed_names : rule_valid t r;
}.

(** ** Reading and inheriting *)

Lemma attr_in_flatten (ty : Z -> Prop) a : (forall z, flatten a = Some z -> ty z) -> attr_in ty a.
Proof. destruct a as [[z|]|]; [|done|done]. intros H. by apply H. Qed.

Lemma from_json_typed v t : table_ok t -> rule_typed (from_json v t).1 (from_json v t).2.
Proof.
  intros Ht. pose proof (from_json_spec v t Ht) as H. unfold from_json in *.
  repeat case_match; simplify_eq/=. destruct H as (_ & _ & Hv & _).
  split; simpl; try done; apply attr_in_flatten; eauto using read_number_range, read_rtprio_range.
Qed.

Lemma rule_typed_grows t t' r : grows t t' -> rule_typed t r -> rule_typed t' r.
Proof. intros Hg []. split; eauto using rule_valid_grows. Qed.

Lemma overlay_value_in ty own base :
  attr_in ty own -> attr_in ty base -> attr_in ty (overlay_value own base).
Proof. by destruct own. Qed.

Lemma inherit_typed t self base :
  rule_typed t self -> rule_typed t base -> rule_typed t (inherit self base).
Proof.
  intros [] []. split; simpl; try (by apply overlay_value_in). by apply inherit_valid.
Qed.

(** The index of a name is a [u16], that of a type one less. *)
Lemma typed_ids t r :
  table_ok t -> rule_typed t r ->
  in_u 16 (type_id (type_name r)) /\
  Forall (fun a => in_u 16 (name_id a)) [ioclass r; sched r; cgroup r; cpuset r].
Proof.
  intros [_ Hb] [_ _ _ _ _ (H0 & H1 & H2 & H3 & H4)].
  assert (Hid : forall first id, 1 <= first <= 2 -> id_valid t first id -> in_u 16 id).
  { unfold in_u, id_valid, table_get, NAME_FIRST_VALUE, U16_MAX in *.
    intros first id Hf [?|[? [s Hs%lookup_lt_Some]]]; lia. }
  split; [|repeat constructor]; (eapply Hid; [|eassumption]); lia.
Qed.

(** ** Loading *)

Section Loading.
Context {Hjson : JsonParser} {Hregex : RegexEngine} {Hlru : Lru string (option RuleName)}
  {Horder : HashOrder}.

(** The state of a load: a consistent table and well-typed rules. *)
Definition load_typed (t : NameTable) (rs : Rules) : Prop :=
  table_ok t /\ Forall (rule_typed t) (rules rs).

Lemma define_program_typed name v t rs :
  load_typed t rs ->
  load_typed (define_program name v t rs).1.1 (define_program name v t rs).1.2.
Proof.
  intros [Ht Hr]. pose proof (from_json_spec v t Ht) as Hj. pose proof (from_json_typed v t Ht) as Hv.
  unfold define_program. destruct (from_json v t) as [t' r]. destruct Hj as (Ht' & Hg & _).
  cbn [fst snd] in Hv.
  assert (Hr' : Forall (rule_typed t') (rules rs))
    by (eapply list.Forall_impl; [exact Hr|intros ?; by apply rule_typed_grows]).
  assert (Hd : Forall (rule_typed t') (rules rs ++ [Rule_default])).
  { apply Forall_app; split; [done|]. apply Forall_singleton. split; try done.
    repeat split; left; simpl; lia. }
  destruct (programs rs !! name); repeat case_match; simplify_eq/=;
    (split; [done|]); by apply Forall_insert.
Qed.

Lemma load_lines_typed ls t rs notes :
  load_typed t rs ->
  let '(t', rs', _) := foldl load_line (t, rs, notes) ls in load_typed t' rs'.
Proof.
  revert t rs notes. induction ls as [|l ls IH]; intros t rs notes H; [done|]. cbn [foldl load_line].
  destruct (load_rule_from_named l t rs) as [[[t' rs'] more] b] eqn:E. apply IH. clear IH.
  unfold load_rule_from_named in E. pose proof (fun n v => define_program_typed n v t rs H) as Hd.
  repeat case_match; simplify_eq/=; try done.
  all: match goal with Hp : define_program ?n ?v _ _ = _ |- _ =>
         specialize (Hd n v); by rewrite Hp in Hd end.
Qed.

Lemma resolve_bases_typed l t bases :
  table_ok t -> map_Forall (fun _ => rule_typed t) bases ->
  let '(t', bases') := foldl resolve_base (t, bases) l in
  table_ok t' /\ grows t t' /\ map_Forall (fun _ => rule_typed t') bases'.
Proof.
  revert t bases. induction l as [|[n v] l IH]; intros t bases Ht Hb; cbn [foldl]; [done|].
  cbn [resolve_base fst snd]. pose proof (from_json_spec v t Ht) as Hj.
  pose proof (from_json_typed v t Ht) as Hv. destruct (from_json v t) as [t1 b].
  destruct Hj as (Ht1 & G1 & _). cbn [fst snd] in Hv.
  match goal with |- context [foldl resolve_base (t1, <[n := ?b]> bases) l] => set (b' := b) end.
  specialize (IH t1 (<[n := b']> bases) Ht1).
  destruct (foldl resolve_base (t1, <[n := b']> bases) l) as [t2 bases2].
  destruct IH as (Ht2 & G2 & Hb2); [|split_and!; try done; by transitivity t1].
  apply map_Forall_insert_2.
  - destruct Hv as [? ? ? ? ? (? & ?)]. split; simpl; try done. split; [left; simpl; lia|done].
  - intros k r Hk. eapply rule_typed_grows; [done|]. by apply (Hb k).
Qed.

Lemma precompute_typed t rs :
  load_typed t rs ->
  load_typed (precompute_inheritance t rs).1 (precompute_inheritance t rs).2.
Proof.
  intros [Ht Hr]. unfold precompute_inheritance.
  pose proof (resolve_bases_typed (hash_iter (types rs)) t ∅ Ht) as Hb.
  destruct (foldl resolve_base _ _) as [t' bases]. simpl.
  destruct Hb as (Ht' & G & Hb); [apply map_Forall_empty|]. split; [done|].
  apply Forall_map, (list.Forall_impl _ _ _ Hr). intros r Hv%(rule_typed_grows t t' r G).
  unfold apply_base. simpl. case_match; [|done]. destruct (bases !! _) as [b|] eqn:E; [|done].
  apply inherit_typed; [done|]. by apply (Hb _ _ E).
Qed.

Lemma load_directory_typed walk read cfg t rs :
  load_typed t rs ->
  load_typed (load_directory walk read cfg t rs).1.1 (load_directory walk read cfg t rs).1.2.
Proof.
  intros [Ht Hr]. unfold load_directory. destruct walk as [walk|]; [|done]. rewrite load_paths.
  pose proof (load_lines_typed (mjoin (map (file_lines cfg read) (merge_sort path_le (walk_paths walk))))
    t (MkRules ∅ [] ∅ ∅ [] (lru_clear (resolved_cache rs))) []) as Hs.
  destruct (foldl load_line _ _) as [[t1 rs1] notes].
  pose proof (precompute_typed t1 rs1 (Hs ltac:(by split))) as Hp.
  by destruct (precompute_inheritance t1 rs1).
Qed.

End Loading.

(** ** Properties *)
Module RuleTypesProps.

(** What a load finds: the directory walk, the files and the configuration. *)
Record load_input := MkLoad {
  in_walk : option (list (option (path * bool)));
  in_read : path -> option string;
  in_cfg : ConfigSnapshot;
}.
Definition load_again {Hjson : JsonParser} {Hregex : RegexEngine}
    {Hlru : Lru string (option RuleName)} {Horder : HashOrder}
    (st : NameTable * Rules) (l : load_input) : NameTable * Rules :=
  (load_directory (in_walk l) (in_read l) (in_cfg l) st.1 st.2).1.

(** C16. Rules are well typed: starting from an empty rule set, every number of a rule
    any lookup hands out, after any sequence of loads, is in the range of the
    machine type of its field, inherited values included, and every name index is
    a 16-bit number that is one of the two markers or points into the table. *)
Theorem rules_well_typed {Hjson : JsonParser} {Hregex : RegexEngine}
    {Hlru : Lru string (option RuleName)} {Horder : HashOrder}
    (loads : list load_input) (name n : string) (r : Rule) :
  let '(t, rs) := foldl load_again (NameTable_default, Rules_new) loads in
  snd (get_rule name rs) = Some (n, r) ->
  rule_typed t r /\ in_u 16 (type_id (type_name r)) /\
  Forall (fun a => in_u 16 (name_id a)) [ioclass r; sched r; cgroup r; cpuset r].
Proof.
  assert (Hinv : load_typed NameTable_default Rules_new) by (split; [apply table_ok_default|done]).
  revert Hinv. generalize NameTable_default Rules_new.
  induction loads as [|l loads IH]; intros t rs Hinv; cbn [foldl].
  - intros Hget. destruct Hinv as [Ht Hr]. assert (Hv : rule_typed t r).
    { unfold get_rule in Hget. destruct (lru_get name (resolved_cache rs)) as [c [cached|]];
        unfold resolve in Hget; repeat case_match; simplify_eq/=; eapply Forall_lookup_1; eauto. }
    by split; [|apply (typed_ids t)].
  - pose proof (load_directory_typed (in_walk l) (in_read l) (in_cfg l) t rs Hinv) as Hl.
    unfold load_again at 2. cbn [fst snd].
    destruct (load_directory _ _ _ t rs) as [[t1 rs1] notes]. by apply IH.
Qed.

(** One file whose rule asks for a nice value no [i32] holds. *)
Definition demo_value (s : string) : option Value :=
  Some (VObject [("name", VString "ls"); ("nice", VNumber (PosInt 4294967291));
                 ("cgroup", VString "cpu80")]).

Definition demo_loads : list load_input :=
  [MkLoad (Some [Some (["a.rules"], true)]) (fun _ => Some "{}") Config.default].
Definition demo_state : NameTable * Rules :=
  foldl (load_again (Hjson := demo_value)) (NameTable_default, Rules_new) demo_loads.
Definition demo_rule : Rule :=
  match snd (get_rule "ls" demo_state.2) with Some (_, r) => r | None => Rule_default end.

Lemma rules_well_typed_witness : rule_nice demo_rule = Some (-5) /\ rule_typed demo_state.1 demo_rule.
Proof.
  split; [vm_compute; reflexivity|].
  pose proof (rules_well_typed (Hjson := demo_value) demo_loads "ls" "ls" demo_rule) as H.
  change (foldl load_again (NameTable_default, Rules_new) demo_loads) with demo_state in H.
  revert H. rewrite (surjective_pairing demo_state). intros H. apply H. vm_compute. reflexivity.
Defined.

End RuleTypesProps.
