(* ===== verification/Worker.v ===== *)
(** * The worker

    [crates/ananicy-core/src/worker.rs]: one loop that takes processes from a
    channel, finds the rule of each and applies it through the platform.

    The platform is the trait [PlatformActions]; here it is a class over the
    state [W] of the system it acts on.  The channel, the reloads that other
    threads perform and the closing of the channel are a list of messages: a
    reload takes effect between two iterations, because an iteration works on the
    snapshots it takes. *)

From stdpp Require Import base list gmap strings numbers.
From Stdlib Require Import ZArith Lia Ascii.
From S2P Require Import Prelude RustStr Process CpuSet Config Json RuleData LruCache RuleSet.

#[local] Open Scope Z_scope.

Inductive PlatformError :=
| NotFound
| PermissionDenied
| Skipped (why : string)
| Unsupported
| InvalidCpuset (text : string)
| Io (raw_os_error : option Z).

#[global] Instance PlatformError_eq_dec : EqDecision PlatformError.
Proof. solve_decision. Defined.

(** The trait: queries read the system, actions change it and may fail.  A query
    too passes the state on, as an implementation may fill a cache. *)
Class PlatformActions (W : Type) := {
  is_realtime : Z -> W -> W * bool;
  get_process_name : Z -> W -> W * string;
  is_cgroup_v2 : W -> W * bool;
  get_max_cores : W -> W * Z;
  get_tids : Z -> W -> W * (list Z + PlatformError);
  set_priority : Z -> list Z -> Z -> W -> W * option PlatformError;
  set_latency_nice : Z -> list Z -> Z -> W -> W * option PlatformError;
  set_sched : Z -> list Z -> string -> Z -> W -> W * option PlatformError;
  set_io_priority : Z -> string -> Z -> W -> W * option PlatformError;
  set_oom_score_adj : Z -> Z -> W -> W * option PlatformError;
  add_pid_to_cgroup : Z -> string -> W -> W * option PlatformError;
  set_cpu_weight : Z -> Z -> W -> W * option PlatformError;
  set_affinity : Z -> list Z -> CpuSet -> W -> W * option PlatformError;
}.

(** [(100.0 * 1.25f64.powf(-(nice as f64))) as u32]: the precision of [powf] is
    not specified, the cast saturates. *)
Class WeightOfNice := raw_weight : Z -> Z.
Class WeightOfNiceLaws `{WeightOfNice} := raw_weight_u32 : forall nice, in_u 32 (raw_weight nice).

Inductive RuleApplication := Applied | NoApplicable | Partial (e : PlatformError).

Definition clamp (z lo hi : Z) : Z := if z <? lo then lo else if hi <? z then hi else z.

Section Worker.
Context {W : Type} {Hplatform : PlatformActions W} {Hweight : WeightOfNice}.

(** ** Applying a rule *)

(** [applied_any] and [partial_failure]. *)
Definition progress : Type := bool * option PlatformError.

(** [Ok(()) => applied_any = true], [Err(e) => partial_failure.get_or_insert(e)]. *)
Definition note (r : option PlatformError) (acc : progress) : progress :=
  match r with
  | None => (true, snd acc)
  | Some e => (fst acc, match snd acc with None => Some e | f => f end)
  end.

Definition act (f : W -> W * option PlatformError) (st : W * progress) : W * progress :=
  let '(w, acc) := st in let '(w, r) := f w in (w, note r acc).

(** The [cpu.weight] mirror, on cgroup v2 only; its failure is not recorded. *)
Definition mirror_weight (pid nice : Z) (st : W * progress) : W * progress :=
  let '(w, acc) := st in
  let '(w, v2) := is_cgroup_v2 w in
  if negb v2 then (w, acc) else
  let weight := clamp (raw_weight nice) 1 10000 in
  let '(w, r) := set_cpu_weight pid weight w in
  (w, match r with None => (true, snd acc) | Some _ => acc end).

(** The [cpuset] block: an alias may name another text or ask to skip. *)
Definition apply_cpuset_text (aliases : gmap string string) (pid : Z) (tids : list Z)
    (raw_cpuset : string) (st : W * progress) : W * progress :=
  let '(cpuset_str, skip_cpuset) :=
    match aliases !! raw_cpuset with
    | Some resolved =>
        if String.eqb resolved EmptyString then (raw_cpuset, true) else (resolved, false)
    | None => (raw_cpuset, false)
    end in
  if skip_cpuset then st
  else
    let '(w, max_cores) := get_max_cores (fst st) in
    match CpuSet.parse cpuset_str max_cores with
    | Some parsed_set => act (set_affinity pid tids parsed_set) (w, snd st)
    | None => (w, note (Some (InvalidCpuset cpuset_str)) (snd st))
    end.

Definition apply_rule (t : NameTable) (aliases : gmap string string) (p : Process)
    (tids : list Z) (rule : Rule) (cfg : ConfigSnapshot)
    (is_rt is_affected_by_cgroup_bug : bool) (w : W)
    : W * (RuleApplication + PlatformError) :=
  let pid := process_pid p in
  let st := (w, (false, None)) in
  let st := match rule_nice rule with
            | Some nice =>
                if apply_nice cfg then
                  let st := act (set_priority pid tids nice) st in
                  if apply_cpu_weight cfg then mirror_weight pid nice st else st
                else st
            | None => st
            end in
  let st := match effective_latency_nice rule with
            | Some latnice =>
                if apply_latnice cfg then act (set_latency_nice pid tids latnice) st else st
            | None => st
            end in
  let st := match rule_sched t rule with
            | Some sched =>
                if apply_sched cfg then
                  let rtprio := match rule_rtprio rule with Some r => r | None => 1 end in
                  act (set_sched pid tids sched rtprio) st
                else st
            | None => st
            end in
  let st := match rule_ioclass t rule with
            | Some ioclass =>
                if apply_ionice cfg then
                  let ionice := match rule_ionice rule with Some n => n | None => 0 end in
                  act (set_io_priority pid ioclass ionice) st
                else st
            | None => st
            end in
  let st := match rule_oom_score_adj rule with
            | Some oom_adj =>
                if apply_oom_score_adj cfg then act (set_oom_score_adj pid oom_adj) st else st
            | None => st
            end in
  let st := if is_rt && cgroup_realtime_workaround cfg && is_affected_by_cgroup_bug then st
            else match rule_cgroup t rule with
                 | Some cgroup =>
                     if apply_cgroups cfg then act (add_pid_to_cgroup pid cgroup) st else st
                 | None => st
                 end in
  let st := match rule_cpuset t rule with
            | Some raw_cpuset =>
                if apply_cpuset cfg then apply_cpuset_text aliases pid tids raw_cpuset st else st
            | None => st
            end in
  let '(w, (applied_any, partial_failure)) := st in
  (w, match applied_any, partial_failure with
      | false, Some e => inr e
      | _, Some e => inl (Partial e)
      | true, None => inl Applied
      | false, None => inl NoApplicable
      end).

(** ** The name a rule is looked up by *)

Definition WRAPPED : string := "-wrapped".

(** The NixOS wrapper fix; [end_idx] is a byte index, and [len] counts bytes. *)
Definition strip_wrapped (name : string) : string :=
  if starts_with "." name then
    let is_wrapped := ends_with WRAPPED name in
    let is_truncated_wrapped :=
      (slen name =? 15)%nat &&
      match rfind_char "-"%char name with
      | Some idx => starts_with (sdrop idx name) WRAPPED
      | None => false
      end in
    if is_wrapped || is_truncated_wrapped then
      match rfind_char "-"%char name with
      | Some end_idx =>
          if (1 <? end_idx)%nat then slice 1 end_idx name else name
      | None => name
      end
    else name
  else name.

(** The name the platform knows replaces a name that is not authoritative. *)
Definition resolve_name (p : Process) (w : W) : W * Process :=
  if name_is_authoritative p then (w, p)
  else
    let '(w, full_name) := get_process_name (process_pid p) w in
    (w, if String.eqb full_name EmptyString || String.eqb full_name "<unknown>" then p
        else with_authoritative_name (set_name full_name p)).

(** ** The loop *)

Inductive worker_log :=
| LIncomplete (name : string) (pid : Z)
| LApplied (name : string) (pid : Z)
| LNoApplicable (name : string) (pid : Z)
| LExited (name : string) (pid : Z)
| LPartial (name : string) (pid : Z) (e : PlatformError)
| LFailed (name : string) (pid : Z) (e : PlatformError).

(** The arms of the match on the result of [apply_rule]. *)
Definition log_of (p : Process) (tids_failed do_log_applied_rule : bool)
    (r : RuleApplication + PlatformError) : list worker_log :=
  let n := name p in let pid := process_pid p in
  match r with
  | inl Applied =>
      if tids_failed then [LIncomplete n pid]
      else if do_log_applied_rule then [LApplied n pid] else []
  | inl NoApplicable => [LNoApplicable n pid]
  | inl (Partial e) => if bool_decide (e = NotFound) then [LExited n pid] else [LPartial n pid e]
  | inr e => if bool_decide (e = NotFound) then [LExited n pid] else [LFailed n pid e]
  end.

Definition thread_ids (pid : Z) (w : W) : W * (list Z * bool) :=
  let '(w, r) := get_tids pid w in
  (w, match r with
      | inl [] => ([pid], true)
      | inl tids => (tids, false)
      | inr _ => ([pid], true)
      end).

Context {Hregex : RegexEngine} {Hlru : Lru string (option RuleName)}.

Record worker_state := MkWorker {
  world : W;
  names : NameTable;
  shared : SharedRules;
  config : ConfigSnapshot;
  processed_count : Z;
  shutdown_flag : bool;
  log : list worker_log;
}.

Definition with_world (w : W) (s : worker_state) : worker_state :=
  MkWorker w (names s) (shared s) (config s) (processed_count s) (shutdown_flag s) (log s).

(** One iteration, for a process received from the channel. *)
Definition work_on (aliases : gmap string string) (benchmark_count : option Z)
    (is_affected_by_cgroup_bug : bool) (p : Process) (s : worker_state) : worker_state :=
  let count := processed_count s + 1 in
  let flag := match benchmark_count with
              | Some limit => if limit <=? count then true else shutdown_flag s
              | None => shutdown_flag s
              end in
  if process_pid p =? 0 then
    MkWorker (world s) (names s) (shared s) (config s) count flag (log s)
  else
    let '(w, p) := resolve_name p (world s) in
    let '(sh, found) :=
      shared_get_rule (shared_get (shared s)) (strip_wrapped (name p)) (shared s) in
    let '(w, is_rt) := is_realtime (process_pid p) w in
    match found with
    | Some (_, rule) =>
        let cfg := config s in
        let '(w, (tids, tids_failed)) := thread_ids (process_pid p) w in
        let '(w, r) := apply_rule (names s) aliases p tids rule cfg is_rt
                         is_affected_by_cgroup_bug w in
        MkWorker w (names s) sh cfg count flag
          (log s ++ log_of p tids_failed (log_applied_rule cfg) r)
    | None => MkWorker w (names s) sh (config s) count flag (log s)
    end.

(** What happens while the loop runs. *)
Inductive message :=
| Received (p : Process)
| RulesInstalled (t : NameTable) (rs : Rules)
| ConfigStored (cfg : ConfigSnapshot).

Definition handle (aliases : gmap string string) (benchmark_count : option Z) (bug : bool)
    (s : worker_state) (m : message) : worker_state :=
  match m with
  | Received p => work_on aliases benchmark_count bug p s
  | RulesInstalled t rs =>
      MkWorker (world s) t (fst (shared_replace rs (shared s))) (config s) (processed_count s)
        (shutdown_flag s) (log s)
  | ConfigStored cfg =>
      MkWorker (world s) (names s) (shared s) cfg (processed_count s) (shutdown_flag s) (log s)
  end.

(** [work_loop], until the channel is closed. *)
Definition work_loop (aliases : gmap string string) (benchmark_count : option Z)
    (ms : list message) (s : worker_state) : worker_state :=
  let '(w, is_affected_by_cgroup_bug) := is_cgroup_v2 (world s) in
  foldl (handle aliases benchmark_count is_affected_by_cgroup_bug) (with_world w s) ms.

End Worker.

(** ** What a rule asks for

    The specification of [apply_rule]: a list of steps read off the rule and the
    configuration alone, each tried once, in order, whatever became of the ones
    before it. *)

Inductive step :=
| SNice (nice : Z)
| SWeight (nice : Z)
| SLatency (latnice : Z)
| SSched (sched : string) (rtprio : Z)
| SIo (ioclass : string) (ionice : Z)
| SOom (oom_adj : Z)
| SCgroup (cgroup : string)
| SCpuset (raw_cpuset : string).

(** A step takes effect, fails, or is left out without counting either way. *)
Inductive outcome := Done | Failed (e : PlatformError) | Passed.

Definition when {A} (flag : bool) (o : option A) (f : A -> list step) : list step :=
  match o with Some a => if flag then f a else [] | None => [] end.

Definition plan (t : NameTable) (rule : Rule) (cfg : ConfigSnapshot) (is_rt bug : bool)
    : list step :=
  when (apply_nice cfg) (rule_nice rule)
    (fun n => SNice n :: if apply_cpu_weight cfg then [SWeight n] else []) ++
  when (apply_latnice cfg) (effective_latency_nice rule) (fun n => [SLatency n]) ++
  when (apply_sched cfg) (rule_sched t rule)
    (fun s => [SSched s (match rule_rtprio rule with Some r => r | None => 1 end)]) ++
  when (apply_ionice cfg) (rule_ioclass t rule)
    (fun c => [SIo c (match rule_ionice rule with Some n => n | None => 0 end)]) ++
  when (apply_oom_score_adj cfg) (rule_oom_score_adj rule) (fun n => [SOom n]) ++
  when (apply_cgroups cfg && negb (is_rt && cgroup_realtime_workaround cfg && bug))
    (rule_cgroup t rule) (fun c => [SCgroup c]) ++
  when (apply_cpuset cfg) (rule_cpuset t rule) (fun c => [SCpuset c]).

Section Plan.
Context {W : Type} {Hplatform : PlatformActions W} {Hweight : WeightOfNice}.

Definition outcome_of (r : option PlatformError) : outcome :=
  match r with None => Done | Some e => Failed e end.
Definition judged (x : W * option PlatformError) : W * outcome := (fst x, outcome_of (snd x)).

Definition exec_step (aliases : gmap string string) (pid : Z) (tids : list Z) (s : step) (w : W)
    : W * outcome :=
  match s with
  | SNice n => judged (set_priority pid tids n w)
  | SWeight n =>
      let '(w, v2) := is_cgroup_v2 w in
      if v2 : bool then
        let '(w, r) := set_cpu_weight pid (clamp (raw_weight n) 1 10000) w in
        (w, match r with None => Done | Some _ => Passed end)
      else (w, Passed)
  | SLatency n => judged (set_latency_nice pid tids n w)
  | SSched s r => judged (set_sched pid tids s r w)
  | SIo c n => judged (set_io_priority pid c n w)
  | SOom n => judged (set_oom_score_adj pid n w)
  | SCgroup c => judged (add_pid_to_cgroup pid c w)
  | SCpuset raw =>
      let text := match aliases !! raw with Some resolved => resolved | None => raw end in
      if bool_decide (aliases !! raw = Some EmptyString) then (w, Passed)
      else let '(w, max_cores) := get_max_cores w in
           match CpuSet.parse text max_cores with
           | Some set => judged (set_affinity pid tids set w)
           | None => (w, Failed (InvalidCpuset text))
           end
  end.

Definition exec_one aliases pid tids (ws : W * list outcome) (s : step) : W * list outcome :=
  let '(w, o) := exec_step aliases pid tids s (fst ws) in (w, snd ws ++ [o]).
Definition exec_all aliases pid tids (steps : list step) (w : W) : W * list outcome :=
  foldl (exec_one aliases pid tids) (w, []) steps.

Definition is_done (o : outcome) : bool := match o with Done => true | _ => false end.
Definition failures (outs : list outcome) : list PlatformError :=
  omap (fun o => match o with Failed e => Some e | _ => None end) outs.

(** Nothing applied and something failed is an error; otherwise the first
    failure, if any, makes it partial. *)
Definition verdict (outs : list outcome) : RuleApplication + PlatformError :=
  match failures outs with
  | e :: _ => if existsb is_done outs then inl (Partial e) else inr e
  | [] => inl (if existsb is_done outs then Applied else NoApplicable)
  end.

(** ** The code follows the plan *)

Definition tally (outs : list outcome) : progress :=
  (existsb is_done outs, head (failures outs)).
Definition lift (ws : W * list outcome) : W * progress := (fst ws, tally (snd ws)).

Lemma tally_snoc outs o :
  tally (outs ++ [o]) =
  match o with Done => note None (tally outs) | Failed e => note (Some e) (tally outs)
             | Passed => tally outs end.
Proof.
  unfold tally, failures, note. rewrite existsb_app, omap_app. cbn.
  destruct o; cbn; rewrite ?orb_false_r, ?orb_true_r, ?app_nil_r; try done.
  by destruct (omap _ outs).
Qed.

Lemma act_judged f ws :
  lift (let '(w, o) := judged (f (fst ws)) in (w, snd ws ++ [o])) = act f (lift ws).
Proof.
  destruct ws as [w outs]. unfold lift, judged, act. cbn. destruct (f w) as [w' [e|]];
    cbn; by rewrite tally_snoc.
Qed.

Lemma exec_weight aliases pid tids n ws :
  lift (exec_one aliases pid tids ws (SWeight n)) = mirror_weight pid n (lift ws).
Proof.
  destruct ws as [w outs]. unfold exec_one, lift, mirror_weight. cbn.
  destruct (is_cgroup_v2 w) as [w1 []]; cbn; [|by rewrite tally_snoc].
  destruct (set_cpu_weight pid _ w1) as [w' [e|]]; cbn; by rewrite tally_snoc.
Qed.

Lemma exec_cpuset aliases pid tids raw ws :
  lift (exec_one aliases pid tids ws (SCpuset raw)) = apply_cpuset_text aliases pid tids raw (lift ws).
Proof.
  destruct ws as [w outs]. unfold exec_one, apply_cpuset_text, exec_step. cbn [fst].
  destruct (aliases !! raw) as [text|].
  - destruct (String.eqb_spec text EmptyString) as [->|Hne].
    + rewrite bool_decide_true by done. unfold lift. cbn. by rewrite tally_snoc.
    + rewrite bool_decide_false by congruence. unfold lift at 2. cbn [fst].
      destruct (get_max_cores w) as [w1 max_cores].
      destruct (CpuSet.parse text _); [apply (act_judged _ (w1, outs))|].
      unfold lift. cbn. by rewrite tally_snoc.
  - rewrite bool_decide_false by done. unfold lift at 2. cbn [fst].
    destruct (get_max_cores w) as [w1 max_cores].
    destruct (CpuSet.parse raw _); [apply (act_judged _ (w1, outs))|].
    unfold lift. cbn. by rewrite tally_snoc.
Qed.

(** One block of [apply_rule]. *)
Lemma exec_when {A} aliases pid tids flag (o : option A) f g ws :
  (forall a ws, lift (foldl (exec_one aliases pid tids) ws (f a)) = g a (lift ws)) ->
  lift (foldl (exec_one aliases pid tids) ws (when flag o f)) =
  match o with Some a => if flag then g a (lift ws) else lift ws | None => lift ws end.
Proof. intros H. unfold when. destruct o as [a|]; [|done]. by destruct flag. Qed.

(** The block of [nice] with its mirrored weight. *)
Lemma exec_nice aliases pid tids (mirror : bool) n ws :
  lift (foldl (exec_one aliases pid tids) ws (SNice n :: if mirror then [SWeight n] else [])) =
  (let st := act (set_priority pid tids n) (lift ws) in
   if mirror then mirror_weight pid n st else st).
Proof.
  assert (E : lift (exec_one aliases pid tids ws (SNice n)) = act (set_priority pid tids n) (lift ws))
    by apply act_judged.
  cbn [foldl]. destruct mirror; cbn [foldl]; [by rewrite exec_weight, E|done].
Qed.

(** What the code makes of its two flags is the verdict on the outcomes. *)
Lemma verdict_tally outs :
  match tally outs with
  | (false, Some e) => inr e
  | (true, Some e) => inl (Partial e)
  | (true, None) => inl Applied
  | (false, None) => inl NoApplicable
  end = verdict outs.
Proof. unfold tally, verdict. destruct (failures outs); by destruct (existsb is_done outs). Qed.

Lemma apply_rule_follows t aliases p tids rule cfg is_rt bug w :
  apply_rule t aliases p tids rule cfg is_rt bug w =
  (let '(w', outs) := exec_all aliases (process_pid p) tids (plan t rule cfg is_rt bug) w in
   (w', verdict outs)).
Proof.
  set (pid := process_pid p). set (run := foldl (exec_one aliases pid tids)).
  assert (E : lift (exec_all aliases pid tids (plan t rule cfg is_rt bug) w) =
    lift (run (run (run (run (run (run (run (w, [])
      (when (apply_nice cfg) (rule_nice rule)
        (fun n => SNice n :: if apply_cpu_weight cfg then [SWeight n] else [])))
      (when (apply_latnice cfg) (effective_latency_nice rule) (fun n => [SLatency n])))
      (when (apply_sched cfg) (rule_sched t rule)
        (fun s => [SSched s (match rule_rtprio rule with Some r => r | None => 1 end)])))
      (when (apply_ionice cfg) (rule_ioclass t rule)
        (fun c => [SIo c (match rule_ionice rule with Some n => n | None => 0 end)])))
      (when (apply_oom_score_adj cfg) (rule_oom_score_adj rule) (fun n => [SOom n])))
      (when (apply_cgroups cfg && negb (is_rt && cgroup_realtime_workaround cfg && bug))
        (rule_cgroup t rule) (fun c => [SCgroup c])))
      (when (apply_cpuset cfg) (rule_cpuset t rule) (fun c => [SCpuset c])))).
  { unfold exec_all, plan, run. by rewrite !foldl_app. }
  unfold run in E.
  rewrite (exec_when _ _ _ _ _ _ (apply_cpuset_text aliases pid tids)) in E
    by (intros; apply exec_cpuset).
  rewrite (exec_when _ _ _ _ _ _ (fun c => act (add_pid_to_cgroup pid c))) in E
    by (intros; apply act_judged).
  rewrite (exec_when _ _ _ _ _ _ (fun c => act (set_oom_score_adj pid c))) in E
    by (intros; apply act_judged).
  rewrite (exec_when _ _ _ _ _ _ (fun c => act (set_io_priority pid c _))) in E
    by (intros; apply act_judged).
  rewrite (exec_when _ _ _ _ _ _ (fun c => act (set_sched pid tids c _))) in E
    by (intros; apply act_judged).
  rewrite (exec_when _ _ _ _ _ _ (fun c => act (set_latency_nice pid tids c))) in E
    by (intros; apply act_judged).
  rewrite (exec_when _ _ _ _ _ _ (fun n st => let st := act (set_priority pid tids n) st in
    if apply_cpu_weight cfg then mirror_weight pid n st else st)) in E
    by (intros; apply exec_nice).
  unfold apply_rule. fold pid. cbn zeta in *.
  change (lift (w, [])) with (w, (false, @None PlatformError)) in E.
  destruct (exec_all aliases pid tids (plan t rule cfg is_rt bug) w) as [w' outs].
  rewrite <- verdict_tally.
  transitivity (let '(w0, (applied_any, partial_failure)) := lift (w', outs) in
    (w0, match applied_any, partial_failure with
         | false, Some e => inr e | _, Some e => inl (Partial e)
         | true, None => inl Applied | false, None => inl NoApplicable end)).
  - rewrite E. destruct (is_rt && cgroup_realtime_workaround cfg && bug); cbn [negb].
    + rewrite andb_false_r. by destruct (rule_cgroup t rule).
    + by rewrite andb_true_r.
  - unfold lift. cbn [fst snd]. by destruct (tally outs) as [[] []].
Qed.

(** *** An invariant of the platform survives a rule *)

(** Every query the worker may make about a process; [T] holds of the threads it
    goes on to act on. *)
Record keeps (P : W -> Prop) (T : list Z -> Prop) (pid : Z) : Prop := {
  k_realtime : forall w, P w -> P (fst (is_realtime pid w));
  k_name : forall w, P w -> P (fst (get_process_name pid w));
  k_v2 : forall w, P w -> P (fst (is_cgroup_v2 w));
  k_cores : forall w, P w -> P (fst (get_max_cores w));
  k_tids : forall w, P w -> P (fst (get_tids pid w));
  k_listed : forall w tids, P w -> snd (get_tids pid w) = inl tids -> T tids;
  k_itself : T [pid];
}.

(** Every action it may take on it. *)
Record preserves (P : W -> Prop) (pid : Z) (tids : list Z) : Prop := {
  p_nice : forall n w, P w -> P (fst (set_priority pid tids n w));
  p_weight : forall n w, 1 <= n <= 10000 -> P w -> P (fst (set_cpu_weight pid n w));
  p_latency : forall n w, P w -> P (fst (set_latency_nice pid tids n w));
  p_sched : forall s r w, P w -> P (fst (set_sched pid tids s r w));
  p_io : forall c n w, P w -> P (fst (set_io_priority pid c n w));
  p_oom : forall n w, P w -> P (fst (set_oom_score_adj pid n w));
  p_cgroup : forall c w, P w -> P (fst (add_pid_to_cgroup pid c w));
  p_affinity : forall c w, P w -> P (fst (set_affinity pid tids c w));
}.

Lemma clamp_range z lo hi : lo <= hi -> lo <= clamp z lo hi <= hi.
Proof. intros. unfold clamp. cases_if; zb; lia. Qed.

Lemma exec_step_preserves P T aliases pid tids s w :
  keeps P T pid -> preserves P pid tids -> P w -> P (fst (exec_step aliases pid tids s w)).
Proof.
  intros [] [] Hw. destruct s; cbn [exec_step judged fst]; auto.
  - specialize (k_v3 w Hw). destruct (is_cgroup_v2 w) as [w1 []]; [|done].
    pose proof (p_weight0 (clamp (raw_weight nice) 1 10000) w1 (clamp_range _ 1 10000 ltac:(lia)) k_v3).
    by destruct (set_cpu_weight pid _ w1).
  - case_bool_decide; [done|]. specialize (k_cores0 w Hw). destruct (get_max_cores w) as [w1 m].
    destruct (CpuSet.parse _ _); [by apply p_affinity0|done].
Qed.

Lemma apply_rule_preserves P T t aliases p tids rule cfg is_rt bug w :
  keeps P T (process_pid p) -> preserves P (process_pid p) tids -> P w ->
  P (fst (apply_rule t aliases p tids rule cfg is_rt bug w)).
Proof.
  intros HK HP Hw. rewrite apply_rule_follows. unfold exec_all.
  enough (H : forall l ws, P (fst ws) ->
    P (fst (foldl (exec_one aliases (process_pid p) tids) ws l))).
  { specialize (H (plan t rule cfg is_rt bug) (w, []) Hw). by destruct (foldl _ _ _). }
  intros l. induction l as [|s l IH]; intros ws Hws; [done|]. cbn [foldl]. apply IH.
  unfold exec_one. pose proof (exec_step_preserves P T aliases _ tids s (fst ws) HK HP Hws).
  by destruct (exec_step _ _ _ _ _).
Qed.

End Plan.

(** ** What the plan holds *)

Definition asked (t : NameTable) (rule : Rule) (cfg : ConfigSnapshot) (is_rt bug : bool)
    (s : step) : Prop :=
  match s with
  | SNice n => apply_nice cfg = true /\ rule_nice rule = Some n
  | SWeight n =>
      apply_nice cfg = true /\ apply_cpu_weight cfg = true /\ rule_nice rule = Some n
  | SLatency n => apply_latnice cfg = true /\ effective_latency_nice rule = Some n
  | SSched s r =>
      apply_sched cfg = true /\ rule_sched t rule = Some s /\
      r = match rule_rtprio rule with Some r => r | None => 1 end
  | SIo c n =>
      apply_ionice cfg = true /\ rule_ioclass t rule = Some c /\
      n = match rule_ionice rule with Some n => n | None => 0 end
  | SOom n => apply_oom_score_adj cfg = true /\ rule_oom_score_adj rule = Some n
  | SCgroup c =>
      apply_cgroups cfg = true /\ rule_cgroup t rule = Some c /\
      is_rt && cgroup_realtime_workaround cfg && bug = false
  | SCpuset c => apply_cpuset cfg = true /\ rule_cpuset t rule = Some c
  end.

(** The place of a step in the code. *)
Definition step_rank (s : step) : nat :=
  match s with
  | SNice _ => 0 | SWeight _ => 1 | SLatency _ => 2 | SSched _ _ => 3 | SIo _ _ => 4
  | SOom _ => 5 | SCgroup _ => 6 | SCpuset _ => 7
  end%nat.

Lemma elem_of_when {A} s flag (o : option A) f :
  s ∈ when flag o f <-> exists a, o = Some a /\ flag = true /\ s ∈ f a.
Proof.
  unfold when. destruct o as [a|]; [destruct flag|]; set_solver.
Qed.

Lemma plan_exact t rule cfg is_rt bug s :
  s ∈ plan t rule cfg is_rt bug <-> asked t rule cfg is_rt bug s.
Proof.
  unfold plan. rewrite !elem_of_app, !elem_of_when.
  setoid_rewrite elem_of_cons. setoid_rewrite elem_of_nil.
  assert (Hw : forall n, s ∈ (if apply_cpu_weight cfg then [SWeight n] else []) <->
    apply_cpu_weight cfg = true /\ s = SWeight n)
    by (intros n; destruct (apply_cpu_weight cfg); set_solver).
  setoid_rewrite Hw. setoid_rewrite andb_true_iff. setoid_rewrite negb_true_iff.
  split.
  - intros H. repeat destruct H as [H|H]; destruct H as (a & Ho & Hf & Hs);
      repeat destruct Hs as [Hs|Hs]; try done; destruct_and?; subst s; simpl; tauto.
  - destruct s; simpl; intros H; destruct_and?; subst;
      [left|left|do 1 right; left|do 2 right; left|do 3 right; left|do 4 right; left
      |do 5 right; left|do 6 right]; eexists; split_and!; eauto.
Qed.

Lemma rank_when {A} flag (o : option A) f l :
  (forall a, step_rank <$> f a `sublist_of` l) -> step_rank <$> when flag o f `sublist_of` l.
Proof.
  intros H. unfold when. destruct o as [a|]; [destruct flag; [done|]|]; apply sublist_nil_l.
Qed.

Lemma plan_ordered t rule cfg is_rt bug :
  step_rank <$> plan t rule cfg is_rt bug `sublist_of` seq 0 8.
Proof.
  unfold plan. rewrite !fmap_app.
  change (seq 0 8) with ([0; 1] ++ [2] ++ [3] ++ [4] ++ [5] ++ [6] ++ [7])%nat.
  repeat apply sublist_app; apply rank_when; intros a; try done.
  destruct (apply_cpu_weight cfg); [done|]. simpl. apply sublist_skip, sublist_nil_l.
Qed.

(** ** A platform that records

    Every action is appended to a list and answered by an oracle that may look
    at the list so far. *)

Inductive call :=
| CNice (pid : Z) (tids : list Z) (nice : Z)
| CLatency (pid : Z) (tids : list Z) (nice : Z)
| CSched (pid : Z) (tids : list Z) (sched : string) (rtprio : Z)
| CIo (pid : Z) (ioclass : string) (ionice : Z)
| COom (pid : Z) (adj : Z)
| CCgroup (pid : Z) (cgroup : string)
| CWeight (pid : Z) (weight : Z)
| CAffinity (pid : Z) (tids : list Z) (set : CpuSet).

Definition call_pid (c : call) : Z :=
  match c with
  | CNice p _ _ | CLatency p _ _ | CSched p _ _ _ | CIo p _ _ | COom p _ | CCgroup p _
  | CWeight p _ | CAffinity p _ _ => p
  end.

Record recorder_env := MkEnv {
  re_realtime : Z -> bool;
  re_name : Z -> string;
  re_v2 : bool;
  re_cores : Z;
  re_tids : Z -> list Z + PlatformError;
  re_answer : list call -> call -> option PlatformError;
}.

Definition record_call (env : recorder_env) (c : call) (w : list call)
    : list call * option PlatformError := (w ++ [c], re_answer env w c).

Definition recorder (env : recorder_env) : PlatformActions (list call) := {|
  is_realtime p w := (w, re_realtime env p);
  get_process_name p w := (w, re_name env p);
  is_cgroup_v2 w := (w, re_v2 env);
  get_max_cores w := (w, re_cores env);
  get_tids p w := (w, re_tids env p);
  set_priority p ts n := record_call env (CNice p ts n);
  set_latency_nice p ts n := record_call env (CLatency p ts n);
  set_sched p ts s r := record_call env (CSched p ts s r);
  set_io_priority p c n := record_call env (CIo p c n);
  set_oom_score_adj p n := record_call env (COom p n);
  add_pid_to_cgroup p c := record_call env (CCgroup p c);
  set_cpu_weight p n := record_call env (CWeight p n);
  set_affinity p ts c := record_call env (CAffinity p ts c);
|}.

(** A call a worker may make for one of [pids]. *)
Definition call_ok (pids : list Z) (c : call) : Prop :=
  call_pid c ∈ pids /\ call_pid c <> 0 /\
  match c with CWeight _ w => 1 <= w <= 10000 | _ => True end.

Definition calls_ok (before : list call) (pids : list Z) (w : list call) : Prop :=
  forall c, c ∈ w -> c ∈ before \/ call_ok pids c.

Lemma record_ok env before pids c w :
  call_ok pids c -> calls_ok before pids w -> calls_ok before pids (fst (record_call env c w)).
Proof.
  intros Hc Hw c'. simpl. rewrite elem_of_app, list_elem_of_singleton.
  intros [?| ->]; [by apply Hw|by right].
Qed.

Lemma recorder_preserves env before pids pid tids :
  pid ∈ pids -> pid <> 0 ->
  preserves (Hplatform := recorder env) (calls_ok before pids) pid tids.
Proof. intros Hp H0. split; intros; apply record_ok; done. Qed.

(** The pids of the processes received. *)
Definition received `{RegexEngine} `{Lru string (option RuleName)} (ms : list message) : list Z :=
  omap (fun m => match m with Received p => Some (process_pid p) | _ => None end) ms.

Section Loop.
Context {W : Type} {Hplatform : PlatformActions W} {Hweight : WeightOfNice}
  {Hregex : RegexEngine} {Hlru : Lru string (option RuleName)}.

Lemma resolve_name_pid (p : Process) (w : W) :
  process_pid (snd (resolve_name p w)) = process_pid p.
Proof. unfold resolve_name. by repeat case_match. Qed.

(** An invariant that the queries and actions on a received process keep is kept. *)
Lemma work_on_preserves (P : W -> Prop) T aliases bench bug p s :
  (process_pid p <> 0 ->
   keeps P T (process_pid p) /\ forall tids, T tids -> preserves P (process_pid p) tids) ->
  P (world s) -> P (world (work_on aliases bench bug p s)).
Proof.
  intros HP Hs. unfold work_on. destruct (process_pid p =? 0) eqn:E; [done|]. zb.
  destruct (HP E) as [HK HA]. clear HP.
  assert (Hn : P (fst (resolve_name p (world s)))).
  { unfold resolve_name. destruct (name_is_authoritative p); [done|].
    pose proof (k_name _ _ _ HK _ Hs). by destruct (get_process_name _ _). }
  pose proof (resolve_name_pid p (world s)) as Hpid.
  destruct (resolve_name p (world s)) as [w1 p1]. cbn [fst snd] in *.
  destruct (shared_get_rule _ _ _) as [sh found]. rewrite Hpid.
  pose proof (k_realtime _ _ _ HK _ Hn) as Hr. destruct (is_realtime _ w1) as [w2 rt]. cbn [fst] in Hr.
  destruct found as [[n rule]|]; [|done].
  assert (Ht : P (fst (thread_ids (process_pid p) w2)) /\ T (fst (snd (thread_ids (process_pid p) w2)))).
  { unfold thread_ids. pose proof (k_tids _ _ _ HK _ Hr).
    pose proof (fun tids => k_listed _ _ _ HK _ tids Hr) as Hls. pose proof (k_itself _ _ _ HK).
    destruct (get_tids _ w2) as [w3 [[|tid tids]|e]]; cbn in *; auto. }
  destruct (thread_ids _ w2) as [w3 [tids b]]. cbn [fst snd] in Ht. destruct Ht as [Ht HT].
  pose proof (apply_rule_preserves P T (names s) aliases p1 tids rule (config s) rt bug w3) as H.
  rewrite Hpid in H. specialize (H HK (HA tids HT) Ht).
  by destruct (apply_rule _ _ _ _ _ _ _ _ _).
Qed.

(** Nor does the loop break an invariant that every received process keeps. *)
Lemma work_loop_preserves (P : W -> Prop) (T : Z -> list Z -> Prop) aliases bench ms s :
  (forall w, P w -> P (fst (is_cgroup_v2 w))) ->
  (forall pid, pid ∈ received ms -> pid <> 0 ->
   keeps P (T pid) pid /\ forall tids, T pid tids -> preserves P pid tids) ->
  P (world s) -> P (world (work_loop aliases bench ms s)).
Proof.
  intros Hv2 HP Hs. unfold work_loop. specialize (Hv2 _ Hs).
  destruct (is_cgroup_v2 (world s)) as [w bug]. cbn [fst] in Hv2.
  assert (Hw : P (world (with_world w s))) by done. revert Hw. generalize (with_world w s). clear Hs Hv2.
  induction ms as [|m ms IH]; intros s' Hs'; [done|]. cbn [foldl]. apply IH.
  - intros pid Hpid. apply HP. unfold received. destruct m; cbn [omap list_omap]; [by right|done..].
  - destruct m as [p|t rs|cfg]; [|done|done]. apply (work_on_preserves P (T (process_pid p))); [|done].
    intros Hp. apply HP; [|done]. unfold received. cbn. left.
Qed.

Lemma work_on_counts aliases bench bug p s :
  processed_count (work_on aliases bench bug p s) = processed_count s + 1 /\
  shutdown_flag (work_on aliases bench bug p s) =
    match bench with
    | Some limit => (limit <=? processed_count s + 1) || shutdown_flag s
    | None => shutdown_flag s
    end.
Proof.
  unfold work_on. destruct bench as [limit|]; repeat case_match; by simplify_eq/=.
Qed.

End Loop.

(** ** Properties *)
Module WorkerProps.

(** C4. Applying a rule tries exactly the attributes the rule declares and the
    configuration enables, each once and in a fixed order, with the values the
    rule asks for, and goes on after a failure; the outcome is an error exactly
    when something failed and nothing was applied, and otherwise reports the
    first failure as partial.  A realtime process is never moved to a cgroup
    while the workaround is on and cgroups are v2. *)
Theorem apply_rule_as_planned {W : Type} {Hp : PlatformActions W} {Hw : WeightOfNice}
    (t : NameTable) (aliases : gmap string string) (p : Process) (tids : list Z) (rule : Rule)
    (cfg : ConfigSnapshot) (is_rt bug : bool) (w : W) :
  exists steps,
    (step_rank <$> steps `sublist_of` seq 0 8) /\
    (forall s, s ∈ steps <-> asked t rule cfg is_rt bug s) /\
    apply_rule t aliases p tids rule cfg is_rt bug w =
      (let '(w', outs) := exec_all aliases (process_pid p) tids steps w in (w', verdict outs)).
Proof.
  exists (plan t rule cfg is_rt bug). split_and!.
  - apply plan_ordered.
  - intros s. apply plan_exact.
  - apply apply_rule_follows.
Qed.

(** C13. Whatever the messages and however the platform answers, every action the
    loop takes is for the pid of a process it received, never for pid 0, and
    every [cpu.weight] it writes is between 1 and 10000. *)
Theorem actions_stay_in_bounds {Hw : WeightOfNice} {Hr : RegexEngine}
    {Hl : Lru string (option RuleName)} (env : recorder_env) (aliases : gmap string string)
    (bench : option Z) (ms : list message) (s : worker_state) (c : call) :
  c ∈ world (work_loop (Hplatform := recorder env) aliases bench ms s) ->
  c ∈ world s \/
  call_pid c ∈ received ms /\ call_pid c <> 0 /\
  match c with CWeight _ w => 1 <= w <= 10000 | _ => True end.
Proof.
  revert c. change (calls_ok (world s) (received ms)
    (world (work_loop (Hplatform := recorder env) aliases bench ms s))).
  apply (work_loop_preserves (Hplatform := recorder env) _ (fun _ _ => True));
    [done| |intros c; by left].
  intros pid Hpid H0. split; [by split|]. intros tids _. by apply recorder_preserves.
Qed.

(** The loop counts every process it receives, ignored ones included, and asks
    for shutdown exactly when the count has reached the benchmark limit. *)
Theorem benchmark_stops {W : Type} {Hp : PlatformActions W} {Hw : WeightOfNice}
    {Hr : RegexEngine} {Hl : Lru string (option RuleName)} (aliases : gmap string string)
    (bench : option Z) (ms : list message) (s : worker_state) :
  let s' := work_loop aliases bench ms s in
  let n := Z.of_nat (length (received ms)) in
  processed_count s' = processed_count s + n /\
  shutdown_flag s' =
    shutdown_flag s ||
    match bench with
    | Some limit => (0 <? n) && (limit <=? processed_count s + n)
    | None => false
    end.
Proof.
  unfold work_loop. destruct (is_cgroup_v2 (world s)) as [w bug].
  change (processed_count s) with (processed_count (with_world w s)).
  change (shutdown_flag s) with (shutdown_flag (with_world w s)).
  generalize (with_world w s). clear s. intros s.
  induction ms as [|m ms IH] using rev_ind.
  { simpl. split; [lia|]. destruct bench; by rewrite orb_false_r. }
  assert (Hlen : length (received (ms ++ [m])) =
    (length (received ms) + match m with Received _ => 1 | _ => 0 end)%nat).
  { unfold received. rewrite omap_app, length_app. by destruct m. }
  rewrite foldl_app. cbn [foldl]. rewrite Hlen.
  set (s1 := foldl _ s ms) in *. cbn zeta in *. destruct IH as [IHn IHf].
  set (k := length (received ms)) in *.
  destruct m as [p|t rs|cfg]; cbn [handle]; [|by rewrite Nat.add_0_r..].
  destruct (work_on_counts aliases bench bug p s1) as [-> ->].
  split; [lia|]. rewrite IHf, IHn. destruct bench as [limit|]; [|done].
  rewrite (proj2 (Z.ltb_lt 0 (Z.of_nat (k + 1)))) by lia. cbn [andb].
  replace (processed_count s + Z.of_nat k + 1) with (processed_count s + Z.of_nat (k + 1)) by lia.
  destruct (limit <=? processed_count s + Z.of_nat (k + 1)) eqn:E; cbn [orb];
    [by rewrite orb_true_r|].
  zb. by rewrite (proj2 (Z.leb_gt _ _)), andb_false_r by lia.
Qed.

(** The NixOS wrapper's name of a program is looked up as the program: a leading
    dot and a trailing [-wrapped], or as much of it as the kernel's 15 bytes
    leave. *)
Theorem wrapped_name_found (x : string) (k : nat) :
  x <> EmptyString -> (1 <= k <= 8)%nat ->
  (k = 8%nat \/ slen (String "."%char (sapp x (stake k WRAPPED))) = 15%nat) ->
  strip_wrapped (String "."%char (sapp x (stake k WRAPPED))) = x.
Proof.
  intros Hx Hk Hcase.
  set (name := String "."%char (sapp x (stake k WRAPPED))) in *.
  destruct k as [|k]; [lia|].
  assert (Hn : name = sapp (String "."%char x) (String "-"%char (stake k "wrapped"))) by done.
  assert (Hl : lacks "-"%char (stake k "wrapped") = true)
    by (do 8 (destruct k as [|k]; [done|]); lia).
  assert (Hp : starts_with (String "-"%char (stake k "wrapped")) WRAPPED = true)
    by (clear -Hk; do 8 (destruct k as [|k]; [done|]); lia).
  assert (Hr : rfind_char "-"%char name = Some (S (slen x))).
  { rewrite Hn. by rewrite rfind_sapp. }
  unfold strip_wrapped. rewrite Hr. change (starts_with "." name) with true. cbn iota.
  assert (Hd : sdrop (S (slen x)) name = String "-"%char (stake k "wrapped"))
    by (rewrite Hn; apply (sdrop_sapp (String "."%char x))).
  assert (Hb : ends_with WRAPPED name ||
    (slen name =? 15)%nat && starts_with (sdrop (S (slen x)) name) WRAPPED = true).
  { destruct Hcase as [[= ->]|Hlen].
    - assert (ends_with WRAPPED name = true) as ->; [|done].
      exact (ends_with_sapp WRAPPED (String "."%char x)).
    - rewrite Hlen, Hd, Hp. by rewrite orb_true_r. }
  rewrite Hb. destruct x as [|a x]; [done|].
  rewrite (proj2 (Nat.ltb_lt _ _)) by (simpl; lia).
  unfold slice. rewrite Hn. cbn [sapp sdrop]. rewrite Nat.sub_succ, Nat.sub_0_r.
  apply (stake_sapp (String a x)).
Qed.

Lemma wrapped_name_found_witness :
  strip_wrapped ".firefox-wrapped" = "firefox" /\ strip_wrapped ".telegram-deskt" = ".telegram-deskt"
  /\ strip_wrapped ".plasmashell-wr" = "plasmashell".
Proof.
  split; [|split; [reflexivity|]].
  - apply (wrapped_name_found "firefox" 8); [done|lia|by left].
  - apply (wrapped_name_found "plasmashell" 3); [done|lia|by right].
Defined.

(** *** The loop on concrete messages *)

#[local] Instance demo_weight : WeightOfNice := fun nice => if nice <? 0 then 4294967295 else 20.

Definition demo_env : recorder_env :=
  MkEnv (fun _ => false) (fun _ => "<unknown>") true 8 (fun _ => inl []) (fun _ _ => None).
Definition demo_set : Rules :=
  snd (fst (define_program "ls" (VObject [("name", VString "ls"); ("nice", of_int (-20))])
              NameTable_default Rules_new)).
Definition demo_state : worker_state (W := list call) :=
  MkWorker [] NameTable_default (shared_new Rules_new) default 0 false [].
Definition demo_messages : list message :=
  [RulesInstalled NameTable_default demo_set; Received (Process_new 0 "swapper");
   Received (Process_new 42 ".ls-wrapped"); Received (Process_new 7 "bash")].

Example demo_loop :
  let s := work_loop (Hplatform := recorder demo_env) ∅ (Some 3) demo_messages demo_state in
  world s = [CNice 42 [42] (-20); CWeight 42 10000; CLatency 42 [42] (-20)] /\
  processed_count s = 3 /\ shutdown_flag s = true /\ log s = [LIncomplete ".ls-wrapped" 42].
Proof. by vm_compute. Qed.

Lemma actions_stay_in_bounds_witness :
  CWeight 42 10000 ∈ world demo_state \/
  42 ∈ received demo_messages /\ 42 <> 0 /\ 1 <= 10000 <= 10000.
Proof.
  refine (actions_stay_in_bounds demo_env ∅ (Some 3) demo_messages demo_state (CWeight 42 10000) _).
  vm_compute. right. left.
Defined.

End WorkerProps.
