(* ===== verification/Kernel.v ===== *)
(** * The system calls of the platform layer

    [crates/ananicy-platform/src/abi]: the constants and records the wrappers
    pass to the kernel, and the calls themselves as a class over the state [W] of
    the system.  The wrappers of [abi/sched.rs], [abi/sched_attr.rs] and
    [abi/ioprio.rs] turn a negative return into the error of [errno] and do
    nothing else, so a call here answers [None] for success or the error. *)

From stdpp Require Import base list strings numbers.
From Stdlib Require Import ZArith Lia Ascii.
From S2P Require Import Prelude CLayout RustStr.

#[local] Open Scope Z_scope.

(** An [io::Error]: one of the system's, or one made by the library. *)
Inductive sys_error := Errno (n : Z) | NoErrno.

#[global] Instance sys_error_eq_dec : EqDecision sys_error.
Proof. solve_decision. Defined.

Definition raw_os_error (e : sys_error) : option Z :=
  match e with Errno n => Some n | NoErrno => None end.

Definition EPERM : Z := 1.
Definition ENOENT : Z := 2.
Definition ESRCH : Z := 3.
Definition EACCES : Z := 13.
Definition EINVAL : Z := 22.

(** [ErrorKind] of a system error, for the kinds the sources test. *)
Definition kind_not_found (e : sys_error) : bool := bool_decide (e = Errno ENOENT).
Definition kind_permission (e : sys_error) : bool :=
  bool_decide (e = Errno EACCES) || bool_decide (e = Errno EPERM).

(** ** [abi/sched_attr.rs] *)

Definition SCHED_NORMAL : Z := 0.
Definition SCHED_FIFO : Z := 1.
Definition SCHED_RR : Z := 2.
Definition SCHED_BATCH : Z := 3.
Definition SCHED_ISO : Z := 4.
Definition SCHED_IDLE : Z := 5.
Definition SCHED_DEADLINE : Z := 6.

Definition SCHED_FLAG_KEEP_POLICY : Z := 8.
Definition SCHED_FLAG_KEEP_PARAMS : Z := 16.
Definition SCHED_FLAG_LATENCY_NICE : Z := 128.

Record sched_attr := MkSchedAttr {
  attr_size : Z;
  sched_policy : Z;
  sched_flags : Z;
  sched_nice : Z;
  sched_priority : Z;
  sched_runtime : Z;
  sched_deadline : Z;
  sched_period : Z;
  sched_util_min : Z;
  sched_util_max : Z;
  sched_latency_nice : Z;
}.

(** The [repr(C)] struct, for [size_of::<sched_attr>()]. *)
Definition struct_sched_attr : ctype :=
  (struct_ false (
    fld "size" (int_ 4 false) ;;
    fld "sched_policy" (int_ 4 false) ;;
    fld "sched_flags" (int_ 8 false) ;;
    fld "sched_nice" (int_ 4 true) ;;
    fld "sched_priority" (int_ 4 false) ;;
    fld "sched_runtime" (int_ 8 false) ;;
    fld "sched_deadline" (int_ 8 false) ;;
    fld "sched_period" (int_ 8 false) ;;
    fld "sched_util_min" (int_ 4 false) ;;
    fld "sched_util_max" (int_ 4 false) ;;
    fld "sched_latency_nice" (int_ 4 true) ;;
    mnil))%c.
Definition sched_attr_size : Z := sizeof struct_sched_attr.

(** ** [abi/ioprio.rs] *)

Definition IOPRIO_CLASS_SHIFT : Z := 13.
Definition IOPRIO_PRIO_MASK : Z := Z.shiftl 1 IOPRIO_CLASS_SHIFT - 1.
Definition IOPRIO_CLASS_NONE : Z := 0.
Definition IOPRIO_CLASS_RT : Z := 1.
Definition IOPRIO_CLASS_BE : Z := 2.
Definition IOPRIO_CLASS_IDLE : Z := 3.
Definition IOPRIO_WHO_PROCESS : Z := 1.

Definition ioprio_prio_value (class data : Z) : Z :=
  Z.lor (wrap_s 32 (Z.shiftl class IOPRIO_CLASS_SHIFT)) data.
Definition ioprio_valid (class : Z) : bool := negb (class =? IOPRIO_CLASS_NONE).

(** ** The calls *)

Class Kernel (W : Type) := {
  k_setpriority : Z -> Z -> W -> W * option sys_error;
  k_sched_setattr : Z -> sched_attr -> W -> W * option sys_error;
  k_sched_getattr : Z -> W -> option sched_attr;
  k_sched_setscheduler : Z -> Z -> Z -> W -> W * option sys_error;
  k_sched_setaffinity : Z -> list Z -> W -> W * option sys_error;
  k_ioprio_set : Z -> Z -> Z -> W -> W * option sys_error;
  k_write : string -> string -> W -> W * option sys_error;
  k_read : string -> W -> option string;
}.

(** A call on every thread in turn, whatever the others answered. *)
Fixpoint each_thread {W} (f : Z -> W -> W * option sys_error) (tids : list Z) (w : W)
    : W * list (option sys_error) :=
  match tids with
  | [] => (w, [])
  | tid :: tids =>
      let '(w, r) := f tid w in
      let '(w, rs) := each_thread f tids w in (w, r :: rs)
  end.

(** ** A kernel that records its calls

    Reads answer from fixed files and attributes; every other call is appended
    to a list and answered by the call alone. *)

Inductive syscall :=
| SysSetPriority (tid nice : Z)
| SysSetAttr (tid : Z) (attr : sched_attr)
| SysSetScheduler (tid policy priority : Z)
| SysSetAffinity (tid : Z) (mask : list Z)
| SysIoprioSet (which who ioprio : Z)
| SysWrite (path text : string).

Record kernel_env := MkKernelEnv {
  ke_answer : syscall -> option sys_error;
  ke_attr : Z -> option sched_attr;
  ke_file : string -> option string;
}.

Definition trace (env : kernel_env) (c : syscall) (w : list syscall)
    : list syscall * option sys_error := (w ++ [c], ke_answer env c).

Definition tracing_kernel (env : kernel_env) : Kernel (list syscall) := {|
  k_setpriority tid n := trace env (SysSetPriority tid n);
  k_sched_setattr tid a := trace env (SysSetAttr tid a);
  k_sched_getattr tid _ := ke_attr env tid;
  k_sched_setscheduler tid p q := trace env (SysSetScheduler tid p q);
  k_sched_setaffinity tid m := trace env (SysSetAffinity tid m);
  k_ioprio_set a b c := trace env (SysIoprioSet a b c);
  k_write p t := trace env (SysWrite p t);
  k_read p _ := ke_file env p;
|}.

Lemma each_thread_trace env (f : Z -> syscall) tids w :
  each_thread (fun tid => trace env (f tid)) tids w =
  (w ++ map f tids, map (fun tid => ke_answer env (f tid)) tids).
Proof.
  revert w. induction tids as [|tid tids IH]; intros w; simpl; [by rewrite app_nil_r|].
  rewrite IH. by rewrite <- app_assoc.
Qed.
