(* ===== verification/Syscalls.v ===== *)
(** * The wrappers of the system calls

    [crates/ananicy-platform/src/abi]: [sched_setscheduler], [sched_setattr],
    [sched_getattr], [ioprio_set], [ioprio_get] and [set_affinity_for], down to the
    return value and [errno] of the C library and the bytes of the structs the calls
    are given.

    [Kernel] states these calls over typed values.  Here the C library is the class
    [Libc], any function of the call and its bytes, and [libc_kernel] is what the
    wrappers make of it.  [uapi_attr] reads a [sched_attr] at the offsets of the
    kernel's own declaration, which the source repeats as a Rust struct. *)

From stdpp Require Import base list strings numbers.
From Stdlib Require Import ZArith Lia.
From S2P Require Import Prelude CLayout Kernel.

#[local] Open Scope Z_scope.

(** ** The bytes of a struct of integers *)

(** Size in bytes, and whether signed. *)
Definition int_field : Type := nat * bool.

Fixpoint int_fields (ms : members) : list int_field :=
  match ms with
  | MField _ (CInt b s) rest => (Z.to_nat b, s) :: int_fields rest
  | MField _ _ rest | MBits _ _ _ rest | MAnon _ rest => int_fields rest
  | MNil => []
  end.

Definition fits (f : int_field) (v : Z) : Prop :=
  if snd f then in_s (8 * Z.of_nat (fst f)) v else in_u (8 * Z.of_nat (fst f)) v.

Definition read_int (f : int_field) (bs : list Z) : Z :=
  let z := le_decode (take (fst f) bs) in if snd f then wrap_s (8 * Z.of_nat (fst f)) z else z.

Fixpoint encode_ints (fs : list int_field) (vs : list Z) : list Z :=
  match fs, vs with
  | f :: fs, v :: vs => le_encode (fst f) v ++ encode_ints fs vs
  | _, _ => []
  end.
Fixpoint decode_ints (fs : list int_field) (bs : list Z) : list Z :=
  match fs with [] => [] | f :: fs => read_int f bs :: decode_ints fs (drop (fst f) bs) end.

(** [sched_attr] in memory; the last four bytes are padding. *)
Definition attr_fields : list int_field :=
  match struct_sched_attr with CStruct _ ms => int_fields ms | _ => [] end.
Definition attr_values (a : sched_attr) : list Z :=
  [attr_size a; sched_policy a; sched_flags a; sched_nice a; sched_priority a; sched_runtime a;
   sched_deadline a; sched_period a; sched_util_min a; sched_util_max a; sched_latency_nice a].
Definition attr_bytes (a : sched_attr) (padding : list Z) : list Z :=
  encode_ints attr_fields (attr_values a) ++ padding.
Definition attr_of_values (vs : list Z) : option sched_attr :=
  match vs with
  | [size; policy; flags; nice; prio; runtime; deadline; period; umin; umax; latency] =>
      Some (MkSchedAttr size policy flags nice prio runtime deadline period umin umax latency)
  | _ => None
  end.
Definition attr_of_bytes (bs : list Z) : option sched_attr := attr_of_values (decode_ints attr_fields bs).

(** [SchedParam] and [libc::sched_param], one [int]. *)
Definition param_bytes (sched_priority : Z) : list Z := le_encode 4 sched_priority.

(** ** The C library *)

Inductive raw_call :=
| RawSetScheduler (pid policy : Z) (param : list Z)
| RawSetAttr (pid : Z) (attr : list Z) (flags : Z)
| RawGetAttr (pid size flags : Z)
| RawIoprioSet (which who ioprio : Z)
| RawIoprioGet (which who : Z)
| RawSetAffinity (tid len : Z) (mask : list Z).

(** The return value, [errno] afterwards, and what was written through a pointer. *)
Record raw_answer := MkRaw { ret : Z; errno : Z; written : list Z }.

Class Libc (W : Type) := libc_call : raw_call -> W -> W * raw_answer.

(** [io::Error::last_os_error()] *)
Definition last_os_error (r : raw_answer) : sys_error := Errno (errno r).

Section Wrappers.
Context {W : Type} {Hl : Libc W}.

Definition checked (c : raw_call) (w : W) : W * option sys_error :=
  let '(w, r) := libc_call c w in (w, if ret r <? 0 then Some (last_os_error r) else None).

Definition sched_setscheduler (pid policy sched_priority : Z) : W -> W * option sys_error :=
  checked (RawSetScheduler pid policy (param_bytes sched_priority)).

(** The padding of [attr] is whatever the compiler left there. *)
Definition sched_setattr (padding : list Z) (pid : Z) (attr : sched_attr) (flags : Z)
    : W -> W * option sys_error :=
  checked (RawSetAttr pid (attr_bytes attr padding) flags).

(** The attribute after the call: the bytes the kernel wrote over those that were
    there. *)
Definition sched_getattr (pid : Z) (attr : list Z) (size flags : Z) (w : W)
    : W * (list Z + sys_error) :=
  let '(w, r) := libc_call (RawGetAttr pid size flags) w in
  (w, if ret r <? 0 then inr (last_os_error r)
      else inl (written r ++ drop (length (written r)) attr)).

Definition ioprio_set (which who ioprio : Z) : W -> W * option sys_error :=
  checked (RawIoprioSet which who ioprio).

Definition ioprio_get (which who : Z) (w : W) : W * (Z + sys_error) :=
  let '(w, r) := libc_call (RawIoprioGet which who) w in
  (w, if ret r <? 0 then inr (last_os_error r) else inl (wrap_s 32 (ret r))).

Definition set_affinity_for (tid : Z) (mask : list Z) (w : W) : W * option sys_error :=
  let '(w, r) := libc_call (RawSetAffinity tid (Z.of_nat (length mask)) mask) w in
  (w, if negb (ret r =? 0) then Some (last_os_error r) else None).

(** The record the callers hand to [sched_getattr]: its size, and zeroes. *)
Definition attr_sized : list Z :=
  attr_bytes (MkSchedAttr sched_attr_size 0 0 0 0 0 0 0 0 0 0) [0; 0; 0; 0].

(** The calls of [Kernel] as the wrappers make them; the others are not theirs. *)
Definition libc_kernel (padding : list Z) (others : Kernel W) : Kernel W := {|
  k_setpriority := k_setpriority (Kernel := others);
  k_sched_setattr pid attr := sched_setattr padding pid attr 0;
  k_sched_getattr pid w :=
    match snd (sched_getattr pid attr_sized sched_attr_size 0 w) with
    | inl bytes => attr_of_bytes bytes
    | inr _ => None
    end;
  k_sched_setscheduler := sched_setscheduler;
  k_sched_setaffinity := set_affinity_for;
  k_ioprio_set := ioprio_set;
  k_write := k_write (Kernel := others);
  k_read := k_read (Kernel := others);
|}.
End Wrappers.

(** ** The struct of the kernel

    [struct sched_attr] of [linux/sched/types.h], by offset; the last field is that of
    the kernels that know of latency nice. *)
Definition u_at (n off : nat) (bs : list Z) : Z := le_decode (take n (drop off bs)).
Definition s_at (n off : nat) (bs : list Z) : Z := wrap_s (8 * Z.of_nat n) (u_at n off bs).

Definition uapi_attr (bs : list Z) : sched_attr := {|
  attr_size := u_at 4 0 bs;
  sched_policy := u_at 4 4 bs;
  sched_flags := u_at 8 8 bs;
  sched_nice := s_at 4 16 bs;
  sched_priority := u_at 4 20 bs;
  sched_runtime := u_at 8 24 bs;
  sched_deadline := u_at 8 32 bs;
  sched_period := u_at 8 40 bs;
  sched_util_min := u_at 4 48 bs;
  sched_util_max := u_at 4 52 bs;
  sched_latency_nice := s_at 4 56 bs;
|}.

(** A value of the Rust struct: every field within its type. *)
Definition rust_attr (a : sched_attr) : Prop :=
  in_u 32 (attr_size a) /\ in_u 32 (sched_policy a) /\ in_u 64 (sched_flags a) /\
  in_s 32 (sched_nice a) /\ in_u 32 (sched_priority a) /\ in_u 64 (sched_runtime a) /\
  in_u 64 (sched_deadline a) /\ in_u 64 (sched_period a) /\ in_u 32 (sched_util_min a) /\
  in_u 32 (sched_util_max a) /\ in_s 32 (sched_latency_nice a).

(** The result of a wrapper says what the C library answered: an error exactly when
    the call failed, and then the one of [errno]. *)
Definition told (failed : raw_answer -> Prop) (r : raw_answer) (result : option sys_error) : Prop :=
  (result <> None <-> failed r) /\ forall e, result = Some e -> e = Errno (errno r).
Definition negative (r : raw_answer) : Prop := ret r < 0.
Definition nonzero (r : raw_answer) : Prop := ret r <> 0.

(** A wrapper made this call and none other, and told its answer. *)
Definition made {W} {Hl : Libc W} (c : raw_call) (failed : raw_answer -> Prop) (w : W)
    (out : W * option sys_error) : Prop :=
  fst out = fst (libc_call c w) /\ told failed (snd (libc_call c w)) (snd out).

(** ** Lemmas *)

Lemma read_encode_int f v rest : fits f v -> (0 < fst f)%nat -> read_int f (le_encode (fst f) v ++ rest) = v.
Proof.
  intros Hf Hn. unfold read_int. rewrite take_app_length' by (by rewrite length_le_encode).
  rewrite le_decode_encode. unfold fits in Hf. destruct (snd f).
  - rewrite wrap_s_wrap_u by lia. by apply wrap_s_small; [lia|].
  - by apply wrap_u_small.
Qed.

Lemma decode_encode_ints fs vs rest :
  Forall2 fits fs vs -> Forall (fun f => (0 < fst f)%nat) fs ->
  decode_ints fs (encode_ints fs vs ++ rest) = vs.
Proof.
  induction 1 as [|f v fs vs Hf _ IH]; intros Hp; [done|].
  inversion_clear Hp as [|? ? Hn Hp'].
  cbn [decode_ints encode_ints]. rewrite <- app_assoc, read_encode_int by done.
  rewrite drop_app_length' by (by rewrite length_le_encode). by rewrite IH.
Qed.

Lemma param_roundtrip prio : in_s 32 prio -> read_int (4%nat, true) (le_encode 4 prio) = prio.
Proof.
  intros H. pose proof (read_encode_int (4%nat, true) prio [] H) as E. rewrite app_nil_r in E. apply E. cbn. lia.
Qed.

Definition wf_attr (a : sched_attr) : Prop := Forall2 fits attr_fields (attr_values a).
Lemma rust_attr_wf a : rust_attr a -> wf_attr a.
Proof. intros (?&?&?&?&?&?&?&?&?&?&?). do 11 (constructor; [assumption|]). constructor. Qed.

Lemma attr_fields_positive : Forall (fun f : int_field => (0 < fst f)%nat) attr_fields.
Proof. repeat constructor. Qed.

Lemma attr_roundtrip a padding : wf_attr a -> attr_of_bytes (attr_bytes a padding) = Some a.
Proof.
  intros H. unfold attr_of_bytes, attr_bytes.
  rewrite decode_encode_ints by (exact H || apply attr_fields_positive). by destruct a.
Qed.

(** The Rust struct is read at the offsets of the kernel's. *)
Lemma attr_of_bytes_uapi bs : attr_of_bytes bs = Some (uapi_attr bs).
Proof.
  unfold attr_of_bytes. cbn [attr_fields struct_sched_attr int_fields decode_ints attr_of_values fst].
  unfold attr_fields. cbn. rewrite !drop_drop. reflexivity.
Qed.

Lemma uapi_attr_bytes a padding : rust_attr a -> uapi_attr (attr_bytes a padding) = a.
Proof.
  intros H%rust_attr_wf. pose proof (attr_roundtrip a padding H) as E.
  rewrite attr_of_bytes_uapi in E. by simplify_eq.
Qed.

(** A field that lies inside what was written does not depend on the rest. *)
Lemma u_at_app n off bs rest : (off + n <= length bs)%nat -> u_at n off (bs ++ rest) = u_at n off bs.
Proof.
  intros H. unfold u_at. rewrite drop_app_le by lia. rewrite take_app_le; [done|]. rewrite length_drop. lia.
Qed.
Lemma u_at_past n off bs rest : length bs = off -> u_at n off (bs ++ rest) = u_at n 0 rest.
Proof. intros H. unfold u_at. by rewrite drop_app_length'. Qed.

Section Made.
Context {W : Type} {Hl : Libc W}.

Lemma checked_made c w : made c negative w (checked c w).
Proof.
  unfold made, told, negative, checked. destruct (libc_call c w) as [w1 r]. cbn.
  destruct (Z.ltb_spec (ret r) 0); (split; [done|]); (split; [|by intros e [= <-]]);
    (split; [done|]); (done || lia).
Qed.

Lemma affinity_made tid mask w :
  made (RawSetAffinity tid (Z.of_nat (length mask)) mask) nonzero w (set_affinity_for tid mask w).
Proof.
  unfold made, told, nonzero, set_affinity_for. destruct (libc_call _ w) as [w1 r]. cbn.
  destruct (Z.eqb_spec (ret r) 0); cbn; (split; [done|]); (split; [|by intros ? [= <-]]); by split.
Qed.

(** What the callers make of [sched_getattr]: the bytes written over the record they
    handed in. *)
Lemma getattr_reads padding others pid w :
  k_sched_getattr (Kernel := libc_kernel padding others) pid w =
  let r := snd (libc_call (RawGetAttr pid 64 0) w) in
  if ret r <? 0 then None
  else Some (uapi_attr (written r ++ drop (length (written r)) attr_sized)).
Proof.
  cbn [libc_kernel k_sched_getattr]. unfold sched_getattr.
  change sched_attr_size with 64. destruct (libc_call _ w) as [w1 r]. cbn [snd].
  destruct (ret r <? 0); [done|]. apply attr_of_bytes_uapi.
Qed.
End Made.

(** ** Properties *)
Module SyscallsProps.

(** The struct as the wrappers lay it out: every field where the C declaration puts
    it. *)
Theorem attr_layout :
  map (fun n => offsetof n struct_sched_attr)
    ["size"; "sched_policy"; "sched_flags"; "sched_nice"; "sched_priority"; "sched_runtime";
     "sched_deadline"; "sched_period"; "sched_util_min"; "sched_util_max"; "sched_latency_nice"]%string =
  map (fun k => Some (Z.of_nat (list_sum (map fst (take k attr_fields))))) (seq 0 11).
Proof. vm_compute. reflexivity. Qed.

(** C37. The wrappers say what they are told to and tell what they are answered, whatever
    the C library does.  Each makes one call, with its arguments; the attribute is
    passed as 64 bytes in which the kernel's declaration of the struct, offset by
    offset, finds every field, whatever its padding, and the priority as one [int];
    the mask is passed with its own length in bytes.  The result is an error exactly
    when the call returned a negative value, for the affinity any but 0, and it is
    that of [errno].  [sched_getattr] offers 64 bytes and reports, field by field at the
    kernel's offsets, what was written there, over a record of zeroes. *)
Theorem wrappers_transparent {W} {Hl : Libc W} (others : Kernel W) (padding : list Z) (w : W) :
  length padding = 4%nat ->
  let L := libc_kernel padding others in
  (forall pid a, rust_attr a -> exists bytes, length bytes = 64%nat /\ uapi_attr bytes = a /\
     made (RawSetAttr pid bytes 0) negative w (k_sched_setattr (Kernel := L) pid a w)) /\
  (forall pid policy prio, in_s 32 prio -> exists bytes, length bytes = 4%nat /\ s_at 4 0 bytes = prio /\
     made (RawSetScheduler pid policy bytes) negative w (k_sched_setscheduler (Kernel := L) pid policy prio w)) /\
  (forall tid mask,
     made (RawSetAffinity tid (Z.of_nat (length mask)) mask) nonzero w
       (k_sched_setaffinity (Kernel := L) tid mask w)) /\
  (forall which who prio,
     made (RawIoprioSet which who prio) negative w (k_ioprio_set (Kernel := L) which who prio w)) /\
  (forall pid, let r := snd (libc_call (RawGetAttr pid 64 0) w) in
     (k_sched_getattr (Kernel := L) pid w = None <-> negative r) /\
     forall a, k_sched_getattr (Kernel := L) pid w = Some a ->
       a = uapi_attr (written r ++ drop (length (written r)) (64 :: repeat 0 63))).
Proof.
  intros Hp L. split_and!; intros.
  - exists (attr_bytes a padding). split_and!; [|by apply uapi_attr_bytes|apply checked_made].
    unfold attr_bytes. rewrite length_app, Hp. by destruct a.
  - exists (param_bytes prio). split_and!; [done| |apply checked_made]. by apply (param_roundtrip prio).
  - apply affinity_made.
  - apply checked_made.
  - subst L. rewrite getattr_reads. fold r. cbn zeta. unfold negative.
    destruct (Z.ltb_spec (ret r) 0); split; try done; try (split; [done|lia]). by intros a [= <-].
Qed.

(** A kernel that knows only the 56 bytes before [sched_latency_nice] writes a partial
    record; the call still succeeds, reports every field the kernel has, and reports the
    one it lacks as 0. *)
Theorem older_kernel_reads_zero {W} {Hl : Libc W} (others : Kernel W) (padding : list Z) (pid : Z) (w : W) :
  let r := snd (libc_call (RawGetAttr pid 64 0) w) in
  0 <= ret r -> length (written r) = 56%nat ->
  exists a, k_sched_getattr (Kernel := libc_kernel padding others) pid w = Some a /\
    sched_latency_nice a = 0 /\
    forall more, let b := uapi_attr (written r ++ more) in
      a = MkSchedAttr (attr_size b) (sched_policy b) (sched_flags b) (sched_nice b) (sched_priority b)
            (sched_runtime b) (sched_deadline b) (sched_period b) (sched_util_min b) (sched_util_max b) 0.
Proof.
  intros r Hr Hlen. rewrite getattr_reads. fold r. cbn zeta. rewrite (proj2 (Z.ltb_ge _ _) Hr).
  eexists. split; [done|]. rewrite Hlen. unfold uapi_attr, s_at. cbn [sched_latency_nice].
  assert (Hz : u_at 4 56 (written r ++ drop 56 attr_sized) = 0) by (by rewrite u_at_past).
  rewrite Hz. split; [done|]. intros more. cbn [attr_size sched_policy sched_flags sched_nice sched_priority
    sched_runtime sched_deadline sched_period sched_util_min sched_util_max].
  rewrite !u_at_app by (rewrite Hlen; lia). done.
Qed.

(** *** Witnesses *)

(** A C library that fails [ioprio_set], and knows the attribute of one process, 56
    bytes of it. *)
Definition demo_attr : sched_attr := MkSchedAttr 64 1 0 0 50 0 0 0 0 1024 (-5).
#[local] Instance demo_libc : Libc (list raw_call) := fun c w =>
  (w ++ [c],
   match c with
   | RawIoprioSet _ _ _ => MkRaw (-1) EPERM []
   | RawGetAttr pid _ _ =>
       if pid =? 1 then MkRaw 0 0 (take 56 (attr_bytes demo_attr [0; 0; 0; 0])) else MkRaw (-1) ESRCH []
   | _ => MkRaw 0 0 []
   end).
Definition no_others : Kernel (list raw_call) := {|
  k_setpriority _ _ w := (w, None); k_sched_setattr _ _ w := (w, None); k_sched_getattr _ _ := None;
  k_sched_setscheduler _ _ _ w := (w, None); k_sched_setaffinity _ _ w := (w, None);
  k_ioprio_set _ _ _ w := (w, None); k_write _ _ w := (w, None); k_read _ _ := None;
|}.

Lemma demo_attr_rust : rust_attr demo_attr.
Proof. unfold rust_attr, in_u, in_s. cbn. lia. Defined.

Lemma wrappers_transparent_witness :
  let L := libc_kernel [9; 9; 9; 9] no_others in
  snd (k_ioprio_set (Kernel := L) 1 42 16388 []) <> None /\
  exists bytes, length bytes = 64%nat /\ uapi_attr bytes = demo_attr /\
    made (RawSetAttr 42 bytes 0) negative [] (k_sched_setattr (Kernel := L) 42 demo_attr []).
Proof.
  destruct (wrappers_transparent no_others [9; 9; 9; 9] [] eq_refl) as (H1 & _ & _ & H4 & _).
  split; [|exact (H1 42 demo_attr demo_attr_rust)].
  destruct (H4 1 42 16388) as [_ [Hfail _]]. apply Hfail. reflexivity.
Defined.

Lemma older_kernel_reads_zero_witness :
  exists a, k_sched_getattr (Kernel := libc_kernel [] no_others) 1 [] = Some a /\ sched_latency_nice a = 0.
Proof.
  destruct (older_kernel_reads_zero no_others [] 1 []) as (a & Ha & Hz & _);
    [vm_compute; congruence|reflexivity|]. by exists a.
Defined.

End SyscallsProps.
