(* ===== verification/Priority.v ===== *)
(** * Priorities

    [crates/ananicy-platform/src/priority.rs]: nice, latency nice, scheduling
    policy, I/O priority and OOM adjustment of a process, thread by thread where
    the kernel's call is per thread. *)

From stdpp Require Import base list gmap strings numbers.
From Stdlib Require Import ZArith Lia Ascii.
From S2P Require Import Prelude RustStr Worker Kernel.

#[local] Open Scope Z_scope.

Definition test_errno (err : sys_error) : option PlatformError :=
  match raw_os_error err with
  | None => Some (Io None)
  | Some n =>
      if n =? 0 then None
      else if kind_not_found err || (n =? ESRCH) then Some NotFound
      else if (n =? EACCES) || (n =? EPERM) then Some PermissionDenied
      else Some (Io (Some n))
  end.

(** The three variables of the loop: [first_real], [not_found], [applied]. *)
Definition real_error_step (st : option sys_error * bool * bool) (r : option sys_error)
    : option sys_error * bool * bool :=
  let '(first_real, not_found, applied) := st in
  match r with
  | None => (first_real, not_found, true)
  | Some e =>
      if bool_decide (raw_os_error e = Some ESRCH) then (first_real, true, applied)
      else (match first_real with None => Some e | f => f end, not_found, applied)
  end.

Definition first_real_error (results : list (option sys_error)) : option sys_error :=
  let '(first_real, not_found, applied) :=
    foldl real_error_step (None, false, false) results in
  match first_real with
  | Some e => Some e
  | None => if negb applied && not_found then Some (Errno ESRCH) else None
  end.

(** The tail the per-thread operations share. *)
Definition thread_verdict (results : list (option sys_error)) : option PlatformError :=
  match first_real_error results with
  | None => None
  | Some e => test_errno e
  end.

Section Priority.
Context {W : Type} {Hk : Kernel W}.

Definition set_priority (tids : list Z) (nice_value : Z) (w : W) : W * option PlatformError :=
  let '(w, results) := each_thread (fun tid => k_setpriority tid nice_value) tids w in
  (w, thread_verdict results).

Definition latency_attr (latency_nice_value : Z) : sched_attr :=
  MkSchedAttr sched_attr_size SCHED_NORMAL
    (Z.lor (Z.lor SCHED_FLAG_LATENCY_NICE SCHED_FLAG_KEEP_PARAMS) SCHED_FLAG_KEEP_POLICY)
    0 0 0 0 0 0 0 latency_nice_value.

Definition set_latency_nice (tids : list Z) (latency_nice_value : Z) (w : W)
    : W * option PlatformError :=
  let '(w, results) :=
    each_thread (fun tid => k_sched_setattr tid (latency_attr latency_nice_value)) tids w in
  (w, thread_verdict results).

Definition get_latency_nice (pid : Z) (w : W) : option Z :=
  sched_latency_nice <$> k_sched_getattr pid w.

(** The class a rule's [ioclass] names. *)
Definition io_class_value (io_class : string) : option Z :=
  if String.eqb io_class "best-effort" then Some IOPRIO_CLASS_BE
  else if String.eqb io_class "realtime" then Some IOPRIO_CLASS_RT
  else if String.eqb io_class "idle" then Some IOPRIO_CLASS_IDLE
  else if String.eqb io_class "none" then Some IOPRIO_CLASS_NONE
  else None.

Definition set_io_priority (pid : Z) (io_class : string) (value : Z) (w : W)
    : W * option PlatformError :=
  match io_class_value io_class with
  | None => (w, Some (Skipped (sapp "unknown io class " io_class)))
  | Some class =>
      if ioprio_valid class then
        let '(w, r) := k_ioprio_set IOPRIO_WHO_PROCESS pid (ioprio_prio_value class value) w in
        (w, match r with Some e => test_errno e | None => None end)
      else (w, None)
  end.

(** The policy of a name, its priority, and what to report although it worked. *)
Definition sched_of (sched_name : string) (rt_prio : Z) : option (Z * Z * option string) :=
  if String.eqb sched_name "idle" then Some (SCHED_IDLE, 0, None)
  else if String.eqb sched_name "normal" || String.eqb sched_name "other"
  then Some (SCHED_NORMAL, 0, None)
  else if String.eqb sched_name "rr" then Some (SCHED_RR, wrap_s 32 rt_prio, None)
  else if String.eqb sched_name "fifo" then Some (SCHED_FIFO, wrap_s 32 rt_prio, None)
  else if String.eqb sched_name "deadline"
  then Some (SCHED_NORMAL, 0, Some "deadline scheduler is unavailable")
  else if String.eqb sched_name "batch" then Some (SCHED_BATCH, 0, None)
  else None.

Definition set_sched (tids : list Z) (sched_name : string) (rt_prio : Z) (w : W)
    : W * option PlatformError :=
  match sched_of sched_name rt_prio with
  | None => (w, Some Unsupported)
  | Some (sched, prio, report) =>
      let '(w, results) := each_thread (fun tid => k_sched_setscheduler tid sched prio) tids w in
      (w, match thread_verdict results, report with
          | None, Some reason => Some (Skipped reason)
          | None, None => None
          | Some e, _ => Some e
          end)
  end.

Definition set_oom_score_adjust (pid value : Z) (w : W) : W * option PlatformError :=
  let '(w, r) := k_write (sapp "/proc/" (sapp (fmt_int pid) "/oom_score_adj")) (fmt_int value) w in
  (w, match r with
      | None => None
      | Some e => Some (if kind_not_found e then NotFound
                        else if kind_permission e then PermissionDenied
                        else Io (raw_os_error e))
      end).

(** The probe: set -20, and put back what was there. *)
Definition probe_attr (latency_nice : Z) : sched_attr :=
  MkSchedAttr sched_attr_size 0 (Z.lor SCHED_FLAG_LATENCY_NICE SCHED_FLAG_KEEP_PARAMS)
    0 0 0 0 0 0 0 latency_nice.

Definition test_latnice_support (w : W) : W * bool :=
  let original_latnice := match get_latency_nice 0 w with Some v => v | None => 0 end in
  let '(w, r) := k_sched_setattr 0 (probe_attr (-20)) w in
  match r with
  | None => let '(w, _) := k_sched_setattr 0 (probe_attr original_latnice) w in (w, true)
  | Some _ => (w, false)
  end.

End Priority.

(** ** Lemmas *)

Definition gone (r : option sys_error) : bool := bool_decide (r = Some (Errno ESRCH)).
Definition real_error (r : option sys_error) : option sys_error :=
  if gone r then None else r.

Lemma esrch_gone e : bool_decide (raw_os_error e = Some ESRCH) = gone (Some e).
Proof.
  unfold gone. destruct e as [n|]; simpl; [|done].
  by destruct (decide (n = ESRCH)) as [->|]; rewrite ?bool_decide_true, ?bool_decide_false by congruence.
Qed.

Lemma real_error_loop results first nf ap :
  foldl real_error_step (first, nf, ap) results =
  (match first with None => head (omap real_error results) | Some e => Some e end,
   nf || existsb gone results, ap || existsb (fun r => bool_decide (r = None)) results).
Proof.
  revert first nf ap. induction results as [|r rs IH]; intros first nf ap.
  { simpl. rewrite !orb_false_r. by destruct first. }
  cbn [foldl real_error_step]. destruct r as [e|].
  - rewrite esrch_gone. cbn [omap list_omap existsb].
    assert (Er : real_error (Some e) = if gone (Some e) then None else Some e) by done.
    rewrite Er. destruct (gone (Some e)); rewrite IH; cbn [orb head].
    + by rewrite !orb_true_r.
    + by destruct first.
  - rewrite IH. cbn. by rewrite !orb_true_r.
Qed.

(** The verdict in one line each: the first error that is not [ESRCH], else
    [ESRCH] if every thread is gone. *)
Lemma first_real_error_spec results :
  first_real_error results =
  match omap real_error results with
  | e :: _ => Some e
  | [] => if forallb gone results && negb (bool_decide (results = [])) then Some (Errno ESRCH)
          else None
  end.
Proof.
  unfold first_real_error. rewrite real_error_loop. cbn [orb].
  destruct (omap real_error results) as [|e l] eqn:E; cbn [head]; [|done].
  assert (H : Forall (fun r => r = None \/ gone r = true) results).
  { clear -E. induction results as [|r rs IH]; [done|]. cbn [omap list_omap] in E.
    assert (Er : real_error r = if gone r then None else r) by done. rewrite Er in E.
    destruct (gone r) eqn:Eg; [constructor; [by right|by apply IH]|].
    destruct r as [e|]; [done|]. constructor; [by left|by apply IH]. }
  clear E. destruct results as [|r rs]; [done|]. rewrite (bool_decide_false (_ = [])) by done.
  rewrite andb_true_r. f_equal.
  assert (Hx : negb (existsb (fun r => bool_decide (r = None)) (r :: rs)) && existsb gone (r :: rs) =
    forallb gone (r :: rs)); [|by rewrite Hx].
  assert (H1 : forallb gone (r :: rs) = negb (existsb (fun r => bool_decide (r = None)) (r :: rs))).
  { induction H as [|x l [->|Hg] _ IH]; [done|done|]. cbn [forallb existsb]. rewrite Hg, IH.
    assert (bool_decide (x = None) = false) as -> by (by destruct x). done. }
  rewrite H1. destruct (existsb (fun r => _) (r :: rs)) eqn:En; [done|]. cbn [negb andb].
  cbn [negb forallb] in H1. apply andb_true_iff in H1 as [H1 _]. cbn [existsb]. by rewrite H1.
Qed.

Lemma gone_iff r : gone r = true <-> r = Some (Errno ESRCH).
Proof. unfold gone. apply bool_decide_eq_true. Qed.

Lemma no_real_error results :
  omap real_error results = [] <->
  Forall (fun r => r = None \/ r = Some (Errno ESRCH)) results.
Proof.
  induction results as [|r rs IH]; [by split; [constructor|]|].
  rewrite list.Forall_cons, <- IH. cbn [omap list_omap].
  assert (Er : real_error r = if gone r then None else r) by done. rewrite Er.
  destruct (gone r) eqn:Eg; [apply gone_iff in Eg as ->; naive_solver|].
  destruct r as [e|]; [|naive_solver]. split; [done|]. intros [[?|Hr] _]; [done|].
  rewrite <- gone_iff in Hr. congruence.
Qed.

Lemma some_real_error results e l :
  omap real_error results = e :: l -> Some e ∈ results /\ e <> Errno ESRCH.
Proof.
  intros E. assert (Hin : e ∈ omap real_error results) by (rewrite E; left).
  apply list_elem_of_omap in Hin as (r & Hr & He). unfold real_error, gone in He.
  case_bool_decide; simplify_eq. split; congruence.
Qed.

Lemma all_gone results :
  forallb gone results = true <-> Forall (fun r => r = Some (Errno ESRCH)) results.
Proof.
  induction results as [|r rs IH]; [by split; [constructor|]|].
  cbn [forallb]. by rewrite andb_true_iff, list.Forall_cons, IH, gone_iff.
Qed.

(** When an attribute counts as applied, and when the process counts as gone, for
    a call whose documented errors do not include 0 or [ENOENT]. *)
Lemma thread_verdict_spec results :
  Forall (fun r => r <> Some (Errno 0) /\ r <> Some (Errno ENOENT)) results ->
  (thread_verdict results = None <->
   Forall (fun r => r = None \/ r = Some (Errno ESRCH)) results /\
   (results = [] \/ None ∈ results)) /\
  (thread_verdict results = Some NotFound <->
   results <> [] /\ Forall (fun r => r = Some (Errno ESRCH)) results).
Proof.
  intros Hdoc. unfold thread_verdict. rewrite first_real_error_spec, <- no_real_error, <- all_gone.
  destruct (omap real_error results) as [|e l] eqn:E.
  - destruct (decide (results = [])) as [->|Hne]; [by split; split; auto; intros []|].
    rewrite (bool_decide_false (results = [])), andb_true_r by done.
    apply no_real_error in E. destruct (forallb gone results) eqn:Eg.
    + apply all_gone in Eg. split; split; try done.
      intros [_ [?|Hin]]; [done|]. rewrite list.Forall_forall in Eg. by apply Eg in Hin.
    + split; split; try done; [|by intros []]. intros _. split; [done|]. right.
      apply dec_stable. intros Hn. apply not_true_iff_false in Eg. apply Eg, all_gone.
      rewrite list.Forall_forall in *. intros r Hr. destruct (E r Hr) as [->|]; [by destruct Hn|done].
  - apply some_real_error in E as [Hin Hne]. rewrite list.Forall_forall in Hdoc.
    destruct (Hdoc _ Hin) as [H0 H2].
    assert (Hv : test_errno e <> None /\ test_errno e <> Some NotFound).
    { unfold test_errno, kind_not_found. destruct e as [k|]; cbn [raw_os_error]; [|done].
      rewrite (proj2 (Z.eqb_neq k 0)), (proj2 (Z.eqb_neq k ESRCH)), bool_decide_false by congruence.
      cbn. by case_match. }
    destruct Hv. split; split; try done; [by intros []|].
    intros [_ Hg%all_gone]. rewrite list.Forall_forall in Hg. apply Hg in Hin. congruence.
Qed.

(** ** Properties *)
Module PriorityProps.

(** C20. Setting a nice value calls the kernel once for every thread, in order,
    whatever it answers for the others.  The attribute succeeds exactly when no
    thread that is still there refuses it and some thread took it (or there was
    none to ask), and the process counts as gone exactly when it has threads and
    all of them are gone.  The kernel's documented errors for the call are the
    hypothesis: neither 0 nor [ENOENT]. *)
Theorem nice_reaches_every_thread (env : kernel_env) (tids : list Z) (n : Z) (w : list syscall) :
  let answer tid := ke_answer env (SysSetPriority tid n) in
  (forall tid, answer tid <> Some (Errno 0) /\ answer tid <> Some (Errno ENOENT)) ->
  let '(w', r) := set_priority (Hk := tracing_kernel env) tids n w in
  w' = w ++ map (fun tid => SysSetPriority tid n) tids /\
  (r = None <-> Forall (fun tid => answer tid = None \/ answer tid = Some (Errno ESRCH)) tids /\
                (tids = [] \/ Exists (fun tid => answer tid = None) tids)) /\
  (r = Some NotFound <-> tids <> [] /\ Forall (fun tid => answer tid = Some (Errno ESRCH)) tids).
Proof.
  intros answer Hdoc. unfold set_priority. cbn [k_setpriority tracing_kernel].
  rewrite (each_thread_trace env (fun tid => SysSetPriority tid n)). split; [done|].
  fold answer. destruct (thread_verdict_spec (map answer tids)) as [-> ->].
  { apply Forall_fmap, Forall_true. intros tid. apply Hdoc. }
  rewrite !Forall_fmap. unfold compose.
  assert (Hnil : map answer tids = [] <-> tids = []) by (by destruct tids).
  assert (Hex : None ∈ map answer tids <-> Exists (fun tid => answer tid = None) tids).
  { rewrite list_elem_of_fmap, list.Exists_exists. naive_solver. }
  by rewrite Hnil, Hex.
Qed.

Definition demo_kernel : kernel_env :=
  MkKernelEnv (fun c => match c with
                        | SysSetPriority tid _ => if tid =? 8 then Some (Errno ESRCH) else None
                        | _ => None
                        end) (fun _ => None) (fun _ => None).

Lemma nice_reaches_every_thread_witness :
  snd (set_priority (Hk := tracing_kernel demo_kernel) [7; 8; 9] 5 []) = None.
Proof.
  destruct (nice_reaches_every_thread demo_kernel [7; 8; 9] 5 []) as (_ & [_ H] & _).
  - intros tid. simpl. by destruct (tid =? 8).
  - apply H. split; [|right; by left].
    apply list.Forall_cons; split; [by left|]. apply list.Forall_cons; split; [by right|].
    apply list.Forall_cons; split; [by left|constructor].
Defined.

(** A policy the daemon does not know reaches no thread; [deadline] is never
    reported as applied; the realtime policies carry the rule's priority and the
    others none; and every thread is asked. *)
Theorem policy_by_name (env : kernel_env) (tids : list Z) (name : string) (rtprio : Z)
    (w : list syscall) :
  let '(w', r) := set_sched (Hk := tracing_kernel env) tids name rtprio w in
  match sched_of name rtprio with
  | None => w' = w /\ r = Some Unsupported
  | Some (policy, prio, _) =>
      w' = w ++ map (fun tid => SysSetScheduler tid policy prio) tids /\
      (name = "deadline" -> r <> None /\ policy = SCHED_NORMAL) /\
      (prio <> 0 -> policy = SCHED_RR \/ policy = SCHED_FIFO) /\ policy <> SCHED_DEADLINE
  end.
Proof.
  unfold set_sched. destruct (sched_of name rtprio) as [[[policy prio] report]|] eqn:E; [|done].
  cbn [k_sched_setscheduler tracing_kernel].
  rewrite (each_thread_trace env (fun tid => SysSetScheduler tid policy prio)).
  split; [done|]. split.
  - intros ->. injection E as <- <- <-. by destruct (thread_verdict _).
  - unfold sched_of in E. repeat case_match; simplify_eq; by auto.
Qed.

(** The I/O priority word: for a value of the thirteen data bits, the class and
    the value can both be read back from it; [none] and unknown names make no
    call at all. *)
Theorem io_priority_word (env : kernel_env) (pid value : Z) (name : string) (w : list syscall) :
  0 <= value <= IOPRIO_PRIO_MASK ->
  let '(w', r) := set_io_priority (Hk := tracing_kernel env) pid name value w in
  match io_class_value name with
  | None => w' = w /\ r = Some (Skipped (sapp "unknown io class " name))
  | Some class =>
      if class =? IOPRIO_CLASS_NONE then w' = w /\ r = None
      else exists word, w' = w ++ [SysIoprioSet IOPRIO_WHO_PROCESS pid word] /\
           Z.shiftr word IOPRIO_CLASS_SHIFT = class /\ Z.land word IOPRIO_PRIO_MASK = value
  end.
Proof.
  intros Hv. unfold set_io_priority. destruct (io_class_value name) as [class|] eqn:E; [|done].
  assert (Hc : class ∈ [0; 1; 2; 3]).
  { unfold io_class_value in E. repeat case_match; simplify_eq; vm_compute; set_solver. }
  unfold ioprio_valid, IOPRIO_CLASS_NONE. destruct (class =? 0); [done|].
  cbn [negb k_ioprio_set tracing_kernel trace]. eexists. split; [done|].
  unfold ioprio_prio_value, IOPRIO_PRIO_MASK, IOPRIO_CLASS_SHIFT in *.
  change (Z.shiftl 1 13 - 1) with (Z.ones 13) in *.
  assert (Hs : wrap_s 32 (Z.shiftl class 13) = Z.shiftl class 13).
  { rewrite wrap_s_small; [done|lia|]. rewrite !elem_of_cons in Hc.
    destruct Hc as [->|[->|[->|[->|Hc]]]]; [vm_compute; split; congruence..|set_solver]. }
  rewrite Hs, Z.shiftr_lor, Z.land_lor_distr_l, Z.shiftr_shiftl_l by lia.
  rewrite !Z.land_ones, (Z.mod_small value), Z.shiftr_div_pow2, (Z.div_small value) by (rewrite ?Z.ones_equiv in *; simpl in *; lia).
  rewrite Z.shiftl_0_r, Z.lor_0_r, Z.shiftl_mul_pow2, Z.mod_mul by lia. done.
Qed.

Lemma io_priority_word_witness :
  exists word, set_io_priority (Hk := tracing_kernel demo_kernel) 42 "best-effort" 7 [] =
    ([SysIoprioSet IOPRIO_WHO_PROCESS 42 word], None) /\ Z.land word IOPRIO_PRIO_MASK = 7.
Proof.
  destruct (io_priority_word demo_kernel 42 7 "best-effort" [] ltac:(vm_compute; split; congruence))
    as (word & E & _ & Hd).
  exists word. split; [|exact Hd]. cbn in E. injection E as <-. reflexivity.
Defined.

(** Writing a latency nice leaves the scheduling policy and its parameters
    alone: the attribute word asks the kernel to keep both. *)
Theorem latency_nice_keeps_policy (env : kernel_env) (tids : list Z) (n : Z) (w : list syscall)
    (c : syscall) :
  c ∈ fst (set_latency_nice (Hk := tracing_kernel env) tids n w) ->
  c ∈ w \/
  exists tid attr, tid ∈ tids /\ c = SysSetAttr tid attr /\ sched_latency_nice attr = n /\
    Z.testbit (sched_flags attr) 3 = true /\ Z.testbit (sched_flags attr) 4 = true /\
    attr_size attr = 64.
Proof.
  unfold set_latency_nice. cbn [k_sched_setattr tracing_kernel].
  rewrite (each_thread_trace env (fun tid => SysSetAttr tid (latency_attr n))). cbn [fst].
  rewrite elem_of_app, list_elem_of_fmap. intros [?|(tid & -> & Hin)]; [by left|right].
  by exists tid, (latency_attr n).
Qed.

Lemma latency_nice_keeps_policy_witness :
  SysSetAttr 7 (latency_attr (-5)) ∈ @nil syscall \/
  exists tid attr, tid ∈ [7] /\ SysSetAttr 7 (latency_attr (-5)) = SysSetAttr tid attr /\
    sched_latency_nice attr = -5 /\ Z.testbit (sched_flags attr) 3 = true /\
    Z.testbit (sched_flags attr) 4 = true /\ attr_size attr = 64.
Proof.
  apply (latency_nice_keeps_policy demo_kernel [7] (-5) []). left.
Defined.

(** The start-up probe asks the kernel to keep the parameters but not the
    policy, so on a kernel that accepts it the probing thread is put on the
    normal policy; it does put the latency nice back. *)
Theorem probe_drops_policy (env : kernel_env) :
  (forall c, ke_answer env c = None) ->
  exists a1 a2, test_latnice_support (Hk := tracing_kernel env) [] =
      ([SysSetAttr 0 a1; SysSetAttr 0 a2], true) /\
    sched_latency_nice a2 = match ke_attr env 0 with Some a => sched_latency_nice a | None => 0 end /\
    Z.testbit (sched_flags a1) 3 = false /\ Z.testbit (sched_flags a2) 3 = false /\
    sched_policy a1 = SCHED_NORMAL.
Proof.
  intros Hok. unfold test_latnice_support, get_latency_nice.
  cbn [k_sched_setattr k_sched_getattr tracing_kernel trace]. rewrite Hok.
  eexists _, _. split; [reflexivity|]. by destruct (ke_attr env 0).
Qed.

Lemma probe_drops_policy_witness :
  exists a1 a2, test_latnice_support (Hk := tracing_kernel
      (MkKernelEnv (fun _ => None) (fun _ => Some (latency_attr 3)) (fun _ => None))) [] =
      ([SysSetAttr 0 a1; SysSetAttr 0 a2], true) /\ sched_latency_nice a2 = 3.
Proof.
  destruct (probe_drops_policy (MkKernelEnv (fun _ => None) (fun _ => Some (latency_attr 3))
    (fun _ => None)) (fun _ => eq_refl)) as (a1 & a2 & E & H & _).
  exists a1, a2. split; [exact E|exact H].
Defined.

End PriorityProps.
