(* ===== verification/Affinity.v ===== *)
(** * CPU affinity

    [crates/ananicy-platform/src/abi/affinity.rs]: the bit mask of a CPU set,
    the masks the kernel reports as lists, and [sched_setaffinity] on every
    thread with one narrower retry.

    A mask is a vector of bytes; indexing past its end panics, which is [None]
    for the function that can do it. *)

From stdpp Require Import base list gmap strings numbers.
From Stdlib Require Import ZArith Lia Ascii.
From S2P Require Import Prelude RustStr CpuSet Worker Kernel.

#[local] Open Scope Z_scope.

(** [max(sysconf(_SC_NPROCESSORS_CONF) as u32, 1024)] *)
Definition get_max_number_of_cpus (sys_cpus : Z) : Z := Z.max (wrap_u 32 sys_cpus) 1024.

Definition mask_bytes (num_cpus : Z) : nat := Z.to_nat (num_cpus / 8).

(** [mask[cpu / 8] |= 1 << (cpu % 8)] *)
Definition mask_set (cpu : Z) (mask : list Z) : option (list Z) :=
  match mask !! Z.to_nat (cpu / 8) with
  | Some b => Some (<[Z.to_nat (cpu / 8) := Z.lor b (Z.shiftl 1 (cpu mod 8))]> mask)
  | None => None
  end.

Fixpoint mask_cores (cpus : list Z) (num_cpus : Z) (mask : list Z) : option (list Z) :=
  match cpus with
  | [] => Some mask
  | cpu :: cpus =>
      if cpu <? num_cpus then
        match mask_set cpu mask with
        | Some mask => mask_cores cpus num_cpus mask
        | None => None
        end
      else mask_cores cpus num_cpus mask
  end.

Definition mask_from (cpuset : CpuSet) (num_cpus : Z) : option (list Z) :=
  mask_cores (get_cores cpuset) num_cpus (replicate (mask_bytes num_cpus) 0).

(** The body of the loops that guard the index: [mask] and [any]. *)
Definition mask_any (num_bytes : nat) (cpu : Z) (st : list Z * bool) : list Z * bool :=
  if cpu <? Z.of_nat num_bytes * 8 then
    (match mask_set cpu (fst st) with Some mask => mask | None => fst st end, true)
  else st.

(** [for cpu in start..=end], [n] steps. *)
Fixpoint mask_range (n : nat) (num_bytes : nat) (start : Z) (st : list Z * bool)
    : list Z * bool :=
  match n with
  | O => st
  | S n => mask_range n num_bytes (start + 1) (mask_any num_bytes start st)
  end.

Definition cpu_list_part (part : string) : option (Z * Z) :=
  match split_once dash part with
  | Some (s, e) =>
      match parse_u32 s, parse_u32 e with
      | Some s, Some e => Some (s, e)
      | _, _ => None
      end
  | None => (fun cpu => (cpu, cpu)) <$> parse_u32 part
  end.

Fixpoint cpu_list_parts (parts : list string) (num_bytes : nat) (st : list Z * bool)
    : option (list Z * bool) :=
  match parts with
  | [] => Some st
  | part :: parts =>
      let part := trim part in
      if String.eqb part EmptyString then cpu_list_parts parts num_bytes st
      else
        match cpu_list_part part with
        | None => None
        | Some (start, end_) =>
            cpu_list_parts parts num_bytes
              (mask_range (Z.to_nat (end_ - start + 1)) num_bytes start st)
        end
  end.

Definition mask_from_cpu_list (text : string) (num_bytes : nat) : option (list Z) :=
  match cpu_list_parts (split comma text) num_bytes (replicate num_bytes 0, false) with
  | Some (mask, true) => Some mask
  | _ => None
  end.

(** [a.iter().zip(b).map(|(x, y)| x & y)] and [any(|&b| b != 0)] *)
Fixpoint mask_and (a b : list Z) : list Z :=
  match a, b with
  | x :: a, y :: b => Z.land x y :: mask_and a b
  | _, _ => []
  end.
Definition any_set (m : list Z) : bool := existsb (fun b => negb (b =? 0)) m.

Definition classify (e : sys_error) : PlatformError :=
  match raw_os_error e with
  | Some n => if n =? ESRCH then NotFound
              else if (n =? EACCES) || (n =? EPERM) then PermissionDenied
              else Io (Some n)
  | None => Io None
  end.

Inductive AffinityFailure := RetryNarrower | Settled (e : PlatformError).

Inductive MachineCpus := Possible (mask : list Z) | Online (mask : list Z).

Definition machine_mask (m : MachineCpus) : list Z :=
  match m with Possible mask | Online mask => mask end.
Definition machine_absent (m : MachineCpus) : string :=
  match m with
  | Possible _ => "no CPU a rule asked for exists on this machine"
  | Online _ => "no CPU a rule asked for is online on this machine"
  end.

(** One line of [/proc/cpuinfo]. *)
Definition cpuinfo_line (num_bytes : nat) (st : list Z * bool) (line : string)
    : list Z * bool :=
  match strip_prefix "processor" line with
  | None => st
  | Some rest =>
      match strip_prefix ":" (trim_start rest) with
      | None => st
      | Some value =>
          match parse_u32 (trim value) with
          | None => st
          | Some cpu => mask_any num_bytes cpu st
          end
      end
  end.

Section Affinity.
Context {W : Type} {Hk : Kernel W}.

Definition current_affinity (tid : Z) (num_bytes : nat) (w : W) : option (list Z) :=
  match k_read (sapp "/proc/" (sapp (fmt_int tid) "/status")) w with
  | None => None
  | Some status =>
      match list_find (fun l => starts_with "Cpus_allowed_list:" l = true) (lines status) with
      | None => None
      | Some (_, line) =>
          match split_once ":"%char line with
          | None => None
          | Some (_, text) => mask_from_cpu_list text num_bytes
          end
      end
  end.

Definition online_cpus (num_bytes : nat) (w : W) : option (list Z) :=
  match k_read "/proc/cpuinfo" w with
  | None => None
  | Some raw =>
      match foldl (cpuinfo_line num_bytes) (replicate num_bytes 0, false) (lines raw) with
      | (mask, true) => Some mask
      | (_, false) => None
      end
  end.

Definition machine_read (num_bytes : nat) (w : W) : option MachineCpus :=
  match k_read "/sys/devices/system/cpu/possible" w ≫=
        (fun raw => mask_from_cpu_list (trim raw) num_bytes) with
  | Some mask => Some (Possible mask)
  | None => Online <$> online_cpus num_bytes w
  end.

(** The loop's [first_err], [applied] and [not_found], and the verdict. *)
Definition affinity_step (st : option sys_error * bool * bool) (r : option sys_error)
    : option sys_error * bool * bool :=
  let '(first_err, applied, not_found) := st in
  match r with
  | None => (first_err, true, not_found)
  | Some e =>
      if bool_decide (raw_os_error e = Some ESRCH) then (first_err, applied, true)
      else match first_err with
           | None => (Some e, applied, not_found)
           | Some _ => st
           end
  end.

Definition apply_to_tids (tids : list Z) (mask : list Z) (w : W) : W * option AffinityFailure :=
  let '(w, results) := each_thread (fun tid => k_sched_setaffinity tid mask) tids w in
  let '(first_err, applied, not_found) := foldl affinity_step (None, false, false) results in
  (w, if applied then None
      else match first_err with
           | Some e => Some (if bool_decide (raw_os_error e = Some EINVAL) then RetryNarrower
                             else Settled (classify e))
           | None => if not_found then Some (Settled NotFound) else None
           end).

(** The second half of [narrow_and_retry], from [let narrowed] on. *)
Definition retry_narrowed (pid : Z) (tids : list Z) (mask allowed : list Z)
    (machine : option MachineCpus) (w : W) : W * option PlatformError :=
  let narrowed := mask_and mask allowed in
  if negb (any_set narrowed) then
    (w, Some (match machine with
              | Some _ => Skipped (sapp "no CPU in the cpuset a rule asked for is available to "
                                     (fmt_int pid))
              | None => Io (Some EINVAL)
              end))
  else if bool_decide (narrowed = mask) then (w, Some (Io (Some EINVAL)))
  else
    let '(w, r) := apply_to_tids tids narrowed w in
    (w, match r with
        | None => None
        | Some (Settled e) => Some e
        | Some RetryNarrower =>
            Some (Skipped (sapp "the narrowed cpuset was refused for "
                             (sapp (fmt_int pid) " as well")))
        end).

Definition narrow_and_retry (pid : Z) (tids : list Z) (mask : list Z) (num_bytes : nat) (w : W)
    : W * option PlatformError :=
  match head tids ≫= (fun t => current_affinity t num_bytes w) with
  | None =>
      (w, Some (InvalidCpuset (sapp "the kernel refused the cpuset for "
             (sapp (fmt_int pid) " and its allowed CPUs could not be read"))))
  | Some allowed =>
      let machine := machine_read num_bytes w in
      match machine with
      | Some known =>
          if any_set (mask_and mask (machine_mask known))
          then retry_narrowed pid tids mask allowed machine w
          else (w, Some (InvalidCpuset (machine_absent known)))
      | None => retry_narrowed pid tids mask allowed machine w
      end
  end.

(** [set_affinity]; the outer [None] is the panic of [mask_from]. *)
Definition set_affinity (sys_cpus : Z) (pid : Z) (tids : list Z) (cpuset : CpuSet) (w : W)
    : option (W * option PlatformError) :=
  if is_empty cpuset then Some (w, None)
  else
    let num_cpus := get_max_number_of_cpus sys_cpus in
    match mask_from cpuset num_cpus with
    | None => None
    | Some mask =>
        let '(w, r) := apply_to_tids tids mask w in
        Some (match r with
              | None => (w, None)
              | Some RetryNarrower => narrow_and_retry pid tids mask (mask_bytes num_cpus) w
              | Some (Settled e) => (w, Some e)
              end)
    end.

End Affinity.

(** ** Lemmas *)

Definition has_bit (mask : list Z) (cpu : Z) : bool :=
  match mask !! Z.to_nat (cpu / 8) with Some b => Z.testbit b (cpu mod 8) | None => false end.

Lemma mask_set_some cpu mask :
  0 <= cpu < 8 * Z.of_nat (length mask) ->
  exists mask', mask_set cpu mask = Some mask' /\ length mask' = length mask /\
    forall c, 0 <= c -> has_bit mask' c = bool_decide (c = cpu) || has_bit mask c.
Proof.
  intros Hc. unfold mask_set.
  assert (Hi : (Z.to_nat (cpu / 8) < length mask)%nat).
  { assert (cpu / 8 < Z.of_nat (length mask)) by (apply Z.div_lt_upper_bound; lia).
    assert (0 <= cpu / 8) by (apply Z.div_pos; lia). lia. }
  destruct (lookup_lt_is_Some_2 mask _ Hi) as [b Hb]. rewrite Hb.
  eexists. split; [done|]. split; [apply length_insert|]. intros c H0. unfold has_bit.
  pose proof (Z.mod_pos_bound cpu 8 ltac:(lia)). pose proof (Z.mod_pos_bound c 8 ltac:(lia)).
  pose proof (Z.div_mod cpu 8 ltac:(lia)). pose proof (Z.div_mod c 8 ltac:(lia)).
  assert (0 <= c / 8) by (apply Z.div_pos; lia). assert (0 <= cpu / 8) by (apply Z.div_pos; lia).
  destruct (decide (Z.to_nat (c / 8) = Z.to_nat (cpu / 8))) as [E|E].
  - rewrite E, list_lookup_insert_eq, Hb by done.
    rewrite Z.lor_spec, Z.shiftl_spec, orb_comm by lia. f_equal.
    destruct (decide (c = cpu)) as [->|Hne].
    + by rewrite bool_decide_true, Z.sub_diag by done.
    + rewrite bool_decide_false by done.
      destruct (Z_lt_ge_dec (c mod 8) (cpu mod 8)); [apply Z.testbit_neg_r; lia|].
      rewrite <- (Z.bits_above_log2 1 (c mod 8 - cpu mod 8)); simpl; [done|lia|lia].
  - rewrite list_lookup_insert_ne by done.
    by rewrite bool_decide_false by (intros ->; done).
Qed.

Lemma mask_cores_spec cpus num mask :
  num = 8 * Z.of_nat (length mask) -> Forall (fun c => 0 <= c) cpus ->
  exists mask', mask_cores cpus num mask = Some mask' /\ length mask' = length mask /\
    forall c, 0 <= c ->
      has_bit mask' c = bool_decide (c ∈ cpus /\ c < num) || has_bit mask c.
Proof.
  intros Hn. revert mask Hn. induction cpus as [|cpu cpus IH]; intros mask Hn Hf; cbn [mask_cores].
  { exists mask. split; [done|]. split; [done|]. intros c _. 
    rewrite bool_decide_false by (rewrite elem_of_nil; tauto). done. }
  apply list.Forall_cons in Hf as [H0 Hf]. destruct (cpu <? num) eqn:E; zb.
  - destruct (mask_set_some cpu mask) as (m1 & -> & L1 & B1); [lia|].
    destruct (IH m1) as (m2 & -> & L2 & B2); [lia|done|]. exists m2.
    split; [done|]. split; [congruence|]. intros c Hc. rewrite B2, B1, orb_assoc by done. f_equal.
    apply eq_true_iff_eq. rewrite orb_true_iff, !bool_decide_eq_true, elem_of_cons.
    split; [intros [?| ->]; tauto|tauto].
  - destruct (IH mask Hn Hf) as (m2 & -> & L2 & B2). exists m2. split; [done|]. split; [done|].
    intros c Hc. rewrite B2 by done. f_equal. apply bool_decide_ext. rewrite elem_of_cons.
    split; [tauto|]. intros [[->|?] ?]; [lia|done].
Qed.

Lemma has_bit_zero n c : has_bit (replicate n 0) c = false.
Proof.
  unfold has_bit. destruct (replicate n 0 !! _) as [b|] eqn:E; [|done].
  apply lookup_replicate in E as [-> _]. apply Z.testbit_0_l.
Qed.

Lemma has_bit_and a b c : has_bit (mask_and a b) c = has_bit a c && has_bit b c.
Proof.
  unfold has_bit. generalize (Z.to_nat (c / 8)) as i. intros i. revert b i.
  induction a as [|x a IH]; intros [|y b] [|i]; simpl; try done; rewrite ?andb_false_r; try done.
  apply Z.land_spec.
Qed.

Lemma has_bit_any m c : has_bit m c = true -> any_set m = true.
Proof.
  unfold has_bit, any_set. destruct (m !! _) as [b|] eqn:E; [|done]. intros Hb.
  apply existsb_exists. exists b. split; [by apply list_elem_of_In; eapply list_elem_of_lookup_2|].
  apply negb_true_iff, Z.eqb_neq. intros ->. by rewrite Z.testbit_0_l in Hb.
Qed.

(** The mask of a set, when its width is a whole number of bytes. *)
Lemma mask_from_spec s num :
  wf s -> 0 <= num -> num mod 8 = 0 ->
  exists mask, mask_from s num = Some mask /\ length mask = mask_bytes num /\
    forall c, 0 <= c -> has_bit mask c = has_cpu c s && (c <? num).
Proof.
  intros Hwf Hn H8. unfold mask_from.
  pose proof (Z.div_mod num 8 ltac:(lia)). assert (0 <= num / 8) by (apply Z.div_pos; lia).
  destruct (mask_cores_spec (get_cores s) num (replicate (mask_bytes num) 0)) as (m & -> & L & B).
  - rewrite length_replicate. unfold mask_bytes. lia.
  - apply list.Forall_forall. intros c Hc. unfold get_cores in Hc.
    apply elem_of_true_from in Hc as [? _]. done.
  - exists m. split; [done|]. rewrite length_replicate in L. split; [done|].
    intros c Hc. rewrite B, has_bit_zero, orb_false_r, has_cpu_in by done.
    apply eq_true_iff_eq. by rewrite andb_true_iff, !bool_decide_eq_true, Z.ltb_lt.
Qed.

(** What [apply_to_tids] answers: success exactly when some thread took the mask,
    or there is none. *)
Lemma affinity_loop results first ap nf :
  foldl affinity_step (first, ap, nf) results =
  (match first with
   | Some e => Some e
   | None => head (omap (fun r => match r with
                                  | Some e => if bool_decide (raw_os_error e = Some ESRCH)
                                              then None else Some e
                                  | None => None
                                  end) results)
   end,
   ap || existsb (fun r => bool_decide (r = None)) results,
   nf || existsb (fun r => match r with
                           | Some e => bool_decide (raw_os_error e = Some ESRCH)
                           | None => false
                           end) results).
Proof.
  revert first ap nf. induction results as [|r rs IH]; intros first ap nf; cbn [foldl].
  { simpl. rewrite !orb_false_r. by destruct first. }
  destruct r as [e|]; cbn [affinity_step omap list_omap existsb].
  - destruct (bool_decide (raw_os_error e = Some ESRCH)).
    + rewrite IH. by rewrite orb_true_r.
    + destruct first; rewrite IH; [|done]. done.
  - rewrite IH. cbn. by rewrite orb_true_r.
Qed.

Lemma apply_to_tids_trace env tids mask w :
  let '(w', r) := apply_to_tids (Hk := tracing_kernel env) tids mask w in
  w' = w ++ map (fun tid => SysSetAffinity tid mask) tids /\
  (r = None -> tids = [] \/
     exists tid, tid ∈ tids /\ ke_answer env (SysSetAffinity tid mask) = None).
Proof.
  unfold apply_to_tids. cbn [k_sched_setaffinity tracing_kernel].
  rewrite (each_thread_trace env (fun tid => SysSetAffinity tid mask)), affinity_loop.
  split; [done|]. cbn [orb].
  set (answers := map _ tids). destruct (existsb (fun r => bool_decide (r = None)) answers) eqn:Ea.
  - intros _. right. apply existsb_exists in Ea as (r & Hin & ->%bool_decide_eq_true).
    apply list_elem_of_In, list_elem_of_fmap in Hin as (tid & E & Htid). by exists tid.
  - destruct answers as [|r rs] eqn:Eq; [intros _; left; by destruct tids|].
    cbn [existsb] in Ea. destruct r as [e|]; [|done]. cbn [omap list_omap existsb].
    destruct (bool_decide (raw_os_error e = Some ESRCH)); [|done]. by destruct (head _).
Qed.

(** ** Properties *)
Module AffinityProps.

(** A call that gives a thread a mask within a CPU set. *)
Definition within (cpuset : CpuSet) (tids : list Z) (c : syscall) : Prop :=
  exists tid mask, tid ∈ tids /\ c = SysSetAffinity tid mask /\ any_set mask = true /\
    forall cpu, 0 <= cpu -> has_bit mask cpu = true -> has_cpu cpu cpuset = true.

Lemma within_all cpuset tids mask w c :
  any_set mask = true ->
  (forall cpu, 0 <= cpu -> has_bit mask cpu = true -> has_cpu cpu cpuset = true) ->
  c ∈ w ++ map (fun tid => SysSetAffinity tid mask) tids -> c ∈ w \/ within cpuset tids c.
Proof.
  intros Ha Hm. rewrite elem_of_app, list_elem_of_fmap.
  intros [?|(tid & -> & Htid)]; [by left|]. right. by exists tid, mask.
Qed.

(** The mask of a CPU set holds exactly its CPUs, for a machine whose CPU count
    is a multiple of 8. *)
Theorem mask_holds_set (s : CpuSet) (sys_cpus : Z) :
  let num := get_max_number_of_cpus sys_cpus in
  wf s -> max_cores s <= num -> num mod 8 = 0 ->
  exists mask, mask_from s num = Some mask /\ Z.of_nat (length mask) = num / 8 /\
    forall cpu, 0 <= cpu -> has_bit mask cpu = has_cpu cpu s.
Proof.
  intros num Hwf Hmax H8.
  assert (Hn : 0 <= num) by (unfold num, get_max_number_of_cpus; lia).
  destruct (mask_from_spec s num Hwf Hn H8) as (mask & E & L & B). exists mask.
  split; [done|]. split; [rewrite L; unfold mask_bytes; rewrite Z2Nat.id; [done|apply Z.div_pos; lia]|].
  intros cpu Hc. rewrite B by done. unfold has_cpu.
  destruct (cpu <? max_cores s) eqn:E1; [|done]. zb. by rewrite (proj2 (Z.ltb_lt cpu num)), andb_true_r by lia.
Qed.

Definition demo_cpus : CpuSet := set_cpu 9 (set_cpu 2 (new 1024)).

Lemma mask_holds_set_witness :
  exists mask, mask_from demo_cpus (get_max_number_of_cpus 16) = Some mask /\
    Z.of_nat (length mask) = 128 /\ has_bit mask 9 = true.
Proof.
  destruct (mask_holds_set demo_cpus 16) as (mask & E & L & B); [|by vm_compute|by vm_compute|].
  - apply wf_set_cpu, wf_set_cpu, wf_new. unfold in_u. lia.
  - exists mask. split; [exact E|]. split; [exact L|]. rewrite (B 9); [reflexivity|lia].
Defined.

Lemma singleton_cores cpu n : 0 <= cpu < n -> get_cores (set_cpu cpu (new n)) = [cpu].
Proof.
  intros Hc. unfold set_cpu, get_cores. cbn [max_cores new].
  rewrite (proj2 (Z.ltb_lt cpu n)) by lia. cbn [cores new].
  assert (H : forall k i, true_from i (<[k := true]> (replicate (Z.to_nat (n - i)) false)) =
    if decide (k < Z.to_nat (n - i))%nat then [i + Z.of_nat k] else []).
  { intros k i. generalize (Z.to_nat (n - i)) as m. intros m. clear. revert k i.
    assert (H0 : forall m i, true_from i (replicate m false) = [])
      by (intros m0; induction m0; intros i0; simpl; auto).
    induction m as [|m IH]; intros k i; [by destruct k|]. destruct k as [|k].
    - simpl. by rewrite H0, Z.add_0_r.
    - cbn [replicate insert list_insert true_from]. rewrite IH.
      repeat case_decide; try lia; [|done]. f_equal. lia. }
  specialize (H (Z.to_nat cpu) 0). rewrite Z.sub_0_r in H. rewrite H.
  rewrite decide_True by lia. f_equal. lia.
Qed.

(** On a machine with more than 1024 CPUs, not a multiple of 8, a set that holds
    one of the last of them runs off the end of the mask: the daemon panics. *)
Theorem odd_cpu_count_panics (sys_cpus cpu : Z) :
  1024 < sys_cpus < 2 ^ 32 -> 8 * (sys_cpus / 8) <= cpu < sys_cpus ->
  mask_from (set_cpu cpu (new sys_cpus)) (get_max_number_of_cpus sys_cpus) = None.
Proof.
  intros Hs Hc. assert (Hnum : get_max_number_of_cpus sys_cpus = sys_cpus).
  { unfold get_max_number_of_cpus. rewrite wrap_u_small by (unfold in_u; lia). lia. }
  rewrite Hnum. assert (0 < sys_cpus / 8) by (apply Z.div_str_pos; lia).
  assert (Hcores : get_cores (set_cpu cpu (new sys_cpus)) = [cpu]).
  { apply singleton_cores; lia. }
  unfold mask_from. rewrite Hcores. cbn [mask_cores].
  rewrite (proj2 (Z.ltb_lt cpu sys_cpus)) by lia. unfold mask_set.
  rewrite (proj2 (lookup_ge_None _ _)); [done|]. rewrite length_replicate. unfold mask_bytes.
  assert (sys_cpus / 8 <= cpu / 8) by (apply Z.div_le_lower_bound; lia). lia.
Qed.

Lemma odd_cpu_count_panics_witness :
  mask_from (set_cpu 1028 (new 1030)) (get_max_number_of_cpus 1030) = None.
Proof. apply (odd_cpu_count_panics 1030 1028); [lia|]. vm_compute. split; congruence. Defined.

Lemma mask_nonempty cpuset num mask :
  wf cpuset -> max_cores cpuset <= num -> is_empty cpuset = false ->
  (forall c, 0 <= c -> has_bit mask c = has_cpu c cpuset && (c <? num)) -> any_set mask = true.
Proof.
  intros Hwf Hmax He B. destruct (get_cores cpuset) as [|c cs] eqn:E.
  { apply is_empty_spec in E. congruence. }
  assert (Hin : c ∈ get_cores cpuset) by (rewrite E; left).
  assert (H0 : 0 <= c) by (apply elem_of_true_from in Hin as [? _]; done).
  assert (Hc : has_cpu c cpuset = true) by (rewrite has_cpu_in by done; by apply bool_decide_eq_true).
  apply (has_bit_any _ c). rewrite B, Hc by done. unfold has_cpu in Hc. zb. lia.
Qed.

(** The retry stays within the set as well. *)
Lemma narrow_within env cpuset pid tids mask nb (w0 w : list syscall) :
  (forall cpu, 0 <= cpu -> has_bit mask cpu = true -> has_cpu cpu cpuset = true) ->
  (forall c, c ∈ w -> c ∈ w0 \/ within cpuset tids c) ->
  let '(w', r) := narrow_and_retry (Hk := tracing_kernel env) pid tids mask nb w in
  (forall c, c ∈ w' -> c ∈ w0 \/ within cpuset tids c) /\
  (r = None -> tids = [] \/ exists c, c ∈ w' /\ ke_answer env c = None).
Proof.
  intros Hm Hw.
  assert (Hr : forall allowed machine,
    let '(w', r) := retry_narrowed (Hk := tracing_kernel env) pid tids mask allowed machine w in
    (forall c, c ∈ w' -> c ∈ w0 \/ within cpuset tids c) /\
    (r = None -> tids = [] \/ exists c, c ∈ w' /\ ke_answer env c = None)).
  { intros allowed machine. unfold retry_narrowed.
    destruct (any_set (mask_and mask allowed)) eqn:Ea; cbn [negb]; [|done].
    case_bool_decide; [done|].
    pose proof (apply_to_tids_trace env tids (mask_and mask allowed) w) as H1.
    destruct (apply_to_tids tids (mask_and mask allowed) w) as [w1 r1]. destruct H1 as [-> Hok].
    split.
    - intros c Hc. destruct (within_all cpuset tids (mask_and mask allowed) w c) as [?|?]; auto.
      intros cpu H0. rewrite has_bit_and. intros [? _]%andb_true_iff. auto.
    - destruct r1 as [[|e]|]; try done. intros _.
      destruct (Hok eq_refl) as [?|(tid & Htid & Hans)]; [by left|right].
      exists (SysSetAffinity tid (mask_and mask allowed)). split; [|done].
      apply elem_of_app. right. apply list_elem_of_fmap. by exists tid. }
  unfold narrow_and_retry. destruct (head tids ≫= _) as [allowed|]; [|done].
  destruct (machine_read nb w) as [known|]; [|apply Hr].
  destruct (any_set (mask_and mask (machine_mask known))); [apply Hr|done].
Qed.

(** C17. Setting the affinity never gives a thread a CPU the rule did not name and
    never an empty mask, the retry included; and it reports success only when
    some thread took a mask, the set is empty or there are no threads. *)
Theorem affinity_within_rule (env : kernel_env) (sys_cpus pid : Z) (tids : list Z)
    (cpuset : CpuSet) (w : list syscall) :
  let num := get_max_number_of_cpus sys_cpus in
  wf cpuset -> max_cores cpuset <= num -> num mod 8 = 0 ->
  exists w' r, set_affinity (Hk := tracing_kernel env) sys_cpus pid tids cpuset w = Some (w', r) /\
    (forall c, c ∈ w' -> c ∈ w \/ within cpuset tids c) /\
    (r = None -> is_empty cpuset = true \/ tids = [] \/
                 exists c, c ∈ w' /\ ke_answer env c = None).
Proof.
  intros num Hwf Hmax H8. unfold set_affinity. fold num.
  destruct (is_empty cpuset) eqn:He; [exists w, None; by split_and!; auto|].
  assert (Hn : 0 <= num) by (unfold num, get_max_number_of_cpus; lia).
  destruct (mask_from_spec cpuset num Hwf Hn H8) as (mask & -> & L & B).
  assert (Hsub : forall cpu, 0 <= cpu -> has_bit mask cpu = true -> has_cpu cpu cpuset = true).
  { intros cpu Hc. rewrite B by done. by intros [? _]%andb_true_iff. }
  assert (Hany : any_set mask = true) by (eapply mask_nonempty; eauto).
  pose proof (apply_to_tids_trace env tids mask w) as H1.
  destruct (apply_to_tids tids mask w) as [w1 r1]. destruct H1 as [-> Hok1].
  destruct r1 as [[|e]|]; eexists _, _; (split; [f_equal; apply surjective_pairing|]); cbn [fst snd].
  - pose proof (narrow_within env cpuset pid tids mask (mask_bytes num) w _ Hsub
      (fun c => within_all cpuset tids mask w c Hany Hsub)) as Hn'.
    destruct (narrow_and_retry _ _ _ _ _) as [w' r]. destruct Hn' as [? Hok]. split; [done|].
    intros Hr. right. by apply Hok.
  - split; [|done]. intros c. by apply within_all.
  - split; [intros c; by apply within_all|]. intros _. right.
    destruct (Hok1 eq_refl) as [?|(tid & Htid & Ha)]; [by left|right].
    exists (SysSetAffinity tid mask). split; [|done].
    apply elem_of_app. right. apply list_elem_of_fmap. by exists tid.
Qed.

Definition demo_kernel : kernel_env :=
  MkKernelEnv (fun c => match c with
                        | SysSetAffinity _ m => if has_bit m 9 then Some (Errno EINVAL) else None
                        | _ => None
                        end) (fun _ => None)
    (fun p => if String.eqb p "/proc/7/status"
              then Some (sapp "Cpus_allowed_list:	0-3" (String lf EmptyString)) else None).

(** The whole set is refused, and the retry gives the one allowed CPU. *)
Example demo_retry :
  (fun '(w, r) => (length w, map (fun c => match c with SysSetAffinity t m => (t, has_bit m 2, has_bit m 9)
                              | _ => (0, false, false) end) w, r))
    <$> set_affinity (Hk := tracing_kernel demo_kernel) 16 7 [7] demo_cpus [] =
  Some (2%nat, [(7, true, true); (7, true, false)], None).
Proof. by vm_compute. Qed.

Lemma affinity_within_rule_witness :
  exists w' r, set_affinity (Hk := tracing_kernel demo_kernel) 16 7 [7] demo_cpus [] = Some (w', r) /\
    forall c, c ∈ w' -> c ∈ @nil syscall \/ within demo_cpus [7] c.
Proof.
  destruct (affinity_within_rule demo_kernel 16 7 [7] demo_cpus []) as (w' & r & E & H & _);
    [|by vm_compute|by vm_compute|].
  - apply wf_set_cpu, wf_set_cpu, wf_new. unfold in_u. lia.
  - exists w', r. split; [exact E|exact H].
Defined.

End AffinityProps.
