(* ===== verification/Netlink.v ===== *)
(** * The netlink monitor

    [crates/ananicy-platform/src/netlink.rs]: the proc-connector listener.  The
    filter decides which events become work, the loop drains the socket and
    stops on the errors that break the stream or when the worker is gone.

    The socket, [epoll] and the name of a pid are what the loop is given: a
    round of the loop is the shutdown flag it reads, what [epoll_wait] answers
    and the answers of the socket until it is drained. *)

From stdpp Require Import base list gmap strings numbers.
From Stdlib Require Import ZArith Lia Ascii.
From S2P Require Import Prelude RustStr Process LruCache Kernel.

#[local] Open Scope Z_scope.

(** ** Errors of the socket *)

Definition EAGAIN : Z := 11.
Definition ENOBUFS : Z := 105.

Inductive RecvFailure := BufferOverrun | Drained | Fatal.

(** [SocketError]: an I/O error, with or without an errno, or another. *)
Inductive SocketError := SockIo (e : sys_error) | SockOther.

Definition errno_of (e : SocketError) : option Z :=
  match e with SockIo io => raw_os_error io | SockOther => None end.

Definition classify_recv_error (e : SocketError) : RecvFailure :=
  match errno_of e with
  | Some n => if n =? ENOBUFS then BufferOverrun else if n =? EAGAIN then Drained else Fatal
  | None => Fatal
  end.

Definition to_io_error (e : SocketError) : sys_error :=
  match errno_of e with Some n => Errno n | None => NoErrno end.

(** ** The filter *)

Record Identity := MkIdentity { id_len : Z; id_digest : Z }.

#[global] Instance Identity_eq_dec : EqDecision Identity.
Proof. solve_decision. Defined.

(** FNV-1a over the bytes, on 64 bits. *)
Definition FNV_OFFSET : Z := 0xcbf29ce484222325.
Definition FNV_PRIME : Z := 0x00000100000001b3.

Definition fnv_step (digest byte : Z) : Z := wrap_u 64 (Z.lxor digest byte * FNV_PRIME).

Definition identity_of (name : string) : Identity :=
  MkIdentity (wrap_u 32 (Z.of_nat (slen name))) (foldl fnv_step FNV_OFFSET (bytes_of name)).

Definition REPORTED_NAMES_CAPACITY : Z := 8192.

(** ** Events *)

(** The proc-connector events the loop tells apart. *)
Inductive ProcEvent :=
| PExec (process_pid : Z)
| PComm (process_pid : Z)
| PFork (child_pid : Z)
| PExit
| POther.

(** A message: an error, one without payload, or an event. *)
Inductive nl_message := NlError | NlEmpty | NlEvent (e : ProcEvent).

Definition event_pid (e : ProcEvent) : option Z :=
  match e with
  | PExec p | PComm p => Some p
  | PFork p => Some p
  | PExit | POther => None
  end.

Inductive epoll_answer := EpollReady | EpollTimeout | EpollError.

(** One round: the flag, the wait, and the socket's answers; the last answer of
    a round that is not drained ends the loop. *)
Record round := MkRound {
  flag_read : bool;
  waited : epoll_answer;
  received : list (list nl_message + SocketError);
}.

(** How the listener ended, if it did. *)
Inductive ending := Running | StoppedOk | StoppedErr (e : sys_error).

Section Netlink.
Context {Hlru : Lru Z Identity}.

Definition ReportedNames : Type := LruCache Z Identity.
Definition ReportedNames_new : ReportedNames := lru_new (Z.to_nat REPORTED_NAMES_CAPACITY).

Definition should_report (pid : Z) (name : string) (seen : ReportedNames)
    : ReportedNames * bool :=
  let identity := identity_of name in
  let '(seen, found) := lru_get pid seen in
  if bool_decide (found = Some identity) then (seen, false)
  else (lru_put pid identity seen, true).

(** The name of a pid at the moment it is asked for, and whether the worker
    still receives. *)
Context (name_of : nat -> Z -> string) (alive : nat -> bool).

(** The listener: what it remembers, what it sent, whether it raised the
    shutdown flag, how many names it has looked up, and whether it ended. *)
Record listener := MkListener {
  reported : ReportedNames;
  sent : list Process;
  raised : bool;
  asked : nat;
  ended : ending;
}.

(** One event of the inner [for]. *)
Definition on_message (s : listener) (m : nl_message) : listener :=
  match ended s with
  | Running =>
      match m with
      | NlError | NlEmpty => s
      | NlEvent e =>
          match event_pid e with
          | None => s
          | Some pid =>
              if pid =? 0 then s
              else
                let name := name_of (asked s) pid in
                let '(seen, yes) := should_report pid name (reported s) in
                if yes then
                  if alive (length (sent s)) then
                    MkListener seen
                      (sent s ++ [with_authoritative_name (Process_new pid name)])
                      (raised s) (S (asked s)) Running
                  else MkListener seen (sent s) true (S (asked s)) StoppedOk
                else MkListener seen (sent s) (raised s) (S (asked s)) Running
          end
      end
  | _ => s
  end.

Definition stop (e : ending) (s : listener) : listener :=
  MkListener (reported s) (sent s) (raised s) (asked s) e.

(** The drain loop of one round. *)
Fixpoint drain (answers : list (list nl_message + SocketError)) (s : listener) : listener :=
  match answers with
  | [] => s
  | a :: answers =>
      match ended s with
      | Running =>
          match a with
          | inl msgs => drain answers (foldl on_message s msgs)
          | inr e =>
              match classify_recv_error e with
              | BufferOverrun | Fatal => stop (StoppedErr (to_io_error e)) s
              | Drained => s
              end
          end
      | _ => s
      end
  end.

Definition on_round (s : listener) (r : round) : listener :=
  match ended s with
  | Running =>
      if flag_read r then stop StoppedOk s
      else match waited r with
           | EpollReady => drain (received r) s
           | EpollTimeout | EpollError => s
           end
  | _ => s
  end.

Definition listen (rounds : list round) : listener :=
  foldl on_round (MkListener ReportedNames_new [] false O Running) rounds.

End Netlink.

(** ** Lemmas *)

(** Sixteen bytes per entry, whatever the name. *)
Definition identity_ok (i : Identity) : Prop := in_u 32 (id_len i) /\ in_u 64 (id_digest i).

Lemma identity_of_ok n : identity_ok (identity_of n).
Proof.
  split; [by apply wrap_u_range|]. simpl.
  assert (H : forall bs d, in_u 64 d -> in_u 64 (foldl fnv_step d bs)).
  { intros bs. induction bs as [|b bs IH]; intros d Hd; [done|]. apply IH. by apply wrap_u_range. }
  apply H. unfold in_u, FNV_OFFSET. lia.
Qed.

Section Filter.
Context {Hlru : Lru Z Identity} {Hlaws : LruLaws Z Identity}.

(** A remembered identity is the one of the pid's last report. *)
Definition remembers (last : gmap Z Identity) (seen : ReportedNames) : Prop :=
  forall p i, lru_peek p seen = Some i -> last !! p = Some i.

Lemma should_report_spec pid name last seen :
  remembers last seen ->
  let '(seen', yes) := should_report pid name seen in
  lru_cap seen' = lru_cap seen /\
  (yes = false -> last !! pid = Some (identity_of name)) /\
  remembers (if yes then <[pid := identity_of name]> last else last) seen'.
Proof.
  intros Hr. unfold should_report.
  pose proof (get_peek pid seen) as Hg. pose proof (fun j => peek_get j pid seen) as Hp.
  pose proof (cap_get pid seen) as Hc.
  destruct (lru_get pid seen) as [seen1 found]. cbn [fst snd] in *.
  case_bool_decide as E.
  - split_and!; [done|intros _; apply Hr; congruence|]. intros p i. rewrite Hp. apply Hr.
  - split_and!; [by rewrite cap_put|done|]. intros p i Hi. destruct (decide (p = pid)) as [->|Hne].
    + apply peek_put_old in Hi as ->. by rewrite lookup_insert_eq.
    + apply peek_put_ne in Hi; [|done]. rewrite lookup_insert_ne by done. apply Hr. by rewrite <- Hp.
Qed.

(** The filter on a sequence of questions: its answers, and the identity of the
    last report of every pid. *)
Definition ask (st : ReportedNames * list bool * gmap Z Identity) (q : Z * string)
    : ReportedNames * list bool * gmap Z Identity :=
  let '(seen, answers, last) := st in
  let '(seen, yes) := should_report (fst q) (snd q) seen in
  (seen, answers ++ [yes], if yes then <[fst q := identity_of (snd q)]> last else last).
Definition ask_all (qs : list (Z * string)) : ReportedNames * list bool * gmap Z Identity :=
  foldl ask (ReportedNames_new, [], ∅) qs.

Lemma ask_all_remembers qs :
  let '(seen, _, last) := ask_all qs in remembers last seen.
Proof.
  unfold ask_all.
  induction qs as [|q qs IH] using rev_ind; simpl.
  { intros p i. unfold ReportedNames_new. by rewrite peek_new. }
  rewrite foldl_app. simpl. destruct (foldl ask _ qs) as [[seen answers] last]. simpl.
  pose proof (should_report_spec (fst q) (snd q) last seen IH) as H.
  destruct (should_report (fst q) (snd q) seen) as [seen' yes]. by destruct H as (_ & _ & ?).
Qed.

(** *** The listener *)

Context (name_of : nat -> Z -> string) (alive : nat -> bool).

Record listener_ok (s : listener) : Prop := {
  ok_sent : Forall (fun p => process_pid p <> 0 /\ name_is_authoritative p = true) (sent s);
  ok_cap : lru_cap (reported s) = Z.to_nat REPORTED_NAMES_CAPACITY;
  ok_seen : forall p i, lru_peek p (reported s) = Some i -> identity_ok i;
  ok_alive : forall k, (k < length (sent s))%nat -> alive k = true;
  ok_raised : raised s = true -> ended s = StoppedOk /\ alive (length (sent s)) = false;
  ok_err : forall n, ended s = StoppedErr (Errno n) -> n <> EAGAIN;
}.

Lemma should_report_ok pid name seen :
  (forall p i, lru_peek p seen = Some i -> identity_ok i) ->
  let '(seen', _) := should_report pid name seen in
  lru_cap seen' = lru_cap seen /\ forall p i, lru_peek p seen' = Some i -> identity_ok i.
Proof.
  intros Hs. unfold should_report.
  pose proof (fun j => peek_get j pid seen) as Hp. pose proof (cap_get pid seen) as Hc.
  destruct (lru_get pid seen) as [seen1 found]. cbn [fst snd] in *.
  case_bool_decide; (split; [by rewrite ?cap_put|]); intros p i Hi.
  - apply (Hs p). by rewrite <- Hp.
  - destruct (decide (p = pid)) as [->|Hne].
    + apply peek_put_old in Hi as ->. apply identity_of_ok.
    + apply peek_put_ne in Hi; [|done]. apply (Hs p). by rewrite <- Hp.
Qed.

Lemma on_message_ok s m : listener_ok s -> listener_ok (on_message name_of alive s m).
Proof.
  intros Hs. unfold on_message. destruct (ended s) eqn:Ee; try done.
  destruct m as [| |e]; try done. destruct (event_pid e) as [pid|]; [|done].
  destruct (pid =? 0) eqn:E0; [done|]. zb. destruct Hs as [Hsent Hcap Hseen Hal Hraise _].
  pose proof (should_report_ok pid (name_of (asked s) pid) (reported s) Hseen) as H.
  destruct (should_report _ _ _) as [seen yes]. destruct H as [Hc Hi].
  assert (Hnr : raised s = true -> False) by (intros [H _]%Hraise; congruence).
  destruct yes; [destruct (alive _) eqn:Ea|]; (split; cbn [sent reported raised ended]; try done);
    try congruence; try (by intros H%Hnr).
  - apply Forall_app. split; [done|]. by apply Forall_singleton.
  - intros k. rewrite length_app. cbn [length]. intros Hk.
    destruct (decide (k = length (sent s))) as [->|]; [done|]. apply Hal. lia.
Qed.

Lemma drain_ok answers s : listener_ok s -> listener_ok (drain name_of alive answers s).
Proof.
  revert s. induction answers as [|a answers IH]; intros s Hs; cbn [drain]; [done|].
  destruct (ended s) eqn:Ee; try done. destruct a as [msgs|e].
  - apply IH. clear IH Ee. revert s Hs. induction msgs as [|m msgs IHm]; intros s Hs; [done|].
    apply IHm. by apply on_message_ok.
  - assert (Hstop : classify_recv_error e <> Drained -> listener_ok (stop (StoppedErr (to_io_error e)) s)).
    { intros Hne. destruct Hs as [Hsent Hcap Hseen Hal Hraise _].
      split; cbn [stop sent reported raised ended]; try done; [intros [H _]%Hraise; congruence|].
      unfold to_io_error, classify_recv_error in *. destruct (errno_of e) as [k|]; [|done].
      intros n [= <-] ->. by vm_compute in Hne. }
    destruct (classify_recv_error e) eqn:Ec; [by apply Hstop|done|by apply Hstop].
Qed.

Lemma listen_ok rounds : listener_ok (listen name_of alive rounds).
Proof.
  unfold listen.
  assert (H0 : listener_ok (MkListener ReportedNames_new [] false O Running)).
  { split; cbn; try done; [apply cap_new| |lia]. intros p i. unfold ReportedNames_new. by rewrite peek_new. }
  revert H0. generalize (MkListener ReportedNames_new [] false O Running) as s.
  induction rounds as [|r rounds IH]; intros s Hs; [done|]. cbn [foldl]. apply IH.
  unfold on_round. destruct (ended s) eqn:Ee; try done. destruct (flag_read r).
  - destruct Hs as [Hsent Hcap Hseen Hal Hraise _]. split; cbn; try done.
    intros [H _]%Hraise. congruence.
  - destruct (waited r); try done. by apply drain_ok.
Qed.
End Filter.

(** A listener that stopped without an error and without raising the flag was told to. *)
Section Stops.
Context {Hlru : Lru Z Identity} (name_of : nat -> Z -> string) (alive : nat -> bool).

Definition quits (s : listener) : Prop := ended s = StoppedOk -> raised s = true.

Lemma on_message_quits s m : quits s -> quits (on_message name_of alive s m).
Proof.
  intros Hs. unfold on_message. destruct (ended s) eqn:Ee; try done.
  destruct m as [| |e]; try done. destruct (event_pid e) as [pid|]; [|done].
  destruct (pid =? 0); [done|]. destruct (should_report _ _ _) as [seen []]; [|done].
  by destruct (alive _).
Qed.

Lemma drain_quits answers s : quits s -> quits (drain name_of alive answers s).
Proof.
  revert s. induction answers as [|a answers IH]; intros s Hs; cbn [drain]; [done|].
  destruct (ended s) eqn:Ee; try done. destruct a as [msgs|e].
  - apply IH. clear IH Ee. revert s Hs. induction msgs as [|m msgs IHm]; intros s Hs; [done|].
    apply IHm. by apply on_message_quits.
  - by destruct (classify_recv_error e).
Qed.

Lemma listen_quits rounds :
  Forall (fun r => flag_read r = false) rounds -> quits (listen name_of alive rounds).
Proof.
  intros H. unfold listen.
  assert (H0 : quits (MkListener ReportedNames_new [] false O Running)) by done.
  revert H0. generalize (MkListener ReportedNames_new [] false O Running) as s.
  induction H as [|r rounds Hr _ IH]; intros s Hs; [done|]. cbn [foldl]. apply IH.
  unfold on_round. destruct (ended s) eqn:Ee; try done. rewrite Hr.
  destruct (waited r); try done. by apply drain_quits.
Qed.
End Stops.

(** ** Properties *)
Module NetlinkProps.
Section Properties.
Context {Hlru : Lru Z Identity} {Hlaws : LruLaws Z Identity}.

(** The filter only suppresses a repetition: whatever was asked before, however
    the cache evicted, a question it answers no to has the identity the pid was
    last reported with.  So an exec that renames a forked process always gets
    through. *)
Theorem rename_is_reported (qs : list (Z * string)) (pid : Z) (name : string) :
  let '(seen, _, last) := ask_all qs in
  snd (should_report pid name seen) = false -> last !! pid = Some (identity_of name).
Proof.
  pose proof (ask_all_remembers qs) as Hr. destruct (ask_all qs) as [[seen answers] last].
  pose proof (should_report_spec pid name last seen Hr) as H.
  destruct (should_report pid name seen) as [seen' yes]. by destruct H as (_ & H & _).
Qed.

(** C23. The listener sends only processes with a non-zero pid and an authoritative name,
    each while the worker was there to receive it; it remembers at most 8192 pids with
    an identity of fixed size; it raises the shutdown flag only when it stops because a
    send found the worker gone, and as long as the flag is read down it ends without an
    error only in that way; it never reports a drained socket as an error. *)
Theorem listener_sound (name_of : nat -> Z -> string) (alive : nat -> bool) (rounds : list round) :
  let s := listen name_of alive rounds in
  Forall (fun p => process_pid p <> 0 /\ name_is_authoritative p = true) (sent s) /\
  (forall k, (k < length (sent s))%nat -> alive k = true) /\
  (Z.of_nat (lru_len (reported s)) <= 8192) /\
  (forall p i, lru_peek p (reported s) = Some i -> in_u 32 (id_len i) /\ in_u 64 (id_digest i)) /\
  (raised s = true -> ended s = StoppedOk /\ alive (length (sent s)) = false) /\
  (Forall (fun r => flag_read r = false) rounds -> ended s = StoppedOk -> raised s = true) /\
  (forall n, ended s = StoppedErr (Errno n) -> n <> EAGAIN).
Proof.
  intros s. destruct (listen_ok name_of alive rounds) as [H1 H2 H3 H4 H5 H6].
  split_and!; try done; [|by apply listen_quits].
  pose proof (len_cap (reported s)). fold s in H2. rewrite H2 in *.
  unfold REPORTED_NAMES_CAPACITY in *. lia.
Qed.

End Properties.

Lemma rename_is_reported_witness :
  let '(seen, _, last) := ask_all [(42, "bash"); (42, "sleep"); (7, "ls")] in
  last !! 42 = Some (identity_of "sleep").
Proof.
  exact (rename_is_reported (Hlru := list_lru_ops) (Hlaws := list_lru_laws)
           [(42, "bash"); (42, "sleep"); (7, "ls")] 42 "sleep" eq_refl).
Defined.

(** A fork reported under its parent's name, the exec that follows, the comm
    event that repeats it, the idle thread, and an overrun. *)
Definition demo_rounds : list round :=
  [MkRound false EpollTimeout [];
   MkRound false EpollReady
     [inl [NlEvent (PFork 42); NlEvent (PExec 42); NlEvent (PComm 42); NlEvent (PExec 0); NlError];
      inr (SockIo (Errno EAGAIN)); inl [NlEvent (PExec 9)]];
   MkRound false EpollReady [inr (SockIo (Errno ENOBUFS))];
   MkRound false EpollReady [inl [NlEvent (PExec 9)]]].
Definition demo_names (k : nat) (_ : Z) : string := if decide (k = O) then "bash" else "sleep".

Example demo_listen :
  let s := listen (Hlru := list_lru_ops) demo_names (fun _ => true) demo_rounds in
  map (fun p => (process_pid p, name p)) (sent s) = [(42, "bash"); (42, "sleep")] /\
  ended s = StoppedErr (Errno ENOBUFS) /\ raised s = false.
Proof. by vm_compute. Qed.

(** The same rounds with a worker that is gone from the second send on. *)
Lemma listener_sound_witness :
  let s := listen (Hlru := list_lru_ops) demo_names (fun k => k <? 1)%nat demo_rounds in
  map process_pid (sent s) = [42] /\ raised s = true /\
  (ended s = StoppedOk /\ (length (sent s) <? 1)%nat = false).
Proof.
  cbv zeta. split; [vm_compute; reflexivity|]. split; [vm_compute; reflexivity|].
  destruct (listener_sound (Hlru := list_lru_ops) (Hlaws := list_lru_laws)
    demo_names (fun k => k <? 1)%nat demo_rounds) as (_ & _ & _ & _ & H & _).
  apply H. vm_compute. reflexivity.
Defined.

End NetlinkProps.
