(* ===== verification/Procfs.v ===== *)
(** * Process names and identities from /proc

    [crates/ananicy-platform/src/procfs.rs]: the name a process is matched under,
    the budget of failed [exe] reads, the full scan, and the fields of [stat],
    [status] and [task].

    A [procfs] is what the files answer at one time. A look-up of a name reads the
    start time, [exe] and the start time again, and the pid may be recycled in
    between: it runs on three of them. *)

From stdpp Require Import base list gmap strings numbers.
From Stdlib Require Import ZArith Lia Ascii.
From S2P Require Import Prelude RustStr Paths Process LruCache Worker Kernel.

#[local] Open Scope Z_scope.

Record procfs := MkProcfs {
  pf_cmdline : Z -> option (list Z);        (* fs::read, bytes *)
  pf_exe : Z -> list Z + sys_error;         (* fs::read_link, bytes *)
  pf_comm : Z -> option string;
  pf_stat : Z -> option string;
  pf_status : Z -> option string;
  pf_task : Z -> list string + sys_error;   (* readable entries of task/ *)
  pf_entries : option (list string);        (* readable entries of /proc *)
}.

(** What the files answer during one look-up of a name: up to the first look at the
    start time, when [exe] is read, and after that. *)
Record lookup_fs := MkLookup { at_start : procfs; at_exe : procfs; at_end : procfs }.

(** A look-up during which nothing changes. *)
Definition frozen (fs : procfs) : lookup_fs := MkLookup fs fs fs.

(** ** Fields of [stat] and [status] *)

Definition start_time_of (stat : string) : option Z :=
  match rfind_char ")"%char stat with
  | None => None
  | Some rparen =>
      match split_whitespace (sdrop (rparen + 1) stat) !! 19%nat with
      | None => None
      | Some field => parse_u64 field
      end
  end.
Definition get_start_time (fs : procfs) (pid : Z) : option Z := pf_stat fs pid ≫= start_time_of.

(** The first line that starts with [Tgid:] decides. *)
Fixpoint tgid_of (ls : list string) : option Z :=
  match ls with
  | [] => None
  | line :: ls =>
      if starts_with "Tgid:" line then
        match split_whitespace line !! 1%nat with
        | None => None
        | Some field => parse_i32 field
        end
      else tgid_of ls
  end.
Definition get_tgid (fs : procfs) (pid : Z) : option Z :=
  match pf_status fs pid with None => None | Some status => tgid_of (lines status) end.

Definition get_tids (fs : procfs) (pid : Z) : list Z + PlatformError :=
  match pf_task fs pid with
  | inl entries => inl (omap parse_i32 entries)
  | inr e => inr (if kind_not_found e then NotFound
                  else if kind_permission e then PermissionDenied
                  else Io (raw_os_error e))
  end.

(** ** Names *)

Definition strip_deleted_suffix (name : string) : string :=
  match find_str " (deleted)" name with Some index => stake index name | None => name end.

Definition backslash : ascii := "\"%char.

Definition arg_basename (arg : string) : string :=
  let name := if ends_with ".exe" arg then replace_char backslash slash arg else arg in
  match rfind_char slash name with
  | Some slash_idx => sdrop (slash_idx + 1) name
  | None => name
  end.

Definition resolve_argv_name (argv0 : string) (script comm : option string) : string :=
  let name := arg_basename argv0 in
  match script, comm with
  | Some script, Some comm =>
      let comm := trim comm in
      if negb (String.eqb comm EmptyString) && negb (String.eqb comm name)
         && starts_with comm (arg_basename script)
      then arg_basename script else name
  | _, _ => name
  end.

(** The non-empty arguments of a command line. *)
Fixpoint split_nul (bs : list Z) : list (list Z) :=
  match bs with
  | [] => [[]]
  | b :: bs =>
      if b =? 0 then [] :: split_nul bs
      else match split_nul bs with h :: t => (b :: h) :: t | [] => [[b]] end
  end.
Definition args_of (bs : list Z) : list (list Z) :=
  take 2 (filter (fun a => a <> []) (split_nul bs)).

(** ** The budget of failed [exe] reads *)

Record ExeFailure := MkExeFailure { start_time : option Z; count : Z }.

Definition COMMAND_NAME_HEURISTIC_SKIP_EXE_FAILURES : Z := 5.
Definition MAX_EXE_FAIL_CACHE_SIZE : Z := 256.

Definition remembered_budget (entry : ExeFailure) (observed : option Z) : option Z :=
  match start_time entry, observed with
  | Some recorded, Some now => if recorded =? now then Some (count entry) else None
  | _, _ => None
  end.

Section Procfs.
Context {Hlru : Lru Z ExeFailure}.

Definition exe_fail_cache_new : LruCache Z ExeFailure :=
  lru_new (Z.to_nat MAX_EXE_FAIL_CACHE_SIZE).

Definition exe_failures_for (fs : procfs) (pid : Z) (cache : LruCache Z ExeFailure)
    : LruCache Z ExeFailure * Z :=
  let '(cache, entry) := lru_get pid cache in
  match entry with
  | None => (cache, 0)
  | Some entry =>
      match remembered_budget entry (get_start_time fs pid) with
      | Some count => (cache, count)
      | None => (lru_pop pid cache, 0)
      end
  end.

(** The last resort. *)
Definition name_from_comm (fs : procfs) (pid : Z) : string :=
  match pf_comm fs pid with
  | Some comm => if String.eqb (trim comm) EmptyString then "<unknown>" else trim comm
  | None => "<unknown>"
  end.

(** Steps 2 and 3: [exe] within its budget, then [comm]. *)
Definition name_from_exe (l : lookup_fs) (pid : Z) (cache : LruCache Z ExeFailure)
    : LruCache Z ExeFailure * string :=
  let '(cache, exe_failures) := exe_failures_for (at_start l) pid cache in
  if exe_failures <? COMMAND_NAME_HEURISTIC_SKIP_EXE_FAILURES then
    match pf_exe (at_exe l) pid with
    | inl target =>
        let cache := if 0 <? exe_failures then lru_pop pid cache else cache in
        match file_name (string_of target) with
        | Some f => (cache, strip_deleted_suffix (from_utf8_lossy (bytes_of f)))
        | None => (cache, name_from_comm (at_end l) pid)
        end
    | inr e =>
        let cache :=
          if kind_permission e then
            lru_put pid (MkExeFailure (get_start_time (at_end l) pid) (wrap_u 8 (exe_failures + 1))) cache
          else cache in
        (cache, name_from_comm (at_end l) pid)
    end
  else (cache, name_from_comm (at_end l) pid).

Definition get_command_from_pid (l : lookup_fs) (pid : Z) (cache : LruCache Z ExeFailure)
    : LruCache Z ExeFailure * string :=
  match pf_cmdline (at_start l) pid with
  | Some cmdline_bytes =>
      match args_of cmdline_bytes with
      | argv0 :: rest =>
          let script := from_utf8_lossy <$> head rest in
          let comm := (fun _ => match pf_comm (at_start l) pid with Some c => c | None => EmptyString end)
                        <$> script in
          (cache, resolve_argv_name (from_utf8_lossy argv0) script comm)
      | [] => name_from_exe l pid cache
      end
  | None => name_from_exe l pid cache
  end.

(** ** The full scan *)

(** [pid_str.chars().all(is_ascii_digit)] and the parse. *)
Definition pid_of_entry (entry : string) : option Z :=
  if sforall is_digit entry then parse_i32 entry else None.

(** [alive n] tells whether the [n]-th send is received, [look n] is what the files answer
    during the look-up before it. *)
Fixpoint scan_entries (look : nat -> lookup_fs) (alive : nat -> bool) (entries : list string)
    (cache : LruCache Z ExeFailure) (sent : list Process)
    : LruCache Z ExeFailure * list Process :=
  match entries with
  | [] => (cache, sent)
  | entry :: entries =>
      match pid_of_entry entry with
      | None => scan_entries look alive entries cache sent
      | Some pid =>
          let '(cache, name) := get_command_from_pid (look (length sent)) pid cache in
          if alive (length sent) then
            scan_entries look alive entries cache
              (sent ++ [with_authoritative_name (Process_new pid name)])
          else (cache, sent)
      end
  end.

Definition full_scan (fs : procfs) (look : nat -> lookup_fs) (alive : nat -> bool) (cache : LruCache Z ExeFailure)
    : LruCache Z ExeFailure * list Process :=
  match pf_entries fs with
  | Some entries => scan_entries look alive entries cache []
  | None => (cache, [])
  end.

End Procfs.

(** ** Lemmas *)

Lemma arg_basename_path dir base :
  ends_with ".exe" (sapp dir (String slash base)) = false -> lacks slash base = true ->
  arg_basename (sapp dir (String slash base)) = base.
Proof.
  intros He Hl. unfold arg_basename. rewrite He, rfind_sapp by done.
  replace (sapp dir (String slash base)) with (sapp (sapp dir (String slash EmptyString)) base)
    by (by rewrite <- sapp_assoc).
  replace (slen dir + 1)%nat with (slen (sapp dir (String slash EmptyString)))
    by (by rewrite slen_sapp).
  apply sdrop_sapp.
Qed.

(** A call is a look-up of a pid. *)
Definition name_call : Type := lookup_fs * Z.

(** The kernel refused [pid]'s [exe] during the call. *)
Definition refused (pid : Z) (call : name_call) : bool :=
  (call.2 =? pid) &&
  match pf_exe (at_exe (call.1)) pid with inl _ => false | inr e => kind_permission e end.
(** ... and the process that started at [t] held the pid before and after. *)
Definition refused_to (pid t : Z) (call : name_call) : bool :=
  refused pid call && bool_decide (get_start_time (at_start (call.1)) pid = Some t) &&
  bool_decide (get_start_time (at_end (call.1)) pid = Some t).

Definition tally (f : name_call -> bool) (calls : list name_call) : Z :=
  Z.of_nat (length (filter (fun call => f call = true) calls)).



Section Budget.
Context {Hlru : Lru Z ExeFailure} {Hlaws : LruLaws Z ExeFailure}.









(** The cache after a history of look-ups. *)
Definition after_calls (calls : list name_call) : LruCache Z ExeFailure :=
  fold_left (fun cache call => (get_command_from_pid call.1 call.2 cache).1) calls
    exe_fail_cache_new.


End Budget.

(** The line of [/proc/<pid>/stat]: the pid, the command in parentheses and the
    other fields. *)
Definition stat_line (pid : Z) (comm : string) (fields : list string) : string :=
  sapp (sapp (fmt_int pid) (sapp " (" comm))
    (String ")" (sapp (spaced fields) newline)).

Lemma lacks_spaced c ws :
  Ascii.eqb space c = false -> forallb (lacks c) ws = true -> lacks c (spaced ws) = true.
Proof.
  intros Hc. induction ws as [|w ws IH]; [done|]. cbn [forallb spaced].
  intros [Hw Hws]%andb_true_iff. unfold lacks. cbn [sforall]. rewrite Hc. cbn [negb andb].
  fold (lacks c (sapp w (spaced ws))). by rewrite lacks_sapp, Hw, IH.
Qed.

Lemma start_time_of_stat_line pid comm fields :
  forallb word fields = true -> forallb (lacks ")") fields = true ->
  start_time_of (stat_line pid comm fields) = fields !! 19%nat ≫= parse_u64.
Proof.
  intros Hw Hl. unfold start_time_of, stat_line.
  set (front := sapp (fmt_int pid) (sapp " (" comm)).
  rewrite rfind_sapp by (by rewrite lacks_sapp, lacks_spaced).
  replace (sapp front (String ")" (sapp (spaced fields) newline)))
    with (sapp (sapp front ")") (sapp (spaced fields) newline)) by (by rewrite <- sapp_assoc).
  replace (slen front + 1)%nat with (slen (sapp front ")")) by (by rewrite slen_sapp).
  rewrite sdrop_sapp, split_whitespace_spaced by auto. by destruct (fields !! 19%nat).
Qed.

Lemma split_nul_zero a bs :
  Forall (fun b => 0 < b < 128) a -> split_nul (a ++ 0 :: bs) = a :: split_nul bs.
Proof.
  induction 1 as [|b a Hb _ IH]; [done|]. cbn [app split_nul].
  replace (b =? 0) with false by (symmetry; apply Z.eqb_neq; lia). by rewrite IH.
Qed.

(** The first two arguments of a command line. *)
Lemma args_of_two a b bs :
  word a = true -> word b = true ->
  args_of (bytes_of a ++ 0 :: bytes_of b ++ 0 :: bs) = [bytes_of a; bytes_of b].
Proof.
  unfold word. intros [Ha Na]%andb_true_iff [Hb Nb]%andb_true_iff. unfold args_of.
  rewrite !split_nul_zero by (by apply graphic_bytes).
  by destruct a, b.
Qed.

Section Scan.
Context {Hlru : Lru Z ExeFailure}.

Lemma scan_entries_pids look n entries cache sent :
  (length sent <= n)%nat ->
  map process_pid (scan_entries look (fun k => k <? n)%nat entries cache sent).2 =
  map process_pid sent ++ take (n - length sent) (omap pid_of_entry entries).
Proof.
  revert cache sent. induction entries as [|entry entries IH]; intros cache sent Hn; simpl.
  - by rewrite take_nil, app_nil_r.
  - destruct (pid_of_entry entry) as [pid|]; [|by apply IH].
    destruct (get_command_from_pid _ pid cache) as [c name].
    destruct (Nat.ltb_spec (length sent) n).
    + rewrite IH by (rewrite length_app; simpl; lia).
      rewrite map_app, length_app, <- app_assoc. simpl.
      by replace (n - length sent)%nat with (S (n - (length sent + 1)))%nat by lia.
    + replace (n - length sent)%nat with 0%nat by lia. simpl. by rewrite app_nil_r.
Qed.

Lemma scan_entries_authoritative look alive entries cache sent :
  Forall (fun p => name_is_authoritative p = true /\ delta_us p = None) sent ->
  Forall (fun p => name_is_authoritative p = true /\ delta_us p = None)
    (scan_entries look alive entries cache sent).2.
Proof.
  revert cache sent. induction entries as [|entry entries IH]; intros cache sent Hs; simpl; [done|].
  destruct (pid_of_entry entry) as [pid|]; [|by apply IH].
  destruct (get_command_from_pid _ pid cache) as [c name].
  destruct (alive (length sent)); [|done]. apply IH, list.Forall_app. split; [done|].
  by repeat constructor.
Qed.
End Scan.

Lemma omap_length_le {A B} (f : A -> option B) l : (length (omap f l) <= length l)%nat.
Proof.
  induction l as [|x l IH]; [done|].
  change (omap f (x :: l)) with
    (match f x with Some y => y :: omap f l | None => omap f l end).
  destruct (f x); simpl in *; lia.
Qed.

Lemma pid_of_entry_fmt z : 0 <= z < 2 ^ 31 -> pid_of_entry (fmt_uint z) = Some z.
Proof.
  intros Hz. unfold pid_of_entry. rewrite fmt_uint_digits by lia.
  by apply (parse_int_fmt_uint 32); [lia|unfold in_u; lia].
Qed.
Lemma pid_of_entry_range entry z : pid_of_entry entry = Some z -> 0 <= z < 2 ^ 31.
Proof.
  unfold pid_of_entry. destruct (sforall is_digit entry) eqn:E; [|done].
  intros H. by apply (parse_int_digits 32) in H.
Qed.

(** ** Properties *)
Module ProcfsProps.


(** Five refusals of one process, and it is no longer asked for its [exe]; once
    another process holds the pid it is. *)
Definition guarded_fs (started : string) : procfs :=
  MkProcfs (fun _ => Some []) (fun _ => inr (Errno EACCES)) (fun _ => Some "kworker")
    (fun _ => Some (stat_line 7 "a) b" (replicate 19 "0" ++ [started])))
    (fun _ => None) (fun _ => inl []) None.

(** The start time is read once to find the count and again to store the next one. A pid
    recycled in between passes its count on: here the process started at 33 is refused
    four times, the one started at 34 takes the pid during the fifth look-up, and its
    [exe] is skipped from then on though it was refused at most once. *)
Definition overtaken : lookup_fs :=
  MkLookup (guarded_fs "33") (guarded_fs "34") (guarded_fs "34").
Theorem recycled_pid_inherits :
  let calls := replicate 4 (frozen (guarded_fs "33"), 7) ++ [(overtaken, 7)] in
  (exe_failures_for (Hlru := list_lru_ops) (guarded_fs "34") 7 (after_calls calls)).2 = 5 /\
  tally (refused_to 7 34) calls = 0 /\ tally (refused_to 7 33) calls = 4.
Proof. vm_compute. split_and!; reflexivity. Qed.

(** The start time is read from the line the kernel prints whatever the command is
    called, closing parentheses and spaces included, and comes back unchanged. *)
Theorem start_time_roundtrip (fs : procfs) (pid t : Z) (comm : string) (before after : list string) :
  length before = 19%nat ->
  forallb word (before ++ after) = true -> forallb (lacks ")") (before ++ after) = true ->
  in_u 64 t ->
  pf_stat fs pid = Some (stat_line pid comm (before ++ fmt_uint t :: after)) ->
  get_start_time fs pid = Some t.
Proof.
  intros Hlen Hw Hl Ht Hs. unfold get_start_time. rewrite Hs. cbn [mbind option_bind].
  rewrite forallb_app in Hw, Hl.
  apply andb_true_iff in Hw as [Hw1 Hw2], Hl as [Hl1 Hl2]. rewrite start_time_of_stat_line.
  - rewrite <- Hlen, list_lookup_middle by done. cbn [mbind option_bind].
    by apply parse_fmt_uint.
  - rewrite forallb_app. cbn [forallb]. rewrite Hw1, Hw2, andb_true_r. unfold word.
    rewrite fmt_uint_nonempty, andb_true_r. cbn [andb].
    apply (sforall_weaken is_digit); [apply is_digit_graphic|apply fmt_uint_digits].
    unfold in_u in Ht. lia.
  - rewrite forallb_app. cbn [forallb]. rewrite Hl1, Hl2, andb_true_r.
    apply fmt_uint_lacks; [done|]. unfold in_u in Ht. lia.
Qed.
Lemma start_time_roundtrip_witness :
  get_start_time (guarded_fs "8812") 7 = Some 8812.
Proof.
  apply (start_time_roundtrip (guarded_fs "8812") 7 8812 "a) b" (replicate 19 "0") []);
    vm_compute; by repeat split.
Defined.

(** A [#!] script, run by the kernel as [interpreter script ...] with the first
    fifteen bytes of its name in [comm], is known by its own name and not by the
    interpreter's, however long it is; and the cache of failures is not touched. *)
Theorem script_known_by_its_name (Hlru : Lru Z ExeFailure) (l : lookup_fs) (pid : Z)
    (idir interp sdir script : string) (rest : list Z) (cache : LruCache Z ExeFailure) :
  let argv0 := sapp idir (String slash interp) in
  let argv1 := sapp sdir (String slash script) in
  word argv0 = true -> word argv1 = true ->
  ends_with ".exe" argv0 = false -> ends_with ".exe" argv1 = false ->
  lacks slash interp = true -> lacks slash script = true ->
  script <> EmptyString -> stake 15 script <> interp ->
  pf_cmdline (at_start l) pid = Some (bytes_of argv0 ++ 0 :: bytes_of argv1 ++ 0 :: rest) ->
  pf_comm (at_start l) pid = Some (sapp (stake 15 script) newline) ->
  get_command_from_pid l pid cache = (cache, script).
Proof.
  cbn zeta. intros Hw0 Hw1 He0 He1 Hi Hs Hne Hdiff Hc Hcomm.
  unfold get_command_from_pid. rewrite Hc, args_of_two by done. cbn [head fmap option_fmap option_map].
  rewrite Hcomm. apply andb_true_iff in Hw0 as [Hw0 _], Hw1 as [Hw1 _].
  rewrite !from_utf8_lossy_graphic by done. unfold resolve_argv_name.
  rewrite !arg_basename_path by done.
  assert (Hg : sforall graphic script = true).
  { rewrite sforall_sapp in Hw1. apply andb_true_iff in Hw1 as [_ Hw1]. done. }
  rewrite trim_newline by (apply (sforall_trimmed graphic); [done|by apply sforall_stake]).
  destruct (stake_prefix 15 script) as [r Hr].
  replace (starts_with (stake 15 script) script) with true
    by (symmetry; rewrite Hr at 2; apply starts_with_sapp).
  replace (String.eqb (stake 15 script) EmptyString) with false by (by destruct script).
  by replace (String.eqb (stake 15 script) interp) with false
    by (symmetry; by apply String.eqb_neq).
Qed.

Definition portal_fs : procfs :=
  MkProcfs (fun _ => Some (bytes_of "/usr/bin/bash" ++ 0 :: bytes_of "/sw/bin/xdg-desktop-portal" ++ [0]))
    (fun _ => inr NoErrno) (fun _ => Some (sapp "xdg-desktop-por" newline))
    (fun _ => None) (fun _ => None) (fun _ => inl []) None.
Lemma script_known_by_its_name_witness :
  get_command_from_pid (Hlru := list_lru_ops) (frozen portal_fs) 7 exe_fail_cache_new =
  (exe_fail_cache_new, "xdg-desktop-portal").
Proof.
  by apply (script_known_by_its_name list_lru_ops (frozen portal_fs) 7 "/usr/bin" "bash" "/sw/bin"
    "xdg-desktop-portal" []).
Defined.

(** A full scan reports, in directory order, exactly the entries of [/proc] that are
    pids, each once with the name taken from [/proc] and marked authoritative, until
    the receiver is gone; every running process the directory lists is among them. *)
Theorem full_scan_reports_processes (Hlru : Lru Z ExeFailure) (fs : procfs)
    (look : nat -> lookup_fs) (entries : list string)
    (n : nat) (cache : LruCache Z ExeFailure) :
  pf_entries fs = Some entries ->
  let sent := (full_scan fs look (fun k => k <? n)%nat cache).2 in
  map process_pid sent = take n (omap pid_of_entry entries) /\
  Forall (fun p => 0 <= process_pid p < 2 ^ 31 /\ name_is_authoritative p = true /\
                   delta_us p = None) sent /\
  (forall z, 0 <= z < 2 ^ 31 -> fmt_uint z ∈ entries -> (length entries <= n)%nat ->
             z ∈ map process_pid sent).
Proof.
  intros He. cbn zeta. unfold full_scan. rewrite He.
  pose proof (scan_entries_pids look n entries cache [] (Nat.le_0_l n)) as Hp.
  pose proof (scan_entries_authoritative look (fun k => k <? n)%nat entries cache []
    (list.Forall_nil_2 _)) as Ha.
  simpl in Hp. rewrite Nat.sub_0_r in Hp. set (sent := (scan_entries _ _ _ _ _).2) in *.
  split_and!; [done| |].
  - apply list.Forall_forall. intros p Hin. rewrite list.Forall_forall in Ha.
    split; [|by apply Ha].
    assert (H : process_pid p ∈ map process_pid sent) by (apply list_elem_of_fmap; eauto).
    rewrite Hp in H. apply subseteq_take, list_elem_of_omap in H as (entry & _ & H).
    by eapply pid_of_entry_range.
  - intros z Hz Hin Hn. rewrite Hp, take_ge.
    + apply list_elem_of_omap. exists (fmt_uint z). split; [done|by apply pid_of_entry_fmt].
    + etransitivity; [apply omap_length_le|exact Hn].
Qed.
Definition small_proc : procfs :=
  MkProcfs (fun _ => Some (bytes_of "/usr/bin/foot" ++ [0])) (fun _ => inr NoErrno)
    (fun _ => None) (fun _ => None) (fun _ => None) (fun _ => inl [])
    (Some ["self"; "1"; "cpuinfo"; "4294967296"; "77"]).
Lemma full_scan_reports_processes_witness :
  map process_pid (full_scan (Hlru := list_lru_ops) small_proc (fun _ => frozen small_proc) (fun k => k <? 9)%nat
    exe_fail_cache_new).2 = [1; 77].
Proof.
  exact (proj1 (full_scan_reports_processes list_lru_ops small_proc (fun _ => frozen small_proc)
    ["self"; "1"; "cpuinfo"; "4294967296"; "77"] 9 exe_fail_cache_new eq_refl)).
Defined.
End ProcfsProps.
