(* ===== verification/Files.v ===== *)
(** * Files, time and the order they are used in

    What the cgroup, topology and runtime code asks of the standard library: the
    file system, [/proc], the clock and the CPU count, as the class [Files] over
    the state [W] of the system.  Code that does so is written in the state monad
    [io], so that it reads in the order of the source.

    The instance [traced_files] records every request with its answer; the
    answers come from an environment that may look at everything asked before,
    so a theorem about the trace holds whatever the system answers.  [triple] is
    the Hoare logic the theorems are proved in. *)

From stdpp Require Import base list gmap strings numbers.
From Stdlib Require Import ZArith Lia Ascii.
From S2P Require Import Prelude RustStr Paths Process LruCache Worker Kernel Procfs.

#[local] Open Scope Z_scope.

(** ** The monad *)

Definition io (W A : Type) : Type := W -> W * A.

#[global] Instance io_ret {W} : MRet (io W) := fun A a w => (w, a).
#[global] Instance io_bind {W} : MBind (io W) :=
  fun A B k c w => let '(w, a) := c w in k a w.

(** ** The requests *)

Inductive open_mode := OpenWrite | OpenAppend.

Class Files (W : Type) := {
  f_exists : path -> io W bool;                                  (* Path::exists *)
  f_read : path -> io W (string + sys_error);                    (* fs::read_to_string *)
  f_read_dir : path -> io W (option (list string));              (* names of the readable entries *)
  f_open : open_mode -> path -> io W (option sys_error);         (* OpenOptions::open *)
  f_write : path -> string -> io W (option sys_error);           (* write_all *)
  f_create_dir : path -> io W (option sys_error);
  f_create_dir_all : path -> io W (option sys_error);
  f_remove_dir : path -> io W (option sys_error);
  f_procfs : io W procfs;                                        (* /proc, at this moment *)
  f_now : io W Z;                                                (* Instant::now, in ms *)
  f_sleep : Z -> io W unit;
  f_parallelism : io W (option Z);                               (* available_parallelism *)
}.

(** ** Traces *)

Inductive event :=
| EExists (p : path) (r : bool)
| ERead (p : path) (r : string + sys_error)
| EReadDir (p : path) (r : option (list string))
| EOpen (m : open_mode) (p : path) (r : option sys_error)
| EWrite (p : path) (text : string) (r : option sys_error)
| ECreateDir (p : path) (r : option sys_error)
| ECreateDirAll (p : path) (r : option sys_error)
| ERemoveDir (p : path) (r : option sys_error)
| EProcfs (fs : procfs)
| ENow (t : Z)
| ESleep (ms : Z)
| EParallelism (n : option Z)
| ESys (c : syscall) (r : option sys_error).

Record world_env := MkWorldEnv {
  we_exists : list event -> path -> bool;
  we_read : list event -> path -> string + sys_error;
  we_read_dir : list event -> path -> option (list string);
  we_open : list event -> open_mode -> path -> option sys_error;
  we_write : list event -> path -> string -> option sys_error;
  we_create_dir : list event -> path -> option sys_error;
  we_create_dir_all : list event -> path -> option sys_error;
  we_remove_dir : list event -> path -> option sys_error;
  we_procfs : list event -> procfs;
  we_now : list event -> Z;
  we_parallelism : list event -> option Z;
  we_sys : list event -> syscall -> option sys_error;
  we_attr : list event -> Z -> option sched_attr;
  we_file : list event -> string -> option string;
}.

Definition record {A} (f : A -> event) (answer : list event -> A) : io (list event) A :=
  fun w => let a := answer w in (w ++ [f a], a).

Definition traced_files (env : world_env) : Files (list event) := {|
  f_exists p := record (EExists p) (fun w => we_exists env w p);
  f_read p := record (ERead p) (fun w => we_read env w p);
  f_read_dir p := record (EReadDir p) (fun w => we_read_dir env w p);
  f_open m p := record (EOpen m p) (fun w => we_open env w m p);
  f_write p t := record (EWrite p t) (fun w => we_write env w p t);
  f_create_dir p := record (ECreateDir p) (fun w => we_create_dir env w p);
  f_create_dir_all p := record (ECreateDirAll p) (fun w => we_create_dir_all env w p);
  f_remove_dir p := record (ERemoveDir p) (fun w => we_remove_dir env w p);
  f_procfs := record EProcfs (we_procfs env);
  f_now := record ENow (we_now env);
  f_sleep ms := record (fun _ => ESleep ms) (fun _ => tt);
  f_parallelism := record EParallelism (we_parallelism env);
|}.

(** The system calls of [Kernel] on the same trace; its reads are answered but
    not recorded. *)
Definition traced_kernel (env : world_env) : Kernel (list event) :=
  let call c := record (ESys c) (fun w => we_sys env w c) in {|
  k_setpriority tid n := call (SysSetPriority tid n);
  k_sched_setattr tid a := call (SysSetAttr tid a);
  k_sched_getattr tid w := we_attr env w tid;
  k_sched_setscheduler tid p q := call (SysSetScheduler tid p q);
  k_sched_setaffinity tid m := call (SysSetAffinity tid m);
  k_ioprio_set a b c := call (SysIoprioSet a b c);
  k_write p t := call (SysWrite p t);
  k_read p w := we_file env w p;
|}.

(** The path a request changes, if it changes one. *)
Definition changes (e : event) : option path :=
  match e with
  | EWrite p _ _ | ECreateDir p _ | ECreateDirAll p _ | ERemoveDir p _ => Some p
  | ESys (SysWrite p _) _ => Some p
  | _ => None
  end.

(** A request to the file system or the clock, not a system call. *)
Definition file_event (e : event) : Prop := match e with ESys _ _ => False | _ => True end.

(** ** Triples *)

Definition triple {W A} (P : W -> Prop) (c : io W A) (Q : A -> W -> Prop) : Prop :=
  forall w, P w -> Q (snd (c w)) (fst (c w)).

Section Triples.
Context {W : Type}.

Lemma triple_ret {A} (P : W -> Prop) (a : A) (Q : A -> W -> Prop) :
  (forall w, P w -> Q a w) -> triple P (mret a) Q.
Proof. intros H w Hw. by apply H. Qed.

Lemma triple_bind {A B} (P : W -> Prop) (c : io W A) (k : A -> io W B) R Q :
  triple P c R -> (forall a, triple (R a) (k a) Q) -> triple P (c ≫= k) Q.
Proof.
  intros Hc Hk w Hw. specialize (Hc w Hw). unfold mbind, io_bind.
  destruct (c w) as [w1 a]. cbn [fst snd] in Hc. apply (Hk a w1 Hc).
Qed.

Lemma triple_weaken {A} (P P' : W -> Prop) (c : io W A) (Q Q' : A -> W -> Prop) :
  triple P' c Q' -> (forall w, P w -> P' w) -> (forall a w, Q' a w -> Q a w) -> triple P c Q.
Proof. intros H HP HQ w Hw. by apply HQ, H, HP. Qed.

Lemma triple_assoc {A B C} (P : W -> Prop) (c : io W A) (k : A -> io W B) (h : B -> io W C) Q :
  triple P (c ≫= (fun a => k a ≫= h)) Q -> triple P ((c ≫= k) ≫= h) Q.
Proof.
  intros H w Hw. specialize (H w Hw). unfold mbind, io_bind in *. by destruct (c w) as [w1 a].
Qed.

Lemma triple_ret_bind {A B} (P : W -> Prop) (a : A) (k : A -> io W B) Q :
  triple P (k a) Q -> triple P (mret a ≫= k) Q.
Proof. done. Qed.

(** An invariant, and what the result is. *)
Definition safe {A} (I : W -> Prop) (c : io W A) (Q : A -> Prop) : Prop :=
  triple I c (fun a w => I w /\ Q a).

Lemma safe_ret {A} I (a : A) (Q : A -> Prop) : Q a -> safe I (mret a) Q.
Proof. intros H. apply triple_ret. auto. Qed.

Lemma safe_bind {A B} I (c : io W A) (k : A -> io W B) R (Q : B -> Prop) :
  safe I c R -> (forall a, R a -> safe I (k a) Q) -> safe I (c ≫= k) Q.
Proof.
  intros Hc Hk. eapply triple_bind; [exact Hc|]. intros a w [Hw Ha]. by apply (Hk a Ha).
Qed.

Lemma safe_weaken {A} I (c : io W A) (R Q : A -> Prop) :
  safe I c R -> (forall a, R a -> Q a) -> safe I c Q.
Proof. intros H HR. eapply triple_weaken; [exact H|done|]. naive_solver. Qed.

Lemma safe_fst {A} I (c : io W A) Q w : safe I c Q -> I w -> I (fst (c w)).
Proof. intros H Hw. apply (H w Hw). Qed.
End Triples.

(** What a computation answers, whatever the system does. *)
Definition gives {W A} (c : io W A) (Q : A -> Prop) : Prop := forall w, Q (snd (c w)).

Lemma gives_ret {W A} (a : A) (Q : A -> Prop) : Q a -> gives (W := W) (mret a) Q.
Proof. by intros H w. Qed.
Lemma gives_bind {W A B} (c : io W A) (k : A -> io W B) R (Q : B -> Prop) :
  gives c R -> (forall a, R a -> gives (k a) Q) -> gives (c ≫= k) Q.
Proof.
  intros Hc Hk w. specialize (Hc w). unfold mbind, io_bind. destruct (c w) as [w1 a].
  by apply Hk.
Qed.
Lemma gives_any {W A} (c : io W A) : gives c (fun _ => True).
Proof. done. Qed.

(** ** Triples of the traced requests *)

Section Traced.
Context (env : world_env).

Lemma triple_record {A} (f : A -> event) answer (P : list event -> Prop) (Q : A -> list event -> Prop) :
  (forall w a, P w -> Q a (w ++ [f a])) -> triple P (record f answer) Q.
Proof. intros H w Hw. cbn. by apply H. Qed.

(** All events are good. *)
Lemma safe_record {A} (f : A -> event) answer (G : event -> Prop) :
  (forall a, G (f a)) -> safe (Forall G) (record f answer) (fun _ => True).
Proof.
  intros H. apply triple_record. intros w a Hw. split; [|done].
  apply Forall_app; split; [done|]. by repeat constructor.
Qed.
End Traced.

(** ** Invariants of programs

    [logs I G]: a request whose possible events are all good keeps [I].  Code over
    [Files] is proved safe against this interface; a system that records its
    requests provides it. *)
Class Logs {W} {Hf : Files W} (I : W -> Prop) (G : event -> Prop) : Prop := {
  log_exists : forall p, (forall r, G (EExists p r)) -> safe I (f_exists p) (fun _ => True);
  log_read : forall p, (forall r, G (ERead p r)) -> safe I (f_read p) (fun _ => True);
  log_read_dir : forall p, (forall r, G (EReadDir p r)) -> safe I (f_read_dir p) (fun _ => True);
  log_open : forall m p, (forall r, G (EOpen m p r)) -> safe I (f_open m p) (fun _ => True);
  log_write : forall p t, (forall r, G (EWrite p t r)) -> safe I (f_write p t) (fun _ => True);
  log_create_dir : forall p, (forall r, G (ECreateDir p r)) -> safe I (f_create_dir p) (fun _ => True);
  log_create_dir_all : forall p, (forall r, G (ECreateDirAll p r)) ->
    safe I (f_create_dir_all p) (fun _ => True);
  log_remove_dir : forall p, (forall r, G (ERemoveDir p r)) -> safe I (f_remove_dir p) (fun _ => True);
  log_procfs : (forall r, G (EProcfs r)) -> safe I f_procfs (fun _ => True);
  log_now : (forall r, G (ENow r)) -> safe I f_now (fun _ => True);
  log_sleep : forall ms, G (ESleep ms) -> safe I (f_sleep ms) (fun _ => True);
  log_parallelism : (forall r, G (EParallelism r)) -> safe I f_parallelism (fun _ => True);
}.

#[global] Instance traced_logs env G : Logs (Hf := traced_files env) (Forall G) G.
Proof. split; intros; by apply safe_record. Qed.

(** [safe_step] goes through a program: the requests, the tests and the results
    of its branches remain. *)
Ltac safe_step :=
  lazymatch goal with
  | |- safe _ (mret _) _ => apply safe_ret
  | |- safe _ (mbind _ _) _ => apply (safe_bind _ _ _ (fun _ => True)); [|intros ? _]
  | |- safe _ (f_exists _) _ => apply log_exists; intros
  | |- safe _ (f_read _) _ => apply log_read; intros
  | |- safe _ (f_read_dir _) _ => apply log_read_dir; intros
  | |- safe _ (f_open _ _) _ => apply log_open; intros
  | |- safe _ (f_write _ _) _ => apply log_write; intros
  | |- safe _ (f_create_dir _) _ => apply log_create_dir; intros
  | |- safe _ (f_create_dir_all _) _ => apply log_create_dir_all; intros
  | |- safe _ (f_remove_dir _) _ => apply log_remove_dir; intros
  | |- safe _ f_procfs _ => apply log_procfs; intros
  | |- safe _ f_now _ => apply log_now; intros
  | |- safe _ (f_sleep _) _ => apply log_sleep; intros
  | |- safe _ f_parallelism _ => apply log_parallelism; intros
  | |- safe _ (match ?x with _ => _ end) _ => let E := fresh "E" in destruct x eqn:E
  end.
Ltac safe_go := repeat safe_step.

(** *** Following a run

    The trace so far is known; a request extends it by one event with an unknown
    answer. *)

Definition at_trace (w tr w' : list event) : Prop := w' = w ++ tr.

Lemma trace_record {A} (f : A -> event) answer w tr :
  triple (at_trace w tr) (record f answer) (fun a => at_trace w (tr ++ [f a])).
Proof. apply triple_record. intros w' a ->. unfold at_trace. by rewrite app_assoc. Qed.

(** What holds of every trace and result of a run holds of the run. *)
Lemma trace_run {A} (c : io (list event) A) w (Q : list event -> A -> Prop) :
  triple (at_trace w []) c (fun a w' => exists tr, w' = w ++ tr /\ Q tr a) ->
  exists tr, fst (c w) = w ++ tr /\ Q tr (snd (c w)).
Proof. intros H. apply H. unfold at_trace. by rewrite app_nil_r. Qed.

Lemma trace_ret {A} w tr (a : A) (Q : list event -> A -> Prop) :
  Q tr a -> triple (at_trace w tr) (mret a) (fun a w' => exists tr, w' = w ++ tr /\ Q tr a).
Proof. intros H. apply triple_ret. intros w' ->. eauto. Qed.

Ltac trace_step :=
  lazymatch goal with
  | |- triple _ (mret _) _ => apply trace_ret
  | |- triple _ (mbind _ (mbind _ _)) _ => apply triple_assoc
  | |- triple _ (mbind _ (mret _)) _ => apply triple_ret_bind
  | |- triple _ (mbind _ (match ?x with _ => _ end)) _ => let E := fresh "E" in destruct x eqn:E
  | |- triple (at_trace _ _) (mbind _ (record _ _)) _ =>
      eapply triple_bind; [apply trace_record|intros ?]; cbn [app]
  | |- triple _ (match ?x with _ => _ end) _ => let E := fresh "E" in destruct x eqn:E
  end.
Ltac trace_go := repeat trace_step.
