(* ===== verification/CgroupManager.v ===== *)
(** * The cgroup manager

    [crates/ananicy-platform/src/cgroup]: which cgroups the daemon owns
    ([ownership.rs]) and what it may do to them ([manager.rs]).  On cgroup v2 a
    directory is created and a process moved only at or below the delegated root
    the daemon found itself in; cgroup v1 has no such notion.

    Log lines are left out, except that [report_weightless] answers whether it
    wrote one. *)

From stdpp Require Import base list gmap strings numbers.
From Stdlib Require Import ZArith Lia Ascii SpecFloat.
From S2P Require Import Prelude RustStr Paths Process LruCache Worker Kernel Procfs Files.

#[local] Open Scope Z_scope.

Inductive CgroupVersion := NoCgroup | V1 | V2.

#[global] Instance CgroupVersion_eq_dec : EqDecision CgroupVersion.
Proof. solve_decision. Defined.

Definition is_v2 (v : CgroupVersion) : bool := bool_decide (v = V2).

Record CgroupInfo := MkCgroupInfo { version : CgroupVersion; mount_point : path }.

(** ** Ownership *)

Inductive CgroupOwnership := Legacy | Owned | Foreign.

#[global] Instance CgroupOwnership_eq_dec : EqDecision CgroupOwnership.
Proof. solve_decision. Defined.

Definition classify (target_path : path) (delegated_root : option path) (v2 : bool)
    : CgroupOwnership :=
  if negb v2 then Legacy
  else match delegated_root with
       | Some root => if path_starts_with root target_path then Owned else Foreign
       | None => Foreign
       end.

(** [trim_start_matches] of a string. *)
Definition trim_start_matches (p s : string) : string := strip_while (slen s) [p] s.

Section Ownership.
Context {W : Type} {Hf : Files W}.

Definition has_tasks (cgroup : path) : io W bool :=
  r ← f_read (push cgroup "cgroup.procs");
  mret (match r with
        | inl list => negb (String.eqb (trim list) EmptyString)
        | inr _ => true
        end).

Definition usable_root (root : path) : io W path :=
  match parent root with
  | None => mret root
  | Some parent =>
      tasks ← has_tasks root;
      if negb tasks then mret root else
      procs ← f_exists (push parent "cgroup.procs");
      if negb procs then mret root else
      above ← has_tasks parent;
      mret (if negb above then parent else root)
  end.

Definition is_writable (p : path) : io W bool :=
  r ← f_open OpenAppend p;
  mret (match r with None => true | Some _ => false end).

(** The loop over the lines of [/proc/self/cgroup]. *)
Fixpoint delegated_in (mount_point : path) (content : list string) : io W (option path) :=
  match content with
  | [] => mret None
  | line :: content =>
      if starts_with "0::" line then
        let p := trim_start_matches "/" (trim_start_matches "0::" line) in
        if ends_with ".scope" p then mret None else
        let full_path := push mount_point p in
        writable ← is_writable (push full_path "cgroup.procs");
        if writable : bool then root ← usable_root full_path; mret (Some root)
        else delegated_in mount_point content
      else delegated_in mount_point content
  end.

Definition discover_delegated_root (mount_point : path) : io W (option path) :=
  r ← f_read "/proc/self/cgroup";
  match r with
  | inl content => delegated_in mount_point (lines content)
  | inr _ => mret None
  end.

End Ownership.

(** ** Arithmetic *)

Definition u64_max : Z := 2 ^ 64 - 1.
Definition sat_mul (a b : Z) : Z := Z.min (a * b) u64_max.

Definition V2_PERIOD_US : Z := 100000.
Definition V1_PERIOD_US : Z := 1000000.

Definition bandwidth_us (cores quota period : Z) : Z :=
  sat_mul (sat_mul period cores) (Z.min quota 100) / 100.

(** [f32] and its saturating cast to [u32]. *)
Definition f32_prec : Z := 24.
Definition f32_emax : Z := 128.
Definition f32_of (z : Z) : spec_float := binary_normalize f32_prec f32_emax z 0 false.
Definition f32_div : spec_float -> spec_float -> spec_float := SFdiv f32_prec f32_emax.
Definition f32_mul : spec_float -> spec_float -> spec_float := SFmul f32_prec f32_emax.
Definition f32_to_u32 (f : spec_float) : Z :=
  match f with
  | S754_zero _ | S754_nan => 0
  | S754_infinity s => if s then 0 else 2 ^ 32 - 1
  | S754_finite s m e => if s then 0 else Z.min (Z.shiftl (Zpos m) e) (2 ^ 32 - 1)
  end.

(** [(weight as f32 / 100.0 * 1024.0) as u32], clamped. *)
Definition raw_shares (weight : Z) : Z :=
  f32_to_u32 (f32_mul (f32_div (f32_of weight) (f32_of 100)) (f32_of 1024)).
Definition shares_of (weight : Z) : Z := clamp (raw_shares weight) 2 262144.

(** ** The manager *)

(** [PathBuf] keys are equal when their components are. *)
Definition path_key := list component.
Definition REPORTED_WEIGHTLESS_CAPACITY : nat := 256.

Section Manager.
Context {W : Type} {Hf : Files W} {Hlru : Lru path_key unit}.

Record CgroupManager := MkManager {
  info : CgroupInfo;
  delegated_root : option path;
  reported_weightless : LruCache path_key unit;
}.

Definition manager_v2 (m : CgroupManager) : bool := is_v2 (version (info m)).

Definition reported_cache : LruCache path_key unit := lru_new REPORTED_WEIGHTLESS_CAPACITY.

Definition manager_new (info : CgroupInfo) : io W CgroupManager :=
  root ← (if is_v2 (version info) then discover_delegated_root (mount_point info)
          else mret None);
  mret (MkManager info root reported_cache).

Definition report_weightless (m : CgroupManager) (target : path) : CgroupManager * bool :=
  let key := components target in
  match lru_peek key (reported_weightless m) with
  | Some _ => (m, false)
  | None =>
      (MkManager (info m) (delegated_root m) (lru_put key tt (reported_weightless m)), true)
  end.

Definition joined (base : path) (segments : list string) : path :=
  fold_left push (filter (fun segment => segment <> EmptyString) segments)
    (push EmptyString base).

Definition resolve_target_dir (m : CgroupManager) (name : string) : option path :=
  match find_str ".." name with
  | Some _ => None
  | None =>
      let is_absolute := starts_with "/" name in
      let relative_name := match strip_prefix "/" name with Some r => r | None => name end in
      match version (info m) with
      | NoCgroup => None
      | V1 => Some (joined (mount_point (info m)) ["cpu"; relative_name])
      | V2 =>
          let base := if is_absolute then mount_point (info m)
                      else match delegated_root m with
                           | Some root => root
                           | None => mount_point (info m)
                           end in
          Some (joined base [relative_name])
      end
  end.

Definition ownership_of (m : CgroupManager) (target : path) : CgroupOwnership :=
  classify target (delegated_root m) (manager_v2 m).

Definition cgroup_exists (m : CgroupManager) (name : string) : io W bool :=
  match resolve_target_dir m name with
  | Some target => f_exists target
  | None => mret false
  end.

(** [open(write)] and then one [write_all]. *)
Definition open_and_write (p : path) (text : string) : io W bool :=
  r ← f_open OpenWrite p;
  match r with
  | Some _ => mret false
  | None =>
      r ← f_write p text;
      mret (match r with None => true | Some _ => false end)
  end.

(** The directory, created if it is not there. *)
Definition create_missing (target_dir : path) : io W (option path) :=
  there ← f_exists target_dir;
  if there : bool then mret (Some target_dir) else
  r ← f_create_dir_all target_dir;
  mret (match r with None => Some target_dir | Some _ => None end).

Definition enable_cpu_above (target_dir : path) : io W unit :=
  match parent target_dir with
  | None => mret tt
  | Some parent =>
      let subtree_control := push parent "cgroup.subtree_control" in
      there ← f_exists subtree_control;
      if there : bool then
        _ ← open_and_write subtree_control (sapp "+cpu" newline);
        mret tt
      else mret tt
  end.

Definition ensure_child (m : CgroupManager) (name : string) : io W (option path) :=
  match resolve_target_dir m name with
  | None => mret None
  | Some target_dir =>
      match ownership_of m target_dir with
      | Legacy => create_missing target_dir
      | Owned =>
          _ ← enable_cpu_above target_dir;
          create_missing target_dir
      | Foreign => mret None
      end
  end.

Definition move_pid (m : CgroupManager) (pid : Z) (target : path) : io W bool :=
  if bool_decide (ownership_of m target = Foreign) then mret false else
  there ← f_exists target;
  if negb there then mret false else
  let procs_path := push target (if manager_v2 m then "cgroup.procs" else "tasks") in
  opened ← f_open OpenWrite procs_path;
  match opened with
  | Some _ => mret false
  | None =>
      pid_to_write ← (if manager_v2 m then fs ← f_procfs; mret (get_tgid fs pid)
                      else mret (Some pid));
      match pid_to_write with
      | None => mret false
      | Some pid_to_write =>
          before ← f_procfs;
          match get_start_time before pid with
          | None => mret false
          | Some start_time_before =>
              written ← f_write procs_path (sapp (fmt_int pid_to_write) newline);
              match written with
              | Some _ => mret false
              | None =>
                  after ← f_procfs;
                  mret (match get_start_time after pid with
                        | Some t => t =? start_time_before
                        | None => false
                        end)
              end
          end
      end
  end.

Definition set_cpu_max (m : CgroupManager) (target : path) (quota : Z) : io W bool :=
  if bool_decide (ownership_of m target = Foreign) then mret false else
  cores ← f_parallelism;
  let logical_cores := match cores with Some n => n | None => 1 end in
  let clamped_quota := clamp quota 0 100 in
  let period := if manager_v2 m then V2_PERIOD_US else V1_PERIOD_US in
  let quota_val := bandwidth_us logical_cores clamped_quota period in
  if manager_v2 m then
    open_and_write (push target "cpu.max")
      (sapp (fmt_uint quota_val) (sapp " " (sapp (fmt_uint period) newline)))
  else
    ok ← open_and_write (push target "cpu.cfs_period_us") (sapp (fmt_uint period) newline);
    if negb ok then mret false
    else open_and_write (push target "cpu.cfs_quota_us") (sapp (fmt_uint quota_val) newline).

(** A file that cannot be opened is reported, one that cannot be written is not. *)
Definition set_cpu_weight (m : CgroupManager) (target : path) (weight : Z)
    : io W (CgroupManager * bool) :=
  let '(file, value) :=
    if manager_v2 m then (push target "cpu.weight", clamp weight 1 10000)
    else (push target "cpu.shares", shares_of weight) in
  opened ← f_open OpenWrite file;
  match opened with
  | Some _ => mret (fst (report_weightless m target), false)
  | None =>
      r ← f_write file (sapp (fmt_uint value) newline);
      mret (m, match r with None => true | Some _ => false end)
  end.

End Manager.

(** ** Where a change may land *)

(** At or below a directory, without climbing out of it. *)
Definition within (root p : path) : Prop :=
  exists rest, components p = components root ++ rest /\ ParentDir ∉ rest.

(** The controllers file of the directory above. *)
Definition controls (root p : path) : Prop :=
  exists above c, components root = above ++ [c] /\
    components p = above ++ [Normal "cgroup.subtree_control"].

Lemma components_push_any p q :
  is_absolute q = false ->
  exists pre, components (push p q) = components p ++ pre ++ body q /\ ParentDir ∉ pre.
Proof.
  intros Hq. destruct (decide (p = EmptyString)) as [->|Hp].
  - exists (if has_cur_dir q then [CurDir] else []). unfold push. rewrite Hq.
    change (components EmptyString) with (@nil component). unfold components.
    cbn [orb String.eqb sapp]. rewrite Hq. split; [done|]. destruct (has_cur_dir q); set_solver.
  - exists []. rewrite components_push by done. split; [done|set_solver].
Qed.

Lemma within_refl root : within root root.
Proof. exists []. split; [by rewrite app_nil_r|set_solver]. Qed.

Lemma within_push root p q :
  within root p -> is_absolute q = false -> ParentDir ∉ body q -> within root (push p q).
Proof.
  intros (rest & Hp & Hr) Hq Hb. destruct (components_push_any p q Hq) as (pre & E & Hpre).
  exists (rest ++ pre ++ body q). rewrite E, Hp. split; [by rewrite <- app_assoc|]. set_solver.
Qed.

(** A file of an owned directory. *)
Lemma within_file root p f :
  within root p -> is_absolute f = false -> find_str ".." f = None -> within root (push p f).
Proof. intros. apply within_push; [done..|]. by apply body_no_parent. Qed.

(** A path without [..] that starts with the root is within it. *)
Lemma within_plain root p :
  ParentDir ∉ components p -> path_starts_with root p = true -> within root p.
Proof.
  intros Hp (rest & E)%path_starts_with_spec. exists rest. split; [done|].
  rewrite E, elem_of_app in Hp. tauto.
Qed.

Lemma join_one base seg : joined base [seg] = if decide (seg = EmptyString) then base else push base seg.
Proof.
  unfold joined. assert (H : push EmptyString base = base).
  { unfold push. by destruct (is_absolute base). }
  rewrite H. destruct (decide (seg = EmptyString)).
  - rewrite filter_cons_False by auto. done.
  - by rewrite filter_cons_True, filter_nil.
Qed.

Section Confined.
Context `{Hlru : Lru path_key unit}.

(** A name resolves to a directory it may use, or the directory is foreign. *)
Lemma resolve_confined m name target root :
  manager_v2 m = true -> ParentDir ∉ components (mount_point (info m)) ->
  delegated_root m = Some root ->
  resolve_target_dir m name = Some target -> ownership_of m target <> Foreign ->
  within root target.
Proof.
  intros Hv2 Hmount Hroot. unfold resolve_target_dir, ownership_of, classify.
  rewrite Hv2, Hroot. destruct (find_str ".." name) eqn:Hdots; [done|]. cbn [negb].
  assert (Hver : version (info m) = V2) by (by apply bool_decide_eq_true in Hv2). rewrite Hver.
  set (rel := match strip_prefix "/" name with Some r => r | None => name end).
  intros Ht Hf. apply (inj Some) in Ht as <-.
  destruct (path_starts_with root _) eqn:Hs; [|done]. clear Hf. revert Hs.
  assert (Hrel : find_str ".." rel = None).
  { unfold rel. destruct (strip_prefix "/" name) as [r|] eqn:E; [|done].
    apply strip_prefix_spec in E as ->. by apply find_str_none_app in Hdots. }
  pose proof (body_no_parent _ Hrel) as Hb. rewrite join_one.
  destruct (decide (rel = EmptyString)) as [He|Hne]; [|destruct (is_absolute rel) eqn:Ha].
  - destruct (starts_with "/" name); intros Hs; [by apply within_plain|apply within_refl].
  - intros Hs. apply within_plain; [|done]. unfold push. rewrite Ha. unfold components. rewrite Ha.
    set_solver.
  - destruct (starts_with "/" name); intros Hs.
    + apply within_plain; [|done]. destruct (components_push_any (mount_point (info m)) rel Ha)
        as (pre & -> & Hpre). set_solver.
    + apply within_push; [apply within_refl|done..].
Qed.

Context {W : Type} {Hf : Files W} (I : W -> Prop) (G : event -> Prop) {HL : Logs I G}.
Context (m : CgroupManager) (root : path).
Context (Hv2 : manager_v2 m = true) (Hroot : delegated_root m = Some root).
Context (HG : forall e p, file_event e -> changes e = Some p ->
    within root p \/ controls root p -> G e)
  (HG0 : forall e, file_event e -> changes e = None -> G e).

Lemma open_and_write_safe p text :
  within root p \/ controls root p -> safe I (open_and_write p text) (fun _ => True).
Proof.
  intros Hp. unfold open_and_write. safe_go; try done; [by apply HG0|by eapply HG].
Qed.

Lemma enable_cpu_safe target :
  within root target -> safe I (enable_cpu_above target) (fun _ => True).
Proof.
  intros (rest & Ht & Hr). unfold enable_cpu_above. destruct (parent target) as [p|] eqn:Hp;
    [|by apply safe_ret].
  apply parent_components in Hp as (c & Hc & E). rewrite Ht in E.
  assert (Hw : within root (push p "cgroup.subtree_control") \/
               controls root (push p "cgroup.subtree_control")).
  { destruct rest as [|r rest _] using rev_ind.
    - rewrite app_nil_r in E. right. destruct (decide (p = EmptyString)) as [->|Hne].
      + by exists [], c.
      + exists (components p), c. by rewrite components_push.
    - left. rewrite app_assoc in E. apply app_inj_tail in E as [E _].
      apply within_file; [|done|done]. exists rest. split; [done|set_solver]. }
  safe_go; try done; [by apply HG0|by apply open_and_write_safe].
Qed.

Lemma create_missing_safe target :
  within root target ->
  safe I (create_missing target) (fun r => forall t, r = Some t -> t = target).
Proof.
  intros Ht. unfold create_missing. safe_go; try (by apply HG0); try (eapply HG; [done|done|by auto]).
  - intros t [= <-]. done.
  - intros t. by destruct a0 as [|]; intros [= <-].
Qed.

Lemma ensure_child_safe name :
  ParentDir ∉ components (mount_point (info m)) ->
  safe I (ensure_child m name)
    (fun r => forall t, r = Some t -> resolve_target_dir m name = Some t /\ ownership_of m t = Owned).
Proof.
  intros Hmount. unfold ensure_child.
  destruct (resolve_target_dir m name) as [target|] eqn:Er; [|by apply safe_ret].
  destruct (ownership_of m target) eqn:Eo; [|..|by apply safe_ret].
  - unfold ownership_of, classify in Eo. rewrite Hv2, Hroot in Eo. cbn in Eo.
    by destruct (path_starts_with _ _).
  - assert (Hw : within root target)
      by (apply (resolve_confined m name); try done; by rewrite Eo).
    eapply safe_bind; [by apply enable_cpu_safe|]. intros _ _.
    eapply safe_weaken; [by apply create_missing_safe|]. intros r Hr t Et.
    by rewrite (Hr t Et).
Qed.

Lemma move_pid_safe pid target :
  (ownership_of m target <> Foreign -> within root target) ->
  safe I (move_pid m pid target) (fun _ => True).
Proof.
  intros Hw. unfold move_pid. rewrite Hv2. case_bool_decide as Ho; [by apply safe_ret|].
  specialize (Hw Ho). safe_go; try done; try (by apply HG0).
  eapply HG; [done|done|]. left. by apply within_file.
Qed.

Lemma set_cpu_max_safe target quota :
  (ownership_of m target <> Foreign -> within root target) ->
  safe I (set_cpu_max m target quota) (fun _ => True).
Proof.
  intros Hw. unfold set_cpu_max. rewrite Hv2. case_bool_decide as Ho; [by apply safe_ret|].
  specialize (Hw Ho). safe_go; [by apply HG0|].
  apply open_and_write_safe. left. by apply within_file.
Qed.
End Confined.

(** ** Properties *)
Module ManagerProps.

#[local] Instance the_files (env : world_env) : Files (list event) := traced_files env.

(** What a run of [move_pid] did: it wrote at most once; and if it reports the move
    as done, the process looked the same right before the write and right after. *)
Definition attributed `{Lru path_key unit} (m : CgroupManager) (pid : Z) (target : path)
    (tr : list event) (moved : bool) : Prop :=
  let procs := push target "cgroup.procs" in
  (length (omap changes tr) <= 1)%nat /\
  (moved = true ->
   exists fs0 fs1 fs2 tgid t,
     tr = [EExists target true; EOpen OpenWrite procs None; EProcfs fs0; EProcfs fs1;
           EWrite procs (sapp (fmt_int tgid) newline) None; EProcfs fs2] /\
     get_tgid fs0 pid = Some tgid /\ get_start_time fs1 pid = Some t /\
     get_start_time fs2 pid = Some t /\ ownership_of m target = Owned).

(** C19. A move that is reported as done wrote the thread group of the process, once,
    to the [cgroup.procs] of a directory that was there and is owned, right after
    reading the start time of the process, and read the same start time again
    afterwards.  Whatever is answered, the process list is written at most once. *)
Theorem move_pid_attributed `{Lru path_key unit} (env : world_env) (m : CgroupManager) (pid : Z)
    (target : path) (w : list event) :
  manager_v2 m = true ->
  exists tr, fst (move_pid (Hf := traced_files env) m pid target w) = w ++ tr /\
    attributed m pid target tr (snd (move_pid (Hf := traced_files env) m pid target w)).
Proof.
  intros Hv2. apply (trace_run _ _ (attributed m pid target)). unfold move_pid. rewrite Hv2.
  unfold attributed. case_bool_decide as Ho; [trace_go; split; [cbn; lia|done]|].
  assert (Hown : ownership_of m target = Owned).
  { unfold ownership_of, classify in *. rewrite Hv2 in *. cbn in *.
    destruct (delegated_root m); [|done]. by destruct (path_starts_with _ _). }
  cbn. trace_go; (split; [cbn; lia|]); try done.
  destruct (get_start_time a4 pid) as [t|] eqn:E4; [|done]. intros ->%Z.eqb_eq.
  apply negb_false_iff in E as ->. by exists a1, a2, a4, z, z0.
Qed.

Definition demo_root : path := "/sys/fs/cgroup/system.slice/ananicy-rs.service".
Definition demo_manager : CgroupManager :=
  MkManager (MkCgroupInfo V2 "/sys/fs/cgroup") (Some demo_root) reported_cache.
Definition demo_procfs : procfs :=
  MkProcfs (fun _ => None) (fun _ => inr (Errno ENOENT)) (fun _ => None)
    (fun _ => Some (stat_line 7 "ls" (replicate 19 "0" ++ ["345"])))
    (fun _ => Some (sapp "Tgid: 7" newline)) (fun _ => inr (Errno ENOENT)) None.

(** A system where everything is there and everything works. *)
Definition demo_env : world_env :=
  MkWorldEnv (fun _ _ => true) (fun _ _ => inr (Errno ENOENT)) (fun _ _ => None) (fun _ _ _ => None)
    (fun _ _ _ => None) (fun _ _ => None) (fun _ _ => None) (fun _ _ => None)
    (fun _ => demo_procfs) (fun w => Z.of_nat (length w)) (fun _ => Some 8) (fun _ _ => None)
    (fun _ _ => None) (fun _ _ => None).

Lemma move_pid_attributed_witness :
  snd (move_pid (Hf := traced_files demo_env) demo_manager 9 (push demo_root "games") []) = true /\
  exists tr, fst (move_pid (Hf := traced_files demo_env) demo_manager 9 (push demo_root "games") []) =
      [] ++ tr /\
    attributed demo_manager 9 (push demo_root "games") tr
      (snd (move_pid (Hf := traced_files demo_env) demo_manager 9 (push demo_root "games") [])).
Proof.
  split; [by vm_compute|].
  apply (move_pid_attributed demo_env demo_manager 9 (push demo_root "games") []). reflexivity.
Defined.

(** C34. The bandwidth of a quota is the exact percentage of the machine: neither product
    reaches the width it is computed in, on any machine with fewer than 2^32
    CPUs, and the result never exceeds the whole machine. *)
Theorem bandwidth_exact (cores quota period : Z) :
  0 < cores < 2 ^ 32 -> 0 <= quota -> period = V1_PERIOD_US \/ period = V2_PERIOD_US ->
  bandwidth_us cores quota period = period * cores * Z.min quota 100 / 100 /\
  0 <= bandwidth_us cores quota period <= period * cores /\
  (100 <= quota -> bandwidth_us cores quota period = period * cores).
Proof.
  intros Hc Hq Hp. unfold bandwidth_us, sat_mul, u64_max.
  assert (Hpr : 100000 <= period <= 1000000)
    by (unfold V1_PERIOD_US, V2_PERIOD_US in Hp; lia). clear Hp.
  assert (H1 : 0 < period * cores < 2 ^ 56) by nia.
  rewrite (Z.min_l (period * cores)) by lia.
  rewrite (Z.min_l (period * cores * _)) by nia.
  split_and!; [done|apply Z.div_pos; nia| |].
  - apply Z.div_le_upper_bound; nia.
  - intros H. rewrite Z.min_r by done. apply Z.div_mul. lia.
Qed.

Lemma bandwidth_exact_witness :
  bandwidth_us 512 50 V2_PERIOD_US = V2_PERIOD_US * 512 * Z.min 50 100 / 100 /\
  0 <= bandwidth_us 512 50 V2_PERIOD_US <= V2_PERIOD_US * 512 /\
  (100 <= 50 -> bandwidth_us 512 50 V2_PERIOD_US = V2_PERIOD_US * 512).
Proof. apply (bandwidth_exact 512 50 V2_PERIOD_US); [lia|lia|by right]. Defined.

(** The shares a weight becomes on cgroup v1, computed in single precision, are the
    exact quotient for every weight the kernel would accept, and within the
    kernel's range for every weight at all. *)
Theorem shares_exact (weight : Z) :
  2 <= shares_of weight <= 262144 /\
  (1 <= weight <= 10000 -> shares_of weight = Z.max 2 (weight * 1024 / 100)).
Proof.
  split; [apply clamp_range; lia|]. intros Hw.
  assert (H : forallb (fun n => let z := Z.of_nat n in
    (shares_of z =? Z.max 2 (z * 1024 / 100))) (seq 1 (Z.to_nat 10000)) = true) by (vm_compute; reflexivity).
  rewrite forallb_forall in H. specialize (H (Z.to_nat weight)).
  rewrite in_seq, Z2Nat.id in H by lia. apply Z.eqb_eq, H. lia.
Qed.

(** On cgroup v1 a name resolves below the [cpu] directory of the hierarchy, and
    never climbs out of it, unless it starts with two slashes: then the mount
    point is dropped and the rest of the name is an absolute path. *)
Theorem v1_name_escapes `{Lru path_key unit} (m : CgroupManager) (name : string) :
  version (info m) = V1 -> find_str ".." name = None ->
  (starts_with "//" name = true -> resolve_target_dir m name = Some (sdrop 1 name)) /\
  (starts_with "//" name = false -> exists target,
     resolve_target_dir m name = Some target /\ within (push (mount_point (info m)) "cpu") target).
Proof.
  intros Hv Hd. unfold resolve_target_dir. rewrite Hd, Hv.
  set (rel := match strip_prefix "/" name with Some r => r | None => name end).
  assert (Hj : joined (mount_point (info m)) ["cpu"; rel] =
    if decide (rel = EmptyString) then push (mount_point (info m)) "cpu"
    else push (push (mount_point (info m)) "cpu") rel).
  { unfold joined. rewrite filter_cons_True by done. cbn [fold_left].
    assert (E : push EmptyString (mount_point (info m)) = mount_point (info m))
      by (unfold push; by destruct (is_absolute _)).
    rewrite E. destruct (decide (rel = EmptyString)).
    - by rewrite filter_cons_False by auto.
    - by rewrite filter_cons_True, filter_nil. }
  rewrite Hj. clear Hj. split; intros Hs.
  - unfold starts_with in Hs. destruct (strip_prefix "//" name) as [r|] eqn:E; [|done].
    apply strip_prefix_spec in E as ->. unfold rel. cbn. by rewrite decide_False.
  - eexists. split; [reflexivity|]. destruct (decide (rel = EmptyString)); [apply within_refl|].
    assert (Hrel : is_absolute rel = false).
    { unfold rel, is_absolute, starts_with in *. destruct name as [|a name]; [done|].
      cbn [strip_prefix] in *. destruct (Ascii.eqb "/" a) eqn:E; [|by rewrite E].
      cbn [strip_prefix]. destruct name as [|b name]; [done|]. by destruct (Ascii.eqb "/" b). }
    apply within_push; [apply within_refl|done|]. apply body_no_parent. unfold rel.
    destruct (strip_prefix "/" name) as [r|] eqn:E; [|done].
    apply strip_prefix_spec in E as ->. by apply find_str_none_app in Hd.
Qed.

Lemma v1_name_escapes_witness :
  let m := MkManager (MkCgroupInfo V1 "/sys/fs/cgroup") None reported_cache in
  (starts_with "//" "//etc/games" = true -> resolve_target_dir m "//etc/games" = Some "/etc/games") /\
  (starts_with "//" "//etc/games" = false -> exists target,
     resolve_target_dir m "//etc/games" = Some target /\
     within (push (mount_point (info m)) "cpu") target).
Proof.
  intros m. apply (v1_name_escapes m "//etc/games"); reflexivity.
Defined.
End ManagerProps.
