(* ===== verification/LinuxState.v ===== *)
(** * The state of the daemon on Linux

    The process-wide statics of the platform crate ([CGROUP_INFO] of [mounts.rs],
    [MANAGER] of [cgroups.rs], the budget of failed [exe] reads of [procfs.rs])
    and the cache of the one [LinuxPlatform], next to the state [X] of the system
    they are about.  Every request to the system is a request of the whole. *)

From stdpp Require Import base list gmap strings numbers.
From Stdlib Require Import ZArith Lia Ascii.
From S2P Require Import Prelude RustStr Paths Process LruCache Worker Kernel Procfs Files.
From S2P Require Import CgroupManager.

#[local] Open Scope Z_scope.

(** [ananicy_core::cgroup]: a path as the kernel spelled it. *)
Definition CgroupPath := path.
Record CgroupIdentity := MkIdentity { identity_path : CgroupPath }.

(** The start time of the process, its cgroup, and when that was read. *)
Record CacheEntry := MkCacheEntry {
  ce_start_time : Z;
  ce_identity : option CgroupIdentity;
  ce_timestamp : Z;
}.

Class Caches := {
  lru_weightless :: Lru path_key unit;
  lru_exe :: Lru Z ExeFailure;
  lru_cgroup :: Lru Z CacheEntry;
}.
Class CachesLaws {Hc : Caches} := {
  laws_weightless :: LruLaws path_key unit;
  laws_exe :: LruLaws Z ExeFailure;
  laws_cgroup :: LruLaws Z CacheEntry;
}.

#[global] Instance list_caches : Caches := Build_Caches _ _ _.
#[global] Instance list_caches_laws : CachesLaws (Hc := list_caches).
Proof. split; apply list_lru_laws. Qed.

Record statics {Hc : Caches} := MkStatics {
  cgroup_info : option CgroupInfo;
  cgroup_manager : option CgroupManager;
  exe_fail_cache : LruCache Z ExeFailure;
  resolver_cache : LruCache Z CacheEntry;
}.
Arguments MkStatics {Hc}.

Record linux {Hc : Caches} (X : Type) := MkLinux { globals : statics; sys : X }.
Arguments MkLinux {Hc X}.
Arguments globals {Hc X}.
Arguments sys {Hc X}.

Section State.
Context {Hc : Caches} {X : Type}.

Definition on_sys {A} (c : io X A) : io (linux X) A :=
  fun l => let '(s, a) := c (sys l) in (MkLinux (globals l) s, a).

(** Reading and replacing the statics. *)
Definition get_statics : io (linux X) statics := fun l => (l, globals l).
Definition put_statics (g : statics) : io (linux X) unit := fun l => (MkLinux g (sys l), tt).

Definition set_cgroup_info (i : option CgroupInfo) (g : statics) : statics :=
  MkStatics i (cgroup_manager g) (exe_fail_cache g) (resolver_cache g).
Definition set_cgroup_manager (m : option CgroupManager) (g : statics) : statics :=
  MkStatics (cgroup_info g) m (exe_fail_cache g) (resolver_cache g).
Definition set_exe_fail_cache (c : LruCache Z ExeFailure) (g : statics) : statics :=
  MkStatics (cgroup_info g) (cgroup_manager g) c (resolver_cache g).
Definition set_resolver_cache (c : LruCache Z CacheEntry) (g : statics) : statics :=
  MkStatics (cgroup_info g) (cgroup_manager g) (exe_fail_cache g) c.

Definition modify (f : statics -> statics) : io (linux X) unit :=
  g ← get_statics; put_statics (f g).

#[global] Instance linux_files {Hf : Files X} : Files (linux X) := {|
  f_exists p := on_sys (f_exists p);
  f_read p := on_sys (f_read p);
  f_read_dir p := on_sys (f_read_dir p);
  f_open m p := on_sys (f_open m p);
  f_write p t := on_sys (f_write p t);
  f_create_dir p := on_sys (f_create_dir p);
  f_create_dir_all p := on_sys (f_create_dir_all p);
  f_remove_dir p := on_sys (f_remove_dir p);
  f_procfs := on_sys f_procfs;
  f_now := on_sys f_now;
  f_sleep ms := on_sys (f_sleep ms);
  f_parallelism := on_sys f_parallelism;
|}.

#[global] Instance linux_kernel {Hk : Kernel X} : Kernel (linux X) := {|
  k_setpriority a b := on_sys (k_setpriority a b);
  k_sched_setattr a b := on_sys (k_sched_setattr a b);
  k_sched_getattr a l := k_sched_getattr a (sys l);
  k_sched_setscheduler a b c := on_sys (k_sched_setscheduler a b c);
  k_sched_setaffinity a b := on_sys (k_sched_setaffinity a b);
  k_ioprio_set a b c := on_sys (k_ioprio_set a b c);
  k_write a b := on_sys (k_write a b);
  k_read a l := k_read a (sys l);
|}.

(** ** What is known of both halves *)

Definition both (J : statics -> Prop) (I : X -> Prop) (l : linux X) : Prop :=
  J (globals l) /\ I (sys l).

Lemma safe_on_sys {A} J I (c : io X A) Q : safe I c Q -> safe (both J I) (on_sys c) Q.
Proof.
  intros H [g s] [Hg Hs]. destruct (H s Hs) as [Hi Hq]. unfold on_sys. simpl in *.
  by destruct (c s).
Qed.

#[global] Instance linux_logs {Hf : Files X} J I G {HL : Logs I G} : Logs (both J I) G.
Proof.
  split; intros; apply safe_on_sys; by safe_step.
Qed.

Lemma safe_get_statics J I : safe (both J I) get_statics J.
Proof. by intros [g s] [Hg Hs]. Qed.
Lemma safe_put_statics J I g : J g -> safe (both J I) (put_statics g) (fun _ => True).
Proof. intros Hg [g' s] [_ Hs]. done. Qed.
Lemma safe_modify J I f :
  (forall g, J g -> J (f g)) -> safe (both J I) (modify f) (fun _ => True).
Proof.
  intros H. eapply safe_bind; [apply safe_get_statics|]. intros g Hg.
  apply safe_put_statics. auto.
Qed.
End State.

(** ** Following a run on a recording system *)

Section Runs.
Context {Hc : Caches} (w : list event).

Definition at_linux (g : statics) (tr : list event) (l : linux (list event)) : Prop :=
  l = MkLinux g (w ++ tr).

Lemma linux_record {A} (f : A -> event) answer g tr :
  triple (at_linux g tr) (on_sys (record f answer)) (fun a => at_linux g (tr ++ [f a])).
Proof. intros l ->. unfold at_linux. cbn. by rewrite app_assoc. Qed.

Lemma linux_ret {A} g tr (a : A) (Q : A -> linux (list event) -> Prop) :
  Q a (MkLinux g (w ++ tr)) -> triple (at_linux g tr) (mret a) Q.
Proof. intros H l ->. done. Qed.

Lemma linux_get {A} g tr (k : statics -> io (linux (list event)) A) Q :
  triple (at_linux g tr) (k g) Q -> triple (at_linux g tr) (get_statics ≫= k) Q.
Proof. intros H l ->. by apply (H (MkLinux g (w ++ tr))). Qed.

Lemma linux_put {A} g g' tr (k : unit -> io (linux (list event)) A) Q :
  triple (at_linux g' tr) (k tt) Q -> triple (at_linux g tr) (put_statics g' ≫= k) Q.
Proof. intros H l ->. by apply (H (MkLinux g' (w ++ tr))). Qed.

Lemma linux_modify {A} g f tr (k : unit -> io (linux (list event)) A) Q :
  triple (at_linux (f g) tr) (k tt) Q -> triple (at_linux g tr) (modify f ≫= k) Q.
Proof. intros H l ->. by apply (H (MkLinux (f g) (w ++ tr))). Qed.

Lemma linux_run {A} g (c : io (linux (list event)) A) (Q : A -> linux (list event) -> Prop) :
  triple (at_linux g []) c Q -> Q (snd (c (MkLinux g w))) (fst (c (MkLinux g w))).
Proof. intros H. apply H. unfold at_linux. by rewrite app_nil_r. Qed.
End Runs.

Ltac linux_step :=
  lazymatch goal with
  | |- triple _ (mret _) _ => apply linux_ret
  | |- triple _ (mbind _ (mbind _ _)) _ => apply triple_assoc
  | |- triple _ (mbind _ (mret _)) _ => apply triple_ret_bind
  | |- triple _ (mbind _ get_statics) _ => apply linux_get
  | |- triple _ (mbind _ (put_statics _)) _ => apply linux_put
  | |- triple _ (mbind _ (modify _)) _ => apply linux_modify
  | |- triple _ (mbind _ (match ?x with _ => _ end)) _ => let E := fresh "E" in destruct x eqn:E
  | |- triple (at_linux _ _ _) (mbind _ _) _ =>
      eapply triple_bind; [apply linux_record|intros ?]; cbn [app]
  | |- triple _ (match ?x with _ => _ end) _ => let E := fresh "E" in destruct x eqn:E
  end.
Ltac linux_go := repeat linux_step.
