(* ===== verification/Mounts.v ===== *)
(** * Detecting the cgroup hierarchy

    [crates/ananicy-platform/src/mounts.rs]: which cgroup hierarchy is mounted,
    the cached answer, and the wait for one at startup. *)

From stdpp Require Import base list gmap strings numbers.
From Stdlib Require Import ZArith Lia Ascii.
From S2P Require Import Prelude RustStr Paths Process LruCache Worker Kernel Procfs Files.
From S2P Require Import CgroupManager LinuxState.

#[local] Open Scope Z_scope.

Definition CGROUP_INIT_ATTEMPTS : nat := 20.
Definition CGROUP_INIT_INTERVAL : Z := 500.
Definition CGROUP_INIT_TIMEOUT : Z := Z.of_nat CGROUP_INIT_ATTEMPTS * CGROUP_INIT_INTERVAL.

(** [split_whitespace().any(|c| c == "cpu")]. *)
Definition lists_cpu (controllers : string) : bool :=
  existsb (String.eqb "cpu") (split_whitespace controllers).
Arguments lists_cpu : simpl never.

Section Probes.
Context {W : Type} {Hf : Files W}.

Definition v2_has_cpu_controller (mount_point : path) : io W bool :=
  r ← f_read (push mount_point "cgroup.controllers");
  match r with
  | inr _ => mret false
  | inl controllers =>
      if lists_cpu controllers then f_exists (push mount_point "cgroup.procs") else mret false
  end.

Definition test_cgroup_of (mount_point : path) : path := push mount_point "ananicy_test_cgroup2".

Definition v2_probe_by_creating_a_cgroup (mount_point : path) : io W bool :=
  let test_cgroup := test_cgroup_of mount_point in
  left_over ← f_exists test_cgroup;
  _ ← (if left_over : bool then f_remove_dir test_cgroup else mret None);
  r ← f_create_dir test_cgroup;
  match r with
  | Some _ => mret false
  | None =>
      r ← f_read (push test_cgroup "cgroup.controllers");
      let has_cpu_controller := match r with inl controllers => lists_cpu controllers
                                           | inr _ => false end in
      has_cpu_max ← f_exists (push test_cgroup "cpu.max");
      _ ← f_remove_dir test_cgroup;
      mret (has_cpu_controller && has_cpu_max)
  end.

(** The loop over the mount table; a usable v2 hierarchy ends it. *)
Fixpoint parse_mounts (content : list string) (info : CgroupInfo) : io W CgroupInfo :=
  match content with
  | [] => mret info
  | line :: content =>
      match split_whitespace line with
      | _ :: mount_point :: fs_type :: _ =>
          if String.eqb fs_type "cgroup2" then
            cpu ← v2_has_cpu_controller mount_point;
            usable ← (if cpu : bool then mret true else v2_probe_by_creating_a_cgroup mount_point);
            if usable : bool then mret (MkCgroupInfo V2 mount_point)
            else parse_mounts content info
          else if String.eqb fs_type "cgroup" && bool_decide (version info = NoCgroup) then
            match parent mount_point with
            | Some parent =>
                there ← f_exists (push parent "cpu");
                parse_mounts content (if there : bool then MkCgroupInfo V1 parent else info)
            | None => parse_mounts content info
            end
          else parse_mounts content info
      | _ => parse_mounts content info
      end
  end.

Definition parse_cgroups_from_str (content : string) (info : CgroupInfo) : io W CgroupInfo :=
  parse_mounts (lines content) info.

(** The uncached detection. *)
Definition detect : io W CgroupInfo :=
  let info := MkCgroupInfo NoCgroup EmptyString in
  r ← f_read "/proc/self/mounts";
  match r with
  | inl content => parse_cgroups_from_str content info
  | inr _ => mret info
  end.

End Probes.

Section Info.
Context {Hc : Caches} {X : Type} {Hf : Files X}.

Definition get_cgroup_info : io (linux X) CgroupInfo :=
  g ← get_statics;
  match cgroup_info g with
  | Some i => mret i
  | None =>
      info ← detect;
      g ← get_statics;
      _ ← (match cgroup_info g with
           | None => put_statics (set_cgroup_info (Some info) g)
           | Some _ => mret tt
           end);
      mret info
  end.

Definition cgroup_version : io (linux X) CgroupVersion :=
  g ← get_statics;
  match cgroup_info g with
  | Some i => mret (version i)
  | None => info ← get_cgroup_info; mret (version info)
  end.

Definition reset_cgroup_info : io (linux X) unit := modify (set_cgroup_info None).

(** The loop of [init_cgroups], with the attempts that are left. *)
Fixpoint init_attempts (n : nat) : io (linux X) bool :=
  match n with
  | O => _ ← reset_cgroup_info; mret false
  | S n =>
      info ← get_cgroup_info;
      if negb (bool_decide (version info = NoCgroup)) then mret true
      else _ ← f_sleep CGROUP_INIT_INTERVAL; init_attempts n
  end.

Definition init_cgroups : io (linux X) bool := init_attempts CGROUP_INIT_ATTEMPTS.

End Info.

(** ** What the detection may change *)

Definition probe_event (e : event) : Prop :=
  match e with
  | ECreateDir p _ | ERemoveDir p _ => exists mount_point, p = test_cgroup_of mount_point
  | ESys _ _ => False
  | _ => changes e = None
  end.

Section Detect.
Context {W : Type} {Hf : Files W} (I : W -> Prop) (G : event -> Prop) {HL : Logs I G}.
Context (HG : forall e, probe_event e -> G e).

Lemma probe_safe mount_point :
  safe I (v2_probe_by_creating_a_cgroup mount_point) (fun _ => True).
Proof.
  unfold v2_probe_by_creating_a_cgroup. safe_go; try done; apply HG; cbn; eauto.
Qed.

Lemma v2_has_cpu_safe mount_point : safe I (v2_has_cpu_controller mount_point) (fun _ => True).
Proof. unfold v2_has_cpu_controller. safe_go; try done; by apply HG. Qed.

Lemma parse_mounts_safe content info : safe I (parse_mounts content info) (fun _ => True).
Proof.
  revert info. induction content as [|line content IH]; intros info; cbn [parse_mounts];
    [by apply safe_ret|].
  destruct (split_whitespace line) as [|? [|mp [|ty ?]]]; try done.
  destruct (String.eqb ty "cgroup2"); [|destruct (_ && _); [destruct (parent mp)|]]; try done.
  - safe_go; try done; [apply v2_has_cpu_safe|apply probe_safe].
  - safe_go; try done. by apply HG.
Qed.

Lemma detect_safe : safe I detect (fun _ => True).
Proof. unfold detect, parse_cgroups_from_str. safe_go; try done; [by apply HG|apply parse_mounts_safe]. Qed.
End Detect.

Section InfoSafe.
Context {Hc : Caches} {X : Type} {Hf : Files X} (J : statics -> Prop) (I : X -> Prop)
  (G : event -> Prop) {HL : Logs I G}.
Context (HG : forall e, probe_event e -> G e).
Context (HJ : forall i g, J g -> J (set_cgroup_info i g)).

Lemma get_cgroup_info_safe : safe (both J I) get_cgroup_info (fun _ => True).
Proof.
  unfold get_cgroup_info. eapply safe_bind; [apply safe_get_statics|]. intros g Hg.
  destruct (cgroup_info g); [by apply safe_ret|].
  eapply safe_bind; [by apply (detect_safe _ G)|]. intros info _.
  eapply safe_bind; [apply safe_get_statics|]. intros g' Hg'.
  destruct (cgroup_info g'); safe_go; try done. apply safe_put_statics. auto.
Qed.

Lemma cgroup_version_safe : safe (both J I) cgroup_version (fun _ => True).
Proof.
  unfold cgroup_version. eapply safe_bind; [apply safe_get_statics|]. intros g Hg.
  destruct (cgroup_info g); [by apply safe_ret|].
  safe_go; try done. apply get_cgroup_info_safe.
Qed.
End InfoSafe.

(** ** Properties *)
Module MountsProps.

(** A cached answer is given as it is, and a detection that found nothing is cached
    like any other. *)
Lemma get_cgroup_info_cached {Hc : Caches} {X} {Hf : Files X} (l : linux X) i :
  cgroup_info (globals l) = Some i -> get_cgroup_info l = (l, i).
Proof.
  intros H. unfold get_cgroup_info, mbind, io_bind, get_statics. cbn. by rewrite H.
Qed.

Lemma on_sys_globals {Hc : Caches} {X A} (c : io X A) (l : linux X) :
  globals (fst (on_sys c l)) = globals l.
Proof. unfold on_sys. by destruct (c (sys l)). Qed.

(** The detection itself leaves the statics alone. *)
Lemma detect_globals {Hc : Caches} env (l : linux (list event)) :
  globals (fst (detect (Hf := linux_files (Hf := traced_files env)) l)) = globals l.
Proof.
  set (Hx := traced_files env).
  pose proof (traced_logs env (fun _ => True)) as HL.
  assert (H : safe (both (eq (globals l)) (Forall (fun _ => True)))
    (detect (W := linux (list event))) (fun _ => True))
    by (by apply (detect_safe _ (fun _ => True))).
  symmetry. eapply (H l). split; [done|]. by apply Forall_true.
Qed.

Lemma get_cgroup_info_publishes {Hc : Caches} env (l : linux (list event)) :
  let Hx := traced_files env in
  cgroup_info (globals (fst (get_cgroup_info l))) = Some (snd (get_cgroup_info l)).
Proof.
  intros Hx. unfold get_cgroup_info, mbind, io_bind, get_statics. cbv beta iota.
  destruct (cgroup_info (globals l)) as [i|] eqn:E; [done|].
  pose proof (detect_globals env l) as Hd. fold Hx in Hd.
  destruct (detect l) as [l1 info]. cbn [fst] in Hd. by rewrite Hd, E.
Qed.

(** Once nothing is cached as the answer, every attempt is a sleep. *)
Lemma init_attempts_sleep {Hc : Caches} (env : world_env) n (l : linux (list event)) i :
  let Hx := traced_files env in
  cgroup_info (globals l) = Some i -> version i = NoCgroup ->
  init_attempts n l =
  (MkLinux (set_cgroup_info None (globals l)) (sys l ++ replicate n (ESleep CGROUP_INIT_INTERVAL)),
   false).
Proof.
  intros Hx. revert l. induction n as [|n IH]; intros l Hi Hv; cbn [init_attempts].
  - unfold reset_cgroup_info, modify, mbind, io_bind. cbn. by rewrite app_nil_r.
  - unfold mbind at 1, io_bind at 1. rewrite (get_cgroup_info_cached l i Hi).
    rewrite bool_decide_true by done. cbn [negb]. unfold mbind, io_bind. cbn.
    fold Hx. rewrite IH by done. cbn. by rewrite <- app_assoc.
Qed.

(** The first attempt decides. *)
Lemma init_attempts_once {Hc : Caches} (env : world_env) n (l : linux (list event)) :
  let Hx := traced_files env in
  let '(l1, first) := get_cgroup_info l in
  let '(l', found) := init_attempts (S n) l in
  found = negb (bool_decide (version first = NoCgroup)) /\
  sys l' = sys l1 ++ (if found then [] else replicate (S n) (ESleep CGROUP_INIT_INTERVAL)) /\
  cgroup_info (globals l') = (if found then Some first else None).
Proof.
  cbv zeta. pose proof (get_cgroup_info_publishes env l) as Hp. cbv zeta in Hp.
  cbn [init_attempts]. unfold mbind at 1, io_bind at 1.
  destruct (get_cgroup_info l) as [l1 first] eqn:E1. cbn [fst snd] in Hp.
  destruct (bool_decide (version first = NoCgroup)) eqn:Ev; cbn [negb].
  - apply bool_decide_eq_true in Ev. unfold mbind at 1, io_bind at 1. cbn [f_sleep linux_files].
    unfold on_sys. cbn [f_sleep traced_files record].
    rewrite (init_attempts_sleep env n
      (MkLinux (globals l1) (sys l1 ++ [ESleep CGROUP_INIT_INTERVAL])) first Hp Ev). cbn [sys globals].
    split_and!; [done| |done]. by rewrite <- app_assoc.
  - unfold mret, io_ret. by rewrite app_nil_r.
Qed.

(** Waiting for a hierarchy asks the mount table once: the answer of the first
    detection is cached even when it found nothing, so the nineteen attempts that
    follow only sleep.  The wait always ends, and a failed one has slept for
    exactly the ten seconds it reports. *)
Theorem init_detects_once {Hc : Caches} (env : world_env) (l : linux (list event)) :
  let Hx := traced_files env in
  let '(l1, first) := get_cgroup_info l in
  let '(l', found) := init_cgroups l in
  found = negb (bool_decide (version first = NoCgroup)) /\
  sys l' = sys l1 ++ (if found then [] else replicate 20 (ESleep 500)) /\
  cgroup_info (globals l') = (if found then Some first else None) /\
  CGROUP_INIT_TIMEOUT = 20 * 500.
Proof.
  pose proof (init_attempts_once env 19 l) as H. cbv zeta in *.
  unfold init_cgroups, CGROUP_INIT_ATTEMPTS.
  destruct (get_cgroup_info l) as [l1 first]. destruct (init_attempts 20 l) as [l' found].
  by destruct H as (H1 & H2 & H3).
Qed.

(** *** Which hierarchy is chosen

    On a system that answers the same throughout, what a mount is worth does not
    depend on when it is asked. *)

Definition mounts_of (fs_type : string) (content : list string) : list path :=
  omap (fun line => match split_whitespace line with
                    | _ :: mount_point :: ty :: _ =>
                        if String.eqb ty fs_type then Some mount_point else None
                    | _ => None
                    end) content.

(** The system does not change while it is looked at, but for the test cgroup: its
    files are what they are once it has been created. Whether one is left over, and
    what removing it answers, is free. *)
Record still (env : world_env) (content : list string) : Prop := {
  still_controllers : forall w mp, mp ∈ mounts_of "cgroup2" content ->
    we_read env w (push mp "cgroup.controllers") = we_read env [] (push mp "cgroup.controllers");
  still_procs : forall w mp, mp ∈ mounts_of "cgroup2" content ->
    we_exists env w (push mp "cgroup.procs") = we_exists env [] (push mp "cgroup.procs");
  still_create : forall w mp, mp ∈ mounts_of "cgroup2" content ->
    we_create_dir env w (push mp "ananicy_test_cgroup2") =
    we_create_dir env [] (push mp "ananicy_test_cgroup2");
  still_child_read : forall w mp, mp ∈ mounts_of "cgroup2" content ->
    let child := push mp "ananicy_test_cgroup2" in
    we_read env (w ++ [ECreateDir child None]) (push child "cgroup.controllers") =
    we_read env [ECreateDir child None] (push child "cgroup.controllers");
  still_child_max : forall w e mp, mp ∈ mounts_of "cgroup2" content ->
    let child := push mp "ananicy_test_cgroup2" in
    we_exists env (w ++ [ECreateDir child None; e]) (push child "cpu.max") =
    we_exists env [ECreateDir child None] (push child "cpu.max");
  still_v1 : forall w mp q, mp ∈ mounts_of "cgroup" content -> parent mp = Some q ->
    we_exists env w (push q "cpu") = we_exists env [] (push q "cpu");
}.

(** The controllers file of a directory, read after [w], names [cpu]. *)
Definition offers_cpu (env : world_env) (w : list event) (dir : path) : bool :=
  match we_read env w (push dir "cgroup.controllers") with
  | inl words => bool_decide ("cpu" ∈ split_whitespace words)
  | inr _ => false
  end.

(** A v2 mount is usable if it offers the cpu controller and has a [cgroup.procs], or
    if a directory can be created in it that offers the controller and has a
    [cpu.max]. *)
Definition usable_v2 (env : world_env) (mount_point : path) : bool :=
  let child := push mount_point "ananicy_test_cgroup2" in
  let created := [ECreateDir child None] in
  (offers_cpu env [] mount_point && we_exists env [] (push mount_point "cgroup.procs")) ||
  (bool_decide (we_create_dir env [] child = None) && offers_cpu env created child &&
   we_exists env created (push child "cpu.max")).
Definition usable_v1 (env : world_env) (hierarchy : path) : bool :=
  we_exists env [] (push hierarchy "cpu").

(** The first usable v2 mount; failing that, the directory of the first v1 mount
    that has a [cpu] controller in it. *)
Definition best_hierarchy (env : world_env) (content : list string) (info : CgroupInfo)
    : CgroupInfo :=
  match find (usable_v2 env) (mounts_of "cgroup2" content) with
  | Some mount_point => MkCgroupInfo V2 mount_point
  | None =>
      if bool_decide (version info = NoCgroup) then
        match find (usable_v1 env) (omap parent (mounts_of "cgroup" content)) with
        | Some hierarchy => MkCgroupInfo V1 hierarchy
        | None => info
        end
      else info
  end.

Lemma lists_cpu_words c : lists_cpu c = bool_decide ("cpu" ∈ split_whitespace c).
Proof.
  apply eq_true_iff_eq. rewrite bool_decide_eq_true. unfold lists_cpu.
  rewrite existsb_exists, list_elem_of_In. split.
  - intros (x & Hx & ->%String.eqb_eq). done.
  - intros H. exists "cpu". split; [done|]. apply String.eqb_refl.
Qed.

Section Still.
Context (env : world_env) (content : list string) (He : still env content).

Lemma still_has_cpu mp w :
  mp ∈ mounts_of "cgroup2" content ->
  snd (v2_has_cpu_controller (Hf := traced_files env) mp w) =
  offers_cpu env [] mp && we_exists env [] (push mp "cgroup.procs").
Proof.
  intros Hm. unfold v2_has_cpu_controller, offers_cpu, mbind, io_bind. cbn.
  rewrite (still_controllers _ _ He w mp Hm). destruct (we_read env [] _) as [c|]; [|done].
  rewrite lists_cpu_words. destruct (bool_decide _); [|done]. cbn. by apply (still_procs _ _ He).
Qed.

Lemma still_probe mp w :
  mp ∈ mounts_of "cgroup2" content ->
  let child := push mp "ananicy_test_cgroup2" in
  snd (v2_probe_by_creating_a_cgroup (Hf := traced_files env) mp w) =
  bool_decide (we_create_dir env [] child = None) && offers_cpu env [ECreateDir child None] child &&
  we_exists env [ECreateDir child None] (push child "cpu.max").
Proof.
  intros Hm child. unfold v2_probe_by_creating_a_cgroup, offers_cpu, mbind, io_bind.
  change (test_cgroup_of mp) with child. cbn.
  destruct (we_exists env w child); cbn;
    match goal with |- context [we_create_dir env ?w' child] =>
      pose proof (still_create _ _ He w' mp Hm) as Ec;
      pose proof (still_child_read _ _ He w' mp Hm) as Er;
      pose proof (fun e => still_child_max _ _ He w' e mp Hm) as Ex
    end; cbv zeta in Er, Ex; fold child in Ec, Er, Ex; rewrite Ec;
    (destruct (we_create_dir env [] child) eqn:E0; [done|]);
    cbn; rewrite Er, <- (app_assoc _ [_] [_]); cbn [app]; rewrite Ex;
    by destruct (we_read env [_] _); rewrite ?lists_cpu_words.
Qed.

(** The two tests of a v2 mount, one after the other. *)
Lemma still_usable mp w :
  mp ∈ mounts_of "cgroup2" content ->
  snd (v2_has_cpu_controller (Hf := traced_files env) mp w) ||
  snd (v2_probe_by_creating_a_cgroup (Hf := traced_files env) mp
         (fst (v2_has_cpu_controller (Hf := traced_files env) mp w))) = usable_v2 env mp.
Proof. intros Hm. by rewrite still_has_cpu, still_probe. Qed.

End Still.

Lemma still_tail env line content : still env (line :: content) -> still env content.
Proof.
  assert (H : forall ty mp, mp ∈ mounts_of ty content -> mp ∈ mounts_of ty (line :: content)).
  { intros ty mp Hm. unfold mounts_of. cbn [omap list_omap]. case_match; [by right|done]. }
  intros [H1 H2 H3 H4 H5 H6]. split; intros; [apply H1|apply H2|apply H3|apply H4|apply H5|eapply H6]; eauto.
Qed.

Lemma parse_mounts_best (env : world_env) (content : list string) (info : CgroupInfo)
    (w : list event) :
  still env content ->
  snd (parse_mounts (Hf := traced_files env) content info w) = best_hierarchy env content info.
Proof.
  unfold best_hierarchy. revert info w.
  induction content as [|line content IH]; intros info w He; cbn [parse_mounts mounts_of omap list_omap].
  { cbn. by case_bool_decide. }
  pose proof (still_tail _ _ _ He) as Ht.
  pose proof (still_usable env _ He) as Hu. pose proof (still_v1 _ _ He) as H1.
  unfold mounts_of in Hu, H1. cbn [omap list_omap] in Hu, H1.
  destruct (split_whitespace line) as [|? [|mp [|ty ?]]]; try (by apply IH).
  destruct (String.eqb ty "cgroup2") eqn:E2.
  - apply String.eqb_eq in E2 as ->. cbn [String.eqb Ascii.eqb Bool.eqb find].
    rewrite <- (Hu mp w) by (by left). unfold mbind, io_bind.
    destruct (v2_has_cpu_controller mp w) as [w1 cpu]. cbn [snd fst].
    destruct cpu; [done|]. cbn [orb].
    destruct (v2_probe_by_creating_a_cgroup mp w1) as [w2 []]; [done|]. by apply IH.
  - destruct (String.eqb ty "cgroup") eqn:E1; cbn [andb]; [|by apply IH].
    destruct (parent mp) as [q|] eqn:Ep.
    + case_bool_decide as Hv; [|rewrite IH by done; by rewrite bool_decide_false].
      unfold mbind, io_bind. cbn [f_exists traced_files record omap list_omap]. rewrite Ep.
      cbn [find]. unfold usable_v1 at 1. rewrite (H1 w mp q) by (by left || done).
      destruct (we_exists env [] (push q "cpu")).
      * rewrite IH by done. destruct (find _ _); [done|]. by rewrite bool_decide_false.
      * rewrite IH by done. by rewrite bool_decide_true.
    + cbn [omap list_omap]. rewrite Ep.
      destruct (bool_decide (version info = NoCgroup)) eqn:Hb; by rewrite IH, Hb.
Qed.

(** C21. The detection picks the first usable v2 hierarchy of the mount table, wherever it
    is listed, and a v1 hierarchy only when there is none. A v2 mount is usable by
    what its files say: its own controllers and [cgroup.procs], or, failing that for
    any reason, the controllers and the [cpu.max] of a directory that can be created
    in it. *)
Theorem best_hierarchy_found (env : world_env) (content : string) (info : CgroupInfo)
    (w : list event) :
  still env (lines content) ->
  snd (parse_cgroups_from_str (Hf := traced_files env) content info w) =
  best_hierarchy env (lines content) info.
Proof. apply parse_mounts_best. Qed.

Definition demo_mounts : string :=
  sapp "cgroup /sys/fs/cgroup/cpu cgroup rw" (sapp newline
  (sapp "cgroup2 /sys/fs/cgroup/unified cgroup2 rw" (sapp newline
  (sapp "cgroup2 /run/cgroup2 cgroup2 rw" newline)))).
(** Nothing can be created in the first v2 mount; in the second the controllers are not
    listed at the top, and a directory created there has them. *)
Definition demo_cgroups : world_env :=
  MkWorldEnv
    (fun w p => bool_decide (p = "/sys/fs/cgroup/cpu") ||
       (bool_decide (p = "/run/cgroup2/ananicy_test_cgroup2/cpu.max") &&
        existsb (fun e => match e with ECreateDir q None => true | _ => false end) w))
    (fun w p => if bool_decide (p = "/run/cgroup2/ananicy_test_cgroup2/cgroup.controllers")
                then inl "cpuset cpu io" else inr (Errno ENOENT))
    (fun _ _ => None) (fun _ _ _ => None) (fun _ _ _ => None)
    (fun _ p => if bool_decide (p = "/run/cgroup2/ananicy_test_cgroup2") then None
                else Some (Errno EACCES)) (fun _ _ => None)
    (fun _ _ => None) (fun _ => ManagerProps.demo_procfs) (fun _ => 0) (fun _ => None)
    (fun _ _ => None) (fun _ _ => None) (fun _ _ => None).

Lemma demo_still : still demo_cgroups (lines demo_mounts).
Proof.
  split; intros *; change (mounts_of "cgroup2" (lines demo_mounts)) with
    ["/sys/fs/cgroup/unified"; "/run/cgroup2"]; change (mounts_of "cgroup" (lines demo_mounts)) with
    ["/sys/fs/cgroup/cpu"];
    intros Hm; repeat (apply elem_of_cons in Hm as [->|Hm]); try (by apply elem_of_nil in Hm);
    try reflexivity.
  - cbn. rewrite existsb_app. cbn. by rewrite orb_true_r.
  - intros [= <-]. reflexivity.
Defined.

Lemma best_hierarchy_found_witness :
  best_hierarchy demo_cgroups (lines demo_mounts) (MkCgroupInfo NoCgroup EmptyString) =
    MkCgroupInfo V2 "/run/cgroup2" /\
  snd (parse_cgroups_from_str (Hf := traced_files demo_cgroups) demo_mounts
         (MkCgroupInfo NoCgroup EmptyString) []) =
    best_hierarchy demo_cgroups (lines demo_mounts) (MkCgroupInfo NoCgroup EmptyString).
Proof.
  split; [vm_compute; reflexivity|].
  apply (best_hierarchy_found demo_cgroups demo_mounts (MkCgroupInfo NoCgroup EmptyString) []).
  apply demo_still.
Defined.

End MountsProps.
