(* ===== verification/CgroupResolver.v ===== *)
(** * The cgroup of a process

    [crates/ananicy-platform/src/cgroup/process.rs]: reading
    [/proc/<pid>/cgroup], and the cache in front of it.  An entry is trusted for
    a second and only for the process it was read for, which the start time
    identifies. *)

From stdpp Require Import base list gmap strings numbers.
From Stdlib Require Import ZArith Lia Ascii.
From S2P Require Import Prelude RustStr Paths Process LruCache Worker Kernel Procfs Files.
From S2P Require Import CgroupManager LinuxState.

#[local] Open Scope Z_scope.

(** [trim_end_matches] of a string. *)
Definition trim_end_matches (p s : string) : string :=
  srev (strip_while (slen s) [srev p] (srev s)).

Definition cgroup_file (pid : Z) : path := sapp "/proc/" (sapp (fmt_int pid) "/cgroup").

(** What a read of that file says. *)
Definition identity_of (r : string + sys_error) : option CgroupIdentity + sys_error :=
  match r with
  | inr e => if kind_not_found e then inl None else inr e
  | inl content =>
      match head (omap (strip_prefix "0::") (lines content)) with
      | None => inl None
      | Some path_str =>
          let p := trim_end_matches " (deleted)" path_str in
          if starts_with "/../" p then inl None else inl (Some (MkIdentity p))
      end
  end.

Definition RESOLVER_CAPACITY : nat := 5000.
Definition RESOLVER_TTL : Z := 1000.

(** [LinuxCgroupResolver::resolve]. *)
Definition linux_resolve {W} {Hf : Files W} (version : CgroupVersion) (pid : Z)
    : io W (option CgroupIdentity + sys_error) :=
  if bool_decide (version = NoCgroup) || bool_decide (version = V1) then mret (inl None)
  else r ← f_read (cgroup_file pid); mret (identity_of r).

Section Resolver.
Context {Hc : Caches} {X : Type} {Hf : Files X}.

(** [Instant::elapsed] never goes below zero. *)
Definition elapsed (timestamp now : Z) : Z := Z.max 0 (now - timestamp).

(** The entry of the cache, moved to the front by looking. *)
Definition cached_entry (pid : Z) : io (linux X) (option CacheEntry) :=
  g ← get_statics;
  let '(cache, entry) := lru_get pid (resolver_cache g) in
  _ ← put_statics (set_resolver_cache cache g);
  mret entry.

(** Whether the entry still speaks for the process. *)
Definition still_good (entry : option CacheEntry) (start_time_current : Z)
    : io (linux X) (option (option CgroupIdentity)) :=
  match entry with
  | Some e =>
      if ce_start_time e =? start_time_current then
        now ← f_now;
        mret (if elapsed (ce_timestamp e) now <? RESOLVER_TTL then Some (ce_identity e) else None)
      else mret None
  | None => mret None
  end.

(** [CachingCgroupResolver::resolve] around [LinuxCgroupResolver]. *)
Definition resolve (version : CgroupVersion) (pid : Z)
    : io (linux X) (option CgroupIdentity + sys_error) :=
  fs ← f_procfs;
  match get_start_time fs pid with
  | None => mret (inl None)
  | Some start_time_current =>
      entry ← cached_entry pid;
      cached ← still_good entry start_time_current;
      match cached with
      | Some cached_id => mret (inl cached_id)
      | None =>
          r ← linux_resolve version pid;
          match r with
          | inr e => mret (inr e)
          | inl resolved =>
              fs ← f_procfs;
              match get_start_time fs pid with
              | Some start_time_after =>
                  if start_time_current =? start_time_after then
                    now ← f_now;
                    _ ← modify (fun g => set_resolver_cache
                          (lru_put pid (MkCacheEntry start_time_current resolved now)
                             (resolver_cache g)) g);
                    mret (inl resolved)
                  else mret (inl None)
              | None => mret (inl None)
              end
          end
      end
  end.

End Resolver.

(** ** Properties *)
Module ResolverProps.

(** [id] was read for [pid] while the process that started at [t] held the pid, and
    that was at time [ts]. *)
Definition justified (tr : list event) (pid t : Z) (id : option CgroupIdentity) (ts : Z) : Prop :=
  exists pre fs0 mid r fs1 post,
    tr = pre ++ EProcfs fs0 :: mid ++ [ERead (cgroup_file pid) r; EProcfs fs1; ENow ts] ++ post /\
    get_start_time fs0 pid = Some t /\ get_start_time fs1 pid = Some t /\ identity_of r = inl id.

Lemma justified_more tr new pid t id ts :
  justified tr pid t id ts -> justified (tr ++ new) pid t id ts.
Proof.
  intros (pre & fs0 & mid & r & fs1 & post & -> & H). exists pre, fs0, mid, r, fs1, (post ++ new).
  split; [|done]. rewrite <- !app_assoc. cbn. by rewrite <- !app_assoc.
Qed.

Section Cache.
Context {Hc : Caches} {Hl : CachesLaws}.

Definition entries_justified (tr : list event) (cache : LruCache Z CacheEntry) : Prop :=
  lru_cap cache = RESOLVER_CAPACITY /\
  forall pid e, lru_peek pid cache = Some e ->
  justified tr pid (ce_start_time e) (ce_identity e) (ce_timestamp e).

Definition cache_ok (l : linux (list event)) : Prop :=
  entries_justified (sys l) (resolver_cache (globals l)).

(** What a look-up answered, read off the events [new] it caused: nothing, or a cgroup
    that was read for the process that holds the pid now, within the second
    before the look-up or during it. *)
Definition answer_ok (old new : list event) (pid : Z) (ans : option CgroupIdentity + sys_error) : Prop :=
  match ans with
  | inl (Some id) =>
      exists fs t ts, EProcfs fs ∈ new /\ get_start_time fs pid = Some t /\
        justified (old ++ new) pid t (Some id) ts /\
        (ENow ts ∈ new \/ exists now, ENow now ∈ new /\ elapsed ts now < RESOLVER_TTL)
  | _ => True
  end.

Lemma entries_more tr new cache : entries_justified tr cache -> entries_justified (tr ++ new) cache.
Proof. intros [Hcap H]. split; [done|]. intros. by apply justified_more, H. Qed.

Lemma entries_get tr pid cache :
  entries_justified tr cache -> entries_justified tr (fst (lru_get pid cache)).
Proof.
  intros [Hcap H]. split; [by rewrite cap_get|]. intros p e. rewrite peek_get. apply H.
Qed.

Lemma entries_put tr pid e cache :
  entries_justified tr cache ->
  justified tr pid (ce_start_time e) (ce_identity e) (ce_timestamp e) ->
  entries_justified tr (lru_put pid e cache).
Proof.
  intros [Hcap H] He. split; [by rewrite cap_put|]. intros p x Hx.
  destruct (decide (p = pid)) as [->|Hne].
  - apply peek_put_old in Hx. by subst x.
  - apply H. by eapply peek_put_ne.
Qed.

Definition looked_up (l : linux (list event)) (pid : Z) (ans : option CgroupIdentity + sys_error)
    (l' : linux (list event)) : Prop :=
  cache_ok l' /\ exists new, sys l' = sys l ++ new /\ answer_ok (sys l) new pid ans.

(** A look-up that answers nothing, or fails. *)
Lemma looked_up_nothing g tr pid g' new ans :
  entries_justified tr (resolver_cache g') ->
  (forall id, ans <> inl (Some id)) ->
  looked_up (MkLinux g tr) pid ans (MkLinux g' (tr ++ new)).
Proof.
  intros H Ha. split; [by apply entries_more|]. exists new. split; [done|].
  destruct ans as [[id|]|]; [by destruct (Ha id)|done..].
Qed.

(** A look-up that reads the file. *)
Lemma looked_up_read g tr pid g' fs0 mid r fs1 now t id :
  entries_justified tr (resolver_cache g') ->
  get_start_time fs0 pid = Some t -> get_start_time fs1 pid = Some t -> identity_of r = inl id ->
  looked_up (MkLinux g tr) pid (inl id)
    (MkLinux (set_resolver_cache (lru_put pid (MkCacheEntry t id now) (resolver_cache g')) g')
       (tr ++ EProcfs fs0 :: mid ++ [ERead (cgroup_file pid) r; EProcfs fs1; ENow now])).
Proof.
  intros H H0 H1 Hr. set (new := EProcfs fs0 :: mid ++ _).
  assert (Hj : justified (tr ++ new) pid t id now).
  { exists tr, fs0, mid, r, fs1, []. by rewrite app_nil_r. }
  split; [by apply entries_put; [apply entries_more|]|]. exists new. split; [done|].
  destruct id as [id|]; [|done]. exists fs0, t, now. unfold new in *. split_and!; [set_solver|done..|].
  left. set_solver.
Qed.

Lemma resolve_ok env pid (l : linux (list event)) :
  let Hx := traced_files env in
  cache_ok l -> looked_up l pid (snd (resolve V2 pid l)) (fst (resolve V2 pid l)).
Proof.
  intros Hx Hok. destruct l as [g tr0]. unfold cache_ok in Hok. cbn [sys globals] in Hok.
  apply (linux_run tr0 g (resolve V2 pid) (looked_up (MkLinux g tr0) pid)).
  pose proof (entries_get tr0 pid _ Hok) as Hget. pose proof (get_peek pid (resolver_cache g)) as Hpeek.
  unfold resolve, cached_entry, still_good, linux_resolve. rewrite !bool_decide_false by done.
  cbn [orb]. linux_go.
  all: try (match goal with E : lru_get _ _ = _ |- _ => rewrite E in Hget, Hpeek end;
            cbn [fst snd] in Hget, Hpeek).
  all: try (apply looked_up_nothing; done).
  all: try (match goal with E : (_ =? _) = true, E' : get_start_time ?a2 _ = Some ?z0 |- _ =>
    lazymatch type of E with (ce_start_time _ =? _) = true => fail | _ => idtac end;
    apply Z.eqb_eq in E; subst end).
  - destruct (elapsed _ _ <? _) eqn:El; [|done]. zb. injection E3 as <-.
    destruct (proj2 Hok pid c (eq_sym Hpeek)) as (pre & fs0 & mid & r & fs1 & post & Hj).
    split; [by apply entries_more|]. eexists; split; [done|].
    destruct (ce_identity c) as [id|] eqn:Ei; [|done].
    exists a, z, (ce_timestamp c). split_and!; [set_solver|done| |].
    + subst z. apply justified_more. by exists pre, fs0, mid, r, fs1, post.
    + right. exists a0. split; [set_solver|done].
  - by apply (looked_up_read _ _ _ (set_resolver_cache l g) a [ENow a0]).
  - by apply (looked_up_read _ _ _ (set_resolver_cache l g) a []).
  - by apply (looked_up_read _ _ _ (set_resolver_cache l g) a []).
Qed.

(** *** Histories

    Between two look-ups anything may happen to the system, as long as the cache
    is left alone. *)
Definition resolve_after (env : world_env) (l : linux (list event)) (step : list event * Z)
    : linux (list event) :=
  fst (resolve (Hf := traced_files env) V2 (snd step) (MkLinux (globals l) (sys l ++ fst step))).

Definition resolver_start (tr : list event) : linux (list event) :=
  MkLinux (MkStatics None None (lru_new 0) (lru_new RESOLVER_CAPACITY)) tr.

Lemma cache_ok_start tr : cache_ok (resolver_start tr).
Proof. split; [apply cap_new|]. intros p e. cbn. by rewrite peek_new. Qed.

Lemma cache_ok_history env tr steps :
  cache_ok (foldl (resolve_after env) (resolver_start tr) steps).
Proof.
  induction steps as [|[new pid] steps IH] using rev_ind; [apply cache_ok_start|].
  rewrite foldl_app. cbn [foldl]. apply resolve_ok. by apply entries_more.
Qed.
End Cache.

(** C12. After any history of look-ups, with anything happening in between, a look-up
    answers a cgroup only if it was read from the kernel for the very process
    that holds the pid now, during this look-up or within the second before it;
    and the cache never holds more than 5000 processes. *)
Theorem cgroup_answers_fresh {Hc : Caches} {Hl : CachesLaws} (env : world_env) (tr : list event)
    (steps : list (list event * Z)) (pid : Z) :
  let l := foldl (resolve_after env) (resolver_start tr) steps in
  let '(l', ans) := resolve (Hf := traced_files env) V2 pid l in
  (exists new, sys l' = sys l ++ new /\ answer_ok (sys l) new pid ans) /\
  (lru_len (resolver_cache (globals l')) <= RESOLVER_CAPACITY)%nat.
Proof.
  intros l. pose proof (cache_ok_history env tr steps) as Hok. fold l in Hok.
  destruct (resolve_ok env pid l Hok) as [[Hcap _] H].
  destruct (resolve V2 pid l) as [l' ans]. split; [done|]. cbn [fst] in Hcap.
  rewrite <- Hcap. apply len_cap.
Qed.

(** A process whose file the kernel shows, looked up twice. *)
Definition demo_env : world_env :=
  MkWorldEnv (fun _ _ => true) (fun _ _ => inl (sapp "0::/user.slice/app.scope" newline))
    (fun _ _ => None)
    (fun _ _ _ => None) (fun _ _ _ => None) (fun _ _ => None) (fun _ _ => None) (fun _ _ => None)
    (fun _ => ManagerProps.demo_procfs) (fun w => Z.of_nat (length w)) (fun _ => Some 8)
    (fun _ _ => None) (fun _ _ => None) (fun _ _ => None).

Lemma cgroup_answers_fresh_witness :
  let l := foldl (resolve_after demo_env) (resolver_start []) [([], 7)] in
  let '(l', ans) := resolve (Hf := traced_files demo_env) V2 7 l in
  ((exists new, sys l' = sys l ++ new /\ answer_ok (sys l) new 7 ans) /\
   (lru_len (resolver_cache (globals l')) <= RESOLVER_CAPACITY)%nat) /\
  ans = inl (Some (MkIdentity "/user.slice/app.scope")).
Proof.
  pose proof (cgroup_answers_fresh demo_env [] [([], 7)] 7) as H. cbv zeta in *.
  destruct (resolve V2 7 _) as [l' ans] eqn:E. split; [exact H|].
  apply (f_equal snd) in E. vm_compute in E. by rewrite <- E.
Defined.
End ResolverProps.
