(* ===== verification/Cgroups.v ===== *)
(** * The cgroup operations of the daemon

    [crates/ananicy-platform/src/cgroups.rs]: the manager of the detected
    hierarchy, built on first use and kept, and the operations the runtime and the
    worker call. *)

From stdpp Require Import base list gmap strings numbers.
From Stdlib Require Import ZArith Lia Ascii.
From S2P Require Import Prelude RustStr Paths Process LruCache Worker Kernel Procfs Files.
From S2P Require Import CgroupManager LinuxState Mounts.

#[local] Open Scope Z_scope.

Record CgroupSettings := MkSettings { cpu_quota : option Z; cpu_weight : option Z }.

Section Cgroups.
Context {Hc : Caches} {X : Type} {Hf : Files X}.

Definition get_manager : io (linux X) CgroupManager :=
  g ← get_statics;
  match cgroup_manager g with
  | Some cached => mret cached
  | None =>
      info ← get_cgroup_info;
      m ← manager_new info;
      _ ← modify (set_cgroup_manager (Some m));
      mret m
  end.

Definition reset_cgroup_detection : io (linux X) unit :=
  _ ← reset_cgroup_info;
  modify (set_cgroup_manager None).

Definition has_cgroup_hierarchy : io (linux X) bool :=
  info ← get_cgroup_info;
  mret (negb (bool_decide (version info = NoCgroup))).

(** [set_cpu_weight] of the shared manager, whose memory of what it reported is the
    one everybody shares. *)
Definition weigh (m : CgroupManager) (target : path) (weight : Z) : io (linux X) bool :=
  r ← set_cpu_weight m target weight;
  _ ← modify (set_cgroup_manager (Some (fst r)));
  mret (snd r).

Definition create_cgroup (cgroup_name : string) (settings : CgroupSettings) : io (linux X) bool :=
  manager ← get_manager;
  there ← (match resolve_target_dir manager cgroup_name with
           | Some target => there ← f_exists target;
                            mret (if there : bool then Some target else None)
           | None => mret None
           end);
  found ← (match there with
           | Some target => mret (Some (target, false))
           | None => child ← ensure_child manager cgroup_name;
                     mret ((fun target => (target, true)) <$> child)
           end);
  match found with
  | None => mret false
  | Some (target, created) =>
      _ ← (match cpu_quota settings with
           | Some quota => set_cpu_max manager target quota
           | None => mret true
           end);
      _ ← (match cpu_weight settings with
           | Some weight => weigh manager target weight
           | None => mret true
           end);
      mret created
  end.

Definition add_pid_to_cgroup (pid : Z) (cgroup_name : string) : io (linux X) (option PlatformError) :=
  manager ← get_manager;
  match resolve_target_dir manager cgroup_name with
  | None => mret (Some NotFound)
  | Some target =>
      there ← f_exists target;
      if negb there then mret (Some NotFound) else
      moved ← move_pid manager pid target;
      mret (if moved : bool then None else Some Unsupported)
  end.

Definition set_cpu_weight_for_cgroup (cgroup_name : string) (weight : Z)
    : io (linux X) (option PlatformError) :=
  manager ← get_manager;
  match resolve_target_dir manager cgroup_name with
  | None => mret (Some NotFound)
  | Some target =>
      ok ← weigh manager target weight;
      mret (if ok : bool then None else Some Unsupported)
  end.

End Cgroups.

(** ** What the operations change

    Once the manager of a v2 hierarchy has been built, its root does not move. *)

Definition settled {Hc : Caches} (i : CgroupInfo) (r : option path) (g : statics) : Prop :=
  exists m, cgroup_manager g = Some m /\ info m = i /\ delegated_root m = r.

(** A weight in the kernel's range, written to the [cpu.weight] of some cgroup. *)
Definition weight_event (e : event) : Prop :=
  exists target weight res, 1 <= weight <= 10000 /\
    e = EWrite (push target "cpu.weight") (sapp (fmt_uint weight) newline) res.

(** A change at or below the root the daemon was delegated, or to the controllers
    of the directory above it; or a weight. *)
Definition allowed (r : option path) (e : event) : Prop :=
  file_event e /\ forall p, changes e = Some p ->
  (exists root, r = Some root /\ (within root p \/ controls root p)) \/
  weight_event e.

Section Confined.
Context {Hc : Caches} {X : Type} {Hf : Files X} (I : X -> Prop) (G : event -> Prop) {HL : Logs I G}.
Context (i : CgroupInfo) (r : option path) (HG : forall e, allowed r e -> G e).
Context (Hv2 : version i = V2) (Hmount : ParentDir ∉ components (mount_point i)).

(** Whatever else is known of the statics and does not depend on the manager is kept. *)
Context (K : statics -> Prop) (HK : forall m g, K g -> K (set_cgroup_manager m g)).

#[local] Notation inv := (both (fun g => settled i r g /\ K g) I).

Lemma read_only e : file_event e -> changes e = None -> G e.
Proof. intros Hfe H. apply HG. split; [done|]. intros p. by rewrite H. Qed.

Lemma owned_change root e p :
  r = Some root -> file_event e -> changes e = Some p -> within root p \/ controls root p -> G e.
Proof. intros Hr Hfe Hp Hw. apply HG. split; [done|]. intros p' Hp'. left. exists root. split; [done|]. congruence. Qed.

Lemma root_cases : r = None \/ exists root, r = Some root.
Proof. destruct r; eauto. Qed.

Lemma get_manager_safe :
  safe inv get_manager (fun m => info m = i /\ delegated_root m = r).
Proof.
  unfold get_manager. eapply safe_bind; [apply safe_get_statics|].
  intros g [(m & -> & Hi & Hr) _]. by apply safe_ret.
Qed.

Lemma settled_v2 m : info m = i -> manager_v2 m = true.
Proof. intros H. unfold manager_v2, is_v2. rewrite H. by apply bool_decide_true. Qed.

(** Without a root everything is foreign. *)
Lemma rootless_foreign m target :
  info m = i -> delegated_root m = r -> r = None -> ownership_of m target = Foreign.
Proof.
  intros Hi Hd Hr. unfold ownership_of, classify. by rewrite (settled_v2 m Hi), Hd, Hr.
Qed.

Lemma ensure_child_ok m name :
  info m = i -> delegated_root m = r ->
  safe inv (ensure_child m name) (fun c => forall t, c = Some t -> resolve_target_dir m name = Some t).
Proof.
  intros Hi Hr. destruct root_cases as [Er|[root Er]].
  - unfold ensure_child. destruct (resolve_target_dir m name) as [t|]; [|by apply safe_ret].
    rewrite (rootless_foreign m) by done. by apply safe_ret.
  - eapply safe_weaken; [eapply (ensure_child_safe inv G m root)|].
    + by apply settled_v2.
    + congruence.
    + intros e p. by apply owned_change.
    + apply read_only.
    + by rewrite Hi.
    + intros c H t Ht. by apply H.
Qed.

Lemma move_pid_ok m pid name target :
  info m = i -> delegated_root m = r -> resolve_target_dir m name = Some target ->
  safe inv (move_pid m pid target) (fun _ => True).
Proof.
  intros Hi Hr Ht. destruct root_cases as [Er|[root Er]].
  - unfold move_pid. rewrite (rootless_foreign m) by done. by apply safe_ret.
  - apply (move_pid_safe inv G m root).
    + by apply settled_v2.
    + intros e p. by apply owned_change.
    + apply read_only.
    + intros Ho. eapply (resolve_confined m name); [by apply settled_v2|by rewrite Hi| |done|done].
      congruence.
Qed.

Lemma set_cpu_max_ok m name target quota :
  info m = i -> delegated_root m = r -> resolve_target_dir m name = Some target ->
  safe inv (set_cpu_max m target quota) (fun _ => True).
Proof.
  intros Hi Hr Ht. destruct root_cases as [Er|[root Er]].
  - unfold set_cpu_max. rewrite (rootless_foreign m) by done. by apply safe_ret.
  - apply (set_cpu_max_safe inv G m root).
    + by apply settled_v2.
    + intros e p. by apply owned_change.
    + apply read_only.
    + intros Ho. eapply (resolve_confined m name); [by apply settled_v2|by rewrite Hi| |done|done].
      congruence.
Qed.

Lemma weigh_ok m target weight :
  info m = i -> delegated_root m = r -> safe inv (weigh m target weight) (fun _ => True).
Proof.
  intros Hi Hr. unfold weigh.
  apply (safe_bind _ _ _ (fun x => info (fst x) = i /\ delegated_root (fst x) = r)).
  - unfold set_cpu_weight. rewrite (settled_v2 m Hi). safe_go; [by apply read_only|..].
    + unfold report_weightless. by destruct (lru_peek _ _).
    + apply HG. split; [done|]. intros p _. right. eexists _, _, _. split; [|done]. apply clamp_range. lia.
    + done.
  - intros x [Hi' Hr']. eapply safe_bind; [apply safe_modify|intros; by apply safe_ret].
    intros g [_ Hg]. split; [by exists (fst x)|by apply HK].
Qed.

Lemma create_cgroup_ok name settings : safe inv (create_cgroup name settings) (fun _ => True).
Proof.
  unfold create_cgroup. eapply safe_bind; [apply get_manager_safe|]. intros m [Hi Hr].
  eapply (safe_bind _ _ _ (fun there => forall t, there = Some t -> resolve_target_dir m name = Some t)).
  { destruct (resolve_target_dir m name) as [t|]; safe_go; [by apply read_only|..|done].
    by destruct a; intros ? [= <-]. }
  intros there Ht.
  eapply (safe_bind _ _ _ (fun found => forall t c, found = Some (t, c) -> resolve_target_dir m name = Some t)).
  { destruct there as [t|]; [apply safe_ret; intros ? ? [= <- <-]; auto|].
    eapply safe_bind; [by apply ensure_child_ok|]. intros c Hcv. apply safe_ret.
    intros t b. destruct c; [|done]. intros [= <- <-]. auto. }
  intros [[t c]|] Hfound; [|by apply safe_ret].
  specialize (Hfound t c eq_refl).
  eapply safe_bind; [destruct (cpu_quota settings); [by eapply set_cpu_max_ok|by apply safe_ret]|].
  intros _ _. eapply safe_bind; [destruct (cpu_weight settings); [by apply weigh_ok|by apply safe_ret]|].
  intros _ _. by apply safe_ret.
Qed.

Lemma add_pid_ok pid name : safe inv (add_pid_to_cgroup pid name) (fun _ => True).
Proof.
  unfold add_pid_to_cgroup. eapply safe_bind; [apply get_manager_safe|]. intros m [Hi Hr].
  destruct (resolve_target_dir m name) as [t|] eqn:Et; safe_go; try done; [by apply read_only|].
  by eapply move_pid_ok.
Qed.

Lemma set_weight_ok name weight : safe inv (set_cpu_weight_for_cgroup name weight) (fun _ => True).
Proof.
  unfold set_cpu_weight_for_cgroup. eapply safe_bind; [apply get_manager_safe|]. intros m [Hi Hr].
  destruct (resolve_target_dir m name) as [t|] eqn:Et; safe_go; try done. by apply weigh_ok.
Qed.
End Confined.

(** ** Properties *)
Module CgroupsProps.

(** What the rest of the daemon may ask for. *)
Inductive cgroup_call :=
| CreateCgroup (name : string) (settings : CgroupSettings)
| AddPid (pid : Z) (name : string)
| SetWeight (name : string) (weight : Z).

Definition run_call {Hc : Caches} {X} {Hf : Files X} (c : cgroup_call) : io (linux X) unit :=
  match c with
  | CreateCgroup name settings => _ ← create_cgroup name settings; mret tt
  | AddPid pid name => _ ← add_pid_to_cgroup pid name; mret tt
  | SetWeight name weight => _ ← set_cpu_weight_for_cgroup name weight; mret tt
  end.

(** C5. Once the manager of a v2 hierarchy has been built, whatever names the rules use
    and however the system answers, every change the cgroup operations make is at or
    below the delegated root and cannot climb out of it, with two exceptions: the
    controllers of the directory right above the root, and weights between 1 and
    10000.  Without a delegated root only weights are written. *)
Theorem cgroup_changes_confined {Hc : Caches} (env : world_env) (calls : list cgroup_call)
    (l : linux (list event)) (i : CgroupInfo) (r : option path) :
  settled i r (globals l) -> version i = V2 -> ParentDir ∉ components (mount_point i) ->
  forall e, e ∈ sys (foldl (fun l c => fst (run_call (Hf := traced_files env) c l)) l calls) ->
  e ∈ sys l \/ allowed r e.
Proof.
  intros Hs Hv2 Hm. set (G := fun e => e ∈ sys l \/ allowed r e).
  enough (H : both (fun g => settled i r g /\ True) (Forall G)
    (foldl (fun l c => fst (run_call (Hf := traced_files env) c l)) l calls)).
  { destruct H as [_ H]. intros e. rewrite list.Forall_forall in H. apply H. }
  assert (H0 : both (fun g => settled i r g /\ True) (Forall G) l).
  { split; [done|]. rewrite list.Forall_forall. by left. }
  revert H0. generalize l. clear Hs. induction calls as [|c calls IH]; intros l' Hl'; [done|].
  cbn [foldl]. apply IH. pose proof (traced_logs env G) as HL.
  assert (HG : forall e, allowed r e -> G e) by (by right).
  apply (safe_fst _ _ (fun _ => True)); [|done]. destruct c; cbn [run_call];
    (apply (safe_bind _ _ _ (fun _ => True)); [|intros; by apply safe_ret]).
  - by apply (create_cgroup_ok _ G i r HG Hv2 Hm (fun _ => True)).
  - by apply (add_pid_ok _ G i r HG Hv2 Hm (fun _ => True)).
  - by apply (set_weight_ok _ G i r HG Hv2 (fun _ => True)).
Qed.

Definition demo_linux : linux (list event) :=
  MkLinux (MkStatics None (Some ManagerProps.demo_manager) (lru_new 0) (lru_new 0)) [].
Definition demo_calls : list cgroup_call :=
  [CreateCgroup "games" (MkSettings (Some 50) (Some 300)); AddPid 7 "games"; AddPid 7 "/user.slice"].
Definition demo_final : linux (list event) :=
  foldl (fun l c => fst (run_call (Hf := traced_files ManagerProps.demo_env) c l)) demo_linux demo_calls.

(** The writes of that run: the quota and the weight of the cgroup, and the one
    process; the foreign slice is left alone. *)
Example demo_writes :
  omap changes (sys demo_final) =
  [push ManagerProps.demo_root "games/cpu.max"; push ManagerProps.demo_root "games/cpu.weight";
   push ManagerProps.demo_root "games/cgroup.procs"].
Proof. by vm_compute. Qed.

Lemma cgroup_changes_confined_witness :
  let e := EWrite (push ManagerProps.demo_root "games/cgroup.procs") (sapp "7" newline) None in
  e ∈ sys demo_linux \/ allowed (Some ManagerProps.demo_root) e.
Proof.
  apply (cgroup_changes_confined ManagerProps.demo_env demo_calls demo_linux
    (MkCgroupInfo V2 "/sys/fs/cgroup") (Some ManagerProps.demo_root)).
  - by exists ManagerProps.demo_manager.
  - reflexivity.
  - apply (bool_decide_unpack _). vm_compute. exact Logic.I.
  - fold demo_final. vm_compute. repeat (left; reflexivity) || right.
Defined.
End CgroupsProps.
