(* ===== verification/Platform.v ===== *)
(** * The Linux platform

    [crates/ananicy-platform/src/lib.rs]: [LinuxPlatform], the implementation of
    the worker's [PlatformActions] on top of [/proc], the scheduler and the
    cgroups; and what the worker does to the system when it runs on it. *)

From stdpp Require Import base list gmap strings numbers.
From Stdlib Require Import ZArith Lia Ascii.
From S2P Require Import Prelude RustStr Process CpuSet Config Json RuleData LruCache RuleSet.
From S2P Require Import Worker Kernel Priority Affinity Paths Procfs Files CgroupManager.
From S2P Require Import LinuxState Mounts CgroupResolver Cgroups.

#[local] Open Scope Z_scope.

Section Platform.
Context {Hc : Caches} {X : Type} {Hf : Files X} {Hk : Kernel X}.

(** [LinuxPlatform::new]: an empty cache, and the hierarchy the resolver reads. *)
Definition LinuxPlatform_new : io (linux X) CgroupVersion :=
  info ← get_cgroup_info;
  _ ← modify (set_resolver_cache (lru_new RESOLVER_CAPACITY));
  mret (version info).

Definition platform_is_realtime (pid : Z) : io (linux X) bool :=
  fun l => (l, match k_sched_getattr pid l with
               | Some attr => 0 <? sched_priority attr
               | None => false
               end).

Definition platform_process_name (pid : Z) : io (linux X) string :=
  fs ← f_procfs;
  fs' ← f_procfs;
  fs'' ← f_procfs;
  g ← get_statics;
  let '(cache, name) := get_command_from_pid (MkLookup fs fs' fs'') pid (exe_fail_cache g) in
  _ ← put_statics (set_exe_fail_cache cache g);
  mret name.

Definition platform_tids (pid : Z) : io (linux X) (list Z + PlatformError) :=
  fs ← f_procfs;
  mret (Procfs.get_tids fs pid).

Definition process_cgroup (resolver : CgroupVersion) (pid : Z) : io (linux X) (option CgroupIdentity) :=
  r ← resolve resolver pid;
  mret (match r with inl id => id | inr _ => None end).

Definition platform_cpu_weight (resolver : CgroupVersion) (pid weight : Z)
    : io (linux X) (option PlatformError) :=
  identity ← process_cgroup resolver pid;
  match identity with
  | None => mret (Some NotFound)
  | Some id => set_cpu_weight_for_cgroup (identity_path id) weight
  end.

(** A panic of the mask conversion would end the worker; [set_affinity_total] says
    when there is none. *)
Definition platform_affinity (sys_cpus pid : Z) (tids : list Z) (cpuset : CpuSet)
    : io (linux X) (option PlatformError) :=
  fun l => match Affinity.set_affinity sys_cpus pid tids cpuset l with
           | Some r => r
           | None => (l, Some (Io None))
           end.

Definition linux_platform (resolver : CgroupVersion) (sys_cpus : Z) : PlatformActions (linux X) := {|
  is_realtime := platform_is_realtime;
  get_process_name := platform_process_name;
  is_cgroup_v2 := (v ← cgroup_version; mret (is_v2 v));
  get_max_cores l := (l, get_max_number_of_cpus sys_cpus);
  Worker.get_tids := platform_tids;
  Worker.set_priority _ tids nice := Priority.set_priority tids nice;
  Worker.set_latency_nice _ tids lat_nice := Priority.set_latency_nice tids lat_nice;
  Worker.set_sched _ tids sched rtprio := Priority.set_sched tids sched rtprio;
  Worker.set_io_priority pid ioclass ionice := Priority.set_io_priority pid ioclass ionice;
  set_oom_score_adj pid adj := set_oom_score_adjust pid adj;
  Worker.add_pid_to_cgroup pid cgroup := Cgroups.add_pid_to_cgroup pid cgroup;
  Worker.set_cpu_weight pid weight := platform_cpu_weight resolver pid weight;
  Worker.set_affinity pid tids cpuset := platform_affinity sys_cpus pid tids cpuset;
|}.

End Platform.

(** The mask conversion does not panic when the CPU count is a multiple of eight. *)
Lemma set_affinity_total {W} {Hk : Kernel W} sys_cpus pid tids cpuset (w : W) :
  get_max_number_of_cpus sys_cpus mod 8 = 0 -> CpuSet.wf cpuset ->
  Affinity.set_affinity sys_cpus pid tids cpuset w <> None.
Proof.
  intros H8 Hwf. unfold Affinity.set_affinity. destruct (is_empty cpuset); [done|].
  destruct (mask_from_spec cpuset (get_max_number_of_cpus sys_cpus) Hwf) as (mask & -> & _);
    [unfold get_max_number_of_cpus; lia|done|].
  by destruct (apply_to_tids tids mask w).
Qed.

(** ** What the actions do to the system *)

(** The interface of [Logs], for the system calls. *)
Class Calls {W} {Hk : Kernel W} (I : W -> Prop) (G : event -> Prop) : Prop := {
  call_setpriority : forall t n, (forall r, G (ESys (SysSetPriority t n) r)) ->
    safe I (k_setpriority t n) (fun _ => True);
  call_setattr : forall t a, (forall r, G (ESys (SysSetAttr t a) r)) ->
    safe I (k_sched_setattr t a) (fun _ => True);
  call_setscheduler : forall t p q, (forall r, G (ESys (SysSetScheduler t p q) r)) ->
    safe I (k_sched_setscheduler t p q) (fun _ => True);
  call_setaffinity : forall t m, (forall r, G (ESys (SysSetAffinity t m) r)) ->
    safe I (k_sched_setaffinity t m) (fun _ => True);
  call_ioprio : forall a b c, (forall r, G (ESys (SysIoprioSet a b c) r)) ->
    safe I (k_ioprio_set a b c) (fun _ => True);
  call_write : forall p t, (forall r, G (ESys (SysWrite p t) r)) ->
    safe I (k_write p t) (fun _ => True);
}.

#[global] Instance traced_calls env G : Calls (Hk := traced_kernel env) (Forall G) G.
Proof. split; intros; by apply safe_record. Qed.

#[global] Instance linux_calls {Hc : Caches} {X} {Hk : Kernel X} J I G {HC : Calls I G} :
  Calls (both J I) G.
Proof. destruct HC. split; intros; apply safe_on_sys; auto. Qed.

Section Actions.
Context {W : Type} {Hk : Kernel W} (I : W -> Prop) (G : event -> Prop) {HC : Calls I G}.

Lemma each_thread_safe (f : Z -> io W (option sys_error)) tids :
  (forall tid, tid ∈ tids -> safe I (f tid) (fun _ => True)) ->
  safe I (each_thread f tids) (fun _ => True).
Proof.
  induction tids as [|tid tids IH]; intros H w Hw; [done|]. cbn [each_thread].
  destruct (H tid ltac:(left) w Hw) as [H1 _]. destruct (f tid w) as [w1 r].
  destruct (IH ltac:(intros; apply H; by right) w1 H1) as [H2 _]. by destruct (each_thread f tids w1).
Qed.

(** The state a computation leaves, when the result does not matter. *)
Lemma safe_through {A B} (c : io W A) (k : A -> B) w :
  safe I c (fun _ => True) -> I w -> I (fst (let '(w, a) := c w in (w, k a))).
Proof. intros H Hw. destruct (H w Hw) as [H1 _]. by destruct (c w). Qed.

Context (tids : list Z) (Hthreads : forall tid c r, tid ∈ tids ->
  match c with
  | SysSetPriority t _ | SysSetAttr t _ | SysSetScheduler t _ _ | SysSetAffinity t _ => t = tid
  | _ => False
  end -> G (ESys c r)).

Lemma set_priority_keeps n w : I w -> I (fst (Priority.set_priority tids n w)).
Proof.
  apply safe_through, each_thread_safe. intros tid Ht. apply call_setpriority. intros r.
  by apply (Hthreads tid).
Qed.

Lemma set_latency_keeps n w : I w -> I (fst (Priority.set_latency_nice tids n w)).
Proof.
  apply safe_through, each_thread_safe. intros tid Ht. apply call_setattr. intros r.
  by apply (Hthreads tid).
Qed.

Lemma set_sched_keeps s p w : I w -> I (fst (Priority.set_sched tids s p w)).
Proof.
  unfold Priority.set_sched. destruct (sched_of s p) as [[[sched prio] report]|]; [|done].
  apply safe_through, each_thread_safe. intros tid Ht. apply call_setscheduler. intros r.
  by apply (Hthreads tid).
Qed.

Lemma apply_to_tids_keeps mask w : I w -> I (fst (apply_to_tids tids mask w)).
Proof.
  intros Hw. unfold apply_to_tids.
  assert (H : safe I (each_thread (fun tid => k_sched_setaffinity tid mask) tids) (fun _ => True)).
  { apply each_thread_safe. intros tid Ht. apply call_setaffinity. intros r. by apply (Hthreads tid). }
  destruct (H w Hw) as [H1 _]. destruct (each_thread _ tids w) as [w1 rs].
  by destruct (foldl affinity_step _ rs) as [[? ?] ?].
Qed.

Lemma retry_keeps pid mask allowed machine w :
  I w -> I (fst (retry_narrowed pid tids mask allowed machine w)).
Proof.
  intros Hw. unfold retry_narrowed. destruct (negb _); [done|]. destruct (bool_decide _); [done|].
  pose proof (apply_to_tids_keeps (mask_and mask allowed) w Hw).
  by destruct (apply_to_tids _ _ w).
Qed.

Lemma set_affinity_keeps sys_cpus pid cpuset w r :
  I w -> Affinity.set_affinity sys_cpus pid tids cpuset w = Some r -> I (fst r).
Proof.
  intros Hw. unfold Affinity.set_affinity. destruct (is_empty cpuset); [by intros [= <-]|].
  destruct (mask_from _ _) as [mask|]; [|done].
  pose proof (apply_to_tids_keeps mask w Hw) as H1.
  destruct (apply_to_tids tids mask w) as [w1 [[|e]|]]; intros [= <-]; [|done..].
  unfold narrow_and_retry. repeat case_match; try done; by apply retry_keeps.
Qed.
End Actions.

(** ** The worker on Linux *)

(** The manager of a hierarchy is built and the detection is cached, as both are once a
    [LinuxPlatform] and a manager exist: nothing probes the mounts any more. *)
Definition detected {Hc : Caches} (i : CgroupInfo) (r : option path) (g : statics) : Prop :=
  settled i r g /\ is_Some (cgroup_info g).

Section OnLinux.
Context {Hc : Caches} (env : world_env) (i : CgroupInfo) (r : option path) (pids : list Z).

(** A thread of a process: the process itself, or one the kernel listed under it. *)
Definition thread_of (pid tid : Z) : Prop :=
  tid = pid \/ exists tr tids, Procfs.get_tids (we_procfs env tr) pid = inl tids /\ tid ∈ tids.

(** A system call the worker may make for a process. *)
Definition call_for (pid : Z) (c : syscall) : Prop :=
  match c with
  | SysSetPriority tid _ | SysSetAttr tid _ | SysSetScheduler tid _ _ | SysSetAffinity tid _ =>
      thread_of pid tid
  | SysIoprioSet which who _ => which = IOPRIO_WHO_PROCESS /\ who = pid
  | SysWrite p _ => p = sapp "/proc/" (sapp (fmt_int pid) "/oom_score_adj")
  end.

Definition expected (e : event) : Prop :=
  match e with
  | ESys c _ => exists pid, pid ∈ pids /\ pid <> 0 /\ call_for pid c
  | _ => allowed r e
  end.

Context (G : event -> Prop) (HG : forall e, expected e -> G e).
Context (Hv2 : version i = V2) (Hmount : ParentDir ∉ components (mount_point i)).
#[local] Notation inv := (both (detected i r) (Forall G)).
#[local] Notation Hx := (traced_files env).
#[local] Notation Hs := (traced_kernel env).

Lemma allowed_good e : allowed r e -> G e.
Proof. intros H. apply HG. destruct e; try done. by destruct H. Qed.
Lemma quiet_good e : file_event e -> changes e = None -> G e.
Proof. intros Hf H. apply allowed_good. split; [done|]. intros p. by rewrite H. Qed.

Lemma detected_stable (f : statics -> statics) g :
  cgroup_manager (f g) = cgroup_manager g -> cgroup_info (f g) = cgroup_info g ->
  detected i r g -> detected i r (f g).
Proof. intros E E' [(m & H) Hi]. split; [exists m; by rewrite E|by rewrite E']. Qed.

#[local] Existing Instances traced_logs traced_calls linux_logs linux_calls.

Lemma procfs_safe : safe inv (f_procfs (Files := linux_files (Hf := Hx))) (fun _ => True).
Proof. apply safe_on_sys, safe_record. intros fs. by apply quiet_good. Qed.

Lemma now_safe : safe inv (f_now (Files := linux_files (Hf := Hx))) (fun _ => True).
Proof. apply safe_on_sys, safe_record. intros t. by apply quiet_good. Qed.

Lemma name_safe pid : safe inv (platform_process_name (Hf := Hx) pid) (fun _ => True).
Proof.
  unfold platform_process_name. eapply safe_bind; [apply procfs_safe|]. intros fs _.
  eapply safe_bind; [apply procfs_safe|]. intros fs' _.
  eapply safe_bind; [apply procfs_safe|]. intros fs'' _.
  eapply safe_bind; [apply safe_get_statics|]. intros g Hg.
  destruct (get_command_from_pid _ _ _) as [cache n].
  eapply (safe_bind _ _ _ (fun _ => True)); [|intros; by apply safe_ret].
  by apply safe_put_statics, detected_stable.
Qed.

Lemma tids_safe pid : safe inv (platform_tids (Hf := Hx) pid) (fun _ => True).
Proof.
  unfold platform_tids. eapply safe_bind; [apply procfs_safe|]. intros. by apply safe_ret.
Qed.

Lemma v2_safe :
  safe inv (v ← cgroup_version (Hf := Hx); mret (is_v2 v)) (fun _ => True).
Proof.
  eapply (safe_bind _ _ _ (fun _ => True)); [|intros; by apply safe_ret].
  unfold cgroup_version. eapply safe_bind; [apply safe_get_statics|].
  intros g [_ [info ->]]. by apply safe_ret.
Qed.

Lemma resolve_safe version pid : safe inv (resolve (Hf := Hx) version pid) (fun _ => True).
Proof.
  unfold resolve. eapply safe_bind; [apply procfs_safe|]. intros fs _.
  destruct (get_start_time fs pid) as [t|]; [|by apply safe_ret].
  eapply (safe_bind _ _ _ (fun _ => True)).
  { unfold cached_entry. eapply safe_bind; [apply safe_get_statics|]. intros g Hg.
    destruct (lru_get _ _) as [cache entry].
    eapply (safe_bind _ _ _ (fun _ => True)); [|intros; by apply safe_ret].
    by apply safe_put_statics, detected_stable. }
  intros entry _. eapply (safe_bind _ _ _ (fun _ => True)).
  { unfold still_good. destruct entry as [e|]; [|by apply safe_ret].
    destruct (_ =? _); [|by apply safe_ret].
    eapply safe_bind; [apply now_safe|]. intros. by apply safe_ret. }
  intros [id|] _; [by apply safe_ret|]. eapply (safe_bind _ _ _ (fun _ => True)).
  { unfold linux_resolve. destruct (_ || _); [by apply safe_ret|].
    eapply (safe_bind _ _ _ (fun _ => True)); [|intros; by apply safe_ret].
    apply safe_on_sys, safe_record. intros. by apply quiet_good. }
  intros [id|e] _; [|by apply safe_ret].
  eapply safe_bind; [apply procfs_safe|]. intros fs' _.
  destruct (get_start_time fs' pid); [|by apply safe_ret]. destruct (_ =? _); [|by apply safe_ret].
  eapply safe_bind; [apply now_safe|]. intros now _.
  eapply safe_bind; [|intros; by apply safe_ret].
  apply safe_modify. intros g. by apply detected_stable.
Qed.

Lemma weight_safe version pid weight :
  safe inv (platform_cpu_weight (Hf := Hx) version pid weight) (fun _ => True).
Proof.
  unfold platform_cpu_weight, process_cgroup.
  eapply (safe_bind _ _ _ (fun _ => True)).
  { eapply safe_bind; [apply resolve_safe|]. intros. by apply safe_ret. }
  intros [id|] _; [|by apply safe_ret].
  by apply (set_weight_ok (Hf := Hx) (Forall G) G i r allowed_good Hv2 (fun g => is_Some (cgroup_info g))).
Qed.

(** The queries and actions of the platform keep to what is expected. *)
Lemma platform_keeps resolver sys_cpus pid :
  keeps (Hplatform := linux_platform (Hf := Hx) (Hk := Hs) resolver sys_cpus) inv
    (fun tids => forall tid, tid ∈ tids -> thread_of pid tid) pid.
Proof.
  split.
  - done.
  - intros l Hl. by apply (name_safe pid).
  - intros l Hl. by apply v2_safe.
  - done.
  - intros l Hl. by apply (tids_safe pid).
  - intros l tids _ Ht tid Hin. right. cbn in Ht. by exists (sys l), tids.
  - intros tid ->%list_elem_of_singleton. by left.
Qed.

Lemma platform_preserves resolver sys_cpus pid tids :
  pid ∈ pids -> pid <> 0 -> (forall tid, tid ∈ tids -> thread_of pid tid) ->
  preserves (Hplatform := linux_platform (Hf := Hx) (Hk := Hs) resolver sys_cpus) inv pid tids.
Proof.
  intros Hp H0 Ht.
  assert (Hth : forall tid c res, tid ∈ tids ->
    match c with
    | SysSetPriority t _ | SysSetAttr t _ | SysSetScheduler t _ _ | SysSetAffinity t _ => t = tid
    | _ => False
    end -> G (ESys c res)).
  { intros tid c res Hin Htid. apply HG. exists pid. split_and!; [done..|].
    destruct c; try done; subst; by apply Ht. }
  split; cbn [linux_platform Worker.set_priority Worker.set_cpu_weight Worker.set_latency_nice
    Worker.set_sched Worker.set_io_priority set_oom_score_adj Worker.add_pid_to_cgroup
    Worker.set_affinity].
  - intros n l. by apply (set_priority_keeps inv G).
  - intros n l _ Hl. by apply weight_safe.
  - intros n l. by apply (set_latency_keeps inv G).
  - intros s p l. by apply (set_sched_keeps inv G).
  - intros c n l Hl. unfold Priority.set_io_priority. destruct (io_class_value c); [|done].
    destruct (ioprio_valid _); [|done]. apply safe_through; [|done]. apply (call_ioprio (I := inv) (G := G)).
    intros res. apply HG. by exists pid.
  - intros n l Hl. unfold set_oom_score_adjust. apply safe_through; [|done].
    apply (call_write (I := inv) (G := G)). intros res. apply HG. by exists pid.
  - intros c l Hl. by apply (add_pid_ok (Hf := Hx) (Forall G) G i r allowed_good Hv2 Hmount
      (fun g => is_Some (cgroup_info g))).
  - intros c l Hl. unfold platform_affinity.
    destruct (Affinity.set_affinity sys_cpus pid tids c l) as [x|] eqn:E; [|done].
    exact (set_affinity_keeps inv G tids Hth sys_cpus pid c l x Hl E).
Qed.
End OnLinux.

(** ** Properties *)
Module PlatformProps.

(** C1. The worker on Linux with a v2 hierarchy, detected and its manager built, whatever
    the rules and however the system answers: every system call it makes is for a
    process it received or a thread the kernel listed under it, never for pid 0;
    every file it changes is the OOM adjustment of such a process, lies at or below
    the delegated cgroup root (or is the controllers file right above it), or is a
    weight between 1 and 10000.  On a v1 hierarchy names can lead out of it:
    [ManagerProps.v1_name_escapes]. *)
Theorem worker_confined {Hc : Caches} {Hw : WeightOfNice} {Hr : RegexEngine}
    {Hl : Lru string (option RuleName)} (env : world_env) (resolver : CgroupVersion) (sys_cpus : Z)
    (aliases : gmap string string) (bench : option Z) (ms : list message)
    (s : worker_state (W := linux (list event))) (i : CgroupInfo) (r : option path) :
  detected i r (globals (world s)) -> version i = V2 -> ParentDir ∉ components (mount_point i) ->
  let platform := linux_platform (Hf := traced_files env) (Hk := traced_kernel env) resolver sys_cpus in
  forall e, e ∈ sys (world (work_loop (Hplatform := platform) aliases bench ms s)) ->
  e ∈ sys (world s) \/ expected env r (received ms) e.
Proof.
  intros Hs Hv2 Hm platform. set (G := fun e => e ∈ sys (world s) \/ expected env r (received ms) e).
  assert (HG : forall e, expected env r (received ms) e -> G e) by (by right).
  enough (H : both (detected i r) (Forall G)
    (world (work_loop (Hplatform := platform) aliases bench ms s))).
  { destruct H as [_ H]. intros e. rewrite list.Forall_forall in H. apply H. }
  apply (work_loop_preserves (Hplatform := platform) _
    (fun pid tids => forall tid, tid ∈ tids -> thread_of env pid tid)).
  - intros l Hl'. by apply (v2_safe env i r G).
  - intros pid Hpid H0. split; [by apply (platform_keeps env i r (received ms) G HG)|].
    intros tids Ht. by apply (platform_preserves env i r (received ms) G HG).
  - split; [done|]. rewrite list.Forall_forall. by left.
Qed.

(** A rule that sets a nice value and a cgroup, for one process of two threads. *)
Definition demo_procfs : procfs :=
  MkProcfs (fun _ => None) (fun _ => inr (Errno ENOENT)) (fun _ => Some (sapp "ls" newline))
    (fun _ => Some (stat_line 42 "ls" (replicate 19 "0" ++ ["345"])))
    (fun _ => Some (sapp "Tgid: 42" newline)) (fun _ => inl ["42"; "43"]) None.
Definition demo_env : world_env :=
  MkWorldEnv (fun _ _ => true) (fun _ _ => inl (sapp "0::/user.slice" newline))
    (fun _ _ => None) (fun _ _ _ => None)
    (fun _ _ _ => None) (fun _ _ => None) (fun _ _ => None) (fun _ _ => None)
    (fun _ => demo_procfs) (fun w => Z.of_nat (length w)) (fun _ => Some 8) (fun _ _ => None)
    (fun _ _ => None) (fun _ _ => None).
Definition demo_rule : Value :=
  VObject [("name", VString "ls"); ("nice", of_int 5); ("latency_nice", of_int 0);
           ("cgroup", VString "games")].
Definition demo_state : worker_state (W := linux (list event)) :=
  let '(t, rs, _) := define_program "ls" demo_rule NameTable_default Rules_new in
  MkWorker (MkLinux (MkStatics (Some (MkCgroupInfo V2 "/sys/fs/cgroup"))
                       (Some ManagerProps.demo_manager) exe_fail_cache_new (lru_new RESOLVER_CAPACITY)) [])
    t (shared_new rs) default 0 false [].
Definition demo_messages : list message := [Received (Process_new 42 "ls")].
Definition demo_run : worker_state (W := linux (list event)) :=
  work_loop (Hplatform := linux_platform (Hf := traced_files demo_env) (Hk := traced_kernel demo_env) V2 16)
    (Hweight := WorkerProps.demo_weight) ∅ None demo_messages demo_state.

Example demo_changes :
  omap (fun e => match e with ESys c _ => Some (inl c) | EWrite p t _ => Some (inr (p, t)) | _ => None end)
    (sys (world demo_run)) =
  [inl (SysSetPriority 42 5); inl (SysSetPriority 43 5);
   inr ("/sys/fs/cgroup/user.slice/cpu.weight", sapp "20" newline);
   inl (SysSetAttr 42 (latency_attr 0)); inl (SysSetAttr 43 (latency_attr 0));
   inr (push ManagerProps.demo_root "games/cgroup.procs", sapp "42" newline)].
Proof. by vm_compute. Qed.

Lemma worker_confined_witness :
  ESys (SysSetPriority 43 5) None ∈ sys (world demo_state) \/
  expected demo_env (Some ManagerProps.demo_root) (received demo_messages)
    (ESys (SysSetPriority 43 5) None).
Proof.
  apply (worker_confined (Hw := WorkerProps.demo_weight) demo_env V2 16 ∅ None demo_messages demo_state
    (MkCgroupInfo V2 "/sys/fs/cgroup") (Some ManagerProps.demo_root)).
  - split; [by exists ManagerProps.demo_manager|by eexists].
  - reflexivity.
  - apply (bool_decide_unpack _). vm_compute. exact Logic.I.
  - vm_compute. repeat (left; reflexivity) || right.
Defined.

End PlatformProps.
