(* ===== verification/Binary64.v ===== *)
(** * Binary64 arithmetic

    The [f64] of the Rust sources as the binary64 of [SpecFloat], computed with its
    rounding: conversions of integers, products, sums, quotients and the comparison
    the daemon makes.  The lemmas say what the rounding does to integers: below [2^53]
    conversions, products and sums are exact, and a comparison of an integer with a
    rounded quotient or product is the comparison of the exact numbers where their
    distance allows it. *)

From stdpp Require Import base numbers.
From Stdlib Require Import ZArith Lia SpecFloat.
From S2P Require Import Prelude.

#[local] Open Scope Z_scope.

Definition f64 : Type := spec_float.
(** [x as f64] of a [u64] or a [usize]. *)
Definition f64_of (z : Z) : f64 := binary_normalize 53 1024 z 0 false.
Definition f64_mul : f64 -> f64 -> f64 := SFmul 53 1024.
Definition f64_add : f64 -> f64 -> f64 := SFadd 53 1024.
Definition f64_div : f64 -> f64 -> f64 := SFdiv 53 1024.
Definition f64_lt : f64 -> f64 -> bool := SFltb.
(** The literals [1.3] and [0.0]. *)
Definition f64_1_3 : f64 := S754_finite false 5854679515581645 (-52).
Definition f64_0 : f64 := S754_zero false.

(** ** Integers below [2^53]

    The conversion is exact, so it keeps the order. *)
Lemma digits2_bounds p :
  2 ^ (Zpos (digits2_pos p) - 1) <= Zpos p < 2 ^ Zpos (digits2_pos p).
Proof.
  induction p as [p IH|p IH|]; cbn [digits2_pos]; [| |done];
    rewrite Pos2Z.inj_succ, Z.pow_succ_r by lia;
    replace (Z.succ (Zpos (digits2_pos p)) - 1) with (Z.succ (Zpos (digits2_pos p) - 1)) by lia;
    rewrite Z.pow_succ_r by lia; lia.
Qed.

Lemma iter_xO p d :
  Zpos (digits2_pos (Pos.iter xO p d)) = Zpos (digits2_pos p) + Zpos d /\
  Zpos (Pos.iter xO p d) = Zpos p * 2 ^ Zpos d.
Proof.
  induction d as [|d [IH1 IH2]] using Pos.peano_ind.
  - simpl. rewrite Pos2Z.inj_succ. lia.
  - rewrite Pos.iter_succ. cbn [digits2_pos]. split; [lia|].
    rewrite Pos2Z.inj_succ, Z.pow_succ_r by lia. lia.
Qed.

Lemma shr_fexp_exact m e :
  Zpos (digits2_pos m) = 53 -> -1074 <= e ->
  shr_fexp 53 1024 (Zpos m) e loc_Exact = (Build_shr_record (Zpos m) false false, e).
Proof.
  intros Hd He. unfold shr_fexp, fexp, emin, Zdigits2. rewrite Hd.
  by replace (Z.max _ _ - e) with 0 by lia.
Qed.

Lemma f64_of_small a :
  0 < a < 2 ^ 53 -> exists m e,
  f64_of a = S754_finite false m e /\ Zpos (digits2_pos m) = 53 /\ -53 <= e <= 0 /\
  Zpos m = a * 2 ^ (- e).
Proof.
  intros Ha. destruct a as [|p|p]; [lia| |lia]. unfold f64_of, binary_normalize, binary_round.
  set (d := Zpos (digits2_pos p)). pose proof (digits2_bounds p) as Hb. fold d in Hb.
  assert (Hd : d <= 53).
  { destruct (Z_le_gt_dec d 53); [done|]. pose proof (Z.pow_le_mono_r 2 53 (d - 1)). lia. }
  assert (Hf : fexp 53 1024 (d + 0) = d - 53) by (unfold fexp, emin; lia).
  rewrite Hf. unfold shl_align. rewrite Z.sub_0_r.
  assert (Hmain : forall m e, Zpos (digits2_pos m) = 53 -> -53 <= e <= 0 -> Zpos m = Zpos p * 2 ^ (- e) ->
    exists m' e', binary_round_aux 53 1024 false (Zpos m) e loc_Exact = S754_finite false m' e' /\
      Zpos (digits2_pos m') = 53 /\ -53 <= e' <= 0 /\ Zpos m' = Zpos p * 2 ^ (- e')).
  { intros m e Hm He Hv. exists m, e. split_and!; try done; try lia.
    unfold binary_round_aux. rewrite shr_fexp_exact by (done || lia). cbn [shr_m loc_of_shr_record].
    unfold round_nearest_even. rewrite shr_fexp_exact by (done || lia). cbn [shr_m].
    by replace (e <=? 1024 - 53) with true by (symmetry; apply Z.leb_le; lia). }
  destruct (d - 53) as [|q|q] eqn:E; [|lia|].
  - apply Hmain; [lia|lia|]. simpl. lia.
  - destruct (iter_xO p q) as [H1 H2]. apply Hmain; [lia|lia|]. rewrite H2. done.
Qed.

Lemma f64_lt_mono a b t :
  0 < a -> a <= b -> b < 2 ^ 53 -> f64_lt (f64_of b) t = true -> f64_lt (f64_of a) t = true.
Proof.
  intros Ha Hab Hb.
  destruct (f64_of_small a) as (ma & ea & -> & Da & Ea & Va); [lia|].
  destruct (f64_of_small b) as (mb & eb & -> & Db & Eb & Vb); [lia|].
  pose proof (digits2_bounds ma) as Ba. pose proof (digits2_bounds mb) as Bb.
  rewrite Da in Ba. rewrite Db in Bb.
  assert (Hle : ea < eb \/ ea = eb /\ Zpos ma <= Zpos mb).
  { destruct (Z.lt_trichotomy ea eb) as [?|[->|Hlt]]; [by left|right; split; [done|nia]|exfalso].
    replace (2 ^ (- eb)) with (2 ^ (- ea) * (2 * 2 ^ (ea - eb - 1))) in Vb.
    2:{ rewrite <- Z.pow_succ_r, <- Z.pow_add_r by lia. f_equal. lia. }
    pose proof (Z.pow_pos_nonneg 2 (ea - eb - 1) ltac:(lia) ltac:(lia)).
    pose proof (Z.pow_pos_nonneg 2 (- ea) ltac:(lia) ltac:(lia)).
    generalize dependent (2 ^ (ea - eb - 1)). intros y Vb Hy.
    generalize dependent (2 ^ (- ea)). intros x Va Vb Hx.
    assert (Zpos ma <= b * x) by nia. assert (b * x * 2 <= Zpos mb) by nia.
    change (2 ^ (53 - 1)) with (2 ^ 52) in *. lia. }
  unfold f64_lt, SFltb, SFcompare. destruct t as [s|s| |s m e]; try done; destruct s; try done.
  destruct (Z.compare_spec eb e); [|intros _|done].
  - intros H1. destruct (Z.compare_spec ea e); [|done|lia].
    change (Pos.compare_cont Eq mb m) with (mb ?= m)%positive in H1.
    change (Pos.compare_cont Eq ma m) with (ma ?= m)%positive.
    destruct (Pos.compare_spec mb m); try done.
    destruct (Pos.compare_spec ma m); try done; lia.
  - destruct (Z.compare_spec ea e); [lia|done|lia].
Qed.

(** ** Rounding

    The number to round is [X / d] in units of [2^e], with [X = m * d + r]: the mantissa
    [m] and what is left below its last bit. *)

(** A shifted record holds the quotient of [X] by a unit, and where the rest lies. *)
Definition represents (mrs : shr_record) (X U : Z) : Prop :=
  0 <= shr_m mrs /\ shr_m mrs = X / U /\
  shr_r mrs = (U <=? 2 * (X mod U)) /\
  shr_s mrs = negb (X mod U =? 0) && negb (2 * (X mod U) =? U).

Lemma new_location_eq d r :
  new_location d r = if r =? 0 then loc_Exact else loc_Inexact (2 * r ?= d).
Proof.
  unfold new_location, new_location_even, new_location_odd.
  destruct (Z.even d) eqn:Ev; [done|]. destruct (r =? 0); [done|]. f_equal.
  assert (2 * r <> d) by (intros <-; by rewrite Z.even_mul in Ev).
  destruct (Z.compare_spec (2 * r + 1) d), (Z.compare_spec (2 * r) d); try done; lia.
Qed.

Lemma represents_loc m d r :
  0 <= m -> 0 <= r < d -> represents (shr_record_of_loc m (new_location d r)) (m * d + r) d.
Proof.
  intros Hm Hr. unfold represents. rewrite new_location_eq.
  assert ((m * d + r) / d = m) as -> by (rewrite Z.div_add_l, Z.div_small by lia; lia).
  assert ((m * d + r) mod d = r) as ->
    by (rewrite Z.add_comm, Z_mod_plus_full; by apply Z.mod_small).
  destruct (Z.eqb_spec r 0) as [->|Hr0].
  { cbn. split_and!; try done. symmetry. apply Z.leb_gt. lia. }
  destruct (Z.compare_spec (2 * r) d) as [E|E|E]; cbn; split_and!; try done; symmetry;
    try (apply Z.leb_le; lia); try (apply Z.leb_gt; lia).
  - by rewrite (proj2 (Z.eqb_eq _ _)).
  - by rewrite (proj2 (Z.eqb_neq (2 * r) d)) by lia.
  - by rewrite (proj2 (Z.eqb_neq (2 * r) d)) by lia.
Qed.

Lemma represents_shr_1 mrs X U :
  0 < U -> 0 <= X -> represents mrs X U -> represents (shr_1 mrs) X (2 * U).
Proof.
  intros HU HX (H0 & Hm & Hr & Hs). destruct mrs as [m r s]. cbn [shr_m shr_r shr_s] in *.
  pose proof (Z.div_mod X U ltac:(lia)) as E. pose proof (Z.mod_pos_bound X U HU) as B.
  rewrite <- Hm in E. set (q := X mod U) in *.
  assert (Hb : exists k b, (b = 0 \/ b = 1) /\ m = 2 * k + b /\ 0 <= k /\
    shr_1 (Build_shr_record m r s) = Build_shr_record k (b =? 1) (r || s)).
  { destruct m as [|[p|p|]|p]; [exists 0, 0|exists (Zpos p), 1|exists (Zpos p), 0|exists 0, 1|lia];
      cbn; split_and!; try done; try lia; auto. }
  destruct Hb as (k & b & Hb & -> & Hk & ->).
  assert (Eq2 : X = (2 * U) * k + (b * U + q)) by (rewrite E; ring).
  assert (Bq : 0 <= b * U + q < 2 * U) by (destruct Hb as [-> | ->]; lia).
  assert (D : X / (2 * U) = k) by (symmetry; eapply Z.div_unique_pos; [exact Bq|exact Eq2]).
  assert (M : X mod (2 * U) = b * U + q) by (symmetry; eapply Z.mod_unique_pos; [exact Bq|exact Eq2]).
  unfold represents. cbn [shr_m shr_r shr_s]. rewrite D, M, Hr, Hs. split_and!; [done|done| |].
  - destruct Hb as [-> | ->]; symmetry; cbn [Z.eqb]; [apply Z.leb_gt; lia|apply Z.leb_le; lia].
  - destruct Hb as [-> | ->], (Z.leb_spec U (2 * q)), (Z.eqb_spec q 0), (Z.eqb_spec (2 * q) U);
      cbn [orb negb andb]; symmetry; rewrite ?andb_true_iff, ?andb_false_iff, ?negb_true_iff,
        ?negb_false_iff, ?Z.eqb_eq, ?Z.eqb_neq; lia.
Qed.

Lemma represents_iter p mrs X U :
  0 < U -> 0 <= X -> represents mrs X U -> represents (iter_pos shr_1 p mrs) X (2 ^ Zpos p * U).
Proof.
  intros HU HX. revert mrs U HU. induction p as [p IH|p IH|]; intros mrs U HU H; cbn [iter_pos].
  - replace (2 ^ Zpos p~1 * U) with (2 ^ Zpos p * (2 ^ Zpos p * (2 * U))).
    2: { replace (Zpos p~1) with (1 + (Zpos p + Zpos p)) by lia. rewrite !Z.pow_add_r by lia. ring. }
    assert (0 < 2 ^ Zpos p) by (apply Z.pow_pos_nonneg; lia).
    apply IH; [lia|]. apply IH; [lia|]. by apply represents_shr_1.
  - replace (2 ^ Zpos p~0 * U) with (2 ^ Zpos p * (2 ^ Zpos p * U)).
    2: { replace (Zpos p~0) with (Zpos p + Zpos p) by lia. rewrite Z.pow_add_r by lia. ring. }
    assert (0 < 2 ^ Zpos p) by (apply Z.pow_pos_nonneg; lia).
    apply IH; [lia|]. by apply IH.
  - by apply represents_shr_1.
Qed.

(** Rounding is to a nearest multiple of the unit. *)
Lemma round_even_close mrs X U :
  0 < U -> 0 <= X -> represents mrs X U ->
  let M := round_nearest_even (shr_m mrs) (loc_of_shr_record mrs) in
  X / U <= M <= X / U + 1 /\ 2 * Z.abs (M * U - X) <= U.
Proof.
  intros HU HX (H0 & Hm & Hr & Hs) M.
  pose proof (Z.div_mod X U ltac:(lia)) as E. pose proof (Z.mod_pos_bound X U HU) as B.
  assert (HM : M = X / U /\ 2 * (X mod U) <= U \/ M = X / U + 1 /\ U <= 2 * (X mod U)).
  { subst M. rewrite <- Hm. destruct mrs as [m r s]. cbn [shr_m shr_r shr_s] in *. subst r s.
    destruct (Z.leb_spec U (2 * (X mod U))), (Z.eqb_spec (X mod U) 0), (Z.eqb_spec (2 * (X mod U)) U);
      cbn; try lia. destruct (Z.even m); lia. }
  destruct HM as [[-> ?]|[-> ?]]; lia.
Qed.

Lemma digits_eq p k : 0 <= k -> 2 ^ k <= Zpos p < 2 ^ (k + 1) -> Zpos (digits2_pos p) = k + 1.
Proof.
  intros Hk Hp. pose proof (digits2_bounds p) as B. set (d := Zpos (digits2_pos p)) in *.
  assert (0 < d) by (unfold d; lia).
  destruct (Z.lt_trichotomy d (k + 1)) as [L|[->|L]]; [|done|].
  - pose proof (Z.pow_le_mono_r 2 d k ltac:(lia) ltac:(lia)). lia.
  - pose proof (Z.pow_le_mono_r 2 (k + 1) (d - 1) ltac:(lia) ltac:(lia)). lia.
Qed.

Lemma digits_lo p k : 2 ^ k <= Zpos p -> k < Zpos (digits2_pos p).
Proof.
  intros H. destruct (Z.lt_ge_cases k (Zpos (digits2_pos p))) as [|G]; [done|].
  pose proof (digits2_bounds p). pose proof (Z.pow_le_mono_r 2 _ _ ltac:(lia) G). lia.
Qed.
Lemma digits_hi p k : 0 <= k -> Zpos p < 2 ^ k -> Zpos (digits2_pos p) <= k.
Proof.
  intros Hk H. destruct (Z.le_gt_cases (Zpos (digits2_pos p)) k) as [|G]; [done|].
  pose proof (digits2_bounds p).
  pose proof (Z.pow_le_mono_r 2 k (Zpos (digits2_pos p) - 1) ltac:(lia) ltac:(lia)). lia.
Qed.

(** The first shift leaves 53 bits. *)
Lemma shr_fexp_represents m e d r :
  let n := Zpos (digits2_pos m) - 53 in
  0 <= n -> 0 <= r < d -> -1074 <= e + n ->
  exists mrs, shr_fexp 53 1024 (Zpos m) e (new_location d r) = (mrs, e + n) /\
    represents mrs (Zpos m * d + r) (2 ^ n * d).
Proof.
  intros n Hn Hr He. unfold shr_fexp, fexp, emin, Zdigits2.
  replace (Z.max _ _ - e) with n by lia.
  pose proof (represents_loc (Zpos m) d r ltac:(lia) Hr) as R.
  destruct n as [|p|p] eqn:En; [|cbn [shr]|lia].
  - eexists. split; [cbn; by rewrite Z.add_0_r|]. by rewrite Z.pow_0_r, Z.mul_1_l.
  - eexists. split; [reflexivity|]. apply represents_iter; [lia|nia|done].
Qed.

(** The second one only has to take back a carry. *)
Lemma shr_fexp_carry M1 e :
  2 ^ 52 <= M1 <= 2 ^ 53 -> -1074 <= e ->
  exists M E, shr_fexp 53 1024 M1 e loc_Exact = (Build_shr_record (Zpos M) false false, E) /\
    Zpos (digits2_pos M) = 53 /\ (E = e /\ Zpos M = M1 \/ E = e + 1 /\ 2 * Zpos M = M1).
Proof.
  intros HM He. destruct (Z.eq_dec M1 (2 ^ 53)) as [->|Hne].
  - exists (2 ^ 52)%positive, (e + 1). split_and!; [|done|by right].
    unfold shr_fexp, fexp, emin. change (Zdigits2 (2 ^ 53)) with 54.
    by replace (Z.max _ _ - e) with 1 by lia.
  - destruct M1 as [|M|M]; [lia| |lia]. exists M, e. assert (Zpos (digits2_pos M) = 53).
    { apply (digits_eq M 52); [lia|]. change (52 + 1) with 53. lia. }
    split_and!; [by apply shr_fexp_exact|done|by left].
Qed.

Lemma binary_round_aux_spec m e d r :
  let n := Zpos (digits2_pos m) - 53 in
  let U := 2 ^ n * d in
  0 <= n -> 0 <= r < d -> -1074 <= e + n < 970 ->
  exists M E M1,
    binary_round_aux 53 1024 false (Zpos m) e (new_location d r) = S754_finite false M E /\
    Zpos (digits2_pos M) = 53 /\ (E = e + n /\ Zpos M = M1 \/ E = e + n + 1 /\ 2 * Zpos M = M1) /\
    2 * Z.abs (M1 * U - (Zpos m * d + r)) <= U.
Proof.
  intros n U Hn Hr He.
  destruct (shr_fexp_represents m e d r Hn Hr ltac:(lia)) as (mrs & E1 & R). fold n in E1, R. fold U in R.
  assert (HU : 0 < U) by (unfold U; pose proof (Z.pow_pos_nonneg 2 n ltac:(lia) Hn); nia).
  assert (HX : 0 <= Zpos m * d + r) by nia.
  pose proof (round_even_close _ _ _ HU HX R) as (Hq & Hc). cbv zeta in Hc.
  set (M1 := round_nearest_even (shr_m mrs) (loc_of_shr_record mrs)) in *.
  assert (HM : 2 ^ 52 <= M1 <= 2 ^ 53).
  { pose proof (digits2_bounds m) as B.
    replace (Zpos (digits2_pos m)) with (53 + n) in B by lia.
    replace (53 + n - 1) with (52 + n) in B by lia. rewrite !Z.pow_add_r in B by lia.
    assert (2 ^ 52 <= (Zpos m * d + r) / U) by (apply Z.div_le_lower_bound; unfold U; nia).
    assert ((Zpos m * d + r) / U < 2 ^ 53) by (apply Z.div_lt_upper_bound; unfold U; nia). lia. }
  destruct (shr_fexp_carry M1 (e + n) HM ltac:(lia)) as (M & E & E2 & HMd & HME).
  exists M, E, M1. split_and!; try done.
  unfold binary_round_aux. rewrite E1. fold M1. rewrite E2. cbn [shr_m].
  by rewrite (proj2 (Z.leb_le E (1024 - 53))) by lia.
Qed.

(** ** Comparing *)

(** Numbers with full mantissas compare as their values do, here in units of [2^k]. *)
Lemma f64_lt_values m1 e1 m2 e2 k :
  Zpos (digits2_pos m1) = 53 -> Zpos (digits2_pos m2) = 53 -> k <= e1 -> k <= e2 ->
  f64_lt (S754_finite false m1 e1) (S754_finite false m2 e2) =
  (Zpos m1 * 2 ^ (e1 - k) <? Zpos m2 * 2 ^ (e2 - k)).
Proof.
  intros D1 D2 H1 H2. pose proof (digits2_bounds m1) as B1. pose proof (digits2_bounds m2) as B2.
  rewrite D1 in B1. rewrite D2 in B2. change (2 ^ (53 - 1)) with (2 ^ 52) in *.
  assert (Hmono : forall m m' a b, 2 ^ 52 <= Zpos m < 2 ^ 53 -> 2 ^ 52 <= Zpos m' < 2 ^ 53 ->
    k <= a -> a < b -> Zpos m * 2 ^ (a - k) < Zpos m' * 2 ^ (b - k)).
  { intros m m' a b Bm Bm' Ha Hab. replace (b - k) with ((a - k) + (1 + (b - a - 1))) by lia.
    rewrite !Z.pow_add_r by lia. pose proof (Z.pow_pos_nonneg 2 (a - k) ltac:(lia) ltac:(lia)).
    pose proof (Z.pow_pos_nonneg 2 (b - a - 1) ltac:(lia) ltac:(lia)).
    assert (Zpos m < Zpos m' * (2 ^ 1 * 2 ^ (b - a - 1))) by nia. nia. }
  unfold f64_lt, SFltb, SFcompare. destruct (Z.compare_spec e1 e2) as [->|L|L].
  - change (Pos.compare_cont Eq m1 m2) with (m1 ?= m2)%positive.
    pose proof (Z.pow_pos_nonneg 2 (e2 - k) ltac:(lia) ltac:(lia)).
    destruct (Pos.compare_spec m1 m2) as [->|L|L]; symmetry;
      [apply Z.ltb_irrefl|apply Z.ltb_lt|apply Z.ltb_ge]; nia.
  - symmetry. apply Z.ltb_lt. by apply Hmono.
  - symmetry. apply Z.ltb_ge. pose proof (Hmono m2 m1 e2 e1 B2 B1 H2 L). lia.
Qed.

(** An integer against a rounded number: the exact comparison, but within half a unit
    above the integer. *)
Lemma f64_lt_rounded v m e d r :
  let n := Zpos (digits2_pos m) - 53 in
  let U := 2 ^ n * d in
  let X := Zpos m * d + r in
  let V := v * 2 ^ (- (e + n)) * U in
  let x := binary_round_aux 53 1024 false (Zpos m) e (new_location d r) in
  0 < v < 2 ^ 53 -> 0 <= n -> 0 <= r < d -> -1074 <= e + n <= 0 ->
  (X <= V \/ 2 * (X - V) < U -> f64_lt (f64_of v) x = false) /\
  (U < 2 * (X - V) -> f64_lt (f64_of v) x = true).
Proof.
  intros n U X V x Hv Hn Hr He.
  destruct (binary_round_aux_spec m e d r Hn Hr ltac:(lia)) as (M & E & M1 & Ex & DM & HME & Hc).
  fold n in HME, Hc. fold U X in Hc. fold x in Ex.
  destruct (f64_of_small v Hv) as (mv & ev & -> & Dv & Hev & Vv). rewrite Ex.
  assert (Hlt : f64_lt (S754_finite false mv ev) (S754_finite false M E) = (v * 2 ^ (- (e + n)) <? M1)).
  { set (k := Z.min ev (e + n)). rewrite (f64_lt_values mv ev M E k) by (unfold k; lia).
    assert (H1 : Zpos mv * 2 ^ (ev - k) = v * 2 ^ (- (e + n)) * 2 ^ (e + n - k)).
    { rewrite Vv, <- !Z.mul_assoc, <- !Z.pow_add_r by (unfold k; lia). do 2 f_equal. lia. }
    assert (H2 : Zpos M * 2 ^ (E - k) = M1 * 2 ^ (e + n - k)).
    { destruct HME as [[-> ->]|[-> <-]]; [done|].
      replace (e + n + 1 - k) with (1 + (e + n - k)) by lia.
      rewrite Z.pow_add_r by (unfold k; lia). ring. }
    rewrite H1, H2. pose proof (Z.pow_pos_nonneg 2 (e + n - k) ltac:(lia) ltac:(unfold k; lia)).
    apply eq_true_iff_eq. rewrite !Z.ltb_lt. symmetry. by apply Z.mul_lt_mono_pos_r. }
  rewrite Hlt. set (w := v * 2 ^ (- (e + n))) in *. unfold V in *.
  assert (HU : 0 < U) by (unfold U; pose proof (Z.pow_pos_nonneg 2 n ltac:(lia) Hn); nia).
  clearbody X U w. split.
  - intros H. apply Z.ltb_ge. destruct (Z.le_gt_cases M1 w) as [|G]; [done|].
    assert ((w + 1) * U <= M1 * U) by nia. lia.
  - intros H. apply Z.ltb_lt. destruct (Z.lt_ge_cases w M1) as [|G]; [done|].
    assert (M1 * U <= w * U) by nia. lia.
Qed.

(** [hi < lo * 1.3] in binary64 is [10 * hi < 13 * lo], for figures below [2^49]. *)
Theorem f64_lt_1_3 lo hi :
  0 < lo < 2 ^ 49 -> 0 < hi < 2 ^ 53 ->
  f64_lt (f64_of hi) (f64_mul (f64_of lo) f64_1_3) = (10 * hi <? 13 * lo).
Proof.
  intros Hlo Hhi. destruct (f64_of_small lo ltac:(lia)) as (m & e & -> & Dm & He & Vm).
  unfold f64_1_3, f64_mul, SFmul. cbn [xorb]. rewrite Pos2Z.inj_mul.
  pose proof (digits2_bounds m) as Bm. rewrite Dm in Bm. change (2 ^ (53 - 1)) with (2 ^ 52) in Bm.
  set (C := 5854679515581645%positive). set (mc := (m * C)%positive).
  replace (Zpos m * Zpos C) with (Zpos mc) by (unfold mc; lia).
  change loc_Exact with (new_location 1 0).
  assert (HD : 105 <= Zpos (digits2_pos mc) <= 106).
  { split.
    - enough (104 < Zpos (digits2_pos mc)) by lia. apply digits_lo. unfold mc. rewrite Pos2Z.inj_mul.
      change (2 ^ 104) with (2 ^ 52 * 2 ^ 52). unfold C. lia.
    - apply digits_hi; [lia|]. unfold mc. rewrite Pos2Z.inj_mul. change (2 ^ 106) with (2 ^ 53 * 2 ^ 53).
      unfold C. nia. }
  set (n := Zpos (digits2_pos mc) - 53) in *.
  (* 2^(-e) is at least 16 *)
  assert (HP : 16 <= 2 ^ (- e)).
  { destruct (Z.le_gt_cases 16 (2 ^ (- e))) as [|G]; [done|].
    assert (- e < 4) by (apply (Z.pow_lt_mono_r_iff 2); [lia|lia|done]).
    assert (2 ^ (- e) <= 2 ^ 3) by (apply Z.pow_le_mono_r; lia). change (2 ^ 3) with 8 in *. nia. }
  assert (He4 : e <= -4).
  { enough (4 <= - e) by lia. apply (Z.pow_le_mono_r_iff 2); [lia|lia|]. done. }
  pose proof (f64_lt_rounded hi mc (e + -52) 1 0 Hhi ltac:(fold n; lia) ltac:(lia)
    ltac:(fold n; lia)) as [Hf Ht].
  fold n in Hf, Ht. rewrite !Z.mul_1_r, !Z.add_0_r in Hf, Ht.
  set (V := hi * 2 ^ (- (e + -52 + n)) * 2 ^ n) in *.
  assert (EV : V = hi * 2 ^ 52 * 2 ^ (- e)).
  { unfold V. rewrite <- !Z.mul_assoc, <- !Z.pow_add_r by lia. do 2 f_equal. lia. }
  assert (EX : 10 * (Zpos mc - V) = 2 ^ (- e) * ((13 * lo - 10 * hi) * 2 ^ 52 + 2 * lo)).
  { rewrite EV. unfold mc. rewrite Pos2Z.inj_mul, Vm. unfold C. ring. }
  assert (Hn : 2 ^ 52 <= 2 ^ n <= 2 ^ 53).
  { split; apply Z.pow_le_mono_r; unfold n; lia. }
  clearbody V. set (P := 2 ^ (- e)) in *. clearbody P.
  destruct (Z.ltb_spec (10 * hi) (13 * lo)) as [L|L].
  - apply Ht. nia.
  - apply Hf. destruct (Z.eq_dec (10 * hi) (13 * lo)) as [Eq|Ne].
    + right. replace (13 * lo - 10 * hi) with 0 in EX by lia. nia.
    + left. nia.
Qed.

(** ** Exact sums and products *)

(** Full mantissas of one value are the same number. *)
Lemma finite_unique m1 e1 m2 e2 k :
  Zpos (digits2_pos m1) = 53 -> Zpos (digits2_pos m2) = 53 -> k <= e1 -> k <= e2 ->
  Zpos m1 * 2 ^ (e1 - k) = Zpos m2 * 2 ^ (e2 - k) ->
  S754_finite false m1 e1 = S754_finite false m2 e2.
Proof.
  intros D1 D2 H1 H2 E. pose proof (digits2_bounds m1) as B1. pose proof (digits2_bounds m2) as B2.
  rewrite D1 in B1. rewrite D2 in B2. change (2 ^ (53 - 1)) with (2 ^ 52) in *.
  assert (Hle : forall m m' a b, 2 ^ 52 <= Zpos m < 2 ^ 53 -> 2 ^ 52 <= Zpos m' ->
    k <= a -> Zpos m * 2 ^ (a - k) = Zpos m' * 2 ^ (b - k) -> b <= a).
  { intros m m' a b Bm Bm' Ha Em. destruct (Z.le_gt_cases b a) as [|G]; [done|].
    replace (b - k) with ((a - k) + (1 + (b - a - 1))) in Em by lia.
    rewrite !Z.pow_add_r in Em by lia. pose proof (Z.pow_pos_nonneg 2 (a - k) ltac:(lia) ltac:(lia)).
    pose proof (Z.pow_pos_nonneg 2 (b - a - 1) ltac:(lia) ltac:(lia)).
    assert (Zpos m = Zpos m' * (2 ^ 1 * 2 ^ (b - a - 1))) by nia. nia. }
  assert (e1 = e2) as <-.
  { apply Z.le_antisymm; [eapply (Hle m2 m1)|eapply (Hle m1 m2)]; try done; lia. }
  pose proof (Z.pow_pos_nonneg 2 (e1 - k) ltac:(lia) ltac:(lia)).
  assert (Zpos m1 = Zpos m2) by nia. congruence.
Qed.

(** Rounding a number that is an integer below [2^53] gives its conversion. *)
Lemma round_aux_exact m e v :
  let n := Zpos (digits2_pos m) - 53 in
  0 < v < 2 ^ 53 -> 0 <= n -> -1074 <= e + n -> e <= 0 -> Zpos m = v * 2 ^ (- e) ->
  binary_round_aux 53 1024 false (Zpos m) e loc_Exact = f64_of v.
Proof.
  intros n Hv Hn He He0 Hm. change loc_Exact with (new_location 1 0).
  assert (He1 : e + n <= 0).
  { pose proof (digits2_bounds m) as B. destruct (Z.le_gt_cases (e + n) 0) as [|G]; [done|].
    replace (Zpos (digits2_pos m) - 1) with (53 + (e + n - 1) + - e) in B by lia.
    rewrite Z.pow_add_r, Z.pow_add_r in B by lia.
    pose proof (Z.pow_pos_nonneg 2 (- e) ltac:(lia) ltac:(lia)).
    pose proof (Z.pow_pos_nonneg 2 (e + n - 1) ltac:(lia) ltac:(lia)).
    assert (2 ^ 53 * 2 ^ (e + n - 1) <= v) by nia. nia. }
  destruct (binary_round_aux_spec m e 1 0 Hn ltac:(lia) ltac:(fold n; lia))
    as (M & E & M1 & -> & DM & HME & Hc). fold n in HME, Hc.
  rewrite !Z.mul_1_r, Z.add_0_r in Hc.
  pose proof (Z.pow_pos_nonneg 2 n ltac:(lia) Hn) as Pn.
  assert (EX : Zpos m = (v * 2 ^ (- (e + n))) * 2 ^ n).
  { rewrite Hm, <- Z.mul_assoc, <- Z.pow_add_r by lia. do 2 f_equal. lia. }
  assert (HM1 : M1 = v * 2 ^ (- (e + n))).
  { rewrite EX in Hc. clear EX HME. set (w := v * 2 ^ (- (e + n))) in *. set (U := 2 ^ n) in *.
    clearbody w U.
    destruct (Z.lt_trichotomy M1 w) as [L|[L|L]]; [|done|]; exfalso.
    - assert ((M1 + 1) * U <= w * U) by nia. lia.
    - assert ((w + 1) * U <= M1 * U) by nia. lia. }
  destruct (f64_of_small v Hv) as (mv & ev & -> & Dv & Hev & Vv).
  apply (finite_unique M E mv ev (Z.min ev (e + n))); try done; try lia.
  assert (H2 : Zpos M * 2 ^ (E - Z.min ev (e + n)) = M1 * 2 ^ (e + n - Z.min ev (e + n))).
  { destruct HME as [[-> ->]|[-> <-]]; [done|].
    replace (e + n + 1 - Z.min ev (e + n)) with (1 + (e + n - Z.min ev (e + n))) by lia.
    rewrite Z.pow_add_r by lia. ring. }
  rewrite H2, HM1, Vv, <- !Z.mul_assoc, <- !Z.pow_add_r by lia. do 2 f_equal. lia.
Qed.

Lemma round_exact m e v :
  0 < v < 2 ^ 53 -> -200 <= e <= 0 -> Zpos m = v * 2 ^ (- e) -> binary_round 53 1024 false m e = f64_of v.
Proof.
  intros Hv He Hm. unfold binary_round, shl_align, fexp, emin.
  set (D := Zpos (digits2_pos m)). assert (HD : 1 <= D) by (unfold D; lia).
  destruct (Z.max (D + e - 53) (3 - 1024 - 53) - e) as [|q|q] eqn:Eq.
  - apply round_aux_exact; fold D; try lia.
  - apply round_aux_exact; fold D; try lia.
  - assert (Zpos q = 53 - D) as Eqq by lia. destruct (iter_xO m q) as [H1 H2]. fold D in H1.
    replace (Z.max (D + e - 53) (3 - 1024 - 53)) with (e - Zpos q) by lia.
    apply round_aux_exact; rewrite ?H1; try lia.
    rewrite H2, Hm, <- Z.mul_assoc, <- Z.pow_add_r by lia. do 2 f_equal. lia.
Qed.

Lemma f64_mul_exact a b :
  0 < a -> 0 < b -> a * b < 2 ^ 53 -> f64_mul (f64_of a) (f64_of b) = f64_of (a * b).
Proof.
  intros Ha Hb Hab. destruct (f64_of_small a ltac:(nia)) as (ma & ea & -> & Da & Ea & Va).
  destruct (f64_of_small b ltac:(nia)) as (mb & eb & -> & Db & Eb & Vb).
  unfold f64_mul, SFmul. cbn [xorb].
  pose proof (digits2_bounds ma) as Ba. pose proof (digits2_bounds mb) as Bb.
  rewrite Da in Ba. rewrite Db in Bb. change (2 ^ (53 - 1)) with (2 ^ 52) in *.
  assert (104 < Zpos (digits2_pos (ma * mb))).
  { apply digits_lo. rewrite Pos2Z.inj_mul. change (2 ^ 104) with (2 ^ 52 * 2 ^ 52). nia. }
  assert (0 < a * b) by (by apply Z.mul_pos_pos).
  apply round_aux_exact; try lia.
  rewrite Pos2Z.inj_mul, Va, Vb. replace (- (ea + eb)) with (- ea + - eb) by lia.
  rewrite Z.pow_add_r by lia. ring.
Qed.

Lemma shl_align_value m e e' :
  e' <= e -> Zpos (fst (shl_align m e e')) = Zpos m * 2 ^ (e - e').
Proof.
  intros He. unfold shl_align. destruct (e' - e) as [|q|q] eqn:E; cbn [fst].
  - replace (e - e') with 0 by lia. lia.
  - lia.
  - replace (e - e') with (Zpos q) by lia. apply iter_xO.
Qed.

Lemma f64_add_exact a b :
  0 <= a -> 0 < b -> a + b < 2 ^ 53 -> f64_add (f64_of a) (f64_of b) = f64_of (a + b).
Proof.
  intros Ha Hb Hab. destruct (f64_of_small b ltac:(lia)) as (mb & eb & Fb & Db & Eb & Vb).
  destruct (Z.eq_dec a 0) as [->|Hne].
  { change (f64_of 0) with f64_0. rewrite Z.add_0_l, Fb. done. }
  destruct (f64_of_small a ltac:(lia)) as (ma & ea & Fa & Da & Ea & Va).
  rewrite Fa, Fb. unfold f64_add, SFadd, cond_Zopp. set (ez := Z.min ea eb).
  rewrite !shl_align_value by (unfold ez; lia).
  assert (Es : Zpos ma * 2 ^ (ea - ez) + Zpos mb * 2 ^ (eb - ez) = (a + b) * 2 ^ (- ez)).
  { rewrite Va, Vb, <- !Z.mul_assoc, <- !Z.pow_add_r by (unfold ez; lia).
    rewrite Z.mul_add_distr_r. do 2 f_equal; f_equal; lia. }
  rewrite Es. pose proof (Z.pow_pos_nonneg 2 (- ez) ltac:(lia) ltac:(unfold ez; lia)).
  destruct ((a + b) * 2 ^ (- ez)) as [|p|p] eqn:Ep; [nia| |nia].
  cbn [binary_normalize]. apply round_exact; [lia|unfold ez; lia|lia].
Qed.

(** [v < sum / count] in binary64 is [v * count < sum], for a sum below [2^53]. *)
Theorem f64_lt_div v sum count :
  0 < v < 2 ^ 53 -> 0 < sum < 2 ^ 53 -> 0 < count < 2 ^ 53 ->
  f64_lt (f64_of v) (f64_div (f64_of sum) (f64_of count)) = (v * count <? sum).
Proof.
  intros Hv Hs Hc. destruct (f64_of_small sum Hs) as (m1 & e1 & -> & D1 & E1 & V1).
  destruct (f64_of_small count Hc) as (m2 & e2 & -> & D2 & E2 & V2).
  pose proof (digits2_bounds m1) as B1. pose proof (digits2_bounds m2) as B2.
  rewrite D1 in B1. rewrite D2 in B2. change (2 ^ (53 - 1)) with (2 ^ 52) in *.
  unfold f64_div, SFdiv, SFdiv_core_binary, Zdigits2, fexp, emin. rewrite D1, D2. cbn [xorb].
  replace (Z.min (Z.max (53 + e1 - (53 + e2) - 53) (3 - 1024 - 53)) (e1 - e2)) with (e1 - e2 - 53) by lia.
  replace (e1 - e2 - (e1 - e2 - 53)) with 53 by lia. rewrite Z.shiftl_mul_pow2 by lia.
  pose proof (Z_div_mod (Zpos m1 * 2 ^ 53) (Zpos m2) ltac:(lia)) as Hdm.
  destruct (Z.div_eucl (Zpos m1 * 2 ^ 53) (Zpos m2)) as [q r]. destruct Hdm as [Hq Hr].
  assert (Hq1 : 2 ^ 52 <= q < 2 ^ 54) by nia.
  destruct q as [|q|q]; [lia| |lia].
  assert (HD : 53 <= Zpos (digits2_pos q) <= 54).
  { split; [enough (52 < Zpos (digits2_pos q)) by lia; apply digits_lo; lia|apply digits_hi; lia]. }
  assert (He2 : -52 <= e2).
  { destruct (Z.le_gt_cases (-52) e2) as [|G]; [done|]. assert (e2 = -53) as -> by lia. nia. }
  set (n := Zpos (digits2_pos q) - 53) in *.
  pose proof (f64_lt_rounded v q (e1 - e2 - 53) (Zpos m2) r Hv ltac:(fold n; lia) ltac:(lia)
    ltac:(fold n; lia)) as [Hf Ht]. fold n in Hf, Ht.
  assert (EX : Zpos q * Zpos m2 + r = sum * 2 ^ (53 - e1)).
  { replace (53 - e1) with (- e1 + 53) by lia. rewrite Z.pow_add_r by lia. nia. }
  assert (EV : v * 2 ^ (- (e1 - e2 - 53 + n)) * (2 ^ n * Zpos m2) = v * count * 2 ^ (53 - e1)).
  { rewrite V2. replace (53 - e1) with (- (e1 - e2 - 53 + n) + n + - e2) by lia.
    rewrite !Z.pow_add_r by lia. ring. }
  rewrite EX, EV in Hf, Ht.
  assert (HP : 2 ^ 53 <= 2 ^ (53 - e1)) by (apply Z.pow_le_mono_r; lia).
  assert (Hn : 2 ^ n <= 2).
  { transitivity (2 ^ 1); [apply Z.pow_le_mono_r; unfold n; lia|done]. }
  set (P := 2 ^ (53 - e1)) in *. clearbody P.
  destruct (Z.ltb_spec (v * count) sum) as [L|L].
  - apply Ht. assert (2 ^ n * Zpos m2 <= 2 * Zpos m2) by (apply Z.mul_le_mono_nonneg_r; lia).
    replace (sum * P - v * count * P) with ((sum - v * count) * P) by ring.
    assert (1 * P <= (sum - v * count) * P) by (apply Z.mul_le_mono_nonneg_r; lia). lia.
  - apply Hf. left. apply Z.mul_le_mono_nonneg_r; lia.
Qed.
