(* ===== verification/Topology.v ===== *)
(** * The machine's CPU topology

    [crates/ananicy-platform/src/topology.rs]: which CPUs are online, how they
    group into NUMA nodes and last-level caches, which are the big and which the
    little ones, and the cpuset aliases a rule can name them by.

    [BTreeSet] and [BTreeMap] are [gset] and [gmap], walked in ascending order; the
    order in which a [HashMap] is walked is a parameter.  An [f64] is a binary64
    of [SpecFloat], computed with its rounding. *)

From stdpp Require Import base list gmap strings numbers sorting.
From Stdlib Require Import ZArith Lia Ascii SpecFloat.
From S2P Require Import Prelude RustStr CpuSet Binary64.

#[local] Open Scope Z_scope.

(** ** The files of /sys the detection reads *)

Record cpu_dir := MkCpuDir {
  d_online : option string;
  d_entries : option (list string);        (* readable entries of the directory *)
  d_shared : Z -> option string;           (* cache/index<n>/shared_cpu_list *)
  d_size : Z -> option string;             (* cache/index<n>/size *)
  d_capacity : string -> option string;    (* the file a capacity source names *)
}.

Record sysfs := MkSysfs {
  s_smt_active : option string;
  s_cpus : option (list (string * cpu_dir));   (* devices/system/cpu *)
}.

(** ** Data *)

Record NodeInfo := MkNodeInfo {
  node_id : Z; node_cpu_ids : list Z; node_cpuset_str : string;
}.
Record LlcInfo := MkLlcInfo {
  llc_id : Z; llc_cpu_ids : list Z; llc_cpuset_str : string; l3_size : Z;
}.
Record CpuTopology := MkCpuTopology {
  has_big_little : bool;
  big_cores_str : string;
  little_cores_str : string;
  turbo_cores_str : string;
  all_cores_str : string;
  cpu_count : Z;
  smt_enabled : bool;
  nodes : list NodeInfo;
  llcs : list LlcInfo;
  biggest_llc_cores_str : string;
}.

(** [BTreeSet::iter]. *)
Definition ascending (s : gset Z) : list Z := merge_sort Z.le (elements s).

(** ** [format_cpuset] *)

(** One pass over the CPUs after the first, in the run from [start] to [prev]. *)
Fixpoint format_loop (sorted : list Z) (start prev : Z) (result : string) : string :=
  match sorted with
  | [] => sapp result (if start =? prev then fmt_uint start
                       else sapp (fmt_uint start) (String dash (fmt_uint prev)))
  | cpu :: rest =>
      if cpu =? wrap_u 32 (prev + 1) then format_loop rest start cpu result
      else format_loop rest cpu cpu
             (sapp result (if start =? prev then sapp (fmt_uint start) (String comma EmptyString)
                           else sapp (fmt_uint start)
                                  (String dash (sapp (fmt_uint prev) (String comma EmptyString)))))
  end.

Definition format_cpuset (cores : gset Z) : string :=
  match ascending cores with
  | [] => EmptyString
  | first :: rest => format_loop rest first first EmptyString
  end.

(** ** Reading one CPU *)

Definition detect_smt (sys : sysfs) : bool :=
  match s_smt_active sys with Some content => String.eqb (trim content) "1" | None => false end.

(** The first entry [node<n>] decides. *)
Fixpoint node_of_entries (entries : list string) : Z :=
  match entries with
  | [] => 0
  | name :: entries =>
      if starts_with "node" name && (4 <? Z.of_nat (slen name)) then
        match parse_i32 (sdrop 4 name) with
        | Some id => id
        | None => node_of_entries entries
        end
      else node_of_entries entries
  end.
Definition get_node_id (base : cpu_dir) : Z :=
  match d_entries base with Some entries => node_of_entries entries | None => 0 end.

(** The key a level offers, if its file can be read and says something. *)
Definition llc_key (base : cpu_dir) (level : Z) : option string :=
  match d_shared base level with
  | None => None
  | Some key => if String.eqb (trim key) EmptyString then None else Some (trim key)
  end.

(** [for level in (2..=3).rev()]. *)
Fixpoint get_llc_id_from (levels : list Z) (base : cpu_dir) (llc_map : gmap string Z)
    : gmap string Z * Z :=
  match levels with
  | [] => (llc_map, 0)
  | level :: levels =>
      match llc_key base level with
      | None => get_llc_id_from levels base llc_map
      | Some key =>
          match llc_map !! key with
          | Some id => (llc_map, id)
          | None =>
              let new_id := wrap_s 32 (Z.of_nat (size llc_map)) in
              (<[key := new_id]> llc_map, new_id)
          end
      end
  end.
Definition get_llc_id : cpu_dir -> gmap string Z -> gmap string Z * Z := get_llc_id_from [3; 2].

(** [s[..s.len() - 1]] and the last byte. *)
Definition unit_of (s : string) : string * Z :=
  match srev s with
  | EmptyString => (s, 1)
  | String c r =>
      if Ascii.eqb c "K" || Ascii.eqb c "k" then (srev r, 1024)
      else if Ascii.eqb c "M" || Ascii.eqb c "m" then (srev r, 1024 * 1024)
      else if Ascii.eqb c "G" || Ascii.eqb c "g" then (srev r, 1024 * 1024 * 1024)
      else (s, 1)
  end.
Definition saturating_mul (a b : Z) : Z := Z.min (a * b) (2 ^ 64 - 1).
Definition parse_size_string (s : string) : Z :=
  let '(digits, multiplier) := unit_of (trim s) in
  saturating_mul (match parse_u64 digits with Some n => n | None => 0 end) multiplier.

(** ** Capacities *)

Definition CAPACITY_SOURCES : list string :=
  ["cpufreq/amd_pstate_prefcore_ranking"; "cpufreq/amd_pstate_highest_perf";
   "acpi_cppc/highest_perf"; "cpu_capacity"; "cpufreq/cpuinfo_max_freq"].
Definition least_precise : string := "cpufreq/cpuinfo_max_freq".

Definition read_capacity (bases : gmap Z cpu_dir) (cpu : Z) (source : string) : option Z :=
  base ← bases !! cpu;
  raw ← d_capacity base source;
  value ← parse_u64 (trim raw);
  if 0 <? value then Some value else None.

(** Whether some CPU reports another figure than [reference]. *)
Definition tells_apart (bases : gmap Z cpu_dir) (cpus : list Z) (source : string) (reference : Z)
    : bool :=
  existsb (fun cpu => match read_capacity bases cpu source with
                      | Some value => negb (value =? reference)
                      | None => false
                      end) cpus.

Fixpoint pick_from (sources : list string) (bases : gmap Z cpu_dir) (cpus : list Z) (first : Z)
    (chosen : option string) : option string :=
  match sources with
  | [] => chosen
  | source :: sources =>
      match read_capacity bases first source with
      | None => pick_from sources bases cpus first chosen
      | Some reference =>
          if tells_apart bases cpus source reference then Some source
          else pick_from sources bases cpus first (Some source)
      end
  end.

Definition pick_capacity_source (bases : gmap Z cpu_dir) (cpus : gset Z) : string :=
  match ascending cpus with
  | [] => least_precise
  | first :: _ =>
      match pick_from CAPACITY_SOURCES bases (ascending cpus) first None with
      | Some source => source
      | None => least_precise
      end
  end.

(** ** The walk over the CPUs *)

Record walk := MkWalk {
  all_cores : gset Z;
  bases : gmap Z cpu_dir;
  llc_map : gmap string Z;
  llc_groups : gmap Z (gset Z);
  node_groups : gmap Z (gset Z);
  llc_l3_size : gmap Z Z;
}.
Definition walk_new : walk := MkWalk ∅ ∅ ∅ ∅ ∅ ∅.

(** [groups.entry(id).or_default().insert(cpu)]. *)
Definition group_insert (id cpu : Z) (groups : gmap Z (gset Z)) : gmap Z (gset Z) :=
  <[id := {[cpu]} ∪ default ∅ (groups !! id)]> groups.

Definition is_online (cpu : Z) (base : cpu_dir) : bool :=
  if cpu =? 0 then true
  else match d_online base with Some s => String.eqb (trim s) "1" | None => true end.

Definition walk_cpu (w : walk) (c : Z * cpu_dir) : walk :=
  let '(cpu, base) := c in
  if is_online cpu base then
    let '(lmap, llc) := get_llc_id base (llc_map w) in
    MkWalk ({[cpu]} ∪ all_cores w) (<[cpu := base]> (bases w)) lmap
      (group_insert llc cpu (llc_groups w))
      (group_insert (get_node_id base) cpu (node_groups w))
      (match d_size base 3 with
       | Some l3 => <[llc := parse_size_string l3]> (llc_l3_size w)
       | None => llc_l3_size w
       end)
  else w.

(** [name.strip_prefix("cpu")?.parse::<u32>().ok()?]. *)
Definition cpu_entry (entry : string * cpu_dir) : option (Z * cpu_dir) :=
  match strip_prefix "cpu" entry.1 with
  | None => None
  | Some digits => match parse_u32 digits with Some id => Some (id, entry.2) | None => None end
  end.

Definition key_le (a b : Z * cpu_dir) : Prop := a.1 <= b.1.
#[global] Instance key_le_dec a b : Decision (key_le a b).
Proof. unfold key_le. apply _. Defined.

Definition sorted_cpus (entries : list (string * cpu_dir)) : list (Z * cpu_dir) :=
  merge_sort key_le (omap cpu_entry entries).

Definition walk_cpus (sys : sysfs) : walk :=
  match s_cpus sys with
  | Some entries => foldl walk_cpu walk_new (sorted_cpus entries)
  | None => walk_new
  end.

(** ** Core tiers *)

Definition metric_to_cores (w : walk) (source : string) : gmap Z (gset Z) :=
  foldl (fun m cpu =>
    match read_capacity (bases w) cpu source with
    | Some value => group_insert value cpu m
    | None => m
    end) ∅ (ascending (all_cores w)).

(** [BTreeMap::iter]. *)
Definition by_key (m : gmap Z (gset Z)) : list (Z * gset Z) :=
  omap (fun k => match m !! k with Some cores => Some (k, cores) | None => None end)
    (ascending (dom m)).

(** The mean capacity. *)
Definition mean_capacity (metrics : list (Z * gset Z)) : f64 :=
  let '(sum, count) :=
    foldl (fun '(sum, count) '(metric, cores) =>
      (f64_add sum (f64_mul (f64_of metric) (f64_of (Z.of_nat (size cores)))),
       count + Z.of_nat (size cores))) (f64_0, 0) metrics in
  f64_div sum (f64_of count).

(** The little and the big cores under a threshold. *)
Definition tier_step (threshold : f64) (tiers : gset Z * gset Z) (m : Z * gset Z)
    : gset Z * gset Z :=
  let '(little, big) := tiers in
  let '(metric, cores) := m in
  if f64_lt (f64_of metric) threshold then (little ∪ cores, big) else (little, big ∪ cores).
Definition split_tiers (threshold : f64) (metrics : list (Z * gset Z)) : gset Z * gset Z :=
  foldl (tier_step threshold) (∅, ∅) metrics.

Definition mark_homogeneous (top : CpuTopology) : CpuTopology :=
  MkCpuTopology false (all_cores_str top) EmptyString EmptyString (all_cores_str top)
    (cpu_count top) (smt_enabled top) (nodes top) (llcs top) (biggest_llc_cores_str top).

Definition with_tiers (little big turbo : gset Z) (top : CpuTopology) : CpuTopology :=
  MkCpuTopology true (format_cpuset big) (format_cpuset little) (format_cpuset turbo)
    (all_cores_str top) (cpu_count top) (smt_enabled top) (nodes top) (llcs top)
    (biggest_llc_cores_str top).

(** From [metrics.first()] to the end. *)
Definition classify_cores (metrics : list (Z * gset Z)) (top : CpuTopology) : CpuTopology :=
  if (length metrics <=? 1)%nat then mark_homogeneous top
  else
    match head metrics, list.last metrics with
    | Some (lowest_metric, _), Some (highest_metric, turbo_cores) =>
        if f64_lt (f64_of highest_metric) (f64_mul (f64_of lowest_metric) f64_1_3)
        then mark_homogeneous top
        else let '(little, big) := split_tiers (mean_capacity metrics) metrics in
             with_tiers little big turbo_cores top
    | _, _ => top
    end.

(** ** Detection *)

Section Detect.
(** The order a [HashMap] is walked in. *)
Variable iter : gmap Z (gset Z) -> list (Z * gset Z).

Definition node_infos (w : walk) : list NodeInfo :=
  map (fun '(id, cores) => MkNodeInfo id (ascending cores) (format_cpuset cores))
    (iter (node_groups w)).

Definition llc_infos (w : walk) : list LlcInfo :=
  map (fun '(id, cores) =>
         MkLlcInfo id (ascending cores) (format_cpuset cores) (default 0 (llc_l3_size w !! id)))
    (iter (llc_groups w)).

Definition max_l3 (infos : list LlcInfo) : Z :=
  foldl (fun m llc => if m <? l3_size llc then l3_size llc else m) 0 infos.

Definition biggest_llc_cores (infos : list LlcInfo) : string :=
  if 0 <? max_l3 infos then
    format_cpuset (foldl (fun s llc =>
      if l3_size llc =? max_l3 infos then s ∪ list_to_set (llc_cpu_ids llc) else s) ∅ infos)
  else EmptyString.

Definition detect_topology_impl (sys : sysfs) : CpuTopology :=
  let smt := detect_smt sys in
  let w := walk_cpus sys in
  if decide (all_cores w = ∅) then
    MkCpuTopology false EmptyString EmptyString EmptyString EmptyString 0 smt [] [] EmptyString
  else
    let source := pick_capacity_source (bases w) (all_cores w) in
    let llcs := llc_infos w in
    classify_cores (by_key (metric_to_cores w source))
      (MkCpuTopology false EmptyString EmptyString EmptyString (format_cpuset (all_cores w))
         (Z.of_nat (size (all_cores w))) smt (node_infos w) llcs (biggest_llc_cores llcs)).
End Detect.

(** ** Aliases *)

Definition on_off (value : bool) : string := if value then "on" else "off".
Definition yes_no (value : bool) : string := if value then "yes" else "no".

Definition summary (top : CpuTopology) : string :=
  foldr sapp EmptyString
    [fmt_uint (cpu_count top); " CPUs, "; fmt_uint (Z.of_nat (length (llcs top))); " LLCs, ";
     fmt_uint (Z.of_nat (length (nodes top))); " NUMA nodes, SMT="; on_off (smt_enabled top);
     ", big.LITTLE="; yes_no (has_big_little top)].

Definition generate_cpuset_aliases (top : CpuTopology) : gmap string string :=
  let perf_cores :=
    if negb (String.eqb (turbo_cores_str top) EmptyString)
       && negb (String.eqb (turbo_cores_str top) (all_cores_str top))
    then turbo_cores_str top else big_cores_str top in
  let aliases : gmap string string :=
    <["turbo-cores" := turbo_cores_str top]>
    (<["efficiency-cores" := little_cores_str top]>
    (<["performance-cores" := perf_cores]>
    (<["little-cores" := little_cores_str top]>
    (<["big-cores" := big_cores_str top]>
    (<["all-cores" := all_cores_str top]>
    (<["all" := all_cores_str top]> ∅)))))) in
  let aliases :=
    if negb (String.eqb (biggest_llc_cores_str top) EmptyString)
    then <["x3d-cache" := biggest_llc_cores_str top]> aliases else aliases in
  let aliases := foldl (fun m llc =>
    <[sapp "llc-" (fmt_int (llc_id llc)) := llc_cpuset_str llc]> m) aliases (llcs top) in
  foldl (fun m node =>
    <[sapp "node-" (fmt_int (node_id node)) := node_cpuset_str node]> m) aliases (nodes top).

(** ** Lemmas *)

(** *** Ordered walks *)

Lemma elem_of_ascending k s : k ∈ ascending s <-> k ∈ s.
Proof. unfold ascending. by rewrite merge_sort_Permutation, elem_of_elements. Qed.

Lemma ascending_sorted s : StronglySorted Z.lt (ascending s).
Proof.
  assert (Hs : StronglySorted Z.le (ascending s)) by (apply StronglySorted_merge_sort; apply _).
  assert (Hn : NoDup (ascending s)).
  { unfold ascending. rewrite merge_sort_Permutation. apply NoDup_elements. }
  induction Hs as [|x l Hl IH Hx]; constructor.
  - apply IH. by apply list.NoDup_cons in Hn as [_ Hn].
  - apply list.NoDup_cons in Hn as [Hn _]. apply list.Forall_forall. intros y Hy.
    rewrite list.Forall_forall in Hx. specialize (Hx y Hy).
    assert (x <> y) by (intros ->; done). lia.
Qed.

Lemma ascending_nil s : ascending s = [] -> s = ∅.
Proof. intros H. apply elem_of_equiv_empty_L. intros k. rewrite <- elem_of_ascending, H. set_solver. Qed.

(** *** The text of a set is its maximal runs *)

Fixpoint spans (l : list Z) (a b : Z) : list (Z * Z) :=
  match l with
  | [] => [(a, b)]
  | c :: l => if c =? b + 1 then spans l a c else (a, b) :: spans l c c
  end.

Lemma spans_cons l a b : exists r rs, spans l a b = r :: rs.
Proof. revert a b. induction l as [|c l IH]; intros a b; simpl; [eauto|]. destruct (_ =? _); eauto. Qed.

Lemma format_loop_spans l a b result :
  Forall (in_u 32) (b :: l) -> StronglySorted Z.lt (b :: l) ->
  format_loop l a b result = sapp result (ranges_text (spans l a b)).
Proof.
  revert a b result. induction l as [|c l IH]; intros a b result Hu Hs.
  - simpl. unfold ranges_text, range_texts, fmt_range. simpl. by rewrite Z.eqb_sym.
  - apply list.Forall_cons in Hu as [Hb Hu]. inversion Hs as [|? ? Hs' Hlt]; subst.
    apply list.Forall_cons in Hlt as [Hlt _]. pose proof Hu as [Hc _]%list.Forall_cons.
    cbn [format_loop spans]. rewrite wrap_u_small by (unfold in_u in *; lia).
    destruct (c =? b + 1); [by apply IH|]. rewrite IH by done.
    destruct (spans_cons l c c) as (r & rs & E). rewrite E.
    unfold ranges_text, range_texts. cbn [map join fst snd].
    replace (fmt_range a b) with (if a =? b then fmt_uint a
      else sapp (fmt_uint a) (String dash (fmt_uint b))) by (unfold fmt_range; by rewrite Z.eqb_sym).
    destruct (a =? b); rewrite <- !sapp_assoc; cbn [sapp];
      by rewrite <- ?sapp_assoc.
Qed.

Lemma spans_elem l a b k :
  a <= b -> StronglySorted Z.lt (b :: l) ->
  Exists (in_run k) (spans l a b) <-> a <= k <= b \/ k ∈ l.
Proof.
  revert a b. induction l as [|c l IH]; intros a b Hab Hs.
  - simpl. rewrite Exists_cons, Exists_nil, elem_of_nil. unfold in_run. simpl. tauto.
  - inversion Hs as [|? ? Hs' Hlt]; subst. apply list.Forall_cons in Hlt as [Hlt _]. cbn [spans].
    rewrite elem_of_cons. destruct (Z.eqb_spec c (b + 1)) as [->|].
    + rewrite IH by (done || lia). intuition lia.
    + rewrite Exists_cons, IH by (done || lia). unfold in_run. simpl. intuition lia.
Qed.

Lemma spans_bounds l a b m :
  0 <= a <= b -> StronglySorted Z.lt (b :: l) -> Forall (fun k => k < m) (b :: l) ->
  Forall (fun r => 0 <= fst r <= snd r /\ snd r < m) (spans l a b).
Proof.
  revert a b. induction l as [|c l IH]; intros a b Hab Hs Hm;
    apply list.Forall_cons in Hm as [Hb Hm]; cbn [spans].
  - repeat constructor; simpl; lia.
  - inversion Hs as [|? ? Hs' Hlt]; subst. apply list.Forall_cons in Hlt as [Hlt _].
    destruct (c =? b + 1); [|constructor; [simpl; lia|]]; (apply IH; [lia|done|done]).
Qed.

(** What a set's text means to [CpuSet::parse]. *)
Lemma format_cpuset_parse m cores :
  in_u 32 m -> cores <> ∅ -> (forall k, k ∈ cores -> 0 <= k < m) ->
  exists s, parse (format_cpuset cores) m = Some s /\ to_set s = cores.
Proof.
  intros Hm Hne Hk. unfold format_cpuset. pose proof (ascending_sorted cores) as Hs.
  pose proof (fun k => elem_of_ascending k cores) as He.
  destruct (ascending cores) as [|a l] eqn:E; [by apply ascending_nil in E|].
  assert (Hall : Forall (fun k => 0 <= k < m) (a :: l)).
  { apply list.Forall_forall. intros k Hin. apply Hk, He, Hin. }
  assert (Ha : 0 <= a < m) by (by apply list.Forall_cons in Hall as [? _]).
  rewrite format_loop_spans; [|eapply list.Forall_impl; [exact Hall|unfold in_u in *; simpl; lia]|done].
  cbn [sapp]. assert (Hb := spans_bounds l a a m ltac:(lia) Hs).
  rewrite parse_ranges; [|done|by destruct (spans_cons l a a) as (r & rs & ->)|].
  2:{ apply Hb. eapply list.Forall_impl; [exact Hall|simpl; lia]. }
  eexists. split; [done|]. apply set_eq. intros k. unfold to_set. rewrite elem_of_list_to_set.
  rewrite get_cores_set_runs, get_cores_new, spans_elem;
    [|lia|done|by apply wf_new|apply Hb; eapply list.Forall_impl; [exact Hall|simpl; lia]].
  rewrite <- He, elem_of_cons. intuition lia.
Qed.

(** *** Groups *)

(** [groups] splits [all] into non-empty parts, one part per CPU. *)
Definition partitions (groups : gmap Z (gset Z)) (all : gset Z) : Prop :=
  (forall id s, groups !! id = Some s -> s <> ∅) /\
  (forall c, c ∈ all <-> exists id s, groups !! id = Some s /\ c ∈ s) /\
  (forall i j s t c, groups !! i = Some s -> groups !! j = Some t -> c ∈ s -> c ∈ t -> i = j).

Lemma lookup_group_insert id c groups j s :
  group_insert id c groups !! j = Some s <->
  j = id /\ s = {[c]} ∪ default ∅ (groups !! id) \/ j <> id /\ groups !! j = Some s.
Proof. unfold group_insert. rewrite lookup_insert_Some. intuition congruence. Qed.

Lemma elem_of_default (groups : gmap Z (gset Z)) id c :
  c ∈ default ∅ (groups !! id) <-> exists s, groups !! id = Some s /\ c ∈ s.
Proof. destruct (groups !! id); simpl; set_solver. Qed.

Lemma partitions_empty : partitions ∅ ∅.
Proof. split_and!; intros *; rewrite ?lookup_empty; try done. set_solver. Qed.

Lemma partitions_insert id c groups all :
  c ∉ all -> partitions groups all -> partitions (group_insert id c groups) ({[c]} ∪ all).
Proof.
  intros Hc (Hne & Hall & Hd). split_and!.
  - intros j s [[-> ->]|[_ Hj]]%lookup_group_insert; [set_solver|by eapply Hne].
  - intros k. rewrite elem_of_union, elem_of_singleton, Hall. split.
    + intros [->|(j & s & Hj & Hk)].
      * exists id, ({[c]} ∪ default ∅ (groups !! id)). rewrite lookup_group_insert. set_solver.
      * destruct (decide (j = id)) as [->|Hji].
        -- exists id, ({[c]} ∪ s). rewrite lookup_group_insert, Hj. set_solver.
        -- exists j, s. rewrite lookup_group_insert. auto.
    + intros (j & s & [[-> ->]|[_ Hj]]%lookup_group_insert & Hk); [|by eauto].
      rewrite elem_of_union, elem_of_singleton, elem_of_default in Hk. naive_solver.
  - assert (Hin : forall j s k, groups !! j = Some s -> k ∈ s -> k <> c).
    { intros j s k Hj Hk ->. apply Hc, Hall. eauto. }
    intros i j s t k [[-> ->]|[Hi Hs]]%lookup_group_insert [[-> ->]|[Hj Ht]]%lookup_group_insert;
      try done; rewrite ?elem_of_union, ?elem_of_singleton, ?elem_of_default.
    + intros [->|(s' & Hs' & Hk)] Hk'; [by destruct (Hin j t c)|by eapply Hd].
    + intros Hk' [->|(s' & Hs' & Hk)]; [by destruct (Hin i s c)|by eapply Hd].
    + by eapply Hd.
Qed.

(** *** The walk *)

Definition walk_ok (w : walk) : Prop :=
  partitions (node_groups w) (all_cores w) /\ partitions (llc_groups w) (all_cores w) /\
  dom (bases w) = all_cores w.

Lemma walk_new_ok : walk_ok walk_new.
Proof. split_and!; [apply partitions_empty..|]. by apply dom_empty_L. Qed.

Lemma walk_cpu_ok w cpu base :
  cpu ∉ all_cores w -> walk_ok w -> walk_ok (walk_cpu w (cpu, base)).
Proof.
  intros Hc (Hn & Hl & Hb). unfold walk_cpu. destruct (is_online cpu base); [|done].
  destruct (get_llc_id base (llc_map w)) as [lmap llc].
  split_and!; simpl; [by apply partitions_insert..|]. by rewrite dom_insert_L, Hb.
Qed.

Definition online_ids (l : list (Z * cpu_dir)) : gset Z :=
  list_to_set (map fst (filter (fun c => is_online c.1 c.2 = true) l)).

Lemma all_cores_walk_cpu w c :
  all_cores (walk_cpu w c) = (if is_online c.1 c.2 then {[c.1]} else ∅) ∪ all_cores w.
Proof.
  destruct c as [cpu base]. unfold walk_cpu. simpl. destruct (is_online cpu base); [|set_solver].
  by destruct (get_llc_id base (llc_map w)).
Qed.

Lemma all_cores_foldl l w : all_cores (foldl walk_cpu w l) = online_ids l ∪ all_cores w.
Proof.
  revert w. induction l as [|c l IH]; intros w; [set_solver|]. cbn [foldl].
  rewrite IH, all_cores_walk_cpu. unfold online_ids.
  destruct (is_online c.1 c.2) eqn:E;
    [rewrite filter_cons_True by done|rewrite filter_cons_False by (by rewrite E)]; set_solver.
Qed.

Lemma foldl_walk_ok l w :
  NoDup (map fst l) -> (forall c, c ∈ map fst l -> c ∉ all_cores w) -> walk_ok w ->
  walk_ok (foldl walk_cpu w l).
Proof.
  revert w. induction l as [|[cpu base] l IH]; intros w Hn Hd Hw; [done|].
  apply list.NoDup_cons in Hn as [Hc Hn]. cbn [foldl]. apply IH; [done| |].
  - intros c Hin. rewrite all_cores_walk_cpu. simpl.
    assert (c <> cpu) by (intros ->; done). specialize (Hd c). simpl in Hd.
    destruct (is_online cpu base); set_solver.
  - apply walk_cpu_ok; [|done]. apply Hd. left.
Qed.

(** Distinct CPUs have distinct numbers; sysfs names them [cpu<n>]. *)
Definition distinct_cpus (sys : sysfs) : Prop :=
  match s_cpus sys with Some entries => NoDup (map fst (omap cpu_entry entries)) | None => True end.

#[global] Instance key_le_total : Total key_le.
Proof. intros a b. unfold key_le. lia. Qed.
#[global] Instance key_le_trans : Transitive key_le.
Proof. intros a b c. unfold key_le. lia. Qed.

Lemma sorted_cpus_perm entries : sorted_cpus entries ≡ₚ omap cpu_entry entries.
Proof. apply merge_sort_Permutation. Qed.

Lemma walk_cpus_ok sys : distinct_cpus sys -> walk_ok (walk_cpus sys).
Proof.
  unfold distinct_cpus, walk_cpus. destruct (s_cpus sys) as [entries|]; [|intros _; apply walk_new_ok].
  intros Hn. apply foldl_walk_ok; [|by intros c _; apply not_elem_of_empty|apply walk_new_ok].
  by rewrite sorted_cpus_perm.
Qed.

Lemma sorted_cpus_order entries entries' :
  entries ≡ₚ entries' -> NoDup (map fst (omap cpu_entry entries)) ->
  sorted_cpus entries = sorted_cpus entries'.
Proof.
  intros Hp Hn. apply (StronglySorted_unique_strong key_le).
  - intros a b Ha Hb Hab Hba. rewrite sorted_cpus_perm in Ha. rewrite sorted_cpus_perm, <- Hp in Hb.
    assert (E : a.1 = b.1) by (unfold key_le in *; lia). clear -Ha Hb E Hn.
    revert Ha Hb Hn. generalize (omap cpu_entry entries). intros l.
    induction l as [|x l IH]; simpl; [set_solver|].
    intros [->|Ha]%elem_of_cons [->|Hb]%elem_of_cons [Hx Hn]%list.NoDup_cons; [done| | |by apply IH].
    + destruct Hx. rewrite E. by apply list_elem_of_fmap_2.
    + destruct Hx. rewrite <- E. by apply list_elem_of_fmap_2.
  - apply StronglySorted_merge_sort; apply _.
  - apply StronglySorted_merge_sort; apply _.
  - by rewrite !sorted_cpus_perm, Hp.
Qed.

(** *** What the groups go by *)

(** A CPU's directory, as sysfs lists it, and whether the CPU is online: the boot CPU, one
    without a file that says so, or one whose file says [1]. *)
Definition listed (sys : sysfs) (c : Z) (d : cpu_dir) : Prop :=
  exists entries digits, s_cpus sys = Some entries /\ (sapp "cpu" digits, d) ∈ entries /\
    parse_u32 digits = Some c.
Definition online (sys : sysfs) (c : Z) (d : cpu_dir) : Prop :=
  listed sys c d /\ (c = 0 \/ match d_online d with Some s => trim s = "1" | None => True end).

(** The list of CPUs that share a cache of a level, and the one that names the last level
    the CPU has. *)
Definition shared_list (d : cpu_dir) (level : Z) (key : string) : Prop :=
  exists raw, d_shared d level = Some raw /\ trim raw = key /\ key <> EmptyString.
Definition cache_key (d : cpu_dir) (key : string) : Prop :=
  shared_list d 3 key \/ (forall k, ~ shared_list d 3 k) /\ shared_list d 2 key.

Lemma llc_key_shared d level key : llc_key d level = Some key <-> shared_list d level key.
Proof.
  unfold llc_key, shared_list. destruct (d_shared d level) as [raw|]; [|naive_solver].
  destruct (String.eqb_spec (trim raw) EmptyString) as [E|E]; naive_solver.
Qed.

Lemma cache_key_llc d key :
  cache_key d key <-> match llc_key d 3 with Some k => Some k | None => llc_key d 2 end = Some key.
Proof.
  unfold cache_key. setoid_rewrite <- llc_key_shared. destruct (llc_key d 3) as [k|]; naive_solver.
Qed.

Lemma is_online_spec c d :
  is_online c d = true <-> c = 0 \/ match d_online d with Some s => trim s = "1" | None => True end.
Proof.
  unfold is_online. destruct (Z.eqb_spec c 0); [tauto|].
  destruct (d_online d) as [x|]; [|tauto]. destruct (String.eqb_spec (trim x) "1"); naive_solver.
Qed.

Lemma online_listed sys c d :
  online sys c d <->
  exists entries, s_cpus sys = Some entries /\ (c, d) ∈ sorted_cpus entries /\ is_online c d = true.
Proof.
  unfold online, listed. rewrite <- is_online_spec.
  assert (H : forall entries, (c, d) ∈ sorted_cpus entries <->
    exists digits, (sapp "cpu" digits, d) ∈ entries /\ parse_u32 digits = Some c).
  { intros entries. rewrite sorted_cpus_perm, list_elem_of_omap. split.
    - intros ([name d'] & Hin & E). unfold cpu_entry in E. cbn [fst snd] in E.
      destruct (strip_prefix "cpu" name) as [digits|] eqn:Es; [|done].
      destruct (parse_u32 digits) eqn:Ep; [|done]. simplify_eq. apply strip_prefix_spec in Es as ->. eauto.
    - intros (digits & Hin & Hp). exists (sapp "cpu" digits, d). split; [done|].
      unfold cpu_entry. cbn [fst snd]. by rewrite (proj2 (strip_prefix_spec _ _ _) eq_refl), Hp. }
  split.
  - intros [(entries & digits & Hs & Hin & Hp) Ho]. exists entries. rewrite H. eauto 6.
  - intros (entries & Hs & (digits & Hin & Hp)%H & Ho). eauto 8.
Qed.

(** Every CPU of [l] that is online is in the group its directory names. *)
Record grouped (l : list (Z * cpu_dir)) (w : walk) : Prop := {
  in_node : forall c d, (c, d) ∈ l -> is_online c d = true ->
    exists s, node_groups w !! get_node_id d = Some s /\ c ∈ s;
  in_llc : forall c d key, (c, d) ∈ l -> is_online c d = true -> cache_key d key ->
    exists id s, llc_map w !! key = Some id /\ llc_groups w !! id = Some s /\ c ∈ s;
  ids_bound : forall key id, llc_map w !! key = Some id -> 0 <= id < Z.of_nat (size (llc_map w));
  ids_inj : forall k k' id, llc_map w !! k = Some id -> llc_map w !! k' = Some id -> k = k';
  ids_few : (size (llc_map w) <= length l)%nat;
}.

Lemma grouped_new : grouped [] walk_new.
Proof. split; cbn; try (by intros * ?%elem_of_nil); try (intros *; by rewrite lookup_empty). by rewrite map_size_empty. Qed.

Lemma group_insert_keeps id c (m : gmap Z (gset Z)) j s k :
  m !! j = Some s -> k ∈ s -> exists t, group_insert id c m !! j = Some t /\ k ∈ t.
Proof.
  intros Hj Hk. unfold group_insert. destruct (decide (j = id)) as [->|Hne].
  - rewrite lookup_insert_eq, Hj. eexists. split; [done|]. cbn. set_solver.
  - rewrite lookup_insert_ne by done. eauto.
Qed.
Lemma group_insert_in id c (m : gmap Z (gset Z)) :
  exists t, group_insert id c m !! id = Some t /\ c ∈ t.
Proof. unfold group_insert. rewrite lookup_insert_eq. eexists. split; [done|]. set_solver. Qed.

(** The map of the caches before and after one CPU. *)
Lemma get_llc_id_spec d m :
  let '(m', id) := get_llc_id d m in
  (forall key, cache_key d key -> m' !! key = Some id) /\
  (m' = m \/ exists key, m !! key = None /\ m' = <[key := wrap_s 32 (Z.of_nat (size m))]> m).
Proof.
  pose proof (cache_key_llc d) as Hk. unfold get_llc_id, get_llc_id_from.
  destruct (llc_key d 3) as [k|]; [|destruct (llc_key d 2) as [k|]].
  3: { split; [|by left]. by intros key ?%Hk. }
  all: destruct (m !! k) as [id|] eqn:E; (split; [intros key [= <-]%Hk|]); auto.
  all: try (by rewrite lookup_insert_eq). all: right; eauto.
Qed.

Lemma grouped_step l w c d :
  Z.of_nat (length l) < 2 ^ 31 -> grouped l w -> grouped (l ++ [(c, d)]) (walk_cpu w (c, d)).
Proof.
  intros Hsmall [Hn Hl Hb Hi Hf]. unfold walk_cpu. destruct (is_online c d) eqn:Eo.
  2: { split; try done.
       - intros c' d' [Hin|Hin%list_elem_of_singleton]%elem_of_app Ho; [by apply Hn|].
         simplify_eq. congruence.
       - intros c' d' key [Hin|Hin%list_elem_of_singleton]%elem_of_app Ho; [by apply Hl|].
         simplify_eq. congruence.
       - rewrite length_app. simpl. lia. }
  pose proof (get_llc_id_spec d (llc_map w)) as Hg. destruct (get_llc_id d (llc_map w)) as [m' id].
  destruct Hg as [Hid Hm].
  assert (Hsize : wrap_s 32 (Z.of_nat (size (llc_map w))) = Z.of_nat (size (llc_map w))).
  { apply wrap_s_small; [lia|]. unfold in_s. lia. }
  assert (Hkeep : forall k j, llc_map w !! k = Some j -> m' !! k = Some j).
  { destruct Hm as [->|(key & Hk & ->)]; [done|]. intros k j H.
    rewrite lookup_insert_ne; [done|]. intros ->. congruence. }
  split; cbn [llc_map node_groups llc_groups].
  - intros c' d' [Hin|Hin%list_elem_of_singleton]%elem_of_app Ho.
    + destruct (Hn c' d' Hin Ho) as (s & Hs & Hc). by eapply group_insert_keeps.
    + simplify_eq. apply group_insert_in.
  - intros c' d' key [Hin|Hin%list_elem_of_singleton]%elem_of_app Ho Hk.
    + destruct (Hl c' d' key Hin Ho Hk) as (j & s & Hj & Hs & Hc).
      destruct (group_insert_keeps id c _ j s c' Hs Hc) as (t & Ht & Hct). eauto 8.
    + simplify_eq. destruct (group_insert_in id c (llc_groups w)) as (t & Ht & Hct). eauto 8.
  - destruct Hm as [->|(key & Hk & ->)]; [done|]. intros k j.
    rewrite map_size_insert_None, Hsize by done.
    intros [[<- <-]|[_ H]]%lookup_insert_Some; [lia|]. specialize (Hb k j H). lia.
  - destruct Hm as [->|(key & Hk & ->)]; [done|]. rewrite Hsize.
    intros k k' j [[<- <-]|[Hk1 H1]]%lookup_insert_Some [[<- E]|[Hk2 H2]]%lookup_insert_Some;
      [done| | |by eapply Hi].
    + specialize (Hb k' _ H2). lia.
    + subst j. specialize (Hb k _ H1). lia.
  - rewrite length_app. cbn [length]. destruct Hm as [->|(key & Hk & ->)]; [lia|].
    rewrite map_size_insert_None by done. lia.
Qed.

Lemma grouped_foldl l l' w :
  Z.of_nat (length l + length l') < 2 ^ 31 -> grouped l w -> grouped (l ++ l') (foldl walk_cpu w l').
Proof.
  revert l w. induction l' as [|[c d] l' IH]; intros l w Hs Hg; [by rewrite app_nil_r|].
  cbn [foldl]. replace (l ++ (c, d) :: l') with ((l ++ [(c, d)]) ++ l') by (by rewrite <- app_assoc).
  cbn [length] in Hs. apply IH; [rewrite length_app; simpl; lia|]. apply grouped_step; [lia|done].
Qed.

Definition few_cpus (sys : sysfs) : Prop :=
  match s_cpus sys with Some entries => Z.of_nat (length entries) < 2 ^ 31 | None => True end.

Lemma omap_length {A B} (f : A -> option B) l : (length (omap f l) <= length l)%nat.
Proof.
  induction l as [|x l IH]; [done|]. cbn [omap list_omap]. destruct (f x); simpl; lia.
Qed.

Lemma walk_grouped sys entries :
  s_cpus sys = Some entries -> few_cpus sys -> grouped (sorted_cpus entries) (walk_cpus sys).
Proof.
  unfold few_cpus, walk_cpus. intros Hs. rewrite Hs. intros Hf.
  apply (grouped_foldl [] (sorted_cpus entries) walk_new); [|apply grouped_new].
  pose proof (omap_length cpu_entry entries). simpl. unfold sorted_cpus at 1.
  rewrite merge_sort_Permutation. lia.
Qed.

Lemma online_cores sys c : c ∈ all_cores (walk_cpus sys) <-> exists d, online sys c d.
Proof.
  setoid_rewrite online_listed. unfold walk_cpus. destruct (s_cpus sys) as [entries|]; [|set_solver].
  rewrite all_cores_foldl. unfold online_ids.
  rewrite elem_of_union, elem_of_list_to_set, list_elem_of_fmap. split.
  - intros [([c' d] & -> & [Ho Hin]%list_elem_of_filter)|H]; [eauto 6|set_solver].
  - intros (d & entries' & [= <-] & Hin & Ho). left. exists (c, d). split; [done|].
    by apply list_elem_of_filter.
Qed.

(** The first entry [node<k>] of a CPU's directory names its node. *)
Lemma get_node_id_named d pre k post :
  d_entries d = Some (pre ++ sapp "node" (fmt_uint k) :: post) ->
  Forall (fun e => starts_with "node" e = false) pre -> 0 <= k < 2 ^ 31 -> get_node_id d = k.
Proof.
  intros He Hp Hk. unfold get_node_id. rewrite He. clear He.
  induction Hp as [|e pre Hs _ IH]; cbn [app node_of_entries].
  - rewrite starts_with_sapp. change 4%nat with (slen "node"). rewrite sdrop_sapp, slen_sapp.
    pose proof (fmt_uint_nonempty k) as Hne.
    assert (1 <= slen (fmt_uint k))%nat by (destruct (fmt_uint k); [done|cbn; lia]).
    rewrite (proj2 (Z.ltb_lt _ _)) by (change (slen "node") with 4%nat; lia). cbn [andb].
    unfold parse_i32. by rewrite (parse_int_fmt_uint 32) by (unfold in_u; lia).
  - by rewrite Hs.
Qed.

(** *** Capacities and tiers *)

Lemma metric_to_cores_spec w source v c :
  c ∈ default ∅ (metric_to_cores w source !! v) <->
  c ∈ all_cores w /\ read_capacity (bases w) c source = Some v.
Proof.
  unfold metric_to_cores. rewrite <- (elem_of_ascending c (all_cores w)).
  set (step := fun m cpu => _).
  assert (H : forall l m, c ∈ default ∅ (foldl step m l !! v) <->
    c ∈ l /\ read_capacity (bases w) c source = Some v \/ c ∈ default ∅ (m !! v)).
  { intros l. induction l as [|x l IH]; intros m; cbn [foldl]; [set_solver|].
    rewrite IH, elem_of_cons. subst step. simpl.
    destruct (read_capacity (bases w) x source) as [u|] eqn:Ex; [|naive_solver].
    unfold group_insert. destruct (decide (u = v)) as [->|Huv].
    - rewrite lookup_insert_eq. simpl. rewrite elem_of_union, elem_of_singleton. naive_solver.
    - rewrite lookup_insert_ne by done. naive_solver. }
  rewrite H, lookup_empty. set_solver.
Qed.

Lemma metric_to_cores_nonempty w source v s : metric_to_cores w source !! v = Some s -> s <> ∅.
Proof.
  unfold metric_to_cores. set (step := fun m cpu => _).
  assert (H : forall l m, (forall u t, m !! u = Some t -> t <> ∅) ->
    forall u t, foldl step m l !! u = Some t -> t <> ∅).
  { intros l. induction l as [|x l IH]; intros m Hm; [done|]. cbn [foldl]. apply IH.
    intros u t. subst step. simpl. destruct (read_capacity _ x source); [|by apply Hm].
    intros [[-> ->]|[_ Hu]]%lookup_group_insert; [set_solver|by eapply Hm]. }
  apply H. intros u t. by rewrite lookup_empty.
Qed.

Lemma elem_of_by_key m v s : (v, s) ∈ by_key m <-> m !! v = Some s.
Proof.
  unfold by_key. rewrite list_elem_of_omap. split.
  - intros (k & _ & Hk). destruct (m !! k) eqn:E; naive_solver.
  - intros E. exists v. rewrite elem_of_ascending, elem_of_dom, E. eauto.
Qed.

Lemma by_key_sorted m : StronglySorted (fun a b => a.1 < b.1) (by_key m).
Proof.
  unfold by_key. pose proof (ascending_sorted (dom m)) as Hs.
  induction Hs as [|k l Hl IH Hk]; [constructor|]. simpl. destruct (m !! k) as [s|]; [|done].
  constructor; [done|]. apply list.Forall_forall. intros [v t] (j & Hj & E)%list_elem_of_omap.
  rewrite list.Forall_forall in Hk. specialize (Hk j Hj). destruct (m !! j); simplify_eq. done.
Qed.

(** The last of the tiers is the highest one. *)
Lemma sorted_last (l : list (Z * gset Z)) v s x :
  StronglySorted (fun a b => a.1 < b.1) l -> list.last l = Some (v, s) -> x ∈ l -> x.1 <= v.
Proof.
  intros Hs. induction Hs as [|y l Hl IH Hy]; [done|]. intros Hlast Hx.
  destruct l as [|z l].
  - simpl in Hlast. simplify_eq. apply list_elem_of_singleton in Hx as ->. done.
  - change (list.last (y :: z :: l)) with (list.last (z :: l)) in Hlast.
    apply elem_of_cons in Hx as [->|Hx]; [|by apply IH].
    rewrite list.Forall_forall in Hy. apply last_Some_elem_of in Hlast as Hin.
    specialize (Hy _ Hin). simpl in Hy. lia.
Qed.

(** The tier of a threshold: little below it, big from it on. *)
Definition tier (metrics : list (Z * gset Z)) (t : f64) (below : bool) (c : Z) : Prop :=
  exists v s, (v, s) ∈ metrics /\ c ∈ s /\ f64_lt (f64_of v) t = below.

Lemma tier_nil t below c : tier [] t below c <-> False.
Proof. split; [|done]. intros (v & s & H & _). by apply elem_of_nil in H. Qed.
Lemma tier_cons v s l t below c :
  tier ((v, s) :: l) t below c <-> c ∈ s /\ f64_lt (f64_of v) t = below \/ tier l t below c.
Proof.
  split.
  - intros (v' & s' & [H|H]%elem_of_cons & Hc & Hb); [simplify_eq; by left|right].
    by exists v', s'.
  - intros [[Hc Hb]|(v' & s' & H & Hc & Hb)].
    + exists v, s. split; [left|done].
    + exists v', s'. split; [by right|done].
Qed.

Lemma split_tiers_spec t metrics c :
  (c ∈ (split_tiers t metrics).1 <-> tier metrics t true c) /\
  (c ∈ (split_tiers t metrics).2 <-> tier metrics t false c).
Proof.
  unfold split_tiers.
  assert (H : forall l acc,
    (c ∈ (foldl (tier_step t) acc l).1 <-> c ∈ acc.1 \/ tier l t true c) /\
    (c ∈ (foldl (tier_step t) acc l).2 <-> c ∈ acc.2 \/ tier l t false c)).
  { intros l. induction l as [|[v s] l IH]; intros [a b]; cbn [foldl].
    - rewrite !tier_nil. tauto.
    - destruct (IH (tier_step t (a, b) (v, s))) as [-> ->]. rewrite !tier_cons. unfold tier_step.
      destruct (f64_lt (f64_of v) t); cbn [fst snd]; rewrite elem_of_union;
        intuition congruence. }
  destruct (H metrics (∅, ∅)) as [-> ->]. cbn [fst snd]. rewrite elem_of_empty. tauto.
Qed.

Lemma read_capacity_pos bs c source v : read_capacity bs c source = Some v -> 0 < v.
Proof.
  unfold read_capacity. destruct (bs !! c) as [base|]; [|done]. simpl.
  destruct (d_capacity base source); [|done]. simpl. destruct (parse_u64 _); [|done]. simpl.
  destruct (0 <? z) eqn:E; [|done]. zb. naive_solver.
Qed.

Section Tiers.
Variables (w : walk) (source : string).
Let metrics := by_key (metric_to_cores w source).
Let capacity (c : Z) : option Z := read_capacity (bases w) c source.

Lemma metrics_elem v c :
  (exists s, (v, s) ∈ metrics /\ c ∈ s) <-> c ∈ all_cores w /\ capacity c = Some v.
Proof.
  unfold capacity. rewrite <- metric_to_cores_spec, elem_of_default. unfold metrics.
  by setoid_rewrite elem_of_by_key.
Qed.

Lemma tier_capacity t below c :
  tier metrics t below c <->
  exists v, c ∈ all_cores w /\ capacity c = Some v /\ f64_lt (f64_of v) t = below.
Proof.
  unfold tier. split.
  - intros (v & s & Hm & Hc & Hb). exists v.
    destruct (proj1 (metrics_elem v c)) as [H1 H2]; eauto.
  - intros (v & Hc & Hv & Hb). destruct (proj2 (metrics_elem v c)) as (s & Hm & Hs); eauto 8.
Qed.

Lemma turbo_spec v s c :
  list.last metrics = Some (v, s) ->
  c ∈ s <-> c ∈ all_cores w /\ exists u, capacity c = Some u /\
            forall d x, d ∈ all_cores w -> capacity d = Some x -> x <= u.
Proof.
  intros Hl. pose proof (last_Some_elem_of _ _ Hl) as Hin.
  assert (Hmax : forall d x, d ∈ all_cores w -> capacity d = Some x -> x <= v).
  { intros d x Hd Hx. destruct (proj2 (metrics_elem x d)) as (t & Ht & _); [done|].
    eapply (sorted_last metrics v s (x, t)); [apply by_key_sorted|done|done]. }
  split.
  - intros Hc. destruct (proj1 (metrics_elem v c)) as [H1 H2]; eauto.
  - intros (Hc & u & Hu & Hall).
    assert (v = u) as <-.
    { apply Z.le_antisymm; [|by eapply Hmax].
      apply elem_of_by_key in Hin as Hs. pose proof (metric_to_cores_nonempty _ _ _ _ Hs) as Hne.
      apply set_choose_L in Hne as [d Hd].
      destruct (proj1 (metrics_elem v d)) as [H1 H2]; [by eauto|]. by eapply Hall. }
    destruct (proj2 (metrics_elem v c)) as (s' & Hs' & Hcs); [done|].
    apply elem_of_by_key in Hs', Hin. naive_solver.
Qed.
End Tiers.

(** *** The mean, exactly *)

Definition sum_of (l : list Z) : Z := foldr Z.add 0 l.

(** The capacity of the CPUs of the groups together, and how many they are. *)
Definition total (metrics : list (Z * gset Z)) : Z :=
  sum_of (map (fun m => m.1 * Z.of_nat (size m.2)) metrics).
Definition number (metrics : list (Z * gset Z)) : Z :=
  sum_of (map (fun m => Z.of_nat (size m.2)) metrics).

#[global] Instance sum_of_perm : Proper ((≡ₚ) ==> (=)) sum_of.
Proof. induction 1; simpl; lia. Qed.

Lemma sum_of_bounds (l : list Z) x :
  Forall (fun y => 0 < y) l -> x ∈ l ->
  0 < x <= sum_of l /\ 0 < Z.of_nat (length l) <= sum_of l /\ 0 < sum_of l.
Proof.
  intros H Hx.
  assert (Hl : Z.of_nat (length l) <= sum_of l) by (clear Hx; induction H; simpl in *; lia).
  induction H as [|y l Hy Hf IH]; [by apply elem_of_nil in Hx|]. cbn [sum_of foldr length] in *.
  assert (0 <= foldr Z.add 0 l) by (clear -Hf; induction Hf; simpl; lia).
  apply elem_of_cons in Hx as [->|Hx]; [lia|].
  assert (Z.of_nat (length l) <= sum_of l) as Hl' by (clear -Hf; induction Hf; simpl in *; lia).
  specialize (IH Hx Hl'). unfold sum_of in *. lia.
Qed.

Lemma size_pos (s : gset Z) : s <> ∅ -> 0 < Z.of_nat (size s).
Proof. intros H. destruct (size s) eqn:E; [|lia]. destruct H. by apply size_empty_inv, leibniz_equiv in E. Qed.

Lemma total_pos metrics :
  Forall (fun m => 0 < m.1 /\ m.2 <> ∅) metrics -> 0 <= total metrics /\ 0 <= number metrics.
Proof.
  unfold total, number. induction 1 as [|[v s] l [Hv Hs] _ IH]; simpl in *; [lia|].
  pose proof (size_pos s Hs). nia.
Qed.

Lemma mean_capacity_exact metrics :
  Forall (fun m => 0 < m.1 /\ m.2 <> ∅) metrics -> total metrics < 2 ^ 53 ->
  mean_capacity metrics = f64_div (f64_of (total metrics)) (f64_of (number metrics)).
Proof.
  intros Hm Ht. unfold mean_capacity.
  match goal with |- context [foldl ?f _ _] => set (step := f) end.
  assert (H : forall l a n, Forall (fun m => 0 < m.1 /\ m.2 <> ∅) l -> 0 <= a ->
    a + total l < 2 ^ 53 -> foldl step (f64_of a, n) l = (f64_of (a + total l), n + number l)).
  { intros l a n Hl. revert a n. induction Hl as [|[v s] l [Hv Hs] Hl IH]; intros a n Ha Hb.
    - unfold total, number. simpl. by rewrite !Z.add_0_r.
    - pose proof (size_pos s Hs) as Hz. pose proof (total_pos l Hl) as [Hp _]. simpl in Hv, Hz.
      assert (Et : total ((v, s) :: l) = v * Z.of_nat (size s) + total l) by done.
      assert (En : number ((v, s) :: l) = Z.of_nat (size s) + number l) by done.
      assert (0 < v * Z.of_nat (size s)) by (by apply Z.mul_pos_pos).
      cbn [foldl]. subst step. cbv beta iota.
      rewrite f64_mul_exact, f64_add_exact by lia. rewrite IH by lia.
      rewrite Et, En. f_equal; [f_equal|]; lia. }
  change f64_0 with (f64_of 0). by rewrite H by done || lia.
Qed.

Lemma by_key_perm m : by_key m ≡ₚ map_to_list m.
Proof.
  apply NoDup_Permutation.
  - pose proof (by_key_sorted m) as H. induction H as [|x l Hl IH Hx]; constructor; [|done].
    intros Hin. rewrite list.Forall_forall in Hx. specialize (Hx x Hin). lia.
  - apply NoDup_map_to_list.
  - intros [v s]. by rewrite elem_of_by_key, elem_of_map_to_list.
Qed.

Lemma total_group_insert v c (m : gmap Z (gset Z)) :
  c ∉ default ∅ (m !! v) ->
  total (map_to_list (group_insert v c m)) = v + total (map_to_list m) /\
  number (map_to_list (group_insert v c m)) = 1 + number (map_to_list m).
Proof.
  intros Hc. unfold group_insert, total, number.
  assert (Hsize : forall s : gset Z, c ∉ s -> Z.of_nat (size ({[c]} ∪ s)) = 1 + Z.of_nat (size s)).
  { intros s Hs. rewrite size_union by set_solver. rewrite size_singleton. lia. }
  rewrite <- insert_delete_eq, map_to_list_insert by apply lookup_delete_eq. cbn [map sum_of foldr fst snd]. rewrite Hsize by done.
  destruct (m !! v) as [s|] eqn:E; cbn [default].
  - rewrite <- (map_to_list_delete m v s E). unfold sum_of, id. cbn [map foldr fst snd]. split; ring.
  - rewrite delete_id by done. unfold sum_of. rewrite size_empty. split; ring.
Qed.

Section Reported.
Variables (w : walk) (source : string).
Let metrics := by_key (metric_to_cores w source).
Let capacity (c : Z) : option Z := read_capacity (bases w) c source.
(** The capacities of the online CPUs that report one. *)
Let reported : list Z := omap capacity (ascending (all_cores w)).

Lemma ascending_nodup s : NoDup (ascending s).
Proof. unfold ascending. rewrite merge_sort_Permutation. apply NoDup_elements. Qed.

Lemma reported_totals : total metrics = sum_of reported /\ number metrics = Z.of_nat (length reported).
Proof.
  unfold metrics, total, number. rewrite !by_key_perm. fold (total (map_to_list (metric_to_cores w source))).
  fold (number (map_to_list (metric_to_cores w source))).
  unfold metric_to_cores, reported.
  match goal with |- context [foldl ?f _ _] => set (step := f) end.
  assert (H : forall l m, NoDup l -> (forall v c, c ∈ default ∅ (m !! v) -> c ∉ l) ->
    total (map_to_list (foldl step m l)) = total (map_to_list m) + sum_of (omap capacity l) /\
    number (map_to_list (foldl step m l)) = number (map_to_list m) + Z.of_nat (length (omap capacity l))).
  { intros l. induction l as [|c l IH]; intros m Hn Hf; [simpl; lia|].
    apply list.NoDup_cons in Hn as [Hc Hn]. cbn [foldl omap list_omap].
    assert (Hs : step m c = match capacity c with Some v => group_insert v c m | None => m end) by done.
    rewrite Hs. destruct (capacity c) as [v|].
    - destruct (total_group_insert v c m) as [E1 E2].
      { intros Hin. apply Hf in Hin. by destruct Hin; left. }
      destruct (IH (group_insert v c m) Hn) as [-> ->].
      { intros u d. unfold group_insert. destruct (decide (u = v)) as [->|Huv].
        - rewrite lookup_insert_eq. cbn [default]; unfold id. intros [->%elem_of_singleton|Hd]%elem_of_union; [done|].
          intros Hl. apply Hf in Hd. by destruct Hd; right.
        - rewrite lookup_insert_ne by done. intros Hd Hl. apply Hf in Hd. by destruct Hd; right. }
      rewrite E1, E2. cbn [sum_of foldr length]. split; [unfold sum_of; lia|lia].
    - destruct (IH m Hn) as [-> ->]; [|done]. intros u d Hd Hl. apply Hf in Hd. by destruct Hd; right. }
  destruct (H (ascending (all_cores w)) ∅ (ascending_nodup _)) as [-> ->].
  { intros v c. rewrite lookup_empty. set_solver. }
  done.
Qed.

Lemma elem_of_reported x : x ∈ reported <-> exists c, c ∈ all_cores w /\ capacity c = Some x.
Proof. unfold reported. rewrite list_elem_of_omap. by setoid_rewrite elem_of_ascending. Qed.

Lemma metrics_positive : Forall (fun m => 0 < m.1 /\ m.2 <> ∅) metrics.
Proof.
  apply list.Forall_forall. intros [v s] Hin. cbn [fst snd].
  pose proof Hin as Hs%elem_of_by_key. pose proof (metric_to_cores_nonempty _ _ _ _ Hs) as Hne.
  split; [|done]. apply set_choose_L in Hne as [c Hc].
  destruct (proj1 (metrics_elem w source v c)) as [_ Hv]; [by eauto|].
  by eapply read_capacity_pos.
Qed.

Lemma metrics_keys v : (exists s, (v, s) ∈ metrics) <-> v ∈ reported.
Proof.
  rewrite elem_of_reported. split.
  - intros [s Hs]. pose proof Hs as Hm%elem_of_by_key.
    pose proof (metric_to_cores_nonempty _ _ _ _ Hm) as Hne. apply set_choose_L in Hne as [c Hc].
    exists c. apply (metrics_elem w source). eauto.
  - intros (c & Hc). apply (metrics_elem w source) in Hc as (s & Hs & _). eauto.
Qed.

(** Two capacities that are far enough apart, among the groups or among the CPUs. *)
Lemma spread_reported :
  Exists (fun a => Exists (fun b => a.1 < b.1 /\ 13 * a.1 <= 10 * b.1) metrics) metrics <->
  exists x y, x ∈ reported /\ y ∈ reported /\ x < y /\ 13 * x <= 10 * y.
Proof.
  rewrite Exists_exists. setoid_rewrite Exists_exists. split.
  - intros ([x s] & Hx & [y t] & Hy & H). exists x, y. split_and!; try (apply metrics_keys; eauto); apply H.
  - intros (x & y & [s Hx]%metrics_keys & [t Hy]%metrics_keys & H). eauto 8.
Qed.

(** The comparison with the mean is exact. *)
Lemma below_mean c x :
  Forall (fun x => x < 2 ^ 49) reported -> sum_of reported < 2 ^ 53 ->
  c ∈ all_cores w -> capacity c = Some x ->
  f64_lt (f64_of x) (mean_capacity metrics) = (x * Z.of_nat (length reported) <? sum_of reported).
Proof.
  intros Hsmall Hsum Hc Hx. destruct reported_totals as [Et En].
  assert (Hin : x ∈ reported) by (apply elem_of_reported; eauto).
  assert (Hp : Forall (fun y => 0 < y) reported).
  { apply list.Forall_forall. intros y (d & _ & Hy)%elem_of_reported. by eapply read_capacity_pos. }
  pose proof (sum_of_bounds reported x Hp Hin) as (H1 & H2 & H3).
  rewrite mean_capacity_exact, Et, En by (apply metrics_positive || by rewrite Et).
  rewrite list.Forall_forall in Hsmall. specialize (Hsmall x Hin).
  rewrite f64_lt_div; [done|lia..].
Qed.
End Reported.

(** The outcome of the classification: two capacities of which one is at least 1.3 times
    the other. *)
Lemma classify_cores_spec metrics top :
  StronglySorted (fun a b => a.1 < b.1) metrics ->
  Forall (fun m => 0 < m.1 /\ m.1 < 2 ^ 49) metrics ->
  if bool_decide (Exists (fun a => Exists (fun b => a.1 < b.1 /\ 13 * a.1 <= 10 * b.1) metrics) metrics)
  then exists v s, list.last metrics = Some (v, s) /\
    classify_cores metrics top =
      with_tiers (split_tiers (mean_capacity metrics) metrics).1
                 (split_tiers (mean_capacity metrics) metrics).2 s top
  else classify_cores metrics top = mark_homogeneous top.
Proof.
  intros Hs Hb. unfold classify_cores. destruct (Nat.leb_spec (length metrics) 1) as [Hl|Hl].
  { rewrite bool_decide_false; [done|]. rewrite Exists_exists. setoid_rewrite Exists_exists.
    intros (a & Ha & b & Hb' & Hlt & _). destruct metrics as [|x [|]]; simpl in *; try lia.
    - by apply elem_of_nil in Ha.
    - apply list_elem_of_singleton in Ha, Hb'. subst. lia. }
  destruct metrics as [|[v0 s0] l]; [simpl in *; lia|]. cbn [head].
  destruct (list.last ((v0, s0) :: l)) as [[v s]|] eqn:El; [|by apply last_None in El].
  pose proof (last_Some_elem_of _ _ El) as Hin. pose proof Hb as Hb'.
  rewrite list.Forall_forall in Hb'. pose proof (Hb' _ Hin) as Hv. simpl in Hv.
  pose proof (Hb' (v0, s0) ltac:(left)) as Hv0. simpl in Hv0.
  assert (Hlow : forall x, x ∈ (v0, s0) :: l -> v0 <= x.1).
  { intros x [->|Hx]%elem_of_cons; [done|]. inversion Hs as [|? ? _ Hf]; subst.
    rewrite list.Forall_forall in Hf. specialize (Hf x Hx). simpl in Hf. lia. }
  assert (Hlt : v0 < v).
  { inversion Hs as [|? ? _ Hf]; subst. rewrite list.Forall_forall in Hf.
    destruct l as [|y l]; [simpl in Hl; lia|]. change (list.last (y :: l) = Some (v, s)) in El.
    apply last_Some_elem_of in El. apply (Hf _ El). }
  rewrite f64_lt_1_3 by lia. destruct (Z.ltb_spec (10 * v) (13 * v0)) as [L|L].
  - rewrite bool_decide_false; [done|]. rewrite Exists_exists. setoid_rewrite Exists_exists.
    intros (a & Ha & b & Hb2 & _ & H3). pose proof (Hlow a Ha).
    pose proof (sorted_last _ v s b Hs El Hb2). lia.
  - rewrite bool_decide_true.
    + exists v, s. split; [done|]. by destruct (split_tiers _ _).
    + rewrite Exists_exists. exists (v0, s0). split; [left|]. rewrite Exists_exists.
      exists (v, s). split; [done|]. simpl. lia.
Qed.

(** The listed nodes and caches are the groups. *)
Section Infos.
Context (iter : gmap Z (gset Z) -> list (Z * gset Z)) (w : walk) (Hi : forall m, iter m ≡ₚ map_to_list m).

Lemma elem_of_node_infos n :
  n ∈ node_infos iter w <->
  exists id s, node_groups w !! id = Some s /\ n = MkNodeInfo id (ascending s) (format_cpuset s).
Proof.
  unfold node_infos. rewrite list_elem_of_fmap. setoid_rewrite Hi. split.
  - intros ([id s] & -> & Hin%elem_of_map_to_list). eauto.
  - intros (id & s & Hs & ->). exists (id, s). by rewrite elem_of_map_to_list.
Qed.

Lemma elem_of_llc_infos n :
  n ∈ llc_infos iter w <->
  exists id s, llc_groups w !! id = Some s /\
    n = MkLlcInfo id (ascending s) (format_cpuset s) (default 0 (llc_l3_size w !! id)).
Proof.
  unfold llc_infos. rewrite list_elem_of_fmap. setoid_rewrite Hi. split.
  - intros ([id s] & -> & Hin%elem_of_map_to_list). eauto.
  - intros (id & s & Hs & ->). exists (id, s). by rewrite elem_of_map_to_list.
Qed.
End Infos.

(** ** Properties *)
Module TopologyProps.

(** The text of a set of CPUs, which is what an alias holds, is read back by the
    parser of a rule's [cpuset] as exactly that set; and the text of no CPU is empty,
    which the parser refuses, so that the rule changes nothing. *)
Theorem alias_text_exact (m : Z) (cores : gset Z) :
  in_u 32 m -> (forall k, k ∈ cores -> 0 <= k < m) ->
  (cores <> ∅ -> exists s, parse (format_cpuset cores) m = Some s /\ to_set s = cores) /\
  (cores = ∅ -> parse (format_cpuset cores) m = None).
Proof.
  intros Hm Hk. split; [intros Hne; by apply format_cpuset_parse|]. intros ->. done.
Qed.
Lemma alias_text_exact_witness :
  exists s, parse (format_cpuset {[0; 1; 2; 3; 8; 10; 11]}) 12 = Some s /\
            to_set s = {[0; 1; 2; 3; 8; 10; 11]}.
Proof. apply alias_text_exact; [done|set_solver by lia|set_solver]. Defined.

(** C28. Every CPU that sysfs lists as online, one without an [online] file included, is in
    exactly one NUMA node and in exactly one last-level cache, and no other CPU is,
    whatever order the maps are walked in; the node is the one its directory names, and
    two CPUs are in one cache exactly when their directories list the same sharers. *)
Theorem groups_partition_cpus (iter : gmap Z (gset Z) -> list (Z * gset Z)) (sys : sysfs) :
  (forall m, iter m ≡ₚ map_to_list m) -> distinct_cpus sys -> few_cpus sys ->
  let w := walk_cpus sys in
  (forall c, (exists d, online sys c d) <-> exists n, n ∈ node_infos iter w /\ c ∈ node_cpu_ids n) /\
  (forall c, (exists d, online sys c d) <-> exists n, n ∈ llc_infos iter w /\ c ∈ llc_cpu_ids n) /\
  (forall c n n', n ∈ node_infos iter w -> n' ∈ node_infos iter w ->
     c ∈ node_cpu_ids n -> c ∈ node_cpu_ids n' -> n = n') /\
  (forall c n n', n ∈ llc_infos iter w -> n' ∈ llc_infos iter w ->
     c ∈ llc_cpu_ids n -> c ∈ llc_cpu_ids n' -> n = n') /\
  (forall c d n pre k post, online sys c d -> n ∈ node_infos iter w -> c ∈ node_cpu_ids n ->
     d_entries d = Some (pre ++ sapp "node" (fmt_uint k) :: post) ->
     Forall (fun e => starts_with "node" e = false) pre -> 0 <= k < 2 ^ 31 -> node_id n = k) /\
  (forall c c' d d' key key' n n', online sys c d -> online sys c' d' ->
     cache_key d key -> cache_key d' key' -> n ∈ llc_infos iter w -> n' ∈ llc_infos iter w ->
     c ∈ llc_cpu_ids n -> c' ∈ llc_cpu_ids n' -> (n = n' <-> key = key')).
Proof.
  intros Hi Hd Hfew. cbn zeta.
  pose proof (walk_cpus_ok sys Hd) as ((_ & Hn & Hnd) & (_ & Hl & Hld) & _).
  set (w := walk_cpus sys) in *.
  pose proof (elem_of_node_infos iter w Hi) as En. pose proof (elem_of_llc_infos iter w Hi) as El.
  assert (Hgr : forall c d, online sys c d -> exists l, grouped l w /\ (c, d) ∈ l /\ is_online c d = true).
  { intros c d (entries & He & Hin & Ho)%online_listed. exists (sorted_cpus entries).
    split; [by apply walk_grouped|done]. }
  split_and!.
  - intros c. rewrite <- online_cores. fold w. rewrite Hn. setoid_rewrite En. split.
    + intros (id & s & Hs & Hc). eexists. split; [by eauto|]. simpl. by rewrite elem_of_ascending.
    + intros (n & (id & s & Hs & ->) & Hc). simpl in Hc. rewrite elem_of_ascending in Hc. eauto.
  - intros c. rewrite <- online_cores. fold w. rewrite Hl. setoid_rewrite El. split.
    + intros (id & s & Hs & Hc). eexists. split; [by eauto|]. simpl. by rewrite elem_of_ascending.
    + intros (n & (id & s & Hs & ->) & Hc). simpl in Hc. rewrite elem_of_ascending in Hc. eauto.
  - intros c n n' (i & s & Hs & ->)%En (j & t & Ht & ->)%En. simpl. rewrite !elem_of_ascending.
    intros Hcs Hct. assert (i = j) as -> by eauto. by simplify_eq.
  - intros c n n' (i & s & Hs & ->)%El (j & t & Ht & ->)%El. simpl. rewrite !elem_of_ascending.
    intros Hcs Hct. assert (i = j) as -> by eauto. by simplify_eq.
  - intros c d n pre k post Ho (i & s & Hs & ->)%En. simpl. rewrite elem_of_ascending. intros Hc He Hp Hk.
    rewrite <- (get_node_id_named d pre k post He Hp Hk).
    destruct (Hgr c d Ho) as (l & G & Hin & Hon). destruct (in_node _ _ G c d Hin Hon) as (t & Ht & Hct).
    eauto.
  - intros c c' d d' key key' n n' Ho Ho' Hk Hk' (i & s & Hs & ->)%El (j & t & Ht & ->)%El. simpl.
    rewrite !elem_of_ascending. intros Hc Hc'.
    destruct (Hgr c d Ho) as (l & G & Hin & Hon). destruct (Hgr c' d' Ho') as (l' & G' & Hin' & Hon').
    destruct (in_llc _ _ G c d key Hin Hon Hk) as (id & s' & Hm & Hg & Hcs).
    destruct (in_llc _ _ G' c' d' key' Hin' Hon' Hk') as (id' & t' & Hm' & Hg' & Hct).
    assert (i = id) as -> by eauto. assert (j = id') as -> by eauto. split.
    + intros [= <- _ _ _]. by eapply (ids_inj _ _ G).
    + intros <-. assert (id = id') as <- by congruence. by simplify_eq.
Qed.

(** A machine of two big and two little CPUs, listed out of order. *)
Definition demo_cpu (cap cache : string) : cpu_dir :=
  MkCpuDir (Some "1") (Some ["topology"; "node0"]) (fun n => if n =? 3 then Some cache else None)
    (fun n => if n =? 3 then Some "8M" else None)
    (fun source => if String.eqb source "cpu_capacity" then Some cap else None).
Definition demo_sys : sysfs :=
  MkSysfs (Some "0")
    (Some [("cpu2", demo_cpu "512" "2-3"); ("cpu0", demo_cpu "1024" "0-1"); ("cpufreq", demo_cpu "1" "1");
           ("cpu1", demo_cpu "1024" "0-1"); ("cpu3", demo_cpu "512" "2-3")]).
Example demo_aliases :
  let top := detect_topology_impl map_to_list demo_sys in
  generate_cpuset_aliases top !! "performance-cores" = Some "0-1" /\
  generate_cpuset_aliases top !! "little-cores" = Some "2-3" /\
  generate_cpuset_aliases top !! "llc-1" = Some "2-3" /\
  generate_cpuset_aliases top !! "node-0" = Some "0-3" /\
  summary top = "4 CPUs, 2 LLCs, 1 NUMA nodes, SMT=off, big.LITTLE=yes".
Proof. vm_compute. done. Qed.

Lemma demo_distinct : distinct_cpus demo_sys.
Proof. unfold distinct_cpus. apply (bool_decide_unpack _). vm_compute. done. Defined.

(** CPUs 2 and 3 share a cache that CPU 0 does not. *)
Lemma groups_partition_cpus_witness :
  exists n, n ∈ llc_infos map_to_list (walk_cpus demo_sys) /\ 2 ∈ llc_cpu_ids n /\
    forall m, m ∈ llc_infos map_to_list (walk_cpus demo_sys) ->
      (3 ∈ llc_cpu_ids m -> n = m) /\ (0 ∈ llc_cpu_ids m -> n <> m).
Proof.
  assert (H2 : online demo_sys 2 (demo_cpu "512" "2-3")).
  { split; [|right; reflexivity]. eexists _, "2". split; [reflexivity|]. split; [left|reflexivity]. }
  assert (H3 : online demo_sys 3 (demo_cpu "512" "2-3")).
  { split; [|right; reflexivity]. eexists _, "3". split; [reflexivity|].
    split; [do 4 right; left|reflexivity]. }
  assert (H0 : online demo_sys 0 (demo_cpu "1024" "0-1")).
  { split; [|left; reflexivity]. eexists _, "0". split; [reflexivity|].
    split; [right; left|reflexivity]. }
  assert (K2 : cache_key (demo_cpu "512" "2-3") "2-3").
  { left. exists "2-3". split; [reflexivity|]. split; [reflexivity|discriminate]. }
  assert (K0 : cache_key (demo_cpu "1024" "0-1") "0-1").
  { left. exists "0-1". split; [reflexivity|]. split; [reflexivity|discriminate]. }
  destruct (groups_partition_cpus map_to_list demo_sys) as (_ & Hl & _ & _ & _ & Hs);
    [done|apply demo_distinct|vm_compute; reflexivity|].
  destruct (proj1 (Hl 2)) as (n & Hn & Hc); [by eexists|].
  exists n. split; [exact Hn|]. split; [exact Hc|]. intros m Hm. split; intros Hcm.
  - apply (Hs 2 3 _ _ "2-3" "2-3" n m H2 H3 K2 K2 Hn Hm Hc Hcm). reflexivity.
  - intros E. apply (Hs 2 0 _ _ "2-3" "0-1" n m H2 H0 K2 K0 Hn Hm Hc Hcm) in E. discriminate E.
Defined.

(** The order in which the kernel lists the CPUs' directories changes nothing, so
    [llc-0] names the same cache on every start. *)
Theorem directory_order_irrelevant (iter : gmap Z (gset Z) -> list (Z * gset Z)) (sys : sysfs)
    (entries entries' : list (string * cpu_dir)) :
  s_cpus sys = Some entries -> entries ≡ₚ entries' -> distinct_cpus sys ->
  detect_topology_impl iter sys =
  detect_topology_impl iter (MkSysfs (s_smt_active sys) (Some entries')).
Proof.
  intros Hs Hp Hd. unfold distinct_cpus in Hd. rewrite Hs in Hd.
  unfold detect_topology_impl, walk_cpus. simpl. rewrite Hs.
  by rewrite (sorted_cpus_order entries entries').
Qed.
Lemma directory_order_irrelevant_witness :
  detect_topology_impl map_to_list demo_sys =
  detect_topology_impl map_to_list (MkSysfs (Some "0")
    (Some (rev (match s_cpus demo_sys with Some l => l | None => [] end)))).
Proof.
  eapply (directory_order_irrelevant map_to_list demo_sys); [reflexivity| |apply demo_distinct].
  apply Permutation_rev.
Defined.

(** C27. The online CPUs that report a capacity are split by its mean: little are those below
    it, big the others, and [turbo] holds exactly the fastest. This happens exactly when
    one of the capacities is at least 1.3 times another; otherwise every online CPU is big
    and there is no little and no turbo one, so that those aliases stay empty. The
    comparisons are those of the exact numbers, although the code computes them in
    binary64, as long as the capacities are below [2^49] and add up to less than
    [2^53]. *)
Theorem tiers_by_capacity (iter : gmap Z (gset Z) -> list (Z * gset Z)) (sys : sysfs) :
  let top := detect_topology_impl iter sys in
  let w := walk_cpus sys in
  let capacity c := read_capacity (bases w) c (pick_capacity_source (bases w) (all_cores w)) in
  let reported := omap capacity (ascending (all_cores w)) in
  Forall (fun x => x < 2 ^ 49) reported -> sum_of reported < 2 ^ 53 ->
  (has_big_little top = true <->
     exists x y, x ∈ reported /\ y ∈ reported /\ x < y /\ 13 * x <= 10 * y) /\
  if has_big_little top then
    exists little big turbo,
      little_cores_str top = format_cpuset little /\ big_cores_str top = format_cpuset big /\
      turbo_cores_str top = format_cpuset turbo /\
      (forall c, c ∈ little <-> c ∈ all_cores w /\ exists x, capacity c = Some x /\
         x * Z.of_nat (length reported) < sum_of reported) /\
      (forall c, c ∈ big <-> c ∈ all_cores w /\ exists x, capacity c = Some x /\
         sum_of reported <= x * Z.of_nat (length reported)) /\
      (forall c, c ∈ turbo <-> c ∈ all_cores w /\ exists x, capacity c = Some x /\
         forall d y, d ∈ all_cores w -> capacity d = Some y -> y <= x)
  else big_cores_str top = all_cores_str top /\ all_cores_str top = format_cpuset (all_cores w) /\
       little_cores_str top = EmptyString /\ turbo_cores_str top = EmptyString.
Proof.
  cbv zeta. unfold detect_topology_impl. set (w := walk_cpus sys).
  set (source := pick_capacity_source (bases w) (all_cores w)).
  set (reported := omap _ _). intros Hsmall Hsum.
  destruct (decide (all_cores w = ∅)) as [E|Hne].
  { cbn. split; [|by rewrite E]. split; [done|]. intros (x & y & Hx & _).
    apply (elem_of_reported w source) in Hx as (c & Hc & _). set_solver. }
  set (metrics := by_key (metric_to_cores w source)).
  pose proof (metrics_positive w source) as Hpos. fold metrics in Hpos.
  pose proof (metrics_keys w source) as Hkeys. fold metrics in Hkeys.
  assert (Hms : Forall (fun m => 0 < m.1 /\ m.1 < 2 ^ 49) metrics).
  { apply list.Forall_forall. intros [v s] Hin. rewrite list.Forall_forall in Hpos. rewrite list.Forall_forall in Hsmall.
    split; [by apply (Hpos (v, s))|]. apply Hsmall, Hkeys. eauto. }
  pose proof (spread_reported w source) as Hpairs. fold metrics reported in Hpairs.
  pose proof (classify_cores_spec metrics (MkCpuTopology false EmptyString EmptyString EmptyString
    (format_cpuset (all_cores w)) (Z.of_nat (size (all_cores w))) (detect_smt sys) (node_infos iter w)
    (llc_infos iter w) (biggest_llc_cores (llc_infos iter w))) (by_key_sorted _) Hms) as Hcls.
  destruct (bool_decide _) eqn:Hd.
  2: { rewrite Hcls. split; [|done]. split; [done|]. intros H%Hpairs.
       by apply bool_decide_eq_false in Hd. }
  apply bool_decide_eq_true in Hd. destruct Hcls as (v & s & Hl & ->).
  cbn [has_big_little with_tiers]. split; [by rewrite <- Hpairs|].
  pose proof (fun c x => below_mean w source c x Hsmall Hsum) as Hlt. fold metrics reported in Hlt.
  pose proof (tier_capacity w source) as Htc. fold metrics in Htc.
  eexists _, _, s. do 3 (split; [reflexivity|]). split_and!.
  - intros c. rewrite (proj1 (split_tiers_spec _ metrics c)), Htc. split.
    + intros (x & Hc & Hx & L). rewrite (Hlt c x Hc Hx) in L. zb. eauto.
    + intros (Hc & x & Hx & L). exists x. rewrite (Hlt c x Hc Hx). split_and!; try done. by apply Z.ltb_lt.
  - intros c. rewrite (proj2 (split_tiers_spec _ metrics c)), Htc. split.
    + intros (x & Hc & Hx & L). rewrite (Hlt c x Hc Hx) in L. zb. eauto.
    + intros (Hc & x & Hx & L). exists x. rewrite (Hlt c x Hc Hx). split_and!; try done. by apply Z.ltb_ge.
  - intros c. by apply turbo_spec with (v := v).
Qed.

(** On the machine above: two CPUs of 1024 and two of 512, mean 768. *)
Lemma tiers_by_capacity_witness :
  let top := detect_topology_impl map_to_list demo_sys in
  has_big_little top = true /\ exists little,
    little_cores_str top = format_cpuset little /\ 2 ∈ little /\ 0 ∉ little.
Proof.
  cbv zeta. split; [vm_compute; reflexivity|].
  destruct (tiers_by_capacity map_to_list demo_sys) as [_ H].
  - apply (bool_decide_unpack _). vm_compute. exact I.
  - apply Z.ltb_lt. vm_compute. reflexivity.
  - replace (has_big_little (detect_topology_impl map_to_list demo_sys)) with true in H
      by (vm_compute; reflexivity).
    destruct H as (little & big & turbo & H1 & _ & _ & H2 & _). exists little.
    split; [exact H1|]. split.
    + apply H2. split; [apply (bool_decide_unpack _); vm_compute; exact I|].
      exists 512. split; [vm_compute; reflexivity|]. apply Z.ltb_lt. vm_compute. reflexivity.
    + intros (_ & x & Hx & L)%H2. apply Z.ltb_lt in L. vm_compute in Hx. injection Hx as <-.
      vm_compute in L. discriminate L.
Defined.
End TopologyProps.
