(* ===== verification/X3d.v ===== *)
(** * AMD 3D V-Cache parts

    [crates/ananicy-platform/src/x3d.rs], and what the daemon does with it:
    [apply_x3d_mode] and [load_topology_aliases] of [src/src/startup.rs] and
    [restore_x3d] of [src/src/monitor.rs].  The mode of the driver is a setting
    that outlives the daemon, so it is switched once and put back. *)

From S2P Require Import Prelude RustStr CpuSet Config LruCache Worker Kernel Paths Procfs Files Topology.
From stdpp Require Import base option list gmap strings numbers.
From Stdlib Require Import ZArith Lia Ascii.

#[local] Open Scope Z_scope.

(** ** The driver's mode *)

Inductive X3DMode := Cache | Frequency.

#[global] Instance X3DMode_eq_dec : EqDecision X3DMode.
Proof. solve_decision. Defined.

Definition mode_str (m : X3DMode) : string :=
  match m with Cache => "cache" | Frequency => "frequency" end.
Definition mode_of (content : string) : option X3DMode :=
  if String.eqb (trim content) "cache" then Some Cache
  else if String.eqb (trim content) "frequency" then Some Frequency
  else None.

Section Mode.
Context {W : Type} {Hf : Files W}.

(** [find(|path| path.exists())]. *)
Fixpoint first_existing (paths : list path) : io W (option path) :=
  match paths with
  | [] => mret None
  | p :: paths =>
      there ← f_exists p;
      if there : bool then mret (Some p) else first_existing paths
  end.

Definition driver_dir (sysfs_root : path) : path :=
  push sysfs_root "bus/platform/drivers/amd_x3d_vcache".

Definition get_x3d_mode_path_in_sysfs (sysfs_root : path) : io W (option path) :=
  r ← f_read_dir (driver_dir sysfs_root);
  match r with
  | None => mret None
  | Some entries =>
      first_existing (map (fun e => push (push (driver_dir sysfs_root) e) "amd_x3d_mode") entries)
  end.

Definition get_driver_mode_in (sysfs_root : path) : io W (option X3DMode) :=
  mode_path ← get_x3d_mode_path_in_sysfs sysfs_root;
  match mode_path with
  | None => mret None
  | Some mode_path =>
      r ← f_read mode_path;
      mret (match r with inl content => mode_of content | inr _ => None end)
  end.

Definition set_driver_mode_in (sysfs_root : path) (mode : X3DMode) : io W bool :=
  mode_path ← get_x3d_mode_path_in_sysfs sysfs_root;
  match mode_path with
  | None => mret false
  | Some mode_path =>
      r ← f_write mode_path (mode_str mode);
      mret (match r with None => true | Some _ => false end)
  end.

(** [startup.rs]: switch, and return what to put back. *)
Definition apply_x3d_mode_in (sys_root : path) (cfg : ConfigSnapshot) : io W (option X3DMode) :=
  if String.eqb (x3d_mode cfg) "auto" then mret None else
  saved_mode ← get_driver_mode_in sys_root;
  match saved_mode with
  | None => mret None
  | Some saved_mode =>
      let target := if String.eqb (x3d_mode cfg) "cache" then Cache else Frequency in
      ok ← set_driver_mode_in sys_root target;
      mret (if ok : bool then Some saved_mode else None)
  end.

(** [monitor.rs], on every way out of the daemon. *)
Definition restore_x3d (sys_root : path) (saved_x3d_mode : option X3DMode) : io W bool :=
  match saved_x3d_mode with
  | Some mode => set_driver_mode_in sys_root mode
  | None => mret false
  end.

End Mode.

(** ** Which cores have the cache *)

Record X3DTopology := MkX3D { cache_cores_str : string; frequency_cores_str : string }.

Definition contains (p s : string) : bool := match find_str p s with Some _ => true | None => false end.

(** The two maps of the walk. *)
Record dies := MkDies { die_to_cores : gmap Z (gset Z); die_to_cache : gmap Z Z }.

(** The die with the largest cache: the first of them, in ascending order. *)
Definition larger_die (m : gmap Z Z) (best : Z * Z) (die : Z) : Z * Z :=
  match m !! die with
  | Some size => if fst best <? size then (size, die) else best
  | None => best
  end.
Definition cache_die (m : gmap Z Z) : Z := snd (foldl (larger_die m) (0, 0) (ascending (dom m))).

Definition all_of (m : gmap Z (gset Z)) : gset Z :=
  foldl (fun acc d => default ∅ (m !! d) ∪ acc) ∅ (ascending (dom m)).
Definition cores_of (die : Z) (own : bool) (m : gmap Z (gset Z)) : gset Z :=
  foldl (fun acc d => if Bool.eqb (d =? die) own then default ∅ (m !! d) ∪ acc else acc) ∅
    (ascending (dom m)).

(** The end of [detect_x3d_topology_impl], from the maps on. *)
Definition split_dies (d : dies) : option X3DTopology :=
  if (size (die_to_cores d) <? 2)%nat then
    let all_cores := all_of (die_to_cores d) in
    if bool_decide (all_cores = ∅) then None
    else Some (MkX3D (format_cpuset all_cores) (format_cpuset all_cores))
  else if bool_decide (die_to_cache d = ∅) then None
  else
    let die := cache_die (die_to_cache d) in
    Some (MkX3D (format_cpuset (cores_of die true (die_to_cores d)))
                (format_cpuset (cores_of die false (die_to_cores d)))).

(** [cpu<n>], with something after the prefix. *)
Definition cpu_number (name : string) : option Z :=
  if starts_with "cpu" name && (3 <? Z.of_nat (slen name)) then parse_u32 (sdrop 3 name) else None.

Section Detect.
Context {W : Type} {Hf : Files W}.

Definition is_x3d_from_cpuinfo (proc_root : path) : io W bool :=
  r ← f_read (push proc_root "cpuinfo");
  mret (match r with
        | inl content => contains "X3D" content || contains "x3d" content
                         || contains "3D V-Cache" content
        | inr _ => false
        end).

(** A number in a file. *)
Definition read_id (p : path) : io W (option (option Z)) :=
  r ← f_read p;
  mret (match r with inl s => Some (parse_i32 (trim s)) | inr _ => None end).

(** The die of a CPU; its cluster where the die is unknown. *)
Definition die_of (base : path) : io W Z :=
  r ← read_id (push base "topology/die_id");
  let die_id := match r with Some id => id | None => None end in
  die_id ← (if bool_decide (die_id = None) || bool_decide (die_id = Some (-1)) then
              r ← read_id (push base "topology/cluster_id");
              mret (match r with Some id => id | None => die_id end)
            else mret die_id);
  mret (wrap_u 32 (match die_id with Some id => id | None => 0 end)).

Fixpoint walk_dies (sys_cpu_dir : path) (entries : list string) (d : dies) : io W dies :=
  match entries with
  | [] => mret d
  | name :: entries =>
      match cpu_number name with
      | None => walk_dies sys_cpu_dir entries d
      | Some cpu_id =>
          let base := push sys_cpu_dir name in
          die ← die_of base;
          r ← f_read (push base "cache/index3/size");
          let cache := match r with
                       | inl cache_str =>
                           let size := parse_size_string cache_str in
                           if 0 <? size then <[die := size]> (die_to_cache d) else die_to_cache d
                       | inr _ => die_to_cache d
                       end in
          walk_dies sys_cpu_dir entries (MkDies (group_insert die cpu_id (die_to_cores d)) cache)
      end
  end.

Definition detect_x3d_topology_impl (sys_root proc_root : path) : io W (option X3DTopology) :=
  driver ← get_x3d_mode_path_in_sysfs sys_root;
  x3d ← (match driver with Some _ => mret true | None => is_x3d_from_cpuinfo proc_root end);
  if negb x3d then mret None else
  let sys_cpu_dir := push sys_root "devices/system/cpu" in
  r ← f_read_dir sys_cpu_dir;
  d ← (match r with
       | Some entries => walk_dies sys_cpu_dir entries (MkDies ∅ ∅)
       | None => mret (MkDies ∅ ∅)
       end);
  mret (split_dies d).

End Detect.

(** [startup.rs]: the X3D aliases go on top of the generic ones. *)
Definition with_x3d_aliases (x3d_top : option X3DTopology) (aliases : gmap string string)
    : gmap string string :=
  match x3d_top with
  | Some t => <["x3d-frequency" := frequency_cores_str t]>
                (<["x3d-cache" := cache_cores_str t]> aliases)
  | None => aliases
  end.

(** ** Lemmas *)






(** *** The walk *)






(** ** Properties *)
Module X3dProps.


(** Two dies, the second with the larger cache. *)
Definition demo_files (p : path) : string + sys_error :=
  if String.eqb p "/sys/cpu2/topology/die_id" then inl (sapp "1" newline)
  else if ends_with "die_id" p then inl (sapp "0" newline)
  else if String.eqb p "/sys/cpu2/cache/index3/size" then inl (sapp "98304K" newline)
  else if ends_with "size" p then inl (sapp "32768K" newline)
  else inr (Errno ENOENT).
Definition demo_env : world_env :=
  MkWorldEnv (fun _ _ => true) (fun _ p => demo_files p) (fun _ _ => None) (fun _ _ _ => None)
    (fun _ _ _ => None) (fun _ _ => None) (fun _ _ => None) (fun _ _ => None)
    (fun _ => MkProcfs (fun _ => None) (fun _ => inr (Errno ENOENT)) (fun _ => None)
       (fun _ => None) (fun _ => None) (fun _ => inr (Errno ENOENT)) None)
    (fun _ => 0) (fun _ => None) (fun _ _ => None) (fun _ _ => None) (fun _ _ => None).


(** One die: both aliases are the whole machine. *)
Example one_die :
  split_dies (snd (walk_dies (Hf := traced_files demo_env) "/sys" ["cpu0"; "cpu1"] (MkDies ∅ ∅) [])) =
  Some (MkX3D "0-1" "0-1").
Proof. vm_compute. reflexivity. Qed.

(** *** The mode is put back *)

(** What a file holds after the writes of a trace. *)
Fixpoint content (p : path) (init : string) (tr : list event) : string :=
  match tr with
  | [] => init
  | EWrite q text None :: tr => if decide (q = p) then content p text tr else content p init tr
  | _ :: tr => content p init tr
  end.

Lemma content_app p init tr tr' : content p init (tr ++ tr') = content p (content p init tr) tr'.
Proof.
  revert init. induction tr as [|e tr IH]; intros init; [done|]. cbn [app content].
  destruct e; try apply IH. destruct r; [apply IH|]. case_decide; apply IH.
Qed.

(** A machine with the driver bound to one device, whose mode file remembers what is
    written to it. *)
Record x3d_machine (env : world_env) (root : path) (p : path) (init : string) : Prop := {
  xm_path : forall w, snd (get_x3d_mode_path_in_sysfs (Hf := traced_files env) root w) = Some p;
  xm_read : forall w, we_read env w p = inl (content p init w);
}.

Section Restore.
Context (env : world_env) (root p : path) (init : string) (Hm : x3d_machine env root p init).
#[local] Notation Hx := (traced_files env).

(** Requests that write nothing leave the file as it is. *)
Lemma quiet_record {A} (f : A -> event) answer v :
  (forall a, changes (f a) = None) ->
  safe (fun w => content p init w = v) (record f answer) (fun _ => True).
Proof.
  intros H. apply triple_record. intros w a Hw. split; [|done]. rewrite content_app, Hw.
  specialize (H a). by destruct (f a).
Qed.

Lemma mode_path_found v :
  safe (fun w => content p init w = v) (get_x3d_mode_path_in_sysfs (Hf := Hx) root) (fun r => r = Some p).
Proof.
  assert (H : safe (fun w => content p init w = v)
    (get_x3d_mode_path_in_sysfs (Hf := Hx) root) (fun _ => True)).
  { unfold get_x3d_mode_path_in_sysfs. eapply safe_bind; [by apply quiet_record|].
    intros [entries|] _; [|by apply safe_ret].
    induction entries as [|e entries IH]; cbn [map first_existing]; [by apply safe_ret|].
    eapply safe_bind; [by apply quiet_record|]. intros [] _; [by apply safe_ret|done]. }
  intros w Hw. split; [by apply H|]. apply (xm_path _ _ _ _ Hm).
Qed.

Lemma mode_read v :
  safe (fun w => content p init w = v) (get_driver_mode_in (Hf := Hx) root) (fun r => r = mode_of v).
Proof.
  unfold get_driver_mode_in. eapply safe_bind; [apply mode_path_found|]. intros ? ->.
  intros w Hw. unfold mbind, io_bind. cbn. rewrite (xm_read _ _ _ _ Hm), Hw. split; [|done].
  rewrite content_app, Hw. done.
Qed.

(** Setting the mode writes it, or fails and writes nothing. *)
Lemma mode_set v mode :
  triple (fun w => content p init w = v) (set_driver_mode_in (Hf := Hx) root mode)
    (fun ok w => content p init w = if ok : bool then mode_str mode else v).
Proof.
  unfold set_driver_mode_in. eapply triple_bind; [apply (mode_path_found v)|].
  intros r w [Hw ->]. unfold mbind, io_bind. cbn. rewrite content_app, Hw. destruct (we_write env w p _); cbn; [done|].
  by rewrite decide_True.
Qed.

Lemma mode_of_str mode : mode_of (mode_str mode) = Some mode.
Proof. by destruct mode. Qed.

Definition switch_and_back (cfg : ConfigSnapshot) : io (list event) (bool * bool) :=
  saved ← apply_x3d_mode_in (Hf := Hx) root cfg;
  ok ← restore_x3d (Hf := Hx) root saved;
  mret (bool_decide (is_Some saved), ok).
End Restore.

(** Whatever the configuration asks for, the daemon leaves the driver in the mode it
    found it in: if it never switched it, and if it did and the write that puts it
    back is accepted. *)
Theorem x3d_mode_restored (env : world_env) (root p : path) (init : string) (cfg : ConfigSnapshot) :
  x3d_machine env root p init ->
  let '(tr, (switched, restored)) := switch_and_back env root cfg [] in
  (switched = false \/ restored = true) -> mode_of (content p init tr) = mode_of init.
Proof.
  intros Hm.
  assert (H : triple (fun w => content p init w = init) (switch_and_back env root cfg)
    (fun r tr => fst r = false \/ snd r = true -> mode_of (content p init tr) = mode_of init)).
  { unfold switch_and_back. apply (triple_bind _ _ _ (fun saved tr =>
      match saved with
      | Some m => mode_of init = Some m
      | None => content p init tr = init
      end)).
    - unfold apply_x3d_mode_in. destruct (String.eqb _ "auto"); [by apply triple_ret|].
      eapply triple_bind; [apply (mode_read env root p init Hm)|]. intros [m|] w [Hw Hr]; [|done].
      unfold mbind, io_bind. set (target := if String.eqb _ "cache" then _ else _).
      pose proof (mode_set env root p init Hm init target w Hw) as Hs.
      destruct (set_driver_mode_in root target w) as [w1 []]; [by symmetry|exact Hs].
    - intros [m|] w Hw; unfold mbind, io_bind; cbn [restore_x3d]; [|intros _; cbn; by rewrite Hw].
      pose proof (mode_set env root p init Hm (content p init w) m w eq_refl) as Hs.
      destruct (set_driver_mode_in root m w) as [w1 ok]. cbn in *. intros [H|H]; [done|]. subst ok.
      by rewrite Hs, mode_of_str. }
  specialize (H [] eq_refl). destruct (switch_and_back env root cfg []) as [tr [sw re]]. exact H.
Qed.

(** A machine in frequency mode, asked for cache mode. *)
Definition mode_file : path := "/sys/bus/platform/drivers/amd_x3d_vcache/dev0/amd_x3d_mode".
Definition driver_env : world_env :=
  MkWorldEnv (fun _ _ => true)
    (fun w p => if String.eqb p mode_file then inl (content mode_file (sapp "frequency" newline) w)
                else inr (Errno ENOENT))
    (fun _ _ => Some ["dev0"]) (fun _ _ _ => None)
    (fun _ _ _ => None) (fun _ _ => None) (fun _ _ => None) (fun _ _ => None)
    (we_procfs demo_env) (fun _ => 0) (fun _ => None) (fun _ _ => None) (fun _ _ => None)
    (fun _ _ => None).
Definition cache_cfg : ConfigSnapshot :=
  fst (apply_key "x3d_mode" "cache" (Config.default, [])).

Lemma x3d_mode_restored_witness :
  let '(tr, (switched, restored)) := switch_and_back driver_env "/sys" cache_cfg [] in
  omap (fun e => match e with EWrite _ t _ => Some t | _ => None end) tr = ["cache"; "frequency"] /\
  ((switched = false \/ restored = true) ->
   mode_of (content mode_file (sapp "frequency" newline) tr) = Some Frequency).
Proof.
  pose proof (x3d_mode_restored driver_env "/sys" mode_file (sapp "frequency" newline) cache_cfg) as H.
  destruct (switch_and_back driver_env "/sys" cache_cfg []) as [tr [sw re]] eqn:E. split.
  - apply (f_equal fst) in E. vm_compute in E. by rewrite <- E.
  - apply H. split; intros w; reflexivity.
Defined.
End X3dProps.
