(* ===== verification/Ipc.v ===== *)
(** * The singleton

    [src/ipc.rs]: the shared-memory object that keeps a second daemon from
    starting, its forced removal, and the reload request that finds the daemon
    through it.

    Several processes run this code at once, so it is a state machine: [pc] is
    where a process stands between two system calls, [next] is the code from one
    call to the next, and [step] lets any process go on, start or die at any time.
    The object is a name that links to an inode, as in [/dev/shm]; a process that
    opened it keeps the inode when the name is unlinked.  A call that fails in a
    way the machine does not determine is given its error as [fault]. *)

From stdpp Require Import base list gmap strings numbers relations.
From Stdlib Require Import ZArith Lia Ascii.
From S2P Require Import Prelude RustStr Kernel LruCache Procfs.
From S2P Require Import Paths.

#[local] Open Scope Z_scope.

(** ** Processes *)

Inductive Removed := LiveDaemon (pid : Z) | Gone | Failed (errno : Z).

(** The errors of [check_singleton]. *)
Inductive refusal :=
| AnotherInstance (pid : Z)
| StaleObject (pid : Z)
| UnknownHolder
| NotCreated (errno : Z)
| NotOpened (errno : Z).

Inductive outcome :=
| Refused (why : refusal)
| RemovedAs (r : Removed)
| ReloadExit (code : Z)
| Stopped (code : Z).

(** Between the calls of [check_singleton], of a started daemon, of
    [remove_stale_singleton] and of [request_reload]; other programs stay where
    they are. *)
Inductive pc :=
| CheckOpen | CheckRead (ino : nat) | CheckLook (holder : Z) | CheckCreate | CheckWrite (ino : nat)
| Installing | Serving
| RemoveOpen | RemoveRead (ino : nat) | RemoveLook (pid : Z) | RemoveUnlink
| ReloadOpen | ReloadRead (ino : nat) | ReloadLook (pid : Z) | ReloadKill (pid : Z)
| Finished (o : outcome)
| Unrelated.

Record proc := MkProc { cmdline : list Z; at_pc : pc }.

Record machine := MkMachine {
  named : option nat;        (* what IPC_NAME links to *)
  inodes : list string;
  procs : gmap Z proc;
}.

Definition with_named (n : option nat) (m : machine) : machine := MkMachine n (inodes m) (procs m).
Definition with_inodes (l : list string) (m : machine) : machine := MkMachine (named m) l (procs m).
Definition with_procs (ps : gmap Z proc) (m : machine) : machine := MkMachine (named m) (inodes m) ps.
Definition set_pc (pid : Z) (c : pc) (m : machine) : machine :=
  with_procs (alter (fun p => MkProc (cmdline p) c) pid (procs m)) m.

(** ** Looking at a process *)

(** The first argument that is not empty, by its file name. *)
Definition is_daemon (raw : list Z) : bool :=
  let name := match filter (fun a => a <> []) (split_nul raw) with a :: _ => a | [] => [] end in
  match file_name (from_utf8_lossy name) with
  | Some f => String.eqb f "ananicy-rs"
  | None => false
  end.

Definition proc_entry_looks_like_daemon (m : machine) (pid : Z) (fault : option Z) : bool :=
  if pid <=? 0 then false
  else match fault, procs m !! pid with
       | None, Some p => is_daemon (cmdline p)
       | _, _ => false
       end.

(** [buf.trim().parse::<i32>().ok()], of what a read answers. *)
Definition read_pid (m : machine) (ino : nat) (fault : option Z) : option Z :=
  match fault, inodes m !! ino with
  | None, Some buf => parse_i32 (trim buf)
  | _, _ => None
  end.

(** ** The code between two calls *)

Definition EEXIST : Z := 17.

Definition check_next (self : Z) (c : pc) (fault : option Z) (m : machine) : machine * pc :=
  match c with
  | CheckOpen =>
      match fault, named m with
      | Some e, _ => if e =? ENOENT then (m, CheckCreate) else (m, Finished (Refused (NotOpened e)))
      | None, Some ino => (m, CheckRead ino)
      | None, None => (m, CheckCreate)
      end
  | CheckRead ino =>
      match read_pid m ino fault with
      | Some pid => (m, CheckLook pid)
      | None => (m, Finished (Refused UnknownHolder))
      end
  | CheckLook pid =>
      (m, Finished (Refused (if proc_entry_looks_like_daemon m pid fault
                             then AnotherInstance pid
                             else StaleObject pid)))
  | CheckCreate =>
      match fault, named m with
      | Some e, _ => (m, Finished (Refused (NotCreated e)))
      | None, Some _ => (m, Finished (Refused (NotCreated EEXIST)))
      | None, None =>
          let ino := length (inodes m) in
          (MkMachine (Some ino) (inodes m ++ [EmptyString]) (procs m), CheckWrite ino)
      end
  | CheckWrite ino =>
      match fault with
      | Some _ => (m, Installing)
      | None => (with_inodes (<[ino := fmt_uint self]> (inodes m)) m, Installing)
      end
  | _ => (m, c)
  end.

(** A started daemon: it installs its signal handlers, works, and drops the guard
    when it returns from [main]; where it gives up it calls [exit(1)], which runs
    no destructor. *)
Definition daemon_next (c : pc) (fault : option Z) (m : machine) : machine * pc :=
  match c, fault with
  | Installing, None => (m, Serving)
  | Installing, Some _ => (m, Finished (Stopped 1))
  | Serving, None => (with_named None m, Finished (Stopped 0))
  | Serving, Some _ => (m, Finished (Stopped 1))
  | _, _ => (m, c)
  end.

Definition remove_next (c : pc) (fault : option Z) (m : machine) : machine * pc :=
  match c with
  | RemoveOpen =>
      match fault, named m with
      | None, Some ino => (m, RemoveRead ino)
      | _, _ => (m, RemoveUnlink)
      end
  | RemoveRead ino =>
      match read_pid m ino fault with
      | Some pid => (m, RemoveLook pid)
      | None => (m, RemoveUnlink)
      end
  | RemoveLook pid =>
      if proc_entry_looks_like_daemon m pid fault then (m, Finished (RemovedAs (LiveDaemon pid)))
      else (m, RemoveUnlink)
  | RemoveUnlink =>
      match fault with
      | Some e => (m, Finished (RemovedAs (if e =? ENOENT then Gone else Failed e)))
      | None => (with_named None m, Finished (RemovedAs Gone))
      end
  | _ => (m, c)
  end.

(** [SIGUSR1]: a serving daemon reloads; the default is to terminate. *)
Definition deliver (pid : Z) (m : machine) : machine :=
  match procs m !! pid with
  | Some p => match at_pc p with Serving => m | _ => with_procs (delete pid (procs m)) m end
  | None => m
  end.

Definition reload_next (c : pc) (fault : option Z) (m : machine) : machine * pc :=
  match c with
  | ReloadOpen =>
      match fault, named m with
      | None, Some ino => (m, ReloadRead ino)
      | _, _ => (m, Finished (ReloadExit 1))
      end
  | ReloadRead ino =>
      match read_pid m ino fault with
      | Some pid => if pid =? 0 then (m, Finished (ReloadExit 1)) else (m, ReloadLook pid)
      | None => (m, Finished (ReloadExit 1))
      end
  | ReloadLook pid =>
      if proc_entry_looks_like_daemon m pid fault then (m, ReloadKill pid)
      else (m, Finished (ReloadExit 1))
  | ReloadKill pid =>
      match fault, procs m !! pid with
      | None, Some _ => (deliver pid m, Finished (ReloadExit 0))
      | _, _ => (m, Finished (ReloadExit 1))
      end
  | _ => (m, c)
  end.

Definition next (self : Z) (c : pc) (fault : option Z) (m : machine) : machine * pc :=
  match c with
  | CheckOpen | CheckRead _ | CheckLook _ | CheckCreate | CheckWrite _ => check_next self c fault m
  | Installing | Serving => daemon_next c fault m
  | RemoveOpen | RemoveRead _ | RemoveLook _ | RemoveUnlink => remove_next c fault m
  | ReloadOpen | ReloadRead _ | ReloadLook _ | ReloadKill _ => reload_next c fault m
  | Finished _ | Unrelated => (m, c)
  end.

Definition exec (pid : Z) (fault : option Z) (m : machine) : machine :=
  match procs m !! pid with
  | None => m
  | Some p => let '(m, c) := next pid (at_pc p) fault m in set_pc pid c m
  end.

(** A command that is not interrupted: its calls one after the other. *)
Fixpoint run_alone (fuel : nat) (pid : Z) (m : machine) : machine :=
  match fuel with O => m | S fuel => run_alone fuel pid (exec pid None m) end.

Definition remove_stale_singleton (pid : Z) (m : machine) : machine := run_alone 4 pid m.
Definition check_singleton (pid : Z) (m : machine) : machine := run_alone 3 pid m.

(** ** Steps *)

Definition is_pid (pid : Z) : Prop := 0 < pid < 2 ^ 31.

Definition remover (c : pc) : bool :=
  match c with RemoveOpen | RemoveRead _ | RemoveLook _ | RemoveUnlink => true | _ => false end.
Definition entry (c : pc) : bool :=
  match c with CheckOpen | RemoveOpen | ReloadOpen | Unrelated => true | _ => false end.

(** The process has the guard, or is about to. *)
Definition guards (c : pc) : bool :=
  match c with CheckWrite _ | Installing | Serving => true | _ => false end.
Definition holder (m : machine) (pid : Z) : Prop :=
  exists p, procs m !! pid = Some p /\ guards (at_pc p) = true.

(** Every holder can be found through the object. *)
Definition published (m : machine) : Prop :=
  forall pid, holder m pid ->
    (exists ino, named m = Some ino /\ inodes m !! ino = Some (fmt_uint pid)) /\
    proc_entry_looks_like_daemon m pid None = true.

(** [removers] says whether forced removals run interleaved with the rest.  One
    that runs uninterrupted while every holder is published is a step of its
    own. *)
Inductive step (removers : bool) : machine -> machine -> Prop :=
| step_exec pid fault m : step removers m (exec pid fault m)
| step_spawn pid cmd c m :
    is_pid pid -> procs m !! pid = None -> entry c = true -> removers || negb (remover c) = true ->
    step removers m (with_procs (<[pid := MkProc cmd c]> (procs m)) m)
| step_die pid m : step removers m (with_procs (delete pid (procs m)) m)
| step_removal pid cmd m :
    is_pid pid -> procs m !! pid = None -> published m ->
    step removers m
      (remove_stale_singleton pid (with_procs (<[pid := MkProc cmd RemoveOpen]> (procs m)) m)).

(** A machine on which no daemon runs yet; an object may be left behind. *)
Definition quiet (m : machine) : Prop :=
  forall pid p, procs m !! pid = Some p -> is_pid pid /\ guards (at_pc p) = false /\
                                           remover (at_pc p) = false.

(** ** The invariant *)

Record singleton_inv (m : machine) : Prop := {
  inv_one : forall p q, holder m p -> holder m q -> p = q;
  inv_named : forall p, holder m p -> named m <> None;
  inv_procs : forall pid p, procs m !! pid = Some p -> is_pid pid /\ remover (at_pc p) = false;
}.

Lemma holder_sub m m' q : procs m' ⊆ procs m -> holder m' q -> holder m q.
Proof. intros Hs (p & Hp & Hg). exists p. split; [by eapply lookup_weaken|done]. Qed.

Lemma holder_set_pc pid c m q :
  holder (set_pc pid c m) q -> q = pid /\ guards c = true \/ q <> pid /\ holder m q.
Proof.
  intros (p & Hp & Hg). simpl in Hp. destruct (decide (q = pid)) as [->|Hne].
  - rewrite lookup_alter_eq in Hp. apply fmap_Some in Hp as (p0 & _ & ->). by left.
  - rewrite lookup_alter_ne in Hp by done. right. split; [done|]. by exists p.
Qed.

(** One process moves on: it may take the guard when nobody has it, and the name
    may go when nobody else needs it. *)
Lemma inv_move m m' pid c :
  singleton_inv m -> procs m' ⊆ procs m -> remover c = false ->
  (guards c = true -> named m' <> None /\ forall q, holder m q -> q = pid) ->
  (named m' = None -> forall q, holder m q -> q = pid) ->
  singleton_inv (set_pc pid c m').
Proof.
  intros [H1 H2 H3] Hs Hr Hg Hn. pose proof (fun q => holder_sub m m' q Hs) as Hsub. split.
  - intros p q Hp%holder_set_pc Hq%holder_set_pc.
    destruct Hp as [[-> Hc]|[Hnp Hp%Hsub]], Hq as [[-> Hc']|[Hnq Hq%Hsub]]; try done.
    + destruct Hnq. by apply Hg.
    + destruct Hnp. by apply Hg.
    + by apply H1.
  - intros p Hp%holder_set_pc Hnone. destruct Hp as [[-> Hc]|[Hnp Hp%Hsub]].
    + by destruct (Hg Hc).
    + destruct Hnp. by apply Hn.
  - intros q p. simpl. destruct (decide (q = pid)) as [->|Hne].
    + rewrite lookup_alter_eq. intros (p0 & Hp0 & ->)%fmap_Some. split; [|done].
      eapply H3. by eapply lookup_weaken.
    + rewrite lookup_alter_ne by done. intros Hp. eapply H3. by eapply lookup_weaken.
Qed.

Lemma deliver_sub pid m : procs (deliver pid m) ⊆ procs m.
Proof.
  unfold deliver. destruct (procs m !! pid) as [p|]; [|done].
  destruct (at_pc p); simpl; first [done|apply delete_subseteq].
Qed.
Lemma deliver_named pid m : named (deliver pid m) = named m.
Proof. unfold deliver. by repeat case_match. Qed.

Lemma exec_at pid fault m p :
  procs m !! pid = Some p ->
  exec pid fault m = set_pc pid (next pid (at_pc p) fault m).2 (next pid (at_pc p) fault m).1.
Proof. intros Hp. unfold exec. rewrite Hp. by destruct (next _ _ _ _). Qed.

Lemma inv_exec pid fault m : singleton_inv m -> singleton_inv (exec pid fault m).
Proof.
  intros Hinv. destruct (procs m !! pid) as [p|] eqn:Hp; [|unfold exec; by rewrite Hp].
  rewrite (exec_at _ _ _ p Hp). destruct (inv_procs m Hinv pid p Hp) as [_ Hr].
  assert (Hsole : guards (at_pc p) = true -> forall q, holder m q -> q = pid)
    by (intros Hg q Hq; apply (inv_one m Hinv); [done|by exists p]).
  assert (Hnm : guards (at_pc p) = true -> named m <> None)
    by (intros Hg; apply (inv_named m Hinv pid); by exists p).
  assert (Hno : named m = None -> forall q, holder m q -> q = pid)
    by (intros Hn q Hq; by destruct (inv_named m Hinv q Hq)).
  destruct (at_pc p) eqn:Ec; try done; cbn [next check_next daemon_next reload_next];
    repeat case_match; apply (inv_move m); simpl in *; rewrite ?deliver_named;
    first [solve [auto using deliver_sub] | congruence].
Qed.

Lemma inv_insert pid p m :
  singleton_inv m -> is_pid pid -> guards (at_pc p) = false -> remover (at_pc p) = false ->
  singleton_inv (with_procs (<[pid := p]> (procs m)) m).
Proof.
  intros [H1 H2 H3] Hpid Hg Hr.
  assert (Hh : forall q, holder (with_procs (<[pid := p]> (procs m)) m) q -> holder m q).
  { intros q (p' & Hp' & Hg'). simpl in Hp'. apply lookup_insert_Some in Hp' as [[<- <-]|[_ Hp']]; [congruence|].
    by exists p'. }
  split; [by auto|by eauto|]. simpl. intros q p' [[<- <-]|[_ Hp']]%lookup_insert_Some; [done|by eapply H3].
Qed.

(** ** The uninterrupted removal *)

Lemma read_published m ino pid :
  is_pid pid -> inodes m !! ino = Some (fmt_uint pid) -> read_pid m ino None = Some pid.
Proof.
  unfold is_pid. intros Hp Hi. unfold read_pid. rewrite Hi.
  rewrite trim_id by (apply (sforall_trimmed is_digit); [apply is_digit_graphic|apply fmt_uint_digits; lia]).
  apply parse_int_fmt_uint; [lia|]. unfold in_u. lia.
Qed.

(** The machine with a process somewhere. *)
Definition placed (pid : Z) (cmd : list Z) (c : pc) (m : machine) : machine :=
  with_procs (<[pid := MkProc cmd c]> (procs m)) m.

(** What an uninterrupted forced removal finds and does. *)
Definition live_daemon (m : machine) : option Z :=
  match named m ≫= (fun ino => read_pid m ino None) with
  | Some pid => if proc_entry_looks_like_daemon m pid None then Some pid else None
  | None => None
  end.
Definition after_removal (pid : Z) (cmd : list Z) (m : machine) : machine :=
  match live_daemon (placed pid cmd RemoveOpen m) with
  | Some d => placed pid cmd (Finished (RemovedAs (LiveDaemon d))) m
  | None => with_named None (placed pid cmd (Finished (RemovedAs Gone)) m)
  end.

Lemma exec_placed pid cmd c fault m :
  exec pid fault (placed pid cmd c m) =
  set_pc pid (next pid c fault (placed pid cmd c m)).2 (next pid c fault (placed pid cmd c m)).1.
Proof. rewrite (exec_at _ _ _ (MkProc cmd c)); [done|]. simpl. by rewrite lookup_insert_eq. Qed.

Lemma set_pc_placed pid cmd c c' m : set_pc pid c' (placed pid cmd c m) = placed pid cmd c' m.
Proof. unfold placed, set_pc, with_procs. simpl. by rewrite alter_insert_eq. Qed.

Lemma look_placed pid cmd c c' m q f :
  proc_entry_looks_like_daemon (placed pid cmd c m) q f =
  proc_entry_looks_like_daemon (placed pid cmd c' m) q f.
Proof.
  unfold proc_entry_looks_like_daemon, placed. simpl. destruct (decide (q = pid)) as [->|].
  - by rewrite !lookup_insert_eq.
  - by rewrite !lookup_insert_ne.
Qed.

Lemma run_alone_S fuel pid m : run_alone (S fuel) pid m = run_alone fuel pid (exec pid None m).
Proof. done. Qed.

Lemma run_alone_finished fuel pid cmd o m :
  run_alone fuel pid (placed pid cmd (Finished o) m) = placed pid cmd (Finished o) m.
Proof.
  induction fuel as [|fuel IH]; [done|]. cbn [run_alone]. rewrite exec_placed.
  cbn [next fst snd]. by rewrite set_pc_placed.
Qed.

Lemma removal_alone pid cmd m :
  remove_stale_singleton pid (placed pid cmd RemoveOpen m) = after_removal pid cmd m.
Proof.
  unfold remove_stale_singleton, after_removal, live_daemon.
  assert (Hunlink : forall n, run_alone (S n) pid (placed pid cmd RemoveUnlink m) =
    with_named None (placed pid cmd (Finished (RemovedAs Gone)) m)).
  { intros n. cbn [run_alone]. rewrite exec_placed. cbn [next remove_next fst snd].
    change (with_named None (placed pid cmd RemoveUnlink m))
      with (placed pid cmd RemoveUnlink (with_named None m)).
    by rewrite set_pc_placed, run_alone_finished. }
  rewrite run_alone_S, exec_placed. cbn [next remove_next].
  destruct (named (placed pid cmd RemoveOpen m)) as [ino|] eqn:En; cbn [fst snd mbind option_bind];
    rewrite set_pc_placed; [|apply Hunlink].
  rewrite run_alone_S, exec_placed. cbn [next remove_next]. change (read_pid (placed ?p ?k ?c m)) with (read_pid m).
  destruct (read_pid m ino None) as [q|]; cbn [fst snd]; rewrite set_pc_placed; [|apply Hunlink].
  rewrite run_alone_S, exec_placed. cbn [next remove_next]. rewrite (look_placed _ _ _ RemoveOpen).
  destruct (proc_entry_looks_like_daemon _ q None); cbn [fst snd]; rewrite set_pc_placed;
    [|apply Hunlink].
  apply run_alone_finished.
Qed.

Lemma inv_removal pid cmd m :
  singleton_inv m -> is_pid pid -> procs m !! pid = None -> published m ->
  singleton_inv (remove_stale_singleton pid (placed pid cmd RemoveOpen m)).
Proof.
  intros Hinv Hpid Hnew Hpub. rewrite removal_alone. unfold after_removal.
  destruct (live_daemon (placed pid cmd RemoveOpen m)) as [d|] eqn:Hd;
    [by apply inv_insert|].
  assert (Hno : forall q, ~ holder m q).
  { intros q Hq. destruct (Hpub q Hq) as [(ino & Hn & Hi) Hl]. destruct Hq as (p & Hp & _).
    assert (Hlook : proc_entry_looks_like_daemon (placed pid cmd RemoveOpen m) q None = true).
    { revert Hl. unfold proc_entry_looks_like_daemon, placed. simpl. rewrite lookup_insert_ne; [done|congruence]. }
    revert Hd. unfold live_daemon. change (named (placed pid cmd RemoveOpen m)) with (named m).
    change (read_pid (placed pid cmd RemoveOpen m)) with (read_pid m). rewrite Hn.
    cbn [mbind option_bind].
    rewrite (read_published m ino q) by (done || by apply (inv_procs m Hinv q p)).
    by rewrite Hlook. }
  destruct (inv_insert pid (MkProc cmd (Finished (RemovedAs Gone))) m Hinv Hpid eq_refl eq_refl)
    as [H1 H2 H3].
  assert (Hno' : forall q, ~ holder (with_named None (placed pid cmd (Finished (RemovedAs Gone)) m)) q).
  { intros q (p & Hp & Hg). simpl in Hp.
    apply lookup_insert_Some in Hp as [[<- <-]|[_ Hp]]; [done|]. apply (Hno q). by exists p. }
  split; [intros p q Hp; by destruct (Hno' p)|intros p Hp; by destruct (Hno' p)|exact H3].
Qed.

Lemma inv_step m m' : step false m m' -> singleton_inv m -> singleton_inv m'.
Proof.
  intros [pid fault m0|pid cmd c m0 Hpid Hnew He Hr|pid m0|pid cmd m0 Hpid Hnew Hpub] Hinv.
  - by apply inv_exec.
  - apply inv_insert; try done; by destruct c.
  - destruct Hinv as [H1 H2 H3].
    assert (Hsub : forall q, holder (with_procs (delete pid (procs m0)) m0) q -> holder m0 q)
      by (intros q; apply holder_sub, delete_subseteq).
    split; [by auto|by eauto|]. simpl. intros q p [_ Hp]%lookup_delete_Some. by apply H3.
  - by apply inv_removal.
Qed.

Lemma quiet_inv m : quiet m -> singleton_inv m.
Proof.
  intros Hq. assert (Hno : forall p, ~ holder m p).
  { intros p (r & Hr & Hg). destruct (Hq p r Hr) as (_ & ? & _). congruence. }
  split; [intros p q Hp; by destruct (Hno p)|intros p Hp; by destruct (Hno p)|].
  intros pid p Hp. by destruct (Hq pid p Hp) as (? & _ & ?).
Qed.

(** ** Properties *)
Module IpcProps.

(** C8. At most one daemon: however starts, reload requests, exits and deaths of any
    number of processes interleave, whatever system calls fail and whatever object
    an earlier run left behind, at most one process holds the guard, and the
    object is in place while one does.  Forced removals are included as long as
    each runs uninterrupted while the holder can be found through the object. *)
Theorem singleton_exclusive (m0 m : machine) (p q : Z) :
  quiet m0 -> rtc (step false) m0 m -> holder m p -> holder m q -> p = q /\ named m <> None.
Proof.
  intros Hq%quiet_inv Hs Hp Hh.
  assert (Hinv : singleton_inv m) by (induction Hs; eauto using inv_step).
  split; [by apply (inv_one m)|by apply (inv_named m Hinv p)].
Qed.

Definition daemon_cmd : list Z := bytes_of "/usr/bin/ananicy-rs" ++ [0].
Definition empty_machine : machine := MkMachine None [] ∅.

(** Any number of calls of one process. *)
Lemma rtc_run removers fuel pid m : rtc (step removers) m (run_alone fuel pid m).
Proof.
  revert m. induction fuel as [|fuel IH]; intros m; [done|]. cbn [run_alone].
  eapply rtc_l; [apply step_exec|apply IH].
Qed.

Lemma rtc_spawn removers pid cmd c m m' :
  is_pid pid -> procs m !! pid = None -> entry c = true -> removers || negb (remover c) = true ->
  rtc (step removers) (placed pid cmd c m) m' -> rtc (step removers) m m'.
Proof. intros. eapply rtc_l; [|done]. by apply step_spawn. Qed.

(** Two daemons are started one after the other. *)
Definition two_starts : machine :=
  check_singleton 200 (placed 200 daemon_cmd CheckOpen
    (check_singleton 100 (placed 100 daemon_cmd CheckOpen empty_machine))).

Lemma singleton_exclusive_witness :
  at_pc <$> procs two_starts !! 200 = Some (Finished (Refused (AnotherInstance 100))) /\
  (100 = 100 /\ named two_starts <> None).
Proof.
  split; [vm_compute; reflexivity|].
  apply (singleton_exclusive empty_machine two_starts 100 100).
  - intros pid p. simpl. by rewrite lookup_empty.
  - apply (rtc_spawn _ 100 daemon_cmd CheckOpen); [by vm_compute|done..|].
    etransitivity; [apply (rtc_run _ 3 100)|].
    apply (rtc_spawn _ 200 daemon_cmd CheckOpen); [by vm_compute|vm_compute; reflexivity|done..|].
    apply (rtc_run _ 3 200).
  - eexists. split; vm_compute; reflexivity.
  - eexists. split; vm_compute; reflexivity.
Defined.

(** C38. A daemon that gives up leaves its object behind: the paths that end in
    [exit(1)], a monitor that cannot be started among them, do not drop the guard,
    so the next start is refused until the object is removed by hand, where after
    an orderly end it gets the guard. *)
Theorem failed_exit_blocks_restart (m : machine) (d q e : Z) (pd : proc) (cmd : list Z) (ino : nat) :
  procs m !! d = Some pd -> at_pc pd = Serving -> is_pid d ->
  named m = Some ino -> inodes m !! ino = Some (fmt_uint d) -> procs m !! q = None ->
  let restart fault :=
    let m1 := exec d fault m in
    check_singleton q (placed q cmd CheckOpen (with_procs (delete d (procs m1)) m1)) in
  procs (restart (Some e)) !! q = Some (MkProc cmd (Finished (Refused (StaleObject d)))) /\
  procs (restart None) !! q = Some (MkProc cmd Installing).
Proof.
  intros Hd Hs Hpid Hn Hi Hq restart. unfold restart, check_singleton.
  assert (Hne : d <> q) by congruence.
  assert (Hgone : forall n c c' l, proc_entry_looks_like_daemon
    (placed q cmd c (MkMachine n l (delete d (alter (fun p => MkProc (cmdline p) c') d (procs m))))) d None = false).
  { intros. unfold proc_entry_looks_like_daemon. simpl.
    rewrite lookup_insert_ne, lookup_delete_eq by done. by case_match. }
  rewrite !(exec_at _ _ _ pd Hd), Hs. cbn [next daemon_next fst snd].
  unfold set_pc, with_procs, with_named. cbn [procs named inodes]. rewrite Hn. split.
  - rewrite run_alone_S, exec_placed. cbn [next check_next fst snd named placed with_procs].
    rewrite set_pc_placed, run_alone_S, exec_placed. cbn [next check_next].
    erewrite read_published; [|done|exact Hi]. cbn [fst snd].
    rewrite set_pc_placed, run_alone_S, exec_placed. cbn [next check_next fst snd].
    rewrite Hgone, set_pc_placed. simpl. by rewrite lookup_insert_eq.
  - rewrite run_alone_S, exec_placed. cbn [next check_next fst snd named placed with_procs].
    rewrite set_pc_placed, run_alone_S, exec_placed. cbn [next check_next fst snd named placed with_procs].
    change (MkMachine ?n ?l (procs (placed ?p ?k ?c ?m))) with (placed p k c (MkMachine n l (procs m))).
    rewrite set_pc_placed, run_alone_S, exec_placed. cbn [next check_next fst snd].
    unfold set_pc. simpl. by rewrite lookup_alter_eq, lookup_insert_eq.
Qed.

Definition one_serving : machine := run_alone 4 100 (placed 100 daemon_cmd CheckOpen empty_machine).

Lemma failed_exit_blocks_restart_witness :
  at_pc <$> procs one_serving !! 100 = Some Serving /\
  let m1 := exec 100 (Some 1) one_serving in
  procs (check_singleton 200 (placed 200 daemon_cmd CheckOpen
           (with_procs (delete 100 (procs m1)) m1))) !! 200 =
  Some (MkProc daemon_cmd (Finished (Refused (StaleObject 100)))).
Proof.
  split; [vm_compute; reflexivity|].
  apply (failed_exit_blocks_restart one_serving 100 200 1 (MkProc daemon_cmd Serving) daemon_cmd 0);
    try (vm_compute; reflexivity). by vm_compute.
Defined.

(** A forced removal that runs while a daemon starts defeats the singleton: it
    finds the object created but not yet written, takes it for a leftover and
    unlinks it, and a second daemon starts beside the first. *)
Theorem removal_race_two_daemons :
  exists m, rtc (step true) empty_machine m /\
    at_pc <$> procs m !! 100 = Some Serving /\ at_pc <$> procs m !! 200 = Some Serving /\
    at_pc <$> procs m !! 300 = Some (Finished (RemovedAs Gone)).
Proof.
  eexists. split.
  - apply (rtc_spawn _ 100 daemon_cmd CheckOpen); [by vm_compute|done..|].
    etransitivity; [apply (rtc_run _ 2 100)|].
    apply (rtc_spawn _ 300 daemon_cmd RemoveOpen); [by vm_compute|vm_compute; reflexivity|done..|].
    etransitivity; [apply (rtc_run _ 3 300)|].
    apply (rtc_spawn _ 200 daemon_cmd CheckOpen); [by vm_compute|vm_compute; reflexivity|done..|].
    etransitivity; [apply (rtc_run _ 4 200)|]. apply (rtc_run _ 2 100).
  - vm_compute. done.
Qed.

End IpcProps.
