(* ===== verification/Daemon.v ===== *)
(** * Start and reload

    [src/startup.rs], [src/runtime.rs] and [src/signals.rs]: the log level, where
    the configuration is looked for, loading configuration and rules at start-up,
    creating the cgroups the rules ask for, and the reload a [SIGUSR1] asks for.

    The files are what one load reads of them ([disk]); the name table, a
    [static], is passed along; the cgroup operations run on the platform's state. *)

From S2P Require Import Prelude RustStr Paths Process Config Json RuleData LruCache RuleSet.
From S2P Require Import Kernel Priority Files CgroupManager LinuxState Mounts Cgroups Platform.
From stdpp Require Import base list gmap strings numbers sorting.
From Stdlib Require Import ZArith Lia.

#[local] Open Scope Z_scope.

(** ** The log level *)

(** [tracing::Level] *)
Inductive Level := L_ERROR | L_WARN | L_INFO | L_DEBUG | L_TRACE.

#[global] Instance Level_eq_dec : EqDecision Level.
Proof. solve_decision. Defined.

Definition level_of (val : LogLevel) : Level :=
  match val with
  | Trace => L_TRACE | Debug => L_DEBUG | Info => L_INFO | Warn => L_WARN
  | Config.Error | Critical => L_ERROR
  end.

Definition more_verbose_than (level : Level) : Level :=
  match level with
  | L_ERROR => L_WARN | L_WARN => L_INFO | L_INFO => L_DEBUG
  | L_DEBUG | L_TRACE => L_TRACE
  end.

Definition log_level_override (config_level : LogLevel) (verbose force_trace : bool)
    : option Level :=
  if force_trace then Some L_TRACE
  else if verbose then Some (more_verbose_than (level_of config_level))
  else None.

Definition effective_log_level (config_level : LogLevel) (verbose force_trace : bool) : Level :=
  match log_level_override config_level verbose force_trace with
  | Some level => level
  | None => level_of config_level
  end.

(** ** Where the configuration is *)

(** [var] is the environment, the other two the command line. *)
Definition resolve_config_paths (var : string -> option string) (config config_dir : option string)
    : string * string :=
  let first a b c := match a, b with Some x, _ => x | None, Some x => x | None, None => c end in
  (first (var "ANANICY_RS_CONF") config "/etc/ananicy.d/ananicy.conf",
   first (var "ANANICY_RS_CONFDIR") config_dir "/etc/ananicy.d").

(** ** Loading *)

(** [load_config]: the configuration, whether the file was usable, and the
    diagnostics. *)
Definition load_config (fs : config_fs) (latnice_supported : bool)
    : ConfigSnapshot * bool * list ConfigDiagnostic :=
  match Config.load_file fs latnice_supported with
  | inl (config, diagnostics, _) => (config, true, diagnostics)
  | inr _ =>
      (if latnice_supported then Config.default else set_apply_latnice false Config.default, false, [])
  end.

Section Rules.
Context {Hjson : JsonParser} {Hregex : RegexEngine} {Hlru : Lru string (option RuleName)}
  {Horder : HashOrder}.

(** What a load finds in the rules directory. *)
Record disk := MkDisk {
  d_walk : option (list (option (path * bool)));
  d_read : path -> option string;
}.

Definition load_rules (config : ConfigSnapshot) (d : disk) (t : NameTable) : NameTable * Rules :=
  (load_directory (d_walk d) (d_read d) config t Rules_new).1.

(** ** The cgroups of the rules *)

Definition settings_from_rule (rule : Value) : CgroupSettings :=
  let number key :=
    match get key rule with
    | Some (VNumber value) => wrap_u 32 <$> as_u64 value
    | _ => None
    end in
  MkSettings (number "CPUQuota") (number "CPUWeight").

Section World.
Context {Hc : Caches} {X : Type} {Hf : Files X}.

Definition create_cgroups (rs : Rules) : io (linux X) unit :=
  foldl (fun (c : io (linux X) unit) e =>
           _ ← c; _ ← create_cgroup (fst e) (settings_from_rule (snd e)); mret tt)
    (mret tt) (hash_iter (get_cgroups rs)).

Definition wait_for_cgroup_hierarchy : io (linux X) bool :=
  there ← has_cgroup_hierarchy;
  if there : bool then mret true else init_cgroups.

(** ** Reloading *)

(** What a running daemon keeps and a reload replaces. *)
Record daemon := MkDaemon {
  config_cell : ConfigSnapshot;
  shared : SharedRules;
  table : NameTable;
  log_level : Level;
}.

(** [Reload::apply], given what it reads; [override] is the level the command line
    fixed at start-up. *)
Definition reload_apply {Hk : Kernel X} (override : option Level) (conf : string + io_error)
    (d : disk) (st : daemon) : io (linux X) daemon :=
  latnice_supported ← (fun l => test_latnice_support l);
  let '(cell, r) := reload_file conf latnice_supported (config_cell st) in
  let level :=
    match r with
    | inl _ => match override with Some level => level | None => level_of (loglevel cell) end
    | inr _ => log_level st
    end in
  if negb (rule_load cell) then mret (MkDaemon cell (shared st) (table st) level)
  else
    let '(t, fresh) := load_rules cell d (table st) in
    let sh := fst (shared_replace fresh (shared st)) in
    _ ← (match store sh !! shared_get sh with
         | Some installed => create_cgroups installed
         | None => mret tt
         end);
    mret (MkDaemon cell sh t level).

End World.
End Rules.

(** ** Loads with different name tables

    The numbers of the names depend on what was interned before; nothing else
    does. *)

Section Shape.
Context {Hjson : JsonParser} {Hregex : RegexEngine} {Hlru : Lru string (option RuleName)}
  {Horder : HashOrder}.

(** Two sets that differ in the numbers inside their rules, and their caches. *)
Record same_shape (rs rs' : Rules) : Prop := {
  shape_programs : programs rs = programs rs';
  shape_len : length (rules rs) = length (rules rs');
  shape_types : types rs = types rs';
  shape_cgroups : cgroups rs = cgroups rs';
  shape_regex : regex_programs rs = regex_programs rs';
}.

Lemma same_shape_refl rs : same_shape rs rs.
Proof. by split. Qed.

Lemma define_program_shape n v t t' rs rs' :
  same_shape rs rs' ->
  same_shape (define_program n v t rs).1.2 (define_program n v t' rs').1.2.
Proof.
  intros [Hp Hl Ht Hc Hr]. unfold define_program. rewrite <- Hp, <- Hr.
  destruct (from_json v t) as [t1 r1], (from_json v t') as [t2 r2].
  destruct (programs rs !! n); repeat case_match; simplify_eq/=;
    split; simpl; try done; rewrite ?length_insert, ?length_app; congruence || (simpl; congruence).
Qed.

Lemma load_rule_shape line t t' rs rs' :
  same_shape rs rs' ->
  same_shape (load_rule_from_named line t rs).1.1.2 (load_rule_from_named line t' rs').1.1.2.
Proof.
  intros Hs. unfold load_rule_from_named. cases_if; [done|].
  destruct (json_span (trim line)) as [j|]; [|done]. destruct (json_from_str j) as [v|]; [|done].
  destruct (get "name" v ≫= as_str) as [n|].
  { pose proof (define_program_shape n v t t' rs rs' Hs) as H.
    by destruct (define_program n v t rs) as [[? ?] ?], (define_program n v t' rs') as [[? ?] ?]. }
  destruct Hs. repeat case_match; split; simpl; congruence.
Qed.

Lemma load_lines_shape ls t t' rs rs' notes notes' :
  same_shape rs rs' ->
  same_shape (foldl load_line (t, rs, notes) ls).1.2 (foldl load_line (t', rs', notes') ls).1.2.
Proof.
  revert t t' rs rs' notes notes'. induction ls as [|l ls IH]; intros * Hs; [done|]. cbn [foldl load_line].
  pose proof (load_rule_shape l t t' rs rs' Hs) as H.
  destruct (load_rule_from_named l t rs) as [[[? ?] ?] ?],
    (load_rule_from_named l t' rs') as [[[? ?] ?] ?]. by apply IH.
Qed.

Lemma load_rules_shape cfg d t t' : same_shape (load_rules cfg d t).2 (load_rules cfg d t').2.
Proof.
  unfold load_rules, load_directory. destruct (d_walk d) as [walk|]; [|done]. rewrite !load_paths.
  match goal with |- context [foldl load_line (t, ?rs, []) ?ls] =>
    pose proof (load_lines_shape ls t t' rs rs [] [] (same_shape_refl rs)) as Hs end.
  destruct (foldl load_line (t, _, _) _) as [[t1 r1] n1], (foldl load_line (t', _, _) _) as [[t2 r2] n2].
  destruct Hs. unfold precompute_inheritance.
  destruct (foldl resolve_base (t1, ∅) _), (foldl resolve_base (t2, ∅) _).
  split; simpl; try done. by rewrite !length_map.
Qed.

Context {Hlaws : LruLaws string (option RuleName)} {Horderlaws : HashOrderLaws}.

(** The rule a lookup finds, with its names in full. *)
Definition seen (t : NameTable) (rs : Rules) (name : string) : option (RuleName * RuleView) :=
  (fun e => (fst e, view t (snd e))) <$> snd (get_rule name rs).

Definition disk_lines (cfg : ConfigSnapshot) (d : disk) : list string :=
  match d_walk d with Some walk => dir_lines walk (d_read d) cfg | None => [] end.

(** What is seen after a load is what the specification says, by the best match. *)
Lemma load_rules_seen cfg d t name :
  table_ok t -> Z.of_nat (length (disk_lines cfg d)) < 2 ^ 32 -> room (load_rules cfg d t).1 ->
  seen (load_rules cfg d t).1 (load_rules cfg d t).2 name =
  (find_best_match (load_rules cfg d t).2 name ≫= fun n =>
     (fun w => (n, w)) <$> spec_rule (values_of (disk_lines cfg d)) n).
Proof.
  unfold load_rules, disk_lines. destruct (d_walk d) as [walk|].
  - intros Ht Hl Hr. pose proof (load_directory_spec walk (d_read d) cfg t Rules_new Ht Hl) as Hd.
    destruct (load_directory (Some walk) (d_read d) cfg t Rules_new) as [[t' rs'] notes]. cbn [fst snd] in *.
    destruct Hd as (_ & _ & _ & _ & _ & Hc & Hv). unfold seen.
    pose proof (get_rule_spec name rs' Hc) as Hg. destruct (get_rule name rs') as [rs'' found].
    destruct Hg as [-> _]. cbn [snd]. destruct (find_best_match rs' name) as [n|]; [|done].
    cbn [mbind option_bind]. rewrite <- (Hv Hr n). unfold resolve.
    by repeat case_match.
  - intros _ _ _. unfold seen. cbn [load_directory fst snd].
    assert (Hc : coherent Rules_new) by (intros k w; cbn; by rewrite peek_new).
    pose proof (get_rule_spec name Rules_new Hc) as Hg.
    destruct (get_rule name Rules_new) as [rs'' found]. by destruct Hg as [-> _].
Qed.

End Shape.

(** ** What a reload leaves, the world aside *)

Section Reloaded.
Context {Hjson : JsonParser} {Hregex : RegexEngine} {Hlru : Lru string (option RuleName)}
  {Horder : HashOrder} {Hc : Caches} {X : Type} {Hf : Files X} {Hk : Kernel X}.

Lemma bind_run {W A B} (c : io W A) (k : A -> io W B) (w : W) :
  (c ≫= k) w = k (snd (c w)) (fst (c w)).
Proof. unfold mbind, io_bind. by destruct (c w). Qed.

Definition new_cell (latnice : bool) (conf : string + io_error) (st : daemon) : ConfigSnapshot :=
  fst (reload_file conf latnice (config_cell st)).

Lemma reload_result override conf d st (l : linux X) :
  let cell := new_cell (snd (test_latnice_support l)) conf st in
  let '(t, fresh) := load_rules cell d (table st) in
  snd (reload_apply override conf d st l) =
  MkDaemon cell
    (if rule_load cell then fst (shared_replace fresh (shared st)) else shared st)
    (if rule_load cell then t else table st)
    (match conf with
     | inl _ => match override with Some level => level | None => level_of (loglevel cell) end
     | inr _ => log_level st
     end).
Proof.
  cbn zeta. unfold reload_apply, new_cell. rewrite bind_run.
  destruct (test_latnice_support l) as [l1 b]. cbn [fst snd].
  assert (Hres : match conf, snd (reload_file conf b (config_cell st)) with
    | inl _, inl _ | inr _, inr _ => True | _, _ => False end).
  { unfold reload_file. destruct conf as [c|]; [|done]. by destruct (parse_content c). }
  destruct (reload_file conf b (config_cell st)) as [cell r]. cbn [fst snd] in *.
  destruct (load_rules cell d (table st)) as [t fresh]. destruct (rule_load cell); cbn [negb].
  - rewrite bind_run. cbn [mret io_ret snd]. by destruct conf, r.
  - cbn [mret io_ret snd]. by destruct conf, r.
Qed.

(** The configuration is the one a start would load. *)
Lemma new_cell_started latnice conf fs st :
  fs_read fs = conf ->
  match conf with
  | inl _ => new_cell latnice conf st = (load_config fs latnice).1.1
  | inr _ => new_cell latnice conf st = config_cell st
  end.
Proof.
  intros Hfs. unfold new_cell, load_config, Config.load_file, reload_file. rewrite Hfs.
  destruct conf as [c|]; [|done]. by destruct (parse_content c).
Qed.

End Reloaded.

(** ** What a reload does to the system *)

Section ReloadSafe.
Context {Hjson : JsonParser} {Hregex : RegexEngine} {Hlru : Lru string (option RuleName)}
  {Horder : HashOrder} {Hc : Caches} {X : Type} {Hf : Files X} {Hk : Kernel X}.
Context (I : X -> Prop) (G : event -> Prop) {HL : Logs I G} {HC : Calls I G}.
Context (i : CgroupInfo) (r : option Paths.path) (HG : forall e, allowed r e -> G e).
Context (Hprobe : forall a res, G (ESys (SysSetAttr 0 a) res)).
Context (Hv2 : version i = V2) (Hmount : Paths.ParentDir ∉ Paths.components (mount_point i)).
#[local] Notation inv := (both (fun g => settled i r g /\ True) I).

Lemma probe_latnice_safe : safe inv (fun l => test_latnice_support l) (fun _ => True).
Proof.
  intros l Hl. unfold test_latnice_support.
  destruct (call_setattr (I := inv) (G := G) 0 (probe_attr (-20)) ltac:(auto) l Hl) as [H1 _].
  destruct (k_sched_setattr 0 (probe_attr (-20)) l) as [l1 [e|]]; [done|].
  set (back := probe_attr _).
  destruct (call_setattr (I := inv) (G := G) 0 back ltac:(auto) l1 H1) as [H2 _].
  by destruct (k_sched_setattr 0 back l1) as [l2 e].
Qed.

Lemma create_cgroups_safe rs : safe inv (create_cgroups rs) (fun _ => True).
Proof.
  unfold create_cgroups. generalize (hash_iter (get_cgroups rs)). intros l.
  induction l as [|e l IH] using rev_ind; [by apply safe_ret|]. rewrite foldl_app. cbn [foldl].
  apply (safe_bind _ _ _ (fun _ => True)); [done|]. intros _ _.
  apply (safe_bind _ _ _ (fun _ => True)); [by apply (create_cgroup_ok I G i r HG Hv2 Hmount (fun _ => True))|].
  intros. by apply safe_ret.
Qed.

Lemma reload_safe override conf d st : safe inv (reload_apply override conf d st) (fun _ => True).
Proof.
  unfold reload_apply. apply (safe_bind _ _ _ (fun _ => True)); [apply probe_latnice_safe|].
  intros b _. destruct (reload_file conf b (config_cell st)) as [cell res].
  destruct (negb (rule_load cell)); [by apply safe_ret|].
  destruct (load_rules cell d (table st)) as [t fresh].
  apply (safe_bind _ _ _ (fun _ => True)); [|intros; by apply safe_ret].
  destruct (store _ !! _); [apply create_cgroups_safe|by apply safe_ret].
Qed.

End ReloadSafe.

(** ** Properties *)
Module DaemonProps.

(** Whatever the rules of a reload name and however the system answers, a reload
    changes nothing outside the delegated cgroup root and the controllers above
    it but weights between 1 and 10000, and the only process whose scheduling
    attributes it sets is itself. *)
Theorem reload_confined {Hjson : JsonParser} {Hregex : RegexEngine}
    {Hlru : Lru string (option RuleName)} {Horder : HashOrder} {Hc : Caches}
    (env : world_env) (override : option Level) (conf : string + io_error) (d : disk) (st : daemon)
    (l : linux (list event)) (i : CgroupInfo) (r : option Paths.path) :
  settled i r (globals l) -> version i = V2 ->
  Paths.ParentDir ∉ Paths.components (mount_point i) ->
  forall e, e ∈ sys (fst (reload_apply (Hf := traced_files env) (Hk := traced_kernel env)
                            override conf d st l)) ->
  e ∈ sys l \/ allowed r e \/ exists a res, e = ESys (SysSetAttr 0 a) res.
Proof.
  intros Hs Hv2 Hm.
  set (G := fun e => e ∈ sys l \/ allowed r e \/ exists a res, e = ESys (SysSetAttr 0 a) res).
  pose proof (traced_logs env G) as HL. pose proof (traced_calls env G) as HC.
  assert (HG : forall e, allowed r e -> G e) by (right; by left).
  assert (Hp : forall a res, G (ESys (SysSetAttr 0 a) res)) by (right; right; eauto).
  destruct (reload_safe (Hf := traced_files env) (Hk := traced_kernel env) (Forall G) G i r HG Hp Hv2 Hm
    override conf d st l) as [[_ H] _].
  { split; [done|]. rewrite list.Forall_forall. by left. }
  intros e. rewrite list.Forall_forall in H. apply H.
Qed.

(** C7. A reload does what a restart on the same files would: the configuration is the
    one a start would load, and so is the log level unless [--verbose] fixed
    another; every process name is given the same rule with the same settings, and
    the types and cgroups are the same, whatever rules and names were loaded
    before.  With [rule_load] off the rules in force stay, and a configuration
    that cannot be read leaves settings and log level alone. *)
Theorem reload_equals_restart {Hjson : JsonParser} {Hregex : RegexEngine}
    {Hlru : Lru string (option RuleName)} {Horder : HashOrder}
    {Hlaws : LruLaws string (option RuleName)} {Horderlaws : HashOrderLaws}
    {Hc : Caches} {X : Type} {Hf : Files X} {Hk : Kernel X}
    (verbose force_trace : bool) (started : LogLevel) (conf : string + io_error)
    (fs : config_fs) (d : disk) (st : daemon) (l : linux X) :
  table_ok (table st) -> fs_read fs = conf ->
  let override := log_level_override started verbose force_trace in
  let st' := snd (reload_apply override conf d st l) in
  let cfg := (load_config fs (snd (test_latnice_support l))).1.1 in
  let '(t0, rs0) := load_rules (config_cell st') d NameTable_default in
  match conf with
  | inl _ =>
      config_cell st' = cfg /\
      (verbose = false \/ force_trace = true ->
       log_level st' = effective_log_level (loglevel cfg) verbose force_trace)
  | inr _ => config_cell st' = config_cell st /\ log_level st' = log_level st
  end /\
  if rule_load (config_cell st') then
    exists rs', store (shared st') !! shared_get (shared st') = Some rs' /\
      get_types rs' = get_types rs0 /\ get_cgroups rs' = get_cgroups rs0 /\
      (Z.of_nat (length (disk_lines (config_cell st') d)) < 2 ^ 32 ->
       room (table st') -> room t0 ->
       forall name, seen (table st') rs' name = seen t0 rs0 name)
  else shared st' = shared st /\ table st' = table st.
Proof.
  intros Ht Hfs override st' cfg. pose proof (reload_result override conf d st l) as Hst.
  pose proof (new_cell_started (snd (test_latnice_support l)) conf fs st Hfs) as Hcell.
  cbn zeta in Hst. fold st' in Hst. fold cfg in Hcell.
  set (cell := new_cell _ _ _) in *. pose proof (load_rules_shape cell d (table st) NameTable_default) as Hs.
  pose proof (fun n => load_rules_seen cell d (table st) n Ht) as Hs1.
  pose proof (fun n => load_rules_seen cell d NameTable_default n table_ok_default) as Hs2.
  destruct (load_rules cell d (table st)) as [t fresh]. rewrite Hst. cbn [config_cell shared table log_level].
  destruct (load_rules cell d NameTable_default) as [t0 rs0]. cbn [fst snd] in *. split.
  - destruct conf; [|done]. split; [done|]. rewrite <- Hcell.
    unfold effective_log_level, override, log_level_override. intros [-> | ->]; [by destruct force_trace|done].
  - destruct (rule_load cell); [|done]. exists fresh. split; [cbn; by rewrite list_lookup_middle|].
    split; [apply (shape_types _ _ Hs)|]. split; [apply (shape_cgroups _ _ Hs)|].
    intros Hl Hr Hr0 n. rewrite Hs1, Hs2 by done. unfold find_best_match.
    by rewrite (shape_programs _ _ Hs), (shape_regex _ _ Hs).
Qed.

(** A daemon that has interned other names before reloads one rule. *)
Definition demo_json (s : string) : option Value :=
  Some (VObject [("name", VString "ls"); ("nice", VNumber (NegInt (-5))); ("sched", VString "batch")]).
Definition demo_disk : disk := MkDisk (Some [Some (["a.rules"], true)]) (fun _ => Some "{}").
Definition demo_table : NameTable := fst (intern "idle" NameTable_default).
Definition demo_conf : string := "loglevel=debug".
Definition demo_fs : config_fs := ConfigFs "/etc/ananicy.d/ananicy.conf" (inl demo_conf) "/etc/ananicy.d" None None.
Definition demo_daemon : daemon :=
  MkDaemon Config.default (shared_new Rules_new) demo_table L_INFO.
Definition demo_linux : linux (list event) := CgroupsProps.demo_linux.
Definition demo_reloaded : daemon :=
  snd (reload_apply (Hjson := demo_json) (Hf := traced_files ManagerProps.demo_env)
         (Hk := traced_kernel ManagerProps.demo_env)
         (log_level_override Info false false) (inl demo_conf) demo_disk demo_daemon demo_linux).
Definition demo_fresh : NameTable * Rules :=
  load_rules (Hjson := demo_json) (config_cell demo_reloaded) demo_disk NameTable_default.

Lemma reload_equals_restart_witness :
  log_level demo_reloaded = L_DEBUG /\
  exists rs', store (shared demo_reloaded) !! shared_get (shared demo_reloaded) = Some rs' /\
    seen (table demo_reloaded) rs' "ls" = seen demo_fresh.1 demo_fresh.2 "ls" /\
    w_nice <$> (snd <$> seen demo_fresh.1 demo_fresh.2 "ls") = Some (Some (Some (-5))).
Proof.
  pose proof (reload_equals_restart (Hjson := demo_json) (Hf := traced_files ManagerProps.demo_env)
    (Hk := traced_kernel ManagerProps.demo_env)
    false false Info (inl demo_conf) demo_fs demo_disk demo_daemon demo_linux
    (intern_ok "idle" NameTable_default table_ok_default) eq_refl) as H.
  cbn zeta in H. fold demo_reloaded in H. fold demo_fresh in H.
  rewrite (surjective_pairing demo_fresh) in H.
  assert (Hr : rule_load (config_cell demo_reloaded) = true) by (vm_compute; reflexivity).
  rewrite Hr in H. destruct H as [_ (rs' & Hs & _ & _ & Hn)].
  split; [vm_compute; reflexivity|]. exists rs'. split; [exact Hs|]. split.
  - apply Hn; vm_compute; congruence.
  - vm_compute. reflexivity.
Defined.

(** A reload that finds a [.cgroups] file. *)
Definition demo_cgroup (s : string) : option Value :=
  Some (VObject [("cgroup", VString "games"); ("CPUQuota", VNumber (PosInt 50))]).
Definition cgroup_disk : disk := MkDisk (Some [Some (["a.cgroups"], true)]) (fun _ => Some "{}").
Definition cgroup_reload : linux (list event) :=
  fst (reload_apply (Hjson := demo_cgroup) (Hf := traced_files ManagerProps.demo_env)
         (Hk := traced_kernel ManagerProps.demo_env) None (inl demo_conf) cgroup_disk demo_daemon demo_linux).

Example demo_reload_writes :
  omap changes (sys cgroup_reload) = [Paths.push ManagerProps.demo_root "games/cpu.max"].
Proof. by vm_compute. Qed.

Lemma reload_confined_witness :
  let e := EWrite (Paths.push ManagerProps.demo_root "games/cpu.max")
             (sapp "400000 100000" newline) None in
  e ∈ sys demo_linux \/ allowed (Some ManagerProps.demo_root) e \/
  exists a res, e = ESys (SysSetAttr 0 a) res.
Proof.
  apply (reload_confined (Hjson := demo_cgroup) ManagerProps.demo_env None (inl demo_conf) cgroup_disk
    demo_daemon demo_linux (MkCgroupInfo V2 "/sys/fs/cgroup") (Some ManagerProps.demo_root)).
  - by exists ManagerProps.demo_manager.
  - reflexivity.
  - apply (bool_decide_unpack _). vm_compute. exact Logic.I.
  - fold cgroup_reload. vm_compute. repeat (left; reflexivity) || right.
Defined.

End DaemonProps.
