(* ===== verification/Runtime.v ===== *)
(** * The run of the daemon

    [src/runtime.rs] and [src/monitor.rs]: from the committed start to the end of
    the process.  The cgroups are set up, the worker and, where it was asked for,
    the manual scanner are started, and then the BPF monitor runs until the
    shutdown flag is up, or the netlink monitor in its place.

    What the run asks of the rest, threads and monitors, is the class [Sources];
    its trace instance records the requests.  A monitor that listens and the join of
    the worker may never return; the run then stands [Waiting] there.  The loops
    restart a monitor that failed for as long as it takes, so they are on fuel and say
    [Running] when it is used up; a theorem about the trace of every amount of fuel is
    one about every moment of the run. *)

From S2P Require Import Prelude RustStr Paths Process Config Json RuleData LruCache RuleSet.
From S2P Require Import Files CgroupManager LinuxState Mounts Cgroups X3d Daemon.
From stdpp Require Import base list gmap strings numbers.
From Stdlib Require Import ZArith Lia.

#[local] Open Scope Z_scope.

(** How the process stands: [main] returned, [exit] was called, it waits in a call that
    does not return, or it goes on. *)
Inductive wait_at := InBpf | InNetlink | InJoin.
Inductive run_outcome := Returned | Exited (code : Z) | Waiting (at_ : wait_at) | Running.

Class Sources (W : Type) := {
  s_start_worker : io W bool;       (* Worker::start, is_ok *)
  s_start_scanner : io W bool;      (* start_manual_scanner, is_ok *)
  s_notify_ready : io W unit;       (* sd_notify READY *)
  s_bpf_new : io W bool;            (* BpfMonitor::new, is_ok *)
  s_bpf_listen : io W bool;         (* whether it returns: on shutdown or failure *)
  s_netlink_new : io W bool;
  s_netlink_listen : io W (option bool);  (* is_ok; None: it does not return *)
  s_init_scan : io W bool;          (* the thread of the initial scan *)
  s_full_scan : io W unit;          (* ProcfsScanner::full_scan, in this thread *)
  s_shutdown : io W bool;           (* the flag *)
  s_sleep : Z -> io W unit;         (* milliseconds *)
  s_join : io W (option bool);      (* worker_handle.join, is_ok; None: it does not return *)
}.

(** The fields of [RunOptions] the control flow depends on, and the features the
    daemon was built with. *)
Record RunOptions := MkOptions {
  manual_scanning : bool;
  realtime_workaround : bool;
  is_systemd : bool;
  feature_bpf : bool;
  feature_netlink : bool;
}.

Section Run.
Context {W : Type} {Hs : Sources W}.

(** Putting the saved X3D mode back, and the two set-ups of the cgroups. *)
Context (restore : io W bool) (setup setup_again : io W unit).

Definition finish_join : io W run_outcome :=
  joined ← s_join;
  match joined with
  | None => mret (Waiting InJoin)
  | Some _ => _ ← restore; mret Returned
  end.

(** [None]: the BPF monitor is not to be had, fall back. *)
Fixpoint bpf_loop (fuel : nat) (is_first : bool) : io W (option run_outcome) :=
  match fuel with
  | O => mret (Some Running)
  | S fuel =>
      ok ← s_bpf_new;
      if ok : bool then
        _ ← (if is_first then s_init_scan else mret true);
        back ← s_bpf_listen;
        if negb back then mret (Some (Waiting InBpf)) else
        stop ← s_shutdown;
        if stop : bool then outcome ← finish_join; mret (Some outcome)
        else _ ← s_sleep 1000; bpf_loop fuel false
      else mret None
  end.

Fixpoint netlink_loop (fuel : nat) (is_first : bool) : io W run_outcome :=
  match fuel with
  | O => mret Running
  | S fuel =>
      ok ← s_netlink_new;
      if ok : bool then
        _ ← (if is_first then s_init_scan else mret true);
        r ← s_netlink_listen;
        match r with
        | None => mret (Waiting InNetlink)
        | Some false =>
            _ ← s_full_scan;
            _ ← s_sleep 1000;
            netlink_loop fuel false
        | Some true => finish_join
        end
      else _ ← restore; mret (Exited 1)
  end.

(** Without the BPF monitor: netlink if it is built in. *)
Definition fall_back (fuel : nat) (o : RunOptions) : io W run_outcome :=
  if feature_netlink o then netlink_loop fuel true
  else _ ← restore; mret (Exited 1).

Definition monitor_run (fuel : nat) (o : RunOptions) : io W run_outcome :=
  r ← (if feature_bpf o then bpf_loop fuel true else mret None);
  match r with
  | Some outcome => mret outcome
  | None => fall_back fuel o
  end.

(** [runtime::run]; the thread of [--benchmark] only raises the flag later. *)
Definition run (fuel : nat) (o : RunOptions) : io W run_outcome :=
  _ ← setup;
  started ← s_start_worker;
  if negb started then mret (Exited 1) else
  _ ← (if is_systemd o then s_notify_ready else mret tt);
  _ ← (if realtime_workaround o then _ ← s_sleep 100; setup_again else mret tt);
  scanning ← (if manual_scanning o then s_start_scanner else mret true);
  if negb scanning then mret (Exited 1) else monitor_run fuel o.

End Run.

(** ** The manual scanner *)

(** A round of the scanner's loop: the flag at its head, the clock when it has slept,
    and the clock after the scan if it makes one. *)
Record round := MkRound { up : bool; woke : Z; after_scan : Z }.

(** The loop of [start_manual_scanner], over what its rounds find; the times of the
    scans. *)
Fixpoint scanner_loop (check_freq last_scan : Z) (rounds : list round) : list Z :=
  match rounds with
  | [] => []
  | r :: rounds =>
      if up r then []
      else if check_freq <=? Z.max 0 (woke r - last_scan) / 1000
      then woke r :: scanner_loop check_freq (after_scan r) rounds
      else scanner_loop check_freq last_scan rounds
  end.

(** The two set-ups, on the platform. *)
Section Setup.
Context {Hjson : JsonParser} {Hregex : RegexEngine} {Hlru : Lru string (option RuleName)}
  {Horder : HashOrder} {Hc : Caches} {X : Type} {Hf : Files X}.

Definition setup_cgroups (rs : Rules) : io (linux X) unit :=
  there ← wait_for_cgroup_hierarchy;
  if there : bool then create_cgroups rs else mret tt.

Definition setup_cgroups_again (rs : Rules) : io (linux X) unit :=
  _ ← reset_cgroup_detection;
  there ← has_cgroup_hierarchy;
  if there : bool then create_cgroups rs else mret tt.

(** The run of the daemon on Linux. *)
Definition linux_run {Hs : Sources (linux X)} (saved_x3d_mode : option X3DMode) (rs : Rules)
    : nat -> RunOptions -> io (linux X) run_outcome :=
  run (restore_x3d "/sys" saved_x3d_mode) (setup_cgroups rs) (setup_cgroups_again rs).
End Setup.

(** ** The trace instance *)

Inductive source_event :=
| SSetup | SStartWorker (ok : bool) | SStartScanner (ok : bool) | SNotify
| SBpfNew (ok : bool) | SBpfListen (back : bool) | SNetlinkNew (ok : bool)
| SNetlinkListen (r : option bool) | SInitScan (ok : bool) | SFullScan | SShutdown (up : bool)
| SSleep (ms : Z) | SJoin (r : option bool)
| SRestore (ok : bool).

Definition noted {A} (f : A -> source_event) (answer : list source_event -> A)
    : io (list source_event) A := fun w => let a := answer w in (w ++ [f a], a).

(** The answers, given what was asked before, and whether the calls that may block
    return. *)
Record source_env := MkSourceEnv {
  answer : list source_event -> bool;
  returns : list source_event -> bool;
}.
Definition blocking (env : source_env) (w : list source_event) : option bool :=
  if returns env w then Some (answer env w) else None.

Definition traced_sources (env : source_env) : Sources (list source_event) := {|
  s_start_worker := noted SStartWorker (answer env);
  s_start_scanner := noted SStartScanner (answer env);
  s_notify_ready := noted (fun _ => SNotify) (fun _ => tt);
  s_bpf_new := noted SBpfNew (answer env);
  s_bpf_listen := noted SBpfListen (returns env);
  s_netlink_new := noted SNetlinkNew (answer env);
  s_netlink_listen := noted SNetlinkListen (blocking env);
  s_init_scan := noted SInitScan (answer env);
  s_full_scan := noted (fun _ => SFullScan) (fun _ => tt);
  s_shutdown := noted SShutdown (answer env);
  s_sleep ms := noted (fun _ => SSleep ms) (fun _ => tt);
  s_join := noted SJoin (blocking env);
|}.
Definition traced_restore (env : source_env) : io (list source_event) bool := noted SRestore (answer env).
Definition traced_setup : io (list source_event) unit := noted (fun _ => SSetup) (fun _ => tt).

Definition traced_run (env : source_env) (fuel : nat) (o : RunOptions)
    : list source_event * run_outcome :=
  run (Hs := traced_sources env) (traced_restore env) traced_setup traced_setup fuel o [].

(** ** Counting *)

Definition is_restore (e : source_event) : bool := match e with SRestore _ => true | _ => false end.
Definition is_init_scan (e : source_event) : bool := match e with SInitScan _ => true | _ => false end.
Definition thread_failed (e : source_event) : bool :=
  match e with SStartWorker false | SStartScanner false => true | _ => false end.
Definition count (f : source_event -> bool) (tr : list source_event) : nat :=
  length (filter (fun e => f e = true) tr).

Lemma count_snoc f tr e : count f (tr ++ [e]) = (count f tr + Nat.b2n (f e))%nat.
Proof.
  unfold count. rewrite list.filter_app, length_app. f_equal. rewrite filter_cons. by destruct (f e).
Qed.

(** Nothing was restored so far, no thread failed to start, and the initial scans are
    accounted for. *)
Definition going (bound : nat) (is_first : bool) (tr : list source_event) : Prop :=
  count is_restore tr = 0%nat /\ count thread_failed tr = 0%nat /\
  (count is_init_scan tr + Nat.b2n is_first <= bound)%nat.

(** The mode was put back, last of all and never before. *)
Definition restored (bound : nat) (tr : list source_event) : Prop :=
  exists pre ok, tr = pre ++ [SRestore ok] /\ going bound false pre.

(** Both are decided by counting. *)
Ltac counts :=
  unfold restored, going in *;
  try (eexists _, _; split; [reflexivity|]);
  rewrite ?count_snoc in *; cbn [is_restore is_init_scan thread_failed Nat.b2n] in *; lia.

(** The state of a run that got as far as the monitors. *)
Definition monitored (bound : nat) (tr : list source_event) (r : run_outcome) : Prop :=
  match r with
  | Running | Waiting _ => going bound false tr
  | Returned => restored bound tr
  | Exited code => code = 1 /\ restored bound tr
  end.

(** The join, and the mode put back after it. *)
Lemma finish_join_ok env bound w :
  going bound false w ->
  let '(w', r) := finish_join (Hs := traced_sources env) (traced_restore env) w in
  match r with Returned => restored bound w' | Waiting InJoin => going bound false w' | _ => False end.
Proof.
  intros Hw. unfold finish_join, mbind, io_bind. cbn [s_join traced_sources]. unfold noted.
  destruct (blocking env w); cbn [mret io_ret]; [unfold traced_restore, noted|]; cbn [mret io_ret]; counts.
Qed.

Section Loops.
Context (env : source_env) (bound : nat).
#[local] Notation Hx := (traced_sources env).
#[local] Notation back := (traced_restore env).

Lemma bpf_loop_ok fuel first w :
  going bound first w ->
  let '(w', r) := bpf_loop (Hs := Hx) back fuel first w in
  match r with
  | None | Some Running | Some (Waiting _) => going bound false w'
  | Some Returned => restored bound w'
  | Some (Exited _) => False
  end.
Proof.
  revert first w. induction fuel as [|fuel IH]; intros first w Hw; cbn [bpf_loop].
  { cbn [mret io_ret]. counts. }
  unfold mbind, io_bind. cbn [s_bpf_new s_init_scan s_bpf_listen s_shutdown s_sleep
    traced_sources]. unfold noted.
  destruct (answer env w); [|cbn [mret io_ret]; counts].
  destruct first; cbn [mret io_ret].
  all: match goal with |- context [negb (returns env ?x)] => destruct (returns env x) end;
    cbn [negb mret io_ret]; [|counts].
  all: match goal with |- context [if answer env ?x then _ else _] => destruct (answer env x) end;
    [|apply IH; counts].
  all: match goal with |- context [finish_join _ ?x] =>
    pose proof (finish_join_ok env bound x ltac:(counts)) as Hj; destruct (finish_join back x) as [w' r] end.
  all: by destruct r as [| |[]|].
Qed.

Lemma netlink_loop_ok fuel first w :
  going bound first w ->
  let '(w', r) := netlink_loop (Hs := Hx) back fuel first w in monitored bound w' r.
Proof.
  revert first w. induction fuel as [|fuel IH]; intros first w Hw; cbn [netlink_loop].
  { cbn [mret io_ret monitored]. counts. }
  unfold mbind, io_bind. cbn [s_netlink_new s_init_scan s_netlink_listen s_full_scan
    s_sleep traced_sources]. unfold noted.
  destruct (answer env w); [|unfold traced_restore, noted; cbn [mret io_ret]; split; [done|counts]].
  destruct first; cbn [mret io_ret].
  all: match goal with |- context [blocking env ?x] => destruct (blocking env x) as [[]|] end;
    cbn [mret io_ret monitored]; [|apply IH; counts|counts].
  all: match goal with |- context [finish_join _ ?x] =>
    pose proof (finish_join_ok env bound x ltac:(counts)) as Hj; destruct (finish_join back x) as [w' r] end.
  all: by destruct r as [| |[]|].
Qed.

End Loops.

(** The monitors: the initial scan once for each, and the mode put back at the end. *)
Lemma fall_back_ok env fuel o w :
  going 1 false w ->
  let '(w', r) := fall_back (Hs := traced_sources env) (traced_restore env) fuel o w in
  monitored 2 w' r.
Proof.
  intros Hw. unfold fall_back. destruct (feature_netlink o).
  - apply netlink_loop_ok. counts.
  - unfold mbind, io_bind, traced_restore, noted. cbn [mret io_ret]. split; [done|counts].
Qed.

Lemma monitor_run_ok env fuel o w :
  going 0 false w ->
  let '(w', r) := monitor_run (Hs := traced_sources env) (traced_restore env) fuel o w in
  monitored 2 w' r.
Proof.
  intros Hw. unfold monitor_run, mbind, io_bind.
  destruct (feature_bpf o); [|cbn [mret io_ret]; apply fall_back_ok; counts].
  pose proof (bpf_loop_ok env 1 fuel true w ltac:(counts)) as Hb.
  destruct (bpf_loop (traced_restore env) fuel true w) as [w1 [[| | |]|]]; cbn [mret io_ret]; try done.
  - destruct Hb as (pre & ok & -> & Hp). exists pre, ok. split; [done|counts].
  - cbn [monitored]. counts.
  - cbn [monitored]. counts.
  - by apply fall_back_ok.
Qed.

(** The run up to the monitors: it gets there with nothing restored, or a thread it
    needs could not be started. *)
Definition no_thread (tr : list source_event) : Prop :=
  exists pre e, tr = pre ++ [e] /\ thread_failed e = true /\
    count thread_failed pre = 0%nat /\ count is_restore tr = 0%nat /\ count is_init_scan tr = 0%nat.

Lemma run_cases env fuel o :
  (exists w, going 0 false w /\
     traced_run env fuel o =
     monitor_run (Hs := traced_sources env) (traced_restore env) fuel o w) \/
  (exists tr, no_thread tr /\ traced_run env fuel o = (tr, Exited 1)).
Proof.
  unfold traced_run, run, mbind, io_bind. cbn [s_start_worker s_notify_ready s_start_scanner s_sleep
    traced_sources]. unfold traced_setup, noted.
  destruct (answer env _) eqn:E0; cbn [negb];
    [|right; eexists; split; [|reflexivity]; by eexists _, _].
  destruct (is_systemd o), (realtime_workaround o), (manual_scanning o); cbn [mret io_ret negb];
    try match goal with |- context [negb (answer ?f ?w)] => destruct (answer f w) end; cbn [negb].
  all: try (right; eexists; split; [|reflexivity]; by eexists _, _).
  all: left; eexists; split; [|reflexivity]; (split_and!; [done..|vm_compute; lia]).
Qed.

(** ** Ending *)

(** The requests after which the answer tells whether the flag is up: the BPF monitor
    has returned, or the netlink monitor is about to listen and returns without an
    error when it sees the flag. *)
Definition asks_flag (e : source_event) : bool :=
  match e with SBpfListen true | SNetlinkNew true | SInitScan _ => true | _ => false end.

(** The flag is raised before request number [n] and stays up. *)
Definition flag_up_from (n : nat) (env : source_env) : Prop :=
  forall w e, (n <= length w)%nat -> list.last w = Some e -> asks_flag e = true -> answer env w = true.

(** The requests after which a monitor listens, and that it comes back from there. *)
Definition listens (e : source_event) : bool :=
  match e with SBpfNew true | SNetlinkNew true | SInitScan _ => true | _ => false end.
Definition listeners_return (env : source_env) : Prop :=
  forall w e, list.last w = Some e -> listens e = true -> returns env w = true.

(** How a run is over: the worker was joined and the mode put back, the daemon gave up,
    or it stands in the join of a worker that does not end. *)
Definition ended (tr : list source_event) (r : run_outcome) : Prop :=
  match r with
  | Returned => exists pre joined ok, tr = pre ++ [SJoin (Some joined); SRestore ok]
  | Exited code => code = 1
  | Waiting InJoin => list.last tr = Some (SJoin None)
  | Waiting _ | Running => False
  end.

Lemma finish_join_ends env w :
  let '(w', r) := finish_join (Hs := traced_sources env) (traced_restore env) w in ended w' r.
Proof.
  unfold finish_join, mbind, io_bind. cbn [s_join traced_sources]. unfold noted.
  destruct (blocking env w) as [j|] eqn:E; cbn [mret io_ret ended].
  - unfold traced_restore, noted. cbn [mret io_ret ended]. exists w, j. eexists. by rewrite <- app_assoc.
  - apply last_snoc.
Qed.

Section Ending.
Context (env : source_env) (n : nat) (Hup : flag_up_from n env) (Hret : listeners_return env).
#[local] Notation Hx := (traced_sources env).
#[local] Notation back := (traced_restore env).

Lemma flag_not_up w e : asks_flag e = true -> answer env (w ++ [e]) = false -> (length w + 1 < n)%nat.
Proof.
  intros He Hw. destruct (decide (n <= length (w ++ [e]))%nat) as [H|H].
  - rewrite (Hup (w ++ [e]) e H) in Hw; [done|apply last_snoc|done].
  - rewrite length_app in H. cbn in H. lia.
Qed.

Lemma listener_returns w e : listens e = true -> returns env (w ++ [e]) = true.
Proof. apply Hret, last_snoc. Qed.

(** What is left of a round once the flag was asked for. *)
Ltac next_round IH E :=
  apply flag_not_up in E; [|done]; rewrite ?length_app in E; cbn [length] in E;
  apply IH; [|rewrite !length_app; cbn [length]]; lia.

Lemma bpf_loop_ends fuel first w :
  (0 < fuel)%nat -> (n <= length w + fuel)%nat ->
  let '(w', r) := bpf_loop (Hs := Hx) back fuel first w in
  match r with None => True | Some r => ended w' r end.
Proof.
  revert first w. induction fuel as [|fuel IH]; intros first w H0 Hn; [lia|]. cbn [bpf_loop].
  unfold mbind, io_bind. cbn [s_bpf_new s_init_scan s_bpf_listen s_shutdown s_sleep
    traced_sources]. unfold noted.
  destruct (answer env w); [|done].
  destruct first; cbn [mret io_ret]; rewrite listener_returns by done; cbn [negb].
  all: match goal with |- context [if answer env ?x then _ else _] => destruct (answer env x) eqn:E end;
    [|next_round IH E].
  all: match goal with |- context [finish_join _ ?x] =>
    pose proof (finish_join_ends env x) as Hj; by destruct (finish_join back x) end.
Qed.

Lemma netlink_loop_ends fuel first w :
  (0 < fuel)%nat -> (n <= length w + fuel)%nat ->
  let '(w', r) := netlink_loop (Hs := Hx) back fuel first w in ended w' r.
Proof.
  revert first w. induction fuel as [|fuel IH]; intros first w H0 Hn; [lia|]. cbn [netlink_loop].
  unfold mbind, io_bind. cbn [s_netlink_new s_init_scan s_netlink_listen s_full_scan
    s_sleep traced_sources]. unfold noted, blocking.
  destruct (answer env w); [|done].
  destruct first; cbn [mret io_ret]; rewrite listener_returns by done.
  all: match goal with |- context [Some (answer env ?x)] => destruct (answer env x) eqn:E end;
    [|next_round IH E].
  all: apply finish_join_ends.
Qed.

Lemma monitor_run_ends fuel o w :
  (n < fuel)%nat ->
  let '(w', r) := monitor_run (Hs := Hx) back fuel o w in ended w' r.
Proof.
  intros Hn.
  assert (Hfall : forall w, let '(w', r) := fall_back (Hs := Hx) back fuel o w in ended w' r).
  { intros w'. unfold fall_back. destruct (feature_netlink o); [|done].
    apply netlink_loop_ends; lia. }
  unfold monitor_run, mbind, io_bind. destruct (feature_bpf o); [|apply Hfall].
  pose proof (bpf_loop_ends fuel true w ltac:(lia) ltac:(lia)) as Hb.
  by destruct (bpf_loop back fuel true w) as [w1 [r|]]; [|apply Hfall].
Qed.
End Ending.

(** ** Properties *)
Module RuntimeProps.

(** C32. The end of the daemon, up to the join of the worker: once the shutdown flag is up
    to stay (a netlink monitor made to listen then returns without an error), and when
    a monitor that listens comes back at all, within as many rounds of the loops as
    there were requests before and whichever monitors start, fail or are built in, the
    worker was joined and the mode put back, or the daemon gave up with status 1, or it
    stands in the join of a worker that does not end, as it does after a benchmark. *)
Theorem run_ends (env : source_env) (n fuel : nat) (o : RunOptions) :
  flag_up_from n env -> listeners_return env -> (n < fuel)%nat ->
  let '(tr, outcome) := traced_run env fuel o in
  match outcome with
  | Returned => exists pre joined ok, tr = pre ++ [SJoin (Some joined); SRestore ok]
  | Exited code => code = 1
  | Waiting InJoin => list.last tr = Some (SJoin None)
  | Waiting _ | Running => False
  end.
Proof.
  intros Hup Hret Hn. change (let '(tr, outcome) := traced_run env fuel o in ended tr outcome).
  destruct (run_cases env fuel o) as [(w & _ & ->)|(tr & _ & ->)]; [|done].
  by apply (monitor_run_ends env n).
Qed.

(** The flag comes up while the BPF monitor is failing over and over; the worker then
    ends, or does not. *)
Definition failing_env (joins : bool) : source_env := {|
  answer w := (10 <=? length w)%nat || match list.last w with Some (SBpfListen _) => false | _ => true end;
  returns w := match list.last w with Some (SShutdown true) => joins | _ => true end;
|}.

Lemma run_ends_witness :
  let o := MkOptions false false false true true in
  (exists pre joined ok, fst (traced_run (failing_env true) 11 o) = pre ++ [SJoin (Some joined); SRestore ok]) /\
  list.last (fst (traced_run (failing_env false) 11 o)) = Some (SJoin None) /\
  snd (traced_run (failing_env true) 1 o) = Running.
Proof.
  intros o.
  assert (Hup : forall joins, flag_up_from 10 (failing_env joins)).
  { intros joins w e Hw _ _. unfold failing_env. cbn [answer]. by rewrite (proj2 (Nat.leb_le _ _) Hw). }
  assert (Hret : forall joins, listeners_return (failing_env joins)).
  { intros joins w e Hw He. unfold failing_env. cbn [returns]. rewrite Hw. by destruct e as [| | | | | | | | | |[]| | |]. }
  split_and!.
  - exact (run_ends (failing_env true) 10 11 o (Hup true) (Hret true) ltac:(lia)).
  - exact (run_ends (failing_env false) 10 11 o (Hup false) (Hret false) ltac:(lia)).
  - reflexivity.
Defined.

(** C30. At every moment of a run, whatever fails and however often: while the daemon
    runs or waits the X3D mode has not been put back, and when it ends through the
    monitors, by returning or by giving up, putting it back is the last thing it does and
    is done once; each of the two monitors has made the initial scan at most once.  A
    worker or scanner thread that cannot be started ends the daemon there with status 1,
    the mode left as it is, and nothing else does. *)
Theorem mode_restored_on_exit (env : source_env) (fuel : nat) (o : RunOptions) :
  let '(tr, outcome) := traced_run env fuel o in
  (count is_init_scan tr <= 2)%nat /\
  match count thread_failed tr, outcome with
  | S _, _ =>
      outcome = Exited 1 /\ count is_restore tr = 0%nat /\
      exists pre e, tr = pre ++ [e] /\ thread_failed e = true
  | O, Running | O, Waiting _ => count is_restore tr = 0%nat
  | O, Returned => exists pre ok, tr = pre ++ [SRestore ok] /\ count is_restore pre = 0%nat
  | O, Exited code =>
      code = 1 /\ exists pre ok, tr = pre ++ [SRestore ok] /\ count is_restore pre = 0%nat
  end.
Proof.
  assert (Hend : forall w', restored 2 w' -> (count is_init_scan w' <= 2)%nat /\
    count thread_failed w' = 0%nat /\
    exists pre ok, w' = pre ++ [SRestore ok] /\ count is_restore pre = 0%nat).
  { intros w' (pre & ok & -> & Hr & Ht & Hs). rewrite !count_snoc, Ht. cbn in *.
    split; [lia|]. split; [done|]. by exists pre, ok. }
  destruct (run_cases env fuel o) as [(w & Hw & ->)|(tr & (pre & e & -> & He & Hp & Hr & Hs) & ->)].
  - pose proof (monitor_run_ok env fuel o w Hw) as H.
    destruct (monitor_run _ fuel o w) as [tr [|code|at_|]]; cbn [monitored] in H.
    + destruct (Hend _ H) as (? & -> & ?). by split.
    + destruct H as [-> H%Hend]. destruct H as (? & -> & ?). by split.
    + destruct H as (? & -> & ?). by split; [lia|].
    + destruct H as (? & -> & ?). by split; [lia|].
  - rewrite Hs. split; [lia|]. rewrite count_snoc, Hp, He. cbn. split; [done|]. split; [done|].
    by exists pre, e.
Qed.

(** Two scans of the manual scanner are at least the configured interval apart, the
    first comes no earlier than that after the start, and none is made once the
    flag is up, on a clock that does not run backwards. *)
Theorem scans_spaced (check_freq start : Z) (rounds : list round) :
  Forall (fun r => woke r <= after_scan r) rounds ->
  1 <= check_freq ->
  let scans := scanner_loop check_freq start rounds in
  (forall i t, scans !! i = Some t -> start + 1000 * check_freq <= t) /\
  (forall i t u, scans !! i = Some t -> scans !! S i = Some u -> t + 1000 * check_freq <= u) /\
  (forall t, t ∈ scans -> exists r, r ∈ rounds /\ up r = false /\ woke r = t).
Proof.
  intros Hr Hf. revert start.
  induction Hr as [|r rounds Hw _ IH]; intros start; cbn [scanner_loop].
  { split_and!; [done..|]. intros t Ht. by apply elem_of_nil in Ht. }
  destruct (up r) eqn:Eu.
  { split_and!; [done..|]. intros t Ht. by apply elem_of_nil in Ht. }
  destruct (check_freq <=? _) eqn:E.
  - apply Z.leb_le in E. assert (Hgap : start + 1000 * check_freq <= woke r).
    { pose proof (Z.mul_div_le (Z.max 0 (woke r - start)) 1000 ltac:(lia)). lia. }
    destruct (IH (after_scan r)) as (H1 & H2 & H3). split_and!.
    + intros [|i] t; cbn; [intros [= <-]; lia|]. intros Ht%H1. lia.
    + intros [|i] t u; cbn; [|by apply H2]. intros [= <-] Hu%H1. lia.
    + intros t [->|Ht]%elem_of_cons; [by exists r; split; [left|]|].
      destruct (H3 t Ht) as (r' & Hin & ?). exists r'. split; [by right|done].
  - destruct (IH start) as (H1 & H2 & H3). split_and!; [done..|].
    intros t Ht. destruct (H3 t Ht) as (r' & Hin & ?). exists r'. split; [by right|done].
Qed.

Lemma scans_spaced_witness :
  let scans := scanner_loop 2 0 [MkRound false 1000 1000; MkRound false 2100 2200;
                                 MkRound false 3300 3300; MkRound false 4300 4310] in
  scans = [2100; 4300] /\ (forall i t, scans !! i = Some t -> 0 + 1000 * 2 <= t).
Proof.
  intros scans. split; [reflexivity|].
  apply (scans_spaced 2 0 [MkRound false 1000 1000; MkRound false 2100 2200;
    MkRound false 3300 3300; MkRound false 4300 4310]); [|lia].
  repeat constructor; cbn; lia.
Defined.

End RuntimeProps.
