(* ===== verification/Systemd.v ===== *)
(** * The systemd mode and the unit name

    [src/systemd.rs], with the request of [src/cli.rs], and
    [crates/ananicy-platform/src/service.rs]: whether the daemon talks to a service
    manager, and the unit it belongs to, both read off the environment and
    [/proc/self/cgroup]. *)

From stdpp Require Import base list strings numbers.
From Stdlib Require Import ZArith Lia Ascii.
From S2P Require Import Prelude RustStr.

#[local] Open Scope Z_scope.

(** ** The mode *)

Inductive SystemdRequest := Auto | RequestEnabled | RequestDisabled.
Inductive SystemdEvidence := InvocationId | NotifySocket | JournalStream.
Inductive SystemdSkipReason := Requested | ScopeMember | NotDetected.
Inductive SystemdMode :=
| Forced | Enabled (e : SystemdEvidence) | Disabled (r : SystemdSkipReason).

(** The two flags of the command line; both together are refused. *)
Definition systemd_request (systemd no_systemd : bool) : option SystemdRequest :=
  match systemd, no_systemd with
  | true, true => None
  | true, false => Some RequestEnabled
  | false, true => Some RequestDisabled
  | false, false => Some Auto
  end.

Definition is_enabled (m : SystemdMode) : bool :=
  match m with Forced | Enabled _ => true | Disabled _ => false end.

Definition description (m : SystemdMode) : string :=
  match m with
  | Forced => "enabled (forced by --systemd)"
  | Enabled InvocationId => "enabled (auto-detected from $INVOCATION_ID)"
  | Enabled NotifySocket => "enabled (auto-detected from $NOTIFY_SOCKET)"
  | Enabled JournalStream => "enabled (auto-detected from $JOURNAL_STREAM)"
  | Disabled Requested => "disabled (forced by --no-systemd)"
  | Disabled ScopeMember => "disabled (member of a transient .scope, not a service)"
  | Disabled NotDetected => "disabled (no systemd service manager detected)"
  end.

Record SystemdEnvironment := MkSystemdEnv {
  invocation_id : bool;
  notify_socket : bool;
  journal_stream : bool;
  in_transient_scope : bool;
}.

Definition has_supervision_evidence (env : SystemdEnvironment) : bool :=
  invocation_id env || notify_socket env || journal_stream env.

(** [var] is the environment of the process. *)
Definition is_set (var : string -> option string) (name : string) : bool :=
  match var name with Some value => negb (String.eqb value EmptyString) | None => false end.

(** ** The own cgroup *)

(** A line that counts: its controllers and its path. *)
Definition cgroup_line (line : string) : option (string * string) :=
  match split_once ":"%char line with
  | None => None
  | Some (hierarchy, rest) =>
      match split_once ":"%char rest with
      | None => None
      | Some (controllers, path) =>
          match parse_u32 hierarchy with
          | None => None
          | Some _ => if String.eqb path EmptyString then None else Some (controllers, path)
          end
      end
  end.

Definition is_manager (controllers : string) : bool :=
  existsb (String.eqb "name=systemd") (split ","%char controllers).

Fixpoint own_cgroup_loop (content : list string) (manager any_controller : option string)
    : option string :=
  match content with
  | [] => match manager with Some p => Some p | None => any_controller end
  | line :: content =>
      match cgroup_line line with
      | None => own_cgroup_loop content manager any_controller
      | Some (controllers, path) =>
          if String.eqb controllers EmptyString then Some path
          else if is_manager controllers then own_cgroup_loop content (Some path) any_controller
          else own_cgroup_loop content manager
                 (match any_controller with None => Some path | Some p => Some p end)
      end
  end.

Definition own_cgroup_path (content : string) : option string :=
  own_cgroup_loop (lines content) None None.

(** [raw] is what reading [/proc/self/cgroup] answers. *)
Definition read_own_cgroup_path (raw : option (list Z)) : option string :=
  match raw with Some raw => own_cgroup_path (from_utf8_lossy raw) | None => None end.

(** The segments of a path that are not empty, deepest first. *)
Definition deepest_first (cgroup_path : string) : list string :=
  reverse (filter (fun s => s <> EmptyString) (split "/"%char cgroup_path)).

Definition path_is_transient_scope (cgroup_path : string) : bool :=
  match head (deepest_first cgroup_path) with
  | Some unit => ends_with ".scope" unit
  | None => false
  end.

Definition from_process (var : string -> option string) (raw : option (list Z)) : SystemdEnvironment :=
  let env := MkSystemdEnv (is_set var "INVOCATION_ID") (is_set var "NOTIFY_SOCKET")
               (is_set var "JOURNAL_STREAM") false in
  MkSystemdEnv (invocation_id env) (notify_socket env) (journal_stream env)
    (has_supervision_evidence env &&
     match read_own_cgroup_path raw with
     | Some path => path_is_transient_scope path
     | None => false
     end).

(** ** The decision *)

Inductive Detection := DService (e : SystemdEvidence) | DTransientScope | DNoEvidence.

Definition detect_systemd (env : SystemdEnvironment) : Detection :=
  let evidence :=
    if invocation_id env then Some InvocationId
    else if notify_socket env then Some NotifySocket
    else if journal_stream env then Some JournalStream
    else None in
  match evidence with
  | None => DNoEvidence
  | Some evidence => if in_transient_scope env then DTransientScope else DService evidence
  end.

Definition resolve_systemd (request : SystemdRequest) (env : SystemdEnvironment) : SystemdMode :=
  match request with
  | RequestEnabled => Forced
  | RequestDisabled => Disabled Requested
  | Auto =>
      match detect_systemd env with
      | DService evidence => Enabled evidence
      | DTransientScope => Disabled ScopeMember
      | DNoEvidence => Disabled NotDetected
      end
  end.

(** ** The unit name *)

Definition is_slice_or_scope (segment : string) : bool :=
  ends_with ".slice" segment || ends_with ".scope" segment.

Definition unit_name_from_cgroup_path (cgroup_path : string) : option string :=
  List.find (fun segment => negb (is_slice_or_scope segment)) (deepest_first cgroup_path).

(** [service.rs] reads the path after the last colon of the first line. *)
Definition first_line_path (content : option string) : option string :=
  match content with
  | None => None
  | Some content =>
      match lines content with
      | [] => None
      | first_line :: _ =>
          if String.eqb first_line EmptyString then None else
          match rfind_char ":"%char first_line with
          | None => None
          | Some idx =>
              let path := sdrop (idx + 1) first_line in
              if String.eqb path EmptyString then None else Some path
          end
      end
  end.

Definition get_unit_name_heuristic (content : option string) : string :=
  match first_line_path content with
  | None => "<empty>"
  | Some cgroup_path =>
      match unit_name_from_cgroup_path cgroup_path with Some unit => unit | None => "<empty>" end
  end.

(** ** Properties *)
Module SystemdProps.

(** The hierarchy that represents the process, said declaratively: the unified one if
    there is one, else the last one of the service manager, else the first. *)
Definition preferred (records : list (string * string)) : option string :=
  match List.find (fun r => String.eqb (fst r) EmptyString) records with
  | Some r => Some (snd r)
  | None =>
      match list.last (filter (fun r => is_manager (fst r) = true) records) with
      | Some r => Some (snd r)
      | None => snd <$> head records
      end
  end.

Lemma own_cgroup_loop_spec content manager any :
  own_cgroup_loop content manager any =
  match List.find (fun r => String.eqb (fst r) EmptyString) (omap cgroup_line content) with
  | Some r => Some (snd r)
  | None =>
      match list.last (filter (fun r => is_manager (fst r) = true) (omap cgroup_line content)) with
      | Some r => Some (snd r)
      | None =>
          match manager with
          | Some p => Some p
          | None =>
              match any with
              | Some p => Some p
              | None => snd <$> head (omap cgroup_line content)
              end
          end
      end
  end.
Proof.
  revert manager any. induction content as [|line content IH]; intros manager any.
  { cbn. by destruct manager, any. }
  cbn [own_cgroup_loop omap list_omap]. destruct (cgroup_line line) as [[c p]|]; [|apply IH].
  cbn [List.find fst snd]. destruct (String.eqb c EmptyString) eqn:Ec; [done|].
  rewrite filter_cons. cbn [fst]. destruct (is_manager c) eqn:Em.
  - rewrite decide_True by done. rewrite IH.
    destruct (List.find _ _); [done|].
    rewrite last_cons. by destruct (list.last _).
  - rewrite decide_False by congruence. rewrite IH.
    destruct (List.find _ _); [done|]. destruct (list.last _); [done|].
    destruct manager; [done|]. cbn. by destruct any.
Qed.

(** Reading [/proc/self/cgroup] finds the path of the preferred hierarchy, whatever
    order the kernel lists them in and whatever lines cannot be read. *)
Theorem own_cgroup_preferred (content : string) :
  own_cgroup_path content = preferred (omap cgroup_line (lines content)).
Proof. apply own_cgroup_loop_spec. Qed.

(** Integration is on exactly when it was asked for, or when nothing was asked, a
    service manager's variable is set and the process is not in a scope; an
    explicit request always wins. *)
Theorem systemd_enabled_iff (request : SystemdRequest) (var : string -> option string)
    (raw : option (list Z)) :
  is_enabled (resolve_systemd request (from_process var raw)) = true <->
  request = RequestEnabled \/
  request = Auto /\
  (is_set var "INVOCATION_ID" || is_set var "NOTIFY_SOCKET" || is_set var "JOURNAL_STREAM" = true) /\
  (forall p, read_own_cgroup_path raw = Some p -> path_is_transient_scope p = false).
Proof.
  unfold resolve_systemd, detect_systemd, from_process, has_supervision_evidence. cbn.
  set (s := match read_own_cgroup_path raw with Some p => _ | None => _ end).
  assert (Hs : s = false <-> forall p, read_own_cgroup_path raw = Some p -> path_is_transient_scope p = false).
  { subst s. destruct (read_own_cgroup_path raw) as [p|]; [|done]. split; [by intros ? q [= <-]|auto]. }
  rewrite <- Hs. destruct request; cbn; [|naive_solver|naive_solver].
  destruct (is_set var "INVOCATION_ID"), (is_set var "NOTIFY_SOCKET"), (is_set var "JOURNAL_STREAM"), s;
    cbn; naive_solver.
Qed.

(** The unit of a cgroup path is its deepest segment that is neither a slice nor a
    scope, and there is none exactly when every segment is one. *)
Theorem unit_name_deepest (cgroup_path : string) :
  match unit_name_from_cgroup_path cgroup_path with
  | Some unit =>
      is_slice_or_scope unit = false /\
      exists above below, deepest_first cgroup_path = below ++ unit :: above /\
        Forall (fun s => is_slice_or_scope s = true) below
  | None => Forall (fun s => is_slice_or_scope s = true) (deepest_first cgroup_path)
  end.
Proof.
  unfold unit_name_from_cgroup_path. induction (deepest_first cgroup_path) as [|s l IH]; cbn; [done|].
  destruct (is_slice_or_scope s) eqn:E; cbn.
  - destruct (List.find _ l) as [u|].
    + destruct IH as (Hu & above & below & -> & Hb). split; [done|].
      exists above, (s :: below). split; [done|]. by constructor.
    + by constructor.
  - split; [done|]. by exists l, [].
Qed.

Example demo_units :
  unit_name_from_cgroup_path
    "/user.slice/user-1000.slice/user@1000.service/app.slice/kitty-4280-0.scope" =
    Some "user@1000.service" /\
  own_cgroup_path (sapp "12:cpu,cpuacct:/a.scope" (String lf "1:name=systemd:/b.service")) =
    Some "/b.service".
Proof. by vm_compute. Qed.

End SystemdProps.
