(* ===== verification/ProcessInfo.v ===== *)
(** * Process information

    [crates/ananicy-platform/src/process_info.rs]: the report of one thread for
    the [dump] command, from its files in [/proc] and what the kernel says of its
    scheduling. *)

From stdpp Require Import base list strings numbers.
From Stdlib Require Import ZArith Lia Ascii.
From S2P Require Import Prelude RustStr Process Json LruCache Kernel Priority Procfs.

#[local] Open Scope Z_scope.

Record ProcessInfo := MkInfo {
  info_pid : Z;
  info_tpid : Z;
  info_exe : option string;
  info_comm : string;
  info_cmd : string;
  info_stat : string;
  info_stat_name : string;
  info_autogroup : option Value;
  info_sched : string;
  info_rtprio : Z;
  info_nice : Z;
  info_latency_nice : Z;
  info_ionice : Value;
  info_oom_score_adj : Z;
  info_cmdline : list string;
  info_rule : option string;
}.

(** What reading the files of the process answers, and the two system calls. *)
Record info_source := MkInfoSource {
  is_exe : option string;
  is_comm : option string;
  is_cmdline : option string;
  is_oom : option string;
  is_task_comm : option string;
  is_task_stat : option string;
  is_autogroup : option string;
  is_attr : option sched_attr;
  is_ioprio : option Z;
}.

Definition or_empty (s : option string) : string :=
  match s with Some s => s | None => EmptyString end.

(** ** The fields *)

(** The outer [None] is a panic: the slice of a line whose last closing parenthesis
    comes before its first opening one. *)
Definition parse_stat (stat : string) : option (option string) :=
  match find_char "("%char stat, rfind_char ")"%char stat with
  | Some start, Some end_ =>
      if (start + 1 <=? end_)%nat then Some (Some (slice (start + 1) end_ stat)) else None
  | _, _ => Some None
  end.

Definition get_autogroup_from_str (s : string) : option Value :=
  let s := trim s in
  if negb (starts_with "/autogroup-" s) then None
  else
    match split_whitespace s with
    | group_part :: key :: nice_str :: _ =>
        if String.eqb key "nice" then
          match parse_i32 (sdrop (slen "/autogroup-") group_part), parse_i32 nice_str with
          | Some group, Some nice => Some (VObject [("group", of_int group); ("nice", of_int nice)])
          | _, _ => None
          end
        else None
    | _ => None
    end.

Definition get_sched_policy_name (policy : Z) : string :=
  if policy =? SCHED_NORMAL then "normal"
  else if policy =? SCHED_FIFO then "fifo"
  else if policy =? SCHED_RR then "rr"
  else if policy =? SCHED_BATCH then "batch"
  else if policy =? SCHED_ISO then "iso"
  else if policy =? SCHED_IDLE then "idle"
  else if policy =? SCHED_DEADLINE then "deadline"
  else "unknown".

Definition get_io_class_name (class : Z) : string :=
  if class =? IOPRIO_CLASS_NONE then "none"
  else if class =? IOPRIO_CLASS_RT then "realtime"
  else if class =? IOPRIO_CLASS_BE then "best-effort"
  else if class =? IOPRIO_CLASS_IDLE then "idle"
  else "unknown".

Definition ionice_value (io_prio_data : Z) : Value :=
  let io_class := Z.shiftr io_prio_data IOPRIO_CLASS_SHIFT in
  let io_nice := Z.land io_prio_data IOPRIO_PRIO_MASK in
  VArray [VString (get_io_class_name io_class);
          if io_class =? IOPRIO_CLASS_BE then of_int io_nice else VNull].

(** The arguments, as the command line separates them. *)
Definition cmdline_args (raw : string) : list string :=
  filter (fun arg => arg <> EmptyString) (map trim (split "000"%char raw)).

(** ** The report *)

Definition from_parts (pid tpid : Z) (exe : option string) (cmd : string) (cmdline : list string)
    (oom_score_adj : Z) (rule : option string) (src : info_source) : option ProcessInfo :=
  let comm := trim (or_empty (is_task_comm src)) in
  let stat := trim (or_empty (is_task_stat src)) in
  match parse_stat stat with
  | None => None
  | Some stat_name =>
      let autogroup := get_autogroup_from_str (or_empty (is_autogroup src)) in
      let '(sched, rtprio, nice, latency_nice) :=
        match is_attr src with
        | Some attr => (get_sched_policy_name (sched_policy attr), wrap_s 32 (sched_priority attr),
                        sched_nice attr, sched_latency_nice attr)
        | None => ("unknown", 0, 0, 0)
        end in
      let ionice := ionice_value (match is_ioprio src with Some v => v | None => 0 end) in
      Some (MkInfo pid tpid exe comm cmd stat (or_empty stat_name) autogroup sched rtprio nice
              latency_nice ionice oom_score_adj cmdline rule)
  end.

Definition ProcessInfo_new (pid tpid : Z) (rule : option string) (src : info_source)
    : option ProcessInfo :=
  from_parts pid tpid (is_exe src) (trim (or_empty (is_comm src)))
    (cmdline_args (or_empty (is_cmdline src)))
    (match parse_i32 (trim (or_empty (is_oom src))) with Some v => v | None => 0 end) rule src.

(** ** Properties *)
Module ProcessInfoProps.

(** The command of a thread is read from its stat line whatever it is called,
    parentheses and spaces included. *)
Theorem stat_name_roundtrip (pid : Z) (comm : string) (fields : list string) :
  0 <= pid -> fields <> [] -> forallb word fields = true -> forallb (lacks ")") fields = true ->
  parse_stat (trim (stat_line pid comm fields)) = Some (Some comm).
Proof.
  intros Hp Hf Hw Hl. unfold stat_line. set (front := sapp (fmt_int pid) " ").
  assert (Hline : sapp (sapp (fmt_int pid) (sapp " (" comm)) (String ")" (sapp (spaced fields) newline)) =
    sapp (sapp (sapp front (String "(" comm)) (String ")" (spaced fields))) newline).
  { unfold front. rewrite <- !sapp_assoc. done. }
  rewrite Hline. clear Hline.
  assert (Hint : fmt_int pid = fmt_uint pid)
    by (unfold fmt_int; destruct (pid <? 0) eqn:E; [zb; lia|done]).
  assert (Hd : sforall is_digit (fmt_int pid) = true) by (rewrite Hint; by apply fmt_uint_digits).
  assert (Hne : fmt_int pid <> EmptyString)
    by (rewrite Hint; apply String.eqb_neq, fmt_uint_nonempty).
  rewrite trim_newline.
  2: { unfold trimmed. apply andb_true_iff. split.
       - apply begins_sapp, begins_sapp, begins_sapp. split; [done|].
         eapply sforall_starts; [done|apply is_digit_graphic].
       - rewrite srev_sapp, srev_cons. apply begins_sapp, begins_sapp. by apply spaced_ends. }
  unfold parse_stat.
  assert (Hfront : lacks "(" front = true).
  { unfold front. rewrite lacks_sapp, Hint, fmt_uint_lacks by done. done. }
  rewrite rfind_sapp by (by apply lacks_spaced).
  assert (Hopen : find_char "(" (sapp (sapp front (String "(" comm)) (String ")" (spaced fields))) =
                  Some (slen front)).
  { rewrite <- sapp_assoc. cbn [sapp]. by apply find_char_sapp. }
  rewrite Hopen, slen_sapp. cbn [slen String.length].
  change (String.length comm) with (slen comm). change (String.length front) with (slen front).
  rewrite (proj2 (Nat.leb_le _ _)) by lia. do 2 f_equal. unfold slice.
  replace (slen front + S (slen comm) - (slen front + 1))%nat with (slen comm) by lia.
  replace (sapp (sapp front (String "(" comm)) (String ")" (spaced fields)))
    with (sapp (sapp front "(") (sapp comm (String ")" (spaced fields))))
    by (by rewrite <- !sapp_assoc).
  replace (slen front + 1)%nat with (slen (sapp front "(")) by (by rewrite slen_sapp).
  by rewrite sdrop_sapp, stake_sapp.
Qed.

Lemma stat_name_roundtrip_witness :
  parse_stat (trim (stat_line 42 "a) (b" ["S"; "1"])) = Some (Some "a) (b").
Proof. apply (stat_name_roundtrip 42 "a) (b" ["S"; "1"]); [lia|done|reflexivity|reflexivity]. Defined.

(** C33. How far a setting can be read back from the report: the word [set_io_priority]
    writes for a class and a level of at most 13 bits is reported under the name of
    that class; its level is reported for [best-effort] and comes out as null for the
    other classes, [realtime] among them although a level was written for it; the
    policy [set_sched] asks for under a name is reported under the same name, apart
    from [other] and [deadline], for which the normal policy is asked and reported. *)
Theorem settings_read_back (env : kernel_env) (pid value rt_prio : Z) (class_name sched_name : string)
    (policy prio : Z) (warning : option string) :
  0 <= value <= IOPRIO_PRIO_MASK ->
  sched_of sched_name rt_prio = Some (policy, prio, warning) ->
  get_sched_policy_name policy =
    (if String.eqb sched_name "other" || String.eqb sched_name "deadline" then "normal"
     else sched_name) /\
  forall word r, set_io_priority (Hk := tracing_kernel env) pid class_name value [] =
                 ([SysIoprioSet IOPRIO_WHO_PROCESS pid word], r) ->
    ionice_value word =
    VArray [VString class_name;
            if String.eqb class_name "best-effort" then of_int value else VNull].
Proof.
  intros Hv Hs. split.
  - unfold sched_of in Hs. repeat case_match; simplify_eq;
      repeat match goal with
      | H : String.eqb _ _ = true |- _ => apply String.eqb_eq in H; subst
      | H : _ || _ = true |- _ => apply orb_true_iff in H as [H|H]
      end; done.
  - intros word r Hw. pose proof (PriorityProps.io_priority_word env pid value class_name [] Hv) as H.
    rewrite Hw in H. unfold io_class_value in H. revert H.
    destruct (String.eqb class_name "best-effort") eqn:E1;
      [|destruct (String.eqb class_name "realtime") eqn:E2;
        [|destruct (String.eqb class_name "idle") eqn:E3;
          [|destruct (String.eqb class_name "none") eqn:E4]]].
    all: try (intros [? _]; done).
    all: repeat match goal with H : String.eqb _ _ = true |- _ => apply String.eqb_eq in H; subst end.
    all: intros (word' & [= <-] & Hc & Hd); unfold ionice_value; by rewrite Hc, Hd.
Qed.

Lemma settings_read_back_witness :
  get_sched_policy_name SCHED_BATCH = "batch" /\
  ionice_value (ioprio_prio_value IOPRIO_CLASS_BE 7) =
    VArray [VString "best-effort"; VNumber (PosInt 7)].
Proof.
  destruct (settings_read_back PriorityProps.demo_kernel 42 7 0 "best-effort" "batch" SCHED_BATCH 0 None)
    as [Hs Hio]; [vm_compute; split; congruence|reflexivity|].
  split; [exact Hs|]. eapply Hio. reflexivity.
Defined.

End ProcessInfoProps.
