(* ===== verification/Memstats.v ===== *)
(** * Memory statistics and the disk check

    [crates/ananicy-platform/src/memstats.rs] and [src/memstats.rs]: the snapshot of
    the daemon's own footprint, read file by file, its one-line summary, what it
    says of itself and the report of every minute; [src/disks.rs]: the block devices
    whose scheduler ignores the I/O priority.

    Figures are binary64, so they are computed with the Standard Library's
    executable floats.  Integers are those of the release build, which wraps. *)

From stdpp Require Import base list strings numbers.
From Stdlib Require Import ZArith Lia Ascii SpecFloat.
From S2P Require Import Prelude RustStr Paths Process Config Kernel Procfs Files Binary64.

#[local] Open Scope Z_scope.

(** ** Figures *)

Definition round_half_even (num den : Z) : Z :=
  let q := num / den in
  let r := 2 * (num mod den) in
  if r <? den then q else if den <? r then q + 1 else if Z.even q then q else q + 1.

Fixpoint zeros (n : nat) : string :=
  match n with O => EmptyString | S n => String "0" (zeros n) end.

(** A number of [p] decimals, from its value in units of the last one. *)
Definition fmt_decimals (p : nat) (n : Z) : string :=
  let unit := 10 ^ Z.of_nat p in
  let fraction := fmt_uint (n mod unit) in
  match p with
  | O => fmt_uint n
  | S _ => sapp (fmt_uint (n / unit)) (String "." (sapp (zeros (p - slen fraction)) fraction))
  end.

(** [{:.p}] of a float: the exact value, to the nearest, ties to even. *)
Definition fmt_f64 (p : nat) (x : spec_float) : string :=
  let signed (s : bool) text := if s then String "-" text else text in
  match x with
  | S754_zero s => signed s (fmt_decimals p 0)
  | S754_infinity s => signed s "inf"
  | S754_nan => "NaN"
  | S754_finite s m e =>
      let scaled := Zpos m * 10 ^ Z.of_nat p in
      signed s (fmt_decimals p (if 0 <=? e then scaled * 2 ^ e else round_half_even scaled (2 ^ (- e))))
  end.

(** [{:.p}] of text: at most [p] characters of it; the texts here are ASCII. *)
Definition fmt_str (p : nat) (s : string) : string := stake p s.

Definition kib (value : option Z) : string :=
  match value with
  | Some kb => sapp (fmt_f64 1 (f64_div (f64_of kb) (f64_of 1024))) "M"
  | None => "n/a"
  end.

Definition mib (value : option Z) : string :=
  match value with
  | Some bytes =>
      sapp (fmt_f64 1 (f64_div (f64_of bytes) (f64_mul (f64_of 1024) (f64_of 1024)))) "M"
  | None => "n/a"
  end.

Definition count (value : option Z) : string :=
  match value with Some value => fmt_uint value | None => "n/a" end.

(** ** Fields *)

Fixpoint find_map {A B} (f : A -> option B) (l : list A) : option B :=
  match l with
  | [] => None
  | x :: l => match f x with Some b => Some b | None => find_map f l end
  end.

Definition status_kb (status field : string) : option Z :=
  find_map (fun line =>
    rest ← strip_prefix field line;
    rest ← strip_prefix ":" rest;
    first ← head (split_whitespace rest);
    parse_u64 first) (lines status).

Definition stat_field (contents key : string) : option Z :=
  find_map (fun line =>
    '(name, value) ← split_once space line;
    if String.eqb name key then parse_u64 value else None) (lines contents).

Definition event_field (contents key : string) : option Z :=
  find_map (fun line =>
    '(name, value) ← split_once space line;
    if String.eqb name key then parse_u64 (trim value) else None) (lines contents).

(** The counter on the line of one device. *)
Definition device_counter (key line : string) : Z :=
  match find_map (fun token =>
          '(name, value) ← split_once "=" token;
          if String.eqb name key then parse_u64 value else None) (split_whitespace line) with
  | Some value => value
  | None => 0
  end.

Definition io_sum (contents key : string) : option Z :=
  let total := fold_left (fun total line => wrap_u 64 (total + device_counter key line))
                 (lines contents) 0 in
  if 0 <? total then Some total else None.

(** ** The snapshot *)

Record Snapshot := MkSnapshot {
  vm_data : option Z;
  vm_rss : option Z;
  vm_swap : option Z;
  vm_exe : option Z;
  vm_lib : option Z;
  mem_current : option Z;
  mem_high : option Z;
  mem_max : option Z;
  anon : option Z;
  mem_file : option Z;
  mem_kernel : option Z;
  slab : option Z;
  pgmajfault : option Z;
  pgfault : option Z;
  refault_file : option Z;
  refault_anon : option Z;
  pswpin : option Z;
  pswpout : option Z;
  high_events : option Z;
  max_events : option Z;
  read_bytes : option Z;
  written_bytes : option Z;
  snap_cgroup : option path;
}.

Definition empty_snapshot : Snapshot :=
  MkSnapshot None None None None None None None None None None None None None None None None
    None None None None None None None.

(** [trim_start_matches('/')] *)
Fixpoint trim_slashes (s : string) : string :=
  match s with
  | String a s' => if Ascii.eqb a slash then trim_slashes s' else s
  | EmptyString => EmptyString
  end.

Section Read.
Context {W : Type} {Hf : Files W}.

(** [read_to_string(..).ok()] *)
Definition read_ok (p : path) : io W (option string) :=
  r ← f_read p; mret (match r with inl text => Some text | inr _ => None end).

Definition read_status_field (field : string) : io W (option Z) :=
  status ← read_ok "/proc/self/status";
  mret (status ≫= fun status => status_kb status field).

Definition mem_own_cgroup_path : io W (option path) :=
  cgroup ← read_ok "/proc/self/cgroup";
  mret (cgroup ≫= fun cgroup =>
        find_map (strip_prefix "0::") (lines cgroup) ≫= fun path =>
        let path := trim path in
        if String.eqb path EmptyString then None
        else Some (push "/sys/fs/cgroup" (trim_slashes path))).

(** A file of the cgroup, if there is a cgroup and the file can be read. *)
Definition read_in (cgroup : option path) (file : string) : io W (option string) :=
  match cgroup with Some dir => read_ok (push dir file) | None => mret None end.

Definition read_value (cgroup : option path) (file : string) : io W (option Z) :=
  text ← read_in cgroup file; mret (text ≫= fun text => parse_u64 (trim text)).

Definition read_stat_field (cgroup : option path) (key : string) : io W (option Z) :=
  text ← read_in cgroup "memory.stat"; mret (text ≫= fun text => stat_field text key).

Definition Snapshot_read : io W Snapshot :=
  cgroup ← mem_own_cgroup_path;
  io_stat ← read_in cgroup "io.stat";
  events ← read_in cgroup "memory.events";
  let io_stat := match io_stat with Some t => t | None => EmptyString end in
  let events := match events with Some t => t | None => EmptyString end in
  vm_data ← read_status_field "VmData";
  vm_rss ← read_status_field "VmRSS";
  vm_swap ← read_status_field "VmSwap";
  vm_exe ← read_status_field "VmExe";
  vm_lib ← read_status_field "VmLib";
  current ← read_value cgroup "memory.current";
  high ← read_value cgroup "memory.high";
  max ← read_value cgroup "memory.max";
  anon ← read_stat_field cgroup "anon";
  file ← read_stat_field cgroup "file";
  kernel ← read_stat_field cgroup "kernel";
  slab ← read_stat_field cgroup "slab";
  pgmajfault ← read_stat_field cgroup "pgmajfault";
  pgfault ← read_stat_field cgroup "pgfault";
  refault_file ← read_stat_field cgroup "workingset_refault_file";
  refault_anon ← read_stat_field cgroup "workingset_refault_anon";
  pswpin ← read_stat_field cgroup "pswpin";
  pswpout ← read_stat_field cgroup "pswpout";
  mret (MkSnapshot vm_data vm_rss vm_swap vm_exe vm_lib current high max anon file kernel slab
          pgmajfault pgfault refault_file refault_anon pswpin pswpout
          (event_field events "high") (event_field events "max")
          (io_sum io_stat "rbytes") (io_sum io_stat "wbytes") cgroup).
End Read.

(** ** What the numbers say *)

Definition concat_all (l : list string) : string := fold_right sapp EmptyString l.

Definition summary (s : Snapshot) : string :=
  concat_all
    ["heap="; kib (vm_data s); " rss="; kib (vm_rss s); " swap="; kib (vm_swap s);
     " text="; kib (vm_exe s); " libs="; kib (vm_lib s);
     " | cgroup="; mib (mem_current s); " high="; mib (mem_high s); " max="; mib (mem_max s);
     " anon="; mib (anon s); " file="; mib (mem_file s); " kernel="; mib (mem_kernel s);
     " slab="; mib (slab s);
     " | faults="; count (pgfault s); "/"; count (pgmajfault s);
     " refault=file:"; count (refault_file s); "/anon:"; count (refault_anon s);
     " swapio=out:"; count (pswpout s); "/in:"; count (pswpin s);
     " | throttled="; count (high_events s); " capped="; count (max_events s);
     " | io=read:"; mib (read_bytes s); "/written:"; mib (written_bytes s)].

(** Each condition worth a line, with the line. *)
Definition usage_finding (s : Snapshot) : option string :=
  match mem_current s, mem_high s with
  | Some current, Some high =>
      if (0 <? high) && (high <? current) then
        Some (concat_all
          ["cgroup usage "; fmt_str 1 (mib (Some current)); "M is above memory.high ";
           fmt_str 1 (mib (Some high));
           "M, so the kernel is reclaiming this daemon's own pages and will keep doing so while it stays there -- memory.high is a throttle point, not a limit, and the only memory this cgroup can reclaim is the daemon itself. Either the daemon is using more than the limit was set for (a rule set larger than about 57,000 rules does it) or something is leaking; raise memory.high, or memory.max if that would run into a hard cap."])
      else None
  | _, _ => None
  end.

Definition fault_finding (s : Snapshot) : option string :=
  match pgfault s, pgmajfault s with
  | Some total, Some major =>
      if (0 <? total) && (total <? wrap_u 64 (major * 10)) then
        Some (concat_all
          [fmt_uint major; " of "; fmt_uint total; " page faults went to disk (";
           fmt_f64 0 (f64_div (f64_mul (f64_of major) (f64_of 100)) (f64_of total));
           "%), so the daemon is re-reading its own mapped files rather than keeping them"])
      else None
  | _, _ => None
  end.

Definition swap_finding (s : Snapshot) : option string :=
  match vm_swap s, vm_data s with
  | Some swapped, Some heap =>
      if (1024 <? swapped) && (0 <? heap) then
        Some (concat_all
          [fmt_str 1 (kib (Some swapped)); "M of a "; fmt_str 1 (kib (Some heap));
           "M heap is in swap; a daemon that tunes processes should not be swapped out from under itself"])
      else None
  | _, _ => None
  end.

Definition throttle_finding (s : Snapshot) : option string :=
  match high_events s with
  | Some throttled =>
      if 0 <? throttled then
        Some (concat_all
          ["memory.events reports "; fmt_uint throttled; " reclaim events and ";
           fmt_uint (match max_events s with Some n => n | None => 0 end); " at the hard cap"])
      else None
  | None => None
  end.

Definition findings (s : Snapshot) : list string :=
  omap (fun finding => finding s) [usage_finding; fault_finding; swap_finding; throttle_finding].

(** ** The reports *)

(** The report after a stage of the start: the summary for the debug log, the findings
    as warnings. *)
Definition report {W} {Hf : Files W} (stage : string) : io W (Snapshot * string * list string) :=
  snapshot ← Snapshot_read;
  let say text := concat_all ["Memory after "; stage; ": "; text] in
  mret (snapshot, say (summary snapshot), map say (findings snapshot)).

Definition delta (current previous : option Z) : Z :=
  match current, previous with
  | Some current, Some previous => wrap_s 64 (wrap_s 64 current - wrap_s 64 previous)
  | _, _ => 0
  end.

(** The movements of one report, in the order it names them. *)
Definition movements (current previous : Snapshot) : list Z :=
  [delta (pgfault current) (pgfault previous);
   delta (pgmajfault current) (pgmajfault previous);
   wrap_s 64 (delta (refault_file current) (refault_file previous) +
              delta (refault_anon current) (refault_anon previous));
   delta (pswpout current) (pswpout previous);
   delta (pswpin current) (pswpin previous);
   delta (read_bytes current) (read_bytes previous);
   delta (written_bytes current) (written_bytes previous)].

(** A round of the reporter: the flag at the head of the loop and after the sleep, and
    the snapshot it takes when neither is up. *)
Record minute := MkMinute { down_before : bool; down_after : bool; taken : Snapshot }.

Record report_line := MkReport { totals : string; moved : list Z; remarks : list string }.

Definition REPORT_INTERVAL : Z := 60.

Fixpoint periodic_loop (previous : Snapshot) (minutes : list minute) : list report_line :=
  match minutes with
  | [] => []
  | m :: minutes =>
      if down_before m || down_after m then []
      else MkReport (summary (taken m)) (movements (taken m) previous) (findings (taken m))
             :: periodic_loop (taken m) minutes
  end.

(** ** The disks *)

Definition SUPPORTED : list string := ["mq-deadline"; "bfq"; "bfq-mq"; "cfq"].
Definition IGNORED : list string := ["loop"; "ram"; "sr"].

Definition active_scheduler (listing : string) : option string :=
  '(_, rest) ← split_once "[" listing;
  '(active, _) ← split_once "]" rest;
  Some active.

(** What is said of one device, with the scheduler it is on. *)
Definition disk_report (listing : string) : option string :=
  let active := trim (match active_scheduler listing with Some a => a | None => EmptyString end) in
  if existsb (String.eqb active) SUPPORTED then None else Some active.

Section Disks.
Context {W : Type} {Hf : Files W}.

Fixpoint check_devices (block_class : path) (devices : list string) : io W (list (string * string)) :=
  match devices with
  | [] => mret []
  | name :: devices =>
      if existsb (fun skip => starts_with skip name) IGNORED then check_devices block_class devices
      else
        listing ← f_read (push (push block_class name) "queue/scheduler");
        match listing with
        | inr _ => check_devices block_class devices
        | inl listing =>
            match disk_report listing with
            | None => check_devices block_class devices
            | Some active =>
                reported ← check_devices block_class devices; mret ((name, active) :: reported)
            end
        end
  end.

(** The devices reported with the scheduler each is on, in the order of the
    directory; the source returns how many. *)
Definition check_disk_schedulers (block_class : path) : io W (list (string * string)) :=
  devices ← f_read_dir block_class;
  match devices with None => mret [] | Some devices => check_devices block_class devices end.

Definition check_disk_schedulers_if_enabled (enabled : bool) : io W (list (string * string)) :=
  if negb enabled then mret [] else check_disk_schedulers "/sys/class/block".
End Disks.

(** ** Properties *)
Module MemstatsProps.

(** *** Reading the fields *)

Lemma find_map_none {A B} (f : A -> option B) l : Forall (fun x => f x = None) l -> find_map f l = None.
Proof. induction 1 as [|x l Hx _ IH]; cbn; [done|]. by rewrite Hx. Qed.

Lemma find_map_map {A B C} (f : B -> option C) (g : A -> B) l :
  find_map f (map g l) = find_map (fun x => f (g x)) l.
Proof. induction l as [|x l IH]; cbn; [done|]. by rewrite IH. Qed.

Lemma find_map_ext {A B} (f g : A -> option B) l :
  Forall (fun x => f x = g x) l -> find_map f l = find_map g l.
Proof. induction 1 as [|x l Hx _ IH]; cbn; [done|]. by rewrite Hx, IH. Qed.

(** The counters of a table: those of the first entry under the key. *)
Definition table := list (string * Z).
Definition counter (t : table) (key : string) : option Z :=
  find_map (fun e => if String.eqb (fst e) key then Some (snd e) else None) t.

Definition entry_ok (sep : ascii) (e : string * Z) : Prop :=
  word (fst e) = true /\ lacks sep (fst e) = true /\ in_u 64 (snd e).

(** [key<sep>value], as the kernel writes it. *)
Definition entry (sep : ascii) (e : string * Z) : string := sapp (fst e) (String sep (fmt_uint (snd e))).

Lemma split_entry sep e : entry_ok sep e -> split_once sep (entry sep e) = Some (fst e, fmt_uint (snd e)).
Proof. intros (_ & H & _). by apply split_once_sapp. Qed.

(** Text that ends in a printed number is a line. *)
Lemma line_ends_uint front z :
  lacks lf front = true -> 0 <= z ->
  lacks lf (sapp front (fmt_uint z)) && starts_graphic (srev (sapp front (fmt_uint z))) = true.
Proof.
  intros Hf Hz. rewrite lacks_sapp, Hf, fmt_uint_lacks by done.
  rewrite srev_sapp. pose proof (fmt_uint_trimmed z Hz) as Ht.
  apply andb_true_iff in Ht as [_ Ht]. pose proof (fmt_uint_nonempty z) as Hn.
  apply String.eqb_neq, srev_nonempty, String.eqb_neq in Hn. by destruct (srev (fmt_uint z)).
Qed.

Lemma entry_front sep e : entry sep e = sapp (sapp (fst e) (String sep EmptyString)) (fmt_uint (snd e)).
Proof. unfold entry. by rewrite <- sapp_assoc. Qed.

Lemma entry_line e : entry_ok space e ->
  lacks lf (entry space e) && starts_graphic (srev (entry space e)) = true.
Proof.
  intros (Hw & _ & [Hz _]). rewrite entry_front. apply line_ends_uint; [|done].
  by rewrite lacks_sapp, (word_lacks lf).
Qed.

Lemma lines_entries t : Forall (entry_ok space) t -> lines (unlines (map (entry space) t)) = map (entry space) t.
Proof.
  intros H. apply lines_unlines. induction H as [|e t He _ IH]; [done|]. cbn [map forallb].
  by rewrite entry_line.
Qed.

(** One reading of an entry, whichever way its value is cleaned up. *)
Lemma entry_reads sep (clean : string -> string) t key :
  (forall z, 0 <= z -> clean (fmt_uint z) = fmt_uint z) -> Forall (entry_ok sep) t ->
  find_map (fun line =>
    '(name, value) ← split_once sep line;
    if String.eqb name key then parse_u64 (clean value) else None) (map (entry sep) t) = counter t key.
Proof.
  intros Hc Ht. rewrite find_map_map. apply find_map_ext.
  eapply list.Forall_impl; [exact Ht|]. intros e He. rewrite split_entry by done.
  cbn [mbind option_bind].
  destruct He as (_ & _ & Hz). destruct (String.eqb (fst e) key); [|done].
  rewrite Hc by apply Hz. apply parse_fmt_uint; [lia|done].
Qed.

(** The value of a key in [memory.stat] and in [memory.events] is the one the kernel
    wrote there, and there is none exactly when the key is not there. *)
Theorem counters_read (t : table) (key : string) :
  Forall (entry_ok space) t ->
  stat_field (unlines (map (entry space) t)) key = counter t key /\
  event_field (unlines (map (entry space) t)) key = counter t key.
Proof.
  intros Ht. unfold stat_field, event_field. rewrite lines_entries by done. split.
  - by apply (entry_reads space (fun v => v)).
  - apply entry_reads; [|done]. intros z Hz. by apply trim_id, fmt_uint_trimmed.
Qed.

(** *** The traffic of the devices *)

Definition device := (string * table)%type.
Definition device_ok (d : device) : Prop :=
  word (fst d) = true /\ lacks "=" (fst d) = true /\ snd d <> [] /\ Forall (entry_ok "=") (snd d).
Definition device_line (d : device) : string := sapp (fst d) (spaced (map (entry "=") (snd d))).
Definition traffic (key : string) (d : device) : Z :=
  match counter (snd d) key with Some v => v | None => 0 end.

Lemma entry_word e : entry_ok "=" e -> word (entry "=" e) = true.
Proof.
  intros (Hw & _ & [Hz _]). pose proof (fmt_uint_word _ Hz) as [Hv _]%andb_true_iff.
  apply andb_true_iff in Hw as [Hw Hn]. unfold word, entry. rewrite sforall_sapp, Hw.
  apply andb_true_iff. split; [exact Hv|]. by destruct (fst e).
Qed.

Lemma entries_words t : Forall (entry_ok "=") t -> forallb word (map (entry "=") t) = true.
Proof. induction 1 as [|e t He _ IH]; [done|]. cbn. by rewrite entry_word. Qed.

Lemma device_counter_reads d key : device_ok d -> device_counter key (device_line d) = traffic key d.
Proof.
  intros (Hw & Hl & _ & Ht). unfold device_counter, device_line.
  rewrite split_whitespace_words by (done || by apply entries_words).
  cbn [find_map]. rewrite split_once_lacks by done. cbn.
  by rewrite (entry_reads "=" (fun v => v)).
Qed.

Lemma device_line_line d : device_ok d ->
  lacks lf (device_line d) && starts_graphic (srev (device_line d)) = true.
Proof.
  intros (Hw & _ & Hne & Ht). pose proof (entries_words _ Ht) as Hws. unfold device_line.
  apply andb_true_iff. split.
  - rewrite lacks_sapp, (word_lacks lf) by done. apply lacks_spaced; [done|].
    clear Hne Ht. induction (map _ _) as [|w ws IH]; [done|]. cbn [forallb] in *.
    apply andb_true_iff in Hws as [H1 H2]. rewrite (word_lacks lf) by done. by apply IH.
  - rewrite srev_sapp. apply begins_sapp, spaced_ends; [|done]. by destruct (snd d).
Qed.

Definition sum_of (l : list Z) : Z := fold_right Z.add 0 l.

Lemma sum_wraps {A} (f : A -> Z) l start :
  fold_left (fun total x => wrap_u 64 (total + f x)) l (wrap_u 64 start) =
  wrap_u 64 (start + sum_of (map f l)).
Proof.
  revert start. induction l as [|x l IH]; intros start; cbn; [by rewrite Z.add_0_r|].
  assert (E : wrap_u 64 (wrap_u 64 start + f x) = wrap_u 64 (start + f x))
    by apply Zplus_mod_idemp_l.
  rewrite E, IH. by rewrite Z.add_assoc.
Qed.

(** The traffic of a cgroup is the sum over its devices, modulo the width of the
    counter, and is reported as absent when it is zero. *)
Theorem io_sum_total (ds : list device) (key : string) :
  Forall device_ok ds ->
  io_sum (unlines (map device_line ds)) key =
  let total := wrap_u 64 (sum_of (map (traffic key) ds)) in
  if 0 <? total then Some total else None.
Proof.
  intros H. unfold io_sum. rewrite lines_unlines.
  - assert (Hm : map (fun d => device_counter key (device_line d)) ds = map (traffic key) ds).
    { induction H as [|d ds Hd _ IH]; [done|]. cbn [map]. by rewrite device_counter_reads, IH. }
    pose proof (sum_wraps (device_counter key) (map device_line ds) 0) as E.
    change (wrap_u 64 0) with 0 in E. rewrite E, Z.add_0_l, List.map_map.
    by rewrite Hm.
  - induction H as [|d ds Hd _ IH]; [done|]. cbn [map forallb]. by rewrite device_line_line.
Qed.

(** No [io.stat] gives [Some 0]: a cgroup without traffic reads like one without the
    file. *)
Lemma io_sum_never_zero contents key : io_sum contents key <> Some 0.
Proof. unfold io_sum. case_match; [|done]. zb. intros [= E]. lia. Qed.

(** *** Findings *)

(** A finding on two readings is absent exactly when its guard is off at them. *)
Definition guard_off (a b : option Z) (cond : Z -> Z -> bool) : Prop :=
  forall x y, a = Some x -> b = Some y -> cond x y = false.

Lemma guarded_none {A} (a b : option Z) (cond : Z -> Z -> bool) (text : Z -> Z -> A) :
  match a, b with
  | Some x, Some y => if cond x y then Some (text x y) else None
  | _, _ => None
  end = None <-> guard_off a b cond.
Proof.
  unfold guard_off. destruct a as [x|], b as [y|]; try (split; [naive_solver|done]).
  destruct (cond x y) eqn:E; split; try done.
  - intros H. by rewrite (H x y) in E.
  - by intros _ ? ? [= <-] [= <-].
Qed.

Lemma and_iff_compat_both (A B C D : Prop) : (A <-> C) -> (B <-> D) -> (A /\ B <-> C /\ D).
Proof. tauto. Qed.

(** The daemon says nothing of its memory exactly when no reading is alarming: usage
    within [memory.high], at most a tenth of the faults major, at most a mebibyte
    swapped, and no reclaim event; a reading that is absent is never alarming. *)
Theorem findings_silent_iff (s : Snapshot) :
  (forall m, pgmajfault s = Some m -> 0 <= m /\ m * 10 < 2 ^ 64) ->
  findings s = [] <->
  (forall c h, mem_current s = Some c -> mem_high s = Some h -> 0 < h -> c <= h) /\
  (forall t m, pgfault s = Some t -> pgmajfault s = Some m -> 0 < t -> m * 10 <= t) /\
  (forall k d, vm_swap s = Some k -> vm_data s = Some d -> 0 < d -> k <= 1024) /\
  (forall n, high_events s = Some n -> n <= 0).
Proof.
  intros Hm.
  assert (E : findings s = [] <-> usage_finding s = None /\ fault_finding s = None /\
                                 swap_finding s = None /\ throttle_finding s = None).
  { unfold findings. cbn.
    destruct (usage_finding s), (fault_finding s), (swap_finding s), (throttle_finding s); naive_solver. }
  rewrite E. unfold usage_finding, fault_finding, swap_finding, throttle_finding.
  rewrite !guarded_none. clear E. repeat apply and_iff_compat_both; unfold guard_off.
  - split; intros H x y Hx Hy; specialize (H x y Hx Hy); lia.
  - split; intros H t m Ht Em; destruct (Hm m Em); specialize (H t m Ht Em);
      rewrite wrap_u_small in * by (unfold in_u; lia); lia.
  - split; intros H x y Hx Hy; specialize (H x y Hx Hy); lia.
  - destruct (high_events s) as [n|]; [|split; [naive_solver|done]].
    destruct (0 <? n) eqn:B; zb; split; try done; [|naive_solver lia].
    intros H. specialize (H n eq_refl). lia.
Qed.

Lemma findings_silent_iff_witness :
  findings (MkSnapshot (Some 24424) (Some 24424) None None None (Some 30000000) (Some 134217728)
    None None None None None (Some 12) (Some 96048) None None None None (Some 0) None None None None) = [].
Proof.
  apply findings_silent_iff; cbn.
  - intros m [= <-]. lia.
  - repeat split; intros; simplify_eq; lia.
Defined.

(** The figures of two findings are lost: the precision that was meant for the number
    cuts the text [mib] and [kib] already made of it to one character, so 17.8M over
    a limit of 16.0M and 190.7M over it read alike, as 1M over 1M. *)
Lemma figures_truncated :
  let over usage :=
    usage_finding (MkSnapshot None None None None None (Some usage) (Some 16777216)
      None None None None None None None None None None None None None None None None) in
  mib (Some 18612224) = "17.8M" /\ mib (Some 200000000) = "190.7M" /\
  over 18612224 = over 200000000 /\
  (sapp "cgroup usage 1M is above memory.high 1M, " <$> Some EmptyString) =
    (stake 41 <$> over 18612224).
Proof. vm_compute. done. Qed.

(** *** Movements *)

Lemma delta_exact c p : in_s 64 (c - p) -> delta (Some c) (Some p) = c - p.
Proof.
  intros H. unfold delta. rewrite <- (wrap_s_small 64 (c - p)) by (done || lia).
  unfold wrap_s in *.
  replace ((c + 2 ^ (64 - 1)) mod 2 ^ 64 - 2 ^ (64 - 1) - ((p + 2 ^ (64 - 1)) mod 2 ^ 64 - 2 ^ (64 - 1)) + 2 ^ (64 - 1))
    with (((c + 2 ^ (64 - 1)) mod 2 ^ 64 - (p + 2 ^ (64 - 1)) mod 2 ^ 64) + 2 ^ (64 - 1)) by lia.
  rewrite <- Zplus_mod_idemp_l, <- Zminus_mod, Zplus_mod_idemp_l. do 2 f_equal. lia.
Qed.

Lemma last_default (v d : Z) vs : List.last (v :: vs) d = List.last vs v.
Proof.
  revert v d. induction vs as [|a vs IH]; intros v d; [done|].
  change (List.last (v :: a :: vs) d) with (List.last (a :: vs) d). by rewrite !IH.
Qed.

(** Minutes in which the reporter reports, with their readings of a counter. *)
Definition reporting (field : Snapshot -> option Z) (m : minute) (v : Z) : Prop :=
  down_before m = false /\ down_after m = false /\ field (taken m) = Some v /\ 0 <= v < 2 ^ 63.

(** What the reports say a counter moved adds up to the movement from the first
    snapshot to the last: none is lost or counted twice between two reports. *)
Theorem movements_telescope (first : Snapshot) (minutes : list minute) (v0 : Z) (vs : list Z) :
  pgfault first = Some v0 -> 0 <= v0 < 2 ^ 63 -> Forall2 (reporting pgfault) minutes vs ->
  length (periodic_loop first minutes) = length minutes /\
  sum_of (map (fun r => nth 0 (moved r) 0) (periodic_loop first minutes)) =
    List.last vs v0 - v0.
Proof.
  intros Hf Hv H. revert first v0 Hf Hv.
  induction H as [|m v minutes vs (Hb & Ha & Ht & Hr) H IH]; intros first v0 Hf Hv.
  { cbn. split; [done|lia]. }
  cbn [periodic_loop]. rewrite Hb, Ha. cbn [orb length map sum_of fold_right].
  destruct (IH (taken m) v Ht Hr) as [Hl Hs]. split; [by rewrite Hl|].
  unfold sum_of in Hs. rewrite Hs. cbn [moved movements nth]. rewrite Ht, Hf, delta_exact.
  - rewrite last_default. lia.
  - unfold in_s. change (2 ^ (64 - 1)) with (2 ^ 63). lia.
Qed.

(** *** Disks *)

(** The device is reported with the scheduler its file names in brackets. *)
Definition unsupported (files : path -> string + sys_error) (block_class : path) (name : string)
    : option (string * string) :=
  if existsb (fun skip => starts_with skip name) IGNORED then None
  else match files (push (push block_class name) "queue/scheduler") with
       | inl listing => pair name <$> disk_report listing
       | inr _ => None
       end.

(** As long as the files stay as they are, the check reports the devices that are not
    skipped, have a scheduler file and are on a scheduler without I/O priorities,
    each once, in the order of the directory. *)
Theorem disks_reported {W} {Hf : Files W} (files : path -> string + sys_error)
    (block_class : path) (devices : list string) (w : W) :
  (forall p w, snd (f_read p w) = files p) ->
  snd (check_devices block_class devices w) = omap (unsupported files block_class) devices.
Proof.
  intros Hr. revert w. induction devices as [|name devices IH]; intros w; [done|].
  cbn [check_devices omap list_omap]. unfold unsupported at 1.
  destruct (existsb _ IGNORED); [apply IH|].
  specialize (Hr (push (push block_class name) "queue/scheduler") w).
  unfold mbind, io_bind. destruct (f_read _ w) as [w1 listing]. cbn in Hr. subst listing.
  destruct (files _) as [listing|]; [|apply IH].
  destruct (disk_report listing) as [active|]; [|apply IH]. cbn.
  specialize (IH w1). destruct (check_devices block_class devices w1) as [w2 rest]. cbn in *. by subst.
Qed.

(** The kernel's listing names the active scheduler in brackets; the check reads it
    back wherever it stands in the list. *)
Theorem active_scheduler_bracketed (before after : string) (active : string) :
  lacks "[" before = true -> lacks "]" active = true ->
  active_scheduler (sapp before (String "[" (sapp active (String "]" after)))) = Some active.
Proof.
  intros Hb Ha. unfold active_scheduler. rewrite split_once_sapp by done.
  cbn [mbind option_bind]. by rewrite split_once_sapp.
Qed.

End MemstatsProps.
