(* ===== verification/Shutdown.v ===== *)
(** * The threads of the daemon, and how they end

    The channel to the worker and the shutdown flag, with every thread that holds
    one of them: the main thread in [src/monitor.rs] and in the [listen] loops of
    [bpf_monitor.rs] and [netlink.rs], the initial scans it starts, the thread of
    [src/signals.rs], the manual scanner and the benchmark timer of
    [src/runtime.rs], and the worker of [worker.rs].

    A thread is a program counter; [exec] performs one step of one of them, so an
    execution is a list of actions and every interleaving is one.  A sender is
    alive as long as the thread that owns it has not dropped it, and the worker ends
    when the queue is empty and no sender is left.  The release build aborts on a
    panic, so no thread dies alone; the sends that would fail if the worker did are
    modelled all the same, and [nothing_lost] shows that they do not happen. *)

From stdpp Require Import base list strings numbers.
From Stdlib Require Import ZArith Lia Wf_nat.
From S2P Require Import Prelude Process.

#[local] Open Scope Z_scope.

(** ** The state *)

(** [monitor::run], with the two [listen] loops inlined.  What is still to be sent
    before the thread looks at anything else is part of its position. *)
Inductive main_pc :=
| MBpfNew (is_first : bool) | MBpfBuild | MBpfListen | MBpfPoll (batch : list Process)
| MBpfCheck | MBpfSleep
| MNlNew (is_first : bool) | MNlSetup | MNlListen | MNlDrain (batch : list Process) (failed : bool)
| MNlRescan (batch : list Process) | MNlSleep
| MDrop | MJoin | MRestore | MReturned | MExited.

(** The signal thread waits, or has raised the flag, or has dropped its sender too. *)
Inductive signal_pc := SigWait | SigStored | SigDone.

Inductive scanner_pc := ScHead | ScSleep | ScScan (batch : list Process) | ScEnd.

Record threads := MkThreads {
  flag : bool;
  queue : list Process;
  handled : list Process;
  sent : list Process;
  main_at : main_pc;
  signal_at : signal_pc;
  scanner_at : scanner_pc;
  init_scans : list (list Process);
  timer_armed : bool;
  worker_done : bool;
  faults : nat;
}.

Record thread_options := MkThreadOptions {
  t_bpf : bool;
  t_netlink : bool;
  t_manual_scanning : bool;
  t_benchmark : bool;
  t_benchmark_count : option Z;
}.

(** [faults]: how often setting up the netlink listener may still fail. *)
Definition start_threads (o : thread_options) (faults : nat) : threads :=
  MkThreads false [] [] [] (if t_bpf o then MBpfNew true else MNlNew true) SigWait
    (if t_manual_scanning o then ScHead else ScEnd) [] (t_benchmark o) false faults.

(** *** Updates *)

Definition raise_flag (b : bool) (s : threads) : threads :=
  MkThreads (flag s || b) (queue s) (handled s) (sent s) (main_at s) (signal_at s) (scanner_at s)
    (init_scans s) (timer_armed s) (worker_done s) (faults s).
Definition set_main (c : main_pc) (s : threads) : threads :=
  MkThreads (flag s) (queue s) (handled s) (sent s) c (signal_at s) (scanner_at s)
    (init_scans s) (timer_armed s) (worker_done s) (faults s).
Definition set_signal (c : signal_pc) (s : threads) : threads :=
  MkThreads (flag s) (queue s) (handled s) (sent s) (main_at s) c (scanner_at s)
    (init_scans s) (timer_armed s) (worker_done s) (faults s).
Definition set_scanner (c : scanner_pc) (s : threads) : threads :=
  MkThreads (flag s) (queue s) (handled s) (sent s) (main_at s) (signal_at s) c
    (init_scans s) (timer_armed s) (worker_done s) (faults s).
Definition set_inits (l : list (list Process)) (s : threads) : threads :=
  MkThreads (flag s) (queue s) (handled s) (sent s) (main_at s) (signal_at s) (scanner_at s)
    l (timer_armed s) (worker_done s) (faults s).
Definition set_faults (n : nat) (s : threads) : threads :=
  MkThreads (flag s) (queue s) (handled s) (sent s) (main_at s) (signal_at s) (scanner_at s)
    (init_scans s) (timer_armed s) (worker_done s) n.

(** [tx.send(p)]: it fails when the receiver is gone. *)
Definition send (p : Process) (s : threads) : threads * bool :=
  if worker_done s then (s, false)
  else (MkThreads (flag s) (queue s ++ [p]) (handled s) (sent s ++ [p]) (main_at s) (signal_at s)
          (scanner_at s) (init_scans s) (timer_armed s) (worker_done s) (faults s), true).

(** ** The senders *)

Definition main_holds (c : main_pc) : bool :=
  match c with MJoin | MRestore | MReturned | MExited => false | _ => true end.
Definition signal_holds (c : signal_pc) : bool := match c with SigDone => false | _ => true end.
Definition scanner_holds (c : scanner_pc) : bool := match c with ScEnd => false | _ => true end.

Definition has_senders (s : threads) : bool :=
  main_holds (main_at s) || signal_holds (signal_at s) || scanner_holds (scanner_at s) ||
  match init_scans s with [] => false | _ => true end.

(** ** One step of each thread *)

(** What the system answers: whether a call succeeds, whether a thread can be
    started, and the processes a poll or a scan finds. *)
Record answer := MkAnswer { ok : bool; spawned : bool; found : list Process }.

(** The initial scan, on its own thread. *)
Definition spawn_init (is_first : bool) (a : answer) (s : threads) : threads :=
  if is_first && spawned a then set_inits (found a :: init_scans s) s else s.

Definition main_next (o : thread_options) (a : answer) (s : threads) : option threads :=
  match main_at s with
  | MBpfNew is_first =>
      Some (if ok a then spawn_init is_first a (set_main MBpfBuild s)
            else set_main (if t_netlink o then MNlNew true else MExited) s)
  | MBpfBuild => Some (set_main (if ok a then MBpfListen else MBpfCheck) s)
  | MBpfListen => Some (set_main (if flag s then MBpfCheck else MBpfPoll (found a)) s)
  | MBpfPoll [] => Some (set_main MBpfListen s)
  | MBpfPoll (p :: batch) =>
      let '(s, delivered) := send p s in Some (set_main (MBpfPoll batch) (raise_flag (negb delivered) s))
  | MBpfCheck => Some (set_main (if flag s then MDrop else MBpfSleep) s)
  | MBpfSleep => Some (set_main (MBpfNew false) s)
  | MNlNew is_first =>
      Some (if ok a then spawn_init is_first a (set_main MNlSetup s) else set_main MExited s)
  | MNlSetup =>
      if ok a then Some (set_main MNlListen s)
      else match faults s with
           | O => None
           | S n => Some (set_main (MNlRescan (found a)) (set_faults n s))
           end
  | MNlListen => Some (set_main (if flag s then MDrop else MNlDrain (found a) (negb (ok a))) s)
  | MNlDrain [] failed => Some (set_main (if failed then MNlRescan (found a) else MNlListen) s)
  | MNlDrain (p :: batch) failed =>
      let '(s, delivered) := send p s in
      Some (if delivered then set_main (MNlDrain batch failed) s
            else set_main MDrop (raise_flag true s))
  | MNlRescan [] => Some (set_main MNlSleep s)
  | MNlRescan (p :: batch) =>
      let '(s, delivered) := send p s in
      Some (set_main (if delivered then MNlRescan batch else MNlSleep) s)
  | MNlSleep => Some (set_main (MNlNew false) s)
  | MDrop => Some (set_main MJoin s)
  | MJoin => if worker_done s then Some (set_main MRestore s) else None
  | MRestore => Some (set_main MReturned s)
  | MReturned | MExited => None
  end.

(** A signal arrives: [SIGUSR1] reloads, which is no step of these threads, and
    [SIGINT] or [SIGTERM] raise the flag. *)
Definition deliver_signal (terminating : bool) (s : threads) : option threads :=
  match signal_at s with
  | SigWait => Some (if terminating then set_signal SigStored (raise_flag true s) else s)
  | _ => None
  end.

Definition signal_next (s : threads) : option threads :=
  match signal_at s with SigStored => Some (set_signal SigDone s) | _ => None end.

(** The manual scanner; [ok] says whether the interval is over. *)
Definition scanner_next (a : answer) (s : threads) : option threads :=
  match scanner_at s with
  | ScHead => Some (set_scanner (if flag s then ScEnd else ScSleep) s)
  | ScSleep => Some (set_scanner (if ok a then ScScan (found a) else ScHead) s)
  | ScScan [] => Some (set_scanner ScHead s)
  | ScScan (p :: batch) =>
      let '(s, delivered) := send p s in
      Some (set_scanner (if delivered then ScScan batch else ScHead) s)
  | ScEnd => None
  end.

(** The [i]-th initial scan. *)
Definition init_next (i : nat) (s : threads) : option threads :=
  match init_scans s !! i with
  | None => None
  | Some [] => Some (set_inits (delete i (init_scans s)) s)
  | Some (p :: batch) =>
      let '(s, delivered) := send p s in
      Some (set_inits (if delivered then <[i := batch]> (init_scans s) else delete i (init_scans s)) s)
  end.

Definition timer_next (s : threads) : option threads :=
  if timer_armed s then
    Some (MkThreads true (queue s) (handled s) (sent s) (main_at s) (signal_at s) (scanner_at s)
            (init_scans s) false (worker_done s) (faults s))
  else None.

Definition limit_reached (o : thread_options) (processed : nat) : bool :=
  match t_benchmark_count o with Some limit => limit <=? Z.of_nat processed | None => false end.

(** [work_loop]: a process is received, or the channel is closed and the loop ends. *)
Definition worker_next (o : thread_options) (s : threads) : option threads :=
  if worker_done s then None else
  match queue s with
  | p :: rest =>
      Some (MkThreads (flag s || limit_reached o (S (length (handled s)))) rest (handled s ++ [p])
              (sent s) (main_at s) (signal_at s) (scanner_at s) (init_scans s) (timer_armed s) false
              (faults s))
  | [] =>
      if has_senders s then None
      else Some (MkThreads (flag s) [] (handled s) (sent s) (main_at s) (signal_at s) (scanner_at s)
                   (init_scans s) (timer_armed s) true (faults s))
  end.

(** ** Executions *)

Inductive action :=
| Arrives (terminating : bool) | Signal | Timer | Main (a : answer) | Scanner (a : answer)
| Init (i : nat) | Work.

(** The process is gone when [main] returns or calls [exit]. *)
Definition ended (s : threads) : bool :=
  match main_at s with MReturned | MExited => true | _ => false end.

Definition exec_thread (o : thread_options) (a : action) (s : threads) : option threads :=
  if ended s then None else
  match a with
  | Arrives terminating => deliver_signal terminating s
  | Signal => signal_next s
  | Timer => timer_next s
  | Main a => main_next o a s
  | Scanner a => scanner_next a s
  | Init i => init_next i s
  | Work => worker_next o s
  end.

Definition thread_step (o : thread_options) (s s' : threads) : Prop :=
  exists a, exec_thread o a s = Some s'.

Fixpoint run_actions (o : thread_options) (l : list action) (s : threads) : option threads :=
  match l with
  | [] => Some s
  | a :: l => match exec_thread o a s with Some s => run_actions o l s | None => None end
  end.

Definition reaches (o : thread_options) (n : nat) (s : threads) : Prop :=
  exists l, run_actions o l (start_threads o n) = Some s.

(** On every execution [P] comes about after finitely many steps. *)
Inductive inevitably (o : thread_options) (P : threads -> Prop) (s : threads) : Prop :=
| inev_now : P s -> inevitably o P s
| inev_next : (exists s', thread_step o s s') ->
    (forall s', thread_step o s s' -> inevitably o P s') -> inevitably o P s.

(** ** The measure of a shutdown *)

Definition main_rank (c : main_pc) : nat :=
  match c with
  | MBpfSleep => 20 | MBpfNew _ => 19 | MBpfBuild => 18 | MBpfPoll _ => 17 | MBpfListen => 16
  | MBpfCheck => 15 | MNlDrain _ _ => 14 | MNlRescan _ => 13 | MNlSleep => 12 | MNlNew _ => 11
  | MNlSetup => 10 | MNlListen => 9 | MDrop => 4 | MJoin => 3 | MRestore => 2
  | MReturned | MExited => 0
  end.
Definition scanner_rank (c : scanner_pc) : nat :=
  match c with ScSleep => 3 | ScScan _ => 2 | ScHead => 1 | ScEnd => 0 end.
Definition signal_rank (c : signal_pc) : nat :=
  match c with SigWait => 2 | SigStored => 1 | SigDone => 0 end.

(** How far the threads are from their ends. *)
Definition distance (s : threads) : nat :=
  2 * main_rank (main_at s) + 10 * faults s + length (init_scans s) +
  scanner_rank (scanner_at s) + signal_rank (signal_at s) + Nat.b2n (timer_armed s) +
  Nat.b2n (negb (worker_done s)).

Definition main_batch (c : main_pc) : nat :=
  match c with MBpfPoll b | MNlDrain b _ | MNlRescan b => length b | _ => 0 end.
Definition scanner_batch (c : scanner_pc) : nat := match c with ScScan b => length b | _ => 0 end.
Fixpoint total (l : list (list Process)) : nat :=
  match l with [] => 0 | b :: l => length b + total l end.

(** What is still to be sent, and to be received. *)
Definition backlog (s : threads) : nat :=
  2 * (main_batch (main_at s) + scanner_batch (scanner_at s) + total (init_scans s)) +
  length (queue s).

Lemma total_insert l i p b :
  l !! i = Some (p :: b) -> (total (<[i := b]> l) + 1 = total l)%nat.
Proof.
  revert i. induction l as [|x l IH]; intros [|i] H; [done..| |].
  - injection H as ->. cbn. lia.
  - specialize (IH i H). change (<[S i := b]> (x :: l)) with (x :: <[i := b]> l). cbn [total]. lia.
Qed.

Definition signalled (s : threads) : Prop := signal_at s <> SigWait.

(** A step of one thread, taken apart. *)
Ltac projections := cbn [flag queue handled sent main_at signal_at scanner_at init_scans timer_armed
  worker_done faults set_main set_signal set_scanner set_inits set_faults raise_flag send fst snd
  spawn_init main_rank scanner_rank signal_rank main_batch scanner_batch total length Nat.b2n negb
  andb orb] in *.
Ltac outcomes :=
  repeat match goal with
  | H : context [if ?c then _ else _] |- _ => destruct c eqn:?; projections
  | H : context [match ?n with O => _ | S _ => _ end] |- _ => destruct n eqn:?; projections
  | H : Some _ = Some _ |- _ => injection H as <-
  | H : None = Some _ |- _ => discriminate H
  end.

Definition closer (s' s : threads) : Prop :=
  (distance s' < distance s \/ distance s' = distance s /\ backlog s' < backlog s)%nat.

Lemma main_decreases o a s s' : flag s = true -> main_next o a s = Some s' -> closer s' s.
Proof.
  unfold main_next, closer, distance, backlog. destruct s as [fl q h se c si sc ins ti wd fa].
  projections. intros ->.
  destruct c as [f| | |[|p b]| | |f| | |[|p b] ff|[|p b]| | | | | |]; intros E; projections;
    unfold spawn_init, send in E; outcomes; subst; projections; rewrite ?length_app; projections; lia.
Qed.

Lemma scanner_decreases a s s' : flag s = true -> scanner_next a s = Some s' -> closer s' s.
Proof.
  unfold scanner_next, closer, distance, backlog. destruct s as [fl q h se c si sc ins ti wd fa].
  projections. intros ->.
  destruct sc as [| |[|p b]|]; intros E; projections; unfold send in E; outcomes; subst; projections;
    rewrite ?length_app; projections; lia.
Qed.

Lemma init_decreases i s s' : init_next i s = Some s' -> closer s' s.
Proof.
  unfold init_next, closer, distance, backlog. destruct s as [fl q h se c si sc ins ti wd fa].
  projections. destruct (ins !! i) as [[|p b]|] eqn:Ei; [| |done]; intros E;
    pose proof (lookup_lt_Some _ _ _ Ei); pose proof (length_delete ins i ltac:(by rewrite Ei)).
  - outcomes. projections. lia.
  - unfold send in E. projections. outcomes; subst; projections; [lia|].
    pose proof (total_insert _ _ _ _ Ei). rewrite length_insert, length_app. projections. lia.
Qed.

Lemma worker_decreases o s s' : worker_next o s = Some s' -> closer s' s.
Proof.
  unfold worker_next, closer, distance, backlog. destruct s as [fl q h se c si sc ins ti wd fa].
  projections. destruct wd, q as [|p q]; intros E; outcomes; projections; lia.
Qed.

(** *** Invariants *)

Definition past_join (c : main_pc) : bool := match c with MRestore | MReturned => true | _ => false end.

(** Nothing sent is lost; the worker is done only when nothing is queued and nobody
    can send, the main thread goes on only when the worker is done, and a
    terminating signal leaves the flag up. *)
Definition orderly (s : threads) : Prop :=
  sent s = handled s ++ queue s /\
  (worker_done s = true -> queue s = [] /\ has_senders s = false) /\
  (past_join (main_at s) = true -> worker_done s = true) /\
  (signalled s -> flag s = true).

(** The cases of one step: which thread, where it stands and what it is answered. *)
Ltac thread_cases E :=
  unfold exec_thread, deliver_signal, signal_next, timer_next, main_next, scanner_next, init_next,
    worker_next, spawn_init, send in E;
  match type of E with context [ended ?s] =>
    destruct (ended s) eqn:?; [discriminate E|]; destruct s as [fl q h se c si sc ins ti wd fa]
  end; projections;
  match goal with a : action |- _ => destruct a as [[]| | |?|?|?|] end;
  [ match goal with x : signal_pc |- _ => destruct x end
  | match goal with x : signal_pc |- _ => destruct x end
  | match goal with x : signal_pc |- _ => destruct x end
  |
  | match goal with x : main_pc |- _ => destruct x as [?| | |[|? ?]| | |?| | |[|? ?] ?|[|? ?]| | | | | |] end
  | match goal with x : scanner_pc |- _ => destruct x as [| |[|? ?]|] end
  | match type of E with context [?l !! ?i] => destruct (l !! i) as [[|? ?]|] eqn:? end
  | match type of E with context [match ?q with [] => _ | _ :: _ => _ end] => destruct q end ];
  projections; outcomes; subst; projections.

Lemma flag_stays o a s s' :
  exec_thread o a s = Some s' -> (flag s = true -> flag s' = true) /\ (signalled s -> signalled s').
Proof.
  intros E. unfold signalled. thread_cases E; rewrite ?orb_true_r; naive_solver.
Qed.

Lemma sent_kept o a s s' :
  exec_thread o a s = Some s' -> sent s = handled s ++ queue s -> sent s' = handled s' ++ queue s'.
Proof.
  intros E. thread_cases E; intros ->; try done; by rewrite <- app_assoc.
Qed.

Definition closed (s : threads) : Prop :=
  worker_done s = true -> queue s = [] /\ has_senders s = false.

Lemma closed_step o a s s' : exec_thread o a s = Some s' -> closed s -> closed s'.
Proof.
  intros E. unfold closed, has_senders.
  thread_cases E; intros H; try exact H; try (intros [=]; fail); intros Hw;
    try (destruct (H Hw) as [? Hs]; clear H; split; [assumption|]);
    cbn [main_holds signal_holds scanner_holds orb] in *; try done.
  all: try (rewrite ?orb_true_r in Hs; done).
  all: destruct ins as [|? ins]; [done|]; rewrite ?orb_true_r in Hs; done.
Qed.

Lemma past_join_step o a s s' :
  exec_thread o a s = Some s' -> (past_join (main_at s) = true -> worker_done s = true) ->
  past_join (main_at s') = true -> worker_done s' = true.
Proof.
  intros E. thread_cases E; intros H; cbn [past_join] in *; try done; intros Hj; try (by apply H in Hj).
Qed.

Lemma signalled_step o a s s' :
  exec_thread o a s = Some s' -> (signalled s -> flag s = true) -> signalled s' -> flag s' = true.
Proof.
  intros E H Hs. destruct (flag_stays _ _ _ _ E) as [Hf _].
  destruct (signal_at s) eqn:Es; [|by apply Hf, H; unfold signalled; rewrite Es..].
  clear H Hf. unfold signalled in Hs. revert Es Hs. thread_cases E; intros; simplify_eq; try done.
  all: by rewrite orb_true_r.
Qed.

Lemma orderly_step o a s s' : exec_thread o a s = Some s' -> orderly s -> orderly s'.
Proof.
  intros E (H1 & H2 & H3 & H4). split_and!.
  - by apply (sent_kept _ _ _ _ E).
  - by apply (closed_step _ _ _ _ E).
  - by apply (past_join_step _ _ _ _ E).
  - by apply (signalled_step _ _ _ _ E).
Qed.

Lemma orderly_reaches o n s : reaches o n s -> orderly s.
Proof.
  intros [l Hl].
  assert (H0 : orderly (start_threads o n)).
  { split_and!; cbn; try done. by destruct (t_bpf o). }
  revert Hl H0. generalize (start_threads o n) as s0.
  induction l as [|a l IH]; cbn [run_actions]; intros s0 Hl H0; [by injection Hl as <-|].
  destruct (exec_thread o a s0) as [s1|] eqn:E; [|done]. eapply IH; [exact Hl|].
  by apply (orderly_step _ _ _ _ E).
Qed.

(** ** The end *)

(** Once a terminating signal has been taken, every step of every thread brings the end
    closer. *)
Lemma step_closer o a s s' :
  flag s = true -> signalled s -> exec_thread o a s = Some s' -> closer s' s.
Proof.
  intros Hf Hs E. unfold exec_thread in E. destruct (ended s); [done|]. destruct a.
  - unfold deliver_signal in E. unfold signalled in Hs. by destruct (signal_at s).
  - unfold signal_next in E. destruct (signal_at s) eqn:Es; simplify_eq. left.
    unfold distance. cbn [main_at faults init_scans scanner_at signal_at timer_armed worker_done
      set_signal signal_rank]. rewrite Es. cbn [signal_rank]. lia.
  - unfold timer_next in E. destruct (timer_armed s) eqn:Et; simplify_eq. left.
    unfold distance. cbn [main_at faults init_scans scanner_at signal_at timer_armed worker_done].
    rewrite Et. cbn [Nat.b2n]. lia.
  - by eapply main_decreases.
  - by eapply scanner_decreases.
  - by eapply init_decreases.
  - by eapply worker_decreases.
Qed.

(** Nothing is left waiting: until the process is gone some thread can go on. *)
Lemma someone_goes_on o s : signalled s -> ended s = false -> exists s', thread_step o s s'.
Proof.
  intros Hs He.
  assert (Hgo : forall a, exec_thread o a s <> None -> exists s', thread_step o s s').
  { intros a Ha. destruct (exec_thread o a s) as [s'|] eqn:E; [|done]. by exists s', a. }
  assert (Hj : main_at s = MJoin \/ main_at s <> MJoin) by (destruct (main_at s); by auto).
  destruct Hj as [Ej|Ej].
  2: { apply (Hgo (Main (MkAnswer true false []))). unfold exec_thread, main_next, send. rewrite He.
       unfold ended in He. destruct (main_at s) as [?| | |[]| | |?| | |[] ?|[]| | | | | |]; try done;
         destruct (worker_done s); done. }
  destruct (worker_done s) eqn:Ew.
  { apply (Hgo (Main (MkAnswer true false []))). unfold exec_thread, main_next. by rewrite He, Ej, Ew. }
  destruct (signal_at s) eqn:Es; [done| |].
  { apply (Hgo Signal). unfold exec_thread, signal_next. by rewrite He, Es. }
  destruct (scanner_holds (scanner_at s)) eqn:Ec.
  { apply (Hgo (Scanner (MkAnswer true false []))). unfold exec_thread, scanner_next, send. rewrite He, Ew.
    by destruct (scanner_at s) as [| |[]|]. }
  destruct (init_scans s) as [|b l] eqn:Ei.
  2: { apply (Hgo (Init 0)). unfold exec_thread, init_next, send. rewrite He, Ei, Ew. by destruct b. }
  apply (Hgo Work). unfold exec_thread, worker_next, has_senders.
  rewrite He, Ew, Ej, Es, Ec, Ei. by destruct (queue s).
Qed.

(** ** Properties *)
Module ShutdownProps.

(** C9. After [SIGINT] or [SIGTERM] the daemon ends on every interleaving of its threads,
    however many events are still in flight and whichever monitor runs, in whatever
    state of its set-up, as long as the system does not fail for ever. *)
Theorem shutdown_inevitable (o : thread_options) (n : nat) (s : threads) :
  reaches o n s -> signalled s -> inevitably o (fun s => ended s = true) s.
Proof.
  intros Hr Hs. apply orderly_reaches in Hr as (_ & _ & _ & Hf). specialize (Hf Hs). revert s Hs Hf.
  assert (H : forall d b s, distance s = d -> backlog s = b -> signalled s -> flag s = true ->
    inevitably o (fun s => ended s = true) s); [|by intros; eapply H].
  induction d as [d IHd] using lt_wf_ind. induction b as [b IHb] using lt_wf_ind.
  intros s Hd Hb Hs Hf. destruct (ended s) eqn:He; [by constructor 1|].
  constructor 2; [by apply someone_goes_on|]. intros s' [a E].
  destruct (flag_stays _ _ _ _ E) as [Hf' Hs'].
  destruct (step_closer _ _ _ _ Hf Hs E) as [Hlt|[Heq Hlt]].
  - apply (IHd (distance s')) with (b := backlog s'); auto. lia.
  - apply (IHb (backlog s')); auto; lia.
Qed.

(** A daemon with the BPF monitor in the middle of a poll. *)
Definition demo_options : thread_options := MkThreadOptions true true true false None.
Definition demo_process : Process := Process_new 42 "bash".
Definition demo_start : list action :=
  [Main (MkAnswer true true [demo_process]); Main (MkAnswer true true []);
   Main (MkAnswer true true [demo_process; demo_process]); Scanner (MkAnswer true true []);
   Arrives true].

Lemma shutdown_inevitable_witness :
  match run_actions demo_options demo_start (start_threads demo_options 3) with
  | Some s => ended s = false /\ inevitably demo_options (fun s => ended s = true) s
  | None => False
  end.
Proof.
  destruct (run_actions demo_options demo_start (start_threads demo_options 3)) as [s|] eqn:E;
    [|vm_compute in E; discriminate E].
  assert (Hs : signal_at s = SigStored /\ ended s = false)
    by (vm_compute in E; injection E as <-; split; reflexivity).
  destruct Hs as [Hs He]. split; [exact He|].
  apply (shutdown_inevitable demo_options 3 s).
  - exists demo_start. exact E.
  - intros Hw. congruence.
Defined.

(** C10. A clean end loses nothing: when [main] returns, the worker has received every
    process that was sent to it, in the order it was sent, and no send ever failed
    because the worker was gone. *)
Theorem nothing_lost (o : thread_options) (n : nat) (s : threads) :
  reaches o n s ->
  (main_at s = MReturned -> handled s = sent s) /\
  (has_senders s = true -> worker_done s = false).
Proof.
  intros (H1 & H2 & H3 & _)%orderly_reaches. split.
  - intros Hm. rewrite Hm in H3. destruct (H2 (H3 eq_refl)) as [Hq _]. by rewrite H1, Hq, app_nil_r.
  - intros Hh. destruct (worker_done s); [|done]. destruct (H2 eq_refl). congruence.
Qed.

Lemma nothing_lost_witness :
  match run_actions demo_options demo_start (start_threads demo_options 3) with
  | Some s => has_senders s = true /\ worker_done s = false
  | None => False
  end.
Proof.
  destruct (run_actions demo_options demo_start (start_threads demo_options 3)) as [s|] eqn:E;
    [|vm_compute in E; discriminate E].
  assert (Hs : has_senders s = true) by (vm_compute in E; injection E as <-; reflexivity).
  split; [exact Hs|]. apply (nothing_lost demo_options 3 s); [|exact Hs].
  exists demo_start. exact E.
Defined.

(** C39. Without a signal the daemon never returns: the signal thread keeps its sender, so
    the worker waits on the channel and the main thread on the worker.  A benchmark,
    which ends by raising the flag, by the timer or by the count, stops there: when
    everything else is done only the arrival of a signal is possible. *)
Theorem benchmark_hangs (o : thread_options) (n : nat) (s : threads) :
  reaches o n s -> signal_at s = SigWait ->
  past_join (main_at s) = false /\ worker_done s = false /\
  (main_at s = MJoin -> queue s = [] -> init_scans s = [] -> scanner_at s = ScEnd ->
   timer_armed s = false ->
   forall a s', exec_thread o a s = Some s' -> exists terminating, a = Arrives terminating).
Proof.
  intros Hr Hs. destruct (orderly_reaches o n s Hr) as (_ & H2 & H3 & _).
  assert (Hw : worker_done s = false).
  { destruct (worker_done s); [|done]. destruct (H2 eq_refl) as [_ Hh].
    unfold has_senders in Hh. rewrite Hs in Hh. cbn in Hh. by rewrite orb_true_r in Hh. }
  split_and!; [destruct (past_join (main_at s)); [rewrite H3 in Hw; done|done]|done|].
  intros Hm Hq Hi Hc Ht a s' E. unfold exec_thread in E. destruct (ended s); [done|].
  destruct a; [by eexists|..]; exfalso.
  - unfold signal_next in E. by rewrite Hs in E.
  - unfold timer_next in E. by rewrite Ht in E.
  - unfold main_next in E. by rewrite Hm, Hw in E.
  - unfold scanner_next in E. by rewrite Hc in E.
  - unfold init_next in E. by rewrite Hi in E.
  - unfold worker_next, has_senders in E. rewrite Hw, Hq, Hs in E. cbn in E. by rewrite orb_true_r in E.
Qed.

(** [--benchmark-count 1]: one process is seen and handled, the flag goes up. *)
Definition benchmark_options : thread_options := MkThreadOptions true true false false (Some 1).
Definition benchmark_run : list action :=
  let quiet := MkAnswer true false [] in
  [Main quiet; Main quiet; Main (MkAnswer true false [demo_process]); Main quiet; Work;
   Main quiet; Main quiet; Main quiet; Main quiet].

Lemma benchmark_hangs_witness :
  match run_actions benchmark_options benchmark_run (start_threads benchmark_options 0) with
  | Some s => flag s = true /\ main_at s = MJoin /\ handled s = [demo_process] /\
              worker_done s = false /\ exec_thread benchmark_options Work s = None
  | None => False
  end.
Proof.
  destruct (run_actions benchmark_options benchmark_run (start_threads benchmark_options 0))
    as [s|] eqn:E; [|vm_compute in E; discriminate E].
  pose proof (benchmark_hangs benchmark_options 0 s (ex_intro _ benchmark_run E)) as H.
  vm_compute in E. injection E as <-. destruct (H eq_refl) as (_ & Hw & _).
  split; [reflexivity|]. split; [reflexivity|]. split; [reflexivity|]. split; [exact Hw|reflexivity].
Defined.

End ShutdownProps.
