(* ===== verification/Console.v ===== *)
(** * What the program prints and logs

    The logging of [src/startup.rs] ([init_logging], [set_log_level], [log_config]
    and the lines of [load_topology_aliases]), the diagnostics of [config.rs], what a
    reload of [signals.rs] logs, the panic hook of [panics.rs], and the error a
    thread that cannot be started is reported with ([ananicy-core/src/lib.rs]).

    Standard output and the tracing and tracing-subscriber crates are the class
    [Console] over the state [W] of the process.  [ConsoleLaws] relates a state to
    what can be seen of it, a [screen], and says what each operation is documented
    to do to that; the client's theorems hold for every instance. *)

From stdpp Require Import base list gmap strings numbers.
From Stdlib Require Import ZArith Lia Ascii.
From S2P Require Import Prelude RustStr Paths Process Config Json RuleData LruCache RuleSet Kernel Priority.
From S2P Require Import Files CgroupManager LinuxState Mounts Cgroups Platform Topology X3d Daemon Memstats.

#[local] Open Scope Z_scope.

(** ** The interface *)

(** The layer an event goes to: tracing-journald, or the formatter with its writer;
    the formatter writes to standard output unless it is given another. *)
Inductive sink := Journal | Stderr | Stdout.
#[global] Instance sink_eq_dec : EqDecision sink.
Proof. solve_decision. Defined.

(** A line on standard output or standard error: printed by the program, or what the
    formatter makes of an event. *)
Inductive line := Printed (s : string) | Logged (l : Level) (s : string).

Class Console (W : Type) := {
  c_println : string -> io W unit;                     (* println!, a line *)
  c_eprintln : string -> io W unit;
  c_event : Level -> string -> io W unit;              (* error!, warn!, info!, debug! *)
  c_journald : io W bool;                              (* tracing_journald::layer().is_ok() *)
  c_try_init : sink -> Level -> io W (option string);  (* a registry with a filter and a layer *)
  c_modify : Level -> io W (option string);            (* Handle::modify of that filter *)
  c_set_hook : io W unit;                              (* panic::set_hook *)
}.

(** What can be seen of a process. *)
Record screen := MkScreen {
  stdout : list line;
  stderr : list line;
  records : list (sink * Level * string);
  subscriber : option (sink * Level);
  hooked : bool;
}.

Definition rank (l : Level) : Z :=
  match l with L_ERROR => 1 | L_WARN => 2 | L_INFO => 3 | L_DEBUG => 4 | L_TRACE => 5 end.
(** [LevelFilter]: an event passes when it is at most as verbose. *)
Definition enabled (filter l : Level) : bool := rank l <=? rank filter.

Definition on_stdout (s : string) (c : screen) : screen :=
  MkScreen (stdout c ++ [Printed s]) (stderr c) (records c) (subscriber c) (hooked c).
Definition on_stderr (s : string) (c : screen) : screen :=
  MkScreen (stdout c) (stderr c ++ [Printed s]) (records c) (subscriber c) (hooked c).
(** The lines of the records a writer was given. *)
Definition lines_on (k : sink) (r : list (sink * Level * string)) : list line :=
  map (fun e => Logged (snd (fst e)) (snd e)) (List.filter (fun e => bool_decide (fst (fst e) = k)) r).
Definition with_records (r : list (sink * Level * string)) (c : screen) : screen :=
  MkScreen (stdout c ++ lines_on Stdout r) (stderr c ++ lines_on Stderr r) (records c ++ r) (subscriber c) (hooked c).
Definition with_subscriber (s : option (sink * Level)) (c : screen) : screen :=
  MkScreen (stdout c) (stderr c) (records c) s (hooked c).
Definition with_hook (c : screen) : screen :=
  MkScreen (stdout c) (stderr c) (records c) (subscriber c) true.

(** The events that reach the subscriber, in order. *)
Definition taken (sub : option (sink * Level)) (l : list (Level * string))
    : list (sink * Level * string) :=
  match sub with
  | Some (k, f) => map (fun e => (k, fst e, snd e)) (List.filter (fun e => enabled f (fst e)) l)
  | None => []
  end.

Class ConsoleLaws (W : Type) {HC : Console W} := {
  observe : W -> screen;
  println_law s w : observe (fst (c_println s w)) = on_stdout s (observe w);
  eprintln_law s w : observe (fst (c_eprintln s w)) = on_stderr s (observe w);
  event_law l s w :
    observe (fst (c_event l s w)) = with_records (taken (subscriber (observe w)) [(l, s)]) (observe w);
  journald_law w : observe (fst (c_journald w)) = observe w;
  (** A process has one global subscriber: the first that is installed.  An attempt that
      fails may have installed its own before it did. *)
  try_init_law k l w :
    match snd (c_try_init k l w) with
    | None => subscriber (observe w) = None /\
              observe (fst (c_try_init k l w)) = with_subscriber (Some (k, l)) (observe w)
    | Some _ => exists sub, observe (fst (c_try_init k l w)) = with_subscriber sub (observe w) /\
                            (sub = subscriber (observe w) \/
                             subscriber (observe w) = None /\ sub = Some (k, l))
    end;
  (** The filter of an installed subscriber can be replaced; without one the handle
      has nothing to replace. *)
  modify_law l w :
    match subscriber (observe w) with
    | Some (k, _) => snd (c_modify l w) = None /\
                     observe (fst (c_modify l w)) = with_subscriber (Some (k, l)) (observe w)
    | None => snd (c_modify l w) <> None /\ observe (fst (c_modify l w)) = observe w
    end;
  set_hook_law w : observe (fst (c_set_hook w)) = with_hook (observe w);
}.

Section Logging.
Context {W : Type} {HC : Console W}.

Fixpoint for_each {A} (f : A -> io W unit) (l : list A) : io W unit :=
  match l with [] => mret tt | x :: l => _ ← f x; for_each f l end.

Definition info (s : string) : io W unit := c_event L_INFO s.
Definition warn (s : string) : io W unit := c_event L_WARN s.
Definition error (s : string) : io W unit := c_event L_ERROR s.

(** ** Logging at start-up *)

(** [systemd] is the cargo feature. *)
Definition init_logging (systemd : bool) (config_level : LogLevel) (verbose force_trace is_systemd : bool)
    : io W (option string) :=
  let log_level := effective_log_level config_level verbose force_trace in
  journald ← (if systemd && is_systemd then c_journald else mret false);
  if journald : bool then c_try_init Journal log_level
  else c_try_init Stderr log_level.

Definition set_log_level (level : Level) : io W (option string) := c_modify level.

Definition emit (d : ConfigDiagnostic) : io W unit :=
  match d with
  | DInfo message => info message
  | DWarn message => warn message
  | DError message => error message
  end.

Definition LATNICE_NOTICE : string := sapp
  "latency_nice is not supported by this kernel, so apply_latnice has been "
  "forced off and any latency_nice in a rule is ignored".

Definition config_report (snap : ConfigSnapshot) : list string :=
  let line name value := concat_all ["Config "; name; ": "; value] in
  [line "apply_nice" (fmt_bool (apply_nice snap));
   line "apply_sched" (fmt_bool (apply_sched snap));
   line "apply_ionice" (fmt_bool (apply_ionice snap));
   line "apply_ioclass" (fmt_bool (apply_ioclass snap));
   line "apply_cgroup" (fmt_bool (apply_cgroups snap));
   line "cgroup_load" (fmt_bool (cgroup_load snap));
   line "apply_oom_score_adj" (fmt_bool (apply_oom_score_adj snap));
   line "apply_latnice" (fmt_bool (apply_latnice snap));
   line "log_applied_rule" (fmt_bool (log_applied_rule snap));
   line "type_load" (fmt_bool (type_load snap));
   line "rule_load" (fmt_bool (rule_load snap));
   line "cgroup_realtime_workaround" (fmt_bool (cgroup_realtime_workaround snap));
   line "check_freq" (fmt_uint (check_freq snap));
   line "apply_cpuset" (fmt_bool (apply_cpuset snap));
   line "apply_cpu_weight" (fmt_bool (apply_cpu_weight snap));
   line "x3d_mode" (x3d_mode snap);
   line "loglevel" (fmt_level (loglevel snap));
   line "check_disks_schedulers" (fmt_bool (check_disks_schedulers snap))].

Definition log_config (snap : ConfigSnapshot) (err : option string) (diagnostics : list ConfigDiagnostic)
    (latnice_supported : bool) : io W unit :=
  _ ← for_each emit diagnostics;
  _ ← (if negb latnice_supported then warn LATNICE_NOTICE else mret tt);
  match err with
  | Some e => error e
  | None => for_each info (config_report snap)
  end.

(** [load_topology_aliases], given what was detected. *)
Definition load_topology_aliases (top : CpuTopology) (x3d_top : option X3DTopology)
    : io W (gmap string string) :=
  _ ← info (sapp "topology: " (Topology.summary top));
  _ ← (if has_big_little top then
         _ ← info (sapp "Performance cores: " (big_cores_str top));
         _ ← info (sapp "Efficiency cores: " (little_cores_str top));
         if negb (String.eqb (turbo_cores_str top) EmptyString) &&
            negb (String.eqb (turbo_cores_str top) (all_cores_str top))
         then info (sapp "Turbo cores: " (turbo_cores_str top)) else mret tt
       else mret tt);
  _ ← (match x3d_top with
       | Some t => info (concat_all ["AMD X3D detected: cache cores="; cache_cores_str t;
                                     ", frequency cores="; frequency_cores_str t])
       | None => mret tt
       end);
  mret (with_x3d_aliases x3d_top (generate_cpuset_aliases top)).

(** ** Logging of a reload *)

(** What [Reload::apply] logs itself: [cell] is the configuration after the file was
    read, [r] the diagnostics or the error, and the counts are of rules, types and
    cgroups. *)
Definition counts (c : Z * Z * Z) (sep_rules sep_types sep_cgroups : string) : string :=
  let '(rules, types, cgroups) := c in
  concat_all [fmt_uint rules; sep_rules; fmt_uint types; sep_types; fmt_uint cgroups; sep_cgroups].

Definition reload_rules_log (cell : ConfigSnapshot) (config_dir_path : string) (fresh previous : Z * Z * Z)
    : io W unit :=
  if negb (rule_load cell) then info "rule_load is false; keeping the rules already loaded"
  else
    _ ← info (concat_all ["Loaded "; counts fresh " rules, " " types and " " cgroups from ";
                          config_dir_path]);
    info (concat_all ["Rules reloaded from "; config_dir_path; ": ";
                      counts fresh " rules, " " types, " " cgroups (was ";
                      counts previous " rules, " " types, " " cgroups)"]).

Definition reload_log (override : option Level) (cell : ConfigSnapshot)
    (r : list ConfigDiagnostic + string) (config_dir_path : string) (fresh previous : Z * Z * Z)
    : io W unit :=
  _ ← info "Received SIGUSR1, reloading config and rules...";
  _ ← (match r with
       | inl diagnostics =>
           update_result ← set_log_level
             (match override with Some level => level | None => level_of (loglevel cell) end);
           _ ← for_each emit diagnostics;
           match update_result with
           | Some e => error (sapp "Failed to update log level after config reload: " e)
           | None => info (concat_all ["Config and log level reloaded (now "; fmt_level (loglevel cell); ")"])
           end
       | inr e => error (sapp "Failed to reload config: " e)
       end);
  reload_rules_log cell config_dir_path fresh previous.

(** ** The panic hook *)

Definition backtrace_requested (var : string -> option string) : bool :=
  match var "RUST_BACKTRACE" with
  | Some value => negb (String.eqb value EmptyString) && negb (String.eqb value "0")
  | None => false
  end.

Definition install (var : string -> option string) : io W unit :=
  if backtrace_requested var then mret tt else c_set_hook.

(** The hook itself: [info] and the backtrace as the standard library prints them. *)
Definition panic_hook (thread_name : option string) (info backtrace : string) : io W unit :=
  let name := match thread_name with Some n => n | None => "<unnamed>" end in
  _ ← c_eprintln (concat_all ["ananicy-rs panicked in thread "; name; ": "; info]);
  c_eprintln (concat_all ["backtrace:"; newline; backtrace]).
End Logging.

(** [spawn_error]: what a failed [spawn_named_thread!] answers; the kind of the error
    is kept. *)
Definition spawn_error {K : Type} (name : string) (e : K * string) : K * string :=
  (fst e, concat_all ["failed to spawn the "; name; " thread: "; snd e]).

(** ** Lemmas *)

Definition diagnostic_event (d : ConfigDiagnostic) : Level * string :=
  match d with
  | DInfo message => (L_INFO, message) | DWarn message => (L_WARN, message)
  | DError message => (L_ERROR, message)
  end.

Definition config_events (snap : ConfigSnapshot) (err : option string)
    (diagnostics : list ConfigDiagnostic) (latnice_supported : bool) : list (Level * string) :=
  map diagnostic_event diagnostics ++
  (if latnice_supported then [] else [(L_WARN, LATNICE_NOTICE)]) ++
  match err with Some e => [(L_ERROR, e)] | None => map (pair L_INFO) (config_report snap) end.

Lemma taken_app sub l1 l2 : taken sub (l1 ++ l2) = taken sub l1 ++ taken sub l2.
Proof. destruct sub as [[k f]|]; [|done]. cbn. by rewrite List.filter_app, map_app. Qed.

Lemma lines_on_app k r1 r2 : lines_on k (r1 ++ r2) = lines_on k r1 ++ lines_on k r2.
Proof. unfold lines_on. by rewrite List.filter_app, map_app. Qed.
Lemma with_records_app r1 r2 c : with_records r2 (with_records r1 c) = with_records (r1 ++ r2) c.
Proof. unfold with_records. cbn. by rewrite !lines_on_app, !app_assoc. Qed.
Lemma with_records_nil c : with_records [] c = c.
Proof. destruct c. unfold with_records. cbn. by rewrite !app_nil_r. Qed.

(** Nothing that is logged goes to standard output. *)
Definition logs_elsewhere (sub : option (sink * Level)) : Prop := fst <$> sub <> Some Stdout.
Lemma taken_elsewhere sub l : logs_elsewhere sub -> lines_on Stdout (taken sub l) = [].
Proof.
  destruct sub as [[k f]|]; [|done]. unfold logs_elsewhere. cbn. intros Hk.
  assert (k <> Stdout) as Hn by congruence. induction (List.filter _ l) as [|e es IH]; [done|].
  cbn. unfold lines_on in *. cbn. by rewrite bool_decide_eq_false_2.
Qed.
#[export] Hint Rewrite taken_app with_records_app with_records_nil : ananicy.

Section Says.
Context {W : Type} {HC : Console W} {HL : ConsoleLaws W}.

(** A computation that logs these events and does nothing else that can be seen. *)
Definition says {A} (c : io W A) (events : list (Level * string)) : Prop :=
  forall w, observe (fst (c w)) = with_records (taken (subscriber (observe w)) events) (observe w).

Lemma says_ret {A} (a : A) : says (mret a) [].
Proof. intros w. cbn. destruct (subscriber _) as [[]|]; cbn; by rewrite with_records_nil. Qed.
Lemma says_event l s : says (c_event l s) [(l, s)].
Proof. intros w. apply event_law. Qed.
Lemma says_bind {A B} (c : io W A) (k : A -> io W B) l1 l2 :
  says c l1 -> (forall a, says (k a) l2) -> says (c ≫= k) (l1 ++ l2).
Proof.
  intros Hc Hk w. unfold mbind, io_bind. specialize (Hc w). destruct (c w) as [w1 a].
  cbn [fst] in Hc. rewrite (Hk a w1), Hc. cbn [subscriber with_records]. by rewrite with_records_app, taken_app.
Qed.
Lemma says_for_each {A} (f : A -> io W unit) (g : A -> Level * string) l :
  (forall x, says (f x) [g x]) -> says (for_each f l) (map g l).
Proof.
  intros Hf. induction l as [|x l IH]; [apply says_ret|]. cbn [for_each map].
  apply (says_bind _ _ [g x]); [apply Hf|done].
Qed.
Lemma says_emit d : says (emit d) [diagnostic_event d].
Proof. destruct d; apply says_event. Qed.

Lemma says_log_config snap err diagnostics latnice :
  says (log_config snap err diagnostics latnice) (config_events snap err diagnostics latnice).
Proof.
  unfold log_config, config_events.
  apply says_bind; [apply says_for_each, says_emit|]. intros _.
  apply says_bind; [destruct latnice; [apply says_ret|apply says_event]|]. intros _.
  destruct err; [apply says_event|]. apply says_for_each. intros s. apply says_event.
Qed.

Lemma says_stdout {A} (c : io W A) l w :
  says c l -> logs_elsewhere (subscriber (observe w)) -> stdout (observe (fst (c w))) = stdout (observe w).
Proof. intros H Hw. rewrite (H w). cbn. by rewrite taken_elsewhere, app_nil_r. Qed.
Lemma says_subscriber {A} (c : io W A) l w :
  says c l -> subscriber (observe (fst (c w))) = subscriber (observe w).
Proof. intros H. by rewrite (H w). Qed.

Definition topology_events (top : CpuTopology) (x3d_top : option X3DTopology) : list (Level * string) :=
  (L_INFO, sapp "topology: " (Topology.summary top)) ::
  (if has_big_little top then
     (L_INFO, sapp "Performance cores: " (big_cores_str top)) ::
     (L_INFO, sapp "Efficiency cores: " (little_cores_str top)) ::
     (if negb (String.eqb (turbo_cores_str top) EmptyString) &&
         negb (String.eqb (turbo_cores_str top) (all_cores_str top))
      then [(L_INFO, sapp "Turbo cores: " (turbo_cores_str top))] else [])
   else []) ++
  match x3d_top with
  | Some t => [(L_INFO, concat_all ["AMD X3D detected: cache cores="; cache_cores_str t;
                                    ", frequency cores="; frequency_cores_str t])]
  | None => []
  end.

Lemma says_topology top x3d : says (load_topology_aliases top x3d) (topology_events top x3d).
Proof.
  unfold load_topology_aliases, topology_events.
  apply (says_bind _ _ [_]); [apply says_event|]. intros _.
  apply says_bind.
  - destruct (has_big_little top); [|apply says_ret].
    apply (says_bind _ _ [_]); [apply says_event|]. intros _.
    apply (says_bind _ _ [_]); [apply says_event|]. intros _.
    destruct (_ && _); [apply says_event|apply says_ret].
  - intros _. rewrite <- (app_nil_r (match x3d with Some _ => _ | None => _ end)).
    apply says_bind; [|intros _; apply says_ret]. destruct x3d; [apply says_event|apply says_ret].
Qed.

Lemma says_reload_rules cell dir fresh previous :
  exists events, says (reload_rules_log cell dir fresh previous) events.
Proof.
  unfold reload_rules_log. destruct (negb _); eexists; [apply says_event|].
  apply says_bind; [apply says_event|intros _; apply says_event].
Qed.

(** A reload whose file was read: everything after the first line is already filtered
    at the new level. *)
Lemma reload_log_read override cell ds dir fresh previous k old w :
  let level := match override with Some level => level | None => level_of (loglevel cell) end in
  subscriber (observe w) = Some (k, old) ->
  exists before after,
    observe (fst (reload_log override cell (inl ds) dir fresh previous w)) =
    with_records (taken (Some (k, old)) before ++ taken (Some (k, level)) (map diagnostic_event ds) ++
                  taken (Some (k, level)) after)
      (with_subscriber (Some (k, level)) (observe w)).
Proof.
  intros level Hs. destruct (says_reload_rules cell dir fresh previous) as [tail Ht].
  unfold reload_log. rewrite bind_run. set (w1 := fst (info _ w)).
  assert (H1 : observe w1 = with_records (taken (Some (k, old)) [(L_INFO, "Received SIGUSR1, reloading config and rules...")]) (observe w)).
  { subst w1. unfold info. by rewrite event_law, Hs. }
  rewrite bind_run, (Ht _). unfold set_log_level. rewrite bind_run. fold level.
  pose proof (modify_law level w1) as Hm. rewrite H1 in Hm. cbn [subscriber with_records] in Hm.
  rewrite Hs in Hm. destruct Hm as [-> Hm]. unfold info.
  rewrite (says_bind _ _ _ [(L_INFO, _)] (says_for_each _ diagnostic_event ds says_emit)
             (fun _ => says_event _ _)).
  rewrite Hm. cbn [subscriber with_records with_subscriber].
  set (now := (L_INFO, _)).
  exists [(L_INFO, "Received SIGUSR1, reloading config and rules...")], (now :: tail).
  rewrite (taken_app _ [now] tail : taken _ (now :: tail) = _), taken_app. unfold with_records, with_subscriber. cbn [stdout stderr records subscriber hooked].
  by rewrite !lines_on_app, <- !app_assoc.
Qed.

Lemma says_reload_failed override cell e dir fresh previous :
  exists events, says (reload_log override cell (inr e) dir fresh previous) events.
Proof.
  destruct (says_reload_rules cell dir fresh previous) as [tail Ht]. eexists. unfold reload_log.
  apply says_bind; [apply says_event|]. intros _. by apply says_bind; [apply says_event|].
Qed.
End Says.

#[global] Instance fmt_bool_inj : Inj (=) (=) fmt_bool.
Proof. by intros [] []. Qed.
#[global] Instance fmt_level_inj : Inj (=) (=) fmt_level.
Proof. by intros [] []. Qed.
Lemma fmt_uint_inj w x y : 0 <= w <= 64 -> in_u w x -> in_u w y -> fmt_uint x = fmt_uint y -> x = y.
Proof.
  intros Hw Hx Hy E. pose proof (parse_fmt_uint w x Hw Hx) as H1.
  rewrite E, (parse_fmt_uint w y Hw Hy) in H1. by simplify_eq.
Qed.

Lemma config_report_inj c1 c2 :
  in_u 32 (check_freq c1) -> in_u 32 (check_freq c2) -> config_report c1 = config_report c2 -> c1 = c2.
Proof.
  intros H1 H2 E. injection E. clear E. rewrite !sapp_nil_r. intros.
  destruct c1, c2; cbn in *. simplify_eq. f_equal. by apply (fmt_uint_inj 32).
Qed.

(** A filter that shows warnings loses none of them. *)
Definition alarming (l : Level) : bool := enabled L_WARN l.

Lemma taken_alarming k filter l :
  enabled filter L_WARN = true ->
  List.filter (fun r => alarming (snd (fst r))) (taken (Some (k, filter)) l) =
  map (fun e => (k, fst e, snd e)) (List.filter (fun e => alarming (fst e)) l).
Proof.
  unfold taken, alarming, enabled. intros Hf. zb. induction l as [|[lv s] l IH]; [done|]. cbn [List.filter fst].
  assert (rank lv <= rank L_WARN -> rank lv <= rank filter) as Hi by lia.
  destruct (Z.leb_spec (rank lv) (rank filter)), (Z.leb_spec (rank lv) (rank L_WARN)); cbn [map List.filter fst snd].
  - rewrite (proj2 (Z.leb_le _ _)) by done. cbn [map]. by f_equal.
  - by rewrite (proj2 (Z.leb_gt _ _)) by done.
  - lia.
  - done.
Qed.

Lemma no_alarm_in_info l : List.filter (fun e => alarming (fst e)) (map (pair L_INFO) l) = ([] : list (Level * string)).
Proof. by induction l. Qed.

Lemma taken_info k filter l :
  enabled filter L_INFO = true -> taken (Some (k, filter)) (map (pair L_INFO) l) = map (pair (k, L_INFO)) l.
Proof. intros Hf. cbn. induction l as [|s l IH]; [done|]. cbn. rewrite Hf. cbn. by f_equal. Qed.

Lemma map_pair_inj {A B} (a : A) (l1 l2 : list B) : map (pair a) l1 = map (pair a) l2 -> l1 = l2.
Proof. revert l2. induction l1; intros [|]; cbn; try done. intros [=]. f_equal; auto. Qed.

(** ** An implementation

    A process that is nothing but its screen; [journal] tells whether the journal can
    be reached. *)
Definition screen_console (journal : bool) : Console screen := {|
  c_println s c := (on_stdout s c, tt);
  c_eprintln s c := (on_stderr s c, tt);
  c_event l s c := (with_records (taken (subscriber c) [(l, s)]) c, tt);
  c_journald c := (c, journal);
  c_try_init k l c :=
    match subscriber c with
    | None => (with_subscriber (Some (k, l)) c, None)
    | Some _ => (c, Some "a global default trace dispatcher has already been set")
    end;
  c_modify l c :=
    match subscriber c with
    | Some (k, _) => (with_subscriber (Some (k, l)) c, None)
    | None => (c, Some "subscriber gone")
    end;
  c_set_hook c := (with_hook c, tt);
|}.

#[global] Instance screen_laws journal : ConsoleLaws screen (HC := screen_console journal).
Proof.
  refine {| observe := fun c => c |}; try done.
  - intros k l c. cbn. destruct c as [o e r [sub|] h]; cbn; [|done]. exists (Some sub). by split; [|left].
  - intros l c. cbn. by destruct c as [o e r [[k f]|] h].
Defined.

Definition blank : screen := MkScreen [] [] [] None false.

(** ** Properties *)
Module ConsoleProps.

Section Laws.
Context {W : Type} {HC : Console W} {HL : ConsoleLaws W}.

(** Logging that was set up runs at the level the command line and the configuration
    give, goes to the journal exactly when the daemon runs under systemd, was built
    for it and the journal answers, and to standard error otherwise; it can be set
    up once only, and a second attempt changes nothing. *)
Theorem logging_set_up_once (systemd verbose force_trace is_systemd : bool) (level : LogLevel) (w : W) :
  let '(w1, r) := init_logging systemd level verbose force_trace is_systemd w in
  (r = None ->
   subscriber (observe w) = None /\
   subscriber (observe w1) =
     Some (if systemd && is_systemd && snd (c_journald w) then Journal else Stderr,
           effective_log_level level verbose force_trace)) /\
  (subscriber (observe w) <> None -> r <> None /\ observe w1 = observe w) /\
  stdout (observe w1) = stdout (observe w).
Proof.
  unfold init_logging. unfold mbind at 1, io_bind at 1.
  set (j := (if systemd && is_systemd then c_journald else mret false) w).
  assert (Hj : observe (fst j) = observe w /\ snd j = systemd && is_systemd && snd (c_journald w)).
  { subst j. destruct (systemd && is_systemd); [|done]. by rewrite journald_law. }
  destruct j as [w0 b]. cbn [fst snd] in Hj. destruct Hj as [Ho ->].
  set (lv := effective_log_level _ _ _).
  assert (Hinit : forall b : bool, (if b then c_try_init Journal lv else c_try_init Stderr lv) =
    c_try_init (if b then Journal else Stderr) lv) by (by intros []).
  rewrite Hinit. set (k := if _ : bool then Journal else Stderr).
  pose proof (try_init_law k lv w0) as Ht. destruct (c_try_init k lv w0) as [w1 [e|]]; cbn [fst snd] in Ht.
  - destruct Ht as (sub & -> & Hs). rewrite Ho in *. split; [done|]. split; [|done].
    intros Hn. split; [done|]. destruct Hs as [-> | [? _]]; [|done]. by destruct (observe w).
  - destruct Ht as [Hn ->]. rewrite Ho in *. split; [done|]. split; [|done]. by intros [].
Qed.

(** What the operator is warned of at start-up is exactly this, whatever the level, as
    long as warnings are shown: the warnings and errors of the configuration file in
    the order they were found, then that latency nice is not supported when it is
    not, configuration error or none, then the error. *)
Theorem startup_warnings_exact (snap : ConfigSnapshot) (err : option string)
    (diagnostics : list ConfigDiagnostic) (latnice_supported : bool) (k : sink) (filter : Level) (w : W) :
  subscriber (observe w) = Some (k, filter) -> enabled filter L_WARN = true ->
  List.filter (fun r => alarming (snd (fst r)))
    (records (observe (fst (log_config snap err diagnostics latnice_supported w)))) =
  List.filter (fun r => alarming (snd (fst r))) (records (observe w)) ++
  map (fun e => (k, fst e, snd e))
    (List.filter (fun e => alarming (fst e)) (map diagnostic_event diagnostics) ++
     (if latnice_supported then [] else [(L_WARN, LATNICE_NOTICE)]) ++
     match err with Some e => [(L_ERROR, e)] | None => [] end).
Proof.
  intros Hs Hf. rewrite (says_log_config snap err diagnostics latnice_supported w), Hs.
  cbn [records with_records]. rewrite List.filter_app, taken_alarming by done. f_equal. f_equal.
  unfold config_events. rewrite !List.filter_app. f_equal. f_equal.
  - by destruct latnice_supported.
  - destruct err; [done|]. apply no_alarm_in_info.
Qed.

(** The report of the configuration says all of it: two clean starts that log the same
    at [info] run with the same settings. *)
Theorem config_report_faithful (c1 c2 : ConfigSnapshot) (k : sink) (filter : Level) (w : W) :
  subscriber (observe w) = Some (k, filter) -> enabled filter L_INFO = true ->
  in_u 32 (check_freq c1) -> in_u 32 (check_freq c2) ->
  records (observe (fst (log_config c1 None [] true w))) =
  records (observe (fst (log_config c2 None [] true w))) ->
  c1 = c2.
Proof.
  intros Hs Hf H1 H2. rewrite !(says_log_config _ None [] true w), Hs. unfold config_events.
  cbn [map app]. rewrite !taken_info by done. cbn [records with_records].
  intros E%app_inv_head%map_pair_inj. by apply config_report_inj.
Qed.

(** After a reload the filter stands at the level the daemon holds: the one fixed on
    the command line if there is one, the new configuration's otherwise, and the old
    one when the file could not be read; the diagnostics of the new file are already
    shown at that level. *)
Theorem reload_filter_agrees {Hjson : JsonParser} {Hregex : RegexEngine}
    {Hlru : Lru string (option RuleName)} {Horder : HashOrder} {Hc : Caches} {X : Type}
    {Hf : Files X} {Hk : Kernel X} (override : option Level) (conf : string + io_error) (d : disk)
    (st : daemon) (l : linux X) (text : io_error -> string) (dir : string) (fresh previous : Z * Z * Z)
    (k : sink) (w : W) :
  let st' := snd (reload_apply override conf d st l) in
  let r := snd (reload_file conf (snd (test_latnice_support l)) (config_cell st)) in
  let w' := fst (reload_log override (config_cell st')
                   (match r with inl ds => inl ds | inr e => inr (text e) end) dir fresh previous w) in
  subscriber (observe w) = Some (k, log_level st) ->
  subscriber (observe w') = Some (k, log_level st') /\
  (k <> Stdout -> stdout (observe w') = stdout (observe w)) /\
  forall ds, r = inl ds ->
    exists before after,
      records (observe w') = records (observe w) ++ before ++
        taken (Some (k, log_level st')) (map diagnostic_event ds) ++ after.
Proof.
  intros st' r w' Hs. pose proof (reload_result override conf d st l) as Hst. cbn zeta in Hst.
  fold st' in Hst. unfold new_cell in Hst. subst r w'. destruct (load_rules _ d (table st)) as [t rs].
  rewrite Hst. cbn [config_cell log_level]. clear Hst st'.
  unfold reload_file. destruct conf as [content|e].
  - destruct (parse_content content) as [snap ds]. cbn [fst snd].
    match goal with |- context [reload_log override ?c _ _ _ _ w] =>
      destruct (reload_log_read override c ds dir fresh previous k (log_level st) w Hs)
        as (before & after & ->) end.
    cbn [stdout records subscriber with_records with_subscriber log_level]. split; [done|]. split.
    + intros Hsink. rewrite !lines_on_app, !taken_elsewhere by (unfold logs_elsewhere; cbn; congruence).
      by rewrite !app_nil_r.
    + intros ds' [= <-]. eauto.
  - cbn [fst snd]. destruct (says_reload_failed override (config_cell st) (text e) dir fresh previous)
      as [events He].
    rewrite (He w), Hs. cbn [stdout records subscriber with_records log_level]. split; [done|]. split; [|done].
    intros Hsink. rewrite (taken_elsewhere (Some (k, log_level st)) events)
      by (unfold logs_elsewhere; cbn; congruence). by rewrite app_nil_r.
Qed.

(** A panic is reported on standard error with its thread and a backtrace whether or
    not logging works; the hook is installed exactly when the environment does not
    already ask for a backtrace, and nothing of it goes to standard output. *)
Theorem panic_reported (var : string -> option string) (thread_name : option string)
    (info backtrace : string) (w : W) :
  hooked (observe (fst (install var w))) = hooked (observe w) || negb (backtrace_requested var) /\
  observe (fst (panic_hook thread_name info backtrace w)) =
    on_stderr (concat_all ["backtrace:"; newline; backtrace])
      (on_stderr (concat_all ["ananicy-rs panicked in thread ";
                              match thread_name with Some n => n | None => "<unnamed>" end; ": "; info])
         (observe w)).
Proof.
  split.
  - unfold install. destruct (backtrace_requested var); cbn [negb]; [by rewrite orb_false_r|].
    rewrite set_hook_law. cbn. by rewrite orb_true_r.
  - unfold panic_hook. by rewrite bind_run, eprintln_law, eprintln_law.
Qed.

End Laws.

(** *** Witnesses *)

Definition demo_screen (l : Level) : screen := with_subscriber (Some (Stderr, l)) blank.

Lemma startup_warnings_exact_witness :
  List.filter (fun r => alarming (snd (fst r)))
    (records (observe (ConsoleLaws := screen_laws true) (fst (log_config (HC := screen_console true) Config.default None
                     [DInfo "written"; DWarn "Unknown config key: x"] false (demo_screen L_DEBUG))))) =
  [(Stderr, L_WARN, "Unknown config key: x"); (Stderr, L_WARN, LATNICE_NOTICE)].
Proof.
  rewrite (startup_warnings_exact (HL := screen_laws true) Config.default None
           [DInfo "written"; DWarn "Unknown config key: x"] false Stderr L_DEBUG (demo_screen L_DEBUG));
    reflexivity.
Defined.

Lemma config_report_faithful_witness : set_check_freq 60 Config.default = Config.default.
Proof.
  apply (config_report_faithful (HL := screen_laws true) (set_check_freq 60 Config.default) Config.default
           Stderr L_INFO (demo_screen L_INFO)); try reflexivity; vm_compute; split; congruence.
Defined.

Lemma reload_filter_agrees_witness :
  let env := ManagerProps.demo_env in
  let r := snd (reload_file (inl DaemonProps.demo_conf)
                  (snd (test_latnice_support (Hk := linux_kernel (Hk := traced_kernel env)) DaemonProps.demo_linux))
                  (config_cell DaemonProps.demo_daemon)) in
  subscriber (fst (reload_log (HC := screen_console true) None (config_cell DaemonProps.demo_reloaded)
    (match r with inl ds => inl ds | inr _ => inr EmptyString end) "/etc/ananicy.d" (1, 0, 0) (0, 0, 0)
    (demo_screen L_INFO))) = Some (Stderr, log_level DaemonProps.demo_reloaded).
Proof.
  apply (reload_filter_agrees (HL := screen_laws true) (Hjson := DaemonProps.demo_json)
    (Hf := traced_files ManagerProps.demo_env) (Hk := traced_kernel ManagerProps.demo_env)
    None (inl DaemonProps.demo_conf) DaemonProps.demo_disk DaemonProps.demo_daemon DaemonProps.demo_linux
    (fun _ => EmptyString) "/etc/ananicy.d" (1, 0, 0) (0, 0, 0) Stderr (demo_screen L_INFO)).
  reflexivity.
Defined.

End ConsoleProps.
