(* ===== verification/Cli.v ===== *)
(** * The command line and [main]

    [src/cli.rs] and [src/main.rs]: what the arguments ask for, and the order in
    which the program commits to anything.  bpaf, which parses the arguments, is the
    class [Bpaf]; what [main] asks of the other modules is the class [MainOps], with
    an instance that records the requests. *)

From S2P Require Import Prelude RustStr Config Files Daemon Systemd Console.
From stdpp Require Import base list sets strings numbers.
From Stdlib Require Import ZArith Lia.

#[local] Open Scope Z_scope.

(** ** Targets *)

Inductive DumpTarget := DumpRules | DumpTypes | DumpCgroups | DumpProc | DumpAutogroup.
Inductive DebugTarget := DebugCgroups | DebugMemory | DebugUnknown (s : string).

Definition DUMP_TARGET_NAMES : list string := ["rules"; "types"; "cgroups"; "proc"; "autogroup"].
Definition DEBUG_TARGET_NAMES : list string := ["cgroups"; "memory"].

Definition DumpTarget_from_str (s : string) : DumpTarget + string :=
  if String.eqb s "rules" then inl DumpRules
  else if String.eqb s "types" then inl DumpTypes
  else if String.eqb s "cgroups" then inl DumpCgroups
  else if String.eqb s "proc" then inl DumpProc
  else if String.eqb s "autogroup" then inl DumpAutogroup
  else inr (sapp "Invalid dump target: '" (sapp s
              (sapp "'; expected one of: " (RustStr.join ", " DUMP_TARGET_NAMES)))).

Definition DebugTarget_from_str (s : string) : DebugTarget :=
  if String.eqb s "cgroups" then DebugCgroups
  else if String.eqb s "memory" then DebugMemory
  else DebugUnknown s.

Definition complete_from (names : list string) (input : string) : list string :=
  filter (fun name => starts_with input name = true) names.
Definition dump_completer (input : string) : list string := complete_from DUMP_TARGET_NAMES input.
Definition debug_completer (input : option string) : list string :=
  complete_from DEBUG_TARGET_NAMES (match input with Some s => s | None => EmptyString end).

Definition dump_target (raw : string) : DumpTarget + string := DumpTarget_from_str raw.
Definition debug_target (raw : option string) : option DebugTarget := DebugTarget_from_str <$> raw.

(** ** Arguments *)

Inductive Commands :=
| Dump (sub_action : DumpTarget) | Debug (sub_action : option DebugTarget) | Start
| Completions (shell : option string) | Unknown (action : string).

Record Args := MkArgs {
  arg_systemd : bool;
  arg_no_systemd : bool;
  arg_daemon : bool;
  arg_config : option string;
  arg_config_dir : option string;
  arg_reload : bool;
  arg_force_remove_semaphore : bool;
  arg_manual_scanning : bool;
  arg_benchmark : bool;
  arg_benchmark_count : option Z;
  arg_bpf_min_us : option Z;
  arg_memory_stats : bool;
  arg_verbose : bool;
  arg_command : option Commands;
  arg_unknown : option string;
}.

(** [run_inner] of bpaf: the arguments it parsed, a failure whose message is for
    standard output or for standard error, or it ended the process itself.  The
    laws are the two uses [parse] makes of it for their effect. *)
Inductive bpaf_answer := Parsed (a : Args) | Failed (stdout : bool) | Terminated.

Class Bpaf := {
  run_inner : list string -> bpaf_answer;
  bpaf_completes shell : shell ∈ ["bash"; "zsh"; "fish"; "elvish"] ->
    run_inner [sapp "--bpaf-complete-style-" shell] = Terminated;
  bpaf_helps : run_inner ["--help"] = Failed true;
}.

(** How a part of the program ends that may end the process. *)
Inductive ending (A : Type) := Value (a : A) | Exit (code : Z) | Panic.
Arguments Value {A} a. Arguments Exit {A} code. Arguments Panic {A}.

Definition with_command (c : option Commands) (unknown : option string) (a : Args) : Args :=
  MkArgs (arg_systemd a) (arg_no_systemd a) (arg_daemon a) (arg_config a) (arg_config_dir a)
    (arg_reload a) (arg_force_remove_semaphore a) (arg_manual_scanning a) (arg_benchmark a)
    (arg_benchmark_count a) (arg_bpf_min_us a) (arg_memory_stats a) (arg_verbose a) c unknown.

Section Parse.
Context {Hb : Bpaf}.

(** The completions of a shell: printed by bpaf, which ends the process. *)
Definition completions (shell : option string) : ending Args :=
  let shell := match shell with Some s => s | None => EmptyString end in
  if bool_decide (shell ∈ ["bash"; "zsh"; "fish"; "elvish"]) then
    match run_inner [sapp "--bpaf-complete-style-" shell] with
    | Terminated => Exit 0
    | _ => Panic
    end
  else Exit 2.

Definition parse (argv : list string) : ending Args :=
  match run_inner argv with
  | Terminated => Exit 0
  | Failed stdout => Exit (if stdout then 0 else 2)
  | Parsed parsed =>
      match systemd_request (arg_systemd parsed) (arg_no_systemd parsed) with
      | None => Exit 2
      | Some _ =>
          match arg_command parsed with
          | Some (Completions shell) => completions shell
          | Some (Debug None) => Exit 1
          | _ =>
              let parsed :=
                match arg_command parsed, arg_unknown parsed with
                | None, Some unknown => with_command (Some (Unknown unknown)) None parsed
                | _, _ => parsed
                end in
              match arg_command parsed with
              | None =>
                  if negb (arg_reload parsed) && negb (arg_force_remove_semaphore parsed) then
                    match run_inner ["--help"] with
                    | Failed true => Exit 0
                    | Failed false => Panic
                    | Terminated => Exit 0
                    | Parsed _ => Value parsed
                    end
                  else Value parsed
              | Some _ => Value parsed
              end
          end
      end
  end.
End Parse.

(** ** [main] *)

(** The requests of [main] to the rest of the program. *)
Class MainOps (W : Type) := {
  m_set_hook : io W unit;
  m_load_config : string -> io W ConfigSnapshot;
  (* the configured level, verbose, force_trace and is_systemd *)
  m_init_logging : LogLevel -> bool -> bool -> bool -> io W bool;
  m_log : Level -> string -> io W unit;         (* error!, warn!, info!, debug! *)
  m_log_config : io W unit;
  m_remove_semaphore : io W Z;                  (* exits with this code *)
  m_request_reload : io W Z;
  m_topology : io W unit;
  m_load_rules : string -> io W unit;
  m_dump : DumpTarget -> io W (ending unit);
  m_debug : DebugTarget -> string -> io W unit;
  m_getuid : io W Z;
  m_report : io W unit;
  m_check_singleton : io W (option string);     (* the error, if refused *)
  m_platform_new : io W unit;                   (* LinuxPlatform::new *)
  m_install_signals : io W (option string);
  m_set_priority : io W unit;
  m_apply_x3d : io W unit;
  m_check_disks : bool -> io W unit;
  m_start_memstats : io W unit;
  m_run : bool -> io W (option Z);              (* the code, if it exits *)
  m_drop_guard : io W unit;
}.

Section Main.
Context {Hb : Bpaf} {W : Type} {Hm : MainOps W}.

(** From the decision to run on: the daemon proper. *)
Definition start_daemon (args : Args) (config : ConfigSnapshot) (is_systemd : bool)
    : io W (ending unit) :=
  _ ← m_log L_INFO "Starting ananicy-rs daemon";
  uid ← m_getuid;
  if negb (uid =? 0) then _ ← m_log L_ERROR "This program must be run as root"; mret (Exit 1) else
  _ ← m_report;
  held ← m_check_singleton;
  match held with
  | Some e => _ ← m_log L_ERROR (sapp "IPC Singleton check failed: " e); mret (Exit 1)
  | None =>
  _ ← m_platform_new;
  installed ← m_install_signals;
  match installed with
  | Some e =>
    _ ← m_log L_ERROR (sapp "Failed to install signal handlers: " e);
    _ ← m_log L_ERROR (sapp "Without them `systemctl reload` would terminate this daemon, and a "
                         "stop would skip the clean shutdown. Refusing to start.");
    mret (Exit 1)
  | None =>
  _ ← (if arg_manual_scanning args then
         _ ← m_log L_INFO
               "Manual scanning enabled! Increasing Ananicy Nice value to prevent lag.";
         _ ← m_set_priority;
         m_log L_INFO (sapp "Checking frequency set to " (fmt_uint (check_freq config)))
       else mret tt);
  _ ← m_apply_x3d;
  _ ← m_check_disks (check_disks_schedulers config);
  _ ← (if arg_memory_stats args then m_start_memstats else mret tt);
  exited ← m_run is_systemd;
  match exited with
  | Some code => mret (Exit code)
  | None => _ ← m_drop_guard; mret (Value tt)
  end end end.

Definition systemd_status (supported : bool) (mode : SystemdMode) : string :=
  if supported then description mode else "disabled (built without the `systemd` feature)".

(** The version of the workspace, [env!("CARGO_PKG_VERSION")]. *)
Definition CARGO_PKG_VERSION : string := "0.1.0".

(** [var] is the environment of the process and [raw] its [/proc/self/cgroup];
    [supported] is the [systemd] feature. *)
Definition main (supported : bool) (var : string -> option string) (raw : option (list Z))
    (argv : list string) : io W (ending unit) :=
  _ ← (if backtrace_requested var then mret tt else m_set_hook);
  match parse argv with
  | Exit code => mret (Exit code)
  | Panic => mret Panic
  | Value args =>
      match systemd_request (arg_systemd args) (arg_no_systemd args) with
      | None => mret (Exit 2)
      | Some request =>
          let mode := resolve_systemd request (from_process var raw) in
          let is_systemd := supported && is_enabled mode in
          let force_trace := match arg_command args with Some (Debug _) => true | _ => false end in
          let '(config_path, config_dir_path) :=
            resolve_config_paths var (arg_config args) (arg_config_dir args) in
          config ← m_load_config config_path;
          logging ← m_init_logging (loglevel config) (arg_verbose args) force_trace is_systemd;
          if negb logging then mret (Exit 1) else
          _ ← m_log L_DEBUG (sapp "Systemd integration: " (systemd_status supported mode));
          _ ← m_log_config;
          if arg_force_remove_semaphore args then code ← m_remove_semaphore; mret (Exit code) else
          if arg_reload args then code ← m_request_reload; mret (Exit code) else
          _ ← (if arg_daemon args && negb is_systemd then
                 m_log L_WARN "Daemon mode requested but not fully implemented. Running in foreground."
               else mret tt);
          _ ← m_log L_INFO (sapp "Ananicy Rs " CARGO_PKG_VERSION);
          _ ← m_topology;
          _ ← m_load_rules config_dir_path;
          match arg_command args with
          | Some (Dump sub_action) =>
              m_dump sub_action
          | Some (Debug None) => mret Panic
          | Some (Debug (Some sub_action)) =>
              _ ← m_debug sub_action (systemd_status supported mode); mret (Value tt)
          | Some Start => start_daemon args config is_systemd
          | Some (Unknown action) =>
              _ ← m_log L_ERROR (sapp "Unknown action requested: " action); mret (Exit 1)
          | _ => mret (Value tt)
          end
      end
  end.
End Main.

(** ** The trace instance

    It records the requests, and not what is only logged. *)

Inductive main_event :=
| CLoadConfig (path : string) | CInitLogging (level : Level) (journald ok : bool)
| CRemoveSemaphore | CRequestReload | CTopology | CLoadRules (dir : string)
| CDump (target : DumpTarget) | CDebug (target : DebugTarget) (status : string)
| CGetuid | CReport | CSingleton (held : bool) | CPlatform | CSignals (installed : bool)
| CSetPriority | CApplyX3d | CCheckDisks (wanted : bool) | CMemstats | CRun (is_systemd : bool)
| CDropGuard.

(** Each request is made once at most, so its answer is a value. *)
Record main_env := MkMainEnv {
  e_config : ConfigSnapshot;
  e_logging : bool;
  e_remove : Z;
  e_reload : Z;
  e_dump : option Z;
  e_uid : Z;
  e_singleton : bool;
  e_signals : bool;
  e_run : option Z;
}.

Definition asked {A} (e : main_event) (a : A) : io (list main_event) A := fun w => (w ++ [e], a).

Definition traced_main_ops (env : main_env) : MainOps (list main_event) := {|
  m_set_hook := mret tt;
  m_load_config path := asked (CLoadConfig path) (e_config env);
  m_init_logging level verbose force_trace journald :=
    asked (CInitLogging (effective_log_level level verbose force_trace) journald (e_logging env))
      (e_logging env);
  m_log _ _ := mret tt;
  m_log_config := mret tt;
  m_remove_semaphore := asked CRemoveSemaphore (e_remove env);
  m_request_reload := asked CRequestReload (e_reload env);
  m_topology := asked CTopology tt;
  m_load_rules dir := asked (CLoadRules dir) tt;
  m_dump target :=
    asked (CDump target) (match e_dump env with Some code => Exit code | None => Value tt end);
  m_debug target status := asked (CDebug target status) tt;
  m_getuid := asked CGetuid (e_uid env);
  m_report := asked CReport tt;
  m_check_singleton :=
    asked (CSingleton (e_singleton env)) (if e_singleton env then None else Some EmptyString);
  m_platform_new := asked CPlatform tt;
  m_install_signals :=
    asked (CSignals (e_signals env)) (if e_signals env then None else Some EmptyString);
  m_set_priority := asked CSetPriority tt;
  m_apply_x3d := asked CApplyX3d tt;
  m_check_disks wanted := asked (CCheckDisks wanted) tt;
  m_start_memstats := asked CMemstats tt;
  m_run is_systemd := asked (CRun is_systemd) (e_run env);
  m_drop_guard := asked CDropGuard tt;
|}.

Definition traced_main {Hb : Bpaf} (env : main_env) (supported : bool) (var : string -> option string)
    (raw : option (list Z)) (argv : list string) : list main_event * ending unit :=
  main (Hm := traced_main_ops env) supported var raw argv [].

(** The requests that may change anything but the memory of the process.  Loading the
    configuration writes the default file where there is none and tries
    [sched_setattr]; building the platform and [debug cgroups] detect the cgroup
    hierarchy, which may create and remove a directory in it.  The others read, and
    print or log. *)
Definition touches (e : main_event) : bool :=
  match e with
  | CLoadConfig _ | CRemoveSemaphore | CRequestReload | CDebug DebugCgroups _
  | CSingleton _ | CPlatform | CSignals _ | CSetPriority | CApplyX3d | CMemstats | CRun _ | CDropGuard =>
      true
  | CInitLogging _ _ _ | CTopology | CLoadRules _ | CDump _ | CDebug _ _
  | CGetuid | CReport | CCheckDisks _ => false
  end.
Definition touched (tr : list main_event) : list main_event := List.filter touches tr.

(** What [start] touches, and how it ends. *)
Definition start_account (env : main_env) (args : Args) (is_systemd : bool) : list main_event * ending unit :=
  match e_uid env =? 0, e_singleton env, e_signals env with
  | false, _, _ => ([], Exit 1)
  | true, false, _ => ([CSingleton false], Exit 1)
  | true, true, false => ([CSingleton true; CPlatform; CSignals false], Exit 1)
  | true, true, true =>
      ([CSingleton true; CPlatform; CSignals true] ++
       (if arg_manual_scanning args then [CSetPriority] else []) ++ [CApplyX3d] ++
       (if arg_memory_stats args then [CMemstats] else []) ++ [CRun is_systemd] ++
       (if e_run env then [] else [CDropGuard]),
       match e_run env with Some code => Exit code | None => Value tt end)
  end.

(** What the parsed command touches after the configuration was loaded. *)
Definition command_account (env : main_env) (args : Args) (status : string) (is_systemd : bool)
    : list main_event * ending unit :=
  if negb (e_logging env) then ([], Exit 1)
  else if arg_force_remove_semaphore args then ([CRemoveSemaphore], Exit (e_remove env))
  else if arg_reload args then ([CRequestReload], Exit (e_reload env))
  else match arg_command args with
       | Some Start => start_account env args is_systemd
       | Some (Dump _) => ([], match e_dump env with Some code => Exit code | None => Value tt end)
       | Some (Debug (Some DebugCgroups)) => ([CDebug DebugCgroups status], Value tt)
       | Some (Debug _) => ([], Value tt)
       | Some (Unknown _) => ([], Exit 1)
       | Some (Completions _) | None => ([], Panic)
       end.

(** ** Properties *)
Module CliProps.

Section Laws.
Context {Hb : Bpaf}.

(** What [parse] lets through. *)
Lemma parse_value argv args :
  parse argv = Value args ->
  systemd_request (arg_systemd args) (arg_no_systemd args) <> None /\
  match arg_command args with
  | Some (Debug None) | Some (Completions _) => False
  | Some _ => True
  | None => arg_reload args || arg_force_remove_semaphore args = true
  end.
Proof.
  unfold parse, completions. intros H.
  pose proof bpaf_helps. repeat (case_match; simplify_eq; try done).
  all: split; [cbn [with_command arg_systemd arg_no_systemd]; congruence|]; try done.
  destruct (arg_reload a); [done|]. by destruct (arg_force_remove_semaphore a).
Qed.

Lemma completions_exit shell : exists code, completions shell = Exit code.
Proof.
  unfold completions. case_bool_decide as Hs; [|eauto].
  rewrite (bpaf_completes _ Hs). eauto.
Qed.

Lemma parse_no_panic argv : parse argv <> Panic.
Proof.
  unfold parse. intros H. pose proof bpaf_helps.
  repeat (case_match; simplify_eq; try done).
  match goal with H : completions ?sh = _ |- _ => destruct (completions_exit sh); congruence end.
Qed.

(** A branch that only logs is no branch in the trace. *)
Lemma if_same {A} (b : bool) (x : A) : (if b then x else x) = x.
Proof. by destruct b. Qed.

(** The program never panics on its command line: the sub-action [main] unwraps is
    always there, and the two places [parse] takes for unreachable are. *)
Theorem main_never_panics (env : main_env) (supported : bool) (var : string -> option string)
    (raw : option (list Z)) (argv : list string) :
  snd (traced_main env supported var raw argv) <> Panic.
Proof.
  unfold traced_main, main. pose proof (parse_no_panic argv) as Hp.
  cbn [traced_main_ops m_set_hook m_log m_log_config]. rewrite if_same. unfold mbind at 1, io_bind at 1.
  cbn [mret io_ret]. destruct (parse argv) as [args|code|] eqn:E; [|done..].
  apply parse_value in E as [Hs Hc]. destruct (systemd_request _ _) as [r|]; [|done].
  rewrite if_same.
  destruct (resolve_config_paths _ _ _) as [path dir]. unfold mbind, io_bind, mret, io_ret.
  cbn [traced_main_ops m_set_hook m_load_config m_init_logging m_log m_log_config m_remove_semaphore m_request_reload m_topology
    m_load_rules m_dump m_debug asked].
  destruct (e_logging env), (arg_force_remove_semaphore args), (arg_reload args); cbn [negb]; try done.
  destruct (arg_command args) as [[t|[t|]| |sh|u]|]; cbn; try done.
  - by destruct (e_dump env).
  - unfold start_daemon, mbind, io_bind, mret, io_ret. cbn. by repeat case_match.
Qed.

Lemma touched_app a b : touched (a ++ b) = touched a ++ touched b.
Proof. apply List.filter_app. Qed.

(** The daemon proper, after [pre]. *)
Lemma start_daemon_account env args config is_systemd pre :
  let '(tr, r) := start_daemon (Hm := traced_main_ops env) args config is_systemd pre in
  touched tr = touched pre ++ fst (start_account env args is_systemd) /\
  r = snd (start_account env args is_systemd).
Proof.
  unfold start_daemon, start_account, mbind, io_bind, mret, io_ret. cbn [traced_main_ops m_log m_getuid
    m_report m_check_singleton m_platform_new m_install_signals m_set_priority m_apply_x3d m_check_disks
    m_start_memstats m_run m_drop_guard asked]. unfold mret, io_ret.
  destruct (e_uid env =? 0), (e_singleton env), (e_signals env); cbn [negb fst snd];
    try (rewrite !touched_app; cbn; by rewrite ?app_nil_r, <- ?app_assoc).
  destruct (arg_manual_scanning args), (arg_memory_stats args), (e_run env) as [code|]; cbn [asked];
    rewrite !touched_app; cbn; by rewrite ?app_nil_r, <- ?app_assoc.
Qed.

(** C31. Everything [main] touches beyond its own memory, and how it ends, in every case:
    arguments that were refused or answered by the parser touch nothing; otherwise the
    configuration is loaded, and after it [--force-remove-semaphore] and [--reload] make
    their one request, [dump] none, [debug cgroups] the detection of the hierarchy, and
    [start] as much as its checks allow: nothing unless root, only the attempt at the
    singleton when there is another daemon, and the detection besides when the signal
    handlers cannot be installed, where the singleton is not given up; the nice value of
    the daemon, the X3D mode, and the run come after all three, in that order, and a
    run that returns gives the singleton up last. *)
Theorem main_commits (env : main_env) (supported : bool) (var : string -> option string)
    (raw : option (list Z)) (argv : list string) :
  let '(tr, r) := traced_main env supported var raw argv in
  match parse argv with
  | Panic => False
  | Exit code => tr = [] /\ r = Exit code
  | Value args =>
      exists request,
        systemd_request (arg_systemd args) (arg_no_systemd args) = Some request /\
        let mode := resolve_systemd request (from_process var raw) in
        let path := fst (resolve_config_paths var (arg_config args) (arg_config_dir args)) in
        let '(changes, ending) :=
          command_account env args (systemd_status supported mode) (supported && is_enabled mode) in
        touched tr = CLoadConfig path :: changes /\ r = ending
  end.
Proof.
  unfold traced_main, main. pose proof (parse_no_panic argv) as Hp.
  cbn [traced_main_ops m_set_hook m_log m_log_config]. rewrite if_same.
  unfold mbind at 1, io_bind at 1. cbn [mret io_ret]. destruct (parse argv) as [args|code|] eqn:E; [|done..].
  apply parse_value in E as [Hs Hc]. destruct (systemd_request _ _) as [q|]; [|done].
  rewrite if_same.
  destruct (resolve_config_paths _ _ _) as [path dir]. unfold mbind, io_bind, mret, io_ret.
  cbn [traced_main_ops m_set_hook m_load_config m_init_logging m_log m_log_config m_remove_semaphore m_request_reload m_topology
    m_load_rules m_dump m_debug asked app].
  unfold command_account.
  destruct (e_logging env); cbn [negb]; [|by exists q].
  destruct (arg_force_remove_semaphore args); [by exists q|].
  destruct (arg_reload args); [by exists q|].
  destruct (arg_command args) as [[t|[[]|]| |sh|u]|]; try done; try by exists q.
  match goal with |- context [start_daemon args ?c ?sy ?pre] =>
    pose proof (start_daemon_account env args c sy pre) as Ht;
    destruct (start_daemon args c sy pre) as [tr r] end.
  exists q. split; [done|]. by destruct (start_account _ _ _).
Qed.
End Laws.

(** A parser of the bare commands. *)
Definition bare_args (c : option Commands) : Args :=
  MkArgs false false false None None false false false false None None false false c None.
Definition demo_run_inner (argv : list string) : bpaf_answer :=
  match argv with
  | [a] =>
      if String.eqb a "start" then Parsed (bare_args (Some Start))
      else if String.eqb a "debug" then Parsed (bare_args (Some (Debug None)))
      else if String.eqb a "--help" then Failed true
      else if starts_with "--bpaf-complete-style-" a then Terminated
      else Failed false
  | _ => Failed false
  end.
#[local] Instance demo_bpaf : Bpaf.
Proof.
  refine {| run_inner := demo_run_inner |}; [|reflexivity].
  intros shell Hs. repeat (apply elem_of_cons in Hs as [-> | Hs]; [reflexivity|]).
  by apply elem_of_nil in Hs.
Defined.

Definition root_env : main_env := MkMainEnv Config.default true 0 0 None 0 true true None.

Example start_touches :
  traced_main root_env true (fun _ => None) None ["start"] =
  ([CLoadConfig "/etc/ananicy.d/ananicy.conf"; CInitLogging L_INFO false true; CTopology;
    CLoadRules "/etc/ananicy.d"; CGetuid; CReport; CSingleton true; CPlatform; CSignals true; CApplyX3d;
    CCheckDisks true; CRun false; CDropGuard], Value tt).
Proof. vm_compute. reflexivity. Qed.

End CliProps.
