(* ===== verification/Dump.v ===== *)
(** * The reports of [dump] and [debug]

    [src/dump.rs] and [src/debug.rs]: the rules, types and cgroups in force, the
    threads of the machine with what is set on them and the rule that matches, the
    same threads by autogroup, and the memory and cgroup diagnostics.

    A report is the JSON value it prints; printing it is serde_json's.  Files are
    what one read of them answers. *)

From stdpp Require Import base list gmap strings numbers.
From Stdlib Require Import ZArith Lia Ascii Sorted.
From S2P Require Import Prelude RustStr Process Config Json RuleData LruCache RuleSet Worker Kernel Procfs Paths.
From S2P Require Import ProcessInfo Memstats Systemd.

#[local] Open Scope Z_scope.

(** ** Rules, types and cgroups *)

(** Collecting into a [BTreeMap]: sorted by key, the last entry of a key wins. *)
Definition collect {A} (l : list (string * A)) : list (string * A) :=
  foldl (fun m e => map_insert (fst e) (snd e) m) [] l.

Section Rules.
Context {Hjson : JsonParser} {Hregex : RegexEngine} {Hlru : Lru string (option RuleName)}
  {Horder : HashOrder}.

Definition dump_rules (t : NameTable) (rs : Rules) : Value :=
  VObject (collect (map (fun e => (fst e, to_json t (snd e) (fst e))) (iter_rules rs))).

Definition dump_types (rs : Rules) : Value := VObject (collect (map_to_list (get_types rs))).
Definition dump_cgroups (rs : Rules) : Value := VObject (collect (map_to_list (get_cgroups rs))).

(** ** Processes *)

(** What the report reads of a process besides its threads. *)
Record dump_source := MkDumpSource {
  ds_exe : Z -> option string;
  ds_cmdline : Z -> option string;
  ds_oom : Z -> option string;
  ds_tasks : Z -> option (list string);
  ds_thread : Z -> Z -> info_source;
}.

(** [Serialize] of [ProcessInfo]: every field, and [rule] only when there is one. *)
Definition text_or_null (s : option string) : Value :=
  match s with Some s => VString s | None => VNull end.
Definition info_value (i : ProcessInfo) : Value :=
  VObject (collect
    ([("pid", of_int (info_pid i)); ("tpid", of_int (info_tpid i)); ("exe", text_or_null (info_exe i));
      ("comm", VString (info_comm i)); ("cmd", VString (info_cmd i)); ("stat", VString (info_stat i));
      ("stat_name", VString (info_stat_name i));
      ("autogroup", match info_autogroup i with Some v => v | None => VNull end);
      ("sched", VString (info_sched i)); ("rtprio", of_int (info_rtprio i));
      ("nice", of_int (info_nice i)); ("latency_nice", of_int (info_latency_nice i));
      ("ionice", info_ionice i); ("oom_score_adj", of_int (info_oom_score_adj i));
      ("cmdline", VArray (map VString (info_cmdline i)))] ++
     match info_rule i with Some r => [("rule", VString r)] | None => [] end)).

(** The threads of one process, from the names in its [task] directory; [None] is a
    panic. *)
Fixpoint dump_threads (src : dump_source) (p : Process) (rule : option string) (tasks : list string)
    (process_map : list (string * Value)) : option (list (string * Value)) :=
  match tasks with
  | [] => Some process_map
  | file_name :: tasks =>
      match parse_i32 file_name with
      | None => dump_threads src p rule tasks process_map
      | Some tid =>
          let pid := process_pid p in
          match from_parts pid tid (ds_exe src pid) (name p)
                  (cmdline_args (or_empty (ds_cmdline src pid)))
                  (match parse_i32 (trim (or_empty (ds_oom src pid))) with Some v => v | None => 0 end)
                  rule (ds_thread src pid tid) with
          | None => None
          | Some info =>
              dump_threads src p rule tasks (map_insert (fmt_int tid) (info_value info) process_map)
          end
      end
  end.

(** The rule named in the report: none when no rule matches. *)
Definition dump_rule_name (rs : Rules) (p : Process) : Rules * option string :=
  let '(rs, found) := get_rule (name p) rs in
  let rule_name := match found with Some (n, _) => n | None => EmptyString end in
  (rs, if String.eqb rule_name EmptyString then None else Some rule_name).

(** [get_process_info_map], over the processes the scan sent. *)
Fixpoint get_process_info_map (src : dump_source) (processes : list Process) (rs : Rules)
    (process_map : list (string * Value)) : option (list (string * Value)) :=
  match processes with
  | [] => Some process_map
  | p :: processes =>
      let '(rs, rule) := dump_rule_name rs p in
      match ds_tasks src (process_pid p) with
      | None => get_process_info_map src processes rs process_map
      | Some tasks =>
          match dump_threads src p rule tasks process_map with
          | None => None
          | Some process_map => get_process_info_map src processes rs process_map
          end
      end
  end.
End Rules.

(** ** Autogroups *)

Definition group_num (autogroup : list (string * Value)) : string :=
  fmt_int (match map_get "group" autogroup with
           | Some (VNumber n) => match as_i64 n with Some g => g | None => 0 end
           | _ => 0
           end).

Definition group_nice (autogroup : list (string * Value)) : Value :=
  match map_get "nice" autogroup with Some v => v | None => VNull end.

(** One thread of the report by autogroup. *)
Definition autogroup_step (autogroup_map : list (string * Value)) (e : string * Value)
    : list (string * Value) :=
  match snd e with
  | VObject obj =>
      match map_get "autogroup" obj with
      | Some (VObject autogroup) =>
          let group := group_num autogroup in
          let autogroup_map :=
            match map_get group autogroup_map with
            | Some _ => autogroup_map
            | None =>
                map_insert group
                  (VObject (map_insert "proc" (VObject []) (map_insert "nice" (group_nice autogroup) [])))
                  autogroup_map
            end in
          let obj := map_remove "autogroup" obj in
          match map_get group autogroup_map with
          | Some (VObject entry) =>
              match map_get "proc" entry with
              | Some (VObject procs) =>
                  map_insert group
                    (VObject (map_insert "proc" (VObject (map_insert (fst e) (VObject obj) procs)) entry))
                    autogroup_map
              | _ => autogroup_map
              end
          | _ => autogroup_map
          end
      | _ => autogroup_map
      end
  | _ => autogroup_map
  end.

Definition dump_autogroup (process_info_map : list (string * Value)) : list (string * Value) :=
  foldl autogroup_step [] process_info_map.

(** ** Diagnostics *)

(** [{what:<30}] *)
Definition pad30 (s : string) : string := sapp s (string_of (repeat 32 (30 - slen s))).

Definition debug_memory (s : Snapshot) : list string :=
  sapp "Cgroup: " (match snap_cgroup s with
                   | Some path => path
                   | None => "<none: no unified hierarchy, or it is not visible here>" end) ::
  map (fun e => concat_all [pad30 (fst e); " "; Memstats.count (snd e)])
    [("Heap (VmData)", vm_data s); ("Resident (VmRSS)", vm_rss s); ("Swapped (VmSwap)", vm_swap s);
     ("Own text (VmExe)", vm_exe s); ("Libraries (VmLib)", vm_lib s);
     ("cgroup memory.current", mem_current s); ("cgroup memory.high", mem_high s);
     ("cgroup memory.max", mem_max s); ("cgroup anon", anon s); ("cgroup file", mem_file s);
     ("cgroup kernel", mem_kernel s); ("cgroup slab", slab s); ("pgfault", pgfault s);
     ("pgmajfault", pgmajfault s); ("workingset_refault_file", refault_file s);
     ("workingset_refault_anon", refault_anon s); ("pswpout", pswpout s); ("pswpin", pswpin s);
     ("memory.events:high", high_events s); ("memory.events:max", max_events s);
     ("io.stat read", read_bytes s); ("io.stat written", written_bytes s)] ++
  match findings s with
  | [] => [sapp newline "Nothing to report: this process is not being made to re-fetch its own memory."]
  | findings => map (sapp newline) findings
  end.

(** [print_file], the text given to [println!]. *)
Definition print_file (path : string) (content : option string) : string :=
  concat_all ["#### BEGIN "; path; " #####"; newline; or_empty content; newline;
              "#### END "; path; " #####"].

Definition cgroup_path_from_line (line : string) : string :=
  if String.eqb line EmptyString then "<empty>"
  else match rfind_char ":"%char line with Some idx => sdrop (idx + 1) line | None => line end.

Definition get_cgroup_for_pid (content : option string) : string :=
  match content with
  | None => "<empty>"
  | Some content =>
      cgroup_path_from_line (match lines content with line :: _ => line | [] => EmptyString end)
  end.

(** ** Properties *)
Module DumpProps.

Lemma foldl_collect {A} (l acc : list (string * A)) k :
  map_get k (foldl (fun m e => map_insert (fst e) (snd e) m) acc l) =
  match map_get k (reverse l) with Some v => Some v | None => map_get k acc end.
Proof.
  revert acc. induction l as [|[k' v] l IH]; intros acc; [done|]. cbn [foldl fst snd].
  rewrite IH, map_get_insert, reverse_cons. clear IH. induction (reverse l) as [|[k2 v2] r IHr]; cbn.
  - by destruct (String.eqb k k').
  - destruct (String.eqb k k2); [done|]. exact IHr.
Qed.

(** A key that is there once is collected with its value. *)
Lemma map_get_collect {A} (l : list (string * A)) k :
  map_get k (collect l) = map_get k (reverse l).
Proof. unfold collect. rewrite foldl_collect. by destruct (map_get k (reverse l)). Qed.

Lemma map_get_elem {A} (l : list (string * A)) k v :
  NoDup l.*1 -> map_get k l = Some v <-> (k, v) ∈ l.
Proof.
  induction l as [|[k' v'] l IH]; cbn; [intros _; split; [done|by intros ?%elem_of_nil]|].
  intros H. inversion_clear H as [|? ? Hk Hl]. rewrite elem_of_cons. destruct (String.eqb_spec k k') as [->|Hne].
  - split; [by intros [= ->]; left|]. intros [[= ->]|Hin]; [done|].
    exfalso. apply Hk. apply list_elem_of_fmap. by exists (k', v).
  - rewrite IH by done. split; [by right|]. by intros [[= ]|].
Qed.

Lemma collect_elem {A} (l : list (string * A)) k v :
  NoDup l.*1 -> map_get k (collect l) = Some v <-> (k, v) ∈ l.
Proof.
  intros Hl. rewrite map_get_collect, map_get_elem.
  - by rewrite elem_of_reverse.
  - by rewrite fmap_reverse, reverse_Permutation.
Qed.

(** *** Autogroups *)

(** The group of a thread in the report, with its nice value, and the thread without
    its autogroup. *)
Definition group_of (v : Value) : option (string * Value * Value) :=
  match v with
  | VObject obj =>
      match map_get "autogroup" obj with
      | Some (VObject autogroup) =>
          Some (group_num autogroup, group_nice autogroup, VObject (map_remove "autogroup" obj))
      | _ => None
      end
  | _ => None
  end.

(** A thread and the nice value in the report by group. *)
Definition thread_in (m : list (string * Value)) (group tid : string) : option Value :=
  v ← map_get group m; entry ← as_object v; v ← map_get "proc" entry; procs ← as_object v;
  map_get tid procs.
Definition nice_in (m : list (string * Value)) (group : string) : option Value :=
  v ← map_get group m; entry ← as_object v; map_get "nice" entry.

(** Every group of the report has its threads. *)
Definition groups_ok (m : list (string * Value)) : Prop :=
  forall group v, map_get group m = Some v ->
    exists entry procs, v = VObject entry /\ map_get "proc" entry = Some (VObject procs).

Lemma autogroup_skip m e : group_of (snd e) = None -> autogroup_step m e = m.
Proof. unfold group_of, autogroup_step. by repeat case_match. Qed.

Lemma autogroup_insert m tid v group nice v' :
  groups_ok m -> group_of v = Some (group, nice, v') ->
  exists entry procs,
    autogroup_step m (tid, v) =
      map_insert group (VObject (map_insert "proc" (VObject (map_insert tid v' procs)) entry))
        (match map_get group m with
         | Some _ => m
         | None => map_insert group (VObject (map_insert "proc" (VObject []) (map_insert "nice" nice []))) m
         end) /\
    match map_get group m with
    | Some w => w = VObject entry /\ map_get "proc" entry = Some (VObject procs)
    | None => entry = map_insert "proc" (VObject []) (map_insert "nice" nice []) /\ procs = []
    end.
Proof.
  intros Hm. unfold group_of, autogroup_step. cbn [fst snd].
  destruct v as [| | | | |obj]; try done. destruct (map_get "autogroup" obj) as [[| | | | |ag]|]; try done.
  intros [= <- <- <-]. destruct (map_get (group_num ag) m) as [w|] eqn:E.
  - destruct (Hm _ _ E) as (entry & procs & -> & Hp). rewrite E, Hp. by exists entry, procs.
  - rewrite map_get_insert_eq. cbn iota. by eexists _, [].
Qed.

Lemma autogroup_step_spec m tid v group nice v' :
  groups_ok m -> group_of v = Some (group, nice, v') ->
  let m' := autogroup_step m (tid, v) in
  groups_ok m' /\
  (forall g k, thread_in m' g k =
     if String.eqb g group && String.eqb k tid then Some v' else thread_in m g k) /\
  (forall g, nice_in m' g =
     if String.eqb g group then match map_get group m with Some _ => nice_in m group | None => Some nice end
     else nice_in m g) /\
  (forall g, map_get g m' = None <-> g <> group /\ map_get g m = None).
Proof.
  intros Hm Hg. destruct (autogroup_insert m tid v group nice v' Hm Hg) as (entry & procs & E & Hold).
  cbn zeta. rewrite E. clear E Hg.
  set (m0 := match map_get group m with Some _ => m | None => _ end).
  assert (H0 : forall g, g <> group -> map_get g m0 = map_get g m).
  { intros g Hne. subst m0. destruct (map_get group m); [done|]. by apply map_get_insert_ne. }
  split_and!.
  - intros g w. rewrite map_get_insert. destruct (String.eqb_spec g group) as [->|Hne].
    + intros [= <-]. eexists _, _. split; [done|]. apply map_get_insert_eq.
    + rewrite H0 by done. apply Hm.
  - intros g k. unfold thread_in. rewrite map_get_insert. destruct (String.eqb_spec g group) as [->|Hne].
    + cbn [mbind option_bind as_object andb]. rewrite map_get_insert_eq. cbn [mbind option_bind as_object].
      rewrite map_get_insert. destruct (String.eqb k tid); [done|].
      destruct (map_get group m) as [w|]; [destruct Hold as [-> Hp]|destruct Hold as [-> ->]; done].
      cbn [mbind option_bind as_object]. by rewrite Hp.
    + cbn [andb]. by rewrite H0.
  - intros g. unfold nice_in. rewrite map_get_insert. destruct (String.eqb_spec g group) as [->|Hne].
    + cbn [mbind option_bind as_object]. rewrite map_get_insert_ne by done.
      destruct (map_get group m) as [w|]; [destruct Hold as [-> _]; done|destruct Hold as [-> _]; done].
    + by rewrite H0.
  - intros g. rewrite map_get_insert. destruct (String.eqb_spec g group) as [->|Hne]; [naive_solver|].
    rewrite H0 by done. naive_solver.
Qed.

(** The first thread of a group, in the order of the report, decides its nice value. *)
Definition first_nice (l : list (string * Value)) (group : string) : option Value :=
  find_map (fun e => match group_of (snd e) with
                     | Some (g, nice, _) => if String.eqb g group then Some nice else None
                     | None => None
                     end) l.

Definition placed (v : option Value) (group : string) : option Value :=
  match v ≫= group_of with
  | Some (g, _, v') => if String.eqb g group then Some v' else None
  | None => None
  end.

Lemma groups_foldl l m :
  NoDup l.*1 -> groups_ok m -> (forall g k, k ∈ l.*1 -> thread_in m g k = None) ->
  let m' := foldl autogroup_step m l in
  groups_ok m' /\
  (forall g k, thread_in m' g k =
     match map_get k l with Some v => placed (Some v) g | None => thread_in m g k end) /\
  (forall g, nice_in m' g =
     match map_get g m with Some _ => nice_in m g | None => first_nice l g end).
Proof.
  revert m. induction l as [|[tid v] l IH]; intros m Hl Hm Hn; cbn zeta.
  { split_and!; [done..|]. intros g. unfold nice_in. cbn. by destruct (map_get g m). }
  cbn [foldl fmap list_fmap fst] in *. inversion_clear Hl as [|? ? Htid Hl'].
  destruct (group_of v) as [[[group nice] v']|] eqn:Eg.
  - destruct (autogroup_step_spec m tid v group nice v' Hm Eg) as (H1 & H2 & H3 & H4).
    destruct (IH (autogroup_step m (tid, v)) Hl' H1) as (I1 & I2 & I3).
    { intros g k Hk. rewrite H2. destruct (String.eqb_spec k tid) as [->|]; [done|].
      rewrite andb_false_r. apply Hn. by right. }
    split_and!; [done| |].
    + intros g k. rewrite I2, H2. cbn [map_get]. destruct (String.eqb_spec k tid) as [->|Hne].
      * apply map_get_none in Htid. rewrite Htid, andb_true_r. unfold placed. cbn [mbind option_bind].
        rewrite Eg, (String.eqb_sym group g). destruct (String.eqb g group); [done|]. apply Hn. by left.
      * rewrite andb_false_r. done.
    + intros g. rewrite I3. unfold first_nice. cbn [find_map snd]. rewrite Eg, (String.eqb_sym group g).
      destruct (map_get g (autogroup_step m (tid, v))) as [w|] eqn:Ew.
      * rewrite H3. destruct (String.eqb_spec g group) as [->|Hne]; [by destruct (map_get group m)|].
        destruct (map_get g m) eqn:Em; [done|]. exfalso. by rewrite (proj2 (H4 g)) in Ew.
      * apply H4 in Ew as [Hne ->]. by destruct (String.eqb_spec g group).
  - rewrite autogroup_skip by done. destruct (IH m Hl' Hm) as (I1 & I2 & I3).
    { intros g k Hk. apply Hn. by right. }
    split_and!; [done| |].
    + intros g k. rewrite I2. cbn [map_get]. destruct (String.eqb_spec k tid) as [->|Hne]; [|done].
      apply map_get_none in Htid. rewrite Htid. unfold placed. cbn [mbind option_bind]. rewrite Eg.
      apply Hn. by left.
    + intros g. rewrite I3. unfold first_nice. cbn [find_map snd]. by rewrite Eg.
Qed.

(** *** The order of the report *)

Definition key_lt (a b : string) : Prop := String.compare a b = Lt.

#[local] Instance key_lt_trans : Transitive key_lt.
Proof.
  unfold key_lt. intros a. induction a as [|x a IH]; intros [|y b] [|z c]; cbn; try done.
  unfold Ascii.compare.
  destruct (N.compare_spec (N_of_ascii x) (N_of_ascii y)) as [Exy|Exy|Exy]; try done;
    destruct (N.compare_spec (N_of_ascii y) (N_of_ascii z)) as [Eyz|Eyz|Eyz]; try done; intros H1 H2.
  - rewrite Exy, Eyz, N.compare_refl. by apply (IH b).
  - rewrite Exy. by rewrite (proj2 (N.compare_lt_iff _ _) Eyz).
  - rewrite <- Eyz. by rewrite (proj2 (N.compare_lt_iff _ _) Exy).
  - by rewrite (proj2 (N.compare_lt_iff _ _) (N.lt_trans _ _ _ Exy Eyz)).
Qed.

(** The keys are in order. *)
Definition in_order {A} (m : list (string * A)) : Prop := StronglySorted key_lt m.*1.

Lemma in_order_nodup {A} (m : list (string * A)) : in_order m -> NoDup m.*1.
Proof.
  unfold in_order. induction (m.*1) as [|k l IH]; [constructor|]. inversion_clear 1 as [|? ? Hl Hk].
  constructor; [|by apply IH]. intros Hin. rewrite list.Forall_forall in Hk. specialize (Hk k Hin).
  unfold key_lt in Hk. by rewrite compare_refl in Hk.
Qed.

Lemma insert_keys {A} (P : string -> Prop) k (v : A) m :
  Forall P m.*1 -> P k -> Forall P (map_insert k v m).*1.
Proof.
  induction m as [|[k' v'] m IH]; cbn; intros Hm Hk; [by repeat constructor|].
  inversion_clear Hm as [|? ? H1 H2]. case_match; cbn; constructor; auto.
Qed.

Lemma insert_in_order {A} k (v : A) m : in_order m -> in_order (map_insert k v m).
Proof.
  unfold in_order. induction m as [|[k' v'] m IH]; cbn; intros Hm; [by repeat constructor|].
  inversion_clear Hm as [|? ? Hs Hf]. destruct (String.compare k k') eqn:E; cbn.
  - by constructor.
  - constructor; [by constructor|]. constructor; [done|].
    eapply list.Forall_impl; [exact Hf|]. intros j Hj. by transitivity k'.
  - constructor; [by apply IH|]. apply insert_keys; [done|]. unfold key_lt.
    rewrite String.compare_antisym, E. done.
Qed.

Section Processes.
Context {Hjson : JsonParser} {Hregex : RegexEngine} {Hlru : Lru string (option RuleName)}
  {Horder : HashOrder}.

Lemma threads_in_order src p rule tasks m m' :
  in_order m -> dump_threads src p rule tasks m = Some m' -> in_order m'.
Proof.
  revert m. induction tasks as [|file tasks IH]; cbn; intros m Hm H; [by injection H as <-|].
  destruct (parse_i32 file) as [tid|]; [|by eapply IH].
  destruct (from_parts _ _ _ _ _ _ _ _); [|done]. eapply IH; [|exact H]. by apply insert_in_order.
Qed.

Lemma processes_in_order src ps rs m m' :
  in_order m -> get_process_info_map src ps rs m = Some m' -> in_order m'.
Proof.
  revert rs m. induction ps as [|p ps IH]; cbn; intros rs m Hm H; [by injection H as <-|].
  destruct (dump_rule_name rs p) as [rs1 rule]. destruct (ds_tasks src (process_pid p)) as [tasks|];
    [|by eapply IH].
  destruct (dump_threads src p rule tasks m) eqn:E; [|done]. eapply IH; [|exact H].
  by eapply threads_in_order.
Qed.

(** The report by autogroup regroups the report by thread and loses nothing: a thread
    stands in the group of its own autogroup, without that field, and in no other;
    one without an autogroup is left out; and a group has the nice value of the
    first of its threads. *)
Theorem autogroup_regroups (src : dump_source) (processes : list Process) (rs : Rules)
    (process_info_map : list (string * Value)) :
  get_process_info_map src processes rs [] = Some process_info_map ->
  let m := dump_autogroup process_info_map in
  (forall group tid, thread_in m group tid = placed (map_get tid process_info_map) group) /\
  (forall group, nice_in m group = first_nice process_info_map group).
Proof.
  intros Hp. assert (H0 : in_order (A := Value) []) by constructor. cbn zeta.
  pose proof (in_order_nodup _ (processes_in_order _ _ _ _ _ H0 Hp)) as Hl.
  destruct (groups_foldl process_info_map [] Hl) as (_ & H2 & H3); [done|done|].
  split; [|exact H3]. intros group tid. unfold dump_autogroup. rewrite H2.
  by destruct (map_get tid process_info_map).
Qed.

(** [dump rules] lists the rules in force, each under its name and no other. *)
Theorem dump_rules_exact {Horderlaws : HashOrderLaws} (t : NameTable) (rs : Rules) (n : string) (v : Value) :
  index_ok (programs rs) (length (rules rs)) ->
  get n (dump_rules t rs) = Some v <->
  exists r, resolve rs (Some n) = Some (n, r) /\ v = to_json t r n.
Proof.
  intros Hi. destruct (iter_rules_spec rs Hi) as (Hn & _ & Hin). unfold dump_rules. cbn [get as_object mbind option_bind].
  set (f := fun e : RuleName * Rule => (fst e, to_json t (snd e) (fst e))).
  assert (Hk : (map f (iter_rules rs)).*1 = (iter_rules rs).*1)
    by (clear; induction (iter_rules rs) as [|e l IH]; [done|]; cbn; f_equal; exact IH).
  rewrite collect_elem by (by rewrite Hk). rewrite list_elem_of_fmap. unfold f. split.
  - intros ([m r] & [= -> ->] & Hm). exists r. split; [by apply Hin|done].
  - intros (r & Hr & ->). exists (n, r). split; [done|by apply Hin].
Qed.

(** The work of the worker on a process, with the rule in hand. *)
Section Applied.
Context {W : Type} {Hplatform : PlatformActions W} {Hweight : WeightOfNice}.
Context (aliases : gmap string string) (bench : option Z) (bug : bool).

Definition applied_world (p : Process) (rule : option Rule) (s : worker_state (W := W)) : W :=
  let '(w, is_rt) := is_realtime (process_pid p) (world s) in
  match rule with
  | None => w
  | Some rule =>
      let '(w, (tids, _)) := thread_ids (process_pid p) w in
      fst (apply_rule (names s) aliases p tids rule (Worker.config s) is_rt bug w)
  end.

Lemma work_on_applies {Hlaws : LruLaws string (option RuleName)} p rs (s : worker_state (W := W)) :
  coherent rs -> store (shared s) !! current (shared s) = Some rs ->
  process_pid p <> 0 -> name_is_authoritative p = true ->
  world (work_on aliases bench bug p s) =
  applied_world p (snd <$> resolve rs (find_best_match rs (strip_wrapped (name p)))) s.
Proof.
  intros Hc Hs Hp Ha. unfold work_on, applied_world, resolve_name, shared_get, shared_get_rule.
  rewrite (proj2 (Z.eqb_neq _ _) Hp), Ha, Hs.
  pose proof (get_rule_spec (strip_wrapped (name p)) rs Hc) as Hr.
  destruct (get_rule (strip_wrapped (name p)) rs) as [rs1 found]. destruct Hr as (-> & _).
  destruct (is_realtime _ _) as [w is_rt]. destruct (resolve rs _) as [[n rule]|]; [|done]. cbn.
  destruct (thread_ids _ _) as [w1 [tids failed]]. by destruct (apply_rule _ _ _ _ _ _ _ _ _).
Qed.

(** C40. The rule named in the report of a process, and the one the worker of a daemon with
    the same rules applies to it.  For a name that is not that of a NixOS wrapper they
    are the same, and where none is named none is applied, as long as no rule is
    declared under the empty name.  For the name of a wrapper the worker goes by the
    wrapped name and the report by the name as it is: with no regular expressions among
    the rules and no rule under the wrapper's own name, the report names none although
    the rule of the wrapped name is applied. *)
Theorem reported_rule {Hlaws : LruLaws string (option RuleName)} (p : Process) (rs : Rules)
    (s : worker_state (W := W)) :
  coherent rs -> index_ok (programs rs) (length (rules rs)) ->
  store (shared s) !! current (shared s) = Some rs ->
  process_pid p <> 0 -> name_is_authoritative p = true ->
  (strip_wrapped (name p) = name p -> programs rs !! EmptyString = None ->
   exists found, (forall n r, found = Some (n, r) -> resolve rs (Some n) = Some (n, r)) /\
     snd (dump_rule_name rs p) = fst <$> found /\
     world (work_on aliases bench bug p s) = applied_world p (snd <$> found) s) /\
  (regex_programs rs = [] -> programs rs !! name p = None ->
   forall i, programs rs !! strip_wrapped (name p) = Some i ->
   exists r, resolve rs (Some (strip_wrapped (name p))) = Some (strip_wrapped (name p), r) /\
     snd (dump_rule_name rs p) = None /\
     world (work_on aliases bench bug p s) = applied_world p (Some r) s).
Proof.
  intros Hc Hi Hs Hp Ha. rewrite (work_on_applies p rs s Hc Hs Hp Ha). unfold dump_rule_name.
  pose proof (get_rule_spec (name p) rs Hc) as Hr.
  destruct (get_rule (name p) rs) as [rs1 found] eqn:E. destruct Hr as (-> & _). split.
  - intros -> He. exists (resolve rs (find_best_match rs (name p))).
    destruct (find_best_match rs (name p)) as [m|]; [|done].
    destruct (resolve rs (Some m)) as [[n r]|] eqn:Er; [|done].
    assert (n = m /\ programs rs !! n <> None) as [-> Hn].
    { unfold resolve in Er. repeat case_match; simplify_eq. split; [done|congruence]. }
    split; [by intros ? ? [= <- <-]|]. split; [|done]. cbn.
    destruct (String.eqb_spec m EmptyString) as [->|]; [by rewrite He in Hn|done].
  - intros Hx Hn i Hw. destruct (find_exact rs (strip_wrapped (name p)) i Hi Hw) as [Hf [r Hres]].
    exists r. rewrite Hf, Hres. split; [done|]. split; [|done].
    unfold find_best_match. by rewrite Hn, Hx.
Qed.
End Applied.
End Processes.

(** One process with two threads in an autogroup and a kernel thread without. *)
Definition demo_thread (autogroup : option string) : info_source :=
  MkInfoSource None None None None (Some "firefox") (Some "42 (firefox) S 1") autogroup None None.
Definition demo_source : dump_source :=
  MkDumpSource (fun _ => None) (fun _ => Some "firefox") (fun _ => Some "0")
    (fun pid => Some (if pid =? 42 then ["42"; "43"] else ["7"]))
    (fun pid _ => demo_thread (if pid =? 42 then Some "/autogroup-3 nice 7" else None)).
Definition demo_processes : list Process := [Process_new 42 ".firefox-wrapped"; Process_new 7 "kthreadd"].

#[local] Instance demo_json : JsonParser := fun _ => None.
#[local] Existing Instances prefix_engine map_order list_lru_ops.

(** A rule set with one rule, for [firefox]. *)
Definition demo_rules : Rules :=
  set_cache (lru_clear (resolved_cache Rules_new))
    (snd (fst (define_program "firefox" (VObject [("name", VString "firefox")]) NameTable_default Rules_new))).

Lemma autogroup_regroups_witness :
  match get_process_info_map demo_source demo_processes demo_rules [] with
  | Some m =>
      length m = 3%nat /\ nice_in (dump_autogroup m) "3" = Some (VNumber (PosInt 7)) /\
      is_Some (thread_in (dump_autogroup m) "3" "43") /\ thread_in (dump_autogroup m) "3" "7" = None
  | None => False
  end.
Proof.
  destruct (get_process_info_map demo_source demo_processes demo_rules []) as [m|] eqn:E;
    [|vm_compute in E; discriminate E].
  destruct (autogroup_regroups demo_source demo_processes demo_rules m E) as [H1 H2].
  rewrite H2, !H1. vm_compute in E. injection E as <-. vm_compute. repeat split. eexists. reflexivity.
Defined.

Lemma demo_index : index_ok (programs demo_rules) (length (rules demo_rules)).
Proof.
  assert (E : programs demo_rules = {["firefox" := 0]}) by (apply map_eq; reflexivity || by vm_compute).
  change (length (rules demo_rules)) with 1%nat. rewrite E. split.
  - intros n i [_ <-]%lookup_singleton_Some. lia.
  - intros n m i [<- _]%lookup_singleton_Some [<- _]%lookup_singleton_Some. done.
  - intros k Hk. exists "firefox". replace k with 0%nat by lia. by apply lookup_singleton_Some.
Qed.

Definition demo_worker : worker_state (W := list call) :=
  MkWorker [] NameTable_default (shared_new demo_rules) Config.default 0 false [].
#[local] Instance demo_weight : WeightOfNice := fun _ => 20.

Lemma reported_rule_witness :
  snd (dump_rule_name demo_rules (Process_new 42 ".firefox-wrapped")) = None /\
  exists r, resolve demo_rules (Some "firefox") = Some ("firefox", r) /\
    world (work_on (Hplatform := recorder WorkerProps.demo_env) ∅ None false
             (with_authoritative_name (Process_new 42 ".firefox-wrapped")) demo_worker) =
    applied_world (Hplatform := recorder WorkerProps.demo_env) ∅ false
             (with_authoritative_name (Process_new 42 ".firefox-wrapped")) (Some r) demo_worker.
Proof.
  destruct (proj2 (reported_rule (Hplatform := recorder WorkerProps.demo_env) ∅ None false
    (with_authoritative_name (Process_new 42 ".firefox-wrapped")) demo_rules demo_worker
    (coherent_cleared _ _) demo_index eq_refl ltac:(by cbn) eq_refl) eq_refl eq_refl 0 eq_refl)
    as (r & Hr & Hd & Hw).
  split; [exact Hd|]. exists r. split; [exact Hr|exact Hw].
Defined.

End DumpProps.
