(* ===== verification/Reports.v ===== *)
(** * The reports on the console

    [dump::run] and [debug::run] with everything they print, the unit name of
    [service.rs], what [force_remove_semaphore] of [ipc.rs] prints, and [main] of
    [Cli] on a [Console].

    Printing JSON is serde_json's, the class [JsonPrinter]; how a path is quoted by
    [{:?}] is the class [PathDebug]; libsystemd's answer is an argument. *)

From stdpp Require Import base list gmap strings numbers.
From Stdlib Require Import ZArith Lia Ascii.
From S2P Require Import Prelude RustStr Paths Process Config Json RuleData LruCache RuleSet Kernel Priority.
From S2P Require Import Files CgroupManager Topology X3d Daemon Memstats Systemd Console ProcessInfo Dump Cli.
From S2P Require Ipc.

#[local] Open Scope Z_scope.

(** [serde_json::to_string_pretty]. *)
Class JsonPrinter := to_string_pretty : Json.Value -> option string.

(** [{:?}] of a path: in quotes, and as it is when nothing in it has to be escaped. *)
Class PathDebug := debug_path : string -> string.
Definition plain_char (a : ascii) : bool :=
  graphic a && negb (existsb (Ascii.eqb a) ["034"%char; "039"%char; "092"%char]).
Definition quoted (s : string) : string := concat_all [String "034"%char EmptyString; s; String "034"%char EmptyString].
Class PathDebugLaws {Hd : PathDebug} : Prop :=
  debug_plain s : sforall plain_char s = true -> debug_path s = quoted s.

(** ** [service.rs] *)

(** [sd] is what [sd_pid_get_unit] returned: its result and the string it left, if
    any; [systemd] is the cargo feature. *)
Definition get_unit_name (systemd : bool) (sd : Z * option (list Z)) (own_cgroup : option string) : string :=
  if systemd then
    match sd with
    | (res, Some name) =>
        if 0 <=? res then from_utf8_lossy name else get_unit_name_heuristic own_cgroup
    | (_, None) => get_unit_name_heuristic own_cgroup
    end
  else "<not using systemd>".

Section Reports.
Context {W : Type} {HC : Console W} {Hp : JsonPrinter} {Hd : PathDebug}.
Context {Hjson : JsonParser} {Hregex : RegexEngine} {Hlru : Lru string (option RuleName)}
  {Horder : HashOrder}.

(** ** [dump.rs] *)

Definition print_json (v : Json.Value) : io W unit := c_println (or_empty (to_string_pretty v)).

(** What the report of the processes starts from: the processes the scan sends, or the
    error of the thread it could not start. *)
Record dump_env := MkDumpEnv {
  de_table : NameTable;
  de_rules : Rules;
  de_source : dump_source;
  de_scan : list Process + string;
}.

Definition DUMP_REFUSED : string :=
  "Refusing to print an empty dump, which would be indistinguishable from a machine with no processes.".

Definition process_report (env : dump_env) (report : list (string * Json.Value) -> Json.Value)
    : io W (ending unit) :=
  match de_scan env with
  | inr e =>
      _ ← c_eprintln (snd (spawn_error "ananicy-dump" (tt, e)));
      _ ← c_eprintln DUMP_REFUSED;
      mret (Exit 1)
  | inl processes =>
      match get_process_info_map (de_source env) processes (de_rules env) [] with
      | None => mret Panic
      | Some process_map => _ ← print_json (report process_map); mret (Value tt)
      end
  end.

Definition dump_processes (env : dump_env) : io W (ending unit) := process_report env VObject.
Definition dump_autogroups (env : dump_env) : io W (ending unit) :=
  process_report env (fun m => VObject (dump_autogroup m)).

Definition dump_run (target : DumpTarget) (env : dump_env) : io W (ending unit) :=
  match target with
  | DumpRules => _ ← print_json (dump_rules (de_table env) (de_rules env)); mret (Value tt)
  | DumpTypes => _ ← print_json (dump_types (de_rules env)); mret (Value tt)
  | DumpCgroups => _ ← print_json (dump_cgroups (de_rules env)); mret (Value tt)
  | DumpProc => dump_processes env
  | DumpAutogroup => dump_autogroups env
  end.

(** ** [debug.rs] *)

(** What [debug cgroups] reads; an entry of the listing is a path or an error. *)
Record debug_env := MkDebugEnv {
  dg_mtab : option string;
  dg_info : CgroupInfo;
  dg_listing : list (string + string) + string;
  dg_unit_name : string;
  dg_cgroup : option string;
  dg_snapshot : Snapshot;
}.

Definition listing_error (e : string) : string := sapp "print_debug_for_issue<21>: error: " e.

Fixpoint print_entries (entries : list (string + string)) : io W unit :=
  match entries with
  | [] => mret tt
  | inl path :: entries => _ ← c_println (debug_path path); print_entries entries
  | inr e :: _ => warn (listing_error e)
  end.

Definition print_debug_cgroups (env : debug_env) (systemd_status : string) : io W unit :=
  _ ← c_println (print_file "/etc/mtab" (dg_mtab env));
  let cgroup_path := mount_point (dg_info env) in
  let version_num := match version (dg_info env) with NoCgroup => 0 | V1 => 1 | V2 => 2 end in
  _ ← c_event L_DEBUG (concat_all ["Cgroup info: "; fmt_uint version_num; ", path: "; cgroup_path]);
  _ ← (if bool_decide (version (dg_info env) = NoCgroup) then mret tt
       else
         _ ← c_println (concat_all ["#### BEGIN listing files in "; cgroup_path; " #####"]);
         _ ← (match dg_listing env with
              | inl entries => print_entries entries
              | inr e => warn (listing_error e)
              end);
         c_println (concat_all ["#### END listing files in "; cgroup_path; " #####"]));
  _ ← c_println (sapp "Systemd integration: " systemd_status);
  _ ← c_println (sapp "Unit name: " (dg_unit_name env));
  c_println (sapp "Cgroup: " (get_cgroup_for_pid (dg_cgroup env))).

Definition print_debug_memory (env : debug_env) : io W unit :=
  for_each c_println (debug_memory (dg_snapshot env)).

Definition debug_run (target : DebugTarget) (systemd_status : string) (env : debug_env) : io W unit :=
  match target with
  | DebugCgroups => print_debug_cgroups env systemd_status
  | DebugMemory => print_debug_memory env
  | DebugUnknown _ => mret tt
  end.

(** ** [ipc.rs] *)

(** What [--force-remove-semaphore] prints and exits with. *)
Definition force_remove_semaphore (errno_text : Z -> string) (r : Ipc.Removed) : io W Z :=
  match r with
  | Ipc.LiveDaemon pid =>
      _ ← c_eprintln (concat_all ["Refusing to remove the singleton object: it belongs to a running ";
                                  "ananicy-rs (pid "; fmt_int pid; ")."]);
      _ ← c_eprintln "Stop it first: systemctl stop ananicy-rs";
      mret 1
  | Ipc.Gone => _ ← info "Semaphore was successfully removed!"; mret 0
  | Ipc.Failed errno =>
      _ ← error (sapp "Failed to remove semaphore: " (errno_text errno)); mret 1
  end.
End Reports.

(** ** [main] on a console

    The operations of a running daemon are those of any instance; loading rules logs
    what it may. *)

Record main_inputs := MkMainInputs {
  mi_feature : bool;                       (* the systemd feature *)
  mi_config : ConfigSnapshot;
  mi_config_err : option string;
  mi_diagnostics : list ConfigDiagnostic;
  mi_latnice : bool;
  mi_topology : CpuTopology;
  mi_x3d : option X3DTopology;
  mi_rules_log : list (Level * string);
  mi_removed : Ipc.Removed;
  mi_dump : dump_env;
  mi_debug : debug_env;
}.

Section ConsoleMain.
Context {W : Type} {HC : Console W} {Hp : JsonPrinter} {Hd : PathDebug}.
Context {Hjson : JsonParser} {Hregex : RegexEngine} {Hlru : Lru string (option RuleName)}
  {Horder : HashOrder}.

Definition start_logging (i : main_inputs) (level : LogLevel) (verbose force_trace is_systemd : bool)
    : io W bool :=
  r ← init_logging (mi_feature i) level verbose force_trace is_systemd;
  match r with
  | None => mret true
  | Some e => _ ← c_eprintln (sapp "Failed to initialize logging: " e); mret false
  end.

Definition console_main_ops (i : main_inputs) (errno_text : Z -> string) (daemon_ops : MainOps W)
    : MainOps W := {|
  m_set_hook := c_set_hook;
  m_load_config _ := mret (mi_config i);
  m_init_logging := start_logging i;
  m_log := c_event;
  m_log_config := log_config (mi_config i) (mi_config_err i) (mi_diagnostics i) (mi_latnice i);
  m_remove_semaphore := force_remove_semaphore errno_text (mi_removed i);
  m_topology := _ ← load_topology_aliases (mi_topology i) (mi_x3d i); mret tt;
  m_load_rules _ := for_each (fun e => c_event (fst e) (snd e)) (mi_rules_log i);
  m_dump target := dump_run target (mi_dump i);
  m_debug target status := debug_run target status (mi_debug i);
  m_request_reload := m_request_reload (MainOps := daemon_ops);
  m_getuid := m_getuid (MainOps := daemon_ops);
  m_report := m_report (MainOps := daemon_ops);
  m_check_singleton := m_check_singleton (MainOps := daemon_ops);
  m_platform_new := m_platform_new (MainOps := daemon_ops);
  m_install_signals := m_install_signals (MainOps := daemon_ops);
  m_set_priority := m_set_priority (MainOps := daemon_ops);
  m_apply_x3d := m_apply_x3d (MainOps := daemon_ops);
  m_check_disks := m_check_disks (MainOps := daemon_ops);
  m_start_memstats := m_start_memstats (MainOps := daemon_ops);
  m_run := m_run (MainOps := daemon_ops);
  m_drop_guard := m_drop_guard (MainOps := daemon_ops);
|}.

(** ** Lemmas *)
Context {HL : ConsoleLaws W}.

(** What a computation adds to standard output, by its result, when nothing is logged
    there; and it leaves it so. *)
Definition logs_apart (w : W) : Prop := logs_elsewhere (subscriber (observe w)).
Definition prints {A} (c : io W A) (P : A -> list string -> Prop) : Prop :=
  forall w, logs_apart w ->
    logs_apart (fst (c w)) /\
    exists out, stdout (observe (fst (c w))) = stdout (observe w) ++ map Printed out /\ P (snd (c w)) out.
Definition exactly {A} (l : list string) : A -> list string -> Prop := fun _ out => out = l.
Definition quiet {A} (c : io W A) : Prop := prints c (exactly []).

Lemma prints_ret {A} (a : A) (P : A -> list string -> Prop) : P a [] -> prints (mret a) P.
Proof. intros H w Hw. split; [done|]. exists []. cbn. by rewrite app_nil_r. Qed.
Lemma prints_bind {A B} (c : io W A) (k : A -> io W B) l (P : B -> list string -> Prop) :
  prints c (exactly l) -> (forall a, prints (k a) (fun b out => P b (l ++ out))) -> prints (c ≫= k) P.
Proof.
  intros H1 H2 w Hw. rewrite bind_run. destruct (H1 w Hw) as (Hw1 & out1 & E1 & ->).
  destruct (H2 (snd (c w)) _ Hw1) as (Hw2 & out2 & E2 & HP). split; [done|].
  exists (l ++ out2). by rewrite E2, E1, map_app, app_assoc.
Qed.
Lemma quiet_bind {A B} (c : io W A) (k : A -> io W B) P :
  quiet c -> (forall a, prints (k a) P) -> prints (c ≫= k) P.
Proof. apply (prints_bind c k []). Qed.
Lemma prints_mono {A} (c : io W A) (P Q : A -> list string -> Prop) :
  prints c P -> (forall a out, P a out -> Q a out) -> prints c Q.
Proof. intros H HPQ w Hw. destruct (H w Hw) as (? & out & ? & ?). eauto 8. Qed.
Lemma prints_line s : prints (c_println s) (exactly [s]).
Proof. intros w Hw. unfold logs_apart. rewrite println_law. split; [done|]. by exists [s]. Qed.
Lemma quiet_says {A} (c : io W A) l : says c l -> quiet c.
Proof.
  intros H w Hw. unfold logs_apart. rewrite (says_subscriber c l w H). split; [done|].
  exists []. by rewrite (says_stdout c l w H Hw), app_nil_r.
Qed.
Lemma quiet_event l s : quiet (c_event l s).
Proof. apply (quiet_says _ _ (says_event l s)). Qed.
Lemma quiet_same {A} (c : io W A) :
  (forall w, stdout (observe (fst (c w))) = stdout (observe w)) ->
  (forall w, logs_apart w -> logs_apart (fst (c w))) -> quiet c.
Proof. intros Ho Hs w Hw. split; [by apply Hs|]. exists []. by rewrite Ho, app_nil_r. Qed.
Lemma quiet_eprintln s : quiet (c_eprintln s).
Proof. by apply quiet_same; intros w; unfold logs_apart; rewrite eprintln_law. Qed.
Lemma quiet_set_hook : quiet c_set_hook.
Proof. by apply quiet_same; intros w; unfold logs_apart; rewrite set_hook_law. Qed.
Lemma prints_for_each l : prints (for_each c_println l) (exactly l).
Proof.
  induction l as [|s l IH]; [by apply prints_ret|].
  eapply (prints_bind _ _ [s]); [apply prints_line|]. intros _.
  apply (prints_mono _ _ _ IH). by intros [] out ->.
Qed.

(** A subscriber that does not write there does not have to be installed to keep
    standard output free of what is logged. *)
Lemma quiet_try_init k l : k <> Stdout -> quiet (c_try_init k l).
Proof.
  intros Hk. apply quiet_same; intros w; unfold logs_apart; pose proof (try_init_law k l w) as H;
    destruct (c_try_init k l w) as [w1 [e|]]; cbn [fst snd] in *.
  - by destruct H as (sub & -> & _).
  - by destruct H as [_ ->].
  - destruct H as (sub & -> & [-> | [_ ->]]); [done|]. intros _. unfold logs_elsewhere. cbn. congruence.
  - destruct H as [_ ->]. intros _. unfold logs_elsewhere. cbn. congruence.
Qed.
Lemma quiet_journald : quiet c_journald.
Proof. by apply quiet_same; intros w; unfold logs_apart; rewrite journald_law. Qed.
Lemma quiet_start_logging i level verbose force_trace is_systemd :
  quiet (start_logging i level verbose force_trace is_systemd).
Proof.
  unfold start_logging, init_logging. apply quiet_bind; [apply quiet_bind|].
  - destruct (_ && _); [apply quiet_journald|by apply prints_ret].
  - intros b. by destruct b; apply quiet_try_init.
  - intros [e|]; [|by apply prints_ret].
    apply quiet_bind; [apply quiet_eprintln|intros _; by apply prints_ret].
Qed.
Lemma quiet_log_all l : quiet (for_each (fun e : Level * string => c_event (fst e) (snd e)) l).
Proof. eapply quiet_says, (says_for_each _ (fun e => e)). intros [? ?]. apply says_event. Qed.

(** *** The answer of [dump] *)

Definition process_answer (env : dump_env) (report : list (string * Json.Value) -> Json.Value)
    : option Json.Value :=
  match de_scan env with
  | inl processes => report <$> get_process_info_map (de_source env) processes (de_rules env) []
  | inr _ => None
  end.
Definition dump_answer (target : DumpTarget) (env : dump_env) : option Json.Value :=
  match target with
  | DumpRules => Some (dump_rules (de_table env) (de_rules env))
  | DumpTypes => Some (dump_types (de_rules env))
  | DumpCgroups => Some (dump_cgroups (de_rules env))
  | DumpProc => process_answer env VObject
  | DumpAutogroup => process_answer env (fun m => VObject (dump_autogroup m))
  end.

(** A run that succeeds had an answer, and its text is the output. *)
Definition answers (answer : option Json.Value) (r : ending unit) (out : list string) : Prop :=
  match r with
  | Value _ => exists v, answer = Some v /\ out = [or_empty (to_string_pretty v)]
  | _ => out = []
  end.

Lemma print_json_answers v :
  prints (_ ← print_json v; mret (Value tt)) (answers (Some v)).
Proof. eapply prints_bind; [apply prints_line|]. intros _. apply prints_ret. by exists v. Qed.

Lemma process_report_prints env report :
  prints (process_report env report) (answers (process_answer env report)).
Proof.
  unfold process_report, process_answer. destruct (de_scan env) as [ps|e].
  - destruct (get_process_info_map _ _ _ _) as [m|]; [apply print_json_answers|by apply prints_ret].
  - apply quiet_bind; [apply quiet_eprintln|]. intros _.
    apply quiet_bind; [apply quiet_eprintln|]. intros _. by apply prints_ret.
Qed.

Lemma dump_run_prints target env : prints (dump_run target env) (answers (dump_answer target env)).
Proof.
  destruct target; cbn [dump_run dump_answer];
    first [apply process_report_prints | apply print_json_answers].
Qed.

(** *** The lines of [debug] *)

Fixpoint readable (entries : list (string + string)) : list string :=
  match entries with inl path :: entries => debug_path path :: readable entries | _ => [] end.

Definition debug_lines (target : DebugTarget) (systemd_status : string) (env : debug_env) : list string :=
  match target with
  | DebugCgroups =>
      [print_file "/etc/mtab" (dg_mtab env)] ++
      (if bool_decide (version (dg_info env) = NoCgroup) then []
       else
         let about := concat_all ["listing files in "; mount_point (dg_info env); " #####"] in
         [sapp "#### BEGIN " about] ++
         match dg_listing env with inl entries => readable entries | inr _ => [] end ++
         [sapp "#### END " about]) ++
      [sapp "Systemd integration: " systemd_status; sapp "Unit name: " (dg_unit_name env);
       sapp "Cgroup: " (get_cgroup_for_pid (dg_cgroup env))]
  | DebugMemory => debug_memory (dg_snapshot env)
  | DebugUnknown _ => []
  end.

Lemma print_entries_prints entries : prints (print_entries entries) (exactly (readable entries)).
Proof.
  induction entries as [|[path|e] entries IH]; cbn [print_entries readable]; [by apply prints_ret| |].
  - eapply prints_bind; [apply prints_line|]. intros _. apply (prints_mono _ _ _ IH). by intros [] out ->.
  - apply quiet_event.
Qed.

Lemma print_debug_cgroups_prints env status :
  prints (print_debug_cgroups env status) (exactly (debug_lines DebugCgroups status env)).
Proof.
  unfold print_debug_cgroups. cbn [debug_lines].
  eapply prints_bind; [apply prints_line|intros _].
  apply quiet_bind; [apply quiet_event|intros _].
  eapply (prints_bind _ _
    (if bool_decide (version (dg_info env) = NoCgroup) then [] else
     let about := concat_all ["listing files in "; mount_point (dg_info env); " #####"] in
     [sapp "#### BEGIN " about] ++
     match dg_listing env with inl entries => readable entries | inr _ => [] end ++
     [sapp "#### END " about])); [|intros _].
  - case_bool_decide; [by apply prints_ret|].
    eapply prints_bind; [apply prints_line|intros _].
    eapply (prints_bind _ _ (match dg_listing env with inl entries => readable entries | inr _ => [] end));
      [|intros _; eapply prints_mono; [apply prints_line|by intros [] out ->]].
    destruct (dg_listing env) as [entries|]; [apply print_entries_prints|apply quiet_event].
  - eapply prints_bind; [apply prints_line|intros _].
    eapply prints_bind; [apply prints_line|intros _].
    eapply prints_mono; [apply prints_line|]. by intros [] out ->.
Qed.
End ConsoleMain.
#[export] Hint Resolve quiet_event quiet_eprintln quiet_set_hook prints_line prints_ret : ananicy.

(** ** Properties *)
Module ReportsProps.

Section Laws.
Context {W : Type} {HC : Console W} {HL : ConsoleLaws W} {Hp : JsonPrinter} {Hd : PathDebug}.
Context {Hjson : JsonParser} {Hregex : RegexEngine} {Hlru : Lru string (option RuleName)}
  {Horder : HashOrder} {Hb : Bpaf}.

(** What a report puts on standard output when the program ends with [r]. *)
Definition report_output (i : main_inputs) (c : Commands) (status : string) (r : ending unit)
    (out : list string) : Prop :=
  match c, r with
  | Cli.Dump target, _ => answers (dump_answer target (mi_dump i)) r out
  | Cli.Debug (Some target), Value _ => out = debug_lines target status (mi_debug i)
  | _, _ => out = []
  end.
Definition is_report (args : Args) : bool :=
  negb (arg_force_remove_semaphore args) && negb (arg_reload args) &&
  match arg_command args with Some (Cli.Dump _) | Some (Cli.Debug _) => true | _ => false end.

(** From a loaded configuration on, [main] prints the report and nothing else. *)
Lemma debug_run_prints target status env :
  prints (debug_run target status env) (exactly (debug_lines target status env)).
Proof.
  destruct target; cbn [debug_run]; [apply print_debug_cgroups_prints|apply prints_for_each|by apply prints_ret].
Qed.

Lemma main_report_prints i errno_text daemon_ops supported var raw argv args c :
  parse argv = Value args -> is_report args = true -> arg_command args = Some c ->
  exists request,
    systemd_request (arg_systemd args) (arg_no_systemd args) = Some request /\
    prints (main (Hm := console_main_ops i errno_text daemon_ops) supported var raw argv)
      (report_output i c (systemd_status supported (resolve_systemd request (from_process var raw)))).
Proof.
  intros Hparse Hr Hcmd. destruct (CliProps.parse_value _ _ Hparse) as [Hs Hc].
  unfold is_report in Hr. rewrite Hcmd in Hr, Hc.
  apply andb_true_iff in Hr as [[Hf%negb_true_iff Hl%negb_true_iff]%andb_true_iff Hc'].
  destruct (systemd_request (arg_systemd args) (arg_no_systemd args)) as [request|] eqn:Hq; [|done].
  exists request. split; [done|].
  unfold main. apply quiet_bind.
  { destruct (backtrace_requested var); [by apply prints_ret|apply quiet_set_hook]. }
  intros _. rewrite Hparse, Hq. destruct (resolve_config_paths _ _ _) as [path dir].
  cbn [console_main_ops m_load_config m_init_logging m_log m_log_config m_topology m_load_rules m_dump m_debug].
  apply quiet_bind; [by apply prints_ret|]. intros config.
  apply quiet_bind; [apply quiet_start_logging|]. intros [|]; cbn [negb];
    [|apply prints_ret; by destruct c as [|[]| | |]].
  apply quiet_bind; [apply quiet_event|]. intros _.
  apply quiet_bind; [eapply quiet_says, says_log_config|]. intros _. rewrite Hf, Hl.
  apply quiet_bind; [destruct (_ && _); [apply quiet_event|by apply prints_ret]|]. intros _.
  apply quiet_bind; [apply quiet_event|]. intros _.
  apply quiet_bind; [apply quiet_bind; [eapply quiet_says, says_topology|intros a; by apply prints_ret]|].
  intros _. apply quiet_bind; [apply quiet_log_all|]. intros _. rewrite Hcmd.
  destruct c as [target|[target|]| | |]; try done; [apply dump_run_prints|].
  eapply prints_bind; [apply debug_run_prints|]. intros _. apply prints_ret. cbn. by rewrite app_nil_r.
Qed.

(** C36. Standard output carries the answer and nothing else.  In a process that has no
    subscriber yet, and whatever is configured, detected, warned of or logged on the
    way, a [dump] or [debug] run that succeeds has printed exactly its report there,
    the text of the JSON value or the lines of the sub-action, and a run that does not
    succeed nothing; no line of the log is among them, the formatter having been given
    standard error. *)
Theorem stdout_is_the_answer (i : main_inputs) (errno_text : Z -> string)
    (daemon_ops : MainOps W) (supported : bool) (var : string -> option string) (raw : option (list Z))
    (argv : list string) (args : Args) (w : W) :
  parse argv = Value args -> is_report args = true -> subscriber (observe w) = None ->
  let '(w', r) := main (Hm := console_main_ops i errno_text daemon_ops) supported var raw argv w in
  exists report,
    stdout (observe w') = stdout (observe w) ++ map Printed report /\
    match r, arg_command args with
    | Value _, Some (Cli.Dump target) =>
        exists v, dump_answer target (mi_dump i) = Some v /\ report = [or_empty (to_string_pretty v)]
    | Value _, Some (Cli.Debug (Some target)) =>
        exists request, systemd_request (arg_systemd args) (arg_no_systemd args) = Some request /\
          report = debug_lines target
                     (systemd_status supported (resolve_systemd request (from_process var raw))) (mi_debug i)
    | _, _ => report = []
    end.
Proof.
  intros Hparse Hr Hs. assert (exists c, arg_command args = Some c) as [c Hc].
  { unfold is_report in Hr. destruct (arg_command args); [eauto|]. by rewrite andb_false_r in Hr. }
  destruct (main_report_prints i errno_text daemon_ops supported var raw argv args c Hparse Hr Hc)
    as (request & Hq & H).
  destruct (H w) as (_ & out & Ho & HP); [by unfold logs_apart; rewrite Hs|].
  destruct (main supported var raw argv w) as [w' r]. cbn [fst snd] in Ho, HP.
  exists out. split; [exact Ho|]. rewrite Hc.
  destruct c as [target|[target|]| | |], r as [[]| |]; cbn in HP; eauto.
Qed.

(** [debug cgroups] lists the entries of the cgroup mount in the order they are read,
    each in quotes, up to the first that cannot be read, between its two markers. *)
Theorem listing_in_order {Hdlaws : PathDebugLaws} (names : list string) (rest : list (string + string))
    (status : string) (env : debug_env) (w : W) :
  version (dg_info env) <> NoCgroup -> dg_listing env = inl (map inl names ++ rest) ->
  (rest = [] \/ exists e rest', rest = inr e :: rest') -> Forall (fun n => sforall plain_char n = true) names ->
  logs_elsewhere (subscriber (observe w)) ->
  exists before after,
    stdout (observe (fst (debug_run DebugCgroups status env w))) =
    stdout (observe w) ++ map Printed (before ++
      [concat_all ["#### BEGIN listing files in "; mount_point (dg_info env); " #####"]] ++
      map quoted names ++
      [concat_all ["#### END listing files in "; mount_point (dg_info env); " #####"]] ++ after).
Proof.
  intros Hv Hl Hrest Hplain Hw.
  destruct (debug_run_prints DebugCgroups status env w Hw) as (_ & out & -> & ->).
  cbn [debug_lines]. rewrite bool_decide_eq_false_2, Hl by done.
  assert (readable (map inl names ++ rest) = map quoted names) as ->.
  { clear Hl. induction Hplain as [|n names Hn _ IH]; cbn [map app readable].
    - by destruct Hrest as [-> | (e & rest' & ->)].
    - by rewrite debug_plain, IH. }
  eexists [_], _. rewrite <- !app_assoc. reflexivity.
Qed.

(** A report that cannot be made is refused, not printed empty: when the scan of the
    processes cannot be started [dump] ends with status 1, says why on standard error
    and leaves standard output alone. *)
Theorem dump_refuses_empty (env : dump_env) (e : string) (target : DumpTarget) (w : W) :
  de_scan env = inr e -> target = DumpProc \/ target = DumpAutogroup ->
  let '(w', r) := dump_run target env w in
  r = Exit 1 /\
  observe w' = on_stderr DUMP_REFUSED
                 (on_stderr (concat_all ["failed to spawn the ananicy-dump thread: "; e]) (observe w)).
Proof.
  intros He Ht. assert (dump_run target env = process_report env (match target with DumpProc => VObject
    | _ => fun m => VObject (dump_autogroup m) end)) as -> by (by destruct Ht as [-> | ->]).
  unfold process_report. rewrite He. unfold mbind, io_bind.
  pose proof (eprintln_law (snd (spawn_error "ananicy-dump" (tt, e))) w) as H1.
  destruct (c_eprintln _ w) as [w1 []]. cbn [fst] in H1.
  pose proof (eprintln_law DUMP_REFUSED w1) as H2. destruct (c_eprintln DUMP_REFUSED w1) as [w2 []].
  cbn [fst] in H2. split; [done|]. by rewrite H2, H1.
Qed.
End Laws.

(** *** Witnesses *)

(** A printer and a parser of the empty object, a console that is its screen, and a
    command line that asks for the types. *)
#[local] Instance demo_printer : JsonPrinter :=
  fun v => match v with VObject [] => Some "{}" | _ => None end.
#[local] Instance demo_parser : JsonParser :=
  fun s => if String.eqb s "{}" then Some (VObject []) else None.
#[local] Instance demo_path_debug : PathDebug := quoted.

Definition dump_args : Args := CliProps.bare_args (Some (Cli.Dump DumpTypes)).
#[local] Instance demo_bpaf : Bpaf.
Proof.
  refine {| run_inner argv :=
    match argv with
    | [a] => if String.eqb a "--help" then Failed true
             else if starts_with "--bpaf-complete-style-" a then Terminated else Failed false
    | _ => Parsed dump_args
    end |}; [|reflexivity].
  intros shell Hs. repeat (apply elem_of_cons in Hs as [-> | Hs]; [reflexivity|]).
  by apply elem_of_nil in Hs.
Defined.

Definition quiet_ops : MainOps screen := {|
  m_set_hook := mret tt; m_load_config _ := mret Config.default; m_init_logging _ _ _ _ := mret true;
  m_log _ _ := mret tt; m_log_config := mret tt; m_remove_semaphore := mret 0;
  m_request_reload := mret 0; m_topology := mret tt; m_load_rules _ := mret tt;
  m_dump _ := mret (Value tt); m_debug _ _ := mret tt; m_getuid := mret 0; m_report := mret tt;
  m_check_singleton := mret None; m_platform_new := mret tt; m_install_signals := mret None; m_set_priority := mret tt;
  m_apply_x3d := mret tt; m_check_disks _ := mret tt; m_start_memstats := mret tt;
  m_run _ := mret None; m_drop_guard := mret tt;
|}.

Definition no_source : dump_source :=
  MkDumpSource (fun _ => None) (fun _ => None) (fun _ => None) (fun _ => None)
    (ds_thread DumpProps.demo_source).
Definition demo_debug : debug_env :=
  MkDebugEnv None (MkCgroupInfo V2 "/sys/fs/cgroup") (inl [inl "/sys/fs/cgroup/a.slice"; inr "gone"])
    "ananicy-rs.service" (Some "0::/system.slice") empty_snapshot.
Definition demo_inputs : main_inputs :=
  MkMainInputs true Config.default None [DWarn "Unknown config key: x"] false
    (MkCpuTopology false EmptyString EmptyString EmptyString "0" 1 false [] [] EmptyString) None
    [(L_INFO, "Loaded 0 rules")] Ipc.Gone
    (MkDumpEnv NameTable_default Rules_new no_source (inl [])) demo_debug.

Lemma stdout_is_the_answer_witness :
  let '(w', r) := main (Hm := console_main_ops (HC := screen_console false) demo_inputs fmt_int quiet_ops)
                    true (fun _ => None) None ["dump"; "types"] blank in
  r = Value tt /\ stdout w' = [Printed "{}"] /\ stderr w' <> [].
Proof.
  pose proof (stdout_is_the_answer (HL := screen_laws false) demo_inputs fmt_int quiet_ops true
    (fun _ => None) None ["dump"; "types"] dump_args blank eq_refl eq_refl eq_refl) as H.
  destruct (main _ _ _ _ _) as [w' r] eqn:E.
  assert (r = Value tt) as -> by (by vm_compute in E; injection E).
  destruct H as (report & Ho & v & Hv & ->). split; [done|]. vm_compute in Hv. simplify_eq.
  split; [exact Ho|]. vm_compute in E. simplify_eq. done.
Defined.

End ReportsProps.
