(* ===== verification/Monitors.v ===== *)
(** * Setting the monitors up and taking them down

    [BpfMonitor::new] of [bpf_monitor.rs] with the build script it depends on,
    [NetlinkMonitor::new] and its [Drop], and the text of the summary at the end
    ([src/monitor.rs]).  libbpf, neli and the kernel are what their calls answer;
    the calls are recorded in order. *)

From stdpp Require Import base list strings numbers.
From Stdlib Require Import ZArith Lia.
From S2P Require Import Prelude RustStr Paths BpfProg CoreFixes Memstats.

#[local] Open Scope Z_scope.

(** ** Building the program *)

Definition get_bpf_arch (target_arch : string) : option string :=
  if String.eqb target_arch "x86_64" then Some "x86"
  else if String.eqb target_arch "aarch64" then Some "arm64"
  else if String.eqb target_arch "loongarch64" then Some "loongarch"
  else if String.eqb target_arch "riscv64" then Some "riscv"
  else None.

(** The arguments of clang; [None] is the panic of an unsupported target. *)
Definition clang_args (target_arch : string) (libbpf : option (list string)) : option (list string) :=
  match get_bpf_arch target_arch with
  | None => None
  | Some arch =>
      Some (["-Ibpf/include"; sapp "-Ibpf/" arch] ++
            match libbpf with Some paths => map (sapp "-I") paths | None => [] end)
  end.

(** [main] of build.rs.  [var] is the environment, [libbpf] what pkg-config finds and
    [build] what libbpf-cargo answers for a source, arguments and a destination; the
    result is the file generated, and [None] a panic. *)
Definition build_main (var : string -> option string) (libbpf : option (list string))
    (build : string -> list string -> path -> bool) : option path :=
  match var "OUT_DIR" with
  | None => None
  | Some dir =>
      let out := push dir "ananicy_cpp.skel.rs" in
      match var "CARGO_CFG_TARGET_ARCH" with
      | None => None
      | Some target_arch =>
          match clang_args target_arch libbpf with
          | None => None
          | Some args => if build "bpf/ananicy_cpp.bpf.c" args out then Some out else None
          end
      end
  end.

(** The file [lib.rs] includes. *)
Definition included_skeleton (out_dir : string) : path := sapp out_dir "/ananicy_cpp.skel.rs".

(** ** Loading it *)

Inductive bpf_call := BSetPrint | BOpen | BSetMinUs (min_us : Z) | BLoad | BAttach.
Inductive bpf_failure := OpenFailed | LoadFailed | AttachFailed.

(** What libbpf answers, and whether the object has a [.rodata] map. *)
Record loader := MkLoader { l_open : bool; l_rodata : bool; l_load : bool; l_attach : bool }.

(** The initialiser of [min_us] in the program. *)
Definition default_min_us : Z := 0.

(** The calls, and the value of [min_us] the attached program runs with. *)
Definition BpfMonitor_new (min_us : option Z) (verbose : bool) (l : loader)
    : list bpf_call * (Z + bpf_failure) :=
  let calls := (if verbose then [BSetPrint] else []) ++ [BOpen] in
  if negb (l_open l) then (calls, inr OpenFailed) else
  let '(calls, value) :=
    match min_us with
    | Some min => if l_rodata l then (calls ++ [BSetMinUs min], min) else (calls, default_min_us)
    | None => (calls, default_min_us)
    end in
  let calls := calls ++ [BLoad] in
  if negb (l_load l) then (calls, inr LoadFailed) else
  let calls := calls ++ [BAttach] in
  if negb (l_attach l) then (calls, inr AttachFailed) else (calls, inl value).

(** ** The netlink socket *)

(** [linux/connector.h] and [linux/cn_proc.h], by the names neli has for them. *)
Inductive ProcCnMcastOp := OpListen | OpIgnore.
Record subscription := MkSubscription { nl_pid : Z; cn_idx : Z; cn_val : Z; cn_op : ProcCnMcastOp }.
Definition CN_IDX_PROC : Z := 1.
Definition CN_VAL_PROC : Z := 1.
Definition proc_message (pid : Z) (op : ProcCnMcastOp) : subscription :=
  MkSubscription pid CN_IDX_PROC CN_VAL_PROC op.

Inductive nl_call :=
| NConnect (pid groups : Z) (ok : bool) | NRecvBuffer (size : Z) | NSend (m : subscription) (ok : bool)
| NClose.

(** Whether connecting, subscribing and unsubscribing succeed; the size of the receive
    buffer is only asked for. *)
Record nl_answers := MkNlAnswers { a_connect : bool; a_listen : bool; a_ignore : bool }.

Definition NetlinkMonitor_new (pid : Z) (a : nl_answers) : list nl_call * bool :=
  if negb (a_connect a) then ([NConnect pid CN_IDX_PROC false], false)
  else
    let calls := [NConnect pid CN_IDX_PROC true; NRecvBuffer (8 * 1024 * 1024);
                  NSend (proc_message pid OpListen) (a_listen a)] in
    if a_listen a then (calls, true) else (calls ++ [NClose], false).

(** [Drop]: a failed message is ignored. *)
Definition NetlinkMonitor_drop (pid : Z) (a : nl_answers) : list nl_call :=
  [NSend (proc_message pid OpIgnore) (a_ignore a); NClose].

(** A monitor from its creation to its drop. *)
Definition monitor_life (pid : Z) (a : nl_answers) : list nl_call :=
  let '(calls, created) := NetlinkMonitor_new pid a in
  if created then calls ++ NetlinkMonitor_drop pid a else calls.

(** ** The summary *)

Definition two_digits (z : Z) : string := sapp (zeros (2 - slen (fmt_uint z))) (fmt_uint z).
Definition six_digits (z : Z) : string := sapp (zeros (6 - slen (fmt_uint z))) (fmt_uint z).

Definition format_elapsed (seconds subsec_micros : Z) : string :=
  concat_all [two_digits (seconds / 3600); ":"; two_digits (seconds mod 3600 / 60); ":";
              two_digits (seconds mod 60); "."; six_digits subsec_micros].

(** ** Properties *)
Module MonitorsProps.

Lemma reports_all h st l :
  map fst (reports h 0 st l) = List.filter (fun i => c_heap (snd i)) l.
Proof.
  revert st. induction l as [|i l IH]; intros st; [done|].
  rewrite reports_cons, map_app, IH. unfold passes. cbn [List.filter Z.eqb].
  by destruct (c_heap (snd i)).
Qed.

(** The interval of [--bpf-min-us] is the one the attached program runs with: it is
    written after the object is opened and before it is loaded, nothing is written
    without the flag, and a program that runs without one reports every event it has
    a buffer for. *)
Theorem interval_as_asked (min_us : option Z) (verbose : bool) (l : loader) (value : Z) :
  snd (BpfMonitor_new min_us verbose l) = inl value ->
  fst (BpfMonitor_new min_us verbose l) =
    (if verbose then [BSetPrint] else []) ++ [BOpen] ++
    (match min_us with Some min => if l_rodata l then [BSetMinUs min] else [] | None => [] end) ++
    [BLoad; BAttach] /\
  (l_rodata l = true -> value = match min_us with Some min => min | None => 0 end) /\
  (min_us = None -> forall h st inv,
     map fst (reports h value st inv) = List.filter (fun i => c_heap (snd i)) inv).
Proof.
  unfold BpfMonitor_new, default_min_us.
  destruct (l_open l), min_us as [min|], (l_rodata l), (l_load l), (l_attach l), verbose; cbn;
    try discriminate; intros [= <-]; (split; [done|]); (split; [done|]); try done;
    intros _; apply reports_all.
Qed.

Lemma interval_as_asked_witness :
  fst (BpfMonitor_new (Some 500) false (MkLoader true true true true)) =
    [BOpen; BSetMinUs 500; BLoad; BAttach].
Proof. apply (interval_as_asked (Some 500) false (MkLoader true true true true) 500). reflexivity. Defined.

(** *** Subscriptions *)

(** The sockets open and the listeners the kernel counts, after some calls. *)
Definition on_call (st : Z * Z) (c : nl_call) : Z * Z :=
  match c with
  | NConnect _ _ true => (fst st + 1, snd st)
  | NSend m true => (fst st, snd st + match cn_op m with OpListen => 1 | OpIgnore => -1 end)
  | NClose => (fst st - 1, snd st)
  | _ => st
  end.
Definition after_calls (calls : list nl_call) : Z * Z := foldl on_call (0, 0) calls.

(** Monitors come one after the other, and leave nothing behind: at no moment is more
    than one socket open or one listener counted, however many times the monitor
    is rebuilt, and between two of them there is none, as long as the messages that
    unsubscribe arrive. *)
Theorem subscriptions_balanced (pid : Z) (lives : list nl_answers) (n : nat) :
  Forall (fun a => a_ignore a = true) lives ->
  let calls := concat (map (monitor_life pid) lives) in
  after_calls calls = (0, 0) /\
  0 <= fst (after_calls (firstn n calls)) <= 1 /\ 0 <= snd (after_calls (firstn n calls)) <= 1.
Proof.
  intros H. cbn zeta. unfold after_calls. revert n.
  induction H as [|a lives Ha _ IH]; intros n; [split; [done|]; destruct n; cbn; lia|].
  cbn [map concat]. destruct (IH 0%nat) as [I1 _].
  assert (Hlife : foldl on_call (0, 0) (monitor_life pid a) = (0, 0) /\
    forall k, 0 <= fst (foldl on_call (0, 0) (firstn k (monitor_life pid a))) <= 1 /\
              0 <= snd (foldl on_call (0, 0) (firstn k (monitor_life pid a))) <= 1).
  { unfold monitor_life, NetlinkMonitor_new, NetlinkMonitor_drop. rewrite Ha.
    destruct (a_connect a), (a_listen a); cbn; (split; [done|]); intros k;
      do 6 (destruct k as [|k]; [cbn; lia|]); cbn; rewrite ?firstn_nil; cbn; lia. }
  destruct Hlife as [Hl Hk]. rewrite foldl_app, Hl, firstn_app, foldl_app. split; [exact I1|].
  destruct (decide (n <= length (monitor_life pid a))%nat) as [Hn|Hn].
  - replace (n - length (monitor_life pid a))%nat with 0%nat by lia. cbn [firstn foldl]. apply Hk.
  - rewrite firstn_all2 by lia. rewrite Hl. apply IH.
Qed.

Lemma subscriptions_balanced_witness :
  after_calls (concat (map (monitor_life 7)
    [MkNlAnswers true true true; MkNlAnswers true false true; MkNlAnswers true true true])) = (0, 0).
Proof.
  apply (subscriptions_balanced 7
    [MkNlAnswers true true true; MkNlAnswers true false true; MkNlAnswers true true true] 0).
  repeat constructor.
Defined.

(** The time of the summary is the time that passed. *)
Lemma elapsed_fields seconds micros :
  0 <= seconds ->
  exists h m s, format_elapsed seconds micros =
      concat_all [two_digits h; ":"; two_digits m; ":"; two_digits s; "."; six_digits micros] /\
    seconds = 3600 * h + 60 * m + s /\ 0 <= m < 60 /\ 0 <= s < 60.
Proof.
  intros H. eexists _, _, _. split; [reflexivity|].
  pose proof (Z.div_mod seconds 3600 ltac:(lia)). pose proof (Z.mod_pos_bound seconds 3600 ltac:(lia)).
  pose proof (Z.div_mod (seconds mod 3600) 60 ltac:(lia)).
  pose proof (Z.mod_pos_bound (seconds mod 3600) 60 ltac:(lia)).
  assert (Hm : seconds mod 60 = (seconds mod 3600) mod 60)
    by (rewrite (Z.mod_mod_divide seconds 3600 60); [done|by exists 60]).
  rewrite Hm. split; [lia|]. split; [|lia]. split; [apply Z.div_pos; lia|apply Z.div_lt_upper_bound; lia].
Qed.

(** The crate is compiled against the skeleton its build script generated: both name
    the same file, for every directory cargo gives, with or without a final slash. *)
Theorem skeleton_included (var : string -> option string) (libbpf : option (list string))
    (build : string -> list string -> path -> bool) (dir : string) (out : path) :
  var "OUT_DIR" = Some dir -> dir <> EmptyString -> build_main var libbpf build = Some out ->
  components out = components (included_skeleton dir) /\
  exists arch args, var "CARGO_CFG_TARGET_ARCH" = Some arch /\ clang_args arch libbpf = Some args /\
    build "bpf/ananicy_cpp.bpf.c" args out = true.
Proof.
  intros Hd Hne. unfold build_main. rewrite Hd.
  destruct (var "CARGO_CFG_TARGET_ARCH") as [arch|] eqn:Ea; [|done].
  destruct (clang_args arch libbpf) as [args|] eqn:Ec; [|done].
  destruct (build _ args _) eqn:Eb; [|done]. intros [= <-]. split; [|eauto 6].
  rewrite components_push by done. unfold included_skeleton, components.
  change "/ananicy_cpp.skel.rs" with (String slash "ananicy_cpp.skel.rs").
  by rewrite absolute_sapp, cur_dir_sep, body_sep, app_assoc.
Qed.

(** Every target the program is built for compiles against its own header. *)
Lemma supported_targets arch args libbpf :
  clang_args arch libbpf = Some args <->
  exists dir, get_bpf_arch arch = Some dir /\
    args = "-Ibpf/include" :: sapp "-Ibpf/" dir ::
           match libbpf with Some paths => map (sapp "-I") paths | None => [] end.
Proof. unfold clang_args. destruct (get_bpf_arch arch); naive_solver. Qed.

Lemma skeleton_included_witness :
  components (push "/tmp/out/" "ananicy_cpp.skel.rs") = components (included_skeleton "/tmp/out/").
Proof.
  apply (skeleton_included
           (fun n => if String.eqb n "OUT_DIR" then Some "/tmp/out/" else Some "x86_64") None (fun _ _ _ => true)
           "/tmp/out/"); [reflexivity|done|reflexivity].
Defined.

End MonitorsProps.
